(* ===== verification/_CoqProject ===== *)
-Q . S2P
Prelude.v
GoValue.v
Store.v
EventBus.v
Crud.v
Tx.v
Reservation.v
RateLimit.v
InputLimits.v
Config.v
Auth.v
Guards.v
Routing.v
Maintenance.v
Projection.v
AdmissionTypes.v
SchedulerHttp.v
AdmissionResources.v
AdmissionPlan.v
AdmissionQuota.v
AdmissionMPS.v
AdmissionImage.v
AdmissionProfiles.v
AdmissionDecode.v
SchedulerRepository.v
Admission.v
Preemption.v
PreemptionHandler.v
SchedulerHandlers.v
PlanReaper.v
WorkloadTypes.v
WorkloadJobs.v
WorkloadDispatch.v
WorkloadConfig.v
WorkloadSubmit.v
Unstructured.v
WorkloadManifest.v
WorkloadText.v
WorkloadInjectors.v
WorkloadStorage.v
WorkloadVolcano.v
ServiceHttp.v
StorageAccess.v
StorageRepository.v
StorageHandlers.v
StorageTransfer.v
StoragePlans.v
Tables.v
StoragePermissions.v
StorageDispatch.v
ServiceProjection.v
PolicyIdentity.v
PolicyRaw.v
PolicyProxy.v
PolicyHandlers.v
PolicySteps.v
PolicyInvariant.v
PolicyDecisions.v
ClusterPolicy.v
PolicyData.v
PolicyRemote.v
OrgIdentity.v
OrgGroups.v
OrgGroupHandlers.v
OrgProjects.v
OrgProjectHandlers.v
OrgService.v
OrgEffects.v
OrgMembers.v
OrgAccess.v
OrgRecords.v
OrgPlans.v
OrgExamples.v
IdentityRepository.v
IdentityAuth.v
IdentityUsers.v
IdentityService.v
IdentitySecurity.v
IdentityTokens.v
IdentityExamples.v
