(* ===== verification/Prelude.v ===== *)
(** * NexusPaas backend: a verification development

    NexusPaas is a multi-tenant platform-as-a-service for GPU workloads: one Go
    binary (src/backend) that runs as any of a dozen services.  The services share
    a platform layer (src/backend/internal/platform): configuration, the guard chain
    of a request, routing, a record store, an event bus with an outbox, generic CRUD
    handlers, transactions, leases and maintenance tasks, projections, a rate
    limiter, input limits and the quota-reservation state machine.  The
    scheduler-quota service (internal/services/schedulerquota) decides what may run:
    it admits or refuses submitted workloads, administers queues and resource plans,
    and preempts running jobs.  The workload service (internal/services/workload)
    takes submissions, asks the scheduler for admission and reservations, keeps
    configuration files, rewrites the manifests of a job for the cluster, dispatches
    them, and follows the job until it ends.  The storage service
    (internal/services/storage) keeps the volumes of groups and projects, who may use
    them, and the transfers between them.  The authorization-policy service
    (internal/services/authorizationpolicy) keeps the policies the guard chain asks
    about.  The organisation and project service (internal/services/orgproject) keeps
    groups, memberships, projects, their members, quotas and plans, which admission
    reads.  The identity service (internal/services/identity) keeps users, passwords,
    sessions and API tokens.  This development models the platform layer on the
    in-memory store and the whole logic of these six services.

    ** Files and the code they model

    Platform (internal/platform, internal/contracts, internal/services/shared):
    - Prelude: results, the state-and-error monad, notations, tactics, hint bases
      and the lemmas on lists and maps the other files share;
    - GoValue: 64-bit integers, binary64 floats, byte strings, the dynamically
      typed [any] of decoded JSON, and the readers of shared/convert.go, text.go,
      maps.go, runtime_socket.go;
    - Store: store.go.  The state [store] is the Go struct: records by resource and
      id, and the high-water mark of [NextID] by resource and prefix;
    - EventBus: events.go.  State [eventbus]: outbox, inboxes, checkpoints;
    - Crud: crud.go, with pathID (routing.go) and domainEventName (app.go).  State
      [app]: a store and an event bus; a handler maps the state and a request to
      the state it leaves and its response;
    - Tx: tx.go, [WithTx] over the in-memory store;
    - Reservation: reservation.go;
    - RateLimit: ratelimit.go.  State [RateLimiter]: a counter per key;
    - InputLimits: input_limits.go and the effective limits of config.go;
    - Config: config.go, [ConfigFromEnv] with its diagnostics and [Validate];
    - Auth: auth.go, api_key.go, jwt.go, revocation.go, dev_token.go,
      identity_auth_client.go, secrets.go: how a request is authenticated;
    - Guards: middleware.go, policy.go, service_client.go: the guard chain, with the
      reader that bounds the body and the decoder that meets the bound (response.go);
    - Routing: routing.go, the registration and choice of routes of app.go and the
      constructors of route rows (services/shared/spec.go);
    - Maintenance: lease_events.go, worker.go, maintenance.go; Projection:
      projection.go, projection_reconcile.go.

    Scheduler-quota service (internal/services/schedulerquota):
    - AdmissionTypes: the records of admission.go and the interface
      [admissionReader] of read_contracts.go, a class of which the store reader is
      an instance; the evaluator and its theorems are stated for any reader;
    - SchedulerHttp: requests, events and small helpers of handler.go;
    - AdmissionResources (admission_resources.go), AdmissionPlan
      (admission_planwindow.go, first half of admission_quota.go), AdmissionQuota
      (rest of admission_quota.go, admission_streaming.go), AdmissionMPS
      (admission_mps.go), AdmissionImage (admission_image.go), AdmissionProfiles
      (admission_accelerator.go, admission_placement.go, admission_network.go,
      normalisation of accelerator_profiles.go), AdmissionDecode
      (admission_decode.go): one check, or one group of checks, each;
    - Admission: admission.go.  The evaluator runs in the monad [adm], whose state
      is the request and the review: the Go code updates both through pointers and
      returns early with what it has written so far;
    - SchedulerRepository: scheduler_quota_repository.go;
    - SchedulerHandlers: the queue, plan and quota routes of handler.go;
    - Preemption, PreemptionHandler: preemption.go and its repository.  The
      workload service and the cluster are the class [preemptionEnv]; the handler
      returns the trace of the external calls it made;
    - PlanReaper: plan_window_reaper.go, a maintenance task.  A cycle is the trace of
      its calls to the class [reaperEnv].

    Workload service (internal/services/workload):
    - WorkloadTypes: job statuses, how the states of the Kubernetes objects of a job
      collapse into one (platform/cluster/status.go), requests and small readers;
    - WorkloadJobs: job_repository.go, status_reconciler.go, runtime_reaper.go,
      idle_reaper.go, eviction_contracts.go, preemption_contracts.go,
      reservation_release.go.  The state is the store with the trace of the calls to
      the cluster and the scheduler;
    - WorkloadDispatch: the dispatcher of dispatcher.go as a maintenance task, for
      any way to prepare manifests and to attach storage, and [service_step]: the
      listings and the writes of the dispatcher and the reconciler as separate steps that
      the reapers, the preemptions and the evictions may come between;
    - WorkloadConfig: handler.go and config_repository.go, the configuration files;
    - WorkloadSubmit: job_submit.go, job_access_handlers.go, stream_credentials.go
      and the clients of the scheduler;
    - Unstructured: the functions of k8s.io/apimachinery the dispatcher edits objects
      with, as the class [UnstructuredLib], the laws the proofs use of them
      ([UnstructuredLaws]) and reference functions that satisfy the laws;
    - WorkloadManifest: the rewriting, refusal and hardening of manifests
      (dispatcher.go), and what the cluster client reads from them
      (platform/cluster/apply.go, volcano.go); WorkloadText: DNS labels and shell quoting, with a parser of
      shell quoting; WorkloadInjectors: dispatcher_placement.go,
      dispatcher_accelerator.go, dispatcher_network.go, dispatcher_streaming.go,
      dispatcher_dra.go; WorkloadStorage: dispatcher_storage.go,
      dispatcher_dataplane.go; WorkloadVolcano: dispatcher_volcano.go,
      [prepareDispatchManifests], and [dispatcher], the dispatcher of
      WorkloadDispatch with all these parts in place.

    Shared by the services that follow:
    - ServiceHttp: a request with the clock reading and the identifiers drawn for it,
      [serve_generic], which serves the rows of a route table no handler is registered for
      (handleRoute of app.go), and frames, which say what a request can have changed; Tables: [table], a
      resource of the store as the finite map it stands for; ServiceProjection:
      projections whose copies are records of the service.

    Storage service (internal/services/storage):
    - StorageAccess: who may do what (helpers.go); StorageRepository:
      storage_repository.go; StorageHandlers: handler.go, helpers.go,
      cache_bindings.go, storage_profiles.go, benchmark_records.go; StorageTransfer:
      fast_transfer_state.go, fast_transfer_dispatch.go; StoragePlans:
      mount_plan_contracts.go, data_plane_contracts.go, build_source_contracts.go;
    - StoragePermissions: the access state as five finite maps and its refinement;
      StorageDispatch: the dispatcher's client (storage_mount_client.go) composed with
      the contract it asks.

    Authorization-policy service (internal/services/authorizationpolicy):
    - PolicyIdentity: identity_projection.go, helpers.go and the repository of the
      copies; PolicyRaw: permissions.go, permission_policy.go, seed.go,
      raw_permission_repository.go; PolicyProxy, PolicyHandlers:
      authorization_policy_repository.go, policies.go, assignments.go, roles.go,
      services.go, seed_data.go; PolicySteps, PolicyInvariant: the steps all requests
      are made of and what they preserve; PolicyDecisions: histories of requests;
    - ClusterPolicy: namespaces, usage and policy data of platform/cluster; PolicyData:
      policy_data_sync.go; PolicyRemote: platform/policy_remote.go against the handler
      of the service.

    Organisation and project service (internal/services/orgproject).  A handler is a
    computation [org] on the application that answers early, goes on, or panics:
    - OrgIdentity: identity_projection.go and the users and administrators of
      group_helpers.go, with [observes], the meaning of a question that first brings
      the copies up to date; OrgGroups: org_project_group_gpu_repository.go;
      OrgGroupHandlers: handler.go, group_helpers.go; OrgProjects:
      project_repository.go; OrgProjectHandlers: project_handlers.go,
      project_helpers.go, plan_binding_contracts.go; OrgService: [Register], the
      routes, and who is entitled to them;
    - OrgEffects: the resources each route can touch; OrgMembers: records filed under
      two names, and memberships as a map; OrgAccess, OrgRecords, OrgPlans: roles,
      quotas, deletions and plans, composed with the admission of the scheduler;
      OrgExamples: a small organisation the theorems are applied to.

    Identity service (internal/services/identity).  A handler is a computation [idm] on
    the application, the denylist and the LDAP directory; what a request draws at random
    belongs to the request:
    - IdentityRepository: handler.go, helpers.go, principal_repository.go,
      auth_repository.go and the hashes of platform/secrets.go; IdentityAuth: auth.go,
      captcha.go, api_tokens.go, cleanup.go; IdentityUsers: users.go, ldap.go,
      internal_read_contracts.go, oidc.go;
    - IdentityService: [Register], the routes, the [footprint] of a route, which is the
      writes it may make for its caller, and the proof that every route keeps to it;
      IdentitySecurity: histories of requests; IdentityTokens: credentials that work and
      checks that agree, composed with Auth; IdentityExamples: a small deployment with
      concrete encodings.

    ** What the theorems show

    - Requests: a request reaches a handler only when every guard its route asks for
      let it pass, the routes between services included, and its body is read up to the
      bound; identity headers of the client have no effect; a validated
      production configuration serves no unverified request; authentication accepts
      exactly the listed credentials; a malformed environment makes validation fail;
      the most specific route is the one that serves.
    - Admission: whatever the reader reports, an admitted submit has a project, a
      plan in force, access and an allowed queue; it fits the plan and user quotas
      measured by an independent definition of usage; the memory it declares covers what
      its plain manifests ask for by an independent count of bytes; its GPU model, images, MPS sharing and streaming rate
      are within policy; the handler writes and announces only what was admitted.
    - Preemption: victims are eligible, sufficient, bounded in number, and no
      smaller set would do; the order of preference is a stable sort; priority and
      demand come from the stored job, not from the caller; external effects are
      exactly those of confirmed victims, in order, up to the first failure; a
      record is always closed, and a retry with the same key is inert.
    - Queues and plans: over any sequence of requests every queue a plan lists
      exists; the cascade of a deletion is characterised record by record, and the
      transactional cascade is the plain one.
    - The plan window reaper and admission agree on which plans are in force, up to
      the grace period; it cleans up a job only after marking it evicted, once, and
      deals with every job of a project whose plan lapsed.
    - Submission: a job is filed only after the scheduler admitted it and its
      reservation was committed; whatever fails later releases the reservation; a
      retry with the same key files nothing and returns the first job.
    - Jobs: over any interleaving of dispatches, reconciliations, reaping, evictions and
      preemptions a terminal job that no run in progress has listed stays as it is, and a
      reservation is released only for jobs that ended; dispatch follows priority and gives
      up after its bound of attempts.
    - Manifests: everything the dispatcher sends to the cluster is free of host
      access and privileges and has its service account token removed, by the keys of the
      Kubernetes API and, plainly written, as the cluster client decodes it; it carries
      the identity of its job and its deadline does not exceed the limit; storage
      plans are mounted as planned; the script that stages data is read by the shell
      as the commands meant; generated names are DNS labels; device claims replace
      device requests.
    - Configuration files: every write was by a member of the project or an
      administrator, and versions never change.
    - Reservations only move forward, and a subscriber sees each advance once.
    - Storage: over any history the permission in force is that of five abstract maps
      ([permissions_refine]), each request changes them only as its caller may
      ([access_authorized]), the rows of the route table without a handler apart; the
      volumes in the plan of the dispatcher are those the storage service permits
      ([dispatched_mounts_permitted], [mount_plan_exact]); transfers move forward only ([transfers_forward]).
    - Policies: over any history of requests the decision point allows exactly the
      tuples of the abstract policy set ([decisions_refine_policies]), so does the
      guard chain ([guards_follow_policies]) and, over HTTP, every other service
      ([remote_decision_agrees]) that the guards in front of the question accept; only administrators change policies; the start of a
      process changes only the policies of static administrators ([bootstrap_exact]);
      rules, assignments and memberships never dangle ([proxy_access_sound]); the
      policy data of the cluster says what the copies say, for windows and references
      without the texts that part them ([policy_data_published]).
    - Organisation: a request changes groups, memberships, projects, members, quotas,
      claims or plans only for who is entitled to the route ([org_writes_entitled], which
      also bounds what the rows without a handler write); by the handlers, memberships refine a map on which administrators of a group act within their
      group ([memberships_refined]) and only the admin panel makes administrators
      ([admins_made_by_panel]); the role in a project has a closed form
      ([project_role_resolved]) and admission admits exactly the users with a role
      ([submit_access_agrees]); quotas and plans that were set are the ones admission
      enforces ([quota_enforced], [plan_bound], [plan_cleared]); a deleted project
      leaves no row behind ([project_deleted_completely]); pages are exact below the
      overflow ([page_exact]).
    - Identity: over any history without requests of administrators nobody becomes one, the
      rows of the route table without a handler included ([admins_appointed]); a new session belongs to a user whose password, refresh token
      or provider login the request carried ([sessions_earned]); a lock holds until its
      end ([lockout]); a refresh token is good once ([refresh_once]) and a session ends
      with its logout ([logout_final]); the platform and the identity service agree on a
      session ([session_checks_agree]); a new API token authorises until it expires
      ([created_token_works]); who registered can log in ([registered_can_log_in]).
    - Store: a representation invariant over all histories; identifiers are fresh
      and never reused, also after deletions.  Event bus: consumption is exactly
      once per consumer, lag is exact below the outbox limit, redaction is complete
      but for one dynamic type.  Leases: two workers never run the same task at
      once.  Projections: each event is applied once, dead letters included after
      replay.  Rate limiter: of the calls in a window exactly the first [limit]
      pass, budgets are separate, and a client cannot choose its own address.  CRUD:
      creation is all or nothing at its boundary.
    Theorems that are not numbered record where the code and its documents, or its
    intent, part: [redaction_skips_typed_lists], [negative_replicas_lower_floor],
    [volcano_tasks_escape_floor], [project_mps_forbidden_masked],
    [review_persist_first_wins], [gpu_demand_masks_cpu], [revoked_token_revives],
    [stream_budget_overflow], [stale_dispatch_revives],
    [failed_pod_masks_running_job], [runtime_limit_overflow],
    [evict_needs_static_key], [commit_crosses_projects], [config_moves_project],
    [submit_as_another_user], [idempotency_key_poisoned], [retries_from_body],
    [cancel_files_command], [stream_ttl_overflow], [denied_kind_masked],
    [case_variant_passes], [volcano_version_escapes], [deadline_variant_wins],
    [job_version_uncapped], [claim_templates_collide], [second_mount_writable],
    [gang_size_panics], [stage_in_labels_collide], [batch_writes_other_group],
    [project_manager_takes_foreign_volume], [generic_post_gives_permission],
    [generic_patch_makes_admin], [guest_role_divides],
    [generic_password_reset_creates_user], [generic_settings_unread], [joined_ids_collide],
    [cache_bindings_overwrite], [assignment_to_unknown_role],
    [rename_clears_description], [separator_grants_other_tuple],
    [prefix_of_other_project], [comma_reference_adds_entry],
    [quoted_window_for_cluster_only], [remote_trims_blanks], [huge_page_panics],
    [unbinding_leaves_plan], [member_by_username_has_no_role],
    [deleted_group_owns_projects], [no_key_not_found], [disabled_user_joins],
    [logout_enables_user], [stranger_changes_password], [renamed_to_root],
    [page_overflow], [denylist_error_accepted].

    ** Conventions, fuel and bounds

    - [int] arithmetic that the properties depend on wraps at 64 bits ([i64]);
      float64 arithmetic is IEEE binary64.  Hypotheses such as [in_i64] say where a
      statement needs an absence of overflow.
    - The clock ([time.Now], one reading per request) and random identifiers are
      arguments of the definitions.  Go iterates over a map in no fixed order; the
      model takes the order of the finite map, which can show only in which of
      several faults is reported and in the rounding of a sum of floats.  [sort.Slice]
      is taken as a stable sort.
    - Errors of library calls are carried without their own text where the code
      wraps them ("%w").  A panic of the Go runtime is the value [None].
    - Every method of the store, the bus and the limiter holds its lock for its
      whole body, so a concurrent history is a sequence of these steps.  A handler that
      reads and then writes is one step; for the dispatcher and the reconciler, which write
      long after they listed, the two are apart (WorkloadDispatch).
    - [NextID] probes with fuel one more than the number of stored records: the
      candidates are distinct, so one of them is free (Store proves that it returns).
      [trim_loop], [name_part_loop] and [collapse_loop] have the length of the text as
      fuel; WorkloadText proves that the last one ends with no two dashes in a row.
      [storageMountItems] follows text that decodes to text: its nesting bound is an
      argument, and the theorems hold for every bound.  The victim search recurses on
      the list and tries sizes up to the bound of the request.
    - Library code is a parameter: class [GoLib] (encoding/json, fmt, strconv, time,
      sha256 and Kubernetes quantities), [NetLib] (addresses), [YamlLib] (the YAML
      decoder), [EnvLib] (parsing of the environment), [AuthLib] (hashes, signatures,
      the remote identity service), [UnstructuredLib] with [UnstructuredLaws],
      [PolicyLib] and [RemoteLib] with [RemoteLaws] (typed bodies of the policy service),
      [JsonLaws] (a decoded object survives encoding), [SecretLib] with [SecretLaws]
      (hexadecimal text and key derivation), [OidcLib] (the provider's token endpoint)
      and [ldapDirectory] (the directory).  No property assumes more of
      them than its hypotheses name; the witnesses instantiate them with concrete
      functions.  Case mapping is ASCII; DNS labels also have the two characters outside
      it that unicode.ToLower makes letters of them.
    - Other services are arguments: the scheduler for the workload service, the
      workload service and the cluster for the scheduler.  StorageDispatch,
      PolicyRemote, OrgAccess, OrgRecords, OrgPlans and IdentityTokens put the modelled
      service in the place of the argument.

    ** What is not modelled

    The PostgreSQL and Redis back ends, the Kubernetes client, HTTP clients and
    servers, telemetry and route wiring are input and output: where a modelled
    function calls them the model takes their answers as arguments, and the
    in-memory branch of a store-dependent function is the one translated.  Not reached:
    the scheduler's background workers (reservation_drift.go, gpu_reservation_drift.go,
    priority_class_sync.go, resource_quota_reconciler.go) and its profile routes; the
    image registry, request and notification services; the LDAP client, the proxies to
    the OIDC provider and the picture of a captcha; the usage, resource
    hours, audit, dashboard and cluster-read services, which are collectors and read
    models; the IDE, media and proxy services, which are front ends of other systems;
    and the part of the cluster layer that creates and deletes objects. *)

From stdpp Require Import base gmap strings list fin_maps.
From Stdlib Require Import ZArith Lia.

(** ** Results and the state-and-error monad

    Go functions return a value and an [error]; functions that also write
    through a pointer argument leave that write behind when they return early
    with an error.  [result] is the first shape and [stm] the second: the state
    survives a failure. *)

Inductive result (E A : Type) : Type :=
| Ok (a : A)
| Err (e : E).
Arguments Ok {E A} _.
Arguments Err {E A} _.

Definition res_bind {E A B} (c : result E A) (k : A -> result E B) : result E B :=
  match c with Ok a => k a | Err e => Err e end.

Definition stm (S E A : Type) : Type := S -> S * result E A.

Definition stm_ret {S E A} (a : A) : stm S E A := fun s => (s, Ok a).
Definition stm_fail {S E A} (e : E) : stm S E A := fun s => (s, Err e).
Definition stm_get {S E} : stm S E S := fun s => (s, Ok s).
Definition stm_modify {S E} (f : S -> S) : stm S E unit := fun s => (f s, Ok tt).
Definition stm_lift {S E A} (r : result E A) : stm S E A := fun s => (s, r).
Definition stm_bind {S E A B} (c : stm S E A) (k : A -> stm S E B) : stm S E B :=
  fun s => match c s with
           | (s', Ok a) => k a s'
           | (s', Err e) => (s', Err e)
           end.

Declare Scope go_scope.
Delimit Scope go_scope with go.
Notation "x <-- c ;; k" := (stm_bind c (fun x => k))
  (at level 60, c at next level, right associativity) : go_scope.
Notation "c ;;; k" := (stm_bind c (fun _ => k))
  (at level 60, right associativity) : go_scope.
Notation "x <-? c ;; k" := (res_bind c (fun x => k))
  (at level 60, c at next level, right associativity) : go_scope.
Notation "c ;;? k" := (res_bind c (fun _ => k))
  (at level 60, right associativity) : go_scope.

(** [guard_else b e] is Go's [if !b { return e }]. *)
Definition guard_else {E} (b : bool) (e : E) : result E unit :=
  if b then Ok tt else Err e.

(** ** Tactics *)

(** Case analysis on every test and match in the goal or a hypothesis. *)
Ltac split_ifs :=
  repeat match goal with
  | |- context [ if ?b then _ else _ ] => destruct b eqn:?
  | |- context [ match ?x with _ => _ end ] => destruct x eqn:?
  end.

Ltac split_ifs_in H :=
  repeat match type of H with
  | context [ if ?b then _ else _ ] => destruct b eqn:?
  | context [ match ?x with _ => _ end ] => destruct x eqn:?
  end.

(** Inverts a successful bind: the computation ran, and its continuation did. *)
Ltac inv_ok H :=
  let E := fresh "E" in
  match type of H with
  | res_bind ?c _ = Ok _ => destruct c eqn:E; cbn [res_bind] in H; [|discriminate H]
  | stm_bind ?c _ ?s = _ =>
      unfold stm_bind in H at 1; destruct (c s) as [? [?|?]] eqn:E; [|discriminate H]
  end.

(** Boolean tests to propositions, wherever they occur. *)
Ltac to_prop :=
  repeat match goal with
  | H : andb _ _ = true |- _ => apply andb_true_iff in H as [? ?]
  | H : orb _ _ = false |- _ => apply orb_false_iff in H as [? ?]
  | H : negb _ = true |- _ => apply negb_true_iff in H
  | H : negb _ = false |- _ => apply negb_false_iff in H
  | H : Z.leb _ _ = true |- _ => apply Z.leb_le in H
  | H : Z.leb _ _ = false |- _ => apply Z.leb_gt in H
  | H : Z.ltb _ _ = true |- _ => apply Z.ltb_lt in H
  | H : Z.ltb _ _ = false |- _ => apply Z.ltb_ge in H
  | H : Z.eqb _ _ = true |- _ => apply Z.eqb_eq in H
  | H : Z.eqb _ _ = false |- _ => apply Z.eqb_neq in H
  | H : String.eqb _ _ = true |- _ => apply String.eqb_eq in H
  | H : String.eqb _ _ = false |- _ => apply String.eqb_neq in H
  | H : bool_decide _ = true |- _ => apply bool_decide_eq_true in H
  | H : bool_decide _ = false |- _ => apply bool_decide_eq_false in H
  end.

(** ** Generic lemmas *)

Create HintDb nexus.
Create Rewrite HintDb nexus_rw.

Lemma res_bind_ok {E A B} (c : result E A) (k : A -> result E B) b :
  res_bind c k = Ok b <-> exists a, c = Ok a /\ k a = Ok b.
Proof.
  destruct c as [a|e]; cbn; split.
  - intros H; exists a; split; [reflexivity|exact H].
  - intros (a' & [= ->] & H); exact H.
  - discriminate.
  - intros (a' & [=] & _).
Qed.

Lemma guard_else_ok {E} b (e : E) u : guard_else b e = Ok u <-> b = true.
Proof. destruct b, u; cbn; split; congruence. Qed.

Lemma stm_bind_ok {S E A B} (c : stm S E A) (k : A -> stm S E B) s s' b :
  stm_bind c k s = (s', Ok b) <-> exists s1 a, c s = (s1, Ok a) /\ k a s1 = (s', Ok b).
Proof.
  unfold stm_bind. destruct (c s) as [s1 [a|e]]; split.
  - intros H; exists s1, a; split; [reflexivity|exact H].
  - intros (s2 & a' & [= -> ->] & H); exact H.
  - discriminate.
  - intros (s2 & a' & [=] & _).
Qed.

Lemma forallb_Forall {A} (f : A -> bool) l : forallb f l = true <-> Forall (fun x => f x = true) l.
Proof. rewrite List.forallb_forall, Forall_forall. setoid_rewrite list_elem_of_In. reflexivity. Qed.

Lemma existsb_Exists {A} (f : A -> bool) l : existsb f l = true <-> exists x, x ∈ l /\ f x = true.
Proof. rewrite List.existsb_exists. setoid_rewrite list_elem_of_In. reflexivity. Qed.

Lemma find_spec {A} (f : A -> bool) l x : List.find f l = Some x -> x ∈ l /\ f x = true.
Proof. rewrite list_elem_of_In. apply List.find_some. Qed.

Lemma find_none_spec {A} (f : A -> bool) l : List.find f l = None <-> Forall (fun x => f x = false) l.
Proof.
  split.
  - intros H. apply Forall_forall. intros x Hx%list_elem_of_In. eapply List.find_none; eauto.
  - induction 1 as [|x l Hx _ IH]; cbn; [reflexivity|]. by rewrite Hx.
Qed.

#[export] Hint Resolve Forall_nil_2 Forall_cons_2 : nexus.
