(* ===== verification/GoValue.v ===== *)
(** * Go values: machine integers, float64, byte strings and [any]

    What the modelled services use of the Go language and its standard library,
    and the helpers of [internal/services/shared] that read loosely typed maps.

    - [int] and [int64] are [Z] with explicit 64-bit wrap-around ([i64]);
    - [float64] is IEEE binary64, [spec_float] at precision 53 and exponent
      bound 1024, so rounding, infinities and NaN behave as in Go;
    - a [string] is its bytes; case mapping is the ASCII one, white space is
      every code point [unicode.IsSpace] accepts, in its UTF-8 encoding;
    - [any] has one constructor per dynamic type the code's type switches name;
    - library functions whose text processing no property depends on
      ([encoding/json], [fmt], [time.Parse], Kubernetes quantities) are the
      operations of the class [GoLib]. *)

From stdpp Require Import base gmap strings list fin_maps.
From Stdlib Require Import ZArith Lia Ascii SpecFloat DecimalString DecimalN DecimalFacts.
From S2P Require Import Prelude.
Local Open Scope Z_scope.

(** ** 64-bit integers *)

Definition two63 : Z := 9223372036854775808.
Definition two64 : Z := 18446744073709551616.

(** Two's complement wrap-around of [int] / [int64] arithmetic. *)
Definition i64 (z : Z) : Z := (z + two63) mod two64 - two63.
Definition in_i64 (z : Z) : Prop := - two63 <= z < two63.

Lemma i64_id z : in_i64 z -> i64 z = z.
Proof. unfold in_i64, i64, two63, two64. intros. rewrite Z.mod_small by lia. lia. Qed.

Lemma i64_range z : in_i64 (i64 z).
Proof.
  unfold in_i64, i64, two63, two64.
  pose proof (Z.mod_pos_bound (z + 9223372036854775808) 18446744073709551616). lia.
Qed.

#[export] Hint Resolve i64_range : nexus.
#[export] Hint Rewrite i64_id using (unfold in_i64, two63 in *; lia) : nexus_rw.

(** ** float64 *)

Abbreviation float64 := spec_float.

Definition f64_add : float64 -> float64 -> float64 := SFadd 53 1024.
Definition f64_mul : float64 -> float64 -> float64 := SFmul 53 1024.
Definition f64_div : float64 -> float64 -> float64 := SFdiv 53 1024.
(** [float64(n)] *)
Definition f64_of_int (z : Z) : float64 := binary_normalize 53 1024 z 0 false.
Definition f64_0 : float64 := S754_zero false.
Definition f64_100 : float64 := f64_of_int 100.
Definition f64_1024 : float64 := f64_of_int 1024.
(** The float64 nearest [1e-9]. *)
Definition f64_1e9inv : float64 := f64_div (f64_of_int 1) (f64_of_int 1000000000).

(** [a < b], [a <= b], [a > b], [a >= b]: all false on NaN. *)
Definition f64_lt (a b : float64) : bool := SFltb a b.
Definition f64_le (a b : float64) : bool := SFleb a b.
Definition f64_gt (a b : float64) : bool := SFltb b a.
Definition f64_ge (a b : float64) : bool := SFleb b a.
Definition f64_eq (a b : float64) : bool := SFeqb a b.

(** [math.IsNaN], [math.IsInf(x, 0)] *)
Definition f64_is_nan (a : float64) : bool := match a with S754_nan => true | _ => false end.
Definition f64_is_inf (a : float64) : bool := match a with S754_infinity _ => true | _ => false end.

(** Truncation of a finite float toward zero. *)
Definition f64_trunc (a : float64) : Z :=
  match a with
  | S754_finite s m e =>
      let v := if 0 <=? e then Z.pos m * 2 ^ e else Z.pos m / 2 ^ (- e) in
      if s then - v else v
  | _ => 0
  end.

(** [int(f)]: Go leaves out-of-range conversions to the implementation; amd64
    yields the most negative integer. *)
Definition f64_to_int (a : float64) : Z :=
  match a with
  | S754_nan | S754_infinity _ => - two63
  | _ => let v := f64_trunc a in
         if (- two63 <=? v) && (v <? two63) then v else - two63
  end.

(** [math.Trunc(f) == f] on a finite float. *)
Definition f64_is_integral (a : float64) : bool :=
  match a with
  | S754_zero _ => true
  | S754_finite _ m e => (0 <=? e) || (Z.pos m mod 2 ^ (- e) =? 0)
  | _ => false
  end.

(** [math.Max] *)
Definition f64_max (a b : float64) : float64 :=
  match a, b with
  | S754_infinity false, _ | _, S754_infinity false => S754_infinity false
  | S754_nan, _ | _, S754_nan => S754_nan
  | S754_zero true, S754_zero false => S754_zero false
  | S754_zero false, S754_zero true => S754_zero false
  | _, _ => if f64_gt a b then a else b
  end.

Lemma f64_to_int_range f : in_i64 (f64_to_int f).
Proof.
  unfold f64_to_int, in_i64. assert (-two63 < two63) by (unfold two63; lia).
  destruct f; split_ifs; to_prop; lia.
Qed.

Lemma f64_gt_ge a b : f64_gt a b = true -> f64_ge a b = true.
Proof.
  unfold f64_gt, f64_ge, SFltb, SFleb. by destruct (SFcompare b a) as [[]|].
Qed.

Lemma SFcompare_refl_eq a b : SFcompare a b = Some Eq -> SFcompare b a = Some Eq.
Proof.
  destruct a as [sa|sa| |sa ma ea], b as [sb|sb| |sb mb eb]; cbn; try congruence;
    try (destruct sa, sb; congruence).
  destruct sa, sb; try congruence.
  all: rewrite (Z.compare_antisym ea eb); destruct (ea ?= eb) eqn:He; cbn; try congruence.
  all: change (Pos.compare_cont Eq ma mb) with (Pos.compare ma mb);
       change (Pos.compare_cont Eq mb ma) with (Pos.compare mb ma);
       rewrite (Pos.compare_antisym ma mb); destruct (Pos.compare ma mb); cbn; congruence.
Qed.

(** ** Strings *)

Definition bytes_of (s : string) : list ascii := String.list_ascii_of_string s.
Definition of_bytes (l : list ascii) : string := String.string_of_list_ascii l.

Lemma of_bytes_of s : of_bytes (bytes_of s) = s.
Proof. apply String.string_of_list_ascii_of_string. Qed.
Lemma bytes_of_of l : bytes_of (of_bytes l) = l.
Proof. apply String.list_ascii_of_string_of_list_ascii. Qed.

Definition byte (n : nat) : ascii := ascii_of_nat n.

(** The UTF-8 encodings of the code points [unicode.IsSpace] accepts. *)
Definition space_encodings : list (list ascii) :=
  map (map byte)
    [[9]; [10]; [11]; [12]; [13]; [32]; [194;133]; [194;160]; [225;154;128];
     [226;128;128]; [226;128;129]; [226;128;130]; [226;128;131]; [226;128;132];
     [226;128;133]; [226;128;134]; [226;128;135]; [226;128;136]; [226;128;137];
     [226;128;138]; [226;128;168]; [226;128;169]; [226;128;175]; [226;129;159];
     [227;128;128]]%nat.

Fixpoint strip_prefix (p l : list ascii) : option (list ascii) :=
  match p, l with
  | [], _ => Some l
  | c :: p', d :: l' => if Ascii.eqb c d then strip_prefix p' l' else None
  | _ :: _, [] => None
  end.

Fixpoint strip_any (ps : list (list ascii)) (l : list ascii) : option (list ascii) :=
  match ps with
  | [] => None
  | p :: ps' => match strip_prefix p l with Some l' => Some l' | None => strip_any ps' l end
  end.

Fixpoint trim_loop (ps : list (list ascii)) (fuel : nat) (l : list ascii) : list ascii :=
  match fuel with
  | O => l
  | S n => match strip_any ps l with Some l' => trim_loop ps n l' | None => l end
  end.

Definition trim_left (l : list ascii) : list ascii := trim_loop space_encodings (length l) l.
Definition trim_right (l : list ascii) : list ascii :=
  rev (trim_loop (map (@rev ascii) space_encodings) (length l) (rev l)).

(** [strings.TrimSpace] *)
Definition TrimSpace (s : string) : string := of_bytes (trim_right (trim_left (bytes_of s))).

Definition lower_ascii (c : ascii) : ascii :=
  let n := nat_of_ascii c in
  if (65 <=? n)%nat && (n <=? 90)%nat then ascii_of_nat (n + 32) else c.

(** [strings.ToLower], [strings.EqualFold] *)
Definition ToLower (s : string) : string := of_bytes (map lower_ascii (bytes_of s)).
Definition EqualFold (a b : string) : bool := String.eqb (ToLower a) (ToLower b).

(** [strings.HasPrefix], [strings.TrimPrefix], [strings.TrimSuffix] *)
Definition HasPrefix (s p : string) : bool :=
  match strip_prefix (bytes_of p) (bytes_of s) with Some _ => true | None => false end.
Definition TrimPrefix (s p : string) : string :=
  match strip_prefix (bytes_of p) (bytes_of s) with Some r => of_bytes r | None => s end.
Definition TrimSuffix (s p : string) : string :=
  match strip_prefix (rev (bytes_of p)) (rev (bytes_of s)) with
  | Some r => of_bytes (rev r) | None => s end.

Fixpoint contains_bytes (sub l : list ascii) : bool :=
  match strip_prefix sub l with
  | Some _ => true
  | None => match l with [] => false | _ :: l' => contains_bytes sub l' end
  end.

(** [strings.Contains] *)
Definition Contains (s sub : string) : bool := contains_bytes (bytes_of sub) (bytes_of s).

Fixpoint last_index_byte (c : ascii) (l : list ascii) (i acc : Z) : Z :=
  match l with
  | [] => acc
  | d :: l' => last_index_byte c l' (i + 1) (if Ascii.eqb c d then i else acc)
  end.

(** [strings.LastIndex] of a one-byte pattern. *)
Definition LastIndexByte (s : string) (c : ascii) : Z := last_index_byte c (bytes_of s) 0 (-1).

Definition str_empty (s : string) : bool := String.eqb s "".

(** *** Laws of the string functions *)

Lemma strip_prefix_app p r : strip_prefix p (p ++ r) = Some r.
Proof. induction p as [|c p IH]; cbn; [reflexivity|]. by rewrite Ascii.eqb_refl. Qed.

Lemma strip_prefix_spec p l r : strip_prefix p l = Some r <-> l = p ++ r.
Proof.
  split; [|intros ->; apply strip_prefix_app].
  revert l. induction p as [|c p IH]; intros [|d l]; cbn; try congruence.
  destruct (Ascii.eqb_spec c d) as [->|]; [|congruence]. intros H. f_equal. by apply IH.
Qed.

Lemma strip_any_none ps l : strip_any ps l = None <-> Forall (fun p => strip_prefix p l = None) ps.
Proof.
  induction ps as [|p ps IH]; cbn.
  - split; [constructor|done].
  - destruct (strip_prefix p l) eqn:E; rewrite Forall_cons; [|rewrite IH]; intuition congruence.
Qed.

Lemma strip_any_some ps l r : strip_any ps l = Some r -> exists p, p ∈ ps /\ l = p ++ r.
Proof.
  induction ps as [|p ps IH]; cbn; [done|].
  destruct (strip_prefix p l) eqn:E.
  - intros [= <-]. exists p. split; [left|by apply strip_prefix_spec].
  - intros (q & ? & ?)%IH. exists q. split; [by right|done].
Qed.

(** Enough fuel: what is left has no further white space to strip. *)
Lemma trim_loop_done ps n l :
  Forall (fun p => p ≠ []) ps -> (length l <= n)%nat -> strip_any ps (trim_loop ps n l) = None.
Proof.
  intros Hps. revert l. induction n as [|n IH]; intros l Hn; cbn.
  - destruct l; [|cbn in Hn; lia]. apply strip_any_none.
    eapply Forall_impl; [exact Hps|]. by intros [|c p].
  - destruct (strip_any ps l) as [r|] eqn:E; [|done].
    apply IH. apply strip_any_some in E as (p & Hp & ->).
    rewrite Forall_forall in Hps. specialize (Hps _ Hp). destruct p; [done|].
    cbn in Hn. rewrite length_app in Hn. lia.
Qed.

Lemma trim_loop_fix ps n l : strip_any ps l = None -> trim_loop ps n l = l.
Proof. destruct n; cbn; [done|]. by intros ->. Qed.

Lemma trim_loop_suffix ps n l : exists p, l = p ++ trim_loop ps n l.
Proof.
  revert l. induction n as [|n IH]; intros l; cbn; [by exists []|].
  destruct (strip_any ps l) as [r|] eqn:E; [|by exists []].
  apply strip_any_some in E as (p & _ & ->). destruct (IH r) as [q Hq].
  exists (p ++ q). by rewrite <- app_assoc, <- Hq.
Qed.

Lemma space_encodings_nonempty : Forall (fun p => p ≠ []) space_encodings.
Proof. repeat constructor; discriminate. Qed.
Lemma rev_space_encodings_nonempty : Forall (fun p => p ≠ []) (map (@rev ascii) space_encodings).
Proof. repeat constructor; discriminate. Qed.

(** A string is trimmed when neither end is white space. *)
Definition trimmed_bytes (l : list ascii) : Prop :=
  strip_any space_encodings l = None /\ strip_any (map (@rev ascii) space_encodings) (rev l) = None.

Lemma strip_any_none_prefix ps l p : strip_any ps (l ++ p) = None -> strip_any ps l = None.
Proof.
  rewrite !strip_any_none. intros H. eapply Forall_impl; [exact H|]. intros q Hq.
  destruct (strip_prefix q l) as [r|] eqn:E; [|done].
  apply strip_prefix_spec in E as ->. rewrite <- app_assoc, strip_prefix_app in Hq. done.
Qed.

Lemma trim_trimmed l : trimmed_bytes (trim_right (trim_left l)).
Proof.
  unfold trimmed_bytes, trim_right. split.
  - destruct (trim_loop_suffix (map (@rev ascii) space_encodings)
      (length (trim_left l)) (rev (trim_left l))) as [p Hp].
    apply (f_equal (@rev ascii)) in Hp. rewrite rev_involutive, rev_app_distr in Hp.
    eapply strip_any_none_prefix. rewrite <- Hp.
    apply trim_loop_done; [apply space_encodings_nonempty|done].
  - rewrite rev_involutive. apply trim_loop_done; [apply rev_space_encodings_nonempty|].
    by rewrite length_rev.
Qed.

Lemma trim_fix l : trimmed_bytes l -> trim_right (trim_left l) = l.
Proof.
  intros [Hl Hr]. unfold trim_right, trim_left.
  rewrite (trim_loop_fix _ _ _ Hl), (trim_loop_fix _ _ _ Hr). apply rev_involutive.
Qed.

Lemma TrimSpace_idem s : TrimSpace (TrimSpace s) = TrimSpace s.
Proof. unfold TrimSpace. rewrite bytes_of_of. f_equal. apply trim_fix, trim_trimmed. Qed.

#[export] Hint Rewrite TrimSpace_idem : nexus_rw.

(** Trimming leaves a string alone when its ends are not white space. *)
Definition Trimmed (s : string) : Prop := trimmed_bytes (bytes_of s).
Lemma TrimSpace_fix s : Trimmed s -> TrimSpace s = s.
Proof. intros H. unfold TrimSpace. rewrite trim_fix by done. apply of_bytes_of. Qed.
Lemma TrimSpace_Trimmed s : Trimmed (TrimSpace s).
Proof. unfold Trimmed, TrimSpace. rewrite bytes_of_of. apply trim_trimmed. Qed.

Lemma lower_ascii_idem c : lower_ascii (lower_ascii c) = lower_ascii c.
Proof. destruct c as [[] [] [] [] [] [] [] []]; reflexivity. Qed.

Lemma ToLower_idem s : ToLower (ToLower s) = ToLower s.
Proof.
  unfold ToLower. rewrite bytes_of_of. f_equal. rewrite map_map.
  apply map_ext, lower_ascii_idem.
Qed.

Lemma EqualFold_refl s : EqualFold s s = true.
Proof. apply String.eqb_refl. Qed.
Lemma EqualFold_sym a b : EqualFold a b = EqualFold b a.
Proof. apply String.eqb_sym. Qed.
Lemma EqualFold_trans a b c : EqualFold a b = true -> EqualFold b c = true -> EqualFold a c = true.
Proof. unfold EqualFold. rewrite !String.eqb_eq. congruence. Qed.

Lemma bytes_of_app a b : bytes_of (a +:+ b) = bytes_of a ++ bytes_of b.
Proof.
  induction a as [|c a IH]; [done|]. exact (f_equal (cons c) IH).
Qed.

Lemma bytes_of_inj a b : bytes_of a = bytes_of b -> a = b.
Proof. intros H. rewrite <- (of_bytes_of a), <- (of_bytes_of b). by rewrite H. Qed.

Lemma HasPrefix_app p s : HasPrefix (p +:+ s) p = true.
Proof. unfold HasPrefix. by rewrite bytes_of_app, strip_prefix_app. Qed.

Lemma TrimPrefix_app p s : TrimPrefix (p +:+ s) p = s.
Proof. unfold TrimPrefix. rewrite bytes_of_app, strip_prefix_app. apply of_bytes_of. Qed.

(** ** Decimal formatting *)

Fixpoint pad_zeros (k : nat) (d : Decimal.uint) : Decimal.uint :=
  match k with O => d | S k' => Decimal.D0 (pad_zeros k' d) end.

(** [fmt.Sprintf("%0*d", width, n)] for [n >= 0], and [Sprintf("%d", n)] at width 0. *)
Definition fmt_nat (width : Z) (n : Z) : string :=
  let d := N.to_uint (Z.to_N n) in
  NilEmpty.string_of_uint (pad_zeros (Z.to_nat width - Decimal.nb_digits d) d).

(** The same verb on any integer: the sign counts toward the width. *)
Definition fmt_int (width : Z) (n : Z) : string :=
  if 0 <=? n then fmt_nat width n else "-" +:+ fmt_nat (width - 1) (- n).

Lemma of_uint_pad k d : N.of_uint (pad_zeros k d) = N.of_uint d.
Proof.
  induction k as [|k IH]; cbn; [done|]. rewrite <- IH.
  unfold N.of_uint. done.
Qed.

Lemma fmt_nat_inj w n m : 0 <= n -> 0 <= m -> fmt_nat w n = fmt_nat w m -> n = m.
Proof.
  unfold fmt_nat. intros Hn Hm H.
  apply (f_equal NilEmpty.uint_of_string) in H. rewrite !NilEmpty.usu in H.
  injection H as H. apply (f_equal N.of_uint) in H.
  rewrite !of_uint_pad, !DecimalN.Unsigned.of_to in H. lia.
Qed.

(** ** Dynamically typed values *)

(** [VTime] carries the instant (nanoseconds since the Unix epoch) and the text
    of the value's [String] method; [VNumber] is [json.Number]. *)
Inductive any : Type :=
| VNil
| VBool (b : bool)
| VInt (z : Z)
| VInt32 (z : Z)
| VInt64 (z : Z)
| VFloat32 (f : float64)
| VFloat64 (f : float64)
| VNumber (s : string)
| VString (s : string)
| VTime (t : Z) (repr : string)
| VList (l : list any)
| VStrings (l : list string)
| VMaps (l : list (gmap string any))
| VMap (m : gmap string any)
| VStringMap (m : gmap string string).

Abbreviation object := (gmap string any).

(** Reading a key of a Go map yields the element type's zero value when it is
    absent; [nil] for [any]. *)
Definition mget (m : object) (k : string) : any := default VNil (m !! k).

(** Comma-ok type assertions; the zero value stands in when they fail. *)
Definition as_map (v : any) : option object := match v with VMap m => Some m | _ => None end.
Definition as_list (v : any) : option (list any) := match v with VList l => Some l | _ => None end.
Definition as_bool (v : any) : option bool := match v with VBool b => Some b | _ => None end.
Definition as_str (v : any) : option string := match v with VString s => Some s | _ => None end.
(** [m, _ := v.(map[string]any)] then reading [m]. *)
Definition map_of (v : any) : object := default ∅ (as_map v).

(** ** Library operations left abstract *)

(** A parsed Kubernetes quantity: [Value()] and [AsApproximateFloat64()]. *)
Record quantity := Quantity { q_Value : Z; q_AsApproximateFloat64 : float64 }.

Class GoLib := {
  parse_quantity : string -> option quantity;      (* resource.ParseQuantity *)
  parse_float : string -> option float64;          (* strconv.ParseFloat(_, 64) *)
  parse_int64 : string -> option Z;                (* json.Number.Int64 *)
  parse_rfc3339 : string -> option Z;              (* time.Parse(time.RFC3339, _) *)
  format_rfc3339 : Z -> string;                    (* Time.Format(time.RFC3339) *)
  time_string : Z -> string;                       (* Time.String *)
  unmarshal_object : string -> option object;      (* json.Unmarshal into map[string]any *)
  unmarshal_objects : string -> option (list object); (* ... into []map[string]any *)
  unmarshal_strings : string -> option (list string); (* ... into []string *)
  marshal : any -> option string;                  (* json.Marshal *)
  sprint : any -> string;                          (* fmt.Sprint *)
  sprintf : string -> list any -> string;          (* fmt.Sprintf *)
  sha256_hex : string -> string                    (* hex of sha256.Sum256 *)
}.

(** ** Helpers of internal/services/shared *)

Section Shared.
Context `{GoLib}.

(** A type switch over the values of the keys, in order: the first key that
    yields a result wins. *)
Fixpoint first_key {A} (f : any -> option A) (data : object) (keys : list string) : option A :=
  match keys with
  | [] => None
  | k :: ks => match f (mget data k) with Some a => Some a | None => first_key f data ks end
  end.

Definition nonempty (s : string) : option string := if str_empty s then None else Some s.

Definition text_of (v : any) : option string :=
  match v with
  | VString s | VNumber s | VTime _ s => nonempty (TrimSpace s)
  | _ => None
  end.

Definition TextValue (data : object) (keys : list string) : string :=
  default "" (first_key text_of data keys).

Definition int_of (v : any) : option Z :=
  match v with
  | VInt z | VInt64 z => Some z
  | VFloat64 f => Some (f64_to_int f)
  | VNumber s => parse_int64 s
  | _ => None
  end.

Definition IntValue (data : object) (keys : list string) : Z :=
  default 0 (first_key int_of data keys).

Definition number_of (v : any) : option float64 :=
  match v with
  | VFloat64 f => Some f
  | VInt z => Some (f64_of_int z)
  | _ => None
  end.

Definition NumberValue (data : object) (keys : list string) : float64 :=
  default f64_0 (first_key number_of data keys).

Definition bool_of (v : any) : option bool :=
  match v with
  | VBool b => Some b
  | VString s => Some (EqualFold (TrimSpace s) "true")
  | _ => None
  end.

Definition BoolValue (data : object) (keys : list string) : bool :=
  default false (first_key bool_of data keys).

(** [fmt.Sprint] of a string is the string. *)
Definition sprint_item (v : any) : string :=
  match v with VString s => s | _ => sprint v end.

Definition StringSlice (v : any) : option (list string) :=
  match v with
  | VStrings l => Some l
  | VList l => Some (filter (fun t => t ≠ "") (map (fun x => TrimSpace (sprint_item x)) l))
  | _ => None
  end.

Fixpoint FirstNonEmpty (values : list string) : string :=
  match values with
  | [] => ""
  | v :: vs => if str_empty v then FirstNonEmpty vs else v
  end.

Fixpoint FirstNonBlank (values : list string) : string :=
  match values with
  | [] => ""
  | v :: vs => let trimmed := TrimSpace v in if str_empty trimmed then FirstNonBlank vs else trimmed
  end.

Fixpoint MapValue (data : object) (keys : list string) : object :=
  match keys with
  | [] => ∅
  | k :: ks => match mget data k with
               | VMap m => m
               | VString raw => if str_empty (TrimSpace raw) then MapValue data ks
                                else match unmarshal_object raw with Some m => m | None => MapValue data ks end
               | _ => MapValue data ks
               end
  end.

Definition RecordID (id : string) (data : object) : string :=
  FirstNonEmpty [id; TextValue data ["id"; "ID"]].

(** mapItems, listOfMaps and containersFromSpec: the objects of a [[]any]. *)
Definition mapItems (v : any) : list object :=
  match v with VList l => omap as_map l | _ => [] end.

Definition containerRuntimeSocketPaths : list string :=
  ["/var/run/docker.sock"; "/run/docker.sock"; "/var/run/containerd/containerd.sock";
   "/run/containerd/containerd.sock"; "/var/run/crio/crio.sock"; "/run/crio/crio.sock"].

Definition volume_host_path (volume : object) : string :=
  TrimSpace (TextValue (map_of (mget volume "hostPath")) ["path"; "Path"]).

Definition RuntimeSocketHostPath (podSpec : object) : option string :=
  List.find (fun path => bool_decide (path ∈ containerRuntimeSocketPaths))
    (map volume_host_path (mapItems (mget podSpec "volumes"))).

(** firstPresent, firstValue, stringField, getInt64 of admission_decode.go. *)
Fixpoint firstPresent (data : object) (keys : list string) : option any :=
  match keys with
  | [] => None
  | k :: ks => match data !! k with Some v => Some v | None => firstPresent data ks end
  end.

Definition firstValue (data : object) (keys : list string) : any := default VNil (firstPresent data keys).

Definition stringField (data : object) (key : string) : string :=
  TrimSpace (default "" (as_str (mget data key))).

Definition getInt64 (v : any) (fallback : Z) : Z :=
  match v with
  | VFloat64 f => f64_to_int f
  | VInt64 z | VInt z => z
  | _ => fallback
  end.

(** *** Laws *)

Lemma FirstNonEmpty_in vs : FirstNonEmpty vs ≠ "" -> FirstNonEmpty vs ∈ vs.
Proof.
  induction vs as [|v vs IH]; cbn; [done|]. unfold str_empty.
  destruct (String.eqb_spec v "") as [->|]; intros; [right; auto|left].
Qed.

Lemma TextValue_Trimmed data keys : TrimSpace (TextValue data keys) = TextValue data keys.
Proof.
  unfold TextValue. induction keys as [|k ks IH]; cbn; [done|].
  destruct (text_of (mget data k)) eqn:E; [cbn|exact IH].
  assert (exists s', s = TrimSpace s') as [s' ->]; [|apply TrimSpace_idem].
  destruct (mget data k); cbn in E; try done; unfold nonempty in E;
    split_ifs_in E; simplify_eq; eauto.
Qed.

Lemma RuntimeSocketHostPath_spec podSpec :
  RuntimeSocketHostPath podSpec = None <->
  Forall (fun v => volume_host_path v ∉ containerRuntimeSocketPaths) (mapItems (mget podSpec "volumes")).
Proof.
  unfold RuntimeSocketHostPath. rewrite find_none_spec, Forall_fmap.
  apply Forall_iff. intros v. cbn. apply bool_decide_eq_false.
Qed.

End Shared.

#[export] Hint Rewrite @TextValue_Trimmed : nexus_rw.
