(* ===== verification/Store.v ===== *)
(** * The in-memory record store (internal/platform/store.go)

    [Store] keeps, per resource, the records by id, and the high-water mark of
    the identifiers [NextID] handed out.  Every method holds the store's lock for
    its whole body, so each is one atomic step: a function from a store to a
    store.  [time.Now()] and the random identifier of [newID()] are arguments. *)

From stdpp Require Import base gmap strings list fin_maps fin_map_dom sorting.
From Stdlib Require Import ZArith Lia Ascii.
From S2P Require Import Prelude GoValue.
Local Open Scope Z_scope.

(** contracts.Record[map[string]any] *)
Record record := Record_ {
  rec_ID : string;
  rec_Data : object;
  rec_Version : Z;
  rec_CreatedAt : Z;
  rec_UpdatedAt : Z
}.

Record store := Store_ {
  st_data : gmap string (gmap string record);
  st_seq : gmap string Z
}.

(** CreateConflictError *)
Record create_conflict := CreateConflict { cc_Resource : string; cc_ID : string }.

Definition NewStore : store := Store_ ∅ ∅.

(** [s.data[resource]]: a missing resource reads as an empty map. *)
Definition bucket (s : store) (resource : string) : gmap string record :=
  default ∅ (st_data s !! resource).

Definition set_bucket (s : store) (resource : string) (m : gmap string record) : store :=
  Store_ (<[resource := m]> (st_data s)) (st_seq s).

(** ** NextID *)

(** [fmt.Sscanf(text, "%d", &n)]: white space but no newline, an optional sign,
    one digit or more, within int64; what follows is ignored. *)
Definition sscanf_spaces : list (list ascii) :=
  List.filter (fun e => negb (bool_decide (e = [byte 10]))) space_encodings.

Definition digit_value (c : ascii) : option Z :=
  let n := nat_of_ascii c in
  if (48 <=? n)%nat && (n <=? 57)%nat then Some (Z.of_nat n - 48) else None.

Fixpoint scan_digits (l : list ascii) (acc : option Z) : option Z :=
  match l with
  | c :: l' => match digit_value c with
               | Some d => scan_digits l' (Some (default 0 acc * 10 + d))
               | None => acc
               end
  | [] => acc
  end.

Definition sscanf_d (text : string) : option Z :=
  let l := trim_loop sscanf_spaces (String.length text) (bytes_of text) in
  let checked z := if (- two63 <=? z) && (z <? two63) then Some z else None in
  match l with
  | c :: l' =>
      if Ascii.eqb c "-" then scan_digits l' None ≫= (fun z => checked (- z))
      else if Ascii.eqb c "+" then scan_digits l' None ≫= checked
      else scan_digits l None ≫= checked
  | [] => None
  end.

(** The number an existing id contributes to the scan. *)
Definition id_number (prefix id : string) : option Z :=
  if HasPrefix id prefix then sscanf_d (TrimPrefix id prefix) else None.

Definition scan_max (prefix : string) (m : gmap string record) (start : Z) : Z :=
  foldr Z.max start (omap (id_number prefix) (map fst (map_to_list m))).

Definition seq_key (resource prefix : string) : string := resource +:+ "|" +:+ prefix.

Definition next_start (s : store) (resource prefix : string) (base : Z) : Z :=
  Z.max (scan_max prefix (bucket s resource) (i64 (base - 1)))
        (default 0 (st_seq s !! seq_key resource prefix)).

Definition format_id (prefix : string) (width n : Z) : string :=
  if 0 <? width then prefix +:+ fmt_int width n else prefix +:+ fmt_int 0 n.

(** The [for] loop: increment until the candidate is free. *)
Fixpoint next_loop (fuel : nat) (m : gmap string record) (prefix : string) (width maxN : Z)
    : option (Z * string) :=
  match fuel with
  | O => None
  | S k =>
      let n := i64 (maxN + 1) in
      let id := format_id prefix width n in
      match m !! id with
      | None => Some (n, id)
      | Some _ => next_loop k m prefix width n
      end
  end.

Definition NextID (s : store) (resource prefix : string) (base width : Z) : option (string * store) :=
  let m := bucket s resource in
  match next_loop (S (size m)) m prefix width (next_start s resource prefix base) with
  | Some (n, id) => Some (id, Store_ (st_data s) (<[seq_key resource prefix := n]> (st_seq s)))
  | None => None
  end.

(** ** Create, Get, List, Update, Delete *)

Definition Create (s : store) (resource : string) (data : object) (newID : string) (now : Z)
    : store * result create_conflict record :=
  let given := default "" (as_str (mget data "id")) in
  let id := if str_empty given then newID else given in
  let data' := if str_empty given then <["id" := VString id]> data else data in
  let m := bucket s resource in
  match m !! id with
  | Some _ => (set_bucket s resource m, Err (CreateConflict resource id))
  | None =>
      let r := Record_ id data' 1 now now in
      (set_bucket s resource (<[id := r]> m), Ok r)
  end.

Definition Get (s : store) (resource id : string) : option record := bucket s resource !! id.

Definition created_before (a b : record) : Prop := rec_CreatedAt a <= rec_CreatedAt b.
#[export] Instance created_before_dec : RelDecision created_before.
Proof. intros a b. unfold created_before. apply _. Defined.
#[export] Instance created_before_total : Total created_before.
Proof. intros a b. unfold created_before. lia. Qed.
#[export] Instance created_before_trans : Transitive created_before.
Proof. intros a b c. unfold created_before. lia. Qed.

(** [sort.Slice] orders by creation time; records created at the same instant
    come in the (unspecified) order of the map iteration. *)
Definition List_ (s : store) (resource : string) : list record :=
  merge_sort created_before (map snd (map_to_list (bucket s resource))).

Definition Update (s : store) (resource id : string) (data : object) (now : Z)
    : store * option record :=
  match bucket s resource !! id with
  | None => (s, None)
  | Some current =>
      let next := Record_ (rec_ID current) (data ∪ rec_Data current) (rec_Version current + 1)
                    (rec_CreatedAt current) now in
      (set_bucket s resource (<[id := next]> (bucket s resource)), Some next)
  end.

Definition Delete (s : store) (resource id : string) : store * bool :=
  match bucket s resource !! id with
  | None => (s, false)
  | Some _ => (set_bucket s resource (delete id (bucket s resource)), true)
  end.

(** ** Histories *)

Inductive store_op :=
| OpCreate (resource : string) (data : object) (newID : string) (now : Z)
| OpUpdate (resource id : string) (data : object) (now : Z)
| OpDelete (resource id : string)
| OpNextID (resource prefix : string) (base width : Z).

Definition run_op (s : store) (o : store_op) : store :=
  match o with
  | OpCreate r d i t => fst (Create s r d i t)
  | OpUpdate r i d t => fst (Update s r i d t)
  | OpDelete r i => fst (Delete s r i)
  | OpNextID r p b w => match NextID s r p b w with Some (_, s') => s' | None => s end
  end.

Definition run_ops (s : store) (os : list store_op) : store := fold_left run_op os s.

(** ** Reading after writing *)

Lemma bucket_set_eq s r m : bucket (set_bucket s r m) r = m.
Proof. unfold bucket, set_bucket. cbn. by rewrite lookup_insert_eq. Qed.

Lemma bucket_set_ne s r r' m : r ≠ r' -> bucket (set_bucket s r m) r' = bucket s r'.
Proof. intros. unfold bucket, set_bucket. cbn. by rewrite lookup_insert_ne. Qed.

Lemma Get_set_insert s r id rc r' id' :
  Get (set_bucket s r (<[id := rc]> (bucket s r))) r' id' =
  if decide (r = r' /\ id = id') then Some rc else Get s r' id'.
Proof.
  unfold Get. destruct (decide (r = r')) as [<-|Hr].
  - rewrite bucket_set_eq, lookup_insert. repeat case_decide; naive_solver.
  - rewrite bucket_set_ne by done. case_decide; naive_solver.
Qed.

Lemma Get_set_delete s r id r' id' :
  Get (set_bucket s r (delete id (bucket s r))) r' id' =
  if decide (r = r' /\ id = id') then None else Get s r' id'.
Proof.
  unfold Get. destruct (decide (r = r')) as [<-|Hr].
  - rewrite bucket_set_eq, lookup_delete. repeat case_decide; naive_solver.
  - rewrite bucket_set_ne by done. case_decide; naive_solver.
Qed.

Lemma Get_set_same s r r' id : Get (set_bucket s r (bucket s r)) r' id = Get s r' id.
Proof.
  unfold Get. destruct (decide (r = r')) as [<-|]; [by rewrite bucket_set_eq|by rewrite bucket_set_ne].
Qed.

#[export] Hint Rewrite Get_set_insert Get_set_delete Get_set_same : nexus_rw.

(** The id under which [Create] files a record. *)
Definition create_id (data : object) (newID : string) : string :=
  let given := default "" (as_str (mget data "id")) in if str_empty given then newID else given.

Lemma Create_ok s r d i t s' rc :
  Create s r d i t = (s', Ok rc) ->
  Get s r (create_id d i) = None /\ rec_ID rc = create_id d i /\ rec_Version rc = 1 /\
  rec_CreatedAt rc = t /\ rec_UpdatedAt rc = t /\
  (forall k, k ≠ "id" -> rec_Data rc !! k = d !! k) /\
  (forall r' id', Get s' r' id' = if decide (r = r' /\ create_id d i = id') then Some rc else Get s r' id').
Proof.
  unfold Create. fold (create_id d i). unfold Get at 1.
  destruct (bucket s r !! create_id d i) eqn:E; [done|]. intros [= <- <-]. cbn.
  do 5 (split; [done|]). split.
  - intros k Hk. destruct (str_empty _); [|done]. by rewrite lookup_insert_ne.
  - intros. apply Get_set_insert.
Qed.

Lemma Create_data_id s r d i t s' rc :
  Create s r d i t = (s', Ok rc) -> rec_Data rc !! "id" = Some (VString (create_id d i)).
Proof.
  unfold Create. fold (create_id d i). destruct (bucket s r !! create_id d i); [done|].
  intros [= _ <-]. cbn [rec_Data]. unfold create_id.
  destruct (str_empty (default "" (as_str (mget d "id")))) eqn:Es; [apply lookup_insert_eq|].
  unfold mget in *. by destruct (d !! "id") as [[]|].
Qed.

Lemma Create_err s r d i t s' e :
  Create s r d i t = (s', Err e) ->
  e = CreateConflict r (create_id d i) /\ is_Some (Get s r (create_id d i)) /\
  (forall r' id', Get s' r' id' = Get s r' id').
Proof.
  unfold Create. fold (create_id d i). unfold Get at 1.
  destruct (bucket s r !! create_id d i) eqn:E; [|done]. intros [= <- <-].
  split; [done|]. split; [eauto|]. intros. apply Get_set_same.
Qed.

Lemma Create_seq s r d i t : st_seq (fst (Create s r d i t)) = st_seq s.
Proof. unfold Create. by case_match. Qed.
Lemma Update_seq s r i d t : st_seq (fst (Update s r i d t)) = st_seq s.
Proof. unfold Update. by case_match. Qed.
Lemma Delete_seq s r i : st_seq (fst (Delete s r i)) = st_seq s.
Proof. unfold Delete. by case_match. Qed.

(** [Create] either files a fresh record or reports a conflict and changes
    nothing: on success the id was free, the record is version 1, carries the
    payload (with the id filled in) and is what [Get] then returns, while every
    other record is untouched; on conflict the id was taken and every record is
    as before. *)
Theorem create_spec s r d i t :
  match Create s r d i t with
  | (s', Ok rc) =>
      Get s r (rec_ID rc) = None /\ Get s' r (rec_ID rc) = Some rc /\ rec_Version rc = 1 /\
      rec_CreatedAt rc = t /\ rec_UpdatedAt rc = t /\
      (forall k, k ≠ "id" -> rec_Data rc !! k = d !! k) /\
      (forall r' id', (r', id') ≠ (r, rec_ID rc) -> Get s' r' id' = Get s r' id')
  | (s', Err e) =>
      is_Some (Get s (cc_Resource e) (cc_ID e)) /\ cc_Resource e = r /\
      (forall r' id', Get s' r' id' = Get s r' id')
  end.
Proof.
  destruct (Create s r d i t) as [s' [rc|e]] eqn:E.
  - apply Create_ok in E as (H1 & H2 & H3 & H4 & H5 & H6 & H7). rewrite H2.
    do 1 (split; [done|]). split; [rewrite H7; case_decide; naive_solver|].
    do 4 (split; [done|]). intros r' id' Hne. rewrite H7. case_decide; naive_solver.
  - apply Create_err in E as (-> & H2 & H3). naive_solver.
Qed.

Lemma Update_cases s r i d t :
  match Update s r i d t, Get s r i with
  | (s', Some rc), Some old =>
      (forall k, rec_Data rc !! k = match d !! k with Some v => Some v | None => rec_Data old !! k end) /\
      rec_ID rc = rec_ID old /\ rec_CreatedAt rc = rec_CreatedAt old /\ rec_UpdatedAt rc = t /\
      rec_Version rc = rec_Version old + 1 /\
      (forall r' id', Get s' r' id' = if decide (r = r' /\ i = id') then Some rc else Get s r' id')
  | (s', None), None => s' = s
  | _, _ => False
  end.
Proof.
  unfold Update, Get. destruct (bucket s r !! i) as [old|] eqn:E; [|done]. cbn.
  split; [|do 4 (split; [done|]); intros; apply Get_set_insert].
  intros k. rewrite lookup_union. by destruct (d !! k), (rec_Data old !! k).
Qed.

(** [Update] of an existing record merges the new fields over the old ones,
    keeps its id and creation time, increments its version by one and touches no
    other record; of a missing record it reports failure and changes nothing. *)
Theorem update_spec s r i d t :
  match Update s r i d t, Get s r i with
  | (s', Some rc), Some old =>
      (forall k, rec_Data rc !! k = match d !! k with Some v => Some v | None => rec_Data old !! k end) /\
      rec_ID rc = rec_ID old /\ rec_CreatedAt rc = rec_CreatedAt old /\ rec_UpdatedAt rc = t /\
      rec_Version rc = rec_Version old + 1 /\
      (forall r' id', Get s' r' id' = if decide (r = r' /\ i = id') then Some rc else Get s r' id')
  | (s', None), None => s' = s
  | _, _ => False
  end.
Proof. exact (Update_cases s r i d t). Qed.

(** ** Well-formedness *)

(** Every record is filed under its own id, has been written at least once, and
    was not created after its last update nor updated after [now]. *)
Definition record_wf (now : Z) (id : string) (rc : record) : Prop :=
  rec_ID rc = id /\ 1 <= rec_Version rc /\ rec_CreatedAt rc <= rec_UpdatedAt rc <= now.

Definition store_wf (now : Z) (s : store) : Prop :=
  forall r id rc, Get s r id = Some rc -> record_wf now id rc.

Definition op_time (o : store_op) : option Z :=
  match o with OpCreate _ _ _ t | OpUpdate _ _ _ t => Some t | _ => None end.

(** The clock readings of a history do not go back. *)
Fixpoint clock_ok (now : Z) (os : list store_op) : Prop :=
  match os with
  | [] => True
  | o :: os' => let t := default now (op_time o) in now <= t /\ clock_ok t os'
  end.

Fixpoint clock_end (now : Z) (os : list store_op) : Z :=
  match os with [] => now | o :: os' => clock_end (default now (op_time o)) os' end.

Lemma record_wf_mono now now' id rc : now <= now' -> record_wf now id rc -> record_wf now' id rc.
Proof. unfold record_wf. intros. intuition lia. Qed.

Lemma NextID_data s r p b w id s' : NextID s r p b w = Some (id, s') -> st_data s' = st_data s.
Proof. unfold NextID. case_match; [|done]. case_match. by intros [= <- <-]. Qed.

Lemma run_op_wf now s o :
  store_wf now s -> now <= default now (op_time o) -> store_wf (default now (op_time o)) (run_op s o).
Proof.
  intros Hwf Ht r id rc.
  assert (forall r id rc, Get s r id = Some rc -> record_wf (default now (op_time o)) id rc) as Hold
    by (intros; eapply record_wf_mono; eauto).
  destruct o as [r0 d i t|r0 i d t|r0 i|r0 p b w]; cbn in *.
  - destruct (Create s r0 d i t) as [s' [rc'|e]] eqn:E; cbn.
    + apply Create_ok in E as (_ & H2 & H3 & H4 & H5 & _ & H7). rewrite H7. case_decide as Hd; [|eauto].
      intros [= <-]. destruct Hd as [_ <-]. split; [done|]. lia.
    + apply Create_err in E as (_ & _ & H). rewrite H. eauto.
  - pose proof (Update_cases s r0 i d t) as H. destruct (Update s r0 i d t) as [s' [rc'|]] eqn:E; cbn in *.
    + destruct (Get s r0 i) as [old|] eqn:Eo; [|done]. destruct H as (_ & H1 & H2 & H3 & H4 & H5).
      rewrite H5. case_decide as Hd; [|eauto]. intros [= <-]. destruct Hd as [<- <-].
      destruct (Hwf _ _ _ Eo) as (Ha & Hb & Hc). split; [congruence|]. lia.
    + destruct (Get s r0 i); [done|]. subst s'. eauto.
  - unfold Delete. fold (Get s r0 i). destruct (Get s r0 i); cbn; [|eauto].
    rewrite Get_set_delete. case_decide; [done|eauto].
  - destruct (NextID s r0 p b w) as [[id' s']|] eqn:E; [|eauto].
    unfold Get, bucket. rewrite (NextID_data _ _ _ _ _ _ _ E). apply Hold.
Qed.

(** The store invariant: started empty and driven by any sequence of
    operations whose clock does not go back, the store files every record under
    its own id, with a version of at least one and a creation time no later than
    its last update. *)
Theorem store_invariant os now :
  clock_ok now os -> store_wf (clock_end now os) (run_ops NewStore os).
Proof.
  assert (store_wf now NewStore) as H by (intros r id rc; unfold Get, bucket; cbn; done).
  revert H. generalize NewStore. revert now. unfold run_ops.
  induction os as [|o os IH]; intros now s Hwf; cbn; [done|].
  intros [Ht Hos]. apply IH; [|done]. by apply run_op_wf.
Qed.

(** ** Listing *)

Lemma List_Permutation s r : List_ s r ≡ₚ map snd (map_to_list (bucket s r)).
Proof. apply merge_sort_Permutation. Qed.

Lemma elem_of_List s r rc : rc ∈ List_ s r <-> exists id, Get s r id = Some rc.
Proof.
  rewrite List_Permutation, list_elem_of_fmap. unfold Get. split.
  - intros ([id rc'] & -> & H%elem_of_map_to_list). by exists id.
  - intros [id H]. exists (id, rc). split; [done|]. by apply elem_of_map_to_list.
Qed.

(** [List] returns exactly the records of the resource, each once, ordered by
    creation time. *)
Theorem list_spec s r :
  List_ s r ≡ₚ map snd (map_to_list (bucket s r)) /\ StronglySorted created_before (List_ s r) /\
  (forall rc, rc ∈ List_ s r <-> exists id, Get s r id = Some rc).
Proof.
  split; [apply List_Permutation|]. split; [apply StronglySorted_merge_sort; apply _|].
  apply elem_of_List.
Qed.

(** ** Identifier allocation *)

Lemma next_loop_some fuel m p w k n id :
  next_loop fuel m p w k = Some (n, id) ->
  0 <= k -> k + Z.of_nat fuel < two63 ->
  k < n <= k + Z.of_nat fuel /\ id = format_id p w n /\ m !! id = None.
Proof.
  revert k. induction fuel as [|fuel IH]; intros k; cbn [next_loop]; [done|]. intros H Hk Hf.
  rewrite i64_id in H by (unfold in_i64, two63 in *; lia).
  destruct (m !! format_id p w (k + 1)) eqn:E.
  - apply IH in H as (? & ? & ?); [|lia..]. split; [lia|done].
  - simplify_eq. split; [lia|done].
Qed.

Lemma next_loop_none fuel m p w k :
  next_loop fuel m p w k = None -> 0 <= k -> k + Z.of_nat fuel < two63 ->
  Forall (fun n => is_Some (m !! format_id p w n)) (seqZ (k + 1) (Z.of_nat fuel)).
Proof.
  revert k. induction fuel as [|fuel IH]; intros k H Hk Hf; cbn [next_loop] in H; [constructor|].
  rewrite i64_id in H by (unfold in_i64, two63 in *; lia).
  destruct (m !! format_id p w (k + 1)) eqn:E; [|done].
  rewrite seqZ_cons by lia. constructor; [eauto|].
  replace (Z.succ (k + 1)) with (k + 1 + 1) by lia.
  replace (Z.pred (Z.of_nat (S fuel))) with (Z.of_nat fuel) by lia.
  apply IH; [done|lia..].
Qed.

Lemma append_inj p a b : p +:+ a = p +:+ b -> a = b.
Proof. induction p as [|c p IH]; cbn; [done|]. intros [= H]. auto. Qed.

Lemma format_id_inj p w n m : 0 <= n -> 0 <= m -> format_id p w n = format_id p w m -> n = m.
Proof.
  unfold format_id, fmt_int. intros Hn Hm.
  rewrite !(proj2 (Z.leb_le _ _)) by lia.
  destruct (0 <? w); intros H%append_inj; eauto using fmt_nat_inj.
Qed.

(** Distinct numbers give distinct ids, so [S (size m)] candidates cannot all be
    taken: the loop's fuel is enough. *)
Lemma next_loop_total m p w k :
  0 <= k -> k + Z.of_nat (size m) + 1 < two63 -> next_loop (S (size m)) m p w k ≠ None.
Proof.
  intros Hk Hf H. apply next_loop_none in H; [|lia..].
  set (l := format_id p w <$> seqZ (k + 1) (Z.of_nat (S (size m)))).
  assert (NoDup l) as Hnd.
  { apply NoDup_fmap_2_strong; [|apply NoDup_seqZ].
    intros x y Hx%elem_of_seqZ Hy%elem_of_seqZ. apply format_id_inj; lia. }
  assert ((list_to_set l : gset string) ⊆ dom m) as Hsub.
  { intros x Hx%elem_of_list_to_set. apply list_elem_of_fmap in Hx as (n & -> & Hn).
    apply elem_of_dom. by eapply Forall_forall in H. }
  apply subseteq_size in Hsub. rewrite size_list_to_set, size_dom in Hsub by done.
  unfold l in Hsub. rewrite length_fmap, length_seqZ in Hsub. lia.
Qed.

Lemma foldr_max_ub start l : start <= foldr Z.max start l /\ Forall (fun z => z <= foldr Z.max start l) l.
Proof.
  induction l as [|z l [H1 H2]]; cbn; [split; [lia|constructor]|].
  split; [lia|]. constructor; [lia|]. eapply Forall_impl; [exact H2|]. cbn. lia.
Qed.

Lemma scan_max_ub p m start id rc n :
  m !! id = Some rc -> id_number p id = Some n -> n <= scan_max p m start.
Proof.
  intros Hid Hn. unfold scan_max.
  destruct (foldr_max_ub start (omap (id_number p) (map fst (map_to_list m)))) as [_ H].
  rewrite Forall_forall in H. apply H. apply list_elem_of_omap. exists id. split; [|done].
  apply list_elem_of_fmap. exists (id, rc). split; [done|]. by apply elem_of_map_to_list.
Qed.

(** A key's high-water mark. *)
Definition mark (s : store) (k : string) : Z := default 0 (st_seq s !! k).

(** The next allocation for a key stays clear of integer overflow. *)
Definition alloc_ok (s : store) (r p : string) (b : Z) : Prop :=
  0 <= next_start s r p b /\ next_start s r p b + Z.of_nat (size (bucket s r)) + 1 < two63.

Lemma NextID_alloc s r p b w :
  alloc_ok s r p b ->
  exists n id s', NextID s r p b w = Some (id, s') /\ id = format_id p w n /\
    Get s r id = None /\ st_data s' = st_data s /\ st_seq s' = <[seq_key r p := n]> (st_seq s) /\
    mark s (seq_key r p) < n /\ 0 <= n /\
    (forall id' rc n', Get s r id' = Some rc -> id_number p id' = Some n' -> n' < n).
Proof.
  intros [Hlo Hhi]. unfold NextID.
  destruct (next_loop _ _ _ _ _) as [[n id]|] eqn:E; [|by apply next_loop_total in E].
  apply next_loop_some in E as (Hn & -> & Hfree); [|lia..].
  exists n, (format_id p w n). eexists. split; [reflexivity|]. split; [done|]. split; [done|].
  split; [done|]. split; [done|]. unfold next_start, mark in *.
  split; [lia|]. split; [lia|]. intros id' rc n' Hg Hnum.
  pose proof (scan_max_ub _ _ (i64 (b - 1)) _ _ _ Hg Hnum). lia.
Qed.

(** Away from integer overflow [NextID] terminates with an identifier that no
    record of the resource has; its number is larger than every number already
    used with that prefix and than the retained high-water mark, which moves to
    it; records are untouched. *)
Theorem next_id_fresh s r p b w :
  alloc_ok s r p b ->
  exists n id s', NextID s r p b w = Some (id, s') /\ id = format_id p w n /\
    Get s r id = None /\ st_data s' = st_data s /\ st_seq s' !! seq_key r p = Some n /\
    mark s (seq_key r p) < n /\
    (forall id' rc n', Get s r id' = Some rc -> id_number p id' = Some n' -> n' < n).
Proof.
  intros (n & id & s' & ? & ? & ? & ? & Hs & ? & ? & ?)%(NextID_alloc s r p b w).
  exists n, id, s'. rewrite Hs, lookup_insert_eq. naive_solver.
Qed.

(** Every allocation of a history is clear of overflow. *)
Fixpoint allocs_ok (s : store) (os : list store_op) : Prop :=
  match os with
  | [] => True
  | o :: os' => match o with OpNextID r p b _ => alloc_ok s r p b | _ => True end /\ allocs_ok (run_op s o) os'
  end.

Lemma mark_run_op s o k :
  match o with OpNextID r p b _ => alloc_ok s r p b | _ => True end -> mark s k <= mark (run_op s o) k.
Proof.
  unfold mark. destruct o as [r0 d i t|r0 i d t|r0 i|r0 p b w]; cbn; intros Hok.
  - by rewrite Create_seq.
  - by rewrite Update_seq.
  - by rewrite Delete_seq.
  - destruct (NextID_alloc _ _ _ _ w Hok) as (n & id & s' & -> & _ & _ & _ & Hs & Hn & _).
    rewrite Hs, lookup_insert. case_decide as Hd; [|done]. subst k. cbn. unfold mark in Hn. lia.
Qed.

Lemma mark_run_ops s os k : allocs_ok s os -> mark s k <= mark (run_ops s os) k.
Proof.
  revert s. induction os as [|o os IH]; intros s; cbn; [done|]. intros [Ho Hos].
  etrans; [by apply mark_run_op|]. by apply IH.
Qed.

(** An identifier is never handed out twice: after [NextID] returned [id], no
    later [NextID] for the same resource, prefix and width returns [id] again,
    whatever records are created, updated or deleted in between. *)
Theorem next_id_never_reused s r p b w id s1 os b' id' s3 :
  alloc_ok s r p b -> NextID s r p b w = Some (id, s1) ->
  allocs_ok s1 os -> alloc_ok (run_ops s1 os) r p b' ->
  NextID (run_ops s1 os) r p b' w = Some (id', s3) -> id ≠ id'.
Proof.
  intros Hok H1 Hos Hok' H2 ->.
  destruct (NextID_alloc _ _ _ _ w Hok) as (n & i1 & t1 & E1 & Hi1 & _ & _ & Hm1 & _ & Hn & _).
  destruct (NextID_alloc _ _ _ _ w Hok') as (n' & i2 & t2 & E2 & Hi2 & _ & _ & _ & Hb2 & Hn' & _).
  rewrite H1 in E1. rewrite H2 in E2. simplify_eq.
  pose proof (mark_run_ops t1 os (seq_key r p) Hos) as Hm. unfold mark in Hm at 1.
  rewrite Hm1, lookup_insert_eq in Hm. cbn in Hm. assert (n = n') by (eapply format_id_inj; eauto). lia.
Qed.

(** ** Witnesses *)

Definition demo_history : list store_op :=
  [OpCreate "q" {["id" := VString "Q2600001"]} "x" 10;
   OpUpdate "q" "Q2600001" {["name" := VString "batch"]} 12;
   OpNextID "q" "Q" 2600001 7; OpCreate "q" ∅ "rnd" 13; OpDelete "q" "rnd"].

Lemma store_invariant_witness :
  clock_ok 5 demo_history /\ store_wf 13 (run_ops NewStore demo_history).
Proof. split; [cbn; lia|]. apply (store_invariant demo_history 5). cbn; lia. Defined.

Definition demo_store : store := run_ops NewStore (take 2 demo_history).

Definition demo_next (s : store) : string * store :=
  default ("", s) (NextID s "q" "Q" 2600001 7).
Definition demo_later : list store_op :=
  [OpCreate "q" {["id" := VString "Q2600002"]} "x" 14; OpDelete "q" "Q2600002"].
Definition demo_s1 : store := snd (demo_next demo_store).
Definition demo_s2 : store := run_ops demo_s1 demo_later.

Lemma demo_next_1 : NextID demo_store "q" "Q" 2600001 7 = Some ("Q2600002", demo_s1).
Proof. vm_compute. reflexivity. Qed.
Lemma demo_next_2 : NextID demo_s2 "q" "Q" 2600001 7 = Some ("Q2600003", snd (demo_next demo_s2)).
Proof. vm_compute. reflexivity. Qed.
Lemma demo_alloc_1 : alloc_ok demo_store "q" "Q" 2600001.
Proof. split; vm_compute; congruence. Qed.
Lemma demo_alloc_2 : alloc_ok demo_s2 "q" "Q" 2600001.
Proof. split; vm_compute; congruence. Qed.

Lemma next_id_fresh_witness :
  exists id s', NextID demo_store "q" "Q" 2600001 7 = Some (id, s') /\ Get demo_store "q" id = None.
Proof.
  destruct (next_id_fresh demo_store "q" "Q" 2600001 7 demo_alloc_1) as (n & id & s' & H1 & _ & H3 & _).
  exists id, s'. split; assumption.
Defined.

Lemma next_id_never_reused_witness : "Q2600002" ≠ "Q2600003".
Proof.
  refine (next_id_never_reused demo_store "q" "Q" 2600001 7 "Q2600002" demo_s1 demo_later 2600001
           "Q2600003" (snd (demo_next demo_s2)) demo_alloc_1 demo_next_1 _ demo_alloc_2 demo_next_2).
  cbn; tauto.
Defined.
