(* ===== verification/EventBus.v ===== *)
(** * The in-memory event bus (internal/platform/events.go)

    A bounded outbox, a per-consumer inbox that makes consumption idempotent, and
    per-consumer checkpoints for lag; plus the redaction applied to event data
    before an outbox is shown.  Each method runs under the bus's lock and is one
    atomic step. *)

From stdpp Require Import base gmap strings list fin_maps.
From Stdlib Require Import ZArith Lia Ascii.
From S2P Require Import Prelude GoValue.
Local Open Scope Z_scope.

(** contracts.Event *)
Record event := Event_ {
  ev_EventID : string;
  ev_Name : string;
  ev_Source : string;
  ev_OccurredAt : Z;
  ev_TraceID : string;
  ev_SchemaVersion : Z;
  ev_IdempotencyKey : string;
  ev_Data : object
}.

Record eventbus := EventBus_ {
  bus_outbox : list event;
  bus_inbox : gmap string (gset string);
  bus_checkpoints : gmap string Z
}.

Definition NewEventBus : eventbus := EventBus_ [] ∅ ∅.

Definition defaultOutboxLimit : Z := 1000.

Definition event_metadata_ok (e : event) : bool :=
  negb (str_empty (ev_Name e)) && negb (str_empty (ev_Source e)) && negb (str_empty (ev_EventID e))
  && negb (str_empty (ev_TraceID e)) && negb (ev_SchemaVersion e =? 0).

Definition outbox_len (b : eventbus) : Z := Z.of_nat (length (bus_outbox b)).

(** The checkpoint of one consumer after [dropped] events left the outbox. *)
Definition shift_checkpoint (dropped limit c : Z) : Z :=
  let c' := if c <=? dropped then 0 else c - dropped in
  if limit <? c' then limit else c'.

Definition trimOutbox (b : eventbus) : eventbus :=
  if (defaultOutboxLimit <=? 0) || (outbox_len b <=? defaultOutboxLimit) then b
  else
    let dropped := outbox_len b - defaultOutboxLimit in
    let out := drop (Z.to_nat dropped) (bus_outbox b) in
    EventBus_ out (bus_inbox b) (shift_checkpoint dropped (Z.of_nat (length out)) <$> bus_checkpoints b).

(** [None] is the "event metadata is incomplete" error. *)
Definition Publish (b : eventbus) (e : event) : option eventbus :=
  if event_metadata_ok e
  then Some (trimOutbox (EventBus_ (bus_outbox b ++ [e]) (bus_inbox b) (bus_checkpoints b)))
  else None.

Definition consumer_inbox (b : eventbus) (consumer : string) : gset string :=
  default ∅ (bus_inbox b !! consumer).

(** [Err tt] is errConsumerEventRequired. *)
Definition Consume (b : eventbus) (consumer : string) (e : event) : eventbus * result unit bool :=
  if str_empty consumer || str_empty (ev_EventID e) then (b, Err tt)
  else
    let seen := consumer_inbox b consumer in
    if bool_decide (ev_EventID e ∈ seen)
    then (EventBus_ (bus_outbox b) (<[consumer := seen]> (bus_inbox b)) (bus_checkpoints b), Ok false)
    else (EventBus_ (bus_outbox b) (<[consumer := {[ev_EventID e]} ∪ seen]> (bus_inbox b))
            (bus_checkpoints b), Ok true).

Definition ResetConsumer (b : eventbus) (consumer : string) : eventbus :=
  EventBus_ (bus_outbox b) (delete consumer (bus_inbox b)) (delete consumer (bus_checkpoints b)).

(** [delete] on the nil map of an unknown consumer does nothing. *)
Definition ResetConsumerEvents (b : eventbus) (consumer : string) (eventIDs : list string) : eventbus :=
  match bus_inbox b !! consumer with
  | None => b
  | Some seen =>
      EventBus_ (bus_outbox b) (<[consumer := seen ∖ list_to_set eventIDs]> (bus_inbox b))
        (bus_checkpoints b)
  end.

Definition Checkpoint (b : eventbus) (consumer : string) : eventbus :=
  EventBus_ (bus_outbox b) (bus_inbox b) (<[consumer := outbox_len b]> (bus_checkpoints b)).

Definition Lag (b : eventbus) (consumer : string) : Z :=
  let c := default 0 (bus_checkpoints b !! consumer) in
  if outbox_len b <? c then 0 else outbox_len b - c.

(** ** Redaction *)

Definition redactedValue : string := "[REDACTED]".

Definition sensitiveEventKeyTokens : list string :=
  ["accesstoken"; "apikey"; "authorization"; "cookie"; "credential"; "jwt"; "password";
   "privatekey"; "refreshtoken"; "secret"; "sessiontoken"; "tokenhash"].

(** [strings.NewReplacer("-", "", "_", "", " ", "")] on the lowered key. *)
Definition normalize_event_key (key : string) : string :=
  of_bytes (List.filter (fun c => negb (Ascii.eqb c "-" || Ascii.eqb c "_" || Ascii.eqb c " "))
              (bytes_of (ToLower key))).

Definition sensitiveEventKey (key : string) : bool :=
  existsb (Contains (normalize_event_key key)) sensitiveEventKeyTokens.

Definition mask_keys {A} (r : A) (m : gmap string A) : gmap string A :=
  map_imap (fun k v => Some (if sensitiveEventKey k then r else v)) m.

Fixpoint redactEventValue (v : any) : any :=
  match v with
  | VMap m => VMap (mask_keys (VString redactedValue) (redactEventValue <$> m))
  | VStringMap m => VStringMap (mask_keys redactedValue m)
  | VList l => VList (map redactEventValue l)
  | _ => v
  end.

Definition redactEventMap (data : object) : object :=
  mask_keys (VString redactedValue) (redactEventValue <$> data).

Definition redactedOutbox (events : list event) : list event :=
  map (fun e => Event_ (ev_EventID e) (ev_Name e) (ev_Source e) (ev_OccurredAt e) (ev_TraceID e)
                  (ev_SchemaVersion e) (ev_IdempotencyKey e) (redactEventMap (ev_Data e))) events.

(** ** Consumption is idempotent *)

Inductive consume_step :=
| CConsume (consumer : string) (e : event)
| CPublish (e : event)
| CCheckpoint (consumer : string).

Definition run_consume_step (b : eventbus) (o : consume_step) : eventbus * bool :=
  match o with
  | CConsume c e => match Consume b c e with (b', Ok p) => (b', p) | (b', Err _) => (b', false) end
  | CPublish e => (default b (Publish b e), false)
  | CCheckpoint c => (Checkpoint b c, false)
  end.

(** How often a history of calls processed event [id] for [consumer]. *)
Fixpoint processed_count (b : eventbus) (consumer id : string) (os : list consume_step) : nat :=
  match os with
  | [] => 0
  | o :: os' =>
      let '(b', p) := run_consume_step b o in
      let hit := match o with
                 | CConsume c e => p && String.eqb c consumer && String.eqb (ev_EventID e) id
                 | _ => false
                 end in
      ((if hit then 1 else 0) + processed_count b' consumer id os')%nat
  end.

Lemma trimOutbox_inbox b : bus_inbox (trimOutbox b) = bus_inbox b.
Proof. unfold trimOutbox. by case_match. Qed.

Lemma Publish_inbox b e b' : Publish b e = Some b' -> bus_inbox b' = bus_inbox b.
Proof. unfold Publish. case_match; [|done]. intros [= <-]. by rewrite trimOutbox_inbox. Qed.

Lemma consumer_inbox_insert out ck (m : gmap string (gset string)) c seen consumer :
  consumer_inbox (EventBus_ out (<[c := seen]> m) ck) consumer =
  if decide (c = consumer) then seen else default ∅ (m !! consumer).
Proof. unfold consumer_inbox. cbn. rewrite lookup_insert. by case_decide. Qed.

Lemma Consume_inbox b c e consumer :
  consumer_inbox (fst (Consume b c e)) consumer =
  match snd (Consume b c e) with
  | Ok true => if decide (c = consumer) then {[ev_EventID e]} ∪ consumer_inbox b c else consumer_inbox b consumer
  | _ => consumer_inbox b consumer
  end.
Proof.
  unfold Consume. destruct (str_empty c || str_empty (ev_EventID e)); [done|].
  destruct (bool_decide _); cbn [fst snd]; rewrite consumer_inbox_insert; case_decide; by subst.
Qed.

Lemma consume_step_seen b o consumer id :
  id ∈ consumer_inbox b consumer -> id ∈ consumer_inbox (fst (run_consume_step b o)) consumer.
Proof.
  destruct o as [c e|e|c]; cbn.
  - intros Hin. pose proof (Consume_inbox b c e consumer) as H.
    destruct (Consume b c e) as [b' [[]|u]]; cbn in *; rewrite H; try done.
    case_decide; subst; set_solver.
  - destruct (Publish b e) eqn:E; cbn; [|done]. unfold consumer_inbox. by rewrite (Publish_inbox _ _ _ E).
  - done.
Qed.

Lemma processed_count_seen b consumer id os :
  id ∈ consumer_inbox b consumer -> processed_count b consumer id os = 0%nat.
Proof.
  revert b. induction os as [|o os IH]; intros b Hin; cbn [processed_count]; [done|].
  pose proof (consume_step_seen b o _ _ Hin) as Hin'.
  destruct (run_consume_step b o) as [b' p] eqn:E. rewrite IH by done.
  destruct o as [c e|e|c]; [|done..]. cbn in E. unfold Consume in E.
  destruct (String.eqb_spec c consumer) as [->|]; [|by rewrite andb_false_r].
  destruct (String.eqb_spec (ev_EventID e) id) as [<-|]; [|by rewrite andb_false_r].
  rewrite (bool_decide_eq_true_2 _ Hin) in E. repeat case_match; by simplify_eq.
Qed.

(** Consumption is idempotent: in any history of consume, publish and
    checkpoint calls, an event id is processed at most once per consumer, and the
    first delivery of a well-formed event is processed. *)
Theorem consume_exactly_once b consumer e os :
  (processed_count b consumer (ev_EventID e) os <= 1)%nat /\
  (consumer ≠ "" -> ev_EventID e ≠ "" -> ev_EventID e ∉ consumer_inbox b consumer ->
   processed_count b consumer (ev_EventID e) (CConsume consumer e :: os) = 1%nat).
Proof.
  set (id := ev_EventID e). split.
  - revert b. induction os as [|o os IH]; intros b; cbn [processed_count]; [lia|].
    destruct (run_consume_step b o) as [b' p] eqn:E.
    destruct o as [c e'|e'|c]; cbn; [|apply IH..].
    destruct (p && String.eqb c consumer && String.eqb (ev_EventID e') id) eqn:Hhit; [|apply IH].
    to_prop. subst c p. rewrite processed_count_seen; [lia|].
    cbn in E. pose proof (Consume_inbox b consumer e' consumer) as H.
    destruct (Consume b consumer e') as [b1 [[]|u]]; simplify_eq.
    cbn in H. rewrite H, decide_True by done. set_solver.
  - intros Hc He Hnew. cbn [processed_count run_consume_step]. unfold Consume.
    rewrite (proj2 (String.eqb_neq consumer "") Hc : str_empty consumer = false).
    rewrite (proj2 (String.eqb_neq id "") He : str_empty (ev_EventID e) = false). cbn.
    rewrite bool_decide_eq_false_2 by done. rewrite !String.eqb_refl. cbn.
    rewrite processed_count_seen; [done|]. rewrite consumer_inbox_insert, decide_True by done. set_solver.
Qed.

(** ** Outbox bound and lag *)

Definition bus_wf (b : eventbus) : Prop := outbox_len b <= defaultOutboxLimit.

Lemma Publish_ok b e :
  event_metadata_ok e = true -> bus_wf b ->
  exists b', Publish b e = Some b' /\ bus_wf b' /\ last (bus_outbox b') = Some e /\
    outbox_len b' = Z.min (outbox_len b + 1) defaultOutboxLimit /\
    bus_outbox b' `suffix_of` (bus_outbox b ++ [e]) /\
    bus_checkpoints b' = (if outbox_len b =? defaultOutboxLimit
                          then shift_checkpoint 1 defaultOutboxLimit <$> bus_checkpoints b
                          else bus_checkpoints b).
Proof.
  intros He Hwf. unfold Publish. rewrite He. eexists. split; [reflexivity|].
  unfold bus_wf, trimOutbox, outbox_len, defaultOutboxLimit in *. cbn -[Z.of_nat Z.leb].
  rewrite length_app. cbn [length].
  destruct (Z.eqb_spec (Z.of_nat (length (bus_outbox b))) 1000) as [Hl|Hl].
  - rewrite (proj2 (Z.leb_gt (Z.of_nat (length (bus_outbox b) + 1)) 1000)) by lia. cbn [orb].
    replace (Z.of_nat (length (bus_outbox b) + 1) - 1000) with 1 by lia. cbn -[drop Z.of_nat].
    rewrite length_drop, length_app. cbn [length].
    replace (Z.of_nat (length (bus_outbox b) + 1 - Z.to_nat 1)) with 1000 by lia.
    split; [lia|]. split; [|split; [lia|]; split; [by eexists (take 1 _); rewrite take_drop|done]].
    destruct (bus_outbox b) as [|x l]; [done|]. apply last_snoc.
  - rewrite (proj2 (Z.leb_le (Z.of_nat (length (bus_outbox b) + 1)) 1000)) by lia. cbn. rewrite length_app. cbn.
    split; [lia|]. split; [apply last_snoc|]. split; [lia|]. done.
Qed.

Fixpoint publish_all (b : eventbus) (es : list event) : eventbus :=
  match es with [] => b | e :: es' => publish_all (default b (Publish b e)) es' end.

Lemma lag_after es : forall b c n,
  Forall (fun e => event_metadata_ok e = true) es -> bus_wf b ->
  0 <= n -> Z.min n defaultOutboxLimit <= outbox_len b ->
  bus_checkpoints b !! c = Some (outbox_len b - Z.min n defaultOutboxLimit) ->
  Lag (publish_all b es) c = Z.min (n + Z.of_nat (length es)) defaultOutboxLimit.
Proof.
  induction es as [|e es IH]; intros b c n He Hwf Hn Hlen Hc; cbn [publish_all].
  - unfold Lag. rewrite Hc. cbn. rewrite (proj2 (Z.ltb_ge _ _)); unfold defaultOutboxLimit in *; lia.
  - inversion He; subst.
    destruct (Publish_ok b e) as (b' & -> & Hwf' & _ & Hl & _ & Hck); [done..|].
    change (default b (Some b')) with b'.
    rewrite (IH b' c (n + 1)); [cbn [length]; f_equal; lia|done|done|lia|..];
      unfold bus_wf, defaultOutboxLimit in *; [lia|].
    rewrite Hck. destruct (Z.eqb_spec (outbox_len b) 1000) as [E|E].
    + rewrite lookup_fmap, Hc. cbn. f_equal. unfold shift_checkpoint.
      destruct (Z.leb_spec (outbox_len b - Z.min n 1000) 1); split_ifs; to_prop; lia.
    + rewrite Hc. f_equal. lia.
Qed.

(** The outbox never holds more than its limit, whatever is published, and a
    consumer that checkpoints and then sees [n] well-formed events published
    observes a lag of [n], capped at the outbox limit: trimming the outbox never
    makes a lag wrong below the cap. *)
Theorem lag_counts_published b c es :
  bus_wf b -> Forall (fun e => event_metadata_ok e = true) es ->
  Lag (publish_all (Checkpoint b c) es) c = Z.min (Z.of_nat (length es)) defaultOutboxLimit.
Proof.
  intros Hwf He. rewrite (lag_after es (Checkpoint b c) c 0); [done|done|done|done| |].
  - unfold outbox_len, defaultOutboxLimit. lia.
  - unfold Checkpoint at 1. cbn [bus_checkpoints]. rewrite lookup_insert_eq. f_equal.
    change (outbox_len (Checkpoint b c)) with (outbox_len b). unfold defaultOutboxLimit. lia.
Qed.

(** ** Redaction is complete *)

(** A value leaks when some sensitive key at some depth has an unmasked value. *)
Inductive Leaks : any -> Prop :=
| leak_key m k v : m !! k = Some v -> sensitiveEventKey k = true -> v ≠ VString redactedValue -> Leaks (VMap m)
| leak_string_key m k v : m !! k = Some v -> sensitiveEventKey k = true -> v ≠ redactedValue -> Leaks (VStringMap m)
| leak_in_map m k v : m !! k = Some v -> Leaks v -> Leaks (VMap m)
| leak_in_list l v : v ∈ l -> Leaks v -> Leaks (VList l)
| leak_in_maps l m : m ∈ l -> Leaks (VMap m) -> Leaks (VMaps l).

(** A [[]map[string]any] occurs somewhere inside the value. *)
Inductive HasMaps : any -> Prop :=
| has_maps l : HasMaps (VMaps l)
| has_maps_map m k v : m !! k = Some v -> HasMaps v -> HasMaps (VMap m)
| has_maps_list l v : v ∈ l -> HasMaps v -> HasMaps (VList l).

Lemma lookup_mask_keys {A} (r : A) m k :
  mask_keys r m !! k = (fun v => if sensitiveEventKey k then r else v) <$> m !! k.
Proof. unfold mask_keys. rewrite map_lookup_imap. by destruct (m !! k). Qed.

Lemma redact_leaks_has_maps w : Leaks w -> forall v, w = redactEventValue v -> HasMaps v.
Proof.
  induction 1 as [m k x Hk Hs Hne|m k x Hk Hs Hne|m k x Hk _ IH|l x Hx _ IH|l m Hm _ _];
    intros [] Hv; cbn in Hv; simplify_eq.
  - rewrite lookup_mask_keys, Hs, lookup_fmap in Hk. by destruct (m0 !! k); cbn in Hk; simplify_eq.
  - rewrite lookup_mask_keys, Hs in Hk. by destruct (m0 !! k); cbn in Hk; simplify_eq.
  - rewrite lookup_mask_keys, lookup_fmap in Hk. destruct (m0 !! k) as [y|] eqn:Ey; [|done].
    cbn [fmap option_fmap option_map] in Hk. destruct (sensitiveEventKey k); injection Hk as <-.
    + specialize (IH (VString redactedValue) eq_refl) as H. inversion H.
    + econstructor; eauto.
  - apply list_elem_of_fmap in Hx as (y & -> & Hy). econstructor; eauto.
  - constructor.
Qed.

(** Redaction is complete on everything it descends into: a redacted value
    leaks a sensitive key only when a [[]map[string]any] is nested inside it. *)
Theorem redaction_complete v : Leaks (redactEventValue v) -> HasMaps v.
Proof. intros H. by eapply redact_leaks_has_maps. Qed.

(** The type switch has no case for [[]map[string]any], so its sensitive keys
    come out in clear. *)
Definition typed_victims : any :=
  VMap {["victims" := VMaps [{["api_key" := VString "k"]}]]}.

Theorem redaction_skips_typed_lists :
  Leaks (redactEventValue typed_victims) /\ redactEventValue typed_victims = typed_victims.
Proof.
  assert (redactEventValue typed_victims = typed_victims) as -> by (vm_compute; reflexivity).
  split; [|done]. eapply leak_in_map with (k := "victims"); [vm_compute; reflexivity|].
  eapply leak_in_maps; [by left|]. eapply leak_key with (k := "api_key");
    [vm_compute; reflexivity|vm_compute; reflexivity|done].
Qed.

(** ** Witnesses *)

Definition demo_event (id : string) : event := Event_ id "E" "svc" 0 "t" 1 "" ∅.

Lemma lag_counts_published_witness :
  Lag (publish_all (Checkpoint NewEventBus "c") [demo_event "1"; demo_event "2"]) "c" = 2.
Proof.
  apply (lag_counts_published NewEventBus "c" [demo_event "1"; demo_event "2"]).
  - vm_compute. congruence.
  - repeat constructor.
Defined.

Lemma consume_exactly_once_witness :
  processed_count NewEventBus "c" "1" [CConsume "c" (demo_event "1"); CConsume "c" (demo_event "1")] = 1%nat.
Proof.
  destruct (consume_exactly_once NewEventBus "c" (demo_event "1") [CConsume "c" (demo_event "1")]) as [_ H].
  apply H; [done|done|]. vm_compute. intros H0; inversion H0.
Defined.

Lemma redaction_complete_witness : HasMaps typed_victims.
Proof. apply (redaction_complete typed_victims). apply redaction_skips_typed_lists. Defined.
