(* ===== verification/Crud.v ===== *)
(** * Records with events and the generic CRUD handlers (internal/platform/crud.go)

    The application state is the record store and the event bus.  The paths
    modelled are those of a process on the in-memory store (the fallback branch
    of each [*WithEvent] helper); the PostgreSQL branch delegates to a
    transaction of the database. *)

From stdpp Require Import base gmap strings list fin_maps.
From Stdlib Require Import ZArith Lia Ascii.
From S2P Require Import Prelude GoValue Store EventBus.
Local Open Scope Z_scope.

Record app := App_ { app_Store : store; app_Events : eventbus }.

(** RouteSpec *)
Record route := Route_ {
  rt_Method : string;
  rt_Pattern : string;
  rt_OperationID : string;
  rt_Resource : string;
  rt_Action : string;
  rt_IDParam : string;
  rt_AuthRequired : bool;
  rt_Admin : bool;
  rt_StateChanging : bool;
  rt_PolicyBypass : bool;
  rt_ExternalAdapter : string;
  rt_ServiceAuthRequired : bool;
  rt_InternalPublic : bool;
  rt_AliasOf : string;
  rt_Override : bool;
  rt_OverrideReason : string
}.

(** httpRequest: [hr_body] is what [DecodeMapWithError] yields ([None] for its
    error); [hr_now], [hr_uuid], [hr_id1], [hr_id2] are the clock reading and
    the fresh identifiers drawn while the request is served. *)
Record http_request := Request_ {
  hr_Method : string;
  hr_body : option object;
  hr_path : gmap string string;
  hr_IdempotencyKey : string;
  hr_TraceID : string;
  hr_Service : string;
  hr_now : Z;
  hr_uuid : string;
  hr_id1 : string;
  hr_id2 : string
}.

Inductive body :=
| BNil
| BMap (m : object)
| BRecord (r : record)
| BRecords (l : list record)
| BMaps (l : list object)
| BValue (v : any).

Definition response : Type := Z * body.

Inductive store_error :=
| EConflict (c : create_conflict)
| EPublish.

(** The text of the error: of CreateConflictError, or of an event that is incomplete. *)
Definition store_error_text (e : store_error) : string :=
  match e with
  | EConflict c => "store create conflict: " +:+ cc_Resource c +:+ "/" +:+ cc_ID c
  | EPublish => "event metadata is incomplete"
  end.

Definition StatusOK : Z := 200.
Definition StatusCreated : Z := 201.
Definition StatusAccepted : Z := 202.
Definition StatusBadRequest : Z := 400.
Definition StatusForbidden : Z := 403.
Definition StatusNotFound : Z := 404.
Definition StatusConflict : Z := 409.
Definition StatusUnprocessableEntity : Z := 422.
Definition StatusInternalServerError : Z := 500.
Definition StatusBadGateway : Z := 502.
Definition StatusServiceUnavailable : Z := 503.

Definition message (text : string) : body := BMap {["message" := VString text]}.
Definition errInvalidRequestBody : string := "invalid request body".

(** ** Record and event together *)

Definition publish_event (a : app) (e : event) : option app :=
  match Publish (app_Events a) e with
  | Some b => Some (App_ (app_Store a) b)
  | None => None
  end.

Definition CreateRecordWithEvent (a : app) (resource : string) (data : object)
    (build : option (record -> event)) (newID : string) (now : Z) : app * result store_error record :=
  match Create (app_Store a) resource data newID now with
  | (s, Err c) => (App_ s (app_Events a), Err (EConflict c))
  | (s, Ok r) =>
      let a1 := App_ s (app_Events a) in
      match build with
      | None => (a1, Ok r)
      | Some f => match publish_event a1 (f r) with
                  | Some a2 => (a2, Ok r)
                  | None => (a1, Err EPublish)
                  end
      end
  end.

Definition UpdateRecordWithEvent (a : app) (resource id : string) (data : object)
    (build : option (record -> event)) (now : Z) : app * result store_error (option record) :=
  match Update (app_Store a) resource id data now with
  | (s, None) => (App_ s (app_Events a), Ok None)
  | (s, Some r) =>
      let a1 := App_ s (app_Events a) in
      match build with
      | None => (a1, Ok (Some r))
      | Some f => match publish_event a1 (f r) with
                  | Some a2 => (a2, Ok (Some r))
                  | None => (a1, Err EPublish)
                  end
      end
  end.

Definition DeleteRecordWithEvent (a : app) (resource id : string)
    (build : option (bool -> event)) : app * result store_error bool :=
  match Delete (app_Store a) resource id with
  | (s, false) => (App_ s (app_Events a), Ok false)
  | (s, true) =>
      let a1 := App_ s (app_Events a) in
      match build with
      | None => (a1, Ok true)
      | Some f => match publish_event a1 (f true) with
                  | Some a2 => (a2, Ok true)
                  | None => (a1, Err EPublish)
                  end
      end
  end.

Definition upsertRecordWithoutTransactionalStore (s : store) (resource id : string) (payload : object)
    (newID : string) (now : Z) : store * result create_conflict record :=
  match Update s resource id payload now with
  | (s1, Some r) => (s1, Ok r)
  | (s1, None) =>
      match Create s1 resource payload newID now with
      | (s2, Ok r) => (s2, Ok r)
      | (s2, Err e) =>
          match Update s2 resource id payload now with
          | (s3, Some r) => (s3, Ok r)
          | (s3, None) => (s3, Err e)
          end
      end
  end.

Section Handlers.
Context `{GoLib}.

(** asString of util.go *)
Definition asString (v : any) : string :=
  match v with
  | VNil => ""
  | VString s => s
  | _ => default "" (marshal v)
  end.

Definition UpsertRecordWithEvent (a : app) (resource id : string) (data : object)
    (build : option (record -> event)) (newID1 newID2 : string) (now : Z) : app * result store_error record :=
  let id1 := if str_empty id then asString (mget data "id") else id in
  let id2 := if str_empty id1 then newID1 else id1 in
  let payload := <["id" := VString id2]> data in
  match upsertRecordWithoutTransactionalStore (app_Store a) resource id2 payload newID2 now with
  | (s, Err c) => (App_ s (app_Events a), Err (EConflict c))
  | (s, Ok r) =>
      let a1 := App_ s (app_Events a) in
      match build with
      | None => (a1, Ok r)
      | Some f => match publish_event a1 (f r) with
                  | Some a2 => (a2, Ok r)
                  | None => (a1, Err EPublish)
                  end
      end
  end.

(** newEvent *)
Definition newEvent (r : http_request) (name : string) (data : object) : event :=
  Event_ (hr_uuid r) name (hr_Service r) (hr_now r) (hr_TraceID r) 1 (hr_IdempotencyKey r) data.

Definition pathID (r : http_request) (name : string) : string :=
  let v k := default "" (hr_path r !! k) in
  let n := if str_empty name then "id" else name in
  FirstNonEmpty (map v [n; "userId"; "podName"; "requestId"; "buildId"; "reservationId"; "messageId"]).

Fixpoint before_colon (l : list ascii) : option (list ascii) :=
  match l with
  | [] => None
  | c :: l' => if Ascii.eqb c ":" then Some [] else cons c <$> before_colon l'
  end.

(** RouteSpec.ServicePrefix *)
Definition ServicePrefix (resource : string) : string :=
  match before_colon (bytes_of resource) with Some p => of_bytes p | None => "" end.

Definition domainEventName (rt : route) (suffix : string) : string :=
  TrimPrefix (TrimSuffix (rt_Resource rt) "s" +:+ suffix) (ServicePrefix (rt_Resource rt) +:+ ":").

(** ** Validation *)

Inductive FieldType := FieldString | FieldNumber | FieldBool.

Record crudValidator := Validator_ {
  cv_requiredFields : gmap string (list string);
  cv_fieldSchemas : gmap string (gmap string FieldType)
}.

Definition newCRUDValidator : crudValidator := Validator_ ∅ ∅.

Definition registerRequired (v : crudValidator) (resource : string) (fields : list string) : crudValidator :=
  Validator_ (<[resource := default [] (cv_requiredFields v !! resource) ++ fields]> (cv_requiredFields v))
    (cv_fieldSchemas v).

Definition registerSchema (v : crudValidator) (resource : string) (fields : gmap string FieldType) : crudValidator :=
  Validator_ (cv_requiredFields v)
    (<[resource := fields ∪ default ∅ (cv_fieldSchemas v !! resource)]> (cv_fieldSchemas v)).

Definition field_missing (payload : object) (field : string) : bool :=
  match payload !! field with
  | None => true
  | Some (VString text) => str_empty (TrimSpace text)
  | Some _ => false
  end.

(** "" stands for no missing field, as in the code. *)
Definition missingRequired (v : crudValidator) (resource : string) (payload : object) : string :=
  default "" (List.find (field_missing payload) (default [] (cv_requiredFields v !! resource))).

Definition fieldMatchesType (v : any) (t : FieldType) : bool :=
  match t, v with
  | FieldString, VString _ => true
  | FieldNumber, (VFloat64 _ | VFloat32 _ | VInt _ | VInt64 _) => true
  | FieldBool, VBool _ => true
  | _, _ => false
  end.

Definition field_bad (payload : object) (f : string * FieldType) : bool :=
  match payload !! f.1 with
  | None | Some VNil => false
  | Some v => negb (fieldMatchesType v f.2)
  end.

Definition invalidType (v : crudValidator) (resource : string) (payload : object) : string :=
  default "" (fst <$> List.find (field_bad payload) (map_to_list (default ∅ (cv_fieldSchemas v !! resource)))).

(** ** Handlers *)

Definition createErrorResponse (e : store_error) : response :=
  match e with
  | EConflict _ => (StatusConflict, message "resource already exists")
  | EPublish => (StatusInternalServerError, message "store create failed")
  end.

Definition handleCRUDGet (a : app) (resource id : string) : response :=
  if str_empty id then (StatusOK, BRecords (List_ (app_Store a) resource))
  else match Get (app_Store a) resource id with
       | None => (StatusNotFound, BMap {["id" := VString id]})
       | Some r => (StatusOK, BRecord r)
       end.

Definition handleCRUDCreate (v : crudValidator) (a : app) (r : http_request) (rt : route) : app * response :=
  let resource := rt_Resource rt in
  match hr_body r with
  | None => (a, (StatusBadRequest, message errInvalidRequestBody))
  | Some payload =>
      let missing := missingRequired v resource payload in
      if negb (str_empty missing) then (a, (StatusBadRequest, message ("missing required field: " +:+ missing)))
      else
        let bad := invalidType v resource payload in
        if negb (str_empty bad) then (a, (StatusBadRequest, message ("invalid field type: " +:+ bad)))
        else
          let build rc := newEvent r (domainEventName rt "Created") (rec_Data rc) in
          match CreateRecordWithEvent a resource payload (Some build) (hr_id1 r) (hr_now r) with
          | (a', Err e) => (a', createErrorResponse e)
          | (a', Ok rc) => (a', (StatusCreated, BRecord rc))
          end
  end.

Definition handleCRUDUpdate (v : crudValidator) (a : app) (r : http_request) (rt : route) (id0 : string)
    : app * response :=
  let resource := rt_Resource rt in
  match hr_body r with
  | None => (a, (StatusBadRequest, message errInvalidRequestBody))
  | Some payload =>
      let bad := invalidType v resource payload in
      if negb (str_empty bad) then (a, (StatusBadRequest, message ("invalid field type: " +:+ bad)))
      else
          let id := if str_empty id0 then FirstNonEmpty [asString (mget payload "id"); hr_id1 r] else id0 in
          let build rc := newEvent r (domainEventName rt "Updated") (rec_Data rc) in
          match UpdateRecordWithEvent a resource id payload (Some build) (hr_now r) with
          | (a', Err _) => (a', (StatusInternalServerError, message "store update failed"))
          | (a', Ok (Some rc)) => (a', (StatusOK, BRecord rc))
          | (a', Ok None) =>
              let payload' := <["id" := VString id]> payload in
              match CreateRecordWithEvent a' resource payload' (Some build) (hr_id2 r) (hr_now r) with
              | (a'', Err e) => (a'', createErrorResponse e)
              | (a'', Ok rc) => (a'', (StatusOK, BRecord rc))
              end
          end
  end.

Definition handleCRUDDelete (a : app) (r : http_request) (rt : route) (id : string) : app * response :=
  let build deleted := newEvent r (domainEventName rt "Deleted")
                         {["id" := VString id; "deleted" := VBool deleted]} in
  match DeleteRecordWithEvent a (rt_Resource rt) id (Some build) with
  | (a', Err _) => (a', (StatusInternalServerError, message "store delete failed"))
  | (a', Ok deleted) => (a', (StatusOK, BMap {["id" := VString id; "deleted" := VBool deleted]}))
  end.

Definition handleCRUD (v : crudValidator) (a : app) (r : http_request) (rt : route) : app * response :=
  let id := pathID r (rt_IDParam rt) in
  let m := hr_Method r in
  if String.eqb m "GET" then (a, handleCRUDGet a (rt_Resource rt) id)
  else if String.eqb m "POST" then handleCRUDCreate v a r rt
  else if String.eqb m "PUT" || String.eqb m "PATCH" then handleCRUDUpdate v a r rt id
  else if String.eqb m "DELETE" then handleCRUDDelete a r rt id
  else (a, (StatusOK, BMap {["operation" := VString (rt_OperationID rt)]})).

Definition handleCommand (a : app) (r : http_request) (rt : route) : app * response :=
  match hr_body r with
  | None => (a, (StatusBadRequest, message errInvalidRequestBody))
  | Some payload =>
      let payload' := <["idempotency_key" := VString (hr_IdempotencyKey r)]>
                       (<["operation" := VString (rt_OperationID rt)]>
                         (<["status" := VString "accepted"]> payload)) in
      let build rc := newEvent r (domainEventName rt "Requested") (rec_Data rc) in
      match CreateRecordWithEvent a (rt_Resource rt +:+ ":commands") payload' (Some build) (hr_id1 r) (hr_now r) with
      | (a', Err e) => (a', createErrorResponse e)
      | (a', Ok rc) => (a', (StatusAccepted, BRecord rc))
      end
  end.

Definition handleConfigCommit (a : app) (r : http_request) (rt : route) : app * response :=
  match hr_body r with
  | None => (a, (StatusBadRequest, message errInvalidRequestBody))
  | Some payload =>
      let blobID := sha256_hex (asString (mget payload "content")) in
      let payload' := <["committed_at" := VTime (hr_now r) (time_string (hr_now r))]> (<["immutable" := VBool true]>
                        (<["sha256" := VString blobID]> payload)) in
      let build rc := newEvent r "ConfigCommitted"
                        {["config_id" := VString (rec_ID rc); "sha256" := VString blobID]} in
      match CreateRecordWithEvent a (rt_Resource rt +:+ ":versions") payload' (Some build) (hr_id1 r) (hr_now r) with
      | (a', Err e) => (a', createErrorResponse e)
      | (a', Ok rc) => (a', (StatusCreated, BRecord rc))
      end
  end.

End Handlers.

(** ** Properties *)

(** What the caller of a [*WithEvent] helper relies on. *)
Lemma CreateRecordWithEvent_ok a r d f i t a' rc :
  CreateRecordWithEvent a r d (Some f) i t = (a', Ok rc) ->
  exists s, Create (app_Store a) r d i t = (s, Ok rc) /\ app_Store a' = s /\
            Publish (app_Events a) (f rc) = Some (app_Events a').
Proof.
  unfold CreateRecordWithEvent, publish_event. destruct (Create _ _ _ _ _) as [s [rc'|e]]; [|done].
  cbn. destruct (Publish _ _) eqn:E; [|done]. intros [= <- <-]. eauto.
Qed.

Lemma CreateRecordWithEvent_err a r d f i t a' e :
  CreateRecordWithEvent a r d (Some f) i t = (a', Err e) -> app_Events a' = app_Events a.
Proof.
  unfold CreateRecordWithEvent, publish_event. destruct (Create _ _ _ _ _) as [s [rc'|c]]; cbn.
  - destruct (Publish _ _); [done|]. by intros [= <- <-].
  - by intros [= <- <-].
Qed.

Lemma missingRequired_none v res p :
  str_empty (missingRequired v res p) = true -> "" ∉ default [] (cv_requiredFields v !! res) ->
  Forall (fun f => field_missing p f = false) (default [] (cv_requiredFields v !! res)).
Proof.
  unfold missingRequired. destruct (List.find _ _) as [f|] eqn:E; [|by intros; apply find_none_spec].
  cbn. intros ->%String.eqb_eq Hn. apply List.find_some in E as [?%list_elem_of_In _]. done.
Qed.

Lemma invalidType_none v res p :
  str_empty (invalidType v res p) = true -> default ∅ (cv_fieldSchemas v !! res) !! "" = None ->
  forall f t x, default ∅ (cv_fieldSchemas v !! res) !! f = Some t -> p !! f = Some x ->
    x ≠ VNil -> fieldMatchesType x t = true.
Proof.
  unfold invalidType. destruct (List.find _ _) as [[f0 t0]|] eqn:E.
  { cbn. intros ->%String.eqb_eq Hn. apply List.find_some in E as [Hin%list_elem_of_In _].
    apply elem_of_map_to_list in Hin. congruence. }
  intros _ _ f t x Hs Hp Hn. apply find_none_spec in E. rewrite Forall_forall in E.
  specialize (E (f, t)). rewrite elem_of_map_to_list in E. specialize (E Hs).
  unfold field_bad in E. cbn in E. rewrite Hp in E. destruct x; by apply negb_false_iff in E || done.
Qed.

(** The generic create handler is all-or-nothing at its boundary: a 201 means
    every registered required field (of non-empty name) was present and non-blank,
    every typed field had its type, the id was free, the record is stored and exactly one event was
    appended for it; a 400 means nothing changed at all; on a 409 no record and
    no event changed. *)
Theorem crud_create_boundary `{GoLib} v a r rt :
  let '(a', (status, _)) := handleCRUDCreate v a r rt in
  (status = StatusCreated -> exists payload rc, hr_body r = Some payload /\
     let required := default [] (cv_requiredFields v !! rt_Resource rt) in
     let schema := default ∅ (cv_fieldSchemas v !! rt_Resource rt) in
     ("" ∉ required -> Forall (fun f => field_missing payload f = false) required) /\
     (schema !! "" = None -> forall f t x, schema !! f = Some t -> payload !! f = Some x ->
        x ≠ VNil -> fieldMatchesType x t = true) /\
     Get (app_Store a) (rt_Resource rt) (rec_ID rc) = None /\
     Get (app_Store a') (rt_Resource rt) (rec_ID rc) = Some rc /\
     Publish (app_Events a) (newEvent r (domainEventName rt "Created") (rec_Data rc)) = Some (app_Events a')) /\
  (status = StatusBadRequest -> a' = a) /\
  (status = StatusConflict -> app_Events a' = app_Events a /\
     forall res id, Get (app_Store a') res id = Get (app_Store a) res id).
Proof.
  unfold handleCRUDCreate. destruct (hr_body r) as [payload|] eqn:Eb; [|cbn; naive_solver].
  cbn zeta. destruct (str_empty (missingRequired _ _ _)) eqn:Em; [|cbn; naive_solver].
  destruct (str_empty (invalidType _ _ _)) eqn:Ei; [|cbn; naive_solver]. cbn [negb].
  set (build := fun rc => newEvent r (domainEventName rt "Created") (rec_Data rc)).
  destruct (CreateRecordWithEvent _ _ _ _ _ _) as [a' [rc|e]] eqn:Ec; cbn.
  - split; [|by split]. intros _. exists payload, rc.
    apply CreateRecordWithEvent_ok in Ec as (s & Hc & <- & Hp).
    apply Create_ok in Hc as (Hfree & Hid & _ & _ & _ & _ & Hget). rewrite Hid.
    repeat split; [by apply missingRequired_none|by apply invalidType_none|done| |done].
    rewrite Hget. by rewrite decide_True.
  - destruct e as [c|]; cbn; [|done]. repeat split; [done|done|by eapply CreateRecordWithEvent_err|].
    unfold CreateRecordWithEvent in Ec. destruct (Create _ _ _ _ _) as [s [rc|e]] eqn:Hc;
      [case_match; done|]. simplify_eq. cbn. by apply Create_err in Hc as (_ & _ & Hc).
Qed.

Lemma upsert_ok s res id payload newID now :
  payload !! "id" = Some (VString id) -> id ≠ "" ->
  exists s' rc, upsertRecordWithoutTransactionalStore s res id payload newID now = (s', Ok rc) /\
    Get s' res id = Some rc /\ rec_UpdatedAt rc = now /\
    (forall k v, payload !! k = Some v -> rec_Data rc !! k = Some v) /\
    rec_Version rc = match Get s res id with Some old => rec_Version old + 1 | None => 1 end /\
    (forall r' id', (r', id') ≠ (res, id) -> Get s' r' id' = Get s r' id').
Proof.
  intros Hid Hne. unfold upsertRecordWithoutTransactionalStore.
  pose proof (Update_cases s res id payload now) as HU.
  destruct (Update s res id payload now) as [s1 [rc|]].
  - destruct (Get s res id) as [old|]; [|done]. destruct HU as (Hd & _ & _ & Ht & Hv & Hg).
    exists s1, rc. split; [done|]. split; [by rewrite Hg, decide_True|]. split; [done|].
    split; [intros k v Hk; by rewrite Hd, Hk|]. split; [done|].
    intros r' id' Hn. rewrite Hg, decide_False; [done|naive_solver].
  - destruct (Get s res id) as [old|] eqn:Eg; [done|]. subst s1.
    assert (create_id payload newID = id) as Hci.
    { unfold create_id, mget. rewrite Hid. cbn. unfold str_empty. by apply String.eqb_neq in Hne as ->. }
    destruct (Create s res payload newID now) as [s2 [rc|e]] eqn:Ec.
    + pose proof Ec as Ec'. apply Create_ok in Ec as (_ & _ & Hv & _ & Ht & Hd & Hg).
      rewrite Hci in Hg. exists s2, rc. split; [done|]. split; [by rewrite Hg, decide_True|].
      split; [done|]. split; [|split; [done|]; intros; rewrite Hg, decide_False; [done|naive_solver]].
      intros k v Hk. destruct (decide (k = "id")) as [->|Hk']; [|by rewrite Hd].
      rewrite (Create_data_id _ _ _ _ _ _ _ Ec'), Hci. congruence.
    + apply Create_err in Ec as (_ & [x Hx] & _). rewrite Hci in Hx. congruence.
Qed.

(** Upsert always succeeds off PostgreSQL: whether or not the record exists it
    ends with a stored record that carries every field of the payload, version 1
    when new and one more than before otherwise, and no other record changes. *)
Theorem upsert_total s res id payload newID now :
  payload !! "id" = Some (VString id) -> id ≠ "" ->
  exists s' rc, upsertRecordWithoutTransactionalStore s res id payload newID now = (s', Ok rc) /\
    Get s' res id = Some rc /\
    (forall k v, payload !! k = Some v -> rec_Data rc !! k = Some v) /\
    rec_Version rc = match Get s res id with Some old => rec_Version old + 1 | None => 1 end /\
    (forall r' id', (r', id') ≠ (res, id) -> Get s' r' id' = Get s r' id').
Proof.
  intros Hid Hne. destruct (upsert_ok s res id payload newID now Hid Hne) as (s' & rc & H).
  exists s', rc. naive_solver.
Qed.

Lemma upsert_total_witness :
  exists s' rc, upsertRecordWithoutTransactionalStore NewStore "r" "a" {["id" := VString "a"]} "n" 3 = (s', Ok rc) /\
    rec_Version rc = 1.
Proof.
  destruct (upsert_total NewStore "r" "a" {["id" := VString "a"]} "n" 3) as (s' & rc & H1 & _ & _ & H4 & _);
    [vm_compute; reflexivity|discriminate|].
  exists s', rc. split; [exact H1|]. exact H4.
Defined.
