(* ===== verification/Tx.v ===== *)
(** * Grouped writes with events (internal/platform/tx.go)

    [App.WithTx] on the in-memory store: the callback's writes go straight to the
    store, its events are buffered and published once it returned without an
    error. *)

From stdpp Require Import base gmap strings list fin_maps.
From Stdlib Require Import ZArith Lia.
From S2P Require Import Prelude GoValue Store EventBus Crud.
Local Open Scope Z_scope.
Local Open Scope go_scope.

(** fallbackStoreTx *)
Record fallbackStoreTx := StoreTx { tx_store : store; tx_events : list event }.

(** The callback, and the error of the whole: the callback's or a publication's. *)
Definition tx_fn (E A : Type) : Type := stm fallbackStoreTx E A.

Inductive tx_error (E : Type) := TxCallback (e : E) | TxPublish.
Arguments TxCallback {E} e.
Arguments TxPublish {E}.

Definition tx_Create (resource : string) (data : object) (newID : string) (now : Z)
    : tx_fn create_conflict record :=
  fun t => let '(s, r) := Create (tx_store t) resource data newID now in (StoreTx s (tx_events t), r).

Definition tx_Update {E} (resource id : string) (data : object) (now : Z) : tx_fn E (option record) :=
  fun t => let '(s, r) := Update (tx_store t) resource id data now in (StoreTx s (tx_events t), Ok r).

Definition tx_Delete {E} (resource id : string) : tx_fn E bool :=
  fun t => let '(s, b) := Delete (tx_store t) resource id in (StoreTx s (tx_events t), Ok b).

Definition tx_Emit {E} (e : event) : tx_fn E unit :=
  fun t => (StoreTx (tx_store t) (tx_events t ++ [e]), Ok tt).

(** Publishing the buffer in order stops at the first failure. *)
Fixpoint publish_all (a : app) (events : list event) : app * bool :=
  match events with
  | [] => (a, true)
  | e :: rest => match publish_event a e with
                 | Some a' => publish_all a' rest
                 | None => (a, false)
                 end
  end.

Definition WithTx {E A} (a : app) (fn : tx_fn E A) : app * result (tx_error E) A :=
  match fn (StoreTx (app_Store a) []) with
  | (t, Err e) => (App_ (tx_store t) (app_Events a), Err (TxCallback e))
  | (t, Ok x) =>
      match publish_all (App_ (tx_store t) (app_Events a)) (tx_events t) with
      | (a', true) => (a', Ok x)
      | (a', false) => (a', Err TxPublish)
      end
  end.

(** ** Laws *)

Lemma publish_event_store a e a' : publish_event a e = Some a' -> app_Store a' = app_Store a.
Proof. unfold publish_event. destruct (Publish _ _); [|done]. by intros [= <-]. Qed.

Lemma CreateRecordWithEvent_store a resource data build newID now :
  app_Store (CreateRecordWithEvent a resource data build newID now).1 = (Create (app_Store a) resource data newID now).1.
Proof.
  unfold CreateRecordWithEvent. destruct (Create _ _ _ _ _) as [s [rc|e]]; [|done].
  destruct build as [f|]; [|done]. destruct (publish_event _ _) eqn:E; [|done]. cbn. by apply publish_event_store in E.
Qed.
Lemma UpdateRecordWithEvent_store a resource id data build now :
  app_Store (UpdateRecordWithEvent a resource id data build now).1 = (Update (app_Store a) resource id data now).1.
Proof.
  unfold UpdateRecordWithEvent. destruct (Update _ _ _ _ _) as [s [rc|]]; [|done].
  destruct build as [f|]; [|done]. destruct (publish_event _ _) eqn:E; [|done]. cbn. by apply publish_event_store in E.
Qed.
Lemma DeleteRecordWithEvent_store a resource id build :
  app_Store (DeleteRecordWithEvent a resource id build).1 = (Delete (app_Store a) resource id).1.
Proof.
  unfold DeleteRecordWithEvent. destruct (Delete _ _ _) as [s []]; [|done].
  destruct build as [f|]; [|done]. destruct (publish_event _ _) eqn:E; [|done]. cbn. by apply publish_event_store in E.
Qed.

Lemma publish_event_ok a e : event_metadata_ok e = true ->
  exists b, Publish (app_Events a) e = Some b /\ publish_event a e = Some (App_ (app_Store a) b).
Proof. intros He. unfold publish_event, Publish. rewrite He. eauto. Qed.

Lemma publish_all_store a es : app_Store (publish_all a es).1 = app_Store a.
Proof.
  revert a. induction es as [|e es IH]; intros a; cbn; [done|].
  destruct (publish_event a e) as [a'|] eqn:E; [|done]. rewrite IH. by eapply publish_event_store.
Qed.

(** Whatever becomes of the events, the store is the one the callback left. *)
Lemma WithTx_store {E A} a (fn : tx_fn E A) :
  app_Store (WithTx a fn).1 = tx_store (fn (StoreTx (app_Store a) [])).1.
Proof.
  unfold WithTx. destruct (fn _) as [t [x|e]]; [|done].
  pose proof (publish_all_store (App_ (tx_store t) (app_Events a)) (tx_events t)) as Hs.
  by destruct (publish_all _ _) as [a' []].
Qed.
