(* ===== verification/Reservation.v ===== *)
(** * Quota reservations (internal/platform/reservation.go)

    The reservation life cycle [reserved -> committed -> released], the handlers
    that create a reservation and move it, and the events they emit. *)

From stdpp Require Import base gmap strings list fin_maps.
From Stdlib Require Import ZArith Lia.
From S2P Require Import Prelude GoValue Store EventBus Crud.
Local Open Scope Z_scope.

Definition eventName (state : string) : string :=
  if String.eqb state "reserved" then "QuotaReserved"
  else if String.eqb state "committed" then "QuotaCommitted"
  else if String.eqb state "released" then "QuotaReleased"
  else "".

Definition transitionAllowed (current requested : string) : bool :=
  if String.eqb current "reserved" then String.eqb requested "committed" || String.eqb requested "released"
  else if String.eqb current "committed" then String.eqb requested "released"
  else if String.eqb current "released" then false
  else false.

(** Copies the named keys that are present. *)
Definition copy_keys (keys : list string) (from to : object) : object :=
  foldl (fun acc k => match from !! k with Some v => <[k := v]> acc | None => acc end) to keys.

Definition reservationEventData (id state : string) (data : object) : object :=
  let ev := copy_keys ["project_id"; "job_id"; "plan_id"; "expires_at"] data
              {["reservation_id" := VString id; "state" := VString state]} in
  match data !! "reserved" with
  | Some v => <["reserved" := v]> ev
  | None =>
      let reserved := copy_keys ["gpu"; "cpu_millis"; "memory_mib"] data ∅ in
      if bool_decide (reserved = ∅) then ev else <["reserved" := VMap reserved]> ev
  end.

Lemma copy_keys_notin keys from to k : k ∉ keys -> copy_keys keys from to !! k = to !! k.
Proof.
  unfold copy_keys. revert to. induction keys as [|k' keys IH]; intros to Hk; [done|].
  apply not_elem_of_cons in Hk as [Hne Hk]. cbn [foldl]. rewrite IH by done.
  destruct (from !! k'); [|done]. by rewrite lookup_insert_ne.
Qed.

Lemma reservationEventData_id id state data :
  reservationEventData id state data !! "reservation_id" = Some (VString id).
Proof.
  assert (copy_keys ["project_id"; "job_id"; "plan_id"; "expires_at"] data
    {["reservation_id" := VString id; "state" := VString state]} !! "reservation_id" = Some (VString id)) as Hc.
  { rewrite copy_keys_notin by set_solver. apply lookup_insert_eq. }
  unfold reservationEventData.
  destruct (data !! "reserved"); [|case_bool_decide]; by rewrite ?lookup_insert_ne.
Qed.

Definition reservationsResource : string := "scheduler-quota-service:reservations".

Section Handlers.
Context `{GoLib}.

Definition reservation_event (r : http_request) (state id : string) : option (record -> event) :=
  if str_empty (eventName state) then None
  else Some (fun rc => newEvent r (eventName state) (reservationEventData id state (rec_Data rc))).

Definition handleReservation (a : app) (r : http_request) (rt : route) (state : string) : app * response :=
  match hr_body r with
  | None => (a, (StatusBadRequest, message errInvalidRequestBody))
  | Some payload =>
      let payload' := <["idempotency_key" := VString (FirstNonEmpty [hr_IdempotencyKey r; hr_id1 r])]>
                        (<["state" := VString state]> payload) in
      let build := if str_empty (eventName state) then None
                   else Some (fun rc => newEvent r (eventName state)
                                          (reservationEventData (rec_ID rc) state (rec_Data rc))) in
      match CreateRecordWithEvent a (rt_Resource rt) payload' build (hr_id2 r) (hr_now r) with
      | (a', Err e) => (a', createErrorResponse e)
      | (a', Ok rc) => (a', (StatusCreated, BRecord rc))
      end
  end.

Definition handleReservationTransition (a : app) (r : http_request) (rt : route) (state : string)
    : app * response :=
  let id := pathID r (rt_IDParam rt) in
  match Get (app_Store a) reservationsResource id with
  | None => (a, (StatusNotFound, BMap {["id" := VString id]}))
  | Some rc =>
      let current := asString (mget (rec_Data rc) "state") in
      if String.eqb current state then (a, (StatusOK, BRecord rc))
      else if negb (transitionAllowed current state)
      then (a, (StatusConflict, BMap {["id" := VString id; "state" := VString current;
                                       "requested" := VString state]}))
      else
        match UpdateRecordWithEvent a reservationsResource id {["state" := VString state]}
                (reservation_event r state id) (hr_now r) with
        | (a', Ok (Some rc')) => (a', (StatusOK, BRecord rc'))
        | (a', _) => (a', (StatusInternalServerError, message "reservation update failed"))
        end
  end.

(** ** The life cycle *)

(** How far along its life cycle a state is; anything else is not a state. *)
Definition rank (state : string) : Z :=
  if String.eqb state "reserved" then 1
  else if String.eqb state "committed" then 2
  else if String.eqb state "released" then 3
  else 0.

Definition reservation_state (a : app) (id : string) : option string :=
  (fun rc => asString (mget (rec_Data rc) "state")) <$> Get (app_Store a) reservationsResource id.

Lemma transitionAllowed_rank c s : transitionAllowed c s = true -> 0 < rank c < rank s.
Proof.
  unfold transitionAllowed, rank. intros Ht.
  destruct (String.eqb_spec c "reserved") as [->|]; [|destruct (String.eqb_spec c "committed") as [->|]; [|by case_match]];
    repeat match type of Ht with (_ || _) = true => apply orb_true_iff in Ht as [Ht|Ht] end;
    apply String.eqb_eq in Ht as ->; cbn; lia.
Qed.

(** One request: the store changes only along an allowed transition of that very
    reservation, and an event is emitted only with it. *)
Lemma transition_cases a r rt state a' resp :
  handleReservationTransition a r rt state = (a', resp) ->
  let id := pathID r (rt_IDParam rt) in
  (a' = a) \/
  (exists c, reservation_state a id = Some c /\ transitionAllowed c state = true /\
     reservation_state a' id = Some state /\
     (forall id', id' ≠ id -> Get (app_Store a') reservationsResource id' = Get (app_Store a) reservationsResource id') /\
     (app_Events a' = app_Events a \/
      exists e, ev_Name e = eventName state /\ Publish (app_Events a) e = Some (app_Events a'))).
Proof.
  unfold handleReservationTransition. cbn zeta. set (id := pathID r (rt_IDParam rt)).
  destruct (Get (app_Store a) reservationsResource id) as [rc|] eqn:Eg; [|intros [= <- _]; by left].
  destruct (String.eqb _ state); [intros [= <- _]; by left|].
  destruct (transitionAllowed _ state) eqn:Et; [|intros [= <- _]; by left]. cbn [negb].
  unfold UpdateRecordWithEvent. pose proof (Update_cases (app_Store a) reservationsResource id
    {["state" := VString state]} (hr_now r)) as HU.
  destruct (Update _ _ _ _ _) as [s [rc'|]]; rewrite Eg in HU; [|done].
  destruct HU as (Hd & _ & _ & _ & _ & Hg). intros HH. right.
  exists (asString (mget (rec_Data rc) "state")).
  assert (app_Store a' = s /\ (app_Events a' = app_Events a \/
      exists e, ev_Name e = eventName state /\ Publish (app_Events a) e = Some (app_Events a'))) as [Hs He].
  { unfold reservation_event, publish_event in HH. destruct (str_empty (eventName state)).
    - injection HH as <- _. split; [done|by left].
    - cbn [publish_event] in HH. match type of HH with context [Publish _ ?e] => set (ev := e) in * end.
      destruct (Publish _ ev) as [b|] eqn:Ep; injection HH as <- _; cbn; (split; [done|]); [right|by left].
      exists ev. by split. }
  rewrite Hs. unfold reservation_state. rewrite Eg, Hs, Hg, decide_True by done. cbn.
  split; [done|]. split; [done|]. split; [unfold mget; by rewrite Hd|]. split; [|done].
  intros id' Hne. rewrite Hg, decide_False by naive_solver. done.
Qed.

(** The commit and release actions the platform registers for a reservation. *)
Definition transition_request : Type := http_request * route * bool.
Definition requested (q : transition_request) : string := if q.2 then "committed" else "released".
Definition serve (a : app) (q : transition_request) : app :=
  fst (handleReservationTransition a q.1.1 q.1.2 (requested q)).
Definition serve_all (a : app) (qs : list transition_request) : app := fold_left serve qs a.

Lemma serve_rank a q id :
  rank (default "" (reservation_state a id)) <= rank (default "" (reservation_state (serve a q) id)).
Proof.
  unfold serve. destruct (handleReservationTransition _ _ _ _) as [a' resp] eqn:E. cbn [fst].
  apply transition_cases in E as [->|(c & Hc & Ht & Hc' & Ho & _)]; [lia|].
  destruct (decide (id = pathID q.1.1 (rt_IDParam q.1.2))) as [->|Hne].
  - rewrite Hc, Hc'. cbn. apply transitionAllowed_rank in Ht. lia.
  - unfold reservation_state. rewrite Ho by done. lia.
Qed.

(** A reservation only moves forward: under any sequence of commit and release
    requests, to it or to other reservations, its state never goes back in the
    order reserved, committed, released. *)
Theorem reservation_monotone qs a id :
  rank (default "" (reservation_state a id)) <= rank (default "" (reservation_state (serve_all a qs) id)).
Proof.
  revert a. induction qs as [|q qs IH]; intros a; cbn; [lia|].
  etrans; [apply serve_rank|apply IH].
Qed.

(** Released is final: once a reservation is released, a commit request is
    refused with 409, a repeated release answers 200, and neither changes a
    record nor emits an event. *)
Theorem released_is_final a r rt state :
  reservation_state a (pathID r (rt_IDParam rt)) = Some "released" ->
  fst (handleReservationTransition a r rt state) = a /\
  (fst (snd (handleReservationTransition a r rt state)) =
     if String.eqb state "released" then StatusOK else StatusConflict).
Proof.
  unfold reservation_state, handleReservationTransition. intros Hs.
  destruct (Get _ _ _) as [rc|] eqn:E; [|done]. injection Hs as Hs. rewrite Hs.
  rewrite (String.eqb_sym state). destruct (String.eqb "released" state) eqn:Es; [done|].
  by destruct state.
Qed.

(** Each request emits at most one event, and only together with a strict
    advance of the reservation's state: so no reservation is ever committed or
    released twice as far as subscribers can tell. *)
Theorem transition_event_once a q id :
  id = pathID q.1.1 (rt_IDParam q.1.2) ->
  app_Events (serve a q) = app_Events a \/
  (rank (default "" (reservation_state a id)) < rank (default "" (reservation_state (serve a q) id)) /\
   exists e, ev_Name e = eventName (requested q) /\ Publish (app_Events a) e = Some (app_Events (serve a q))).
Proof.
  intros ->. unfold serve. destruct (handleReservationTransition _ _ _ _) as [a' resp] eqn:E. cbn [fst].
  apply transition_cases in E as [->|(c & Hc & Ht & Hc' & _ & [He|He])]; [by left|by left|].
  right. rewrite Hc, Hc'. cbn. apply transitionAllowed_rank in Ht. split; [lia|done].
Qed.

(** A new reservation starts in the state it was created with: a 201 answer to
    a reserve request leaves a record whose state is "reserved" and announces
    QuotaReserved with that record's id. *)
Theorem reserve_starts_reserved a r rt a' rc :
  rt_Resource rt = reservationsResource ->
  handleReservation a r rt "reserved" = (a', (StatusCreated, BRecord rc)) ->
  reservation_state a' (rec_ID rc) = Some "reserved" /\
  exists e, ev_Name e = "QuotaReserved" /\ ev_Data e !! "reservation_id" = Some (VString (rec_ID rc)) /\
            Publish (app_Events a) e = Some (app_Events a').
Proof.
  intros Hrt. unfold handleReservation. destruct (hr_body r) as [payload|]; [|done].
  destruct (CreateRecordWithEvent _ _ _ _ _ _) as [a1 [rc1|e]] eqn:Ec; [|by destruct e].
  intros [= <- <-]. cbn in Ec. apply CreateRecordWithEvent_ok in Ec as (s & Hc & <- & Hp).
  apply Create_ok in Hc as (_ & Hid & _ & _ & _ & Hd & Hg). split.
  - unfold reservation_state. rewrite <- Hrt, Hg, decide_True by (by rewrite Hid). cbn [fmap option_fmap option_map].
    unfold mget. rewrite Hd by done. by rewrite lookup_insert_ne, lookup_insert_eq by done.
  - eexists. split; [|split; [|exact Hp]]; [done|]. cbn [newEvent ev_Data].
    apply reservationEventData_id.
Qed.

End Handlers.

(** ** Witnesses *)

Definition demo_lib : GoLib := {|
  parse_quantity _ := None; parse_float _ := None; parse_int64 _ := None; parse_rfc3339 _ := None;
  format_rfc3339 _ := ""; time_string _ := ""; unmarshal_object _ := None; unmarshal_objects _ := None;
  unmarshal_strings _ := None; marshal _ := None; sprint _ := ""; sprintf f _ := f; sha256_hex s := s |}.

Definition demo_app (state : string) : app :=
  App_ (fst (Create NewStore reservationsResource {["id" := VString "R1"; "state" := VString state]} "x" 1)) NewEventBus.
Definition demo_request : http_request :=
  Request_ "POST" (Some ∅) {["id" := "R1"]} "" "t" "svc" 5 "u" "i1" "i2".
Definition demo_route : route := Route_ "POST" "/" "op" reservationsResource "" "id" true false true false "" false false "" false "".

Lemma released_is_final_witness :
  fst (@handleReservationTransition demo_lib (demo_app "released") demo_request demo_route "committed")
  = demo_app "released".
Proof.
  apply (@released_is_final demo_lib (demo_app "released") demo_request demo_route "committed").
  vm_compute. reflexivity.
Defined.

Lemma transition_event_once_witness :
  app_Events (@serve demo_lib (demo_app "reserved") (demo_request, demo_route, true)) ≠ NewEventBus /\
  rank (default "" (@reservation_state demo_lib (demo_app "reserved") "R1")) <
  rank (default "" (@reservation_state demo_lib (@serve demo_lib (demo_app "reserved") (demo_request, demo_route, true)) "R1")).
Proof.
  split; [vm_compute; congruence|].
  destruct (@transition_event_once demo_lib (demo_app "reserved") (demo_request, demo_route, true) "R1") as [H|[H _]];
    [vm_compute; reflexivity|exfalso; vm_compute in H; congruence|exact H].
Defined.

Definition demo_reserved : app * response :=
  handleReservation (App_ NewStore NewEventBus) demo_request demo_route "reserved".
Definition demo_reserved_record : record :=
  match snd (snd demo_reserved) with BRecord rc => rc | _ => Record_ "" ∅ 0 0 0 end.

Lemma reserve_starts_reserved_witness :
  @reservation_state demo_lib (fst demo_reserved) (rec_ID demo_reserved_record) = Some "reserved".
Proof.
  apply (@reserve_starts_reserved demo_lib (App_ NewStore NewEventBus) demo_request demo_route
           (fst demo_reserved) demo_reserved_record); vm_compute; reflexivity.
Defined.
