(* ===== verification/RateLimit.v ===== *)
(** * Rate limiting (internal/platform/ratelimit.go)

    The fixed-window limiter, the route classes with their quotas, the key that
    scopes a counter to a class and a principal, and the client address behind
    trusted proxies. *)

From stdpp Require Import base gmap strings list fin_maps.
From Stdlib Require Import ZArith Lia Ascii.
From S2P Require Import Prelude GoValue Store EventBus Crud.
Local Open Scope Z_scope.

(** ** The limiter *)

Record rateCounter := Counter { rc_count : Z; rc_expiresAt : Z }.

Record RateLimiter := Limiter {
  rl_limit : Z;
  rl_window : Z;
  rl_counters : gmap string rateCounter
}.

Definition NewRateLimiter (limit window : Z) : RateLimiter := Limiter limit window ∅.

(** The zero [time.Time], January 1 of year 1, in nanoseconds from the epoch. *)
Definition zero_time : Z := -62135596800000000000.
Definition zero_counter : rateCounter := Counter 0 zero_time.

Definition expired (now : Z) (c : rateCounter) : bool := rc_expiresAt c <? now.

Definition deleteExpired (now : Z) (m : gmap string rateCounter) : gmap string rateCounter :=
  filter (fun kc => expired now kc.2 = false) m.

Definition AllowWithin (l : RateLimiter) (key : string) (limit window now : Z) : RateLimiter * bool :=
  let m := deleteExpired now (rl_counters l) in
  let c0 := default zero_counter (m !! key) in
  let c1 := if expired now c0 then Counter 0 (now + window) else c0 in
  let c2 := Counter (rc_count c1 + 1) (rc_expiresAt c1) in
  (Limiter (rl_limit l) (rl_window l) (<[key := c2]> m), rc_count c2 <=? limit).

Definition Allow (l : RateLimiter) (key : string) (now : Z) : RateLimiter * bool :=
  AllowWithin l key (rl_limit l) (rl_window l) now.

(** ** Route classes *)

Definition rateClassDefault : string := "default".
Definition rateClassBuild : string := "build".
Definition rateClassTransfer : string := "transfer".
Definition rateClassWorkload : string := "workload".
Definition rateClassAuth : string := "auth".

Definition time_Minute : Z := 60000000000.

(** The rule (limit, window), or [None] for the default class. *)
Definition specialRateLimit (class : string) : option (Z * Z) :=
  if String.eqb class rateClassBuild then Some (30, time_Minute)
  else if String.eqb class rateClassTransfer then Some (60, time_Minute)
  else if String.eqb class rateClassWorkload then Some (60, time_Minute)
  else if String.eqb class rateClassAuth then Some (20, time_Minute)
  else None.

Definition rateLimitClass (rt : route) : string :=
  let p := rt_Pattern rt in
  if Contains p "/images/build" then rateClassBuild
  else if Contains p "/storage/transfers" then rateClassTransfer
  else if String.eqb (rt_Method rt) "POST" && (String.eqb p "/api/v1/jobs" || HasPrefix p "/api/v1/jobs/")
  then rateClassWorkload
  else if Contains p "/login" || Contains p "/api-tokens" then rateClassAuth
  else rateClassDefault.

(** ** Principals *)

Fixpoint split_on (c : ascii) (l : list ascii) : list (list ascii) :=
  match l with
  | [] => [[]]
  | d :: l' =>
      if Ascii.eqb c d then [] :: split_on c l'
      else match split_on c l' with
           | [] => [[d]]
           | w :: ws => (d :: w) :: ws
           end
  end.

(** [strings.Split] on a one-byte separator. *)
Definition Split (s : string) (c : ascii) : list string := map of_bytes (split_on c (bytes_of s)).

Definition count_byte (c : ascii) (s : string) : nat :=
  length (List.filter (Ascii.eqb c) (bytes_of s)).

(** [strings.Trim(s, "[]")] *)
Definition TrimBrackets (s : string) : string :=
  let ps := [["["%char]; ["]"%char]] in
  let l := trim_loop ps (String.length s) (bytes_of s) in
  of_bytes (rev (trim_loop ps (length l) (rev l))).

(** Package net, and the numeric test of [strconv.Atoi]. *)
Class NetLib (ip : Type) := {
  ParseIP : string -> option ip;
  ip_String : ip -> string;
  SplitHostPort : string -> option (string * string);
  Atoi_ok : string -> bool
}.

Section Principals.
Context `{GoLib} {ip : Type} `{NetLib ip}.

Definition remoteIPAndKey (remoteAddr : string) : option ip * string :=
  let host := match SplitHostPort remoteAddr with
              | Some (h, _) => if str_empty h then TrimBrackets remoteAddr else h
              | None => TrimBrackets remoteAddr
              end in
  match ParseIP host with
  | None => (None, remoteAddr)
  | Some i => (Some i, ip_String i)
  end.

Definition parseForwardedHop (value0 : string) : option ip :=
  let value := TrimSpace value0 in
  if str_empty value then None
  else match SplitHostPort value with
       | Some (host, port) => if Atoi_ok port then ParseIP (TrimBrackets host) else None
       | None => if (count_byte ":" value =? 1)%nat then None else ParseIP (TrimBrackets value)
       end.

(** A trusted proxy list: each entry is the membership test of its CIDR block. *)
Definition isTrustedProxy (i : ip) (trusted : list (ip -> bool)) : bool := existsb (fun c => c i) trusted.

Fixpoint first_untrusted_hop (trusted : list (ip -> bool)) (hops : list string) : option ip :=
  match hops with
  | [] => None
  | h :: hs =>
      match parseForwardedHop h with
      | None => first_untrusted_hop trusted hs
      | Some i => if isTrustedProxy i trusted then first_untrusted_hop trusted hs else Some i
      end
  end.

(** [remote] is [r.RemoteAddr], [xff] the X-Forwarded-For header; the loop walks
    the hops from the last to the first. *)
Definition ClientIPFromRequest (remote xff : string) (trusted : list (ip -> bool)) : string :=
  let '(remoteIP, remoteKey) := remoteIPAndKey remote in
  match remoteIP with
  | None => remoteKey
  | Some i =>
      if match trusted with [] => true | _ => false end || negb (isTrustedProxy i trusted) then remoteKey
      else
        let forwarded := TrimSpace xff in
        if str_empty forwarded then remoteKey
        else match first_untrusted_hop trusted (rev (Split forwarded ",")) with
             | Some hop => ip_String hop
             | None => remoteKey
             end
  end.

(** [user] is the verified principal, when there is one. *)
Definition rateLimitKey (user : option object) (rt : route) (class remote xff : string)
    (trusted : list (ip -> bool)) : string :=
  let by_ip := class +:+ "|ip:" +:+ ClientIPFromRequest remote xff trusted in
  if rt_AuthRequired rt then
    match user with
    | Some u => let id := asString (mget u "id") in
                if str_empty id then by_ip else class +:+ "|user:" +:+ id
    | None => by_ip
    end
  else by_ip.

(** A client cannot choose its own rate-limit address: when the peer is not a
    trusted proxy the X-Forwarded-For header has no influence, and when it is,
    the address used is the nearest hop that is not itself a trusted proxy, or
    the peer's own when every hop is. *)
Theorem client_ip_not_spoofable remote xff trusted :
  let '(remoteIP, remoteKey) := remoteIPAndKey remote in
  match remoteIP with
  | None => ClientIPFromRequest remote xff trusted = remoteKey
  | Some i =>
      (isTrustedProxy i trusted = false -> ClientIPFromRequest remote xff trusted = remoteKey) /\
      (ClientIPFromRequest remote xff trusted = remoteKey \/
       exists near hop far i',
         Split (TrimSpace xff) "," = far ++ hop :: near /\ parseForwardedHop hop = Some i' /\
         isTrustedProxy i' trusted = false /\ ClientIPFromRequest remote xff trusted = ip_String i' /\
         Forall (fun h => forall j, parseForwardedHop h = Some j -> isTrustedProxy j trusted = true) near)
  end.
Proof.
  assert (forall hops i', first_untrusted_hop trusted hops = Some i' ->
    exists near hop far, hops = near ++ hop :: far /\ parseForwardedHop hop = Some i' /\
      isTrustedProxy i' trusted = false /\
      Forall (fun h => forall j, parseForwardedHop h = Some j -> isTrustedProxy j trusted = true) near) as Hhop.
  { induction hops as [|h hs IH]; intros i'; cbn; [done|].
    destruct (parseForwardedHop h) as [j|] eqn:Ej; [destruct (isTrustedProxy j trusted) eqn:Et|].
    2: { intros [= ->]. exists [], h, hs. by repeat split. }
    all: intros (near & hop & far & -> & ? & ? & ?)%IH; exists (h :: near), hop, far;
      repeat split; try done; constructor; try done; congruence. }
  unfold ClientIPFromRequest. destruct (remoteIPAndKey remote) as [[i|] key]; [|done]. split.
  - intros ->. by rewrite orb_true_r.
  - destruct (_ || _); [by left|]. destruct (str_empty _); [by left|].
    destruct (first_untrusted_hop _ _) as [i'|] eqn:E; [right|by left].
    apply Hhop in E as (near & hop & far & Hs & Hp & Ht & Hf).
    exists (rev near), hop, (rev far), i'. split; [|repeat split; try done; by apply Forall_rev].
    apply (f_equal (@rev string)) in Hs. rewrite rev_involutive, rev_app_distr in Hs. cbn in Hs.
    by rewrite <- app_assoc in Hs.
Qed.

(** ** Budgets are separate *)

Definition rateClasses : list string :=
  [rateClassDefault; rateClassBuild; rateClassTransfer; rateClassWorkload; rateClassAuth].

Lemma before_bar_inj c1 c2 a b :
  c1 ∈ rateClasses -> c2 ∈ rateClasses -> c1 +:+ ("|" +:+ a) = c2 +:+ ("|" +:+ b) -> c1 = c2 /\ a = b.
Proof.
  unfold rateClasses. intros H1 H2.
  repeat (apply elem_of_cons in H1 as [->|H1]); [..|by apply elem_of_nil in H1];
    repeat (apply elem_of_cons in H2 as [->|H2]); try (by apply elem_of_nil in H2);
    cbn; intros [= ]; by subst.
Qed.

Lemma rateLimitClass_in rt : rateLimitClass rt ∈ rateClasses.
Proof. unfold rateLimitClass, rateClasses. repeat case_match; set_solver. Qed.

(** Who a request is charged to: the verified user of an authenticated route, or
    the client address. *)
Definition principal (user : option object) (rt : route) (remote xff : string) (trusted : list (ip -> bool)) : string + string :=
  match user with
  | Some u => if rt_AuthRequired rt && negb (str_empty (asString (mget u "id"))) then inl (asString (mget u "id"))
              else inr (ClientIPFromRequest remote xff trusted)
  | None => inr (ClientIPFromRequest remote xff trusted)
  end.

Lemma rateLimitKey_principal user rt class remote xff trusted :
  rateLimitKey user rt class remote xff trusted =
  class +:+ "|" +:+ match principal user rt remote xff trusted with inl u => "user:" +:+ u | inr i => "ip:" +:+ i end.
Proof.
  unfold rateLimitKey, principal. cbn zeta. destruct user as [u|], (rt_AuthRequired rt); try done.
  cbn [andb]. by destruct (str_empty _).
Qed.

(** Rate-limit budgets do not overlap: two requests share a counter exactly when
    they are in the same route class and are charged to the same principal, an
    authenticated user never sharing one with an address, whatever the route, the
    user id or the forwarded addresses contain. *)
Theorem rate_key_separates user1 user2 rt1 rt2 remote1 remote2 xff1 xff2 trusted :
  rateLimitKey user1 rt1 (rateLimitClass rt1) remote1 xff1 trusted =
  rateLimitKey user2 rt2 (rateLimitClass rt2) remote2 xff2 trusted <->
  rateLimitClass rt1 = rateLimitClass rt2 /\
  principal user1 rt1 remote1 xff1 trusted = principal user2 rt2 remote2 xff2 trusted.
Proof.
  rewrite !rateLimitKey_principal. split; [|by intros [-> ->]].
  intros [Hc Hp]%before_bar_inj; try apply rateLimitClass_in. split; [done|].
  destruct (principal user1 _ _ _ _), (principal user2 _ _ _ _); simplify_eq/=; done.
Qed.

End Principals.

(** ** The window *)

Lemma AllowWithin_live l key limit window now c :
  rl_counters l !! key = Some c -> now <= rc_expiresAt c ->
  AllowWithin l key limit window now =
  (Limiter (rl_limit l) (rl_window l)
     (<[key := Counter (rc_count c + 1) (rc_expiresAt c)]> (deleteExpired now (rl_counters l))),
   rc_count c + 1 <=? limit).
Proof.
  intros Hc Hn. unfold AllowWithin, deleteExpired.
  assert (expired now c = false) as He by (unfold expired; apply Z.ltb_ge; lia).
  rewrite map_lookup_filter_Some_2 with (x := c) by done. cbn. by rewrite He.
Qed.

Lemma AllowWithin_other l key key' limit window now c :
  key ≠ key' -> rl_counters l !! key = Some c -> now <= rc_expiresAt c ->
  rl_counters (fst (AllowWithin l key' limit window now)) !! key = Some c.
Proof.
  intros Hne Hc Hn. unfold AllowWithin. cbn. rewrite lookup_insert_ne by done.
  apply map_lookup_filter_Some_2; [done|]. cbn. unfold expired. apply Z.ltb_ge. lia.
Qed.

Lemma AllowWithin_fresh l key limit window now :
  zero_time < now -> 0 <= window ->
  (forall c, rl_counters l !! key = Some c -> rc_expiresAt c < now) ->
  AllowWithin l key limit window now =
  (Limiter (rl_limit l) (rl_window l)
     (<[key := Counter 1 (now + window)]> (deleteExpired now (rl_counters l))), 1 <=? limit).
Proof.
  intros Hz Hw Hc. unfold AllowWithin, deleteExpired.
  destruct (filter _ _ !! key) as [c|] eqn:E.
  - apply map_lookup_filter_Some in E as [E He]. cbn in He. apply Hc in E.
    unfold expired in He. apply Z.ltb_ge in He. lia.
  - cbn. unfold expired, zero_counter. cbn. rewrite (proj2 (Z.ltb_lt _ _)) by lia. done.
Qed.

(** A call: the key it is charged to and its instant. *)
Fixpoint run_calls (l : RateLimiter) (limit window : Z) (calls : list (string * Z))
    : RateLimiter * list (string * bool) :=
  match calls with
  | [] => (l, [])
  | (k, t) :: cs =>
      let '(l1, ok) := AllowWithin l k limit window t in
      let '(l2, oks) := run_calls l1 limit window cs in
      (l2, (k, ok) :: oks)
  end.

Definition allowed_for (key : string) (oks : list (string * bool)) : nat :=
  length (List.filter (fun p => String.eqb p.1 key && p.2) oks).
Definition calls_for (key : string) (calls : list (string * Z)) : nat :=
  length (List.filter (fun p => String.eqb p.1 key) calls).

Lemma run_calls_live calls : forall l key limit window c,
  rl_counters l !! key = Some c -> Forall (fun p => p.2 <= rc_expiresAt c) calls ->
  Z.of_nat (allowed_for key (snd (run_calls l limit window calls))) =
  Z.max 0 (Z.min (Z.of_nat (calls_for key calls)) (limit - rc_count c)).
Proof.
  induction calls as [|[k t] cs IH]; intros l key limit window c Hc Ht; cbn [run_calls].
  - cbn. lia.
  - inversion Ht as [|? ? Ht1 Ht2]; subst. cbn in Ht1. unfold calls_for. cbn [List.filter fst].
    destruct (String.eqb_spec k key) as [->|Hne].
    + rewrite (AllowWithin_live _ _ _ _ _ _ Hc Ht1). set (l1 := Limiter _ _ _).
      specialize (IH l1 key limit window (Counter (rc_count c + 1) (rc_expiresAt c))).
      destruct (run_calls l1 limit window cs) as [l2 oks]. cbn [snd] in *.
      unfold allowed_for in *. cbn [List.filter fst snd]. rewrite String.eqb_refl. cbn [andb].
      fold (calls_for key cs). unfold calls_for in *. cbn [length].
      specialize (IH ltac:(cbn; apply lookup_insert_eq) Ht2). cbn [rc_count] in IH.
      destruct (Z.leb_spec (rc_count c + 1) limit); cbn [length]; lia.
    + pose proof (AllowWithin_other l key k limit window t c ltac:(done) Hc Ht1) as Hc1.
      destruct (AllowWithin l k limit window t) as [l1 ok]. cbn [fst] in Hc1.
      specialize (IH l1 key limit window c Hc1 Ht2).
      destruct (run_calls l1 limit window cs) as [l2 oks]. cbn [snd] in *.
      unfold allowed_for. cbn [List.filter fst]. by rewrite (proj2 (String.eqb_neq k key) Hne).
Qed.

(** The quota is exact: from the call that opens a key's window at [t0], of
    the calls charged to that key during the window exactly the first [limit] are
    allowed, however calls for other keys interleave. *)
Theorem rate_limit_exact l key limit window t0 calls :
  zero_time < t0 -> 0 <= window ->
  (forall c, rl_counters l !! key = Some c -> rc_expiresAt c < t0) ->
  Forall (fun p => p.2 <= t0 + window) calls ->
  Z.of_nat (allowed_for key (snd (run_calls l limit window ((key, t0) :: calls)))) =
  Z.max 0 (Z.min (1 + Z.of_nat (calls_for key calls)) limit).
Proof.
  intros Hz Hw Hc Ht. cbn [run_calls]. rewrite AllowWithin_fresh by done. set (l1 := Limiter _ _ _).
  pose proof (run_calls_live calls l1 key limit window (Counter 1 (t0 + window))
    ltac:(apply lookup_insert_eq) Ht) as IH. cbn [rc_count] in IH.
  destruct (run_calls l1 limit window calls) as [l2 oks]. cbn [snd] in *.
  unfold allowed_for in *. cbn [List.filter fst snd]. rewrite String.eqb_refl. cbn [andb].
  destruct (Z.leb_spec 1 limit); cbn [length]; lia.
Qed.

(** ** Witnesses *)

Lemma rate_limit_exact_witness :
  allowed_for "a" (snd (run_calls (NewRateLimiter 2 10) 2 10 [("a", 5); ("b", 6); ("a", 7); ("a", 8)])) = 2%nat.
Proof.
  apply Nat2Z.inj.
  apply (rate_limit_exact (NewRateLimiter 2 10) "a" 2 10 5 [("b", 6); ("a", 7); ("a", 8)]).
  - reflexivity.
  - lia.
  - intros c. cbn. rewrite lookup_empty. discriminate.
  - repeat constructor; cbn; lia.
Defined.

