(* ===== verification/InputLimits.v ===== *)
(** * Input limits (internal/platform/input_limits.go)

    The size and document-count limits on request bodies and manifests.  The
    YAML/JSON document decoder is a library: [decode_documents] yields the
    documents it decodes one after the other and, when it stops on an error
    other than the end of the input, that error. *)

From stdpp Require Import base gmap strings list fin_maps.
From Stdlib Require Import ZArith Lia Ascii.
From S2P Require Import Prelude GoValue Crud.
Local Open Scope Z_scope.
Local Open Scope go_scope.

Definition defaultMaxAPIBodyBytes : Z := 10 * 1024 * 1024.
Definition defaultMaxConfigFileBytes : Z := 1024 * 1024.
Definition defaultMaxConfigFileDocuments : Z := 50.
Definition StatusRequestEntityTooLarge : Z := 413.

(** An error is an InputLimitError or another one, with its text. *)
Inductive input_error :=
| InputLimitError (status : Z) (text : string)
| OtherError (text : string).

Definition error_text (e : input_error) : string :=
  match e with InputLimitError _ t | OtherError t => t end.

Definition InputLimitStatus (e : input_error) (fallback : Z) : Z :=
  match e with InputLimitError status _ => status | OtherError _ => fallback end.

Definition InputLimitMessage (e : input_error) (fallback : string) : string :=
  match e with InputLimitError _ text => text | OtherError _ => fallback end.

Record limitConfig := LimitConfig {
  cfg_MaxAPIBodyBytes : Z;
  cfg_MaxConfigFileBytes : Z;
  cfg_MaxConfigFileDocuments : Z
}.

Definition EffectiveMaxAPIBodyBytes (c : limitConfig) : Z :=
  if 0 <? cfg_MaxAPIBodyBytes c then cfg_MaxAPIBodyBytes c else defaultMaxAPIBodyBytes.
Definition EffectiveMaxConfigFileBytes (c : limitConfig) : Z :=
  if 0 <? cfg_MaxConfigFileBytes c then cfg_MaxConfigFileBytes c else defaultMaxConfigFileBytes.
Definition EffectiveMaxConfigFileDocuments (c : limitConfig) : Z :=
  if 0 <? cfg_MaxConfigFileDocuments c then cfg_MaxConfigFileDocuments c else defaultMaxConfigFileDocuments.

Class YamlLib := { decode_documents : string -> list object * option string }.

Section Limits.
Context `{GoLib} `{YamlLib}.

Definition validateManifestBytes (raw : string) (maxBytes : Z) : result input_error unit :=
  if (0 <? maxBytes) && (maxBytes <? Z.of_nat (String.length raw))
  then Err (InputLimitError StatusRequestEntityTooLarge
              (sprintf "manifest exceeds max byte size of %d bytes" [VInt maxBytes]))
  else Ok tt.

(** The decoding loop: [documents] counts the non-empty documents so far. *)
Fixpoint count_documents (docs : list object) (stop : option string) (maxDocuments documents : Z)
    : result input_error unit :=
  match docs with
  | [] => match stop with Some e => Err (OtherError e) | None => Ok tt end
  | doc :: rest =>
      if (size doc =? 0)%nat then count_documents rest stop maxDocuments documents
      else
        let documents' := documents + 1 in
        if maxDocuments <? documents'
        then Err (InputLimitError StatusUnprocessableEntity
                    (sprintf "manifest document count exceeds limit of %d" [VInt maxDocuments]))
        else count_documents rest stop maxDocuments documents'
  end.

Definition validateManifestDocuments (raw : string) (maxDocuments : Z) : result input_error unit :=
  if maxDocuments <=? 0 then Ok tt
  else count_documents (decode_documents raw).1 (decode_documents raw).2 maxDocuments 0.

Definition ValidateManifestLimits (raw0 : string) (maxBytes maxDocuments : Z) : result input_error unit :=
  let raw := TrimSpace raw0 in
  if str_empty raw then Ok tt
  else validateManifestBytes raw maxBytes ;;? validateManifestDocuments raw maxDocuments.

(** strings.Split(text, "\n") *)
Fixpoint split_lines (l : list ascii) (cur : list ascii) : list string :=
  match l with
  | [] => [of_bytes (rev cur)]
  | c :: l' => if Ascii.eqb c (byte 10) then of_bytes (rev cur) :: split_lines l' [] else split_lines l' (c :: cur)
  end.

Definition looksLikeManifestDocument (text : string) : bool :=
  HasPrefix text "{" || HasPrefix text "[" || HasPrefix text "---" ||
  Contains text (String (byte 10) "---") ||
  existsb (fun line => HasPrefix (TrimSpace line) "apiVersion:" || HasPrefix (TrimSpace line) "kind:"
                       || HasPrefix (TrimSpace line) "metadata:") (split_lines (bytes_of text) []).

(** The []byte case of the type switch does not arise for decoded JSON values. *)
Definition ValidateManifestValue (value : any) (maxBytes maxDocuments : Z) : result input_error unit :=
  match value with
  | VNil => Ok tt
  | VString typed =>
      let raw := TrimSpace typed in
      if str_empty raw then Ok tt
      else
        validateManifestBytes raw maxBytes ;;?
        if negb (looksLikeManifestDocument raw) then Ok tt else validateManifestDocuments raw maxDocuments
  | _ => match marshal value with
         | None => Err (OtherError "json: unsupported value")
         | Some raw => ValidateManifestLimits raw maxBytes maxDocuments
         end
  end.

(** ** What the limits guarantee *)

Definition non_empty_documents (raw : string) : list object :=
  List.filter (fun doc => negb (size doc =? 0)%nat) (decode_documents raw).1.

Lemma count_documents_ok docs stop maxDocuments documents :
  documents <= maxDocuments ->
  count_documents docs stop maxDocuments documents = Ok tt <->
  stop = None /\ documents + Z.of_nat (length (List.filter (fun doc => negb (size doc =? 0)%nat) docs)) <= maxDocuments.
Proof.
  revert documents. induction docs as [|doc docs IH]; intros documents Hle; cbn [count_documents List.filter].
  - destruct stop; cbn; split; [done|intros [? _]; done|intros _; split; [done|lia]|done].
  - destruct (size doc =? 0)%nat; cbn [negb]; [by apply IH|].
    destruct (Z.ltb_spec maxDocuments (documents + 1)) as [Hlt|Hge]; cbn [length].
    + split; [done|]. intros [_ ?]. lia.
    + rewrite IH by lia. split; intros [? ?]; (split; [done|lia]).
Qed.

(** A non-blank manifest passes the limits exactly when its trimmed text has at
    most the byte limit, the decoder reads it to the end, and it holds at most the
    limit of non-empty documents: empty documents are not counted, and a text the
    decoder cannot read is refused. *)
Theorem manifest_limits_exact raw maxBytes maxDocuments :
  0 < maxBytes -> 0 < maxDocuments -> TrimSpace raw ≠ "" ->
  ValidateManifestLimits raw maxBytes maxDocuments = Ok tt <->
  Z.of_nat (String.length (TrimSpace raw)) <= maxBytes /\
  (decode_documents (TrimSpace raw)).2 = None /\
  Z.of_nat (length (non_empty_documents (TrimSpace raw))) <= maxDocuments.
Proof.
  intros Hb Hd Hne. unfold ValidateManifestLimits, str_empty.
  destruct (String.eqb_spec (TrimSpace raw) ""); [done|].
  rewrite res_bind_ok. unfold validateManifestBytes, validateManifestDocuments.
  destruct (Z.ltb_spec 0 maxBytes); [|lia]. destruct (Z.leb_spec maxDocuments 0); [lia|].
  pose proof (count_documents_ok (decode_documents (TrimSpace raw)).1 (decode_documents (TrimSpace raw)).2
    maxDocuments 0 ltac:(lia)) as Hc. fold (non_empty_documents (TrimSpace raw)) in Hc. cbn [andb].
  destruct (Z.ltb_spec maxBytes (Z.of_nat (String.length (TrimSpace raw)))); split.
  - intros (? & ? & _); done.
  - intros [? _]; lia.
  - intros (_ & _ & [? ?]%Hc). split_and!; [lia|done|lia].
  - intros (_ & ? & ?). exists tt. split; [done|]. apply Hc. split; [done|lia].
Qed.

End Limits.

Definition two_documents : YamlLib := {|
  decode_documents t := if String.eqb t "a" then ([{[ "kind" := VString "Pod" ]}; ∅; {[ "kind" := VString "Job" ]}], None)
                        else ([], Some "yaml error") |}.
Definition text_lib : GoLib := {|
  parse_quantity _ := None; parse_float _ := None; parse_int64 _ := None; parse_rfc3339 _ := None;
  format_rfc3339 _ := ""; time_string _ := ""; unmarshal_object _ := None; unmarshal_objects _ := None;
  unmarshal_strings _ := None; marshal _ := None; sprint _ := ""; sprintf f _ := f; sha256_hex s := s |}.

Lemma manifest_limits_exact_witness :
  @ValidateManifestLimits text_lib two_documents " a" 1 2 = Ok tt /\
  @ValidateManifestLimits text_lib two_documents " a" 1 1 ≠ Ok tt.
Proof.
  split.
  - apply (@manifest_limits_exact text_lib two_documents); [lia|lia|discriminate|].
    vm_compute. split; [discriminate|split; [reflexivity|discriminate]].
  - intros [_ [_ Hc]]%(@manifest_limits_exact text_lib two_documents); [|lia|lia|discriminate].
    vm_compute in Hc. apply Hc. reflexivity.
Defined.
