(* ===== verification/Config.v ===== *)
(** * Configuration (internal/platform/config.go, and the principals of api_key.go)

    The configuration of a process: reading it from the environment with the
    diagnostics of malformed values, the validation that start-up runs on it, and the
    questions the platform asks it (which services a process hosts, its environment
    profile, its service identity).  [os.Getenv] reads the finite map of an
    environment; number, duration, JSON and URL parsing are the class [EnvLib].  A
    [time.Duration] is its nanoseconds. *)

From stdpp Require Import base gmap strings list fin_maps.
From Stdlib Require Import ZArith Lia Ascii.
From S2P Require Import Prelude GoValue Store EventBus Crud RateLimit InputLimits.
Local Open Scope Z_scope.
Local Open Scope go_scope.

Definition time_Second : Z := 1000000000.
Definition time_Hour : Z := 60 * time_Minute.

Definition configPositiveValidationSuffix : string := " must be positive".
Definition mediaUploadServiceName : string := "media-upload-service".
Definition runtimeProfileLocal : string := "local".
Definition runtimeProfileTest : string := "test".
Definition runtimeProfileDev : string := "dev".
Definition runtimeProfileStaging : string := "staging".
Definition runtimeProfileProduction : string := "production".
Definition envJWTJWKSURL : string := "JWT_JWKS_URL".
Definition envProductName : string := "PRODUCT_NAME".
Definition envAppEnv : string := "APP_ENV".
Definition envJWTIssuer : string := "JWT_ISSUER".
Definition envJWTAudience : string := "JWT_AUDIENCE".
Definition envJWTAudiences : string := "JWT_AUDIENCES".
Definition envAPIKeyUsers : string := "API_KEY_PRINCIPALS".
Definition envDevHeaderAuth : string := "DEV_HEADER_AUTH".
Definition envDevAuthSigningKey : string := "DEV_AUTH_SIGNING_KEY".
Definition envAuthorizationPolicyURL : string := "AUTHORIZATION_POLICY_URL".
Definition envAuthorizationPolicyAPIKey : string := "AUTHORIZATION_POLICY_API_KEY".
Definition envDatabaseURL : string := "DATABASE_URL".
Definition envRedisURL : string := "REDIS_URL".
Definition envEventBusURL : string := "EVENT_BUS_URL".
Definition envEventRelayBatchSize : string := "EVENT_RELAY_BATCH_SIZE".
Definition envObjectStoreURL : string := "OBJECT_STORE_URL".
Definition envObjectStoreAccessKey : string := "OBJECT_STORE_ACCESS_KEY".
Definition envObjectStoreSecretKey : string := "OBJECT_STORE_SECRET_KEY".
Definition envObjectStoreBucket : string := "OBJECT_STORE_BUCKET".
Definition envServiceURLs : string := "SERVICE_URLS".
Definition envServiceAPIKey : string := "SERVICE_API_KEY".
Definition envServiceIdentityName : string := "SERVICE_IDENTITY_NAME".
Definition envServiceIdentityKey : string := "SERVICE_IDENTITY_KEY".
Definition envServiceTrustedIdentities : string := "SERVICE_TRUSTED_IDENTITIES".
Definition envDexURL : string := "DEX_URL".
Definition envLDAPEnabled : string := "LDAP_ENABLED".
Definition envLDAPHost : string := "LDAP_HOST".
Definition envLDAPPort : string := "LDAP_PORT".
Definition envLDAPUseTLS : string := "LDAP_USE_TLS".
Definition envLDAPBindDN : string := "LDAP_BIND_DN".
Definition envLDAPBindPassword : string := "LDAP_BIND_PASSWORD".
Definition envLDAPUserSearchBase : string := "LDAP_USER_SEARCH_BASE".
Definition envLDAPUserFilter : string := "LDAP_USER_FILTER".
Definition envLDAPMirrorSyncInterval : string := "LDAP_MIRROR_SYNC_INTERVAL".
Definition envProduction : string := "PRODUCTION".
Definition envRequireAuth : string := "REQUIRE_AUTH".
Definition envTrustedProxyCIDRs : string := "TRUSTED_PROXY_CIDRS".
Definition envMaxAPIBodyBytes : string := "MAX_API_BODY_BYTES".
Definition envMaxConfigFileBytes : string := "MAX_CONFIGFILE_BYTES".
Definition envMaxConfigFileDocuments : string := "MAX_CONFIGFILE_DOCUMENTS".
Definition envAdapterConfig : string := "ADAPTER_CONFIG".
Definition envImageCheckEnabled : string := "K8S_IMAGE_CHECK_ENABLED".
Definition envImageBuildExecutor : string := "IMAGE_BUILD_EXECUTOR".
Definition envImageBuildCosignKey : string := "IMAGE_BUILD_COSIGN_KEY".
Definition envImageProvenanceRequired : string := "IMAGE_PUBLISH_REQUIRE_PROVENANCE".
Definition envDockerCleanupEnabled : string := "DOCKER_CLEANUP_ENABLED".
Definition envDockerCleanupNamespace : string := "DOCKER_CLEANUP_NAMESPACE".
Definition envFastTransferMoverImage : string := "FAST_TRANSFER_MOVER_IMAGE".
Definition envDockerDindImage : string := "IMAGE_DOCKER_DIND".
Definition envGPUUsageRetentionDays : string := "GPU_USAGE_RETENTION_DAYS".
Definition envGPUSnapshotWindowMinutes : string := "GPU_SNAPSHOT_WINDOW_MINUTES".
Definition envLonghornNamespace : string := "LONGHORN_NAMESPACE".
Definition envLonghornRWXHealthInterval : string := "LONGHORN_RWX_HEALTH_INTERVAL".
Definition envLonghornRWXAutoRepair : string := "LONGHORN_RWX_AUTO_REPAIR_ENABLED".
Definition envLonghornRWXRepairCooldown : string := "LONGHORN_RWX_REPAIR_COOLDOWN".
Definition envLonghornRWXSnapshotWarn : string := "LONGHORN_RWX_SNAPSHOT_WARN_LIMIT".
Definition envLonghornRWXSnapshotBlock : string := "LONGHORN_RWX_SNAPSHOT_BLOCK_LIMIT".
Definition envPriorityClassSyncInterval : string := "PRIORITY_CLASS_SYNC_INTERVAL".
Definition envCLICACertPEM : string := "CLI_CA_CERT_PEM".
Definition envVPNAPIKey : string := "VPN_API_KEY".
Definition envVPNAPIURLs : string := "VPN_API_URLS".
Definition envVPNAPIURL : string := "VPN_API_URL".
Definition envVPNAPITimeout : string := "VPN_API_TIMEOUT_SEC".
Definition envMinIOConsoleAccessKey : string := "MINIO_ACCESS_KEY".
Definition envMinIOConsoleSecretKey : string := "MINIO_SECRET_KEY".
Definition envMinIOOperationTimeout : string := "MINIO_OPERATION_TIMEOUT_SEC".
Definition envPGAdminDefaultEmail : string := "PGADMIN_DEFAULT_EMAIL".
Definition envPGAdminDefaultPassword : string := "PGADMIN_DEFAULT_PASSWORD".
Definition envPGAdminSSOHTTPTimeout : string := "PGADMIN_SSO_HTTP_TIMEOUT_SEC".
Definition envStreamTURNURIs : string := "STREAM_TURN_URIS".
Definition envStreamTURNSharedSecret : string := "STREAM_TURN_SHARED_SECRET".
Definition envStreamTURNCredentialTTL : string := "STREAM_TURN_CREDENTIAL_TTL".
Definition envStreamMaxBitrateKbps : string := "STREAM_MAX_BITRATE_KBPS".
Definition envStreamMaxConcurrentSessions : string := "STREAM_MAX_CONCURRENT_SESSIONS".
Definition envStreamEgressBudgetKbps : string := "STREAM_EGRESS_BUDGET_KBPS".
Definition envStreamSidecarImage : string := "STREAM_SIDECAR_IMAGE".
Definition envStorageClassOptions : string := "STORAGE_CLASS_OPTIONS".
Definition envGroupStorageClassOptions : string := "GROUP_STORAGE_CLASS_OPTIONS".
Definition envGroupRegistryProfileOptions : string := "GROUP_REGISTRY_PROFILE_OPTIONS".
Definition envRegistryProfileOptions : string := "REGISTRY_PROFILE_OPTIONS".
Definition configDiagnosticJSONObject : string := "JSON object".
Definition defaultEventRelayBatchSize : Z := 100.

Definition defaultProductName : string := "NexusPaaS".
Definition newline : string := String (Ascii.ascii_of_nat 10) "".
Definition defaultCLICACertPEM : string :=
  "-----BEGIN CERTIFICATE-----" +:+ newline +:+ "NEXUSPAAS-LOCAL-CLI-CA" +:+ newline +:+
  "-----END CERTIFICATE-----" +:+ newline.

(** ** Data *)

Record APIKeyPrincipal := Principal {
  akp_ID : string;
  akp_UserID : string;
  akp_Username : string;
  akp_Name : string;
  akp_Role : string;
  akp_Admin : bool;
  akp_Scopes : list string
}.

(** The zero value a map read yields for an absent key. *)
Definition no_principal : APIKeyPrincipal := Principal "" "" "" "" "" false [].

Record ServiceTrustedIdentity := TrustedIdentity {
  sti_Key : string;
  sti_PreviousKey : string;
  sti_Audiences : list string
}.

Record AdapterAuthConfig := AdapterAuth {
  aac_Type : string;
  aac_Token : string;
  aac_Username : string;
  aac_Password : string;
  aac_Header : string;
  aac_Value : string
}.

Record AdapterConfig := Adapter {
  ac_StripPrefix : string;
  ac_AddPrefix : string;
  ac_Auth : AdapterAuthConfig
}.

Record configParseDiagnostic := Diagnostic { pd_envName : string; pd_kind : string }.

Definition diagnostic_String (d : configParseDiagnostic) : string :=
  pd_envName d +:+ " has invalid " +:+ pd_kind d.

Section Config.
Context {ip : Type}.

Record config := Config_ {
  cf_ServiceName : string;
  cf_ProductName : string;
  cf_EnvironmentProfile : string;
  cf_HTTPAddr : string;
  cf_RequireAuth : bool;
  cf_DevHeaderAuth : bool;
  cf_DevAuthSigningKey : string;
  cf_APIKeys : gmap string bool;
  cf_APIKeyPrincipals : gmap string APIKeyPrincipal;
  cf_AllowedOrigins : gmap string bool;
  cf_TrustedProxyCIDRs : list (ip -> bool);
  cf_JWKSURL : string;
  cf_JWTIssuer : string;
  cf_JWTAudiences : gmap string bool;
  cf_AuthorizationPolicyURL : string;
  cf_AuthorizationPolicyAPIKey : string;
  cf_ServiceURLs : gmap string string;
  cf_ServiceAPIKey : string;
  cf_ServiceIdentityName : string;
  cf_ServiceIdentityKey : string;
  cf_ServiceTrustedIdentities : gmap string ServiceTrustedIdentity;
  cf_ServiceFallbackDisabled : bool;
  cf_DexURL : string;
  cf_LDAPEnabled : bool;
  cf_LDAPHost : string;
  cf_LDAPPort : Z;
  cf_LDAPUseTLS : bool;
  cf_LDAPBindDN : string;
  cf_LDAPBindPassword : string;
  cf_LDAPUserSearchBase : string;
  cf_LDAPUserFilter : string;
  cf_LDAPMirrorSyncInterval : Z;
  cf_DatabaseURL : string;
  cf_RedisURL : string;
  cf_EventBusURL : string;
  cf_EventRelayBatchSize : Z;
  cf_ObjectStoreURL : string;
  cf_ObjectStoreAccessKey : string;
  cf_ObjectStoreSecretKey : string;
  cf_ObjectStoreBucket : string;
  cf_OTLPEndpoint : string;
  cf_ServiceVersion : string;
  cf_LogLevel : string;
  cf_Production : bool;
  cf_ShutdownTimeout : Z;
  cf_MaintenanceInterval : Z;
  cf_AdapterTimeout : Z;
  cf_AdapterRetries : Z;
  cf_AdapterThreshold : Z;
  cf_AdapterOpenInterval : Z;
  cf_AuditRetentionDays : Z;
  cf_MaxAPIBodyBytes : Z;
  cf_MaxConfigFileBytes : Z;
  cf_MaxConfigFileDocuments : Z;
  cf_K8sNamespacePrefix : string;
  cf_ImageCheckEnabled : bool;
  cf_ImageProvenanceRequired : bool;
  cf_ImageBuildExecutor : string;
  cf_ImageBuildCosignKey : string;
  cf_DockerCleanupEnabled : bool;
  cf_DockerCleanupNamespace : string;
  cf_DockerCleanupImage : string;
  cf_FastTransferMoverImage : string;
  cf_WorkloadIdleTimeout : Z;
  cf_AutomatedPodDeletion : bool;
  cf_PlanWindowPodDeletion : bool;
  cf_DefaultQueueName : string;
  cf_GPUUsageSnapshotWindowMin : Z;
  cf_GPUUsageRetentionDays : Z;
  cf_LonghornNamespace : string;
  cf_LonghornRWXHealthInterval : Z;
  cf_LonghornRWXAutoRepair : bool;
  cf_LonghornRWXRepairCooldown : Z;
  cf_LonghornRWXSnapshotWarn : Z;
  cf_LonghornRWXSnapshotBlock : Z;
  cf_PriorityClassSyncInterval : Z;
  cf_VPNUsageEnabled : bool;
  cf_VPNUsageGrace : Z;
  cf_CLICACertPEM : string;
  cf_VPNAPIURLs : list string;
  cf_VPNAPIKey : string;
  cf_VPNAPITimeout : Z;
  cf_MinIOConsoleAccessKey : string;
  cf_MinIOConsoleSecretKey : string;
  cf_MinIOOperationTimeout : Z;
  cf_PGAdminDefaultEmail : string;
  cf_PGAdminDefaultPassword : string;
  cf_PGAdminSSOHTTPTimeout : Z;
  cf_StreamTURNURIs : list string;
  cf_StreamTURNSharedSecret : string;
  cf_StreamTURNCredentialTTL : Z;
  cf_StreamMaxBitrateKbps : Z;
  cf_StreamMaxConcurrentSessions : Z;
  cf_StreamEgressBudgetKbps : Z;
  cf_StreamSidecarImage : string;
  cf_StorageClassOptions : list string;
  cf_GroupStorageClassOptions : list string;
  cf_GroupRegistryProfileOptions : list string;
  cf_ExternalURLs : gmap string string;
  cf_AdapterConfigs : gmap string AdapterConfig;
  cf_parseDiagnostics : list configParseDiagnostic
}.

End Config.
Arguments config : clear implicits.

(** ** Small helpers *)

(** strings.TrimRight(s, "/") *)
Definition TrimRightSlash (s : string) : string :=
  of_bytes (rev (trim_loop [["/"%char]] (String.length s) (rev (bytes_of s)))).

Definition clampInt (value min max : Z) : Z :=
  if value <? min then min else if max <? value then max else value.

Definition list_items (value : string) : list string :=
  filter (fun item => item ≠ "") (map TrimSpace (Split value ",")).

Definition parseSet (value : string) : gmap string bool :=
  list_to_map (map (fun item => (item, true)) (list_items value)).

Definition parseList (value : string) : list string := list_items value.

Fixpoint firstNonEmptyList (values : list (list string)) : list string :=
  match values with
  | [] => []
  | v :: vs => match v with [] => firstNonEmptyList vs | _ => v end
  end.

Definition cliCACertPEM (value : string) : string :=
  let cert := TrimSpace value in if str_empty cert then defaultCLICACertPEM else cert.

Definition defaultServiceIdentityName (serviceName0 configured : string) : string :=
  let name := TrimSpace configured in
  if negb (str_empty name) then name
  else let serviceName := TrimSpace serviceName0 in
       if str_empty serviceName || String.eqb serviceName "all" then "" else serviceName.

Definition normalizeEnvironmentProfile (value : string) : string := ToLower (TrimSpace value).

Definition validEnvironmentProfile (profile : string) : bool :=
  bool_decide (profile ∈ [runtimeProfileLocal; runtimeProfileTest; runtimeProfileDev; runtimeProfileStaging; runtimeProfileProduction]).

Definition runtimeProfileIsProduction (profile : string) (production : bool) : bool :=
  if negb (str_empty profile) then String.eqb profile runtimeProfileProduction else production.

Definition effectiveEnvironmentProfile (profile : string) (production : bool) : string :=
  if negb (str_empty profile) then profile
  else if production then runtimeProfileProduction else runtimeProfileDev.

Definition profileConflictsWithProductionFlag (profile : string) (production productionSet : bool) (productionRaw : string) : bool :=
  if str_empty profile || negb productionSet || str_empty (TrimSpace productionRaw) then false
  else if negb (validEnvironmentProfile profile) then false
  else negb (Bool.eqb production (String.eqb profile runtimeProfileProduction)).

Definition defaultDevAllowedOrigins : gmap string bool :=
  list_to_map (map (fun o => (o, true))
    ["http://localhost:3000"; "http://localhost:5173"; "http://127.0.0.1:3000"; "http://127.0.0.1:5173"]).

(** The names in order, each kept once: the loop with a [seen] map. *)
Fixpoint dedup_trimmed (seen : gset string) (l : list string) : list string :=
  match l with
  | [] => []
  | x :: l' =>
      let t := TrimSpace x in
      if str_empty t || bool_decide (t ∈ seen) then dedup_trimmed seen l'
      else t :: dedup_trimmed ({[t]} ∪ seen) l'
  end.

Definition normalizedScopes (scopes : list string) : list string := dedup_trimmed ∅ scopes.

Definition authRoleGrantsStaticAdmin (role : string) : bool :=
  bool_decide (ToLower (TrimSpace role) ∈ ["admin"; "superadmin"; "root"]).

(** APIKeyPrincipal.normalized *)
Definition principal_normalized (p : APIKeyPrincipal) : APIKeyPrincipal :=
  let id := FirstNonEmpty [TrimSpace (akp_ID p); TrimSpace (akp_UserID p)] in
  let username := FirstNonEmpty [TrimSpace (akp_Username p); TrimSpace (akp_Name p); id] in
  let role := FirstNonEmpty [TrimSpace (akp_Role p); "service"] in
  let scopes := normalizedScopes (akp_Scopes p) in
  if akp_Admin p || authRoleGrantsStaticAdmin role
  then Principal id (akp_UserID p) username (akp_Name p) "admin" true scopes
  else Principal id (akp_UserID p) username (akp_Name p) role (akp_Admin p) scopes.

(** ServiceTrustedIdentity.normalized *)
Definition identity_normalized (i : ServiceTrustedIdentity) : ServiceTrustedIdentity :=
  TrustedIdentity (TrimSpace (sti_Key i)) (TrimSpace (sti_PreviousKey i)) (dedup_trimmed ∅ (sti_Audiences i)).

(** ** Reading the environment *)

Class EnvLib (ip : Type) := {
  ParseBool : string -> option bool;                                     (* strconv.ParseBool *)
  Atoi : string -> option Z;                                             (* strconv.Atoi *)
  ParseDuration : string -> option Z;                                    (* time.ParseDuration *)
  unmarshal_string_map : string -> option (gmap string string);          (* json.Unmarshal *)
  unmarshal_principals : string -> option (gmap string APIKeyPrincipal);
  unmarshal_identities : string -> option (gmap string ServiceTrustedIdentity);
  unmarshal_adapters : string -> option (gmap string AdapterConfig);
  ParseCIDR : string -> option (ip -> bool);                             (* net.ParseCIDR: the block as its membership test *)
  ParseHost : string -> option (ip -> bool);                             (* net.ParseIP and the mask of one address *)
  url_parts : string -> option (string * string)                         (* url.Parse: scheme and host *)
}.

Section FromEnv.
Context {ip : Type} `{EnvLib ip} (environ : gmap string string).

Definition Getenv (key : string) : string := default "" (environ !! key).

Definition env (key fallback : string) : string :=
  if negb (str_empty (Getenv key)) then Getenv key else fallback.

(** Each parser returns its value and the diagnostics it adds. *)
Definition env_value {A} (parse : string -> option A) (kind key : string) (fallback : A) : A * list configParseDiagnostic :=
  match environ !! key with
  | None => (fallback, [])
  | Some value =>
      if str_empty value then (fallback, [])
      else match parse value with
           | Some parsed => (parsed, [])
           | None => (fallback, [Diagnostic key kind])
           end
  end.

Definition envBool : string -> bool -> bool * list configParseDiagnostic := env_value ParseBool "bool".
Definition envDuration : string -> Z -> Z * list configParseDiagnostic := env_value ParseDuration "duration".
Definition envInt : string -> Z -> Z * list configParseDiagnostic := env_value Atoi "integer".

Definition positive (o : option Z) : option Z := match o with Some z => if 0 <? z then Some z else None | None => None end.

Definition envDurationOrSeconds (key : string) (fallback : Z) : Z * list configParseDiagnostic :=
  match environ !! key with
  | None => (fallback, [])
  | Some value0 =>
      let value := TrimSpace value0 in
      if str_empty value then (fallback, [])
      else match positive (ParseDuration value) with
           | Some parsed => (parsed, [])
           | None => match positive (Atoi value) with
                     | Some seconds => (i64 (seconds * time_Second), [])
                     | None => (fallback, [Diagnostic key "duration or positive integer seconds"])
                     end
           end
  end.

Definition parseJWTAudiences : gmap string bool := parseSet (Getenv envJWTAudience +:+ "," +:+ Getenv envJWTAudiences).

(** The entries that survive a clean-up of keys and values; of two keys that trim to
    the same one Go keeps whichever the iteration meets last. *)
Definition clean_entries {A B} (f : string -> A -> option (string * B)) (m : gmap string A) : gmap string B :=
  list_to_map (omap (fun kv => f kv.1 kv.2) (map_to_list m)).

Definition json_map {A B} (unmarshal : string -> option (gmap string A)) (f : string -> A -> option (string * B))
    (envName value : string) : gmap string B * list configParseDiagnostic :=
  if str_empty (TrimSpace value) then (∅, [])
  else match unmarshal value with
       | None => (∅, [Diagnostic envName configDiagnosticJSONObject])
       | Some raw => (clean_entries f raw, [])
       end.

Definition parseServiceURLs (value : string) : gmap string string * list configParseDiagnostic :=
  json_map unmarshal_string_map (fun name0 url0 =>
    let name := TrimSpace name0 in
    let url := TrimRightSlash (TrimSpace url0) in
    if negb (str_empty name) && negb (str_empty url) then Some (name, url) else None) envServiceURLs value.

Definition parseServiceTrustedIdentities (value : string) : gmap string ServiceTrustedIdentity * list configParseDiagnostic :=
  json_map unmarshal_identities (fun name0 identity0 =>
    let name := TrimSpace name0 in
    let identity := identity_normalized identity0 in
    if negb (str_empty name) && negb (str_empty (sti_Key identity)) && negb (bool_decide (sti_Audiences identity = []))
    then Some (name, identity) else None) envServiceTrustedIdentities value.

Definition parseAPIKeyPrincipals (value : string) : gmap string APIKeyPrincipal * list configParseDiagnostic :=
  json_map unmarshal_principals (fun key0 principal0 =>
    let key := TrimSpace key0 in
    let principal := principal_normalized principal0 in
    if negb (str_empty key) && negb (str_empty (akp_ID principal)) then Some (key, principal) else None) envAPIKeyUsers value.

Definition parseAdapterConfigs (value : string) : gmap string AdapterConfig * list configParseDiagnostic :=
  json_map unmarshal_adapters (fun name0 cfg =>
    let name := TrimSpace name0 in
    if negb (str_empty name) then Some (name, cfg) else None) envAdapterConfig value.

Definition parse_cidr_item (item : string) : option (ip -> bool) :=
  if Contains item "/" then ParseCIDR item else ParseHost item.

(** The blocks, and whether an entry was invalid. *)
Definition parseTrustedProxyCIDRsWithDiagnostics (value : string) : list (ip -> bool) * bool :=
  let items := list_items value in
  (omap parse_cidr_item items, existsb (fun i => match parse_cidr_item i with None => true | Some _ => false end) items).

(** The diagnostics in the order the fields are read. *)
Definition parser_diagnostics : list configParseDiagnostic :=
  let productionSet := match environ !! envProduction with Some _ => true | None => false end in
  let conflict := profileConflictsWithProductionFlag (normalizeEnvironmentProfile (Getenv envAppEnv))
                    (fst (envBool envProduction false)) productionSet (Getenv envProduction) in
  concat
    [snd (envBool envProduction false);
     if conflict then [Diagnostic envAppEnv "profile compatible with PRODUCTION"] else [];
     if snd (parseTrustedProxyCIDRsWithDiagnostics (Getenv envTrustedProxyCIDRs))
     then [Diagnostic envTrustedProxyCIDRs "CIDR/IP list"] else [];
     snd (envBool envRequireAuth true);
     snd (envBool envDevHeaderAuth false);
     snd (parseAPIKeyPrincipals (Getenv envAPIKeyUsers));
     snd (parseServiceURLs (Getenv envServiceURLs));
     snd (parseServiceTrustedIdentities (Getenv envServiceTrustedIdentities));
     snd (envBool "DISABLE_SERVICE_FALLBACK" false);
     snd (envBool envLDAPEnabled false);
     snd (envInt envLDAPPort 389);
     snd (envBool envLDAPUseTLS false);
     snd (envDuration envLDAPMirrorSyncInterval (5 * time_Minute));
     snd (envInt envEventRelayBatchSize defaultEventRelayBatchSize);
     snd (envDuration "SHUTDOWN_TIMEOUT" (10 * time_Second));
     snd (envDuration "MAINTENANCE_INTERVAL" (15 * time_Minute));
     snd (envDuration "ADAPTER_TIMEOUT" (2 * time_Second));
     snd (envInt "ADAPTER_RETRIES" 3);
     snd (envInt "ADAPTER_CIRCUIT_THRESHOLD" 3);
     snd (envDuration "ADAPTER_CIRCUIT_OPEN_INTERVAL" (30 * time_Second));
     snd (envInt "AUDIT_RETENTION_DAYS" 30);
     snd (envInt envMaxAPIBodyBytes defaultMaxAPIBodyBytes);
     snd (envInt envMaxConfigFileBytes defaultMaxConfigFileBytes);
     snd (envInt envMaxConfigFileDocuments defaultMaxConfigFileDocuments);
     snd (envBool envImageCheckEnabled false);
     snd (envBool envImageProvenanceRequired false);
     snd (envBool envDockerCleanupEnabled false);
     snd (envDuration "IDE_IDLE_REAPER_TIMEOUT" (2 * time_Hour));
     snd (envBool "AUTOMATED_POD_DELETION_ENABLED" true);
     snd (envBool "PLAN_WINDOW_POD_DELETION_ENABLED" true);
     snd (envInt envGPUSnapshotWindowMinutes 10);
     snd (envInt envGPUUsageRetentionDays 30);
     snd (envDuration envLonghornRWXHealthInterval (30 * time_Second));
     snd (envBool envLonghornRWXAutoRepair false);
     snd (envDuration envLonghornRWXRepairCooldown (10 * time_Minute));
     snd (envInt envLonghornRWXSnapshotWarn 20);
     snd (envInt envLonghornRWXSnapshotBlock 50);
     snd (envDuration envPriorityClassSyncInterval time_Minute);
     snd (envBool "VPN_USAGE_ENABLED" true);
     snd (envDuration "VPN_USAGE_GRACE" time_Minute);
     snd (envDurationOrSeconds envVPNAPITimeout (5 * time_Second));
     snd (envDurationOrSeconds envMinIOOperationTimeout (10 * time_Second));
     snd (envDurationOrSeconds envPGAdminSSOHTTPTimeout (10 * time_Second));
     snd (envDuration envStreamTURNCredentialTTL (8 * time_Hour));
     snd (envInt envStreamMaxBitrateKbps 12000);
     snd (envInt envStreamMaxConcurrentSessions 64);
     snd (envInt envStreamEgressBudgetKbps 800000);
     snd (parseAdapterConfigs (Getenv envAdapterConfig))].

Definition ConfigFromEnv : config ip :=
  let production := fst (envBool envProduction false) in
  let serviceName := env "SERVICE_NAME" "all" in
  let environmentProfile := normalizeEnvironmentProfile (Getenv envAppEnv) in
  let effectiveProduction := runtimeProfileIsProduction environmentProfile production in
  let origins := parseSet (Getenv "ALLOWED_ORIGINS") in
  let allowedOrigins := if bool_decide (origins = ∅) && negb effectiveProduction then defaultDevAllowedOrigins else origins in
  let trustedProxyCIDRs := fst (parseTrustedProxyCIDRsWithDiagnostics (Getenv envTrustedProxyCIDRs)) in
  {|
    cf_ServiceName := serviceName;
    cf_ProductName := env envProductName defaultProductName;
    cf_EnvironmentProfile := environmentProfile;
    cf_HTTPAddr := env "HTTP_ADDR" ":8080";
    cf_RequireAuth := fst (envBool envRequireAuth true);
    cf_DevHeaderAuth := fst (envBool envDevHeaderAuth false);
    cf_DevAuthSigningKey := TrimSpace (Getenv envDevAuthSigningKey);
    cf_APIKeys := parseSet (Getenv "API_KEYS");
    cf_APIKeyPrincipals := fst (parseAPIKeyPrincipals (Getenv envAPIKeyUsers));
    cf_AllowedOrigins := allowedOrigins;
    cf_TrustedProxyCIDRs := trustedProxyCIDRs;
    cf_JWKSURL := TrimSpace (Getenv envJWTJWKSURL);
    cf_JWTIssuer := TrimSpace (Getenv envJWTIssuer);
    cf_JWTAudiences := parseJWTAudiences;
    cf_AuthorizationPolicyURL := TrimSpace (Getenv envAuthorizationPolicyURL);
    cf_AuthorizationPolicyAPIKey := TrimSpace (Getenv envAuthorizationPolicyAPIKey);
    cf_ServiceURLs := fst (parseServiceURLs (Getenv envServiceURLs));
    cf_ServiceAPIKey := TrimSpace (Getenv envServiceAPIKey);
    cf_ServiceIdentityName := defaultServiceIdentityName serviceName (Getenv envServiceIdentityName);
    cf_ServiceIdentityKey := TrimSpace (Getenv envServiceIdentityKey);
    cf_ServiceTrustedIdentities := fst (parseServiceTrustedIdentities (Getenv envServiceTrustedIdentities));
    cf_ServiceFallbackDisabled := fst (envBool "DISABLE_SERVICE_FALLBACK" false);
    cf_DexURL := TrimRightSlash (TrimSpace (Getenv envDexURL));
    cf_LDAPEnabled := fst (envBool envLDAPEnabled false);
    cf_LDAPHost := TrimSpace (Getenv envLDAPHost);
    cf_LDAPPort := fst (envInt envLDAPPort 389);
    cf_LDAPUseTLS := fst (envBool envLDAPUseTLS false);
    cf_LDAPBindDN := TrimSpace (Getenv envLDAPBindDN);
    cf_LDAPBindPassword := Getenv envLDAPBindPassword;
    cf_LDAPUserSearchBase := TrimSpace (Getenv envLDAPUserSearchBase);
    cf_LDAPUserFilter := TrimSpace (env envLDAPUserFilter "(uid=%s)");
    cf_LDAPMirrorSyncInterval := fst (envDuration envLDAPMirrorSyncInterval (5 * time_Minute));
    cf_DatabaseURL := TrimSpace (Getenv envDatabaseURL);
    cf_RedisURL := TrimSpace (Getenv envRedisURL);
    cf_EventBusURL := TrimSpace (Getenv envEventBusURL);
    cf_EventRelayBatchSize := fst (envInt envEventRelayBatchSize defaultEventRelayBatchSize);
    cf_ObjectStoreURL := TrimRightSlash (TrimSpace (Getenv envObjectStoreURL));
    cf_ObjectStoreAccessKey := TrimSpace (Getenv envObjectStoreAccessKey);
    cf_ObjectStoreSecretKey := Getenv envObjectStoreSecretKey;
    cf_ObjectStoreBucket := env envObjectStoreBucket "media";
    cf_OTLPEndpoint := FirstNonEmpty [Getenv "OTEL_EXPORTER_OTLP_TRACES_ENDPOINT"; Getenv "OTEL_EXPORTER_OTLP_ENDPOINT"];
    cf_ServiceVersion := env "SERVICE_VERSION" "0.1.0";
    cf_LogLevel := Getenv "LOG_LEVEL";
    cf_Production := effectiveProduction;
    cf_ShutdownTimeout := fst (envDuration "SHUTDOWN_TIMEOUT" (10 * time_Second));
    cf_MaintenanceInterval := fst (envDuration "MAINTENANCE_INTERVAL" (15 * time_Minute));
    cf_AdapterTimeout := fst (envDuration "ADAPTER_TIMEOUT" (2 * time_Second));
    cf_AdapterRetries := fst (envInt "ADAPTER_RETRIES" 3);
    cf_AdapterThreshold := fst (envInt "ADAPTER_CIRCUIT_THRESHOLD" 3);
    cf_AdapterOpenInterval := fst (envDuration "ADAPTER_CIRCUIT_OPEN_INTERVAL" (30 * time_Second));
    cf_AuditRetentionDays := fst (envInt "AUDIT_RETENTION_DAYS" 30);
    cf_MaxAPIBodyBytes := fst (envInt envMaxAPIBodyBytes defaultMaxAPIBodyBytes);
    cf_MaxConfigFileBytes := fst (envInt envMaxConfigFileBytes defaultMaxConfigFileBytes);
    cf_MaxConfigFileDocuments := fst (envInt envMaxConfigFileDocuments defaultMaxConfigFileDocuments);
    cf_K8sNamespacePrefix := env "K8S_PROJECT_NAMESPACE_PREFIX" "proj";
    cf_ImageCheckEnabled := fst (envBool envImageCheckEnabled false);
    cf_ImageProvenanceRequired := fst (envBool envImageProvenanceRequired false);
    cf_ImageBuildExecutor := ToLower (TrimSpace (env envImageBuildExecutor ""));
    cf_ImageBuildCosignKey := TrimSpace (env envImageBuildCosignKey "");
    cf_DockerCleanupEnabled := fst (envBool envDockerCleanupEnabled false);
    cf_DockerCleanupNamespace := TrimSpace (env envDockerCleanupNamespace "default");
    cf_DockerCleanupImage := TrimSpace (env envDockerDindImage "docker:24-dind");
    cf_FastTransferMoverImage := TrimSpace (env envFastTransferMoverImage "instrumentisto/rsync-ssh:alpine");
    cf_WorkloadIdleTimeout := fst (envDuration "IDE_IDLE_REAPER_TIMEOUT" (2 * time_Hour));
    cf_AutomatedPodDeletion := fst (envBool "AUTOMATED_POD_DELETION_ENABLED" true);
    cf_PlanWindowPodDeletion := fst (envBool "PLAN_WINDOW_POD_DELETION_ENABLED" true);
    cf_DefaultQueueName := env "DEFAULT_QUEUE_NAME" "default-batch";
    cf_GPUUsageSnapshotWindowMin := clampInt (fst (envInt envGPUSnapshotWindowMinutes 10)) 1 1440;
    cf_GPUUsageRetentionDays := clampInt (fst (envInt envGPUUsageRetentionDays 30)) 1 3650;
    cf_LonghornNamespace := TrimSpace (env envLonghornNamespace "longhorn-system");
    cf_LonghornRWXHealthInterval := fst (envDuration envLonghornRWXHealthInterval (30 * time_Second));
    cf_LonghornRWXAutoRepair := fst (envBool envLonghornRWXAutoRepair false);
    cf_LonghornRWXRepairCooldown := fst (envDuration envLonghornRWXRepairCooldown (10 * time_Minute));
    cf_LonghornRWXSnapshotWarn := fst (envInt envLonghornRWXSnapshotWarn 20);
    cf_LonghornRWXSnapshotBlock := fst (envInt envLonghornRWXSnapshotBlock 50);
    cf_PriorityClassSyncInterval := fst (envDuration envPriorityClassSyncInterval time_Minute);
    cf_VPNUsageEnabled := fst (envBool "VPN_USAGE_ENABLED" true);
    cf_VPNUsageGrace := fst (envDuration "VPN_USAGE_GRACE" time_Minute);
    cf_CLICACertPEM := cliCACertPEM (Getenv envCLICACertPEM);
    cf_VPNAPIURLs := firstNonEmptyList [parseList (Getenv envVPNAPIURLs); parseList (Getenv envVPNAPIURL)];
    cf_VPNAPIKey := TrimSpace (Getenv envVPNAPIKey);
    cf_VPNAPITimeout := fst (envDurationOrSeconds envVPNAPITimeout (5 * time_Second));
    cf_MinIOConsoleAccessKey := TrimSpace (Getenv envMinIOConsoleAccessKey);
    cf_MinIOConsoleSecretKey := TrimSpace (Getenv envMinIOConsoleSecretKey);
    cf_MinIOOperationTimeout := fst (envDurationOrSeconds envMinIOOperationTimeout (10 * time_Second));
    cf_PGAdminDefaultEmail := TrimSpace (Getenv envPGAdminDefaultEmail);
    cf_PGAdminDefaultPassword := TrimSpace (Getenv envPGAdminDefaultPassword);
    cf_PGAdminSSOHTTPTimeout := fst (envDurationOrSeconds envPGAdminSSOHTTPTimeout (10 * time_Second));
    cf_StreamTURNURIs := parseList (Getenv envStreamTURNURIs);
    cf_StreamTURNSharedSecret := TrimSpace (Getenv envStreamTURNSharedSecret);
    cf_StreamTURNCredentialTTL := fst (envDuration envStreamTURNCredentialTTL (8 * time_Hour));
    cf_StreamMaxBitrateKbps := fst (envInt envStreamMaxBitrateKbps 12000);
    cf_StreamMaxConcurrentSessions := fst (envInt envStreamMaxConcurrentSessions 64);
    cf_StreamEgressBudgetKbps := fst (envInt envStreamEgressBudgetKbps 800000);
    cf_StreamSidecarImage := TrimSpace (Getenv envStreamSidecarImage);
    cf_StorageClassOptions := parseList (env envStorageClassOptions "standard,fast");
    cf_GroupStorageClassOptions := firstNonEmptyList [parseList (Getenv envGroupStorageClassOptions); parseList (Getenv envStorageClassOptions)];
    cf_GroupRegistryProfileOptions := firstNonEmptyList [parseList (Getenv envGroupRegistryProfileOptions); parseList (Getenv envRegistryProfileOptions)];
    cf_ExternalURLs := list_to_map [("k8s", Getenv "K8S_CONTROL_URL");
      ("harbor", Getenv "HARBOR_URL");
      ("minio", Getenv "MINIO_URL");
      ("minio-console", Getenv "MINIO_CONSOLE_URL");
      ("pgadmin", Getenv "PGADMIN_URL");
      ("longhorn", Getenv "LONGHORN_URL");
      ("prometheus", Getenv "PROMETHEUS_URL")];
    cf_AdapterConfigs := fst (parseAdapterConfigs (Getenv envAdapterConfig));
    cf_parseDiagnostics := parser_diagnostics
  |}.

End FromEnv.

(** ** Questions *)

Definition deployableUnitServices (unit_ : string) : list string :=
  default [] ((list_to_map
    [("platform-gateway", ["platform-gateway"]);
     ("iam-unit", ["identity-service"; "authorization-policy-service"]);
     ("tenant-unit", ["org-project-service"]);
     ("collaboration-unit", ["audit-compliance-service"; "request-notification-service"; mediaUploadServiceName]);
     ("platform-io-unit", ["storage-service"; "image-registry-service"; "integration-proxy-service"]);
     ("usage-observability", ["usage-observability-service"]);
     ("compute-api", ["workload-service"; "ide-service"]);
     ("compute-control-plane", ["scheduler-quota-service"; "k8s-control-service"])] : gmap string (list string)) !! unit_).

Section Questions.
Context {ip : Type}.
Implicit Types c : config ip.

Definition AllowsService c (name : string) : bool :=
  let serviceName := TrimSpace (cf_ServiceName c) in
  if str_empty serviceName || String.eqb serviceName "all" || String.eqb serviceName name then true
  else bool_decide (name ∈ deployableUnitServices serviceName).

Definition RequiresObjectStore c : bool := AllowsService c mediaUploadServiceName.

Definition EffectiveEnvironmentProfile c : string := effectiveEnvironmentProfile (cf_EnvironmentProfile c) (cf_Production c).

Definition IsProductionProfile c : bool := String.eqb (EffectiveEnvironmentProfile c) runtimeProfileProduction.

Definition StrictRuntimeChecks c : bool :=
  bool_decide (EffectiveEnvironmentProfile c ∈ [runtimeProfileStaging; runtimeProfileProduction]).

Definition cf_limits c : limitConfig := LimitConfig (cf_MaxAPIBodyBytes c) (cf_MaxConfigFileBytes c) (cf_MaxConfigFileDocuments c).

Definition EffectiveEventRelayBatchSize c : Z :=
  if 0 <? cf_EventRelayBatchSize c then cf_EventRelayBatchSize c else defaultEventRelayBatchSize.

Definition activeServiceIdentityKey c : string :=
  FirstNonEmpty (map TrimSpace (Split (cf_ServiceIdentityKey c) ",")).

Definition canSendScopedServiceIdentity c : bool :=
  negb (str_empty (TrimSpace (cf_ServiceIdentityName c))) && negb (str_empty (activeServiceIdentityKey c)).

Definition canSendServiceIdentity c : bool :=
  canSendScopedServiceIdentity c || negb (str_empty (TrimSpace (cf_ServiceAPIKey c))).

Definition canUseRemoteServiceIdentity c : bool :=
  if StrictRuntimeChecks c then canSendScopedServiceIdentity c else canSendServiceIdentity c.

Definition acceptsServiceIdentity c : bool :=
  negb (bool_decide (cf_ServiceTrustedIdentities c = ∅)) || negb (str_empty (TrimSpace (cf_ServiceAPIKey c))).

(** The headers a process sends to another service, and whether it has an identity. *)
Definition applyServiceIdentityHeaders c (headers : gmap string string) : gmap string string * bool :=
  let name := TrimSpace (cf_ServiceIdentityName c) in
  let key := activeServiceIdentityKey c in
  if negb (str_empty name) && negb (str_empty key)
  then (<["X-Service-Key" := key]> (<["X-Service-Name" := name]> headers), true)
  else if StrictRuntimeChecks c then (delete "X-Service-Key" (delete "X-Service-Name" headers), false)
  else let key := TrimSpace (cf_ServiceAPIKey c) in
       if negb (str_empty key) then (<["X-Service-Key" := key]> (delete "X-Service-Name" headers), true)
       else (headers, false).

Definition requiresRemoteServiceAuth c : bool :=
  negb (bool_decide (cf_ServiceURLs c = ∅)) || negb (str_empty (TrimSpace (cf_AuthorizationPolicyURL c))).

Definition hasEnabledAPIKey (configured : gmap string bool) : bool := existsb snd (map_to_list configured).

Definition principal_of c (key : string) : APIKeyPrincipal :=
  principal_normalized (default no_principal (cf_APIKeyPrincipals c !! key)).

Definition missingAPIKeyPrincipals c : list string :=
  map fst (List.filter (fun kv => kv.2 && str_empty (akp_ID (principal_of c kv.1))) (map_to_list (cf_APIKeys c))).

End Questions.

(** ** Validation: the error text, or no error *)

Fixpoint count_placeholders (l : list ascii) : nat :=
  match l with
  | [] => 0
  | c :: l' => match l' with
               | d :: l'' => if Ascii.eqb c "%" && Ascii.eqb d "s" then S (count_placeholders l'') else count_placeholders l'
               | [] => 0
               end
  end.

Definition namespace_byte (c : ascii) : bool :=
  let n := nat_of_ascii c in
  Ascii.eqb c "-" || ((48 <=? n)%nat && (n <=? 57)%nat) || ((97 <=? n)%nat && (n <=? 122)%nat).

Definition validKubernetesNamespaceName (value0 : string) : bool :=
  let value := bytes_of (TrimSpace value0) in
  if bool_decide (value = []) || (63 <? Z.of_nat (length value)) then false
  else forallb namespace_byte value && negb (bool_decide (head value = Some "-"%char)) && negb (bool_decide (last value = Some "-"%char)).

(** [if condition { return errors.New(text) }] *)
Definition reject (condition : bool) (text : string) : result string unit := if condition then Err text else Ok tt.

Definition blank (s : string) : bool := str_empty (TrimSpace s).

Definition missing_names (l : list (bool * string)) : list string := map snd (List.filter fst l).

Section Validate.
Context {ip : Type} `{EnvLib ip}.
Implicit Types c : config ip.

Definition validateParseDiagnostics c : result string unit :=
  let fatal := StrictRuntimeChecks c ||
    existsb (fun d => String.eqb (pd_envName d) envProduction || String.eqb (pd_envName d) envAppEnv) (cf_parseDiagnostics c) in
  reject (negb (bool_decide (cf_parseDiagnostics c = [])) && fatal)
    ("invalid configuration: " +:+ String.concat "; " (map diagnostic_String (cf_parseDiagnostics c))).

Definition validateEnvironmentProfile c : result string unit :=
  let profile := TrimSpace (cf_EnvironmentProfile c) in
  reject (negb (str_empty profile) && negb (validEnvironmentProfile profile))
    (envAppEnv +:+ " must be one of local, test, dev, staging, production") ;;?
  reject (cf_Production c && negb (str_empty profile) && negb (String.eqb profile runtimeProfileProduction))
    (envAppEnv +:+ "=" +:+ profile +:+ " conflicts with " +:+ envProduction +:+ "=true").

Definition missingLDAPConfig c : list string :=
  missing_names [(blank (cf_LDAPHost c), envLDAPHost); (blank (cf_LDAPBindDN c), envLDAPBindDN);
    (blank (cf_LDAPBindPassword c), envLDAPBindPassword); (blank (cf_LDAPUserSearchBase c), envLDAPUserSearchBase);
    (blank (cf_LDAPUserFilter c), envLDAPUserFilter)].

Definition validateLDAP c : result string unit :=
  if negb (cf_LDAPEnabled c) then Ok tt
  else
    reject (negb (bool_decide (missingLDAPConfig c = [])))
      (String.concat ", " (missingLDAPConfig c) +:+ " must be set when " +:+ envLDAPEnabled +:+ "=true") ;;?
    reject ((cf_LDAPPort c <? 1) || (65535 <? cf_LDAPPort c))
      (envLDAPPort +:+ " must be between 1 and 65535 when " +:+ envLDAPEnabled +:+ "=true") ;;?
    reject (negb (count_placeholders (bytes_of (cf_LDAPUserFilter c)) =? 1)%nat)
      (envLDAPUserFilter +:+ " must contain exactly one username placeholder").

Definition validateLonghornRWX c : result string unit :=
  reject (cf_LonghornRWXHealthInterval c <=? 0) (envLonghornRWXHealthInterval +:+ configPositiveValidationSuffix) ;;?
  reject (cf_LonghornRWXRepairCooldown c <=? 0) (envLonghornRWXRepairCooldown +:+ configPositiveValidationSuffix) ;;?
  reject (cf_LonghornRWXSnapshotWarn c <? 0) (envLonghornRWXSnapshotWarn +:+ " must be non-negative") ;;?
  reject ((0 <? cf_LonghornRWXSnapshotBlock c) && (cf_LonghornRWXSnapshotBlock c <? cf_LonghornRWXSnapshotWarn c))
    (envLonghornRWXSnapshotBlock +:+ " must be greater than or equal to " +:+ envLonghornRWXSnapshotWarn).

Definition validatePriorityClassSync c : result string unit :=
  reject (cf_PriorityClassSyncInterval c <=? 0) (envPriorityClassSyncInterval +:+ configPositiveValidationSuffix).

Definition validateDockerCleanup c : result string unit :=
  if negb (cf_DockerCleanupEnabled c) then Ok tt
  else
    reject (negb (validKubernetesNamespaceName (cf_DockerCleanupNamespace c)))
      (envDockerCleanupNamespace +:+ " must be a valid Kubernetes namespace when " +:+ envDockerCleanupEnabled +:+ "=true") ;;?
    reject (blank (cf_DockerCleanupImage c)) (envDockerDindImage +:+ " is required when " +:+ envDockerCleanupEnabled +:+ "=true").

Definition or_default (value fallback : Z) : Z := if value =? 0 then fallback else value.

Definition validateStreamConfig c : result string unit :=
  let ttl := or_default (cf_StreamTURNCredentialTTL c) (8 * time_Hour) in
  let maxBitrate := or_default (cf_StreamMaxBitrateKbps c) 12000 in
  let maxSessions := or_default (cf_StreamMaxConcurrentSessions c) 64 in
  let budget := or_default (cf_StreamEgressBudgetKbps c) 800000 in
  reject (ttl <=? 0) (envStreamTURNCredentialTTL +:+ configPositiveValidationSuffix) ;;?
  reject (12 * time_Hour <? ttl) (envStreamTURNCredentialTTL +:+ " must be no more than 12h") ;;?
  reject (maxBitrate <=? 0) (envStreamMaxBitrateKbps +:+ configPositiveValidationSuffix) ;;?
  reject (maxSessions <=? 0) (envStreamMaxConcurrentSessions +:+ configPositiveValidationSuffix) ;;?
  reject (budget <=? 0) (envStreamEgressBudgetKbps +:+ configPositiveValidationSuffix) ;;?
  reject (budget <? i64 (maxSessions * maxBitrate))
    (envStreamMaxConcurrentSessions +:+ " * " +:+ envStreamMaxBitrateKbps +:+ " must not exceed " +:+ envStreamEgressBudgetKbps) ;;?
  reject (IsProductionProfile c && negb (bool_decide (cf_StreamTURNURIs c = [])) && blank (cf_StreamTURNSharedSecret c))
    (envStreamTURNSharedSecret +:+ " is required when " +:+ envStreamTURNURIs +:+ " is set in production").

Definition validateInputLimits c : result string unit :=
  reject (cf_MaxAPIBodyBytes c <? 0) (envMaxAPIBodyBytes +:+ configPositiveValidationSuffix) ;;?
  reject (cf_MaxConfigFileBytes c <? 0) (envMaxConfigFileBytes +:+ configPositiveValidationSuffix) ;;?
  reject (cf_MaxConfigFileDocuments c <? 0) (envMaxConfigFileDocuments +:+ configPositiveValidationSuffix) ;;?
  reject (EffectiveMaxAPIBodyBytes (cf_limits c) <=? 0) (envMaxAPIBodyBytes +:+ configPositiveValidationSuffix) ;;?
  reject (EffectiveMaxConfigFileBytes (cf_limits c) <=? 0) (envMaxConfigFileBytes +:+ configPositiveValidationSuffix) ;;?
  reject (EffectiveMaxConfigFileDocuments (cf_limits c) <=? 0) (envMaxConfigFileDocuments +:+ configPositiveValidationSuffix).

Definition validateEventRelay c : result string unit :=
  reject (cf_EventRelayBatchSize c <? 0) (envEventRelayBatchSize +:+ configPositiveValidationSuffix) ;;?
  reject (EffectiveEventRelayBatchSize c <=? 0) (envEventRelayBatchSize +:+ configPositiveValidationSuffix).

Definition validateProductionAuth c : result string unit :=
  reject (negb (hasEnabledAPIKey (cf_APIKeys c)) && str_empty (cf_JWKSURL c))
    "API_KEYS or JWT_JWKS_URL is required in production" ;;?
  reject (hasEnabledAPIKey (cf_APIKeys c) && negb (bool_decide (missingAPIKeyPrincipals c = [])))
    "API_KEY_PRINCIPALS must define a principal for every API_KEYS entry in production" ;;?
  (if negb (str_empty (cf_JWKSURL c)) then
     reject (negb (HasPrefix (cf_JWKSURL c) "https://")) "JWT_JWKS_URL must use https in production" ;;?
     reject (str_empty (cf_JWTIssuer c)) "JWT_ISSUER is required when JWT_JWKS_URL is set in production" ;;?
     reject (bool_decide (cf_JWTAudiences c = ∅))
       "JWT_AUDIENCE or JWT_AUDIENCES is required when JWT_JWKS_URL is set in production"
   else Ok tt) ;;?
  reject (negb (AllowsService c "authorization-policy-service") && blank (cf_AuthorizationPolicyURL c))
    "AUTHORIZATION_POLICY_URL is required for isolated production services" ;;?
  reject (negb (blank (cf_AuthorizationPolicyURL c)) && blank (cf_AuthorizationPolicyAPIKey c))
    "AUTHORIZATION_POLICY_API_KEY is required when AUTHORIZATION_POLICY_URL is set in production".

Definition validateRedisBackingURL (name value : string) : result string unit :=
  let text := name +:+ " must be a redis:// or rediss:// URL" in
  match url_parts (TrimSpace value) with
  | None => Err text
  | Some (scheme, host) =>
      reject (str_empty host || negb (bool_decide (ToLower scheme ∈ ["redis"; "rediss"]))) text
  end.

Definition validateProductionObjectStore c : result string unit :=
  let text := envObjectStoreURL +:+ " must be an http:// or https:// URL" in
  match url_parts (TrimSpace (cf_ObjectStoreURL c)) with
  | None => Err text
  | Some (scheme, host) =>
      reject (str_empty host || negb (bool_decide (ToLower scheme ∈ ["http"; "https"]))) text ;;?
      reject (blank (cf_ObjectStoreAccessKey c) || blank (cf_ObjectStoreSecretKey c))
        (envObjectStoreAccessKey +:+ " and " +:+ envObjectStoreSecretKey +:+ " are required when " +:+ envObjectStoreURL +:+ " is set in production")
  end.

Definition validateProductionBackingServices c : result string unit :=
  let missing := missing_names [(blank (cf_DatabaseURL c), envDatabaseURL); (blank (cf_RedisURL c), envRedisURL);
    (blank (cf_EventBusURL c), envEventBusURL); (RequiresObjectStore c && blank (cf_ObjectStoreURL c), envObjectStoreURL)] in
  reject (negb (bool_decide (missing = []))) (String.concat ", " missing +:+ " must be set in production") ;;?
  validateRedisBackingURL envRedisURL (cf_RedisURL c) ;;?
  validateRedisBackingURL envEventBusURL (cf_EventBusURL c) ;;?
  (if negb (RequiresObjectStore c) then Ok tt else validateProductionObjectStore c).

Definition validateProductionSupplyChain c : result string unit :=
  reject (negb (cf_ImageCheckEnabled c)) (envImageCheckEnabled +:+ " must be true in production") ;;?
  reject (negb (cf_ImageProvenanceRequired c)) (envImageProvenanceRequired +:+ " must be true in production") ;;?
  reject (blank (cf_OTLPEndpoint c)) "OTEL_EXPORTER_OTLP_ENDPOINT must be set in production".

Definition validateProduction c : result string unit :=
  reject (cf_DevHeaderAuth c) "DEV_HEADER_AUTH must be false in production" ;;?
  reject (negb (str_empty (cf_DevAuthSigningKey c))) "DEV_AUTH_SIGNING_KEY must not be set in production" ;;?
  reject (negb (cf_RequireAuth c)) "REQUIRE_AUTH must be true in production" ;;?
  validateProductionAuth c ;;?
  validateProductionBackingServices c ;;?
  validateProductionSupplyChain c.

Definition validateNonProduction c : result string unit :=
  reject (negb (cf_RequireAuth c) && negb (cf_DevHeaderAuth c)) "DEV_HEADER_AUTH must be true when REQUIRE_AUTH=false".

Definition validateStrictServiceName c : result string unit :=
  reject (StrictRuntimeChecks c && bool_decide (TrimSpace (cf_ServiceName c) ∈ [""; "all"]))
    "SERVICE_NAME must be an explicit service or deployable unit in staging/production".

Definition validateStrictServiceIdentity c : result string unit :=
  if negb (StrictRuntimeChecks c) || negb (requiresRemoteServiceAuth c) then Ok tt
  else
    let missing := missing_names [(blank (cf_ServiceIdentityName c), envServiceIdentityName);
      (blank (cf_ServiceIdentityKey c), envServiceIdentityKey);
      (bool_decide (cf_ServiceTrustedIdentities c = ∅), envServiceTrustedIdentities)] in
    reject (negb (bool_decide (missing = [])))
      (String.concat ", " missing +:+ " are required for scoped internal service identity in staging/production").

Definition Validate c : result string unit :=
  validateParseDiagnostics c ;;?
  validateEnvironmentProfile c ;;?
  validateLDAP c ;;?
  validateLonghornRWX c ;;?
  validatePriorityClassSync c ;;?
  validateDockerCleanup c ;;?
  validateStreamConfig c ;;?
  validateInputLimits c ;;?
  validateEventRelay c ;;?
  (if IsProductionProfile c then validateProduction c else validateNonProduction c) ;;?
  validateStrictServiceName c ;;?
  validateStrictServiceIdentity c.

End Validate.

(** ** What validation guarantees *)

Lemma reject_ok b text : reject b text = Ok tt <-> b = false.
Proof. destruct b; cbn; split; congruence. Qed.

Lemma seq_ok (x y : result string unit) : res_bind x (fun _ => y) = Ok tt <-> x = Ok tt /\ y = Ok tt.
Proof. rewrite res_bind_ok. split; [intros ([] & ? & ?)|intros [? ?]; exists tt]; done. Qed.

#[export] Hint Rewrite seq_ok reject_ok negb_false_iff andb_false_iff orb_false_iff bool_decide_eq_true bool_decide_eq_false : nexus_rw.

Section Guarantees.
Context {ip : Type} `{EnvLib ip}.
Implicit Types c : config ip.

(** Every enabled static key is bound to a principal with an id. *)
Definition keys_bound c : Prop :=
  forall key, cf_APIKeys c !! key = Some true -> akp_ID (principal_of c key) ≠ "".

Lemma missing_principals_nil c : missingAPIKeyPrincipals c = [] -> keys_bound c.
Proof.
  unfold missingAPIKeyPrincipals, keys_bound. intros Hm key Hk Hid.
  assert (key ∈ map fst (List.filter (fun kv => kv.2 && str_empty (akp_ID (principal_of c kv.1))) (map_to_list (cf_APIKeys c)))) as Hin.
  { apply list_elem_of_fmap. exists (key, true). split; [done|]. apply list_elem_of_In, filter_In. split.
    - apply list_elem_of_In, elem_of_map_to_list, Hk.
    - cbn. by rewrite Hid. }
  rewrite Hm in Hin. by apply elem_of_nil in Hin.
Qed.

Lemma no_enabled_key c key : hasEnabledAPIKey (cf_APIKeys c) = false -> cf_APIKeys c !! key ≠ Some true.
Proof.
  unfold hasEnabledAPIKey. intros He Hk%elem_of_map_to_list. apply not_true_iff_false in He. apply He.
  apply existsb_Exists. by exists (key, true).
Qed.

(** What a validated production configuration rules out. *)
Record production_safe c : Prop := {
  ps_RequireAuth : cf_RequireAuth c = true;
  ps_DevHeaderAuth : cf_DevHeaderAuth c = false;
  ps_DevAuthSigningKey : cf_DevAuthSigningKey c = "";
  ps_keys : keys_bound c;
  ps_jwt : cf_JWKSURL c ≠ "" -> HasPrefix (cf_JWKSURL c) "https://" = true /\ cf_JWTIssuer c ≠ "" /\ cf_JWTAudiences c ≠ ∅;
  ps_policy : AllowsService c "authorization-policy-service" = true \/ blank (cf_AuthorizationPolicyURL c) = false;
  ps_service : TrimSpace (cf_ServiceName c) ≠ "" /\ TrimSpace (cf_ServiceName c) ≠ "all";
  ps_images : cf_ImageCheckEnabled c = true /\ cf_ImageProvenanceRequired c = true
}.

Lemma production_strict c : IsProductionProfile c = true -> StrictRuntimeChecks c = true.
Proof.
  unfold IsProductionProfile, StrictRuntimeChecks. intros ->%String.eqb_eq. apply bool_decide_eq_true. set_solver.
Qed.

Lemma Validate_production c : Validate c = Ok tt -> IsProductionProfile c = true -> production_safe c.
Proof.
  intros Hv Hp. unfold Validate in Hv. rewrite Hp in Hv. rewrite !seq_ok in Hv.
  destruct Hv as (_ & _ & _ & _ & _ & _ & _ & _ & _ & Hprod & Hname & _).
  unfold validateStrictServiceName in Hname. rewrite (production_strict _ Hp), reject_ok in Hname.
  cbn [andb] in Hname. apply bool_decide_eq_false in Hname.
  unfold validateProduction, validateProductionAuth, validateProductionSupplyChain in Hprod.
  rewrite !seq_ok, !reject_ok in Hprod.
  destruct Hprod as (Hh & Hd & Hr & (_ & Hk & Hj & Hpol & _) & _ & Hi1 & Hi2 & _). to_prop.
  constructor; try done.
  - unfold str_empty in Hd. by apply String.eqb_eq in Hd.
  - apply andb_false_iff in Hk as [Hk|Hk].
    + intros key Hkey. by apply no_enabled_key with (key := key) in Hk.
    + apply negb_false_iff, bool_decide_eq_true in Hk. by apply missing_principals_nil.
  - intros Hne. unfold str_empty in Hj. destruct (String.eqb_spec (cf_JWKSURL c) ""); [done|].
    cbn [negb] in Hj. rewrite !seq_ok, !reject_ok in Hj. destruct Hj as (? & ? & ?). to_prop. done.
  - apply andb_false_iff in Hpol as [Hpol|Hpol]; [left; by apply negb_false_iff|by right].
  - split; intros E; apply Hname; rewrite E; set_solver.
Qed.

(** The streaming limits of a validated configuration fit the egress budget, as long
    as their product is an int. *)
Lemma Validate_stream c :
  Validate c = Ok tt -> let sessions := or_default (cf_StreamMaxConcurrentSessions c) 64 in
  let bitrate := or_default (cf_StreamMaxBitrateKbps c) 12000 in
  in_i64 (sessions * bitrate) -> sessions * bitrate <= or_default (cf_StreamEgressBudgetKbps c) 800000.
Proof.
  intros Hv sessions bitrate Hi. unfold Validate in Hv. rewrite !seq_ok in Hv.
  destruct Hv as (_ & _ & _ & _ & _ & _ & Hs & _). unfold validateStreamConfig in Hs. cbn zeta in Hs.
  fold sessions bitrate in Hs. rewrite !seq_ok, !reject_ok in Hs. rewrite i64_id in Hs by done.
  destruct Hs as (_ & _ & _ & _ & _ & Hb & _). to_prop. lia.
Qed.

(** *** Malformed variables *)

Definition bool_keys : list string :=
  [envProduction; envRequireAuth; envDevHeaderAuth; "DISABLE_SERVICE_FALLBACK"; envLDAPEnabled; envLDAPUseTLS;
   envImageCheckEnabled; envImageProvenanceRequired; envDockerCleanupEnabled; "AUTOMATED_POD_DELETION_ENABLED";
   "PLAN_WINDOW_POD_DELETION_ENABLED"; envLonghornRWXAutoRepair; "VPN_USAGE_ENABLED"].
Definition int_keys : list string :=
  [envLDAPPort; envEventRelayBatchSize; "ADAPTER_RETRIES"; "ADAPTER_CIRCUIT_THRESHOLD"; "AUDIT_RETENTION_DAYS";
   envMaxAPIBodyBytes; envMaxConfigFileBytes; envMaxConfigFileDocuments; envGPUSnapshotWindowMinutes;
   envGPUUsageRetentionDays; envLonghornRWXSnapshotWarn; envLonghornRWXSnapshotBlock; envStreamMaxBitrateKbps;
   envStreamMaxConcurrentSessions; envStreamEgressBudgetKbps].
Definition duration_keys : list string :=
  [envLDAPMirrorSyncInterval; "SHUTDOWN_TIMEOUT"; "MAINTENANCE_INTERVAL"; "ADAPTER_TIMEOUT";
   "ADAPTER_CIRCUIT_OPEN_INTERVAL"; "IDE_IDLE_REAPER_TIMEOUT"; envLonghornRWXHealthInterval;
   envLonghornRWXRepairCooldown; envPriorityClassSyncInterval; "VPN_USAGE_GRACE"; envStreamTURNCredentialTTL].
Definition seconds_keys : list string := [envVPNAPITimeout; envMinIOOperationTimeout; envPGAdminSSOHTTPTimeout].

(** The variable is set to a text its parser refuses. *)
Definition malformed (environ : gmap string string) (key : string) : Prop :=
  exists value, environ !! key = Some value /\ value ≠ "" /\
    ((key ∈ bool_keys /\ ParseBool value = None) \/ (key ∈ int_keys /\ Atoi value = None) \/
     (key ∈ duration_keys /\ ParseDuration value = None) \/
     (key ∈ seconds_keys /\ blank value = false /\ positive (ParseDuration (TrimSpace value)) = None /\ positive (Atoi (TrimSpace value)) = None) \/
     (key = envAdapterConfig /\ blank value = false /\ unmarshal_adapters value = None) \/
     (key = envServiceTrustedIdentities /\ blank value = false /\ unmarshal_identities value = None) \/
     (key = envAPIKeyUsers /\ blank value = false /\ unmarshal_principals value = None) \/
     (key = envServiceURLs /\ blank value = false /\ unmarshal_string_map value = None) \/
     (key = envTrustedProxyCIDRs /\ exists item, item ∈ list_items value /\ parse_cidr_item item = None)).

Lemma env_value_malformed {A} environ (parse : string -> option A) kind key value fallback :
  environ !! key = Some value -> value ≠ "" -> parse value = None ->
  snd (env_value environ parse kind key fallback) = [Diagnostic key kind].
Proof.
  intros He Hne Hp. unfold env_value, str_empty. rewrite He, Hp. by destruct (String.eqb_spec value "").
Qed.

Lemma json_map_malformed {A B} (u : string -> option (gmap string A)) (f : string -> A -> option (string * B)) name value :
  blank value = false -> u value = None -> snd (json_map u f name value) = [Diagnostic name configDiagnosticJSONObject].
Proof. unfold json_map, blank. by intros -> ->. Qed.

Lemma elem_of_concat {A} (x : A) l ls : x ∈ l -> l ∈ ls -> x ∈ concat ls.
Proof. rewrite !list_elem_of_In. intros. apply in_concat. by exists l. Qed.

(** Finds the list of diagnostics [l] among those the configuration collects. *)
Tactic Notation "collected" uconstr(l) :=
  eapply (elem_of_concat _ l); cycle 1; [repeat first [apply list_elem_of_here | apply list_elem_of_further]|].

Ltac each_key H := repeat (apply elem_of_cons in H as [->|H]); [..|by apply elem_of_nil in H].

Lemma malformed_diagnosed environ key :
  malformed environ key -> exists kind, Diagnostic key kind ∈ cf_parseDiagnostics (ConfigFromEnv environ).
Proof.
  change (cf_parseDiagnostics (ConfigFromEnv environ)) with (parser_diagnostics environ).
  unfold parser_diagnostics. cbn zeta. intros (value & He & Hne & Hbad).
  assert (Getenv environ key = value) as Hg by (unfold Getenv; by rewrite He).
  destruct Hbad as [[Hk Hp]|[[Hk Hp]|[[Hk Hp]|[(Hk & Hb & Hp & Hs)|[(-> & Hb & Hu)|[(-> & Hb & Hu)|[(-> & Hb & Hu)|[(-> & Hb & Hu)|(-> & item & Hi & Hc)]]]]]]]].
  - exists "bool". each_key Hk;
      (match type of He with _ !! ?k = _ => collected (snd (envBool environ k _)) end);
      unfold envBool; rewrite (env_value_malformed _ _ _ _ _ _ He Hne Hp); left.
  - exists "integer". each_key Hk;
      (match type of He with _ !! ?k = _ => collected (snd (envInt environ k _)) end);
      unfold envInt; rewrite (env_value_malformed _ _ _ _ _ _ He Hne Hp); left.
  - exists "duration". each_key Hk;
      (match type of He with _ !! ?k = _ => collected (snd (envDuration environ k _)) end);
      unfold envDuration; rewrite (env_value_malformed _ _ _ _ _ _ He Hne Hp); left.
  - exists "duration or positive integer seconds". each_key Hk;
      (match type of He with _ !! ?k = _ => collected (snd (envDurationOrSeconds environ k _)) end);
      unfold envDurationOrSeconds; rewrite He; cbn zeta; change (str_empty (TrimSpace value)) with (blank value); rewrite Hb, Hp, Hs; left.
  - exists configDiagnosticJSONObject. collected (snd (parseAdapterConfigs (Getenv environ envAdapterConfig))).
    unfold parseAdapterConfigs. rewrite Hg, json_map_malformed by done. left.
  - exists configDiagnosticJSONObject. collected (snd (parseServiceTrustedIdentities (Getenv environ envServiceTrustedIdentities))).
    unfold parseServiceTrustedIdentities. rewrite Hg, json_map_malformed by done. left.
  - exists configDiagnosticJSONObject. collected (snd (parseAPIKeyPrincipals (Getenv environ envAPIKeyUsers))).
    unfold parseAPIKeyPrincipals. rewrite Hg, json_map_malformed by done. left.
  - exists configDiagnosticJSONObject. collected (snd (parseServiceURLs (Getenv environ envServiceURLs))).
    unfold parseServiceURLs. rewrite Hg, json_map_malformed by done. left.
  - exists "CIDR/IP list". rewrite Hg. apply (elem_of_concat _ [Diagnostic envTrustedProxyCIDRs "CIDR/IP list"]); [left|].
    right; right.
    assert (snd (parseTrustedProxyCIDRsWithDiagnostics value) = true) as ->.
    { apply existsb_Exists. exists item. by rewrite Hc. }
    left.
Qed.

Lemma strict_diagnostics_fatal c d :
  d ∈ cf_parseDiagnostics c -> StrictRuntimeChecks c = true \/ pd_envName d ∈ [envProduction; envAppEnv] ->
  exists text, Validate c = Err text.
Proof.
  intros Hd Hs. unfold Validate, validateParseDiagnostics.
  assert (bool_decide (cf_parseDiagnostics c = []) = false) as ->.
  { apply bool_decide_eq_false. intros E. rewrite E in Hd. by apply elem_of_nil in Hd. }
  match goal with |- context [reject (_ && ?f) _] => assert (f = true) as -> end.
  { apply orb_true_iff. destruct Hs as [|Hs]; [by left|right]. apply existsb_Exists. exists d. split; [done|].
    apply orb_true_iff. rewrite !String.eqb_eq. set_solver. }
  cbn. eauto.
Qed.

(** C40: Start-up fails closed on a malformed environment: when a boolean, integer,
    duration or seconds variable, the trusted identities, the key principals, the service
    URLs, the adapters or the proxy list cannot be parsed, validation of the configuration read from
    that environment fails in staging and production, and in every profile when the
    variable is PRODUCTION itself. *)
Theorem malformed_environment_fails_closed environ key :
  malformed environ key ->
  StrictRuntimeChecks (ConfigFromEnv environ) = true \/ key = envProduction ->
  exists text, Validate (ConfigFromEnv environ) = Err text.
Proof.
  intros [kind Hd]%malformed_diagnosed Hs. eapply strict_diagnostics_fatal; [done|].
  destruct Hs as [Hs| ->]; [by left|right]. cbn. set_solver.
Qed.

(** The flag and the profile agree once read from the environment. *)
Lemma ConfigFromEnv_production environ :
  cf_Production (ConfigFromEnv environ) = IsProductionProfile (ConfigFromEnv environ).
Proof.
  unfold IsProductionProfile, EffectiveEnvironmentProfile, effectiveEnvironmentProfile.
  cbn [ConfigFromEnv cf_Production cf_EnvironmentProfile]. unfold runtimeProfileIsProduction.
  set (profile := normalizeEnvironmentProfile _). destruct (negb (str_empty profile)); [done|].
  by destruct (fst (envBool environ envProduction false)).
Qed.

End Guarantees.

(** ** Concrete environments *)

Definition demo_env_lib : EnvLib nat := {|
  ParseBool s := if String.eqb s "true" then Some true else if String.eqb s "false" then Some false else None;
  Atoi _ := None; ParseDuration _ := None; unmarshal_string_map _ := None;
  unmarshal_principals s := if String.eqb s "principals"
    then Some {[ "k1" := Principal "svc" "" "" "" "" false ["workload:read"] ]} else None;
  unmarshal_identities _ := None; unmarshal_adapters _ := None; ParseCIDR _ := None; ParseHost _ := None;
  url_parts s := Some (s, "host") |}.

Definition production_environ : gmap string string := list_to_map
  [(envProduction, "true"); ("SERVICE_NAME", "iam-unit"); ("API_KEYS", "k1"); (envAPIKeyUsers, "principals");
   (envDatabaseURL, "postgres"); (envRedisURL, "redis"); (envEventBusURL, "redis"); (envImageCheckEnabled, "true");
   (envImageProvenanceRequired, "true"); ("OTEL_EXPORTER_OTLP_ENDPOINT", "otel")].
Definition production_config : config nat := @ConfigFromEnv nat demo_env_lib production_environ.

Example production_config_valid :
  @Validate nat demo_env_lib production_config = Ok tt /\ IsProductionProfile production_config = true.
Proof. split; vm_compute; reflexivity. Qed.

Lemma malformed_environment_fails_closed_witness :
  exists text, @Validate nat demo_env_lib
    (@ConfigFromEnv nat demo_env_lib (<[envRequireAuth := "of course"]> production_environ)) = Err text.
Proof.
  apply (@malformed_environment_fails_closed nat demo_env_lib _ envRequireAuth).
  - exists "of course". split; [vm_compute; reflexivity|]. split; [discriminate|]. left. split; [|reflexivity].
    right. left.
  - left. vm_compute. reflexivity.
Defined.

(** The product of the streaming limits is computed in 64 bits: a configuration whose
    sessions at full rate exceed the egress budget by far can pass. *)
Definition with_stream (sessions bitrate : string) : config nat :=
  @ConfigFromEnv nat {| ParseBool := @ParseBool nat demo_env_lib; Atoi _ := Some (2 ^ 32);
    ParseDuration _ := None; unmarshal_string_map _ := None; unmarshal_principals := @unmarshal_principals nat demo_env_lib;
    unmarshal_identities _ := None; unmarshal_adapters _ := None; ParseCIDR _ := None; ParseHost _ := None;
    url_parts := @url_parts nat demo_env_lib |}
    (<[envStreamMaxConcurrentSessions := sessions]> (<[envStreamMaxBitrateKbps := bitrate]> production_environ)).

Example stream_budget_overflow :
  let c := with_stream "4294967296" "4294967296" in
  @Validate nat demo_env_lib c = Ok tt /\
  cf_StreamEgressBudgetKbps c < cf_StreamMaxConcurrentSessions c * cf_StreamMaxBitrateKbps c.
Proof. split; vm_compute; reflexivity. Qed.
