(* ===== verification/Auth.v ===== *)
(** * Authentication (internal/platform/auth.go, api_key.go, jwt.go, dev_token.go,
    identity_auth_client.go, revocation.go, secrets.go)

    How a request is bound to a verified principal: session tokens, user API tokens,
    signed development tokens, JSON web tokens and static API keys, with the denylist
    of revoked credentials.  Cryptography, encodings, the OIDC verifier and the remote
    identity service are the class [AuthLib]; [now] is the clock reading of the
    request.  A check yields [None] when it refuses, and then leaves the request as it
    was; the store and the denylist may change either way. *)

From stdpp Require Import base gmap strings list fin_maps.
From Stdlib Require Import ZArith Lia Ascii.
From S2P Require Import Prelude GoValue Store EventBus Crud RateLimit InputLimits Config.
Local Open Scope Z_scope.

Definition headerAPITokenID : string := "X-API-Token-ID".
Definition headerUserID : string := "X-User-ID".
Definition headerUsername : string := "X-Username".
Definition headerUserRole : string := "X-User-Role".
Definition headerAdmin : string := "X-Admin".

(** A request body: the bytes that arrive, and the limit of the [http.MaxBytesReader]
    it is wrapped in, if it is. *)
Record body_reader := BodyReader { br_bytes : string; br_limit : option Z }.

(** The parts of an [*http.Request] the guards read; [rq_Body] is [None] for a nil body;
    [rq_user] and [rq_token] are the values its context carries for the verified principal
    and the API token. *)
Record request := Request {
  rq_Method : string;
  rq_Header : gmap string string;
  rq_Cookie : gmap string string;
  rq_Query : gmap string string;
  rq_RemoteAddr : string;
  rq_ContentLength : Z;
  rq_Body : option body_reader;
  rq_user : option object;
  rq_token : option string
}.

Definition with_headers (r : request) (h : gmap string string) : request :=
  Request (rq_Method r) h (rq_Cookie r) (rq_Query r) (rq_RemoteAddr r) (rq_ContentLength r) (rq_Body r) (rq_user r) (rq_token r).

Definition with_body (r : request) (b : option body_reader) : request :=
  Request (rq_Method r) (rq_Header r) (rq_Cookie r) (rq_Query r) (rq_RemoteAddr r) (rq_ContentLength r) b (rq_user r) (rq_token r).

Definition Header_Get (r : request) (name : string) : string := default "" (rq_Header r !! name).
Definition Header_Set (name value : string) (r : request) : request := with_headers r (<[name := value]> (rq_Header r)).
Definition Header_Del (name : string) (r : request) : request := with_headers r (delete name (rq_Header r)).

Definition setVerifiedUser (r : request) (user : object) : request :=
  Request (rq_Method r) (rq_Header r) (rq_Cookie r) (rq_Query r) (rq_RemoteAddr r) (rq_ContentLength r) (rq_Body r)
    (Some user) (rq_token r).
Definition verifiedUser (r : request) : option object := rq_user r.

Definition setAPITokenID (r : request) (id : string) : request :=
  Request (rq_Method r) (rq_Header r) (rq_Cookie r) (rq_Query r) (rq_RemoteAddr r) (rq_ContentLength r) (rq_Body r)
    (rq_user r) (Some id).
Definition APITokenID (r : request) : string := default "" (rq_token r).

Definition stripInboundIdentityHeaders (r : request) : request :=
  foldr Header_Del r [headerUserID; headerUsername; headerUserRole; headerAdmin].

(** ** The denylist *)

(** App.Revocations: nil, the in-process map from key to expiry, or the shared store,
    whose answer for a key may be an error. *)
Inductive revocations :=
| NoRevocations
| MemoryRevocations (entries : gmap string Z)
| RedisRevocations (exists_ : string -> option bool).

Definition revocationKey (kind id : string) : string := "revocation:" +:+ kind +:+ ":" +:+ id.

(** A write to the shared store is not tracked: its answers are its own. *)
Definition Revoke (rv : revocations) (kind id : string) (ttl0 now : Z) : revocations :=
  let ttl := if ttl0 <=? 0 then time_Minute else ttl0 in
  match rv with
  | MemoryRevocations entries => MemoryRevocations (<[revocationKey kind id := now + ttl]> entries)
  | _ => rv
  end.

(** [Some b] is the answer, [None] an error. *)
Definition IsRevoked (rv : revocations) (kind id : string) (now : Z) : revocations * option bool :=
  let key := revocationKey kind id in
  match rv with
  | NoRevocations => (rv, Some false)
  | MemoryRevocations entries =>
      match entries !! key with
      | None => (rv, Some false)
      | Some expiry => if expiry <? now then (MemoryRevocations (delete key entries), Some false) else (rv, Some true)
      end
  | RedisRevocations ex => (rv, ex key)
  end.

(** ** Claims and values *)

Record devTokenClaims := DevClaims {
  dc_Subject : string;
  dc_Username : string;
  dc_Role : string;
  dc_Admin : bool;
  dc_Expires : Z
}.

Class AuthLib := {
  pbkdf2_key : string -> string -> Z -> Z -> option string;   (* secret, salt, iterations, length *)
  hex_DecodeString : string -> option string;
  secret_Atoi : string -> option Z;
  hmac_base64 : string -> string -> string;                    (* key, body: the encoded MAC *)
  base64_Encode : string -> string;
  base64_Decode : string -> option string;
  marshal_claims : devTokenClaims -> string;
  unmarshal_claims : string -> option devTokenClaims;
  verify_id_token : string -> option object;                   (* the claims of a token whose signature and issuer verify *)
  remote_identity : string -> string -> option (object * string) (* path, token: user and API token id of a decoded answer *)
}.

Record auth_state := AuthState { as_Store : store; as_Revocations : revocations }.

(** An authentication attempt: [Some r'] is success with the rewritten request. *)
Definition attempt : Type := auth_state -> auth_state * option request.
Definition or_else (a b : attempt) : attempt :=
  fun st => match a st with (st', Some r) => (st', Some r) | (st', None) => b st' end.
Definition refuse : attempt := fun st => (st, None).

Section Auth.
Context `{GoLib} `{AuthLib} {ip : Type} (cfg : config ip) (now : Z).

Definition authInt (v : any) (fallback : Z) : Z :=
  match v with
  | VInt z | VInt64 z => z
  | VFloat64 f => f64_to_int f
  | _ => fallback
  end.

Definition authBool (v : any) : bool :=
  match v with
  | VBool b => b
  | VString s => EqualFold s "true"
  | _ => false
  end.

Definition authRoleName (systemRole : Z) : string :=
  if systemRole =? 0 then "admin" else if systemRole =? 1 then "manager" else "user".

Definition authActiveUser (user : object) : bool :=
  bool_decide (ToLower (asString (mget user "status")) ∈ [""; "online"; "offline"]).

Definition tokenExpired (data : object) : bool :=
  let expiresAt := asString (mget data "expires_at") in
  if str_empty expiresAt then false
  else match parse_rfc3339 expiresAt with Some parsed => parsed <? now | None => true end.

Definition auth_username (user : object) : string :=
  FirstNonEmpty [asString (mget user "username"); asString (mget user "name")].
Definition auth_role (user : object) : string :=
  FirstNonEmpty [asString (mget user "role"); authRoleName (authInt (mget user "system_role") 2)].

Definition applyAuthHeaders (r : request) (user : object) : request :=
  Header_Set headerUserRole (auth_role user)
    (Header_Set headerUsername (auth_username user)
       (Header_Set headerUserID (asString (mget user "id")) (setVerifiedUser r user))).

(** App.tokenRevoked: an error of the shared store counts as revoked in production. *)
Definition tokenRevoked (st : auth_state) (kind id : string) : auth_state * bool :=
  match IsRevoked (as_Revocations st) kind id now with
  | (rv, Some revoked) => (AuthState (as_Store st) rv, revoked)
  | (rv, None) => (AuthState (as_Store st) rv, IsProductionProfile cfg)
  end.

(** ** Secrets and API tokens *)

Definition secretHashPrefix : string := "pbkdf2-sha256".
Definition legacySHA256Prefix : string := "sha256:".
Definition userAPITokenPrefix : string := "nexuspaas".
Definition userAPITokenIDPrefix : string := "AT".

Definition VerifySecret (hash secret : string) : bool :=
  if HasPrefix hash (secretHashPrefix +:+ ":") then
    match Split hash ":" with
    | [_; iters; salt_hex; want_hex] =>
        match secret_Atoi iters, hex_DecodeString salt_hex, hex_DecodeString want_hex with
        | Some iterations, Some salt, Some want =>
            if iterations <=? 0 then false
            else match pbkdf2_key secret salt iterations (Z.of_nat (String.length want)) with
                 | Some got => String.eqb got want
                 | None => false
                 end
        | _, _, _ => false
        end
    | _ => false
    end
  else if HasPrefix hash legacySHA256Prefix then String.eqb (legacySHA256Prefix +:+ sha256_hex secret) hash
  else if HasPrefix hash "plain:" then String.eqb (TrimPrefix hash "plain:") secret
  else if negb (str_empty hash) then String.eqb hash secret
  else false.

Definition FormatUserAPIToken (id0 secret0 : string) : string :=
  let id := TrimSpace id0 in
  let secret := TrimSpace secret0 in
  if str_empty id || str_empty secret then ""
  else userAPITokenPrefix +:+ "_" +:+ id +:+ "_" +:+ secret.

(** [strings.SplitN(s, c, n + 1)] on bytes: at most [n] cuts. *)
Fixpoint splitN_on (c : ascii) (n : nat) (l : list ascii) : list (list ascii) :=
  match n, l with
  | O, _ => [l]
  | S _, [] => [[]]
  | S n', d :: l' =>
      if Ascii.eqb c d then [] :: splitN_on c n' l'
      else match splitN_on c n l' with
           | [] => [[d]]
           | w :: ws => (d :: w) :: ws
           end
  end.
Definition SplitN (s : string) (c : ascii) (n : nat) : list string := map of_bytes (splitN_on c (n - 1) (bytes_of s)).

Definition ParseUserAPITokenID (token : string) : option string :=
  match SplitN (TrimSpace token) "_" 3 with
  | [prefix; id; secret] =>
      if negb (String.eqb prefix userAPITokenPrefix) || str_empty id || str_empty secret then None
      else if negb (HasPrefix id userAPITokenIDPrefix) || (String.length id =? String.length userAPITokenIDPrefix)%nat then None
      else Some id
  | _ => None
  end.

(** ** Remote identity *)

Definition identityServiceName : string := "identity-service".
Definition internalIdentitySessionAuth : string := "/internal/identity/auth/session".
Definition internalIdentityAPITokenAuth : string := "/internal/identity/auth/api-token".

Definition remoteIdentityAuthEnabled : bool :=
  negb (AllowsService cfg identityServiceName) &&
  negb (blank (default "" (cf_ServiceURLs cfg !! identityServiceName))) &&
  canUseRemoteServiceIdentity cfg.

(** What is left of the answer once the response is decoded: a user without an id is
    refused. *)
Definition remoteIdentityAuth (path token : string) : option (object * string) :=
  match remote_identity path token with
  | Some (user, tokenID) => if str_empty (asString (mget user "id")) then None else Some (user, tokenID)
  | None => None
  end.

Definition authorizeRemoteSessionToken (r : request) (token : string) : attempt := fun st =>
  match remoteIdentityAuth internalIdentitySessionAuth token with
  | Some (user, _) => (st, Some (applyAuthHeaders r user))
  | None => (st, None)
  end.

Definition with_token_id (r : request) (id : string) : request := Header_Set headerAPITokenID id (setAPITokenID r id).

Definition authorizeRemoteAPIToken (r : request) (token : string) : attempt := fun st =>
  match remoteIdentityAuth internalIdentityAPITokenAuth token with
  | Some (user, tokenID) => if blank tokenID then (st, None) else (st, Some (with_token_id (applyAuthHeaders r user) tokenID))
  | None => (st, None)
  end.

(** ** The checks *)

Definition sessionsResource : string := "identity-service:sessions".
Definition usersResource : string := "identity-service:users".
Definition apiTokensResource : string := "identity-service:api_tokens".

(** The active user a credential record names. *)
Definition active_user (s : store) (data : object) : option object :=
  match Get s usersResource (asString (mget data "user_id")) with
  | Some user => if authActiveUser (rec_Data user) then Some (rec_Data user) else None
  | None => None
  end.

Definition authorizeSessionToken (r : request) (token : string) : attempt := fun st =>
  if remoteIdentityAuthEnabled then authorizeRemoteSessionToken r token st
  else match Get (as_Store st) sessionsResource token with
       | None => (st, None)
       | Some session =>
           if tokenExpired (rec_Data session) || authBool (mget (rec_Data session) "revoked") then (st, None)
           else
             let '(st1, revoked) := tokenRevoked st "session" token in
             if revoked then (st1, None)
             else match active_user (as_Store st1) (rec_Data session) with
                  | None => (st1, None)
                  | Some user => (st1, Some (applyAuthHeaders r user))
                  end
       end.

Definition authorizeAPIToken (r : request) (token : string) : attempt := fun st =>
  if remoteIdentityAuthEnabled then authorizeRemoteAPIToken r token st
  else match ParseUserAPITokenID token with
       | None => (st, None)
       | Some tokenID =>
           match Get (as_Store st) apiTokensResource tokenID with
           | None => (st, None)
           | Some rc =>
               if authBool (mget (rec_Data rc) "revoked") || tokenExpired (rec_Data rc) then (st, None)
               else if negb (VerifySecret (asString (mget (rec_Data rc) "token_hash")) token) then (st, None)
               else
                 let '(st1, revoked) := tokenRevoked st "api_token" (rec_ID rc) in
                 if revoked then (st1, None)
                 else match active_user (as_Store st1) (rec_Data rc) with
                      | None => (st1, None)
                      | Some user =>
                          let s2 := fst (Update (as_Store st1) apiTokensResource (rec_ID rc)
                                           {[ "last_used_at" := VString (format_rfc3339 now) ]} now) in
                          (AuthState s2 (as_Revocations st1), Some (with_token_id (applyAuthHeaders r user) (rec_ID rc)))
                      end
           end
       end.

(** *** Development tokens *)

(** newDevTokenSigner: the signing key, when there is a signer. *)
Definition newDevTokenSigner : option string :=
  if cf_Production cfg || blank (cf_DevAuthSigningKey cfg) then None else Some (cf_DevAuthSigningKey cfg).

Definition dev_sign (key : string) (claims : devTokenClaims) : string :=
  let body := base64_Encode (marshal_claims claims) in
  body +:+ "." +:+ hmac_base64 key body.

Definition dev_verify (key token : string) : option devTokenClaims :=
  match Split (TrimSpace token) "." with
  | [body; mac] =>
      if str_empty body then None
      else if negb (String.eqb (hmac_base64 key body) mac) then None
      else match base64_Decode body with
           | None => None
           | Some payload =>
               match unmarshal_claims payload with
               | None => None
               | Some claims =>
                   if str_empty (dc_Subject claims) then None
                   else if (dc_Expires claims =? 0) || (dc_Expires claims <? now / time_Second) then None
                   else Some claims
               end
           end
  | _ => None
  end.

Definition devClaimsUser (c : devTokenClaims) : object :=
  let user := <["id" := VString (dc_Subject c)]> (<["username" := VString (FirstNonEmpty [dc_Username c; dc_Subject c])]>
                {[ "role" := VString (FirstNonEmpty [dc_Role c; "user"]) ]}) in
  if dc_Admin c then <["admin_panel" := VBool true]> (<["system_role" := VInt 0]> user) else user.

Definition authorizeDevToken (r : request) (token : string) : attempt := fun st =>
  match newDevTokenSigner with
  | None => (st, None)
  | Some key => match dev_verify key token with
                | None => (st, None)
                | Some claims => (st, Some (applyAuthHeaders r (devClaimsUser claims)))
                end
  end.

(** The lifetime handleDevToken grants and the token it mints. *)
Definition dev_token_ttl (ttlSeconds : Z) : Z :=
  let ttl := i64 (ttlSeconds * time_Second) in
  if (ttl <=? 0) || (12 * time_Hour <? ttl) then time_Hour else ttl.

Definition handleDevToken (key username0 role : string) (admin : bool) (ttlSeconds : Z) : string :=
  let username := let u := TrimSpace username0 in if str_empty u then "dev" else u in
  dev_sign key (DevClaims username username (FirstNonEmpty [role; "user"]) admin
                  ((now + dev_token_ttl ttlSeconds) / time_Second)).

(** *** JSON web tokens *)

Definition jwtClockSkew : Z := time_Minute.

Definition jwtString (v : any) : string := TrimSpace (default "" (as_str v)).

Definition jwtStringsFromAny (values : list any) : list string :=
  filter (fun t => t ≠ "") (map jwtString values).

Definition jwtStrings (v : any) : list string :=
  match v with
  | VString s => [s]
  | VStrings l => l
  | VList l => jwtStringsFromAny l
  | _ => []
  end.

(** [Ok (Some t)] a date, [Ok None] absent, [Err] malformed. *)
Definition jwtNumericDate (v : any) : result unit (option Z) :=
  match v with
  | VFloat64 f => Ok (Some (f64_to_int f * time_Second))
  | VNumber s => match parse_int64 s with Some seconds => Ok (Some (seconds * time_Second)) | None => Err tt end
  | VNil => Ok None
  | _ => Err tt
  end.

Definition jwtAudienceAllowed (v : any) (allowed : gmap string bool) : bool :=
  existsb (fun audience => default false (allowed !! audience)) (jwtStrings v).

Definition validateClaimTimes (claims : object) : bool :=
  match jwtNumericDate (mget claims "exp") with
  | Ok (Some expiry) =>
      if expiry + jwtClockSkew <? now then false
      else match jwtNumericDate (mget claims "nbf") with
           | Err _ => false
           | Ok nbf =>
               if match nbf with Some notBefore => now + jwtClockSkew <? notBefore | None => false end then false
               else match jwtNumericDate (mget claims "iat") with
                    | Err _ => false
                    | Ok iat => negb match iat with Some issuedAt => now + jwtClockSkew <? issuedAt | None => false end
                    end
           end
  | _ => false
  end.

Definition jwt_issuer : string := TrimSpace (cf_JWTIssuer cfg).

Definition validateClaims (claims : object) : bool :=
  if str_empty jwt_issuer || bool_decide (cf_JWTAudiences cfg = ∅) then false
  else if negb (String.eqb (jwtString (mget claims "iss")) jwt_issuer) then false
  else if str_empty (jwtString (mget claims "sub")) then false
  else if negb (jwtAudienceAllowed (mget claims "aud") (cf_JWTAudiences cfg)) then false
  else validateClaimTimes claims.

(** jwtVerifier.Verify; there is no verifier without a key set URL. *)
Definition jwt_Verify (token : string) : option object :=
  if blank (cf_JWKSURL cfg) then None
  else match verify_id_token token with
       | Some claims => if validateClaims claims then Some claims else None
       | None => None
       end.

Definition jwtRoleGrantsAdmin (role : string) : bool :=
  let ps := [["/"%char]; [" "%char]] in
  let l := trim_loop ps (String.length role) (bytes_of role) in
  let trimmed := of_bytes (rev (trim_loop ps (length l) (rev l))) in
  bool_decide (ToLower trimmed ∈ ["admin"; "superadmin"; "root"; "platform-admin"]).

Definition jwt_roles (claims : object) : list string :=
  concat (map (fun name => jwtStrings (mget claims name)) ["role"; "roles"; "groups"]).

Definition jwtClaimsGrantAdmin (claims : object) : bool :=
  authBool (mget claims "admin") || authBool (mget claims "admin_panel") || authBool (mget claims "adminPanel") ||
  existsb jwtRoleGrantsAdmin (jwt_roles claims).

Definition jwtPrincipalRole (claims : object) : string := FirstNonEmpty (jwt_roles claims ++ ["user"]).

Definition jwtUsername (claims : object) : string :=
  FirstNonEmpty (map (fun k => jwtString (mget claims k)) ["preferred_username"; "name"; "email"; "sub"]).

Definition jwtClaimsUser (claims : object) : object :=
  let user := <["id" := VString (jwtString (mget claims "sub"))]> (<["username" := VString (jwtUsername claims)]>
                (<["role" := VString (jwtPrincipalRole claims)]> (<["system_role" := VInt 2]>
                {[ "status" := VString "online" ]}))) in
  let email := jwtString (mget claims "email") in
  let user := if negb (str_empty email) then <["email" := VString email]> user else user in
  if jwtClaimsGrantAdmin claims
  then <["role" := VString "admin"]> (<["system_role" := VInt 0]> (<["admin_panel" := VBool true]> user))
  else user.

Definition authorizeJWT (r : request) (token : string) : attempt := fun st =>
  match jwt_Verify token with
  | None => (st, None)
  | Some claims =>
      let jti := jwtString (mget claims "jti") in
      let '(st1, revoked) := if negb (str_empty jti) then tokenRevoked st "jwt" jti else (st, false) in
      if revoked then (st1, None) else (st1, Some (applyAuthHeaders r (jwtClaimsUser claims)))
  end.

(** time.Until: the difference saturates at the ends of a Duration. *)
Definition time_Until (t : Z) : Z := Z.max (- two63) (Z.min (two63 - 1) (t - now)).

Definition RevokeBearer (rv : revocations) (token : string) : revocations * bool :=
  match jwt_Verify token with
  | None => (rv, false)
  | Some claims =>
      let jti := jwtString (mget claims "jti") in
      if str_empty jti then (rv, false)
      else match jwtNumericDate (mget claims "exp") with
           | Ok (Some expiry) =>
               let remaining := time_Until expiry in
               if remaining <=? 0 then (rv, true) else (Revoke rv "jwt" jti remaining now, true)
           | _ => (Revoke rv "jwt" jti time_Hour now, true)
           end
  end.

(** *** Static API keys *)

(** The last enabled key, in the order of the iteration, with the hash of the presented
    one. *)
Definition matchedAPIKey (presented : string) (configured : gmap string bool) : option string :=
  if str_empty presented || bool_decide (configured = ∅) then None
  else fst <$> List.find (fun kv => String.eqb (sha256_hex kv.1) (sha256_hex presented) && kv.2) (rev (map_to_list configured)).

Definition principal_userData (p0 : APIKeyPrincipal) : object :=
  let p := principal_normalized p0 in
  let data := <["id" := VString (akp_ID p)]> (<["username" := VString (akp_Username p)]> (<["role" := VString (akp_Role p)]>
                (<["system_role" := VInt 2]> (<["status" := VString "online"]> {[ "scopes" := VStrings (akp_Scopes p) ]})))) in
  if akp_Admin p then <["system_role" := VInt 0]> (<["admin_panel" := VBool true]> data) else data.

Definition authorizeStaticAPIKey (r : request) (presented : string) : attempt := fun st =>
  match matchedAPIKey presented (cf_APIKeys cfg) with
  | None => (st, None)
  | Some matched =>
      let p := principal_of cfg matched in
      if negb (str_empty (akp_ID p)) then (st, Some (applyAuthHeaders r (principal_userData p))) else (st, Some r)
  end.

(** ** The whole check *)

Definition authorizeBearerHeader (r : request) : attempt :=
  let header := TrimSpace (Header_Get r "Authorization") in
  if HasPrefix header "Bearer " then
    let token := TrimSpace (TrimPrefix header "Bearer ") in
    if str_empty token then refuse
    else or_else (authorizeSessionToken r token) (or_else (authorizeAPIToken r token)
           (or_else (authorizeDevToken r token) (authorizeJWT r token)))
  else refuse.

Definition cookie (r : request) (name : string) : string := default "" (rq_Cookie r !! name).

Definition authorize_cookie (r : request) (name : string) : attempt :=
  if str_empty (cookie r name) then refuse
  else or_else (authorizeSessionToken r (cookie r name)) (authorizeJWT r (cookie r name)).

Definition authorizeAuthCookies (r : request) : attempt :=
  or_else (authorize_cookie r "token") (authorize_cookie r "nexuspaas_jwt").

Definition authorizeDevCookie (r : request) : attempt :=
  if str_empty (cookie r "dev_token") then refuse else authorizeDevToken r (cookie r "dev_token").

Definition authorized (r0 : request) (rt : route) (st : auth_state) : auth_state * request * bool :=
  let r1 := Header_Del headerAPITokenID r0 in
  let r := if cf_RequireAuth cfg then stripInboundIdentityHeaders r1 else r1 in
  if negb (cf_RequireAuth cfg) || negb (rt_AuthRequired rt) then (st, r, true)
  else match or_else (authorizeBearerHeader r) (or_else (authorizeAuthCookies r) (or_else (authorizeDevCookie r)
               (authorizeStaticAPIKey r (Header_Get r "X-API-Key")))) st with
       | (st', Some r') => (st', r', true)
       | (st', None) => (st', r, false)
       end.

(** ** What authentication decides *)

Inductive credential_kind := KSession | KAPIToken | KDev | KJWT | KStatic.

(** The principal a credential stands for: a user and, for API tokens, the token id; a
    static key without a configured principal stands for nobody. *)
Definition identity : Type := option (object * option string).

Definition denied (st : auth_state) (kind id : string) : bool := snd (tokenRevoked st kind id).

(** A token is a valid credential of a kind. *)
Inductive credential (st : auth_state) : credential_kind -> string -> identity -> Prop :=
| cred_session token session user :
    remoteIdentityAuthEnabled = false -> Get (as_Store st) sessionsResource token = Some session ->
    tokenExpired (rec_Data session) = false -> authBool (mget (rec_Data session) "revoked") = false ->
    denied st "session" token = false -> active_user (as_Store st) (rec_Data session) = Some user ->
    credential st KSession token (Some (user, None))
| cred_remote_session token user tid :
    remoteIdentityAuthEnabled = true -> remoteIdentityAuth internalIdentitySessionAuth token = Some (user, tid) ->
    credential st KSession token (Some (user, None))
| cred_api token id rc user :
    remoteIdentityAuthEnabled = false -> ParseUserAPITokenID token = Some id ->
    Get (as_Store st) apiTokensResource id = Some rc ->
    authBool (mget (rec_Data rc) "revoked") = false -> tokenExpired (rec_Data rc) = false ->
    VerifySecret (asString (mget (rec_Data rc) "token_hash")) token = true ->
    denied st "api_token" (rec_ID rc) = false -> active_user (as_Store st) (rec_Data rc) = Some user ->
    credential st KAPIToken token (Some (user, Some (rec_ID rc)))
| cred_remote_api token user tid :
    remoteIdentityAuthEnabled = true -> remoteIdentityAuth internalIdentityAPITokenAuth token = Some (user, tid) ->
    blank tid = false -> credential st KAPIToken token (Some (user, Some tid))
| cred_dev key token claims :
    newDevTokenSigner = Some key -> dev_verify key token = Some claims ->
    credential st KDev token (Some (devClaimsUser claims, None))
| cred_jwt token claims :
    jwt_Verify token = Some claims ->
    (jwtString (mget claims "jti") ≠ "" -> denied st "jwt" (jwtString (mget claims "jti")) = false) ->
    credential st KJWT token (Some (jwtClaimsUser claims, None))
| cred_key token key :
    matchedAPIKey token (cf_APIKeys cfg) = Some key ->
    credential st KStatic token
      (if str_empty (akp_ID (principal_of cfg key)) then None else Some (principal_userData (principal_of cfg key), None)).

(** The request as its principal's: the verified user and the headers derived from it. *)
Definition identify (r : request) (id : identity) : request :=
  match id with
  | None => r
  | Some (user, None) => applyAuthHeaders r user
  | Some (user, Some tid) => with_token_id (applyAuthHeaders r user) tid
  end.

(** The header that presents a bearer token. *)
Definition bearer (r : request) (token : string) : Prop :=
  HasPrefix (TrimSpace (Header_Get r "Authorization")) "Bearer " = true /\
  token = TrimSpace (TrimPrefix (TrimSpace (Header_Get r "Authorization")) "Bearer ").

(** Where a request may present a credential of each kind. *)
Definition presents (r : request) (kind : credential_kind) (token : string) : Prop :=
  token ≠ "" /\
  match kind with
  | KSession | KJWT => bearer r token \/ token = cookie r "token" \/ token = cookie r "nexuspaas_jwt"
  | KAPIToken => bearer r token
  | KDev => bearer r token \/ token = cookie r "dev_token"
  | KStatic => token = Header_Get r "X-API-Key"
  end.

(** Two states answer alike: refusals only drop expired entries of the denylist. *)
Definition same_answers (st st' : auth_state) : Prop :=
  as_Store st = as_Store st' /\ forall kind id, denied st kind id = denied st' kind id.

#[local] Instance same_answers_equiv : Equivalence same_answers.
Proof.
  split.
  - by intros st.
  - intros st st' [? Hd]. split; [done|]. intros. by rewrite Hd.
  - intros st1 st2 st3 [? Hd] [? Hd']. split; [congruence|]. intros. by rewrite Hd, Hd'.
Qed.

Lemma revocationKey_inj kind id kind' id' :
  kind ∈ ["session"; "api_token"; "jwt"] -> kind' ∈ ["session"; "api_token"; "jwt"] ->
  revocationKey kind id = revocationKey kind' id' -> kind = kind' /\ id = id'.
Proof.
  intros Hk Hk'. repeat (apply elem_of_cons in Hk as [->|Hk]); [..|by apply elem_of_nil in Hk];
    repeat (apply elem_of_cons in Hk' as [->|Hk']); try (by apply elem_of_nil in Hk');
    unfold revocationKey; cbn; intros [= ]; by subst.
Qed.

Lemma tokenRevoked_same st kind id : same_answers (fst (tokenRevoked st kind id)) st.
Proof.
  unfold same_answers, denied, tokenRevoked. destruct st as [s [|entries|ex]]; cbn; [done| |].
  2: { split; [by destruct (ex _)|]. intros. by destruct (ex (revocationKey kind id)). }
  destruct (entries !! revocationKey kind id) as [expiry|] eqn:E; [|done].
  destruct (expiry <? now) eqn:En; [|done]. split; [done|]. intros kind' id'. cbn.
  destruct (decide (revocationKey kind' id' = revocationKey kind id)) as [->|Hne].
  - rewrite lookup_delete_eq, E. by rewrite En.
  - rewrite lookup_delete_ne by done. destruct (entries !! revocationKey kind' id') as [e|]; [destruct (e <? now)|]; done.
Qed.

(** An attempt decides whether a credential satisfying [C] is there. *)
Definition decides (st : auth_state) (a : attempt) (r : request) (C : identity -> Prop) : Prop :=
  forall st0, same_answers st0 st ->
  match a st0 with
  | (_, Some r') => exists id, C id /\ r' = identify r id
  | (st', None) => (forall id, ~ C id) /\ same_answers st' st
  end.

Lemma refuse_decides st r : decides st refuse r (fun _ => False).
Proof. intros st0 Hs. cbn. split; [by intros ? []|done]. Qed.

Lemma or_else_decides st a b r C1 C2 :
  decides st a r C1 -> decides st b r C2 -> decides st (or_else a b) r (fun id => C1 id \/ C2 id).
Proof.
  intros Ha Hb st0 Hs. unfold or_else. specialize (Ha st0 Hs). destruct (a st0) as [st1 [r'|]].
  - destruct Ha as (id & ? & ->). exists id. split; [by left|done].
  - destruct Ha as [Hn Hs1]. specialize (Hb st1 Hs1). destruct (b st1) as [st2 [r'|]].
    + destruct Hb as (id & ? & ->). exists id. split; [by right|done].
    + destruct Hb as [Hn' ?]. split; [|done]. intros id [?|?]; [by eapply Hn|by eapply Hn'].
Qed.

Lemma decides_iff st a r C C' : (forall id, C id <-> C' id) -> decides st a r C -> decides st a r C'.
Proof.
  intros HC Ha st0 Hs. specialize (Ha st0 Hs). destruct (a st0) as [st1 [r'|]].
  - destruct Ha as (id & ? & ->). exists id. split; [by apply HC|done].
  - destruct Ha as [Hn ?]. split; [|done]. intros id ?%HC. by eapply Hn.
Qed.

Lemma tokenRevoked_decides st st0 kind id :
  same_answers st0 st ->
  same_answers (fst (tokenRevoked st0 kind id)) st /\ snd (tokenRevoked st0 kind id) = denied st kind id.
Proof.
  intros [Hs Hd]. split; [|exact (Hd kind id)].
  rewrite (tokenRevoked_same st0 kind id). by split.
Qed.

(** Refutes a credential: its conditions contradict what the check found. *)
Ltac no_credential := intros ? Hc; inversion Hc; simplify_eq/=; congruence.

Lemma session_decides st r token :
  decides st (authorizeSessionToken r token) r (credential st KSession token).
Proof.
  intros st0 Hs. unfold authorizeSessionToken, authorizeRemoteSessionToken.
  destruct remoteIdentityAuthEnabled eqn:Er.
  { destruct (remoteIdentityAuth _ token) as [[user tid]|] eqn:E.
    - eexists. split; [by eapply cred_remote_session|done].
    - split; [no_credential|done]. }
  rewrite (proj1 Hs). destruct (Get (as_Store st) sessionsResource token) as [session|] eqn:Eg;
    [|split; [no_credential|done]].
  destruct (tokenExpired _) eqn:Ex; [split; [no_credential|done]|].
  destruct (authBool _) eqn:Eb; [split; [no_credential|done]|]. cbn [orb].
  destruct (tokenRevoked_decides st st0 "session" token Hs) as [Hs1 Hr].
  destruct (tokenRevoked st0 "session" token) as [st1 revoked]. cbn [fst snd] in *. subst revoked.
  destruct (denied st "session" token) eqn:Ed; [split; [no_credential|done]|]. rewrite (proj1 Hs1).
  destruct (active_user _ _) as [user|] eqn:Eu; [|split; [no_credential|done]].
  eexists. split; [by eapply cred_session|done].
Qed.

Lemma api_decides st r token :
  decides st (authorizeAPIToken r token) r (credential st KAPIToken token).
Proof.
  intros st0 Hs. unfold authorizeAPIToken, authorizeRemoteAPIToken.
  destruct remoteIdentityAuthEnabled eqn:Er.
  { destruct (remoteIdentityAuth _ token) as [[user tid]|] eqn:E; [|split; [no_credential|done]].
    destruct (blank tid) eqn:Eb; [split; [no_credential|done]|]. eexists. split; [by eapply cred_remote_api|done]. }
  destruct (ParseUserAPITokenID token) as [id|] eqn:Ep; [|split; [no_credential|done]].
  rewrite (proj1 Hs). destruct (Get (as_Store st) apiTokensResource id) as [rc|] eqn:Eg; [|split; [no_credential|done]].
  destruct (authBool _) eqn:Eb; [split; [no_credential|done]|].
  destruct (tokenExpired _) eqn:Ex; [split; [no_credential|done]|]. cbn [orb].
  destruct (VerifySecret _ _) eqn:Ev; [|split; [no_credential|done]]. cbn [negb].
  destruct (tokenRevoked_decides st st0 "api_token" (rec_ID rc) Hs) as [Hs1 Hr].
  destruct (tokenRevoked st0 "api_token" (rec_ID rc)) as [st1 revoked]. cbn [fst snd] in *. subst revoked.
  destruct (denied st "api_token" (rec_ID rc)) eqn:Ed; [split; [no_credential|done]|]. rewrite (proj1 Hs1).
  destruct (active_user _ _) as [user|] eqn:Eu; [|split; [no_credential|done]].
  eexists. split; [by eapply cred_api|done].
Qed.

Lemma dev_decides st r token : decides st (authorizeDevToken r token) r (credential st KDev token).
Proof.
  intros st0 Hs. unfold authorizeDevToken. destruct newDevTokenSigner as [key|] eqn:Ek; [|split; [no_credential|done]].
  destruct (dev_verify key token) as [claims|] eqn:Ev; [|split; [no_credential|done]].
  eexists. split; [by eapply cred_dev|done].
Qed.

Lemma jwt_decides st r token : decides st (authorizeJWT r token) r (credential st KJWT token).
Proof.
  intros st0 Hs. unfold authorizeJWT. destruct (jwt_Verify token) as [claims|] eqn:Ev; [|split; [no_credential|done]].
  cbn zeta. unfold str_empty. destruct (String.eqb_spec (jwtString (mget claims "jti")) "") as [Ej|Ej]; cbn [negb].
  - eexists. split; [by eapply cred_jwt|done].
  - destruct (tokenRevoked_decides st st0 "jwt" (jwtString (mget claims "jti")) Hs) as [Hs1 Hr].
    destruct (tokenRevoked st0 "jwt" _) as [st1 revoked]. cbn [fst snd] in *. subst revoked.
    destruct (denied st "jwt" _) eqn:Ed; [split; [|done]|eexists; split; [by eapply cred_jwt|done]].
    intros ? Hc. inversion Hc as [| | | | |? claims' Hv Hd|]; simplify_eq. specialize (Hd Ej). congruence.
Qed.

Lemma static_decides st r token : decides st (authorizeStaticAPIKey r token) r (credential st KStatic token).
Proof.
  intros st0 Hs. unfold authorizeStaticAPIKey.
  destruct (matchedAPIKey token _) as [key|] eqn:Em; [|split; [no_credential|done]]. cbn zeta.
  pose proof (cred_key st token key Em) as Hc.
  destruct (str_empty (akp_ID (principal_of cfg key))); cbn [negb]; (eexists; split; [exact Hc|done]).
Qed.

(** Some presented token is a valid credential. *)
Definition has_credential (st : auth_state) (r : request) (id : identity) : Prop :=
  exists kind token, presents r kind token /\ credential st kind token id.

Definition by_bearer (st : auth_state) (r : request) (id : identity) : Prop :=
  exists kind token, kind ≠ KStatic /\ token ≠ "" /\ bearer r token /\ credential st kind token id.
Definition by_cookie (st : auth_state) (r : request) (name : string) (id : identity) : Prop :=
  exists kind, kind ∈ [KSession; KJWT] /\ cookie r name ≠ "" /\ credential st kind (cookie r name) id.

Lemma bearer_decides st r : decides st (authorizeBearerHeader r) r (by_bearer st r).
Proof.
  unfold authorizeBearerHeader. destruct (HasPrefix _ _) eqn:Eh.
  2: { eapply decides_iff; [|apply refuse_decides]. intros id. split; [done|].
       intros (kind & token & _ & _ & [Hb _] & _). congruence. }
  set (token := TrimSpace _). unfold str_empty. destruct (String.eqb_spec token "") as [Et|Et].
  { eapply decides_iff; [|apply refuse_decides]. intros id. split; [done|].
    intros (kind & token' & _ & Hne & [_ ->] & _). done. }
  eapply decides_iff; [|apply or_else_decides; [apply session_decides|apply or_else_decides;
    [apply api_decides|apply or_else_decides; [apply dev_decides|apply jwt_decides]]]].
  intros id. split.
  - intros [?|[?|[?|?]]]; eexists _, token; (split; [|split; [exact Et|split; [by split|eassumption]]]); done.
  - intros (kind & token' & Hk & _ & [_ ->] & Hc). destruct kind; try done; eauto.
Qed.

Lemma cookie_decides st r name : decides st (authorize_cookie r name) r (by_cookie st r name).
Proof.
  unfold authorize_cookie, str_empty. destruct (String.eqb_spec (cookie r name) "") as [Ec|Ec].
  { eapply decides_iff; [|apply refuse_decides]. intros id. split; [done|]. by intros (? & _ & ? & _). }
  eapply decides_iff; [|apply or_else_decides; [apply session_decides|apply jwt_decides]].
  intros id. split.
  - intros [?|?]; eexists; (split; [|split; [exact Ec|eassumption]]); set_solver.
  - intros (kind & Hk & _ & Hc). apply elem_of_cons in Hk as [->| ->%list_elem_of_singleton]; eauto.
Qed.

(** The request once the headers a client must not choose are removed. *)
Definition cleaned (r : request) : request :=
  let r1 := Header_Del headerAPITokenID r in if cf_RequireAuth cfg then stripInboundIdentityHeaders r1 else r1.

Lemma cleaned_header r name :
  name ∉ [headerAPITokenID; headerUserID; headerUsername; headerUserRole; headerAdmin] ->
  Header_Get (cleaned r) name = Header_Get r name.
Proof.
  intros Hn. unfold cleaned, stripInboundIdentityHeaders, Header_Get. cbn zeta. cbn [foldr].
  destruct (cf_RequireAuth cfg); cbn; rewrite ?lookup_delete_ne; try done; set_solver.
Qed.

Lemma cleaned_presents r kind token : presents (cleaned r) kind token <-> presents r kind token.
Proof.
  unfold presents, bearer. rewrite !cleaned_header by (unfold headerAPITokenID, headerUserID; set_solver).
  assert (forall name, cookie (cleaned r) name = cookie r name) as Hc.
  { intros name. unfold cleaned, cookie. by destruct (cf_RequireAuth cfg). }
  by rewrite !Hc.
Qed.

Lemma chain_decides st r :
  decides st (or_else (authorizeBearerHeader r) (or_else (authorizeAuthCookies r) (or_else (authorizeDevCookie r)
    (authorizeStaticAPIKey r (Header_Get r "X-API-Key"))))) r
    (fun id => has_credential st r id \/ exists token, token = Header_Get r "X-API-Key" /\ credential st KStatic token id).
Proof.
  eapply decides_iff; [|apply or_else_decides; [apply bearer_decides|apply or_else_decides;
    [apply or_else_decides; [apply cookie_decides|apply cookie_decides]|apply or_else_decides;
      [|apply static_decides]]]].
  2: { instantiate (1 := fun id => cookie r "dev_token" ≠ "" /\ credential st KDev (cookie r "dev_token") id).
       unfold authorizeDevCookie, str_empty. destruct (String.eqb_spec (cookie r "dev_token") "") as [Ec|Ec].
       - eapply decides_iff; [|apply refuse_decides]. intros id. split; [done|]. by intros [? _].
       - eapply decides_iff; [|apply dev_decides]. intros id. split; [done|]. by intros [_ ?]. }
  intros id. unfold has_credential, presents. split.
  - intros [(kind & token & Hk & Hne & Hb & Hc)|[[(kind & Hk & Hne & Hc)|(kind & Hk & Hne & Hc)]|[[Hne Hc]|Hc]]].
    + left. exists kind, token. split; [split; [done|]|done]. destruct kind; try done; by left.
    + left. exists kind, (cookie r "token"). split; [split; [done|]|done].
      apply elem_of_cons in Hk as [->| ->%list_elem_of_singleton]; auto.
    + left. exists kind, (cookie r "nexuspaas_jwt"). split; [split; [done|]|done].
      apply elem_of_cons in Hk as [->| ->%list_elem_of_singleton]; auto.
    + left. exists KDev, (cookie r "dev_token"). split; [split; [done|by right]|done].
    + right. eauto.
  - intros [(kind & token & [Hne Hp] & Hc)|(token & -> & Hc)]; [|by right; right; right].
    destruct kind.
    + destruct Hp as [Hb|[-> | ->]]; [left; by exists KSession, token|right; left..].
      * left. exists KSession. split; [set_solver|done].
      * right. exists KSession. split; [set_solver|done].
    + left. by exists KAPIToken, token.
    + destruct Hp as [Hb| ->]; [left; by exists KDev, token|right; right; left; done].
    + destruct Hp as [Hb|[-> | ->]]; [left; by exists KJWT, token|right; left..].
      * left. exists KJWT. split; [set_solver|done].
      * right. exists KJWT. split; [set_solver|done].
    + subst token. by right; right; right.
Qed.

Lemma static_nonempty st id : ~ credential st KStatic "" id.
Proof. intros Hc. inversion Hc as [| | | | | |? ? Hm]. by unfold matchedAPIKey in Hm. Qed.

Lemma cleaned_credential st r id : has_credential st (cleaned r) id <-> has_credential st r id.
Proof.
  split; intros (kind & token & Hp & Hc); exists kind, token; (split; [|exact Hc]).
  - exact (proj1 (cleaned_presents _ _ _) Hp).
  - exact (proj2 (cleaned_presents _ _ _) Hp).
Qed.

(** Authentication decides exactly whether the request presents a valid
    credential.  On a route that requires authentication a request is let through if
    and only if it presents, where that kind may be presented, an unexpired session
    or API token that is not revoked and belongs to an active user, a development or
    web token that verifies, or an enabled static key; the identity headers it then
    carries are those of that principal, whatever the client sent. *)
Theorem authn_exact st r rt :
  cf_RequireAuth cfg = true -> rt_AuthRequired rt = true ->
  match authorized r rt st with
  | (_, r', true) => exists id, has_credential st r id /\ r' = identify (cleaned r) id
  | (_, r', false) => (forall id, ~ has_credential st r id) /\ r' = cleaned r
  end.
Proof.
  intros Hra Har. unfold authorized. fold (cleaned r). rewrite Hra, Har. cbn [negb orb].
  assert (forall id, (has_credential st (cleaned r) id \/
    exists token, token = Header_Get (cleaned r) "X-API-Key" /\ credential st KStatic token id) <-> has_credential st r id) as Hiff.
  { intros id. rewrite cleaned_credential. split; [intros [?|(token & -> & Hc)]|by left]; [done|].
    exists KStatic, (Header_Get r "X-API-Key"). rewrite cleaned_header in Hc by (unfold headerAPITokenID, headerUserID; set_solver).
    split; [|done]. split; [|done]. intros E. rewrite E in Hc. by apply static_nonempty in Hc. }
  assert (cleaned r = stripInboundIdentityHeaders (Header_Del headerAPITokenID r)) as Hcl by (unfold cleaned; by rewrite Hra).
  pose proof (chain_decides st (cleaned r) st ltac:(done)) as Hd. rewrite Hcl in Hd |- *.
  destruct (or_else _ _ st) as [st' [r'|]].
  - destruct Hd as (id & Hc & ->). exists id. split; [|done]. apply Hiff. by rewrite Hcl.
  - destruct Hd as [Hn _]. split; [|done]. intros id Hc. apply Hiff in Hc. rewrite Hcl in Hc. by eapply Hn.
Qed.

End Auth.

(** ** Revocation lasts *)

(** Steps on the in-process denylist: any process-wide order of revocations and
    look-ups, each with its instant. *)
Inductive denylist_op := OpRevoke (kind id : string) (ttl now : Z) | OpLookup (kind id : string) (now : Z).

Definition run_denylist (rv : revocations) (o : denylist_op) : revocations :=
  match o with
  | OpRevoke kind id ttl now => Revoke rv kind id ttl now
  | OpLookup kind id now => fst (IsRevoked rv kind id now)
  end.
Definition op_time (o : denylist_op) : Z := match o with OpRevoke _ _ _ t | OpLookup _ _ t => t end.

(** The entry of a key outlives [until]. *)
Definition listed (rv : revocations) (key : string) (until : Z) : Prop :=
  exists entries expiry, rv = MemoryRevocations entries /\ entries !! key = Some expiry /\ until <= expiry.

Lemma listed_step rv key until o :
  (* a second revocation of the same key may shorten its entry *)
  match o with OpRevoke kind id ttl t => revocationKey kind id = key -> until <= t + (if ttl <=? 0 then time_Minute else ttl)
             | OpLookup _ _ t => t <= until end ->
  listed rv key until -> listed (run_denylist rv o) key until.
Proof.
  intros Ho (entries & expiry & -> & He & Hu). destruct o as [kind id ttl t|kind id t]; cbn.
  - eexists. destruct (decide (revocationKey kind id = key)) as [<-|Hne].
    + eexists. split; [done|]. split; [apply lookup_insert_eq|by apply Ho].
    + exists expiry. split; [done|]. by rewrite lookup_insert_ne.
  - destruct (entries !! revocationKey kind id) as [x|] eqn:Ex; [|by exists entries, expiry].
    destruct (x <? t) eqn:Et; [|by exists entries, expiry]. to_prop.
    exists (delete (revocationKey kind id) entries), expiry. split; [done|]. split; [|done].
    rewrite lookup_delete_ne; [done|]. intros Hk. rewrite Hk in Ex. simplify_eq. lia.
Qed.

Lemma listed_denied rv key until kind id now :
  key = revocationKey kind id -> now <= until -> listed rv key until -> snd (IsRevoked rv kind id now) = Some true.
Proof.
  intros -> Hn (entries & expiry & -> & He & Hu). cbn. rewrite He. destruct (expiry <? now) eqn:E; [to_prop; lia|done].
Qed.

Section Revocation.
Context `{GoLib} `{AuthLib} {ip : Type} (cfg : config ip).

(** Revoking a bearer token lasts until it expires: once [RevokeBearer] has
    accepted a token that is not yet expired, then after any number of look-ups and
    of revocations of other credentials no request is authenticated by that token,
    at any instant up to its expiry. *)
Theorem revoked_bearer_rejected t0 token claims expiry entries ops now r s :
  jwt_Verify cfg t0 token = Some claims -> jwtNumericDate (mget claims "exp") = Ok (Some expiry) ->
  jwtString (mget claims "jti") ≠ "" -> t0 < expiry -> expiry - t0 < two63 ->
  Forall (fun o => op_time o <= expiry /\
    match o with OpRevoke kind id _ _ => revocationKey kind id ≠ revocationKey "jwt" (jwtString (mget claims "jti")) | _ => True end) ops ->
  now <= expiry ->
  let rv := fold_left run_denylist ops (fst (RevokeBearer cfg t0 (MemoryRevocations entries) token)) in
  snd (authorizeJWT cfg now r token (AuthState s rv)) = None.
Proof.
  intros Hv He Hj Ht Hb Hops Hn rv. set (key := revocationKey "jwt" (jwtString (mget claims "jti"))) in *.
  assert (listed (fst (RevokeBearer cfg t0 (MemoryRevocations entries) token)) key expiry) as Hl.
  { unfold RevokeBearer. rewrite Hv. cbn zeta. unfold str_empty. destruct (String.eqb_spec (jwtString (mget claims "jti")) ""); [done|].
    rewrite He. unfold time_Until. assert (Z.max (- two63) (Z.min (two63 - 1) (expiry - t0)) = expiry - t0) as -> by (unfold two63 in *; lia).
    destruct (expiry - t0 <=? 0) eqn:E; [to_prop; lia|]. cbn [fst Revoke]. rewrite E.
    exists (<[key := t0 + (expiry - t0)]> entries), (t0 + (expiry - t0)). split; [done|]. split; [apply lookup_insert_eq|lia]. }
  assert (listed rv key expiry) as Hr.
  { subst rv. revert Hl. generalize (fst (RevokeBearer cfg t0 (MemoryRevocations entries) token)). revert Hops.
    induction ops as [|o ops IH]; intros Hops rv Hl; [done|]. inversion Hops as [|? ? [Hot Hok] Hrest]; subst.
    cbn [fold_left]. apply IH; [done|]. apply listed_step; [|done]. by destruct o. }
  unfold authorizeJWT. destruct (jwt_Verify cfg now token) as [claims'|] eqn:Hv'; [|done].
  assert (claims' = claims) as ->.
  { unfold jwt_Verify in Hv, Hv'. destruct (blank _); [done|]. destruct (verify_id_token token) as [o|]; [|done].
    destruct (validateClaims cfg t0 o), (validateClaims cfg now o); congruence. }
  cbn zeta. unfold str_empty. destruct (String.eqb_spec (jwtString (mget claims "jti")) ""); [done|]. cbn [negb].
  unfold tokenRevoked. cbn [as_Revocations].
  pose proof (listed_denied rv key expiry "jwt" _ now eq_refl Hn Hr) as Hd.
  destruct (IsRevoked rv "jwt" _ now) as [rv' d]. cbn in Hd. by subst d.
Qed.

End Revocation.

(** ** User API tokens *)

Lemma splitN_cut c w l n : c ∉ w -> splitN_on c (S n) (w ++ c :: l) = w :: splitN_on c n l.
Proof.
  intros Hw. induction w as [|d w IH]; cbn [Datatypes.app splitN_on]; [by rewrite Ascii.eqb_refl|].
  destruct (Ascii.eqb_spec c d) as [->|Hne]; [exfalso; apply Hw; left|]. rewrite IH; [done|]. intros ?. apply Hw. by right.
Qed.

Lemma splitN_last c l : splitN_on c 0 l = [l].
Proof. by destruct l. Qed.

Lemma strip_prefix_barrier p l c x : c ∉ p -> strip_prefix p l = None -> strip_prefix p (l ++ c :: x) = None.
Proof.
  revert l. induction p as [|d p IH]; intros l Hc; [by destruct l|]. apply not_elem_of_cons in Hc as [Hd Hc].
  destruct l as [|e l]; cbn.
  - intros _. by destruct (Ascii.eqb_spec d c) as [->|].
  - destruct (Ascii.eqb d e); [by apply IH|done].
Qed.

(** White space never reaches across an underscore. *)
Lemma strip_any_barrier ps l x :
  Forall (fun p => "_"%char ∉ p) ps -> strip_any ps l = None -> strip_any ps (l ++ "_"%char :: x) = None.
Proof.
  rewrite !strip_any_none. intros Hps Hl. induction Hps as [|p ps Hp Hps IH]; [constructor|].
  inversion Hl; subst. constructor; [by apply strip_prefix_barrier|by apply IH].
Qed.

Lemma no_underscore_spaces :
  Forall (fun p => "_"%char ∉ p) (map (@rev ascii) space_encodings).
Proof. apply (bool_decide_unpack _ (dec := _)). vm_compute. exact I. Qed.

Lemma api_token_trimmed id secret :
  Trimmed secret -> Trimmed (userAPITokenPrefix +:+ "_" +:+ id +:+ "_" +:+ secret).
Proof.
  intros [_ Hr]. unfold Trimmed. rewrite !bytes_of_app. split; [done|].
  rewrite !rev_app_distr. change (bytes_of "_") with ["_"%char]. cbn [rev].
  rewrite <- !app_assoc. cbn [Datatypes.app]. apply strip_any_barrier; [apply no_underscore_spaces|done].
Qed.

(** A user API token names its record: parsing the token that was formatted from
    an id and a secret yields that id, for every id of the form the service allots
    (the prefix AT, more characters, no underscore), whatever the secret contains. *)
Theorem api_token_roundtrip rest secret :
  TrimSpace ("AT" +:+ rest) = "AT" +:+ rest -> rest ≠ "" -> "_"%char ∉ bytes_of rest -> TrimSpace secret ≠ "" ->
  ParseUserAPITokenID (FormatUserAPIToken ("AT" +:+ rest) secret) = Some ("AT" +:+ rest).
Proof.
  intros Ht Hne Hu Hs. unfold FormatUserAPIToken. rewrite Ht. cbn zeta.
  assert (str_empty (TrimSpace secret) = false) as -> by (unfold str_empty; by apply String.eqb_neq).
  assert (str_empty ("AT" +:+ rest) = false) as -> by done. cbn [orb].
  unfold ParseUserAPITokenID, SplitN. rewrite TrimSpace_fix by apply api_token_trimmed, TrimSpace_Trimmed.
    rewrite !bytes_of_app. change (bytes_of "_") with ["_"%char]. cbn [Nat.sub Datatypes.app].
  rewrite splitN_cut by (vm_compute; set_solver).
  change (bytes_of "AT" ++ bytes_of rest ++ "_"%char :: bytes_of (TrimSpace secret))
    with ((bytes_of "AT" ++ bytes_of rest) ++ "_"%char :: bytes_of (TrimSpace secret)).
  rewrite splitN_cut.
  2: { rewrite <- bytes_of_app. cbn. set_solver. }
  rewrite splitN_last. cbn [map]. rewrite <- bytes_of_app, !of_bytes_of.
  unfold str_empty. rewrite (proj2 (String.eqb_neq _ _) Hs). cbn.
  destruct rest; [done|]. done.
Qed.

(** ** Concrete runs *)

Definition auth_lib : GoLib := {|
  parse_quantity _ := None; parse_float _ := None; parse_int64 _ := None; parse_rfc3339 _ := None;
  format_rfc3339 _ := ""; time_string _ := ""; unmarshal_object _ := None;
  unmarshal_objects _ := None; unmarshal_strings _ := None; marshal _ := None; sprint _ := "";
  sprintf f _ := f; sha256_hex s := s |}.

(** A web token that expires at second 100. *)
Definition demo_claims : object :=
  {[ "iss" := VString "issuer"; "sub" := VString "u1"; "aud" := VString "api";
     "exp" := VFloat64 (f64_of_int 100); "jti" := VString "t-1" ]}.
Definition crypto_lib : AuthLib := {|
  pbkdf2_key _ _ _ _ := None; hex_DecodeString _ := None; secret_Atoi _ := None;
  hmac_base64 _ body := body; base64_Encode s := s; base64_Decode s := Some s;
  marshal_claims _ := ""; unmarshal_claims _ := None;
  verify_id_token t := if String.eqb t "jwt" then Some demo_claims else None; remote_identity _ _ := None |}.
Definition jwt_config : config nat := @ConfigFromEnv nat demo_env_lib
  (<[envJWTJWKSURL := "https://keys"]> (<[envJWTIssuer := "issuer"]> (<[envJWTAudience := "api"]> production_environ))).
Definition jwt_request : request :=
  Request "GET" (list_to_map [("Authorization", "Bearer jwt"); (headerUserID, "root"); (headerAdmin, "true")]) ∅ ∅ "10.0.0.1:5" 0 None None None.
Definition authenticated_route : route := Route_ "GET" "/api/v1/jobs" "list_jobs" "workload-service:jobs" "" "id" true false false false "" false false "" false "".
Definition fresh_state : auth_state := AuthState NewStore (MemoryRevocations ∅).

Example authenticated_run :
  let '(_, r, ok) := @authorized auth_lib crypto_lib nat jwt_config (50 * time_Second) jwt_request authenticated_route fresh_state in
  ok = true /\ Header_Get r headerUserID = "u1" /\ Header_Get r headerUserRole = "user" /\ Header_Get r headerAdmin = "".
Proof. vm_compute. repeat split; reflexivity. Qed.

Lemma authn_exact_witness :
  exists id, @has_credential auth_lib crypto_lib nat jwt_config (50 * time_Second) fresh_state jwt_request id.
Proof.
  pose proof (@authn_exact auth_lib crypto_lib nat jwt_config (50 * time_Second) fresh_state jwt_request authenticated_route
    ltac:(vm_compute; reflexivity) eq_refl) as Ha.
  assert (snd (@authorized auth_lib crypto_lib nat jwt_config (50 * time_Second) jwt_request authenticated_route fresh_state) = true)
    as Hok by (vm_compute; reflexivity).
  destruct (authorized _ _ _ _ _) as [[st' r'] ok]. cbn in Hok. subst ok.
  destruct Ha as (id & Hc & _). exists id. exact Hc.
Defined.

Lemma revoked_bearer_rejected_witness :
  let rv := fold_left run_denylist [OpLookup "jwt" "t-1" (60 * time_Second)]
    (fst (@RevokeBearer auth_lib crypto_lib nat jwt_config (50 * time_Second) (MemoryRevocations ∅) "jwt")) in
  snd (@authorizeJWT auth_lib crypto_lib nat jwt_config (70 * time_Second) jwt_request "jwt" (AuthState NewStore rv)) = None.
Proof.
  apply (@revoked_bearer_rejected auth_lib crypto_lib nat jwt_config (50 * time_Second) "jwt" demo_claims (100 * time_Second) ∅
    [OpLookup "jwt" "t-1" (60 * time_Second)] (70 * time_Second) jwt_request NewStore).
  - vm_compute. reflexivity.
  - vm_compute. reflexivity.
  - vm_compute. discriminate.
  - vm_compute. reflexivity.
  - vm_compute. reflexivity.
  - repeat constructor; vm_compute; discriminate.
  - vm_compute. discriminate.
Defined.

(** The denylist entry ends when the token expires, but the verifier tolerates a minute
    of clock skew: a revoked token is accepted again during that minute. *)
Example revoked_token_revives :
  let rv := fst (@RevokeBearer auth_lib crypto_lib nat jwt_config (50 * time_Second) (MemoryRevocations ∅) "jwt") in
  snd (@authorizeJWT auth_lib crypto_lib nat jwt_config (99 * time_Second) jwt_request "jwt" (AuthState NewStore rv)) = None /\
  is_Some (snd (@authorizeJWT auth_lib crypto_lib nat jwt_config (101 * time_Second) jwt_request "jwt" (AuthState NewStore rv))).
Proof. split; [vm_compute; reflexivity|]. eexists. vm_compute. reflexivity. Qed.

Lemma api_token_roundtrip_witness :
  @ParseUserAPITokenID (FormatUserAPIToken "AT2600001" "s3cr_et") = Some "AT2600001".
Proof.
  apply (api_token_roundtrip "2600001" "s3cr_et"); [vm_compute; reflexivity|discriminate| |vm_compute; discriminate].
  vm_compute. intros Hin. repeat (apply elem_of_cons in Hin as [Hin|Hin]; [discriminate Hin|]). apply elem_of_nil in Hin. exact Hin.
Defined.
