(* ===== verification/Guards.v ===== *)
(** * The guard chain of a request (internal/platform/middleware.go, policy.go and the
    administrator check of auth.go)

    Before its handler runs, a request passes the body limit and then, in order,
    authentication, service authentication, the administrator gate, the rate limiter
    and the policy decision point; the first denial answers it.  The decision point is
    a value of [PDP]: the remote one is a function that may fail. *)

From stdpp Require Import base gmap strings list fin_maps.
From Stdlib Require Import ZArith Lia Ascii.
From S2P Require Import Prelude GoValue Store EventBus Crud RateLimit InputLimits Config Auth.
Local Open Scope Z_scope.

Definition StatusUnauthorized : Z := 401.
Definition StatusTooManyRequests : Z := 429.
Definition scopeAdmin : string := "admin".
Definition scopeWildcard : string := "*".

(** contracts.Decision *)
Record Decision := Decision_ { dec_Allowed : bool; dec_Reason : string; dec_Version : Z }.

(** The policy decision point of an application; [None] is an error. *)
Inductive PDP :=
| NilPDP
| AllowAllPDP
| StaticPDP (allowed : bool) (reason : string)
| RemotePDP (enforce : string -> string -> string -> string -> option Decision).

Definition Enforce (p : PDP) (subject domain object_ action : string) : option Decision :=
  match p with
  | NilPDP => None
  | AllowAllPDP => Some (Decision_ true "local policy bundle allowed" 1)
  | StaticPDP allowed reason => Some (Decision_ allowed reason 1)
  | RemotePDP enforce => enforce subject domain object_ action
  end.

Record guard_state := GuardState { gs_auth : auth_state; gs_Rate : RateLimiter }.

(** A denial: which guard, the status, the code and the message. *)
Record denial := Denied { dn_guard : string; dn_status : Z; dn_code : string; dn_message : string }.

Section Guards.
Context `{GoLib} `{AuthLib} {ip : Type} `{NetLib ip} (cfg : config ip) (pdp : PDP) (now : Z).

Definition ValidatePolicyDecisionPoint : result string unit :=
  if negb (cf_RequireAuth cfg) then Ok tt
  else match pdp with
       | NilPDP => Err "policy decision point is not configured"
       | AllowAllPDP => Err "policy decision point must not be AllowAllPDP when authentication is required"
       | _ => Ok tt
       end.

(** ** Administrators *)

Definition authUserIsAdmin (user : object) : bool :=
  if authInt (mget user "system_role") 2 =? 0 then true
  else bool_decide (ToLower (FirstNonEmpty [asString (mget user "role"); asString (mget user "role_id"); asString (mget user "roleId")])
                    ∈ ["admin"; "superadmin"; "root"]).

Definition admin_flags (data : object) : bool :=
  authBool (mget data "admin_panel") || authBool (mget data "adminPanel") || authBool (mget data "AdminPanel").

Definition authRoleGrantsAdmin (data : object) : bool :=
  if admin_flags data then true
  else match mget data "capabilities" with VMap capabilities => admin_flags capabilities | _ => false end.

Definition recordMatchesRole (rc : record) (roleID : string) : bool :=
  String.eqb (rec_ID rc) roleID || String.eqb (asString (mget (rec_Data rc) "id")) roleID ||
  String.eqb (asString (mget (rec_Data rc) "name")) roleID.

Definition rolesResource : string := "identity-service:roles".

Definition adminAllowed (s : store) (r : request) : bool :=
  match verifiedUser r with
  | None => false
  | Some user =>
      if authUserIsAdmin user || authRoleGrantsAdmin user then true
      else
        let roleID := FirstNonEmpty [asString (mget user "role_id"); asString (mget user "roleId"); asString (mget user "role")] in
        if str_empty roleID then false
        else existsb (fun role => recordMatchesRole role roleID && authRoleGrantsAdmin (rec_Data role)) (List_ s rolesResource)
  end.

(** ** Scopes *)

(** strings.FieldsFunc on commas and blanks. *)
Fixpoint fields_on (l word : list ascii) : list (list ascii) :=
  match l with
  | [] => match word with [] => [] | _ => [rev word] end
  | c :: l' =>
      if Ascii.eqb c "," || Ascii.eqb c " "
      then match word with [] => fields_on l' [] | _ => rev word :: fields_on l' [] end
      else fields_on l' (c :: word)
  end.

Definition userScopes (user : object) : list string :=
  match mget user "scopes" with
  | VStrings scopes => scopes
  | VList scopes => map asString scopes
  | VString scopes => map of_bytes (fields_on (bytes_of scopes) [])
  | _ => []
  end.

Definition scopeSet (scopes : list string) : gset string :=
  list_to_set (filter (fun scope => scope ≠ "") (map (fun scope => ToLower (TrimSpace scope)) scopes)).

Definition routeScopeAction (rt : route) : string :=
  if bool_decide (rt_Method rt ∈ ["GET"; "HEAD"; "OPTIONS"]) && negb (rt_StateChanging rt) then "read" else "write".

Definition routeScopeParts (resource : string) : string * string :=
  match SplitN (ToLower (TrimSpace resource)) ":" 2 with
  | [service; rest] => (service, rest)
  | [rest] => ("", rest)
  | _ => ("", "")
  end.

Definition part_candidates (rt : route) (action declaredAction part : string) : list string :=
  if str_empty part then []
  else [part +:+ ":" +:+ action; part +:+ ":" +:+ scopeWildcard] ++
       (if negb (str_empty declaredAction) then [part +:+ ":" +:+ declaredAction] else []) ++
       (if negb (str_empty (rt_OperationID rt)) then [part +:+ ":" +:+ ToLower (rt_OperationID rt)] else []).

Definition routeScopeCandidates (rt : route) : list string :=
  let action := routeScopeAction rt in
  let declaredAction := ToLower (TrimSpace (rt_Action rt)) in
  let '(service, resource) := routeScopeParts (rt_Resource rt) in
  [action; scopeWildcard +:+ ":" +:+ action] ++
  (if negb (str_empty (rt_OperationID rt)) then [ToLower (rt_OperationID rt)] else []) ++
  (if rt_Admin rt then [scopeAdmin] else []) ++
  part_candidates rt action declaredAction service ++ part_candidates rt action declaredAction resource.

Definition principalScopesAllow (r : request) (rt : route) : bool :=
  match verifiedUser r with
  | None => true
  | Some user =>
      let scopes := scopeSet (userScopes user) in
      if bool_decide (scopes = ∅) || bool_decide (scopeWildcard ∈ scopes) then true
      else if bool_decide (scopeAdmin ∈ scopes) && authUserIsAdmin user then true
      else existsb (fun required => bool_decide (required ∈ scopes)) (routeScopeCandidates rt)
  end.

Definition policyAllowed (r : request) (rt : route) : bool :=
  if negb (principalScopesAllow r rt) then false
  else if rt_PolicyBypass rt then true
  else match Enforce pdp (FirstNonEmpty [Header_Get r headerUserID; "anonymous"])
               (default "" (rq_Query r !! "project_id")) (rt_Resource rt) (rt_OperationID rt) with
       | Some decision => dec_Allowed decision
       | None => false
       end.

(** ** Service identity *)

Definition serviceKeyHeader : string := "X-Service-Key".
Definition serviceNameHeader : string := "X-Service-Name".

Definition routeService (rt : route) : string := ServicePrefix (rt_Resource rt).

Definition deployableUnitHosts (unit_ service : string) : bool := bool_decide (service ∈ deployableUnitServices unit_).

Definition serviceAudienceAllowed (audiences : list string) (target0 : string) : bool :=
  let target := TrimSpace target0 in
  existsb (fun audience0 => let audience := TrimSpace audience0 in
             String.eqb audience target || deployableUnitHosts audience target) audiences.

Definition scopedServiceRequestAuthorized (r : request) (audience : string) : bool :=
  match cf_ServiceTrustedIdentities cfg !! TrimSpace (Header_Get r serviceNameHeader) with
  | None => false
  | Some trusted =>
      if blank (sti_Key trusted) then false
      else
        let presented := Header_Get r serviceKeyHeader in
        let matches := String.eqb presented (sti_Key trusted) ||
                       (negb (str_empty (sti_PreviousKey trusted)) && String.eqb presented (sti_PreviousKey trusted)) in
        if negb matches then false
        else if blank audience then true
        else serviceAudienceAllowed (sti_Audiences trusted) audience
  end.

Definition serviceRequestAuthorizedForAudience (r : request) (audience : string) : bool :=
  if negb (bool_decide (cf_ServiceTrustedIdentities cfg = ∅)) then scopedServiceRequestAuthorized r audience
  else if StrictRuntimeChecks cfg || blank (cf_ServiceAPIKey cfg) then false
  else String.eqb (Header_Get r serviceKeyHeader) (cf_ServiceAPIKey cfg).

(** ** The guards *)

Definition guard : Type := guard_state -> request -> route -> guard_state * request * option denial.

Definition authn_guard : guard := fun st r rt =>
  let '(auth', r', ok) := authorized cfg now r rt (gs_auth st) in
  (GuardState auth' (gs_Rate st), r',
   if ok then None else Some (Denied "authn" StatusUnauthorized "unauthorized" "authentication is required")).

Definition service_auth_guard : guard := fun st r rt =>
  (st, r,
   if negb (rt_ServiceAuthRequired rt) then None
   else if negb (acceptsServiceIdentity cfg) then Some (Denied "service-auth" StatusNotFound "not_found" "not found")
   else if negb (serviceRequestAuthorizedForAudience r (routeService rt))
   then Some (Denied "service-auth" StatusUnauthorized "unauthorized" "service authentication is required")
   else None).

Definition admin_guard : guard := fun st r rt =>
  (st, r,
   if cf_RequireAuth cfg && rt_AuthRequired rt && rt_Admin rt && negb (adminAllowed (as_Store (gs_auth st)) r)
   then Some (Denied "admin" StatusForbidden "forbidden" "administrator privileges are required") else None).

Definition rateLimitApplies (rt : route) : bool := negb (rt_ServiceAuthRequired rt).

Definition ratelimit_guard : guard := fun st r rt =>
  if negb (rateLimitApplies rt) then (st, r, None)
  else
    let class := rateLimitClass rt in
    let key := rateLimitKey (verifiedUser r) rt class (rq_RemoteAddr r) (Header_Get r "X-Forwarded-For") (cf_TrustedProxyCIDRs cfg) in
    let '(rate', allowed) := match specialRateLimit class with
                             | Some (limit, window) => AllowWithin (gs_Rate st) key limit window now
                             | None => Allow (gs_Rate st) key now
                             end in
    (GuardState (gs_auth st) rate', r,
     if allowed then None else Some (Denied "ratelimit" StatusTooManyRequests "rate_limited" "too many requests; retry after 60 seconds")).

Definition policy_guard : guard := fun st r rt =>
  (st, r,
   if cf_RequireAuth cfg && rt_AuthRequired rt && negb (policyAllowed r rt)
   then Some (Denied "policy" StatusForbidden "forbidden" "authorization policy denied the request") else None).

Definition requestGuards : list guard := [authn_guard; service_auth_guard; admin_guard; ratelimit_guard; policy_guard].

Fixpoint run_guards (gs : list guard) (st : guard_state) (r : request) (rt : route) : guard_state * request * option denial :=
  match gs with
  | [] => (st, r, None)
  | g :: gs' => match g st r rt with
                | (st', r', None) => run_guards gs' st' r' rt
                | denied => denied
                end
  end.

(** ** Request bodies *)

(** http.MaxBytesReader *)
Definition MaxBytesReader (b : body_reader) (limit : Z) : body_reader := BodyReader (br_bytes b) (Some limit).

(** io.ReadAll: a body longer than its limit fails with the [http.MaxBytesError] that
    carries the limit. *)
Definition ReadAll (b : body_reader) : result Z string :=
  match br_limit b with
  | Some limit => if limit <? Z.of_nat (String.length (br_bytes b)) then Err limit else Ok (br_bytes b)
  | None => Ok (br_bytes b)
  end.

(** A body that is not a JSON object is an error that is not an input-limit error; its text
    is the JSON decoder's. *)
Definition DecodeMapWithError (r : request) : result input_error object :=
  match rq_Body r with
  | None => Ok ∅
  | Some b =>
      match ReadAll b with
      | Err limit => Err (InputLimitError StatusRequestEntityTooLarge
                            (sprintf "request body exceeds max byte size of %d bytes" [VInt limit]))
      | Ok text =>
          if blank text then Ok ∅
          else match unmarshal_object text with
               | Some payload => Ok payload
               | None => Err (OtherError "invalid JSON")
               end
      end
  end.

(** The request goes on with its body wrapped, or is denied. *)
Definition limitRequestBody (r : request) (rt : route) : request * option denial :=
  match rq_Body r with
  | Some b =>
      if negb (rt_StateChanging rt) then (r, None)
      else
        let limit := EffectiveMaxAPIBodyBytes (cf_limits cfg) in
        if limit <? rq_ContentLength r
        then (r, Some (Denied "body" StatusRequestEntityTooLarge "request_body_too_large" "request body exceeds max byte size"))
        else (with_body r (Some (MaxBytesReader b limit)), None)
  | None => (r, None)
  end.

(** App.writeMiddlewareDenial: [None] lets the request through to its handler. *)
Definition writeMiddlewareDenial (st : guard_state) (r : request) (rt : route) : guard_state * request * option denial :=
  match limitRequestBody r rt with
  | (r', Some d) => (st, r', Some d)
  | (r', None) => run_guards requestGuards st r' rt
  end.

(** The user id of the access log. *)
Definition logPrincipal (r : request) : string :=
  match verifiedUser r with
  | Some user => FirstNonEmpty [asString (mget user "id"); "anonymous"]
  | None => "anonymous"
  end.

(** ** What a request that passes has shown *)

(** The request after the body limit, as the guards see it. *)
Definition limited (r : request) (rt : route) : request := fst (limitRequestBody r rt).

(** The authentication state after the request was authenticated. *)
Definition after_authn (st : guard_state) (r : request) (rt : route) : auth_state :=
  fst (fst (authorized cfg now (limited r rt) rt (gs_auth st))).

(** A request comes from a service that may call [service]: it names a configured identity,
    presents its key or its previous one, and the identity's audiences name the service or a
    deployable unit that hosts it; or, outside strict profiles and with no identity
    configured, it presents the shared key. *)
Inductive from_trusted_service (r : request) (service : string) : Prop :=
| by_identity name trusted :
    name = TrimSpace (Header_Get r serviceNameHeader) -> cf_ServiceTrustedIdentities cfg !! name = Some trusted ->
    Header_Get r serviceKeyHeader ≠ "" ->
    (Header_Get r serviceKeyHeader = sti_Key trusted \/ Header_Get r serviceKeyHeader = sti_PreviousKey trusted) ->
    (TrimSpace service = "" \/ exists audience, audience ∈ sti_Audiences trusted /\
      (TrimSpace audience = TrimSpace service \/ TrimSpace service ∈ deployableUnitServices (TrimSpace audience))) ->
    from_trusted_service r service
| by_shared_key :
    cf_ServiceTrustedIdentities cfg = ∅ -> StrictRuntimeChecks cfg = false -> TrimSpace (cf_ServiceAPIKey cfg) ≠ "" ->
    Header_Get r serviceKeyHeader = cf_ServiceAPIKey cfg -> from_trusted_service r service.

(** What the guards check of the caller of a route that requires authentication. *)
Record user_admitted (st : guard_state) (r r' : request) (rt : route) : Prop := {
  ad_credential : exists id, has_credential cfg now (gs_auth st) r id /\ r' = identify (cleaned cfg (limited r rt)) id;
  ad_admin : rt_Admin rt = true -> adminAllowed (as_Store (after_authn st r rt)) r' = true;
  ad_scopes : principalScopesAllow r' rt = true;
  ad_policy : rt_PolicyBypass rt = false -> exists decision,
    Enforce pdp (FirstNonEmpty [Header_Get r' headerUserID; "anonymous"]) (default "" (rq_Query r' !! "project_id"))
      (rt_Resource rt) (rt_OperationID rt) = Some decision /\ dec_Allowed decision = true
}.

(** What a handler can read of the body: on a state-changing route, only a body within
    the limit; a longer one is the error 413. *)
Definition body_admitted (r r' : request) : Prop :=
  let limit := EffectiveMaxAPIBodyBytes (cf_limits cfg) in
  match rq_Body r with
  | None => DecodeMapWithError r' = Ok ∅
  | Some b =>
      rq_ContentLength r <= limit /\
      if Z.of_nat (String.length (br_bytes b)) <=? limit
      then DecodeMapWithError r' = DecodeMapWithError (with_body r (Some (BodyReader (br_bytes b) None)))
      else exists text, DecodeMapWithError r' = Err (InputLimitError StatusRequestEntityTooLarge text)
  end.

Lemma policyAllowed_spec r rt :
  policyAllowed r rt = true ->
  principalScopesAllow r rt = true /\
  (rt_PolicyBypass rt = false -> exists decision,
     Enforce pdp (FirstNonEmpty [Header_Get r headerUserID; "anonymous"]) (default "" (rq_Query r !! "project_id"))
       (rt_Resource rt) (rt_OperationID rt) = Some decision /\ dec_Allowed decision = true).
Proof.
  unfold policyAllowed. destruct (principalScopesAllow r rt); [|done]. cbn [negb]. intros Hp. split; [done|].
  intros Hb. rewrite Hb in Hp. destruct (Enforce _ _ _ _ _) as [d|]; [eauto|done].
Qed.

Lemma ratelimit_guard_auth st r rt st' r' d :
  ratelimit_guard st r rt = (st', r', d) -> gs_auth st' = gs_auth st /\ r' = r.
Proof.
  unfold ratelimit_guard. destruct (negb _); [intros [= <- <- <-]; done|]. cbn zeta.
  destruct (specialRateLimit _) as [[limit window]|];
    [destruct (AllowWithin _ _ _ _ _)|destruct (Allow _ _ _)]; intros [= <- <- <-]; done.
Qed.

Lemma service_auth_guard_ok st r rt st' r' :
  service_auth_guard st r rt = (st', r', None) ->
  st' = st /\ r' = r /\ (rt_ServiceAuthRequired rt = true -> serviceRequestAuthorizedForAudience r (routeService rt) = true).
Proof.
  unfold service_auth_guard. intros [= <- <- Hd]. do 2 (split; [done|]). intros Hs. rewrite Hs in Hd. cbn [negb] in Hd.
  destruct (acceptsServiceIdentity cfg); [|done]. cbn [negb] in Hd. by destruct (serviceRequestAuthorizedForAudience _ _).
Qed.

Lemma admin_guard_ok st r rt st' r' :
  admin_guard st r rt = (st', r', None) ->
  st' = st /\ r' = r /\ (cf_RequireAuth cfg = true -> rt_AuthRequired rt = true -> rt_Admin rt = true ->
    adminAllowed (as_Store (gs_auth st)) r = true).
Proof.
  unfold admin_guard. intros [= <- <- Hd]. do 2 (split; [done|]). intros Hc1 Hc2 Hc3. rewrite Hc1, Hc2, Hc3 in Hd. cbn [andb] in Hd.
  by destruct (adminAllowed _ _).
Qed.

Lemma policy_guard_ok st r rt st' r' :
  policy_guard st r rt = (st', r', None) ->
  st' = st /\ r' = r /\ (cf_RequireAuth cfg = true -> rt_AuthRequired rt = true -> policyAllowed r rt = true).
Proof.
  unfold policy_guard. intros [= <- <- Hd]. do 2 (split; [done|]). intros Hc1 Hc2. rewrite Hc1, Hc2 in Hd. cbn [andb] in Hd.
  by destruct (policyAllowed _ _).
Qed.

Lemma blank_false text : blank text = false -> TrimSpace text ≠ "".
Proof. unfold blank, str_empty. by intros ?%String.eqb_neq. Qed.

Lemma serviceAudienceAllowed_spec audiences target :
  serviceAudienceAllowed audiences target = true -> exists audience, audience ∈ audiences /\
    (TrimSpace audience = TrimSpace target \/ TrimSpace target ∈ deployableUnitServices (TrimSpace audience)).
Proof.
  unfold serviceAudienceAllowed. intros (audience & Hin & Hm)%existsb_exists. exists audience.
  split; [by apply list_elem_of_In|]. apply orb_true_iff in Hm as [->%String.eqb_eq|Hu]; [by left|right].
  by apply bool_decide_eq_true in Hu.
Qed.

Lemma service_identity_trusted r service :
  serviceRequestAuthorizedForAudience r service = true -> from_trusted_service r service.
Proof.
  unfold serviceRequestAuthorizedForAudience. destruct (bool_decide (cf_ServiceTrustedIdentities cfg = ∅)) eqn:Ee; cbn [negb].
  - apply bool_decide_eq_true in Ee. destruct (StrictRuntimeChecks cfg) eqn:Es; [done|].
    destruct (blank _) eqn:Eb; [done|]. intros Hk%String.eqb_eq. apply by_shared_key; [done|done|by apply blank_false|done].
  - unfold scopedServiceRequestAuthorized. destruct (cf_ServiceTrustedIdentities cfg !! _) as [trusted|] eqn:El; [|done].
    destruct (blank (sti_Key trusted)) eqn:Ek; [done|]. cbn zeta.
    destruct (_ || _) eqn:Em; [|done]. cbn [negb]. intros Ha. eapply by_identity; [reflexivity|exact El| | |].
    + intros E. rewrite E in Em. apply orb_true_iff in Em as [Em%String.eqb_eq|[Hp Em%String.eqb_eq]%andb_true_iff].
      * rewrite <- Em in Ek. done.
      * rewrite <- Em in Hp. done.
    + apply orb_true_iff in Em as [Em%String.eqb_eq|[_ Em%String.eqb_eq]%andb_true_iff]; auto.
    + destruct (blank service) eqn:Eb; [left|right; by apply serviceAudienceAllowed_spec].
      unfold blank, str_empty in Eb. by apply String.eqb_eq.
Qed.

Lemma limited_same r rt :
  rq_Header (limited r rt) = rq_Header r /\ rq_Cookie (limited r rt) = rq_Cookie r.
Proof. unfold limited, limitRequestBody. by destruct (rq_Body r); [destruct (rt_StateChanging rt), (_ <? _)|]. Qed.

Lemma limited_presents r rt kind token : presents (limited r rt) kind token <-> presents r kind token.
Proof.
  destruct (limited_same r rt) as [Hh Hc]. unfold presents, bearer, cookie, Header_Get. by rewrite Hh, Hc.
Qed.

Lemma limited_credential st r rt id : has_credential cfg now st (limited r rt) id <-> has_credential cfg now st r id.
Proof. unfold has_credential. split; intros (kind & token & Hp & Hc); exists kind, token; by rewrite limited_presents in *. Qed.

Lemma identify_body r id : rq_Body (identify r id) = rq_Body r.
Proof. by destruct id as [[user [tid|]]|]. Qed.

Lemma cleaned_body r : rq_Body (cleaned cfg r) = rq_Body r.
Proof. unfold cleaned. by destruct (cf_RequireAuth cfg). Qed.

(** Authentication leaves the body alone. *)
Lemma authorized_body st r rt st' r' : authorized cfg now r rt st = (st', r', true) -> rq_Body r' = rq_Body r.
Proof.
  intros Ha. destruct (cf_RequireAuth cfg && rt_AuthRequired rt) eqn:Eq.
  - apply andb_true_iff in Eq as [Hra Har]. pose proof (authn_exact cfg now st r rt Hra Har) as Hx. rewrite Ha in Hx.
    destruct Hx as (id & _ & ->). by rewrite identify_body, cleaned_body.
  - unfold authorized in Ha. fold (cleaned cfg r) in Ha.
    destruct (cf_RequireAuth cfg), (rt_AuthRequired rt); try done; injection Ha as <- <-; by rewrite cleaned_body.
Qed.

Lemma decode_body r r' : rq_Body r = rq_Body r' -> DecodeMapWithError r = DecodeMapWithError r'.
Proof. unfold DecodeMapWithError. by intros ->. Qed.

Lemma limitRequestBody_ok r rt r1 r' :
  limitRequestBody r rt = (r1, None) -> rq_Body r' = rq_Body r1 -> rt_StateChanging rt = true -> body_admitted r r'.
Proof.
  unfold limitRequestBody, body_admitted. intros Hd Hb Hs. rewrite Hs in Hd. cbn [negb] in Hd.
  destruct (rq_Body r) as [b|] eqn:Eb.
  - destruct (Z.ltb_spec (EffectiveMaxAPIBodyBytes (cf_limits cfg)) (rq_ContentLength r)); [done|]. injection Hd as <-.
    split; [lia|]. unfold DecodeMapWithError. rewrite Hb. cbn [rq_Body with_body]. unfold ReadAll, MaxBytesReader.
    cbn [br_limit br_bytes]. rewrite Z.ltb_antisym. destruct (Z.leb_spec (Z.of_nat (String.length (br_bytes b))) (EffectiveMaxAPIBodyBytes (cf_limits cfg)));
      cbn [negb]; eauto.
  - injection Hd as <-. unfold DecodeMapWithError. by rewrite Hb, Eb.
Qed.

(** The guards, one after the other, of a request they let through. *)
Record admitted (st : guard_state) (r r' : request) (rt : route) : Prop := {
  gd_body : snd (limitRequestBody r rt) = None;
  gd_authn : authorized cfg now (limited r rt) rt (gs_auth st) = (after_authn st r rt, r', true);
  gd_service : rt_ServiceAuthRequired rt = true -> serviceRequestAuthorizedForAudience r' (routeService rt) = true;
  gd_admin : cf_RequireAuth cfg = true -> rt_AuthRequired rt = true -> rt_Admin rt = true ->
    adminAllowed (as_Store (after_authn st r rt)) r' = true;
  gd_policy : cf_RequireAuth cfg = true -> rt_AuthRequired rt = true -> policyAllowed r' rt = true
}.

Lemma guards_admit st r rt st' r' :
  writeMiddlewareDenial st r rt = (st', r', None) -> admitted st r r' rt.
Proof.
  unfold writeMiddlewareDenial. destruct (limitRequestBody r rt) as [r0 [d|]] eqn:Eb; [done|]. intros Hg.
  assert (limited r rt = r0) as Hl by (unfold limited; by rewrite Eb).
  unfold requestGuards in Hg. cbn [run_guards] in Hg.
  destruct (authn_guard st r0 rt) as [[st1 r1] [d|]] eqn:E1; [done|].
  destruct (service_auth_guard st1 r1 rt) as [[st2 r2] [d|]] eqn:E2; [done|]. apply service_auth_guard_ok in E2 as (-> & -> & Hs).
  destruct (admin_guard st1 r1 rt) as [[st3 r3] [d|]] eqn:E3; [done|]. apply admin_guard_ok in E3 as (-> & -> & Ha).
  destruct (ratelimit_guard st1 r1 rt) as [[st4 r4] [d|]] eqn:E4; [done|]. apply ratelimit_guard_auth in E4 as (_ & ->).
  destruct (policy_guard st4 r1 rt) as [[st5 r5] [d|]] eqn:E5; [done|]. apply policy_guard_ok in E5 as (-> & -> & Hp).
  injection Hg as <- <-. unfold authn_guard in E1.
  destruct (authorized cfg now r0 rt (gs_auth st)) as [[auth1 r1'] [|]] eqn:Ea; [|done]. injection E1 as <- <-.
  assert (after_authn st r rt = auth1) as Haf by (unfold after_authn; by rewrite Hl, Ea).
  constructor; rewrite ?Haf, ?Hl, ?Eb; done.
Qed.

Lemma admitted_credential st r r' rt :
  cf_RequireAuth cfg = true -> rt_AuthRequired rt = true -> admitted st r r' rt ->
  exists id, has_credential cfg now (gs_auth st) r id /\ r' = identify (cleaned cfg (limited r rt)) id.
Proof.
  intros Hra Har Hg. pose proof (authn_exact cfg now (gs_auth st) (limited r rt) rt Hra Har) as Ha.
  rewrite (gd_authn _ _ _ _ Hg) in Ha. destruct Ha as (id & Hc & ->). exists id. by rewrite limited_credential in Hc.
Qed.

(** C4: A request that reaches its handler has passed every guard its route asks for.
    A route for services, whether or not it also asks for a user, is reached only by a
    request that names a configured service identity, presents its current or previous key
    and is meant for the service that owns the route (or, outside strict profiles and with
    no identity configured, presents the shared key).  Where authentication is configured
    and the route requires it, the request presents a valid credential and carries the
    identity of that principal only, an administrator route is reached only by a verified
    administrator, and the principal's scopes and, unless the route bypasses it, the policy
    decision point allow it.  On a state-changing route the handler can read only a body
    within the limit, unchanged: a longer body, whatever length it declared, is the error
    413 when it is decoded. *)
Theorem guards_enforce st r rt st' r' :
  writeMiddlewareDenial st r rt = (st', r', None) ->
  (rt_ServiceAuthRequired rt = true -> from_trusted_service r' (routeService rt)) /\
  (cf_RequireAuth cfg = true -> rt_AuthRequired rt = true -> user_admitted st r r' rt) /\
  (rt_StateChanging rt = true -> body_admitted r r').
Proof.
  intros Hg%guards_admit. split; [|split].
  - intros Hs. by apply service_identity_trusted, (gd_service _ _ _ _ Hg).
  - intros Hra Har. pose proof (policyAllowed_spec _ _ (gd_policy _ _ _ _ Hg Hra Har)) as [Hsc Hpo].
    constructor; [by apply admitted_credential|by apply (gd_admin _ _ _ _ Hg)|done|done].
  - intros Hs. destruct (limitRequestBody r rt) as [r1 d] eqn:El. pose proof (gd_body _ _ _ _ Hg) as Hd. rewrite El in Hd. cbn in Hd. subst d.
    eapply limitRequestBody_ok; [exact El| |done]. rewrite (authorized_body _ _ _ _ _ (gd_authn _ _ _ _ Hg)).
    unfold limited. by rewrite El.
Qed.

(** The identity headers of a request are never the client's: when authentication
    is required by the configuration, setting X-User-ID, X-Username, X-User-Role,
    X-Admin or X-API-Token-ID to anything changes neither the verdict of the guards,
    nor their effect, nor the request the handler sees. *)
Theorem identity_headers_inert st r rt name value :
  cf_RequireAuth cfg = true -> name ∈ [headerAPITokenID; headerUserID; headerUsername; headerUserRole; headerAdmin] ->
  snd (limitRequestBody r rt) = None ->
  writeMiddlewareDenial st (Header_Set name value r) rt = writeMiddlewareDenial st r rt.
Proof.
  intros Hra Hn Hl. unfold writeMiddlewareDenial.
  assert (limitRequestBody (Header_Set name value r) rt =
    (Header_Set name value (fst (limitRequestBody r rt)), snd (limitRequestBody r rt))) as ->.
  { unfold limitRequestBody. cbn. destruct (rq_Body r); [|done]. by destruct (rt_StateChanging rt); [destruct (_ <? _)|]. }
  destruct (limitRequestBody r rt) as [r1 d]. cbn [fst snd] in *. subst d. clear r. rename r1 into r.
  assert (cleaned cfg (Header_Set name value r) = cleaned cfg r) as Hc.
  { unfold cleaned. rewrite Hra. unfold stripInboundIdentityHeaders, Header_Del, Header_Set, with_headers. cbn. f_equal.
    unfold headerAPITokenID, headerUserID, headerUsername, headerUserRole, headerAdmin in *.
    apply map_eq. intros k. destruct (decide (k = name)) as [->|Hne].
    - repeat (apply elem_of_cons in Hn as [->|Hn]); [..|by apply elem_of_nil in Hn];
        repeat (rewrite lookup_delete_eq || rewrite lookup_delete_ne by discriminate); done.
    - repeat match goal with |- context [delete ?d _ !! k] =>
        destruct (decide (k = d)) as [->|?]; [rewrite !lookup_delete_eq; done|rewrite !(lookup_delete_ne _ d k) by done] end.
      by rewrite lookup_insert_ne. }
  unfold requestGuards. cbn [run_guards]. unfold authn_guard.
  assert (authorized cfg now (Header_Set name value r) rt (gs_auth st) = authorized cfg now r rt (gs_auth st)) as ->; [|done].
  unfold authorized. fold (cleaned cfg (Header_Set name value r)). fold (cleaned cfg r). by rewrite Hc.
Qed.

(** ** Production *)

Lemma matchedAPIKey_enabled presented configured key :
  matchedAPIKey presented configured = Some key -> configured !! key = Some true.
Proof.
  unfold matchedAPIKey. destruct (_ || _); [done|].
  destruct (List.find _ _) as [[k e]|] eqn:Ef; [|done]. cbn. intros [= <-].
  apply find_spec in Ef as [Hin Hm]. cbn in Hm. apply andb_true_iff in Hm as [_ ->].
  apply list_elem_of_In, in_rev, list_elem_of_In in Hin. by apply elem_of_map_to_list.
Qed.

Context `{EnvLib ip}.

(** C5: In production nobody is anonymous: with a configuration that passed start-up
    validation in the production profile, a request that reaches the handler of a
    route requiring authentication carries the verified user of a credential it
    presented, which is never a development token, and the user id header is that
    user's. *)
Theorem production_requests_verified st r rt st' r' :
  Validate cfg = Ok tt -> IsProductionProfile cfg = true -> rt_AuthRequired rt = true ->
  writeMiddlewareDenial st r rt = (st', r', None) ->
  exists kind token user tid, kind ≠ KDev /\ presents r kind token /\
    credential cfg now (gs_auth st) kind token (Some (user, tid)) /\
    verifiedUser r' = Some user /\ Header_Get r' headerUserID = asString (mget user "id") /\ Header_Get r' headerAdmin = "".
Proof.
  intros Hv Hp Har Hg. pose proof (Validate_production _ Hv Hp) as Hs.
  destruct (admitted_credential st r r' rt (ps_RequireAuth _ Hs) Har (guards_admit _ _ _ _ _ Hg)) as (id & (kind & token & Hpr & Hc) & ->).
  assert (exists user tid, id = Some (user, tid)) as (user & tid & ->).
  { inversion Hc as [| | | | | |? key Hm]; eauto.
    apply matchedAPIKey_enabled in Hm. apply (ps_keys _ Hs) in Hm. unfold str_empty.
    destruct (String.eqb_spec (akp_ID (principal_of cfg key)) ""); [done|eauto]. }
  exists kind, token, user, tid. split.
  { intros ->. inversion Hc as [| | | |key ? claims Hk| |]; subst. unfold newDevTokenSigner in Hk.
    rewrite (ps_DevAuthSigningKey _ Hs) in Hk. by rewrite orb_true_r in Hk. }
  do 2 (split; [done|]).
  assert (Header_Get (cleaned cfg (limited r rt)) headerAdmin = "") as Had.
  { unfold cleaned. rewrite (ps_RequireAuth _ Hs). unfold Header_Get, stripInboundIdentityHeaders. cbn.
    rewrite !lookup_delete_ne by discriminate. by rewrite lookup_delete_eq. }
  split; [by destruct tid|]. unfold Header_Get in *.
  destruct tid; cbn; (split; [by repeat (rewrite lookup_insert_eq || rewrite lookup_insert_ne by discriminate)|]);
    by rewrite !lookup_insert_ne by discriminate.
Qed.

End Guards.

(** ** A concrete request *)

Definition net_lib : NetLib nat := {|
  ParseIP _ := None; ip_String _ := ""; SplitHostPort _ := None; Atoi_ok _ := false |}.
Definition guard_start : guard_state := GuardState fresh_state (NewRateLimiter 600 time_Minute).
Definition deny_root : PDP := RemotePDP (fun subject _ _ _ => Some (Decision_ (negb (String.eqb subject "root")) "" 1)).
Definition guarded_run : guard_state * request * option denial :=
  @writeMiddlewareDenial auth_lib crypto_lib nat net_lib jwt_config deny_root (50 * time_Second) guard_start jwt_request authenticated_route.

Example guarded_run_passes : snd guarded_run = None.
Proof. vm_compute. reflexivity. Qed.

(** A service route as [ServiceInternal] marks it, which asks for no user, and a call to it
    with a body of 12 bytes where 8 are allowed. *)
Definition service_route : route :=
  Route_ "POST" "/internal/decide" "decide" "authorization-policy-service:decisions" "" "id" false false true false "" true false "" false "".
Definition service_env_lib : EnvLib nat := {|
  ParseBool := @ParseBool nat demo_env_lib; Atoi s := if String.eqb s "8" then Some 8 else None;
  ParseDuration _ := None; unmarshal_string_map _ := None; unmarshal_principals := @unmarshal_principals nat demo_env_lib;
  unmarshal_identities _ := Some {[ "workload-service" := TrustedIdentity "k" "" ["iam-unit"] ]};
  unmarshal_adapters _ := None; ParseCIDR _ := None; ParseHost _ := None; url_parts := @url_parts nat demo_env_lib |}.
Definition service_config : config nat := @ConfigFromEnv nat service_env_lib
  (<[envServiceTrustedIdentities := "identities"]> (<[envMaxAPIBodyBytes := "8"]> production_environ)).
Definition service_call : request :=
  Request "POST" {[ serviceNameHeader := "workload-service"; serviceKeyHeader := "k" ]} ∅ ∅ "10.0.0.1:5" (-1) (Some (BodyReader "123456789012" None)) None None.
Definition service_run : guard_state * request * option denial :=
  @writeMiddlewareDenial auth_lib crypto_lib nat net_lib service_config deny_root (50 * time_Second) guard_start service_call service_route.

Lemma guards_enforce_witness :
  @user_admitted auth_lib crypto_lib nat jwt_config deny_root (50 * time_Second) guard_start jwt_request (snd (fst guarded_run)) authenticated_route /\
  @from_trusted_service nat service_config (snd (fst service_run)) "authorization-policy-service" /\
  @body_admitted auth_lib nat service_config service_call (snd (fst service_run)).
Proof.
  destruct (@guards_enforce auth_lib crypto_lib nat net_lib jwt_config deny_root (50 * time_Second) guard_start jwt_request
    authenticated_route (fst (fst guarded_run)) (snd (fst guarded_run)) ltac:(vm_compute; reflexivity)) as (_ & Hu & _).
  destruct (@guards_enforce auth_lib crypto_lib nat net_lib service_config deny_root (50 * time_Second) guard_start service_call
    service_route (fst (fst service_run)) (snd (fst service_run)) ltac:(vm_compute; reflexivity)) as (Hs & _ & Hb).
  split; [apply Hu; [vm_compute; reflexivity|reflexivity]|]. split; [exact (Hs eq_refl)|exact (Hb eq_refl)].
Defined.

(** The declared length is -1 (chunked), so the guards pass; the decoder then refuses. *)
Example long_body_refused :
  snd service_run = None /\
  @DecodeMapWithError auth_lib (snd (fst service_run)) = Err (InputLimitError 413 "request body exceeds max byte size of %d bytes").
Proof. vm_compute. split; reflexivity. Qed.

Lemma identity_headers_inert_witness :
  @writeMiddlewareDenial auth_lib crypto_lib nat net_lib jwt_config deny_root (50 * time_Second) guard_start
    (Header_Set headerUserID "root" jwt_request) authenticated_route = guarded_run.
Proof.
  apply (@identity_headers_inert auth_lib crypto_lib nat net_lib jwt_config deny_root (50 * time_Second) guard_start
    jwt_request authenticated_route headerUserID "root"); [vm_compute; reflexivity| |vm_compute; reflexivity].
  right. left.
Defined.

Lemma production_requests_verified_witness :
  exists kind token user tid, kind ≠ KDev /\ presents jwt_request kind token /\
    @credential auth_lib crypto_lib nat jwt_config (50 * time_Second) fresh_state kind token (Some (user, tid)) /\
    verifiedUser (snd (fst guarded_run)) = Some user.
Proof.
  destruct (@production_requests_verified auth_lib crypto_lib nat net_lib jwt_config deny_root (50 * time_Second) demo_env_lib
    guard_start jwt_request authenticated_route (fst (fst guarded_run)) (snd (fst guarded_run)) ltac:(vm_compute; reflexivity)
    ltac:(vm_compute; reflexivity) eq_refl ltac:(vm_compute; reflexivity)) as (kind & token & user & tid & H1 & H2 & H3 & H4 & _).
  exists kind, token, user, tid. split; [exact H1|]. split; [exact H2|]. split; [exact H3|exact H4].
Defined.
