(* ===== verification/Routing.v ===== *)
(** * Routes: registration and dispatch (internal/platform/routing.go and the route
    table of app.go)

    Services register their routes; a request is dispatched to the most specific
    registered route whose pattern matches its path.  Candidates come from an index by
    method and first path segment, which is rebuilt when a fingerprint of the table
    says it is stale. *)

From stdpp Require Import base gmap strings list fin_maps sets.
From Stdlib Require Import ZArith Lia Ascii.
From S2P Require Import Prelude GoValue Store EventBus Crud RateLimit InputLimits Config Auth Guards.
Local Open Scope Z_scope.

(** ** Strings *)

Definition HasSuffix (s p : string) : bool :=
  match strip_prefix (rev (bytes_of p)) (rev (bytes_of s)) with Some _ => true | None => false end.

(** strings.Trim(s, "/") *)
Definition trim_slashes (s : string) : string :=
  let l := trim_loop [["/"%char]] (String.length s) (bytes_of s) in
  of_bytes (rev (trim_loop [["/"%char]] (length l) (rev l))).

Fixpoint replace_bytes (fuel : nat) (old new l : list ascii) : list ascii :=
  match fuel, l with
  | O, _ => l
  | S _, [] => []
  | S n, c :: l' => match strip_prefix old l with
                    | Some rest => new ++ replace_bytes n old new rest
                    | None => c :: replace_bytes n old new l'
                    end
  end.
(** strings.ReplaceAll for a non-empty [old]; each step consumes a byte. *)
Definition ReplaceAll (s old new : string) : string :=
  of_bytes (replace_bytes (String.length s) (bytes_of old) (bytes_of new) (bytes_of s)).

(** ** Patterns *)

Definition routeWildcardBucket : string := "*".
Definition nul : string := String (ascii_of_nat 0) "".

Definition routeIndexKey (method bucket : string) : string := method +:+ nul +:+ bucket.

(** strings.Split(strings.Trim(path, "/"), "/") *)
Definition segments (path : string) : list string := Split (trim_slashes path) "/".

Definition pathSegments (path : string) : list string :=
  if str_empty (trim_slashes path) then [] else segments path.

Definition routeBucketWildcard (segment : string) : bool := HasPrefix segment "{" && HasSuffix segment "}".
Definition catch_all (segment : string) : bool := HasSuffix segment "...}".

Definition bucket_of_segments (parts0 : list string) : string :=
  let parts := match parts0 with
               | api :: version :: rest => if String.eqb api "api" && HasPrefix (ToLower version) "v" then rest else parts0
               | _ => parts0
               end in
  match parts with
  | [] => ""
  | first :: _ => if routeBucketWildcard first then routeWildcardBucket else first
  end.

Definition routeBucket (path : string) : string := bucket_of_segments (pathSegments path).

Definition canonical_segment (part : string) : string :=
  if HasPrefix part "{" && HasSuffix part "...}" then "{...}"
  else if HasPrefix part "{" && HasSuffix part "}" then "{}"
  else part.

Definition canonicalPattern (pattern : string) : string :=
  "/" +:+ String.concat "/" (map canonical_segment (segments pattern)).

(** Matching segment by segment: the parameters bound, or no match. *)
Fixpoint match_segments (pattern path : list string) (params : gmap string string) : option (gmap string string) :=
  match pattern with
  | [] => match path with [] => Some params | _ => None end
  | part :: pattern' =>
      if catch_all part
      then Some (<[TrimSuffix (TrimPrefix part "{") "...}" := String.concat "/" path]> params)
      else match path with
           | [] => None
           | x :: path' =>
               if routeBucketWildcard part
               then match_segments pattern' path' (<[TrimSuffix (TrimPrefix part "{") "}" := x]> params)
               else if String.eqb part x then match_segments pattern' path' params
               else None
           end
  end.

Definition extractPathParams (pattern path : string) : option (gmap string string) :=
  match_segments (segments pattern) (segments path) ∅.

Definition segment_score (part : string) : Z :=
  if HasPrefix part "{" && HasSuffix part "...}" then 0
  else if HasPrefix part "{" && HasSuffix part "}" then 1
  else 2.

Definition routeSpecificity (pattern : string) : Z := foldr (fun part score => segment_score part + score) 0 (segments pattern).

Definition operationID (service method pattern : string) : string :=
  let clean := trim_slashes pattern in
  let clean := ReplaceAll clean "/" "_" in
  let clean := ReplaceAll clean "{" "" in
  let clean := ReplaceAll clean "}" "" in
  let clean := ReplaceAll clean "..." "all" in
  let clean := ReplaceAll clean "-" "_" in
  ToLower (method +:+ "_" +:+ service +:+ "_" +:+ clean).

Definition isInternalRoutePattern (pattern0 : string) : bool :=
  let pattern := "/" +:+ of_bytes (trim_loop [["/"%char]] (String.length pattern0) (bytes_of pattern0)) in
  HasPrefix pattern "/internal/" || HasPrefix pattern "/api/v1/internal/".

(** ** The table *)

Record ServiceSpec := Service { svc_Name : string; svc_Routes : list route }.

Record router := Router {
  ro_Routes : list route;
  ro_CatalogRoutes : list route;
  ro_registered : gset string;
  ro_index : gmap string (list route);
  ro_hash : Z
}.

(** newBaseApp *)
Definition NewRouter : router := Router [] [] ∅ ∅ 0.

(** FNV-1a over 64 bits; each field is followed by a zero byte. *)
Definition fnv_byte (h : Z) (c : ascii) : Z := (Z.lxor h (Z.of_nat (nat_of_ascii c)) * 1099511628211) mod two64.
Definition writeRouteFingerprint (h : Z) (value : string) : Z := fnv_byte (fold_left fnv_byte (bytes_of value) h) (ascii_of_nat 0).
Definition routesFingerprint (routes : list route) : Z :=
  fold_left (fun h rt => fold_left writeRouteFingerprint
    [rt_Method rt; rt_Pattern rt; rt_Resource rt; rt_Action rt; rt_IDParam rt; rt_OperationID rt] h)
    routes 14695981039346656037.

Definition index_route (index : gmap string (list route)) (rt : route) : gmap string (list route) :=
  let key := routeIndexKey (rt_Method rt) (routeBucket (rt_Pattern rt)) in
  <[key := default [] (index !! key) ++ [rt]]> index.
Definition build_index (routes : list route) : gmap string (list route) := fold_left index_route routes ∅.

Definition rebuildRouteIndex (a : router) : router :=
  Router (ro_Routes a) (ro_CatalogRoutes a) (ro_registered a) (build_index (ro_Routes a)) (routesFingerprint (ro_Routes a)).

Definition fresh_index (a : router) : router :=
  if ro_hash a =? routesFingerprint (ro_Routes a) then a else rebuildRouteIndex a.

Definition routeCandidates (a0 : router) (method path : string) : router * list route :=
  let a := fresh_index a0 in
  let bucket := routeBucket path in
  let at_ b := default [] (ro_index a !! routeIndexKey method b) in
  (a, at_ bucket ++ (if negb (String.eqb bucket routeWildcardBucket) then at_ routeWildcardBucket else [])).

Definition catalogRouteCandidates (a : router) (method path : string) : list route :=
  let bucket := routeBucket path in
  List.filter (fun rt => String.eqb (rt_Method rt) method &&
    (String.eqb (routeBucket (rt_Pattern rt)) bucket || String.eqb (routeBucket (rt_Pattern rt)) routeWildcardBucket)) (ro_CatalogRoutes a).

(** The loop over the candidates keeps the first of the best. *)
Definition better (method path : string) (best : option (route * gmap string string)) (rt : route) : option (route * gmap string string) :=
  if negb (String.eqb (rt_Method rt) method) then best
  else match extractPathParams (rt_Pattern rt) path with
       | None => best
       | Some params =>
           match best with
           | Some (b, _) => if routeSpecificity (rt_Pattern rt) <=? routeSpecificity (rt_Pattern b) then best else Some (rt, params)
           | None => Some (rt, params)
           end
       end.
Definition best_route (method path : string) (candidates : list route) : option (route * gmap string string) :=
  fold_left (better method path) candidates None.

(** serveServiceRoute: the route a request is handed to, with its path values. *)
Definition serveServiceRoute (a : router) (method path : string) : router * option (route * gmap string string) :=
  let '(a', candidates) := routeCandidates a method path in (a', best_route method path candidates).

Section Gateway.
Context {ip : Type} (cfg : config ip).

Definition gatewayProxyAction : string := "gateway_proxy".

Definition gatewayProxyableRoute (rt : route) : bool :=
  negb (str_empty (routeService rt)) && negb (AllowsService cfg (routeService rt)) &&
  negb (rt_ServiceAuthRequired rt) && negb (isInternalRoutePattern (rt_Pattern rt)).

Definition with_action (rt : route) (action : string) : route :=
  Route_ (rt_Method rt) (rt_Pattern rt) (rt_OperationID rt) (rt_Resource rt) action (rt_IDParam rt) (rt_AuthRequired rt)
    (rt_Admin rt) (rt_StateChanging rt) (rt_PolicyBypass rt) (rt_ExternalAdapter rt) (rt_ServiceAuthRequired rt)
    (rt_InternalPublic rt) (rt_AliasOf rt) (rt_Override rt) (rt_OverrideReason rt).

Definition serveGatewayCatalogProxyRoute (a : router) (method path : string) : option (route * gmap string string) :=
  if negb (String.eqb (TrimSpace (cf_ServiceName cfg)) "platform-gateway") || bool_decide (cf_ServiceURLs cfg = ∅) then None
  else match best_route method path (List.filter gatewayProxyableRoute (catalogRouteCandidates a method path)) with
       | Some (best, params) => Some (with_action best gatewayProxyAction, params)
       | None => None
       end.

(** ** Registration *)

Definition catalog_route (service : string) (rt : route) : route :=
  let stateChanging := rt_StateChanging rt || negb (String.eqb (rt_Method rt) "GET") in
  let resource := FirstNonEmpty [rt_Resource rt; rt_OperationID rt] in
  let op := FirstNonEmpty [rt_OperationID rt; operationID service (rt_Method rt) (rt_Pattern rt)] in
  Route_ (rt_Method rt) (rt_Pattern rt) op (service +:+ ":" +:+ resource) (rt_Action rt) (rt_IDParam rt) (rt_AuthRequired rt)
    (rt_Admin rt) stateChanging (rt_PolicyBypass rt) (rt_ExternalAdapter rt) (rt_ServiceAuthRequired rt)
    (rt_InternalPublic rt) (rt_AliasOf rt) (rt_Override rt) (rt_OverrideReason rt).

Definition registerKey (rt : route) : string := rt_Method rt +:+ " " +:+ canonicalPattern (rt_Pattern rt).

Fixpoint replaceRegisteredRoute (routes : list route) (key : string) (rt : route) : list route :=
  match routes with
  | [] => [rt]
  | current :: rest => if String.eqb (registerKey current) key then rt :: rest else current :: replaceRegisteredRoute rest key rt
  end.

(** The state of the registration loop: routes, keys, and whether anything changed. *)
Definition register_route (st : list route * gset string * bool) (rt : route) : list route * gset string * bool :=
  let '(routes, registered, changed) := st in
  let key := registerKey rt in
  if bool_decide (key ∈ registered)
  then if rt_Override rt && negb (blank (rt_OverrideReason rt))
       then (replaceRegisteredRoute routes key rt, registered, true) else st
  else (routes ++ [rt], {[key]} ∪ registered, true).

Definition RegisterService (a : router) (spec : ServiceSpec) : router :=
  let catalogRoutes := map (catalog_route (svc_Name spec)) (svc_Routes spec) in
  let catalog := ro_CatalogRoutes a ++ catalogRoutes in
  if negb (AllowsService cfg (svc_Name spec)) then Router (ro_Routes a) catalog (ro_registered a) (ro_index a) (ro_hash a)
  else
    let '(routes, registered, changed) := fold_left register_route catalogRoutes (ro_Routes a, ro_registered a, false) in
    let a' := Router routes catalog registered (ro_index a) (ro_hash a) in
    if changed then rebuildRouteIndex a' else a'.

End Gateway.

(** ** The index is complete *)

(** Patterns the index handles: a catch-all is written in braces, and the version
    segment after "api" is a literal. *)
Definition plain_catch_all (part : string) : bool := negb (catch_all part) || routeBucketWildcard part.
Definition regular_segments (pattern : list string) : bool :=
  match pattern with
  | [] => true
  | first :: rest =>
      plain_catch_all first &&
      (if String.eqb first "api" then
         match rest with
         | [] => true
         | second :: rest' =>
             negb (routeBucketWildcard second) && negb (catch_all second) &&
             match rest' with third :: _ => plain_catch_all third | [] => true end
         end
       else true)
  end.
Definition regular_pattern (pattern : string) : bool := regular_segments (segments pattern).

Lemma routeBucket_segments path : routeBucket path = bucket_of_segments (segments path).
Proof.
  unfold routeBucket, pathSegments, segments, str_empty.
  destruct (String.eqb_spec (trim_slashes path) "") as [->|]; [|done]. done.
Qed.

(** The bucket of a first segment the pattern's first segment matches. *)
Lemma first_bucket part pattern path params q :
  match_segments (part :: pattern) path params = Some q -> plain_catch_all part = true ->
  routeBucketWildcard part = true \/ exists rest, path = part :: rest /\ match_segments pattern rest params = Some q.
Proof.
  cbn [match_segments]. unfold plain_catch_all. destruct (catch_all part); [by left|]. intros Hm _.
  destruct path as [|x path]; [done|]. destruct (routeBucketWildcard part); [by left|]. right.
  destruct (String.eqb_spec part x) as [->|]; [|done]. by exists path.
Qed.

Lemma bucket_literal first rest :
  String.eqb first "api" = false -> routeBucketWildcard first = false -> bucket_of_segments (first :: rest) = first.
Proof. intros Ha Hw. unfold bucket_of_segments. destruct rest; rewrite ?Ha; cbn; by rewrite Hw. Qed.

Lemma bucket_wildcard first rest : routeBucketWildcard first = true -> bucket_of_segments (first :: rest) = routeWildcardBucket.
Proof.
  intros Hw. assert (String.eqb first "api" = false) as Ha.
  { destruct (String.eqb_spec first "api") as [->|]; [by vm_compute in Hw|done]. }
  unfold bucket_of_segments. destruct rest; rewrite ?Ha; cbn; by rewrite Hw.
Qed.

Definition first_bucket_of (parts : list string) : string :=
  match parts with [] => "" | first :: _ => if routeBucketWildcard first then routeWildcardBucket else first end.

Lemma bucket_api second rest :
  bucket_of_segments ("api" :: second :: rest) = if HasPrefix (ToLower second) "v" then first_bucket_of rest else "api".
Proof. unfold bucket_of_segments. cbn. destruct (HasPrefix (ToLower second) "v"); [|done]. by destruct rest. Qed.

Lemma matched_bucket pattern path params q :
  match_segments pattern path params = Some q -> regular_segments pattern = true ->
  bucket_of_segments path = bucket_of_segments pattern \/ bucket_of_segments pattern = routeWildcardBucket.
Proof.
  destruct pattern as [|first rest]; [destruct path; [by left|done]|]. intros Hm Hr. cbn [regular_segments] in Hr.
  apply andb_true_iff in Hr as [Hf Hr]. destruct (first_bucket _ _ _ _ _ Hm Hf) as [Hw|(rest' & -> & Hm')];
    [right; by apply bucket_wildcard|].
  destruct (routeBucketWildcard first) eqn:Ew; [right; by apply bucket_wildcard|].
  destruct (String.eqb_spec first "api") as [->|Hne].
  2: { left. rewrite !bucket_literal; try done; by apply String.eqb_neq. }
  destruct rest as [|second rest]; [destruct rest'; [by left|done]|].
  apply andb_true_iff in Hr as [[Hw2 Hc2]%andb_true_iff Hr]. apply negb_true_iff in Hw2, Hc2.
  destruct (first_bucket _ _ _ _ _ Hm') as [?|(rest2 & -> & Hm2)]; [by unfold plain_catch_all; rewrite Hc2|congruence|].
  rewrite !bucket_api. destruct (HasPrefix (ToLower second) "v"); [|by left].
  destruct rest as [|third rest]; [destruct rest2; [by left|done]|].
  destruct (first_bucket _ _ _ _ _ Hm2 Hr) as [Hw3|(rest3 & -> & _)]; [right; cbn; by rewrite Hw3|by left].
Qed.

Lemma build_index_lookup routes key :
  default [] (build_index routes !! key) =
  List.filter (fun rt => String.eqb (routeIndexKey (rt_Method rt) (routeBucket (rt_Pattern rt))) key) routes.
Proof.
  unfold build_index. rewrite <- (rev_involutive routes). induction (rev routes) as [|rt l IH]; [done|].
  cbn [rev]. rewrite fold_left_app, List.filter_app. cbn [fold_left List.filter]. unfold index_route at 1. cbn zeta.
  destruct (String.eqb_spec (routeIndexKey (rt_Method rt) (routeBucket (rt_Pattern rt))) key) as [->|Hne].
  - by rewrite lookup_insert_eq, <- IH.
  - by rewrite lookup_insert_ne, app_nil_r.
Qed.

Definition matches (method path : string) (rt : route) : Prop :=
  rt_Method rt = method /\ is_Some (extractPathParams (rt_Pattern rt) path).

(** Every matching route of the table is a candidate. *)
Lemma candidates_complete routes index method path rt :
  index = build_index routes -> rt ∈ routes -> regular_pattern (rt_Pattern rt) = true -> matches method path rt ->
  let at_ b := default [] (index !! routeIndexKey method b) in
  rt ∈ at_ (routeBucket path) ++ (if negb (String.eqb (routeBucket path) routeWildcardBucket) then at_ routeWildcardBucket else []).
Proof.
  intros -> Hin Hr [Hm [q Hq]] at_. unfold extractPathParams in Hq.
  assert (forall b, routeBucket (rt_Pattern rt) = b -> rt ∈ at_ b) as Hat.
  { intros b <-. unfold at_. rewrite build_index_lookup. apply list_elem_of_In, filter_In.
    split; [by apply list_elem_of_In|]. subst method. apply String.eqb_refl. }
  rewrite !routeBucket_segments in *. apply elem_of_app.
  destruct (matched_bucket _ _ _ _ Hq Hr) as [Hb|Hb]; [left; by apply Hat|].
  destruct (String.eqb_spec (bucket_of_segments (segments path)) routeWildcardBucket) as [E|E];
    [left; apply Hat; congruence|right; by apply Hat].
Qed.

(** ** Dispatch *)

Lemma better_spec method path rt best :
  better method path best rt =
  match decide (matches method path rt) with
  | left _ => match best with
              | Some (b, _) => if routeSpecificity (rt_Pattern rt) <=? routeSpecificity (rt_Pattern b) then best
                               else (fun params => (rt, params)) <$> extractPathParams (rt_Pattern rt) path
              | None => (fun params => (rt, params)) <$> extractPathParams (rt_Pattern rt) path
              end
  | right _ => best
  end.
Proof.
  unfold better. destruct (decide (matches method path rt)) as [[-> [params Hp]]|Hn].
  - rewrite String.eqb_refl, Hp. by destruct best as [[]|].
  - destruct (String.eqb_spec (rt_Method rt) method) as [Hm|Hm]; [|done]. cbn [negb].
    destruct (extractPathParams (rt_Pattern rt) path) as [params|] eqn:E; [|done].
    destruct Hn. split; [done|]. by exists params.
Qed.

(** What the loop has found among the candidates seen so far. *)
Definition best_of (method path : string) (seen : list route) (best : option (route * gmap string string)) : Prop :=
  match best with
  | Some (b, params) => b ∈ seen /\ rt_Method b = method /\ extractPathParams (rt_Pattern b) path = Some params /\
      forall rt, rt ∈ seen -> matches method path rt -> routeSpecificity (rt_Pattern rt) <= routeSpecificity (rt_Pattern b)
  | None => forall rt, rt ∈ seen -> ~ matches method path rt
  end.

Lemma best_of_step method path seen best rt :
  best_of method path seen best -> best_of method path (seen ++ [rt]) (better method path best rt).
Proof.
  intros Hb. rewrite better_spec. destruct (decide (matches method path rt)) as [[Hm [params Hp]]|Hn].
  - rewrite Hp. cbn [fmap option_fmap option_map].
    destruct best as [[b bp]|].
    + destruct Hb as (Hin & Hbm & Hbp & Hmax). destruct (Z.leb_spec (routeSpecificity (rt_Pattern rt)) (routeSpecificity (rt_Pattern b))).
      * split_and!; [apply elem_of_app; by left|done|done|].
        intros rt' [Hin'| ->%list_elem_of_singleton]%elem_of_app Hm'; [by apply Hmax|done].
      * split_and!; [apply elem_of_app; right; left|done|done|].
        intros rt' [Hin'| ->%list_elem_of_singleton]%elem_of_app Hm'; [specialize (Hmax rt' Hin' Hm'); lia|lia].
    + split_and!; [apply elem_of_app; right; left|done|done|].
      intros rt' [Hin'| ->%list_elem_of_singleton]%elem_of_app Hm'; [by destruct (Hb rt' Hin')|lia].
  - destruct best as [[b bp]|]; cbn in *.
    + destruct Hb as (Hin & Hbm & Hbp & Hmax). split_and!; [apply elem_of_app; by left|done|done|].
      intros rt' [Hin'| ->%list_elem_of_singleton]%elem_of_app Hm'; [by apply Hmax|done].
    + intros rt' [Hin'| ->%list_elem_of_singleton]%elem_of_app; [by apply Hb|done].
Qed.

Lemma best_route_spec method path candidates : best_of method path candidates (best_route method path candidates).
Proof.
  unfold best_route. rewrite <- (rev_involutive candidates). induction (rev candidates) as [|rt l IH].
  - intros rt Hin. by apply elem_of_nil in Hin.
  - cbn [rev]. rewrite fold_left_app. cbn [fold_left]. by apply best_of_step.
Qed.

(** ** Registration keeps the table in order *)

Record table_ok (a : router) : Prop := {
  tb_unique : NoDup (map registerKey (ro_Routes a));
  tb_registered : forall key, key ∈ ro_registered a <-> key ∈ map registerKey (ro_Routes a);
  tb_index : ro_index a = build_index (ro_Routes a)
}.

Lemma replace_keys routes key rt :
  key ∈ map registerKey routes -> registerKey rt = key ->
  map registerKey (replaceRegisteredRoute routes key rt) = map registerKey routes.
Proof.
  induction routes as [|c routes IH]; cbn; intros Hin Hk; [by apply elem_of_nil in Hin|].
  destruct (String.eqb_spec (registerKey c) key) as [E|E]; cbn; [congruence|]. f_equal. apply IH; [|done].
  apply elem_of_cons in Hin as [?|?]; [congruence|done].
Qed.

Definition keys_ok (st : list route * gset string * bool) : Prop :=
  NoDup (map registerKey (fst (fst st))) /\ forall key, key ∈ snd (fst st) <-> key ∈ map registerKey (fst (fst st)).

Lemma register_route_ok st rt : keys_ok st -> keys_ok (register_route st rt).
Proof.
  destruct st as [[routes registered] changed]. unfold keys_ok, register_route. cbn [fst snd]. intros [Hn Hr].
  case_bool_decide as Hin.
  - destruct (_ && _); [|done]. cbn [fst snd]. by rewrite replace_keys by (try apply Hr; done).
  - cbn [fst snd]. rewrite map_app. cbn [map]. split.
    + apply NoDup_app. split; [done|]. split; [|apply NoDup_singleton].
      intros key Hk ->%list_elem_of_singleton. by apply Hin, Hr.
    + intros key. rewrite elem_of_union, elem_of_app, elem_of_singleton, list_elem_of_singleton, Hr. tauto.
Qed.

Lemma register_route_changed st rt :
  fst (fst (register_route st rt)) = fst (fst st) \/ snd (register_route st rt) = true.
Proof.
  destruct st as [[routes registered] changed]. unfold register_route. case_bool_decide; [|by right].
  destruct (_ && _); [by right|by left].
Qed.

Lemma register_all_ok l : forall st,
  keys_ok st -> keys_ok (fold_left register_route l st) /\
  (fst (fst (fold_left register_route l st)) = fst (fst st) \/ snd (fold_left register_route l st) = true).
Proof.
  assert (forall l st, snd st = true -> snd (fold_left register_route l st) = true) as Hsticky.
  { intros l'. induction l' as [|rt l' IH]; intros st Hs; [done|]. cbn. apply IH. destruct st as [[routes registered] changed]. cbn in Hs.
    subst. unfold register_route. case_bool_decide; [|done]. by destruct (_ && _). }
  induction l as [|rt l IH]; intros st Hk; [split; [done|by left]|]. cbn [fold_left].
  destruct (IH (register_route st rt) (register_route_ok _ _ Hk)) as [Hk' Hc]. split; [done|].
  destruct (register_route_changed st rt) as [E|E]; [by rewrite E in Hc|right; by apply Hsticky].
Qed.

Section Dispatch.
Context {ip : Type} (cfg : config ip).

Lemma RegisterService_ok a spec : table_ok a -> table_ok (RegisterService cfg a spec).
Proof.
  intros [Hu Hr Hi]. unfold RegisterService. destruct (AllowsService cfg (svc_Name spec)); [|by constructor]. cbn [negb].
  destruct (register_all_ok (map (catalog_route (svc_Name spec)) (svc_Routes spec)) (ro_Routes a, ro_registered a, false))
    as [[Hn Hk] Hc]; [done|].
  destruct (fold_left register_route _ _) as [[routes registered] changed]. cbn [fst snd] in *.
  destruct changed; [by constructor|]. destruct Hc as [Hc|]; [|done]. subst routes. by constructor.
Qed.

(** The application after a sequence of registrations. *)
Definition registered_app (specs : list ServiceSpec) : router := fold_left (RegisterService cfg) specs NewRouter.

Lemma registered_app_ok specs : table_ok (registered_app specs).
Proof.
  unfold registered_app. rewrite <- (rev_involutive specs). induction (rev specs) as [|spec l IH].
  - constructor; cbn; [constructor|set_solver|done].
  - cbn [rev]. rewrite fold_left_app. cbn [fold_left]. by apply RegisterService_ok.
Qed.

(** The route index loses nothing and dispatch is by specificity: after any
    registrations, each method and pattern shape is in the table once, and a request
    is handed to a registered route of its method that matches its path and is at
    least as specific as every other one that does; it is unrouted only if none
    matches. *)
Theorem dispatch_most_specific specs method path :
  let a := registered_app specs in
  Forall (fun rt => regular_pattern (rt_Pattern rt) = true) (ro_Routes a) ->
  NoDup (map registerKey (ro_Routes a)) /\
  match snd (serveServiceRoute a method path) with
  | Some (best, params) =>
      best ∈ ro_Routes a /\ rt_Method best = method /\ extractPathParams (rt_Pattern best) path = Some params /\
      forall rt, rt ∈ ro_Routes a -> matches method path rt -> routeSpecificity (rt_Pattern rt) <= routeSpecificity (rt_Pattern best)
  | None => forall rt, rt ∈ ro_Routes a -> ~ matches method path rt
  end.
Proof.
  intros a Hreg. pose proof (registered_app_ok specs) as [Hu _ Hi]. split; [done|]. fold a in Hi.
  assert (ro_index (fresh_index a) = build_index (ro_Routes a)) as Hf by (unfold fresh_index; by destruct (_ =? _)).
  unfold serveServiceRoute, routeCandidates. cbn zeta. cbn [snd].
  set (candidates := default [] _ ++ _).
  assert (forall rt, rt ∈ ro_Routes a -> matches method path rt -> rt ∈ candidates) as Hcomplete.
  { intros rt Hin Hm. rewrite Forall_forall in Hreg. exact (candidates_complete _ _ method path rt Hf Hin (Hreg rt Hin) Hm). }
  assert (forall rt, rt ∈ candidates -> rt ∈ ro_Routes a) as Hsound.
  { intros rt. unfold candidates. rewrite Hf, !build_index_lookup, elem_of_app, list_elem_of_In, filter_In, <- list_elem_of_In.
    intros [[? _]|Hin]; [done|]. destruct (negb _); [|by apply elem_of_nil in Hin].
    apply list_elem_of_In, filter_In in Hin as [? _]. by apply list_elem_of_In. }
  pose proof (best_route_spec method path candidates) as Hb.
  destruct (best_route method path candidates) as [[best params]|]; cbn in Hb.
  - destruct Hb as (Hin & Hm & Hp & Hmax). split_and!; [by apply Hsound|done|done|]. intros rt Hrt Hrm. apply Hmax; [by apply Hcomplete|done].
  - intros rt Hrt Hrm. by apply (Hb rt); [apply Hcomplete|].
Qed.

End Dispatch.

(** ** How services write their routes (internal/services/shared/spec.go) *)

Section Spec.

Definition Route (method pattern resource action : string) (opts : list (route -> route)) : route :=
  fold_left (fun spec opt => opt spec) opts
    (Route_ method pattern "" resource action "" true false (negb (String.eqb method "GET")) false "" false false "" false "").

Definition ID (name : string) (rt : route) : route :=
  Route_ (rt_Method rt) (rt_Pattern rt) (rt_OperationID rt) (rt_Resource rt) (rt_Action rt) name (rt_AuthRequired rt)
    (rt_Admin rt) (rt_StateChanging rt) (rt_PolicyBypass rt) (rt_ExternalAdapter rt) (rt_ServiceAuthRequired rt)
    (rt_InternalPublic rt) (rt_AliasOf rt) (rt_Override rt) (rt_OverrideReason rt).

Definition Admin (rt : route) : route :=
  Route_ (rt_Method rt) (rt_Pattern rt) (rt_OperationID rt) (rt_Resource rt) (rt_Action rt) (rt_IDParam rt) (rt_AuthRequired rt)
    true (rt_StateChanging rt) (rt_PolicyBypass rt) (rt_ExternalAdapter rt) (rt_ServiceAuthRequired rt)
    (rt_InternalPublic rt) (rt_AliasOf rt) (rt_Override rt) (rt_OverrideReason rt).

(** No user is asked for; the service guard is the one that checks the caller. *)
Definition ServiceInternal (rt : route) : route :=
  Route_ (rt_Method rt) (rt_Pattern rt) (rt_OperationID rt) (rt_Resource rt) (rt_Action rt) (rt_IDParam rt) false
    (rt_Admin rt) (rt_StateChanging rt) true (rt_ExternalAdapter rt) true
    (rt_InternalPublic rt) (rt_AliasOf rt) (rt_Override rt) (rt_OverrideReason rt).

Definition Adapter (name : string) (rt : route) : route :=
  Route_ (rt_Method rt) (rt_Pattern rt) (rt_OperationID rt) (rt_Resource rt) (rt_Action rt) (rt_IDParam rt) (rt_AuthRequired rt)
    (rt_Admin rt) (rt_StateChanging rt) (rt_PolicyBypass rt) name (rt_ServiceAuthRequired rt)
    (rt_InternalPublic rt) (rt_AliasOf rt) (rt_Override rt) (rt_OverrideReason rt).

End Spec.

(** ** A concrete table *)

Definition plain_route (method pattern : string) : route :=
  Route_ method pattern "" "r" "" "id" true false false false "" false false "" false "".
Definition demo_spec : ServiceSpec := Service "identity-service"
  [plain_route "GET" "/api/v1/users/{id}"; plain_route "GET" "/api/v1/users/me"; plain_route "GET" "/api/v1/{rest...}";
   plain_route "GET" "/api/v1/users/{user}"].

Example demo_dispatch :
  let a := registered_app production_config [demo_spec] in
  let chosen path := (fun b => rt_Pattern (fst b)) <$> snd (serveServiceRoute a "GET" path) in
  length (ro_Routes a) = 3%nat /\ chosen "/api/v1/users/me" = Some "/api/v1/users/me" /\
  chosen "/api/v1/users/u7" = Some "/api/v1/users/{id}" /\ chosen "/api/v1/plans/p/q" = Some "/api/v1/{rest...}" /\
  chosen "/healthz" = None.
Proof. vm_compute. repeat split; reflexivity. Qed.

Lemma dispatch_most_specific_witness :
  exists best params, snd (serveServiceRoute (registered_app production_config [demo_spec]) "GET" "/api/v1/users/me") = Some (best, params) /\
    forall rt, rt ∈ ro_Routes (registered_app production_config [demo_spec]) -> matches "GET" "/api/v1/users/me" rt ->
      routeSpecificity (rt_Pattern rt) <= routeSpecificity (rt_Pattern best).
Proof.
  destruct (dispatch_most_specific production_config [demo_spec] "GET" "/api/v1/users/me") as [_ Hd].
  { vm_compute. repeat constructor. }
  destruct (snd (serveServiceRoute _ _ _)) as [[best params]|] eqn:E; [|vm_compute in E; discriminate E].
  destruct Hd as (_ & _ & _ & Hmax). exists best, params. split; [reflexivity|exact Hmax].
Defined.

(** The hypothesis is needed: a parameter right after "api" is filed under "api", where
    a versioned path is not looked up. *)
Example index_misses_version_parameter :
  let a := registered_app production_config [Service "identity-service" [plain_route "GET" "/api/{version}/users"]] in
  is_Some (extractPathParams "/api/{version}/users" "/api/v2/users") /\ snd (serveServiceRoute a "GET" "/api/v2/users") = None.
Proof. vm_compute. split; [eexists; reflexivity|reflexivity]. Qed.
