(* ===== verification/Maintenance.v ===== *)
(** * Worker leases, maintenance tasks and event ingestion (internal/platform/worker.go,
    maintenance.go, lease_events.go)

    A lease gives one worker a shard for a time; the maintenance loop of every replica
    takes the lease of a task before it runs it.  Each method of the lease table holds
    its lock for its whole body and is one step. *)

From stdpp Require Import base gmap strings list fin_maps.
From Stdlib Require Import ZArith Lia.
From S2P Require Import Prelude GoValue Store EventBus Crud RateLimit InputLimits Config.
Local Open Scope Z_scope.

Record lease := Lease { ls_worker : string; ls_expiresAt : Z }.
Abbreviation WorkerLeases := (gmap string lease).

Definition Acquire (w : WorkerLeases) (worker shard : string) (ttl now : Z) : WorkerLeases * bool :=
  match w !! shard with
  | Some current =>
      if (now <? ls_expiresAt current) && negb (String.eqb (ls_worker current) worker) then (w, false)
      else (<[shard := Lease worker (now + ttl)]> w, true)
  | None => (<[shard := Lease worker (now + ttl)]> w, true)
  end.

Definition Release (w : WorkerLeases) (worker shard : string) : WorkerLeases :=
  match w !! shard with
  | Some current => if String.eqb (ls_worker current) worker then delete shard w else w
  | None => w
  end.

Section Handlers.
Context `{GoLib}.

Definition handleWorkerLease (w : WorkerLeases) (r : http_request) : WorkerLeases * response :=
  match hr_body r with
  | None => (w, (StatusBadRequest, message errInvalidRequestBody))
  | Some payload =>
      let worker := FirstNonEmpty [asString (mget payload "worker"); "worker"] in
      let shard := FirstNonEmpty [asString (mget payload "shard"); "default"] in
      let '(w', acquired) := Acquire w worker shard time_Minute (hr_now r) in
      (w', (StatusOK, BMap {[ "worker" := VString worker; "shard" := VString shard; "acquired" := VBool acquired ]}))
  end.

Definition ingested_event (r : http_request) (rt : route) (payload : object) : event :=
  let field k d := FirstNonEmpty [asString (mget payload k); d] in
  Event_ (field "event_id" (hr_uuid r)) (field "name" "AuditEvent") (field "source" (rt_Resource rt)) (hr_now r)
    (field "trace_id" (hr_TraceID r)) 1 (field "idempotency_key" (hr_IdempotencyKey r)) payload.

Definition handleEventIngest (a : app) (r : http_request) (rt : route) : app * response :=
  match hr_body r with
  | None => (a, (StatusBadRequest, message errInvalidRequestBody))
  | Some payload =>
      let event := ingested_event r rt payload in
      match Consume (app_Events a) (rt_Resource rt) event with
      | (b, Err _) => (App_ (app_Store a) b, (StatusInternalServerError, message "event consume failed"))
      | (b, Ok processed) =>
          let b' := if processed then default b (Publish b event) else b in
          (App_ (app_Store a) b', (StatusAccepted,
             BMap {[ "processed" := VBool processed; "event_id" := VString (ev_EventID event) ]}))
      end
  end.

End Handlers.

(** ** Maintenance *)

(** RegisterMaintenanceTaskForService and registerMaintenanceTask: the names kept. *)
Definition registerMaintenanceTask (tasks : list string) (name0 : string) : list string :=
  let name := TrimSpace name0 in if str_empty name then tasks else tasks ++ [name].

Definition RegisterMaintenanceTaskForService {ip} (cfg : config ip) (tasks : list string) (owner0 name : string) : list string :=
  let owner := TrimSpace owner0 in
  if str_empty owner || negb (AllowsService cfg owner) then tasks else registerMaintenanceTask tasks name.

Definition task_shard (task : string) : string := "maintenance:" +:+ task.

(** A run of a task: the instance that ran it and when it took the lease. *)
Record task_run := Run { tr_instance : string; tr_task : string; tr_time : Z }.

(** runMaintenance on one replica: each task with the clock reading of its attempt. *)
Fixpoint runMaintenance (w : WorkerLeases) (instance : string) (ttl : Z) (tasks : list (string * Z)) : WorkerLeases * list task_run :=
  match tasks with
  | [] => (w, [])
  | (task, now) :: rest =>
      let '(w1, acquired) := Acquire w instance (task_shard task) ttl now in
      let '(w2, runs) := runMaintenance w1 instance ttl rest in
      (w2, if acquired then Run instance task now :: runs else runs)
  end.

(** Rounds of any replicas, one after the other on the shared leases. *)
Fixpoint maintenance_rounds (w : WorkerLeases) (ttl : Z) (rounds : list (string * list (string * Z))) : WorkerLeases * list task_run :=
  match rounds with
  | [] => (w, [])
  | (instance, tasks) :: rest =>
      let '(w1, runs1) := runMaintenance w instance ttl tasks in
      let '(w2, runs2) := maintenance_rounds w1 ttl rest in
      (w2, runs1 ++ runs2)
  end.

(** ** Mutual exclusion *)

(** An attempt at a task: the instance, the task and the instant. *)
Definition attempts (rounds : list (string * list (string * Z))) : list task_run :=
  concat (map (fun ro => map (fun t => Run ro.1 t.1 t.2) ro.2) rounds).

Fixpoint run_attempts (w : WorkerLeases) (ttl : Z) (l : list task_run) : WorkerLeases * list task_run :=
  match l with
  | [] => (w, [])
  | a :: rest =>
      let '(w1, acquired) := Acquire w (tr_instance a) (task_shard (tr_task a)) ttl (tr_time a) in
      let '(w2, runs) := run_attempts w1 ttl rest in
      (w2, if acquired then a :: runs else runs)
  end.

Lemma run_attempts_app w ttl l1 l2 :
  run_attempts w ttl (l1 ++ l2) =
  let '(w1, r1) := run_attempts w ttl l1 in let '(w2, r2) := run_attempts w1 ttl l2 in (w2, r1 ++ r2).
Proof.
  revert w. induction l1 as [|a l1 IH]; intros w; cbn [Datatypes.app run_attempts].
  - by destruct (run_attempts w ttl l2).
  - destruct (Acquire _ _ _ _ _) as [w1 acquired]. rewrite IH. destruct (run_attempts w1 ttl l1) as [w2 r1].
    destruct (run_attempts w2 ttl l2) as [w3 r2]. by destruct acquired.
Qed.

Lemma runMaintenance_attempts w instance ttl tasks :
  runMaintenance w instance ttl tasks = run_attempts w ttl (map (fun t => Run instance t.1 t.2) tasks).
Proof.
  revert w. induction tasks as [|[task now] tasks IH]; intros w; [done|]. cbn. destruct (Acquire _ _ _ _ _) as [w1 acquired].
  by rewrite IH.
Qed.

Lemma rounds_attempts w ttl rounds : maintenance_rounds w ttl rounds = run_attempts w ttl (attempts rounds).
Proof.
  revert w. induction rounds as [|[instance tasks] rounds IH]; intros w; [done|]. unfold attempts. cbn [map concat fst snd maintenance_rounds].
  rewrite run_attempts_app, runMaintenance_attempts. destruct (run_attempts w ttl _) as [w1 r1]. by rewrite IH.
Qed.

Lemma task_shard_inj a b : task_shard a = task_shard b -> a = b.
Proof. unfold task_shard. intros [= E]. done. Qed.

(** At clock [t] the lease of each task that ran is held by its last runner, for [ttl]
    from when it took it; the runs of others ended before that. *)
Definition last_lease (ttl t : Z) (w : WorkerLeases) (log : list task_run) : Prop :=
  forall run, run ∈ log -> tr_time run <= t /\
    exists l, w !! task_shard (tr_task run) = Some l /\ ls_expiresAt l - ttl <= t /\ tr_time run + ttl <= ls_expiresAt l /\
    (tr_instance run = ls_worker l \/ tr_time run + ttl <= ls_expiresAt l - ttl).

(** Runs of a task by different instances are [ttl] apart. *)
Definition spaced (ttl : Z) (log : list task_run) : Prop :=
  forall l1 a l2 b l3, log = l1 ++ a :: l2 ++ b :: l3 -> tr_task a = tr_task b -> tr_instance a ≠ tr_instance b ->
    tr_time a + ttl <= tr_time b.

(** An acquired lease was free, expired, or the acquirer's own. *)
Lemma Acquire_true w worker shard ttl now w' :
  Acquire w worker shard ttl now = (w', true) ->
  w' = <[shard := Lease worker (now + ttl)]> w /\
  (forall l, w !! shard = Some l -> ls_expiresAt l <= now \/ ls_worker l = worker).
Proof.
  unfold Acquire. destruct (w !! shard) as [l|] eqn:El; [|intros [= <-]; split; [done|by intros ? [=]]].
  destruct ((now <? ls_expiresAt l) && negb (String.eqb (ls_worker l) worker)) eqn:E; [done|]. intros [= <-]. split; [done|].
  intros ? [= <-]. apply andb_false_iff in E as [E|E]; [left; by apply Z.ltb_ge|right]. by apply negb_false_iff, String.eqb_eq in E.
Qed.

Lemma Acquire_false w worker shard ttl now w' : Acquire w worker shard ttl now = (w', false) -> w' = w.
Proof. unfold Acquire. repeat case_match; intros; by simplify_eq. Qed.

Lemma acquire_spaced w ttl t log a w' :
  last_lease ttl t w log -> t <= tr_time a ->
  Acquire w (tr_instance a) (task_shard (tr_task a)) ttl (tr_time a) = (w', true) ->
  forall run, run ∈ log -> tr_task run = tr_task a -> tr_instance run ≠ tr_instance a -> tr_time run + ttl <= tr_time a.
Proof.
  intros Hl Ht [_ Hold]%Acquire_true run Hin Et Hne. destruct (Hl run Hin) as (_ & l & El & Hx & Hr & Hw). rewrite Et in El.
  destruct (Hold l El) as [?|Hwk]; [lia|]. destruct Hw as [Hw|Hw]; [congruence|lia].
Qed.

Lemma acquire_last w ttl t log a w' :
  0 <= ttl -> last_lease ttl t w log -> t <= tr_time a ->
  Acquire w (tr_instance a) (task_shard (tr_task a)) ttl (tr_time a) = (w', true) ->
  last_lease ttl (tr_time a) w' (log ++ [a]).
Proof.
  intros Httl Hl Ht Ha. pose proof (acquire_spaced _ _ _ _ _ _ Hl Ht Ha) as Hs. apply Acquire_true in Ha as [-> _].
  intros run [Hin| ->%list_elem_of_singleton]%elem_of_app.
  - destruct (Hl run Hin) as (Hrt & l & El & Hx & Hr & Hw). split; [lia|].
    destruct (decide (tr_task run = tr_task a)) as [Et|Et].
    + rewrite Et, lookup_insert_eq. eexists. split; [done|]. cbn. split; [lia|]. split; [lia|].
      destruct (decide (tr_instance run = tr_instance a)); [by left|right]. specialize (Hs run Hin Et ltac:(done)). lia.
    + rewrite lookup_insert_ne by (intros E; by apply task_shard_inj in E). exists l. split_and!; [done|lia|done|done].
  - split; [lia|]. rewrite lookup_insert_eq. eexists. split; [done|]. cbn. split; [lia|]. split; [lia|by left].
Qed.

Lemma spaced_snoc ttl log a :
  spaced ttl log ->
  (forall run, run ∈ log -> tr_task run = tr_task a -> tr_instance run ≠ tr_instance a -> tr_time run + ttl <= tr_time a) ->
  spaced ttl (log ++ [a]).
Proof.
  intros Hs Ha l1 x l2 y l3 E Et Hne. destruct l3 as [|z l3 _] using rev_ind.
  - assert (log ++ [a] = (l1 ++ x :: l2) ++ [y]) as E' by (rewrite E, <- app_assoc; done).
    apply app_inj_tail in E' as [-> ->]. apply Ha; [set_solver|done|done].
  - assert (log ++ [a] = (l1 ++ x :: l2 ++ y :: l3) ++ [z]) as E'.
    { rewrite E, <- !app_assoc. cbn. by rewrite <- app_assoc. }
    apply app_inj_tail in E' as [-> _]. by eapply Hs.
Qed.

(** The clock readings of the attempts do not decrease. *)
Fixpoint clock_ok (t : Z) (l : list task_run) : Prop :=
  match l with [] => True | a :: l' => t <= tr_time a /\ clock_ok (tr_time a) l' end.

Lemma run_attempts_spaced ttl : 0 <= ttl -> forall l w t log,
  last_lease ttl t w log -> spaced ttl log -> clock_ok t l ->
  spaced ttl (log ++ snd (run_attempts w ttl l)).
Proof.
  intros Httl. induction l as [|a l IH]; intros w t log Hl Hs Hc; cbn [run_attempts snd]; [by rewrite app_nil_r|].
  destruct Hc as [Ht Hc]. destruct (Acquire _ _ _ _ _) as [w1 acquired] eqn:E. destruct acquired.
  - specialize (IH w1 (tr_time a) (log ++ [a]) (acquire_last _ _ _ _ _ _ Httl Hl Ht E)
      (spaced_snoc _ _ _ Hs (acquire_spaced _ _ _ _ _ _ Hl Ht E)) Hc).
    destruct (run_attempts w1 ttl l) as [w2 runs]. cbn [snd] in *. by rewrite <- app_assoc in IH.
  - apply Acquire_false in E as ->. specialize (IH w (tr_time a) log). destruct (run_attempts w ttl l) as [w2 runs]. cbn [snd] in *.
    apply IH; [|done|done]. intros run Hin. destruct (Hl run Hin) as (? & lx & ? & ? & ? & ?). split; [lia|]. exists lx. split_and!; try done; lia.
Qed.

(** Across replicas a maintenance task has one runner per interval: in any
    sequence of maintenance rounds by any instances on the shared leases, with a
    clock that does not run backwards, two runs of the same task by different
    instances are at least the lease time apart. *)
Theorem maintenance_exclusive ttl rounds t :
  0 <= ttl -> clock_ok t (attempts rounds) -> spaced ttl (snd (maintenance_rounds ∅ ttl rounds)).
Proof.
  intros Httl Hc. rewrite rounds_attempts. apply (run_attempts_spaced ttl Httl (attempts rounds) ∅ t []); [| |done].
  - intros run Hin. by apply elem_of_nil in Hin.
  - intros l1 a l2 b l3 E. by destruct l1.
Qed.

(** A lease that expired, was released, or is one's own can always be taken: no task is
    starved by a replica that died. *)
Lemma Acquire_available w worker shard ttl now :
  (forall l, w !! shard = Some l -> ls_expiresAt l <= now \/ ls_worker l = worker) ->
  snd (Acquire w worker shard ttl now) = true.
Proof.
  intros Hf. unfold Acquire. destruct (w !! shard) as [l|]; [|done]. destruct (Hf l eq_refl) as [Hx| ->].
  - by rewrite (proj2 (Z.ltb_ge now (ls_expiresAt l))).
  - by rewrite String.eqb_refl, andb_false_r.
Qed.

Lemma maintenance_exclusive_witness :
  spaced 60 (snd (maintenance_rounds ∅ 60 [("i1", [("reap", 0); ("sync", 1)]); ("i2", [("reap", 30); ("sync", 70)]); ("i1", [("reap", 75)])])).
Proof. apply (maintenance_exclusive 60 _ 0); [lia|cbn; lia]. Defined.

Example maintenance_rounds_run :
  snd (maintenance_rounds ∅ 60 [("i1", [("reap", 0); ("sync", 1)]); ("i2", [("reap", 30); ("sync", 70)]); ("i1", [("reap", 75)])]) =
  [Run "i1" "reap" 0; Run "i1" "sync" 1; Run "i2" "sync" 70; Run "i1" "reap" 75].
Proof. vm_compute. reflexivity. Qed.
