(* ===== verification/Projection.v ===== *)
(** * Projections of the event stream (internal/platform/projection.go,
    projection_reconcile.go)

    A projection consumes the outbox into a read model: every event is offered once to
    its [apply] function, a refused event is kept as a dead letter, a replay offers the
    dead letters again, and the reconciler rebuilds a read model that drifted.  The read
    model is a parameter [M] with [apply]; what the code adds around it is modelled. *)

From stdpp Require Import base gmap strings list fin_maps sorting.
From Stdlib Require Import ZArith Lia Ascii.
From S2P Require Import Prelude GoValue Store EventBus Crud.
Local Open Scope Z_scope.

Definition deadLetterResource : string := "platform:dead_letters".

Record ProjectionStatus := Status {
  pj_Consumer : string;
  pj_Applied : Z;
  pj_DeadLettered : Z;
  pj_RetryCount : Z;
  pj_ReplayCount : Z;
  pj_ReplayPending : bool;
  pj_Lag : Z;
  pj_LastEventID : string;
  pj_LastEventName : string;
  pj_LastEventAt : Z;
  pj_LastAppliedAt : Z;
  pj_LastReplayAt : Z
}.

(** The zero [time.Time]. *)
Definition no_time : Z := -62135596800000000000.
Definition new_status (consumer : string) : ProjectionStatus :=
  Status consumer 0 0 0 0 false 0 "" "" no_time no_time no_time.

Abbreviation registry := (gmap string ProjectionStatus).

(** projectionRegistry.entry and ensure *)
Definition entry (p : registry) (consumer : string) : ProjectionStatus := default (new_status consumer) (p !! consumer).
Definition ensure (p : registry) (consumer : string) : registry := <[consumer := entry p consumer]> p.

Definition recordApplied (p : registry) (consumer : string) (e : event) (now : Z) : registry :=
  let s := entry p consumer in
  <[consumer := Status (pj_Consumer s) (pj_Applied s + 1) (pj_DeadLettered s) (pj_RetryCount s) (pj_ReplayCount s)
      (pj_ReplayPending s) (pj_Lag s) (ev_EventID e) (ev_Name e) (ev_OccurredAt e) now (pj_LastReplayAt s)]> p.

Definition recordDeadLetter (p : registry) (consumer : string) (retried : bool) : registry :=
  let s := entry p consumer in
  <[consumer := Status (pj_Consumer s) (pj_Applied s) (pj_DeadLettered s + 1)
      (if retried then pj_RetryCount s + 1 else pj_RetryCount s) (pj_ReplayCount s) (pj_ReplayPending s) (pj_Lag s)
      (pj_LastEventID s) (pj_LastEventName s) (pj_LastEventAt s) (pj_LastAppliedAt s) (pj_LastReplayAt s)]> p.

Definition recordReplay (p : registry) (consumer : string) (now : Z) : registry :=
  let s := entry p consumer in
  <[consumer := Status (pj_Consumer s) (pj_Applied s) (pj_DeadLettered s) (pj_RetryCount s) (pj_ReplayCount s + 1) true
      (pj_Lag s) (pj_LastEventID s) (pj_LastEventName s) (pj_LastEventAt s) (pj_LastAppliedAt s) now]> p.

Definition recordReplayComplete (p : registry) (consumer : string) : registry :=
  let s := entry p consumer in
  <[consumer := Status (pj_Consumer s) (pj_Applied s) (pj_DeadLettered s) (pj_RetryCount s) (pj_ReplayCount s) false
      (pj_Lag s) (pj_LastEventID s) (pj_LastEventName s) (pj_LastEventAt s) (pj_LastAppliedAt s) (pj_LastReplayAt s)]> p.

Definition consumer_le (a b : ProjectionStatus) : Prop := String.leb (pj_Consumer a) (pj_Consumer b) = true.
#[export] Instance consumer_le_dec : RelDecision consumer_le.
Proof. intros a b. unfold consumer_le. apply _. Defined.

Section Projection.
Context `{GoLib} {M : Type} (apply : string -> M -> event -> M * option string).

Definition metadata_int (v : any) : option Z :=
  match v with
  | VInt z | VInt64 z | VInt32 z => Some z
  | VFloat64 f | VFloat32 f => Some (f64_to_int f)
  | VNumber s | VString s => parse_int64 s
  | _ => None
  end.

Definition projectionMetadataInt (data : object) (keys : list string) : Z := default 0 (first_key metadata_int data keys).

Definition dead_letter_id (consumer : string) (e : event) : string := consumer +:+ ":" +:+ ev_EventID e.

Definition dead_letter_record (consumer : string) (e : event) (cause : string) (attemptCount now : Z) : object :=
  list_to_map
    [("id", VString (dead_letter_id consumer e)); ("consumer", VString consumer); ("event_id", VString (ev_EventID e));
     ("event_name", VString (ev_Name e)); ("error", VString cause); ("failed_at", VString (format_rfc3339 now));
     ("last_failed_at", VString (format_rfc3339 now)); ("attempt_count", VInt attemptCount);
     ("retry_count", VInt (i64 (attemptCount - 1)))].

(** The new store, and whether the event had failed before. *)
Definition deadLetterEvent (s : store) (consumer : string) (e : event) (cause : string) (now : Z) : store * bool :=
  let id := dead_letter_id consumer e in
  let '(attemptCount, retried) :=
    match Get s deadLetterResource id with
    | Some existing =>
        let n := projectionMetadataInt (rec_Data existing) ["attempt_count"; "attemptCount"] in
        (i64 ((if n <? 1 then 1 else n) + 1), true)
    | None => (1, false)
    end in
  let record := dead_letter_record consumer e cause attemptCount now in
  match Update s deadLetterResource id record now with
  | (s', Some _) => (s', retried)
  | (s', None) => (fst (Create s' deadLetterResource record "" now), retried)
  end.

Definition resolveDeadLetterEvent (s : store) (consumer : string) (e : event) : store :=
  fst (Delete s deadLetterResource (dead_letter_id consumer e)).

(** The parts of the application a projection touches. *)
Record proj_state := Proj { pr_bus : eventbus; pr_store : store; pr_registry : registry; pr_model : M }.

(** One turn of the loop; the flag says that some [Consume] failed. *)
Definition project_event (consumer : string) (now : Z) (st : proj_state * bool) (e : event) : proj_state * bool :=
  let '(p, failed) := st in
  match Consume (pr_bus p) consumer e with
  | (b, Err _) => (Proj b (pr_store p) (pr_registry p) (pr_model p), true)
  | (b, Ok false) => (Proj b (pr_store p) (pr_registry p) (pr_model p), failed)
  | (b, Ok true) =>
      match apply consumer (pr_model p) e with
      | (m, Some cause) =>
          let '(s, retried) := deadLetterEvent (pr_store p) consumer e cause now in
          (Proj b s (recordDeadLetter (pr_registry p) consumer retried) m, failed)
      | (m, None) =>
          (Proj b (resolveDeadLetterEvent (pr_store p) consumer e) (recordApplied (pr_registry p) consumer e now) m, failed)
      end
  end.

Definition RunProjection (p : proj_state) (consumer : string) (now : Z) : proj_state :=
  let p0 := Proj (pr_bus p) (pr_store p) (ensure (pr_registry p) consumer) (pr_model p) in
  let '(p1, failed) := fold_left (project_event consumer now) (bus_outbox (pr_bus p)) (p0, false) in
  if failed then p1
  else Proj (Checkpoint (pr_bus p1) consumer) (pr_store p1) (recordReplayComplete (pr_registry p1) consumer) (pr_model p1).

(** The ids a replay of [consumer] releases. *)
Definition dead_letter_events (s : store) (consumer : string) : list string :=
  filter (fun id => id ≠ "")
    (map (fun rc => asString (mget (rec_Data rc) "event_id"))
       (List.filter (fun rc => String.eqb (asString (mget (rec_Data rc) "consumer")) consumer) (List_ s deadLetterResource))).

Definition ReplayProjection (p : proj_state) (consumer : string) (now : Z) : proj_state :=
  match dead_letter_events (pr_store p) consumer with
  | [] => p
  | eventIDs => Proj (ResetConsumerEvents (pr_bus p) consumer eventIDs) (pr_store p)
                  (recordReplay (pr_registry p) consumer now) (pr_model p)
  end.

(** ProjectionStatuses: the snapshot by consumer, with the current lag. *)
Definition ProjectionStatuses (p : proj_state) : list ProjectionStatus :=
  map (fun s => Status (pj_Consumer s) (pj_Applied s) (pj_DeadLettered s) (pj_RetryCount s) (pj_ReplayCount s)
         (pj_ReplayPending s) (Lag (pr_bus p) (pj_Consumer s)) (pj_LastEventID s) (pj_LastEventName s) (pj_LastEventAt s)
         (pj_LastAppliedAt s) (pj_LastReplayAt s))
    (merge_sort consumer_le (map snd (map_to_list (pr_registry p)))).

(** ** The reconciler *)

(** ProjectionReconcilerSpec: Drift may fail, Sync runs the projections of the family. *)
Record reconciler := Reconciler {
  rc_Owner : string;
  rc_Consumers : list string;
  rc_Drift : proj_state -> option Z;
  rc_Sync : proj_state -> proj_state
}.

Definition publishProjectionEvent (p : proj_state) (spec : reconciler) (name uuid trace : string) (now : Z) (data : object) : proj_state :=
  match Publish (pr_bus p) (Event_ uuid name (rc_Owner spec) now trace 1 "" data) with
  | Some b => Proj b (pr_store p) (pr_registry p) (pr_model p)
  | None => p
  end.

Definition reset_consumers (p : proj_state) (consumers : list string) : proj_state :=
  Proj (fold_left ResetConsumer consumers (pr_bus p)) (pr_store p) (pr_registry p) (pr_model p).

Inductive tick_outcome := TickError | TickQuiet | TickRebuilt.

(** The task RegisterProjectionReconciler installs: the new state and the residual drift,
    which the closure keeps between ticks.  [ids] are the identifiers drawn for the two
    events. *)
Definition reconcile_tick (spec : reconciler) (p : proj_state) (residual : Z) (ids : string * string * string * string) (now : Z)
    : proj_state * Z * tick_outcome :=
  let label := String.concat "+" (rc_Consumers spec) in
  let '(u1, t1, u2, t2) := ids in
  let p1 := rc_Sync spec p in
  match rc_Drift spec p1 with
  | None => (p1, residual, TickError)
  | Some before =>
      if (before =? 0) || (before =? residual) then (p1, before, TickQuiet)
      else
        let p2 := publishProjectionEvent p1 spec "ProjectionDriftDetected" u1 t1 now
                    {[ "consumer" := VString label; "drift" := VInt before ]} in
        let p3 := rc_Sync spec (reset_consumers p2 (rc_Consumers spec)) in
        match rc_Drift spec p3 with
        | None => (p3, residual, TickError)
        | Some after =>
            (publishProjectionEvent p3 spec "ProjectionRebuilt" u2 t2 now
               {[ "consumer" := VString label; "drift_before" := VInt before; "drift_after" := VInt after ]},
             after, TickRebuilt)
        end
  end.

End Projection.

(** ** Every event is applied exactly once, or kept as a dead letter *)

Section Delivery.
Context `{GoLib} {M0 : Type} (apply0 : string -> M0 -> event -> M0 * option string).

(** The read model with the (consumer, event id) pairs it accepted. *)
Definition logged (consumer : string) (m : M0 * list (string * string)) (e : event)
    : (M0 * list (string * string)) * option string :=
  match apply0 consumer m.1 e with
  | (m', Some cause) => ((m', m.2), Some cause)
  | (m', None) => ((m', (consumer, ev_EventID e) :: m.2), None)
  end.

Abbreviation pstate := (@proj_state (M0 * list (string * string))).

Inductive proj_op :=
| PPublish (e : event)
| PRun (consumer : string) (now : Z)
| PReplay (consumer : string) (now : Z).

Definition run_proj_op (p : pstate) (o : proj_op) : pstate :=
  match o with
  | PPublish e =>
      match Publish (pr_bus p) e with
      | Some b => Proj b (pr_store p) (pr_registry p) (pr_model p)
      | None => p
      end
  | PRun c now => RunProjection logged p c now
  | PReplay c now => ReplayProjection p c now
  end.

Definition fresh_projections (m : M0) : pstate := Proj NewEventBus NewStore ∅ (m, []).
Definition run_proj_ops (m : M0) (os : list proj_op) : pstate := fold_left run_proj_op os (fresh_projections m).

Definition applied_log (p : pstate) : list (string * string) := (pr_model p).2.
Definition dead_letter (p : pstate) (consumer : string) (e : event) : option record :=
  Get (pr_store p) deadLetterResource (dead_letter_id consumer e).

(** Event ids carry no colon, as the generated UUIDs do not. *)
Definition colon_free (s : string) : Prop := ":"%char ∉ bytes_of s.
Definition op_ids_ok (o : proj_op) : Prop :=
  match o with PPublish e => colon_free (ev_EventID e) | _ => True end.

Definition dl_key (consumer id : string) : string := consumer +:+ ":" +:+ id.

Lemma split_last {A} (x : A) l1 l2 l1' l2' :
  l1 ++ x :: l2 = l1' ++ x :: l2' -> x ∉ l2 -> x ∉ l2' -> l1 = l1' /\ l2 = l2'.
Proof.
  revert l1'. induction l1 as [|y l1 IH]; intros [|y' l1'] E H2 H2'; simplify_list_eq.
  - done.
  - set_solver.
  - set_solver.
  - destruct (IH l1' ltac:(done) H2 H2') as [-> ->]. done.
Qed.

Lemma dl_key_inj c i c' i' : colon_free i -> colon_free i' -> dl_key c i = dl_key c' i' -> c = c' /\ i = i'.
Proof.
  intros Hi Hi' E. apply (f_equal bytes_of) in E. unfold dl_key in E. rewrite !bytes_of_app in E.
  change (bytes_of ":") with [":"%char] in E. cbn [Datatypes.app] in E.
  apply split_last in E as [E1 E2]; [|done..]. split; by apply bytes_of_inj.
Qed.

(** What a dead-letter record says. *)
Definition names_letter (k : string) (rc : record) (c i : string) : Prop :=
  k = dl_key c i /\ colon_free i /\ i ≠ "" /\
  rec_Data rc !! "consumer" = Some (VString c) /\ rec_Data rc !! "event_id" = Some (VString i).

Record delivery_inv (p : pstate) : Prop := DeliveryInv {
  di_nodup : NoDup (applied_log p);
  di_log : forall c i, (c, i) ∈ applied_log p ->
    colon_free i /\ i ∈ consumer_inbox (pr_bus p) c /\ Get (pr_store p) deadLetterResource (dl_key c i) = None;
  di_inbox : forall c i, i ∈ consumer_inbox (pr_bus p) c ->
    colon_free i /\ ((c, i) ∈ applied_log p \/ is_Some (Get (pr_store p) deadLetterResource (dl_key c i)));
  di_letters : forall k rc, Get (pr_store p) deadLetterResource k = Some rc -> exists c i, names_letter k rc c i;
  di_outbox : forall e, e ∈ bus_outbox (pr_bus p) -> colon_free (ev_EventID e) /\ ev_EventID e ≠ ""
}.

(** [deadLetterEvent] files a letter for the event and touches nothing else. *)
Lemma deadLetterEvent_get s c e cause now k :
  ev_EventID e ≠ "" -> colon_free (ev_EventID e) ->
  exists rc, names_letter (dl_key c (ev_EventID e)) rc c (ev_EventID e) /\
    Get (fst (deadLetterEvent s c e cause now)) deadLetterResource k =
    if decide (dl_key c (ev_EventID e) = k) then Some rc else Get s deadLetterResource k.
Proof.
  intros Hne Hcf. unfold deadLetterEvent. change (dead_letter_id c e) with (dl_key c (ev_EventID e)).
  set (an := match Get s deadLetterResource (dl_key c (ev_EventID e)) with Some _ => _ | None => _ end).
  destruct an as [n r]. set (d := dead_letter_record c e cause n now).
  pose proof (Update_cases s deadLetterResource (dl_key c (ev_EventID e)) d now) as HU.
  destruct (Update _ _ _ d now) as [s' [rc|]], (Get s deadLetterResource (dl_key c (ev_EventID e))) as [old|] eqn:Eg; try done.
  - destruct HU as (Hd & _ & _ & _ & _ & HG). exists rc. split; [by unfold names_letter; rewrite !Hd by done|].
    cbn [fst]. rewrite HG. repeat case_decide; naive_solver.
  - subst s'. cbn [fst]. assert (Hid : create_id d "" = dl_key c (ev_EventID e)).
    { unfold create_id, d. cbn. unfold dead_letter_id, dl_key. destruct c; done. }
    destruct (Create s deadLetterResource d "" now) as [s'' [rc|err]] eqn:EC; cbn [fst].
    + apply Create_ok in EC as (_ & _ & _ & _ & _ & Hd & HG). rewrite Hid in HG. exists rc.
      split; [by unfold names_letter; rewrite !Hd by done|]. rewrite HG. repeat case_decide; naive_solver.
    + apply Create_err in EC as (_ & Hs & _). rewrite Hid, Eg in Hs. by destruct Hs.
Qed.

Lemma resolveDeadLetterEvent_get s c e k :
  Get (resolveDeadLetterEvent s c e) deadLetterResource k =
  if decide (dl_key c (ev_EventID e) = k) then None else Get s deadLetterResource k.
Proof.
  unfold resolveDeadLetterEvent, Delete. change (dead_letter_id c e) with (dl_key c (ev_EventID e)).
  destruct (bucket s deadLetterResource !! _) as [old|] eqn:E; cbn [fst].
  - rewrite Get_set_delete. repeat case_decide; naive_solver.
  - case_decide; [|done]. subst k. exact E.
Qed.

Lemma Consume_new b c e b' : Consume b c e = (b', Ok true) -> ev_EventID e ∉ consumer_inbox b c.
Proof. unfold Consume. case_match; [done|]. case_bool_decide; [done|]. done. Qed.

Lemma Consume_outbox b c e : bus_outbox (fst (Consume b c e)) = bus_outbox b.
Proof. unfold Consume. by repeat case_match. Qed.

(** The invariant speaks of the log, the inboxes, the letters and the outbox only. *)
Lemma delivery_inv_ext p p' :
  applied_log p' = applied_log p ->
  (forall c, consumer_inbox (pr_bus p') c = consumer_inbox (pr_bus p) c) ->
  bus_outbox (pr_bus p') = bus_outbox (pr_bus p) ->
  (forall k, Get (pr_store p') deadLetterResource k = Get (pr_store p) deadLetterResource k) ->
  delivery_inv p -> delivery_inv p'.
Proof.
  intros El Ei Eo Eg [H1 H2 H3 H4 H5].
  split; rewrite ?El, ?Eo; try done; intros *; rewrite ?Ei, ?Eg; eauto.
Qed.

Lemma project_event_outbox p failed c now e :
  bus_outbox (pr_bus (project_event logged c now (p, failed) e).1) = bus_outbox (pr_bus p).
Proof.
  cbn. pose proof (Consume_outbox (pr_bus p) c e) as Ho. destruct (Consume _ c e) as [b [[]|[]]]; cbn in *; [|done..].
  destruct (logged c (pr_model p) e) as [m [cause|]]; cbn; [|done]. by destruct (deadLetterEvent _ _ _ _ _).
Qed.

Lemma project_event_inv p failed c now e :
  delivery_inv p -> e ∈ bus_outbox (pr_bus p) -> delivery_inv (project_event logged c now (p, failed) e).1.
Proof.
  intros Hinv He. pose proof (project_event_outbox p failed c now e) as Hout. revert Hout. cbn.
  pose proof (Consume_inbox (pr_bus p) c e) as Hi. pose proof (Consume_new (pr_bus p) c e) as Hn.
  destruct (Consume (pr_bus p) c e) as [b [[]|[]]] eqn:EC; cbn in *; intros Hout;
    [|by apply (delivery_inv_ext p); cbn..].
  destruct Hinv as [H1 H2 H3 H4 H5]. destruct (H5 e He) as [Hcf Hne]. specialize (Hn _ eq_refl).
  set (i := ev_EventID e) in *. assert (Hnl : (c, i) ∉ applied_log p) by (intros Hl; by apply H2 in Hl as (_ & ? & _)).
  unfold logged in *. destruct (apply0 c (pr_model p).1 e) as [m [cause|]]; cbn in *.
  - pose proof (deadLetterEvent_get (pr_store p) c e cause now) as HD. fold i in HD.
    destruct (deadLetterEvent (pr_store p) c e cause now) as [s r]; cbn in *.
    split; unfold applied_log in *; cbn in *; rewrite ?Hout; try done.
    + intros c' i' Hl. destruct (H2 _ _ Hl) as (Hc & Hin & Hg). split; [done|].
      destruct (HD (dl_key c' i') Hne Hcf) as (rc & _ & ->). rewrite Hi. split; [case_decide; set_solver|].
      rewrite decide_False; [done|]. intros [-> ->]%dl_key_inj; done.
    + intros c' i'. destruct (HD (dl_key c' i') Hne Hcf) as (rc & _ & ->). rewrite Hi. intros Hin.
      assert (c = c' /\ i' = i \/ i' ∈ consumer_inbox (pr_bus p) c') as [[-> ->]|Hold]
        by (case_decide; set_solver).
      * rewrite decide_True by done. eauto.
      * destruct (H3 _ _ Hold) as [Hc [Hl|Hl]]; (split; [done|]); [by left|]. right. clear Hin. case_decide; [by eexists|done].
    + intros k rc. destruct (HD k Hne Hcf) as (rc' & Hnm & ->). case_decide; [|apply H4]. intros [= <-]. subst k. eauto.
  - split; unfold applied_log in *; cbn in *; rewrite ?Hout; try done.
    + by constructor.
    + intros c' i' Hl. rewrite Hi, resolveDeadLetterEvent_get. fold i.
      apply elem_of_cons in Hl as [[= -> ->]|Hl].
      * rewrite !decide_True by done. set_solver.
      * destruct (H2 _ _ Hl) as (Hc & Hin & Hg). split; [done|]. split; case_decide; set_solver.
    + intros c' i'. rewrite Hi, resolveDeadLetterEvent_get. fold i. intros Hin.
      assert (c = c' /\ i' = i \/ i' ∈ consumer_inbox (pr_bus p) c') as [[-> ->]|Hold]
        by (case_decide; set_solver).
      * split; [done|]. left. apply list_elem_of_here.
      * destruct (H3 _ _ Hold) as [Hc [Hl|Hl]]; (split; [done|]); [left; by apply list_elem_of_further|].
        clear Hin. case_decide as Hk; [|by right]. apply dl_key_inj in Hk as [-> ->]; [|done..]. left. apply list_elem_of_here.
    + intros k rc. rewrite resolveDeadLetterEvent_get. case_decide; [done|]. apply H4.
Qed.

Lemma project_event_seen p failed c now e :
  c ≠ "" -> ev_EventID e ≠ "" ->
  let '(p', failed') := project_event logged c now (p, failed) e in
  failed' = failed /\ consumer_inbox (pr_bus p') c = {[ev_EventID e]} ∪ consumer_inbox (pr_bus p) c.
Proof.
  intros Hc He. cbn. pose proof (Consume_inbox (pr_bus p) c e c) as Hi. unfold Consume in *.
  unfold str_empty in *. rewrite (proj2 (String.eqb_neq c "") Hc), (proj2 (String.eqb_neq (ev_EventID e) "") He) in *.
  cbn in *.
  case_bool_decide; cbn in *.
  - split; [done|]. rewrite Hi. set_solver.
  - rewrite decide_True in Hi by done. unfold logged. destruct (apply0 _ _ _) as [m [cause|]]; [|done].
    by destruct (deadLetterEvent _ _ _ _ _).
Qed.

Lemma project_loop es c now : forall p,
  c ≠ "" -> delivery_inv p -> (forall e, e ∈ es -> e ∈ bus_outbox (pr_bus p)) ->
  let '(p', failed) := fold_left (project_event logged c now) es (p, false) in
  failed = false /\ delivery_inv p' /\ bus_outbox (pr_bus p') = bus_outbox (pr_bus p) /\
  consumer_inbox (pr_bus p) c ⊆ consumer_inbox (pr_bus p') c /\
  forall e, e ∈ es -> ev_EventID e ∈ consumer_inbox (pr_bus p') c.
Proof.
  induction es as [|e es IH]; intros p Hc Hinv Hes; cbn [fold_left]; [set_solver|].
  pose proof (Hes e ltac:(set_solver)) as He. destruct (di_outbox p Hinv e He) as [_ Hne].
  pose proof (project_event_seen p false c now e Hc Hne) as Hs.
  pose proof (project_event_inv p false c now e Hinv He) as Hi.
  pose proof (project_event_outbox p false c now e) as Ho.
  destruct (project_event logged c now (p, false) e) as [p1 f]. destruct Hs as [-> Hs]. cbn [fst] in *.
  specialize (IH p1 Hc Hi ltac:(rewrite Ho; set_solver)).
  destruct (fold_left _ es (p1, false)) as [p2 f2]. destruct IH as (-> & Hi2 & Ho2 & Hsub & Hin).
  split_and!; [done..|by rewrite Ho2|set_solver|]. intros e' [->|?]%elem_of_cons; [|by apply Hin]. set_solver.
Qed.

Lemma RunProjection_inv p c now :
  c ≠ "" -> delivery_inv p ->
  let p' := RunProjection logged p c now in
  delivery_inv p' /\ bus_outbox (pr_bus p') = bus_outbox (pr_bus p) /\ Lag (pr_bus p') c = 0 /\
  forall e, e ∈ bus_outbox (pr_bus p) -> ev_EventID e ∈ consumer_inbox (pr_bus p') c.
Proof.
  intros Hc Hinv. cbv zeta. unfold RunProjection.
  pose proof (project_loop (bus_outbox (pr_bus p)) c now
    (Proj (pr_bus p) (pr_store p) (ensure (pr_registry p) c) (pr_model p)) Hc
    ltac:(by apply (delivery_inv_ext p)) ltac:(done)) as HL.
  destruct (fold_left _ _ _) as [p1 f]. destruct HL as (-> & Hi & Ho & _ & Hin). cbn.
  split_and!; [by apply (delivery_inv_ext p1)|done| |done].
  unfold Lag. cbn. rewrite lookup_insert_eq. cbn. unfold outbox_len. cbn. rewrite Z.ltb_irrefl. lia.
Qed.

Lemma elem_of_dead_letter_events p c i :
  delivery_inv p -> colon_free i ->
  i ∈ dead_letter_events (pr_store p) c <-> is_Some (Get (pr_store p) deadLetterResource (dl_key c i)).
Proof.
  intros Hinv Hcf. unfold dead_letter_events. rewrite list_elem_of_filter, list_elem_of_fmap.
  split.
  - intros (Hi & rc & -> & Hrc). apply list_elem_of_In, List.filter_In in Hrc as [Hrc Hc].
    apply String.eqb_eq in Hc. apply list_elem_of_In, elem_of_List in Hrc as [k Hk].
    pose proof (di_letters p Hinv _ _ Hk) as (c' & i' & -> & _ & _ & Ec & Ei).
    revert Hc Hcf Hi. unfold mget. rewrite Ec, Ei. cbn. intros -> _ _. by eexists.
  - intros [rc Hk]. pose proof (di_letters p Hinv _ _ Hk) as (c' & i' & E & Hcf' & Hne & Ec & Ei).
    apply dl_key_inj in E as [<- <-]; [|done..]. split; [done|]. exists rc. unfold mget. rewrite Ei. split; [done|].
    apply list_elem_of_In, List.filter_In. rewrite Ec. split; [|apply String.eqb_refl].
    apply list_elem_of_In, elem_of_List. by eexists.
Qed.

(** A replay releases exactly the ids of the consumer's letters. *)
Lemma ReplayProjection_inbox (p : pstate) c now c' :
  consumer_inbox (pr_bus (ReplayProjection p c now)) c' =
  if decide (c = c') then consumer_inbox (pr_bus p) c ∖ list_to_set (dead_letter_events (pr_store p) c)
  else consumer_inbox (pr_bus p) c'.
Proof. clear apply0.
  unfold ReplayProjection. destruct (dead_letter_events (pr_store p) c) as [|i l] eqn:E; cbn.
  - case_decide; [subst|done]. set_solver.
  - unfold ResetConsumerEvents. destruct (bus_inbox (pr_bus p) !! c) as [seen|] eqn:Es.
    + rewrite consumer_inbox_insert. case_decide; [subst|done]. unfold consumer_inbox. by rewrite Es.
    + case_decide; [subst|done]. unfold consumer_inbox. rewrite Es. cbn. set_solver.
Qed.

Lemma ReplayProjection_rest p c now :
  applied_log (ReplayProjection p c now) = applied_log p /\ pr_store (ReplayProjection p c now) = pr_store p /\
  bus_outbox (pr_bus (ReplayProjection p c now)) = bus_outbox (pr_bus p).
Proof.
  unfold ReplayProjection. destruct (dead_letter_events _ _); [done|]. cbn. unfold ResetConsumerEvents.
  by destruct (bus_inbox _ !! _).
Qed.

Lemma ReplayProjection_inv p c now : delivery_inv p -> delivery_inv (ReplayProjection p c now).
Proof. clear apply0.
  intros Hinv. destruct (ReplayProjection_rest p c now) as (El & Es & Eo).
  pose proof Hinv as [H1 H2 H3 H4 H5]. split; rewrite ?El, ?Es, ?Eo; try done.
  - intros c' i Hl. destruct (H2 _ _ Hl) as (Hcf & Hin & Hg). split_and!; [done| |done].
    rewrite ReplayProjection_inbox. case_decide; [subst c'|done]. apply elem_of_difference. split; [done|].
    rewrite elem_of_list_to_set, elem_of_dead_letter_events, Hg by done. by intros [].
  - intros c' i. rewrite ReplayProjection_inbox. intros Hin. apply H3. case_decide; set_solver.
Qed.

Lemma trimOutbox_sub b e : e ∈ bus_outbox (trimOutbox b) -> e ∈ bus_outbox b.
Proof. unfold trimOutbox. case_match; [done|]. cbn. intros [i Hi]%list_elem_of_lookup. rewrite lookup_drop in Hi.
  by eapply list_elem_of_lookup_2.
Qed.

Lemma publish_inv p e : colon_free (ev_EventID e) -> delivery_inv p -> delivery_inv (run_proj_op p (PPublish e)).
Proof.
  intros Hcf Hinv. cbn. destruct (Publish (pr_bus p) e) as [b|] eqn:E; [|done].
  pose proof (Publish_inbox _ _ _ E) as Hi. unfold Publish in E. destruct (event_metadata_ok e) eqn:Em; [|done].
  injection E as <-. destruct Hinv as [H1 H2 H3 H4 H5]. split; cbn; try done; unfold consumer_inbox; rewrite ?Hi; try done.
  intros e' He'%trimOutbox_sub. cbn in He'. apply elem_of_app in He' as [| ->%list_elem_of_singleton]; [by apply H5|].
  split; [done|]. unfold event_metadata_ok, str_empty in Em. intros Hid. rewrite Hid in Em. cbn in Em.
  by rewrite !andb_false_r in Em.
Qed.

Definition op_consumer_ok (o : proj_op) : Prop := match o with PRun c _ => c ≠ "" | _ => True end.

Lemma run_proj_ops_inv m os :
  Forall op_ids_ok os -> Forall op_consumer_ok os -> delivery_inv (run_proj_ops m os).
Proof.
  intros Ho Hc. unfold run_proj_ops. cut (delivery_inv (fresh_projections m)).
  - generalize (fresh_projections m). induction os as [|o os IH]; intros p Hp; cbn [fold_left]; [done|].
    apply Forall_cons in Ho as [Ho Hos]. apply Forall_cons in Hc as [Hc Hcs]. apply IH; [done..|].
    destruct o as [e|c now|c now]; [by apply publish_inv| |by apply ReplayProjection_inv].
    by apply (RunProjection_inv p c now).
  - split; cbn; try (by constructor); try set_solver.
Qed.

(** The apply function accepts every event of the outbox, whatever the read model. *)
Definition accepts_all (p : pstate) (c : string) : Prop :=
  forall m e, e ∈ bus_outbox (pr_bus p) -> (apply0 c m e).2 = None.

Lemma project_event_accepting p c now e failed :
  (forall m, (apply0 c m e).2 = None) ->
  (forall i, i ∈ consumer_inbox (pr_bus p) c -> (c, i) ∈ applied_log p) ->
  let p' := (project_event logged c now (p, failed) e).1 in
  forall i, i ∈ consumer_inbox (pr_bus p') c -> (c, i) ∈ applied_log p'.
Proof.
  intros Ha Hl. cbn. pose proof (Consume_inbox (pr_bus p) c e c) as Hi.
  destruct (Consume (pr_bus p) c e) as [b [[]|[]]]; cbn in *; try (intros i; rewrite Hi; apply Hl).
  unfold logged. specialize (Ha (pr_model p).1). destruct (apply0 c (pr_model p).1 e) as [m o]. cbn in Ha. subst o.
  intros i. cbn. rewrite Hi, decide_True by done. unfold applied_log in *. cbn. set_solver.
Qed.

Lemma project_loop_accepting es c now : forall p failed,
  (forall m e, e ∈ es -> (apply0 c m e).2 = None) ->
  (forall i, i ∈ consumer_inbox (pr_bus p) c -> (c, i) ∈ applied_log p) ->
  let p' := (fold_left (project_event logged c now) es (p, failed)).1 in
  forall i, i ∈ consumer_inbox (pr_bus p') c -> (c, i) ∈ applied_log p'.
Proof.
  induction es as [|e es IH]; intros p failed Ha Hl; cbn [fold_left]; [done|].
  pose proof (project_event_accepting p c now e failed ltac:(intros; apply Ha; set_solver) Hl) as H1. revert H1.
  destruct (project_event logged c now (p, failed) e) as [p1 f1]. cbn [fst]. intros H1.
  apply IH; [intros; apply Ha; set_solver|exact H1].
Qed.

Lemma RunProjection_accepting p c now :
  accepts_all p c -> (forall i, i ∈ consumer_inbox (pr_bus p) c -> (c, i) ∈ applied_log p) ->
  let p' := RunProjection logged p c now in
  forall i, i ∈ consumer_inbox (pr_bus p') c -> (c, i) ∈ applied_log p'.
Proof.
  intros Ha Hl. cbv zeta. unfold RunProjection.
  pose proof (project_loop_accepting (bus_outbox (pr_bus p)) c now
    (Proj (pr_bus p) (pr_store p) (ensure (pr_registry p) c) (pr_model p)) false Ha Hl) as HL. revert HL.
  destruct (fold_left _ _ _) as [p1 []]; done.
Qed.

(** After any history, what a run of a consumer guarantees. *)
Definition delivered (p : pstate) (c : string) : Prop :=
  NoDup (applied_log p) /\ Lag (pr_bus p) c = 0 /\
  forall e, e ∈ bus_outbox (pr_bus p) ->
    ((c, ev_EventID e) ∈ applied_log p /\ dead_letter p c e = None) \/
    (~ ((c, ev_EventID e) ∈ applied_log p) /\ is_Some (dead_letter p c e)).

Lemma RunProjection_delivered p c now : c ≠ "" -> delivery_inv p -> delivered (RunProjection logged p c now) c.
Proof.
  intros Hc Hinv. destruct (RunProjection_inv p c now Hc Hinv) as (Hi & Ho & HL & Hin).
  split; [by apply di_nodup|]. split; [done|]. intros e He. rewrite Ho in He. specialize (Hin e He).
  unfold dead_letter. change (dead_letter_id c e) with (dl_key c (ev_EventID e)).
  destruct (di_inbox _ Hi _ _ Hin) as [_ [Hl|Hd]].
  - left. split; [done|]. by apply (di_log _ Hi).
  - right. split; [|done]. intros Hl. apply (di_log _ Hi) in Hl as (_ & _ & E). rewrite E in Hd. by destruct Hd.
Qed.

End Delivery.

(** C37: Projections deliver every event.  After any interleaving of publications, runs and
    replays of any consumers over any read model, running a consumer leaves it with no lag
    and every event of the outbox either accepted by the read model exactly once with no
    dead letter, or kept as a dead letter and not accepted; no event is ever accepted twice
    by the same consumer.  Once the cause is repaired (the new apply function accepts the
    events of the outbox), a replay followed by a run has accepted every event, still
    exactly once, and leaves no dead letter for any of them.  Published event ids carry
    no colon. *)
Theorem projection_exactly_once `{GoLib} {M0} (apply0 apply1 : string -> M0 -> event -> M0 * option string) m os c now now' :
  Forall op_ids_ok os -> Forall op_consumer_ok os -> c ≠ "" ->
  let p := run_proj_ops apply0 m os in
  delivered (RunProjection (logged apply0) p c now) c /\
  (accepts_all apply1 p c ->
   let p' := RunProjection (logged apply1) (ReplayProjection p c now) c now' in
   delivered p' c /\
   forall e, e ∈ bus_outbox (pr_bus p) -> (c, ev_EventID e) ∈ applied_log p' /\ dead_letter p' c e = None).
Proof.
  intros Ho Hos Hc p. pose proof (run_proj_ops_inv apply0 m os Ho Hos) as Hinv. fold p in Hinv.
  split; [by apply RunProjection_delivered|]. intros Ha p'.
  pose proof (ReplayProjection_inv p c now Hinv) as Hr. destruct (ReplayProjection_rest p c now) as (El & Es & Eo).
  assert (Hd : delivered p' c) by by apply RunProjection_delivered.
  assert (Hl : forall i, i ∈ consumer_inbox (pr_bus p') c -> (c, i) ∈ applied_log p').
  { apply RunProjection_accepting; [by unfold accepts_all; rewrite Eo|]. intros i. rewrite El, ReplayProjection_inbox.
    rewrite decide_True by done. intros [Hi Hn]%elem_of_difference. destruct (di_inbox p Hinv _ _ Hi) as [Hcf [|Hs]]; [done|].
    destruct Hn. by apply elem_of_list_to_set, elem_of_dead_letter_events. }
  split; [done|]. intros e He. destruct (RunProjection_inv apply1 _ c now' Hc Hr) as (_ & Eo' & _ & Hin).
  rewrite Eo in *. specialize (Hl _ (Hin e He)). destruct Hd as (_ & _ & Hd).
  destruct (Hd e ltac:(unfold p'; by rewrite Eo')) as [?|[? _]]; done.
Qed.

(** ** A demonstration: one event is refused until the projection is repaired *)

#[local] Instance demo_golib : GoLib := {|
  parse_quantity _ := None; parse_float _ := None; parse_int64 _ := None; parse_rfc3339 _ := None;
  format_rfc3339 _ := ""; time_string _ := ""; unmarshal_object _ := None; unmarshal_objects _ := None;
  unmarshal_strings _ := None; marshal _ := None; sprint _ := ""; sprintf f _ := f; sha256_hex s := s |}.
Definition demo_event (id : string) : event := Event_ id "QuotaChanged" "org-service" 0 "t" 1 "" ∅.
Definition demo_history : list proj_op :=
  [PPublish (demo_event "e1"); PPublish (demo_event "e2"); PRun "quota" 1; PRun "quota" 2].
Definition demo_poisoned (c : string) (m : Z) (e : event) : Z * option string :=
  if String.eqb (ev_EventID e) "e2" then (m, Some "poison") else (m + 1, None).
Definition demo_repaired (c : string) (m : Z) (e : event) : Z * option string := (m + 1, None).

Lemma projection_exactly_once_witness :
  let p' := RunProjection (logged demo_repaired) (ReplayProjection (run_proj_ops demo_poisoned 0 demo_history) "quota" 3) "quota" 4 in
  (pr_model p').1 = 2 /\ dead_letter p' "quota" (demo_event "e2") = None /\
  delivered p' "quota" /\ delivered (RunProjection (logged demo_poisoned) (run_proj_ops demo_poisoned 0 demo_history) "quota" 3) "quota".
Proof.
  assert (Hh : Forall op_ids_ok demo_history /\ Forall op_consumer_ok demo_history).
  { split; unfold demo_history; repeat (apply Forall_cons; split); try apply Forall_nil; try done;
      unfold op_ids_ok, colon_free; by apply (bool_decide_unpack _). }
  split; [by vm_compute|]. split; [by vm_compute|].
  pose proof (projection_exactly_once demo_poisoned demo_repaired 0 demo_history "quota" 3 4 (proj1 Hh) (proj2 Hh)
    ltac:(done)) as [H1 H2].
  split; [|exact H1]. apply H2. intros m e _. done.
Defined.
