(* ===== verification/AdmissionTypes.v ===== *)
(** * Submit admission: data and the reader interface

    The request, review and usage records of internal/services/schedulerquota/
    admission.go, the denial error, and [admissionReader] (read_contracts.go),
    the typed read interface the evaluator depends on, with its local
    implementation over the record store. *)

From stdpp Require Import base gmap strings list fin_maps.
From Stdlib Require Import ZArith Lia.
From S2P Require Import Prelude GoValue Store Crud.
Local Open Scope Z_scope.

Definition serviceName : string := "scheduler-quota-service".
Definition queuesResource : string := serviceName +:+ ":queues".
Definition plansResource : string := serviceName +:+ ":plans".
Definition projectsResource : string := "org-project-service:projects".
Definition workloadJobsResource : string := "workload-service:jobs".
Definition userQuotasResource : string := "org-project-service:user_quotas".
Definition projectMembersResource : string := "org-project-service:project_members".
Definition userGroupsResource : string := "org-project-service:user_groups".
Definition imageAllowListsResource : string := "image-registry-service:image_allow_lists".
Definition acceleratorProfilesResource : string := serviceName +:+ ":accelerator_profiles".
Definition networkProfilesResource : string := serviceName +:+ ":network_profiles".
Definition placementProfilesResource : string := serviceName +:+ ":placement_profiles".
Definition submitAdmissionsResource : string := serviceName +:+ ":submit_admissions".
Definition defaultDeviceClassName : string := "gpu.nvidia.com".
Definition defaultQueueName : string := "default-batch".
Definition defaultIDStart : Z := 2600001.
Definition defaultIDWidth : Z := 7.

(** admissionResourcePayload; [Raw] is the manifest's JSON text. *)
Record admissionResourcePayload := Payload { ar_Name : string; ar_Kind : string; ar_Raw : string }.

Record submitAdmissionRequest := Req {
  JobID : string;
  ProjectID : string;
  UserID : string;
  QueueName : string;
  DeviceClassName : string;
  RequiredGPU : float64;
  RequiredCPU : float64;
  RequiredMemory : Z;
  GPUCount : Z;
  SMPercentage : option Z;
  MPSShareProjectID : string;
  StreamingSession : bool;
  StreamMaxBitrateKbps : Z;
  StreamBitrateCapKbps : Z;
  StreamSessionCap : Z;
  StreamEgressBudgetKbps : Z;
  NetworkProfile : string;
  RDMARequired : bool;
  NICClass : string;
  TopologyRequirement : string;
  PlacementProfile : string;
  AcceleratorProfile : string;
  PinnedMemoryLimit : option string;
  EnforceImageAllowList : bool;
  Resources : list admissionResourcePayload
}.

Record admissionUsage := Usage {
  ProjectGPU : float64;
  ProjectCPU : float64;
  ProjectMemoryMB : Z;
  UserGPU : float64;
  UserCPU : float64;
  UserMemoryMB : Z;
  UserRunningJobs : Z;
  UserQueuedJobs : Z;
  ResourceFloorGPU : float64;
  ResourceFloorCPU : float64;
  FloorMemoryMB : Z;
  ActiveStreamSessions : Z;
  ActiveStreamBitrateKbps : Z;
  UStreamEgressBudgetKbps : Z
}.

(** A nil map and an empty one behave alike in the review: both are [∅]. *)
Record admissionReview := Review {
  rv_Allowed : bool;
  rv_Reason : string;
  rv_ProjectID : string;
  rv_UserID : string;
  rv_QueueName : string;
  rv_QueuePriority : Z;
  rv_QueuePreemptible : bool;
  rv_RuntimeLimit : Z;
  rv_DeviceClassName : string;
  rv_RequiredGPU : float64;
  rv_RequiredCPU : float64;
  rv_RequiredMemory : Z;
  rv_StreamingSession : bool;
  rv_StreamMaxBitrateKbps : Z;
  rv_NetworkProfile : string;
  rv_RDMARequired : bool;
  rv_NICClass : string;
  rv_TopologyRequirement : string;
  rv_NetworkAnnotations : object;
  rv_NetworkEnv : object;
  rv_PlacementProfile : string;
  rv_SchedulerBackend : string;
  rv_SchedulerName : string;
  rv_GangEnabled : bool;
  rv_GangMinAvailable : Z;
  rv_PlacementLabels : object;
  rv_PlacementAnnotations : object;
  rv_AcceleratorProfile : string;
  rv_AcceleratorSelector : object;
  rv_AcceleratorLabels : object;
  rv_SMPercentage : option Z;
  rv_PinnedMemoryLimit : string;
  rv_Usage : admissionUsage
}.

Definition zero_usage : admissionUsage :=
  Usage f64_0 f64_0 0 f64_0 f64_0 0 0 0 f64_0 f64_0 0 0 0 0.

(** admissionDeny, and the plain errors of the evaluator. *)
Record admissionDeny := Deny { dn_status : Z; dn_reason : string }.

Definition deny {A} (status : Z) (reason : string) : result admissionDeny A := Err (Deny status reason).

(** The evaluator works on the request and the review through pointers. *)
Definition adm (A : Type) : Type := stm (submitAdmissionRequest * admissionReview) admissionDeny A.

(** ** admissionReader *)

Class admissionReader := {
  rd_Project : string -> option record;
  rd_ListProjects : list record;
  rd_Plan : string -> option record;
  rd_Queue : string -> option record;
  rd_ListQueues : list record;
  rd_ListAcceleratorProfiles : list record;
  rd_ListNetworkProfiles : list record;
  rd_ListPlacementProfiles : list record;
  rd_ProjectMember : string -> option record;
  rd_ListProjectMembers : list record;
  rd_ListUserGroups : list record;
  rd_UserQuota : string -> option record;
  rd_ListUserQuotas : list record;
  rd_ListWorkloadJobs : list record;
  rd_ListImageAllowRules : list record
}.

(** storeAdmissionReader over a configured store. *)
Definition storeAdmissionReader (s : store) : admissionReader := {|
  rd_Project := Get s projectsResource;
  rd_ListProjects := List_ s projectsResource;
  rd_Plan := Get s plansResource;
  rd_Queue := Get s queuesResource;
  rd_ListQueues := List_ s queuesResource;
  rd_ListAcceleratorProfiles := List_ s acceleratorProfilesResource;
  rd_ListNetworkProfiles := List_ s networkProfilesResource;
  rd_ListPlacementProfiles := List_ s placementProfilesResource;
  rd_ProjectMember := Get s projectMembersResource;
  rd_ListProjectMembers := List_ s projectMembersResource;
  rd_ListUserGroups := List_ s userGroupsResource;
  rd_UserQuota := Get s userQuotasResource;
  rd_ListUserQuotas := List_ s userQuotasResource;
  rd_ListWorkloadJobs := List_ s workloadJobsResource;
  rd_ListImageAllowRules := List_ s imageAllowListsResource
|}.

(** The profile lookup the placement, accelerator and network resolvers share:
    by record id, or by the id or name in the record's data. *)
Definition profileByName `{GoLib} (profiles : list record) (name : string) : option record :=
  if str_empty name then None
  else List.find (fun r => String.eqb (rec_ID r) name || String.eqb (TextValue (rec_Data r) ["id"]) name
                           || String.eqb (TextValue (rec_Data r) ["name"]) name) profiles.

(** The "enabled" test they share: absent or not a boolean counts as enabled. *)
Definition profileEnabled (data : object) : bool :=
  match firstPresent data ["enabled"; "Enabled"] with
  | Some (VBool b) => b
  | _ => true
  end.

(** admissionStringMap: the string entries with non-blank keys and values. *)
Definition string_entry (kv : string * any) : bool :=
  match kv.2 with
  | VString t => negb (str_empty (TrimSpace kv.1)) && negb (str_empty (TrimSpace t))
  | _ => false
  end.

Definition admissionStringMap (raw : any) : object :=
  match raw with
  | VMap data => filter (fun kv => string_entry kv = true) data
  | _ => ∅
  end.

(** ** Field assignments *)

Definition set_QueueName (v : string) (q : submitAdmissionRequest) : submitAdmissionRequest :=
  Req (JobID q) (ProjectID q) (UserID q) v (DeviceClassName q) (RequiredGPU q) (RequiredCPU q)
    (RequiredMemory q) (GPUCount q) (SMPercentage q) (MPSShareProjectID q) (StreamingSession q)
    (StreamMaxBitrateKbps q) (StreamBitrateCapKbps q) (StreamSessionCap q) (StreamEgressBudgetKbps
    q) (NetworkProfile q) (RDMARequired q) (NICClass q) (TopologyRequirement q) (PlacementProfile q)
    (AcceleratorProfile q) (PinnedMemoryLimit q) (EnforceImageAllowList q) (Resources q).
Definition set_DeviceClassName (v : string) (q : submitAdmissionRequest) : submitAdmissionRequest :=
  Req (JobID q) (ProjectID q) (UserID q) (QueueName q) v (RequiredGPU q) (RequiredCPU q)
    (RequiredMemory q) (GPUCount q) (SMPercentage q) (MPSShareProjectID q) (StreamingSession q)
    (StreamMaxBitrateKbps q) (StreamBitrateCapKbps q) (StreamSessionCap q) (StreamEgressBudgetKbps
    q) (NetworkProfile q) (RDMARequired q) (NICClass q) (TopologyRequirement q) (PlacementProfile q)
    (AcceleratorProfile q) (PinnedMemoryLimit q) (EnforceImageAllowList q) (Resources q).
Definition set_SMPercentage (v : option Z) (q : submitAdmissionRequest) : submitAdmissionRequest :=
  Req (JobID q) (ProjectID q) (UserID q) (QueueName q) (DeviceClassName q) (RequiredGPU q)
    (RequiredCPU q) (RequiredMemory q) (GPUCount q) v (MPSShareProjectID q) (StreamingSession q)
    (StreamMaxBitrateKbps q) (StreamBitrateCapKbps q) (StreamSessionCap q) (StreamEgressBudgetKbps
    q) (NetworkProfile q) (RDMARequired q) (NICClass q) (TopologyRequirement q) (PlacementProfile q)
    (AcceleratorProfile q) (PinnedMemoryLimit q) (EnforceImageAllowList q) (Resources q).
Definition set_PinnedMemoryLimit (v : option string) (q : submitAdmissionRequest) : submitAdmissionRequest :=
  Req (JobID q) (ProjectID q) (UserID q) (QueueName q) (DeviceClassName q) (RequiredGPU q)
    (RequiredCPU q) (RequiredMemory q) (GPUCount q) (SMPercentage q) (MPSShareProjectID q)
    (StreamingSession q) (StreamMaxBitrateKbps q) (StreamBitrateCapKbps q) (StreamSessionCap q)
    (StreamEgressBudgetKbps q) (NetworkProfile q) (RDMARequired q) (NICClass q) (TopologyRequirement
    q) (PlacementProfile q) (AcceleratorProfile q) v (EnforceImageAllowList q) (Resources q).
Definition set_StreamMaxBitrateKbps (v : Z) (q : submitAdmissionRequest) : submitAdmissionRequest :=
  Req (JobID q) (ProjectID q) (UserID q) (QueueName q) (DeviceClassName q) (RequiredGPU q)
    (RequiredCPU q) (RequiredMemory q) (GPUCount q) (SMPercentage q) (MPSShareProjectID q)
    (StreamingSession q) v (StreamBitrateCapKbps q) (StreamSessionCap q) (StreamEgressBudgetKbps q)
    (NetworkProfile q) (RDMARequired q) (NICClass q) (TopologyRequirement q) (PlacementProfile q)
    (AcceleratorProfile q) (PinnedMemoryLimit q) (EnforceImageAllowList q) (Resources q).
Definition set_StreamBitrateCapKbps (v : Z) (q : submitAdmissionRequest) : submitAdmissionRequest :=
  Req (JobID q) (ProjectID q) (UserID q) (QueueName q) (DeviceClassName q) (RequiredGPU q)
    (RequiredCPU q) (RequiredMemory q) (GPUCount q) (SMPercentage q) (MPSShareProjectID q)
    (StreamingSession q) (StreamMaxBitrateKbps q) v (StreamSessionCap q) (StreamEgressBudgetKbps q)
    (NetworkProfile q) (RDMARequired q) (NICClass q) (TopologyRequirement q) (PlacementProfile q)
    (AcceleratorProfile q) (PinnedMemoryLimit q) (EnforceImageAllowList q) (Resources q).
Definition set_StreamSessionCap (v : Z) (q : submitAdmissionRequest) : submitAdmissionRequest :=
  Req (JobID q) (ProjectID q) (UserID q) (QueueName q) (DeviceClassName q) (RequiredGPU q)
    (RequiredCPU q) (RequiredMemory q) (GPUCount q) (SMPercentage q) (MPSShareProjectID q)
    (StreamingSession q) (StreamMaxBitrateKbps q) (StreamBitrateCapKbps q) v (StreamEgressBudgetKbps
    q) (NetworkProfile q) (RDMARequired q) (NICClass q) (TopologyRequirement q) (PlacementProfile q)
    (AcceleratorProfile q) (PinnedMemoryLimit q) (EnforceImageAllowList q) (Resources q).
Definition set_StreamEgressBudgetKbps (v : Z) (q : submitAdmissionRequest) : submitAdmissionRequest :=
  Req (JobID q) (ProjectID q) (UserID q) (QueueName q) (DeviceClassName q) (RequiredGPU q)
    (RequiredCPU q) (RequiredMemory q) (GPUCount q) (SMPercentage q) (MPSShareProjectID q)
    (StreamingSession q) (StreamMaxBitrateKbps q) (StreamBitrateCapKbps q) (StreamSessionCap q) v
    (NetworkProfile q) (RDMARequired q) (NICClass q) (TopologyRequirement q) (PlacementProfile q)
    (AcceleratorProfile q) (PinnedMemoryLimit q) (EnforceImageAllowList q) (Resources q).
Definition set_EnforceImageAllowList (v : bool) (q : submitAdmissionRequest) : submitAdmissionRequest :=
  Req (JobID q) (ProjectID q) (UserID q) (QueueName q) (DeviceClassName q) (RequiredGPU q)
    (RequiredCPU q) (RequiredMemory q) (GPUCount q) (SMPercentage q) (MPSShareProjectID q)
    (StreamingSession q) (StreamMaxBitrateKbps q) (StreamBitrateCapKbps q) (StreamSessionCap q)
    (StreamEgressBudgetKbps q) (NetworkProfile q) (RDMARequired q) (NICClass q) (TopologyRequirement
    q) (PlacementProfile q) (AcceleratorProfile q) (PinnedMemoryLimit q) v (Resources q).
Definition set_rv_Allowed (v : bool) (w : admissionReview) : admissionReview :=
  Review v (rv_Reason w) (rv_ProjectID w) (rv_UserID w) (rv_QueueName w) (rv_QueuePriority w)
    (rv_QueuePreemptible w) (rv_RuntimeLimit w) (rv_DeviceClassName w) (rv_RequiredGPU w)
    (rv_RequiredCPU w) (rv_RequiredMemory w) (rv_StreamingSession w) (rv_StreamMaxBitrateKbps w)
    (rv_NetworkProfile w) (rv_RDMARequired w) (rv_NICClass w) (rv_TopologyRequirement w)
    (rv_NetworkAnnotations w) (rv_NetworkEnv w) (rv_PlacementProfile w) (rv_SchedulerBackend w)
    (rv_SchedulerName w) (rv_GangEnabled w) (rv_GangMinAvailable w) (rv_PlacementLabels w)
    (rv_PlacementAnnotations w) (rv_AcceleratorProfile w) (rv_AcceleratorSelector w)
    (rv_AcceleratorLabels w) (rv_SMPercentage w) (rv_PinnedMemoryLimit w) (rv_Usage w).
Definition set_rv_Reason (v : string) (w : admissionReview) : admissionReview :=
  Review (rv_Allowed w) v (rv_ProjectID w) (rv_UserID w) (rv_QueueName w) (rv_QueuePriority w)
    (rv_QueuePreemptible w) (rv_RuntimeLimit w) (rv_DeviceClassName w) (rv_RequiredGPU w)
    (rv_RequiredCPU w) (rv_RequiredMemory w) (rv_StreamingSession w) (rv_StreamMaxBitrateKbps w)
    (rv_NetworkProfile w) (rv_RDMARequired w) (rv_NICClass w) (rv_TopologyRequirement w)
    (rv_NetworkAnnotations w) (rv_NetworkEnv w) (rv_PlacementProfile w) (rv_SchedulerBackend w)
    (rv_SchedulerName w) (rv_GangEnabled w) (rv_GangMinAvailable w) (rv_PlacementLabels w)
    (rv_PlacementAnnotations w) (rv_AcceleratorProfile w) (rv_AcceleratorSelector w)
    (rv_AcceleratorLabels w) (rv_SMPercentage w) (rv_PinnedMemoryLimit w) (rv_Usage w).
Definition set_rv_QueueName (v : string) (w : admissionReview) : admissionReview :=
  Review (rv_Allowed w) (rv_Reason w) (rv_ProjectID w) (rv_UserID w) v (rv_QueuePriority w)
    (rv_QueuePreemptible w) (rv_RuntimeLimit w) (rv_DeviceClassName w) (rv_RequiredGPU w)
    (rv_RequiredCPU w) (rv_RequiredMemory w) (rv_StreamingSession w) (rv_StreamMaxBitrateKbps w)
    (rv_NetworkProfile w) (rv_RDMARequired w) (rv_NICClass w) (rv_TopologyRequirement w)
    (rv_NetworkAnnotations w) (rv_NetworkEnv w) (rv_PlacementProfile w) (rv_SchedulerBackend w)
    (rv_SchedulerName w) (rv_GangEnabled w) (rv_GangMinAvailable w) (rv_PlacementLabels w)
    (rv_PlacementAnnotations w) (rv_AcceleratorProfile w) (rv_AcceleratorSelector w)
    (rv_AcceleratorLabels w) (rv_SMPercentage w) (rv_PinnedMemoryLimit w) (rv_Usage w).
Definition set_rv_QueuePriority (v : Z) (w : admissionReview) : admissionReview :=
  Review (rv_Allowed w) (rv_Reason w) (rv_ProjectID w) (rv_UserID w) (rv_QueueName w) v
    (rv_QueuePreemptible w) (rv_RuntimeLimit w) (rv_DeviceClassName w) (rv_RequiredGPU w)
    (rv_RequiredCPU w) (rv_RequiredMemory w) (rv_StreamingSession w) (rv_StreamMaxBitrateKbps w)
    (rv_NetworkProfile w) (rv_RDMARequired w) (rv_NICClass w) (rv_TopologyRequirement w)
    (rv_NetworkAnnotations w) (rv_NetworkEnv w) (rv_PlacementProfile w) (rv_SchedulerBackend w)
    (rv_SchedulerName w) (rv_GangEnabled w) (rv_GangMinAvailable w) (rv_PlacementLabels w)
    (rv_PlacementAnnotations w) (rv_AcceleratorProfile w) (rv_AcceleratorSelector w)
    (rv_AcceleratorLabels w) (rv_SMPercentage w) (rv_PinnedMemoryLimit w) (rv_Usage w).
Definition set_rv_QueuePreemptible (v : bool) (w : admissionReview) : admissionReview :=
  Review (rv_Allowed w) (rv_Reason w) (rv_ProjectID w) (rv_UserID w) (rv_QueueName w)
    (rv_QueuePriority w) v (rv_RuntimeLimit w) (rv_DeviceClassName w) (rv_RequiredGPU w)
    (rv_RequiredCPU w) (rv_RequiredMemory w) (rv_StreamingSession w) (rv_StreamMaxBitrateKbps w)
    (rv_NetworkProfile w) (rv_RDMARequired w) (rv_NICClass w) (rv_TopologyRequirement w)
    (rv_NetworkAnnotations w) (rv_NetworkEnv w) (rv_PlacementProfile w) (rv_SchedulerBackend w)
    (rv_SchedulerName w) (rv_GangEnabled w) (rv_GangMinAvailable w) (rv_PlacementLabels w)
    (rv_PlacementAnnotations w) (rv_AcceleratorProfile w) (rv_AcceleratorSelector w)
    (rv_AcceleratorLabels w) (rv_SMPercentage w) (rv_PinnedMemoryLimit w) (rv_Usage w).
Definition set_rv_RuntimeLimit (v : Z) (w : admissionReview) : admissionReview :=
  Review (rv_Allowed w) (rv_Reason w) (rv_ProjectID w) (rv_UserID w) (rv_QueueName w)
    (rv_QueuePriority w) (rv_QueuePreemptible w) v (rv_DeviceClassName w) (rv_RequiredGPU w)
    (rv_RequiredCPU w) (rv_RequiredMemory w) (rv_StreamingSession w) (rv_StreamMaxBitrateKbps w)
    (rv_NetworkProfile w) (rv_RDMARequired w) (rv_NICClass w) (rv_TopologyRequirement w)
    (rv_NetworkAnnotations w) (rv_NetworkEnv w) (rv_PlacementProfile w) (rv_SchedulerBackend w)
    (rv_SchedulerName w) (rv_GangEnabled w) (rv_GangMinAvailable w) (rv_PlacementLabels w)
    (rv_PlacementAnnotations w) (rv_AcceleratorProfile w) (rv_AcceleratorSelector w)
    (rv_AcceleratorLabels w) (rv_SMPercentage w) (rv_PinnedMemoryLimit w) (rv_Usage w).
Definition set_rv_DeviceClassName (v : string) (w : admissionReview) : admissionReview :=
  Review (rv_Allowed w) (rv_Reason w) (rv_ProjectID w) (rv_UserID w) (rv_QueueName w)
    (rv_QueuePriority w) (rv_QueuePreemptible w) (rv_RuntimeLimit w) v (rv_RequiredGPU w)
    (rv_RequiredCPU w) (rv_RequiredMemory w) (rv_StreamingSession w) (rv_StreamMaxBitrateKbps w)
    (rv_NetworkProfile w) (rv_RDMARequired w) (rv_NICClass w) (rv_TopologyRequirement w)
    (rv_NetworkAnnotations w) (rv_NetworkEnv w) (rv_PlacementProfile w) (rv_SchedulerBackend w)
    (rv_SchedulerName w) (rv_GangEnabled w) (rv_GangMinAvailable w) (rv_PlacementLabels w)
    (rv_PlacementAnnotations w) (rv_AcceleratorProfile w) (rv_AcceleratorSelector w)
    (rv_AcceleratorLabels w) (rv_SMPercentage w) (rv_PinnedMemoryLimit w) (rv_Usage w).
Definition set_rv_NetworkProfile (v : string) (w : admissionReview) : admissionReview :=
  Review (rv_Allowed w) (rv_Reason w) (rv_ProjectID w) (rv_UserID w) (rv_QueueName w)
    (rv_QueuePriority w) (rv_QueuePreemptible w) (rv_RuntimeLimit w) (rv_DeviceClassName w)
    (rv_RequiredGPU w) (rv_RequiredCPU w) (rv_RequiredMemory w) (rv_StreamingSession w)
    (rv_StreamMaxBitrateKbps w) v (rv_RDMARequired w) (rv_NICClass w) (rv_TopologyRequirement w)
    (rv_NetworkAnnotations w) (rv_NetworkEnv w) (rv_PlacementProfile w) (rv_SchedulerBackend w)
    (rv_SchedulerName w) (rv_GangEnabled w) (rv_GangMinAvailable w) (rv_PlacementLabels w)
    (rv_PlacementAnnotations w) (rv_AcceleratorProfile w) (rv_AcceleratorSelector w)
    (rv_AcceleratorLabels w) (rv_SMPercentage w) (rv_PinnedMemoryLimit w) (rv_Usage w).
Definition set_rv_RDMARequired (v : bool) (w : admissionReview) : admissionReview :=
  Review (rv_Allowed w) (rv_Reason w) (rv_ProjectID w) (rv_UserID w) (rv_QueueName w)
    (rv_QueuePriority w) (rv_QueuePreemptible w) (rv_RuntimeLimit w) (rv_DeviceClassName w)
    (rv_RequiredGPU w) (rv_RequiredCPU w) (rv_RequiredMemory w) (rv_StreamingSession w)
    (rv_StreamMaxBitrateKbps w) (rv_NetworkProfile w) v (rv_NICClass w) (rv_TopologyRequirement w)
    (rv_NetworkAnnotations w) (rv_NetworkEnv w) (rv_PlacementProfile w) (rv_SchedulerBackend w)
    (rv_SchedulerName w) (rv_GangEnabled w) (rv_GangMinAvailable w) (rv_PlacementLabels w)
    (rv_PlacementAnnotations w) (rv_AcceleratorProfile w) (rv_AcceleratorSelector w)
    (rv_AcceleratorLabels w) (rv_SMPercentage w) (rv_PinnedMemoryLimit w) (rv_Usage w).
Definition set_rv_NICClass (v : string) (w : admissionReview) : admissionReview :=
  Review (rv_Allowed w) (rv_Reason w) (rv_ProjectID w) (rv_UserID w) (rv_QueueName w)
    (rv_QueuePriority w) (rv_QueuePreemptible w) (rv_RuntimeLimit w) (rv_DeviceClassName w)
    (rv_RequiredGPU w) (rv_RequiredCPU w) (rv_RequiredMemory w) (rv_StreamingSession w)
    (rv_StreamMaxBitrateKbps w) (rv_NetworkProfile w) (rv_RDMARequired w) v (rv_TopologyRequirement
    w) (rv_NetworkAnnotations w) (rv_NetworkEnv w) (rv_PlacementProfile w) (rv_SchedulerBackend w)
    (rv_SchedulerName w) (rv_GangEnabled w) (rv_GangMinAvailable w) (rv_PlacementLabels w)
    (rv_PlacementAnnotations w) (rv_AcceleratorProfile w) (rv_AcceleratorSelector w)
    (rv_AcceleratorLabels w) (rv_SMPercentage w) (rv_PinnedMemoryLimit w) (rv_Usage w).
Definition set_rv_TopologyRequirement (v : string) (w : admissionReview) : admissionReview :=
  Review (rv_Allowed w) (rv_Reason w) (rv_ProjectID w) (rv_UserID w) (rv_QueueName w)
    (rv_QueuePriority w) (rv_QueuePreemptible w) (rv_RuntimeLimit w) (rv_DeviceClassName w)
    (rv_RequiredGPU w) (rv_RequiredCPU w) (rv_RequiredMemory w) (rv_StreamingSession w)
    (rv_StreamMaxBitrateKbps w) (rv_NetworkProfile w) (rv_RDMARequired w) (rv_NICClass w) v
    (rv_NetworkAnnotations w) (rv_NetworkEnv w) (rv_PlacementProfile w) (rv_SchedulerBackend w)
    (rv_SchedulerName w) (rv_GangEnabled w) (rv_GangMinAvailable w) (rv_PlacementLabels w)
    (rv_PlacementAnnotations w) (rv_AcceleratorProfile w) (rv_AcceleratorSelector w)
    (rv_AcceleratorLabels w) (rv_SMPercentage w) (rv_PinnedMemoryLimit w) (rv_Usage w).
Definition set_rv_NetworkAnnotations (v : object) (w : admissionReview) : admissionReview :=
  Review (rv_Allowed w) (rv_Reason w) (rv_ProjectID w) (rv_UserID w) (rv_QueueName w)
    (rv_QueuePriority w) (rv_QueuePreemptible w) (rv_RuntimeLimit w) (rv_DeviceClassName w)
    (rv_RequiredGPU w) (rv_RequiredCPU w) (rv_RequiredMemory w) (rv_StreamingSession w)
    (rv_StreamMaxBitrateKbps w) (rv_NetworkProfile w) (rv_RDMARequired w) (rv_NICClass w)
    (rv_TopologyRequirement w) v (rv_NetworkEnv w) (rv_PlacementProfile w) (rv_SchedulerBackend w)
    (rv_SchedulerName w) (rv_GangEnabled w) (rv_GangMinAvailable w) (rv_PlacementLabels w)
    (rv_PlacementAnnotations w) (rv_AcceleratorProfile w) (rv_AcceleratorSelector w)
    (rv_AcceleratorLabels w) (rv_SMPercentage w) (rv_PinnedMemoryLimit w) (rv_Usage w).
Definition set_rv_NetworkEnv (v : object) (w : admissionReview) : admissionReview :=
  Review (rv_Allowed w) (rv_Reason w) (rv_ProjectID w) (rv_UserID w) (rv_QueueName w)
    (rv_QueuePriority w) (rv_QueuePreemptible w) (rv_RuntimeLimit w) (rv_DeviceClassName w)
    (rv_RequiredGPU w) (rv_RequiredCPU w) (rv_RequiredMemory w) (rv_StreamingSession w)
    (rv_StreamMaxBitrateKbps w) (rv_NetworkProfile w) (rv_RDMARequired w) (rv_NICClass w)
    (rv_TopologyRequirement w) (rv_NetworkAnnotations w) v (rv_PlacementProfile w)
    (rv_SchedulerBackend w) (rv_SchedulerName w) (rv_GangEnabled w) (rv_GangMinAvailable w)
    (rv_PlacementLabels w) (rv_PlacementAnnotations w) (rv_AcceleratorProfile w)
    (rv_AcceleratorSelector w) (rv_AcceleratorLabels w) (rv_SMPercentage w) (rv_PinnedMemoryLimit w)
    (rv_Usage w).
Definition set_rv_PlacementProfile (v : string) (w : admissionReview) : admissionReview :=
  Review (rv_Allowed w) (rv_Reason w) (rv_ProjectID w) (rv_UserID w) (rv_QueueName w)
    (rv_QueuePriority w) (rv_QueuePreemptible w) (rv_RuntimeLimit w) (rv_DeviceClassName w)
    (rv_RequiredGPU w) (rv_RequiredCPU w) (rv_RequiredMemory w) (rv_StreamingSession w)
    (rv_StreamMaxBitrateKbps w) (rv_NetworkProfile w) (rv_RDMARequired w) (rv_NICClass w)
    (rv_TopologyRequirement w) (rv_NetworkAnnotations w) (rv_NetworkEnv w) v (rv_SchedulerBackend w)
    (rv_SchedulerName w) (rv_GangEnabled w) (rv_GangMinAvailable w) (rv_PlacementLabels w)
    (rv_PlacementAnnotations w) (rv_AcceleratorProfile w) (rv_AcceleratorSelector w)
    (rv_AcceleratorLabels w) (rv_SMPercentage w) (rv_PinnedMemoryLimit w) (rv_Usage w).
Definition set_rv_SchedulerBackend (v : string) (w : admissionReview) : admissionReview :=
  Review (rv_Allowed w) (rv_Reason w) (rv_ProjectID w) (rv_UserID w) (rv_QueueName w)
    (rv_QueuePriority w) (rv_QueuePreemptible w) (rv_RuntimeLimit w) (rv_DeviceClassName w)
    (rv_RequiredGPU w) (rv_RequiredCPU w) (rv_RequiredMemory w) (rv_StreamingSession w)
    (rv_StreamMaxBitrateKbps w) (rv_NetworkProfile w) (rv_RDMARequired w) (rv_NICClass w)
    (rv_TopologyRequirement w) (rv_NetworkAnnotations w) (rv_NetworkEnv w) (rv_PlacementProfile w) v
    (rv_SchedulerName w) (rv_GangEnabled w) (rv_GangMinAvailable w) (rv_PlacementLabels w)
    (rv_PlacementAnnotations w) (rv_AcceleratorProfile w) (rv_AcceleratorSelector w)
    (rv_AcceleratorLabels w) (rv_SMPercentage w) (rv_PinnedMemoryLimit w) (rv_Usage w).
Definition set_rv_SchedulerName (v : string) (w : admissionReview) : admissionReview :=
  Review (rv_Allowed w) (rv_Reason w) (rv_ProjectID w) (rv_UserID w) (rv_QueueName w)
    (rv_QueuePriority w) (rv_QueuePreemptible w) (rv_RuntimeLimit w) (rv_DeviceClassName w)
    (rv_RequiredGPU w) (rv_RequiredCPU w) (rv_RequiredMemory w) (rv_StreamingSession w)
    (rv_StreamMaxBitrateKbps w) (rv_NetworkProfile w) (rv_RDMARequired w) (rv_NICClass w)
    (rv_TopologyRequirement w) (rv_NetworkAnnotations w) (rv_NetworkEnv w) (rv_PlacementProfile w)
    (rv_SchedulerBackend w) v (rv_GangEnabled w) (rv_GangMinAvailable w) (rv_PlacementLabels w)
    (rv_PlacementAnnotations w) (rv_AcceleratorProfile w) (rv_AcceleratorSelector w)
    (rv_AcceleratorLabels w) (rv_SMPercentage w) (rv_PinnedMemoryLimit w) (rv_Usage w).
Definition set_rv_GangEnabled (v : bool) (w : admissionReview) : admissionReview :=
  Review (rv_Allowed w) (rv_Reason w) (rv_ProjectID w) (rv_UserID w) (rv_QueueName w)
    (rv_QueuePriority w) (rv_QueuePreemptible w) (rv_RuntimeLimit w) (rv_DeviceClassName w)
    (rv_RequiredGPU w) (rv_RequiredCPU w) (rv_RequiredMemory w) (rv_StreamingSession w)
    (rv_StreamMaxBitrateKbps w) (rv_NetworkProfile w) (rv_RDMARequired w) (rv_NICClass w)
    (rv_TopologyRequirement w) (rv_NetworkAnnotations w) (rv_NetworkEnv w) (rv_PlacementProfile w)
    (rv_SchedulerBackend w) (rv_SchedulerName w) v (rv_GangMinAvailable w) (rv_PlacementLabels w)
    (rv_PlacementAnnotations w) (rv_AcceleratorProfile w) (rv_AcceleratorSelector w)
    (rv_AcceleratorLabels w) (rv_SMPercentage w) (rv_PinnedMemoryLimit w) (rv_Usage w).
Definition set_rv_GangMinAvailable (v : Z) (w : admissionReview) : admissionReview :=
  Review (rv_Allowed w) (rv_Reason w) (rv_ProjectID w) (rv_UserID w) (rv_QueueName w)
    (rv_QueuePriority w) (rv_QueuePreemptible w) (rv_RuntimeLimit w) (rv_DeviceClassName w)
    (rv_RequiredGPU w) (rv_RequiredCPU w) (rv_RequiredMemory w) (rv_StreamingSession w)
    (rv_StreamMaxBitrateKbps w) (rv_NetworkProfile w) (rv_RDMARequired w) (rv_NICClass w)
    (rv_TopologyRequirement w) (rv_NetworkAnnotations w) (rv_NetworkEnv w) (rv_PlacementProfile w)
    (rv_SchedulerBackend w) (rv_SchedulerName w) (rv_GangEnabled w) v (rv_PlacementLabels w)
    (rv_PlacementAnnotations w) (rv_AcceleratorProfile w) (rv_AcceleratorSelector w)
    (rv_AcceleratorLabels w) (rv_SMPercentage w) (rv_PinnedMemoryLimit w) (rv_Usage w).
Definition set_rv_PlacementLabels (v : object) (w : admissionReview) : admissionReview :=
  Review (rv_Allowed w) (rv_Reason w) (rv_ProjectID w) (rv_UserID w) (rv_QueueName w)
    (rv_QueuePriority w) (rv_QueuePreemptible w) (rv_RuntimeLimit w) (rv_DeviceClassName w)
    (rv_RequiredGPU w) (rv_RequiredCPU w) (rv_RequiredMemory w) (rv_StreamingSession w)
    (rv_StreamMaxBitrateKbps w) (rv_NetworkProfile w) (rv_RDMARequired w) (rv_NICClass w)
    (rv_TopologyRequirement w) (rv_NetworkAnnotations w) (rv_NetworkEnv w) (rv_PlacementProfile w)
    (rv_SchedulerBackend w) (rv_SchedulerName w) (rv_GangEnabled w) (rv_GangMinAvailable w) v
    (rv_PlacementAnnotations w) (rv_AcceleratorProfile w) (rv_AcceleratorSelector w)
    (rv_AcceleratorLabels w) (rv_SMPercentage w) (rv_PinnedMemoryLimit w) (rv_Usage w).
Definition set_rv_PlacementAnnotations (v : object) (w : admissionReview) : admissionReview :=
  Review (rv_Allowed w) (rv_Reason w) (rv_ProjectID w) (rv_UserID w) (rv_QueueName w)
    (rv_QueuePriority w) (rv_QueuePreemptible w) (rv_RuntimeLimit w) (rv_DeviceClassName w)
    (rv_RequiredGPU w) (rv_RequiredCPU w) (rv_RequiredMemory w) (rv_StreamingSession w)
    (rv_StreamMaxBitrateKbps w) (rv_NetworkProfile w) (rv_RDMARequired w) (rv_NICClass w)
    (rv_TopologyRequirement w) (rv_NetworkAnnotations w) (rv_NetworkEnv w) (rv_PlacementProfile w)
    (rv_SchedulerBackend w) (rv_SchedulerName w) (rv_GangEnabled w) (rv_GangMinAvailable w)
    (rv_PlacementLabels w) v (rv_AcceleratorProfile w) (rv_AcceleratorSelector w)
    (rv_AcceleratorLabels w) (rv_SMPercentage w) (rv_PinnedMemoryLimit w) (rv_Usage w).
Definition set_rv_AcceleratorProfile (v : string) (w : admissionReview) : admissionReview :=
  Review (rv_Allowed w) (rv_Reason w) (rv_ProjectID w) (rv_UserID w) (rv_QueueName w)
    (rv_QueuePriority w) (rv_QueuePreemptible w) (rv_RuntimeLimit w) (rv_DeviceClassName w)
    (rv_RequiredGPU w) (rv_RequiredCPU w) (rv_RequiredMemory w) (rv_StreamingSession w)
    (rv_StreamMaxBitrateKbps w) (rv_NetworkProfile w) (rv_RDMARequired w) (rv_NICClass w)
    (rv_TopologyRequirement w) (rv_NetworkAnnotations w) (rv_NetworkEnv w) (rv_PlacementProfile w)
    (rv_SchedulerBackend w) (rv_SchedulerName w) (rv_GangEnabled w) (rv_GangMinAvailable w)
    (rv_PlacementLabels w) (rv_PlacementAnnotations w) v (rv_AcceleratorSelector w)
    (rv_AcceleratorLabels w) (rv_SMPercentage w) (rv_PinnedMemoryLimit w) (rv_Usage w).
Definition set_rv_AcceleratorSelector (v : object) (w : admissionReview) : admissionReview :=
  Review (rv_Allowed w) (rv_Reason w) (rv_ProjectID w) (rv_UserID w) (rv_QueueName w)
    (rv_QueuePriority w) (rv_QueuePreemptible w) (rv_RuntimeLimit w) (rv_DeviceClassName w)
    (rv_RequiredGPU w) (rv_RequiredCPU w) (rv_RequiredMemory w) (rv_StreamingSession w)
    (rv_StreamMaxBitrateKbps w) (rv_NetworkProfile w) (rv_RDMARequired w) (rv_NICClass w)
    (rv_TopologyRequirement w) (rv_NetworkAnnotations w) (rv_NetworkEnv w) (rv_PlacementProfile w)
    (rv_SchedulerBackend w) (rv_SchedulerName w) (rv_GangEnabled w) (rv_GangMinAvailable w)
    (rv_PlacementLabels w) (rv_PlacementAnnotations w) (rv_AcceleratorProfile w) v
    (rv_AcceleratorLabels w) (rv_SMPercentage w) (rv_PinnedMemoryLimit w) (rv_Usage w).
Definition set_rv_AcceleratorLabels (v : object) (w : admissionReview) : admissionReview :=
  Review (rv_Allowed w) (rv_Reason w) (rv_ProjectID w) (rv_UserID w) (rv_QueueName w)
    (rv_QueuePriority w) (rv_QueuePreemptible w) (rv_RuntimeLimit w) (rv_DeviceClassName w)
    (rv_RequiredGPU w) (rv_RequiredCPU w) (rv_RequiredMemory w) (rv_StreamingSession w)
    (rv_StreamMaxBitrateKbps w) (rv_NetworkProfile w) (rv_RDMARequired w) (rv_NICClass w)
    (rv_TopologyRequirement w) (rv_NetworkAnnotations w) (rv_NetworkEnv w) (rv_PlacementProfile w)
    (rv_SchedulerBackend w) (rv_SchedulerName w) (rv_GangEnabled w) (rv_GangMinAvailable w)
    (rv_PlacementLabels w) (rv_PlacementAnnotations w) (rv_AcceleratorProfile w)
    (rv_AcceleratorSelector w) v (rv_SMPercentage w) (rv_PinnedMemoryLimit w) (rv_Usage w).
Definition set_rv_SMPercentage (v : option Z) (w : admissionReview) : admissionReview :=
  Review (rv_Allowed w) (rv_Reason w) (rv_ProjectID w) (rv_UserID w) (rv_QueueName w)
    (rv_QueuePriority w) (rv_QueuePreemptible w) (rv_RuntimeLimit w) (rv_DeviceClassName w)
    (rv_RequiredGPU w) (rv_RequiredCPU w) (rv_RequiredMemory w) (rv_StreamingSession w)
    (rv_StreamMaxBitrateKbps w) (rv_NetworkProfile w) (rv_RDMARequired w) (rv_NICClass w)
    (rv_TopologyRequirement w) (rv_NetworkAnnotations w) (rv_NetworkEnv w) (rv_PlacementProfile w)
    (rv_SchedulerBackend w) (rv_SchedulerName w) (rv_GangEnabled w) (rv_GangMinAvailable w)
    (rv_PlacementLabels w) (rv_PlacementAnnotations w) (rv_AcceleratorProfile w)
    (rv_AcceleratorSelector w) (rv_AcceleratorLabels w) v (rv_PinnedMemoryLimit w) (rv_Usage w).
Definition set_rv_PinnedMemoryLimit (v : string) (w : admissionReview) : admissionReview :=
  Review (rv_Allowed w) (rv_Reason w) (rv_ProjectID w) (rv_UserID w) (rv_QueueName w)
    (rv_QueuePriority w) (rv_QueuePreemptible w) (rv_RuntimeLimit w) (rv_DeviceClassName w)
    (rv_RequiredGPU w) (rv_RequiredCPU w) (rv_RequiredMemory w) (rv_StreamingSession w)
    (rv_StreamMaxBitrateKbps w) (rv_NetworkProfile w) (rv_RDMARequired w) (rv_NICClass w)
    (rv_TopologyRequirement w) (rv_NetworkAnnotations w) (rv_NetworkEnv w) (rv_PlacementProfile w)
    (rv_SchedulerBackend w) (rv_SchedulerName w) (rv_GangEnabled w) (rv_GangMinAvailable w)
    (rv_PlacementLabels w) (rv_PlacementAnnotations w) (rv_AcceleratorProfile w)
    (rv_AcceleratorSelector w) (rv_AcceleratorLabels w) (rv_SMPercentage w) v (rv_Usage w).
Definition set_rv_Usage (v : admissionUsage) (w : admissionReview) : admissionReview :=
  Review (rv_Allowed w) (rv_Reason w) (rv_ProjectID w) (rv_UserID w) (rv_QueueName w)
    (rv_QueuePriority w) (rv_QueuePreemptible w) (rv_RuntimeLimit w) (rv_DeviceClassName w)
    (rv_RequiredGPU w) (rv_RequiredCPU w) (rv_RequiredMemory w) (rv_StreamingSession w)
    (rv_StreamMaxBitrateKbps w) (rv_NetworkProfile w) (rv_RDMARequired w) (rv_NICClass w)
    (rv_TopologyRequirement w) (rv_NetworkAnnotations w) (rv_NetworkEnv w) (rv_PlacementProfile w)
    (rv_SchedulerBackend w) (rv_SchedulerName w) (rv_GangEnabled w) (rv_GangMinAvailable w)
    (rv_PlacementLabels w) (rv_PlacementAnnotations w) (rv_AcceleratorProfile w)
    (rv_AcceleratorSelector w) (rv_AcceleratorLabels w) (rv_SMPercentage w) (rv_PinnedMemoryLimit w)
    v.

(** Writing through the request and review pointers. *)
Definition on_req (f : submitAdmissionRequest -> submitAdmissionRequest) : adm unit :=
  stm_modify (fun qw => (f qw.1, qw.2)).
Definition on_review (f : admissionReview -> admissionReview) : adm unit :=
  stm_modify (fun qw => (qw.1, f qw.2)).
Definition get_req : adm submitAdmissionRequest := fun qw => (qw, Ok qw.1).
Definition get_review : adm admissionReview := fun qw => (qw, Ok qw.2).
