(* ===== verification/SchedulerHttp.v ===== *)
(** * Scheduler-quota service: requests, events and small helpers
    (the shared part of internal/services/schedulerquota/handler.go) *)

From stdpp Require Import base gmap strings list fin_maps sorting.
From Stdlib Require Import ZArith Lia.
From S2P Require Import Prelude GoValue Store EventBus Crud InputLimits AdmissionTypes.
Local Open Scope Z_scope.
Local Open Scope go_scope.

(** A request as the handlers read it: headers by canonical name, the outcome of
    [DecodeMapWithError], path values, and the clock reading and fresh identifiers
    drawn while it is served. *)
Record svc_request := SvcRequest {
  sr_Header : gmap string string;
  sr_body : result input_error object;
  sr_path : gmap string string;
  sr_now : Z;
  sr_uuids : list string;
  sr_newid : string
}.

Definition header (r : svc_request) (name : string) : string := default "" (sr_Header r !! name).
(** The [n]th identifier drawn. *)
Definition uuid (r : svc_request) (n : nat) : string := default "" (sr_uuids r !! n).

Definition msgInvalidBody : string := "invalid request body".
Definition ErrorData (text : string) : body := BMap {[ "message" := VString text ]}.

Section SchedulerHttp.
Context `{GoLib}.

Definition pathValue (r : svc_request) (name : string) : string := TrimSpace (default "" (sr_path r !! name)).

Definition decodePayload (r : svc_request) : result input_error object := sr_body r.

Fixpoint firstStringSlice (data : object) (keys : list string) : option (list string) :=
  match keys with
  | [] => None
  | key :: ks => match StringSlice (mget data key) with
                 | Some values => Some values
                 | None => firstStringSlice data ks
                 end
  end.

Definition decodeIDs (r : svc_request) : result input_error (list string) :=
  payload <-? decodePayload r ;;
  Ok (default [] (firstStringSlice payload ["ids"; "queue_ids"; "queueIds"; "plan_ids"; "planIds"])).

(** The in-place filter over a copy of the slice. *)
Definition removeValue (values : list string) (remove : string) : list string :=
  List.filter (fun value => negb (String.eqb value remove)) values.

Definition createError (e : store_error) : Z :=
  match e with EConflict _ => StatusConflict | EPublish => StatusInternalServerError end.

Definition cloneEventMapOrNil (value : option object) : any :=
  match value with Some m => VMap m | None => VNil end.

Definition changePayload (oldValue newValue : option object) : object :=
  <["new" := cloneEventMapOrNil newValue]>
    (<["old" := cloneEventMapOrNil oldValue]> (default ∅ newValue)).

Definition trace_id (r : svc_request) : string :=
  FirstNonEmpty [header r "X-Trace-ID"; header r "X-Request-ID"; "scheduler-quota-local"].

Definition schedulerEvent (r : svc_request) (n : nat) (name action : string) (data : object) : event :=
  let actor := FirstNonEmpty [header r "X-User-ID"; "anonymous"] in
  let d := <["actor_user_id" := VString actor]> (<["action" := VString action]> data) in
  let d := if str_empty (TextValue d ["user_id"; "userId"]) then <["user_id" := VString actor]> d else d in
  Event_ (uuid r n) name serviceName (sr_now r) (trace_id r) 1 (header r "Idempotency-Key") d.

(** A failed publication is logged and otherwise ignored. *)
Definition publish (a : app) (r : svc_request) (n : nat) (name action : string) (data : object) : app :=
  default a (publish_event a (schedulerEvent r n name action data)).

(** sort.SliceStable by a text field, the record id standing in for a blank one. *)
Definition sort_text (field : string) (rc : record) : string :=
  FirstNonEmpty [TextValue (rec_Data rc) [field]; rec_ID rc].

(** An event of the service is complete once the request drew an identifier. *)
Lemma schedulerEvent_ok r n name action data :
  name ≠ "" -> uuid r n ≠ "" -> event_metadata_ok (schedulerEvent r n name action data) = true.
Proof.
  intros Hn Hu. unfold event_metadata_ok, schedulerEvent, trace_id. cbn [ev_Name ev_Source ev_EventID ev_TraceID ev_SchemaVersion].
  assert (FirstNonEmpty [header r "X-Trace-ID"; header r "X-Request-ID"; "scheduler-quota-local"] ≠ "") as Ht.
  { cbn. unfold str_empty. destruct (String.eqb_spec (header r "X-Trace-ID") ""); [|done].
    by destruct (String.eqb_spec (header r "X-Request-ID") ""). }
  unfold str_empty. destruct (String.eqb_spec name ""), (String.eqb_spec (uuid r n) ""), (String.eqb_spec
    (FirstNonEmpty [header r "X-Trace-ID"; header r "X-Request-ID"; "scheduler-quota-local"]) ""); done.
Qed.

End SchedulerHttp.

(** A stable insertion sort: an element moves before those it must strictly precede
    and never across one it is not preferred to. *)
Section StableSort.
Context {A : Type} (less : A -> A -> bool).

Fixpoint stable_insert (x : A) (l : list A) : list A :=
  match l with
  | [] => [x]
  | y :: l' => if less y x then y :: stable_insert x l' else x :: y :: l'
  end.
Definition SliceStable (l : list A) : list A := foldr stable_insert [] l.

Lemma stable_insert_perm x l : stable_insert x l ≡ₚ x :: l.
Proof.
  induction l as [|y l IH]; cbn; [done|]. destruct (less y x); [|done]. rewrite IH. apply Permutation_swap.
Qed.

Lemma SliceStable_perm l : SliceStable l ≡ₚ l.
Proof. induction l as [|x l IH]; cbn; [done|]. by rewrite stable_insert_perm, IH. Qed.

(** Sorted: no later element is preferred to an earlier one. *)
Definition never_less (x y : A) : Prop := less y x = false.

Context (less_trans : forall x y z, less x y = true -> less y z = true -> less x z = true).
Context (less_asym : forall x y, less x y = true -> less y x = false).
Context (less_cotrans : forall x y z, less x z = true -> less x y = true \/ less y z = true).

Lemma stable_insert_sorted x l : StronglySorted never_less l -> StronglySorted never_less (stable_insert x l).
Proof.
  induction 1 as [|y l Hl IH Hy]; cbn; [repeat constructor|].
  destruct (less y x) eqn:E.
  - constructor; [done|]. rewrite stable_insert_perm. constructor; [by apply less_asym|done].
  - constructor; [by constructor|]. constructor; [done|]. eapply Forall_impl; [exact Hy|].
    unfold never_less. intros z Hz. destruct (less z x) eqn:Ez; [|done].
    destruct (less_cotrans _ y _ Ez); congruence.
Qed.

Lemma SliceStable_sorted l : StronglySorted never_less (SliceStable l).
Proof. induction l as [|x l IH]; cbn; [constructor|by apply stable_insert_sorted]. Qed.

(** Stability: elements of a class none of which is preferred to another keep
    their order. *)
Lemma SliceStable_stable (P : A -> bool) l :
  (forall x y, P x = true -> P y = true -> less x y = false) ->
  List.filter P (SliceStable l) = List.filter P l.
Proof.
  intros HP. induction l as [|x l IH]; [done|]. cbn [SliceStable foldr List.filter].
  rewrite <- IH. fold (SliceStable l). clear IH.
  induction (SliceStable l) as [|y s IHs]; cbn [stable_insert List.filter]; [by destruct (P x)|].
  destruct (less y x) eqn:E; cbn [List.filter]; [|done]. rewrite IHs.
  destruct (P y) eqn:Py, (P x) eqn:Px; try done. rewrite HP in E by done. done.
Qed.

End StableSort.
