(* ===== verification/AdmissionResources.v ===== *)
(** * Submit admission: what the submitted manifests demand
    (internal/services/schedulerquota/admission_resources.go)

    The resource floor computed from the manifests, the comparison with the
    declared demand, and the policies that refuse raw Secrets, container runtime
    sockets and unsupported workload kinds. *)

From stdpp Require Import base gmap strings list fin_maps.
From Stdlib Require Import ZArith Lia.
From S2P Require Import Prelude GoValue Store Crud AdmissionTypes.
Local Open Scope Z_scope.
Local Open Scope go_scope.

Record admissionResourceFloor := Floor { fl_gpu : float64; fl_cpu : float64; fl_memoryMB : Z }.

Record admissionSecretPolicyViolation := SecretViolation {
  sv_ResourceName : string; sv_ResourceKind : string; sv_Reason : string }.
Record admissionRuntimeSocketPolicyViolation := SocketViolation {
  kv_ResourceName : string; kv_ResourceKind : string; kv_SocketPath : string; kv_Reason : string }.

Definition rawSecretPolicyReason : string :=
  "raw Kubernetes Secret resources are rejected; use the platform secret API or an approved ExternalSecret profile".
Definition runtimeSocketPolicyReason (path : string) : string :=
  "user workloads cannot mount container runtime socket " +:+ path.

Section Resources.
Context `{GoLib}.

(** ** Reading quantities *)

Definition strconvParseFloat (text : string) : option float64 := parse_float text.

Definition parseAdmissionGPU (v : any) : float64 :=
  match v with
  | VString typed =>
      match strconvParseFloat (TrimSpace (TrimSuffix typed "m")) with
      | Some f => f
      | None => match parse_quantity typed with
                | Some q => f64_of_int (q_Value q)
                | None => f64_0
                end
      end
  | VFloat64 f => f
  | VInt z | VInt64 z => f64_of_int z
  | _ => f64_0
  end.

Definition parseAdmissionCPU (v : any) : float64 :=
  match v with
  | VString typed => match parse_quantity typed with
                     | Some q => q_AsApproximateFloat64 q
                     | None => f64_0
                     end
  | VFloat64 f => f
  | VInt z | VInt64 z => f64_of_int z
  | _ => f64_0
  end.

Definition parseAdmissionMemory (v : any) : Z :=
  match v with
  | VString typed => match parse_quantity typed with
                     | Some q => Z.quot (q_Value q) (1024 * 1024)
                     | None => 0
                     end
  | VFloat64 f => f64_to_int f
  | VInt z | VInt64 z => z
  | _ => 0
  end.

Fixpoint admissionMemoryMB (data : object) (keys : list string) : float64 :=
  match keys with
  | [] => f64_0
  | k :: ks =>
      match data !! k with
      | Some v =>
          if 0 <? parseAdmissionMemory v then f64_of_int (parseAdmissionMemory v)
          else let n := NumberValue {[k := v]} [k] in
               if negb (f64_eq n f64_0) then n else admissionMemoryMB data ks
      | None => admissionMemoryMB data ks
      end
  end.

Definition isGPUResourceKey (key : string) : bool :=
  let model := TrimPrefix key "nvidia.com/" in
  negb (String.eqb model key) && negb (str_empty model).

Definition gpuFraction (count smPct : Z) : float64 :=
  if count <? 1 then f64_0
  else let pct := if (smPct <? 1) || (100 <? smPct) then 100 else smPct in
       f64_div (f64_mul (f64_of_int count) (f64_of_int pct)) f64_100.

Definition floatBelow (actual floor : float64) : bool :=
  f64_lt (f64_add actual f64_1e9inv) (f64_max floor f64_0).

(** ** Containers *)

Definition container_limits (c : object) : object := map_of (mget (map_of (mget c "resources")) "limits").
Definition container_requests (c : object) : object := map_of (mget (map_of (mget c "resources")) "requests").

Definition sumAdmissionGPUKeys (resources : object) : float64 :=
  fold_left (fun total kv => if isGPUResourceKey kv.1 then f64_add total (parseAdmissionGPU kv.2) else total)
    (map_to_list resources) f64_0.

Definition admissionContainerGPU (c : object) : float64 :=
  let total := sumAdmissionGPUKeys (container_limits c) in
  if f64_gt total f64_0 then total else sumAdmissionGPUKeys (container_requests c).

Definition admissionContainerCPU (c : object) : float64 :=
  let value := parseAdmissionCPU (mget (container_limits c) "cpu") in
  if f64_gt value f64_0 then value else parseAdmissionCPU (mget (container_requests c) "cpu").

Definition admissionContainerMemory (c : object) : Z :=
  let value := parseAdmissionMemory (mget (container_limits c) "memory") in
  if 0 <? value then value else parseAdmissionMemory (mget (container_requests c) "memory").

Definition sumAdmissionGPU (cs : list object) : float64 :=
  fold_left (fun s c => f64_add s (admissionContainerGPU c)) cs f64_0.
Definition maxAdmissionGPU (cs : list object) : float64 :=
  fold_left (fun m c => if f64_gt (admissionContainerGPU c) m then admissionContainerGPU c else m) cs f64_0.
Definition sumAdmissionCPU (cs : list object) : float64 :=
  fold_left (fun s c => f64_add s (admissionContainerCPU c)) cs f64_0.
Definition maxAdmissionCPU (cs : list object) : float64 :=
  fold_left (fun m c => if f64_gt (admissionContainerCPU c) m then admissionContainerCPU c else m) cs f64_0.
Definition sumAdmissionMemory (cs : list object) : Z :=
  fold_left (fun s c => i64 (s + admissionContainerMemory c)) cs 0.
Definition maxAdmissionMemory (cs : list object) : Z :=
  fold_left (fun m c => if m <? admissionContainerMemory c then admissionContainerMemory c else m) cs 0.

Definition containersFromSpec (podSpec : object) (key : string) : list object := mapItems (mget podSpec key).

(** ** Pod specs *)

Record podSpecAt := PodSpecAt { ps_path : string; ps_spec : object; ps_replicas : Z }.

Definition template_spec (spec : object) (replicas : Z) : option podSpecAt :=
  match mget spec "template" with
  | VMap template => match mget template "spec" with
                     | VMap podSpec => Some (PodSpecAt "/spec/template/spec" podSpec replicas)
                     | _ => None
                     end
  | _ => None
  end.

Definition admissionExtractPodSpec (obj : object) : option podSpecAt :=
  let kind := ToLower (stringField obj "kind") in
  match mget obj "spec" with
  | VMap spec =>
      if String.eqb kind "pod" then Some (PodSpecAt "/spec" spec 1)
      else if String.eqb kind "deployment" then template_spec spec (getInt64 (mget spec "replicas") 1)
      else if String.eqb kind "job" then template_spec spec (getInt64 (mget spec "parallelism") 1)
      else None
  | _ => None
  end.

Definition task_pod_spec (raw : any) : option object :=
  as_map (mget (map_of (mget (map_of raw) "template")) "spec").

Definition admissionVolcanoTaskPodSpecs (obj : object) : list object :=
  match mget (map_of (mget obj "spec")) "tasks" with
  | VList tasks => omap task_pod_spec tasks
  | _ => []
  end.

Definition admissionResourcePodSpecs (obj : object) : list object :=
  let single := match admissionExtractPodSpec obj with Some p => [ps_spec p] | None => [] end in
  if EqualFold (stringField obj "kind") "Job" then
    match admissionVolcanoTaskPodSpecs obj with
    | [] => single
    | tasks => tasks
    end
  else single.

(** ** Demand of one manifest *)

Definition claim_count (devices : object) : Z :=
  fold_left (fun n r => i64 (n + getInt64 (mget (map_of (mget r "exactly")) "count") 0))
    (mapItems (mget devices "requests")) 0.

Definition claim_config_pct (cfg : object) : Z :=
  let opaque := map_of (mget cfg "opaque") in
  let params := map_of (mget opaque "parameters") in
  let sharing := map_of (mget params "sharing") in
  let mps := map_of (mget sharing "mpsConfig") in
  getInt64 (mget mps "defaultActiveThreadPercentage") 0.

Definition claim_percentage (devices : object) : Z :=
  default 100 (List.find (fun pct => 0 <? pct) (map claim_config_pct (mapItems (mget devices "config")))).

Definition admissionResourceClaimGPUConfig (obj : object) : Z * Z :=
  let devices := map_of (mget (map_of (mget obj "spec")) "devices") in
  (claim_count devices, claim_percentage devices).

Definition admissionPayloadGPU (obj : object) : float64 :=
  let kind := stringField obj "kind" in
  if String.eqb kind "ResourceClaim" then
    let '(count, smPct) := admissionResourceClaimGPUConfig obj in gpuFraction count smPct
  else if String.eqb kind "ResourceClaimTemplate" then
    let claimSpec := map_of (mget (map_of (mget obj "spec")) "spec") in
    let '(count, smPct) := admissionResourceClaimGPUConfig {["spec" := VMap claimSpec]} in
    gpuFraction count smPct
  else match admissionExtractPodSpec obj with
       | None => f64_0
       | Some p =>
           let podGPU := sumAdmissionGPU (containersFromSpec (ps_spec p) "containers") in
           let initGPU := maxAdmissionGPU (containersFromSpec (ps_spec p) "initContainers") in
           f64_mul (if f64_gt initGPU podGPU then initGPU else podGPU) (f64_of_int (ps_replicas p))
       end.

Definition admissionPayloadCPU (obj : object) : float64 :=
  match admissionExtractPodSpec obj with
  | None => f64_0
  | Some p =>
      let podCPU := sumAdmissionCPU (containersFromSpec (ps_spec p) "containers") in
      let initCPU := maxAdmissionCPU (containersFromSpec (ps_spec p) "initContainers") in
      f64_mul (if f64_gt initCPU podCPU then initCPU else podCPU) (f64_of_int (ps_replicas p))
  end.

Definition admissionPayloadMemory (obj : object) : Z :=
  match admissionExtractPodSpec obj with
  | None => 0
  | Some p =>
      let podMemory := sumAdmissionMemory (containersFromSpec (ps_spec p) "containers") in
      let initMemory := maxAdmissionMemory (containersFromSpec (ps_spec p) "initContainers") in
      i64 ((if podMemory <? initMemory then initMemory else podMemory) * ps_replicas p)
  end.

(** ** Policies on manifests *)

Definition admissionObjectName (obj : object) : string :=
  stringField (map_of (mget obj "metadata")) "name".

Definition admissionResourceRawObject (p : admissionResourcePayload) : option object :=
  if str_empty (ar_Raw p) then None else unmarshal_object (ar_Raw p).

Definition admissionResourceKind (p : admissionResourcePayload) : string :=
  let fallback := TrimSpace (ar_Kind p) in
  match admissionResourceRawObject p with
  | Some obj => let kind := stringField obj "kind" in if str_empty kind then fallback else kind
  | None => fallback
  end.

Definition admissionResourceName (p : admissionResourcePayload) : string :=
  let fallback := TrimSpace (ar_Name p) in
  match admissionResourceRawObject p with
  | Some obj => let name := admissionObjectName obj in if str_empty name then fallback else name
  | None => fallback
  end.

(** The first host path of a runtime socket among some pod specs. *)
Fixpoint first_socket (specs : list object) : option string :=
  match specs with
  | [] => None
  | p :: ps => match RuntimeSocketHostPath p with Some s => Some s | None => first_socket ps end
  end.

Definition admissionRuntimeSocketPolicyViolationFromObject (obj : object)
    : option admissionRuntimeSocketPolicyViolation :=
  (fun path => SocketViolation (admissionObjectName obj) (stringField obj "kind") path
                 (runtimeSocketPolicyReason path)) <$> first_socket (admissionResourcePodSpecs obj).

Fixpoint socket_violation_in (ps : list admissionResourcePayload)
    : option admissionRuntimeSocketPolicyViolation :=
  match ps with
  | [] => None
  | p :: ps' =>
      match admissionResourceRawObject p ≫= admissionRuntimeSocketPolicyViolationFromObject with
      | Some v => Some (SocketViolation (FirstNonEmpty [kv_ResourceName v; admissionResourceName p])
                          (FirstNonEmpty [kv_ResourceKind v; admissionResourceKind p])
                          (kv_SocketPath v) (kv_Reason v))
      | None => socket_violation_in ps'
      end
  end.

Definition admissionRuntimeSocketPolicyViolationFromRequest (req : submitAdmissionRequest)
    : option admissionRuntimeSocketPolicyViolation := socket_violation_in (Resources req).

Definition secret_violation (p : admissionResourcePayload) : admissionSecretPolicyViolation :=
  SecretViolation (admissionResourceName p)
    (FirstNonEmpty [admissionResourceKind p; ar_Kind p]) rawSecretPolicyReason.

Definition admissionSecretPolicyViolationFromRequest (req : submitAdmissionRequest)
    : option admissionSecretPolicyViolation :=
  secret_violation <$> List.find (fun p => EqualFold (admissionResourceKind p) "Secret") (Resources req).

Definition unsupportedKinds : list string :=
  ["cronjob"; "daemonset"; "statefulset"; "replicaset"; "replicationcontroller"].

(** The error's text; the violation types print their reason. *)
Definition rejectUnsupportedAdmissionKind (obj : object) : result string unit :=
  match admissionRuntimeSocketPolicyViolationFromObject obj with
  | Some v => Err (kv_Reason v)
  | None =>
      let kind := stringField obj "kind" in
      if String.eqb (ToLower kind) "secret" then Err rawSecretPolicyReason
      else if bool_decide (ToLower kind ∈ unsupportedKinds)
      then Err (sprintf "unsupported workload kind %s for job submit; use Pod, Deployment, or Job" [VString kind])
      else Ok tt
  end.

(** ** The floor *)

Definition validateAdmissionResourceAccounting (req : submitAdmissionRequest) : result string unit :=
  if f64_lt (RequiredGPU req) f64_0 then Err "required GPU must be non-negative"
  else if f64_lt (RequiredCPU req) f64_0 then Err "required CPU must be non-negative"
  else if RequiredMemory req <? 0 then Err "required memory must be non-negative"
  else if GPUCount req <? 0 then Err "DRA GPU count must be non-negative"
  else if match SMPercentage req with Some sm => (sm <? 1) || (100 <? sm) | None => false end
  then Err "DRA SM percentage must be between 1 and 100"
  else match PinnedMemoryLimit req with
       | Some text => match parse_quantity text with
                      | Some _ => Ok tt
                      | None => Err (sprintf "invalid DRA pinned memory limit %q: %w" [VString text])
                      end
       | None => Ok tt
       end.

Fixpoint floor_of_payloads (ps : list admissionResourcePayload) (floor : admissionResourceFloor)
    : result string admissionResourceFloor :=
  match ps with
  | [] => Ok floor
  | p :: ps' =>
      if str_empty (ar_Raw p) then floor_of_payloads ps' floor
      else match unmarshal_object (ar_Raw p) with
           | None => Err (sprintf "parse resource %s for submit resource policy: %w" [VString (ar_Name p)])
           | Some obj =>
               rejectUnsupportedAdmissionKind obj ;;?
               floor_of_payloads ps'
                 (Floor (f64_add (fl_gpu floor) (admissionPayloadGPU obj))
                        (f64_add (fl_cpu floor) (admissionPayloadCPU obj))
                        (i64 (fl_memoryMB floor + admissionPayloadMemory obj)))
           end
  end.

Definition admissionResourceFloorFromRequest (req : submitAdmissionRequest)
    : result string admissionResourceFloor :=
  validateAdmissionResourceAccounting req ;;?
  floor <-? floor_of_payloads (Resources req) (Floor f64_0 f64_0 0) ;;
  if 0 <? GPUCount req then
    let draFloor := f64_div (f64_mul (f64_of_int (GPUCount req))
                               (f64_of_int (default 100 (SMPercentage req)))) f64_100 in
    Ok (if f64_gt draFloor (fl_gpu floor) then Floor draFloor (fl_cpu floor) (fl_memoryMB floor) else floor)
  else Ok floor.

(** The GPUs the request claims through DRA, a shared one counted by its fraction. *)
Definition gpu_claim (gpuCount : Z) (smPercentage : option Z) : float64 :=
  f64_div (f64_mul (f64_of_int gpuCount) (f64_of_int (default 100 smPercentage))) f64_100.

Definition enforceAdmissionResourceFloor (req : submitAdmissionRequest) (floor : admissionResourceFloor)
    : result string unit :=
  if floatBelow (RequiredGPU req) (fl_gpu floor)
  then Err (sprintf "declared GPU %.2f is lower than payload GPU %.2f" [VFloat64 (RequiredGPU req); VFloat64 (fl_gpu floor)])
  else if floatBelow (RequiredCPU req) (fl_cpu floor)
  then Err (sprintf "declared CPU %.2f is lower than payload CPU %.2f" [VFloat64 (RequiredCPU req); VFloat64 (fl_cpu floor)])
  else if RequiredMemory req <? fl_memoryMB floor
  then Err (sprintf "declared memory %dMi is lower than payload memory %dMi" [VInt (RequiredMemory req); VInt (fl_memoryMB floor)])
  else Ok tt.

(** ** Properties *)

(** A manifest the policies let through: no pod spec of it, Volcano tasks
    included, mounts a container runtime socket, and its kind is neither Secret
    nor one of the unsupported controllers. *)
Definition manifest_ok (obj : object) : Prop :=
  Forall (fun spec => Forall (fun v => volume_host_path v ∉ containerRuntimeSocketPaths)
                        (mapItems (mget spec "volumes"))) (admissionResourcePodSpecs obj) /\
  ToLower (stringField obj "kind") ≠ "secret" /\ ToLower (stringField obj "kind") ∉ unsupportedKinds.

Lemma first_socket_none specs :
  first_socket specs = None <->
  Forall (fun spec => Forall (fun v => volume_host_path v ∉ containerRuntimeSocketPaths)
                        (mapItems (mget spec "volumes"))) specs.
Proof.
  induction specs as [|p ps IH]; cbn.
  - split; [constructor|done].
  - rewrite Forall_cons, <- RuntimeSocketHostPath_spec.
    destruct (RuntimeSocketHostPath p); [|rewrite IH]; intuition congruence.
Qed.

Lemma rejectUnsupportedAdmissionKind_ok obj :
  rejectUnsupportedAdmissionKind obj = Ok tt <-> manifest_ok obj.
Proof.
  unfold rejectUnsupportedAdmissionKind, admissionRuntimeSocketPolicyViolationFromObject, manifest_ok.
  rewrite <- first_socket_none. destruct (first_socket _); cbn; [split; [done|naive_solver]|].
  destruct (String.eqb_spec (ToLower (stringField obj "kind")) "secret") as [->|Hs]; cbn; [split; [done|naive_solver]|].
  case_bool_decide; split; naive_solver.
Qed.

(** The objects of the submitted manifests that carry a body. *)
Definition payload_objects (ps : list admissionResourcePayload) : list object :=
  omap admissionResourceRawObject ps.

Definition memory_demand (objs : list object) : Z :=
  foldr (fun o n => admissionPayloadMemory o + n) 0 objs.

Lemma i64_add_l a b : i64 (i64 a + b) = i64 (a + b).
Proof.
  unfold i64. f_equal.
  replace ((a + two63) mod two64 - two63 + b + two63) with ((a + two63) mod two64 + b) by lia.
  rewrite Zplus_mod_idemp_l. f_equal. lia.
Qed.

Lemma floor_of_payloads_ok ps : forall f f',
  floor_of_payloads ps f = Ok f' ->
  Forall manifest_ok (payload_objects ps) /\
  i64 (fl_memoryMB f') = i64 (fl_memoryMB f + memory_demand (payload_objects ps)).
Proof.
  unfold payload_objects, admissionResourceRawObject.
  induction ps as [|p ps IH]; intros f f'; cbn [floor_of_payloads omap list_omap].
  - intros [= <-]. split; [constructor|]. cbn. f_equal. lia.
  - destruct (str_empty (ar_Raw p)); [apply IH|].
    destruct (unmarshal_object (ar_Raw p)) as [obj|]; [|done].
    intros (u & Hk & Hf)%res_bind_ok. destruct u.
    apply rejectUnsupportedAdmissionKind_ok in Hk. apply IH in Hf as [Hok Hm].
    split; [by constructor|]. rewrite Hm. cbn [fl_memoryMB memory_demand foldr].
    rewrite i64_add_l. f_equal. unfold memory_demand. lia.
Qed.

(** The CPU and GPU of the floor are the sums over the manifests, in order, and the
    memory of the floor stays within its width. *)
Definition cpu_demand (objs : list object) (start : float64) : float64 :=
  fold_left (fun s o => f64_add s (admissionPayloadCPU o)) objs start.
Definition gpu_demand (objs : list object) (start : float64) : float64 :=
  fold_left (fun s o => f64_add s (admissionPayloadGPU o)) objs start.

Lemma floor_of_payloads_sums ps : forall f f',
  floor_of_payloads ps f = Ok f' -> in_i64 (fl_memoryMB f) ->
  fl_cpu f' = cpu_demand (payload_objects ps) (fl_cpu f) /\ fl_gpu f' = gpu_demand (payload_objects ps) (fl_gpu f) /\
  in_i64 (fl_memoryMB f').
Proof.
  unfold payload_objects, admissionResourceRawObject.
  induction ps as [|p ps IH]; intros f f'; cbn [floor_of_payloads omap list_omap]; [by intros [= <-]|].
  destruct (str_empty (ar_Raw p)); [apply IH|].
  destruct (unmarshal_object (ar_Raw p)) as [obj|]; [|done].
  intros (u & _ & Hf)%res_bind_ok _. apply IH in Hf; [done|]. apply i64_range.
Qed.

(** Every manifest with a body parsed. *)
Lemma floor_of_payloads_parsed ps : forall f f',
  floor_of_payloads ps f = Ok f' ->
  Forall (fun p => ar_Raw p = "" \/ is_Some (unmarshal_object (ar_Raw p))) ps.
Proof.
  induction ps as [|p ps IH]; intros f f'; cbn; [constructor|]. unfold str_empty.
  destruct (String.eqb_spec (ar_Raw p) ""); [intros Hf; constructor; [by left|by eapply IH]|].
  destruct (unmarshal_object (ar_Raw p)) as [obj|] eqn:E; [|done].
  intros (u & _ & Hf)%res_bind_ok. constructor; [right; eauto|by eapply IH].
Qed.

Lemma admissionResourceFloorFromRequest_ok req floor :
  admissionResourceFloorFromRequest req = Ok floor ->
  validateAdmissionResourceAccounting req = Ok tt /\
  exists f, floor_of_payloads (Resources req) (Floor f64_0 f64_0 0) = Ok f /\
    fl_memoryMB floor = fl_memoryMB f /\ fl_cpu floor = fl_cpu f /\
    fl_gpu floor = (if (0 <? GPUCount req) && f64_gt (gpu_claim (GPUCount req) (SMPercentage req)) (fl_gpu f)
                    then gpu_claim (GPUCount req) (SMPercentage req) else fl_gpu f).
Proof.
  unfold admissionResourceFloorFromRequest. intros ([] & Hv & (f & Hf & HH)%res_bind_ok)%res_bind_ok.
  split; [done|]. exists f. split; [done|]. fold (gpu_claim (GPUCount req) (SMPercentage req)) in HH.
  destruct (0 <? GPUCount req); [|by simplify_eq]. cbn [andb]. destruct (f64_gt _ _); by simplify_eq.
Qed.

Lemma enforceAdmissionResourceFloor_ok req floor :
  enforceAdmissionResourceFloor req floor = Ok tt <->
  floatBelow (RequiredGPU req) (fl_gpu floor) = false /\
  floatBelow (RequiredCPU req) (fl_cpu floor) = false /\ fl_memoryMB floor <= RequiredMemory req.
Proof.
  unfold enforceAdmissionResourceFloor.
  destruct (floatBelow _ (fl_gpu floor)); [split; [done|naive_solver]|].
  destruct (floatBelow _ (fl_cpu floor)); [split; [done|naive_solver]|].
  destruct (Z.ltb_spec (RequiredMemory req) (fl_memoryMB floor)); split; try done; naive_solver lia.
Qed.

Lemma validateAdmissionResourceAccounting_ok req :
  validateAdmissionResourceAccounting req = Ok tt ->
  f64_lt (RequiredGPU req) f64_0 = false /\ f64_lt (RequiredCPU req) f64_0 = false /\
  0 <= RequiredMemory req /\ 0 <= GPUCount req /\
  (forall sm, SMPercentage req = Some sm -> 1 <= sm <= 100) /\
  (forall t, PinnedMemoryLimit req = Some t -> is_Some (parse_quantity t)).
Proof.
  unfold validateAdmissionResourceAccounting.
  destruct (f64_lt (RequiredGPU req) f64_0); [done|]. destruct (f64_lt (RequiredCPU req) f64_0); [done|].
  destruct (Z.ltb_spec (RequiredMemory req) 0); [done|]. destruct (Z.ltb_spec (GPUCount req) 0); [done|].
  destruct (SMPercentage req) as [sm|]; [destruct (Z.ltb_spec sm 1), (Z.ltb_spec 100 sm); cbn; try done|].
  all: destruct (PinnedMemoryLimit req) as [t|]; [destruct (parse_quantity t) eqn:E; [|done]|];
    intros _; split_and!; try done; try lia; intros ? [= <-]; rewrite ?E; try lia; eauto.
Qed.

(** ** Memory of one pod *)

Lemma sum_memory_acc cs acc :
  fold_left (fun s c => i64 (s + admissionContainerMemory c)) cs (i64 acc) =
  i64 (acc + foldr (fun c n => admissionContainerMemory c + n) 0 cs).
Proof.
  revert acc. induction cs as [|c cs IH]; intros acc; cbn; [f_equal; lia|].
  rewrite i64_add_l, IH. f_equal. lia.
Qed.

(** The running sum is the sum of the containers, wrapped once. *)
Lemma sumAdmissionMemory_spec cs :
  sumAdmissionMemory cs = i64 (foldr (fun c n => admissionContainerMemory c + n) 0 cs).
Proof. apply (sum_memory_acc cs 0). Qed.

Lemma max_memory_acc cs acc :
  let m := fold_left (fun m c => if m <? admissionContainerMemory c then admissionContainerMemory c else m) cs acc in
  acc <= m /\ Forall (fun c => admissionContainerMemory c <= m) cs.
Proof.
  revert acc. induction cs as [|c cs IH]; intros acc; cbn; [split; [lia|constructor]|].
  destruct (IH (if acc <? admissionContainerMemory c then admissionContainerMemory c else acc)) as [H1 H2].
  split; [|constructor; [|done]]; destruct (Z.ltb_spec acc (admissionContainerMemory c)); lia.
Qed.

(** A pod's memory demand covers its start-up and its running phase: away from
    overflow it is at least the sum of its containers and at least each init
    container, times the replicas. *)
Theorem pod_memory_covers obj p :
  admissionExtractPodSpec obj = Some p ->
  let run := foldr (fun c n => admissionContainerMemory c + n) 0 (containersFromSpec (ps_spec p) "containers") in
  in_i64 run -> 0 <= ps_replicas p ->
  (forall m, m = Z.max run (maxAdmissionMemory (containersFromSpec (ps_spec p) "initContainers")) ->
     in_i64 (m * ps_replicas p) ->
     run * ps_replicas p <= admissionPayloadMemory obj /\
     Forall (fun c => admissionContainerMemory c * ps_replicas p <= admissionPayloadMemory obj)
       (containersFromSpec (ps_spec p) "initContainers")).
Proof.
  intros Hp run Hrun Hrep m Hm Hr. unfold admissionPayloadMemory. rewrite Hp, sumAdmissionMemory_spec.
  fold run. rewrite (i64_id run) by done.
  destruct (max_memory_acc (containersFromSpec (ps_spec p) "initContainers") 0) as [_ Hmax].
  fold (maxAdmissionMemory (containersFromSpec (ps_spec p) "initContainers")) in Hmax.
  set (mx := maxAdmissionMemory _) in *.
  replace (if run <? mx then mx else run) with m by (destruct (Z.ltb_spec run mx); lia).
  rewrite i64_id by done. split; [nia|]. eapply Forall_impl; [exact Hmax|]. cbn. nia.
Qed.

(** ** What manifests ask for, on Kubernetes' terms *)

(** The value at a path of keys. *)
Definition at_path (obj : object) (path : list string) : any := fold_left (fun v k => mget (map_of v) k) path (VMap obj).

(** A memory quantity in bytes: a number, or a text with a unit. *)
Definition memory_bytes (v : any) : Z :=
  match v with
  | VString text => match parse_quantity text with Some q => q_Value q | None => 0 end
  | VInt n | VInt64 n => n
  | VFloat64 f => f64_to_int f
  | _ => 0
  end.
Definition requested_bytes (c : object) : Z := memory_bytes (at_path c ["resources"; "requests"; "memory"]).
Definition limit_bytes (c : object) : Z := memory_bytes (at_path c ["resources"; "limits"; "memory"]).

(** The pods a manifest makes: how many, and their specification.  A count that is not given
    is one; other kinds make none. *)
Definition pods_of (obj : object) : Z * any :=
  let count key := match at_path obj ["spec"; key] with VInt n | VInt64 n => n | VFloat64 f => f64_to_int f | _ => 1 end in
  let kind := ToLower (stringField obj "kind") in
  if String.eqb kind "pod" then (1, at_path obj ["spec"])
  else if String.eqb kind "deployment" then (count "replicas", at_path obj ["spec"; "template"; "spec"])
  else if String.eqb kind "job" then (count "parallelism", at_path obj ["spec"; "template"; "spec"])
  else (0, VNil).
Definition pod_containers (spec : any) (key : string) : list object := mapItems (mget (map_of spec) key).

Definition sum_of {A} (f : A -> Z) (l : list A) : Z := foldr (fun x n => f x + n) 0 l.
Definition max_of {A} (f : A -> Z) (l : list A) : Z := foldr (fun x n => Z.max (f x) n) 0 l.

(** The MiB its pods have reserved when they run, and before that while the init containers
    run one after the other. *)
Definition reserved_mb (c : object) : Z := requested_bytes c / 1048576.
Definition reserved_memory (obj : object) : Z :=
  let '(n, spec) := pods_of obj in
  n * Z.max (sum_of reserved_mb (pod_containers spec "containers")) (max_of reserved_mb (pod_containers spec "initContainers")).

(** The bytes of all its containers, requests and limits. *)
Definition container_bytes (c : object) : Z := Z.max (requested_bytes c) (limit_bytes c).
Definition manifest_bytes (obj : object) : Z :=
  let '(n, spec) := pods_of obj in
  n * (sum_of container_bytes (pod_containers spec "containers") + sum_of container_bytes (pod_containers spec "initContainers")).

(** A manifest as the cluster accepts it - counts and requests are not negative, and a limit is
    not below its request - that has no Volcano tasks. *)
Definition container_plain (c : object) : Prop := 0 <= requested_bytes c /\ (limit_bytes c = 0 \/ requested_bytes c <= limit_bytes c).
Definition plain_manifest (obj : object) : Prop :=
  let '(n, spec) := pods_of obj in
  0 <= n /\ at_path obj ["spec"; "tasks"] = VNil /\
  Forall container_plain (pod_containers spec "containers") /\ Forall container_plain (pod_containers spec "initContainers").

Lemma parse_bytes v : 0 <= memory_bytes v -> memory_bytes v / 1048576 <= parseAdmissionMemory v <= memory_bytes v.
Proof.
  unfold memory_bytes, parseAdmissionMemory. intros H0.
  assert (forall z, 0 <= z -> z / 1048576 <= z) as Hd by (intros z Hz; apply Z.div_le_upper_bound; lia).
  destruct v; try (split; [by apply Hd|lia]); try (cbn; lia).
  destruct (parse_quantity _) as [q|]; [|split; [by apply Hd|lia]]. change (1024 * 1024) with 1048576. rewrite Z.quot_div_nonneg by lia. split; [lia|by apply Hd].
Qed.

Lemma container_covered c : container_plain c -> reserved_mb c <= admissionContainerMemory c <= container_bytes c /\ 0 <= admissionContainerMemory c.
Proof.
  intros [Hr Hl]. unfold admissionContainerMemory, reserved_mb, container_bytes. unfold requested_bytes, limit_bytes in *.
  change (mget (container_limits c) "memory") with (at_path c ["resources"; "limits"; "memory"]).
  change (mget (container_requests c) "memory") with (at_path c ["resources"; "requests"; "memory"]).
  set (lim := at_path c ["resources"; "limits"; "memory"]) in *. set (req := at_path c ["resources"; "requests"; "memory"]) in *.
  pose proof (parse_bytes req Hr) as [Hq1 Hq2]. pose proof (parse_bytes lim ltac:(lia)) as [Hl1 Hl2].
  pose proof (Z.div_pos (memory_bytes req) 1048576 Hr ltac:(lia)).
  destruct (Z.ltb_spec 0 (parseAdmissionMemory lim)); [|lia].
  destruct Hl as [Hl|Hl]; [lia|]. pose proof (Z.div_le_mono _ _ 1048576 ltac:(lia) Hl). lia.
Qed.

Lemma sum_of_le {A} (f g : A -> Z) l : Forall (fun x => f x <= g x) l -> sum_of f l <= sum_of g l.
Proof. unfold sum_of. induction 1; cbn; lia. Qed.
Lemma sum_of_pos {A} (f : A -> Z) l : Forall (fun x => 0 <= f x) l -> 0 <= sum_of f l.
Proof. unfold sum_of. induction 1; cbn; lia. Qed.

Lemma max_memory_of cs : Forall (fun c => 0 <= admissionContainerMemory c) cs ->
  max_of admissionContainerMemory cs <= maxAdmissionMemory cs <= sum_of admissionContainerMemory cs.
Proof.
  intros Hp. unfold maxAdmissionMemory.
  enough (forall acc, 0 <= acc -> let m := fold_left (fun m c => if m <? admissionContainerMemory c then admissionContainerMemory c else m) cs acc in
    Z.max acc (max_of admissionContainerMemory cs) <= m <= acc + sum_of admissionContainerMemory cs) as Hm by (specialize (Hm 0 ltac:(lia)); cbn zeta in Hm; lia).
  unfold max_of, sum_of. induction Hp as [|c cs Hc _ IH]; intros acc Ha; cbn; [lia|].
  destruct (Z.ltb_spec acc (admissionContainerMemory c)) as [Hlt|Hge]; [specialize (IH (admissionContainerMemory c) ltac:(lia))|specialize (IH acc Ha)]; cbn zeta in IH; lia.
Qed.
Lemma max_of_le {A} (f g : A -> Z) l : Forall (fun x => f x <= g x) l -> max_of f l <= max_of g l.
Proof. unfold max_of. induction 1; cbn; lia. Qed.

(** The pods the floor counts are those the manifest makes. *)
Lemma pods_counted obj :
  match admissionExtractPodSpec obj with
  | Some p => (pods_of obj).1 = ps_replicas p /\ forall key, pod_containers (pods_of obj).2 key = containersFromSpec (ps_spec p) key
  | None => forall key, pod_containers (pods_of obj).2 key = []
  end.
Proof.
  unfold admissionExtractPodSpec, pods_of, pod_containers, containersFromSpec. cbn zeta. unfold at_path. cbn [fold_left].
  change (map_of (VMap obj)) with obj. destruct (String.eqb _ "pod"); [|destruct (String.eqb _ "deployment"); [|destruct (String.eqb _ "job")]].
  - by destruct (mget obj "spec").
  - cbn [snd fst]. destruct (mget obj "spec") as [| | | | | | | | | | | | |spec|]; try done. unfold template_spec. change (map_of (VMap spec)) with spec.
    destruct (mget spec "template") as [| | | | | | | | | | | | |template|]; try done. change (map_of (VMap template)) with template.
    by destruct (mget template "spec").
  - cbn [snd fst]. destruct (mget obj "spec") as [| | | | | | | | | | | | |spec|]; try done. unfold template_spec. change (map_of (VMap spec)) with spec.
    destruct (mget spec "template") as [| | | | | | | | | | | | |template|]; try done. change (map_of (VMap template)) with template.
    by destruct (mget template "spec").
  - by destruct (mget obj "spec").
Qed.

(** The floor of a manifest is at least what its pods reserve. *)
Lemma manifest_covered obj : plain_manifest obj -> manifest_bytes obj < two63 ->
  reserved_memory obj <= admissionPayloadMemory obj <= manifest_bytes obj /\ 0 <= admissionPayloadMemory obj.
Proof.
  unfold plain_manifest, manifest_bytes, reserved_memory, admissionPayloadMemory. pose proof (pods_counted obj) as Hpods.
  destruct (pods_of obj) as [n spec]. cbn [fst snd] in Hpods. intros (Hn & _ & Hc & Hi) Hfit.
  destruct (admissionExtractPodSpec obj) as [p|]; [destruct Hpods as [-> Hpods]|rewrite !Hpods in *; cbn; lia]. rewrite !Hpods in *.
  set (cs := containersFromSpec (ps_spec p) "containers") in *. set (is_ := containersFromSpec (ps_spec p) "initContainers") in *. clearbody cs is_.
  assert (forall l, Forall container_plain l -> sum_of reserved_mb l <= sum_of admissionContainerMemory l <= sum_of container_bytes l /\
    0 <= sum_of admissionContainerMemory l /\ max_of reserved_mb l <= max_of admissionContainerMemory l /\ Forall (fun c => 0 <= admissionContainerMemory c) l) as HL.
  { intros l Hl. split_and!; [apply sum_of_le|apply sum_of_le|apply sum_of_pos|apply max_of_le|]; (eapply Forall_impl; [exact Hl|]); intros c Hp%container_covered; lia. }
  destruct (HL cs Hc) as ([C1 C2] & C3 & _ & _), (HL is_ Hi) as ([I1 I2] & I3 & I4 & I5). pose proof (max_memory_of is_ I5) as [M1 M2].
  destruct (Z.eq_dec (ps_replicas p) 0) as [E0|E0].
  { rewrite E0 in *. rewrite !Z.mul_0_r, !Z.mul_0_l. change (i64 0) with 0. lia. }
  assert (sum_of container_bytes cs + sum_of container_bytes is_ < two63) as Hs by nia.
  rewrite sumAdmissionMemory_spec. change (foldr (fun c k => admissionContainerMemory c + k) 0 cs) with (sum_of admissionContainerMemory cs).
  rewrite (i64_id (sum_of admissionContainerMemory cs)) by (unfold in_i64, two63 in *; lia).
  set (m := if _ <? _ then _ else _). assert (m = Z.max (sum_of admissionContainerMemory cs) (maxAdmissionMemory is_)) as Hm
    by (unfold m; destruct (Z.ltb_spec (sum_of admissionContainerMemory cs) (maxAdmissionMemory is_)); lia).
  assert (m <= sum_of container_bytes cs + sum_of container_bytes is_) as Hmb by lia.
  rewrite i64_id by (unfold in_i64, two63 in *; nia). nia.
Qed.

Lemma manifests_covered objs : Forall plain_manifest objs -> sum_of manifest_bytes objs < two63 ->
  sum_of reserved_memory objs <= memory_demand objs <= sum_of manifest_bytes objs /\ 0 <= memory_demand objs.
Proof.
  assert (forall obj, plain_manifest obj -> 0 <= manifest_bytes obj) as Hpos.
  { intros obj. unfold plain_manifest, manifest_bytes. destruct (pods_of obj) as [n spec]. intros (Hn & _ & Hc & Hi). apply Z.mul_nonneg_nonneg; [done|].
    apply Z.add_nonneg_nonneg; apply sum_of_pos; (eapply Forall_impl; [eassumption|]); intros c [? ?]; unfold container_bytes; lia. }
  induction 1 as [|obj objs Ho Hos IH]; cbn [sum_of memory_demand foldr]; [unfold sum_of, memory_demand; cbn; lia|]. intros Hfit.
  pose proof (Hpos obj Ho). assert (0 <= sum_of manifest_bytes objs) by (apply sum_of_pos; by eapply Forall_impl).
  unfold sum_of in Hfit |- *. cbn [foldr] in Hfit |- *. fold (sum_of manifest_bytes objs) in Hfit |- *. fold (sum_of reserved_memory objs). fold (memory_demand objs).
  destruct (manifest_covered obj Ho ltac:(lia)). destruct (IH ltac:(lia)). lia.
Qed.

End Resources.

(** ** Where the floor does not bind *)

Section Escapes.

Definition one_container (memory : Z) : object :=
  {["containers" := VList [VMap {["resources" := VMap {["limits" := VMap {["memory" := VInt memory]}]}]}]]}.

Definition pod_object (memory : Z) : object :=
  {["kind" := VString "Pod"; "spec" := VMap (one_container memory)]}.
Definition deployment_object (memory replicas : Z) : object :=
  {["kind" := VString "Deployment";
    "spec" := VMap {["replicas" := VInt replicas; "template" := VMap {["spec" := VMap (one_container memory)]}]}]}.
Definition volcano_object (memory : Z) : object :=
  {["kind" := VString "Job";
    "spec" := VMap {["tasks" := VList [VMap {["template" := VMap {["spec" := VMap (one_container memory)]}]}]]}]}.

(** A library in which the three texts decode to the three manifests. *)
Definition escape_lib : GoLib := {|
  parse_quantity _ := None; parse_float _ := None; parse_int64 _ := None; parse_rfc3339 _ := None;
  format_rfc3339 _ := ""; time_string _ := "";
  unmarshal_object t :=
    if String.eqb t "pod" then Some (pod_object 4096)
    else if String.eqb t "neg" then Some (deployment_object 4096 (-1))
    else if String.eqb t "vc" then Some (volcano_object 4096) else None;
  unmarshal_objects _ := None; unmarshal_strings _ := None; marshal _ := None; sprint _ := "";
  sprintf f _ := f; sha256_hex s := s |}.

Definition floor_memory (texts : list string) : result string Z :=
  match @floor_of_payloads escape_lib (map (Payload "" "") texts) (Floor f64_0 f64_0 0) with
  | Ok f => Ok (fl_memoryMB f)
  | Err e => Err e
  end.

(** The floor can be lowered by a manifest: a Deployment with a negative
    replica count contributes a negative demand, so a 4096 MiB pod submitted next
    to one demands nothing. *)
Theorem negative_replicas_lower_floor :
  floor_memory ["pod"] = Ok 4096 /\ floor_memory ["pod"; "neg"] = Ok 0.
Proof. split; vm_compute; reflexivity. Qed.

(** Volcano task templates escape the floor: the socket and image guards walk
    the pod specs of a Volcano Job's tasks, the resource floor does not, so such
    a job demands no memory whatever its tasks ask for. *)
Theorem volcano_tasks_escape_floor :
  floor_memory ["vc"] = Ok 0 /\
  @admissionResourcePodSpecs (volcano_object 4096) = [one_container 4096] /\
  (forall lib : GoLib, sumAdmissionMemory (containersFromSpec (one_container 4096) "containers") = 4096).
Proof. repeat split; intros; vm_compute; reflexivity. Qed.

End Escapes.

Lemma pod_memory_covers_witness :
  4096 * 2 <= @admissionPayloadMemory escape_lib (deployment_object 4096 2).
Proof.
  pose proof (@pod_memory_covers escape_lib (deployment_object 4096 2)
    (PodSpecAt "/spec/template/spec" (one_container 4096) 2) ltac:(vm_compute; reflexivity)) as H.
  cbn zeta in H. refine (proj1 (H _ _ 4096 _ _)); vm_compute; try reflexivity; try (split; congruence); congruence.
Defined.
