(* ===== verification/AdmissionPlan.v ===== *)
(** * Submit admission: plan, project access and queue
    (admission_planwindow.go, first half of admission_quota.go,
    resolveSubmitAdmissionContext of admission.go) *)

From stdpp Require Import base gmap strings list fin_maps.
From Stdlib Require Import ZArith Lia.
From S2P Require Import Prelude GoValue Store Crud AdmissionTypes.
Local Open Scope Z_scope.
Local Open Scope go_scope.

(** ** Plan windows *)

Definition nanos_per_second : Z := 1000000000.

(** [t.UTC().Weekday()], Sunday being 0: the epoch was a Thursday. *)
Definition weekday (secs : Z) : Z := (secs / 86400 + 4) mod 7.

Definition admissionWeekSecond (t : Z) : Z :=
  let secs := t / nanos_per_second in
  let day := secs mod 86400 in
  let wd := (weekday secs + 6) mod 7 in
  wd * 86400 + (day / 3600) * 3600 + (day mod 3600 / 60) * 60 + day mod 60.

Definition window_contains (second : Z) (window : object) : bool :=
  let start := getInt64 (firstValue window ["start"; "Start"]) (-1) in
  let end_ := getInt64 (firstValue window ["end"; "End"]) (-1) in
  (0 <=? start) && (start <? end_) && (end_ <=? 604800) && (start <=? second) && (second <? end_).

Definition admissionWeekWindowsContain (windows : list object) (now : Z) : bool :=
  match windows with
  | [] => true
  | _ => existsb (window_contains (admissionWeekSecond now)) windows
  end.

Section Plan.
Context `{GoLib}.

Definition admissionWeekWindows (data : object) : list object :=
  match firstPresent data ["week_windows"; "weekWindows"; "WeekWindows"] with
  | Some (VMaps windows) => windows
  | Some (VList items) => omap as_map items
  | Some (VString text) => if str_empty (TrimSpace text) then [] else default [] (unmarshal_objects text)
  | _ => []
  end.

Definition time_of (v : any) : option Z :=
  match v with
  | VTime t _ => Some t
  | VString s => if str_empty (TrimSpace s) then None else parse_rfc3339 s
  | _ => None
  end.

Definition admissionTimeValue (data : object) (keys : list string) : option Z := first_key time_of data keys.

Definition admissionPlanActive (data : object) (now : Z) : bool :=
  if match admissionTimeValue data ["valid_from"; "validFrom"; "ValidFrom"] with
     | Some from => now <? from | None => false end then false
  else if match admissionTimeValue data ["valid_until"; "validUntil"; "ValidUntil"] with
          | Some until => until <? now | None => false end then false
  else admissionWeekWindowsContain (admissionWeekWindows data) now.

Fixpoint admissionStringList (data : object) (keys : list string) : list string :=
  match keys with
  | [] => []
  | k :: ks =>
      match StringSlice (mget data k) with
      | Some values => values
      | None =>
          let text := TextValue data [k] in
          match (if str_empty text then None else unmarshal_strings text) with
          | Some decoded => decoded
          | None => admissionStringList data ks
          end
      end
  end.

Context `{admissionReader}.

Definition admissionProjectPlan (project : record) (now : Z) : result admissionDeny record :=
  let planID := TextValue (rec_Data project) ["plan_id"; "planId"; "resource_plan_id"; "resourcePlanId"] in
  if str_empty planID then deny StatusForbidden "project has no active resource plan"
  else match rd_Plan planID with
       | Some plan => if admissionPlanActive (rec_Data plan) now then Ok plan
                      else deny StatusForbidden "project has no active resource plan"
       | None => deny StatusForbidden "project has no active resource plan"
       end.

(** ** Project access *)

Definition recordHasFields (r : option record) : bool :=
  match r with Some rc => negb (bool_decide (rec_Data rc = ∅)) | None => false end.

Definition projectMemberKey (projectID userID : string) : string := projectID +:+ "/" +:+ userID.

Definition member_matches (projectID userID : string) (m : record) : bool :=
  String.eqb (TextValue (rec_Data m) ["project_id"; "projectId"]) projectID &&
  String.eqb (TextValue (rec_Data m) ["user_id"; "userId"]) userID &&
  negb (str_empty (TextValue (rec_Data m) ["role"; "Role"])).

Definition group_matches (groupID userID : string) (g : record) : bool :=
  String.eqb (TextValue (rec_Data g) ["group_id"; "groupId"; "GID"; "g_id"]) groupID &&
  String.eqb (TextValue (rec_Data g) ["user_id"; "userId"; "UID"; "u_id"]) userID &&
  negb (str_empty (TextValue (rec_Data g) ["role"; "Role"])).

Definition admissionUserInGroup (groupID userID : string) : bool :=
  existsb (group_matches groupID userID) rd_ListUserGroups.

Definition requireAdmissionProjectAccess (project : record) (userID : string) : result admissionDeny unit :=
  let ownerID := TextValue (rec_Data project) ["owner_id"; "ownerId"; "GID"; "g_id"] in
  if String.eqb userID (TextValue (rec_Data project) ["personal_user_id"; "personalUserId"]) then Ok tt
  else if recordHasFields (rd_ProjectMember (projectMemberKey (rec_ID project) userID)) then Ok tt
  else if existsb (member_matches (rec_ID project) userID) rd_ListProjectMembers then Ok tt
  else if negb (str_empty ownerID) && admissionUserInGroup ownerID userID then Ok tt
  else deny StatusForbidden "project access required for submit".

(** ** Queue *)

Definition queue_id_matches (queueName queueID : string) : bool :=
  String.eqb queueID queueName ||
  match rd_Queue queueID with
  | Some q => String.eqb (TextValue (rec_Data q) ["name"]) queueName
  | None => false
  end.

Definition admissionQueueAllowed (plan : record) (queueName : string) : bool :=
  if str_empty queueName then false
  else existsb (queue_id_matches queueName) (default [] (StringSlice (mget (rec_Data plan) "queue_ids"))).

Definition admissionQueueByName (queueName : string) : option record :=
  if str_empty queueName then None
  else match rd_Queue queueName with
       | Some q => Some q
       | None => List.find (fun q => String.eqb (rec_ID q) queueName ||
                                     String.eqb (TextValue (rec_Data q) ["name"]) queueName) rd_ListQueues
       end.

(** ** The admission context *)

(** [queue] is absent when the queue was not found ([queueFound]). *)
Record submitAdmissionContext := AdmissionContext {
  ac_project : record;
  ac_plan : record;
  ac_queue : option record;
  ac_queueName : string
}.

Definition resolveSubmitAdmissionContext (req : submitAdmissionRequest) (now : Z)
    : result admissionDeny submitAdmissionContext :=
  guard_else (negb (str_empty (TrimSpace (ProjectID req)))) (Deny StatusBadRequest "project id is required") ;;?
  guard_else (negb (str_empty (TrimSpace (UserID req)))) (Deny StatusBadRequest "user id is required") ;;?
  match rd_Project (ProjectID req) with
  | None => deny StatusNotFound "project not found"
  | Some project =>
      plan <-? admissionProjectPlan project now ;;
      requireAdmissionProjectAccess project (UserID req) ;;?
      let trimmed := TrimSpace (QueueName req) in
      let queueName := if str_empty trimmed then defaultQueueName else trimmed in
      guard_else (admissionQueueAllowed plan queueName)
        (Deny StatusForbidden "queue is not allowed by project plan") ;;?
      Ok (AdmissionContext project plan (admissionQueueByName queueName) queueName)
  end.

(** ** What the checks mean *)

(** A plan is in force at [now]: within its validity bounds, and inside one of
    its weekly windows when it has any. *)
Definition plan_in_force (data : object) (now : Z) : Prop :=
  (forall from, admissionTimeValue data ["valid_from"; "validFrom"; "ValidFrom"] = Some from -> from <= now) /\
  (forall until, admissionTimeValue data ["valid_until"; "validUntil"; "ValidUntil"] = Some until -> now <= until) /\
  (admissionWeekWindows data = [] \/
   exists w s e, w ∈ admissionWeekWindows data /\
     s = getInt64 (firstValue w ["start"; "Start"]) (-1) /\ e = getInt64 (firstValue w ["end"; "End"]) (-1) /\
     0 <= s /\ e <= 604800 /\ s <= admissionWeekSecond now < e).

(** The ways a user may submit to a project. *)
Inductive project_access (project : record) (userID : string) : Prop :=
| access_personal :
    TextValue (rec_Data project) ["personal_user_id"; "personalUserId"] = userID -> project_access project userID
| access_member rc :
    rd_ProjectMember (projectMemberKey (rec_ID project) userID) = Some rc -> rec_Data rc ≠ ∅ ->
    project_access project userID
| access_listed m :
    m ∈ rd_ListProjectMembers -> member_matches (rec_ID project) userID m = true -> project_access project userID
| access_group g owner :
    owner = TextValue (rec_Data project) ["owner_id"; "ownerId"; "GID"; "g_id"] -> owner ≠ "" ->
    g ∈ rd_ListUserGroups -> group_matches owner userID g = true -> project_access project userID.

Lemma bound_false (o : option Z) (f : Z -> bool) (P : Z -> Prop) :
  (forall z, f z = false <-> P z) ->
  match o with Some z => f z | None => false end = false <-> (forall z, o = Some z -> P z).
Proof.
  intros Hf. destruct o as [z|]; [rewrite Hf|]; split; try done; [by intros ? ? [= <-]|auto].
Qed.

Lemma admissionWeekWindowsContain_spec ws now :
  admissionWeekWindowsContain ws now = true <->
  (ws = [] \/ exists w s e, w ∈ ws /\
     s = getInt64 (firstValue w ["start"; "Start"]) (-1) /\ e = getInt64 (firstValue w ["end"; "End"]) (-1) /\
     0 <= s /\ e <= 604800 /\ s <= admissionWeekSecond now < e).
Proof.
  unfold admissionWeekWindowsContain. destruct ws as [|w0 ws]; [split; [by left|done]|].
  rewrite existsb_Exists. split.
  - intros (w & Hw & Hc). right. exists w. do 2 eexists. split; [done|]. do 2 (split; [reflexivity|]).
    unfold window_contains in Hc. to_prop. lia.
  - intros [Hn|(w & s & e & Hw & -> & -> & Hc)]; [discriminate|]. exists w. split; [done|].
    unfold window_contains. rewrite !andb_true_iff, !Z.leb_le, !Z.ltb_lt. lia.
Qed.

Lemma admissionPlanActive_spec data now : admissionPlanActive data now = true <-> plan_in_force data now.
Proof.
  unfold admissionPlanActive, plan_in_force. rewrite <- admissionWeekWindowsContain_spec.
  rewrite <- (bound_false _ (fun from => now <? from) (fun from => from <= now)) by (intros; apply Z.ltb_ge).
  rewrite <- (bound_false _ (fun until => until <? now) (fun until => now <= until)) by (intros; apply Z.ltb_ge).
  destruct (match admissionTimeValue data ["valid_from"; "validFrom"; "ValidFrom"] with Some _ => _ | _ => _ end);
    [split; [done|by intros [? _]]|].
  destruct (match admissionTimeValue data ["valid_until"; "validUntil"; "ValidUntil"] with Some _ => _ | _ => _ end);
    [split; [done|by intros (_ & ? & _)]|]. tauto.
Qed.

(** The four tests of the access check, in the order the code makes them. *)
Lemma access_tests project userID :
  let owner := TextValue (rec_Data project) ["owner_id"; "ownerId"; "GID"; "g_id"] in
  requireAdmissionProjectAccess project userID = Ok tt <->
  String.eqb userID (TextValue (rec_Data project) ["personal_user_id"; "personalUserId"]) = true \/
  recordHasFields (rd_ProjectMember (projectMemberKey (rec_ID project) userID)) = true \/
  existsb (member_matches (rec_ID project) userID) rd_ListProjectMembers = true \/
  (str_empty owner = false /\ admissionUserInGroup owner userID = true).
Proof.
  cbn zeta. unfold requireAdmissionProjectAccess.
  destruct (String.eqb userID _), (recordHasFields _), (existsb _ _), (str_empty _), (admissionUserInGroup _ _);
    cbn; split; intros; repeat (discriminate || tauto || destruct_or?); intuition discriminate.
Qed.

Lemma requireAdmissionProjectAccess_spec project userID :
  requireAdmissionProjectAccess project userID = Ok tt <-> project_access project userID.
Proof.
  rewrite access_tests. unfold admissionUserInGroup, str_empty.
  rewrite !existsb_Exists, String.eqb_eq, String.eqb_neq. split.
  - intros [Hp|[Hm|[(m & ? & ?)|(? & g & ? & ?)]]].
    + by apply access_personal.
    + destruct (rd_ProjectMember _) as [rc|] eqn:Em; [|done]. cbn in Hm. to_prop. by eapply access_member.
    + by eapply access_listed.
    + by eapply access_group.
  - intros [Hp|rc Hm Hd|m ? ?|g owner -> ? ? ?].
    + by left.
    + right; left. rewrite Hm. cbn. by rewrite bool_decide_eq_false_2.
    + right; right; left. eauto.
    + right; right; right. eauto.
Qed.

(** What a resolved context guarantees. *)
Lemma resolveSubmitAdmissionContext_ok req now ctx :
  resolveSubmitAdmissionContext req now = Ok ctx ->
  rd_Project (ProjectID req) = Some (ac_project ctx) /\
  rd_Plan (TextValue (rec_Data (ac_project ctx)) ["plan_id"; "planId"; "resource_plan_id"; "resourcePlanId"])
    = Some (ac_plan ctx) /\
  plan_in_force (rec_Data (ac_plan ctx)) now /\
  project_access (ac_project ctx) (UserID req) /\
  admissionQueueAllowed (ac_plan ctx) (ac_queueName ctx) = true /\
  ac_queue ctx = admissionQueueByName (ac_queueName ctx).
Proof.
  unfold resolveSubmitAdmissionContext.
  intros ([] & _ & ([] & _ & Hr)%res_bind_ok)%res_bind_ok.
  destruct (rd_Project (ProjectID req)) as [project|]; [|done].
  apply res_bind_ok in Hr as (plan & Hplan & ([] & Hacc & ([] & Hq & [= <-])%res_bind_ok)%res_bind_ok).
  apply guard_else_ok in Hq. apply requireAdmissionProjectAccess_spec in Hacc.
  unfold admissionProjectPlan in Hplan. destruct (str_empty _); [done|].
  destruct (rd_Plan _) as [plan'|] eqn:Ep; [|done].
  destruct (admissionPlanActive (rec_Data plan') now) eqn:Ea; [|done]. simplify_eq.
  apply admissionPlanActive_spec in Ea. by cbn.
Qed.

End Plan.

(** The week arithmetic is right: the second of the week the code derives from
    weekday, hour, minute and second is the time since Monday 00:00 UTC modulo a
    week; it lies in [0, 604800) and repeats every seven days. *)
Theorem week_second_spec t :
  admissionWeekSecond t = (t / nanos_per_second + 3 * 86400) mod 604800 /\
  0 <= admissionWeekSecond t < 604800 /\
  admissionWeekSecond (t + 604800 * nanos_per_second) = admissionWeekSecond t.
Proof.
  assert (forall t, admissionWeekSecond t = (t / nanos_per_second + 3 * 86400) mod 604800) as E.
  { intros u. unfold admissionWeekSecond, weekday. generalize (u / nanos_per_second). intros s.
    Z.div_mod_to_equations. lia. }
  split; [apply E|]. rewrite !E. split; [apply Z.mod_pos_bound; lia|].
  rewrite Z.div_add by (unfold nanos_per_second; lia).
  replace (t / nanos_per_second + 604800 + 3 * 86400) with (t / nanos_per_second + 3 * 86400 + 1 * 604800) by lia.
  apply Z.mod_add. lia.
Qed.
