(* ===== verification/AdmissionQuota.v ===== *)
(** * Submit admission: usage, job limits, quotas and streaming budgets
    (second half of admission_quota.go, admission_streaming.go) *)

From stdpp Require Import base gmap strings list fin_maps.
From Stdlib Require Import ZArith Lia.
From S2P Require Import Prelude GoValue Store Crud AdmissionTypes AdmissionResources AdmissionPlan.
Local Open Scope Z_scope.
Local Open Scope go_scope.

Definition activeAdmissionStatuses : list string := ["submitted"; "waiting_infra"; "queued"; "running"].
Definition queuedAdmissionStatuses : list string := ["submitted"; "waiting_infra"; "queued"].

Definition activeAdmissionStatus (status : string) : bool :=
  bool_decide (ToLower (TrimSpace status) ∈ activeAdmissionStatuses).

Fixpoint firstPositive (values : list Z) : Z :=
  match values with
  | [] => 0
  | v :: vs => if 0 <? v then v else firstPositive vs
  end.

Definition defaultStreamMaxBitrateKbps : Z := 12000.
Definition defaultStreamMaxConcurrentSessions : Z := 64.
Definition defaultStreamEgressBudgetKbps : Z := 800000.

(** The streaming and admission fields of platform.Config. *)
Record admissionConfig := Config {
  cfg_StreamMaxBitrateKbps : Z;
  cfg_StreamMaxConcurrentSessions : Z;
  cfg_StreamEgressBudgetKbps : Z;
  cfg_ImageCheckEnabled : bool;
  cfg_DefaultQueueName : string
}.

Definition applyAdmissionStreamConfig (cfg : admissionConfig) (req : submitAdmissionRequest)
    : submitAdmissionRequest :=
  let req1 := if StreamMaxBitrateKbps req <=? 0
              then set_StreamMaxBitrateKbps
                     (firstPositive [cfg_StreamMaxBitrateKbps cfg; defaultStreamMaxBitrateKbps]) req
              else req in
  let req2 := set_StreamBitrateCapKbps
                (firstPositive [cfg_StreamMaxBitrateKbps cfg; defaultStreamMaxBitrateKbps]) req1 in
  let req3 := set_StreamSessionCap
                (firstPositive [cfg_StreamMaxConcurrentSessions cfg; defaultStreamMaxConcurrentSessions]) req2 in
  set_StreamEgressBudgetKbps
    (firstPositive [cfg_StreamEgressBudgetKbps cfg; defaultStreamEgressBudgetKbps]) req3.

Definition quotaExceeded (used requested limit : float64) : bool :=
  f64_gt limit f64_0 && f64_gt (f64_add used requested) limit.

Definition memoryQuotaExceeded (usedMB : float64) (requestedMB : Z) (limitGB : float64) : bool :=
  f64_gt limitGB f64_0 && f64_gt (f64_div (f64_add usedMB (f64_of_int requestedMB)) f64_1024) limitGB.

Section Quota.
Context `{GoLib}.

(** ** Reading a job record *)

Definition job_status (data : object) : string := ToLower (TextValue data ["status"; "Status"]).
Definition job_project (data : object) : string := TextValue data ["project_id"; "projectId"; "ProjectID"].
Definition job_user (data : object) : string := TextValue data ["user_id"; "userId"; "UserID"].
Definition job_gpu (data : object) : float64 := NumberValue data ["required_gpu"; "requiredGpu"; "RequiredGPU"].
Definition job_cpu (data : object) : float64 :=
  NumberValue data ["required_cpu"; "requiredCPU"; "required_cpu_cores"; "RequiredCPU"].
Definition job_memory (data : object) : Z := IntValue data ["required_memory"; "requiredMemory"; "RequiredMemory"].

Definition admissionJobStreamingSession (data : object) : bool :=
  BoolValue data ["streaming_session"; "streamingSession"; "StreamingSession"].
Definition admissionJobStreamBitrate (data : object) : Z :=
  firstPositive [IntValue data ["stream_max_bitrate_kbps"; "streamMaxBitrateKbps"; "StreamMaxBitrateKbps"];
                 defaultStreamMaxBitrateKbps].

(** ** Usage *)

Definition add_stream (d : object) (u : admissionUsage) : admissionUsage :=
  Usage (ProjectGPU u) (ProjectCPU u) (ProjectMemoryMB u) (UserGPU u) (UserCPU u) (UserMemoryMB u)
    (UserRunningJobs u) (UserQueuedJobs u) (ResourceFloorGPU u) (ResourceFloorCPU u) (FloorMemoryMB u)
    (i64 (ActiveStreamSessions u + 1)) (i64 (ActiveStreamBitrateKbps u + admissionJobStreamBitrate d))
    (UStreamEgressBudgetKbps u).

Definition add_project (d : object) (u : admissionUsage) : admissionUsage :=
  Usage (f64_add (ProjectGPU u) (job_gpu d)) (f64_add (ProjectCPU u) (job_cpu d))
    (i64 (ProjectMemoryMB u + job_memory d)) (UserGPU u) (UserCPU u) (UserMemoryMB u)
    (UserRunningJobs u) (UserQueuedJobs u) (ResourceFloorGPU u) (ResourceFloorCPU u) (FloorMemoryMB u)
    (ActiveStreamSessions u) (ActiveStreamBitrateKbps u) (UStreamEgressBudgetKbps u).

Definition add_user (d : object) (u : admissionUsage) : admissionUsage :=
  Usage (ProjectGPU u) (ProjectCPU u) (ProjectMemoryMB u) (f64_add (UserGPU u) (job_gpu d))
    (f64_add (UserCPU u) (job_cpu d)) (i64 (UserMemoryMB u + job_memory d))
    (if String.eqb (job_status d) "running" then i64 (UserRunningJobs u + 1) else UserRunningJobs u)
    (if bool_decide (job_status d ∈ queuedAdmissionStatuses) then i64 (UserQueuedJobs u + 1) else UserQueuedJobs u)
    (ResourceFloorGPU u) (ResourceFloorCPU u) (FloorMemoryMB u)
    (ActiveStreamSessions u) (ActiveStreamBitrateKbps u) (UStreamEgressBudgetKbps u).

(** One iteration of the loop over the workload jobs, with its three [continue]s. *)
Definition usage_step (projectID userID : string) (u : admissionUsage) (job : record) : admissionUsage :=
  let d := rec_Data job in
  if negb (activeAdmissionStatus (job_status d)) then u
  else
    let u1 := if admissionJobStreamingSession d then add_stream d u else u in
    if negb (String.eqb (job_project d) projectID) then u1
    else
      let u2 := add_project d u1 in
      if negb (String.eqb (job_user d) userID) then u2
      else add_user d u2.

Context `{admissionReader}.

Definition admissionUsageForJobs (projectID userID : string) (u : admissionUsage) : admissionUsage :=
  fold_left (usage_step projectID userID) rd_ListWorkloadJobs u.

(** ** Limits *)

Definition enforceAdmissionStreaming (req : submitAdmissionRequest) (u : admissionUsage) : result admissionDeny unit :=
  if negb (StreamingSession req) then Ok tt
  else
    let requested := StreamMaxBitrateKbps req in
    if StreamBitrateCapKbps req <? requested
    then deny StatusConflict (sprintf "stream bitrate cap exceeded: requested %d Kbps, limit %d Kbps"
                                [VInt requested; VInt (StreamBitrateCapKbps req)])
    else if StreamSessionCap req <=? ActiveStreamSessions u
    then deny StatusConflict (sprintf "stream session cap exceeded: using %d, limit %d"
                                [VInt (ActiveStreamSessions u); VInt (StreamSessionCap req)])
    else if StreamEgressBudgetKbps req <? i64 (ActiveStreamBitrateKbps u + requested)
    then deny StatusConflict
           (sprintf "stream egress budget exceeded: using %d Kbps, requested %d Kbps, limit %d Kbps"
              [VInt (ActiveStreamBitrateKbps u); VInt requested; VInt (StreamEgressBudgetKbps req)])
    else Ok tt.

Definition project_max_running (project : record) : Z :=
  IntValue (rec_Data project)
    ["max_concurrent_jobs_per_user"; "maxConcurrentJobsPerUser"; "MaxConcurrentJobsPerUser"].
Definition project_max_queued (project : record) : Z :=
  IntValue (rec_Data project) ["max_queued_jobs_per_user"; "maxQueuedJobsPerUser"; "MaxQueuedJobsPerUser"].

Definition enforceAdmissionJobLimits (project : record) (u : admissionUsage) : result admissionDeny unit :=
  if (0 <? project_max_running project) && (project_max_running project <=? UserRunningJobs u)
  then deny StatusConflict "max concurrent jobs exceeded"
  else if (0 <? project_max_queued project) && (project_max_queued project <=? UserQueuedJobs u)
  then deny StatusConflict "max queued jobs exceeded"
  else Ok tt.

Definition plan_gpu_limit (plan : record) : float64 := NumberValue (rec_Data plan) ["gpu_limit"; "gpuLimit"].
Definition plan_cpu_limit (plan : record) : float64 := NumberValue (rec_Data plan) ["cpu_limit_cores"; "cpuLimitCores"].
Definition plan_memory_limit (plan : record) : float64 := NumberValue (rec_Data plan) ["memory_limit_gb"; "memoryLimitGb"].

Definition enforceAdmissionQuota (plan : record) (req : submitAdmissionRequest) (u : admissionUsage)
    : result admissionDeny unit :=
  if quotaExceeded (ProjectGPU u) (RequiredGPU req) (plan_gpu_limit plan)
  then deny StatusConflict (sprintf "GPU quota exceeded: using %.2f, requested %.2f, limit %.2f"
         [VFloat64 (ProjectGPU u); VFloat64 (RequiredGPU req); VFloat64 (plan_gpu_limit plan)])
  else if quotaExceeded (ProjectCPU u) (RequiredCPU req) (plan_cpu_limit plan)
  then deny StatusConflict (sprintf "CPU quota exceeded: using %.2f, requested %.2f, limit %.2f"
         [VFloat64 (ProjectCPU u); VFloat64 (RequiredCPU req); VFloat64 (plan_cpu_limit plan)])
  else if memoryQuotaExceeded (f64_of_int (ProjectMemoryMB u)) (RequiredMemory req) (plan_memory_limit plan)
  then deny StatusConflict (sprintf "Memory quota exceeded: using %.2fGB, requested %.2fGB, limit %.2fGB"
         [VFloat64 (f64_div (f64_of_int (ProjectMemoryMB u)) f64_1024);
          VFloat64 (f64_div (f64_of_int (RequiredMemory req)) f64_1024); VFloat64 (plan_memory_limit plan)])
  else Ok tt.

Definition admissionUserQuota (projectID userID : string) : option record :=
  match rd_UserQuota (projectMemberKey projectID userID) with
  | Some q => Some q
  | None => List.find (fun q => String.eqb (TextValue (rec_Data q) ["project_id"; "projectId"]) projectID &&
                                String.eqb (TextValue (rec_Data q) ["user_id"; "userId"]) userID) rd_ListUserQuotas
  end.

Definition user_gpu_limit (q : record) : float64 := NumberValue (rec_Data q) ["gpu_limit"; "GPULimit"].
Definition user_cpu_limit (q : record) : float64 := NumberValue (rec_Data q) ["cpu_limit"; "CPULimit"].
Definition user_memory_limit (q : record) : float64 := NumberValue (rec_Data q) ["memory_limit_gb"; "MemoryLimitGB"].

Definition enforceAdmissionUserQuota (req : submitAdmissionRequest) (u : admissionUsage) : result admissionDeny unit :=
  match admissionUserQuota (ProjectID req) (UserID req) with
  | None => Ok tt
  | Some q =>
      if quotaExceeded (UserGPU u) (RequiredGPU req) (user_gpu_limit q)
      then deny StatusConflict "user GPU quota exceeded"
      else if quotaExceeded (UserCPU u) (RequiredCPU req) (user_cpu_limit q)
      then deny StatusConflict "user CPU quota exceeded"
      else if memoryQuotaExceeded (f64_of_int (UserMemoryMB u)) (RequiredMemory req) (user_memory_limit q)
      then deny StatusConflict "user Memory quota exceeded"
      else Ok tt
  end.

(** ** Usage as filtered sums *)

(** The jobs a total ranges over. *)
Definition active_jobs (jobs : list record) : list object :=
  List.filter (fun d => activeAdmissionStatus (job_status d)) (map rec_Data jobs).
Definition stream_jobs (jobs : list record) : list object :=
  List.filter admissionJobStreamingSession (active_jobs jobs).
Definition project_jobs (projectID : string) (jobs : list record) : list object :=
  List.filter (fun d => String.eqb (job_project d) projectID) (active_jobs jobs).
Definition user_jobs (projectID userID : string) (jobs : list record) : list object :=
  List.filter (fun d => String.eqb (job_user d) userID) (project_jobs projectID jobs).

Definition f64_total (f : object -> float64) (ds : list object) (start : float64) : float64 :=
  fold_left (fun s d => f64_add s (f d)) ds start.
Definition int_total (f : object -> Z) (ds : list object) (start : Z) : Z :=
  fold_left (fun s d => i64 (s + f d)) ds start.

(** The reference reading of the usage: each field is a total over a filtered
    list of jobs, in the order the jobs are listed. *)
Definition usage_reference (projectID userID : string) (jobs : list record) (u : admissionUsage) : admissionUsage :=
  let pj := project_jobs projectID jobs in
  let uj := user_jobs projectID userID jobs in
  Usage (f64_total job_gpu pj (ProjectGPU u)) (f64_total job_cpu pj (ProjectCPU u))
    (int_total job_memory pj (ProjectMemoryMB u))
    (f64_total job_gpu uj (UserGPU u)) (f64_total job_cpu uj (UserCPU u))
    (int_total job_memory uj (UserMemoryMB u))
    (int_total (fun _ => 1) (List.filter (fun d => String.eqb (job_status d) "running") uj) (UserRunningJobs u))
    (int_total (fun _ => 1) (List.filter (fun d => bool_decide (job_status d ∈ queuedAdmissionStatuses)) uj) (UserQueuedJobs u))
    (ResourceFloorGPU u) (ResourceFloorCPU u) (FloorMemoryMB u)
    (int_total (fun _ => 1) (stream_jobs jobs) (ActiveStreamSessions u))
    (int_total admissionJobStreamBitrate (stream_jobs jobs) (ActiveStreamBitrateKbps u))
    (UStreamEgressBudgetKbps u).

Lemma usage_fold_reference projectID userID jobs u :
  fold_left (usage_step projectID userID) jobs u = usage_reference projectID userID jobs u.
Proof.
  revert u. induction jobs as [|j jobs IH]; intros u; cbn [fold_left]; [by destruct u|].
  rewrite IH. unfold usage_step. set (d := rec_Data j).
  assert (active_jobs (j :: jobs) =
    if activeAdmissionStatus (job_status d) then d :: active_jobs jobs else active_jobs jobs) as Ea by done.
  unfold usage_reference, user_jobs, project_jobs, stream_jobs. rewrite Ea.
  destruct (activeAdmissionStatus (job_status d)); cbn [negb]; [|reflexivity].
  cbn [List.filter].
  destruct (admissionJobStreamingSession d), (String.eqb (job_project d) projectID); cbn [negb List.filter];
    try reflexivity;
    destruct (String.eqb (job_user d) userID); cbn [negb List.filter]; try reflexivity;
    unfold add_user; destruct (String.eqb (job_status d) "running"), (bool_decide _); reflexivity.
Qed.

(** The one-pass usage loop, with its early continues, computes what the quota
    means: every project figure is the total over the active jobs of the project,
    every user figure the total over those of them the user owns, the running and
    queued counters count exactly the jobs in those states, and the streaming
    figures range over the active streaming sessions of all projects. *)
Theorem usage_is_filtered_totals projectID userID u :
  admissionUsageForJobs projectID userID u = usage_reference projectID userID rd_ListWorkloadJobs u.
Proof. apply usage_fold_reference. Qed.

Lemma int_total_spec f ds start : in_i64 start -> int_total f ds start = i64 (start + foldr (fun d n => f d + n) 0 ds).
Proof.
  unfold int_total. intros Hs. rewrite <- (i64_id start) at 1 by done. clear Hs. revert start.
  induction ds as [|d ds IH]; intros start; cbn; [f_equal; lia|].
  rewrite i64_add_l, IH. f_equal. lia.
Qed.

(** ** What passing a limit means *)

Lemma enforceAdmissionJobLimits_ok project u :
  enforceAdmissionJobLimits project u = Ok tt <->
  (0 < project_max_running project -> UserRunningJobs u < project_max_running project) /\
  (0 < project_max_queued project -> UserQueuedJobs u < project_max_queued project).
Proof.
  unfold enforceAdmissionJobLimits, deny. split.
  - intros H1. split_ifs_in H1; try done.
    repeat match goal with H : andb _ _ = false |- _ => apply andb_false_iff in H end. lia.
  - intros [Hr Hq].
    destruct (Z.ltb_spec 0 (project_max_running project)), (Z.leb_spec (project_max_running project) (UserRunningJobs u));
      cbn [andb]; try lia;
      destruct (Z.ltb_spec 0 (project_max_queued project)), (Z.leb_spec (project_max_queued project) (UserQueuedJobs u));
      cbn [andb]; (done || lia).
Qed.

Lemma enforceAdmissionQuota_ok plan req u :
  enforceAdmissionQuota plan req u = Ok tt <->
  quotaExceeded (ProjectGPU u) (RequiredGPU req) (plan_gpu_limit plan) = false /\
  quotaExceeded (ProjectCPU u) (RequiredCPU req) (plan_cpu_limit plan) = false /\
  memoryQuotaExceeded (f64_of_int (ProjectMemoryMB u)) (RequiredMemory req) (plan_memory_limit plan) = false.
Proof.
  unfold enforceAdmissionQuota.
  destruct (quotaExceeded _ _ (plan_gpu_limit plan)), (quotaExceeded _ _ (plan_cpu_limit plan)),
    (memoryQuotaExceeded _ _ _); split; first [done | intros (? & ? & ?); done].
Qed.

Lemma enforceAdmissionUserQuota_ok req u q :
  admissionUserQuota (ProjectID req) (UserID req) = Some q ->
  enforceAdmissionUserQuota req u = Ok tt ->
  quotaExceeded (UserGPU u) (RequiredGPU req) (user_gpu_limit q) = false /\
  quotaExceeded (UserCPU u) (RequiredCPU req) (user_cpu_limit q) = false /\
  memoryQuotaExceeded (f64_of_int (UserMemoryMB u)) (RequiredMemory req) (user_memory_limit q) = false.
Proof.
  intros Hq. unfold enforceAdmissionUserQuota. rewrite Hq. repeat case_match; try done.
Qed.

Lemma enforceAdmissionStreaming_ok req u :
  enforceAdmissionStreaming req u = Ok tt ->
  StreamingSession req = true ->
  StreamMaxBitrateKbps req <= StreamBitrateCapKbps req /\ ActiveStreamSessions u < StreamSessionCap req /\
  i64 (ActiveStreamBitrateKbps u + StreamMaxBitrateKbps req) <= StreamEgressBudgetKbps req.
Proof.
  unfold enforceAdmissionStreaming. intros H1 H2. rewrite H2 in H1. cbn in H1.
  destruct (Z.ltb_spec (StreamBitrateCapKbps req) (StreamMaxBitrateKbps req)); [done|].
  destruct (Z.leb_spec (StreamSessionCap req) (ActiveStreamSessions u)); [done|].
  destruct (Z.ltb_spec (StreamEgressBudgetKbps req) (i64 (ActiveStreamBitrateKbps u + StreamMaxBitrateKbps req)));
    [done|]. lia.
Qed.

Lemma firstPositive_default v d : 0 < d -> 0 < firstPositive [v; d].
Proof. intros. cbn. destruct (Z.ltb_spec 0 v); [done|]. destruct (Z.ltb_spec 0 d); lia. Qed.

(** The caps are positive once the configuration was applied, as the streaming
    check relies on. *)
Lemma applyAdmissionStreamConfig_positive cfg req :
  let req' := applyAdmissionStreamConfig cfg req in
  0 < StreamMaxBitrateKbps req' /\ 0 < StreamBitrateCapKbps req' /\
  0 < StreamSessionCap req' /\ 0 < StreamEgressBudgetKbps req'.
Proof.
  unfold applyAdmissionStreamConfig. cbn zeta.
  split_and!; cbn -[firstPositive]; try (apply firstPositive_default; reflexivity).
  destruct (Z.leb_spec (StreamMaxBitrateKbps req) 0); cbn -[firstPositive];
    [apply firstPositive_default; reflexivity|lia].
Qed.

End Quota.
