(* ===== verification/AdmissionMPS.v ===== *)
(** * Submit admission: GPU device classes and MPS sharing policy
    (admission_mps.go and the GPU part of admission_quota.go) *)

From stdpp Require Import base gmap strings list fin_maps.
From Stdlib Require Import ZArith Lia.
From S2P Require Import Prelude GoValue Store Crud AdmissionTypes AdmissionResources AdmissionPlan AdmissionQuota.
Local Open Scope Z_scope.
Local Open Scope go_scope.

Record admissionMPSPolicy := MPSPolicy {
  mp_allowed : bool;
  mp_maxSMPercentage : Z;
  mp_allowCrossProject : bool
}.

Definition minPositive (a b : Z) : Z :=
  if a <=? 0 then b else if (b <=? 0) || (a <? b) then a else b.

Definition admissionMPSRequested (req : submitAdmissionRequest) : bool :=
  match SMPercentage req with
  | Some p => if p <? 100 then true
              else match PinnedMemoryLimit req with Some m => negb (str_empty (TrimSpace m)) | None => false end
  | None => match PinnedMemoryLimit req with Some m => negb (str_empty (TrimSpace m)) | None => false end
  end.

Definition admissionMPSPercentage (req : submitAdmissionRequest) : Z := default 100 (SMPercentage req).

(** The float32 test [typed != float32(int(typed))] is exact on a float32: the
    integer part of a float32 is a float32. *)
Definition admissionPolicyInt (v : any) : option Z :=
  match v with
  | VInt z | VInt32 z | VInt64 z => Some z
  | VFloat32 f =>
      if f64_is_nan f || f64_is_inf f then None
      else if negb (f64_eq f (f64_of_int (f64_to_int f))) then None
      else Some (f64_to_int f)
  | VFloat64 f =>
      if f64_is_nan f || f64_is_inf f then None
      else if negb (f64_is_integral f) then None
      else Some (f64_to_int f)
  | _ => None
  end.

Section MPS.
Context `{GoLib}.

(** The loop of admissionPolicyBool and admissionPolicySMCap: every present key
    is validated, the first one decides. *)
Fixpoint policy_loop {A} (read : any -> option A) (message : string) (data : object) (keys : list string)
    (out : A) (found : bool) : result string A :=
  match keys with
  | [] => Ok out
  | key :: ks =>
      match data !! key with
      | None => policy_loop read message data ks out found
      | Some value =>
          match read value with
          | None => Err (sprintf message [VString key])
          | Some typed => policy_loop read message data ks (if found then out else typed) true
          end
      end
  end.

Definition admissionPolicyBool (data : object) (fallback : bool) (keys : list string) : result string bool :=
  policy_loop as_bool "%s must be a boolean" data keys fallback false.

Definition read_cap (value : any) : option Z :=
  match admissionPolicyInt value with
  | Some cap => if (cap <? 1) || (100 <? cap) then None else Some cap
  | None => None
  end.

Definition admissionPolicySMCap (data : object) (keys : list string) : result string Z :=
  policy_loop read_cap "%s must be an integer from 1 to 100" data keys 0 false.

Definition mps_keys : list string := ["mps_allowed"; "mpsAllowed"].
Definition cross_keys : list string := ["allow_cross_project_mps"; "allowCrossProjectMps"].
Definition cap_keys : list string := ["max_sm_percentage_per_gpu"; "maxMpsSmPercentage"; "max_gpu_sm_percentage_per_job"].
Definition forbidden_keys : list string := ["high_security"; "highSecurity"; "mps_forbidden"; "mpsForbidden"].

Definition wrap_err {A} (format : string) (r : result string A) : result string A :=
  match r with Ok a => Ok a | Err e => Err (sprintf format [VString e]) end.

Definition errInvalidPlanMPSPolicy : string := "invalid plan MPS policy: %w".
Definition errInvalidQueueMPSPolicy : string := "invalid queue MPS policy: %w".

(** [queue] is [None] when the queue was not found. *)
Definition resolveAdmissionMPSPolicy (project plan : object) (queue : option object)
    : result string admissionMPSPolicy :=
  planAllowed <-? wrap_err errInvalidPlanMPSPolicy (admissionPolicyBool plan true mps_keys) ;;
  queueAllowed <-? match queue with
                   | Some q => wrap_err errInvalidQueueMPSPolicy (admissionPolicyBool q true mps_keys)
                   | None => Ok true
                   end ;;
  planCross <-? wrap_err errInvalidPlanMPSPolicy (admissionPolicyBool plan false cross_keys) ;;
  queueCross <-? match queue with
                 | Some q => wrap_err errInvalidQueueMPSPolicy (admissionPolicyBool q true cross_keys)
                 | None => Ok true
                 end ;;
  planCap <-? wrap_err errInvalidPlanMPSPolicy (admissionPolicySMCap plan cap_keys) ;;
  queueCap <-? match queue with
               | Some q => wrap_err errInvalidQueueMPSPolicy (admissionPolicySMCap q cap_keys)
               | None => Ok 0
               end ;;
  wrap_err "invalid project MPS policy: %w" (admissionPolicyBool project false forbidden_keys) ;;?
  Ok (MPSPolicy (planAllowed && queueAllowed) (minPositive planCap queueCap) (planCross && queueCross)).

Definition projectMPSForbidden (project : object) : bool := BoolValue project forbidden_keys.

Definition admissionJobMPSRequested (data : object) : bool :=
  let sm := IntValue data ["sm_percentage"; "smPercentage"; "SMPercentage"] in
  if (0 <? sm) && (sm <? 100) then true
  else negb (str_empty (TextValue data ["pinned_memory_limit"; "pinnedMemoryLimit"; "pinned_memory"; "pinnedMemory"])).

Definition device_or_default (name : string) : string := if str_empty name then defaultDeviceClassName else name.

(** A job that rules out cross-project sharing of [deviceClass] with [projectID]. *)
Definition foreign_mps_job (projectID deviceClass : string) (job : record) : bool :=
  let data := rec_Data job in
  activeAdmissionStatus (TextValue data ["status"; "Status"]) &&
  negb (String.eqb (TextValue data ["project_id"; "projectId"; "ProjectID"]) projectID) &&
  admissionJobMPSRequested data &&
  EqualFold (device_or_default (TextValue data ["device_class_name"; "deviceClassName"; "DeviceClassName"])) deviceClass.

Context `{admissionReader}.

Definition admissionHasCrossProjectMPS (req : submitAdmissionRequest) : bool :=
  existsb (foreign_mps_job (ProjectID req) (device_or_default (TrimSpace (DeviceClassName req)))) rd_ListWorkloadJobs.

Definition enforceAdmissionMPSPlanQueuePolicy (project plan : record) (queue : option record)
    (req : submitAdmissionRequest) : result admissionDeny unit :=
  if negb (admissionMPSRequested req) then Ok tt
  else
    match resolveAdmissionMPSPolicy (rec_Data project) (rec_Data plan) (rec_Data <$> queue) with
    | Err e => deny StatusUnprocessableEntity e
    | Ok policy =>
        if negb (mp_allowed policy) then deny StatusForbidden "MPS is not allowed by plan or queue policy"
        else if projectMPSForbidden (rec_Data project) then deny StatusForbidden "MPS is forbidden by project policy"
        else if (0 <? mp_maxSMPercentage policy) && (mp_maxSMPercentage policy <? admissionMPSPercentage req)
        then deny StatusForbidden
               (sprintf "MPS SM percentage exceeds policy cap: requested %d, limit %d"
                  [VInt (admissionMPSPercentage req); VInt (mp_maxSMPercentage policy)])
        else if negb (mp_allowCrossProject policy) && admissionHasCrossProjectMPS req
        then deny StatusForbidden "cross-project MPS sharing requires explicit platform policy approval"
        else Ok tt
    end.

(** The write through [req] happens only on the successful returns. *)
Definition enforceAdmissionDeviceClass (plan : record) (req : submitAdmissionRequest)
    : result admissionDeny submitAdmissionRequest :=
  if f64_le (RequiredGPU req) f64_0 && (GPUCount req <=? 0) then Ok (set_DeviceClassName "" req)
  else
    let deviceClass := device_or_default (TrimSpace (DeviceClassName req)) in
    let allowed := admissionStringList (rec_Data plan) ["allowed_gpu_models"; "allowedGPUModels"] in
    if (length allowed =? 0)%nat then deny StatusForbidden "no GPU models allowed by plan"
    else if existsb (fun model => EqualFold model deviceClass) allowed
         then Ok (set_DeviceClassName deviceClass req)
         else deny StatusForbidden (sprintf "GPU model %q is not allowed by the plan" [VString deviceClass]).

Definition enforceAdmissionMPSPolicy (plan : record) (req : submitAdmissionRequest) : result admissionDeny unit :=
  match SMPercentage req with
  | None => Ok tt
  | Some p =>
      if 100 <=? p then Ok tt
      else if BoolValue (rec_Data plan) ["mps_forbidden"; "mpsForbidden"]
      then deny StatusForbidden "MPS GPU sharing is forbidden by the plan; use MIG or a whole GPU"
      else
        let share := TrimSpace (MPSShareProjectID req) in
        if str_empty share || String.eqb share (ProjectID req) then Ok tt
        else if BoolValue (rec_Data plan) ["allow_cross_project_mps"; "allowCrossProjectMPS"] then Ok tt
        else deny StatusForbidden "MPS GPU sharing across projects requires platform admin approval (plan allow_cross_project_mps)"
  end.

Definition enforceAdmissionGPUPolicy (plan : record) (req : submitAdmissionRequest)
    : result admissionDeny submitAdmissionRequest :=
  req' <-? enforceAdmissionDeviceClass plan req ;;
  enforceAdmissionMPSPolicy plan req' ;;?
  Ok req'.

(** ** What the policy means *)

(** The first present key decides; [fallback] when none is present. *)
Definition policy_reads {A} (read : any -> option A) (data : object) (keys : list string) (fallback a : A) : Prop :=
  match firstPresent data keys with None => a = fallback | Some v => read v = Some a end.
Definition flag_on (data : object) (fallback : bool) (keys : list string) : Prop :=
  policy_reads as_bool data keys fallback true.
Definition sm_within (data : object) (percentage : Z) : Prop :=
  match firstPresent data cap_keys with
  | None => True
  | Some v => exists cap, read_cap v = Some cap /\ 1 <= cap <= 100 /\ percentage <= cap
  end.

Lemma policy_loop_found {A} read m data ks (out a : A) : policy_loop read m data ks out true = Ok a -> a = out.
Proof.
  revert out. induction ks as [|k ks IH]; intros out; cbn; [congruence|].
  destruct (data !! k) as [v|]; [|apply IH]. destruct (read v); [apply IH|done].
Qed.

Lemma policy_loop_reads {A} read m data ks (out a : A) :
  policy_loop read m data ks out false = Ok a -> policy_reads read data ks out a.
Proof.
  unfold policy_reads. revert out. induction ks as [|k ks IH]; intros out; cbn; [congruence|].
  destruct (data !! k) as [v|]; [|apply IH].
  destruct (read v) as [t|] eqn:E; [|done]. intros ->%policy_loop_found. done.
Qed.

Lemma wrap_err_ok {A} m (r : result string A) a : wrap_err m r = Ok a <-> r = Ok a.
Proof. destruct r; cbn; split; congruence. Qed.

Lemma read_cap_range v cap : read_cap v = Some cap -> 1 <= cap <= 100.
Proof.
  unfold read_cap. destruct (admissionPolicyInt v) as [c|]; [|done].
  destruct (_ || _) eqn:E; [done|]. intros [= <-]. to_prop. lia.
Qed.

Lemma admissionPolicySMCap_ok data cap :
  admissionPolicySMCap data cap_keys = Ok cap -> 0 <= cap /\ forall p, (0 < cap -> p <= cap) -> sm_within data p.
Proof.
  intros Hc%policy_loop_reads. unfold policy_reads in Hc. unfold sm_within.
  destruct (firstPresent data cap_keys) as [v|]; [|subst; split; [lia|done]].
  pose proof (read_cap_range _ _ Hc). split; [lia|]. intros p Hp. exists cap. split_and!; [done|lia..].
Qed.

Lemma minPositive_le a b p :
  0 <= a -> 0 <= b -> (0 < minPositive a b -> p <= minPositive a b) -> (0 < a -> p <= a) /\ (0 < b -> p <= b).
Proof.
  unfold minPositive. intros Ha Hb.
  destruct (Z.leb_spec a 0), (Z.leb_spec b 0), (Z.ltb_spec a b); cbn [orb]; intros; split; intros; lia.
Qed.

(** The queue's part of a policy reading; a queue that was not found adds nothing. *)
Definition queue_part (P : object -> Prop) (queue : option object) : Prop :=
  match queue with Some q => P q | None => True end.

Lemma resolveAdmissionMPSPolicy_ok project plan queue policy :
  resolveAdmissionMPSPolicy project plan queue = Ok policy ->
  (mp_allowed policy = true -> flag_on plan true mps_keys /\ queue_part (fun q => flag_on q true mps_keys) queue) /\
  (mp_allowCrossProject policy = true ->
     flag_on plan false cross_keys /\ queue_part (fun q => flag_on q true cross_keys) queue) /\
  (forall p, (0 < mp_maxSMPercentage policy -> p <= mp_maxSMPercentage policy) ->
     sm_within plan p /\ queue_part (fun q => sm_within q p) queue).
Proof.
  unfold resolveAdmissionMPSPolicy. intros E0.
  apply res_bind_ok in E0 as (pa & Hpa%wrap_err_ok%policy_loop_reads & E0).
  apply res_bind_ok in E0 as (qa & Hqa & E0).
  apply res_bind_ok in E0 as (pc & Hpc%wrap_err_ok%policy_loop_reads & E0).
  apply res_bind_ok in E0 as (qc & Hqc & E0).
  apply res_bind_ok in E0 as (pcap & [Hp0 Hpcap]%wrap_err_ok%admissionPolicySMCap_ok & E0).
  apply res_bind_ok in E0 as (qcap & Hqcap & E0).
  apply res_bind_ok in E0 as (? & _ & [= <-]). cbn [mp_allowed mp_allowCrossProject mp_maxSMPercentage].
  destruct queue as [q|]; cbn [queue_part].
  - apply wrap_err_ok, policy_loop_reads in Hqa. apply wrap_err_ok, policy_loop_reads in Hqc.
    apply wrap_err_ok, admissionPolicySMCap_ok in Hqcap as [Hq0 Hqcap].
    split_and!.
    + intros [-> ->]%andb_true_iff. done.
    + intros [-> ->]%andb_true_iff. done.
    + intros p Hp. destruct (minPositive_le _ _ _ Hp0 Hq0 Hp). eauto.
  - injection Hqcap as <-. split_and!.
    + intros [-> _]%andb_true_iff. done.
    + intros [-> _]%andb_true_iff. done.
    + intros p Hp. destruct (minPositive_le _ _ _ Hp0 (Z.le_refl 0) Hp). eauto.
Qed.

Lemma enforceAdmissionMPSPlanQueuePolicy_ok project plan queue req :
  enforceAdmissionMPSPlanQueuePolicy project plan queue req = Ok tt ->
  admissionMPSRequested req = true ->
  (flag_on (rec_Data plan) true mps_keys /\ queue_part (fun q => flag_on q true mps_keys) (rec_Data <$> queue)) /\
  (sm_within (rec_Data plan) (admissionMPSPercentage req) /\
   queue_part (fun q => sm_within q (admissionMPSPercentage req)) (rec_Data <$> queue)) /\
  projectMPSForbidden (rec_Data project) = false /\
  ((flag_on (rec_Data plan) false cross_keys /\ queue_part (fun q => flag_on q true cross_keys) (rec_Data <$> queue)) \/
   Forall (fun job => foreign_mps_job (ProjectID req) (device_or_default (TrimSpace (DeviceClassName req))) job = false)
     rd_ListWorkloadJobs).
Proof.
  unfold enforceAdmissionMPSPlanQueuePolicy. intros E0 Hr. rewrite Hr in E0. cbn [negb] in E0.
  destruct (resolveAdmissionMPSPolicy _ _ _) as [policy|] eqn:Ep; [|done].
  apply resolveAdmissionMPSPolicy_ok in Ep as (Ha & Hc & Hs).
  destruct (mp_allowed policy); [|done]. cbn [negb] in E0.
  destruct (projectMPSForbidden (rec_Data project)); [done|].
  destruct (_ && (mp_maxSMPercentage policy <? _)) eqn:Ecap; [done|].
  split_and!; try apply Ha; try done.
  1,2: apply Hs; intros Hpos; apply andb_false_iff in Ecap as [Ec|Ec]; to_prop; lia.
  destruct (mp_allowCrossProject policy); [left; by apply Hc|right]. cbn [negb andb] in E0.
  unfold admissionHasCrossProjectMPS in E0.
  destruct (existsb _ _) eqn:Ee; [done|].
  apply Forall_forall. intros job Hj. destruct (foreign_mps_job _ _ job) eqn:Ej; [|done].
  assert (existsb (foreign_mps_job (ProjectID req) (device_or_default (TrimSpace (DeviceClassName req)))) rd_ListWorkloadJobs = true)
    as Ht by (apply existsb_Exists; eauto).
  by rewrite Ht in Ee.
Qed.

Lemma enforceAdmissionDeviceClass_ok plan req req' :
  enforceAdmissionDeviceClass plan req = Ok req' ->
  req' = set_DeviceClassName (DeviceClassName req') req /\
  (f64_gt (RequiredGPU req) f64_0 = true \/ 0 < GPUCount req ->
   exists model, model ∈ admissionStringList (rec_Data plan) ["allowed_gpu_models"; "allowedGPUModels"] /\
     EqualFold model (DeviceClassName req') = true).
Proof.
  unfold enforceAdmissionDeviceClass. intros E0.
  destruct (_ && (GPUCount req <=? 0)) eqn:Eg.
  { injection E0 as <-. split; [done|]. to_prop. intros [Hg|?]; [|lia]. exfalso.
    unfold f64_gt, f64_le, SpecFloat.SFltb, SpecFloat.SFleb in *.
    destruct (RequiredGPU req) as [[]|[]| |[] ? ?]; cbn in *; congruence. }
  destruct (_ =? 0)%nat; [done|]. destruct (existsb _ _) eqn:Ee; [|done].
  injection E0 as <-. split; [done|]. intros _. by apply existsb_Exists in Ee.
Qed.

End MPS.

(** ** The project switches *)

Definition mps_request : submitAdmissionRequest :=
  Req "job" "p1" "u1" "" "" (f64_of_int 1) f64_0 0 1 (Some 50) "" false 0 0 0 0 "" false "" "" "" "" None false [].
Definition project_with (data : object) : record := Record_ "p1" data 1 0 0.

Definition mps_verdict (project : object) : result admissionDeny unit :=
  @enforceAdmissionMPSPlanQueuePolicy escape_lib (storeAdmissionReader NewStore) (project_with project) (project_with ∅) None mps_request.

(** A project that sets "mps_forbidden": true is refused MPS, but one that also
    carries an explicit "high_security": false is granted it: the two switches are
    read as aliases of one field, the first present one deciding, although either
    of them is documented to block MPS. *)
Theorem project_mps_forbidden_masked :
  mps_verdict {[ "mps_forbidden" := VBool true ]} = deny StatusForbidden "MPS is forbidden by project policy" /\
  mps_verdict {[ "high_security" := VBool true ]} = deny StatusForbidden "MPS is forbidden by project policy" /\
  mps_verdict {[ "high_security" := VBool false; "mps_forbidden" := VBool true ]} = Ok tt.
Proof. vm_compute. split_and!; reflexivity. Qed.
