(* ===== verification/AdmissionImage.v ===== *)
(** * Submit admission: the image allow-list (admission_image.go) *)

From stdpp Require Import base gmap strings list fin_maps sets.
From Stdlib Require Import ZArith Lia Ascii.
From S2P Require Import Prelude GoValue Store Crud AdmissionTypes AdmissionResources AdmissionPlan.
Local Open Scope Z_scope.
Local Open Scope go_scope.

(** The last index of a one-byte string is the last index of the byte. *)
Definition normalizeImageRef (ref0 : string) : string :=
  let ref := TrimSpace ref0 in
  if str_empty ref || Contains ref "@" then ref
  else if LastIndexByte ref ":"%char <=? LastIndexByte ref "/"%char then ref +:+ ":latest" else ref.

(** ** Reference normalisation *)

(** A non-empty reference with neither a digest nor a tag: no "@", and its last
    colon, if any, is a registry port. *)
Definition untagged (ref : string) : bool :=
  negb (str_empty ref) && negb (Contains ref "@") && (LastIndexByte ref ":"%char <=? LastIndexByte ref "/"%char).

Definition latest : list ascii := bytes_of ":latest".

Lemma contains_byte_app c l1 l2 : contains_bytes [c] (l1 ++ l2) = contains_bytes [c] l1 || contains_bytes [c] l2.
Proof.
  induction l1 as [|d l1 IH]; cbn; [done|].
  destruct (Ascii.eqb c d); cbn; [done|exact IH].
Qed.

Lemma last_index_app c l1 l2 i acc :
  last_index_byte c (l1 ++ l2) i acc = last_index_byte c l2 (i + Z.of_nat (length l1)) (last_index_byte c l1 i acc).
Proof.
  revert i acc. induction l1 as [|d l1 IH]; intros i acc; cbn [Datatypes.app last_index_byte length]; [f_equal; lia|].
  rewrite IH. f_equal. lia.
Qed.

Lemma last_index_lt c l i acc : acc < i -> last_index_byte c l i acc < i + Z.of_nat (length l).
Proof.
  revert i acc. induction l as [|d l IH]; intros i acc Hlt; cbn [last_index_byte length]; [lia|].
  specialize (IH (i + 1) (if Ascii.eqb c d then i else acc)).
  destruct (Ascii.eqb c d); specialize (IH ltac:(lia)); lia.
Qed.

(** No white-space encoding contains a colon. *)
Lemma space_free_latest :
  forallb (fun p => negb (contains_bytes [":"%char] p)) space_encodings = true.
Proof. reflexivity. Qed.

Lemma strip_prefix_into p l c r q :
  l ≠ [] -> contains_bytes [c] p = false -> strip_prefix p l = None -> strip_prefix p (l ++ c :: r) = Some q -> False.
Proof.
  intros _. revert l. induction p as [|d p IH]; intros l Hc Hn Hs; cbn in *; [done|].
  destruct (Ascii.eqb_spec c d) as [->|Hd]; [done|].
  destruct l as [|e l]; cbn in *.
  - destruct (Ascii.eqb_spec d c); [congruence|done].
  - destruct (Ascii.eqb d e); [|done]. eapply IH; eauto.
Qed.

Lemma latest_trimmed l : l ≠ [] -> trimmed_bytes l -> trimmed_bytes (l ++ latest).
Proof.
  intros Hne [Hl _]. split.
  - apply strip_any_none, Forall_forall. intros p Hp.
    destruct (strip_prefix p (l ++ latest)) as [q|] eqn:E; [|done]. exfalso.
    apply strip_any_none in Hl. rewrite Forall_forall in Hl.
    pose proof space_free_latest as Hf. rewrite forallb_Forall, Forall_forall in Hf.
    specialize (Hf _ Hp). cbn beta in Hf. to_prop. eapply strip_prefix_into; [exact Hne|exact Hf|by apply Hl|exact E].
  - rewrite rev_app_distr. reflexivity.
Qed.

Lemma normalize_latest ref : untagged (TrimSpace ref) = true ->
  normalizeImageRef (TrimSpace ref +:+ ":latest") = TrimSpace ref +:+ ":latest".
Proof.
  intros Hu. pose proof (TrimSpace_Trimmed ref) as Ht. revert Hu Ht. generalize (TrimSpace ref). intros r Hu Ht.
  unfold untagged, str_empty in Hu. to_prop.
  assert (bytes_of r ≠ []) as Hne by (intros E; destruct r; done).
  unfold normalizeImageRef. rewrite TrimSpace_fix.
  2:{ unfold Trimmed. rewrite bytes_of_app. by apply latest_trimmed. }
  destruct (_ || _); [done|].
  unfold LastIndexByte. rewrite bytes_of_app, !last_index_app.
  assert (last_index_byte "/"%char (bytes_of r) 0 (-1) < 0 + Z.of_nat (length (bytes_of r)))
    by (apply last_index_lt; lia).
  cbn -[last_index_byte bytes_of Z.of_nat]. cbn [last_index_byte bytes_of String.list_ascii_of_string Ascii.eqb Bool.eqb].
  destruct (Z.leb_spec (0 + Z.of_nat (length (bytes_of r))) (last_index_byte "/"%char (bytes_of r) 0 (-1))); [lia|done].
Qed.

(** Normalising an image reference is canonical: it is idempotent, an untagged
    reference (a colon before the last slash is a registry port, not a tag) becomes
    the one with ":latest" and so compares equal to it, and any other reference,
    tagged or pinned by digest, is only trimmed. *)
Theorem normalize_image_ref_canonical ref :
  normalizeImageRef (normalizeImageRef ref) = normalizeImageRef ref /\
  (if untagged (TrimSpace ref)
   then normalizeImageRef ref = TrimSpace ref +:+ ":latest" /\
        normalizeImageRef (TrimSpace ref +:+ ":latest") = normalizeImageRef ref
   else normalizeImageRef ref = TrimSpace ref).
Proof.
  assert (normalizeImageRef ref = if untagged (TrimSpace ref) then TrimSpace ref +:+ ":latest" else TrimSpace ref) as E.
  { unfold normalizeImageRef, untagged. by destruct (str_empty _), (Contains _ _), (Z.leb _ _). }
  destruct (untagged (TrimSpace ref)) eqn:Eu; rewrite E.
  - split_and!; [by apply normalize_latest|done|by apply normalize_latest].
  - split; [|done]. rewrite <- E at 2. unfold normalizeImageRef at 1. rewrite TrimSpace_idem. done.
Qed.

Section Image.
Context `{GoLib}.

(** ** Collecting the images: [seen] and [images], grown together *)

Definition image_acc : Type := gset string * list string.

Definition appendImageRef (acc : image_acc) (image : string) : image_acc :=
  if str_empty image || bool_decide (image ∈ acc.1) then acc
  else ({[ image ]} ∪ acc.1, acc.2 ++ [image]).

Definition image_keys : list string := ["containers"; "initContainers"].

Definition appendPodSpecImages (acc : image_acc) (podSpec : object) : image_acc :=
  fold_left (fun acc key =>
    fold_left (fun acc container => appendImageRef acc (TrimSpace (stringField container "image")))
      (containersFromSpec podSpec key) acc) image_keys acc.

Definition appendAdmissionObjectImages (acc : image_acc) (obj : object) : image_acc :=
  fold_left appendPodSpecImages (admissionResourcePodSpecs obj) acc.

Definition admissionImagesFromRequest (req : submitAdmissionRequest) : list string :=
  (fold_left (fun acc resource =>
     match admissionResourceRawObject resource with
     | None => acc
     | Some obj => appendAdmissionObjectImages acc obj
     end) (Resources req) (∅, [])).2.

(** ** The rules *)

Definition imageRuleAppliesToProject (data : object) (projectID : string) : bool :=
  let ruleProject := TrimSpace (TextValue data ["project_id"; "projectId"]) in
  String.eqb ruleProject "*" || String.eqb ruleProject (TrimSpace projectID).

Definition imageRuleEnabled (data : object) : bool := default true (as_bool (mget data "enabled")).

Definition imageRuleReferences (data : object) : list string :=
  let ref := TrimSpace (TextValue data ["image_reference"; "imageReference"]) in
  let refs := if str_empty ref then [] else [ref] in
  let repo := TrimSpace (TextValue data ["repository"; "repository_name"; "image_name"]) in
  if str_empty repo then refs
  else
    let tag := TrimSpace (TextValue data ["tag"; "tag_name"]) in
    let composed := if str_empty tag then repo else repo +:+ ":" +:+ tag in
    let registry := TrimSpace (TextValue data ["registry"]) in
    let composed := if str_empty registry then composed else registry +:+ "/" +:+ composed in
    refs ++ [composed].

Definition rule_in_force (projectID : string) (data : object) : bool :=
  imageRuleAppliesToProject data projectID &&
  negb (BoolValue data ["deleted"; "is_deleted"; "isDeleted"]) && imageRuleEnabled data.

Definition allowedImageReferences (rules : list record) (projectID : string) : gset string :=
  fold_left (fun set rule =>
    let data := rec_Data rule in
    if negb (imageRuleAppliesToProject data projectID) then set
    else if BoolValue data ["deleted"; "is_deleted"; "isDeleted"] then set
    else if negb (imageRuleEnabled data) then set
    else fold_left (fun set ref => {[ normalizeImageRef ref ]} ∪ set) (imageRuleReferences data) set) rules ∅.

Context `{admissionReader}.

(** The loop over the images with its early return. *)
Fixpoint check_images (allowed : gset string) (images : list string) : result admissionDeny unit :=
  match images with
  | [] => Ok tt
  | image :: rest =>
      if bool_decide (normalizeImageRef image ∈ allowed) then check_images allowed rest
      else deny StatusForbidden (sprintf "image %q is not on the project allow list" [VString image])
  end.

Definition enforceAdmissionImageAllowList (req : submitAdmissionRequest) : result admissionDeny unit :=
  if negb (EnforceImageAllowList req) then Ok tt
  else
    let images := admissionImagesFromRequest req in
    if (length images =? 0)%nat then Ok tt
    else check_images (allowedImageReferences rd_ListImageAllowRules (ProjectID req)) images.

(** ** Which images are collected *)

(** [image] is the image of a container or init container of a pod spec of one of
    the submitted manifests. *)
Definition pod_image (podSpec : object) (image : string) : Prop :=
  exists key container, key ∈ image_keys /\ container ∈ containersFromSpec podSpec key /\
    image = TrimSpace (stringField container "image").
Definition submitted_image (req : submitAdmissionRequest) (image : string) : Prop :=
  exists resource obj podSpec, resource ∈ Resources req /\ admissionResourceRawObject resource = Some obj /\
    podSpec ∈ admissionResourcePodSpecs obj /\ pod_image podSpec image.

(** The accumulator holds exactly the non-empty texts satisfying [P]. *)
Definition collects (acc : image_acc) (P : string -> Prop) : Prop :=
  (forall i, i ∈ acc.1 <-> i ∈ acc.2) /\ (forall i, i ∈ acc.2 <-> i ≠ "" /\ P i).

Lemma collects_append acc P image :
  collects acc P -> collects (appendImageRef acc image) (fun i => P i \/ i = image).
Proof.
  intros [Hs Hi]. unfold appendImageRef, str_empty.
  destruct (String.eqb_spec image "") as [->|Hne]; cbn [orb].
  - split; [done|]. intros i. rewrite Hi. intuition congruence.
  - case_bool_decide as Hin.
    + split; [done|]. intros i. rewrite Hi. apply Hs, Hi in Hin as [_ Hp]. naive_solver.
    + split; intros i; cbn; rewrite elem_of_app, list_elem_of_singleton; [set_solver|].
      rewrite Hi. naive_solver.
Qed.

Lemma collects_iff acc P Q : (forall i, P i <-> Q i) -> collects acc P -> collects acc Q.
Proof. intros HPQ [Hs Hi]. split; [done|]. intros i. by rewrite Hi, HPQ. Qed.

(** A loop whose body adds [R x] for each element adds the union. *)
Lemma collects_fold {X} (f : image_acc -> X -> image_acc) (R : X -> string -> Prop) l :
  (forall acc P x, collects acc P -> collects (f acc x) (fun i => P i \/ R x i)) ->
  forall acc P, collects acc P -> collects (fold_left f l acc) (fun i => P i \/ exists x, x ∈ l /\ R x i).
Proof.
  intros Hf. induction l as [|x l IH]; intros acc P Hc; cbn.
  - eapply collects_iff; [|exact Hc]. intros i. split; [by left|]. intros [?|(? & ?%not_elem_of_nil & _)]; done.
  - eapply collects_iff; [|apply IH, Hf, Hc]. intros i. cbn. setoid_rewrite elem_of_cons. naive_solver.
Qed.

Lemma admissionImagesFromRequest_spec req image :
  image ∈ admissionImagesFromRequest req <-> image ≠ "" /\ submitted_image req image.
Proof.
  assert (collects (∅, []) (fun _ => False)) as Hempty
    by (split; intros; cbn; rewrite ?not_elem_of_nil; set_solver).
  set (step := fun acc resource => match admissionResourceRawObject resource with
                         | None => acc | Some obj => appendAdmissionObjectImages acc obj end).
  assert (forall acc P resource, collects acc P -> collects (step acc resource) (fun i => P i \/
     exists obj podSpec, admissionResourceRawObject resource = Some obj /\
       podSpec ∈ admissionResourcePodSpecs obj /\ pod_image podSpec i)) as Hstep.
  { intros acc P resource Hc. unfold step. destruct (admissionResourceRawObject resource) as [obj|] eqn:Eo.
    2:{ eapply collects_iff; [|exact Hc]. naive_solver. }
    unfold appendAdmissionObjectImages.
    eapply collects_iff; [|apply (collects_fold _ pod_image); [|exact Hc]]; [naive_solver|].
    clear acc P Hc. intros acc P podSpec Hc. unfold appendPodSpecImages.
    eapply collects_iff; [|apply (collects_fold _ (fun key i => exists container,
      container ∈ containersFromSpec podSpec key /\ i = TrimSpace (stringField container "image"))); [|exact Hc]].
    { unfold pod_image. naive_solver. }
    clear acc P Hc. intros acc P key Hc.
    apply (collects_fold _ (fun container i => i = TrimSpace (stringField container "image"))); [|exact Hc].
    intros ????. by apply collects_append. }
  destruct (collects_fold _ _ (Resources req) Hstep _ _ Hempty) as [_ Hi].
  unfold admissionImagesFromRequest. fold step. rewrite Hi.
  unfold submitted_image. naive_solver.
Qed.

(** ** Which references are allowed *)

Lemma fold_left_ext {A B} (f g : A -> B -> A) l a :
  (forall a b, f a b = g a b) -> fold_left f l a = fold_left g l a.
Proof. intros Hfg. revert a. induction l as [|b l IH]; intros a; cbn; [done|]. by rewrite Hfg, IH. Qed.


Lemma elem_of_normalized refs (set : gset string) i :
  i ∈ fold_left (fun set ref => {[ normalizeImageRef ref ]} ∪ set) refs set <->
  i ∈ set \/ exists ref, ref ∈ refs /\ i = normalizeImageRef ref.
Proof.
  revert set. induction refs as [|r refs IH]; intros set; cbn; [set_solver|].
  rewrite IH. set_solver.
Qed.

(** The body of the loop over the rules, its three [continue]s joined. *)
Definition rule_step (projectID : string) (set : gset string) (rule : record) : gset string :=
  if rule_in_force projectID (rec_Data rule)
  then fold_left (fun set ref => {[ normalizeImageRef ref ]} ∪ set) (imageRuleReferences (rec_Data rule)) set
  else set.

Lemma rule_step_eq projectID (set : gset string) rule :
  (let data := rec_Data rule in
   if negb (imageRuleAppliesToProject data projectID) then set
   else if BoolValue data ["deleted"; "is_deleted"; "isDeleted"] then set
   else if negb (imageRuleEnabled data) then set
   else fold_left (fun set ref => {[ normalizeImageRef ref ]} ∪ set) (imageRuleReferences data) set) =
  rule_step projectID set rule.
Proof.
  unfold rule_step, rule_in_force. cbn zeta.
  by destruct (imageRuleAppliesToProject _ _), (BoolValue _ _), (imageRuleEnabled _).
Qed.

Lemma elem_of_allowedImageReferences rules projectID i :
  i ∈ allowedImageReferences rules projectID <->
  exists rule ref, rule ∈ rules /\ rule_in_force projectID (rec_Data rule) = true /\
    ref ∈ imageRuleReferences (rec_Data rule) /\ i = normalizeImageRef ref.
Proof.
  unfold allowedImageReferences. rewrite (fold_left_ext _ (rule_step projectID)) by apply rule_step_eq.
  cut (forall set : gset string, i ∈ fold_left (rule_step projectID) rules set <->
    i ∈ set \/ exists rule ref, rule ∈ rules /\ rule_in_force projectID (rec_Data rule) = true /\
      ref ∈ imageRuleReferences (rec_Data rule) /\ i = normalizeImageRef ref).
  { intros Hc. rewrite (Hc ∅). rewrite elem_of_empty. naive_solver. }
  induction rules as [|r rules IH]; intros set; cbn [fold_left].
  { setoid_rewrite elem_of_nil. naive_solver. }
  rewrite IH. setoid_rewrite elem_of_cons. unfold rule_step.
  destruct (rule_in_force projectID (rec_Data r)) eqn:E; [rewrite elem_of_normalized|]; split.
  - intros [[?|(ref & ? & ?)]|(r' & ref & ?)]; [by left|right; exists r, ref|right; exists r', ref]; intuition.
  - intros [?|(r' & ref & [->|?] & ?)]; [by left; left|left; right; exists ref|right; exists r', ref]; intuition.
  - intros [?|(r' & ref & ?)]; [by left|right; exists r', ref]; intuition.
  - intros [?|(r' & ref & [->|?] & ? & ?)]; [by left|congruence|right; exists r', ref]; intuition.
Qed.

Lemma check_images_ok allowed images :
  check_images allowed images = Ok tt <-> forall i, i ∈ images -> normalizeImageRef i ∈ allowed.
Proof.
  induction images as [|i images IH]; cbn; [split; [by intros _ ? ?%not_elem_of_nil|done]|].
  setoid_rewrite elem_of_cons. case_bool_decide; [rewrite IH|]; unfold deny; naive_solver.
Qed.

(** The image is allow-listed for the project: a rule in force names the same
    reference, tags defaulted. *)
Definition allow_listed (projectID image : string) : Prop :=
  exists rule ref, rule ∈ rd_ListImageAllowRules /\ rule_in_force projectID (rec_Data rule) = true /\
    ref ∈ imageRuleReferences (rec_Data rule) /\ normalizeImageRef image = normalizeImageRef ref.

Lemma enforceAdmissionImageAllowList_ok req :
  EnforceImageAllowList req = true ->
  enforceAdmissionImageAllowList req = Ok tt <->
  forall image, submitted_image req image -> image ≠ "" -> allow_listed (ProjectID req) image.
Proof.
  intros He. unfold enforceAdmissionImageAllowList. rewrite He. cbn [negb].
  assert (forall image, (image ≠ "" /\ submitted_image req image) <-> image ∈ admissionImagesFromRequest req) as Hi
    by (intros; symmetry; apply admissionImagesFromRequest_spec).
  assert (forall image, allow_listed (ProjectID req) image <->
    normalizeImageRef image ∈ allowedImageReferences rd_ListImageAllowRules (ProjectID req)) as Ha
    by (intros; symmetry; apply elem_of_allowedImageReferences).
  destruct (admissionImagesFromRequest req) as [|i l] eqn:El; cbn [length Nat.eqb].
  - split; [|done]. intros _ image Hs Hne. exfalso. eapply not_elem_of_nil, Hi. eauto.
  - rewrite check_images_ok. split.
    + intros Hc image Hs Hne. apply Ha, Hc, Hi. eauto.
    + intros Hc image [Hne Hs]%Hi. apply Ha. eauto.
Qed.

End Image.
