(* ===== verification/AdmissionProfiles.v ===== *)
(** * Submit admission: placement, accelerator and network profiles
    (admission_placement.go, admission_accelerator.go, admission_network.go and
    the payload normalisation of accelerator_profiles.go) *)

From stdpp Require Import base gmap strings list fin_maps.
From Stdlib Require Import ZArith Lia.
From S2P Require Import Prelude GoValue Store Crud AdmissionTypes AdmissionResources AdmissionPlan.
Local Open Scope Z_scope.
Local Open Scope go_scope.
#[local] Arguments TrimSpace : simpl never.

Definition placementDefaultSchedulerName : string := "default-scheduler".
Definition placementVolcanoSchedulerName : string := "volcano".
Definition multusNetworksAnnotation : string := "k8s.v1.cni.cncf.io/networks".

Definition defaultSchedulerNameForBackend (backend : string) : string :=
  if EqualFold backend "volcano" then placementVolcanoSchedulerName else placementDefaultSchedulerName.

Section Profiles.
Context `{GoLib}.

(** ** Accelerator profile payloads *)

Definition trimmed_entry (key text : string) (out : object) : object :=
  if negb (str_empty (TrimSpace key)) && negb (str_empty (TrimSpace text))
  then <[TrimSpace key := VString (TrimSpace text)]> out else out.

(** Go ranges over the map in an unspecified order, which shows only when two keys
    trim to the same text; the model takes the order of [map_to_list]. *)
Fixpoint any_string_entries (entries : list (string * any)) (out : object) : result string object :=
  match entries with
  | [] => Ok out
  | (key, VString text) :: rest => any_string_entries rest (trimmed_entry key text out)
  | _ => Err "must contain string values"
  end.

Definition acceleratorAnyStringMap (input : object) : result string object :=
  any_string_entries (map_to_list input) ∅.

Definition acceleratorTypedStringMap (input : gmap string string) : object :=
  fold_left (fun out kv => trimmed_entry kv.1 kv.2 out) (map_to_list input) ∅.

Definition acceleratorStringMap (raw : any) : result string object :=
  match raw with
  | VNil => Ok ∅
  | VMap typed => acceleratorAnyStringMap typed
  | VStringMap typed => Ok (acceleratorTypedStringMap typed)
  | _ => Err "must be an object"
  end.

Definition errorf_wrap {A} (format : string) (r : result string A) : result string A :=
  match r with Ok a => Ok a | Err e => Err (sprintf format [VString e]) end.

Definition normalizeAcceleratorProfileEnabled (payload : object) : result string object :=
  match firstPresent payload ["enabled"; "Enabled"] with
  | Some (VBool _) => Ok payload
  | Some _ => Err "enabled must be a boolean"
  | None => Ok (<["enabled" := VBool true]> payload)
  end.

Definition normalizeAcceleratorProfileMaps (payload : object) : result string object :=
  nodeSelector <-? errorf_wrap "node_selector %w" (acceleratorStringMap (mget payload "node_selector")) ;;
  labels <-? errorf_wrap "labels %w" (acceleratorStringMap (mget payload "labels")) ;;
  Ok (<["labels" := VMap labels]> (<["node_selector" := VMap nodeSelector]> payload)).

Definition mps_default_keys : list string := ["default_mps_sm_percentage"; "defaultMpsSmPercentage"].
Definition pinned_default_keys : list string := ["default_pinned_memory_limit"; "defaultPinnedMemoryLimit"].
Definition device_class_keys : list string := ["allowed_device_class_name"; "allowedDeviceClassName"].

Definition normalizeAcceleratorProfileMPS (payload : object) : result string object :=
  match firstPresent payload mps_default_keys with
  | Some value =>
      let sm := getInt64 value 0 in
      if (sm <? 1) || (100 <? sm) then Err "default_mps_sm_percentage must be between 1 and 100"
      else Ok (<["default_mps_sm_percentage" := VInt sm]> payload)
  | None => Ok payload
  end.

Definition normalizeAcceleratorProfilePinnedMemory (payload : object) : result string object :=
  let pinned := TextValue payload pinned_default_keys in
  if str_empty pinned then Ok payload
  else match parse_quantity pinned with
       | None => Err (sprintf "invalid default_pinned_memory_limit %q: %w" [VString pinned])
       | Some _ => Ok (<["default_pinned_memory_limit" := VString pinned]> payload)
       end.

Definition normalizeAcceleratorProfileDeviceClass (payload : object) : result string object :=
  match firstPresent payload device_class_keys with
  | Some (VString text) =>
      if str_empty (TrimSpace text) then Err "allowed_device_class_name must be a non-empty string"
      else Ok (<["allowed_device_class_name" := VString (TrimSpace text)]> payload)
  | Some _ => Err "allowed_device_class_name must be a non-empty string"
  | None => Ok payload
  end.

Definition normalizeAcceleratorProfilePayload (payload : object) : result string object :=
  guard_else (negb (str_empty (TrimSpace (TextValue payload ["name"])))) "missing required field: name" ;;?
  p1 <-? normalizeAcceleratorProfileEnabled payload ;;
  p2 <-? normalizeAcceleratorProfileMaps p1 ;;
  p3 <-? normalizeAcceleratorProfileMPS p2 ;;
  p4 <-? normalizeAcceleratorProfilePinnedMemory p3 ;;
  normalizeAcceleratorProfileDeviceClass p4.

Definition acceleratorProfileEnabled (data : object) : bool := profileEnabled data.

Definition acceleratorProfileEventPayload (data : object) (action : string) : object :=
  let id := TextValue data ["id"] in
  list_to_map
    [("id", VString id); ("profile_id", VString id); ("accelerator_profile_id", VString id);
     ("name", VString (TextValue data ["name"])); ("enabled", VBool (acceleratorProfileEnabled data));
     ("accelerator_node_selector", VMap (admissionStringMap (mget data "node_selector")));
     ("accelerator_labels", VMap (admissionStringMap (mget data "labels")));
     ("allowed_device_class_name", VString (TextValue data device_class_keys));
     ("default_mps_sm_percentage", VInt (IntValue data mps_default_keys));
     ("default_pinned_memory_limit", VString (TextValue data pinned_default_keys));
     ("action", VString action)].

(** ** Accelerator profiles at admission *)

Definition applyAcceleratorProfileDeviceClass (profile : object) (req : submitAdmissionRequest)
    : result string submitAdmissionRequest :=
  let allowed := TextValue profile device_class_keys in
  if str_empty allowed then Ok req
  else
    let current := TrimSpace (DeviceClassName req) in
    if str_empty current then Ok (set_DeviceClassName allowed req)
    else if negb (EqualFold current allowed)
         then Err (sprintf "accelerator profile requires device class %q" [VString allowed])
         else Ok (set_DeviceClassName current req).

Definition applyAcceleratorProfileMPSDefaults (profile : object) (req : submitAdmissionRequest) : submitAdmissionRequest :=
  let req1 :=
    match SMPercentage req with
    | Some _ => req
    | None => match firstPresent profile mps_default_keys with
              | Some value => let sm := getInt64 value 0 in
                              if 0 <? sm then set_SMPercentage (Some sm) req else req
              | None => req
              end
    end in
  match PinnedMemoryLimit req1 with
  | Some _ => req1
  | None => let pinned := TextValue profile pinned_default_keys in
            if str_empty pinned then req1 else set_PinnedMemoryLimit (Some pinned) req1
  end.

Context `{admissionReader}.

Definition resolveAdmissionAcceleratorProfile : adm unit :=
  req <-- get_req ;;
  let name := TrimSpace (AcceleratorProfile req) in
  if str_empty name then stm_ret tt
  else match profileByName rd_ListAcceleratorProfiles name with
  | None => stm_fail (Deny StatusUnprocessableEntity "accelerator profile not found")
  | Some profile =>
      match normalizeAcceleratorProfilePayload (rec_Data profile) with
      | Err e => stm_fail (Deny StatusUnprocessableEntity ("accelerator profile is invalid: " +:+ e))
      | Ok normalized =>
          if negb (acceleratorProfileEnabled normalized)
          then stm_fail (Deny StatusUnprocessableEntity "accelerator profile is disabled")
          else
            on_review (set_rv_AcceleratorProfile (FirstNonEmpty [TextValue normalized ["id"]; rec_ID profile; name])) ;;;
            on_review (set_rv_AcceleratorSelector (admissionStringMap (mget normalized "node_selector"))) ;;;
            on_review (set_rv_AcceleratorLabels (admissionStringMap (mget normalized "labels"))) ;;;
            match applyAcceleratorProfileDeviceClass normalized req with
            | Err e => stm_fail (Deny StatusUnprocessableEntity e)
            | Ok req' => on_req (fun _ => applyAcceleratorProfileMPSDefaults normalized req')
            end
      end
  end.

(** ** Placement profiles *)

Definition kueue_labels (profile : object) (queueName backend : string) (labels : object) : object :=
  if EqualFold backend "kueue" then
    let key := TextValue profile ["queue_label_key"; "queueLabelKey"] in
    if negb (str_empty key) && negb (str_empty (TrimSpace queueName))
    then <[key := VString (TrimSpace queueName)]> labels else labels
  else labels.

Definition resolveAdmissionPlacementProfile (queueName : string) : adm unit :=
  req <-- get_req ;;
  let name := TrimSpace (PlacementProfile req) in
  if str_empty name then stm_ret tt
  else match profileByName rd_ListPlacementProfiles name with
  | None => stm_fail (Deny StatusUnprocessableEntity "placement profile not found")
  | Some profile =>
      let data := rec_Data profile in
      if negb (profileEnabled data)
      then stm_fail (Deny StatusUnprocessableEntity "placement profile is disabled")
      else
        let backend := TextValue data ["scheduler_backend"; "schedulerBackend"] in
        let scheduler := TextValue data ["scheduler_name"; "schedulerName"] in
        on_review (set_rv_PlacementProfile (FirstNonEmpty [TextValue data ["id"]; rec_ID profile; name])) ;;;
        on_review (set_rv_SchedulerBackend backend) ;;;
        on_review (set_rv_SchedulerName scheduler) ;;;
        on_review (set_rv_GangEnabled (BoolValue data ["gang_enabled"; "gangEnabled"])) ;;;
        on_review (set_rv_GangMinAvailable (IntValue data ["gang_min_available"; "gangMinAvailable"])) ;;;
        on_review (set_rv_PlacementLabels (kueue_labels data queueName backend
          (admissionStringMap (firstValue data ["placement_labels"; "placementLabels"; "labels"])))) ;;;
        on_review (set_rv_PlacementAnnotations
          (admissionStringMap (firstValue data ["placement_annotations"; "placementAnnotations"; "annotations"]))) ;;;
        if str_empty scheduler
        then on_review (set_rv_SchedulerName (defaultSchedulerNameForBackend backend))
        else stm_ret tt
  end.

(** ** Network profiles *)

Definition multus_annotations (profile annotations : object) : object :=
  let secondary := TextValue profile ["secondary_network"; "secondaryNetwork"] in
  if negb (str_empty secondary) && negb (String.eqb secondary "none") then
    if str_empty (TextValue annotations [multusNetworksAnnotation])
    then <[multusNetworksAnnotation := VString secondary]> annotations else annotations
  else annotations.

Definition resolveAdmissionNetworkProfile (req : submitAdmissionRequest) : adm unit :=
  on_review (set_rv_RDMARequired (RDMARequired req)) ;;;
  on_review (set_rv_NICClass (TrimSpace (NICClass req))) ;;;
  on_review (set_rv_TopologyRequirement (TrimSpace (TopologyRequirement req))) ;;;
  let name := TrimSpace (NetworkProfile req) in
  if str_empty name then stm_ret tt
  else match profileByName rd_ListNetworkProfiles name with
  | None => stm_fail (Deny StatusUnprocessableEntity "network profile not found")
  | Some profile =>
      let data := rec_Data profile in
      if negb (profileEnabled data)
      then stm_fail (Deny StatusUnprocessableEntity "network profile is disabled")
      else
        on_review (set_rv_NetworkProfile (FirstNonEmpty [TextValue data ["id"]; rec_ID profile; name])) ;;;
        on_review (set_rv_RDMARequired (RDMARequired req || BoolValue data ["rdma_enabled"; "rdmaEnabled"])) ;;;
        on_review (set_rv_NICClass (FirstNonEmpty [TrimSpace (NICClass req);
          TextValue data ["required_nic_class"; "requiredNicClass"; "nic_class"; "nicClass"]])) ;;;
        on_review (set_rv_TopologyRequirement (FirstNonEmpty [TrimSpace (TopologyRequirement req);
          TextValue data ["topology_requirement"; "topologyRequirement"; "topology_policy"; "topologyPolicy"]])) ;;;
        on_review (set_rv_NetworkAnnotations (multus_annotations data (admissionStringMap (mget data "annotations")))) ;;;
        on_review (set_rv_NetworkEnv (admissionStringMap (mget data "network_env")))
  end.

(** ** Normalisation is idempotent *)

(** Writing another key does not change what the aliases of a field read. *)
Lemma firstPresent_insert_ne data k v keys :
  k ∉ keys -> firstPresent (<[k := v]> data) keys = firstPresent data keys.
Proof.
  induction keys as [|k' keys IH]; intros Hk; cbn; [done|].
  apply not_elem_of_cons in Hk as [Hne Hk]. by rewrite lookup_insert_ne, IH.
Qed.
Lemma first_key_insert_ne {A} (f : any -> option A) data k v keys :
  k ∉ keys -> first_key f (<[k := v]> data) keys = first_key f data keys.
Proof.
  induction keys as [|k' keys IH]; intros Hk; cbn; [done|].
  apply not_elem_of_cons in Hk as [Hne Hk]. unfold mget. by rewrite lookup_insert_ne, IH.
Qed.
Lemma TextValue_insert_ne data k v keys : k ∉ keys -> TextValue (<[k := v]> data) keys = TextValue data keys.
Proof. intros. unfold TextValue. by rewrite first_key_insert_ne. Qed.

Lemma TextValue_head data k keys t :
  data !! k = Some (VString t) -> TrimSpace t = t -> t ≠ "" -> TextValue data (k :: keys) = t.
Proof.
  intros Hk Ht Hne. unfold TextValue. cbn. unfold mget. rewrite Hk. cbn. unfold nonempty, str_empty. rewrite Ht.
  by destruct (String.eqb_spec t "").
Qed.

(** A map of non-blank, trimmed strings. *)
Definition clean_entry (k : string) (v : any) : Prop :=
  exists t, v = VString t /\ TrimSpace k = k /\ TrimSpace t = t /\ k ≠ "" /\ t ≠ "".
Definition clean_map (m : object) : Prop := map_Forall clean_entry m.

Lemma trimmed_entry_clean k t out : clean_map out -> clean_map (trimmed_entry k t out).
Proof.
  intros Hc. unfold trimmed_entry, str_empty.
  destruct (String.eqb_spec (TrimSpace k) ""), (String.eqb_spec (TrimSpace t) ""); cbn; try done.
  apply map_Forall_insert_2; [|done]. exists (TrimSpace t). by rewrite !TrimSpace_idem.
Qed.

Lemma any_string_entries_clean es out m :
  clean_map out -> any_string_entries es out = Ok m -> clean_map m.
Proof.
  revert out. induction es as [|[k v] es IH]; intros out Hc; cbn; [by intros [= <-]|].
  destruct v; try done. intros Hm. eapply IH; [|exact Hm]. by apply trimmed_entry_clean.
Qed.

Lemma typed_entries_clean es out :
  clean_map out -> clean_map (fold_left (fun out (kv : string * string) => trimmed_entry kv.1 kv.2 out) es out).
Proof. revert out. induction es; intros out Hc; cbn; [done|]. by apply IHes, trimmed_entry_clean. Qed.

Lemma acceleratorStringMap_clean raw m : acceleratorStringMap raw = Ok m -> clean_map m.
Proof.
  assert (clean_map ∅) as Hem by apply map_Forall_empty.
  destruct raw; cbn; try done.
  - intros [= <-]. done.
  - by apply any_string_entries_clean.
  - intros [= <-]. by apply typed_entries_clean.
Qed.

Lemma any_string_entries_fix es out :
  NoDup es.*1 -> Forall (fun kv => clean_entry kv.1 kv.2) es ->
  any_string_entries es out = Ok ((list_to_map es : object) ∪ out).
Proof.
  revert out. induction es as [|[k v] es IH]; intros out Hnd Hc; cbn; [by rewrite (left_id_L ∅ (∪))|].
  apply NoDup_cons in Hnd as [Hk Hnd]. apply Forall_cons in Hc as [(t & Hv & Hk' & Ht & Hne & Htne) Hc].
  cbn in Hv, Hk', Hne. subst v. rewrite IH by done. f_equal. unfold trimmed_entry. rewrite Hk', Ht. unfold str_empty.
  destruct (String.eqb_spec k ""), (String.eqb_spec t ""); try done. cbn.
  rewrite <- insert_union_l, insert_union_r; [done|]. by apply not_elem_of_list_to_map_1.
Qed.

Lemma clean_map_fix m : clean_map m -> acceleratorStringMap (VMap m) = Ok m.
Proof.
  intros Hc. cbn. unfold acceleratorAnyStringMap. rewrite any_string_entries_fix.
  - by rewrite list_to_map_to_list, (right_id_L ∅ (∪)).
  - apply NoDup_fst_map_to_list.
  - apply Forall_forall. intros [k v] Hkv%elem_of_map_to_list. by apply Hc.
Qed.

(** What each stage establishes, and is a fixed point of. *)
Definition norm_enabled (p : object) : Prop := exists b, firstPresent p ["enabled"; "Enabled"] = Some (VBool b).
Definition norm_map (k : string) (p : object) : Prop := exists m, p !! k = Some (VMap m) /\ clean_map m.
Definition norm_mps (p : object) : Prop :=
  firstPresent p mps_default_keys = None \/
  exists sm, p !! "default_mps_sm_percentage" = Some (VInt sm) /\ 1 <= sm <= 100.
Definition norm_pinned (p : object) : Prop :=
  TextValue p pinned_default_keys = "" \/
  exists t q, p !! "default_pinned_memory_limit" = Some (VString t) /\ TrimSpace t = t /\ t ≠ "" /\ parse_quantity t = Some q.
Definition norm_device (p : object) : Prop :=
  firstPresent p device_class_keys = None \/
  exists t, p !! "allowed_device_class_name" = Some (VString t) /\ TrimSpace t = t /\ t ≠ "".
Definition normalized_profile (p : object) : Prop :=
  TextValue p ["name"] ≠ "" /\ norm_enabled p /\ norm_map "node_selector" p /\ norm_map "labels" p /\
  norm_mps p /\ norm_pinned p /\ norm_device p.

Lemma normalize_of_normalized p : normalized_profile p -> normalizeAcceleratorProfilePayload p = Ok p.
Proof.
  intros (Hn & (b & Hb) & (ns & Hns & Cns) & (ls & Hls & Cls) & Hm & Hp & Hd).
  unfold normalizeAcceleratorProfilePayload. rewrite TextValue_Trimmed. unfold str_empty.
  destruct (String.eqb_spec (TextValue p ["name"]) ""); [done|]. cbn [guard_else negb res_bind].
  unfold normalizeAcceleratorProfileEnabled. rewrite Hb. cbn [res_bind].
  unfold normalizeAcceleratorProfileMaps, mget. rewrite Hns, Hls. cbn [from_option id].
  rewrite !clean_map_fix by done. cbn [errorf_wrap res_bind].
  rewrite (insert_id p "node_selector"), (insert_id p "labels") by done.
  assert (normalizeAcceleratorProfileMPS p = Ok p) as ->.
  { unfold normalizeAcceleratorProfileMPS. destruct Hm as [->|(sm & Hsm & Hr)]; [done|].
    cbn [firstPresent mps_default_keys]. rewrite Hsm. cbn [getInt64].
    destruct (Z.ltb_spec sm 1), (Z.ltb_spec 100 sm); try lia. cbn. by rewrite insert_id. }
  cbn [res_bind].
  assert (normalizeAcceleratorProfilePinnedMemory p = Ok p) as ->.
  { unfold normalizeAcceleratorProfilePinnedMemory. destruct Hp as [->|(t & q & Ht & Htt & Hne & Hq)]; [done|].
    unfold pinned_default_keys. rewrite (TextValue_head _ _ _ t) by done. unfold str_empty.
    destruct (String.eqb_spec t ""); [done|]. rewrite Hq. by rewrite insert_id. }
  cbn [res_bind]. unfold normalizeAcceleratorProfileDeviceClass.
  destruct Hd as [->|(t & Ht & Htt & Hne)]; [done|].
  cbn [firstPresent device_class_keys]. rewrite Ht, Htt. unfold str_empty.
  destruct (String.eqb_spec t ""); [done|]. by rewrite insert_id.
Qed.

(** Writing a key of another field keeps what a stage established. *)
Ltac other_key := apply (bool_decide_unpack _); vm_compute; exact I.

Lemma norm_enabled_insert k v p : k ∉ ["enabled"; "Enabled"] -> norm_enabled p -> norm_enabled (<[k := v]> p).
Proof. intros. unfold norm_enabled. by rewrite firstPresent_insert_ne. Qed.
Lemma norm_map_insert k k' v p : k ≠ k' -> norm_map k' p -> norm_map k' (<[k := v]> p).
Proof. intros. unfold norm_map. by rewrite lookup_insert_ne. Qed.
Lemma norm_mps_insert k v p : k ∉ mps_default_keys -> norm_mps p -> norm_mps (<[k := v]> p).
Proof. intros Hk. unfold norm_mps. rewrite firstPresent_insert_ne, lookup_insert_ne by set_solver. done. Qed.
Lemma norm_pinned_insert k v p : k ∉ pinned_default_keys -> norm_pinned p -> norm_pinned (<[k := v]> p).
Proof. intros Hk. unfold norm_pinned. rewrite TextValue_insert_ne, lookup_insert_ne by set_solver. done. Qed.

Lemma norm_enabled_stage p p' :
  normalizeAcceleratorProfileEnabled p = Ok p' ->
  norm_enabled p' /\ (p' = p \/ exists v, p' = <["enabled" := v]> p).
Proof.
  unfold normalizeAcceleratorProfileEnabled, norm_enabled. intros E.
  destruct (firstPresent p ["enabled"; "Enabled"]) as [[]|] eqn:Ee; inversion E; subst; eauto.
  split; [|eauto]. exists true. cbn. by rewrite lookup_insert_eq.
Qed.

Lemma norm_maps_stage p p' :
  normalizeAcceleratorProfileMaps p = Ok p' ->
  norm_map "node_selector" p' /\ norm_map "labels" p' /\
  exists v w, p' = <["labels" := v]> (<["node_selector" := w]> p).
Proof.
  unfold normalizeAcceleratorProfileMaps. intros E.
  destruct (acceleratorStringMap (mget p "node_selector")) as [ns|] eqn:En; [|done]. cbn in E.
  destruct (acceleratorStringMap (mget p "labels")) as [ls|] eqn:El; [|done]. injection E as <-.
  apply acceleratorStringMap_clean in En, El. split_and!; [|exists ls|by eauto].
  - apply norm_map_insert; [done|]. exists ns. by rewrite lookup_insert_eq.
  - by rewrite lookup_insert_eq.
Qed.

Lemma norm_mps_stage p p' :
  normalizeAcceleratorProfileMPS p = Ok p' ->
  norm_mps p' /\ (p' = p \/ exists v, p' = <["default_mps_sm_percentage" := v]> p).
Proof.
  unfold normalizeAcceleratorProfileMPS, norm_mps. intros E.
  destruct (firstPresent p mps_default_keys) as [v|] eqn:Ev; [|injection E as <-; by eauto].
  destruct (_ || _) eqn:Er; [done|]. injection E as <-. to_prop. split; [|eauto].
  right. rewrite lookup_insert_eq. eexists. split; [done|lia].
Qed.

Lemma norm_pinned_stage p p' :
  normalizeAcceleratorProfilePinnedMemory p = Ok p' ->
  norm_pinned p' /\ (p' = p \/ exists v, p' = <["default_pinned_memory_limit" := v]> p).
Proof.
  unfold normalizeAcceleratorProfilePinnedMemory, norm_pinned. intros E.
  destruct (str_empty _) eqn:Et; [injection E as <-; apply String.eqb_eq in Et; by eauto|].
  destruct (parse_quantity _) as [q|] eqn:Eq; [|done]. injection E as <-. apply String.eqb_neq in Et.
  split; [|eauto]. right. rewrite lookup_insert_eq. do 2 eexists. split_and!; eauto using TextValue_Trimmed.
Qed.

Lemma norm_device_stage p p' :
  normalizeAcceleratorProfileDeviceClass p = Ok p' ->
  norm_device p' /\ (p' = p \/ exists v, p' = <["allowed_device_class_name" := v]> p).
Proof.
  unfold normalizeAcceleratorProfileDeviceClass, norm_device. intros E.
  destruct (firstPresent p device_class_keys) as [[]|] eqn:Ed; try done; [|injection E as <-; by eauto].
  destruct (str_empty _) eqn:Es; [done|]. injection E as <-. apply String.eqb_neq in Es.
  split; [|eauto]. right. rewrite lookup_insert_eq. eexists. split_and!; eauto. apply TrimSpace_idem.
Qed.

(** Moves what was established across the writes of the later stages. *)
Ltac across_writes :=
  first [ assumption
        | apply norm_enabled_insert; [other_key|]; across_writes
        | apply norm_map_insert; [done|]; across_writes
        | apply norm_mps_insert; [other_key|]; across_writes
        | apply norm_pinned_insert; [other_key|]; across_writes
        | rewrite TextValue_insert_ne by other_key; across_writes ].

Lemma normalize_establishes p p' : normalizeAcceleratorProfilePayload p = Ok p' -> normalized_profile p'.
Proof.
  unfold normalizeAcceleratorProfilePayload. intros E0.
  apply res_bind_ok in E0 as (? & Hn%guard_else_ok & E0). rewrite TextValue_Trimmed in Hn.
  apply negb_true_iff, String.eqb_neq in Hn.
  apply res_bind_ok in E0 as (p1 & [B1 W1]%norm_enabled_stage & E0).
  apply res_bind_ok in E0 as (p2 & (M2 & L2 & v2 & w2 & W2)%norm_maps_stage & E0).
  apply res_bind_ok in E0 as (p3 & [S3 W3]%norm_mps_stage & E0).
  apply res_bind_ok in E0 as (p4 & [P4 W4]%norm_pinned_stage & [D5 W5]%norm_device_stage).
  destruct W1 as [->|[v1 ->]], W3 as [->|[v3 ->]], W4 as [->|[v4 ->]], W5 as [->|[v5 ->]]; subst p2;
    repeat split; try across_writes.
Qed.

(** Normalising an accelerator profile is idempotent: a payload accepted when the
    profile is written is accepted again, unchanged, when the stored profile is
    normalised at admission, and a profile in normal form has a name, a boolean
    "enabled", trimmed string maps, an MPS default from 1 to 100, a parsable
    pinned-memory default and a non-blank device class, where it has them. *)
Theorem accelerator_normalize_idempotent p p' :
  normalizeAcceleratorProfilePayload p = Ok p' ->
  normalizeAcceleratorProfilePayload p' = Ok p' /\ normalized_profile p'.
Proof.
  intros E%normalize_establishes. split; [by apply normalize_of_normalized|done].
Qed.

(** ** What an accelerator profile may change in a request *)

(** [q'] differs from [q] at most in the device class, the SM percentage and the
    pinned-memory limit. *)
Definition profile_fields_only (q q' : submitAdmissionRequest) : Prop :=
  q' = set_PinnedMemoryLimit (PinnedMemoryLimit q')
         (set_SMPercentage (SMPercentage q') (set_DeviceClassName (DeviceClassName q') q)).

Lemma applyAcceleratorProfileDeviceClass_ok profile q q' :
  applyAcceleratorProfileDeviceClass profile q = Ok q' ->
  q' = set_DeviceClassName (DeviceClassName q') q /\
  (TrimSpace (DeviceClassName q) ≠ "" -> TrimSpace (DeviceClassName q') = TrimSpace (DeviceClassName q)).
Proof.
  unfold applyAcceleratorProfileDeviceClass, str_empty. intros E.
  destruct (String.eqb (TextValue _ _) ""); [injection E as <-; by destruct q|].
  destruct (String.eqb_spec (TrimSpace (DeviceClassName q)) ""); [injection E as <-; split; done|].
  destruct (negb _); [done|]. injection E as <-. split; [done|]. intros _. cbn. apply TrimSpace_idem.
Qed.

(** A percentage a profile fills in comes from its normalised default. *)
Lemma applyAcceleratorProfileMPSDefaults_ok profile q :
  norm_mps profile ->
  let q' := applyAcceleratorProfileMPSDefaults profile q in
  profile_fields_only q q' /\ DeviceClassName q' = DeviceClassName q /\
  (SMPercentage q' = SMPercentage q \/
   SMPercentage q = None /\ exists sm, SMPercentage q' = Some sm /\ 1 <= sm <= 100) /\
  (PinnedMemoryLimit q' = PinnedMemoryLimit q \/ PinnedMemoryLimit q = None).
Proof.
  intros Hm. unfold applyAcceleratorProfileMPSDefaults. cbn zeta.
  assert (forall v, firstPresent profile mps_default_keys = Some v -> 1 <= getInt64 v 0 <= 100) as Hr.
  { intros v Hv. destruct Hm as [Hm|(sm & Hsm & Hr)]; [congruence|].
    cbn in Hv. rewrite Hsm in Hv. by injection Hv as <-. }
  destruct q as [? ? ? ? ? ? ? ? ? [sm|] ? ? ? ? ? ? ? ? ? ? ? ? [pin|] ? ?]; unfold profile_fields_only;
    cbn -[firstPresent getInt64 TextValue];
    destruct (firstPresent profile mps_default_keys) as [v|] eqn:Ev; try specialize (Hr v eq_refl);
    destruct (str_empty (TextValue profile pinned_default_keys)); cbn -[getInt64 TextValue];
    try destruct (Z.ltb_spec 0 (getInt64 v 0)); cbn -[getInt64 TextValue]; split_and!; auto;
    (right; split; [done|eexists; split; [done|lia]]).
Qed.

Lemma resolveAdmissionAcceleratorProfile_ok q w q' w' :
  resolveAdmissionAcceleratorProfile (q, w) = (q', w', Ok tt) ->
  profile_fields_only q q' /\
  (TrimSpace (DeviceClassName q) ≠ "" -> TrimSpace (DeviceClassName q') = TrimSpace (DeviceClassName q)) /\
  (SMPercentage q' = SMPercentage q \/
   SMPercentage q = None /\ exists sm, SMPercentage q' = Some sm /\ 1 <= sm <= 100) /\
  (PinnedMemoryLimit q' = PinnedMemoryLimit q \/ PinnedMemoryLimit q = None).
Proof.
  unfold resolveAdmissionAcceleratorProfile, get_req. unfold stm_bind at 1. cbn [fst].
  destruct (str_empty _); [intros [= <- <-]; split_and!; [by destruct q|done|by left..]|].
  destruct (profileByName _ _) as [profile|]; [|done].
  destruct (normalizeAcceleratorProfilePayload _) as [n|] eqn:En; [|done].
  apply normalize_establishes in En as (_ & _ & _ & _ & Hm & _).
  destruct (negb _); [done|].
  destruct (applyAcceleratorProfileDeviceClass n q) as [q1|] eqn:Ed; [|done].
  apply applyAcceleratorProfileDeviceClass_ok in Ed as [E1 Hd].
  pose proof (applyAcceleratorProfileMPSDefaults_ok n q1 Hm) as (Hf & Hdc & Hs & Hp). revert Hf Hdc Hs Hp.
  generalize (applyAcceleratorProfileMPSDefaults n q1). intros q2 Hf Hdc Hs Hp [= -> _].
  rewrite Hdc. unfold profile_fields_only in *. rewrite E1 in Hs, Hp. cbn in Hs, Hp.
  split_and!; [|done|done|done]. rewrite Hf at 1. rewrite E1. by rewrite Hdc.
Qed.

(** An accelerator profile only fills blanks: once it resolved, the request is
    unchanged but for the device class, the SM percentage and the pinned-memory
    limit; an explicit percentage or limit is kept, an explicit device class is
    kept up to surrounding blanks, and a filled-in percentage is from 1 to 100. *)
Theorem accelerator_profile_fills_blanks q w q' w' :
  resolveAdmissionAcceleratorProfile (q, w) = (q', w', Ok tt) ->
  q' = set_PinnedMemoryLimit (PinnedMemoryLimit q')
         (set_SMPercentage (SMPercentage q') (set_DeviceClassName (DeviceClassName q') q)) /\
  (TrimSpace (DeviceClassName q) ≠ "" -> TrimSpace (DeviceClassName q') = TrimSpace (DeviceClassName q)) /\
  (SMPercentage q' = SMPercentage q \/
   SMPercentage q = None /\ exists sm, SMPercentage q' = Some sm /\ 1 <= sm <= 100) /\
  (PinnedMemoryLimit q' = PinnedMemoryLimit q \/ PinnedMemoryLimit q = None).
Proof. apply resolveAdmissionAcceleratorProfile_ok. Qed.

End Profiles.

Definition raw_profile : object :=
  list_to_map [("name", VString " a100 "); ("node_selector", VMap {[ " zone " := VString " z1 " ]});
               ("defaultMpsSmPercentage", VInt 40); ("allowedDeviceClassName", VString " gpu.nvidia.com")].
Definition stored_profile : object :=
  list_to_map [("name", VString " a100 "); ("enabled", VBool true);
               ("node_selector", VMap {[ "zone" := VString "z1" ]}); ("labels", VMap ∅);
               ("defaultMpsSmPercentage", VInt 40); ("default_mps_sm_percentage", VInt 40);
               ("allowedDeviceClassName", VString " gpu.nvidia.com");
               ("allowed_device_class_name", VString "gpu.nvidia.com")].

Lemma accelerator_normalize_idempotent_witness :
  @normalizeAcceleratorProfilePayload escape_lib stored_profile = Ok stored_profile /\
  @normalized_profile escape_lib stored_profile.
Proof. apply (@accelerator_normalize_idempotent escape_lib raw_profile). vm_compute. reflexivity. Defined.

Definition profile_reader : admissionReader :=
  storeAdmissionReader (Store_ {[ acceleratorProfilesResource := {[ "a100" := Record_ "a100" raw_profile 1 0 0 ]} ]} ∅).
Definition profile_request : submitAdmissionRequest :=
  Req "job" "p1" "u1" "" "" f64_0 f64_0 0 1 None "" false 0 0 0 0 "" false "" "" "" "a100" None false [].
Definition blank_review : admissionReview :=
  Review true "" "" "" "" 0 false 0 "" f64_0 f64_0 0 false 0 "" false "" "" ∅ ∅ "" "" "" false 0 ∅ ∅ "" ∅ ∅ None "" zero_usage.
Definition profile_run : (submitAdmissionRequest * admissionReview) * result admissionDeny unit :=
  @resolveAdmissionAcceleratorProfile escape_lib profile_reader (profile_request, blank_review).

Lemma accelerator_profile_fills_blanks_witness :
  profile_fields_only profile_request profile_run.1.1 /\
  SMPercentage profile_run.1.1 = Some 40 /\ DeviceClassName profile_run.1.1 = "gpu.nvidia.com".
Proof.
  split; [|split; vm_compute; reflexivity].
  apply (@accelerator_profile_fills_blanks escape_lib profile_reader profile_request blank_review
    profile_run.1.1 profile_run.1.2 ltac:(vm_compute; reflexivity)).
Defined.
