(* ===== verification/AdmissionDecode.v ===== *)
(** * Submit admission: decoding requests, rendering reviews (admission_decode.go) *)

From stdpp Require Import base gmap strings list fin_maps.
From Stdlib Require Import ZArith Lia.
From S2P Require Import Prelude GoValue Store Crud AdmissionTypes AdmissionResources.
Local Open Scope Z_scope.

Section Decode.
Context `{GoLib}.

(** ** Requests *)

(** The raw text of a resource: [None] when nothing could be rendered. *)
Fixpoint raw_from_keys (data : object) (keys : list string) : option string :=
  match keys with
  | [] => None
  | key :: ks =>
      match data !! key with
      | None => raw_from_keys data ks
      | Some (VString text) => Some (TrimSpace text)
      | Some raw => match marshal raw with Some b => Some b | None => raw_from_keys data ks end
      end
  end.

Definition resourceRawJSON (data : object) : string :=
  match raw_from_keys data ["json_data"; "jsonData"; "json"; "object"; "manifest"] with
  | Some raw => raw
  | None =>
      if negb (str_empty (TextValue data ["apiVersion"])) || negb (str_empty (TextValue data ["kind"; "Kind"]))
      then default "" (marshal (VMap data)) else ""
  end.

Definition kindFromRaw (raw : string) : string :=
  match unmarshal_object raw with
  | None => ""
  | Some obj => stringField obj "kind"
  end.

Definition decode_resource (item : any) : option admissionResourcePayload :=
  match item with
  | VMap data =>
      let raw := resourceRawJSON data in
      if str_empty raw then None
      else Some (Payload (TextValue data ["name"; "Name"])
                   (FirstNonEmpty [TextValue data ["kind"; "Kind"]; kindFromRaw raw]) raw)
  | _ => None
  end.

Definition decodeAdmissionResources (value : any) : list admissionResourcePayload :=
  match value with VList items => omap decode_resource items | _ => [] end.

Definition decodeSubmitAdmissionRequest (payload : object) : submitAdmissionRequest :=
  let pinned := TextValue payload ["pinned_memory_limit"; "pinnedMemoryLimit"; "pinned_memory"; "pinnedMemory"] in
  {| JobID := TextValue payload ["job_id"; "jobId"; "id"];
     ProjectID := TextValue payload ["project_id"; "projectId"; "ProjectID"];
     UserID := TextValue payload ["user_id"; "userId"; "UserID"];
     QueueName := TextValue payload ["queue_name"; "queueName"; "QueueName"];
     DeviceClassName := TextValue payload ["device_class_name"; "deviceClassName"; "DeviceClassName"];
     RequiredGPU := NumberValue payload ["required_gpu"; "requiredGpu"; "RequiredGPU"];
     RequiredCPU := NumberValue payload ["required_cpu"; "requiredCPU"; "required_cpu_cores"; "RequiredCPU"];
     RequiredMemory := f64_to_int (admissionMemoryMB payload
       ["required_memory"; "requiredMemory"; "required_memory_mb"; "RequiredMemory"]);
     GPUCount := IntValue payload ["gpu_count"; "gpuCount"; "GPUCount"];
     SMPercentage := match firstPresent payload ["sm_percentage"; "smPercentage"; "SMPercentage"] with
                     | Some rawSM => Some (getInt64 rawSM 0)
                     | None => None
                     end;
     MPSShareProjectID := TextValue payload
       ["mps_share_project_id"; "mpsShareProjectId"; "shared_claim_project_id"; "sharedClaimProjectId"];
     StreamingSession := BoolValue payload ["streaming_session"; "streamingSession"; "StreamingSession"];
     StreamMaxBitrateKbps := IntValue payload ["stream_max_bitrate_kbps"; "streamMaxBitrateKbps"; "StreamMaxBitrateKbps"];
     StreamBitrateCapKbps := 0;
     StreamSessionCap := 0;
     StreamEgressBudgetKbps := 0;
     NetworkProfile := TextValue payload ["network_profile"; "networkProfile"; "NetworkProfile"];
     RDMARequired := BoolValue payload ["rdma_required"; "rdmaRequired"; "RDMARequired"];
     NICClass := TextValue payload ["nic_class"; "nicClass"; "NICClass"];
     TopologyRequirement := TextValue payload ["topology_requirement"; "topologyRequirement"; "TopologyRequirement"];
     PlacementProfile := TextValue payload ["placement_profile"; "placementProfile"; "PlacementProfile"];
     AcceleratorProfile := TextValue payload ["accelerator_profile"; "acceleratorProfile"; "AcceleratorProfile"];
     PinnedMemoryLimit := if str_empty pinned then None else Some pinned;
     EnforceImageAllowList := false;
     Resources := decodeAdmissionResources (mget payload "resources") |}.

(** ** Reviews *)

Definition usage_data (u : admissionUsage) : object :=
  list_to_map
    [("project_gpu", VFloat64 (ProjectGPU u)); ("project_cpu", VFloat64 (ProjectCPU u));
     ("project_memory_mb", VInt (ProjectMemoryMB u)); ("user_gpu", VFloat64 (UserGPU u));
     ("user_cpu", VFloat64 (UserCPU u)); ("user_memory_mb", VInt (UserMemoryMB u));
     ("user_running_jobs", VInt (UserRunningJobs u)); ("user_queued_jobs", VInt (UserQueuedJobs u));
     ("resource_floor_gpu", VFloat64 (ResourceFloorGPU u)); ("resource_floor_cpu", VFloat64 (ResourceFloorCPU u));
     ("floor_memory_mb", VInt (FloorMemoryMB u)); ("active_stream_sessions", VInt (ActiveStreamSessions u));
     ("active_stream_bitrate_kbps", VInt (ActiveStreamBitrateKbps u));
     ("stream_egress_budget_kbps", VInt (UStreamEgressBudgetKbps u))].

Definition put_if (b : bool) (key : string) (v : any) (data : object) : object :=
  if b then <[key := v]> data else data.
Definition put_text (key text : string) : object -> object := put_if (negb (str_empty text)) key (VString text).
Definition put_map (key : string) (m : object) : object -> object := put_if (0 <? size m)%nat key (VMap m).

Definition addAdmissionNetworkReviewData (w : admissionReview) (data : object) : object :=
  let data := put_text "network_profile" (rv_NetworkProfile w) data in
  let data := put_if (rv_RDMARequired w) "rdma_required" (VBool true) data in
  let data := put_text "nic_class" (rv_NICClass w) data in
  let data := put_text "topology_requirement" (rv_TopologyRequirement w) data in
  let data := put_map "network_annotations" (rv_NetworkAnnotations w) data in
  put_map "network_env" (rv_NetworkEnv w) data.

Definition addAdmissionPlacementReviewData (w : admissionReview) (data : object) : object :=
  let data := put_text "placement_profile" (rv_PlacementProfile w) data in
  let data := put_text "scheduler_backend" (rv_SchedulerBackend w) data in
  let data := put_text "scheduler_name" (rv_SchedulerName w) data in
  let data := put_if (rv_GangEnabled w) "gang_enabled" (VBool true) data in
  let data := put_if (0 <? rv_GangMinAvailable w) "gang_min_available" (VInt (rv_GangMinAvailable w)) data in
  let data := put_map "placement_labels" (rv_PlacementLabels w) data in
  put_map "placement_annotations" (rv_PlacementAnnotations w) data.

Definition addAdmissionAcceleratorReviewData (w : admissionReview) (data : object) : object :=
  let data := put_text "accelerator_profile" (rv_AcceleratorProfile w) data in
  let data := put_map "accelerator_node_selector" (rv_AcceleratorSelector w) data in
  let data := put_map "accelerator_labels" (rv_AcceleratorLabels w) data in
  let data := match rv_SMPercentage w with Some p => <["sm_percentage" := VInt p]> data | None => data end in
  put_text "pinned_memory_limit" (rv_PinnedMemoryLimit w) data.

(** The fields every review carries. *)
Definition review_fields (w : admissionReview) : object :=
  list_to_map
    [("allowed", VBool (rv_Allowed w)); ("reason", VString (rv_Reason w)); ("project_id", VString (rv_ProjectID w));
     ("user_id", VString (rv_UserID w)); ("queue_name", VString (rv_QueueName w));
     ("priority_value", VInt (rv_QueuePriority w)); ("preemptible", VBool (rv_QueuePreemptible w));
     ("is_preemptible", VBool (rv_QueuePreemptible w)); ("runtime_limit_seconds", VInt (rv_RuntimeLimit w));
     ("max_runtime_seconds", VInt (rv_RuntimeLimit w)); ("device_class_name", VString (rv_DeviceClassName w));
     ("required_gpu", VFloat64 (rv_RequiredGPU w)); ("required_cpu", VFloat64 (rv_RequiredCPU w));
     ("required_memory", VInt (rv_RequiredMemory w)); ("streaming_session", VBool (rv_StreamingSession w));
     ("stream_max_bitrate_kbps", VInt (rv_StreamMaxBitrateKbps w)); ("usage", VMap (usage_data (rv_Usage w)))].

Definition admissionReviewData (w : admissionReview) : object :=
  addAdmissionAcceleratorReviewData w (addAdmissionPlacementReviewData w
    (addAdmissionNetworkReviewData w (review_fields w))).

Definition admissionDenied (req : submitAdmissionRequest) (reason : string) : object :=
  list_to_map
    [("allowed", VBool false); ("reason", VString reason); ("job_id", VString (JobID req));
     ("project_id", VString (ProjectID req)); ("user_id", VString (UserID req))].

(** [data[key] == ""] on an interface value. *)
Definition is_blank (data : object) (key : string) : bool :=
  match mget data key with VString t => str_empty t | _ => false end.

Definition admissionDeniedReview (req : submitAdmissionRequest) (w : admissionReview) (reason : string) : object :=
  let data := admissionReviewData (set_rv_Reason reason (set_rv_Allowed false w)) in
  let data := put_if (is_blank data "project_id") "project_id" (VString (ProjectID req)) data in
  let data := put_if (is_blank data "user_id") "user_id" (VString (UserID req)) data in
  let data := put_if (is_blank data "queue_name") "queue_name" (VString (QueueName req)) data in
  put_if (negb (str_empty (JobID req))) "job_id" (VString (JobID req)) data.

(** ** Laws *)

(** The keys the optional parts write. *)
Definition optional_keys : list string :=
  ["network_profile"; "rdma_required"; "nic_class"; "topology_requirement"; "network_annotations"; "network_env";
   "placement_profile"; "scheduler_backend"; "scheduler_name"; "gang_enabled"; "gang_min_available";
   "placement_labels"; "placement_annotations"; "accelerator_profile"; "accelerator_node_selector";
   "accelerator_labels"; "sm_percentage"; "pinned_memory_limit"].

Lemma put_if_ne b key v data k : k ≠ key -> put_if b key v data !! k = data !! k.
Proof. intros Hk. unfold put_if. destruct b; [|done]. by rewrite lookup_insert_ne. Qed.

Lemma optional_parts_ne w data k :
  k ∉ optional_keys ->
  addAdmissionAcceleratorReviewData w (addAdmissionPlacementReviewData w (addAdmissionNetworkReviewData w data)) !! k
    = data !! k.
Proof.
  unfold optional_keys. rewrite !not_elem_of_cons.
  intros (? & ? & ? & ? & ? & ? & ? & ? & ? & ? & ? & ? & ? & ? & ? & ? & ? & ? & _).
  unfold addAdmissionAcceleratorReviewData, addAdmissionPlacementReviewData, addAdmissionNetworkReviewData, put_text, put_map.
  destruct (rv_SMPercentage w); rewrite !put_if_ne by done; rewrite ?lookup_insert_ne, ?put_if_ne by done; done.
Qed.

(** A mandatory field of a rendered review. *)
Lemma admissionReviewData_lookup w k : k ∉ optional_keys -> admissionReviewData w !! k = review_fields w !! k.
Proof. intros Hk. unfold admissionReviewData. by rewrite optional_parts_ne. Qed.

Lemma review_allowed w : admissionReviewData w !! "allowed" = Some (VBool (rv_Allowed w)).
Proof. rewrite admissionReviewData_lookup; [reflexivity|by apply (bool_decide_unpack _)]. Qed.
Lemma review_reason w : admissionReviewData w !! "reason" = Some (VString (rv_Reason w)).
Proof. rewrite admissionReviewData_lookup; [reflexivity|by apply (bool_decide_unpack _)]. Qed.

Lemma denied_review_spec req w reason :
  admissionDeniedReview req w reason !! "allowed" = Some (VBool false) /\
  admissionDeniedReview req w reason !! "reason" = Some (VString reason).
Proof.
  unfold admissionDeniedReview. rewrite !put_if_ne by done. rewrite review_allowed, review_reason. by destruct w.
Qed.

End Decode.
