(* ===== verification/SchedulerRepository.v ===== *)
(** * Scheduler-quota repository (scheduler_quota_repository.go)

    Queues, plans and admission reviews over the record store; the repository
    methods that write are functions from a store to the store they leave. *)

From stdpp Require Import base gmap strings list fin_maps sorting.
From Stdlib Require Import ZArith Lia.
From S2P Require Import Prelude GoValue Store EventBus Crud Tx InputLimits AdmissionTypes SchedulerHttp AdmissionResources AdmissionDecode.
Local Open Scope Z_scope.
Local Open Scope go_scope.

Definition liveQuotasResource : string := serviceName +:+ ":live_quotas".
Definition defaultQueuePrefix : string := "Q".
Definition defaultPlanPrefix : string := "PL".

Record schedulerDeleteResult := DeleteResult {
  dr_Succeeded : Z;
  dr_Failed : Z;
  dr_Errors : list string;
  dr_Deleted : list string
}.

Definition delete_response (r : schedulerDeleteResult) : object :=
  list_to_map [("succeeded", VInt (dr_Succeeded r)); ("failed", VInt (dr_Failed r)); ("errors", VStrings (dr_Errors r))].

(** The accounting of one id of a batch. *)
Definition record_deleted (res : schedulerDeleteResult) (id : string) : schedulerDeleteResult :=
  DeleteResult (dr_Succeeded res + 1) (dr_Failed res) (dr_Errors res) (dr_Deleted res ++ [id]).
Definition record_failed (res : schedulerDeleteResult) (id : string) : schedulerDeleteResult :=
  DeleteResult (dr_Succeeded res) (dr_Failed res + 1) (dr_Errors res ++ [id]) (dr_Deleted res).

(** The allocation loop always finds an id away from integer overflow
    ([next_loop_total]). *)
Definition next_id (s : store) (resource prefix : string) : string * store :=
  default ("", s) (NextID s resource prefix defaultIDStart defaultIDWidth).
Definition NextQueueID (s : store) : string * store := next_id s queuesResource defaultQueuePrefix.
Definition NextPlanID (s : store) : string * store := next_id s plansResource defaultPlanPrefix.

Definition ListQueues (s : store) : list record := List_ s queuesResource.
Definition GetQueue (s : store) (id : string) : option record := Get s queuesResource id.
Definition ListPlans (s : store) : list record := List_ s plansResource.
Definition GetPlan (s : store) (id : string) : option record := Get s plansResource id.

Section Repository.
Context `{GoLib}.

Definition FindQueueByNameOrID (s : store) (value : string) : option record :=
  if str_empty value then None
  else match GetQueue s value with
       | Some queue => Some queue
       | None => List.find (fun q => String.eqb (rec_ID q) value || String.eqb (TextValue (rec_Data q) ["name"]) value)
                   (ListQueues s)
       end.

Definition queue_ids (data : object) : list string := default [] (StringSlice (mget data "queue_ids")).

Definition queue_binding (ids : list string) : object :=
  {[ "queue_ids" := VStrings ids; "queues" := VStrings ids ]}.

(** One plan of the cascade: skipped when the queue is not among its ids. *)
Definition detach_plan (queueID : string) (now : Z) (s : store) (plan : record) : store :=
  let current := queue_ids (rec_Data plan) in
  let ids := removeValue current queueID in
  if (length ids =? length current)%nat then s
  else (Update s plansResource (rec_ID plan) (queue_binding ids) now).1.

Definition removeQueueFromPlans (s : store) (queueID : string) (now : Z) : store :=
  fold_left (detach_plan queueID now) (ListPlans s) s.

Definition DeleteQueueAndRemoveFromPlans (s : store) (id : string) (now : Z) : store * bool :=
  match Delete s queuesResource id with
  | (s1, false) => (s1, false)
  | (s1, true) => (removeQueueFromPlans s1 id now, true)
  end.

Definition delete_queue_step (now : Z) (acc : store * schedulerDeleteResult) (id : string) : store * schedulerDeleteResult :=
  match DeleteQueueAndRemoveFromPlans acc.1 id now with
  | (s', true) => (s', record_deleted acc.2 id)
  | (s', false) => (s', record_failed acc.2 id)
  end.

Definition DeleteQueues (s : store) (ids : list string) (now : Z) : store * schedulerDeleteResult :=
  fold_left (delete_queue_step now) ids (s, DeleteResult 0 0 [] []).

Definition DeletePlan (s : store) (id : string) : store * bool := Delete s plansResource id.

Definition DeletePlans (s : store) (ids : list string) : store * schedulerDeleteResult :=
  fold_left (fun acc id =>
    match DeletePlan acc.1 id with
    | (s', true) => (s', record_deleted acc.2 id)
    | (s', false) => (s', record_failed acc.2 id)
    end) ids (s, DeleteResult 0 0 [] []).

(** The transactional cascade; [ListPlans] reads the store the transaction writes. *)
Fixpoint detach_plans_tx {E} (queueID : string) (now : Z) (plans : list record) : tx_fn E bool :=
  match plans with
  | [] => stm_ret true
  | plan :: rest =>
      let current := queue_ids (rec_Data plan) in
      let ids := removeValue current queueID in
      if (length ids =? length current)%nat then detach_plans_tx queueID now rest
      else tx_Update plansResource (rec_ID plan) (queue_binding ids) now ;;; detach_plans_tx queueID now rest
  end.

Definition DeleteQueueAndRemoveFromPlansTx {E} (id : string) (now : Z) : tx_fn E bool :=
  deleted <-- tx_Delete queuesResource id ;;
  if negb deleted then stm_ret false
  else t <-- stm_get ;; detach_plans_tx id now (ListPlans (tx_store t)).

Definition DeletePlanTx {E} (id : string) : tx_fn E bool := tx_Delete plansResource id.

Definition MissingQueues (s : store) (ids : list string) : list string :=
  List.filter (fun id => match GetQueue s id with Some _ => false | None => true end) ids.

Definition QueuesForPlan (s : store) (planID : string) : option (record * list record) :=
  match GetPlan s planID with
  | None => None
  | Some plan => Some (plan, omap (GetQueue s) (queue_ids (rec_Data plan)))
  end.

Definition BindPlanQueues (s : store) (planID : string) (ids : list string) (now : Z) : store * option record :=
  Update s plansResource planID (queue_binding ids) now.

Definition BindPlanQueuesTx {E} (planID : string) (ids : list string) (now : Z) : tx_fn E (option record) :=
  tx_Update plansResource planID (queue_binding ids) now.

Definition GetLiveQuota (s : store) (projectID : string) : option record := Get s liveQuotasResource projectID.

Definition quotaFromPlan (projectID : string) (plan : record) (now : Z) : object :=
  list_to_map
    [("id", VString projectID); ("project_id", VString projectID); ("plan_id", VString (rec_ID plan));
     ("gpu_limit", VFloat64 (NumberValue (rec_Data plan) ["gpu_limit"; "gpuLimit"]));
     ("cpu_limit_cores", VFloat64 (NumberValue (rec_Data plan) ["cpu_limit_cores"; "cpuLimitCores"]));
     ("memory_limit_gb", VFloat64 (NumberValue (rec_Data plan) ["memory_limit_gb"; "memoryLimitGb"]));
     ("queue_ids", VStrings (queue_ids (rec_Data plan))); ("source_resource", VString "plan");
     ("generated_at", VTime now (time_string now)); ("quota_contract", VString "derived")].

Definition DerivedQuotaFromPlan (s : store) (projectID planID : string) (now : Z) : option record :=
  match GetPlan s planID with
  | None => None
  | Some plan => Some (Record_ projectID (quotaFromPlan projectID plan now) 1 now now)
  end.

(** [NextID] is evaluated as an argument of [FirstNonEmpty], so the sequence moves
    even when its id is not used. *)
Definition PersistSubmitAdmissionReview (s : store) (w : admissionReview) (newID : string) (now : Z) : store * bool :=
  let '(fallback, s1) := next_id s submitAdmissionsResource "ADM" in
  let id := FirstNonEmpty [rv_ProjectID w +:+ "/" +:+ rv_UserID w +:+ "/" +:+ rv_QueueName w; fallback] in
  match Create s1 submitAdmissionsResource (<["id" := VString id]> (admissionReviewData w)) newID now with
  | (s2, _) => (s2, true)
  end.

(** ** The cascade *)

(** What the cascade makes of a plan. *)
Definition detached (queueID : string) (now : Z) (plan : record) : record :=
  let current := queue_ids (rec_Data plan) in
  let ids := removeValue current queueID in
  if (length ids =? length current)%nat then plan
  else Record_ (rec_ID plan) (queue_binding ids ∪ rec_Data plan) (rec_Version plan + 1) (rec_CreatedAt plan) now.

Lemma removeValue_length ids x : length (removeValue ids x) = length ids <-> x ∉ ids.
Proof.
  unfold removeValue. induction ids as [|y ids IH]; cbn; [set_solver|].
  pose proof (List.filter_length_le (fun value => negb (String.eqb value x)) ids).
  destruct (String.eqb_spec y x) as [->|Hne]; cbn.
  - split; [lia|set_solver].
  - rewrite not_elem_of_cons. split; [intros E; split; [done|apply IH; lia]|intros [_ ?]; f_equal; by apply IH].
Qed.

Lemma removeValue_spec ids x y : y ∈ removeValue ids x <-> y ∈ ids /\ y ≠ x.
Proof.
  unfold removeValue. rewrite list_elem_of_In, List.filter_In, <- list_elem_of_In, negb_true_iff, String.eqb_neq. done.
Qed.

Lemma queue_ids_binding ids data : queue_ids (queue_binding ids ∪ data) = ids.
Proof.
  unfold queue_ids, mget, queue_binding.
  rewrite (lookup_union_Some_l _ _ _ (VStrings ids)); [done|]. by rewrite lookup_insert_eq.
Qed.

Lemma detached_ids queueID now plan : queue_ids (rec_Data (detached queueID now plan)) = removeValue (queue_ids (rec_Data plan)) queueID.
Proof.
  unfold detached. destruct (Nat.eqb_spec (length (removeValue (queue_ids (rec_Data plan)) queueID)) (length (queue_ids (rec_Data plan)))) as [E|].
  - apply removeValue_length in E. symmetry. unfold removeValue. clear -E.
    induction (queue_ids (rec_Data plan)) as [|y l IH]; cbn; [done|]. apply not_elem_of_cons in E as [Hne E].
    destruct (String.eqb_spec y queueID); [congruence|]. cbn. by rewrite IH.
  - cbn. apply queue_ids_binding.
Qed.

Lemma detached_skip queueID now plan : queueID ∉ queue_ids (rec_Data plan) -> detached queueID now plan = plan.
Proof. intros E%removeValue_length. unfold detached. by rewrite (proj2 (Nat.eqb_eq _ _) E). Qed.

Lemma detach_plan_Get queueID now s plan r k :
  Get s plansResource (rec_ID plan) = Some plan ->
  Get (detach_plan queueID now s plan) r k =
  if decide (r = plansResource /\ k = rec_ID plan) then Some (detached queueID now plan) else Get s r k.
Proof.
  intros Hp. unfold detach_plan, detached.
  destruct (length _ =? length _)%nat; [case_decide as E; [by destruct E as [-> ->]|done]|].
  unfold Update. fold (Get s plansResource (rec_ID plan)). rewrite Hp. cbn [fst].
  rewrite Get_set_insert. repeat case_decide; naive_solver.
Qed.

Lemma detach_plans_Get queueID now plans s r k :
  (forall p, p ∈ plans -> Get s plansResource (rec_ID p) = Some p) -> NoDup (rec_ID <$> plans) ->
  Get (fold_left (detach_plan queueID now) plans s) r k =
  if decide (r = plansResource /\ k ∈ rec_ID <$> plans) then detached queueID now <$> Get s r k else Get s r k.
Proof.
  revert s. induction plans as [|p plans IH]; intros s Hall Hnd; cbn [fold_left].
  - rewrite decide_False; [done|]. cbn. intros [_ ?%not_elem_of_nil]. done.
  - cbn [fmap list_fmap] in Hnd. apply NoDup_cons in Hnd as [Hp Hnd].
    assert (Get s plansResource (rec_ID p) = Some p) as Hgp by (apply Hall; left).
    rewrite IH; [|intros q Hq|done].
    + rewrite !(detach_plan_Get _ _ _ _ _ _ Hgp). cbn [fmap list_fmap].
      destruct (decide (r = plansResource)) as [->|Hr]; [|rewrite !decide_False by tauto; done].
      destruct (decide (k = rec_ID p)) as [->|Hk].
      * rewrite decide_False by (intros [_ ?]; done). rewrite decide_True by done.
        rewrite decide_True by (split; [done|left]). by rewrite Hgp.
      * rewrite (decide_False (P := plansResource = plansResource /\ k = rec_ID p)) by tauto.
        destruct (decide (k ∈ rec_ID <$> plans)); [rewrite !decide_True by (split; [done|first [done|by right]])|
          rewrite !decide_False by (rewrite ?elem_of_cons; tauto)]; done.
    + rewrite (detach_plan_Get _ _ _ _ _ _ Hgp), decide_False; [apply Hall; by right|].
      intros [_ E]. apply Hp. rewrite <- E. by apply list_elem_of_fmap_2.
Qed.

(** Records filed under their own ids, as the store invariant has it. *)
Definition ids_ok (s : store) (resource : string) : Prop :=
  forall id rc, Get s resource id = Some rc -> rec_ID rc = id.

Lemma List_NoDup_ids s resource : ids_ok s resource -> NoDup (rec_ID <$> List_ s resource).
Proof.
  intros Hok. rewrite List_Permutation.
  replace (rec_ID <$> map snd (map_to_list (bucket s resource))) with ((map_to_list (bucket s resource)).*1).
  - apply NoDup_fst_map_to_list.
  - rewrite <- list_fmap_compose. apply list_fmap_ext. intros i [k rc] Hi. cbn. symmetry.
    apply Hok. apply elem_of_map_to_list. by eapply list_elem_of_lookup_2.
Qed.

Lemma removeQueueFromPlans_Get s queueID now r k :
  ids_ok s plansResource ->
  Get (removeQueueFromPlans s queueID now) r k =
  if decide (r = plansResource) then detached queueID now <$> Get s r k else Get s r k.
Proof.
  intros Hok. unfold removeQueueFromPlans, ListPlans. rewrite detach_plans_Get.
  - destruct (decide (r = plansResource)) as [->|Hr]; [|by rewrite decide_False by tauto].
    destruct (Get s plansResource k) as [p|] eqn:E; [|by case_decide].
    rewrite decide_True; [done|]. split; [done|]. apply list_elem_of_fmap. exists p. split; [by rewrite (Hok _ _ E)|].
    apply elem_of_List. eauto.
  - intros p [id Hp]%elem_of_List. by rewrite (Hok _ _ Hp).
  - by apply List_NoDup_ids.
Qed.

Lemma DeleteQueueAndRemoveFromPlans_Get s id now r k :
  ids_ok s plansResource ->
  let out := DeleteQueueAndRemoveFromPlans s id now in
  out.2 = bool_decide (is_Some (GetQueue s id)) /\
  Get out.1 r k =
    if out.2
    then if decide (r = queuesResource /\ k = id) then None
         else if decide (r = plansResource) then detached id now <$> Get s r k else Get s r k
    else Get s r k.
Proof.
  intros Hok. unfold DeleteQueueAndRemoveFromPlans, Delete, GetQueue. cbn zeta.
  fold (Get s queuesResource id). destruct (Get s queuesResource id) as [q|] eqn:Eq; cbn [fst snd].
  - split; [by rewrite bool_decide_eq_true_2 by eauto|]. rewrite removeQueueFromPlans_Get.
    + rewrite Get_set_delete. destruct (decide (r = plansResource)) as [->|].
      * rewrite decide_False by (intros [? _]; done). rewrite decide_False by (intros [? _]; done). done.
      * repeat case_decide; naive_solver.
    + intros k' rc. rewrite Get_set_delete, decide_False by (intros [? _]; done). apply Hok.
  - split; [|done]. rewrite bool_decide_eq_false_2; [done|]. by intros [? ?].
Qed.

(** Deleting a queue reports whether it existed and, when it did, cascades: the
    queue is gone, every plan keeps its other queues in order and loses this one, a
    plan that did not list it is not written at all, and every other record of the
    store is unchanged; deleting an unknown queue changes nothing. *)
Theorem delete_queue_cascade s id now :
  ids_ok s plansResource ->
  let out := DeleteQueueAndRemoveFromPlans s id now in
  out.2 = bool_decide (is_Some (GetQueue s id)) /\
  (forall r k, Get out.1 r k =
    if out.2
    then if decide (r = queuesResource /\ k = id) then None
         else if decide (r = plansResource) then detached id now <$> Get s r k else Get s r k
    else Get s r k) /\
  (out.2 = true -> forall pid plan', GetPlan out.1 pid = Some plan' ->
    exists plan, GetPlan s pid = Some plan /\
      queue_ids (rec_Data plan') = removeValue (queue_ids (rec_Data plan)) id /\
      (id ∉ queue_ids (rec_Data plan')) /\
      (id ∉ queue_ids (rec_Data plan) -> plan' = plan)).
Proof.
  intros Hok out. pose proof (fun r k => DeleteQueueAndRemoveFromPlans_Get s id now r k Hok) as HG. fold out in HG.
  split; [apply (HG "" "")|]. split; [intros; apply HG|]. intros Ho pid plan'. unfold GetPlan.
  destruct (HG plansResource pid) as [_ ->]. rewrite Ho, decide_False, decide_True by (done || by intros [? _]).
  intros (plan & -> & E)%fmap_Some. exists plan. rewrite E, detached_ids. split_and!; [done|done| |apply detached_skip].
  intros [_ ?]%removeValue_spec. done.
Qed.

(** ** Batches *)

(** What a batch of deletions maintains over the ids processed so far. *)
Definition batch_ok (processed : list string) (acc : store * schedulerDeleteResult) : Prop :=
  ids_ok acc.1 plansResource /\
  dr_Succeeded acc.2 = Z.of_nat (length (dr_Deleted acc.2)) /\ dr_Failed acc.2 = Z.of_nat (length (dr_Errors acc.2)) /\
  dr_Deleted acc.2 ++ dr_Errors acc.2 ≡ₚ processed /\
  (forall id, id ∈ dr_Deleted acc.2 -> GetQueue acc.1 id = None /\
    forall pid plan, GetPlan acc.1 pid = Some plan -> id ∉ queue_ids (rec_Data plan)).

Lemma delete_preserves s id now :
  ids_ok s plansResource ->
  let s' := (DeleteQueueAndRemoveFromPlans s id now).1 in
  ids_ok s' plansResource /\
  (forall q, GetQueue s q = None -> GetQueue s' q = None) /\
  (forall q, (forall pid plan, GetPlan s pid = Some plan -> q ∉ queue_ids (rec_Data plan)) ->
             forall pid plan, GetPlan s' pid = Some plan -> q ∉ queue_ids (rec_Data plan)).
Proof.
  intros Hok. cbn zeta. pose proof (fun r k => proj2 (DeleteQueueAndRemoveFromPlans_Get s id now r k Hok)) as HG.
  destruct (DeleteQueueAndRemoveFromPlans s id now) as [s' b]. cbn [fst snd] in *.
  assert (forall k, Get s' plansResource k = if b then detached id now <$> Get s plansResource k else Get s plansResource k) as HP.
  { intros k. rewrite HG. destruct b; [|done]. by rewrite decide_False, decide_True by (done || by intros [? _]). }
  split_and!.
  - intros k rc. rewrite HP. destruct b; [|apply Hok]. intros (p & Ep & ->)%fmap_Some.
    rewrite <- (Hok _ _ Ep). unfold detached. by destruct (_ =? _)%nat.
  - intros q Hq. unfold GetQueue in *. rewrite HG, Hq. destruct b; [|done]. by repeat case_decide.
  - intros q Hq pid plan. unfold GetPlan in *. rewrite HP. destruct b; [|apply Hq].
    intros (p & Ep & ->)%fmap_Some. rewrite detached_ids. intros [Hin _]%removeValue_spec. by eapply Hq.
Qed.

Lemma delete_queue_steps_ok ids now : forall processed acc,
  batch_ok processed acc -> batch_ok (processed ++ ids) (fold_left (delete_queue_step now) ids acc).
Proof.
  induction ids as [|id ids IH]; intros processed [s res] Hb; cbn [fold_left]; [by rewrite app_nil_r|].
  replace (processed ++ id :: ids) with ((processed ++ [id]) ++ ids) by (by rewrite <- app_assoc).
  apply IH. unfold delete_queue_step. cbn [fst snd]. destruct Hb as (Hok & Hs & Hf & Hp & Hd). cbn [fst snd] in *.
  pose proof (delete_preserves s id now Hok) as (Hok' & Hq & Hr).
  pose proof (DeleteQueueAndRemoveFromPlans_Get s id now) as HG.
  destruct (DeleteQueueAndRemoveFromPlans s id now) as [s' []]; cbn [fst snd] in *.
  - unfold batch_ok, record_deleted; cbn. split_and!; [done|rewrite length_app; cbn; lia|done| |].
    + rewrite <- Hp, <- !app_assoc. by rewrite (Permutation_app_comm [id]).
    + intros x [Hx| ->%list_elem_of_singleton]%elem_of_app; [destruct (Hd x Hx); split; [by apply Hq|by apply Hr]|]. split.
      * unfold GetQueue. destruct (HG queuesResource id Hok) as [_ ->]. by rewrite decide_True.
      * intros pid plan. unfold GetPlan. destruct (HG plansResource pid Hok) as [_ ->].
        rewrite decide_False, decide_True by (done || by intros [? _]).
        intros (p & _ & ->)%fmap_Some. rewrite detached_ids. by intros [_ ?]%removeValue_spec.
  - unfold batch_ok, record_failed; cbn. split_and!; [done|done|rewrite length_app; cbn; lia| |].
    + by rewrite <- Hp, <- app_assoc.
    + intros x Hx. destruct (Hd x Hx); split; [by apply Hq|by apply Hr].
Qed.

Lemma DeleteQueues_ok s ids now : ids_ok s plansResource -> batch_ok ids (DeleteQueues s ids now).
Proof.
  intros Hok. apply (delete_queue_steps_ok ids now []). split_and!; cbn; try done.
  intros ? Hx. by apply not_elem_of_nil in Hx.
Qed.

(** A batch deletion accounts for every id it is given exactly once, as deleted
    or as an error (an id given twice is an error the second time), the counters
    are the lengths of the two lists, and afterwards no deleted queue exists and no
    plan refers to one. *)
Theorem delete_queues_accounting s ids now :
  ids_ok s plansResource ->
  let out := DeleteQueues s ids now in
  dr_Deleted out.2 ++ dr_Errors out.2 ≡ₚ ids /\
  dr_Succeeded out.2 = Z.of_nat (length (dr_Deleted out.2)) /\ dr_Failed out.2 = Z.of_nat (length (dr_Errors out.2)) /\
  (forall id, id ∈ dr_Deleted out.2 -> GetQueue out.1 id = None /\
    forall pid plan, GetPlan out.1 pid = Some plan -> id ∉ queue_ids (rec_Data plan)).
Proof. intros Hok. cbn zeta. destruct (DeleteQueues_ok s ids now Hok) as (_ & ? & ? & ? & ?). done. Qed.

(** ** Reviews *)

Lemma next_id_data s r p : st_data (next_id s r p).2 = st_data s.
Proof.
  unfold next_id. destruct (NextID _ _ _ _ _) as [[id s']|] eqn:E; [|done]. cbn. by eapply NextID_data.
Qed.

Definition review_id (w : admissionReview) : string := rv_ProjectID w +:+ "/" +:+ rv_UserID w +:+ "/" +:+ rv_QueueName w.

Lemma review_id_nonempty w : str_empty (review_id w) = false.
Proof. unfold review_id, str_empty. by destruct (rv_ProjectID w). Qed.

(** An admission review is filed under project/user/queue, so the first review of
    such a triple is the one that is kept: a later one finds the record there, is
    dropped, and success is reported all the same; the fallback id drawn from the
    sequence is never used. *)
Theorem review_persist_first_wins s w newID now :
  let out := PersistSubmitAdmissionReview s w newID now in
  out.2 = true /\
  Get out.1 submitAdmissionsResource (review_id w) =
    match Get s submitAdmissionsResource (review_id w) with
    | Some earlier => Some earlier
    | None => Some (Record_ (review_id w) (<["id" := VString (review_id w)]> (admissionReviewData w)) 1 now now)
    end.
Proof.
  unfold PersistSubmitAdmissionReview. pose proof (next_id_data s submitAdmissionsResource "ADM") as Hd.
  destruct (next_id s submitAdmissionsResource "ADM") as [fb s1]. cbn [snd] in Hd. fold (review_id w).
  cbn [FirstNonEmpty]. rewrite review_id_nonempty.
  assert (Get s submitAdmissionsResource (review_id w) = Get s1 submitAdmissionsResource (review_id w)) as ->
    by (unfold Get, bucket; by rewrite Hd).
  set (d := <["id" := VString (review_id w)]> (admissionReviewData w)).
  assert (Create s1 submitAdmissionsResource d newID now = 
    match Get s1 submitAdmissionsResource (review_id w) with
    | Some _ => (set_bucket s1 submitAdmissionsResource (bucket s1 submitAdmissionsResource),
                 Err (CreateConflict submitAdmissionsResource (review_id w)))
    | None => (set_bucket s1 submitAdmissionsResource
                 (<[review_id w := Record_ (review_id w) d 1 now now]> (bucket s1 submitAdmissionsResource)),
               Ok (Record_ (review_id w) d 1 now now))
    end) as ->.
  { unfold Create, d, mget. rewrite lookup_insert_eq. cbn [from_option id as_str].
    rewrite review_id_nonempty. done. }
  destruct (Get s1 submitAdmissionsResource (review_id w)) eqn:E; cbn [fst snd]; split; try done.
  - by rewrite Get_set_same.
  - rewrite Get_set_insert. by rewrite decide_True.
Qed.

End Repository.

(** ** A store with two queues and two plans *)

Definition cascade_plan (id : string) (ids : list string) : record := Record_ id {[ "queue_ids" := VStrings ids ]} 1 0 0.
Definition cascade_store : store :=
  Store_ {[ queuesResource := {[ "q1" := Record_ "q1" ∅ 1 0 0; "q2" := Record_ "q2" ∅ 1 0 0 ]};
            plansResource := {[ "p1" := cascade_plan "p1" ["q1"; "q2"]; "p2" := cascade_plan "p2" ["q2"] ]} ]} ∅.

Lemma cascade_ids_ok : ids_ok cascade_store plansResource.
Proof.
  intros id rc Hg. assert (map_Forall (fun k r => rec_ID r = k) (bucket cascade_store plansResource)) as Hf.
  { apply (bool_decide_unpack _). vm_compute. exact I. }
  by apply (Hf id rc).
Qed.

Lemma delete_queue_cascade_witness :
  queue_ids (H := escape_lib) (rec_Data (cascade_plan "p1" ["q1"; "q2"])) = ["q1"; "q2"] /\
  forall plan', @GetPlan (@DeleteQueueAndRemoveFromPlans escape_lib cascade_store "q1" 5).1 "p1" = Some plan' ->
    "q1" ∉ @queue_ids escape_lib (rec_Data plan').
Proof.
  split; [reflexivity|]. intros plan' Hp.
  destruct (@delete_queue_cascade escape_lib cascade_store "q1" 5 cascade_ids_ok) as (_ & _ & Hc).
  destruct (Hc ltac:(vm_compute; reflexivity) "p1" plan' Hp) as (_ & _ & _ & Hn & _). exact Hn.
Defined.

Lemma delete_queues_accounting_witness :
  dr_Deleted (@DeleteQueues escape_lib cascade_store ["q1"; "q3"; "q1"] 5).2 = ["q1"] /\
  dr_Deleted (@DeleteQueues escape_lib cascade_store ["q1"; "q3"; "q1"] 5).2 ++
    dr_Errors (@DeleteQueues escape_lib cascade_store ["q1"; "q3"; "q1"] 5).2 ≡ₚ ["q1"; "q3"; "q1"].
Proof.
  split; [vm_compute; reflexivity|].
  apply (@delete_queues_accounting escape_lib cascade_store ["q1"; "q3"; "q1"] 5 cascade_ids_ok).
Defined.
