(* ===== verification/Admission.v ===== *)
(** * Submit admission: the evaluator and its handler (admission.go)

    [evaluateSubmitAdmission] composes the checks of the previous files in the
    order of the code; [reviewSubmitAdmission] is the handler around it. *)

From stdpp Require Import base gmap strings list fin_maps.
From Stdlib Require Import ZArith Lia.
From S2P Require Import Prelude GoValue Store EventBus Crud Tx InputLimits AdmissionTypes SchedulerHttp AdmissionResources AdmissionPlan AdmissionQuota AdmissionMPS AdmissionImage AdmissionProfiles AdmissionDecode SchedulerRepository.
Local Open Scope Z_scope.
Local Open Scope go_scope.

Definition newSubmitAdmissionReview (req : submitAdmissionRequest) : admissionReview :=
  {| rv_Allowed := true; rv_Reason := ""; rv_ProjectID := ProjectID req; rv_UserID := UserID req;
     rv_QueueName := ""; rv_QueuePriority := 0; rv_QueuePreemptible := false; rv_RuntimeLimit := 0;
     rv_DeviceClassName := ""; rv_RequiredGPU := RequiredGPU req; rv_RequiredCPU := RequiredCPU req;
     rv_RequiredMemory := RequiredMemory req; rv_StreamingSession := StreamingSession req;
     rv_StreamMaxBitrateKbps := StreamMaxBitrateKbps req; rv_NetworkProfile := ""; rv_RDMARequired := false;
     rv_NICClass := ""; rv_TopologyRequirement := ""; rv_NetworkAnnotations := ∅; rv_NetworkEnv := ∅;
     rv_PlacementProfile := ""; rv_SchedulerBackend := ""; rv_SchedulerName := ""; rv_GangEnabled := false;
     rv_GangMinAvailable := 0; rv_PlacementLabels := ∅; rv_PlacementAnnotations := ∅;
     rv_AcceleratorProfile := ""; rv_AcceleratorSelector := ∅; rv_AcceleratorLabels := ∅;
     rv_SMPercentage := None; rv_PinnedMemoryLimit := ""; rv_Usage := zero_usage |}.

Definition set_floor (floor : admissionResourceFloor) (u : admissionUsage) : admissionUsage :=
  Usage (ProjectGPU u) (ProjectCPU u) (ProjectMemoryMB u) (UserGPU u) (UserCPU u) (UserMemoryMB u)
    (UserRunningJobs u) (UserQueuedJobs u) (fl_gpu floor) (fl_cpu floor) (fl_memoryMB floor)
    (ActiveStreamSessions u) (ActiveStreamBitrateKbps u) (UStreamEgressBudgetKbps u).
Definition set_egress_budget (v : Z) (u : admissionUsage) : admissionUsage :=
  Usage (ProjectGPU u) (ProjectCPU u) (ProjectMemoryMB u) (UserGPU u) (UserCPU u) (UserMemoryMB u)
    (UserRunningJobs u) (UserQueuedJobs u) (ResourceFloorGPU u) (ResourceFloorCPU u) (FloorMemoryMB u)
    (ActiveStreamSessions u) (ActiveStreamBitrateKbps u) v.

Section Admission.
Context `{GoLib}.

Definition applyAdmissionQueueReview (queue : option record) (w : admissionReview) : admissionReview :=
  match queue with
  | None => w
  | Some q =>
      set_rv_RuntimeLimit
        (IntValue (rec_Data q) ["max_runtime_seconds"; "maxRuntimeSeconds"; "runtime_limit_seconds"; "runtimeLimitSeconds"])
        (set_rv_QueuePreemptible (BoolValue (rec_Data q) ["is_preemptible"; "isPreemptible"; "preemptible"])
          (set_rv_QueuePriority (IntValue (rec_Data q) ["priority_value"; "priorityValue"; "priority"]) w))
  end.

Context `{admissionReader}.

Definition resolveAdmissionProfiles (queueName : string) : adm unit :=
  resolveAdmissionPlacementProfile queueName ;;;
  resolveAdmissionAcceleratorProfile.

(** [req] is a copy here: what the device-class check writes to it stays local. *)
Definition enforceAdmissionProfilePolicies (ctx : submitAdmissionContext) (req0 : submitAdmissionRequest) : adm unit :=
  req <-- stm_lift (enforceAdmissionDeviceClass (ac_plan ctx) req0) ;;
  on_review (set_rv_DeviceClassName (DeviceClassName req)) ;;;
  on_review (set_rv_SMPercentage (SMPercentage req)) ;;;
  on_review (match PinnedMemoryLimit req with
             | Some m => set_rv_PinnedMemoryLimit (TrimSpace m)
             | None => fun w => w
             end) ;;;
  stm_lift (enforceAdmissionMPSPolicy (ac_plan ctx) req) ;;;
  stm_lift (enforceAdmissionMPSPlanQueuePolicy (ac_project ctx) (ac_plan ctx) (ac_queue ctx) req) ;;;
  resolveAdmissionNetworkProfile req.

Definition deny_error {A} (r : result string A) : result admissionDeny A :=
  match r with Ok a => Ok a | Err e => deny StatusUnprocessableEntity e end.

Definition on_usage (f : admissionUsage -> admissionUsage) (w : admissionReview) : admissionReview :=
  set_rv_Usage (f (rv_Usage w)) w.

Definition applyAdmissionUsagePolicies (ctx : submitAdmissionContext) (req : submitAdmissionRequest) : adm unit :=
  floor <-- stm_lift (deny_error (admissionResourceFloorFromRequest req)) ;;
  on_review (on_usage (set_floor floor)) ;;;
  stm_lift (deny_error (enforceAdmissionResourceFloor req floor)) ;;;
  on_review (on_usage (admissionUsageForJobs (ProjectID req) (UserID req))) ;;;
  on_review (on_usage (set_egress_budget (StreamEgressBudgetKbps req))) ;;;
  w <-- get_review ;;
  stm_lift (enforceAdmissionStreaming req (rv_Usage w)) ;;;
  stm_lift (enforceAdmissionJobLimits (ac_project ctx) (rv_Usage w)) ;;;
  stm_lift (enforceAdmissionQuota (ac_plan ctx) req (rv_Usage w)) ;;;
  stm_lift (enforceAdmissionUserQuota req (rv_Usage w)).

(** The body, on the local copy of the request and the review it builds. *)
Definition evaluate_steps (now : Z) : adm unit :=
  req <-- get_req ;;
  ctx <-- stm_lift (resolveSubmitAdmissionContext req now) ;;
  on_review (set_rv_QueueName (ac_queueName ctx)) ;;;
  on_review (applyAdmissionQueueReview (ac_queue ctx)) ;;;
  stm_lift (enforceAdmissionImageAllowList req) ;;;
  resolveAdmissionProfiles (ac_queueName ctx) ;;;
  req' <-- get_req ;;
  enforceAdmissionProfilePolicies ctx req' ;;;
  applyAdmissionUsagePolicies ctx req'.

Definition evaluateSubmitAdmission (req : submitAdmissionRequest) (now : Z) : admissionReview * result admissionDeny unit :=
  let '((_, w), r) := evaluate_steps now (req, newSubmitAdmissionReview req) in (w, r).

(** ** What an evaluation that succeeds went through *)

Lemma stm_lift_ok {S E A} (r : result E A) (s s' : S) a : stm_lift r s = (s', Ok a) <-> s' = s /\ r = Ok a.
Proof. unfold stm_lift. split; [by intros [= <- ->]|by intros [-> ->]]. Qed.

Lemma deny_error_ok {A} (r : result string A) a : deny_error r = Ok a <-> r = Ok a.
Proof. destruct r; cbn; unfold deny; split; congruence. Qed.

(** Inverts the successful run of a sequence of steps. *)
Ltac run_ok H :=
  repeat (lazymatch type of H with stm_bind _ _ _ = _ => apply stm_bind_ok in H as (? & ? & ? & H) end;
          repeat match goal with
          | H0 : stm_lift _ _ = (_, Ok _) |- _ => apply stm_lift_ok in H0 as [-> ?]
          | H0 : on_review _ _ = (_, Ok _) |- _ => unfold on_review, stm_modify in H0; injection H0 as <- _
          | H0 : get_req _ = (_, Ok _) |- _ => unfold get_req in H0; injection H0 as <- <-
          | H0 : get_review _ = (_, Ok _) |- _ => unfold get_review in H0; injection H0 as <- <-
          | x : unit |- _ => destruct x
          end).

(** The placement and network resolvers write only to the review. *)
Lemma resolveAdmissionPlacementProfile_req queueName q w q' w' r :
  resolveAdmissionPlacementProfile queueName (q, w) = (q', w', r) -> q' = q.
Proof.
  unfold resolveAdmissionPlacementProfile, get_req. unfold stm_bind at 1. cbn [fst].
  destruct (str_empty _); [by intros [= <- _ _]|]. destruct (profileByName _ _); [|by intros [= <- _ _]].
  destruct (negb _); [by intros [= <- _ _]|]. unfold on_review, stm_modify, stm_bind. cbn [fst snd].
  destruct (str_empty _); by intros [= <- _ _].
Qed.

Lemma resolveAdmissionNetworkProfile_req req q w q' w' r :
  resolveAdmissionNetworkProfile req (q, w) = (q', w', r) -> q' = q.
Proof.
  unfold resolveAdmissionNetworkProfile, on_review, stm_modify, stm_bind. cbn [fst snd].
  destruct (str_empty _); [by intros [= <- _ _]|]. destruct (profileByName _ _); [|by intros [= <- _ _]].
  destruct (negb _); by intros [= <- _ _].
Qed.

(** ** What the profile steps leave alone in the review *)

(** [core] of the review survives the computation, whatever its outcome. *)
Definition keeps {T A} (core : admissionReview -> T) (c : adm A) : Prop :=
  forall q w q' w' r, c (q, w) = (q', w', r) -> core w' = core w.

Section Keeps.
Context {T : Type} (core : admissionReview -> T).

Lemma keeps_bind {A B} (c : adm A) (k : A -> adm B) :
  keeps core c -> (forall a, keeps core (k a)) -> keeps core (stm_bind c k).
Proof.
  intros Hc Hk q w q' w' r. unfold stm_bind. destruct (c (q, w)) as [[q1 w1] [a|e]] eqn:E.
  - intros Er. rewrite (Hk a _ _ _ _ _ Er). by eapply Hc.
  - intros [= <- <- _]. by eapply Hc.
Qed.
Lemma keeps_lift {A} (r : result admissionDeny A) : keeps core (stm_lift r).
Proof. by intros q w q' w' r' [= <- <- _]. Qed.
Lemma keeps_ret {A} (a : A) : keeps core (stm_ret a).
Proof. by intros q w q' w' r' [= <- <- _]. Qed.
Lemma keeps_fail {A} d : keeps (A := A) core (stm_fail d).
Proof. by intros q w q' w' r' [= <- <- _]. Qed.
Lemma keeps_get_req : keeps core get_req.
Proof. by intros q w q' w' r' [= <- <- _]. Qed.
Lemma keeps_on_req f : keeps core (on_req f).
Proof. by intros q w q' w' r' [= <- <- _]. Qed.
Lemma keeps_on_review f : (forall w, core (f w) = core w) -> keeps core (on_review f).
Proof. intros Hf q w q' w' r' [= <- <- _]. apply Hf. Qed.
End Keeps.

Ltac keeps :=
  repeat first [ apply keeps_lift | apply keeps_ret | apply keeps_fail | apply keeps_get_req | apply keeps_on_req
               | apply keeps_bind; [|intros ?] | apply keeps_on_review; intros ?; reflexivity | progress cbv zeta | case_match ].

(** The verdict, the identity, the queue, the declared demand and the usage. *)
Definition review_core (w : admissionReview) :=
  (rv_Allowed w, (rv_ProjectID w, rv_UserID w, rv_QueueName w), (rv_RequiredGPU w, rv_RequiredCPU w, rv_RequiredMemory w), rv_Usage w).
(** The accelerator decision. *)
Definition review_gpu (w : admissionReview) := (rv_DeviceClassName w, rv_SMPercentage w, rv_PinnedMemoryLimit w).

Lemma placement_keeps queueName : keeps review_core (resolveAdmissionPlacementProfile queueName).
Proof. unfold resolveAdmissionPlacementProfile. keeps. Qed.
Lemma accelerator_keeps : keeps review_core resolveAdmissionAcceleratorProfile.
Proof. unfold resolveAdmissionAcceleratorProfile. keeps. Qed.
Lemma network_keeps req : keeps (fun w => (review_core w, review_gpu w)) (resolveAdmissionNetworkProfile req).
Proof. unfold resolveAdmissionNetworkProfile. keeps. Qed.
Lemma policies_keep ctx req : keeps review_core (enforceAdmissionProfilePolicies ctx req).
Proof. unfold enforceAdmissionProfilePolicies, resolveAdmissionNetworkProfile. keeps. Qed.

(** The record of the checks an admitted request passed: [req1] is the request once
    the accelerator profile filled its blanks, [req2] the copy with the resolved
    device class, [floor] the payload floor and [usage] the usage that was judged. *)
Record admitted (req : submitAdmissionRequest) (now : Z) (w : admissionReview) (ctx : submitAdmissionContext)
    (req1 req2 : submitAdmissionRequest) (floor : admissionResourceFloor) : Prop := {
  ad_context : resolveSubmitAdmissionContext req now = Ok ctx;
  ad_images : enforceAdmissionImageAllowList req = Ok tt;
  ad_fields : profile_fields_only req req1;
  ad_device : enforceAdmissionDeviceClass (ac_plan ctx) req1 = Ok req2;
  ad_mps : enforceAdmissionMPSPolicy (ac_plan ctx) req2 = Ok tt;
  ad_mps_policy : enforceAdmissionMPSPlanQueuePolicy (ac_project ctx) (ac_plan ctx) (ac_queue ctx) req2 = Ok tt;
  ad_floor : admissionResourceFloorFromRequest req1 = Ok floor;
  ad_covered : enforceAdmissionResourceFloor req1 floor = Ok tt;
  ad_usage : rv_Usage w = set_egress_budget (StreamEgressBudgetKbps req1)
               (admissionUsageForJobs (ProjectID req1) (UserID req1) (set_floor floor zero_usage));
  ad_streaming : enforceAdmissionStreaming req1 (rv_Usage w) = Ok tt;
  ad_jobs : enforceAdmissionJobLimits (ac_project ctx) (rv_Usage w) = Ok tt;
  ad_quota : enforceAdmissionQuota (ac_plan ctx) req1 (rv_Usage w) = Ok tt;
  ad_user_quota : enforceAdmissionUserQuota req1 (rv_Usage w) = Ok tt;
  ad_queue : rv_QueueName w = ac_queueName ctx;
  ad_review : rv_DeviceClassName w = DeviceClassName req2 /\ rv_SMPercentage w = SMPercentage req2
}.

Lemma profile_policies_ok ctx req q w q' w' :
  enforceAdmissionProfilePolicies ctx req (q, w) = (q', w', Ok tt) ->
  q' = q /\ review_core w' = review_core w /\
  exists req2, enforceAdmissionDeviceClass (ac_plan ctx) req = Ok req2 /\
    enforceAdmissionMPSPolicy (ac_plan ctx) req2 = Ok tt /\
    enforceAdmissionMPSPlanQueuePolicy (ac_project ctx) (ac_plan ctx) (ac_queue ctx) req2 = Ok tt /\
    rv_DeviceClassName w' = DeviceClassName req2 /\ rv_SMPercentage w' = SMPercentage req2.
Proof.
  intros Hp. pose proof (policies_keep ctx req _ _ _ _ _ Hp) as Hk.
  unfold enforceAdmissionProfilePolicies in Hp. run_ok Hp. cbn [fst snd] in Hp.
  pose proof (network_keeps _ _ _ _ _ _ Hp) as Hn. apply resolveAdmissionNetworkProfile_req in Hp.
  apply (f_equal snd) in Hn. cbn [snd] in Hn.
  split; [done|]. split; [done|]. eexists. do 3 (split; [eassumption|]).
  unfold review_gpu in Hn. injection Hn as -> -> _. by destruct (PinnedMemoryLimit _).
Qed.

Lemma usage_policies_ok ctx req q w q' w' :
  applyAdmissionUsagePolicies ctx req (q, w) = (q', w', Ok tt) ->
  rv_Allowed w' = rv_Allowed w /\ rv_QueueName w' = rv_QueueName w /\ review_gpu w' = review_gpu w /\
  exists floor, admissionResourceFloorFromRequest req = Ok floor /\ enforceAdmissionResourceFloor req floor = Ok tt /\
    rv_Usage w' = set_egress_budget (StreamEgressBudgetKbps req)
      (admissionUsageForJobs (ProjectID req) (UserID req) (set_floor floor (rv_Usage w))) /\
    enforceAdmissionStreaming req (rv_Usage w') = Ok tt /\ enforceAdmissionJobLimits (ac_project ctx) (rv_Usage w') = Ok tt /\
    enforceAdmissionQuota (ac_plan ctx) req (rv_Usage w') = Ok tt /\ enforceAdmissionUserQuota req (rv_Usage w') = Ok tt.
Proof.
  unfold applyAdmissionUsagePolicies. intros Hp. run_ok Hp. apply stm_lift_ok in Hp as [[= -> ->] Hu].
  repeat match goal with H0 : deny_error _ = Ok _ |- _ => apply deny_error_ok in H0 end.
  cbn [fst snd] in *. do 3 (split; [done|]). eexists. split_and!; eauto.
Qed.

Lemma evaluateSubmitAdmission_ok req now w :
  evaluateSubmitAdmission req now = (w, Ok tt) ->
  rv_Allowed w = true /\ exists ctx req1 req2 floor, admitted req now w ctx req1 req2 floor.
Proof.
  unfold evaluateSubmitAdmission.
  destruct (evaluate_steps now (req, newSubmitAdmissionReview req)) as [[q w'] r] eqn:E. intros [= -> ->].
  unfold evaluate_steps in E. run_ok E. cbn [fst snd] in *.
  repeat match goal with x : (submitAdmissionRequest * admissionReview)%type |- _ => destruct x end.
  match goal with Hr : resolveAdmissionProfiles _ _ = _ |- _ => unfold resolveAdmissionProfiles in Hr; rename Hr into Hprof end.
  apply stm_bind_ok in Hprof as ([q1 w1] & [] & Hpl & Hac).
  pose proof (placement_keeps _ _ _ _ _ _ Hpl) as K1. pose proof (accelerator_keeps _ _ _ _ _ Hac) as K2.
  apply resolveAdmissionPlacementProfile_req in Hpl as ->. apply resolveAdmissionAcceleratorProfile_ok in Hac as [Hf _].
  match goal with Hr : enforceAdmissionProfilePolicies _ _ _ = _ |- _ =>
    apply profile_policies_ok in Hr as (-> & K3 & req2 & Hd & Hm & Hmp & Hdev & Hsm) end.
  apply usage_policies_ok in E as (Ka & Kq & Kg & floor & Hfl & Hcov & Hu & Hs & Hj & Hq & Huq).
  cbn [fst snd] in *.
  assert (review_core (applyAdmissionQueueReview (ac_queue x0) (set_rv_QueueName (ac_queueName x0) (newSubmitAdmissionReview req)))
    = review_core (set_rv_QueueName (ac_queueName x0) (newSubmitAdmissionReview req))) as K0 by (by destruct (ac_queue x0)).
  rewrite K0 in K1. rewrite K1 in K2. rewrite K2 in K3. unfold review_core in K3. injection K3 as Ha _ _ Hqn _ _ _ Hus.
  unfold review_gpu in Kg. injection Kg as Hg1 Hg2 _.
  split; [congruence|]. rewrite Hus in Hu.
  eexists x0, _, req2, floor. split; eauto; [congruence|split; congruence].
Qed.

(** ** What admission guarantees *)

Lemma profile_fields_req req req1 :
  profile_fields_only req req1 ->
  ProjectID req1 = ProjectID req /\ UserID req1 = UserID req /\ RequiredGPU req1 = RequiredGPU req /\
  RequiredCPU req1 = RequiredCPU req /\ RequiredMemory req1 = RequiredMemory req /\ GPUCount req1 = GPUCount req /\
  Resources req1 = Resources req /\ StreamingSession req1 = StreamingSession req /\
  StreamMaxBitrateKbps req1 = StreamMaxBitrateKbps req /\ StreamBitrateCapKbps req1 = StreamBitrateCapKbps req /\
  StreamSessionCap req1 = StreamSessionCap req /\ StreamEgressBudgetKbps req1 = StreamEgressBudgetKbps req.
Proof. intros ->. by destruct req. Qed.

(** C3: An admitted submit has a context: its project exists, the project's plan
    exists and is in force at the time of the review, the user has access to the
    project (owner, member or group), and the plan lists the queue it runs in. *)
Theorem admission_requires_context req now w :
  evaluateSubmitAdmission req now = (w, Ok tt) ->
  exists project plan,
    rd_Project (ProjectID req) = Some project /\
    rd_Plan (TextValue (rec_Data project) ["plan_id"; "planId"; "resource_plan_id"; "resourcePlanId"]) = Some plan /\
    plan_in_force (rec_Data plan) now /\ project_access project (UserID req) /\
    admissionQueueAllowed plan (rv_QueueName w) = true.
Proof.
  intros (_ & ctx & req1 & req2 & floor & [])%evaluateSubmitAdmission_ok.
  apply resolveSubmitAdmissionContext_ok in ad_context0 as (? & ? & ? & ? & ? & _).
  exists (ac_project ctx), (ac_plan ctx). rewrite ad_queue0. done.
Qed.

(** [used] plus [requested] does not pass a limit; a limit that is not positive does
    not limit. *)
Definition within (used requested limit : float64) : Prop :=
  f64_gt limit f64_0 = true -> f64_gt (f64_add used requested) limit = false.
Definition within_memory (usedMB requestedMB : Z) (limitGB : float64) : Prop :=
  f64_gt limitGB f64_0 = true ->
  f64_gt (f64_div (f64_add (f64_of_int usedMB) (f64_of_int requestedMB)) f64_1024) limitGB = false.

Lemma quotaExceeded_within used requested limit : quotaExceeded used requested limit = false -> within used requested limit.
Proof. unfold quotaExceeded, within. intros Hq Hl. by rewrite Hl in Hq. Qed.
Lemma memoryQuotaExceeded_within used requested limit :
  memoryQuotaExceeded (f64_of_int used) requested limit = false -> within_memory used requested limit.
Proof. unfold memoryQuotaExceeded, within_memory. intros Hq Hl. by rewrite Hl in Hq. Qed.

Lemma admitted_usage req now w ctx req1 req2 floor :
  admitted req now w ctx req1 req2 floor ->
  rv_Usage w = set_egress_budget (StreamEgressBudgetKbps req)
    (usage_reference (ProjectID req) (UserID req) rd_ListWorkloadJobs (set_floor floor zero_usage)).
Proof.
  intros []. apply profile_fields_req in ad_fields0 as (Hp & Hu & _ & _ & _ & _ & _ & _ & _ & _ & _ & He).
  rewrite ad_usage0, Hp, Hu, He. unfold admissionUsageForJobs. by rewrite usage_fold_reference.
Qed.

(** C1: An admitted submit fits its quotas, measured against what the active jobs
    really use: with the totals over the project's active jobs, the request keeps
    the plan's GPU, CPU and memory limits; with those over the user's, it keeps the
    user's quota where there is one; and the user is below the project's limits on
    running and queued jobs. *)
Theorem admission_within_quota req now w :
  evaluateSubmitAdmission req now = (w, Ok tt) ->
  exists project plan,
    rd_Project (ProjectID req) = Some project /\
    rd_Plan (TextValue (rec_Data project) ["plan_id"; "planId"; "resource_plan_id"; "resourcePlanId"]) = Some plan /\
    let pj := project_jobs (ProjectID req) rd_ListWorkloadJobs in
    let uj := user_jobs (ProjectID req) (UserID req) rd_ListWorkloadJobs in
    within (f64_total job_gpu pj f64_0) (RequiredGPU req) (plan_gpu_limit plan) /\
    within (f64_total job_cpu pj f64_0) (RequiredCPU req) (plan_cpu_limit plan) /\
    within_memory (int_total job_memory pj 0) (RequiredMemory req) (plan_memory_limit plan) /\
    (forall q, admissionUserQuota (ProjectID req) (UserID req) = Some q ->
       within (f64_total job_gpu uj f64_0) (RequiredGPU req) (user_gpu_limit q) /\
       within (f64_total job_cpu uj f64_0) (RequiredCPU req) (user_cpu_limit q) /\
       within_memory (int_total job_memory uj 0) (RequiredMemory req) (user_memory_limit q)) /\
    (0 < project_max_running project ->
       int_total (fun _ => 1) (List.filter (fun d => String.eqb (job_status d) "running") uj) 0 < project_max_running project) /\
    (0 < project_max_queued project ->
       int_total (fun _ => 1) (List.filter (fun d => bool_decide (job_status d ∈ queuedAdmissionStatuses)) uj) 0
         < project_max_queued project).
Proof.
  intros (_ & ctx & req1 & req2 & floor & Had)%evaluateSubmitAdmission_ok.
  pose proof (admitted_usage _ _ _ _ _ _ _ Had) as Hu. destruct Had.
  apply resolveSubmitAdmissionContext_ok in ad_context0 as (? & ? & _).
  apply profile_fields_req in ad_fields0 as (Hp & Hus & Hg & Hc & Hm & _).
  apply enforceAdmissionJobLimits_ok in ad_jobs0 as [Hr Hq].
  apply enforceAdmissionQuota_ok in ad_quota0 as (Q1 & Q2 & Q3).
  pose proof (fun q Hq => enforceAdmissionUserQuota_ok req1 (rv_Usage w) q Hq ad_user_quota0) as Uq.
  rewrite Hp, Hus, Hg, Hc, Hm in Uq. rewrite Hg in Q1. rewrite Hc in Q2. rewrite Hm in Q3. rewrite Hu in *.
  exists (ac_project ctx), (ac_plan ctx). cbn zeta.
  split; [done|]. split; [done|]. split; [by apply quotaExceeded_within|]. split; [by apply quotaExceeded_within|].
  split; [by apply memoryQuotaExceeded_within|]. split; [|done].
  intros q (U1 & U2 & U3)%Uq. split; [by apply quotaExceeded_within|]. split; [by apply quotaExceeded_within|].
  by apply memoryQuotaExceeded_within.
Qed.


(** A GPU is only granted on a model the plan allows: when an admitted submit
    declares GPU demand, the device class of the review is, up to case, one of the
    plan's allowed GPU models. *)
Theorem admission_allowed_gpu_model req now w :
  evaluateSubmitAdmission req now = (w, Ok tt) ->
  f64_gt (RequiredGPU req) f64_0 = true \/ 0 < GPUCount req ->
  exists project plan model,
    rd_Project (ProjectID req) = Some project /\
    rd_Plan (TextValue (rec_Data project) ["plan_id"; "planId"; "resource_plan_id"; "resourcePlanId"]) = Some plan /\
    model ∈ admissionStringList (rec_Data plan) ["allowed_gpu_models"; "allowedGPUModels"] /\
    EqualFold model (rv_DeviceClassName w) = true.
Proof.
  intros (_ & ctx & req1 & req2 & floor & [])%evaluateSubmitAdmission_ok Hd.
  apply resolveSubmitAdmissionContext_ok in ad_context0 as (? & ? & _).
  apply profile_fields_req in ad_fields0 as (_ & _ & Hg & _ & _ & Hn & _).
  apply enforceAdmissionDeviceClass_ok in ad_device0 as [_ Hm]. rewrite Hg, Hn in Hm.
  destruct (Hm Hd) as (model & ? & ?). destruct ad_review0 as [-> _].
  by exists (ac_project ctx), (ac_plan ctx), model.
Qed.

(** MPS sharing is policed for every admitted submit that shares a GPU, whether
    it asked for it or an accelerator profile defaulted it: plan and queue allow
    MPS, the SM percentage is within the caps either sets, the project's policy
    does not forbid it, and unless both plan and queue allow sharing across
    projects no active MPS job of another project uses the device class. *)
Theorem admission_mps_policed req now w percentage :
  evaluateSubmitAdmission req now = (w, Ok tt) ->
  rv_SMPercentage w = Some percentage -> percentage < 100 ->
  exists ctx, resolveSubmitAdmissionContext req now = Ok ctx /\
    let plan := rec_Data (ac_plan ctx) in
    let queue := rec_Data <$> ac_queue ctx in
    (flag_on plan true mps_keys /\ queue_part (fun q => flag_on q true mps_keys) queue) /\
    (sm_within plan percentage /\ queue_part (fun q => sm_within q percentage) queue) /\
    projectMPSForbidden (rec_Data (ac_project ctx)) = false /\
    ((flag_on plan false cross_keys /\ queue_part (fun q => flag_on q true cross_keys) queue) \/
     Forall (fun job => foreign_mps_job (ProjectID req) (device_or_default (TrimSpace (rv_DeviceClassName w))) job = false)
       rd_ListWorkloadJobs).
Proof.
  intros (_ & ctx & req1 & req2 & floor & [])%evaluateSubmitAdmission_ok Hs Hlt.
  destruct ad_review0 as [Hdev Hsm]. rewrite Hsm in Hs. rewrite Hdev.
  apply profile_fields_req in ad_fields0 as (Hp & _).
  apply enforceAdmissionDeviceClass_ok in ad_device0 as [Ed _].
  assert (ProjectID req2 = ProjectID req) as <- by (rewrite Ed; exact Hp).
  exists ctx. split; [done|]. apply enforceAdmissionMPSPlanQueuePolicy_ok in ad_mps_policy0.
  - unfold admissionMPSPercentage in ad_mps_policy0. rewrite Hs in ad_mps_policy0. exact ad_mps_policy0.
  - unfold admissionMPSRequested. rewrite Hs. by rewrite (proj2 (Z.ltb_lt _ _) Hlt).
Qed.

(** With the image check on, every container and init container image of an
    admitted submit, Volcano tasks included, is allow-listed: a rule that is enabled,
    not deleted and applies to the project names the same reference. *)
Theorem admission_images_allow_listed req now w image :
  evaluateSubmitAdmission req now = (w, Ok tt) -> EnforceImageAllowList req = true ->
  submitted_image req image -> image ≠ "" -> allow_listed (ProjectID req) image.
Proof.
  intros (_ & ctx & req1 & req2 & floor & [])%evaluateSubmitAdmission_ok He.
  by apply enforceAdmissionImageAllowList_ok.
Qed.

(** An admitted streaming session fits the streaming budget: its bitrate is within
    the cap, the active sessions of all projects leave room for one more, and their
    bitrate plus its own stays within the egress budget. *)
Theorem admission_streaming_budget req now w :
  evaluateSubmitAdmission req now = (w, Ok tt) -> StreamingSession req = true ->
  let sessions := stream_jobs rd_ListWorkloadJobs in
  StreamMaxBitrateKbps req <= StreamBitrateCapKbps req /\
  int_total (fun _ => 1) sessions 0 < StreamSessionCap req /\
  i64 (int_total admissionJobStreamBitrate sessions 0 + StreamMaxBitrateKbps req) <= StreamEgressBudgetKbps req.
Proof.
  intros (_ & ctx & req1 & req2 & floor & Had)%evaluateSubmitAdmission_ok Hss.
  pose proof (admitted_usage _ _ _ _ _ _ _ Had) as Hu. destruct Had.
  apply profile_fields_req in ad_fields0 as (_ & _ & _ & _ & _ & _ & _ & Hs & Hb & Hcap & Hsc & He).
  apply enforceAdmissionStreaming_ok in ad_streaming0; [|by rewrite Hs].
  rewrite Hb, Hcap, Hsc, He, Hu in ad_streaming0. exact ad_streaming0.
Qed.

End Admission.

(** ** The handler *)

Section Handler.
Context `{GoLib} `{YamlLib}.

Fixpoint manifest_limits (ps : list admissionResourcePayload) (cfg : limitConfig) : result input_error unit :=
  match ps with
  | [] => Ok tt
  | p :: rest =>
      if str_empty (ar_Raw p) then manifest_limits rest cfg
      else ValidateManifestLimits (ar_Raw p) (EffectiveMaxConfigFileBytes cfg) (EffectiveMaxConfigFileDocuments cfg) ;;?
           manifest_limits rest cfg
  end.

Definition validateAdmissionResourceManifestLimits (req : submitAdmissionRequest) (cfg : limitConfig) : result input_error unit :=
  manifest_limits (Resources req) cfg.

Definition secretAccessRejectedData (req : submitAdmissionRequest) (v : admissionSecretPolicyViolation) : object :=
  list_to_map
    [("project_id", VString (ProjectID req)); ("user_id", VString (UserID req)); ("job_id", VString (JobID req));
     ("resource_type", VString "secret"); ("resource_id", VString (sv_ResourceName v));
     ("resource_kind", VString (FirstNonEmpty [sv_ResourceKind v; "Secret"]));
     ("resource_name", VString (sv_ResourceName v)); ("reason", VString (sv_Reason v)); ("success", VBool false)].

(** The rejection is published twice: as a domain event and as an audit event. *)
Definition publishSecretAccessRejected (a : app) (r : svc_request) (req : submitAdmissionRequest)
    (v : admissionSecretPolicyViolation) : app :=
  let data := secretAccessRejectedData req v in
  let a1 := publish a r 0 "SecretAccessRejected" "rejected" data in
  let auditData :=
    <["description" := VString (sv_Reason v)]> (<["success" := VBool false]>
    (<["resource_id" := VString (sv_ResourceName v)]> (<["resource_type" := VString "secret"]>
    (<["actor_user_id" := VString (FirstNonEmpty [header r "X-User-ID"; UserID req; "anonymous"])]>
    (<["action" := VString "rejected"]> data))))) in
  default a1 (publish_event a1
    (Event_ (uuid r 1) "AuditEvent" serviceName (sr_now r) (trace_id r) 1 (header r "Idempotency-Key") auditData)).

(** The request the evaluator is given: decoded, with the configuration applied. *)
Definition prepareSubmitRequest (cfg : admissionConfig) (payload : object) : submitAdmissionRequest :=
  let req := applyAdmissionStreamConfig cfg (decodeSubmitAdmissionRequest payload) in
  let req := set_EnforceImageAllowList (cfg_ImageCheckEnabled cfg) req in
  if str_empty (QueueName req)
  then set_QueueName (FirstNonEmpty [TrimSpace (cfg_DefaultQueueName cfg); defaultQueueName]) req else req.

Definition reviewSubmitAdmission (cfg : admissionConfig) (lim : limitConfig) (a : app) (r : svc_request) : app * response :=
  match decodePayload r with
  | Err e => (a, (InputLimitStatus e StatusBadRequest, ErrorData (InputLimitMessage e msgInvalidBody)))
  | Ok payload =>
      let req := prepareSubmitRequest cfg payload in
      match validateAdmissionResourceManifestLimits req lim with
      | Err e => (a, (InputLimitStatus e StatusUnprocessableEntity,
                      BMap (admissionDenied req (InputLimitMessage e (error_text e)))))
      | Ok _ =>
          match admissionRuntimeSocketPolicyViolationFromRequest req with
          | Some v => (a, (StatusForbidden, BMap (admissionDenied req (kv_Reason v))))
          | None =>
              match admissionSecretPolicyViolationFromRequest req with
              | Some v => (publishSecretAccessRejected a r req v,
                           (StatusForbidden, BMap (admissionDenied req (sv_Reason v))))
              | None =>
                  match @evaluateSubmitAdmission _ (storeAdmissionReader (app_Store a)) req (sr_now r) with
                  | (w, Err d) => (a, (dn_status d, BMap (admissionDeniedReview req w (dn_reason d))))
                  | (w, Ok _) =>
                      let s := (PersistSubmitAdmissionReview (app_Store a) w (sr_newid r) (sr_now r)).1 in
                      let a1 := App_ s (app_Events a) in
                      (publish a1 r 0 "SubmitAdmissionReviewed" "allowed" (admissionReviewData w),
                       (StatusOK, BMap (admissionReviewData w)))
                  end
              end
          end
      end
  end.

(** ** What the handler answers *)

Definition refusal (b : body) : Prop :=
  (exists text, b = ErrorData text) \/ (exists m : object, b = BMap m /\ m !! "allowed" = Some (VBool false)).

Lemma publish_store a r n name action data : app_Store (publish a r n name action data) = app_Store a.
Proof. unfold publish. destruct (publish_event _ _) eqn:E; [|done]. by eapply publish_event_store. Qed.

Lemma publishSecretAccessRejected_store a r req v : app_Store (publishSecretAccessRejected a r req v) = app_Store a.
Proof.
  unfold publishSecretAccessRejected. cbn zeta. destruct (publish_event _ _) eqn:E; cbn [from_option id];
    [apply publish_event_store in E as ->|]; apply publish_store.
Qed.

Lemma admissionDenied_refuses req reason : refusal (BMap (admissionDenied req reason)).
Proof. right. eexists. split; [done|]. reflexivity. Qed.

(** The handler either admits or refuses. It admits only what the evaluator
    accepted and no manifest check refused: the answer is 200 with "allowed": true,
    the review is persisted and announced. Everything else is a refusal, with
    "allowed": false or an error message, and leaves the records as they were; it
    publishes nothing, except that a raw Secret manifest is reported. *)
Theorem admission_handler_verdict cfg lim a r :
  let out := reviewSubmitAdmission cfg lim a r in
  (exists payload w, decodePayload r = Ok payload /\
     let req := prepareSubmitRequest cfg payload in
     admissionRuntimeSocketPolicyViolationFromRequest req = None /\
     admissionSecretPolicyViolationFromRequest req = None /\
     @evaluateSubmitAdmission _ (storeAdmissionReader (app_Store a)) req (sr_now r) = (w, Ok tt) /\
     out.2 = (StatusOK, BMap (admissionReviewData w)) /\
     admissionReviewData w !! "allowed" = Some (VBool true) /\
     app_Store out.1 = (PersistSubmitAdmissionReview (app_Store a) w (sr_newid r) (sr_now r)).1 /\
     out.1 = publish (App_ (app_Store out.1) (app_Events a)) r 0 "SubmitAdmissionReviewed" "allowed" (admissionReviewData w))
  \/
  (app_Store out.1 = app_Store a /\ refusal out.2.2 /\
   (out.1 = a \/ exists payload v, decodePayload r = Ok payload /\
      admissionSecretPolicyViolationFromRequest (prepareSubmitRequest cfg payload) = Some v /\
      out.1 = publishSecretAccessRejected a r (prepareSubmitRequest cfg payload) v)).
Proof.
  unfold reviewSubmitAdmission. destruct (decodePayload r) as [payload|e] eqn:Ed; [|right; split_and!; [done|left; by eexists|by left]].
  cbn zeta. set (req := prepareSubmitRequest cfg payload).
  destruct (validateAdmissionResourceManifestLimits req lim);
    [|right; split_and!; [done|apply admissionDenied_refuses|by left]].
  destruct (admissionRuntimeSocketPolicyViolationFromRequest req) eqn:Es;
    [right; split_and!; [done|apply admissionDenied_refuses|by left]|].
  destruct (admissionSecretPolicyViolationFromRequest req) as [v|] eqn:Ev.
  { right. split_and!; [apply publishSecretAccessRejected_store|apply admissionDenied_refuses|right; by eexists payload, v]. }
  destruct (evaluateSubmitAdmission req (sr_now r)) as [w [[]|d]] eqn:Ee.
  - left. exists payload, w. cbn [fst snd]. pose proof (evaluateSubmitAdmission_ok _ _ _ Ee) as [Ha _].
    split_and!; try done; [by rewrite review_allowed, Ha|apply publish_store|by rewrite publish_store].
  - right. split_and!; [done| |by left]. right. eexists. split; [done|]. apply denied_review_spec.
Qed.

End Handler.

(** ** A store and a submit that is admitted *)

Definition main_container : object :=
  {[ "image" := VString "reg/app:1";
     "resources" := VMap {[ "requests" := VMap {[ "memory" := VString "1Mi" ]}; "limits" := VMap {[ "memory" := VString "1Mi" ]} ]} ]}.
Definition pod_manifest : object := {[ "kind" := VString "Pod"; "spec" := VMap {[ "containers" := VList [VMap main_container] ]} ]}.
Definition demo_lib : GoLib := {|
  parse_quantity text := if String.eqb text "1Mi" then Some (Quantity 1048576 (f64_of_int 1048576)) else None; parse_float _ := None; parse_int64 _ := None; parse_rfc3339 _ := None;
  format_rfc3339 _ := ""; time_string _ := "";
  unmarshal_object t := if String.eqb t "pod" then Some pod_manifest else None;
  unmarshal_objects _ := None; unmarshal_strings _ := None; marshal _ := None; sprint _ := "";
  sprintf f _ := f; sha256_hex s := s |}.

Definition demo_record (id : string) (fields : list (string * any)) : record := Record_ id (list_to_map fields) 1 0 0.
Definition demo_store : store :=
  Store_ (list_to_map
    [(projectsResource, {[ "p1" := demo_record "p1" [("plan_id", VString "pl1"); ("personal_owner_user_id", VString "u1");
       ("owner_id", VString "u1"); ("owner_user_id", VString "u1"); ("max_concurrent_jobs_per_user", VInt 2)] ]});
     (projectMembersResource, {[ "p1/u1" := demo_record "p1/u1" [("project_id", VString "p1"); ("user_id", VString "u1")] ]});
     (plansResource, {[ "pl1" := demo_record "pl1" [("queue_ids", VStrings ["batch"]); ("gpu_limit", VInt 2);
       ("allowed_gpu_models", VStrings ["gpu.nvidia.com"]); ("max_sm_percentage_per_gpu", VInt 60)] ]});
     (queuesResource, {[ "batch" := demo_record "batch" [("name", VString "batch"); ("priority", VInt 7)] ]});
     (userQuotasResource, {[ "p1/u1" := demo_record "p1/u1" [("gpu_limit", VInt 2)] ]});
     (imageAllowListsResource, {[ "r1" := demo_record "r1" [("project_id", VString "*"); ("image_reference", VString "reg/app:1")] ]});
     (workloadJobsResource, {[ "j1" := demo_record "j1" [("status", VString "running"); ("project_id", VString "p1");
       ("user_id", VString "u1"); ("required_gpu", VInt 1); ("streaming_session", VBool true)] ]})]) ∅.
Definition demo_reader : admissionReader := storeAdmissionReader demo_store.
Definition demo_req : submitAdmissionRequest :=
  Req "j2" "p1" "u1" "batch" "" (f64_of_int 1) f64_0 1 1 (Some 50) "" true 8000 12000 64 800000
    "" false "" "" "" "" None true [Payload "pod" "Pod" "pod"].
Definition demo_review : admissionReview := (@evaluateSubmitAdmission demo_lib demo_reader demo_req 0).1.

Lemma admission_requires_context_witness :
  exists project plan, Get demo_store projectsResource "p1" = Some project /\
    rd_Plan (admissionReader := demo_reader) (TextValue (rec_Data project) ["plan_id"; "planId"; "resource_plan_id"; "resourcePlanId"]) = Some plan /\
    @admissionQueueAllowed demo_lib demo_reader plan (rv_QueueName demo_review) = true.
Proof.
  destruct (@admission_requires_context demo_lib demo_reader demo_req 0 demo_review ltac:(vm_compute; reflexivity))
    as (project & plan & Hp & Hpl & _ & _ & Hq).
  exists project, plan. split; [exact Hp|]. split; [exact Hpl|exact Hq].
Defined.

Lemma admission_within_quota_witness :
  exists project plan, Get demo_store projectsResource "p1" = Some project /\
    within (f64_total job_gpu (project_jobs "p1" (rd_ListWorkloadJobs (admissionReader := demo_reader))) f64_0)
      (f64_of_int 1) (plan_gpu_limit plan).
Proof.
  destruct (@admission_within_quota demo_lib demo_reader demo_req 0 demo_review ltac:(vm_compute; reflexivity))
    as (project & plan & Hp & _ & Hg & _).
  exists project, plan. split; [exact Hp|exact Hg].
Defined.


Lemma admission_allowed_gpu_model_witness :
  exists model, EqualFold model (rv_DeviceClassName demo_review) = true.
Proof.
  destruct (@admission_allowed_gpu_model demo_lib demo_reader demo_req 0 demo_review
    ltac:(vm_compute; reflexivity) ltac:(left; vm_compute; reflexivity)) as (_ & _ & model & _ & _ & _ & Hm).
  exists model. exact Hm.
Defined.

Lemma admission_mps_policed_witness :
  exists ctx, @resolveSubmitAdmissionContext demo_lib demo_reader demo_req 0 = Ok ctx /\ sm_within (rec_Data (ac_plan ctx)) 50.
Proof.
  destruct (@admission_mps_policed demo_lib demo_reader demo_req 0 demo_review 50
    ltac:(vm_compute; reflexivity) ltac:(vm_compute; reflexivity) ltac:(lia)) as (ctx & Hc & _ & [Hs _] & _).
  exists ctx. split; [exact Hc|exact Hs].
Defined.

Lemma admission_images_allow_listed_witness : @allow_listed demo_reader "p1" "reg/app:1".
Proof.
  apply (@admission_images_allow_listed demo_lib demo_reader demo_req 0 demo_review "reg/app:1");
    [vm_compute; reflexivity|reflexivity| |discriminate].
  exists (Payload "pod" "Pod" "pod"), pod_manifest. eexists. split; [left|].
  split; [vm_compute; reflexivity|]. split; [vm_compute; left|].
  exists "containers". eexists. split; [left|]. split; [vm_compute; left|]. vm_compute. reflexivity.
Defined.

Lemma admission_streaming_budget_witness :
  StreamMaxBitrateKbps demo_req <= StreamBitrateCapKbps demo_req /\
  int_total (fun _ => 1) (stream_jobs (rd_ListWorkloadJobs (admissionReader := demo_reader))) 0 < 64.
Proof.
  destruct (@admission_streaming_budget demo_lib demo_reader demo_req 0 demo_review ltac:(vm_compute; reflexivity) eq_refl)
    as (Hb & Hs & _).
  split; [exact Hb|exact Hs].
Defined.
