(* ===== verification/Preemption.v ===== *)
(** * Preemption: requests and victim selection (preemption.go, preemption_client.go)

    The request a caller makes, what of it is trusted, which jobs are eligible and
    which of them are chosen.  The handler around it is in PreemptionHandler. *)

From stdpp Require Import base gmap strings list fin_maps sorting.
From Stdlib Require Import ZArith Lia.
From S2P Require Import Prelude GoValue Store EventBus Crud InputLimits AdmissionTypes SchedulerHttp AdmissionResources AdmissionDecode SchedulerRepository.
Local Open Scope Z_scope.
Local Open Scope go_scope.

Definition defaultMaxPreemptions : Z := 5.

Record preemptionRequest := PreemptionRequest {
  pr_IdempotencyKey : string;
  pr_RequesterJobID : string;
  pr_ProjectID : string;
  pr_QueueName : string;
  pr_DeviceClass : string;
  pr_GPUModel : string;
  pr_PriorityValue : Z;
  pr_RequiredGPU : float64;
  pr_RequiredCPU : float64;
  pr_MaxPreemptions : Z;
  pr_Override : bool;
  pr_Fingerprint : string
}.

Record workloadJobSnapshot := Snapshot {
  sn_ID : string;
  sn_JobID : string;
  sn_ProjectID : string;
  sn_UserID : string;
  sn_QueueName : string;
  sn_Namespace : string;
  sn_Status : string;
  sn_PriorityValue : Z;
  sn_Preemptible : bool;
  sn_RequiredGPU : float64;
  sn_RequiredCPU : float64;
  sn_RequiredMemory : Z;
  sn_DeviceClassName : string;
  sn_GPUModel : string;
  sn_CreatedAt : string;
  sn_PreemptionRecordID : string
}.

Record workloadPreemptionContext := PreemptionContext {
  pc_Requester : option workloadJobSnapshot;
  pc_Candidates : list workloadJobSnapshot
}.

(** preemptionHTTPError *)
Record preemptionHTTPError := HTTPError { he_status : Z; he_message : string }.

Definition clampMaxPreemptions (value : Z) : Z :=
  if (value <=? 0) || (defaultMaxPreemptions <? value) then defaultMaxPreemptions else value.

Definition preemptionDemandSatisfied (req : preemptionRequest) (freedGPU freedCPU : float64) : bool :=
  let gpuOK := f64_le (pr_RequiredGPU req) f64_0 || f64_ge freedGPU (pr_RequiredGPU req) in
  let cpuOK := f64_le (pr_RequiredCPU req) f64_0 || f64_ge freedCPU (pr_RequiredCPU req) in
  let cpuOK := if f64_gt (pr_RequiredGPU req) f64_0 && gpuOK then true else cpuOK in
  gpuOK && cpuOK.

Definition preemptibleWorkloadStatus (status : string) : bool :=
  bool_decide (ToLower (TrimSpace status) ∈ ["running"; "partial-preempted"]).

(** The zero time.Time, in nanoseconds since the Unix epoch. *)
Definition zero_time : Z := -62135596800 * 1000000000.

Section Selection.
Context `{GoLib}.

Definition explicitPreemptionOverride (payload : object) : bool :=
  (0 <? IntValue payload ["priority_value"; "priorityValue"; "priority"]) ||
  f64_gt (NumberValue payload ["required_gpu"; "requiredGpu"; "RequiredGPU"]) f64_0 ||
  f64_gt (NumberValue payload ["required_cpu"; "requiredCPU"; "required_cpu_cores"; "RequiredCPU"]) f64_0.

(** [serviceAuthorized] is the outcome of the service-key check, [requireAuth] the
    configuration switch. *)
Definition authorizedPreemptionOverride (serviceAuthorized requireAuth : bool) (r : svc_request) : bool :=
  if serviceAuthorized then true
  else if negb requireAuth then false
  else bool_decide (ToLower (TrimSpace (header r "X-User-Role")) ∈ ["admin"; "superadmin"; "root"; "system"]).

Definition preemptionFingerprint (req : preemptionRequest) : string :=
  let body : object := list_to_map
    [("requester_job_id", VString (pr_RequesterJobID req)); ("project_id", VString (pr_ProjectID req));
     ("queue_name", VString (pr_QueueName req)); ("device_class", VString (pr_DeviceClass req));
     ("gpu_model", VString (pr_GPUModel req)); ("priority_value", VInt (pr_PriorityValue req));
     ("required_gpu", VFloat64 (pr_RequiredGPU req)); ("required_cpu", VFloat64 (pr_RequiredCPU req));
     ("max_preemptions", VInt (pr_MaxPreemptions req))] in
  sha256_hex (default "" (marshal (VMap body))).

Definition decodePreemptionRequest (serviceAuthorized requireAuth : bool) (r : svc_request) (payload : object)
    : result preemptionHTTPError preemptionRequest :=
  let key0 := TrimSpace (header r "Idempotency-Key") in
  let requester := FirstNonEmpty [TextValue payload ["requester_job_id"; "requesterJobId"]; TextValue payload ["job_id"; "jobId"]] in
  let key := if str_empty key0 && negb (str_empty requester) then "requester_job_id:" +:+ requester else key0 in
  let override := explicitPreemptionOverride payload in
  if str_empty key then Err (HTTPError StatusBadRequest "Idempotency-Key or requester_job_id is required")
  else if override && negb (authorizedPreemptionOverride serviceAuthorized requireAuth r)
  then Err (HTTPError StatusForbidden "administrator or system principal is required for explicit preemption override")
  else
    let req fingerprint := PreemptionRequest key requester
      (TextValue payload ["project_id"; "projectId"]) (TextValue payload ["queue_name"; "queueName"])
      (TextValue payload ["device_class_name"; "deviceClassName"]) (TextValue payload ["gpu_model"; "gpuModel"])
      (IntValue payload ["priority_value"; "priorityValue"; "priority"])
      (NumberValue payload ["required_gpu"; "requiredGpu"; "RequiredGPU"])
      (NumberValue payload ["required_cpu"; "requiredCPU"; "required_cpu_cores"; "RequiredCPU"])
      (clampMaxPreemptions (IntValue payload ["max_preemptions"; "maxPreemptions"])) override fingerprint in
    Ok (req (preemptionFingerprint (req ""))).

Definition set_trusted (jobID projectID queueName deviceClass gpuModel : string) (priority : Z) (gpu cpu : float64)
    (req : preemptionRequest) : preemptionRequest :=
  PreemptionRequest (pr_IdempotencyKey req) jobID projectID queueName deviceClass gpuModel priority gpu cpu
    (pr_MaxPreemptions req) (pr_Override req) (pr_Fingerprint req).

Definition demand_missing (req : preemptionRequest) : bool :=
  (pr_PriorityValue req <=? 0) || (f64_le (pr_RequiredGPU req) f64_0 && f64_le (pr_RequiredCPU req) f64_0).

(** With a requester job, its record decides priority and demand; without one only
    an authorized override does. *)
Definition trustedPreemptionRequest (serviceAuthorized requireAuth : bool) (r : svc_request) (req : preemptionRequest)
    (ctx : workloadPreemptionContext) : result preemptionHTTPError preemptionRequest :=
  match pc_Requester ctx with
  | None =>
      if pr_Override req && authorizedPreemptionOverride serviceAuthorized requireAuth r then
        if demand_missing req
        then Err (HTTPError StatusUnprocessableEntity "priority and GPU or CPU demand are required")
        else Ok req
      else Err (HTTPError StatusUnprocessableEntity "trusted requester job context is required")
  | Some q =>
      let req' := set_trusted (FirstNonEmpty [pr_RequesterJobID req; sn_JobID q; sn_ID q])
        (FirstNonEmpty [sn_ProjectID q; pr_ProjectID req]) (FirstNonEmpty [sn_QueueName q; pr_QueueName req])
        (FirstNonEmpty [sn_DeviceClassName q; pr_DeviceClass req]) (FirstNonEmpty [sn_GPUModel q; pr_GPUModel req])
        (sn_PriorityValue q) (sn_RequiredGPU q) (sn_RequiredCPU q) req in
      if demand_missing req'
      then Err (HTTPError StatusUnprocessableEntity "trusted requester priority and GPU or CPU demand are required")
      else Ok req'
  end.

Definition schedulerQueuePreemptible (s : store) (queueName : string) : bool :=
  if str_empty queueName then false
  else match FindQueueByNameOrID s queueName with
       | Some queue => BoolValue (rec_Data queue) ["is_preemptible"; "isPreemptible"; "preemptible"]
       | None => false
       end.

Definition candidateEligibleForPreemption (s : store) (req : preemptionRequest) (c : workloadJobSnapshot) : bool :=
  if str_empty (sn_JobID c) || String.eqb (sn_JobID c) (pr_RequesterJobID req) || String.eqb (sn_ID c) (pr_RequesterJobID req)
  then false
  else if negb (str_empty (pr_ProjectID req)) && negb (String.eqb (sn_ProjectID c) (pr_ProjectID req)) then false
  else if negb (preemptibleWorkloadStatus (sn_Status c)) || (pr_PriorityValue req <=? sn_PriorityValue c) then false
  else if negb (sn_Preemptible c) && negb (schedulerQueuePreemptible s (sn_QueueName c)) then false
  else if negb (str_empty (pr_DeviceClass req)) && negb (EqualFold (pr_DeviceClass req) (sn_DeviceClassName c)) then false
  else if negb (str_empty (pr_GPUModel req)) && negb (EqualFold (pr_GPUModel req) (sn_GPUModel c)) then false
  else if f64_le (pr_RequiredGPU req) f64_0 && f64_le (sn_RequiredCPU c) f64_0 then false
  else f64_gt (sn_RequiredGPU c) f64_0 || f64_gt (sn_RequiredCPU c) f64_0.

Definition parsePreemptionTime (value : string) : Z := default zero_time (parse_rfc3339 (TrimSpace value)).

Definition preemptionTargetPreferred (left right : workloadJobSnapshot) : bool :=
  if negb (sn_PriorityValue left =? sn_PriorityValue right) then sn_PriorityValue left <? sn_PriorityValue right
  else
    let leftTime := parsePreemptionTime (sn_CreatedAt left) in
    let rightTime := parsePreemptionTime (sn_CreatedAt right) in
    if negb (leftTime =? rightTime) then rightTime <? leftTime
    else String.ltb (sn_JobID left) (sn_JobID right).

Definition selection : Type := list workloadJobSnapshot * float64 * float64.

(** [eligible] is the part of the slice from [start] on: the loop over [i] is the
    descent into the tail, each candidate first taken, then skipped. *)
Fixpoint findPreemptionVictimCombination (req : preemptionRequest) (eligible chosen : list workloadJobSnapshot)
    (remaining : nat) (freedGPU freedCPU : float64) : option selection :=
  match remaining with
  | O => if preemptionDemandSatisfied req freedGPU freedCPU then Some (chosen, freedGPU, freedCPU) else None
  | S remaining' =>
      match eligible with
      | [] => None
      | c :: rest =>
          if (length eligible <? remaining)%nat then None
          else match findPreemptionVictimCombination req rest (chosen ++ [c]) remaining'
                       (f64_add freedGPU (sn_RequiredGPU c)) (f64_add freedCPU (sn_RequiredCPU c)) with
               | Some found => Some found
               | None => findPreemptionVictimCombination req rest chosen remaining freedGPU freedCPU
               end
      end
  end.

(** The loop over target sizes, [fuel] sizes left from [size] on. *)
Fixpoint try_sizes (req : preemptionRequest) (eligible : list workloadJobSnapshot) (size fuel : nat) : selection :=
  match fuel with
  | O => ([], f64_0, f64_0)
  | S fuel' => match findPreemptionVictimCombination req eligible [] size f64_0 f64_0 with
               | Some found => found
               | None => try_sizes req eligible (S size) fuel'
               end
  end.

Definition selectMinimalPreemptionVictims (req : preemptionRequest) (eligible : list workloadJobSnapshot) : selection :=
  let maxVictims := Z.min (pr_MaxPreemptions req) (Z.of_nat (length eligible)) in
  try_sizes req eligible 1 (Z.to_nat maxVictims).

Definition eligible_targets (s : store) (req : preemptionRequest) (candidates : list workloadJobSnapshot) : list workloadJobSnapshot :=
  SliceStable preemptionTargetPreferred (List.filter (candidateEligibleForPreemption s req) candidates).

Definition selectPreemptionVictims (s : store) (req : preemptionRequest) (candidates : list workloadJobSnapshot) : selection :=
  selectMinimalPreemptionVictims req (eligible_targets s req candidates).

Definition workloadSnapshotFromData (id : string) (data : object) : workloadJobSnapshot :=
  Snapshot (FirstNonEmpty [TextValue data ["id"]; id]) (FirstNonEmpty [TextValue data ["job_id"; "jobId"]; id])
    (TextValue data ["project_id"; "projectId"]) (TextValue data ["user_id"; "userId"])
    (TextValue data ["queue_name"; "queueName"]) (TextValue data ["namespace"; "Namespace"])
    (TextValue data ["status"; "Status"]) (IntValue data ["priority_value"; "priorityValue"; "priority"])
    (BoolValue data ["preemptible"; "is_preemptible"; "isPreemptible"])
    (NumberValue data ["required_gpu"; "requiredGpu"; "RequiredGPU"])
    (NumberValue data ["required_cpu"; "requiredCPU"; "required_cpu_cores"; "RequiredCPU"])
    (IntValue data ["required_memory"; "requiredMemory"; "required_memory_mb"; "RequiredMemory"])
    (TextValue data ["device_class_name"; "deviceClassName"]) (TextValue data ["gpu_model"; "gpuModel"])
    (TextValue data ["created_at"; "createdAt"]) (TextValue data ["preemption_record_id"; "preemptionRecordId"]).

(** ** The search *)

Definition freed_gpu (vs : list workloadJobSnapshot) (start : float64) : float64 :=
  fold_left (fun s v => f64_add s (sn_RequiredGPU v)) vs start.
Definition freed_cpu (vs : list workloadJobSnapshot) (start : float64) : float64 :=
  fold_left (fun s v => f64_add s (sn_RequiredCPU v)) vs start.

Lemma find_combination_some req eligible : forall chosen k gpu cpu vs g c,
  findPreemptionVictimCombination req eligible chosen k gpu cpu = Some (vs, g, c) ->
  exists picked, vs = chosen ++ picked /\ picked `sublist_of` eligible /\ length picked = k /\
    g = freed_gpu picked gpu /\ c = freed_cpu picked cpu /\ preemptionDemandSatisfied req g c = true.
Proof.
  induction eligible as [|x rest IH]; intros chosen k gpu cpu vs g c.
  - destruct k as [|k]; cbn; [|done]. destruct (preemptionDemandSatisfied req gpu cpu) eqn:E; [|done].
    intros [= <- <- <-]. exists []. rewrite app_nil_r. split_and!; auto using sublist_nil.
  - destruct k as [|k]; cbn [findPreemptionVictimCombination].
    { destruct (preemptionDemandSatisfied req gpu cpu) eqn:E; [|done].
      intros [= <- <- <-]. exists []. rewrite app_nil_r. split_and!; auto using sublist_nil_l. }
    destruct (length (x :: rest) <? S k)%nat; [done|].
    destruct (findPreemptionVictimCombination req rest (chosen ++ [x]) k _ _) as [[[vs' g'] c']|] eqn:E.
    + intros [= <- <- <-]. apply IH in E as (picked & -> & Hs & Hl & Hg & Hc & Hd).
      exists (x :: picked). rewrite <- app_assoc. split_and!; cbn; auto using sublist_skip.
    + intros (picked & -> & Hs & Hl & Hg & Hc & Hd)%IH. exists picked. split_and!; auto using sublist_cons.
Qed.

Lemma find_combination_none req eligible : forall chosen k gpu cpu picked,
  findPreemptionVictimCombination req eligible chosen k gpu cpu = None ->
  picked `sublist_of` eligible -> length picked = k ->
  preemptionDemandSatisfied req (freed_gpu picked gpu) (freed_cpu picked cpu) = false.
Proof.
  induction eligible as [|x rest IH]; intros chosen k gpu cpu picked Hf Hs Hl.
  - apply sublist_nil_r in Hs as ->. subst k. cbn in *. by destruct (preemptionDemandSatisfied _ _ _).
  - destruct k as [|k].
    { destruct picked; [|done]. cbn in *. by destruct (preemptionDemandSatisfied _ _ _). }
    pose proof (sublist_length _ _ Hs) as Hlen. cbn [findPreemptionVictimCombination] in Hf.
    destruct (Nat.ltb_spec (length (x :: rest)) (S k)); [lia|].
    destruct (findPreemptionVictimCombination req rest (chosen ++ [x]) k _ _) eqn:E1; [done|].
    apply sublist_cons_r in Hs as [Hs|(picked' & -> & Hs)].
    + by eapply IH.
    + cbn. eapply IH; [exact E1|done|]. cbn in Hl. lia.
Qed.

Lemma try_sizes_cases req eligible fuel : forall size,
  (1 <= size)%nat ->
  match try_sizes req eligible size fuel with
  | (vs, g, c) =>
      (vs = [] /\ g = f64_0 /\ c = f64_0 /\
       forall picked, picked `sublist_of` eligible -> (size <= length picked < size + fuel)%nat ->
         preemptionDemandSatisfied req (freed_gpu picked f64_0) (freed_cpu picked f64_0) = false)
      \/
      (vs `sublist_of` eligible /\ (size <= length vs < size + fuel)%nat /\ g = freed_gpu vs f64_0 /\ c = freed_cpu vs f64_0 /\
       preemptionDemandSatisfied req g c = true /\
       forall picked, picked `sublist_of` eligible -> (size <= length picked < length vs)%nat ->
         preemptionDemandSatisfied req (freed_gpu picked f64_0) (freed_cpu picked f64_0) = false)
  end.
Proof.
  induction fuel as [|fuel IH]; intros size Hsize; cbn [try_sizes].
  - left. split_and!; try done. intros. lia.
  - destruct (findPreemptionVictimCombination req eligible [] size f64_0 f64_0) as [[[vs g] c]|] eqn:E.
    + right. apply find_combination_some in E as (picked & -> & Hs & Hl & -> & -> & Hd). cbn [Datatypes.app] in *.
      split_and!; auto; intros; lia.
    + specialize (IH (S size) ltac:(lia)). destruct (try_sizes req eligible (S size) fuel) as [[vs g] c].
      destruct IH as [(-> & -> & -> & Hn)|(Hs & Hl & -> & -> & Hd & Hn)]; [left|right]; split_and!; auto; try lia.
      all: intros picked Hp Hlen; destruct (decide (length picked = size)) as [Heq|Hne];
        [by eapply find_combination_none|apply Hn; [done|lia]].
Qed.

Lemma selectMinimal_cases req eligible :
  match selectMinimalPreemptionVictims req eligible with
  | (vs, g, c) =>
      (vs = [] /\ g = f64_0 /\ c = f64_0 /\
       forall picked, picked `sublist_of` eligible -> picked ≠ [] -> Z.of_nat (length picked) <= pr_MaxPreemptions req ->
         preemptionDemandSatisfied req (freed_gpu picked f64_0) (freed_cpu picked f64_0) = false)
      \/
      (vs `sublist_of` eligible /\ vs ≠ [] /\ Z.of_nat (length vs) <= pr_MaxPreemptions req /\
       g = freed_gpu vs f64_0 /\ c = freed_cpu vs f64_0 /\ preemptionDemandSatisfied req g c = true /\
       forall picked, picked `sublist_of` eligible -> picked ≠ [] -> (length picked < length vs)%nat ->
         preemptionDemandSatisfied req (freed_gpu picked f64_0) (freed_cpu picked f64_0) = false)
  end.
Proof.
  unfold selectMinimalPreemptionVictims.
  pose proof (try_sizes_cases req eligible (Z.to_nat (Z.min (pr_MaxPreemptions req) (Z.of_nat (length eligible)))) 1 ltac:(lia)) as Hc.
  destruct (try_sizes _ _ _ _) as [[vs g] c].
  destruct Hc as [(-> & -> & -> & Hn)|(Hs & Hl & -> & -> & Hd & Hn)]; [left|right]; split_and!; auto.
  - intros picked Hp Hne Hm. apply Hn; [done|]. pose proof (sublist_length _ _ Hp).
    destruct picked; [done|]. cbn [length] in *. lia.
  - destruct vs; [cbn in Hl; lia|done].
  - lia.
  - intros picked Hp Hne Hlt. apply Hn; [done|]. destruct picked; [done|]. cbn [length] in *. lia.
Qed.

(** ** The order of preference *)

Lemma ltb_leb a b : String.ltb a b = negb (String.leb b a).
Proof.
  unfold String.ltb, String.leb. rewrite (String.compare_antisym b a). by destruct (String.compare a b).
Qed.

Lemma leb_trans a b c : String.leb a b = true -> String.leb b c = true -> String.leb a c = true.
Proof.
  intros Hab Hbc. apply Is_true_true. apply Is_true_true in Hab, Hbc.
  exact (transitivity (R := String.le) Hab Hbc).
Qed.

Lemma preferred_asym x y : preemptionTargetPreferred x y = true -> preemptionTargetPreferred y x = false.
Proof.
  unfold preemptionTargetPreferred.
  destruct (Z.eqb_spec (sn_PriorityValue x) (sn_PriorityValue y)), (Z.eqb_spec (sn_PriorityValue y) (sn_PriorityValue x));
    cbn; try lia.
  destruct (Z.eqb_spec (parsePreemptionTime (sn_CreatedAt x)) (parsePreemptionTime (sn_CreatedAt y))),
    (Z.eqb_spec (parsePreemptionTime (sn_CreatedAt y)) (parsePreemptionTime (sn_CreatedAt x))); cbn; try lia.
  rewrite !ltb_leb. destruct (String.leb_total (sn_JobID x) (sn_JobID y)) as [E|E]; rewrite E; cbn; [done|].
  by intros.
Qed.

Lemma preferred_cotrans x y z :
  preemptionTargetPreferred x z = true -> preemptionTargetPreferred x y = true \/ preemptionTargetPreferred y z = true.
Proof.
  unfold preemptionTargetPreferred.
  destruct (Z.eqb_spec (sn_PriorityValue x) (sn_PriorityValue z)) as [Exz|];
  destruct (Z.eqb_spec (sn_PriorityValue x) (sn_PriorityValue y)) as [Exy|];
  destruct (Z.eqb_spec (sn_PriorityValue y) (sn_PriorityValue z)) as [Eyz|]; cbn [negb]; rewrite ?Z.ltb_lt; try lia.
  destruct (Z.eqb_spec (parsePreemptionTime (sn_CreatedAt x)) (parsePreemptionTime (sn_CreatedAt z)));
  destruct (Z.eqb_spec (parsePreemptionTime (sn_CreatedAt x)) (parsePreemptionTime (sn_CreatedAt y)));
  destruct (Z.eqb_spec (parsePreemptionTime (sn_CreatedAt y)) (parsePreemptionTime (sn_CreatedAt z)));
    cbn [negb]; rewrite ?Z.ltb_lt; try lia.
  rewrite !ltb_leb, !negb_true_iff. intros Hxz.
  destruct (String.leb (sn_JobID y) (sn_JobID x)) eqn:Eyx; [|by left]. right.
  destruct (String.leb (sn_JobID z) (sn_JobID y)) eqn:Ezy; [|done].
  by rewrite (leb_trans _ _ _ Ezy Eyx) in Hxz.
Qed.

Lemma eligible_targets_spec s req candidates c :
  c ∈ eligible_targets s req candidates <-> c ∈ candidates /\ candidateEligibleForPreemption s req c = true.
Proof.
  unfold eligible_targets. rewrite (SliceStable_perm preemptionTargetPreferred).
  by rewrite !list_elem_of_In, List.filter_In.
Qed.

(** A job that may be preempted for the request: running, of lower priority, of the
    request's project, device class and GPU model where it names them, in a
    preemptible queue or preemptible itself, not the requester, and holding
    something worth freeing. *)
Record preemptable (s : store) (req : preemptionRequest) (c : workloadJobSnapshot) : Prop := {
  pe_not_requester : sn_JobID c ≠ "" /\ sn_JobID c ≠ pr_RequesterJobID req /\ sn_ID c ≠ pr_RequesterJobID req;
  pe_project : pr_ProjectID req ≠ "" -> sn_ProjectID c = pr_ProjectID req;
  pe_running : preemptibleWorkloadStatus (sn_Status c) = true;
  pe_priority : sn_PriorityValue c < pr_PriorityValue req;
  pe_preemptible : sn_Preemptible c = true \/ schedulerQueuePreemptible s (sn_QueueName c) = true;
  pe_device : pr_DeviceClass req ≠ "" -> EqualFold (pr_DeviceClass req) (sn_DeviceClassName c) = true;
  pe_model : pr_GPUModel req ≠ "" -> EqualFold (pr_GPUModel req) (sn_GPUModel c) = true;
  pe_resources : f64_gt (sn_RequiredGPU c) f64_0 = true \/ f64_gt (sn_RequiredCPU c) f64_0 = true
}.

Lemma eligible_preemptable s req c : candidateEligibleForPreemption s req c = true -> preemptable s req c.
Proof.
  unfold candidateEligibleForPreemption, str_empty. intros E.
  destruct (_ || String.eqb (sn_ID c) _) eqn:E1; [done|].
  destruct (_ && negb (String.eqb (sn_ProjectID c) _)) eqn:E2; [done|].
  destruct (_ || (pr_PriorityValue req <=? _)) eqn:E3; [done|].
  destruct (_ && negb (schedulerQueuePreemptible _ _)) eqn:E4; [done|].
  destruct (_ && negb (EqualFold _ (sn_DeviceClassName c))) eqn:E5; [done|].
  destruct (_ && negb (EqualFold _ (sn_GPUModel c))) eqn:E6; [done|].
  destruct (_ && f64_le (sn_RequiredCPU c) f64_0) eqn:E7; [done|].
  assert (forall name (t : bool), negb (String.eqb name "") && negb t = false -> name ≠ "" -> t = true) as Hopt.
  { intros name t Ht Hne. apply andb_false_iff in Ht as [Ht%negb_false_iff%String.eqb_eq|Ht%negb_false_iff]; done. }
  to_prop. constructor; try done.
  - intros Hne. by apply String.eqb_eq, (Hopt _ _ E2).
  - apply andb_false_iff in E4 as [?%negb_false_iff|?%negb_false_iff]; auto.
  - by apply Hopt.
  - by apply Hopt.
  - by apply orb_true_iff in E.
Qed.

(** The victims chosen are sound: every one of them may be preempted for the
    request and none is named twice over (they are taken in order from the eligible
    jobs), there are at most the allowed number, what they free is what is
    reported, and it satisfies the demand. *)
Theorem preemption_victims_sound s req candidates vs g c :
  selectPreemptionVictims s req candidates = (vs, g, c) -> vs ≠ [] ->
  Forall (fun v => v ∈ candidates /\ preemptable s req v) vs /\
  vs `sublist_of` eligible_targets s req candidates /\
  Z.of_nat (length vs) <= pr_MaxPreemptions req /\
  g = freed_gpu vs f64_0 /\ c = freed_cpu vs f64_0 /\ preemptionDemandSatisfied req g c = true.
Proof.
  unfold selectPreemptionVictims. intros E Hne.
  pose proof (selectMinimal_cases req (eligible_targets s req candidates)) as Hc. rewrite E in Hc.
  destruct Hc as [(-> & _)|(Hs & _ & Hl & Hg & Hcp & Hd & _)]; [done|]. split_and!; try done.
  apply Forall_forall. intros v Hv. apply (elem_of_sublist _ _ _ Hv) in Hs.
  apply eligible_targets_spec in Hs as [Hin He]. split; [done|]. by apply eligible_preemptable.
Qed.

(** C35: The search is exact: if any selection of eligible jobs within the allowed
    number satisfies the demand, victims are chosen, and no smaller selection would
    have been enough; if none is chosen, no selection would do. *)
Theorem preemption_victims_minimal s req candidates picked :
  picked `sublist_of` eligible_targets s req candidates -> picked ≠ [] ->
  Z.of_nat (length picked) <= pr_MaxPreemptions req ->
  preemptionDemandSatisfied req (freed_gpu picked f64_0) (freed_cpu picked f64_0) = true ->
  let vs := (selectPreemptionVictims s req candidates).1.1 in
  vs ≠ [] /\ (length vs <= length picked)%nat.
Proof.
  intros Hp Hne Hl Hd. unfold selectPreemptionVictims.
  pose proof (selectMinimal_cases req (eligible_targets s req candidates)) as Hc.
  destruct (selectMinimalPreemptionVictims _ _) as [[vs g] c]. cbn.
  destruct Hc as [(_ & _ & _ & Hn)|(_ & Hv & _ & _ & _ & _ & Hn)]; [by rewrite Hn in Hd|]. split; [done|].
  destruct (decide (length picked < length vs)%nat) as [Hlt|]; [by rewrite Hn in Hd|lia].
Qed.

(** Victims are considered in a fixed order of preference, lowest priority first,
    then the most recently created, then by job id: the eligible jobs are a
    rearrangement of the candidates that pass, sorted, and jobs the order does not
    separate keep the order in which they were reported. *)
Theorem preemption_order_sorted s req candidates :
  eligible_targets s req candidates ≡ₚ List.filter (candidateEligibleForPreemption s req) candidates /\
  StronglySorted (fun x y => preemptionTargetPreferred y x = false) (eligible_targets s req candidates) /\
  forall key, List.filter (fun x => negb (preemptionTargetPreferred x key) && negb (preemptionTargetPreferred key x))
      (eligible_targets s req candidates) =
    List.filter (fun x => negb (preemptionTargetPreferred x key) && negb (preemptionTargetPreferred key x))
      (List.filter (candidateEligibleForPreemption s req) candidates).
Proof.
  split; [apply SliceStable_perm|]. split.
  - apply (SliceStable_sorted preemptionTargetPreferred); [exact preferred_asym|exact preferred_cotrans].
  - intros key. apply SliceStable_stable. intros x y Hx Hy. to_prop.
    destruct (preemptionTargetPreferred x y) eqn:E; [|done].
    destruct (preferred_cotrans _ key _ E); congruence.
Qed.

(** Callers are bounded: a decoded request allows between one and five victims,
    carries an idempotency key, and demands explicit priority or resources only for
    an authorized principal. *)
Theorem preemption_request_bounded serviceAuthorized requireAuth r payload req :
  decodePreemptionRequest serviceAuthorized requireAuth r payload = Ok req ->
  1 <= pr_MaxPreemptions req <= defaultMaxPreemptions /\ pr_IdempotencyKey req ≠ "" /\
  (0 < pr_PriorityValue req \/ f64_gt (pr_RequiredGPU req) f64_0 = true \/ f64_gt (pr_RequiredCPU req) f64_0 = true ->
   authorizedPreemptionOverride serviceAuthorized requireAuth r = true).
Proof.
  unfold decodePreemptionRequest. cbn zeta. destruct (str_empty (if str_empty _ && _ then _ else _)) eqn:Ek; [done|].
  destruct (explicitPreemptionOverride payload && negb _) eqn:Eo; [done|]. intros [= <-]. cbn [pr_MaxPreemptions pr_IdempotencyKey pr_PriorityValue pr_RequiredGPU pr_RequiredCPU].
  split_and!.
  - unfold clampMaxPreemptions, defaultMaxPreemptions. destruct (_ || _) eqn:E; [lia|]. to_prop. lia.
  - unfold clampMaxPreemptions, defaultMaxPreemptions. destruct (_ || _) eqn:E; [lia|]. to_prop. lia.
  - by apply String.eqb_neq in Ek.
  - intros Hd. apply andb_false_iff in Eo as [Eo|?%negb_false_iff]; [|done]. unfold explicitPreemptionOverride in Eo.
    apply orb_false_iff in Eo as [[E1 E2]%orb_false_iff E3]. rewrite <- Z.ltb_lt in Hd.
    destruct Hd as [Hd|[Hd|Hd]]; congruence.
Qed.

(** Priority and demand are trusted, not claimed: when the requester is a known
    job they are that job's own, whatever the caller sent, and its project and queue
    are those of the job where it has them; when it is not, only an authorized
    override is accepted; and either way a positive priority and some demand
    remain. *)
Theorem preemption_request_trusted serviceAuthorized requireAuth r req ctx req' :
  trustedPreemptionRequest serviceAuthorized requireAuth r req ctx = Ok req' ->
  0 < pr_PriorityValue req' /\
  (f64_le (pr_RequiredGPU req') f64_0 = false \/ f64_le (pr_RequiredCPU req') f64_0 = false) /\
  match pc_Requester ctx with
  | Some q => pr_PriorityValue req' = sn_PriorityValue q /\ pr_RequiredGPU req' = sn_RequiredGPU q /\
              pr_RequiredCPU req' = sn_RequiredCPU q /\
              (sn_ProjectID q ≠ "" -> pr_ProjectID req' = sn_ProjectID q) /\
              (sn_QueueName q ≠ "" -> pr_QueueName req' = sn_QueueName q)
  | None => req' = req /\ authorizedPreemptionOverride serviceAuthorized requireAuth r = true
  end.
Proof.
  assert (forall q, demand_missing q = false -> 0 < pr_PriorityValue q /\
    (f64_le (pr_RequiredGPU q) f64_0 = false \/ f64_le (pr_RequiredCPU q) f64_0 = false)) as Hm.
  { intros q Hq. unfold demand_missing in Hq. to_prop. by rewrite andb_false_iff in *. }
  unfold trustedPreemptionRequest. destruct (pc_Requester ctx) as [q|].
  - destruct (demand_missing _) eqn:Ed; [done|]. intros [= <-]. apply Hm in Ed as [H1 H2].
    split; [done|]. split; [done|]. cbn [set_trusted pr_PriorityValue pr_RequiredGPU pr_RequiredCPU pr_ProjectID pr_QueueName].
    assert (forall a b, a ≠ "" -> FirstNonEmpty [a; b] = a) as Hfirst.
    { intros a b Hne. cbn. unfold str_empty. by destruct (String.eqb_spec a ""). }
    split_and!; try done; apply Hfirst.
  - destruct (pr_Override req && _) eqn:Ea; [|done]. destruct (demand_missing req) eqn:Ed; [done|].
    intros [= <-]. apply Hm in Ed as [H1 H2]. to_prop. done.
Qed.

(** A GPU demand that is met masks the CPU demand: once the freed GPUs suffice the
    victims count as sufficient, however little CPU they free. *)
Theorem gpu_demand_masks_cpu req freedGPU freedCPU :
  f64_gt (pr_RequiredGPU req) f64_0 = true -> f64_ge freedGPU (pr_RequiredGPU req) = true ->
  preemptionDemandSatisfied req freedGPU freedCPU = true.
Proof.
  intros Hg Hf. unfold preemptionDemandSatisfied. rewrite Hg, Hf, orb_true_r. done.
Qed.

End Selection.

(** ** A selection *)

Definition job_of (id : string) (priority : Z) (gpu : Z) : workloadJobSnapshot :=
  Snapshot id id "p1" "u1" "" "ns" "running" priority true (f64_of_int gpu) f64_0 0 "" "" "" "".
Definition high_request : preemptionRequest :=
  PreemptionRequest "key" "job9" "p1" "" "" "" 10 (f64_of_int 3) f64_0 5 false "".
Definition low_jobs : list workloadJobSnapshot := [job_of "a" 5 1; job_of "b" 1 1; job_of "c" 20 4; job_of "d" 2 2].
Definition low_victims : selection := @selectPreemptionVictims escape_lib NewStore high_request low_jobs.

Lemma preemption_victims_sound_witness :
  map sn_JobID low_victims.1.1 = ["b"; "d"] /\
  Forall (fun v => v ∈ low_jobs /\ preemptable NewStore high_request v) low_victims.1.1.
Proof.
  split; [vm_compute; reflexivity|].
  apply (@preemption_victims_sound escape_lib NewStore high_request low_jobs low_victims.1.1 low_victims.1.2 low_victims.2);
    [vm_compute; reflexivity|vm_compute; discriminate].
Defined.

Lemma preemption_victims_minimal_witness :
  (length (@selectPreemptionVictims escape_lib NewStore high_request low_jobs).1.1 <= 2)%nat.
Proof.
  apply (@preemption_victims_minimal escape_lib NewStore high_request low_jobs [job_of "d" 2 2; job_of "a" 5 1]);
    [|discriminate|vm_compute; discriminate|vm_compute; reflexivity].
  vm_compute. apply sublist_cons, sublist_skip, sublist_skip, sublist_nil.
Defined.

Definition plain_svc_request : svc_request :=
  SvcRequest {[ "Idempotency-Key" := "k1" ]} (Ok ∅) ∅ 0 ["u1"; "u2"] "id".

Lemma preemption_request_bounded_witness :
  exists req, @decodePreemptionRequest escape_lib false false plain_svc_request {[ "max_preemptions" := VInt 9 ]} = Ok req /\
    1 <= pr_MaxPreemptions req <= defaultMaxPreemptions.
Proof.
  eexists. split; [vm_compute; reflexivity|].
  apply (@preemption_request_bounded escape_lib false false plain_svc_request {[ "max_preemptions" := VInt 9 ]}).
  vm_compute. reflexivity.
Defined.

Lemma preemption_request_trusted_witness :
  exists req', trustedPreemptionRequest false false plain_svc_request high_request
      (PreemptionContext (Some (job_of "job9" 7 1)) []) = Ok req' /\ pr_PriorityValue req' = 7.
Proof.
  eexists. split; [vm_compute; reflexivity|].
  apply (preemption_request_trusted false false plain_svc_request high_request
    (PreemptionContext (Some (job_of "job9" 7 1)) [])). vm_compute. reflexivity.
Defined.

Lemma gpu_demand_masks_cpu_witness :
  preemptionDemandSatisfied (PreemptionRequest "key" "job9" "p1" "" "" "" 10 (f64_of_int 1) (f64_of_int 64) 5 false "")
    (f64_of_int 1) f64_0 = true.
Proof. apply gpu_demand_masks_cpu; vm_compute; reflexivity. Defined.
