(* ===== verification/PreemptionHandler.v ===== *)
(** * Preemption: records, execution and the handler
    (preemption.go, scheduler_preemption_priority_repository.go)

    The calls to the workload service and to the cluster are an interface,
    [preemptionEnv]; the handler returns the trace of those it made next to the
    state it leaves. *)

From stdpp Require Import base gmap strings list fin_maps sorting.
From Stdlib Require Import ZArith Lia.
From S2P Require Import Prelude GoValue Store EventBus Crud Tx InputLimits AdmissionTypes SchedulerHttp AdmissionResources AdmissionDecode SchedulerRepository AdmissionProfiles Preemption.
Local Open Scope Z_scope.
Local Open Scope go_scope.

Definition preemptionRecordsResource : string := serviceName +:+ ":preemption_records".
Definition internalPreemptionIdempotencyKeyHash : string := "internal_preemption_idempotency_key_hash".
Definition internalPreemptionFingerprintHash : string := "internal_preemption_fingerprint_hash".
Definition internalPreemptionRecordID : string := "internal_preemption_record_id".

Record CleanupResult := Cleanup {
  cl_Pods : Z; cl_Deployments : Z; cl_StatefulSets : Z; cl_Services : Z; cl_Jobs : Z; cl_VCJobs : Z;
  cl_PodGroups : Z; cl_ConfigMaps : Z; cl_Secrets : Z; cl_Ingresses : Z
}.

Definition cleanup_Total (c : CleanupResult) : Z :=
  i64 (cl_Pods c + cl_Deployments c + cl_StatefulSets c + cl_Services c + cl_Jobs c + cl_VCJobs c + cl_PodGroups c
       + cl_ConfigMaps c + cl_Secrets c + cl_Ingresses c).

Record workloadPreemptRequest := PreemptRequest {
  wp_PreemptionID : string; wp_RequesterJobID : string; wp_Reason : string; wp_Cleanup : object
}.

(** The outside of the handler: the workload client ([env_client] is the outcome of
    building it; [env_Context] of its first and second use), the cluster, and the
    authorization facts of the request. *)
Class preemptionEnv := {
  env_client : result string unit;
  env_Context : nat -> preemptionRequest -> result string workloadPreemptionContext;
  env_ClusterConfigured : bool;
  env_CleanupJobResources : string -> string -> CleanupResult * option string;
  env_Preempt : string -> workloadPreemptRequest -> option string;
  env_ServiceAuthorized : bool;
  env_RequireAuth : bool
}.

Inductive external := ExtCleanup (namespace jobID : string) | ExtPreempt (id : string).

Definition preemptionListOfMaps (value : any) : list object :=
  match value with
  | VMaps typed => typed
  | VList typed => omap as_map typed
  | _ => []
  end.

Definition publicPreemptionRecordData (data : object) : object :=
  let publicID := TextValue data ["preemption_id"; "preemptionId"] in
  let privateID := TextValue data ["id"] in
  let out := if negb (str_empty publicID) && negb (String.eqb publicID privateID)
             then <["id" := VString publicID]> data
             else delete "preemption_id" (delete "id" data) in
  delete internalPreemptionRecordID (delete internalPreemptionFingerprintHash
    (delete internalPreemptionIdempotencyKeyHash (delete "fingerprint" (delete "idempotencyKey" (delete "idempotency_key" out))))).

Section Records.
Context `{GoLib}.

(** The first eight bytes of the digest, in hex. *)
Definition preemptionRecordID (key : string) : string := "PRE-" +:+ String.substring 0 16 (sha256_hex key).
Definition preemptionHash (value : string) : string := sha256_hex value.

Definition initialPreemptionRecord (id publicID : string) (now : Z) (req : preemptionRequest) : object :=
  list_to_map
    [("id", VString id); (internalPreemptionRecordID, VString id); ("preemption_id", VString publicID);
     ("status", VString "in_progress"); ("accepted", VBool false);
     (internalPreemptionIdempotencyKeyHash, VString (preemptionHash (pr_IdempotencyKey req)));
     (internalPreemptionFingerprintHash, VString (pr_Fingerprint req));
     ("requester_job_id", VString (pr_RequesterJobID req)); ("project_id", VString (pr_ProjectID req));
     ("queue_name", VString (pr_QueueName req)); ("required_gpu", VFloat64 (pr_RequiredGPU req));
     ("required_cpu", VFloat64 (pr_RequiredCPU req)); ("max_preemptions", VInt (pr_MaxPreemptions req));
     ("started_at", VString (format_rfc3339 now))].

Definition FindPreemptionRecord (s : store) (id : string) : option record := Get s preemptionRecordsResource id.

Definition FinishPreemptionRecord (s : store) (id status : string) (updates : object) (now : Z) : store * object :=
  let update := <["completed_at" := VString (format_rfc3339 now)]> (<["status" := VString status]> updates) in
  match Update s preemptionRecordsResource id update now with
  | (s', None) => (s', update)
  | (s', Some r) => (s', rec_Data r)
  end.

Definition victims_update (data victim : object) : object :=
  {[ "victims" := VMaps (preemptionListOfMaps (mget data "victims") ++ [victim]) ]}.

Definition AppendPreemptionVictim (s : store) (id : string) (victim : object) (now : Z) : store :=
  match FindPreemptionRecord s id with
  | None => s
  | Some record => (Update s preemptionRecordsResource id (victims_update (rec_Data record) victim) now).1
  end.

Definition AppendPreemptionVictimTx {E} (id : string) (victim : object) (now : Z) : tx_fn E unit :=
  t <-- stm_get ;;
  match FindPreemptionRecord (tx_store t) id with
  | None => stm_ret tt
  | Some record => tx_Update preemptionRecordsResource id (victims_update (rec_Data record) victim) now ;;; stm_ret tt
  end.

Definition PreemptionRecordVictims (s : store) (id : string) : list object :=
  match FindPreemptionRecord s id with
  | None => []
  | Some record => preemptionListOfMaps (mget (rec_Data record) "victims")
  end.

(** finishPreemptionRecord on the application. *)
Definition finishPreemptionRecord (a : app) (id status : string) (updates : object) (now : Z) : app * object :=
  let '(s, data) := FinishPreemptionRecord (app_Store a) id status updates now in
  (App_ s (app_Events a), publicPreemptionRecordData data).

Definition replayPreemptionRecord (data : object) (req : preemptionRequest) : response :=
  let fingerprintHash := FirstNonEmpty [TextValue data [internalPreemptionFingerprintHash]; TextValue data ["fingerprint"]] in
  if negb (String.eqb fingerprintHash (pr_Fingerprint req))
  then (StatusConflict, ErrorData "idempotency key is already used by a different preemption request")
  else if String.eqb (TextValue data ["status"]) "in_progress"
  then (StatusConflict, ErrorData "preemption request is already in progress")
  else (StatusOK, BMap (publicPreemptionRecordData data)).

Definition cleanupResultData (c : CleanupResult) : object :=
  list_to_map
    [("pods", VInt (cl_Pods c)); ("deployments", VInt (cl_Deployments c)); ("statefulsets", VInt (cl_StatefulSets c));
     ("services", VInt (cl_Services c)); ("jobs", VInt (cl_Jobs c)); ("vcjobs", VInt (cl_VCJobs c));
     ("podgroups", VInt (cl_PodGroups c)); ("configmaps", VInt (cl_ConfigMaps c)); ("secrets", VInt (cl_Secrets c));
     ("ingresses", VInt (cl_Ingresses c)); ("total", VInt (cleanup_Total c))].

Definition victimResultData (v : workloadJobSnapshot) (cleanup : object) (err : option string) : object :=
  let data : object := list_to_map
    [("job_id", VString (sn_JobID v)); ("record_id", VString (sn_ID v)); ("project_id", VString (sn_ProjectID v));
     ("queue_name", VString (sn_QueueName v)); ("namespace", VString (sn_Namespace v));
     ("priority_value", VInt (sn_PriorityValue v)); ("required_gpu", VFloat64 (sn_RequiredGPU v));
     ("required_cpu", VFloat64 (sn_RequiredCPU v)); ("cleanup", VMap cleanup)] in
  match err with Some e => <["cleanup_error" := VString e]> data | None => data end.

Context `{preemptionEnv}.

(** ** Preflight *)

Definition current_jobs (candidates : list workloadJobSnapshot) : gmap string workloadJobSnapshot :=
  fold_left (fun m c => <[sn_ID c := c]> (<[sn_JobID c := c]> m)) candidates ∅.

Fixpoint check_victims (s : store) (req : preemptionRequest) (current : gmap string workloadJobSnapshot)
    (victims : list workloadJobSnapshot) : result preemptionHTTPError unit :=
  match victims with
  | [] => Ok tt
  | v :: rest =>
      match current !! sn_JobID v with
      | None => Err (HTTPError StatusConflict "selected victim is no longer available")
      | Some latest =>
          if str_empty (sn_Namespace latest) || str_empty (sn_JobID latest)
          then Err (HTTPError StatusConflict "selected victim namespace and job id are required")
          else if negb (candidateEligibleForPreemption s req latest)
          then Err (HTTPError StatusConflict "selected victim is no longer eligible")
          else check_victims s req current rest
      end
  end.

Definition preflightPreemptionVictims (s : store) (req : preemptionRequest) (victims : list workloadJobSnapshot)
    : result preemptionHTTPError unit :=
  match env_Context 1 req with
  | Err e => Err (HTTPError StatusServiceUnavailable e)
  | Ok ctx => check_victims s req (current_jobs (pc_Candidates ctx)) victims
  end.

(** ** Execution *)

Record preemptionExecution := Execution {
  ex_request : svc_request;
  ex_recordID : string;
  ex_publicPreemptionID : string;
  ex_req : preemptionRequest;
  ex_freedGPU : float64;
  ex_freedCPU : float64
}.

Definition execution_reason (ex : preemptionExecution) : string :=
  sprintf "preempted for requester %s priority %d"
    [VString (pr_RequesterJobID (ex_req ex)); VInt (pr_PriorityValue (ex_req ex))].

(** The state a run leaves: the application and the external calls made. *)
Definition run_state : Type := app * list external.

(** A failed victim: its result is appended, the record closed with [status]. *)
Definition fail_victim (ex : preemptionExecution) (append : bool) (status : string) (code : Z) (reason : string)
    (victimData : object) (a : app) : app * (Z * object) :=
  let now := sr_now (ex_request ex) in
  let s := if append then AppendPreemptionVictim (app_Store a) (ex_recordID ex) victimData now else app_Store a in
  let a1 := App_ s (app_Events a) in
  let '(a2, data) := finishPreemptionRecord a1 (ex_recordID ex) status
    {[ "reason" := VString reason; "victims" := VMaps (PreemptionRecordVictims s (ex_recordID ex)) ]} now in
  (a2, (code, data)).

Definition preempted_event (ex : preemptionExecution) (n : nat) (v : workloadJobSnapshot) (cleanupData : object) : event :=
  let e := schedulerEvent (ex_request ex) n "JobPreempted" "preempted" (list_to_map
    [("preemption_id", VString (ex_publicPreemptionID ex)); ("requester_job_id", VString (pr_RequesterJobID (ex_req ex)));
     ("victim_job_id", VString (sn_JobID v)); ("project_id", VString (sn_ProjectID v));
     ("namespace", VString (sn_Namespace v)); ("reason", VString (execution_reason ex)); ("cleanup", VMap cleanupData)]) in
  Event_ (ev_EventID e) (ev_Name e) (ev_Source e) (ev_OccurredAt e) (ev_TraceID e) (ev_SchemaVersion e) "" (ev_Data e).

(** The loop over the victims; [n] numbers the identifiers drawn, [completed] holds
    the results so far. *)
Fixpoint execute_victims (ex : preemptionExecution) (victims : list workloadJobSnapshot) (n : nat)
    (completed : list object) (a : app) (trace : list external) : run_state * (Z * object) :=
  let now := sr_now (ex_request ex) in
  match victims with
  | [] =>
      let '(a', data) := finishPreemptionRecord a (ex_recordID ex) "completed" (list_to_map
        [("accepted", VBool true); ("reason", VString (execution_reason ex)); ("victims", VMaps completed);
         ("freed_gpu", VFloat64 (ex_freedGPU ex)); ("freed_cpu", VFloat64 (ex_freedCPU ex))]) now in
      ((a', trace), (StatusOK, data))
  | v :: rest =>
      let '(cleanup, err) := env_CleanupJobResources (sn_Namespace v) (sn_JobID v) in
      let trace1 := trace ++ [ExtCleanup (sn_Namespace v) (sn_JobID v)] in
      let cleanupData := cleanupResultData cleanup in
      let victimData := victimResultData v cleanupData err in
      match err with
      | Some e => let '(a', out) := fail_victim ex true "partial_failure" StatusServiceUnavailable e victimData a in
                  ((a', trace1), out)
      | None =>
          if cleanup_Total cleanup =? 0 then
            let '(a', out) := fail_victim ex true "preflight_failed" StatusConflict
              "selected victim has no Kubernetes resources to clean up" victimData a in ((a', trace1), out)
          else
            let trace2 := trace1 ++ [ExtPreempt (sn_ID v)] in
            match env_Preempt (sn_ID v) (PreemptRequest (ex_publicPreemptionID ex) (pr_RequesterJobID (ex_req ex))
                                           (execution_reason ex) cleanupData) with
            | Some e => let '(a', out) := fail_victim ex true "failed" StatusBadGateway e victimData a in ((a', trace2), out)
            | None =>
                let '(a1, res) := WithTx a (AppendPreemptionVictimTx (E := string) (ex_recordID ex) victimData now ;;;
                                            tx_Emit (preempted_event ex n v cleanupData)) in
                match res with
                | Err _ => let '(a', out) := fail_victim ex false "failed" StatusInternalServerError
                             "event metadata is incomplete" victimData a1 in ((a', trace2), out)
                | Ok _ => execute_victims ex rest (S n) (completed ++ [victimData]) a1 trace2
                end
            end
      end
  end.

(** ** The handler *)

Definition close_record (r : svc_request) (id status : string) (code : Z) (reason : string) (a : app) : run_state * response :=
  let '(a', data) := finishPreemptionRecord a id status {[ "reason" := VString reason ]} (sr_now r) in
  ((a', []), (code, BMap data)).

Definition runPreemption (r : svc_request) (req0 : preemptionRequest) (rec : record) (a : app) : run_state * response :=
  let id := rec_ID rec in
  match env_client with
  | Err e => close_record r id "preflight_failed" StatusServiceUnavailable e a
  | Ok _ =>
      match env_Context 0 req0 with
      | Err e => close_record r id "preflight_failed" StatusServiceUnavailable e a
      | Ok ctx =>
          match trustedPreemptionRequest env_ServiceAuthorized env_RequireAuth r req0 ctx with
          | Err e => close_record r id "preflight_failed" (he_status e) (he_message e) a
          | Ok req =>
              if match pc_Requester ctx with Some q => sn_Preemptible q | None => false end
              then close_record r id "no_victims" StatusOK "preemptible requester cannot preempt" a
              else
                let '(victims, freedGPU, freedCPU) := selectPreemptionVictims (app_Store a) req (pc_Candidates ctx) in
                if (length victims =? 0)%nat
                then close_record r id "no_victims" StatusOK "insufficient eligible preemptible resources" a
                else if negb env_ClusterConfigured
                then close_record r id "preflight_failed" StatusServiceUnavailable "cluster client is not configured" a
                else match preflightPreemptionVictims (app_Store a) req victims with
                     | Err e => close_record r id "preflight_failed" (he_status e) (he_message e) a
                     | Ok _ =>
                         let '(st, (code, data)) := execute_victims
                           (Execution r id (TextValue (rec_Data rec) ["preemption_id"; "preemptionId"]) req freedGPU freedCPU)
                           victims 1 [] a [] in
                         (st, (code, BMap data))
                     end
          end
      end
  end.

Definition handlePreemption (a : app) (r : svc_request) : run_state * response :=
  match decodePayload r with
  | Err _ => ((a, []), (StatusBadRequest, ErrorData msgInvalidBody))
  | Ok payload =>
      match decodePreemptionRequest env_ServiceAuthorized env_RequireAuth r payload with
      | Err e => ((a, []), (he_status e, ErrorData (he_message e)))
      | Ok req =>
          let recordID := preemptionRecordID (pr_IdempotencyKey req) in
          match FindPreemptionRecord (app_Store a) recordID with
          | Some record => ((a, []), replayPreemptionRecord (rec_Data record) req)
          | None =>
              match Create (app_Store a) preemptionRecordsResource
                      (initialPreemptionRecord recordID (uuid r 0) (sr_now r) req) (sr_newid r) (sr_now r) with
              | (s, Err _) =>
                  ((App_ s (app_Events a), []),
                   replayPreemptionRecord (default ∅ (rec_Data <$> FindPreemptionRecord s recordID)) req)
              | (s, Ok record) => runPreemption r req record (App_ s (app_Events a))
              end
          end
      end
  end.

(** ** Records *)

(** The record [id] is there and carries the fingerprint [fp]. *)
Definition has_record (fp : string) (id : string) (s : store) : Prop :=
  exists rc, FindPreemptionRecord s id = Some rc /\ rec_Data rc !! internalPreemptionFingerprintHash = Some (VString fp).
(** It is closed with [status]; with one of the final statuses. *)
Definition closed_as (fp : string) (id status : string) (s : store) : Prop :=
  exists rc, FindPreemptionRecord s id = Some rc /\ rec_Data rc !! internalPreemptionFingerprintHash = Some (VString fp) /\
    rec_Data rc !! "status" = Some (VString status).
Definition final_statuses : list string := ["preflight_failed"; "no_victims"; "partial_failure"; "failed"; "completed"].
Definition closed_record (fp : string) (id : string) (s : store) : Prop :=
  exists status, closed_as fp id status s /\ status ∈ final_statuses.

Lemma Update_record s id rc update now :
  FindPreemptionRecord s id = Some rc ->
  exists rc', (Update s preemptionRecordsResource id update now).2 = Some rc' /\
    FindPreemptionRecord (Update s preemptionRecordsResource id update now).1 id = Some rc' /\
    rec_Data rc' = update ∪ rec_Data rc.
Proof.
  unfold FindPreemptionRecord, Update. fold (Get s preemptionRecordsResource id). intros ->. cbn [fst snd].
  eexists. split; [done|]. split; [|done]. rewrite Get_set_insert. by rewrite decide_True.
Qed.

Lemma finish_closes fp a id status updates now :
  has_record fp id (app_Store a) -> updates !! internalPreemptionFingerprintHash = None ->
  closed_as fp id status (app_Store (finishPreemptionRecord a id status updates now).1).
Proof.
  intros (rc & Hf & Hfp) Hu. unfold finishPreemptionRecord, FinishPreemptionRecord. cbn zeta.
  set (update := <["completed_at" := _]> _).
  destruct (Update_record _ _ _ update now Hf) as (rc' & E1 & E2 & E3).
  destruct (Update (app_Store a) preemptionRecordsResource id update now) as [s' o]. cbn [fst snd] in E1, E2. subst o.
  exists rc'. cbn [app_Store fst]. rewrite E3. split_and!; [done| |].
  - rewrite lookup_union_r; [done|]. unfold update. by rewrite !lookup_insert_ne.
  - erewrite lookup_union_Some_l; [done|]. unfold update. rewrite lookup_insert_ne by done. apply lookup_insert_eq.
Qed.

Lemma append_keeps fp id s victim now : has_record fp id s -> has_record fp id (AppendPreemptionVictim s id victim now).
Proof.
  intros (rc & Hf & Hfp). unfold AppendPreemptionVictim. rewrite Hf.
  destruct (Update_record _ _ _ (victims_update (rec_Data rc) victim) now Hf) as (rc' & _ & E2 & E3).
  exists rc'. split; [done|]. rewrite E3, lookup_union_r; [done|]. unfold victims_update. by rewrite lookup_singleton_ne.
Qed.

(** The transaction of one victim leaves the store [AppendPreemptionVictim] leaves. *)
Lemma victim_tx_store a id victim now e :
  app_Store (WithTx a (AppendPreemptionVictimTx (E := string) id victim now ;;; tx_Emit e)).1 =
  AppendPreemptionVictim (app_Store a) id victim now.
Proof.
  rewrite WithTx_store. unfold AppendPreemptionVictimTx, AppendPreemptionVictim, stm_bind, stm_get, tx_Update, tx_Emit, stm_ret.
  cbn [tx_store]. destruct (FindPreemptionRecord (app_Store a) id); cbn; [|done].
  by destruct (Update _ _ _ _ _) as [s' o].
Qed.

Lemma fail_victim_closes fp ex append status code reason victim a :
  has_record fp (ex_recordID ex) (app_Store a) ->
  closed_as fp (ex_recordID ex) status (app_Store (fail_victim ex append status code reason victim a).1) /\
  (fail_victim ex append status code reason victim a).2.1 = code.
Proof.
  intros Hr. unfold fail_victim. cbn zeta.
  set (s := if append then _ else _). assert (has_record fp (ex_recordID ex) s) as Hs'
    by (unfold s; destruct append; [by apply append_keeps|done]).
  pose proof (finish_closes fp (App_ s (app_Events a)) (ex_recordID ex) status
    {[ "reason" := VString reason; "victims" := VMaps (PreemptionRecordVictims s (ex_recordID ex)) ]} (sr_now (ex_request ex)) Hs') as Hc.
  destruct (finishPreemptionRecord _ _ _ _ _) as [a2 data]. split; [|done]. apply Hc. by rewrite !lookup_insert_ne.
Qed.

(** ** Execution *)

Definition clean_victim (v : workloadJobSnapshot) : CleanupResult * option string := env_CleanupJobResources (sn_Namespace v) (sn_JobID v).

(** What the workload service is asked for a victim: with the public id of the preemption, for
    the requester, giving its priority as the reason, and with what was cleaned up. *)
Definition preempt (public : string) (req : preemptionRequest) (v : workloadJobSnapshot) : option string :=
  env_Preempt (sn_ID v) (PreemptRequest public (pr_RequesterJobID req)
    (sprintf "preempted for requester %s priority %d" [VString (pr_RequesterJobID req); VInt (pr_PriorityValue req)])
    (cleanupResultData (clean_victim v).1)).

(** The course of an execution over the victims that are left, the first of them drawing
    the [n]th identifier: the external calls made, the answer and the status of the record.
    The victims are taken in order, each cleaned up and then preempted; the first failure ends
    it, and nothing more is called. *)
Inductive executed (r : svc_request) (public : string) (req : preemptionRequest) :
    nat -> list workloadJobSnapshot -> list external -> Z -> string -> Prop :=
| executed_all n : executed r public req n [] [] StatusOK "completed"
| executed_cleanup_fails n v vs e :
    (clean_victim v).2 = Some e -> executed r public req n (v :: vs) [ExtCleanup (sn_Namespace v) (sn_JobID v)] StatusServiceUnavailable "partial_failure"
| executed_nothing_there n v vs :
    (clean_victim v).2 = None -> cleanup_Total (clean_victim v).1 = 0 ->
    executed r public req n (v :: vs) [ExtCleanup (sn_Namespace v) (sn_JobID v)] StatusConflict "preflight_failed"
| executed_preempt_fails n v vs e :
    (clean_victim v).2 = None -> cleanup_Total (clean_victim v).1 ≠ 0 -> preempt public req v = Some e ->
    executed r public req n (v :: vs) [ExtCleanup (sn_Namespace v) (sn_JobID v); ExtPreempt (sn_ID v)] StatusBadGateway "failed"
| executed_event_fails n v vs :
    (clean_victim v).2 = None -> cleanup_Total (clean_victim v).1 ≠ 0 -> preempt public req v = None -> uuid r n = "" ->
    executed r public req n (v :: vs) [ExtCleanup (sn_Namespace v) (sn_JobID v); ExtPreempt (sn_ID v)] StatusInternalServerError "failed"
| executed_victim n v vs made code status :
    (clean_victim v).2 = None -> cleanup_Total (clean_victim v).1 ≠ 0 -> preempt public req v = None -> executed r public req (S n) vs made code status ->
    executed r public req n (v :: vs) (ExtCleanup (sn_Namespace v) (sn_JobID v) :: ExtPreempt (sn_ID v) :: made) code status.

(** What a run over the victims [vs] does. *)
Definition run_ok (fp : string) (ex : preemptionExecution) (n : nat) (vs : list workloadJobSnapshot) (trace : list external)
    (out : run_state * (Z * object)) : Prop :=
  exists made status, out.1.2 = trace ++ made /\ closed_as fp (ex_recordID ex) status (app_Store out.1.1) /\ status ∈ final_statuses /\
    executed (ex_request ex) (ex_publicPreemptionID ex) (ex_req ex) n vs made out.2.1 status.

Lemma fail_run_ok fp ex append status code reason victim a n vs trace made :
  has_record fp (ex_recordID ex) (app_Store a) -> status ∈ final_statuses ->
  executed (ex_request ex) (ex_publicPreemptionID ex) (ex_req ex) n vs made code status ->
  run_ok fp ex n vs trace (let '(a', out) := fail_victim ex append status code reason victim a in ((a', trace ++ made), out)).
Proof.
  intros Hr Hs He. pose proof (fail_victim_closes fp ex append status code reason victim a Hr) as [Hcl Hcode].
  destruct (fail_victim ex append status code reason victim a) as [a' [code' data]]. cbn in Hcode. subst code'. exists made, status. by split_and!.
Qed.

(** The event of a victim is refused only for want of an identifier. *)
Lemma victim_tx_refused ex n v cleanup victim a a1 e :
  WithTx a (AppendPreemptionVictimTx (E := string) (ex_recordID ex) victim (sr_now (ex_request ex)) ;;; tx_Emit (preempted_event ex n v cleanup)) = (a1, Err e) ->
  uuid (ex_request ex) n = "".
Proof.
  unfold WithTx. set (fn := (_ ;;; _)). intros Hx. destruct (decide (uuid (ex_request ex) n = "")) as [|Hu]; [done|exfalso].
  assert (exists t, fn (StoreTx (app_Store a) []) = (t, Ok tt) /\ tx_events t = [preempted_event ex n v cleanup]) as (t & Ef & Ee).
  { unfold fn, AppendPreemptionVictimTx, stm_bind, stm_get, tx_Update, tx_Emit, stm_ret. cbn [tx_store].
    destruct (FindPreemptionRecord (app_Store a) _); cbn; [|by eexists]. destruct (Update _ _ _ _ _) as [s' o]. cbn. by eexists. }
  rewrite Ef, Ee in Hx. cbn [publish_all] in Hx.
  destruct (publish_event_ok (App_ (tx_store t) (app_Events a)) (preempted_event ex n v cleanup)) as (b & _ & Ep); [|by rewrite Ep in Hx].
  assert (forall data, event_metadata_ok (schedulerEvent (ex_request ex) n "JobPreempted" "preempted" data) = true) as Hev by (intros data; by apply schedulerEvent_ok).
  apply Hev.
Qed.

Lemma execute_victims_ok fp ex vs : forall n completed a trace,
  has_record fp (ex_recordID ex) (app_Store a) -> run_ok fp ex n vs trace (execute_victims ex vs n completed a trace).
Proof.
  induction vs as [|v vs IH]; intros n completed a trace Hr; cbn [execute_victims].
  - pose proof (finish_closes fp a (ex_recordID ex) "completed" (list_to_map
        [("accepted", VBool true); ("reason", VString (execution_reason ex)); ("victims", VMaps completed);
         ("freed_gpu", VFloat64 (ex_freedGPU ex)); ("freed_cpu", VFloat64 (ex_freedCPU ex))]) (sr_now (ex_request ex)) Hr) as Hc.
    destruct (finishPreemptionRecord _ _ _ _ _) as [a' data]. cbn [fst snd] in *.
    exists [], "completed". cbn. rewrite app_nil_r. split_and!; [done|by apply Hc|set_solver|constructor].
  - fold (clean_victim v). destruct (clean_victim v) as [cleanup err] eqn:Ec.
    assert ((clean_victim v).1 = cleanup /\ (clean_victim v).2 = err) as [E1 E2] by by rewrite Ec. destruct err as [e|].
    { apply fail_run_ok; [done|set_solver|by econstructor]. }
    destruct (Z.eqb_spec (cleanup_Total cleanup) 0) as [E0|E0].
    { apply fail_run_ok; [done|set_solver|constructor; congruence]. }
    rewrite <- app_assoc. rewrite <- E1 in E0.
    assert (env_Preempt (sn_ID v) (PreemptRequest (ex_publicPreemptionID ex) (pr_RequesterJobID (ex_req ex)) (execution_reason ex) (cleanupResultData cleanup)) =
            preempt (ex_publicPreemptionID ex) (ex_req ex) v) as -> by (unfold preempt; by rewrite E1).
    destruct (preempt (ex_publicPreemptionID ex) (ex_req ex) v) as [e|] eqn:Ep.
    { apply fail_run_ok; [done|set_solver|by econstructor]. }
    pose proof (victim_tx_store a (ex_recordID ex) (victimResultData v (cleanupResultData cleanup) None)
      (sr_now (ex_request ex)) (preempted_event ex n v (cleanupResultData cleanup))) as Hst.
    destruct (WithTx a _) as [a1 [[]|e]] eqn:Etx; cbn [fst] in Hst;
      assert (has_record fp (ex_recordID ex) (app_Store a1)) as Hr1 by (rewrite Hst; by apply append_keeps).
    + destruct (IH (S n) (completed ++ [victimResultData v (cleanupResultData cleanup) None]) a1
        (trace ++ [ExtCleanup (sn_Namespace v) (sn_JobID v); ExtPreempt (sn_ID v)]) Hr1) as (made & status & Ht & Hc & Hs & He).
      exists (ExtCleanup (sn_Namespace v) (sn_JobID v) :: ExtPreempt (sn_ID v) :: made), status.
      split_and!; [etransitivity; [exact Ht|by rewrite <- app_assoc]|done|done|by constructor].
    + apply fail_run_ok; [done|set_solver|]. constructor; [done..|]. by eapply victim_tx_refused.
Qed.

(** ** The handler *)

Lemma close_record_closes fp r id status code reason a :
  has_record fp id (app_Store a) ->
  closed_as fp id status (app_Store (close_record r id status code reason a).1.1) /\
  (close_record r id status code reason a).1.2 = [].
Proof.
  intros Hr. unfold close_record.
  pose proof (finish_closes fp a id status {[ "reason" := VString reason ]} (sr_now r) Hr) as Hc.
  destruct (finishPreemptionRecord _ _ _ _ _) as [a' data]. split; [|done]. apply Hc. by rewrite lookup_singleton_ne.
Qed.

(** A victim confirmed by the second look at the workloads: still listed under its
    job id, with a namespace, and still preemptable. *)
Definition confirmed (s : store) (req : preemptionRequest) (v : workloadJobSnapshot) : Prop :=
  exists ctx latest, env_Context 1 req = Ok ctx /\ current_jobs (pc_Candidates ctx) !! sn_JobID v = Some latest /\
    sn_Namespace latest ≠ "" /\ preemptable s req latest.

Lemma check_victims_ok s req current vs :
  check_victims s req current vs = Ok tt ->
  Forall (fun v => exists latest, current !! sn_JobID v = Some latest /\ sn_Namespace latest ≠ "" /\ preemptable s req latest) vs.
Proof.
  induction vs as [|v vs IH]; cbn; [constructor|]. destruct (current !! sn_JobID v) as [latest|] eqn:El; [|done].
  destruct (_ || _) eqn:En; [done|]. destruct (candidateEligibleForPreemption s req latest) eqn:Ee; [|done]. cbn [negb].
  intros Hv. constructor; [|by apply IH]. exists latest. apply orb_false_iff in En as [En%String.eqb_neq _].
  split_and!; [done|done|by apply eligible_preemptable].
Qed.

(** The decision: the victims selected for the trusted request, all of them confirmed. *)
Definition decided (s : store) (r : svc_request) (req0 req : preemptionRequest) (vs : list workloadJobSnapshot) : Prop :=
  vs ≠ [] /\ Forall (confirmed s req) vs /\
  exists ctx, env_Context 0 req0 = Ok ctx /\ trustedPreemptionRequest env_ServiceAuthorized env_RequireAuth r req0 ctx = Ok req /\
    vs = (selectPreemptionVictims s req (pc_Candidates ctx)).1.1.

(** What a run for a fresh record does: it calls nothing and says so in the record, or it
    executes a decision. *)
Lemma runPreemption_ok fp r req0 rec a :
  has_record fp (rec_ID rec) (app_Store a) ->
  let out := runPreemption r req0 rec a in
  exists status, closed_as fp (rec_ID rec) status (app_Store out.1.1) /\ status ∈ final_statuses /\
  (out.1.2 = [] /\ status ∈ ["preflight_failed"; "no_victims"] \/
   exists req vs, decided (app_Store a) r req0 req vs /\
     executed r (TextValue (rec_Data rec) ["preemption_id"; "preemptionId"]) req 1 vs out.1.2 out.2.1 status).
Proof.
  intros Hr. unfold runPreemption. cbn zeta.
  assert (forall status code reason, status ∈ ["preflight_failed"; "no_victims"] -> let out := close_record r (rec_ID rec) status code reason a in
    forall P : string -> Prop, exists status, closed_as fp (rec_ID rec) status (app_Store out.1.1) /\ status ∈ final_statuses /\
      (out.1.2 = [] /\ status ∈ ["preflight_failed"; "no_victims"] \/ P status)) as Hclose.
  { intros status code reason Hs out P. destruct (close_record_closes fp r (rec_ID rec) status code reason a Hr). exists status.
    split_and!; [done|set_solver|by left]. }
  destruct env_client; [|apply Hclose; set_solver].
  destruct (env_Context 0 req0) as [ctx|] eqn:E0; [|apply Hclose; set_solver].
  destruct (trustedPreemptionRequest _ _ r req0 ctx) as [req|] eqn:Et; [|apply Hclose; set_solver].
  destruct (match pc_Requester ctx with Some q => sn_Preemptible q | None => false end); [apply Hclose; set_solver|].
  destruct (selectPreemptionVictims (app_Store a) req (pc_Candidates ctx)) as [[vs g] c] eqn:Es.
  destruct (length vs =? 0)%nat eqn:El; [apply Hclose; set_solver|].
  destruct (negb env_ClusterConfigured); [apply Hclose; set_solver|].
  destruct (preflightPreemptionVictims (app_Store a) req vs) as [[]|] eqn:Ep; [|apply Hclose; set_solver].
  pose proof (execute_victims_ok fp (Execution r (rec_ID rec) (TextValue (rec_Data rec) ["preemption_id"; "preemptionId"]) req g c)
    vs 1 [] a [] Hr) as (made & status & Ht & Hc & Hs & He).
  destruct (execute_victims _ _ _ _ _ _) as [st [code data]]. cbn [fst snd ex_recordID ex_request ex_publicPreemptionID ex_req Datatypes.app] in *.
  exists status. split_and!; [done|done|]. right. exists req, vs. rewrite Ht. split; [|done]. split_and!.
  - by intros ->.
  - unfold preflightPreemptionVictims in Ep. destruct (env_Context 1 req) as [ctx1|] eqn:E1; [|done].
    apply check_victims_ok in Ep. eapply Forall_impl; [exact Ep|]. intros v (latest & ? & ? & ?). exists ctx1, latest. done.
  - exists ctx. by rewrite Es.
Qed.

Lemma initial_has_record s r req s' rec :
  Create s preemptionRecordsResource (initialPreemptionRecord (preemptionRecordID (pr_IdempotencyKey req)) (uuid r 0) (sr_now r) req)
    (sr_newid r) (sr_now r) = (s', Ok rec) ->
  rec_ID rec = preemptionRecordID (pr_IdempotencyKey req) /\
  has_record (pr_Fingerprint req) (rec_ID rec) s'.
Proof.
  intros Hc. apply Create_ok in Hc as (_ & Hid & _ & _ & _ & Hd & Hg).
  assert (create_id (initialPreemptionRecord (preemptionRecordID (pr_IdempotencyKey req)) (uuid r 0) (sr_now r) req) (sr_newid r)
    = preemptionRecordID (pr_IdempotencyKey req)) as Ei by reflexivity.
  rewrite Ei in *. split; [done|]. exists rec. unfold FindPreemptionRecord. rewrite Hg, Hid, decide_True by done.
  split; [done|]. rewrite Hd by done. reflexivity.
Qed.

End Records.

Lemma final_statuses_text : Forall (fun t => TrimSpace t = t /\ t ≠ "" /\ t ≠ "in_progress") final_statuses.
Proof. repeat constructor; done. Qed.

Section Guarantees.
Context `{GoLib}.

(** The text of a digest: sha256 in hex is never blank. *)
Definition hex_digest : Prop := forall t, sha256_hex t ≠ "" /\ TrimSpace (sha256_hex t) = sha256_hex t.

(** The request decodes, and its key has no record yet. *)
Definition fresh_request (env : preemptionEnv) (a : app) (r : svc_request) (req : preemptionRequest) : Prop :=
  exists payload, decodePayload r = Ok payload /\
    decodePreemptionRequest (@env_ServiceAuthorized env) (@env_RequireAuth env) r payload = Ok req /\
    FindPreemptionRecord (app_Store a) (preemptionRecordID (pr_IdempotencyKey req)) = None.

Lemma Create_fresh s r req :
  FindPreemptionRecord s (preemptionRecordID (pr_IdempotencyKey req)) = None ->
  exists s' rec, Create s preemptionRecordsResource
    (initialPreemptionRecord (preemptionRecordID (pr_IdempotencyKey req)) (uuid r 0) (sr_now r) req) (sr_newid r) (sr_now r) = (s', Ok rec).
Proof.
  intros Hf. destruct (Create _ _ _ _ _) as [s' [rec|e]] eqn:E; [by eauto|].
  apply Create_err in E as (_ & [rc Hrc] & _). unfold FindPreemptionRecord in Hf.
  assert (create_id (initialPreemptionRecord (preemptionRecordID (pr_IdempotencyKey req)) (uuid r 0) (sr_now r) req) (sr_newid r)
    = preemptionRecordID (pr_IdempotencyKey req)) as Ei by reflexivity.
  rewrite Ei in Hrc. congruence.
Qed.

Lemma handle_fresh env a r req :
  fresh_request env a r req ->
  exists s rec, rec_ID rec = preemptionRecordID (pr_IdempotencyKey req) /\
    has_record (pr_Fingerprint req) (rec_ID rec) s /\
    (forall res k, res ≠ preemptionRecordsResource -> Get s res k = Get (app_Store a) res k) /\
    @handlePreemption _ env a r = @runPreemption _ env r req rec (App_ s (app_Events a)).
Proof.
  intros (payload & Hp & Hd & Hf). destruct (Create_fresh _ r _ Hf) as (s & rec & Hc).
  exists s, rec. pose proof (initial_has_record _ _ _ _ _ Hc) as [? ?]. split; [done|]. split; [done|].
  split. { intros res k Hne. apply Create_ok in Hc as (_ & _ & _ & _ & _ & _ & Hg). rewrite Hg, decide_False; [done|]. naive_solver. }
  unfold handlePreemption. rewrite Hp, Hd. cbn zeta. by rewrite Hf, Hc.
Qed.

(** A preemption is never left in progress: when the handler returns for a new
    idempotency key, whatever the workload service and the cluster answered, the
    record of the key is stored with a final status. *)
Theorem preemption_record_closed env a r req :
  fresh_request env a r req ->
  closed_record (pr_Fingerprint req) (preemptionRecordID (pr_IdempotencyKey req)) (app_Store (@handlePreemption _ env a r).1.1).
Proof.
  intros (s & rec & Hid & Hr & _ & ->)%handle_fresh. rewrite <- Hid.
  destruct (runPreemption_ok (pr_Fingerprint req) r req rec (App_ s (app_Events a)) Hr) as (status & Hc & Hs & _). by exists status.
Qed.


(** Retrying is safe: the same request served again, after the first was served
    and whatever the outside would answer by then, makes no external call, changes
    nothing and returns the stored outcome with 200. *)
Theorem preemption_retry_inert env env' a r req :
  hex_digest -> fresh_request env a r req ->
  @env_ServiceAuthorized env' = @env_ServiceAuthorized env -> @env_RequireAuth env' = @env_RequireAuth env ->
  let a1 := (@handlePreemption _ env a r).1.1 in
  exists rc, FindPreemptionRecord (app_Store a1) (preemptionRecordID (pr_IdempotencyKey req)) = Some rc /\
    @handlePreemption _ env' a1 r = ((a1, []), (StatusOK, BMap (publicPreemptionRecordData (rec_Data rc)))).
Proof.
  intros Hhex Hfresh Hsa Hra. cbn zeta. pose proof Hfresh as (payload & Hp & Hd & _).
  assert (closed_record (pr_Fingerprint req) (preemptionRecordID (pr_IdempotencyKey req)) (app_Store (@handlePreemption _ env a r).1.1))
    as (status & (rc & Hf & Hfp & Hs) & Hin).
  { pose proof Hfresh as (s & rec & <- & Hr & _ & ->)%handle_fresh.
    destruct (@runPreemption_ok _ env (pr_Fingerprint req) r req rec (App_ s (app_Events a)) Hr) as (status & Hc & Hs & _). by exists status. }
  exists rc. split; [done|]. unfold handlePreemption at 1. rewrite Hp, Hsa, Hra, Hd. cbn zeta. rewrite Hf.
  assert (exists t, pr_Fingerprint req = sha256_hex t) as [t Ht].
  { unfold decodePreemptionRequest in Hd. cbn zeta in Hd.
    destruct (str_empty (if str_empty _ && _ then _ else _)); [done|]. destruct (_ && negb _); [done|].
    injection Hd as <-. by eexists. }
  destruct (Hhex t) as [Hne Htr]. rewrite <- Ht in Hne, Htr.
  unfold replayPreemptionRecord. rewrite (TextValue_head _ _ _ _ Hfp Htr Hne). cbn [FirstNonEmpty].
  unfold str_empty at 1. destruct (String.eqb_spec (pr_Fingerprint req) ""); [done|]. rewrite String.eqb_refl. cbn [negb].
  destruct (proj1 (Forall_forall _ _) final_statuses_text _ Hin) as (Hst & Hsne & Hsp).
  rewrite (TextValue_head _ _ _ _ Hs Hst Hsne). by destruct (String.eqb_spec status "in_progress").
Qed.

(** The key guards the request: served with a key that already has a record, a
    request with another fingerprint is refused as a conflict, one that is still in
    progress too; neither changes anything nor makes an external call. *)
Theorem preemption_key_conflict env a r payload req rc :
  decodePayload r = Ok payload ->
  decodePreemptionRequest (@env_ServiceAuthorized env) (@env_RequireAuth env) r payload = Ok req ->
  FindPreemptionRecord (app_Store a) (preemptionRecordID (pr_IdempotencyKey req)) = Some rc ->
  let out := @handlePreemption _ env a r in
  out.1 = (a, []) /\
  out.2.1 = if String.eqb (FirstNonEmpty [TextValue (rec_Data rc) [internalPreemptionFingerprintHash]; TextValue (rec_Data rc) ["fingerprint"]])
                 (pr_Fingerprint req) && negb (String.eqb (TextValue (rec_Data rc) ["status"]) "in_progress")
            then StatusOK else StatusConflict.
Proof.
  intros Hp Hd Hf. unfold handlePreemption. rewrite Hp, Hd. cbn zeta. rewrite Hf. split; [done|].
  cbn [fst snd]. unfold replayPreemptionRecord. cbn zeta.
  destruct (String.eqb (FirstNonEmpty _) _); [|done]. cbn [negb andb]. by destruct (String.eqb _ "in_progress").
Qed.

End Guarantees.

(** What is shown of a record never carries the idempotency key, the fingerprint
    or the internal identifiers, and its id is the public one or absent. *)
Theorem preemption_public_hides data :
  let out := publicPreemptionRecordData data in
  Forall (fun k => out !! k = None)
    ["idempotency_key"; "idempotencyKey"; "fingerprint"; internalPreemptionIdempotencyKeyHash;
     internalPreemptionFingerprintHash; internalPreemptionRecordID] /\
  (out !! "id" = None \/ out !! "id" = Some (VString (TextValue data ["preemption_id"; "preemptionId"]))).
Proof.
  cbn zeta. unfold publicPreemptionRecordData. split.
  - repeat constructor; repeat first [rewrite lookup_delete_eq; reflexivity | rewrite lookup_delete_ne by done].
  - rewrite !lookup_delete_ne by done. destruct (_ && _); [right; apply lookup_insert_eq|left].
    rewrite lookup_delete_ne by done. apply lookup_delete_eq.
Qed.

(** ** A preemption *)

Definition digest_lib : GoLib := {|
  parse_quantity _ := None; parse_float _ := None; parse_int64 _ := None; parse_rfc3339 _ := None;
  format_rfc3339 _ := "t"; time_string _ := ""; unmarshal_object _ := None; unmarshal_objects _ := None;
  unmarshal_strings _ := None; marshal _ := Some "{}"; sprint _ := ""; sprintf f _ := f;
  sha256_hex t := "0123456789abcdef" |}.
Definition requester_context : workloadPreemptionContext :=
  PreemptionContext (Some (Snapshot "job9" "job9" "p1" "u1" "" "ns" "queued" 10 false (f64_of_int 3) f64_0 0 "" "" "" "")) low_jobs.
Definition cluster_env : preemptionEnv := {|
  env_client := Ok tt; env_Context _ _ := Ok requester_context; env_ClusterConfigured := true;
  env_CleanupJobResources _ _ := (Cleanup 1 0 0 0 0 0 0 0 0 0, None); env_Preempt _ _ := None;
  env_ServiceAuthorized := false; env_RequireAuth := false |}.
Definition empty_app : app := App_ NewStore NewEventBus.
Definition preempt_request : svc_request :=
  SvcRequest {[ "Idempotency-Key" := "k1" ]} (Ok {[ "requester_job_id" := VString "job9" ]}) ∅ 0 ["u0"; "u1"; "u2"; "u3"] "id".
Definition preempt_decoded : preemptionRequest :=
  PreemptionRequest "k1" "job9" "" "" "" "" 0 f64_0 f64_0 5 false "0123456789abcdef".
Definition preempt_out : run_state * response := @handlePreemption digest_lib cluster_env empty_app preempt_request.

Lemma preempt_fresh : @fresh_request digest_lib cluster_env empty_app preempt_request preempt_decoded.
Proof. exists {[ "requester_job_id" := VString "job9" ]}. split_and!; vm_compute; reflexivity. Qed.

Lemma preemption_record_closed_witness :
  closed_record "0123456789abcdef" "PRE-0123456789abcdef" (app_Store preempt_out.1.1) /\ preempt_out.2.1 = StatusOK.
Proof.
  split; [|vm_compute; reflexivity].
  apply (@preemption_record_closed digest_lib cluster_env empty_app preempt_request preempt_decoded preempt_fresh).
Defined.




Lemma preemption_retry_inert_witness :
  exists data, @handlePreemption digest_lib cluster_env preempt_out.1.1 preempt_request
    = ((preempt_out.1.1, []), (StatusOK, BMap data)).
Proof.
  destruct (@preemption_retry_inert digest_lib cluster_env cluster_env empty_app preempt_request preempt_decoded)
    as (rc & _ & Hr); [intros t; vm_compute; split; [discriminate|reflexivity]|exact preempt_fresh|reflexivity|reflexivity|].
  eexists. exact Hr.
Defined.

Definition used_key_app : app :=
  App_ (Store_ {[ preemptionRecordsResource := {[ "PRE-0123456789abcdef" :=
    Record_ "PRE-0123456789abcdef" {[ internalPreemptionFingerprintHash := VString "other"; "status" := VString "completed" ]} 1 0 0 ]} ]} ∅) NewEventBus.

Lemma preemption_key_conflict_witness :
  (@handlePreemption digest_lib cluster_env used_key_app preempt_request).1 = (used_key_app, []) /\
  (@handlePreemption digest_lib cluster_env used_key_app preempt_request).2.1 = StatusConflict.
Proof.
  destruct (@preemption_key_conflict digest_lib cluster_env used_key_app preempt_request {[ "requester_job_id" := VString "job9" ]}
    preempt_decoded (Record_ "PRE-0123456789abcdef" {[ internalPreemptionFingerprintHash := VString "other"; "status" := VString "completed" ]} 1 0 0))
    as [H1 H2]; [reflexivity|vm_compute; reflexivity|vm_compute; reflexivity|].
  split; [exact H1|vm_compute; reflexivity].
Defined.
