(* ===== verification/SchedulerHandlers.v ===== *)
(** * Scheduler-quota handlers: queues, plans and quotas (handler.go)

    The handlers of the queue and plan routes on a process that owns the in-memory
    store.  The project binding belongs to the org-project service: its client is
    the interface [bindingClient]. *)

From stdpp Require Import base gmap strings list fin_maps sorting.
From Stdlib Require Import ZArith Lia.
From S2P Require Import Prelude GoValue Store EventBus Crud Tx InputLimits AdmissionTypes SchedulerHttp AdmissionResources AdmissionDecode SchedulerRepository.
Local Open Scope Z_scope.
Local Open Scope go_scope.

Definition msgQueueNotFound : string := "queue not found".
Definition msgPlanNotFound : string := "plan not found".
Definition msgUnknownQueueIDs : string := "unknown queue ids: ".
Definition msgQuotaNotFound : string := "project quota not found".

Definition sortedRecords (records : list record) (field : string) : list record :=
  SliceStable (fun x y => String.ltb (sort_text field x) (sort_text field y)) records.

(** strings.Join(_, ",") *)
Fixpoint join_commas (l : list string) : string :=
  match l with
  | [] => ""
  | [t] => t
  | t :: rest => t +:+ "," +:+ join_commas rest
  end.

Section Handlers.
Context `{GoLib}.

(** ** Payloads *)

Definition normalizeQueueUpdate (payload : object) (now : Z) : object :=
  let name := TextValue payload ["name"] in
  let update := if str_empty name then payload else <["name" := VString name]> payload in
  <["updated_at" := VTime now (time_string now)]> update.

Definition normalizePlanUpdate (payload : object) (now : Z) : object :=
  let update := match firstStringSlice payload ["queue_ids"; "queueIds"; "queues"] with
                | Some ids => <["queues" := VStrings ids]> (<["queue_ids" := VStrings ids]> payload)
                | None => payload
                end in
  <["updated_at" := VTime now (time_string now)]> update.

(** The id is drawn only when the payload has none. *)
Definition with_id (next : store -> string * store) (s : store) (data : object) : store * object :=
  if str_empty (TextValue data ["id"])
  then let '(id, s') := next s in (s', <["id" := VString id]> data)
  else (s, data).

Definition queuePayload (s : store) (payload : object) (now : Z) : store * result string object :=
  let name := TextValue payload ["name"] in
  if str_empty name then (s, Err "name is required")
  else let '(s', queue) := with_id NextQueueID s (<["name" := VString name]> payload) in
       (s', Ok (<["updated_at" := VTime now (time_string now)]> queue)).

Definition planPayload (s : store) (payload : object) (now : Z) : store * result string object :=
  let name := TextValue payload ["name"] in
  if str_empty name then (s, Err "name is required")
  else let '(s', plan) := with_id NextPlanID s (<["name" := VString name]> (normalizePlanUpdate payload now)) in
       (s', Ok (<["updated_at" := VTime now (time_string now)]> plan)).

(** ** Queues *)

Definition listQueues (a : app) : response := (StatusOK, BRecords (sortedRecords (ListQueues (app_Store a)) "name")).

Definition createQueue (a : app) (r : svc_request) : app * response :=
  match decodePayload r with
  | Err _ => (a, (StatusBadRequest, ErrorData msgInvalidBody))
  | Ok payload =>
      match queuePayload (app_Store a) payload (sr_now r) with
      | (s, Err e) => (App_ s (app_Events a), (StatusBadRequest, ErrorData e))
      | (s, Ok queue) =>
          let build rc := schedulerEvent r 0 "QueueChanged" "created" (changePayload None (Some (rec_Data rc))) in
          match CreateRecordWithEvent (App_ s (app_Events a)) queuesResource queue (Some build) (sr_newid r) (sr_now r) with
          | (a', Err e) => (a', (createError e, BNil))
          | (a', Ok rc) => (a', (StatusCreated, BRecord rc))
          end
      end
  end.

Definition getQueue (a : app) (r : svc_request) : response :=
  match GetQueue (app_Store a) (pathValue r "id") with
  | None => (StatusNotFound, ErrorData msgQueueNotFound)
  | Some rc => (StatusOK, BRecord rc)
  end.

Definition updateQueue (a : app) (r : svc_request) : app * response :=
  match decodePayload r with
  | Err _ => (a, (StatusBadRequest, ErrorData msgInvalidBody))
  | Ok payload =>
      let id := pathValue r "id" in
      match GetQueue (app_Store a) id with
      | None => (a, (StatusNotFound, ErrorData msgQueueNotFound))
      | Some previous =>
          let build rc := schedulerEvent r 0 "QueueChanged" "updated"
                            (changePayload (Some (rec_Data previous)) (Some (rec_Data rc))) in
          match UpdateRecordWithEvent a queuesResource id (normalizeQueueUpdate payload (sr_now r)) (Some build) (sr_now r) with
          | (a', Ok (Some rc)) => (a', (StatusOK, BRecord rc))
          | (a', _) => (a', (StatusInternalServerError, ErrorData "queue update failed"))
          end
      end
  end.

Definition deleted_data (id : string) : object := {[ "id" := VString id; "deleted" := VBool true ]}.

(** [n] numbers the identifier drawn for the event.  The result is whether the queue
    was removed, or an error. *)
Definition deleteQueueWithEvent (a : app) (r : svc_request) (n : nat) (id : string) : app * result unit bool :=
  match GetQueue (app_Store a) id with
  | None => (a, Ok false)
  | Some previous =>
      match WithTx a (ok <-- DeleteQueueAndRemoveFromPlansTx (E := unit) id (sr_now r) ;;
                      if ok : bool
                      then tx_Emit (schedulerEvent r n "QueueChanged" "deleted"
                                      (changePayload (Some (rec_Data previous)) (Some (deleted_data id)))) ;;; stm_ret true
                      else stm_ret false) with
      | (a', Ok removed) => (a', Ok removed)
      | (a', Err _) => (a', Err tt)
      end
  end.

Definition deleteQueue (a : app) (r : svc_request) : app * response :=
  let id := pathValue r "id" in
  match deleteQueueWithEvent a r 0 id with
  | (a', Err _) => (a', (StatusInternalServerError, ErrorData "queue could not be deleted"))
  | (a', Ok false) => (a', (StatusNotFound, ErrorData msgQueueNotFound))
  | (a', Ok true) => (a', (StatusOK, BMap (deleted_data id)))
  end.

(** A batch runs a deletion per id, [n] numbering the identifiers. *)
Fixpoint batch_delete (delete : app -> nat -> string -> app * result unit bool) (ids : list string) (n : nat)
    (a : app) (res : schedulerDeleteResult) : app * schedulerDeleteResult :=
  match ids with
  | [] => (a, res)
  | id :: rest =>
      match delete a n id with
      | (a', Ok true) => batch_delete delete rest (S n) a' (record_deleted res id)
      | (a', _) => batch_delete delete rest (S n) a' (record_failed res id)
      end
  end.

Definition batchDeleteQueues (a : app) (r : svc_request) : app * response :=
  match decodeIDs r with
  | Err _ => (a, (StatusBadRequest, ErrorData msgInvalidBody))
  | Ok ids =>
      let '(a', res) := batch_delete (fun a n id => deleteQueueWithEvent a r n id) ids 0 a (DeleteResult 0 0 [] []) in
      (a', (StatusOK, BMap (delete_response res)))
  end.

Definition queuesForPlan (a : app) (planID : string) : response :=
  match QueuesForPlan (app_Store a) planID with
  | None => (StatusNotFound, ErrorData msgPlanNotFound)
  | Some (_, records) => (StatusOK, BRecords (sortedRecords records "name"))
  end.

Definition project_plan_id (project : record) : string :=
  TextValue (rec_Data project) ["plan_id"; "planId"; "resource_plan_id"; "resourcePlanId"].

Definition listQueuesByProject (a : app) (r : svc_request) : response :=
  match Get (app_Store a) projectsResource (pathValue r "project_id") with
  | None => (StatusNotFound, ErrorData "project not found")
  | Some project =>
      if str_empty (project_plan_id project) then (StatusOK, BRecords [])
      else queuesForPlan a (project_plan_id project)
  end.

(** ** Plans *)

Definition listPlans (a : app) : response := (StatusOK, BRecords (sortedRecords (ListPlans (app_Store a)) "name")).

Definition getPlan (a : app) (r : svc_request) : response :=
  match GetPlan (app_Store a) (pathValue r "id") with
  | None => (StatusNotFound, ErrorData msgPlanNotFound)
  | Some rc => (StatusOK, BRecord rc)
  end.

Definition createPlan (a : app) (r : svc_request) : app * response :=
  match decodePayload r with
  | Err _ => (a, (StatusBadRequest, ErrorData msgInvalidBody))
  | Ok payload =>
      match planPayload (app_Store a) payload (sr_now r) with
      | (s, Err e) => (App_ s (app_Events a), (StatusBadRequest, ErrorData e))
      | (s, Ok plan) =>
          match MissingQueues s (queue_ids plan) with
          | _ :: _ as missing => (App_ s (app_Events a), (StatusBadRequest, ErrorData (msgUnknownQueueIDs +:+ join_commas missing)))
          | [] =>
              let build rc := schedulerEvent r 0 "PlanChanged" "created" (changePayload None (Some (rec_Data rc))) in
              match CreateRecordWithEvent (App_ s (app_Events a)) plansResource plan (Some build) (sr_newid r) (sr_now r) with
              | (a', Err e) => (a', (createError e, BNil))
              | (a', Ok rc) => (a', (StatusCreated, BRecord rc))
              end
          end
      end
  end.

Definition updatePlan (a : app) (r : svc_request) : app * response :=
  match decodePayload r with
  | Err _ => (a, (StatusBadRequest, ErrorData msgInvalidBody))
  | Ok payload =>
      let id := pathValue r "id" in
      match GetPlan (app_Store a) id with
      | None => (a, (StatusNotFound, ErrorData msgPlanNotFound))
      | Some previous =>
          let update := normalizePlanUpdate payload (sr_now r) in
          match MissingQueues (app_Store a) (queue_ids update) with
          | _ :: _ as missing => (a, (StatusBadRequest, ErrorData (msgUnknownQueueIDs +:+ join_commas missing)))
          | [] =>
              let build rc := schedulerEvent r 0 "PlanChanged" "updated"
                                (changePayload (Some (rec_Data previous)) (Some (rec_Data rc))) in
              match UpdateRecordWithEvent a plansResource id update (Some build) (sr_now r) with
              | (a', Ok (Some rc)) => (a', (StatusOK, BRecord rc))
              | (a', _) => (a', (StatusInternalServerError, ErrorData "plan update failed"))
              end
          end
      end
  end.

Definition deletePlanWithEvent (a : app) (r : svc_request) (n : nat) (id : string) : app * result unit bool :=
  match GetPlan (app_Store a) id with
  | None => (a, Ok false)
  | Some previous =>
      match WithTx a (ok <-- DeletePlanTx (E := unit) id ;;
                      if ok : bool
                      then tx_Emit (schedulerEvent r n "PlanChanged" "deleted"
                                      (changePayload (Some (rec_Data previous)) (Some (deleted_data id)))) ;;; stm_ret true
                      else stm_ret false) with
      | (a', Ok removed) => (a', Ok removed)
      | (a', Err _) => (a', Err tt)
      end
  end.

(** The outcome of a call to the project service. *)
Inductive bind_outcome := BindOK | BindProjectNotFound | BindFailed.
Class bindingClient := {
  bc_available : bool;
  bc_BindPlan : string -> string -> bind_outcome
}.
Context `{bindingClient}.

(** The plan ids whose bindings the project service was asked to clear: failures are
    logged only. *)
Definition unbindPlanFromProjects (planID : string) : list string := if bc_available then [planID] else [].

Definition deletePlan (a : app) (r : svc_request) : (app * list string) * response :=
  let id := pathValue r "id" in
  match deletePlanWithEvent a r 0 id with
  | (a', Err _) => ((a', []), (StatusInternalServerError, ErrorData "plan could not be deleted"))
  | (a', Ok false) => ((a', []), (StatusNotFound, ErrorData msgPlanNotFound))
  | (a', Ok true) => ((a', unbindPlanFromProjects id), (StatusOK, BMap (deleted_data id)))
  end.

Definition batchDeletePlans (a : app) (r : svc_request) : (app * list string) * response :=
  match decodeIDs r with
  | Err _ => ((a, []), (StatusBadRequest, ErrorData msgInvalidBody))
  | Ok ids =>
      let '(a', res) := batch_delete (fun a n id => deletePlanWithEvent a r n id) ids 0 a (DeleteResult 0 0 [] []) in
      ((a', flat_map unbindPlanFromProjects (dr_Deleted res)), (StatusOK, BMap (delete_response res)))
  end.

Definition bindPlanToProject (a : app) (r : svc_request) : app * response :=
  match decodePayload r with
  | Err _ => (a, (StatusBadRequest, ErrorData msgInvalidBody))
  | Ok payload =>
      let projectID := pathValue r "project_id" in
      let planID := FirstNonEmpty [TextValue payload ["plan_id"; "planId"]; TextValue payload ["id"]] in
      if str_empty planID then (a, (StatusBadRequest, ErrorData "plan_id is required"))
      else match GetPlan (app_Store a) planID with
      | None => (a, (StatusNotFound, ErrorData msgPlanNotFound))
      | Some _ =>
          if negb bc_available then (a, (StatusServiceUnavailable, ErrorData "project plan binding is unavailable"))
          else match bc_BindPlan projectID planID with
          | BindProjectNotFound => (a, (StatusNotFound, ErrorData "project not found"))
          | BindFailed => (a, (StatusBadGateway, ErrorData "project plan binding failed"))
          | BindOK =>
              let data : object := {[ "project_id" := VString projectID; "plan_id" := VString planID ]} in
              (publish a r 0 "PlanChanged" "bound_project" (changePayload None (Some data)), (StatusOK, BMap data))
          end
      end
  end.

Definition bindPlanQueues (a : app) (r : svc_request) : app * response :=
  match decodePayload r with
  | Err _ => (a, (StatusBadRequest, ErrorData msgInvalidBody))
  | Ok payload =>
      let id := pathValue r "id" in
      match GetPlan (app_Store a) id with
      | None => (a, (StatusNotFound, ErrorData msgPlanNotFound))
      | Some previous =>
          let ids := default [] (firstStringSlice payload ["queue_ids"; "queueIds"; "ids"]) in
          match MissingQueues (app_Store a) ids with
          | _ :: _ as missing => (a, (StatusBadRequest, ErrorData (msgUnknownQueueIDs +:+ join_commas missing)))
          | [] =>
              match WithTx a (updated <-- BindPlanQueuesTx (E := unit) id ids (sr_now r) ;;
                              match updated with
                              | None => stm_ret None
                              | Some rc => tx_Emit (schedulerEvent r 0 "PlanChanged" "bound_queues"
                                  (changePayload (Some (rec_Data previous)) (Some (rec_Data rc)))) ;;; stm_ret (Some rc)
                              end) with
              | (a', Ok (Some rc)) => (a', (StatusOK, BRecord rc))
              | (a', _) => (a', (StatusInternalServerError, ErrorData "plan queue binding failed"))
              end
          end
      end
  end.

Definition listPlanQueues (a : app) (r : svc_request) : response := queuesForPlan a (pathValue r "id").

Definition getProjectLiveQuota (a : app) (r : svc_request) : response :=
  let projectID := pathValue r "id" in
  match GetLiveQuota (app_Store a) projectID with
  | Some rc => (StatusOK, BRecord rc)
  | None =>
      match Get (app_Store a) projectsResource projectID with
      | None => (StatusNotFound, ErrorData msgQuotaNotFound)
      | Some project =>
          if str_empty (project_plan_id project) then (StatusNotFound, ErrorData msgQuotaNotFound)
          else match DerivedQuotaFromPlan (app_Store a) projectID (project_plan_id project) (sr_now r) with
               | None => (StatusNotFound, ErrorData msgQuotaNotFound)
               | Some rc => (StatusOK, BRecord rc)
               end
      end
  end.

(** ** The routes that write *)

Inductive sched_op :=
| OpCreateQueue (r : svc_request) | OpUpdateQueue (r : svc_request) | OpDeleteQueue (r : svc_request)
| OpBatchDeleteQueues (r : svc_request) | OpCreatePlan (r : svc_request) | OpUpdatePlan (r : svc_request)
| OpDeletePlan (r : svc_request) | OpBatchDeletePlans (r : svc_request) | OpBindPlanToProject (r : svc_request)
| OpBindPlanQueues (r : svc_request).

Definition run_sched_op (a : app) (o : sched_op) : app :=
  match o with
  | OpCreateQueue r => (createQueue a r).1
  | OpUpdateQueue r => (updateQueue a r).1
  | OpDeleteQueue r => (deleteQueue a r).1
  | OpBatchDeleteQueues r => (batchDeleteQueues a r).1
  | OpCreatePlan r => (createPlan a r).1
  | OpUpdatePlan r => (updatePlan a r).1
  | OpDeletePlan r => (deletePlan a r).1.1
  | OpBatchDeletePlans r => (batchDeletePlans a r).1.1
  | OpBindPlanToProject r => (bindPlanToProject a r).1
  | OpBindPlanQueues r => (bindPlanQueues a r).1
  end.

(** ** The transactional cascade *)

Lemma detach_plans_tx_run {E} queueID now plans : forall t,
  detach_plans_tx (E := E) queueID now plans t =
  (StoreTx (fold_left (detach_plan queueID now) plans (tx_store t)) (tx_events t), Ok true).
Proof.
  induction plans as [|plan plans IH]; intros t; cbn [detach_plans_tx fold_left]; [by destruct t|].
  unfold detach_plan at 2. destruct (_ =? _)%nat; [apply IH|].
  unfold stm_bind, tx_Update. destruct (Update _ _ _ _ _) as [s' o]. cbn [fst]. by rewrite IH.
Qed.

Lemma cascade_tx_run {E} id now t :
  DeleteQueueAndRemoveFromPlansTx (E := E) id now t =
  (StoreTx (DeleteQueueAndRemoveFromPlans (tx_store t) id now).1 (tx_events t),
   Ok (DeleteQueueAndRemoveFromPlans (tx_store t) id now).2).
Proof.
  unfold DeleteQueueAndRemoveFromPlansTx, DeleteQueueAndRemoveFromPlans, stm_bind, tx_Delete.
  destruct (Delete (tx_store t) queuesResource id) as [s' []]; cbn [negb fst snd]; [|done].
  unfold stm_get. by rewrite detach_plans_tx_run.
Qed.

(** The transactional deletion of a queue is the plain one: it leaves the same
    store and reports the same outcome, for any store, and buffers no event of its
    own. *)
Theorem cascade_tx_equivalent id now s events :
  DeleteQueueAndRemoveFromPlansTx (E := unit) id now (StoreTx s events) =
  (StoreTx (DeleteQueueAndRemoveFromPlans s id now).1 events, Ok (DeleteQueueAndRemoveFromPlans s id now).2).
Proof. apply cascade_tx_run. Qed.

(** ** Referential integrity *)

(** Every queue a plan lists exists. *)
Definition plan_refs_ok (s : store) : Prop :=
  forall pid plan q, GetPlan s pid = Some plan -> q ∈ queue_ids (rec_Data plan) -> is_Some (GetQueue s q).
Definition sched_inv (s : store) : Prop := ids_ok s plansResource /\ plan_refs_ok s.

(** The invariant reads only plans and which queues exist. *)
Lemma sched_inv_ext s s' :
  (forall k, GetPlan s' k = GetPlan s k) -> (forall k, is_Some (GetQueue s k) -> is_Some (GetQueue s' k)) ->
  sched_inv s -> sched_inv s'.
Proof.
  intros Hp Hq [Hok Href]. split.
  - intros k rc Hk. unfold GetPlan in Hp. rewrite Hp in Hk. by apply Hok.
  - intros pid plan q Hpl Hin. rewrite Hp in Hpl. eapply Hq, Href; eauto.
Qed.

(** Writing one plan whose queues all exist. *)
Lemma sched_inv_plan s s' id plan :
  sched_inv s -> rec_ID plan = id -> (forall q, q ∈ queue_ids (rec_Data plan) -> is_Some (GetQueue s q)) ->
  (forall k, GetPlan s' k = if decide (k = id) then Some plan else GetPlan s k) ->
  (forall k, GetQueue s' k = GetQueue s k) -> sched_inv s'.
Proof.
  intros [Hok Href] Hid Hqs Hp Hq. split.
  - intros k rc Hk. unfold GetPlan in Hp. rewrite Hp in Hk. case_decide; [congruence|by apply Hok].
  - intros pid pl q Hpl Hin. rewrite Hq. rewrite Hp in Hpl. case_decide; [simplify_eq; by apply Hqs|by eapply Href].
Qed.

Lemma next_id_Get s r p r' k : Get (next_id s r p).2 r' k = Get s r' k.
Proof. unfold Get, bucket. by rewrite next_id_data. Qed.

Lemma with_id_Get next s data r k :
  (forall s, Get (next s).2 r k = Get s r k) -> Get (with_id next s data).1 r k = Get s r k.
Proof. intros Hn. unfold with_id. specialize (Hn s). destruct (str_empty _); [|done]. by destruct (next s). Qed.

Lemma queuePayload_Get s payload now r k : Get (queuePayload s payload now).1 r k = Get s r k.
Proof.
  unfold queuePayload. destruct (str_empty _); [done|].
  pose proof (with_id_Get NextQueueID s (<["name":=VString (TextValue payload ["name"])]> payload) r k
    ltac:(intros; apply next_id_Get)) as Hw. by destruct (with_id _ _ _).
Qed.

Lemma planPayload_Get s payload now r k : Get (planPayload s payload now).1 r k = Get s r k.
Proof.
  unfold planPayload. destruct (str_empty _); [done|].
  pose proof (with_id_Get NextPlanID s (<["name":=VString (TextValue payload ["name"])]> (normalizePlanUpdate payload now)) r k
    ltac:(intros; apply next_id_Get)) as Hw. by destruct (with_id _ _ _).
Qed.

Lemma MissingQueues_nil s ids : MissingQueues s ids = [] -> forall q, q ∈ ids -> is_Some (GetQueue s q).
Proof.
  intros Hm q Hq. destruct (GetQueue s q) eqn:E; [by eexists|]. exfalso.
  assert (q ∈ MissingQueues s ids) as Hin.
  { unfold MissingQueues. rewrite list_elem_of_In, List.filter_In, <- list_elem_of_In. by rewrite E. }
  rewrite Hm in Hin. by apply not_elem_of_nil in Hin.
Qed.

(** Storing a plan whose listed queues exist keeps the invariant. *)
Lemma create_plan_inv s plan newID now :
  sched_inv s -> MissingQueues s (queue_ids plan) = [] -> sched_inv (Create s plansResource plan newID now).1.
Proof.
  intros Hi Hm. destruct (Create s plansResource plan newID now) as [s' [rc|e]] eqn:E; cbn [fst].
  - apply Create_ok in E as (_ & Hid & _ & _ & _ & Hd & Hg).
    apply (sched_inv_plan s s' (create_id plan newID) rc); [done|done| | |].
    + unfold queue_ids, mget. rewrite Hd by done. by apply MissingQueues_nil.
    + intros k. unfold GetPlan. rewrite Hg. repeat case_decide; naive_solver.
    + intros k. unfold GetQueue. rewrite Hg, decide_False; [done|]. by intros [? _].
  - apply Create_err in E as (_ & _ & Hg). apply (sched_inv_ext s); [intros; apply Hg|intros k Hk; unfold GetQueue; by rewrite Hg|done].
Qed.

Lemma queue_ids_union update data :
  queue_ids (update ∪ data) = if decide (is_Some (update !! "queue_ids")) then queue_ids update else queue_ids data.
Proof.
  unfold queue_ids, mget. destruct (update !! "queue_ids") as [v|] eqn:E.
  - rewrite decide_True by eauto. by rewrite (lookup_union_Some_l _ _ _ v).
  - rewrite decide_False by (by intros [? ?]). by rewrite lookup_union_r.
Qed.

Lemma update_plan_inv s id update now :
  sched_inv s -> MissingQueues s (queue_ids update) = [] -> sched_inv (Update s plansResource id update now).1.
Proof.
  intros Hi Hm. unfold Update. fold (Get s plansResource id). destruct (Get s plansResource id) as [cur|] eqn:E; [|done]. cbn [fst].
  set (next := Record_ _ _ _ _ _).
  apply (sched_inv_plan s _ id next); [done|exact (proj1 Hi id cur E)| | |].
  - cbn [rec_Data next]. rewrite queue_ids_union. case_decide; [by apply MissingQueues_nil|].
    intros q Hq. by eapply (proj2 Hi).
  - intros k. unfold GetPlan. rewrite Get_set_insert. repeat case_decide; naive_solver.
  - intros k. unfold GetQueue. rewrite Get_set_insert, decide_False; [done|]. by intros [? _].
Qed.

Lemma write_queue_inv s s' :
  sched_inv s -> (forall k, Get s' plansResource k = Get s plansResource k) ->
  (forall k, is_Some (Get s queuesResource k) -> is_Some (Get s' queuesResource k)) -> sched_inv s'.
Proof. intros. by eapply sched_inv_ext. Qed.

Lemma cascade_inv s id now : sched_inv s -> sched_inv (DeleteQueueAndRemoveFromPlans s id now).1.
Proof.
  intros [Hok Href]. pose proof (delete_preserves s id now Hok) as (Hok' & _ & _). split; [done|].
  pose proof (fun r k => DeleteQueueAndRemoveFromPlans_Get s id now r k Hok) as HG.
  destruct (DeleteQueueAndRemoveFromPlans s id now) as [s' b]. cbn [fst snd] in *.
  intros pid plan q Hp Hin. unfold GetPlan, GetQueue in *. rewrite (proj2 (HG plansResource pid)) in Hp. rewrite (proj2 (HG queuesResource q)).
  destruct b; [|by eapply Href].
  rewrite decide_False, decide_True in Hp by (done || by intros [? _]).
  apply fmap_Some in Hp as (p0 & Hp0 & ->). rewrite detached_ids in Hin. apply removeValue_spec in Hin as [Hin Hne].
  rewrite decide_False by (intros [_ ?]; done). rewrite decide_False by done. by eapply Href.
Qed.

Lemma deleteQueueWithEvent_store a r n id :
  app_Store (deleteQueueWithEvent a r n id).1 = (DeleteQueueAndRemoveFromPlans (app_Store a) id (sr_now r)).1.
Proof.
  unfold deleteQueueWithEvent. destruct (GetQueue (app_Store a) id) as [q|] eqn:Eq.
  - match goal with |- context [WithTx a ?fn] => pose proof (WithTx_store a fn) as Hs; destruct (WithTx a fn) as [a' [b|e]] end;
      cbn [fst] in *; rewrite Hs; unfold stm_bind; rewrite cascade_tx_run; cbn [tx_store];
      by destruct (DeleteQueueAndRemoveFromPlans (app_Store a) id (sr_now r)) as [s' []].
  - unfold DeleteQueueAndRemoveFromPlans, Delete. unfold GetQueue, Get in Eq. by rewrite Eq.
Qed.

Lemma deletePlanWithEvent_store a r n id :
  app_Store (deletePlanWithEvent a r n id).1 = (DeletePlan (app_Store a) id).1.
Proof.
  unfold deletePlanWithEvent. destruct (GetPlan (app_Store a) id) as [q|] eqn:Eq.
  - match goal with |- context [WithTx a ?fn] => pose proof (WithTx_store a fn) as Hs; destruct (WithTx a fn) as [a' [b|e]] end;
      cbn [fst] in *; rewrite Hs; unfold stm_bind, DeletePlanTx, tx_Delete, DeletePlan; cbn [tx_store];
      by destruct (Delete (app_Store a) plansResource id) as [s' []].
  - unfold DeletePlan, Delete. unfold GetPlan, Get in Eq. by rewrite Eq.
Qed.

Lemma delete_plan_inv s id : sched_inv s -> sched_inv (DeletePlan s id).1.
Proof.
  intros [Hok Href]. unfold DeletePlan, Delete. destruct (bucket s plansResource !! id); [|done]. cbn [fst]. split.
  - intros k rc. rewrite Get_set_delete. case_decide; [done|apply Hok].
  - intros pid plan q. unfold GetPlan, GetQueue. rewrite !Get_set_delete. case_decide; [done|].
    rewrite decide_False by (by intros [? _]). intros. by eapply Href.
Qed.

Lemma batch_delete_inv (del : app -> nat -> string -> app * result unit bool) ids :
  (forall a n id, sched_inv (app_Store a) -> sched_inv (app_Store (del a n id).1)) ->
  forall n a res, sched_inv (app_Store a) -> sched_inv (app_Store (batch_delete del ids n a res).1).
Proof.
  intros Hd. induction ids as [|id ids IH]; intros n a res Hi; cbn [batch_delete]; [done|].
  specialize (Hd a n id Hi). destruct (del a n id) as [a' [[]|e]]; by apply IH.
Qed.

Lemma createQueue_inv a r : sched_inv (app_Store a) -> sched_inv (app_Store (createQueue a r).1).
Proof.
  intros Hi. unfold createQueue. destruct (decodePayload r) as [payload|]; [|done].
  pose proof (queuePayload_Get (app_Store a) payload (sr_now r)) as HG.
  destruct (queuePayload (app_Store a) payload (sr_now r)) as [s [queue|e]]; cbn [fst] in HG.
  2:{ apply (write_queue_inv (app_Store a)); cbn; [done|intros; apply HG|intros k; by rewrite HG]. }
  match goal with |- context [CreateRecordWithEvent ?a0 ?r0 ?d ?b ?i ?t] =>
    pose proof (CreateRecordWithEvent_store a0 r0 d b i t) as Hs; destruct (CreateRecordWithEvent a0 r0 d b i t) as [a' [rc|e]] end;
    cbn [fst app_Store] in *; rewrite Hs;
    (destruct (Create s queuesResource queue (sr_newid r) (sr_now r)) as [s' [rc'|e']] eqn:E; cbn [fst];
     [apply Create_ok in E as (_ & _ & _ & _ & _ & _ & Hg)|apply Create_err in E as (_ & _ & Hg)];
     (apply (write_queue_inv (app_Store a)); [done|intros k|intros k]; rewrite Hg, ?HG; try done;
      case_decide as Hdec; try done; by destruct Hdec)).
Qed.

Lemma updateQueue_inv a r : sched_inv (app_Store a) -> sched_inv (app_Store (updateQueue a r).1).
Proof.
  intros Hi. unfold updateQueue. destruct (decodePayload r) as [payload|]; [|done].
  destruct (GetQueue (app_Store a) (pathValue r "id")) as [prev|] eqn:Eq; [|done].
  match goal with |- context [UpdateRecordWithEvent ?a0 ?r0 ?i ?d ?b ?t] =>
    pose proof (UpdateRecordWithEvent_store a0 r0 i d b t) as Hs; destruct (UpdateRecordWithEvent a0 r0 i d b t) as [a' [[rc|]|e]] end;
    cbn [fst] in *; rewrite Hs; unfold Update; unfold GetQueue, Get in Eq; rewrite Eq; cbn [fst];
    (apply (write_queue_inv (app_Store a)); [done| |]; intros k; rewrite Get_set_insert;
     [by rewrite decide_False by (by intros [? _])|case_decide; [intros; by eexists|done]]).
Qed.

Lemma createPlan_inv a r : sched_inv (app_Store a) -> sched_inv (app_Store (createPlan a r).1).
Proof.
  intros Hi. unfold createPlan. destruct (decodePayload r) as [payload|]; [|done].
  pose proof (planPayload_Get (app_Store a) payload (sr_now r)) as HG.
  destruct (planPayload (app_Store a) payload (sr_now r)) as [s [plan|e]]; cbn [fst] in HG;
    assert (sched_inv s) as Hs by (apply (write_queue_inv (app_Store a)); [done|intros; apply HG|intros k; by rewrite HG]); [|done].
  destruct (MissingQueues s (queue_ids plan)) eqn:Em; [|done].
  match goal with |- context [CreateRecordWithEvent ?a0 ?r0 ?d ?b ?i ?t] =>
    pose proof (CreateRecordWithEvent_store a0 r0 d b i t) as Hst; destruct (CreateRecordWithEvent a0 r0 d b i t) as [a' [rc|e]] end;
    cbn [fst app_Store] in *; rewrite Hst; by apply create_plan_inv.
Qed.

Lemma updatePlan_inv a r : sched_inv (app_Store a) -> sched_inv (app_Store (updatePlan a r).1).
Proof.
  intros Hi. unfold updatePlan. destruct (decodePayload r) as [payload|]; [|done].
  destruct (GetPlan (app_Store a) (pathValue r "id")); [|done]. cbn zeta.
  destruct (MissingQueues (app_Store a) (queue_ids (normalizePlanUpdate payload (sr_now r)))) eqn:Em; [|done].
  match goal with |- context [UpdateRecordWithEvent ?a0 ?r0 ?i ?d ?b ?t] =>
    pose proof (UpdateRecordWithEvent_store a0 r0 i d b t) as Hs; destruct (UpdateRecordWithEvent a0 r0 i d b t) as [a' [[rc|]|e]] end;
    cbn [fst] in *; rewrite Hs; by apply update_plan_inv.
Qed.

Lemma bindPlanQueues_inv a r : sched_inv (app_Store a) -> sched_inv (app_Store (bindPlanQueues a r).1).
Proof.
  intros Hi. unfold bindPlanQueues. destruct (decodePayload r) as [payload|]; [|done].
  destruct (GetPlan (app_Store a) (pathValue r "id")); [|done]. cbn zeta. set (ids := default [] _).
  destruct (MissingQueues (app_Store a) ids) eqn:Em; [|done].
  assert (sched_inv (Update (app_Store a) plansResource (pathValue r "id") (queue_binding ids) (sr_now r)).1) as Hu.
  { apply update_plan_inv; [done|]. pose proof (queue_ids_binding ids ∅) as Hq. rewrite (right_id_L ∅ (∪)) in Hq. by rewrite Hq. }
  match goal with |- context [WithTx a ?fn] => pose proof (WithTx_store a fn) as Hs; destruct (WithTx a fn) as [a' [[rc|]|e]] end;
    cbn [fst] in *; rewrite Hs; unfold stm_bind, BindPlanQueuesTx, tx_Update; cbn [tx_store];
    destruct (Update (app_Store a) plansResource (pathValue r "id") (queue_binding ids) (sr_now r)) as [s' [rc'|]]; exact Hu.
Qed.

Lemma run_sched_op_inv a o : sched_inv (app_Store a) -> sched_inv (app_Store (run_sched_op a o)).
Proof.
  intros Hi.
  assert (forall a r n id, sched_inv (app_Store a) -> sched_inv (app_Store (deleteQueueWithEvent a r n id).1)) as HDq
    by (intros; rewrite deleteQueueWithEvent_store; by apply cascade_inv).
  assert (forall a r n id, sched_inv (app_Store a) -> sched_inv (app_Store (deletePlanWithEvent a r n id).1)) as HDp
    by (intros; rewrite deletePlanWithEvent_store; by apply delete_plan_inv).
  destruct o as [r|r|r|r|r|r|r|r|r|r]; cbn [run_sched_op];
    auto using createQueue_inv, updateQueue_inv, createPlan_inv, updatePlan_inv, bindPlanQueues_inv.
  - unfold deleteQueue. cbn zeta. specialize (HDq a r 0%nat (pathValue r "id") Hi).
    by destruct (deleteQueueWithEvent _ _ _ _) as [a' [[]|e]].
  - unfold batchDeleteQueues. destruct (decodeIDs r) as [ids|]; [|done].
    pose proof (batch_delete_inv (fun a n id => deleteQueueWithEvent a r n id) ids (fun a n id => HDq a r n id) 0 a (DeleteResult 0 0 [] []) Hi) as Hb.
    by destruct (batch_delete _ _ _ _ _).
  - unfold deletePlan. cbn zeta. specialize (HDp a r 0%nat (pathValue r "id") Hi).
    by destruct (deletePlanWithEvent _ _ _ _) as [a' [[]|e]].
  - unfold batchDeletePlans. destruct (decodeIDs r) as [ids|]; [|done].
    pose proof (batch_delete_inv (fun a n id => deletePlanWithEvent a r n id) ids (fun a n id => HDp a r n id) 0 a (DeleteResult 0 0 [] []) Hi) as Hb.
    by destruct (batch_delete _ _ _ _ _).
  - unfold bindPlanToProject. destruct (decodePayload r) as [payload|]; [|done]. cbn zeta.
    destruct (str_empty _); [done|]. destruct (GetPlan _ _); [|done]. destruct (negb _); [done|].
    destruct (bc_BindPlan _ _); [|done..]. cbn [fst]. unfold publish. destruct (publish_event _ _) eqn:E; [|done].
    cbn. by rewrite (publish_event_store _ _ _ E).
Qed.

(** Plans never dangle: from an empty store, whatever sequence of queue and plan
    requests is served, well formed or not, every queue id a plan lists names a queue
    that exists, so admission finds the queues a plan allows. *)
Theorem plan_queue_integrity ops bus pid plan q :
  let s := app_Store (fold_left run_sched_op ops (App_ NewStore bus)) in
  GetPlan s pid = Some plan -> q ∈ queue_ids (rec_Data plan) -> is_Some (GetQueue s q).
Proof.
  assert (forall a, sched_inv (app_Store a) -> sched_inv (app_Store (fold_left run_sched_op ops a))) as Hf.
  { induction ops as [|o ops IH]; intros a Hi; cbn [fold_left]; [done|]. by apply IH, run_sched_op_inv. }
  cbn zeta. apply (Hf (App_ NewStore bus)). split.
  - intros k rc. unfold Get, bucket. cbn. done.
  - intros p pl q'. unfold GetPlan, Get, bucket. cbn. done.
Qed.

End Handlers.

(** ** A history *)

Definition post (id : string) (body : object) : svc_request :=
  SvcRequest ∅ (Ok body) {[ "id" := id ]} 0 ["u0"; "u1"] "fresh".
Definition history : list sched_op :=
  [OpCreateQueue (post "" {[ "name" := VString "batch"; "id" := VString "q1" ]});
   OpCreateQueue (post "" {[ "name" := VString "idle"; "id" := VString "q2" ]});
   OpCreatePlan (post "" {[ "name" := VString "gold"; "id" := VString "pl"; "queue_ids" := VStrings ["q1"; "q2"] ]});
   OpDeleteQueue (post "q1" ∅)].
Definition no_binding : bindingClient := {| bc_available := false; bc_BindPlan _ _ := BindFailed |}.
Definition history_store : store :=
  app_Store (fold_left (@run_sched_op escape_lib no_binding) history (App_ NewStore NewEventBus)).

Lemma plan_queue_integrity_witness :
  (exists plan, GetPlan history_store "pl" = Some plan /\ @queue_ids escape_lib (rec_Data plan) = ["q2"]) /\
  is_Some (GetQueue history_store "q2").
Proof.
  assert (exists plan, GetPlan history_store "pl" = Some plan /\ @queue_ids escape_lib (rec_Data plan) = ["q2"]) as Hp
    by (eexists; split; vm_compute; reflexivity).
  split; [exact Hp|]. destruct Hp as (plan & Hp & Hq).
  apply (@plan_queue_integrity escape_lib no_binding history NewEventBus "pl" plan "q2" Hp). rewrite Hq. left.
Defined.
