(* ===== verification/PlanReaper.v ===== *)
(** * Enforcing plan windows: the reaper (plan_window_reaper.go)

    A maintenance task that evicts the jobs of projects whose plan is no longer in
    force.  The cluster and the eviction contract of the workload service are the
    class [reaperEnv]; a cycle yields the trace of the calls it made.  The [nat]
    of [rp_Evict] is the number of calls made before, so that a contract may answer
    differently each time; the listings of the cluster are those of one cycle. *)

From stdpp Require Import base gmap strings list fin_maps sets.
From Stdlib Require Import ZArith Lia.
From S2P Require Import Prelude GoValue Store EventBus Crud AdmissionTypes AdmissionPlan SchedulerRepository SchedulerHandlers.
Local Open Scope Z_scope.
Local Open Scope go_scope.

Definition planWindowGracePeriod : Z := 5 * 60 * nanos_per_second.
Definition reasonNoActivePlan : string := "No active resource plan".
Definition reasonValidityEnded : string := "Plan validity period expired".
Definition reasonWindowClosed : string := "Plan window expired".
Definition LabelJobID : string := "platform-go/job-id".

(** cluster.PodInfo: the fields the reaper reads. *)
Record PodInfo := Pod { pd_Name : string; pd_Labels : gmap string string }.

Class reaperEnv := {
  rp_client : result string unit;
  rp_ClusterConfigured : bool;
  rp_ListProjectNamespaces : string -> result string (list string);
  rp_ListPodsByLabel : string -> string -> result string (list PodInfo);
  rp_Evict : nat -> string -> string -> option string
}.

(** A call to the eviction contract with its outcome, a clean-up. *)
Inductive reap_call :=
| CallEvict (jobID reason : string) (err : option string)
| CallCleanup (namespace jobID : string).

Section Reaper.
Context `{GoLib}.

Definition planValidityExpired (data : object) (now : Z) : bool :=
  if match admissionTimeValue data ["valid_from"; "validFrom"; "ValidFrom"] with
     | Some from => now <? from | None => false end then true
  else if match admissionTimeValue data ["valid_until"; "validUntil"; "ValidUntil"] with
          | Some until => until <? now | None => false end then true
  else false.

Definition planWindowEvictionReason (s : store) (project : record) (now checkTime : Z) : string :=
  let planID := project_plan_id project in
  if str_empty planID then reasonNoActivePlan
  else match GetPlan s planID with
       | None => reasonNoActivePlan
       | Some plan =>
           if planValidityExpired (rec_Data plan) now then reasonValidityEnded
           else if negb (admissionWeekWindowsContain (admissionWeekWindows (rec_Data plan)) checkTime)
           then reasonWindowClosed
           else ""
       end.

Context `{reaperEnv}.

Definition evict_key (namespace jobID : string) : string := namespace +:+ "/" +:+ jobID.
Definition pod_job (pod : PodInfo) : string := TrimSpace (default "" (pd_Labels pod !! LabelJobID)).

(** The state of a pass over a project: the jobs evicted so far, and the trace. *)
Definition evictPlanWindowPod (deletionEnabled : bool) (namespace reason : string) (st : gset string * list reap_call)
    (pod : PodInfo) : gset string * list reap_call :=
  let jobID := pod_job pod in
  if str_empty jobID then st
  else if bool_decide (evict_key namespace jobID ∈ st.1) then st
  else if negb deletionEnabled then st
  else
    let err := rp_Evict (length st.2) jobID reason in
    let trace := st.2 ++ [CallEvict jobID reason err] in
    match err with
    | Some _ => (st.1, trace)
    | None => ({[evict_key namespace jobID]} ∪ st.1, trace ++ [CallCleanup namespace jobID])
    end.

Definition evict_namespace (deletionEnabled : bool) (reason : string) (st : gset string * list reap_call)
    (namespace : string) : gset string * list reap_call :=
  match rp_ListPodsByLabel namespace LabelJobID with
  | Err _ => st
  | Ok pods => fold_left (evictPlanWindowPod deletionEnabled namespace reason) pods st
  end.

Definition evictProjectJobs (deletionEnabled : bool) (projectID reason : string) (trace : list reap_call) : list reap_call :=
  match rp_ListProjectNamespaces projectID with
  | Err _ => trace
  | Ok namespaces => (fold_left (evict_namespace deletionEnabled reason) namespaces (∅, trace)).2
  end.

Definition reap_project (s : store) (deletionEnabled : bool) (now : Z) (trace : list reap_call) (project : record)
    : list reap_call :=
  let reason := planWindowEvictionReason s project now (now - planWindowGracePeriod) in
  if str_empty reason then trace else evictProjectJobs deletionEnabled (rec_ID project) reason trace.

Context `{admissionReader}.

Definition reapExpiredPlanWindowsWithReader (s : store) (now : Z) (deletionEnabled : bool) : list reap_call :=
  if negb rp_ClusterConfigured then []
  else fold_left (reap_project s deletionEnabled now) rd_ListProjects [].

(** The task registerPlanWindowReaper installs. *)
Definition planWindowReaperTask (s : store) (now : Z) (deletionEnabled : bool) : list reap_call :=
  match rp_client with
  | Err _ => []
  | Ok _ => reapExpiredPlanWindowsWithReader s now deletionEnabled
  end.

(** ** What a cycle does *)

(** A unit of work: a job is marked evicted and, if that succeeded, cleaned up. *)
Record reap_unit := Reap { u_namespace : string; u_job : string; u_reason : string; u_err : option string }.

Definition unit_calls (u : reap_unit) : list reap_call :=
  CallEvict (u_job u) (u_reason u) (u_err u) ::
  match u_err u with None => [CallCleanup (u_namespace u) (u_job u)] | Some _ => [] end.

Definition cleaned (us : list reap_unit) : list (string * string) :=
  omap (fun u => match u_err u with None => Some (u_namespace u, u_job u) | Some _ => None end) us.

(** The unit concerns a pod that runs in a namespace of the project. *)
Definition runs_in (projectID : string) (u : reap_unit) : Prop :=
  exists namespaces pods pod, rp_ListProjectNamespaces projectID = Ok namespaces /\ u_namespace u ∈ namespaces /\
    rp_ListPodsByLabel (u_namespace u) LabelJobID = Ok pods /\ pod ∈ pods /\ u_job u = pod_job pod /\ u_job u ≠ "".

Definition justified (s : store) (deletionEnabled : bool) (now : Z) (project : record) (u : reap_unit) : Prop :=
  deletionEnabled = true /\ u_reason u ≠ "" /\
  u_reason u = planWindowEvictionReason s project now (now - planWindowGracePeriod) /\ runs_in (rec_ID project) u.

(** A job is dealt with when some unit of the pass is about it. *)
Definition handled (us : list reap_unit) (namespace : string) (pod : PodInfo) : Prop :=
  pod_job pod = "" \/ exists u, u ∈ us /\ evict_key (u_namespace u) (u_job u) = evict_key namespace (pod_job pod).

(** A pass from [trace0]: units that satisfy [P], no job cleaned twice, and the jobs
    marked are those of the units. *)
Record pass (P : reap_unit -> Prop) (trace0 : list reap_call) (st : gset string * list reap_call) (us : list reap_unit) : Prop := {
  pass_trace : st.2 = trace0 ++ concat (map unit_calls us);
  pass_units : Forall P us;
  pass_once : NoDup (cleaned us);
  pass_marked : forall ns job, (ns, job) ∈ cleaned us -> evict_key ns job ∈ st.1;
  pass_handled : forall k, k ∈ st.1 -> exists u, u ∈ us /\ evict_key (u_namespace u) (u_job u) = k
}.

Lemma cleaned_app us vs : cleaned (us ++ vs) = cleaned us ++ cleaned vs.
Proof. apply omap_app. Qed.

Lemma handled_mono us vs ns pod : handled us ns pod -> handled (us ++ vs) ns pod.
Proof. intros [|(u & ? & ?)]; [by left|right]. exists u. split; [apply elem_of_app; by left|done]. Qed.

(** A unit is added: a failed eviction, or a successful one of a job not yet marked. *)
Lemma pass_step P trace0 st us u :
  P u -> evict_key (u_namespace u) (u_job u) ∉ st.1 -> pass P trace0 st us ->
  pass P trace0 (match u_err u with Some _ => st.1 | None => {[evict_key (u_namespace u) (u_job u)]} ∪ st.1 end,
                 st.2 ++ unit_calls u) (us ++ [u]).
Proof.
  intros HP Hin [Ht Hf Hn Hk Hh]. constructor; cbn [fst snd].
  - rewrite Ht, map_app, concat_app. cbn. by rewrite app_nil_r, app_assoc.
  - apply Forall_app. split; [done|]. by constructor.
  - rewrite cleaned_app. apply NoDup_app. split; [done|]. cbn. destruct (u_err u); [split; [|constructor]; set_solver|].
    split; [|apply NoDup_singleton]. intros x Hc ->%list_elem_of_singleton. by apply Hin, Hk.
  - intros ns job. rewrite cleaned_app, elem_of_app. cbn. destruct (u_err u).
    + intros [Hc|Hc]; [by apply Hk|]. by apply elem_of_nil in Hc.
    + rewrite list_elem_of_singleton. intros [Hc|[= -> ->]]; [apply Hk in Hc|]; set_solver.
  - intros k Hin'. assert (k ∈ st.1 \/ k = evict_key (u_namespace u) (u_job u)) as [(u' & ? & ?)%Hh| ->].
    { destruct (u_err u); [by left|]. set_solver. }
    + exists u'. split; [apply elem_of_app; by left|done].
    + exists u. split; [apply elem_of_app; right; left|done].
Qed.

Lemma pass_pod (P : reap_unit -> Prop) trace0 ns reason st pod us :
  (pod_job pod ≠ "" -> forall err, P (Reap ns (pod_job pod) reason err)) -> pass P trace0 st us ->
  exists vs, pass P trace0 (evictPlanWindowPod true ns reason st pod) (us ++ vs) /\ handled (us ++ vs) ns pod.
Proof.
  intros HP Hp. unfold evictPlanWindowPod, str_empty. cbn zeta.
  destruct (String.eqb_spec (pod_job pod) "") as [|Hj]; [exists []; rewrite app_nil_r; split; [done|by left]|].
  case_bool_decide as Hin.
  { exists []. rewrite app_nil_r. split; [done|]. right. by apply (pass_handled _ _ _ _ Hp). }
  set (err := rp_Evict _ _ _). exists [Reap ns (pod_job pod) reason err].
  pose proof (pass_step P trace0 st us (Reap ns (pod_job pod) reason err) (HP Hj err) Hin Hp) as Hs.
  unfold unit_calls in Hs. cbn [u_namespace u_job u_reason u_err negb] in *. split.
  - destruct err; [done|]. by rewrite <- app_assoc.
  - right. eexists. split; [apply elem_of_app; right; left|done].
Qed.

Lemma pass_pods (P : reap_unit -> Prop) trace0 ns reason pods : forall st us,
  (forall pod err, pod ∈ pods -> pod_job pod ≠ "" -> P (Reap ns (pod_job pod) reason err)) -> pass P trace0 st us ->
  exists vs, pass P trace0 (fold_left (evictPlanWindowPod true ns reason) pods st) (us ++ vs) /\
    Forall (handled (us ++ vs) ns) pods.
Proof.
  induction pods as [|pod pods IH]; intros st us HP Hp; [exists []; rewrite app_nil_r; by split|]. cbn [fold_left].
  destruct (pass_pod P trace0 ns reason st pod us) as (vs & Hp' & Hh); [|done|].
  - intros Hj err. apply HP; [left|done].
  - destruct (IH _ (us ++ vs) (fun pod' err Hin => HP pod' err (list_elem_of_further _ _ _ Hin)) Hp') as (ws & Hq & Hf).
    exists (vs ++ ws). rewrite app_assoc. split; [done|]. constructor; [by apply handled_mono|done].
Qed.

Lemma pass_namespaces (P : reap_unit -> Prop) trace0 reason nss : forall st us,
  (forall ns pods pod err, ns ∈ nss -> rp_ListPodsByLabel ns LabelJobID = Ok pods -> pod ∈ pods ->
     pod_job pod ≠ "" -> P (Reap ns (pod_job pod) reason err)) -> pass P trace0 st us ->
  exists vs, pass P trace0 (fold_left (evict_namespace true reason) nss st) (us ++ vs) /\
    Forall (fun ns => forall pods, rp_ListPodsByLabel ns LabelJobID = Ok pods -> Forall (handled (us ++ vs) ns) pods) nss.
Proof.
  induction nss as [|ns nss IH]; intros st us HP Hp; [exists []; rewrite app_nil_r; by split|]. cbn [fold_left].
  assert (exists vs, pass P trace0 (evict_namespace true reason st ns) (us ++ vs) /\
    forall pods, rp_ListPodsByLabel ns LabelJobID = Ok pods -> Forall (handled (us ++ vs) ns) pods) as (vs & Hp' & Hh).
  { unfold evict_namespace. destruct (rp_ListPodsByLabel ns LabelJobID) as [pods|] eqn:E.
    - destruct (pass_pods P trace0 ns reason pods st us) as (vs & ? & ?); [|done|exists vs; split; [done|by intros ? [= <-]]].
      intros pod err. eapply HP; [left|done].
    - exists []. rewrite app_nil_r. by split. }
  destruct (IH _ (us ++ vs) (fun ns' pods pod err Hin => HP ns' pods pod err (list_elem_of_further _ _ _ Hin)) Hp')
    as (ws & Hq & Hf).
  exists (vs ++ ws). rewrite app_assoc. split; [done|]. constructor; [|done].
  intros pods Hpods. eapply Forall_impl; [by apply Hh|]. intros. by apply handled_mono.
Qed.

(** Nothing is done while deletion is disabled. *)
Lemma evict_namespaces_disabled reason nss st : fold_left (evict_namespace false reason) nss st = st.
Proof.
  revert st. induction nss as [|ns nss IH]; intros st; [done|]. cbn [fold_left]. rewrite <- (IH st) at 2. f_equal.
  unfold evict_namespace. destruct (rp_ListPodsByLabel ns LabelJobID) as [pods|]; [|done].
  revert st. induction pods as [|pod pods IHp]; intros st; [done|]. cbn [fold_left]. rewrite <- (IHp st) at 2. f_equal.
  unfold evictPlanWindowPod. cbn zeta. destruct (str_empty _); [done|]. by case_bool_decide.
Qed.

(** What the cycle owes a project: every job that runs in its namespaces is handled
    when its plan lapsed and deletion is enabled. *)
Definition complete (s : store) (deletionEnabled : bool) (now : Z) (project : record) (us : list reap_unit) : Prop :=
  deletionEnabled = true -> planWindowEvictionReason s project now (now - planWindowGracePeriod) ≠ "" ->
  forall namespaces namespace pods pod, rp_ListProjectNamespaces (rec_ID project) = Ok namespaces ->
    namespace ∈ namespaces -> rp_ListPodsByLabel namespace LabelJobID = Ok pods -> pod ∈ pods -> handled us namespace pod.

Definition project_pass (s : store) (deletionEnabled : bool) (now : Z) (project : record) (us : list reap_unit) : Prop :=
  Forall (justified s deletionEnabled now project) us /\ NoDup (cleaned us) /\ complete s deletionEnabled now project us.

(** One project: its units and the trace they append. *)
Lemma reap_project_units s de now trace project :
  exists us, project_pass s de now project us /\
    reap_project s de now trace project = trace ++ concat (map unit_calls us).
Proof.
  assert (Hnone : (de = true -> planWindowEvictionReason s project now (now - planWindowGracePeriod) ≠ "" ->
      exists e, rp_ListProjectNamespaces (rec_ID project) = Err e) ->
    exists us, project_pass s de now project us /\ trace = trace ++ concat (map unit_calls us)).
  { intros He. exists []. cbn. rewrite app_nil_r. split; [|done]. split; [constructor|]. split; [constructor|].
    intros Hde Hr nss ns pods pod Hn. destruct (He Hde Hr). congruence. }
  unfold reap_project, str_empty. cbn zeta.
  destruct (String.eqb_spec (planWindowEvictionReason s project now (now - planWindowGracePeriod)) "") as [|Hr];
    [by apply Hnone|].
  unfold evictProjectJobs. pose proof (eq_refl (rp_ListProjectNamespaces (rec_ID project))) as En.
  destruct (rp_ListProjectNamespaces (rec_ID project)) as [nss|e] in En at 2 |- * at 1; [|apply Hnone; eauto].
  destruct de; [|rewrite evict_namespaces_disabled; by apply Hnone]. clear Hnone.
  destruct (pass_namespaces (justified s true now project) trace
    (planWindowEvictionReason s project now (now - planWindowGracePeriod)) nss (∅, trace) []) as (us & Hp & Hh).
  - intros ns pods pod err Hns Hpods Hpod Hj. unfold justified. cbn. split_and!; [done..|]. by exists nss, pods, pod.
  - constructor; cbn; [by rewrite app_nil_r|constructor|constructor|intros ? ? []%not_elem_of_nil|set_solver].
  - exists us. destruct Hp as [Ht Hf Ho _ _]. split; [|done]. unfold project_pass. split_and!; [done|done|].
    intros _ _ nss' ns pods pod Hn Hns Hpods Hpod. assert (nss' = nss) as -> by congruence. rewrite Forall_forall in Hh.
    specialize (Hh ns Hns pods Hpods). rewrite Forall_forall in Hh. by apply Hh.
Qed.

Lemma reap_projects_units s de now projects : forall trace,
  exists passes, Forall2 (project_pass s de now) projects passes /\
    fold_left (reap_project s de now) projects trace = trace ++ concat (map unit_calls (concat passes)).
Proof.
  induction projects as [|project projects IH]; intros trace.
  { exists []. cbn. rewrite app_nil_r. split; [constructor|done]. }
  cbn [fold_left]. destruct (reap_project_units s de now trace project) as (us & Hp & ->).
  destruct (IH (trace ++ concat (map unit_calls us))) as (passes & Hps & ->).
  exists (us :: passes). split; [by constructor|]. cbn [concat]. by rewrite map_app, concat_app, app_assoc.
Qed.

(** A cycle of the reaper, with the cluster and the eviction contract at hand, is
    a series of units of work, project by project: a job is first marked evicted
    through its owner and is cleaned up right after that succeeded, never otherwise
    and at most once in a pass over a project; each unit concerns a pod in a
    namespace of a project whose plan lapsed, and while deletion is disabled there
    is none; otherwise every job found in the namespaces of such a project is dealt
    with. *)
Theorem reaper_evicts_before_cleanup s now deletionEnabled :
  rp_client = Ok tt -> rp_ClusterConfigured = true ->
  exists passes, Forall2 (project_pass s deletionEnabled now) rd_ListProjects passes /\
    planWindowReaperTask s now deletionEnabled = concat (map unit_calls (concat passes)).
Proof.
  intros Hc Hcl. unfold planWindowReaperTask, reapExpiredPlanWindowsWithReader. rewrite Hc, Hcl. apply reap_projects_units.
Qed.

End Reaper.

Section Agreement.
Context `{GoLib}.

Lemma admissionPlanActive_split data now :
  admissionPlanActive data now =
  negb (planValidityExpired data now) && admissionWeekWindowsContain (admissionWeekWindows data) now.
Proof.
  unfold planValidityExpired, admissionPlanActive.
  destruct (admissionTimeValue data ["valid_from"; "validFrom"; "ValidFrom"]) as [from|];
    [destruct (now <? from); [done|]|];
    (destruct (admissionTimeValue data ["valid_until"; "validUntil"; "ValidUntil"]) as [until|]; [destruct (until <? now)|]; done).
Qed.

(** Admission would accept the plan of the project at [t]. *)
Definition plan_accepted (s : store) (project : record) (t : Z) : Prop :=
  exists plan, @admissionProjectPlan _ (storeAdmissionReader s) project t = Ok plan.

Lemma plan_accepted_spec s project t :
  plan_accepted s project t <->
  project_plan_id project ≠ "" /\ exists plan, GetPlan s (project_plan_id project) = Some plan /\
    admissionPlanActive (rec_Data plan) t = true.
Proof.
  unfold plan_accepted, admissionProjectPlan. cbn zeta. fold (project_plan_id project). unfold str_empty.
  destruct (String.eqb_spec (project_plan_id project) "") as [->|Hne]; [split; [intros [? [=]]|by intros [? _]]|].
  cbn [rd_Plan storeAdmissionReader]. unfold GetPlan.
  destruct (Get s plansResource _) as [plan|]; [|split; [intros [? [=]]|by intros (_ & ? & [=] & _)]].
  destruct (admissionPlanActive (rec_Data plan) t) eqn:E; split.
  - intros _. split; [done|]. by exists plan.
  - intros _. by exists plan.
  - intros [? [=]].
  - intros (_ & ? & [= <-] & Ha). congruence.
Qed.

(** The reaper and admission agree on which plans are in force: judged at the
    same instant, the jobs of a project are evicted exactly when a submit to it
    would be refused for its plan; and with the grace period, a project whose plan
    admission accepts now and accepted five minutes ago is spared. *)
Theorem reaper_agrees_with_admission s project now :
  (planWindowEvictionReason s project now now = "" <-> plan_accepted s project now) /\
  (plan_accepted s project now -> plan_accepted s project (now - planWindowGracePeriod) ->
   planWindowEvictionReason s project now (now - planWindowGracePeriod) = "").
Proof.
  rewrite !plan_accepted_spec. unfold planWindowEvictionReason, str_empty. cbn zeta.
  destruct (String.eqb_spec (project_plan_id project) "") as [->|Hne]; [split; [split; [done|by intros [? _]]|by intros [? _]]|].
  destruct (GetPlan s (project_plan_id project)) as [plan|];
    [|split; [split; [done|by intros (_ & ? & [=] & _)]|by intros (_ & ? & [=] & _)]].
  setoid_rewrite admissionPlanActive_split. split; [split|].
  - intros Hr. split; [done|]. exists plan. split; [done|].
    destruct (planValidityExpired _ _); [done|]. by destruct (admissionWeekWindowsContain _ _).
  - intros (_ & ? & [= <-] & [Hv ->]%andb_true_iff). by destruct (planValidityExpired _ _).
  - intros (_ & ? & [= <-] & [Hv _]%andb_true_iff) (_ & ? & [= <-] & [_ ->]%andb_true_iff).
    by destruct (planValidityExpired _ _).
Qed.

End Agreement.

(** ** A concrete cycle

    Project p1 has no plan; the job "b" cannot be marked at first.  The cycle retries
    it with its second pod, leaves the unlabelled pod alone and cleans each job once. *)

Definition reaper_lib : GoLib := {|
  parse_quantity _ := None; parse_float _ := None; parse_int64 _ := None; parse_rfc3339 _ := None;
  format_rfc3339 _ := ""; time_string _ := ""; unmarshal_object _ := None;
  unmarshal_objects _ := None; unmarshal_strings _ := None; marshal _ := None; sprint _ := "";
  sprintf f _ := f; sha256_hex s := s |}.
Definition job_pod (name job : string) : PodInfo := Pod name {[ LabelJobID := job ]}.
Definition reaper_cluster : reaperEnv := {|
  rp_client := Ok tt; rp_ClusterConfigured := true;
  rp_ListProjectNamespaces id := if String.eqb id "p1" then Ok ["n1"] else Err "unreachable";
  rp_ListPodsByLabel _ _ := Ok [job_pod "x" "a"; job_pod "y" "b"; Pod "z" ∅; job_pod "w" " a "; job_pod "v" "b"];
  rp_Evict n job _ := if (n <=? 2)%nat && String.eqb job "b" then Some "busy" else None |}.
Definition reaper_store : store :=
  Store_ {[ projectsResource := {[ "p1" := Record_ "p1" ∅ 1 0 0 ]} ]} ∅.
Definition reaper_trace (deletionEnabled : bool) : list reap_call :=
  @planWindowReaperTask reaper_lib reaper_cluster (storeAdmissionReader reaper_store) reaper_store 0 deletionEnabled.

Example reaper_cycle :
  reaper_trace true =
    [CallEvict "a" reasonNoActivePlan None; CallCleanup "n1" "a"; CallEvict "b" reasonNoActivePlan (Some "busy");
     CallEvict "b" reasonNoActivePlan None; CallCleanup "n1" "b"] /\
  reaper_trace false = [].
Proof. split; vm_compute; reflexivity. Qed.

Lemma reaper_evicts_before_cleanup_witness :
  exists us, @project_pass reaper_lib reaper_cluster reaper_store true 0 (Record_ "p1" ∅ 1 0 0) us /\
    reaper_trace true = concat (map unit_calls us).
Proof.
  destruct (@reaper_evicts_before_cleanup reaper_lib reaper_cluster (storeAdmissionReader reaper_store) reaper_store 0 true
    eq_refl eq_refl) as (passes & Hf & Ht).
  change (@rd_ListProjects (storeAdmissionReader reaper_store)) with (List_ reaper_store projectsResource) in Hf.
  replace (List_ reaper_store projectsResource) with [Record_ "p1" ∅ 1 0 0] in Hf by (vm_compute; reflexivity).
  apply Forall2_cons_inv_l in Hf as (us & rest & Hp & Hr & ->). apply Forall2_nil_inv_l in Hr as ->.
  exists us. split; [exact Hp|]. unfold reaper_trace. rewrite Ht. cbn. by rewrite app_nil_r.
Defined.
