(* ===== verification/WorkloadTypes.v ===== *)
(** * Workload service: statuses, observed life cycles and project access
    (internal/services/workload/project_access.go, the constants of dispatcher.go,
    preemption_contracts.go and runtime_reaper.go, internal/platform/cluster/status.go)

    A job is a record of the store; its status is text.  What Kubernetes reports about
    the objects of a job is collapsed into one life-cycle state. *)

From stdpp Require Import base gmap strings list fin_maps.
From Stdlib Require Import ZArith Lia Ascii.
From S2P Require Import Prelude GoValue Store EventBus Crud RateLimit InputLimits Config Auth Guards SchedulerHttp.
Local Open Scope Z_scope.

Definition serviceName : string := "workload-service".
Definition schedulerServiceName : string := "scheduler-quota-service".
Definition jobsResource : string := serviceName +:+ ":jobs".
Definition jobCommandsResource : string := jobsResource +:+ ":commands".

(** ** Statuses *)

Definition jobStatusSubmitted : string := "submitted".
Definition jobStatusWaitingInfra : string := "waiting_infra".
Definition jobStatusQueued : string := "queued".
Definition jobStatusRunning : string := "running".
Definition jobStatusCompleted : string := "completed".
Definition jobStatusFailed : string := "failed".
Definition jobStatusPreempted : string := "preempted".
Definition jobStatusEvicted : string := "evicted".

Definition preemptibleJobStatuses : list string := [jobStatusRunning; "partial-preempted"].
Definition terminalJobStatuses : list string :=
  [jobStatusCompleted; jobStatusFailed; "cancelled"; jobStatusPreempted; "evicted"].
Definition activeJobStatuses : list string := ["pending"; "queued"; "scheduled"; "running"; "active"].
Definition statusReconcilerLiveStatuses : list string :=
  [jobStatusSubmitted; jobStatusWaitingInfra; jobStatusQueued; jobStatusRunning; "pending"; "scheduled"; "active"].

(** [m[status]] on one of the maps above. *)
Definition has_status (set : list string) (status : string) : bool := bool_decide (status ∈ set).

Definition zero_time : Z := -62135596800000000000.
Definition IsZero (t : Z) : bool := t =? zero_time.

(** ** What Kubernetes reports *)

Definition JobLifecycleQueued : string := "queued".
Definition JobLifecycleRunning : string := "running".
Definition JobLifecycleCompleted : string := "completed".
Definition JobLifecycleFailed : string := "failed".

Record JobLifecycle := Lifecycle {
  lc_JobID : string;
  lc_Namespace : string;
  lc_Status : string;
  lc_Reason : string;
  lc_StartedAt : option Z;
  lc_CompletedAt : option Z;
  lc_Found : bool
}.

(** The fields read of batchv1.Job, corev1.Pod and appsv1.Deployment. *)
Record condition := Condition { cd_Type : string; cd_Status : string; cd_Reason : string; cd_Message : string; cd_LastUpdateTime : Z }.
Record batchJob := BatchJob { bj_StartTime : option Z; bj_CompletionTime : option Z; bj_Conditions : list condition; bj_Active : Z }.
Record podState := PodState { po_StartTime : option Z; po_terminated : list (option Z); po_Phase : string }.
Record deployment := Deployment { dp_Conditions : list condition; dp_AvailableReplicas : Z; dp_ReadyReplicas : Z }.

Definition timePtr (t : option Z) : option Z :=
  match t with Some z => if IsZero z then None else Some z | None => None end.

Definition lifecycleReason (reason0 message0 fallback : string) : string :=
  let reason := TrimSpace reason0 in
  let msg := TrimSpace message0 in
  if negb (str_empty reason) && negb (str_empty msg) then reason +:+ ": " +:+ msg
  else if negb (str_empty msg) then msg
  else if negb (str_empty reason) then reason
  else fallback.

Definition observed_as (status reason : string) (started completed : option Z) : JobLifecycle :=
  Lifecycle "" "" status reason started completed true.

(** The loop over the conditions of a Job: the first true one that decides. *)
Fixpoint batch_condition (l : list condition) : option (string * string) :=
  match l with
  | [] => None
  | c :: l' =>
      if negb (String.eqb (cd_Status c) "True") then batch_condition l'
      else if String.eqb (cd_Type c) "Complete"
      then Some (JobLifecycleCompleted, lifecycleReason (cd_Reason c) (cd_Message c) "Kubernetes Job completed")
      else if String.eqb (cd_Type c) "Failed"
      then Some (JobLifecycleFailed, lifecycleReason (cd_Reason c) (cd_Message c) "Kubernetes Job failed")
      else batch_condition l'
  end.

Definition lifecycleFromBatchJob (j : batchJob) : JobLifecycle :=
  let at_ status reason := observed_as status reason (timePtr (bj_StartTime j)) (timePtr (bj_CompletionTime j)) in
  match batch_condition (bj_Conditions j) with
  | Some (status, reason) => at_ status reason
  | None => if 0 <? bj_Active j then at_ JobLifecycleRunning "Kubernetes Job has active pods"
            else at_ JobLifecycleQueued "Kubernetes Job is queued"
  end.

Definition terminatedAtFromPod (finished : list (option Z)) : option Z :=
  fold_left (fun latest f =>
    match f with
    | None => latest
    | Some t => if IsZero t then latest
                else match latest with Some l => if l <? t then Some t else latest | None => Some t end
    end) finished None.

Definition lifecycleFromPod (p : podState) : JobLifecycle :=
  let '(status, reason) :=
    if String.eqb (po_Phase p) "Succeeded" then (JobLifecycleCompleted, "Pod succeeded")
    else if String.eqb (po_Phase p) "Failed" then (JobLifecycleFailed, "Pod failed")
    else if String.eqb (po_Phase p) "Running" then (JobLifecycleRunning, "Pod is running")
    else (JobLifecycleQueued, "Pod is queued") in
  observed_as status reason (timePtr (po_StartTime p)) (terminatedAtFromPod (po_terminated p)).

Definition lifecycleFromDeployment (d : deployment) : JobLifecycle :=
  match List.find (fun c => String.eqb (cd_Type c) "Progressing" && String.eqb (cd_Status c) "False") (dp_Conditions d) with
  | Some c => observed_as JobLifecycleFailed (lifecycleReason (cd_Reason c) (cd_Message c) "Deployment failed progressing")
                None (Some (cd_LastUpdateTime c))
  | None => if (0 <? dp_AvailableReplicas d) || (0 <? dp_ReadyReplicas d)
            then observed_as JobLifecycleRunning "Deployment has available replicas" None None
            else observed_as JobLifecycleQueued "Deployment is queued" None None
  end.

Definition firstLifecycleStatus (statuses : list JobLifecycle) (value : string) : option JobLifecycle :=
  List.find (fun s => String.eqb (lc_Status s) value) statuses.

Definition mergeLifecycleTimes (base observed : JobLifecycle) : JobLifecycle :=
  let started := match lc_StartedAt observed, lc_StartedAt base with
                 | Some o, Some b => if o <? b then Some o else Some b
                 | Some o, None => Some o
                 | None, b => b
                 end in
  let completed := match lc_CompletedAt observed, lc_CompletedAt base with
                   | Some o, Some b => if b <? o then Some o else Some b
                   | Some o, None => Some o
                   | None, b => b
                   end in
  Lifecycle (lc_JobID base) (lc_Namespace base) (lc_Status base) (lc_Reason base) started completed (lc_Found base).

Definition firstTime (left right : option Z) : option Z := match left with Some _ => left | None => right end.

Definition collapse_as (base : JobLifecycle) (status reason : string) (completed : option Z) : JobLifecycle :=
  Lifecycle (lc_JobID base) (lc_Namespace base) status reason (lc_StartedAt base) completed true.

Definition collapseLifecycleStatuses (base : JobLifecycle) (statuses : list JobLifecycle) : JobLifecycle :=
  match statuses with
  | [] => base
  | _ =>
      let b := fold_left mergeLifecycleTimes statuses base in
      match firstLifecycleStatus statuses JobLifecycleFailed with
      | Some f => collapse_as b JobLifecycleFailed (lc_Reason f) (firstTime (lc_CompletedAt b) (lc_CompletedAt f))
      | None =>
          match firstLifecycleStatus statuses JobLifecycleRunning with
          | Some r => collapse_as b JobLifecycleRunning (lc_Reason r) (lc_CompletedAt b)
          | None =>
              match firstLifecycleStatus statuses JobLifecycleQueued with
              | Some q => collapse_as b JobLifecycleQueued (lc_Reason q) (lc_CompletedAt b)
              | None =>
                  match firstLifecycleStatus statuses JobLifecycleCompleted with
                  | Some c => collapse_as b JobLifecycleCompleted (lc_Reason c) (firstTime (lc_CompletedAt b) (lc_CompletedAt c))
                  | None => collapse_as b JobLifecycleCompleted (lc_Reason b) (lc_CompletedAt b)
                  end
              end
          end
      end
  end.

Definition collapseNativeLifecycle (base : JobLifecycle) (jobs : list batchJob) (pods : list podState) (deployments : list deployment)
    : JobLifecycle :=
  collapseLifecycleStatuses base
    (map lifecycleFromBatchJob jobs ++ map lifecycleFromPod pods ++ map lifecycleFromDeployment deployments).

(** What the API server answers about the objects labelled with a job: its Jobs, Pods and
    Deployments and the states of its Volcano objects, or the text of an error. *)
Record observation := Observed { ob_jobs : list batchJob; ob_pods : list podState; ob_deployments : list deployment; ob_volcano : list JobLifecycle }.

Definition NativeJobLifecycle (answer : result string observation) (namespace jobID : string) : result string JobLifecycle :=
  let status := Lifecycle jobID namespace "" "" None None false in
  if str_empty (TrimSpace jobID) then Ok status
  else match answer with
       | Err e => Err e
       | Ok o =>
           let native := collapseNativeLifecycle status (ob_jobs o) (ob_pods o) (ob_deployments o) in
           Ok (collapseLifecycleStatuses status ((if lc_Found native then [native] else []) ++ ob_volcano o))
       end.

(** A life cycle that was found has one of the four states. *)
Lemma collapse_status base statuses :
  statuses ≠ [] ->
  lc_Found (collapseLifecycleStatuses base statuses) = true /\
  lc_Status (collapseLifecycleStatuses base statuses) ∈
    [JobLifecycleQueued; JobLifecycleRunning; JobLifecycleCompleted; JobLifecycleFailed].
Proof.
  intros Hne. unfold collapseLifecycleStatuses. destruct statuses as [|s l]; [done|].
  repeat case_match; cbn; set_solver.
Qed.

Lemma NativeJobLifecycle_status answer namespace jobID lc :
  NativeJobLifecycle answer namespace jobID = Ok lc ->
  (lc_Found lc = false /\ lc_Status lc = "") \/
  (lc_Found lc = true /\ lc_Status lc ∈ [JobLifecycleQueued; JobLifecycleRunning; JobLifecycleCompleted; JobLifecycleFailed]).
Proof.
  unfold NativeJobLifecycle. destruct (str_empty _); [intros [= <-]; by left|].
  destruct answer as [o|]; [|done]. intros [= <-].
  match goal with |- context [collapseLifecycleStatuses ?b ?l] => destruct l as [|x l'] eqn:E; [by left|] end.
  right. by apply collapse_status.
Qed.

(** ** Requests *)

Record wl_request := WlRequest {
  wr_http : request;
  wr_body : result input_error object;
  wr_path : gmap string string;
  wr_now : Z;
  wr_uuid : string;
  wr_newid : string
}.

Definition wr_header (r : wl_request) (name : string) : string := Header_Get (wr_http r) name.
Definition wr_pathValue (r : wl_request) (name : string) : string := TrimSpace (default "" (wr_path r !! name)).

(** The shared record as the handlers print it. *)
Definition createStatus (e : store_error) : Z :=
  match e with EConflict _ => StatusConflict | EPublish => StatusInternalServerError end.

Section Workload.
Context `{GoLib}.

(** firstPresent of job_submit.go: the first key present with a value that is not nil. *)
Fixpoint firstPresent (payload : object) (keys : list string) : option any :=
  match keys with
  | [] => None
  | k :: ks => match payload !! k with
               | None | Some VNil => firstPresent payload ks
               | Some v => Some v
               end
  end.
Definition firstPayloadValue (payload : object) (keys : list string) : any := default VNil (firstPresent payload keys).

Definition currentJobStatus (data : object) : string := ToLower (TextValue data ["status"; "Status"]).
Definition jobPriority (data : object) : Z := IntValue data ["priority_value"; "priorityValue"; "priority"; "Priority"].
Definition jobProjectID (rc : record) : string := TextValue (rec_Data rc) ["project_id"; "projectId"].

Definition workloadJobPreemptible (data : object) : bool :=
  if BoolValue data ["is_preemptible"; "isPreemptible"; "preemptible"] then true
  else (0 <? jobPriority data) && (jobPriority data <? 10000).

Definition jobNamespace (prefix0 projectID : string) : string :=
  if str_empty projectID then ""
  else ToLower (FirstNonEmpty [TrimSpace prefix0; "proj"] +:+ "-" +:+ projectID).

Definition created_time (v : any) : option Z :=
  match v with
  | VTime t _ => Some t
  | VString s => parse_rfc3339 (TrimSpace s)
  | _ => None
  end.
Definition jobCreatedAt (data : object) (fallback : Z) : Z :=
  default fallback (first_key created_time data ["created_at"; "createdAt"; "CreatedAt"]).

(** ** Project access *)

Definition orgProjectsResource : string := "org-project-service:projects".
Definition orgProjectMembersResource : string := "org-project-service:project_members".
Definition msgProjectAccessDenied : string := "project access denied".

Definition findWorkloadProject (s : store) (projectID : string) : option record :=
  if str_empty projectID then None
  else match Get s orgProjectsResource projectID with
       | Some rc => Some rc
       | None => List.find (fun rc => String.eqb (TextValue (rec_Data rc) ["id"; "ID"; "p_id"; "PID"; "project_id"; "projectId"]) projectID)
                   (List_ s orgProjectsResource)
       end.

Definition memberRecordMatches (rc : record) (projectID userID : string) : bool :=
  String.eqb (TextValue (rec_Data rc) ["project_id"; "projectId"]) projectID &&
  String.eqb (TextValue (rec_Data rc) ["user_id"; "userId"]) userID.

Definition workloadProjectMember (s : store) (projectID userID : string) : bool :=
  if str_empty projectID || str_empty userID then false
  else
    existsb (fun id => match Get s orgProjectMembersResource id with
                       | Some rc => memberRecordMatches rc projectID userID
                       | None => false
                       end) [projectID +:+ ":" +:+ userID; projectID +:+ "/" +:+ userID]
    || existsb (fun rc => memberRecordMatches rc projectID userID) (List_ s orgProjectMembersResource).

Definition workloadAuthenticatedUserID (r : wl_request) : string := TrimSpace (wr_header r "X-User-ID").

Definition workloadRequestIsAdmin (r : wl_request) : bool :=
  let role := ToLower (TrimSpace (wr_header r "X-User-Role")) in
  if String.eqb role "admin" || String.eqb role "superadmin" || String.eqb role "root" then true
  else EqualFold (TrimSpace (wr_header r "X-Admin")) "true".

Context {ip : Type} (cfg : config ip).

Definition workloadProjectAccessEnforced : bool := cf_RequireAuth cfg.

(** [None] lets the request through; otherwise the answer. *)
Definition requireProjectAccess (s : store) (r : wl_request) (projectID0 : string) : option response :=
  if negb workloadProjectAccessEnforced then None
  else
    let projectID := TrimSpace projectID0 in
    let refused := Some (StatusForbidden, ErrorData msgProjectAccessDenied) in
    if str_empty projectID then Some (StatusBadRequest, ErrorData "project_id is required")
    else match findWorkloadProject s projectID with
         | None => refused
         | Some _ =>
             let userID := workloadAuthenticatedUserID r in
             if str_empty userID then refused
             else if workloadRequestIsAdmin r then None
             else if workloadProjectMember s projectID userID then None
             else refused
         end.

(** The projects a listing is restricted to; [None] stands for all of them. *)
Definition authorizedWorkloadProjects (s : store) (r : wl_request) : result response (option (gset string)) :=
  if negb workloadProjectAccessEnforced || workloadRequestIsAdmin r then Ok None
  else
    let userID := workloadAuthenticatedUserID r in
    if str_empty userID then Err (StatusForbidden, ErrorData msgProjectAccessDenied)
    else Ok (Some (list_to_set
      (filter (fun p => p ≠ "")
        (map jobProjectID
          (List.filter (fun rc => String.eqb (TextValue (rec_Data rc) ["user_id"; "userId"]) userID) (List_ s orgProjectMembersResource)))))).

Definition filterRecordsForAuthorizedProjects (records : list record) (projects : option (gset string)) : list record :=
  match projects with
  | None => records
  | Some ps => List.filter (fun rc => bool_decide (jobProjectID rc ∈ ps)) records
  end.

End Workload.
