(* ===== verification/WorkloadJobs.v ===== *)
(** * Workload service: the life of a job record
    (internal/services/workload/job_repository.go, reservation_release.go,
    status_reconciler.go, runtime_reaper.go, idle_reaper.go, eviction_contracts.go,
    preemption_contracts.go)

    Every writer of a job's status but the dispatcher and the submit handler: the
    reconciler of observed states, the two reapers, and the contracts by which the
    scheduler preempts and evicts.  Calls that leave the process (the release of a quota
    reservation, deletions in the cluster) are a trace; the answers of the cluster are
    an argument of each operation. *)

From stdpp Require Import base gmap strings list fin_maps.
From Stdlib Require Import ZArith Lia Ascii.
From S2P Require Import Prelude GoValue Store EventBus Crud RateLimit InputLimits Config Auth Guards SchedulerHttp WorkloadTypes.
Local Open Scope Z_scope.

Inductive wl_call :=
| CallRelease (reservationID : string)
| CallCleanup (namespace jobID : string)
| CallDelete (kind namespace name : string)
| CallDeletePod (namespace name : string)
| CallEnsureNamespace (namespace : string)
| CallEnsurePVC (namespace : string)
| CallCreate (namespace raw : string).

#[export] Instance wl_call_eq_dec : EqDecision wl_call.
Proof. solve_decision. Defined.

Record wl_state := WL { wl_store : store; wl_trace : list wl_call }.

Definition emit (c : wl_call) (st : wl_state) : wl_state := WL (wl_store st) (wl_trace st ++ [c]).
Definition with_store (st : wl_state) (s : store) : wl_state := WL s (wl_trace st).

(** The reservations whose release was requested. *)
Definition released (tr : list wl_call) : list string :=
  omap (fun c => match c with CallRelease id => Some id | _ => None end) tr.

(** ** The cluster *)

Record RuntimeResource := Runtime_ { rr_Kind : string; rr_Namespace : string; rr_Name : string; rr_Labels : gmap string string; rr_CreatedAt : Z }.
Record pod_info := Pod_ { pi_Name : string; pi_Namespace : string; pi_Annotations : gmap string string; pi_Labels : gmap string string }.

(** The answers of one run: observations by namespace and job, the listings (or an
    error), whether a clean-up or a deletion succeeds. *)
Record cluster_env := Cluster {
  ce_observe : string -> string -> result string observation;
  ce_runtime : result string (list RuntimeResource);
  ce_idle_pods : result string (list pod_info);
  ce_job_pods : result string (list pod_info);
  ce_cleanup : string -> string -> bool
}.

Definition LabelJobID : string := "platform-go/job-id".
Definition LabelProjectID : string := "platform-go/project-id".
Definition RuntimeLimitSecondsKey : string := "platform-go/runtime-limit-seconds".
Definition idleResourceTypeLabel : string := "platform-go/resource-type".
Definition lastActivityAnnotation : string := "platform-go/last-activity".
Definition interactiveResourcePrefix : string := "interactive-".
Definition defaultIdleTimeout : Z := 2 * time_Hour.
Definition staleJobGracePeriod : Z := 5 * time_Minute.

(** A key of a [map[string]string]. *)
Definition label (m : gmap string string) (key : string) : string := default "" (m !! key).

Section Jobs.
Context `{GoLib} {ip : Type} (cfg : config ip).

(** ** The repository *)

Definition FindJob (s : store) (idOrJobID : string) : option record :=
  if str_empty idOrJobID then None
  else match Get s jobsResource idOrJobID with
       | Some rc => Some rc
       | None => List.find (fun rc => String.eqb (TextValue (rec_Data rc) ["job_id"; "jobId"]) idOrJobID) (List_ s jobsResource)
       end.

Definition MarkPreempted (s : store) (recordID preemptionID requesterID reason0 : string) (cleanup : object) (preemptedAt completedAt0 now : Z)
    : store * option record :=
  let at_ := if IsZero preemptedAt then now else preemptedAt in
  let completedAt := if IsZero completedAt0 then at_ else completedAt0 in
  let reason := FirstNonEmpty [reason0; ""; "preempted by scheduler"] in
  Update s jobsResource recordID
    (list_to_map [("status", VString jobStatusPreempted); ("status_reason", VString reason);
      ("preemption_record_id", VString preemptionID); ("preempted_by_job_id", VString requesterID);
      ("preempted_at", VString (format_rfc3339 at_)); ("completed_at", VString (format_rfc3339 completedAt));
      ("cleanup", VMap cleanup); ("error_message", VString "")]) now.

Definition MarkEvicted (s : store) (recordID reason : string) (evictedAt completedAt0 now : Z) : store * option record :=
  let at_ := if IsZero evictedAt then now else evictedAt in
  let completedAt := if IsZero completedAt0 then at_ else completedAt0 in
  Update s jobsResource recordID
    (list_to_map [("status", VString jobStatusEvicted); ("status_reason", VString (FirstNonEmpty [reason; "evicted by plan window reaper"]));
      ("evicted_at", VString (format_rfc3339 at_)); ("completed_at", VString (format_rfc3339 completedAt));
      ("error_message", VString "")]) now.

Definition failed_update (reason : string) : object :=
  list_to_map [("status", VString jobStatusFailed); ("status_reason", VString reason)].

Definition MarkFailedIfActive (s : store) (jobID reason : string) (now : Z) : store * bool :=
  match FindJob s jobID with
  | None => (s, false)
  | Some rc =>
      if negb (has_status activeJobStatuses (currentJobStatus (rec_Data rc))) then (s, false)
      else match Update s jobsResource (rec_ID rc) (failed_update reason) now with
           | (s', Some _) => (s', true)
           | (s', None) => (s', false)
           end
  end.

Definition isStaleJobStatus (status : string) : bool := String.eqb status "running" || String.eqb status "queued".

Definition ListStaleJobCandidates (s : store) (now : Z) : list record :=
  List.filter (fun rc => isStaleJobStatus (currentJobStatus (rec_Data rc)) &&
      negb (now - jobCreatedAt (rec_Data rc) (rec_CreatedAt rc) <? staleJobGracePeriod)) (List_ s jobsResource).

Definition ListLifecycleReconcileCandidates (s : store) : list record :=
  List.filter (fun rc => has_status statusReconcilerLiveStatuses (currentJobStatus (rec_Data rc))) (List_ s jobsResource).

(** ** Reservations *)

(** newSchedulerReservationClient: whether the client could be built. *)
Definition newSchedulerReservationClient : bool :=
  AllowsService cfg schedulerServiceName ||
  (negb (str_empty (TrimSpace (default "" (cf_ServiceURLs cfg !! schedulerServiceName)))) && negb (str_empty (TrimSpace (cf_ServiceAPIKey cfg)))).

Definition reservation_of (job : object) : string := TrimSpace (TextValue job ["reservation_id"; "reservationId"]).

(** A failed release is logged; nothing else depends on it. *)
Definition releaseJobReservation (st : wl_state) (job : object) : wl_state :=
  if negb newSchedulerReservationClient || bool_decide (job = ∅) then st
  else if str_empty (reservation_of job) then st
  else emit (CallRelease (reservation_of job)) st.

(** ** The status reconciler *)

Definition lifecycleTimeOrNow (value : option Z) (now : Z) : string :=
  match value with
  | Some t => if IsZero t then format_rfc3339 now else format_rfc3339 t
  | None => format_rfc3339 now
  end.

Definition status_text (v : any) : string := TrimSpace (TextValue {[ "value" := v ]} ["value"]).

Definition sameStatusValue (current next : any) : bool :=
  match next with
  | VNil => match current with VNil => true | _ => false end
  | _ => String.eqb (status_text current) (status_text next)
  end.

Definition removeNoopStatusUpdate (data update : object) : object :=
  filter (fun kv => sameStatusValue (mget data kv.1) kv.2 = false) update.

Definition lifecycle_fields (data : object) (lc : JobLifecycle) (now : Z) : list (string * any) :=
  if String.eqb (lc_Status lc) jobStatusQueued then [("completed_at", VNil)]
  else if String.eqb (lc_Status lc) jobStatusRunning
  then ("completed_at", VNil) ::
       (if str_empty (TextValue data ["started_at"; "startedAt"]) then [("started_at", VString (lifecycleTimeOrNow (lc_StartedAt lc) now))] else [])
  else if String.eqb (lc_Status lc) jobStatusCompleted
  then [("completed_at", VString (lifecycleTimeOrNow (lc_CompletedAt lc) now)); ("error_message", VString "")]
  else if String.eqb (lc_Status lc) jobStatusFailed
  then [("completed_at", VString (lifecycleTimeOrNow (lc_CompletedAt lc) now));
        ("error_message", VString (FirstNonEmpty [lc_Reason lc; "Kubernetes workload failed"]))]
  else [].

Definition statusReconcileUpdate (rc : record) (lc : JobLifecycle) (now : Z) : object :=
  removeNoopStatusUpdate (rec_Data rc)
    (list_to_map ((if negb (String.eqb (currentJobStatus (rec_Data rc)) (lc_Status lc)) then [("status", VString (lc_Status lc))] else [])
      ++ (if str_empty (lc_Reason lc) then [] else [("status_reason", VString (lc_Reason lc))])
      ++ lifecycle_fields (rec_Data rc) lc now)).

Definition ApplyLifecycleObservation (s : store) (rc : record) (lc : JobLifecycle) (now : Z) : store * bool :=
  let update := statusReconcileUpdate rc lc now in
  if bool_decide (update = ∅) then (s, true)
  else match Update s jobsResource (rec_ID rc) update now with
       | (s', Some _) => (s', true)
       | (s', None) => (s', false)
       end.

Definition job_namespace (data : object) : string := TextValue data ["namespace"; "Namespace"; "pod_namespace"; "podNamespace"].

(** [Err] is the error that ends the run. *)
Definition reconcileNativeWorkloadRecord (ce : cluster_env) (st : wl_state) (rc : record) (now : Z) : wl_state * result string unit :=
  let namespace := job_namespace (rec_Data rc) in
  let jobID := FirstNonEmpty [TextValue (rec_Data rc) ["job_id"; "jobId"]; rec_ID rc] in
  if str_empty namespace || str_empty jobID then (st, Ok tt)
  else match NativeJobLifecycle (ce_observe ce namespace jobID) namespace jobID with
       | Err e => (st, Err e)
       | Ok lc =>
           if negb (lc_Found lc) || str_empty (lc_Status lc) then (st, Ok tt)
           else match ApplyLifecycleObservation (wl_store st) rc lc now with
                | (s, false) => (with_store st s, Ok tt)
                | (s, true) =>
                    let st' := with_store st s in
                    (if String.eqb (lc_Status lc) jobStatusCompleted || String.eqb (lc_Status lc) jobStatusFailed
                     then releaseJobReservation st' (rec_Data rc) else st', Ok tt)
                end
       end.

Fixpoint reconcile_records (ce : cluster_env) (st : wl_state) (records : list record) (now : Z) : wl_state * result string unit :=
  match records with
  | [] => (st, Ok tt)
  | rc :: rest => match reconcileNativeWorkloadRecord ce st rc now with
                  | (st', Ok _) => reconcile_records ce st' rest now
                  | (st', Err e) => (st', Err e)
                  end
  end.

Definition reconcileNativeWorkloadStatuses (ce : option cluster_env) (st : wl_state) (now : Z) : wl_state * result string unit :=
  match ce with
  | None => (st, Ok tt)
  | Some c => reconcile_records c st (ListLifecycleReconcileCandidates (wl_store st)) now
  end.

(** ** The reapers *)

Definition markJobFailed (st : wl_state) (jobID reason : string) (now : Z) : wl_state :=
  if str_empty jobID then st
  else match FindJob (wl_store st) jobID with
       | None => st
       | Some rc =>
           if negb (has_status activeJobStatuses (currentJobStatus (rec_Data rc))) then st
           else match MarkFailedIfActive (wl_store st) jobID reason now with
                | (s, false) => with_store st s
                | (s, true) => releaseJobReservation (with_store st s) (rec_Data rc)
                end
       end.

(** strconv.ParseInt(raw, 10, 64) is [parse_int64]; the product with time.Second wraps. *)
Definition runtimeLimitSeconds (labels : gmap string string) : option Z :=
  let raw := label labels RuntimeLimitSecondsKey in
  if str_empty raw then None
  else match parse_int64 raw with
       | Some seconds => if seconds <=? 0 then None else Some seconds
       | None => None
       end.

Definition runtimeLimitExpired (labels : gmap string string) (createdAt now : Z) : bool :=
  match runtimeLimitSeconds labels with
  | None => false
  | Some seconds => if IsZero createdAt then false else negb (now <? createdAt + i64 (seconds * time_Second))
  end.

Definition isPlatformManaged (labels : gmap string string) : bool :=
  negb (str_empty (label labels LabelJobID)) || negb (str_empty (label labels LabelProjectID)).

Definition reapRuntimeResource (ce : cluster_env) (now : Z) (acc : wl_state * gset string) (res : RuntimeResource) : wl_state * gset string :=
  let '(st, seenJobs) := acc in
  let jobID := label (rr_Labels res) LabelJobID in
  if negb (str_empty jobID) then
    let key := rr_Namespace res +:+ "/" +:+ jobID in
    if bool_decide (key ∈ seenJobs) then (st, seenJobs)
    else
      let st1 := emit (CallCleanup (rr_Namespace res) jobID) st in
      (if ce_cleanup ce (rr_Namespace res) jobID then markJobFailed st1 jobID "Runtime limit exceeded" now else st1,
       {[ key ]} ∪ seenJobs)
  else (emit (CallDelete (rr_Kind res) (rr_Namespace res) (rr_Name res)) st, seenJobs).

Definition reapExpiredRuntimeWorkloads (ce : option cluster_env) (st : wl_state) (now : Z) : wl_state * result string unit :=
  match ce with
  | None => (st, Ok tt)
  | Some c =>
      match ce_runtime c with
      | Err e => (st, Err e)
      | Ok resources =>
          (fst (fold_left (reapRuntimeResource c now)
             (List.filter (fun res => runtimeLimitExpired (rr_Labels res) (rr_CreatedAt res) now && isPlatformManaged (rr_Labels res)) resources)
             (st, ∅)), Ok tt)
      end
  end.

(** time.Duration.String, which only goes into the reason of the failure. *)
Context (duration_String : Z -> string).

Definition parseLastActivity (annotations : gmap string string) : option Z :=
  let raw := TrimSpace (label annotations lastActivityAnnotation) in
  if str_empty raw then None else parse_rfc3339 raw.

Definition reapIdleJobPod (ce : cluster_env) (st : wl_state) (pod : pod_info) (jobID : string) (idleFor threshold now : Z) : wl_state :=
  let st1 := emit (CallCleanup (pi_Namespace pod) jobID) st in
  if ce_cleanup ce (pi_Namespace pod) jobID
  then markJobFailed st1 jobID ("Reaped: idle timeout exceeded (idle_for=" +:+ duration_String idleFor +:+ ", threshold="
         +:+ duration_String threshold +:+ ")") now
  else st1.

Definition reapIdleInteractivePod (ce : cluster_env) (threshold : Z) (deletionEnabled : bool) (now : Z) (st : wl_state) (pod : pod_info) : wl_state :=
  if negb (HasPrefix (TrimSpace (label (pi_Labels pod) idleResourceTypeLabel)) interactiveResourcePrefix) then st
  else match parseLastActivity (pi_Annotations pod) with
       | None => st
       | Some lastActivity =>
           let idleFor := now - lastActivity in
           if idleFor <=? threshold then st
           else
             let jobID := TrimSpace (label (pi_Labels pod) LabelJobID) in
             if negb deletionEnabled then st
             else if negb (str_empty jobID) then reapIdleJobPod ce st pod jobID idleFor threshold now
             else emit (CallDeletePod (pi_Namespace pod) (pi_Name pod)) st
       end.

Definition existingJobPodSet (pods : list pod_info) : gset string :=
  list_to_set (omap (fun pod => let jobID := TrimSpace (label (pi_Labels pod) LabelJobID) in
    if str_empty jobID then None else Some (pi_Namespace pod +:+ "/" +:+ jobID)) pods).

Definition reapStaleJobRecords (ce : cluster_env) (st : wl_state) (now : Z) : wl_state * result string unit :=
  match ce_job_pods ce with
  | Err e => (st, Err e)
  | Ok pods =>
      let existing := existingJobPodSet pods in
      (fold_left (fun st' rc =>
         let namespace := job_namespace (rec_Data rc) in
         if str_empty namespace || bool_decide (namespace +:+ "/" +:+ rec_ID rc ∈ existing) then st'
         else markJobFailed st' (rec_ID rc) "Resource no longer exists in cluster" now)
         (ListStaleJobCandidates (wl_store st) now) st, Ok tt)
  end.

Definition reapIdleInteractiveWorkloads (ce : option cluster_env) (st : wl_state) (now threshold0 : Z) (deletionEnabled : bool)
    : wl_state * result string unit :=
  match ce with
  | None => (st, Ok tt)
  | Some c =>
      let threshold := if threshold0 <=? 0 then defaultIdleTimeout else threshold0 in
      match ce_idle_pods c with
      | Err e => (st, Err e)
      | Ok pods => reapStaleJobRecords c (fold_left (reapIdleInteractivePod c threshold deletionEnabled now) pods st) now
      end
  end.

(** ** The contracts of the scheduler *)

Definition requireWorkloadServiceAuth (r : wl_request) : option response :=
  if str_empty (cf_ServiceAPIKey cfg) then Some (StatusNotFound, ErrorData "not found")
  else if negb (serviceRequestAuthorizedForAudience cfg (wr_http r) "") then Some (StatusUnauthorized, ErrorData "service authentication is required")
  else None.

Definition workloadEvictJob (st : wl_state) (r : wl_request) : wl_state * response :=
  match requireWorkloadServiceAuth r with
  | Some resp => (st, resp)
  | None =>
      match wr_body r with
      | Err _ => (st, (StatusBadRequest, ErrorData msgInvalidBody))
      | Ok payload =>
          let id := wr_pathValue r "id" in
          if str_empty id then (st, (StatusBadRequest, ErrorData "job id is required"))
          else match FindJob (wl_store st) id with
               | None => (st, (StatusNotFound, ErrorData "job not found"))
               | Some rc =>
                   let currentStatus := currentJobStatus (rec_Data rc) in
                   if String.eqb currentStatus jobStatusEvicted then (st, (StatusOK, BRecord rc))
                   else if has_status terminalJobStatuses currentStatus
                   then (st, (StatusConflict, ErrorData "job is not active for eviction"))
                   else match MarkEvicted (wl_store st) (rec_ID rc) (TextValue payload ["reason"]) (wr_now r) (wr_now r) (wr_now r) with
                        | (s, None) => (with_store st s, (StatusInternalServerError, ErrorData "job eviction status update failed"))
                        | (s, Some updated) => (releaseJobReservation (with_store st s) (rec_Data updated), (StatusOK, BRecord updated))
                        end
               end
      end
  end.

Definition workloadPreemptJob (st : wl_state) (r : wl_request) : wl_state * response :=
  match requireWorkloadServiceAuth r with
  | Some resp => (st, resp)
  | None =>
      match wr_body r with
      | Err _ => (st, (StatusBadRequest, ErrorData msgInvalidBody))
      | Ok payload =>
          let id := wr_pathValue r "id" in
          let preemptionID := TextValue payload ["preemption_id"; "preemptionId"] in
          if str_empty id || str_empty preemptionID then (st, (StatusBadRequest, ErrorData "job id and preemption_id are required"))
          else match FindJob (wl_store st) id with
               | None => (st, (StatusNotFound, ErrorData "job not found"))
               | Some rc =>
                   let currentStatus := currentJobStatus (rec_Data rc) in
                   let currentPreemptionID := TextValue (rec_Data rc) ["preemption_record_id"; "preemptionRecordId"] in
                   if String.eqb currentStatus jobStatusPreempted then
                     if String.eqb currentPreemptionID preemptionID then (st, (StatusOK, BRecord rc))
                     else (st, (StatusConflict, ErrorData "job is already preempted by another preemption record"))
                   else if has_status terminalJobStatuses currentStatus || negb (has_status preemptibleJobStatuses currentStatus)
                   then (st, (StatusConflict, ErrorData "job is not active for preemption"))
                   else match MarkPreempted (wl_store st) (rec_ID rc) preemptionID (TextValue payload ["requester_job_id"; "requesterJobId"])
                                (TextValue payload ["reason"]) (MapValue payload ["cleanup"]) (wr_now r) (wr_now r) (wr_now r) with
                        | (s, None) => (with_store st s, (StatusInternalServerError, ErrorData "job preemption status update failed"))
                        | (s, Some updated) => (releaseJobReservation (with_store st s) (rec_Data updated), (StatusOK, BRecord updated))
                        end
               end
      end
  end.

Definition workloadPreemptionJobData (rc : record) : object :=
  let data := rec_Data rc in
  list_to_map
    [("id", VString (rec_ID rc)); ("job_id", VString (FirstNonEmpty [TextValue data ["job_id"; "jobId"]; rec_ID rc]));
     ("project_id", VString (TextValue data ["project_id"; "projectId"])); ("user_id", VString (TextValue data ["user_id"; "userId"]));
     ("queue_name", VString (TextValue data ["queue_name"; "queueName"])); ("namespace", VString (job_namespace data));
     ("status", VString (currentJobStatus data)); ("priority_value", VInt (jobPriority data));
     ("preemptible", VBool (workloadJobPreemptible data));
     ("required_gpu", VFloat64 (NumberValue data ["required_gpu"; "requiredGpu"; "RequiredGPU"]));
     ("required_cpu", VFloat64 (NumberValue data ["required_cpu"; "requiredCPU"; "required_cpu_cores"; "RequiredCPU"]));
     ("required_memory", VInt (IntValue data ["required_memory"; "requiredMemory"; "required_memory_mb"; "RequiredMemory"]));
     ("device_class_name", VString (TextValue data ["device_class_name"; "deviceClassName"; "DeviceClassName"]));
     ("gpu_model", VString (TextValue data ["gpu_model"; "gpuModel"; "dra_gpu_model"; "draGPUModel"]));
     ("created_at", VString (FirstNonEmpty [TextValue data ["created_at"; "createdAt"; "submitted_at"; "submittedAt"]; format_rfc3339 (rec_CreatedAt rc)]));
     ("preemption_record_id", VString (TextValue data ["preemption_record_id"; "preemptionRecordId"]))].

Definition workloadPreemptionCandidates (s : store) : list object := map workloadPreemptionJobData (List_ s jobsResource).

Definition workloadPreemptionContext (s : store) (r : wl_request) : response :=
  match requireWorkloadServiceAuth r with
  | Some resp => resp
  | None =>
      let requesterID := TrimSpace (default "" (rq_Query (wr_http r) !! "requester_job_id")) in
      let resp : object := {[ "candidates" := VMaps (workloadPreemptionCandidates s) ]} in
      if str_empty requesterID then (StatusOK, BMap resp)
      else match FindJob s requesterID with
           | None => (StatusNotFound, ErrorData "requester job not found")
           | Some rc => (StatusOK, BMap (<["requester" := VMap (workloadPreemptionJobData rc)]> resp))
           end
  end.

End Jobs.

(** ** What an operation may do to the jobs *)

Section Steps.
Context `{GoLib} {ip : Type} (cfg : config ip).

Definition terminal (rc : record) : Prop := currentJobStatus (rec_Data rc) ∈ terminalJobStatuses.
#[export] Instance terminal_dec rc : base.Decision (terminal rc).
Proof. unfold terminal. apply _. Defined.

(** Every job is filed under its own id, which is not empty, as [Create] does. *)
Definition jobs_filed (s : store) : Prop := forall id rc, Get s jobsResource id = Some rc -> rec_ID rc = id /\ id ≠ "".

(** No job appears or disappears, a terminal job is left as it is, a job keeps its id and
    its reservation; and the reservations released are those of the jobs that became
    terminal. *)
Record job_step (st st' : wl_state) : Prop := JobStep {
  js_other : forall r id, r ≠ jobsResource -> Get (wl_store st') r id = Get (wl_store st) r id;
  js_none : forall id, Get (wl_store st) jobsResource id = None -> Get (wl_store st') jobsResource id = None;
  js_some : forall id rc, Get (wl_store st) jobsResource id = Some rc ->
    exists rc', Get (wl_store st') jobsResource id = Some rc' /\ rec_ID rc' = rec_ID rc /\
      reservation_of (rec_Data rc') = reservation_of (rec_Data rc) /\ (terminal rc -> rc' = rc);
  js_trace : exists tr, wl_trace st' = wl_trace st ++ tr /\
    (newSchedulerReservationClient cfg = true -> forall id rc rc',
       Get (wl_store st) jobsResource id = Some rc -> Get (wl_store st') jobsResource id = Some rc' ->
       ~ terminal rc -> terminal rc' -> reservation_of (rec_Data rc) ≠ "" -> reservation_of (rec_Data rc) ∈ released tr) /\
    (forall x, x ∈ released tr -> exists id rc rc',
       Get (wl_store st) jobsResource id = Some rc /\ Get (wl_store st') jobsResource id = Some rc' /\
       ~ terminal rc /\ terminal rc' /\ reservation_of (rec_Data rc) = x)
}.

Lemma released_app t1 t2 : released (t1 ++ t2) = released t1 ++ released t2.
Proof. apply omap_app. Qed.

Lemma job_step_refl st : job_step st st.
Proof.
  split; [done|done|naive_solver|]. exists []. rewrite app_nil_r. split; [done|]. split; [|set_solver].
  intros _ id rc rc' H1 H2. rewrite H1 in H2. naive_solver.
Qed.

Lemma job_step_trans st1 st2 st3 : job_step st1 st2 -> job_step st2 st3 -> job_step st1 st3.
Proof.
  intros [O1 N1 S1 (t1 & T1 & A1 & B1)] [O2 N2 S2 (t2 & T2 & A2 & B2)]. split.
  - intros r id Hr. by rewrite O2, O1.
  - auto.
  - intros id rc Hg. destruct (S1 id rc Hg) as (rc1 & Hg1 & Hi1 & Hr1 & Ht1).
    destruct (S2 id rc1 Hg1) as (rc2 & Hg2 & Hi2 & Hr2 & Ht2). exists rc2. split_and!; try congruence.
    intros Ht. rewrite (Ht1 Ht) in *. auto.
  - exists (t1 ++ t2). rewrite released_app. split; [by rewrite T2, T1, app_assoc|]. split.
    + intros Hc id rc rc' Hg Hg' Hn Ht Hne. destruct (S1 id rc Hg) as (rc1 & Hg1 & _ & Hr1 & _).
      apply elem_of_app. destruct (decide (terminal rc1)) as [Hd|Hd].
      * left. by apply (A1 Hc id rc rc1).
      * right. rewrite <- Hr1. apply (A2 Hc id rc1 rc'); congruence.
    + intros x [Hx|Hx]%elem_of_app.
      * destruct (B1 x Hx) as (id & rc & rc1 & Hg & Hg1 & Hn & Ht & Hr).
        destruct (S2 id rc1 Hg1) as (rc2 & Hg2 & _ & _ & Ht2). exists id, rc, rc2. rewrite (Ht2 Ht) in *. naive_solver.
      * destruct (B2 x Hx) as (id & rc1 & rc2 & Hg1 & Hg2 & Hn & Ht & Hr).
        destruct (Get (wl_store st1) jobsResource id) as [rc|] eqn:Hg; [|apply N1 in Hg; congruence].
        destruct (S1 id rc Hg) as (rc1' & Hg1' & _ & Hr1 & Ht1). assert (rc1' = rc1) as -> by congruence.
        exists id, rc, rc2. split_and!; try congruence. intros Htc. apply Hn. by rewrite (Ht1 Htc).
Qed.

#[export] Instance job_step_preorder : PreOrder job_step.
Proof. split; [exact job_step_refl|exact job_step_trans]. Qed.

Lemma job_step_filed st st' : job_step st st' -> jobs_filed (wl_store st) -> jobs_filed (wl_store st').
Proof.
  intros [_ N S _] Hf id rc' Hg'. destruct (Get (wl_store st) jobsResource id) as [rc|] eqn:Hg.
  - destruct (S id rc Hg) as (rc2 & Hg2 & Hi & _). rewrite Hg' in Hg2. injection Hg2 as <-. rewrite Hi. by apply Hf.
  - rewrite (N id Hg) in Hg'. done.
Qed.

(** A call that is not a release changes nothing the relation speaks of. *)
Lemma emit_step c st : (forall id, c ≠ CallRelease id) -> job_step st (emit c st).
Proof.
  intros Hc. split; [done|done|naive_solver|]. exists [c]. split; [done|].
  assert (released [c] = []) as ->. { unfold released. cbn. destruct c; try done. by destruct (Hc reservationID). }
  split; [|set_solver]. intros _ id rc rc' H1 H2. cbn in H2. rewrite H1 in H2. naive_solver.
Qed.

Lemma release_trace st job :
  wl_store (releaseJobReservation cfg st job) = wl_store st /\
  exists tr, wl_trace (releaseJobReservation cfg st job) = wl_trace st ++ tr /\
    (newSchedulerReservationClient cfg = true -> reservation_of job ≠ "" -> reservation_of job ∈ released tr) /\
    (forall x, x ∈ released tr -> x = reservation_of job).
Proof.
  unfold releaseJobReservation. destruct (newSchedulerReservationClient cfg) eqn:Ec; cbn [negb orb].
  2:{ split; [done|]. exists []. rewrite app_nil_r. set_solver. }
  case_bool_decide as Hj; [subst|destruct (str_empty (reservation_of job)) eqn:Es].
  - split; [done|]. exists []. rewrite app_nil_r. split; [done|]. split; [|set_solver].
    intros _ Hne. by destruct Hne.
  - split; [done|]. exists []. rewrite app_nil_r. split; [done|]. split; [|set_solver].
    intros _ Hne. unfold str_empty in Es. apply String.eqb_eq in Es. done.
  - split; [done|]. exists [CallRelease (reservation_of job)]. cbn.
    split; [done|]. split; [intros _ _; apply list_elem_of_here|]. by intros x ->%list_elem_of_singleton.
Qed.

(** A write to one job that was not terminal: it stays so and nothing is released, or it
    becomes terminal and its reservation is released. *)
Lemma update_step st id rc d now s' rc' rel :
  Get (wl_store st) jobsResource id = Some rc -> ~ terminal rc ->
  Update (wl_store st) jobsResource id d now = (s', Some rc') ->
  d !! "reservation_id" = None -> d !! "reservationId" = None ->
  (rel = true -> terminal rc') -> (rel = false -> ~ terminal rc') ->
  forall job, reservation_of job = reservation_of (rec_Data rc) ->
  job_step st (if rel : bool then releaseJobReservation cfg (with_store st s') job else with_store st s').
Proof.
  intros Hg Hn HU Hk1 Hk2 Hrt Hrf job Hjob. pose proof (Update_cases (wl_store st) jobsResource id d now) as HC.
  rewrite HU, Hg in HC. destruct HC as (Hd & Hi & _ & _ & _ & HG).
  assert (Hres : reservation_of (rec_Data rc') = reservation_of (rec_Data rc)).
  { unfold reservation_of, TextValue. cbn. unfold mget. by rewrite !Hd, Hk1, Hk2. }
  assert (exists tr, wl_trace (if rel then releaseJobReservation cfg (with_store st s') job else with_store st s') = wl_trace st ++ tr /\
    wl_store (if rel then releaseJobReservation cfg (with_store st s') job else with_store st s') = s' /\
    (rel = true -> newSchedulerReservationClient cfg = true -> reservation_of job ≠ "" -> reservation_of job ∈ released tr) /\
    (forall x, x ∈ released tr -> rel = true /\ x = reservation_of job)) as (tr & Etr & Est & HA & HB).
  { destruct rel.
    - destruct (release_trace (with_store st s') job) as (E1 & tr & E2 & E3 & E4). exists tr.
      split; [exact E2|]. split; [exact E1|]. split; [intros _; exact E3|]. intros x Hx. split; [done|by apply E4].
    - exists []. rewrite app_nil_r. set_solver. }
  split; rewrite ?Est.
  - intros r id' Hr. rewrite HG. case_decide; naive_solver.
  - intros id'. rewrite HG. case_decide; naive_solver.
  - intros id' rc0. rewrite HG. case_decide as Hid; [|naive_solver]. destruct Hid as [_ <-]. rewrite Hg. intros [= <-].
    exists rc'. done.
  - exists tr. split; [done|]. split.
    + intros Hc id' rc0 rc1. rewrite HG. case_decide as Hid; [|intros Ha Hb; rewrite Ha in Hb; naive_solver].
      destruct Hid as [_ <-]. rewrite Hg. intros [= <-] [= <-] _ Ht Hne. rewrite <- Hjob in *.
      apply HA; [|done..]. destruct rel; [done|]. by destruct (Hrf eq_refl).
    + intros x Hx. destruct (HB x Hx) as [-> ->]. exists id, rc, rc'. rewrite HG, decide_True by done.
      split_and!; [done|done|done|by apply Hrt|done].
Qed.

Lemma FindJob_get s id rc : jobs_filed s -> FindJob s id = Some rc -> Get s jobsResource (rec_ID rc) = Some rc.
Proof.
  intros Hf. unfold FindJob. destruct (str_empty id); [done|]. destruct (Get s jobsResource id) as [rc0|] eqn:Hg.
  - intros [= <-]. by rewrite (proj1 (Hf _ _ Hg)).
  - intros [Hin _]%find_spec. apply elem_of_List in Hin as [k Hk]. by rewrite (proj1 (Hf _ _ Hk)).
Qed.

Lemma has_status_spec set status : has_status set status = true <-> status ∈ set.
Proof. unfold has_status. apply bool_decide_eq_true. Qed.

Lemma active_not_terminal rc : currentJobStatus (rec_Data rc) ∈ activeJobStatuses -> ~ terminal rc.
Proof. unfold terminal. generalize (currentJobStatus (rec_Data rc)). intros x Hx. set_unfold. naive_solver. Qed.

Lemma live_not_terminal rc : currentJobStatus (rec_Data rc) ∈ statusReconcilerLiveStatuses -> ~ terminal rc.
Proof. unfold terminal. generalize (currentJobStatus (rec_Data rc)). intros x Hx. set_unfold. naive_solver. Qed.

(** The status a write leaves behind. *)
Lemma status_written data x : data !! "status" = Some (VString x) -> TrimSpace x = x -> x ≠ "" -> currentJobStatus data = ToLower x.
Proof.
  intros Hd Ht Hne. unfold currentJobStatus, TextValue. cbn. unfold mget. rewrite Hd. cbn. unfold nonempty, str_empty.
  rewrite Ht. by destruct (String.eqb_spec x "").
Qed.

Lemma Update_status s id d now s' rc' x :
  Update s jobsResource id d now = (s', Some rc') -> d !! "status" = Some (VString x) -> TrimSpace x = x -> x ≠ "" ->
  currentJobStatus (rec_Data rc') = ToLower x.
Proof.
  intros HU Hd Ht Hne. pose proof (Update_cases s jobsResource id d now) as HC. rewrite HU in HC.
  destruct (Get s jobsResource id); [|done]. destruct HC as (Hk & _). apply status_written; [|done..]. by rewrite Hk, Hd.
Qed.

Lemma Update_total s r id d now rc : Get s r id = Some rc -> exists s' rc', Update s r id d now = (s', Some rc').
Proof. intros Hg. unfold Update. unfold Get in Hg. rewrite Hg. eauto. Qed.

(** A write of a terminal status, with the release that follows it. *)
Lemma close_step st rc d now x s' rc' job :
  Get (wl_store st) jobsResource (rec_ID rc) = Some rc -> ~ terminal rc ->
  Update (wl_store st) jobsResource (rec_ID rc) d now = (s', Some rc') ->
  d !! "status" = Some (VString x) -> x ∈ terminalJobStatuses -> d !! "reservation_id" = None -> d !! "reservationId" = None ->
  reservation_of job = reservation_of (rec_Data rc) ->
  job_step st (releaseJobReservation cfg (with_store st s') job).
Proof.
  intros Hg Hn HU Hx Hterm Hk1 Hk2 Hjob.
  apply (update_step st (rec_ID rc) rc d now s' rc' true Hg Hn HU Hk1 Hk2); [intros _|done|done].
  unfold terminal. rewrite (Update_status _ _ _ _ _ _ x HU Hx).
  - set_unfold. naive_solver.
  - set_unfold. naive_solver.
  - set_unfold. naive_solver.
Qed.

Lemma updated_reservation s id rc d now s' rc' :
  Get s jobsResource id = Some rc -> Update s jobsResource id d now = (s', Some rc') ->
  d !! "reservation_id" = None -> d !! "reservationId" = None ->
  reservation_of (rec_Data rc') = reservation_of (rec_Data rc).
Proof.
  intros Hg HU H1 H2. pose proof (Update_cases s jobsResource id d now) as HC. rewrite HU, Hg in HC.
  destruct HC as (Hd & _). unfold reservation_of, TextValue. cbn. unfold mget. by rewrite !Hd, H1, H2.
Qed.

(** *** The reapers *)

Lemma markJobFailed_step st jobID reason now :
  jobs_filed (wl_store st) -> job_step st (markJobFailed cfg st jobID reason now).
Proof.
  intros Hf. unfold markJobFailed, MarkFailedIfActive. destruct (str_empty jobID); [done|].
  destruct (FindJob (wl_store st) jobID) as [rc|] eqn:Ef; [|done].
  destruct (has_status _ _) eqn:Ea; [|done]. cbn [negb]. apply has_status_spec in Ea.
  pose proof (FindJob_get _ _ _ Hf Ef) as Hg.
  destruct (Update_total _ _ _ (failed_update reason) now _ Hg) as (s' & rc' & HU). rewrite HU.
  eapply close_step; [exact Hg|by apply active_not_terminal|exact HU|done|set_solver|done..].
Qed.

Lemma fold_steps {A} (f : wl_state -> A -> wl_state) l : forall st,
  (forall st x, jobs_filed (wl_store st) -> job_step st (f st x)) -> jobs_filed (wl_store st) -> job_step st (fold_left f l st).
Proof.
  induction l as [|x l IH]; intros st Hstep Hf; cbn; [done|]. pose proof (Hstep st x Hf) as H1.
  etransitivity; [exact H1|]. apply IH; [done|]. by eapply job_step_filed.
Qed.

Lemma reapRuntimeResource_step ce now acc res :
  jobs_filed (wl_store acc.1) -> job_step acc.1 (reapRuntimeResource cfg ce now acc res).1.
Proof.
  destruct acc as [st seen]. cbn. intros Hf. destruct (negb _); [|by apply emit_step].
  case_bool_decide; [done|]. cbn. assert (job_step st (emit (CallCleanup (rr_Namespace res) (label (rr_Labels res) LabelJobID)) st)) as H1
    by by apply emit_step.
  destruct (ce_cleanup _ _ _); [|done]. etransitivity; [exact H1|]. apply markJobFailed_step. by eapply job_step_filed.
Qed.

Lemma reap_runtime_step ce st now :
  jobs_filed (wl_store st) -> job_step st (reapExpiredRuntimeWorkloads cfg ce st now).1.
Proof.
  intros Hf. unfold reapExpiredRuntimeWorkloads. destruct ce as [c|]; [|done]. destruct (ce_runtime c) as [resources|]; [|done]. cbn [fst].
  generalize (List.filter (fun res => runtimeLimitExpired (rr_Labels res) (rr_CreatedAt res) now && isPlatformManaged (rr_Labels res)) resources).
  intros l. change st with (st, ∅ : gset string).1 at 1. change st with (st, ∅ : gset string).1 in Hf. revert Hf.
  generalize (st, ∅ : gset string). induction l as [|x l IH]; intros acc Hf; cbn; [done|].
  pose proof (reapRuntimeResource_step c now acc x Hf) as H1. etransitivity; [exact H1|]. apply IH. by eapply job_step_filed.
Qed.

Lemma reapIdleInteractivePod_step ds ce threshold enabled now st pod :
  jobs_filed (wl_store st) -> job_step st (reapIdleInteractivePod cfg ds ce threshold enabled now st pod).
Proof.
  intros Hf. unfold reapIdleInteractivePod. destruct (negb (HasPrefix _ _)); [done|]. destruct (parseLastActivity _); [|done].
  destruct (_ <=? threshold); [done|]. destruct (negb enabled); [done|]. destruct (negb (str_empty _)); [|by apply emit_step].
  unfold reapIdleJobPod. assert (job_step st (emit (CallCleanup (pi_Namespace pod) (TrimSpace (label (pi_Labels pod) LabelJobID))) st)) as H1
    by by apply emit_step.
  destruct (ce_cleanup _ _ _); [|done]. etransitivity; [exact H1|]. apply markJobFailed_step. by eapply job_step_filed.
Qed.

Lemma reap_idle_step ds ce st now threshold enabled :
  jobs_filed (wl_store st) -> job_step st (reapIdleInteractiveWorkloads cfg ds ce st now threshold enabled).1.
Proof.
  intros Hf. unfold reapIdleInteractiveWorkloads. destruct ce as [c|]; [|done]. destruct (ce_idle_pods c) as [pods|]; [|done].
  assert (forall t, job_step st (fold_left (reapIdleInteractivePod cfg ds c t enabled now) pods st)) as H1
    by (intros; apply fold_steps; [intros; by apply reapIdleInteractivePod_step|done]).
  specialize (H1 (if threshold <=? 0 then defaultIdleTimeout else threshold)). etransitivity; [exact H1|].
  unfold reapStaleJobRecords. destruct (ce_job_pods c) as [ps|]; [|done]. cbn [fst]. apply fold_steps; [|by eapply job_step_filed].
  intros st' rc Hf'. destruct (_ || _); [done|]. by apply markJobFailed_step.
Qed.

(** *** The contracts *)

Lemma evict_step st r : jobs_filed (wl_store st) -> job_step st (workloadEvictJob cfg st r).1.
Proof.
  intros Hf. unfold workloadEvictJob. destruct (requireWorkloadServiceAuth cfg r); [done|]. destruct (wr_body r) as [payload|]; [|done].
  destruct (str_empty _); [done|]. destruct (FindJob _ _) as [rc|] eqn:Ef; [|done]. destruct (String.eqb _ _); [done|].
  destruct (has_status _ _) eqn:Et; [done|]. pose proof (FindJob_get _ _ _ Hf Ef) as Hg.
  assert (~ terminal rc) as Hn by (unfold terminal; rewrite <- has_status_spec; by rewrite Et).
  unfold MarkEvicted. match goal with |- context [Update ?s ?r ?i ?d ?n] => destruct (Update_total s r i d n rc Hg) as (s' & rc' & HU); rewrite HU end.
  cbn [fst]. eapply close_step; [exact Hg|exact Hn|exact HU|done|set_solver|done|done|]. by eapply updated_reservation.
Qed.

Lemma preempt_step st r : jobs_filed (wl_store st) -> job_step st (workloadPreemptJob cfg st r).1.
Proof.
  intros Hf. unfold workloadPreemptJob. destruct (requireWorkloadServiceAuth cfg r); [done|]. destruct (wr_body r) as [payload|]; [|done].
  destruct (_ || _); [done|]. destruct (FindJob _ _) as [rc|] eqn:Ef; [|done].
  destruct (String.eqb _ jobStatusPreempted); [by destruct (String.eqb _ _)|].
  destruct (has_status terminalJobStatuses _) eqn:Et; [done|]. destruct (has_status preemptibleJobStatuses _); [|done]. cbn [orb negb].
  pose proof (FindJob_get _ _ _ Hf Ef) as Hg.
  assert (~ terminal rc) as Hn by (unfold terminal; rewrite <- has_status_spec; by rewrite Et).
  unfold MarkPreempted. match goal with |- context [Update ?s ?r ?i ?d ?n] => destruct (Update_total s r i d n rc Hg) as (s' & rc' & HU); rewrite HU end.
  cbn [fst]. eapply close_step; [exact Hg|exact Hn|exact HU|done|set_solver|done|done|]. by eapply updated_reservation.
Qed.

(** *** The reconciler *)

Definition four_states : list string := [JobLifecycleQueued; JobLifecycleRunning; JobLifecycleCompleted; JobLifecycleFailed].

Lemma four_states_normal x : x ∈ four_states -> ToLower x = x /\ TrimSpace x = x /\ x ≠ "".
Proof. intros H4. unfold four_states in H4. rewrite !elem_of_cons, elem_of_nil in H4. destruct_or! H4; try done; by subst x. Qed.

Lemma four_nonterminal x : x ∈ four_states -> x ≠ jobStatusCompleted -> x ≠ jobStatusFailed -> x ∉ terminalJobStatuses.
Proof.
  intros H4. unfold four_states in H4. rewrite !elem_of_cons, elem_of_nil in H4. intros Hc Hf.
  destruct_or! H4; subst x; try done; by apply (bool_decide_unpack _).
Qed.

Definition update_keys : list string := ["status"; "status_reason"; "completed_at"; "started_at"; "error_message"].

Lemma lifecycle_fields_keys data lc now k v : (k, v) ∈ lifecycle_fields data lc now -> k ∈ ["completed_at"; "started_at"; "error_message"].
Proof. unfold lifecycle_fields. repeat case_match; set_solver. Qed.

Lemma statusReconcileUpdate_keys rc lc now k : k ∉ update_keys -> statusReconcileUpdate rc lc now !! k = None.
Proof.
  intros Hk. unfold statusReconcileUpdate, removeNoopStatusUpdate. apply map_lookup_filter_None. left.
  apply not_elem_of_list_to_map_1. intros (v & Hin)%list_elem_of_fmap. destruct v as [k' v]. destruct Hin as [-> Hin]. apply Hk.
  rewrite !elem_of_app in Hin. destruct Hin as [Hin|[Hin|Hin]].
  - destruct (negb _); set_solver.
  - destruct (str_empty _); set_solver.
  - apply lifecycle_fields_keys in Hin. set_solver.
Qed.

Lemma reconcile_keeps rc lc now k : k ∈ ["reservation_id"; "reservationId"; "Status"] -> statusReconcileUpdate rc lc now !! k = None.
Proof. intros Hk. apply statusReconcileUpdate_keys. unfold update_keys. set_solver. Qed.

Lemma status_field_absent data lc now : "status" ∉ (lifecycle_fields data lc now).*1.
Proof. intros ([k v] & E & Hin%lifecycle_fields_keys)%list_elem_of_fmap. cbn in E. subst k. set_solver. Qed.

Lemma status_reason_absent lc : "status" ∉ (if str_empty (lc_Reason lc) then [] else [("status_reason", VString (lc_Reason lc))]).*1.
Proof. destruct (str_empty _); set_solver. Qed.

Lemma text_of_trimmed v x : text_of v = Some x -> TrimSpace x = x.
Proof. destruct v; cbn; try done; unfold nonempty; case_match; intros; simplify_eq; apply TrimSpace_idem. Qed.

Lemma status_text_eq v : status_text v = default "" (text_of v).
Proof.
  unfold status_text, TextValue. cbn [first_key]. unfold mget. rewrite lookup_singleton_eq. cbn.
  destruct (text_of v) as [x|] eqn:E; cbn; [|done]. by eapply text_of_trimmed.
Qed.

Lemma status_text_string x : TrimSpace x = x -> x ≠ "" -> status_text (VString x) = x.
Proof. intros Ht Hne. rewrite status_text_eq. cbn. unfold nonempty, str_empty. rewrite Ht. by destruct (String.eqb_spec x ""). Qed.

Lemma status_text_some v x : x ≠ "" -> status_text v = x -> text_of v = Some x.
Proof. rewrite status_text_eq. destruct (text_of v); cbn; congruence. Qed.

Lemma status_update_some rc lc now :
  currentJobStatus (rec_Data rc) ≠ lc_Status lc -> lc_Status lc ∈ four_states ->
  statusReconcileUpdate rc lc now !! "status" = Some (VString (lc_Status lc)).
Proof.
  intros Hne Hin. unfold statusReconcileUpdate, removeNoopStatusUpdate. apply map_lookup_filter_Some. split.
  - destruct (String.eqb_spec (currentJobStatus (rec_Data rc)) (lc_Status lc)); [done|]. cbn. apply lookup_insert_eq.
  - cbn [fst snd]. unfold sameStatusValue. apply String.eqb_neq. intros E. apply Hne.
    destruct (four_states_normal _ Hin) as (El & Et & En). rewrite (status_text_string _ Et En) in E.
    unfold currentJobStatus, TextValue. cbn [first_key]. rewrite (status_text_some _ (lc_Status lc)) by done. exact El.
Qed.

Lemma status_update_none rc lc now :
  currentJobStatus (rec_Data rc) = lc_Status lc -> statusReconcileUpdate rc lc now !! "status" = None.
Proof.
  intros E. unfold statusReconcileUpdate, removeNoopStatusUpdate. apply map_lookup_filter_None. left. rewrite E, String.eqb_refl. cbn [negb Datatypes.app].
  apply not_elem_of_list_to_map_1. rewrite fmap_app, elem_of_app. intros [Hin|Hin];
    [by apply status_reason_absent in Hin|by apply status_field_absent in Hin].
Qed.

(** ** Writes from a listing

    The dispatcher and the reconciler list jobs and write to each later, without looking at it
    again.  What such a write still keeps: no job appears or disappears, a job keeps its id
    and its reservation, a job that becomes terminal has its reservation released, and what is
    released is the reservation of a job that the write leaves terminal. *)
Record write_step (st st' : wl_state) : Prop := WriteStep {
  ws_none : forall id, Get (wl_store st) jobsResource id = None -> Get (wl_store st') jobsResource id = None;
  ws_some : forall id rc, Get (wl_store st) jobsResource id = Some rc ->
    exists rc', Get (wl_store st') jobsResource id = Some rc' /\ rec_ID rc' = rec_ID rc /\ reservation_of (rec_Data rc') = reservation_of (rec_Data rc);
  ws_trace : exists tr, wl_trace st' = wl_trace st ++ tr /\
    (newSchedulerReservationClient cfg = true -> forall id rc rc',
       Get (wl_store st) jobsResource id = Some rc -> Get (wl_store st') jobsResource id = Some rc' ->
       ~ terminal rc -> terminal rc' -> reservation_of (rec_Data rc) ≠ "" -> reservation_of (rec_Data rc) ∈ released tr) /\
    (forall x, x ∈ released tr -> exists id rc', Get (wl_store st') jobsResource id = Some rc' /\ terminal rc' /\ reservation_of (rec_Data rc') = x)
}.

(** A write of the job [id] alone. *)
Definition writes_only (id : string) (st st' : wl_state) : Prop :=
  write_step st st' /\ forall id', id' ≠ id -> Get (wl_store st') jobsResource id' = Get (wl_store st) jobsResource id'.

Lemma job_step_writes st st' : job_step st st' -> write_step st st'.
Proof.
  intros [_ N S (tr & T & A & B)]. split; [done| |].
  - intros id rc Hg. destruct (S id rc Hg) as (rc' & Hg' & Hi & Hr & _). eauto.
  - exists tr. split_and!; [done|done|]. intros x Hx. destruct (B x Hx) as (id & rc & rc' & Hg & Hg' & _ & Ht & Hr).
    destruct (S id rc Hg) as (rc2 & Hg2 & _ & Hr2 & _). exists id, rc'. split_and!; congruence.
Qed.

Lemma write_step_filed st st' : write_step st st' -> jobs_filed (wl_store st) -> jobs_filed (wl_store st').
Proof.
  intros [N S _] Hf id rc' Hg'. destruct (Get (wl_store st) jobsResource id) as [rc|] eqn:Hg.
  - destruct (S id rc Hg) as (rc2 & Hg2 & Hi & _). rewrite Hg' in Hg2. injection Hg2 as <-. rewrite Hi. by apply Hf.
  - rewrite (N id Hg) in Hg'. done.
Qed.

Lemma stale_write st id rc d now s' rc' (rel : bool) job :
  Get (wl_store st) jobsResource id = Some rc -> Update (wl_store st) jobsResource id d now = (s', Some rc') ->
  d !! "reservation_id" = None -> d !! "reservationId" = None -> reservation_of job = reservation_of (rec_Data rc) ->
  (rel = true -> terminal rc') -> (rel = false -> terminal rc' -> terminal rc) ->
  writes_only id st (if rel then releaseJobReservation cfg (with_store st s') job else with_store st s').
Proof.
  intros Hg HU H1 H2 Hjob Ht Hn. pose proof (updated_reservation _ _ _ _ _ _ _ Hg HU H1 H2) as Hres.
  pose proof (Update_cases (wl_store st) jobsResource id d now) as HC. rewrite HU, Hg in HC. destruct HC as (_ & Hi & _ & _ & _ & HG).
  assert (exists tr, wl_trace (if rel then releaseJobReservation cfg (with_store st s') job else with_store st s') = wl_trace st ++ tr /\
    wl_store (if rel then releaseJobReservation cfg (with_store st s') job else with_store st s') = s' /\
    (rel = true -> newSchedulerReservationClient cfg = true -> reservation_of job ≠ "" -> reservation_of job ∈ released tr) /\
    (forall x, x ∈ released tr -> rel = true /\ x = reservation_of job)) as (tr & Etr & Est & HA & HB).
  { destruct rel; [|exists []; rewrite app_nil_r; set_solver].
    destruct (release_trace (with_store st s') job) as (E1 & tr & E2 & E3 & E4). exists tr. naive_solver. }
  split; [split|]; rewrite ?Est.
  - intros id'. rewrite HG. case_decide; naive_solver.
  - intros id' rc0. rewrite HG. case_decide as Hid; [|naive_solver]. destruct Hid as [_ <-]. rewrite Hg. intros [= <-]. by exists rc'.
  - exists tr. split; [done|]. split.
    + intros Hc id' rc0 rc1. rewrite HG. case_decide as Hid; [|intros Ha Hb; rewrite Ha in Hb; naive_solver].
      destruct Hid as [_ <-]. rewrite Hg. intros [= <-] [= <-] Hl Hd Hne. rewrite <- Hjob in *.
      apply HA; [|done..]. destruct rel; [done|]. by destruct Hl; apply Hn.
    + intros x Hx. destruct (HB x Hx) as [-> ->]. exists id, rc'. rewrite HG, decide_True by done. split_and!; [done|by apply Ht|congruence].
  - intros id' Hid. rewrite HG, decide_False; [done|]. intros [_ E]. by apply Hid.
Qed.

Lemma writes_refl id st : writes_only id st st.
Proof. split; [by apply job_step_writes|done]. Qed.

(** A job as a listing showed it when it was live, whatever has become of it. *)
Definition listed_in (st : wl_state) (rc : record) : Prop :=
  rec_ID rc ≠ "" /\ currentJobStatus (rec_Data rc) ∈ statusReconcilerLiveStatuses /\
  exists rc0, Get (wl_store st) jobsResource (rec_ID rc) = Some rc0 /\ reservation_of (rec_Data rc0) = reservation_of (rec_Data rc).

Lemma listed_write st st' rc : write_step st st' -> listed_in st rc -> listed_in st' rc.
Proof.
  intros [_ S _] (Hne & Hs & rc0 & Hg & Hr). destruct (S _ _ Hg) as (rc1 & Hg1 & _ & Hr1). split_and!; [done|done|]. exists rc1. split; congruence.
Qed.

Lemma reconcile_record_writes ce st rc now :
  listed_in st rc -> writes_only (rec_ID rc) st (reconcileNativeWorkloadRecord cfg ce st rc now).1.
Proof.
  intros (Hne & Hlive & rc0 & Hg & Hr). pose proof (live_not_terminal rc Hlive) as Hn. pose proof (writes_refl (rec_ID rc) st) as Hid.
  unfold reconcileNativeWorkloadRecord.
  destruct (_ || _); [done|]. destruct (NativeJobLifecycle _ _ _) as [lc|] eqn:EL; [|done].
  apply NativeJobLifecycle_status in EL as [[-> _]|[-> H4]]; [done|]. cbn [negb orb]. destruct (str_empty (lc_Status lc)); [done|].
  assert (currentJobStatus (rec_Data rc) = lc_Status lc -> String.eqb (lc_Status lc) jobStatusCompleted || String.eqb (lc_Status lc) jobStatusFailed = false) as Hlc.
  { intros E. unfold terminal in Hn. rewrite E in Hn. apply orb_false_iff. split; apply String.eqb_neq; intros E'; apply Hn; rewrite E'; clear; set_solver. }
  unfold ApplyLifecycleObservation. case_bool_decide as Hemp.
  { rewrite Hlc; [by destruct st|]. destruct (decide (currentJobStatus (rec_Data rc) = lc_Status lc)) as [|Hd]; [done|].
    pose proof (status_update_some rc lc now Hd H4) as Hs. by rewrite Hemp in Hs. }
  destruct (Update_total _ _ _ (statusReconcileUpdate rc lc now) now _ Hg) as (s' & rc' & HU). rewrite HU. cbn [fst].
  apply (stale_write st (rec_ID rc) rc0 (statusReconcileUpdate rc lc now) now s' rc'); [done|done|apply reconcile_keeps; clear; set_solver|apply reconcile_keeps; clear; set_solver|done|..].
  all: destruct (decide (currentJobStatus (rec_Data rc) = lc_Status lc)) as [E|Hd]; [|pose proof (status_update_some rc lc now Hd H4) as Hs].
  1, 3: rewrite (Hlc E); try done; intros _; unfold terminal; pose proof (Update_cases (wl_store st) jobsResource (rec_ID rc) (statusReconcileUpdate rc lc now) now) as HC;
    rewrite HU, Hg in HC; destruct HC as (Hk & _); unfold currentJobStatus, TextValue; cbn; unfold mget;
    by rewrite !Hk, (status_update_none rc lc now E), (reconcile_keeps rc lc now "Status") by (clear; set_solver).
  all: assert (currentJobStatus (rec_Data rc') = lc_Status lc) as E'
    by (rewrite (Update_status _ _ _ _ _ _ _ HU Hs); by destruct (four_states_normal _ H4) as (? & ? & ?)); unfold terminal; rewrite E'.
  - intros [E1%String.eqb_eq|E1%String.eqb_eq]%orb_true_iff; rewrite E1; clear; set_solver.
  - intros [E1%String.eqb_neq E2%String.eqb_neq]%orb_false_iff Hx. by destruct (four_nonterminal _ H4 E1 E2).
Qed.

Lemma List_ids_NoDup s : jobs_filed s -> NoDup (map rec_ID (List_ s jobsResource)).
Proof.
  intros Hf. rewrite List_Permutation, map_map. replace (map (fun x => rec_ID x.2) (map_to_list (bucket s jobsResource)))
    with (map_to_list (bucket s jobsResource)).*1; [apply NoDup_fst_map_to_list|].
  apply list_fmap_ext. intros i [k rc] Hi. symmetry. apply list_elem_of_lookup_2 in Hi. by apply (Hf k rc), elem_of_map_to_list.
Qed.

Lemma NoDup_map_filter {A B} (f : A -> B) (P : A -> bool) l : NoDup (map f l) -> NoDup (map f (List.filter P l)).
Proof.
  induction l as [|x l IH]; cbn; [done|]. intros [Hx Hl]%NoDup_cons. destruct (P x); cbn; [|auto]. constructor; [|auto].
  intros (y & E & Hy%list_elem_of_In)%list_elem_of_fmap. apply List.filter_In in Hy as [Hy _]. apply Hx, list_elem_of_fmap.
  exists y. by rewrite list_elem_of_In.
Qed.

End Steps.
