(* ===== verification/WorkloadDispatch.v ===== *)
(** * Workload service: the dispatcher
    (internal/services/workload/dispatcher.go, with the dispatch methods of
    job_repository.go)

    A maintenance task that takes the submitted jobs, and those whose wait for
    infrastructure is over, by priority, creates their objects in the cluster and marks
    them running; a permanent error fails a job, any other defers it with an exponential
    delay until the attempts are used up.  How a manifest is rewritten for the cluster
    ([prepareDispatchManifests]) and how storage is attached are parameters: the theorems
    here hold whatever they do, and WorkloadVolcano puts the code for them in. *)

From stdpp Require Import base gmap strings list fin_maps sorting.
From Stdlib Require Import ZArith Lia Ascii.
From S2P Require Import Prelude GoValue Store EventBus Crud RateLimit InputLimits Config Auth Guards SchedulerHttp WorkloadTypes WorkloadJobs.
Local Open Scope Z_scope.

Definition dispatcherMaxJobsPerRun : nat := 32.
Definition dispatcherRetryMaxAttempts : Z := 20.
Definition dispatcherRetryBaseDelay : Z := 30 * time_Second.
Definition dispatcherRetryMaxDelay : Z := 10 * time_Minute.
Definition dispatcherMarshalResourceError : string := "marshal resource %s: %w".

Record dispatchResource := Resource { dr_Name : string; dr_Kind : string; dr_Raw : string }.

Inductive dispatchManifest := Manifest (Raw : string) (Fallback : list dispatchManifest).

Record dispatchCandidate := Candidate { dc_record : record; dc_dueAt : Z }.

Record CreatedObject := Created { co_Kind : string; co_Namespace : string; co_Name : string }.

(** An error: its text, and which of the sentinel errors it wraps. *)
Inductive error_kind := ErrInvalidManifest | ErrUnsupportedKind | ErrUnavailable | ErrOther.
Record derror := DError { de_text : string; de_kind : error_kind }.
Definition cluster_unavailable : derror := DError "cluster client unavailable" ErrUnavailable.

Definition dispatchPermanentError (e : derror) : bool :=
  match de_kind e with ErrInvalidManifest | ErrUnsupportedKind => true | _ => false end.

Definition createdDispatchResource (obj : CreatedObject) : object :=
  {[ "kind" := VString (co_Kind obj); "namespace" := VString (co_Namespace obj); "name" := VString (co_Name obj) ]}.

(** The loop doubles the delay at most [attempt - 1] times, while it is below the maximum. *)
Fixpoint backoff_loop (n : nat) (delay : Z) : Z :=
  match n with
  | O => delay
  | S n' => if delay <? dispatcherRetryMaxDelay then backoff_loop n' (delay * 2) else delay
  end.

Definition dispatcherBackoff (attempt : Z) : Z :=
  if attempt <=? 1 then dispatcherRetryBaseDelay
  else
    let delay := backoff_loop (Z.to_nat (attempt - 1)) dispatcherRetryBaseDelay in
    if dispatcherRetryMaxDelay <? delay then dispatcherRetryMaxDelay else delay.

Section Dispatch.
Context `{GoLib} {ip : Type} (cfg : config ip).

(** ** Candidates *)

(** Whether a deferred job is due, and since when. *)
Definition nextRetryDue (data : object) (now : Z) : Z * bool :=
  match firstPresent data ["next_retry_at"; "nextRetryAt"; "NextRetryAt"] with
  | None => (jobCreatedAt data now, true)
  | Some (VTime t _) => (t, negb (now <? t))
  | Some (VString text) =>
      if str_empty (TrimSpace text) then (jobCreatedAt data now, true)
      else match parse_rfc3339 (TrimSpace text) with
           | Some t => (t, negb (now <? t))
           | None => (zero_time, false)
           end
  | Some _ => (jobCreatedAt data now, true)
  end.

Definition dispatch_candidate (now : Z) (rc : record) : option dispatchCandidate :=
  let status := currentJobStatus (rec_Data rc) in
  if String.eqb status jobStatusSubmitted then Some (Candidate rc (jobCreatedAt (rec_Data rc) (rec_CreatedAt rc)))
  else if String.eqb status jobStatusWaitingInfra then
    let '(due, ok) := nextRetryDue (rec_Data rc) now in if ok then Some (Candidate rc due) else None
  else None.

Definition candidate_less (a b : dispatchCandidate) : bool :=
  let pa := jobPriority (rec_Data (dc_record a)) in
  let pb := jobPriority (rec_Data (dc_record b)) in
  if negb (pa =? pb) then pb <? pa
  else if negb (dc_dueAt a =? dc_dueAt b) then dc_dueAt a <? dc_dueAt b
  else String.ltb (rec_ID (dc_record a)) (rec_ID (dc_record b)).

Definition ListDispatchCandidates (s : store) (now : Z) : list dispatchCandidate :=
  SliceStable candidate_less (omap (dispatch_candidate now) (List_ s jobsResource)).

(** ** Writes *)

Definition MarkDispatchRunning (s : store) (id : string) (at0 now : Z) (created : list object) : store * bool :=
  let at_ := if IsZero at0 then now else at0 in
  match Update s jobsResource id
          (list_to_map [("status", VString jobStatusRunning); ("started_at", VString (format_rfc3339 at_));
             ("dispatched_at", VString (format_rfc3339 at_)); ("created_resources", VMaps created);
             ("error_message", VString ""); ("status_reason", VString ""); ("next_retry_at", VNil)]) now with
  | (s', Some _) => (s', true)
  | (s', None) => (s', false)
  end.

Definition MarkDispatchFailed (s : store) (id reason : string) (completedAt now : Z) : store * bool :=
  let at_ := if IsZero completedAt then now else completedAt in
  match Update s jobsResource id
          (list_to_map [("status", VString jobStatusFailed); ("error_message", VString reason); ("status_reason", VString reason);
             ("completed_at", VString (format_rfc3339 at_))]) now with
  | (s', Some _) => (s', true)
  | (s', None) => (s', false)
  end.

Definition DeferForInfrastructureRecovery (s : store) (id : string) (retryCount nextRetryAt : Z) (reason : string) (now : Z) : store * bool :=
  match Update s jobsResource id
          (list_to_map [("status", VString jobStatusWaitingInfra); ("retry_count", VInt retryCount);
             ("next_retry_at", VString (format_rfc3339 nextRetryAt)); ("error_message", VString reason); ("status_reason", VString reason);
             ("completed_at", VNil)]) now with
  | (s', Some _) => (s', true)
  | (s', None) => (s', false)
  end.

(** [clock] is the reading of time.Now at the write. *)
Definition failDispatchedJob (st : wl_state) (id reason : string) (clock : Z) : wl_state :=
  let found := FindJob (wl_store st) id in
  match MarkDispatchFailed (wl_store st) id reason clock clock with
  | (s, false) => with_store st s
  | (s, true) => match found with
                 | Some rc => releaseJobReservation cfg (with_store st s) (rec_Data rc)
                 | None => with_store st s
                 end
  end.

Definition deferDispatchForInfrastructure (st : wl_state) (rc : record) (now clock : Z) (e : derror) : wl_state :=
  let nextRetryCount := i64 (IntValue (rec_Data rc) ["retry_count"; "retryCount"] + 1) in
  if dispatcherRetryMaxAttempts <=? nextRetryCount
  then failDispatchedJob st (rec_ID rc)
         (sprintf "infrastructure recovery retry limit reached after %d attempts: %v" [VInt nextRetryCount; VString (de_text e)]) clock
  else
    let nextRetryAt := now + dispatcherBackoff nextRetryCount in
    let reason := sprintf "waiting for workload infrastructure recovery (attempt %d/%d, retry at %s): %v"
                    [VInt nextRetryCount; VInt dispatcherRetryMaxAttempts; VString (format_rfc3339 nextRetryAt); VString (de_text e)] in
    with_store st (fst (DeferForInfrastructureRecovery (wl_store st) (rec_ID rc) nextRetryCount nextRetryAt reason clock)).

Definition handleDispatchCreateError (st : wl_state) (rc : record) (now clock : Z) (e : derror) : wl_state :=
  if dispatchPermanentError e then failDispatchedJob st (rec_ID rc) (de_text e) clock
  else deferDispatchForInfrastructure st rc now clock e.

(** ** Resources of a job *)

Definition resourceItems (v : any) : list object :=
  match v with
  | VMaps l => l
  | VList l => omap as_map l
  | VString text => default [] (unmarshal_objects (TrimSpace text))
  | _ => []
  end.

(** The manifest of an item: "" when it has none, [Err] when it cannot be marshalled. *)
Fixpoint raw_from_keys (data : object) (keys : list string) : option (result string string) :=
  match keys with
  | [] => None
  | k :: ks => match data !! k with
               | None | Some VNil => raw_from_keys data ks
               | Some (VString text) => Some (Ok (TrimSpace text))
               | Some v => Some (match marshal v with
                                 | Some body => Ok body
                                 | None => Err (sprintf dispatcherMarshalResourceError [VString (TextValue data ["name"; "Name"])])
                                 end)
               end
  end.

Definition dispatchResourceRaw (data : object) : result string string :=
  match raw_from_keys data ["json_data"; "jsonData"; "json"; "object"; "manifest"] with
  | Some r => r
  | None =>
      if negb (str_empty (TextValue data ["apiVersion"])) || negb (str_empty (TextValue data ["kind"; "Kind"]))
      then match marshal (VMap data) with
           | Some body => Ok body
           | None => Err (sprintf dispatcherMarshalResourceError [VString (TextValue data ["name"; "Name"])])
           end
      else Ok ""
  end.

Definition dispatchResourceKind (raw : string) : string :=
  match unmarshal_object raw with Some obj => TextValue obj ["kind"; "Kind"] | None => "" end.

Definition platform_kinds : list string :=
  ["namespace"; "serviceaccount"; "role"; "rolebinding"; "clusterrole"; "clusterrolebinding"; "ingress"; "persistentvolume";
   "mutatingwebhookconfiguration"; "validatingwebhookconfiguration"; "customresourcedefinition"; "resourcequota"; "limitrange"; "networkpolicy"].

Definition deniedDispatchResourceKind (kind : string) : option string :=
  let k := ToLower (TrimSpace kind) in
  if String.eqb k "secret"
  then Some "raw Kubernetes Secret resources are rejected; use the platform secret API or an approved ExternalSecret profile"
  else if bool_decide (k ∈ platform_kinds)
  then Some (sprintf "raw Kubernetes %s resources are rejected; this resource is managed by the platform" [VString kind])
  else None.

Fixpoint dispatch_items (items : list object) : result string (list dispatchResource) :=
  match items with
  | [] => Ok []
  | item :: rest =>
      match dispatchResourceRaw item with
      | Err e => Err e
      | Ok raw =>
          if str_empty raw then dispatch_items rest
          else
            let kind := FirstNonEmpty [TextValue item ["kind"; "Kind"]; dispatchResourceKind raw] in
            match deniedDispatchResourceKind kind with
            | Some e => Err e
            | None => match dispatch_items rest with
                      | Err e => Err e
                      | Ok out => Ok (Resource (TextValue item ["name"; "Name"]) kind raw :: out)
                      end
            end
      end
  end.

Definition dispatchResources (data : object) : result string (list dispatchResource) :=
  let raw := match firstPresent data ["resources"; "Resources"] with
             | Some v => v
             | None => match firstPresent data ["submission_payload"; "submissionPayload"; "SubmissionPayload"] with
                       | Some (VMap payload) => firstPayloadValue payload ["resources"; "Resources"]
                       | _ => VNil
                       end
             end in
  dispatch_items (resourceItems raw).

(** ** Dispatching a job *)

(** What one run meets: the cluster client or none, the storage and data planes and their
    claims, the rewriting of the manifests, the clock at the write of a job. *)
Record dispatch_env (SP DP : Type) := DispatchEnv {
  dv_cluster : bool;
  dv_EnsureNamespace : string -> option derror;
  dv_storagePlan : object -> string -> result derror SP;
  dv_storageClaims : SP -> string -> option derror;
  dv_dataPlane : object -> string -> result derror DP;
  dv_dataClaims : DP -> string -> option derror;
  dv_prepare : object -> list dispatchResource -> string -> SP -> DP -> result derror (list dispatchManifest);
  dv_CreateByJSON : string -> string -> result derror CreatedObject;
  dv_clock : string -> Z
}.

Context {SP DP : Type} (ev : dispatch_env SP DP).

(** The objects created, or the error, with the calls made; a loop stops at the first error. *)
Definition create_all (create : dispatchManifest -> list wl_call * result derror (list object)) :=
  fix all (l : list dispatchManifest) : list wl_call * result derror (list object) :=
    match l with
    | [] => ([], Ok [])
    | m :: rest =>
        match create m with
        | (tr, Err e) => (tr, Err e)
        | (tr, Ok objects) =>
            match all rest with
            | (tr', Ok more) => (tr ++ tr', Ok (objects ++ more))
            | (tr', Err e) => (tr ++ tr', Err e)
            end
        end
    end.

Fixpoint createDispatchManifest (namespace : string) (m : dispatchManifest) : list wl_call * result derror (list object) :=
  match m with
  | Manifest raw fallback =>
      match dv_CreateByJSON _ _ ev namespace raw with
      | Ok obj => ([CallCreate namespace raw], Ok [createdDispatchResource obj])
      | Err e =>
          match fallback with
          | [] => ([CallCreate namespace raw], Err e)
          | _ => let '(tr, r) := create_all (createDispatchManifest namespace) fallback in (CallCreate namespace raw :: tr, r)
          end
      end
  end.

Definition create_manifests (namespace : string) : list dispatchManifest -> list wl_call * result derror (list object) :=
  create_all (createDispatchManifest namespace).

Definition calls (st : wl_state) (tr : list wl_call) : wl_state := WL (wl_store st) (wl_trace st ++ tr).

Definition rollbackDispatch (st : wl_state) (namespace jobID : string) : wl_state :=
  if str_empty namespace || str_empty jobID then st else emit (CallCleanup namespace jobID) st.

Definition dispatchJob (now : Z) (st : wl_state) (rc : record) : wl_state :=
  let clock := dv_clock _ _ ev (rec_ID rc) in
  let fail st' reason := failDispatchedJob st' (rec_ID rc) reason clock in
  if negb (dv_cluster _ _ ev) then deferDispatchForInfrastructure st rc now clock cluster_unavailable
  else
    let namespace := TextValue (rec_Data rc) ["namespace"; "Namespace"] in
    if str_empty namespace then fail st "namespace is required"
    else match dispatchResources (rec_Data rc) with
    | Err e => fail st e
    | Ok [] => fail st "no workload resources found"
    | Ok resources =>
        let st1 := emit (CallEnsureNamespace namespace) st in
        match dv_EnsureNamespace _ _ ev namespace with
        | Some e => deferDispatchForInfrastructure st1 rc now clock e
        | None =>
            match dv_storagePlan _ _ ev (rec_Data rc) namespace with
            | Err e => handleDispatchCreateError st1 rc now clock e
            | Ok storagePlan =>
                let st2 := emit (CallEnsurePVC namespace) st1 in
                match dv_storageClaims _ _ ev storagePlan namespace with
                | Some e => handleDispatchCreateError st2 rc now clock e
                | None =>
                    match dv_dataPlane _ _ ev (rec_Data rc) namespace with
                    | Err e => handleDispatchCreateError st2 rc now clock e
                    | Ok dataPlane =>
                        let st3 := emit (CallEnsurePVC namespace) st2 in
                        match dv_dataClaims _ _ ev dataPlane namespace with
                        | Some e => handleDispatchCreateError st3 rc now clock e
                        | None =>
                            match dv_prepare _ _ ev (rec_Data rc) resources namespace storagePlan dataPlane with
                            | Err e => fail (rollbackDispatch st3 namespace (rec_ID rc)) (de_text e)
                            | Ok manifests =>
                                match create_manifests namespace manifests with
                                | (tr, Err e) =>
                                    handleDispatchCreateError (rollbackDispatch (calls st3 tr) namespace (rec_ID rc)) rc now clock e
                                | (tr, Ok created) =>
                                    with_store (calls st3 tr)
                                      (fst (MarkDispatchRunning (wl_store st) (rec_ID rc) now clock created))
                                end
                            end
                        end
                    end
                end
            end
        end
    end.

Definition dispatchSubmittedWorkloads (st : wl_state) (now : Z) : wl_state :=
  fold_left (fun st' c => dispatchJob now st' (dc_record c))
    (take dispatcherMaxJobsPerRun (ListDispatchCandidates (wl_store st) now)) st.

End Dispatch.

(** ** A dispatch is a step of the job *)

Section Steps.
Context `{GoLib} {ip : Type} (cfg : config ip).

Lemma manifest_ind (P : dispatchManifest -> Prop) :
  (forall raw fallback, Forall P fallback -> P (Manifest raw fallback)) -> forall m, P m.
Proof.
  intros HP. fix IH 1. intros [raw fallback]. apply HP. induction fallback as [|f l IHl]; constructor; [apply IH|exact IHl].
Qed.

(** Calls were made, none of them a release, and the store is as it was. *)
Definition quiet (st st' : wl_state) : Prop :=
  wl_store st' = wl_store st /\ exists tr, wl_trace st' = wl_trace st ++ tr /\ released tr = [].

Lemma quiet_refl st : quiet st st.
Proof. split; [done|]. exists []. by rewrite app_nil_r. Qed.

Lemma quiet_trans st1 st2 st3 : quiet st1 st2 -> quiet st2 st3 -> quiet st1 st3.
Proof.
  intros (E1 & t1 & T1 & R1) (E2 & t2 & T2 & R2). split; [congruence|]. exists (t1 ++ t2).
  rewrite T2, T1, app_assoc, released_app, R1, R2. done.
Qed.

Lemma quiet_emit st c : (forall id, c ≠ CallRelease id) -> quiet st (emit c st).
Proof.
  intros Hc. split; [done|]. exists [c]. split; [done|]. destruct c; try done. by destruct (Hc reservationID).
Qed.

Lemma released_all create l : Forall (fun m => released (create m).1 = []) l -> released (create_all create l).1 = [].
Proof.
  induction 1 as [|m l Hm _ IH]; [done|]. cbn [create_all]. destruct (create m) as [tr [objs|e]]; cbn [fst] in *; [|done].
  destruct (create_all create l) as [tr' [more|e]]; cbn [fst] in *; by rewrite released_app, Hm, IH.
Qed.

Lemma released_create {SP DP} (ev : dispatch_env SP DP) ns m : released (createDispatchManifest ev ns m).1 = [].
Proof.
  induction m as [raw fallback IH] using manifest_ind. apply released_all in IH. cbn.
  destruct (dv_CreateByJSON _ _ ev ns raw); [done|]. destruct fallback as [|f l]; [done|].
  fold (createDispatchManifest ev). destruct (create_all (createDispatchManifest ev ns) (f :: l)) as [tr r]. exact IH.
Qed.

Lemma released_manifests {SP DP} (ev : dispatch_env SP DP) ns l : released (create_manifests ev ns l).1 = [].
Proof. apply released_all. induction l; constructor; [apply released_create|done]. Qed.

(** The job as the listing showed it, waiting to be dispatched. *)
Definition dispatchable (st : wl_state) (rc : record) : Prop :=
  Get (wl_store st) jobsResource (rec_ID rc) = Some rc /\ rec_ID rc ≠ "" /\
  currentJobStatus (rec_Data rc) ∈ [jobStatusSubmitted; jobStatusWaitingInfra].

Lemma dispatchable_quiet st st' rc : quiet st st' -> dispatchable st rc -> dispatchable st' rc.
Proof. intros [E _] (Hg & Hr). split; [by rewrite E|done]. Qed.

Lemma FindJob_own st rc : dispatchable st rc -> FindJob (wl_store st) (rec_ID rc) = Some rc.
Proof.
  intros (Hg & Hne & _). unfold FindJob, str_empty. destruct (String.eqb_spec (rec_ID rc) ""); [done|]. by rewrite Hg.
Qed.

Lemma rollback_quiet st ns id : quiet st (rollbackDispatch st ns id).
Proof. unfold rollbackDispatch. destruct (_ || _); [apply quiet_refl|by apply quiet_emit]. Qed.

Lemma calls_quiet st tr : released tr = [] -> quiet st (calls st tr).
Proof. intros R. split; [done|]. by exists tr. Qed.

(** However a dispatch goes, after some calls it fails the job, defers it or marks it running. *)
Inductive dispatch_end (now : Z) (st : wl_state) (rc : record) : wl_state -> Prop :=
| EndFail st1 reason clock : quiet st st1 -> dispatch_end now st rc (failDispatchedJob cfg st1 (rec_ID rc) reason clock)
| EndDefer st1 clock e : quiet st st1 -> dispatch_end now st rc (deferDispatchForInfrastructure cfg st1 rc now clock e)
| EndRunning st1 clock created : quiet st st1 ->
    dispatch_end now st rc (with_store st1 (fst (MarkDispatchRunning (wl_store st1) (rec_ID rc) now clock created))).

Lemma end_handle now st rc st1 clock e : quiet st st1 -> dispatch_end now st rc (handleDispatchCreateError cfg st1 rc now clock e).
Proof. intros Q. unfold handleDispatchCreateError. destruct (dispatchPermanentError e); by constructor. Qed.

Lemma dispatchJob_end {SP DP} (ev : dispatch_env SP DP) now st rc : dispatch_end now st rc (dispatchJob cfg ev now st rc).
Proof.
  pose proof (quiet_refl st) as Q0. unfold dispatchJob. destruct (negb _); [by constructor|]. set (ns := TextValue _ _).
  destruct (str_empty ns); [by constructor|].
  destruct (dispatchResources (rec_Data rc)) as [[|r0 resources]|e]; [by constructor| |by constructor].
  assert (Q1 : quiet st (emit (CallEnsureNamespace ns) st)) by by apply quiet_emit.
  destruct (dv_EnsureNamespace _ _ ev ns); [by constructor|]. destruct (dv_storagePlan _ _ ev _ ns) as [sp|]; [|by apply end_handle].
  assert (Q2 : quiet st (emit (CallEnsurePVC ns) (emit (CallEnsureNamespace ns) st))) by (eapply quiet_trans; [exact Q1|by apply quiet_emit]).
  destruct (dv_storageClaims _ _ ev sp ns); [by apply end_handle|]. destruct (dv_dataPlane _ _ ev _ ns) as [dp|]; [|by apply end_handle].
  set (st3 := emit (CallEnsurePVC ns) (emit (CallEnsurePVC ns) (emit (CallEnsureNamespace ns) st))).
  assert (Q3 : quiet st st3) by (eapply quiet_trans; [exact Q2|by apply quiet_emit]).
  destruct (dv_dataClaims _ _ ev dp ns); [by apply end_handle|]. destruct (dv_prepare _ _ ev _ _ ns sp dp) as [manifests|].
  - pose proof (released_manifests ev ns manifests) as R. destruct (create_manifests ev ns manifests) as [tr [created|e]]; cbn [fst] in R.
    + apply (EndRunning now st rc (calls st3 tr)). eapply quiet_trans; [exact Q3|by apply calls_quiet].
    + apply end_handle. eapply quiet_trans; [exact Q3|]; eapply quiet_trans; [by apply calls_quiet|apply rollback_quiet].
  - constructor. eapply quiet_trans; [exact Q3|apply rollback_quiet].
Qed.

(** *** A run of the dispatcher *)

Lemma dispatch_candidate_record now rc c :
  dispatch_candidate now rc = Some c -> dc_record c = rc /\ currentJobStatus (rec_Data rc) ∈ [jobStatusSubmitted; jobStatusWaitingInfra].
Proof.
  unfold dispatch_candidate. destruct (String.eqb_spec (currentJobStatus (rec_Data rc)) jobStatusSubmitted) as [->|].
  - intros [= <-]. split; [done|]. apply list_elem_of_here.
  - destruct (String.eqb_spec (currentJobStatus (rec_Data rc)) jobStatusWaitingInfra) as [->|]; [|done].
    destruct (nextRetryDue _ _) as [due []]; [|done]. intros [= <-]. split; [done|]. apply list_elem_of_further, list_elem_of_here.
Qed.

Lemma candidate_records now l :
  map dc_record (omap (dispatch_candidate now) l) =
  List.filter (fun rc => match dispatch_candidate now rc with Some _ => true | None => false end) l.
Proof.
  induction l as [|rc l IH]; [done|]. cbn. destruct (dispatch_candidate now rc) as [c|] eqn:E; cbn; [|exact IH].
  apply dispatch_candidate_record in E as [-> _]. by f_equal.
Qed.

Lemma candidates_spec s now :
  jobs_filed s ->
  NoDup (map (fun c => rec_ID (dc_record c)) (ListDispatchCandidates s now)) /\
  forall c, c ∈ ListDispatchCandidates s now ->
    Get s jobsResource (rec_ID (dc_record c)) = Some (dc_record c) /\ rec_ID (dc_record c) ≠ "" /\
    currentJobStatus (rec_Data (dc_record c)) ∈ [jobStatusSubmitted; jobStatusWaitingInfra].
Proof.
  intros Hf. unfold ListDispatchCandidates. split.
  - rewrite SliceStable_perm. rewrite <- (map_map dc_record rec_ID), candidate_records. by apply NoDup_map_filter, List_ids_NoDup.
  - intros c. rewrite SliceStable_perm, list_elem_of_omap. intros (rc & Hin & [-> Hs]%dispatch_candidate_record).
    apply elem_of_List in Hin as [id Hid]. destruct (Hf _ _ Hid) as [-> Hne]. done.
Qed.

(** ** Histories

    The state of the service with the jobs the runs in progress have listed and not yet come
    to.  A run of the dispatcher, or of the reconciler, is its listing and then a step for each
    job it listed, the step standing for the write that ends it; between them anything may
    happen, and several runs may be under way.  The reapers and the contracts look at a job
    again before they write to it; each look with its write is one step. *)
Record service := Service { sv_state : wl_state; sv_dispatching : list record; sv_reconciling : list record }.

Definition sv_store (sv : service) : store := wl_store (sv_state sv).
Definition listed (sv : service) : list string := map rec_ID (sv_dispatching sv ++ sv_reconciling sv).

Definition dispatch_listing (s : store) (now : Z) : list record :=
  map dc_record (take dispatcherMaxJobsPerRun (ListDispatchCandidates s now)).

Inductive service_step {SP DP : Type} : service -> service -> Prop :=
| SDispatchList st ds rs now : service_step (Service st ds rs) (Service st (dispatch_listing (wl_store st) now ++ ds) rs)
| SDispatch (ev : dispatch_env SP DP) now st ds rc ds' rs :
    service_step (Service st (ds ++ rc :: ds') rs) (Service (dispatchJob cfg ev now st rc) (ds ++ ds') rs)
| SReconcileList st ds rs : service_step (Service st ds rs) (Service st ds (ListLifecycleReconcileCandidates (wl_store st) ++ rs))
| SReconcile ce now st ds rs rc rs' :
    service_step (Service st ds (rs ++ rc :: rs')) (Service (reconcileNativeWorkloadRecord cfg ce st rc now).1 ds (rs ++ rs'))
| SRunEnds st ds ds' rs rs' : ds' ⊆ ds -> rs' ⊆ rs -> service_step (Service st ds rs) (Service st ds' rs')
| SMarkFailed jobID reason now st ds rs : service_step (Service st ds rs) (Service (markJobFailed cfg st jobID reason now) ds rs)
| SReapRuntime ce now st ds rs : service_step (Service st ds rs) (Service (reapExpiredRuntimeWorkloads cfg ce st now).1 ds rs)
| SReapIdle ce ds_String now threshold enabled st ds rs :
    service_step (Service st ds rs) (Service (reapIdleInteractiveWorkloads cfg ds_String ce st now threshold enabled).1 ds rs)
| SPreempt r st ds rs : service_step (Service st ds rs) (Service (workloadPreemptJob cfg st r).1 ds rs)
| SEvict r st ds rs : service_step (Service st ds rs) (Service (workloadEvictJob cfg st r).1 ds rs).

Definition history {SP DP : Type} : service -> service -> Prop := rtc (@service_step SP DP).
Definition idle (st : wl_state) : service := Service st [] [].

(** *** A run that nothing interrupts is a history *)

Lemma dispatch_run_history {SP DP} (ev : dispatch_env SP DP) st now ds rs :
  @history SP DP (Service st ds rs) (Service (dispatchSubmittedWorkloads cfg ev st now) ds rs).
Proof.
  eapply rtc_l; [apply (SDispatchList st ds rs now)|]. unfold dispatchSubmittedWorkloads, dispatch_listing.
  generalize (take dispatcherMaxJobsPerRun (ListDispatchCandidates (wl_store st) now)). intros l. revert st.
  induction l as [|c l IH]; intros st; cbn; [reflexivity|]. eapply rtc_l; [apply (SDispatch ev now st [])|]. apply IH.
Qed.

Lemma reconcile_run_history {SP DP} ce st now ds rs :
  @history SP DP (Service st ds rs) (Service (reconcileNativeWorkloadStatuses cfg ce st now).1 ds rs).
Proof.
  unfold reconcileNativeWorkloadStatuses. destruct ce as [ce|]; [|reflexivity]. eapply rtc_l; [apply SReconcileList|].
  generalize (ListLifecycleReconcileCandidates (wl_store st)). intros l. revert st. induction l as [|rc l IH]; intros st; cbn; [reflexivity|].
  eapply rtc_l; [apply (SReconcile ce now st ds [])|]. cbn. destruct (reconcileNativeWorkloadRecord cfg ce st rc now) as [st' [[]|e]]; cbn; [apply IH|].
  apply rtc_once, SRunEnds; set_solver.
Qed.

(** *** What every step keeps *)

Definition service_ok (sv : service) : Prop :=
  jobs_filed (sv_store sv) /\ Forall (listed_in (sv_state sv)) (sv_dispatching sv ++ sv_reconciling sv).

Lemma writes_quiet id st st1 st2 : quiet st st1 -> writes_only cfg id st1 st2 -> writes_only cfg id st st2.
Proof.
  intros (E & tr & T & R) [[N S (tr' & T' & A & B)] F]. rewrite E in *. split; [split|]; [done|done| |done].
  exists (tr ++ tr'). rewrite released_app, R. cbn. split; [by rewrite T', T, app_assoc|done].
Qed.

(** The write of a status, with the release when the job ends by it. *)
Lemma status_write st id rc0 d now x (rel : bool) :
  Get (wl_store st) jobsResource id = Some rc0 -> d !! "reservation_id" = None -> d !! "reservationId" = None ->
  d !! "status" = Some (VString x) -> x ∈ (if rel then terminalJobStatuses else [jobStatusWaitingInfra; jobStatusRunning]) ->
  exists s' rc', Update (wl_store st) jobsResource id d now = (s', Some rc') /\
    writes_only cfg id st (if rel then releaseJobReservation cfg (with_store st s') (rec_Data rc0) else with_store st s').
Proof.
  intros Hg H1 H2 Hx Hin. destruct (Update_total _ _ _ d now _ Hg) as (s' & rc' & HU). exists s', rc'. split; [done|].
  assert (currentJobStatus (rec_Data rc') = ToLower x) as Hs by (apply (Update_status _ _ _ _ _ _ x HU Hx); destruct rel; set_unfold; naive_solver).
  apply (stale_write cfg st id rc0 d now s' rc' rel); [done..| |]; unfold terminal; rewrite Hs; intros ->; [set_unfold; naive_solver|].
  rewrite !elem_of_cons, elem_of_nil in Hin. intros Ht. exfalso. destruct Hin as [->|[->|[]]]; apply (bool_decide_pack _) in Ht; vm_compute in Ht; exact Ht.
Qed.

Lemma fail_writes st id rc0 reason clock :
  id ≠ "" -> Get (wl_store st) jobsResource id = Some rc0 -> writes_only cfg id st (failDispatchedJob cfg st id reason clock).
Proof.
  intros Hne Hg. unfold failDispatchedJob, FindJob, str_empty. destruct (String.eqb_spec id ""); [done|]. rewrite Hg. unfold MarkDispatchFailed.
  match goal with |- context [Update _ _ _ ?d _] => destruct (status_write st id rc0 d clock jobStatusFailed true Hg) as (s' & rc' & HU & HW) end;
    [done|done|done|set_solver|]. by rewrite HU.
Qed.

Lemma defer_writes st rc rc0 now clock e :
  rec_ID rc ≠ "" -> Get (wl_store st) jobsResource (rec_ID rc) = Some rc0 -> writes_only cfg (rec_ID rc) st (deferDispatchForInfrastructure cfg st rc now clock e).
Proof.
  intros Hne Hg. unfold deferDispatchForInfrastructure. destruct (_ <=? _); [by eapply fail_writes|]. unfold DeferForInfrastructureRecovery.
  match goal with |- context [Update _ _ _ ?d _] => destruct (status_write st (rec_ID rc) rc0 d clock jobStatusWaitingInfra false Hg) as (s' & rc' & HU & HW) end;
    [done|done|done|set_solver|]. by rewrite HU.
Qed.

Lemma dispatchJob_writes {SP DP} (ev : dispatch_env SP DP) now st rc :
  listed_in st rc -> writes_only cfg (rec_ID rc) st (dispatchJob cfg ev now st rc).
Proof.
  intros (Hne & _ & rc0 & Hg & _).
  destruct (dispatchJob_end ev now st rc) as [st1 reason clock Q|st1 clock e Q|st1 clock created Q]; apply (writes_quiet _ _ _ _ Q);
    destruct Q as [E _]; rewrite <- E in Hg; [by eapply fail_writes|by eapply defer_writes|]. unfold MarkDispatchRunning.
  match goal with |- context [Update _ _ _ ?d _] => destruct (status_write st1 (rec_ID rc) rc0 d clock jobStatusRunning false Hg) as (s' & rc' & HU & HW) end;
    [done|done|done|set_solver|]. by rewrite HU.
Qed.

(** A step writes to the job at the head of a listing, or steps as [job_step] says. *)
Lemma service_step_cases {SP DP} sv sv' : @service_step SP DP sv sv' -> service_ok sv ->
  (exists rc, rc ∈ sv_dispatching sv ++ sv_reconciling sv /\ writes_only cfg (rec_ID rc) (sv_state sv) (sv_state sv')) \/
  job_step cfg (sv_state sv) (sv_state sv').
Proof.
  intros Hs [Hf Hl]. rewrite Forall_forall in Hl. unfold sv_store in Hf.
  destruct Hs; cbn [sv_state sv_dispatching sv_reconciling] in *; try (right; reflexivity).
  - left. exists rc. split; [set_solver|]. apply dispatchJob_writes, Hl. set_solver.
  - left. exists rc. split; [set_solver|]. apply reconcile_record_writes, Hl. set_solver.
  - right. by apply markJobFailed_step.
  - right. by apply reap_runtime_step.
  - right. by apply reap_idle_step.
  - right. by apply preempt_step.
  - right. by apply evict_step.
Qed.

Lemma service_step_writes {SP DP} sv sv' : @service_step SP DP sv sv' -> service_ok sv -> write_step cfg (sv_state sv) (sv_state sv').
Proof. intros Hs Hok. destruct (service_step_cases _ _ Hs Hok) as [(rc & _ & Hw & _)|Hj]; [done|by apply job_step_writes]. Qed.

Lemma live_listed st rc : jobs_filed (wl_store st) -> rc ∈ List_ (wl_store st) jobsResource ->
  currentJobStatus (rec_Data rc) ∈ statusReconcilerLiveStatuses -> Get (wl_store st) jobsResource (rec_ID rc) = Some rc /\ listed_in st rc.
Proof.
  intros Hf [id Hid]%elem_of_List Hs. destruct (Hf _ _ Hid) as [<- Hne]. split; [done|]. split_and!; [done|done|]. by exists rc.
Qed.

Lemma dispatch_listing_spec st now rc : rc ∈ dispatch_listing (wl_store st) now ->
  rc ∈ List_ (wl_store st) jobsResource /\ currentJobStatus (rec_Data rc) ∈ statusReconcilerLiveStatuses.
Proof.
  intros (c & -> & Hc)%list_elem_of_fmap. apply (subseteq_take dispatcherMaxJobsPerRun) in Hc. unfold ListDispatchCandidates in Hc.
  rewrite SliceStable_perm, list_elem_of_omap in Hc. destruct Hc as (rc & Hin & [-> Hs]%dispatch_candidate_record). split; [done|].
  unfold statusReconcilerLiveStatuses. rewrite !elem_of_cons, elem_of_nil in *. tauto.
Qed.

Lemma reconcile_listing_spec s rc : rc ∈ ListLifecycleReconcileCandidates s ->
  rc ∈ List_ s jobsResource /\ currentJobStatus (rec_Data rc) ∈ statusReconcilerLiveStatuses.
Proof. intros [Hin Hs%has_status_spec]%list_elem_of_In%List.filter_In. by rewrite list_elem_of_In. Qed.

(** What a step adds to the listings are live jobs. *)
Lemma service_step_listed {SP DP} sv sv' rc : @service_step SP DP sv sv' -> service_ok sv -> rc ∈ sv_dispatching sv' ++ sv_reconciling sv' ->
  rc ∈ sv_dispatching sv ++ sv_reconciling sv \/
  sv_state sv' = sv_state sv /\ rc ∈ List_ (sv_store sv) jobsResource /\ currentJobStatus (rec_Data rc) ∈ statusReconcilerLiveStatuses.
Proof.
  intros Hs _ Hin. destruct Hs; cbn [sv_state sv_dispatching sv_reconciling] in *; rewrite ?elem_of_app in *; try tauto.
  - destruct Hin as [[Hin|Hin]|Hin]; [right|tauto..]. by apply dispatch_listing_spec in Hin.
  - set_solver.
  - destruct Hin as [Hin|[Hin|Hin]]; [tauto|right|tauto]. by apply reconcile_listing_spec in Hin.
  - set_solver.
  - set_solver.
Qed.

Lemma service_step_ok {SP DP} sv sv' : @service_step SP DP sv sv' -> service_ok sv -> service_ok sv'.
Proof.
  intros Hs Hok. pose proof (service_step_writes _ _ Hs Hok) as Hw. split; [eapply write_step_filed; [exact Hw|apply Hok]|].
  apply Forall_forall. intros rc Hin. destruct (service_step_listed _ _ _ Hs Hok Hin) as [Hold|(E & Hnew & Hlive)].
  - eapply listed_write; [exact Hw|]. destruct Hok as [_ Hl]. rewrite Forall_forall in Hl. by apply Hl.
  - rewrite E. by apply live_listed; [apply Hok|..].
Qed.

Lemma history_ok {SP DP} sv sv' : @history SP DP sv sv' -> service_ok sv -> service_ok sv'.
Proof. induction 1; [done|]. eauto using service_step_ok. Qed.

Lemma idle_ok st : jobs_filed (wl_store st) -> service_ok (idle st).
Proof. intros Hf. split; [done|constructor]. Qed.

(** A job that has ended, and that no run in progress has listed, stays as it is. *)
Lemma ended_step {SP DP} sv sv' id rc : @service_step SP DP sv sv' -> service_ok sv ->
  Get (sv_store sv) jobsResource id = Some rc -> terminal rc -> id ∉ listed sv -> Get (sv_store sv') jobsResource id = Some rc /\ id ∉ listed sv'.
Proof.
  intros Hs Hok Hg Ht Hl. unfold listed in *. split.
  - destruct (service_step_cases _ _ Hs Hok) as [(rc1 & Hin & _ & Hother)|[_ _ HS _]].
    + unfold sv_store in *. rewrite Hother; [done|]. intros ->. apply Hl. by apply (list_elem_of_fmap_2 rec_ID).
    + destruct (HS _ _ Hg) as (rc' & Hg' & _ & _ & Hfix). by rewrite <- (Hfix Ht).
  - intros (rc1 & -> & Hin)%list_elem_of_fmap. destruct (service_step_listed _ _ _ Hs Hok Hin) as [Hold|(_ & Hnew & Hlive)].
    + apply Hl. by apply (list_elem_of_fmap_2 rec_ID).
    + destruct (live_listed (sv_state sv) rc1) as [Hg1 _]; [apply Hok|done|done|]. unfold sv_store in Hg. rewrite Hg1 in Hg. injection Hg as ->.
      by apply live_not_terminal in Hlive.
Qed.

Lemma ended_history {SP DP} sv sv' id rc : @history SP DP sv sv' -> service_ok sv ->
  Get (sv_store sv) jobsResource id = Some rc -> terminal rc -> id ∉ listed sv -> Get (sv_store sv') jobsResource id = Some rc.
Proof.
  induction 1 as [|sv sv1 sv' Hs _ IH]; intros Hok Hg Ht Hl; [done|]. destruct (ended_step _ _ _ _ Hs Hok Hg Ht Hl) as [Hg1 Hl1].
  apply IH; [by eapply service_step_ok|done..].
Qed.

Lemma history_jobs {SP DP} sv sv' id : @history SP DP sv sv' -> service_ok sv ->
  match Get (sv_store sv) jobsResource id with
  | None => Get (sv_store sv') jobsResource id = None
  | Some rc => exists rc', Get (sv_store sv') jobsResource id = Some rc' /\ reservation_of (rec_Data rc') = reservation_of (rec_Data rc)
  end.
Proof.
  induction 1 as [sv|sv sv1 sv' Hs _ IH]; intros Hok; [destruct (Get _ _ _); eauto|].
  specialize (IH (service_step_ok _ _ Hs Hok)). destruct (service_step_writes _ _ Hs Hok) as [N S _]. unfold sv_store in *.
  destruct (Get (wl_store (sv_state sv)) jobsResource id) as [rc|] eqn:E; [|by rewrite (N id E) in IH].
  destruct (S id rc E) as (rc1 & E1 & _ & R1). rewrite E1 in IH. destruct IH as (rc' & E' & R'). exists rc'. split; congruence.
Qed.

(** C33: A job that has ended stays as it is: in any history of dispatcher runs, status
    reconciliations, reaper runs, preemptions and evictions, with the steps of the runs
    interleaved in any way and whatever the cluster answers, a job whose status is terminal
    (completed, failed, cancelled, preempted or evicted) keeps its whole record from then on,
    unless a run in progress had listed it while it was live; and no job appears or disappears.
    The exception is real: the writes of a run do not look at the status again, so a job that
    ends after it was listed can be revived ([stale_dispatch_revives]). *)
Theorem terminal_jobs_final {SP DP} st sv sv' id :
  jobs_filed (wl_store st) -> @history SP DP (idle st) sv -> @history SP DP sv sv' ->
  match Get (sv_store sv) jobsResource id with
  | None => Get (sv_store sv') jobsResource id = None
  | Some rc => exists rc', Get (sv_store sv') jobsResource id = Some rc' /\ (terminal rc -> id ∉ listed sv -> rc' = rc)
  end.
Proof.
  intros Hf Hs Hs'. pose proof (history_ok _ _ Hs (idle_ok st Hf)) as Hok. pose proof (history_jobs _ _ id Hs' Hok) as Hj.
  destruct (Get (sv_store sv) jobsResource id) as [rc|] eqn:E; [|done]. destruct Hj as (rc' & E' & _). exists rc'. split; [done|].
  intros Ht Hl. pose proof (ended_history _ _ _ _ Hs' Hok E Ht Hl). congruence.
Qed.

Lemma released_history {SP DP} sv sv' : newSchedulerReservationClient cfg = true -> @history SP DP sv sv' -> service_ok sv ->
  exists tr, wl_trace (sv_state sv') = wl_trace (sv_state sv) ++ tr /\
  (forall id rc rc', Get (sv_store sv) jobsResource id = Some rc -> Get (sv_store sv') jobsResource id = Some rc' ->
     ~ terminal rc -> terminal rc' -> reservation_of (rec_Data rc) ≠ "" -> reservation_of (rec_Data rc) ∈ released tr) /\
  (forall x, x ∈ released tr -> exists mid id rc, @history SP DP sv mid /\ @history SP DP mid sv' /\
     Get (sv_store mid) jobsResource id = Some rc /\ terminal rc /\ reservation_of (rec_Data rc) = x).
Proof.
  intros Hc. induction 1 as [sv|sv sv1 sv' Hs Hs' IH]; intros Hok.
  { exists []. rewrite app_nil_r. split_and!; [done| |set_solver]. intros id rc rc' H1 H2. rewrite H1 in H2. naive_solver. }
  destruct (IH (service_step_ok _ _ Hs Hok)) as (tr2 & T2 & A2 & B2). destruct (service_step_writes _ _ Hs Hok) as [_ S (tr1 & T1 & A1 & B1)].
  exists (tr1 ++ tr2). rewrite released_app. split; [by rewrite T2, T1, app_assoc|]. split.
  - intros id rc rc' Hg Hg' Hl Ht Hne. destruct (S _ _ Hg) as (rc1 & Hg1 & _ & R1). apply elem_of_app.
    destruct (decide (terminal rc1)); [left; by eapply A1|right]. rewrite <- R1. apply (A2 id rc1 rc'); try done. by rewrite R1.
  - intros x [Hx|Hx]%elem_of_app.
    + destruct (B1 x Hx) as (id & rc & Hg & Ht & Hr). exists sv1, id, rc. split_and!; [by apply rtc_once|done..].
    + destruct (B2 x Hx) as (mid & id & rc & H1 & H2 & Hr). exists mid, id, rc. split_and!; [by eapply rtc_l|done|apply Hr..].
Qed.

(** C34: Quota follows the jobs: with a scheduler client configured, over any such history the
    reservation of a job never changes, that of a job that was live and has ended was released,
    and whatever was released is the reservation of a job that ended on the way: at some point
    of the history it was terminal, and it is so still, as it was then, unless a run in
    progress had listed it by then (the exception of [stale_dispatch_revives]). *)
Theorem reservations_follow_jobs {SP DP} st sv :
  jobs_filed (wl_store st) -> newSchedulerReservationClient cfg = true -> @history SP DP (idle st) sv ->
  exists tr, wl_trace (sv_state sv) = wl_trace st ++ tr /\
  (forall id rc rc', Get (wl_store st) jobsResource id = Some rc -> Get (sv_store sv) jobsResource id = Some rc' ->
     reservation_of (rec_Data rc') = reservation_of (rec_Data rc) /\
     (~ terminal rc -> terminal rc' -> reservation_of (rec_Data rc) ≠ "" -> reservation_of (rec_Data rc) ∈ released tr)) /\
  (forall x, x ∈ released tr -> exists mid id rc,
     @history SP DP (idle st) mid /\ @history SP DP mid sv /\ Get (sv_store mid) jobsResource id = Some rc /\ terminal rc /\
     reservation_of (rec_Data rc) = x /\ (Get (sv_store sv) jobsResource id = Some rc \/ id ∈ listed mid)).
Proof.
  intros Hf Hc Hs. pose proof (idle_ok st Hf) as Hok. destruct (released_history _ _ Hc Hs Hok) as (tr & Htr & HA & HB).
  exists tr. split_and!; [done| |].
  - intros id rc rc' Hg Hg'. split; [|by eapply HA]. pose proof (history_jobs _ _ id Hs Hok) as Hj. change (sv_store (idle st)) with (wl_store st) in Hj.
    rewrite Hg in Hj. destruct Hj as (rc2 & Hg2 & Hr). congruence.
  - intros x Hx. destruct (HB x Hx) as (mid & id & rc & H1 & H2 & Hg & Ht & Hr). exists mid, id, rc. split_and!; [done..|].
    destruct (decide (id ∈ listed mid)); [by right|left]. exact (ended_history mid sv id rc H2 (history_ok _ _ H1 Hok) Hg Ht n).
Qed.

(** ** Order *)

Lemma ltb_spec a b : String.ltb a b = true <-> ~ String.le b a.
Proof.
  unfold String.ltb, String.le, String.leb. rewrite (String.compare_antisym b a).
  destruct (String.compare a b); cbn; intuition congruence.
Qed.

(** Higher priority first, then the longer due, then by id. *)
Definition goes_before (a b : dispatchCandidate) : Prop :=
  let pa := jobPriority (rec_Data (dc_record a)) in
  let pb := jobPriority (rec_Data (dc_record b)) in
  pb < pa \/ (pa = pb /\ (dc_dueAt a < dc_dueAt b \/ (dc_dueAt a = dc_dueAt b /\ String.le (rec_ID (dc_record a)) (rec_ID (dc_record b))))).

Lemma goes_before_total a b : goes_before a b \/ goes_before b a.
Proof.
  unfold goes_before. destruct (String.le_total (rec_ID (dc_record a)) (rec_ID (dc_record b))); 
  destruct (Z.lt_total (jobPriority (rec_Data (dc_record a))) (jobPriority (rec_Data (dc_record b)))) as [|[|]];
  destruct (Z.lt_total (dc_dueAt a) (dc_dueAt b)) as [|[|]]; auto 7 with lia.
Qed.

Lemma goes_before_trans a b c : goes_before a b -> goes_before b c -> goes_before a c.
Proof.
  unfold goes_before. intros [?|[? [?|[? Hab]]]] [?|[? [?|[? Hbc]]]]; try (left; lia); right; (split; [lia|]);
    try (left; lia); right; (split; [lia|]). by transitivity (rec_ID (dc_record b)).
Qed.

Lemma candidate_less_spec a b : candidate_less a b = true <-> ~ goes_before b a.
Proof.
  unfold candidate_less, goes_before.
  destruct (Z.eqb_spec (jobPriority (rec_Data (dc_record a))) (jobPriority (rec_Data (dc_record b)))) as [->|]; cbn [negb].
  - destruct (Z.eqb_spec (dc_dueAt a) (dc_dueAt b)) as [->|]; cbn [negb].
    + rewrite ltb_spec. intuition lia.
    + rewrite Z.ltb_lt. intuition lia.
  - rewrite Z.ltb_lt. intuition lia.
Qed.

Lemma candidate_less_false a b : candidate_less a b = false -> goes_before b a.
Proof.
  intros E. destruct (goes_before_total a b) as [Hab|]; [|done]. destruct (candidate_less a b) eqn:Hl; [done|]. clear E.
  unfold candidate_less, goes_before in *.
  destruct (Z.eqb_spec (jobPriority (rec_Data (dc_record a))) (jobPriority (rec_Data (dc_record b)))) as [E1|]; cbn [negb] in Hl.
  - destruct (Z.eqb_spec (dc_dueAt a) (dc_dueAt b)) as [E2|]; cbn [negb] in Hl.
    + right. split; [done|]. right. split; [done|]. destruct (String.le_dec (rec_ID (dc_record b)) (rec_ID (dc_record a))) as [|Hn]; [done|].
      apply ltb_spec in Hn. congruence.
    + apply Z.ltb_ge in Hl. right. split; [done|]. left. lia.
  - apply Z.ltb_ge in Hl. left. lia.
Qed.

Lemma sorted_impl {A} (R1 R2 : A -> A -> Prop) l : (forall x y, R1 x y -> R2 x y) -> StronglySorted R1 l -> StronglySorted R2 l.
Proof. intros HR. induction 1; constructor; [done|]. eapply Forall_impl; eauto. Qed.

Lemma candidates_sorted s now : StronglySorted goes_before (ListDispatchCandidates s now).
Proof.
  eapply sorted_impl; [|apply (SliceStable_sorted candidate_less)].
  - intros x y. apply candidate_less_false.
  - intros x y Hxy. apply candidate_less_spec in Hxy. destruct (candidate_less y x) eqn:E; [|done].
    apply candidate_less_spec in E. by destruct (goes_before_total x y).
  - intros x y z Hxz. apply candidate_less_spec in Hxz.
    destruct (candidate_less x y) eqn:E1; [by left|]. destruct (candidate_less y z) eqn:E2; [by right|].
    apply candidate_less_false in E1, E2. destruct Hxz. by eapply goes_before_trans.
Qed.

(** The jobs a run takes up. *)
Definition dispatched_run (s : store) (now : Z) : list dispatchCandidate := take dispatcherMaxJobsPerRun (ListDispatchCandidates s now).

(** The dispatcher is fair to priorities: a job that is due (submitted, or its retry
    time reached) is taken up by the run unless the run is full with thirty-two jobs that
    all go before it (a higher priority, or the same and due earlier, or by id); and only
    jobs that are due are taken up, each once. *)
Theorem dispatch_by_priority s now rc c :
  jobs_filed s -> rc ∈ List_ s jobsResource -> dispatch_candidate now rc = Some c ->
  (c ∈ dispatched_run s now \/
   (length (dispatched_run s now) = dispatcherMaxJobsPerRun /\ Forall (fun d => goes_before d c) (dispatched_run s now))) /\
  NoDup (map (fun d => rec_ID (dc_record d)) (dispatched_run s now)) /\
  Forall (fun d => dispatch_candidate now (dc_record d) = Some d) (dispatched_run s now).
Proof.
  intros Hf Hrc Hc. set (cs := ListDispatchCandidates s now).
  assert (Hin : c ∈ cs) by (unfold cs, ListDispatchCandidates; rewrite SliceStable_perm, list_elem_of_omap; eauto).
  pose proof (candidates_sorted s now) as Hs. fold cs in Hs. destruct (candidates_spec s now Hf) as [Hnd _]. fold cs in Hnd.
  unfold dispatched_run. fold cs. rewrite <- (take_drop dispatcherMaxJobsPerRun cs), map_app in Hnd. apply NoDup_app in Hnd as [Hnd _].
  split; [|split; [done|]].
  - rewrite <- (take_drop dispatcherMaxJobsPerRun cs), elem_of_app in Hin. destruct Hin as [|Hd]; [by left|]. right. split.
    + rewrite length_take. destruct (Nat.le_gt_cases dispatcherMaxJobsPerRun (length cs)) as [|Hlt]; [lia|].
      rewrite drop_ge in Hd by lia. by apply not_elem_of_nil in Hd.
    + apply Forall_forall. intros d Hd'. rewrite <- (take_drop dispatcherMaxJobsPerRun cs) in Hs.
      eapply StronglySorted_app_1_elem_of; [exact Hs|done..].
  - apply Forall_forall. intros d Hd. assert (d ∈ cs) as Hdc.
    { rewrite <- (take_drop dispatcherMaxJobsPerRun cs), elem_of_app. by left. }
    unfold cs, ListDispatchCandidates in Hdc. rewrite SliceStable_perm, list_elem_of_omap in Hdc. destruct Hdc as (rc' & _ & E).
    by destruct (dispatch_candidate_record _ _ _ E) as [-> _].
Qed.

(** ** Attempts *)

(** The delay between attempts is the exponential back-off its constants describe:
    thirty seconds, doubled with each attempt and capped at ten minutes. *)
Theorem backoff_closed_form attempt :
  1 <= attempt -> dispatcherBackoff attempt = Z.min (30 * time_Second * 2 ^ (attempt - 1)) (10 * time_Minute).
Proof.
  intros Ha. unfold dispatcherBackoff. destruct (Z.leb_spec attempt 1) as [H1|H1].
  { assert (attempt = 1) as -> by lia. done. }
  assert (forall n d, 0 < d -> let x := backoff_loop n d in
    (if dispatcherRetryMaxDelay <? x then dispatcherRetryMaxDelay else x) = Z.min (d * 2 ^ Z.of_nat n) dispatcherRetryMaxDelay) as HL.
  { induction n as [|n IH]; intros d Hd; cbn [backoff_loop].
    - cbn zeta. rewrite Z.mul_1_r. destruct (Z.ltb_spec dispatcherRetryMaxDelay d); lia.
    - destruct (Z.ltb_spec d dispatcherRetryMaxDelay) as [Hlt|Hge].
      + cbn zeta in *. rewrite IH by lia. rewrite Nat2Z.inj_succ, Z.pow_succ_r by lia. f_equal. ring.
      + cbn zeta. assert (d <= d * 2 ^ Z.of_nat (S n)) by (assert (0 < 2 ^ Z.of_nat (S n)) by lia; nia).
        destruct (Z.ltb_spec dispatcherRetryMaxDelay d); lia. }
  cbn zeta in *. rewrite HL by (vm_compute; done). rewrite Z2Nat.id by lia. done.
Qed.

Definition retries (rc : record) : Z := IntValue (rec_Data rc) ["retry_count"; "retryCount"].

(** Where a dispatch leaves the job: out of the queue, or deferred once more below the
    limit, to be retried after the delay. *)
Definition settled (now : Z) (rc : record) (st' : wl_state) : Prop :=
  exists rc', Get (wl_store st') jobsResource (rec_ID rc) = Some rc' /\
    (currentJobStatus (rec_Data rc') ∈ [jobStatusRunning; jobStatusFailed] \/
     (currentJobStatus (rec_Data rc') = jobStatusWaitingInfra /\ retries rc' = retries rc + 1 /\ retries rc' < dispatcherRetryMaxAttempts /\
      mget (rec_Data rc') "next_retry_at" = VString (format_rfc3339 (now + dispatcherBackoff (retries rc'))))).

(** What a write to the job leaves in it. *)
Lemma written st rc d now s' rc' :
  dispatchable st rc -> Update (wl_store st) jobsResource (rec_ID rc) d now = (s', Some rc') ->
  Get s' jobsResource (rec_ID rc) = Some rc' /\ forall k v, d !! k = Some v -> rec_Data rc' !! k = Some v.
Proof.
  intros Hd HU. pose proof (Update_cases (wl_store st) jobsResource (rec_ID rc) d now) as HC. rewrite HU, (proj1 Hd) in HC.
  destruct HC as (Hk & _ & _ & _ & _ & HG). split; [by rewrite HG, decide_True|]. intros k v Hv. by rewrite Hk, Hv.
Qed.

Lemma fail_settled st rc now reason clock : dispatchable st rc -> settled now rc (failDispatchedJob cfg st (rec_ID rc) reason clock).
Proof.
  intros Hd. unfold failDispatchedJob. rewrite (FindJob_own _ _ Hd). unfold MarkDispatchFailed.
  match goal with |- context [Update ?s ?r ?i ?d ?n] => destruct (Update_total s r i d n rc (proj1 Hd)) as (s' & rc' & HU); rewrite HU end.
  destruct (written _ _ _ _ _ _ Hd HU) as [Hg Hk]. exists rc'. rewrite (proj1 (release_trace cfg _ _)). split; [exact Hg|]. left.
  rewrite (status_written _ jobStatusFailed); [by apply (bool_decide_unpack _)|by apply Hk|done|done].
Qed.

Lemma defer_settled st rc now clock e :
  dispatchable st rc -> - two63 <= retries rc < two63 - 1 -> settled now rc (deferDispatchForInfrastructure cfg st rc now clock e).
Proof.
  intros Hd Hr. unfold deferDispatchForInfrastructure. fold (retries rc).
  assert (i64 (retries rc + 1) = retries rc + 1) as Ei by (apply i64_id; unfold in_i64; lia). rewrite Ei.
  destruct (Z.leb_spec dispatcherRetryMaxAttempts (retries rc + 1)) as [|Hlt]; [by apply fail_settled|]. unfold DeferForInfrastructureRecovery.
  match goal with |- context [Update ?s ?r ?i ?d ?n] => destruct (Update_total s r i d n rc (proj1 Hd)) as (s' & rc' & HU); rewrite HU end.
  destruct (written _ _ _ _ _ _ Hd HU) as [Hg Hk]. exists rc'. split; [exact Hg|]. right.
  assert (retries rc' = retries rc + 1) as Er.
  { unfold retries at 1, IntValue. cbn [first_key]. unfold mget. by rewrite (Hk "retry_count" (VInt (retries rc + 1))) by done. }
  rewrite Er. split_and!; [|done|done|].
  - by rewrite (status_written _ jobStatusWaitingInfra); [|apply Hk|..].
  - unfold mget. by rewrite (Hk "next_retry_at" _ eq_refl).
Qed.

Lemma running_settled st rc now clock created :
  dispatchable st rc -> settled now rc (with_store st (fst (MarkDispatchRunning (wl_store st) (rec_ID rc) now clock created))).
Proof.
  intros Hd. unfold MarkDispatchRunning.
  match goal with |- context [Update ?s ?r ?i ?d ?n] => destruct (Update_total s r i d n rc (proj1 Hd)) as (s' & rc' & HU); rewrite HU end.
  destruct (written _ _ _ _ _ _ Hd HU) as [Hg Hk]. exists rc'. split; [exact Hg|]. left.
  rewrite (status_written _ jobStatusRunning); [by apply (bool_decide_unpack _)|by apply Hk|done|done].
Qed.

Lemma dispatchJob_settled {SP DP} (ev : dispatch_env SP DP) now st rc :
  dispatchable st rc -> - two63 <= retries rc < two63 - 1 -> settled now rc (dispatchJob cfg ev now st rc).
Proof.
  intros Hd Hr. destruct (dispatchJob_end ev now st rc) as [st1 reason clock Q|st1 clock e Q|st1 clock created Q];
    [apply fail_settled|apply defer_settled; [|done]|apply running_settled]; by eapply dispatchable_quiet.
Qed.

(** Successive attempts at one job, each reading its record, whatever each run meets. *)
Fixpoint redispatch {SP DP} (st : wl_state) (id : string) (runs : list (dispatch_env SP DP * Z)) : wl_state :=
  match runs with
  | [] => st
  | (ev, now) :: rest =>
      match Get (wl_store st) jobsResource id with
      | Some rc =>
          if has_status [jobStatusSubmitted; jobStatusWaitingInfra] (currentJobStatus (rec_Data rc))
          then redispatch (dispatchJob cfg ev now st rc) id rest
          else redispatch st id rest
      | None => redispatch st id rest
      end
  end.

Lemma redispatch_out {SP DP} (runs : list (dispatch_env SP DP * Z)) : forall st id rc,
  Get (wl_store st) jobsResource id = Some rc -> currentJobStatus (rec_Data rc) ∈ [jobStatusRunning; jobStatusFailed] -> redispatch st id runs = st.
Proof.
  induction runs as [|[ev now] runs IH]; intros st id rc Hg Hs; [done|]; cbn [redispatch]. rewrite Hg.
  assert (has_status [jobStatusSubmitted; jobStatusWaitingInfra] (currentJobStatus (rec_Data rc)) = false) as ->.
  { rewrite !elem_of_cons, elem_of_nil in Hs. destruct Hs as [Hs|[Hs|[]]]; by rewrite Hs. }
  by eapply IH.
Qed.

Lemma dispatchable_listed st rc : dispatchable st rc -> listed_in st rc.
Proof.
  intros (Hg & Hne & Hs). split_and!; [done| |by exists rc]. unfold statusReconcilerLiveStatuses. rewrite !elem_of_cons, elem_of_nil in *. tauto.
Qed.

Lemma redispatch_bounded {SP DP} (runs : list (dispatch_env SP DP * Z)) : forall st rc,
  dispatchable st rc -> - two63 <= retries rc < two63 - 1 -> (0 < length runs)%nat -> dispatcherRetryMaxAttempts <= retries rc + Z.of_nat (length runs) ->
  exists rc', Get (wl_store (redispatch st (rec_ID rc) runs)) jobsResource (rec_ID rc) = Some rc' /\
    currentJobStatus (rec_Data rc') ∈ [jobStatusRunning; jobStatusFailed].
Proof.
  induction runs as [|[ev now] runs IH]; intros st rc Hd Hb Hpos Hlen; [cbn [length] in Hpos; lia|]. cbn [redispatch].
  rewrite (proj1 Hd), (proj2 (has_status_spec _ _) (proj2 (proj2 Hd))).
  destruct (dispatchJob_settled ev now st rc Hd Hb) as (rc1 & Hg1 & [Hout|(Hw & Hr & Hm & _)]).
  - rewrite (redispatch_out runs _ _ rc1) by done. eauto.
  - destruct (dispatchJob_writes ev now st rc (dispatchable_listed st rc Hd)) as [Hstep _].
    destruct (ws_some cfg _ _ Hstep _ _ (proj1 Hd)) as (rc2 & Hg2 & Hid & _). rewrite Hg1 in Hg2. injection Hg2 as <-.
    unfold dispatcherRetryMaxAttempts in *. change two63 with 9223372036854775808 in *. cbn [length] in Hlen.
    rewrite <- Hid in *. apply IH; [|lia..]. destruct Hd as (_ & Hne & _).
    split_and!; [done|by rewrite Hid|]. rewrite Hw. by apply (bool_decide_unpack _).
Qed.

(** C38: The dispatcher gives up: a job is not retried for ever.  Whatever the cluster answers,
    once the attempts made at a waiting job and the attempts its counter already holds (a 64-bit
    integer that can still be counted up) come to twenty, and one was made, it is running or it
    has failed.  Only attempts that return count:
    the preparation of a huge gang panics instead ([gang_size_panics]); and the counter is the
    one stored with the job, which the submitter can set below zero ([retries_from_body]), so
    that it is from there that the twenty are counted. *)
Theorem dispatch_gives_up {SP DP} st rc (runs : list (dispatch_env SP DP * Z)) :
  dispatchable st rc -> - two63 <= retries rc < two63 - 1 ->
  (0 < length runs)%nat -> 20 - retries rc <= Z.of_nat (length runs) ->
  exists rc', Get (wl_store (redispatch st (rec_ID rc) runs)) jobsResource (rec_ID rc) = Some rc' /\
    currentJobStatus (rec_Data rc') ∈ [jobStatusRunning; jobStatusFailed].
Proof. intros Hd Hb Hpos Hlen. apply redispatch_bounded; [done..|]. unfold dispatcherRetryMaxAttempts. lia. Qed.

End Steps.

(** ** A demonstration *)

#[local] Instance demo_golib : GoLib := {|
  parse_quantity _ := None; parse_float _ := None; parse_int64 _ := None; parse_rfc3339 _ := None;
  format_rfc3339 _ := "t"; time_string _ := ""; unmarshal_object _ := None; unmarshal_objects _ := None;
  unmarshal_strings _ := None; marshal _ := None; sprint _ := ""; sprintf f _ := f; sha256_hex s := s |}.

(** One process that runs every service. *)
Definition all_config : config nat := @ConfigFromEnv nat demo_env_lib {[ "SERVICE_NAME" := "all" ]}.

Definition demo_job (id status reservation : string) (priority : Z) : object := list_to_map
  [("id", VString id); ("status", VString status); ("namespace", VString "proj"); ("priority", VInt priority);
   ("reservation_id", VString reservation);
   ("resources", VList [VMap {[ "kind" := VString "Job"; "manifest" := VString "{}" ]}])].
Definition with_job (s : store) (id status reservation : string) (priority : Z) : store :=
  (Create s jobsResource (demo_job id status reservation priority) id 1).1.
Definition demo_store : store :=
  with_job (with_job (with_job NewStore "j1" jobStatusSubmitted "r1" 1) "j2" jobStatusSubmitted "r2" 5) "j3" jobStatusCompleted "r3" 9.
Definition demo_state : wl_state := WL demo_store [].

(** A cluster that creates what it is asked to, and one that is not there. *)
Definition willing : dispatch_env unit unit := {|
  dv_cluster := true; dv_EnsureNamespace _ := None; dv_storagePlan _ _ := Ok tt; dv_storageClaims _ _ := None;
  dv_dataPlane _ _ := Ok tt; dv_dataClaims _ _ := None;
  dv_prepare _ rs _ _ _ := Ok (map (fun r => Manifest (dr_Raw r) []) rs);
  dv_CreateByJSON ns raw := Ok (Created "Job" ns "n"); dv_clock _ := 7 |}.
Definition absent : dispatch_env unit unit := {|
  dv_cluster := false; dv_EnsureNamespace _ := None; dv_storagePlan _ _ := Ok tt; dv_storageClaims _ _ := None;
  dv_dataPlane _ _ := Ok tt; dv_dataClaims _ _ := None; dv_prepare _ _ _ _ _ := Ok [];
  dv_CreateByJSON _ _ := Err cluster_unavailable; dv_clock _ := 7 |}.
(** The batch Job of every job of the cluster has failed. *)
Definition failing : cluster_env := {|
  ce_observe _ _ := Ok (Observed [BatchJob None None [Condition "Failed" "True" "BackoffLimitExceeded" "" 0] 0] [] [] []);
  ce_runtime := Ok []; ce_idle_pods := Ok []; ce_job_pods := Ok []; ce_cleanup _ _ := true |}.


Lemma filed_bucket s : bool_decide (map_Forall (fun id rc => rec_ID rc = id /\ id ≠ "") (bucket s jobsResource)) = true -> jobs_filed s.
Proof. intros Hb id rc. exact (bool_decide_eq_true_1 _ Hb id rc). Qed.

Definition j1 : record := Record_ "j1" (demo_job "j1" jobStatusSubmitted "r1" 1) 1 1 1.
Definition j3 : record := Record_ "j3" (demo_job "j3" jobStatusCompleted "r3" 9) 1 1 1.
Lemma demo_j1 : Get (wl_store demo_state) jobsResource "j1" = Some j1.
Proof. by vm_compute. Qed.
Lemma demo_j3 : Get (wl_store demo_state) jobsResource "j3" = Some j3.
Proof. by vm_compute. Qed.
Lemma demo_j1_live : ~ terminal j1.
Proof. apply (bool_decide_unpack _). by vm_compute. Qed.
Lemma demo_j3_terminal : terminal j3.
Proof. apply (bool_decide_unpack _). by vm_compute. Qed.

Lemma demo_filed : jobs_filed (wl_store demo_state).
Proof. apply filed_bucket. by vm_compute. Qed.

Definition status_in (s : store) (id : string) : option string := (fun rc => currentJobStatus (rec_Data rc)) <$> Get s jobsResource id.

(** A run dispatches the two submitted jobs; their batch Jobs fail; the next runs find
    nothing to do. *)
Definition demo_dispatched : wl_state := dispatchSubmittedWorkloads all_config willing demo_state 5.
Definition demo_failed : wl_state := (reconcileNativeWorkloadStatuses all_config (Some failing) demo_dispatched 6).1.
Definition demo_end : wl_state := dispatchSubmittedWorkloads all_config willing demo_failed 8.

Lemma demo_history : @history _ _ all_config unit unit (idle demo_state) (idle demo_failed).
Proof. etransitivity; [apply (dispatch_run_history all_config willing _ 5)|apply (reconcile_run_history all_config (Some failing) _ 6)]. Qed.
Lemma demo_history_end : @history _ _ all_config unit unit (idle demo_failed) (idle demo_end).
Proof. apply (dispatch_run_history all_config willing _ 8). Qed.

Lemma terminal_jobs_final_witness :
  status_in (wl_store demo_failed) "j1" = Some jobStatusFailed /\
  exists rc', Get (wl_store demo_end) jobsResource "j3" = Some rc' /\ rc' = j3.
Proof.
  split; [by vm_compute|].
  pose proof (terminal_jobs_final all_config demo_state (idle demo_failed) (idle demo_end) "j3" demo_filed demo_history demo_history_end) as Hf.
  assert (Get (sv_store (idle demo_failed)) jobsResource "j3" = Some j3) as E by (vm_compute; reflexivity). rewrite E in Hf.
  destruct Hf as (rc' & Hg & Ht). exists rc'. split; [exact Hg|]. apply (Ht demo_j3_terminal). intros Hin. inversion Hin.
Defined.

Lemma reservations_follow_jobs_witness :
  released (wl_trace demo_failed) ≡ₚ ["r1"; "r2"] /\
  exists tr, wl_trace demo_failed = wl_trace demo_state ++ tr /\ "r1" ∈ released tr.
Proof.
  split. { apply (bool_decide_unpack _). by vm_compute. }
  assert (newSchedulerReservationClient all_config = true) as Hc by (vm_compute; reflexivity).
  destruct (reservations_follow_jobs all_config demo_state (idle demo_failed) demo_filed Hc demo_history) as (tr & Htr & HA & _).
  exists tr. split; [exact Htr|].
  assert (exists rc, Get (wl_store demo_failed) jobsResource "j1" = Some rc /\ terminal rc)
    as (rc' & E' & Ht) by (eexists; split; [vm_compute; reflexivity|]; apply (bool_decide_unpack _); vm_compute; done).
  assert (reservation_of (rec_Data j1) = "r1") as Er by by vm_compute.
  rewrite <- Er. apply (proj2 (HA "j1" j1 rc' demo_j1 E') demo_j1_live Ht). rewrite Er. discriminate.
Defined.

Lemma dispatch_by_priority_witness :
  map (fun d => rec_ID (dc_record d)) (dispatched_run (wl_store demo_state) 5) = ["j2"; "j1"] /\
  Candidate j1 1 ∈ dispatched_run (wl_store demo_state) 5.
Proof.
  split; [by vm_compute|].
  destruct (dispatch_by_priority (wl_store demo_state) 5 j1 (Candidate j1 1) demo_filed) as [[Hin|[Hl _]] _].
  - apply elem_of_List. exists "j1". exact demo_j1.
  - by vm_compute.
  - exact Hin.
  - vm_compute in Hl. discriminate Hl.
Defined.

Lemma backoff_closed_form_witness : dispatcherBackoff 3 = 2 * time_Minute /\ dispatcherBackoff 19 = 10 * time_Minute.
Proof.
  split; [rewrite (backoff_closed_form 3) by lia|rewrite (backoff_closed_form 19) by lia]; by vm_compute.
Defined.

(** Twenty runs without a cluster. *)
Lemma dispatch_gives_up_witness :
  status_in (wl_store (redispatch all_config demo_state "j1" (repeat (absent, 5) 20))) "j1" = Some jobStatusFailed /\
  exists rc', Get (wl_store (redispatch all_config demo_state "j1" (repeat (absent, 5) 20))) jobsResource "j1" = Some rc' /\
    currentJobStatus (rec_Data rc') ∈ [jobStatusRunning; jobStatusFailed].
Proof.
  split; [by vm_compute|].
  apply (dispatch_gives_up all_config demo_state j1 (repeat (absent, 5) 20)).
  - split; [exact demo_j1|]. split; [discriminate|]. apply (bool_decide_unpack _). by vm_compute.
  - by vm_compute.
  - apply Nat.lt_0_succ.
  - by vm_compute.
Defined.

(** ** What the operations do not settle *)

(** The writes of a dispatch do not look at the status again: a job that is evicted
    between the listing of the candidates and its dispatch is created in the cluster and
    marked running, although its reservation has been released. *)
Definition evicted_store : store := (MarkEvicted demo_store "j1" "window closed" 6 6 6).1.
Example stale_dispatch_revives :
  status_in evicted_store "j1" = Some jobStatusEvicted /\
  let st' := dispatchJob all_config willing 7 (WL evicted_store [CallRelease "r1"]) j1 in
  status_in (wl_store st') "j1" = Some jobStatusRunning /\ CallCreate "proj" "{}" ∈ wl_trace st'.
Proof.
  split; [by vm_compute|]. split; [by vm_compute|].
  apply (bool_decide_unpack _). by vm_compute.
Qed.

(** A single failed pod makes the job failed, although its batch Job is still active (it
    retries failed pods up to its back-off limit): the job is ended and its reservation
    released while the work goes on. *)
Definition retrying : cluster_env := {|
  ce_observe _ _ := Ok (Observed [BatchJob None None [] 1] [PodState None [] "Failed"; PodState None [] "Running"] [] []);
  ce_runtime := Ok []; ce_idle_pods := Ok []; ce_job_pods := Ok []; ce_cleanup _ _ := true |}.
Example failed_pod_masks_running_job :
  let st' := (reconcileNativeWorkloadStatuses all_config (Some retrying) demo_dispatched 6).1 in
  status_in (wl_store st') "j1" = Some jobStatusFailed /\ "r1" ∈ released (wl_trace st').
Proof. split; [by vm_compute|]. apply (bool_decide_unpack _). by vm_compute. Qed.

(** The limit in seconds becomes nanoseconds in 64 bits: a limit of 9223372037 seconds
    (about 292 years) wraps to a negative duration, and the workload expires at once. *)
Definition limit_lib : GoLib := {|
  parse_quantity _ := None; parse_float _ := None; parse_int64 _ := Some 9223372037; parse_rfc3339 _ := None;
  format_rfc3339 _ := "t"; time_string _ := ""; unmarshal_object _ := None; unmarshal_objects _ := None;
  unmarshal_strings _ := None; marshal _ := None; sprint _ := ""; sprintf f _ := f; sha256_hex s := s |}.
Example runtime_limit_overflow :
  @runtimeLimitExpired limit_lib {[ RuntimeLimitSecondsKey := "9223372037" ]} (50 * time_Hour) (50 * time_Hour) = true.
Proof. by vm_compute. Qed.

(** The contracts of the scheduler answer 404 when no static key is configured, although
    the caller presents a trusted service identity, which is what the guard accepts. *)
Definition scoped_config : config nat :=
  @ConfigFromEnv nat {| ParseBool := @ParseBool nat demo_env_lib; Atoi _ := None;
    ParseDuration _ := None; unmarshal_string_map _ := None; unmarshal_principals := @unmarshal_principals nat demo_env_lib;
    unmarshal_identities _ := Some {[ "scheduler-quota-service" := TrustedIdentity "k" "" ["workload-service"] ]};
    unmarshal_adapters _ := None; ParseCIDR _ := None; ParseHost _ := None; url_parts := @url_parts nat demo_env_lib |}
    {[ "SERVICE_NAME" := "all"; envServiceTrustedIdentities := "identities" ]}.
Definition scheduler_request : wl_request :=
  WlRequest (Request "POST" {[ serviceNameHeader := "scheduler-quota-service"; serviceKeyHeader := "k" ]} ∅ ∅ "" 0 None None None)
    (Ok ∅) {[ "id" := "j1" ]} 5 "" "".
Example evict_needs_static_key :
  serviceRequestAuthorizedForAudience scoped_config (wr_http scheduler_request) "workload-service" = true /\
  (workloadEvictJob scoped_config demo_state scheduler_request).2 = (StatusNotFound, ErrorData "not found").
Proof. split; by vm_compute. Qed.
