(* ===== verification/WorkloadConfig.v ===== *)
(** * Workload service: configuration files and their versions
    (internal/services/workload/config_repository.go, handler.go)

    A configuration file belongs to a project; every write of it leaves a version with
    the hash of its content, and instances of it are started and stopped by commands.
    Cloning a map has no effect on values, so [shared.CloneMap] does not appear. *)

From stdpp Require Import base gmap strings list fin_maps.
From Stdlib Require Import ZArith Lia Ascii.
From S2P Require Import Prelude GoValue Store EventBus Crud Tx RateLimit InputLimits Config Auth Guards SchedulerHttp WorkloadTypes.
Local Open Scope Z_scope.

Definition configsResource : string := serviceName +:+ ":configfiles".
Definition versionsResource : string := serviceName +:+ ":configfiles:versions".
Definition instancesResource : string := serviceName +:+ ":instances".
Definition commandsResource : string := serviceName +:+ ":instances:commands".
Definition configIDPrefix : string := "CFG".
Definition versionIDPrefix : string := "VER".
Definition commandIDPrefix : string := "CMD".
Definition configIDStart : Z := 2600001.
Definition configIDWidth : Z := 7.
Definition msgConfigNotFound : string := "config file not found".

(** What an event never carries: the hashes and keys of idempotent requests. *)
Definition internalSubmitIdempotencyKeyHash : string := "internal_submit_idempotency_key_hash".
Definition internalSubmitIdempotencyFingerprintHash : string := "internal_submit_idempotency_fingerprint_hash".
Definition internalCancelIdempotencyKeyHash : string := "internal_cancel_idempotency_key_hash".
Definition internalCancelIdempotencyFingerprintHash : string := "internal_cancel_idempotency_fingerprint_hash".

Definition delete_keys (keys : list string) (data : object) : object := foldr delete data keys.

Definition buildEvent (r : wl_request) (name action : string) (data : object) : event :=
  Event_ (wr_uuid r) name serviceName (wr_now r) (FirstNonEmpty [wr_header r "X-Trace-ID"; "workload-local"]) 1
    (wr_header r "Idempotency-Key")
    (<["action" := VString action]>
      (delete_keys [internalSubmitIdempotencyKeyHash; internalSubmitIdempotencyFingerprintHash; "idempotency_key"; "idempotencyKey";
         internalCancelIdempotencyKeyHash; internalCancelIdempotencyFingerprintHash] data)).

(** ** The repository *)

(** [NextID] finds an id unless the counter overflows ([next_loop_total]). *)
Definition nextID (s : store) (resource prefix : string) : string * store :=
  default ("", s) (NextID s resource prefix configIDStart configIDWidth).
Definition NextConfigID (s : store) : string * store := nextID s configsResource configIDPrefix.
Definition NextVersionID (s : store) : string * store := nextID s versionsResource versionIDPrefix.
Definition NextCommandID (s : store) : string * store := nextID s commandsResource commandIDPrefix.

Definition GetConfig (s : store) (id : string) : option record := Get s configsResource id.
Definition GetVersion (s : store) (id : string) : option record := Get s versionsResource id.

Definition listMatching (s : store) (resource : string) (matches : record -> bool) : list record :=
  List.filter matches (List_ s resource).

Section Configs.
Context `{GoLib} `{YamlLib} {ip : Type} (cfg : config ip).

Definition configProjectID (rc : record) : string := TextValue (rec_Data rc) ["project_id"; "projectId"].

Definition configSortKey (rc : record) : string :=
  FirstNonEmpty [TextValue (rec_Data rc) ["path"]; TextValue (rec_Data rc) ["name"]; rec_ID rc].
Definition by_sort_key (a b : record) : bool := String.ltb (configSortKey a) (configSortKey b).

Definition ListConfigs (s : store) : list record :=
  SliceStable by_sort_key (listMatching s configsResource (fun _ => true)).

Definition ListConfigsByProject (s : store) (projectID : string) : list record :=
  SliceStable by_sort_key (listMatching s configsResource (fun rc => String.eqb (configProjectID rc) projectID)).

Definition ListVersionsForConfigs (s : store) (configIDs : gset string) : list record :=
  if bool_decide (configIDs = ∅) then []
  else listMatching s versionsResource (fun rc => bool_decide (TextValue (rec_Data rc) ["config_id"; "configId"] ∈ configIDs)).

Definition ListInstancesByConfig (s : store) (configID : string) : list record :=
  listMatching s instancesResource (fun rc => String.eqb (TextValue (rec_Data rc) ["config_id"; "configId"]) configID).

Definition CreateVersion (s : store) (configID : string) (data : object) (reason newID : string) (now : Z)
    : store * result create_conflict record :=
  let '(id, s1) := NextVersionID s in
  Create s1 versionsResource
    (list_to_map [("id", VString id); ("config_id", VString configID);
       ("sha256", VString (sha256_hex (TextValue data ["content"])));
       ("message", VString (FirstNonEmpty [TextValue data ["message"]; reason]));
       ("created_at", VString (format_rfc3339 now))]) newID now.

(** A conflict or another error is at most logged. *)
Definition createVersion (s : store) (r : wl_request) (configID : string) (data : object) (reason : string) : store :=
  (CreateVersion s configID data reason (wr_newid r) (wr_now r)).1.

Definition committedVersionPayload (configID : string) (data : object) (now : Z) : object :=
  let version := <["immutable" := VBool true]> (<["sha256" := VString (sha256_hex (TextValue data ["content"]))]> data) in
  <["committed_at" := VString (format_rfc3339 now)]>
    (<["config_id" := VString (FirstNonEmpty [TextValue version ["config_id"; "configId"]; configID])]> version).

Definition CommitVersionWithEvent (a : app) (configID : string) (data : object) (now : Z) (build : record -> event) (newID : string)
    : app * result store_error record :=
  CreateRecordWithEvent a versionsResource (committedVersionPayload configID data now) (Some build) newID now.

Definition CreateInstanceCommandWithEvent (a : app) (configID action : string) (data : object) (now : Z) (build : record -> event) (newID : string)
    : app * result store_error record :=
  let '(id, s1) := NextCommandID (app_Store a) in
  CreateRecordWithEvent (App_ s1 (app_Events a)) commandsResource
    (<["requested_at" := VString (format_rfc3339 now)]> (<["status" := VString "accepted"]> (<["action" := VString action]>
      (<["config_id" := VString configID]> (<["id" := VString id]> data))))) (Some build) newID now.

(** ** Payloads *)

Definition normalizeConfigUpdate (payload : object) (now : Z) : object :=
  let projectID := TextValue payload ["projectId"] in
  <["updated_at" := VString (format_rfc3339 now)]>
    (if str_empty projectID then payload else <["project_id" := VString projectID]> payload).

Definition configPayload (s : store) (r : wl_request) (payload : object) : store * result string object :=
  let projectID := FirstNonEmpty [TextValue payload ["project_id"; "projectId"]; TrimSpace (default "" (rq_Query (wr_http r) !! "project_id"))] in
  if str_empty projectID then (s, Err "project_id is required")
  else
    let name := FirstNonEmpty [TextValue payload ["name"]; TextValue payload ["filename"]; TextValue payload ["path"]] in
    if str_empty name then (s, Err "name is required")
    else
      let config := <["name" := VString name]> (<["project_id" := VString projectID]> (normalizeConfigUpdate payload (wr_now r))) in
      let '(s', config') := if str_empty (TextValue config ["id"])
                            then let '(id, s1) := NextConfigID s in (s1, <["id" := VString id]> config)
                            else (s, config) in
      (s', Ok (<["created_at" := VString (format_rfc3339 (wr_now r))]> config')).

Definition manifest_keys : list string := ["content"; "manifest"; "yaml"; "json_data"; "jsonData"; "json"; "object"].

Fixpoint validate_manifest_keys (payload : object) (keys : list string) : result input_error unit :=
  match keys with
  | [] => Ok tt
  | k :: ks =>
      match payload !! k with
      | None => validate_manifest_keys payload ks
      | Some v =>
          match ValidateManifestValue v (EffectiveMaxConfigFileBytes (cf_limits cfg)) (EffectiveMaxConfigFileDocuments (cf_limits cfg)) with
          | Err e => Err e
          | Ok _ => validate_manifest_keys payload ks
          end
      end
  end.
Definition validateConfigFileManifestLimits (payload : object) : result input_error unit := validate_manifest_keys payload manifest_keys.

Definition manifest_rejected (e : input_error) : response :=
  (InputLimitStatus e StatusBadRequest, ErrorData (InputLimitMessage e (error_text e))).

Definition decodeBodyError (e : input_error) : response :=
  (InputLimitStatus e StatusBadRequest, ErrorData (InputLimitMessage e msgInvalidBody)).

(** ** Handlers that write *)

Definition createConfigFile (a : app) (r : wl_request) : app * response :=
  match wr_body r with
  | Err e => (a, decodeBodyError e)
  | Ok payload =>
      match configPayload (app_Store a) r payload with
      | (s1, Err e) => (App_ s1 (app_Events a), (StatusBadRequest, ErrorData e))
      | (s1, Ok config) =>
          let a1 := App_ s1 (app_Events a) in
          match validateConfigFileManifestLimits config with
          | Err e => (a1, manifest_rejected e)
          | Ok _ =>
              match requireProjectAccess cfg s1 r (TextValue config ["project_id"; "projectId"]) with
              | Some resp => (a1, resp)
              | None =>
                  match CreateRecordWithEvent a1 configsResource config
                          (Some (fun rc => buildEvent r "ConfigFileChanged" "created" (rec_Data rc))) (wr_newid r) (wr_now r) with
                  | (a2, Err e) => (a2, (createStatus e, ErrorData "config file could not be created"))
                  | (a2, Ok rc) =>
                      (App_ (createVersion (app_Store a2) r (rec_ID rc) config "created") (app_Events a2), (StatusCreated, BRecord rc))
                  end
              end
          end
      end
  end.

Definition updateConfigFile (a : app) (r : wl_request) : app * response :=
  match wr_body r with
  | Err e => (a, decodeBodyError e)
  | Ok payload =>
      let id := wr_pathValue r "id" in
      match GetConfig (app_Store a) id with
      | None => (a, (StatusNotFound, ErrorData msgConfigNotFound))
      | Some existing =>
          let update := normalizeConfigUpdate payload (wr_now r) in
          match validateConfigFileManifestLimits update with
          | Err e => (a, manifest_rejected e)
          | Ok _ =>
              let currentProjectID := configProjectID existing in
              let targetProjectID := TextValue update ["project_id"; "projectId"] in
              if negb (str_empty targetProjectID) && negb (String.eqb targetProjectID currentProjectID)
              then (a, (StatusBadRequest, ErrorData "project_id is immutable"))
              else match requireProjectAccess cfg (app_Store a) r currentProjectID with
                   | Some resp => (a, resp)
                   | None =>
                       match UpdateRecordWithEvent a configsResource id update
                               (Some (fun rc => buildEvent r "ConfigFileChanged" "updated" (rec_Data rc))) (wr_now r) with
                       | (a', Ok (Some rc)) =>
                           (App_ (createVersion (app_Store a') r id (rec_Data rc) "updated") (app_Events a'), (StatusOK, BRecord rc))
                       | (a', _) => (a', (StatusInternalServerError, ErrorData "config file update failed"))
                       end
                   end
          end
      end
  end.

Definition deleteConfigFile (a : app) (r : wl_request) : app * response :=
  let id := wr_pathValue r "id" in
  match GetConfig (app_Store a) id with
  | None => (a, (StatusNotFound, ErrorData msgConfigNotFound))
  | Some rc =>
      match requireProjectAccess cfg (app_Store a) r (configProjectID rc) with
      | Some resp => (a, resp)
      | None =>
          match DeleteRecordWithEvent a configsResource id
                  (Some (fun _ => buildEvent r "ConfigFileChanged" "deleted" {[ "id" := VString id ]})) with
          | (a', Err _) => (a', (StatusInternalServerError, ErrorData "config file delete failed"))
          | (a', Ok _) => (a', (StatusOK, BMap {[ "id" := VString id; "deleted" := VBool true ]}))
          end
      end
  end.

Definition commitConfigFileVersion (a : app) (r : wl_request) : app * response :=
  let configID := wr_pathValue r "id" in
  let refused := if workloadProjectAccessEnforced cfg
                 then match GetConfig (app_Store a) configID with
                      | None => Some (StatusNotFound, ErrorData msgConfigNotFound)
                      | Some rc => requireProjectAccess cfg (app_Store a) r (configProjectID rc)
                      end
                 else None in
  match refused with
  | Some resp => (a, resp)
  | None =>
      match wr_body r with
      | Err e => (a, decodeBodyError e)
      | Ok payload =>
          match validateConfigFileManifestLimits payload with
          | Err e => (a, manifest_rejected e)
          | Ok _ =>
              match CommitVersionWithEvent a configID payload (wr_now r)
                      (fun rc => buildEvent r "ConfigCommitted" "committed" (rec_Data rc)) (wr_newid r) with
              | (a', Err e) => (a', (createStatus e, ErrorData "config version could not be created"))
              | (a', Ok rc) => (a', (StatusCreated, BRecord rc))
              end
          end
      end
  end.

Definition configInstanceCommand (a : app) (r : wl_request) (action : string) : app * response :=
  let id := wr_pathValue r "id" in
  match GetConfig (app_Store a) id with
  | None => (a, (StatusNotFound, ErrorData msgConfigNotFound))
  | Some rc =>
      match requireProjectAccess cfg (app_Store a) r (configProjectID rc) with
      | Some resp => (a, resp)
      | None =>
          match wr_body r with
          | Err e => (a, decodeBodyError e)
          | Ok payload =>
              match CreateInstanceCommandWithEvent a id action payload (wr_now r)
                      (fun command => buildEvent r "ConfigInstanceCommanded" action (rec_Data command)) (wr_newid r) with
              | (a', Err e) => (a', (createStatus e, ErrorData "instance command could not be created"))
              | (a', Ok command) => (a', (StatusAccepted, BRecord command))
              end
          end
      end
  end.
Definition startConfigInstance (a : app) (r : wl_request) : app * response := configInstanceCommand a r "start".
Definition stopConfigInstance (a : app) (r : wl_request) : app * response := configInstanceCommand a r "stop".

(** ** Handlers that read *)

(** Reading what belongs to one configuration file. *)
Definition getConfigFile (s : store) (r : wl_request) : response :=
  match GetConfig s (wr_pathValue r "id") with
  | None => (StatusNotFound, ErrorData msgConfigNotFound)
  | Some rc => default (StatusOK, BRecord rc) (requireProjectAccess cfg s r (configProjectID rc))
  end.

Definition listConfigFileVersions (s : store) (r : wl_request) : response :=
  let configID := wr_pathValue r "id" in
  match GetConfig s configID with
  | None => (StatusNotFound, ErrorData msgConfigNotFound)
  | Some rc => default (StatusOK, BRecords (ListVersionsForConfigs s {[ configID ]})) (requireProjectAccess cfg s r (configProjectID rc))
  end.

Definition listConfigInstancePods (s : store) (r : wl_request) : response :=
  let id := wr_pathValue r "id" in
  match GetConfig s id with
  | None => (StatusNotFound, ErrorData msgConfigNotFound)
  | Some rc => default (StatusOK, BRecords (ListInstancesByConfig s id)) (requireProjectAccess cfg s r (configProjectID rc))
  end.

(** Listings. *)
Definition listConfigFiles (s : store) (r : wl_request) : response :=
  match authorizedWorkloadProjects cfg s r with
  | Err resp => resp
  | Ok projects => (StatusOK, BRecords (filterRecordsForAuthorizedProjects (ListConfigs s) projects))
  end.

Definition listConfigFilesByProject (s : store) (r : wl_request) : response :=
  let projectID := wr_pathValue r "project_id" in
  default (StatusOK, BRecords (ListConfigsByProject s projectID)) (requireProjectAccess cfg s r projectID).

Definition listProjectConfigFiles (s : store) (r : wl_request) : response :=
  let projectID := wr_pathValue r "id" in
  default (StatusOK, BRecords (ListConfigsByProject s projectID)) (requireProjectAccess cfg s r projectID).

Definition tree_node (rc : record) : object :=
  {[ "id" := VString (rec_ID rc); "path" := VString (configSortKey rc); "name" := VString (TextValue (rec_Data rc) ["name"]) ]}.
Definition node_text (node : object) (key : string) : string := default "" (as_str (mget node key)).

Definition configFileTree (s : store) (r : wl_request) : response :=
  let projectID := wr_pathValue r "project_id" in
  default (StatusOK, BMap {[ "project_id" := VString projectID;
      "nodes" := VMaps (SliceStable (fun a b => String.ltb (node_text a "path") (node_text b "path"))
                         (map tree_node (ListConfigsByProject s projectID))) ]})
    (requireProjectAccess cfg s r projectID).

Definition listConfigFileTree (s : store) (r : wl_request) : response :=
  match authorizedWorkloadProjects cfg s r with
  | Err resp => resp
  | Ok projects =>
      let key node := node_text node "project_id" +:+ "/" +:+ node_text node "path" in
      (StatusOK, BMap {[ "nodes" := VMaps (SliceStable (fun a b => String.ltb (key a) (key b))
         (map (fun rc => <["project_id" := VString (configProjectID rc)]> (tree_node rc))
              (filterRecordsForAuthorizedProjects (ListConfigs s) projects))) ]})
  end.

Definition projectConfigHistory (s : store) (r : wl_request) : response :=
  let projectID := wr_pathValue r "project_id" in
  default (StatusOK, BRecords (ListVersionsForConfigs s (list_to_set (map rec_ID (ListConfigsByProject s projectID)))))
    (requireProjectAccess cfg s r projectID).

(** ** Requests that write *)

Inductive config_op := CfgCreate | CfgUpdate | CfgDelete | CfgCommit | CfgStart | CfgStop.

#[export] Instance config_op_eq_dec : EqDecision config_op.
Proof. solve_decision. Defined.

Definition run_config_op (a : app) (o : config_op * wl_request) : app * response :=
  match o.1 with
  | CfgCreate => createConfigFile a o.2
  | CfgUpdate => updateConfigFile a o.2
  | CfgDelete => deleteConfigFile a o.2
  | CfgCommit => commitConfigFileVersion a o.2
  | CfgStart => startConfigInstance a o.2
  | CfgStop => stopConfigInstance a o.2
  end.
Definition run_config_ops (a : app) (os : list (config_op * wl_request)) : app := fold_left (fun a o => (run_config_op a o).1) os a.

End Configs.

(** ** What the operations write *)

Section Effects.
Context `{GoLib} `{YamlLib} {ip : Type} (cfg : config ip).

Lemma nextID_data s resource prefix : st_data (nextID s resource prefix).2 = st_data s.
Proof. unfold nextID. destruct (NextID _ _ _ _ _) as [[id s']|] eqn:E; [|done]. cbn. by eapply NextID_data. Qed.

Lemma Get_data s s' : st_data s' = st_data s -> forall res id, Get s' res id = Get s res id.
Proof. intros E res id. unfold Get, bucket. by rewrite E. Qed.

Lemma requireProjectAccess_data s s' r p :
  st_data s' = st_data s -> requireProjectAccess cfg s' r p = requireProjectAccess cfg s r p.
Proof.
  intros E. unfold requireProjectAccess, findWorkloadProject, workloadProjectMember, List_, Get, bucket. by rewrite E.
Qed.

Lemma configPayload_data s r payload : st_data (configPayload s r payload).1 = st_data s.
Proof.
  unfold configPayload. destruct (str_empty _); [done|]. destruct (str_empty _); [done|].
  destruct (str_empty _); [|done]. unfold NextConfigID. pose proof (nextID_data s configsResource configIDPrefix) as E.
  by destruct (nextID s configsResource configIDPrefix).
Qed.

(** Nothing but configuration files is ever changed or removed. *)
Definition keeps (s s' : store) : Prop :=
  forall res id rc, res ≠ configsResource -> Get s res id = Some rc -> Get s' res id = Some rc.

#[local] Instance keeps_preorder : PreOrder keeps.
Proof. split; [by intros s res id rc|]. intros s1 s2 s3 H1 H2 res id rc Hr Hg. by apply H2, H1. Qed.

Lemma keeps_data s s' : st_data s' = st_data s -> keeps s s'.
Proof. intros E res id rc _ Hg. by rewrite (Get_data _ _ E). Qed.

Lemma keeps_Create s res d i t : keeps s (Create s res d i t).1.
Proof.
  intros res' id rc _ Hg. destruct (Create s res d i t) as [s' [rc'|e]] eqn:E; cbn.
  - apply Create_ok in E as (Hn & _ & _ & _ & _ & _ & HG). rewrite HG. case_decide as Hd; [|done]. destruct Hd as [<- <-]. congruence.
  - apply Create_err in E as (_ & _ & HG). by rewrite HG.
Qed.

Lemma keeps_Update s id d t : keeps s (Update s configsResource id d t).1.
Proof.
  intros res' id' rc Hr Hg. pose proof (Update_cases s configsResource id d t) as HC.
  destruct (Update s configsResource id d t) as [s' [rc'|]], (Get s configsResource id); try done; cbn.
  - destruct HC as (_ & _ & _ & _ & _ & HG). rewrite HG, decide_False; [done|]. by intros [<- _].
  - by subst.
Qed.

Lemma keeps_Delete s id : keeps s (Delete s configsResource id).1.
Proof.
  intros res' id' rc Hr Hg. unfold Delete. destruct (bucket s configsResource !! id); [|done]. cbn.
  rewrite Get_set_delete, decide_False; [done|]. by intros [<- _].
Qed.

Lemma keeps_createVersion s r id d reason : keeps s (createVersion s r id d reason).
Proof.
  unfold createVersion, CreateVersion, NextVersionID. pose proof (nextID_data s versionsResource versionIDPrefix) as E.
  destruct (nextID s versionsResource versionIDPrefix) as [vid s1]. etransitivity; [by apply keeps_data|apply keeps_Create].
Qed.

Lemma createConfigFile_keeps a r : keeps (app_Store a) (app_Store (createConfigFile cfg a r).1).
Proof.
  unfold createConfigFile. destruct (wr_body r) as [payload|]; [|done].
  pose proof (configPayload_data (app_Store a) r payload) as E. destruct (configPayload _ _ _) as [s1 [config|]]; cbn [fst] in E;
    [|by apply keeps_data].
  destruct (validateConfigFileManifestLimits _ _); [|by apply keeps_data].
  destruct (requireProjectAccess _ _ _ _); [by apply keeps_data|].
  match goal with |- context [CreateRecordWithEvent ?a1 ?res ?d ?b ?i ?t] =>
    pose proof (CreateRecordWithEvent_store a1 res d b i t) as HS; destruct (CreateRecordWithEvent a1 res d b i t) as [a2 [rc|]] end;
    cbn [fst app_Store] in *; (etransitivity; [by apply (keeps_data _ s1)|]);
    [etransitivity; [|apply keeps_createVersion]|]; rewrite HS; apply keeps_Create.
Qed.

Lemma updateConfigFile_keeps a r : keeps (app_Store a) (app_Store (updateConfigFile cfg a r).1).
Proof.
  unfold updateConfigFile. destruct (wr_body r) as [payload|]; [|done]. destruct (GetConfig _ _); [|done].
  destruct (validateConfigFileManifestLimits _ _); [|done]. destruct (_ && _); [done|]. destruct (requireProjectAccess _ _ _ _); [done|].
  match goal with |- context [UpdateRecordWithEvent ?a1 ?res ?id ?d ?b ?t] =>
    pose proof (UpdateRecordWithEvent_store a1 res id d b t) as HS; destruct (UpdateRecordWithEvent a1 res id d b t) as [a2 [[rc|]|]] end;
    cbn [fst app_Store] in *; [etransitivity; [|apply keeps_createVersion]| |]; rewrite HS; apply keeps_Update.
Qed.

Lemma deleteConfigFile_keeps a r : keeps (app_Store a) (app_Store (deleteConfigFile cfg a r).1).
Proof.
  unfold deleteConfigFile. destruct (GetConfig _ _); [|done]. destruct (requireProjectAccess _ _ _ _); [done|].
  match goal with |- context [DeleteRecordWithEvent ?a1 ?res ?id ?b] =>
    pose proof (DeleteRecordWithEvent_store a1 res id b) as HS; destruct (DeleteRecordWithEvent a1 res id b) as [a2 [|]] end;
    cbn [fst] in *; rewrite HS; apply keeps_Delete.
Qed.

Lemma commitConfigFileVersion_keeps a r : keeps (app_Store a) (app_Store (commitConfigFileVersion cfg a r).1).
Proof.
  unfold commitConfigFileVersion. match goal with |- context [match ?x with Some _ => _ | None => _ end] => destruct x; [done|] end.
  destruct (wr_body r); [|done]. destruct (validateConfigFileManifestLimits _ _); [|done]. unfold CommitVersionWithEvent.
  match goal with |- context [CreateRecordWithEvent ?a1 ?res ?d ?b ?i ?t] =>
    pose proof (CreateRecordWithEvent_store a1 res d b i t) as HS; destruct (CreateRecordWithEvent a1 res d b i t) as [a2 [rc|]] end;
    cbn [fst] in *; rewrite HS; apply keeps_Create.
Qed.

Lemma configInstanceCommand_keeps a r action : keeps (app_Store a) (app_Store (configInstanceCommand cfg a r action).1).
Proof.
  unfold configInstanceCommand. destruct (GetConfig _ _); [|done]. destruct (requireProjectAccess _ _ _ _); [done|].
  destruct (wr_body r); [|done]. unfold CreateInstanceCommandWithEvent, NextCommandID.
  pose proof (nextID_data (app_Store a) commandsResource commandIDPrefix) as E. destruct (nextID _ _ _) as [id s1]. cbn [snd] in E.
  match goal with |- context [CreateRecordWithEvent ?a1 ?res ?d ?b ?i ?t] =>
    pose proof (CreateRecordWithEvent_store a1 res d b i t) as HS; destruct (CreateRecordWithEvent a1 res d b i t) as [a2 [rc|]] end;
    cbn [fst app_Store] in *; rewrite HS; (etransitivity; [by apply (keeps_data _ s1)|apply keeps_Create]).
Qed.

Lemma run_config_op_keeps a o : keeps (app_Store a) (app_Store (run_config_op cfg a o).1).
Proof.
  destruct o as [[] r]; [apply createConfigFile_keeps|apply updateConfigFile_keeps|apply deleteConfigFile_keeps|
    apply commitConfigFileVersion_keeps|apply configInstanceCommand_keeps..].
Qed.

(** Versions are immutable: in any history of requests to the configuration files of
    the service, by whoever and with whatever payload, a version once written keeps its
    record, even after its configuration file is changed or deleted. *)
Theorem versions_immutable a os id rc :
  GetVersion (app_Store a) id = Some rc -> GetVersion (app_Store (run_config_ops cfg a os)) id = Some rc.
Proof.
  revert a. induction os as [|o os IH]; intros a Hg; [done|]. cbn. apply IH. by apply run_config_op_keeps.
Qed.


(** ** Who may write *)

(** What project access means when it is enforced. *)
Definition granted (s : store) (r : wl_request) (project : string) : Prop :=
  is_Some (findWorkloadProject s (TrimSpace project)) /\ workloadAuthenticatedUserID r ≠ "" /\
  (workloadRequestIsAdmin r = true \/ workloadProjectMember s (TrimSpace project) (workloadAuthenticatedUserID r) = true).

Lemma access_granted s r project :
  cf_RequireAuth cfg = true -> requireProjectAccess cfg s r project = None -> granted s r project.
Proof.
  intros Ha. unfold requireProjectAccess, workloadProjectAccessEnforced, granted. rewrite Ha. cbn [negb].
  destruct (str_empty (TrimSpace project)); [done|]. destruct (findWorkloadProject s _); [|done].
  unfold str_empty. destruct (String.eqb_spec (workloadAuthenticatedUserID r) ""); [done|].
  destruct (workloadRequestIsAdmin r); [by eauto|]. destruct (workloadProjectMember _ _ _); [by eauto|done].
Qed.

(** The project of the configuration file a request is about: the one of the payload (or
    of the query) when the file is created, the one of the file in the path otherwise. *)
Definition about_project (s : store) (o : config_op * wl_request) (project : string) : Prop :=
  match o.1 with
  | CfgCreate => exists payload, wr_body o.2 = Ok payload /\
      project = FirstNonEmpty [TextValue payload ["project_id"; "projectId"]; TrimSpace (default "" (rq_Query (wr_http o.2) !! "project_id"))]
  | _ => exists rc, GetConfig s (wr_pathValue o.2 "id") = Some rc /\ project = configProjectID rc
  end.

(** Either no record changed, or access to the project was checked. *)
Definition checked (a : app) (o : config_op * wl_request) (a' : app) : Prop :=
  (forall res id, Get (app_Store a') res id = Get (app_Store a) res id) \/
  exists project, about_project (app_Store a) o project /\ granted (app_Store a) o.2 project.

Lemma text_written x : TrimSpace x = x -> x ≠ "" -> text_of (VString x) = Some x.
Proof. intros Ht Hx. cbn. rewrite Ht. unfold nonempty, str_empty. by destruct (String.eqb_spec x ""). Qed.

Lemma FirstNonEmpty_trimmed l : Forall (fun x => TrimSpace x = x) l -> TrimSpace (FirstNonEmpty l) = FirstNonEmpty l.
Proof. induction 1 as [|x l Hx _ IH]; [done|]. cbn. by destruct (str_empty x). Qed.

Lemma configPayload_project s r payload s' config :
  configPayload s r payload = (s', Ok config) ->
  TextValue config ["project_id"; "projectId"] =
  FirstNonEmpty [TextValue payload ["project_id"; "projectId"]; TrimSpace (default "" (rq_Query (wr_http r) !! "project_id"))].
Proof.
  unfold configPayload. set (p := FirstNonEmpty [TextValue payload _; _]). unfold str_empty at 1.
  destruct (String.eqb_spec p "") as [|Hp]; [done|]. destruct (str_empty _); [done|].
  set (config0 := <["name" := _]> _). intros E.
  assert (Hc : exists config1, config = <["created_at" := VString (format_rfc3339 (wr_now r))]> config1 /\ config1 !! "project_id" = Some (VString p)).
  { destruct (str_empty _).
    - destruct (NextConfigID s) as [id s1]. injection E as _ <-. eexists. split; [done|]. rewrite lookup_insert_ne by done. unfold config0. rewrite lookup_insert_ne by done. apply lookup_insert_eq.
    - injection E as _ <-. eexists. split; [done|]. unfold config0. rewrite lookup_insert_ne by done. apply lookup_insert_eq. }
  destruct Hc as (config1 & -> & Hc). 
  assert (Hm : mget (<["created_at" := VString (format_rfc3339 (wr_now r))]> config1) "project_id" = VString p).
  { unfold mget. rewrite lookup_insert_ne by done. by rewrite Hc. }
  unfold TextValue. cbn [first_key]. rewrite Hm, text_written; [done| |done]. apply FirstNonEmpty_trimmed. constructor; [apply TextValue_Trimmed|].
  constructor; [apply TrimSpace_idem|constructor].
Qed.

Lemma createConfigFile_checked a r : cf_RequireAuth cfg = true -> checked a (CfgCreate, r) (createConfigFile cfg a r).1.
Proof.
  intros Ha. unfold createConfigFile, checked. destruct (wr_body r) as [payload|] eqn:Eb; [|by left].
  pose proof (configPayload_data (app_Store a) r payload) as E. destruct (configPayload _ _ _) as [s1 [config|]] eqn:Ec; cbn [fst] in E.
  2:{ left. by apply Get_data. }
  destruct (validateConfigFileManifestLimits _ _). 2:{ left. by apply Get_data. }
  destruct (requireProjectAccess _ _ _ _) eqn:Er. { left. by apply Get_data. }
  right. eexists. split; [by exists payload|]. cbn [snd]. apply configPayload_project in Ec. rewrite Ec in Er.
  rewrite (requireProjectAccess_data (app_Store a) s1) in Er by done. by apply access_granted.
Qed.

Lemma run_config_op_checked a o : cf_RequireAuth cfg = true -> checked a o (run_config_op cfg a o).1.
Proof.
  intros Ha. assert (Hd : forall op id r rc, op ≠ CfgCreate -> id = wr_pathValue r "id" -> GetConfig (app_Store a) id = Some rc ->
    requireProjectAccess cfg (app_Store a) r (configProjectID rc) = None ->
    exists project, about_project (app_Store a) (op, r) project /\ granted (app_Store a) r project).
  { intros op id r rc Hop -> Hg Hr. exists (configProjectID rc). split; [|by apply access_granted]. destruct op; [done|..]; by exists rc. }
  destruct o as [op r]. unfold run_config_op, checked. cbn [fst snd].
  assert (Hi : forall op action, op ≠ CfgCreate -> checked a (op, r) (configInstanceCommand cfg a r action).1).
  { intros op' action Hop. unfold configInstanceCommand. destruct (GetConfig _ _) as [rc|] eqn:Eg; [|by left].
    destruct (requireProjectAccess _ _ _ _) eqn:Er; [by left|]. right. by eapply Hd. }
  destruct op; [by apply createConfigFile_checked| | | |by apply Hi|by apply Hi].
  - unfold updateConfigFile. destruct (wr_body r) as [payload|]; [|by left]. destruct (GetConfig _ _) as [rc|] eqn:Eg; [|by left].
    destruct (validateConfigFileManifestLimits _ _); [|by left]. destruct (_ && _); [by left|].
    destruct (requireProjectAccess _ _ _ _) eqn:Er; [by left|]. right. by eapply Hd.
  - unfold deleteConfigFile. destruct (GetConfig _ _) as [rc|] eqn:Eg; [|by left].
    destruct (requireProjectAccess _ _ _ _) eqn:Er; [by left|]. right. by eapply Hd.
  - unfold commitConfigFileVersion, workloadProjectAccessEnforced. rewrite Ha. destruct (GetConfig _ _) as [rc|] eqn:Eg; [|by left].
    destruct (requireProjectAccess _ _ _ _) eqn:Er; [by left|]. right. by eapply Hd.
Qed.

(** Configuration files are guarded by project: with authentication required, if a
    request to create, change, delete, commit, start or stop changes any record of the
    store, the project it is about (of the payload when creating, of the file in the path
    otherwise) exists, and the caller is an administrator or one of its members. *)
Theorem config_writes_authorized a o res id :
  cf_RequireAuth cfg = true -> Get (app_Store (run_config_op cfg a o).1) res id ≠ Get (app_Store a) res id ->
  exists project, about_project (app_Store a) o project /\ is_Some (findWorkloadProject (app_Store a) (TrimSpace project)) /\
    workloadAuthenticatedUserID o.2 ≠ "" /\
    (workloadRequestIsAdmin o.2 = true \/
     workloadProjectMember (app_Store a) (TrimSpace project) (workloadAuthenticatedUserID o.2) = true).
Proof. intros Ha Hne. destruct (run_config_op_checked a o Ha) as [Hs|Hp]; [by destruct Hne|exact Hp]. Qed.


(** ** The project of a configuration file *)

(** Both fields that may name the project name [p], or nothing. *)
Definition only_project (p : string) (data : object) : Prop :=
  forall k, k ∈ ["project_id"; "projectId"] -> text_of (mget data k) = None \/ text_of (mget data k) = Some p.

Lemma TextValue_two data k1 k2 :
  TextValue data [k1; k2] = match text_of (mget data k1) with Some x => x | None => default "" (text_of (mget data k2)) end.
Proof. unfold TextValue. cbn. destruct (text_of (mget data k1)); [done|]. by destruct (text_of (mget data k2)). Qed.

Lemma only_project_id p rc : only_project p (rec_Data rc) -> configProjectID rc = p \/ configProjectID rc = "".
Proof.
  intros Ho. unfold configProjectID. rewrite TextValue_two.
  destruct (Ho "project_id" ltac:(set_solver)) as [-> | ->]; [|by left].
  destruct (Ho "projectId" ltac:(set_solver)) as [-> | ->]; [by right|by left].
Qed.

Lemma text_of_nonempty v x : text_of v = Some x -> x ≠ "".
Proof.
  assert (forall y, nonempty y = Some x -> x ≠ "") as Hn.
  { intros y. unfold nonempty, str_empty. destruct (String.eqb_spec y ""); [done|]. by intros [= <-]. }
  destruct v; try done; apply Hn.
Qed.

(** A change that names a project names it in [project_id]. *)
Lemma normalize_only payload now :
  let u := normalizeConfigUpdate payload now in only_project (TextValue u ["project_id"; "projectId"]) u.
Proof.
  intros u. assert (Hu : forall k, k ≠ "updated_at" -> k ≠ "project_id" -> mget u k = mget payload k).
  { intros k H1 H2. unfold u, normalizeConfigUpdate, mget. rewrite lookup_insert_ne by done. destruct (str_empty _); [done|].
    by rewrite lookup_insert_ne. }
  assert (HT : TextValue payload ["projectId"] = default "" (text_of (mget payload "projectId"))).
  { unfold TextValue. cbn. by destruct (text_of _). }
  destruct (text_of (mget payload "projectId")) as [x|] eqn:Ex; cbn [from_option id] in HT.
  - assert (Hp : text_of (mget u "project_id") = Some x).
    { pose proof (text_of_nonempty _ _ Ex) as Hx.
      assert (mget u "project_id" = VString x) as ->.
      { unfold u, normalizeConfigUpdate. cbv zeta. rewrite HT. unfold str_empty. rewrite (proj2 (String.eqb_neq x "") Hx).
        unfold mget. rewrite lookup_insert_ne by done. by rewrite lookup_insert_eq. }
      apply text_written; [|done]. rewrite <- HT. apply TextValue_Trimmed. }
    rewrite TextValue_two, Hp. intros k Hk. right. rewrite !elem_of_cons, elem_of_nil in Hk. destruct Hk as [-> |[-> |[]]]; [done|].
    by rewrite (Hu "projectId").
  - rewrite TextValue_two. intros k Hk. rewrite !elem_of_cons, elem_of_nil in Hk. destruct Hk as [-> |[-> |[]]].
    + destruct (text_of (mget u "project_id")); [by right|by left].
    + left. by rewrite (Hu "projectId").
Qed.

Lemma update_only p existing payload now rc' :
  let u := normalizeConfigUpdate payload now in
  only_project p (rec_Data existing) ->
  TextValue u ["project_id"; "projectId"] = "" \/ TextValue u ["project_id"; "projectId"] = configProjectID existing ->
  (forall k, rec_Data rc' !! k = match u !! k with Some v => Some v | None => rec_Data existing !! k end) ->
  only_project p (rec_Data rc').
Proof.
  intros u Ho Ht Hd k Hk. pose proof (normalize_only payload now k Hk) as Hu. fold u in Hu.
  assert (mget (rec_Data rc') k = mget u k \/ mget (rec_Data rc') k = mget (rec_Data existing) k) as [-> | ->].
  { unfold mget. rewrite Hd. destruct (u !! k); [by left|by right]. }
  - destruct Hu as [Hu|Hu]; [by left|]. pose proof (text_of_nonempty _ _ Hu) as Hne. rewrite Hu. destruct Ht as [Ht|Ht]; [by rewrite Ht in Hne|].
    destruct (only_project_id p existing Ho) as [E|E]; [right; by rewrite Ht, E|]. by rewrite Ht, E in Hne.
  - by apply Ho.
Qed.

Lemma configs_other s res d i t id : res ≠ configsResource -> GetConfig (Create s res d i t).1 id = GetConfig s id.
Proof.
  intros Hr. unfold GetConfig. destruct (Create s res d i t) as [s' [rc|e]] eqn:E; cbn.
  - apply Create_ok in E as (_ & _ & _ & _ & _ & _ & HG). rewrite HG, decide_False; [done|]. by intros [? _].
  - apply Create_err in E as (_ & _ & HG). apply HG.
Qed.

Lemma configs_createVersion s r cid d reason id : GetConfig (createVersion s r cid d reason) id = GetConfig s id.
Proof.
  unfold createVersion, CreateVersion, NextVersionID. pose proof (nextID_data s versionsResource versionIDPrefix) as E.
  destruct (nextID s versionsResource versionIDPrefix) as [vid s1]. rewrite configs_other by done. by apply Get_data.
Qed.

Definition stays (p id : string) (s s' : store) : Prop :=
  forall rc, GetConfig s id = Some rc -> only_project p (rec_Data rc) -> exists rc', GetConfig s' id = Some rc' /\ only_project p (rec_Data rc').

Lemma stays_same p id s s' : GetConfig s' id = GetConfig s id -> stays p id s s'.
Proof. intros E rc Hg Ho. rewrite E. eauto. Qed.

Lemma createConfigFile_stays p id a r : stays p id (app_Store a) (app_Store (createConfigFile cfg a r).1).
Proof.
  unfold createConfigFile. destruct (wr_body r) as [payload|]; [|by apply stays_same].
  pose proof (configPayload_data (app_Store a) r payload) as E. destruct (configPayload _ _ _) as [s1 [config|]]; cbn [fst] in E;
    [|by apply stays_same, Get_data].
  destruct (validateConfigFileManifestLimits _ _); [|by apply stays_same, Get_data].
  destruct (requireProjectAccess _ _ _ _); [by apply stays_same, Get_data|].
  match goal with |- context [CreateRecordWithEvent ?a1 ?res ?d ?b ?i ?t] =>
    pose proof (CreateRecordWithEvent_store a1 res d b i t) as HS; destruct (CreateRecordWithEvent a1 res d b i t) as [a2 x] end.
  cbn [fst app_Store] in HS. intros rc Hg Ho. exists rc. split; [|done].
  assert (GetConfig (app_Store a2) id = Some rc) as H2.
  { rewrite HS. unfold GetConfig in *. rewrite <- (Get_data _ _ E) in Hg. 
    destruct (Create s1 configsResource config (wr_newid r) (wr_now r)) as [s' [rc'|e]] eqn:EC; cbn.
    - apply Create_ok in EC as (Hn & _ & _ & _ & _ & _ & HG). rewrite HG. case_decide as Hd; [|done]. destruct Hd as [_ Hd].
      rewrite Hd in Hn. congruence.
    - apply Create_err in EC as (_ & _ & HG). by rewrite HG. }
  destruct x as [rc'|]; cbn [fst app_Store]; [by rewrite configs_createVersion|done].
Qed.

Lemma updateConfigFile_stays p id a r : stays p id (app_Store a) (app_Store (updateConfigFile cfg a r).1).
Proof.
  unfold updateConfigFile. destruct (wr_body r) as [payload|]; [|by apply stays_same].
  destruct (GetConfig _ _) as [existing|] eqn:Eg; [|by apply stays_same].
  destruct (validateConfigFileManifestLimits _ _); [|by apply stays_same].
  destruct (_ && _) eqn:Et; [by apply stays_same|]. destruct (requireProjectAccess _ _ _ _); [by apply stays_same|].
  match goal with |- context [UpdateRecordWithEvent ?a1 ?res ?pid ?d ?b ?t] =>
    pose proof (UpdateRecordWithEvent_store a1 res pid d b t) as HS; destruct (UpdateRecordWithEvent a1 res pid d b t) as [a2 x];
    pose proof (Update_cases (app_Store a1) res pid d t) as HC end.
  cbn [fst] in HS. intros rc Hg Ho.
  assert (exists rc', GetConfig (app_Store a2) id = Some rc' /\ only_project p (rec_Data rc')) as Hx.
  { rewrite HS. unfold GetConfig in *. rewrite Eg in HC. destruct (Update _ _ _ _ _) as [s' [rc'|]]; [|done].
    destruct HC as (Hd & _ & _ & _ & _ & HG). cbn [fst]. rewrite HG. case_decide as He; [|by eauto]. destruct He as [_ <-].
    exists rc'. split; [done|]. rewrite Eg in Hg. injection Hg as <-. eapply (update_only p existing payload (wr_now r) rc'); [done| |exact Hd].
    apply andb_false_iff in Et as [Et|Et]; apply negb_false_iff in Et; [left|right]; by apply String.eqb_eq. }
  destruct x as [[rc'|]|]; cbn [fst app_Store]; [rewrite configs_createVersion|..]; exact Hx.
Qed.

Lemma run_config_op_stays p id a o : o.1 ≠ CfgDelete -> stays p id (app_Store a) (app_Store (run_config_op cfg a o).1).
Proof.
  assert (HI : forall r action, stays p id (app_Store a) (app_Store (configInstanceCommand cfg a r action).1)).
  { intros r action. unfold configInstanceCommand. destruct (GetConfig _ _); [|by apply stays_same].
    destruct (requireProjectAccess _ _ _ _); [by apply stays_same|]. destruct (wr_body r); [|by apply stays_same].
    unfold CreateInstanceCommandWithEvent, NextCommandID.
    pose proof (nextID_data (app_Store a) commandsResource commandIDPrefix) as E. destruct (nextID _ _ _) as [cid s1]. cbn [snd] in E.
    match goal with |- context [CreateRecordWithEvent ?a1 ?res ?d ?b ?i ?t] =>
      pose proof (CreateRecordWithEvent_store a1 res d b i t) as HS; destruct (CreateRecordWithEvent a1 res d b i t) as [a2 [rc|]] end;
      cbn [fst app_Store] in *; apply stays_same; rewrite HS, configs_other by done; by apply Get_data. }
  intros Hd. destruct o as [[] r]; [apply createConfigFile_stays|apply updateConfigFile_stays|done| |apply HI|apply HI].
  unfold run_config_op, commitConfigFileVersion. cbn [fst snd].
  match goal with |- context [match ?x with Some _ => _ | None => _ end] => destruct x; [by apply stays_same|] end.
  destruct (wr_body r); [|by apply stays_same]. destruct (validateConfigFileManifestLimits _ _); [|by apply stays_same].
  unfold CommitVersionWithEvent.
  match goal with |- context [CreateRecordWithEvent ?a1 ?res ?d ?b ?i ?t] =>
    pose proof (CreateRecordWithEvent_store a1 res d b i t) as HS; destruct (CreateRecordWithEvent a1 res d b i t) as [a2 [rc|]] end;
    cbn [fst app_Store] in *; apply stays_same; rewrite HS, configs_other by done; done.
Qed.

(** A configuration file does not move to another project: if its two project fields
    name the same project, then after any history of requests that do not delete it, they
    name that project or nothing; no sequence of updates and creations hands it to the
    members of another project. *)
Theorem config_project_fixed a os id rc p :
  Forall (fun o => o.1 ≠ CfgDelete) os -> GetConfig (app_Store a) id = Some rc -> only_project p (rec_Data rc) ->
  exists rc', GetConfig (app_Store (run_config_ops cfg a os)) id = Some rc' /\ (configProjectID rc' = p \/ configProjectID rc' = "").
Proof.
  intros Hos. revert a rc. induction Hos as [|o os Ho _ IH]; intros a rc Hg Hp.
  - exists rc. split; [done|]. by apply only_project_id.
  - cbn. destruct (run_config_op_stays p id a o Ho rc Hg Hp) as (rc' & Hg' & Hp'). by eapply IH.
Qed.


(** ** The history of a configuration file *)

Definition version_alloc_ok (s : store) : Prop := alloc_ok s versionsResource versionIDPrefix configIDStart.

Lemma alloc_ok_same s s' r p b :
  bucket s' r = bucket s r -> st_seq s' !! seq_key r p = st_seq s !! seq_key r p -> alloc_ok s r p b -> alloc_ok s' r p b.
Proof. intros Eb Es. unfold alloc_ok, next_start. by rewrite Eb, Es. Qed.

Lemma bucket_Create s res d i t res' : res ≠ res' -> bucket (Create s res d i t).1 res' = bucket s res'.
Proof. intros Hr. unfold Create. destruct (bucket s res !! _); cbn; by apply bucket_set_ne. Qed.

Lemma configPayload_alloc s r payload : version_alloc_ok s -> version_alloc_ok (configPayload s r payload).1.
Proof.
  unfold configPayload. destruct (str_empty _); [done|]. destruct (str_empty _); [done|]. destruct (str_empty _); [|done].
  unfold NextConfigID, nextID, NextID. destruct (next_loop _ _ _ _ _) as [[n id]|]; [|done]. cbn. apply alloc_ok_same; [done|].
  cbn. by rewrite lookup_insert_ne.
Qed.

Lemma createVersion_recorded s r cid d reason :
  version_alloc_ok s ->
  exists vid v, GetVersion s vid = None /\ GetVersion (createVersion s r cid d reason) vid = Some v /\
    rec_Data v !! "config_id" = Some (VString cid) /\ rec_Data v !! "sha256" = Some (VString (sha256_hex (TextValue d ["content"]))).
Proof.
  intros (n & vid & s1 & HN & Hv & Hfree & Hdata & _)%(NextID_alloc _ _ _ _ configIDWidth).
  unfold createVersion, CreateVersion, NextVersionID, nextID. rewrite HN. cbn [default from_option id].
  match goal with |- context [Create s1 ?res ?d ?i ?t] => destruct (Create s1 res d i t) as [s2 [v|e]] eqn:EC;
    assert (create_id d i = vid) as Hc by (unfold create_id; cbn; rewrite Hv; done) end.
  - apply Create_ok in EC as (_ & _ & _ & _ & _ & Hk & HG). exists vid, v. unfold GetVersion. split; [done|]. cbn [fst].
    rewrite HG, decide_True by (by rewrite Hc). split; [done|]. rewrite !Hk by done. done.
  - apply Create_err in EC as (_ & [x Hx] & _). rewrite Hc, (Get_data _ _ Hdata) in Hx. congruence.
Qed.

Lemma requireProjectAccess_error s r p resp : requireProjectAccess cfg s r p = Some resp -> exists text, resp.2 = ErrorData text.
Proof. unfold requireProjectAccess. intros Hr. repeat case_match; try done; injection Hr as <-; by eexists. Qed.

(** No write of a configuration file goes unrecorded: away from overflow of the
    version counter, when a creation or an update answers with the record, a new version
    was filed for that configuration file, with the hash of the content of the record. *)
Theorem config_history_recorded a o a' status rc :
  version_alloc_ok (app_Store a) -> o.1 = CfgCreate \/ o.1 = CfgUpdate -> run_config_op cfg a o = (a', (status, BRecord rc)) ->
  exists vid v, GetVersion (app_Store a) vid = None /\ GetVersion (app_Store a') vid = Some v /\
    rec_Data v !! "config_id" = Some (VString (if decide (o.1 = CfgCreate) then rec_ID rc else wr_pathValue o.2 "id")) /\
    rec_Data v !! "sha256" = Some (VString (sha256_hex (TextValue (rec_Data rc) ["content"]))).
Proof.
  intros Ha Ho. destruct o as [op r]. cbn [fst snd] in *. unfold run_config_op. cbn [fst snd]. destruct Ho as [-> | ->].
  - unfold createConfigFile. destruct (wr_body r) as [payload|]; [|done]. apply (configPayload_alloc _ r payload) in Ha.
    pose proof (configPayload_data (app_Store a) r payload) as E. destruct (configPayload _ _ _) as [s1 [config|]]; [|done]. cbn [fst] in *.
    destruct (validateConfigFileManifestLimits _ _); [|done].
    destruct (requireProjectAccess _ _ _ _) as [resp|] eqn:Er; [apply requireProjectAccess_error in Er as [t Et]; intros [= _ ->]; done|].
    match goal with |- context [CreateRecordWithEvent ?a1 ?res ?d ?b ?i ?t] => destruct (CreateRecordWithEvent a1 res d b i t) as [a2 [rc'|]] eqn:EC end; [|done].
    intros [= <- _ <-]. apply CreateRecordWithEvent_ok in EC as (s2 & EC & Es & _). cbn [app_Store] in *.
    pose proof (Create_seq s1 configsResource config (wr_newid r) (wr_now r)) as Hs.
    pose proof (bucket_Create s1 configsResource config (wr_newid r) (wr_now r) versionsResource ltac:(done)) as Hb. rewrite EC in Hs, Hb. cbn [fst] in *.
    rewrite <- Es in *. apply Create_ok in EC as (_ & _ & _ & _ & _ & Hk & _).
    destruct (createVersion_recorded (app_Store a2) r (rec_ID rc') config "created") as (vid & v & Hf & Hv & Hc & Hh).
    { eapply alloc_ok_same; [exact Hb|by rewrite Hs|exact Ha]. }
    exists vid, v. rewrite decide_True by done. split_and!; [|done|done|].
    + unfold GetVersion, Get in *. rewrite Hb in Hf. revert Hf. unfold bucket. by rewrite E.
    + rewrite Hh. do 3 f_equal. unfold TextValue. cbn. unfold mget. by rewrite Hk.
  - unfold updateConfigFile. destruct (wr_body r) as [payload|]; [|done]. destruct (GetConfig _ _); [|done].
    destruct (validateConfigFileManifestLimits _ _); [|done]. destruct (_ && _); [done|].
    destruct (requireProjectAccess _ _ _ _) as [resp|] eqn:Er; [apply requireProjectAccess_error in Er as [t Et]; intros [= _ ->]; done|].
    match goal with |- context [UpdateRecordWithEvent ?a1 ?res ?pid ?d ?b ?t] =>
      pose proof (UpdateRecordWithEvent_store a1 res pid d b t) as HS; destruct (UpdateRecordWithEvent a1 res pid d b t) as [a2 [[rc'|]|]] end; try done.
    intros [= <- _ <-]. cbn [fst app_Store] in *.
    destruct (createVersion_recorded (app_Store a2) r (wr_pathValue r "id") (rec_Data rc') "updated") as (vid & v & Hf & Hv & Hc & Hh).
    { rewrite HS. eapply alloc_ok_same; [|by rewrite Update_seq|exact Ha]. unfold Update. destruct (_ !! _); [|done]. cbn. by apply bucket_set_ne. }
    exists vid, v. rewrite decide_False by done. split_and!; [|done..].
    destruct (GetVersion (app_Store a) vid) as [w|] eqn:Ew; [|done].
    assert (keeps (app_Store a) (app_Store a2)) as Hk by (rewrite HS; apply keeps_Update).
    unfold GetVersion in *. rewrite (Hk versionsResource vid w) in Hf by done. done.
Qed.

End Effects.

(** ** A demonstration: user u1, a member of project P1 only *)

#[local] Instance demo_golib : GoLib := {|
  parse_quantity _ := None; parse_float _ := None; parse_int64 _ := None; parse_rfc3339 _ := None;
  format_rfc3339 _ := "t"; time_string _ := ""; unmarshal_object _ := None; unmarshal_objects _ := None;
  unmarshal_strings _ := None; marshal _ := None; sprint _ := ""; sprintf f _ := f; sha256_hex s := s |}.
#[local] Instance demo_yaml : YamlLib := {| decode_documents _ := ([], None) |}.

Definition config_store : store :=
  let project s id := (Create s orgProjectsResource {[ "id" := VString id ]} id 0).1 in
  let s := project (project NewStore "P1") "P2" in
  let s := (Create s orgProjectMembersResource {[ "project_id" := VString "P1"; "user_id" := VString "u1" ]} "P1:u1" 0).1 in
  let s := (Create s configsResource {[ "id" := VString "c1"; "project_id" := VString "P1" ]} "c1" 0).1 in
  let s := (Create s configsResource {[ "id" := VString "c2"; "project_id" := VString "P2" ]} "c2" 0).1 in
  (Create s versionsResource {[ "id" := VString "v1"; "config_id" := VString "c1" ]} "v1" 0).1.
Definition config_app : app := App_ config_store NewEventBus.

Definition user_request (id : string) (body : object) : wl_request :=
  WlRequest (Request "POST" {[ "X-User-ID" := "u1" ]} ∅ ∅ "" 0 None None None) (Ok body) {[ "id" := id ]} 5 "e1" "n1".
Definition change (content : string) : wl_request := user_request "c1" {[ "content" := VString content ]}.
Definition demo_ops : list (config_op * wl_request) :=
  [(CfgUpdate, change "a"); (CfgCommit, change "b"); (CfgStart, change ""); (CfgDelete, change "")].

Lemma versions_immutable_witness :
  (run_config_op production_config (run_config_ops production_config config_app (take 3 demo_ops)) (CfgDelete, change "")).2
    = (StatusOK, BMap {[ "id" := VString "c1"; "deleted" := VBool true ]}) /\
  exists rc, GetVersion (app_Store (run_config_ops production_config config_app demo_ops)) "v1" = Some rc.
Proof.
  split; [by vm_compute|]. eexists. apply (versions_immutable production_config config_app demo_ops). vm_compute. reflexivity.
Defined.

Lemma config_writes_authorized_witness :
  workloadProjectMember (app_Store config_app) "P1" "u1" = true /\
  exists project, about_project (app_Store config_app) (CfgUpdate, change "a") project.
Proof.
  split; [by vm_compute|].
  destruct (config_writes_authorized production_config config_app (CfgUpdate, change "a") configsResource "c1") as (project & Hp & _).
  - by vm_compute.
  - intros E. apply (f_equal (fmap (M := option) rec_Version)) in E. vm_compute in E. congruence.
  - by exists project.
Defined.

Lemma config_project_fixed_witness :
  exists rc', GetConfig (app_Store (run_config_ops production_config config_app (take 3 demo_ops))) "c1" = Some rc' /\
    (configProjectID rc' = "P1" \/ configProjectID rc' = "").
Proof.
  destruct (GetConfig (app_Store config_app) "c1") as [rc|] eqn:E; [|vm_compute in E; discriminate E].
  apply (config_project_fixed production_config config_app (take 3 demo_ops) "c1" rc "P1"); [|exact E|].
  - apply (bool_decide_unpack _). by vm_compute.
  - vm_compute in E. injection E as <-. intros k Hk. rewrite !elem_of_cons, elem_of_nil in Hk.
    destruct Hk as [-> |[-> |[]]]; [by right; vm_compute|by left; vm_compute].
Defined.

Lemma config_history_recorded_witness :
  exists a' rc vid v, run_config_op production_config config_app (CfgUpdate, change "a") = (a', (StatusOK, BRecord rc)) /\
    GetVersion (app_Store a') vid = Some v /\ rec_Data v !! "config_id" = Some (VString "c1") /\
    rec_Data v !! "sha256" = Some (VString (sha256_hex (TextValue (rec_Data rc) ["content"]))).
Proof.
  assert (match run_config_op production_config config_app (CfgUpdate, change "a") with (_, (st, BRecord _)) => st = StatusOK | _ => False end)
    as Hm by by vm_compute.
  destruct (run_config_op production_config config_app (CfgUpdate, change "a")) as [a' [status [| |rc| | |]]] eqn:E; try contradiction Hm. subst status. exists a', rc.
  destruct (config_history_recorded production_config config_app (CfgUpdate, change "a") a' StatusOK rc) as (vid & v & _ & Hv & Hc & Hh).
  - split; vm_compute; done.
  - by right.
  - exact E.
  - exists vid, v. split; [reflexivity|]. split; [exact Hv|]. split; [exact Hc|exact Hh].
Defined.

(** ** What the checks do not settle *)

(** The body of a commit may name another configuration file: the version is filed under
    the configuration file of a project the caller has no access to. *)
Definition foreign_commit : wl_request := user_request "c1" {[ "config_id" := VString "c2"; "content" := VString "x" ]}.
Example commit_crosses_projects :
  workloadProjectMember config_store "P2" "u1" = false /\
  let out := commitConfigFileVersion production_config config_app foreign_commit in
  out.2.1 = StatusCreated /\ configProjectID <$> GetConfig (app_Store out.1) "c2" = Some "P2" /\
  map (fun v => TextValue (rec_Data v) ["content"]) (ListVersionsForConfigs (app_Store out.1) {[ "c2" ]}) = ["x"].
Proof. split; [by vm_compute|]. cbv zeta. split; [by vm_compute|]. split; by vm_compute. Qed.

(** The check that the project does not change reads only text: a number in [project_id]
    passes it and blanks the project; where the record also has a [projectId] (the
    creation files both when the body names both), the file moves there. *)
Definition two_names : wl_request := user_request "" {[ "id" := VString "c3"; "name" := VString "n"; "project_id" := VString "P1"; "projectId" := VString "P2" ]}.
Definition number_project : wl_request := user_request "c3" {[ "project_id" := VInt 5 ]}.
Example config_moves_project :
  let a1 := (createConfigFile production_config config_app two_names).1 in
  configProjectID <$> GetConfig (app_Store a1) "c3" = Some "P1" /\
  configProjectID <$> GetConfig (app_Store (updateConfigFile production_config a1 number_project).1) "c3" = Some "P2" /\
  workloadProjectMember (app_Store a1) "P2" "u1" = false.
Proof. split; [by vm_compute|]. split; by vm_compute. Qed.
