(* ===== verification/WorkloadSubmit.v ===== *)
(** * Workload service: submission and access to jobs
    (internal/services/workload/job_submit.go, job_access_handlers.go,
    stream_credentials.go, scheduler_admission_client.go, scheduler_preemption_client.go,
    scheduler_reservation_client.go)

    A submission asks the scheduler for admission (preempting once when quota is short),
    reserves and commits quota, and creates the job with its event; the reservation is
    released when the job is not created.  The scheduler is an argument: a function of
    the state of the process, which it may change (it can run in the same process), and
    of the call; the calls are logged with their answers. *)

From stdpp Require Import base gmap strings list fin_maps.
From Stdlib Require Import ZArith Lia Ascii.
From S2P Require Import Prelude GoValue Store EventBus Crud Tx RateLimit InputLimits Config Auth Guards SchedulerHttp WorkloadTypes WorkloadJobs WorkloadConfig.
Local Open Scope Z_scope.

Definition defaultJobPrefix : string := "J".
Definition defaultJobIDStart : Z := 2600001.
Definition defaultJobIDWidth : Z := 7.
Definition idempotencyKeyHeader : string := "Idempotency-Key".
Definition jobLogsResource : string := serviceName +:+ ":job_logs".
Definition jobGPUUsageResource : string := serviceName +:+ ":job_gpu_usage".
Definition headers : Type := gmap string string.
Definition header_of (h : headers) (name : string) : string := default "" (h !! name).

(** ** The scheduler *)

Inductive sub_call :=
| CReview (h : headers) (payload : object)
| CPreempt (h : headers) (payload : object)
| CReserve (h : headers) (payload : object)
| CCommit (h : headers) (reservationID : string)
| CRelease (h : headers) (reservationID : string).

(** A transport error, or a response: its status, the body decoded as a map (nil when it
    is null) or as a record, and the message of an error envelope. *)
Inductive answer :=
| Failed (text : string)
| Answered (status : Z) (data : option object) (rc : record) (envelope : option string).

Definition scheduler : Type := app -> sub_call -> app * answer.

Record sub_state := Sub { su_app : app; su_log : list (sub_call * answer) }.
Definition with_app (st : sub_state) (a : app) : sub_state := Sub a (su_log st).

Record jobSubmitContext := SubmitContext { jc_projectID : string; jc_configID : string; jc_configCommitID : string }.
Definition jobSubmitError : Type := Z * string.

Definition NextJobID (s : store) : string * store :=
  default ("", s) (NextID s jobsResource defaultJobPrefix defaultJobIDStart defaultJobIDWidth).

Definition nul : string := String (byte 0) "".

Section Submit.
Context `{GoLib} {ip : Type} (cfg : config ip) (sched : scheduler).

Definition call (st : sub_state) (c : sub_call) : sub_state * answer :=
  let '(a', ans) := sched (su_app st) c in (Sub a' (su_log st ++ [(c, ans)]), ans).

(** *** Clients *)

(** The error of the constructor of a client, if any. *)
Definition scheduler_client_error : option string :=
  if AllowsService cfg schedulerServiceName then None
  else if str_empty (TrimSpace (default "" (cf_ServiceURLs cfg !! schedulerServiceName))) then Some "scheduler service URL is not configured"
  else if str_empty (TrimSpace (cf_ServiceAPIKey cfg)) then Some "service API key is not configured"
  else None.
Definition newSchedulerAdmissionClient : option string := scheduler_client_error.
Definition newSchedulerPreemptionClient : option string := scheduler_client_error.

Definition copySchedulerAdmissionContextHeaders (src : headers) : headers :=
  foldr (fun key dst => let value := TrimSpace (header_of src key) in if str_empty value then dst else <[key := value]> dst) ∅
    ["X-Request-ID"; "X-Trace-ID"; "Traceparent"; "Idempotency-Key"].

Definition schedulerAdmissionHeaders (src : headers) : headers :=
  let serviceKey := TrimSpace (cf_ServiceAPIKey cfg) in
  let dst := copySchedulerAdmissionContextHeaders src in
  if str_empty serviceKey then dst else <["X-API-Key" := serviceKey]> dst.

(** The map a response is read into, with the message of the error as its reason. *)
Definition answer_data (data : option object) (envelope : option string) : object :=
  let d := default ∅ data in
  match envelope with
  | Some message => match mget d "reason" with VNil => <["reason" := VString message]> d | _ => d end
  | None => d
  end.

Definition Review (st : sub_state) (h : headers) (payload : object) : sub_state * result string (Z * object) :=
  match call st (CReview (schedulerAdmissionHeaders h) payload) with
  | (st', Failed e) => (st', Err e)
  | (st', Answered status data _ envelope) => (st', Ok (status, answer_data data envelope))
  end.

Definition Preempt (st : sub_state) (h : headers) (payload : object) : sub_state * result string (Z * object) :=
  match call st (CPreempt (schedulerAdmissionHeaders h) payload) with
  | (st', Failed e) => (st', Err e)
  | (st', Answered status data _ envelope) => (st', Ok (status, answer_data data envelope))
  end.

(** What the reservation client makes of an answer. *)
Definition reservation_answer (action : string) (ans : answer) : result string record :=
  match ans with
  | Failed e => Err e
  | Answered status _ rc envelope =>
      if StatusBadRequest <=? status
      then Err (let message := default "" envelope in
                if str_empty (TrimSpace message) then sprintf "scheduler reservation %s failed with status %d" [VString action; VInt status]
                else message)
      else Ok rc
  end.
Definition Reserve (st : sub_state) (h : headers) (payload : object) : sub_state * result string record :=
  let '(st', ans) := call st (CReserve (schedulerAdmissionHeaders h) payload) in (st', reservation_answer "reserve" ans).
Definition Commit (st : sub_state) (h : headers) (id : string) : sub_state * result string record :=
  let '(st', ans) := call st (CCommit (schedulerAdmissionHeaders h) id) in (st', reservation_answer "commit" ans).
Definition Release (st : sub_state) (h : headers) (id : string) : sub_state * result string record :=
  let '(st', ans) := call st (CRelease (schedulerAdmissionHeaders h) id) in (st', reservation_answer "release" ans).

Definition reservationRecordID (rc : record) : string := TrimSpace (FirstNonEmpty [rec_ID rc; TextValue (rec_Data rc) ["id"]]).

(** A failed release is logged. *)
Definition release_reservation (st : sub_state) (h : headers) (job : object) : sub_state :=
  if bool_decide (job = ∅) then st
  else if str_empty (reservation_of job) then st else (Release st h (reservation_of job)).1.

Definition releaseSubmittedJobReservation (st : sub_state) (h : headers) (job : object) : sub_state :=
  if newSchedulerReservationClient cfg then release_reservation st h job else st.

(** *** Building the job *)

Definition resolveJobSubmitContext (s : store) (r : wl_request) (payload : object) : result jobSubmitError jobSubmitContext :=
  let projectID := FirstNonEmpty [TextValue payload ["project_id"; "projectId"; "ProjectID"]; TrimSpace (default "" (rq_Query (wr_http r) !! "project_id"))] in
  let configID := TextValue payload ["config_id"; "configId"] in
  let commitID := TextValue payload ["config_commit_id"; "configCommitId"; "config_version_id"; "configVersionId"] in
  let with_config projectID configID :=
    if str_empty projectID then Err (StatusBadRequest, "project_id is required")
    else Ok (SubmitContext projectID configID commitID) in
  let checked configID :=
    if str_empty configID then with_config projectID configID
    else match GetConfig s configID with
         | None => Err (StatusNotFound, "config file not found")
         | Some config =>
             let owner := TextValue (rec_Data config) ["project_id"; "projectId"] in
             if negb (str_empty projectID) && negb (str_empty owner) && negb (String.eqb projectID owner)
             then Err (StatusBadRequest, "project_id does not match config file")
             else with_config (FirstNonEmpty [projectID; owner]) configID
         end in
  if str_empty commitID then checked configID
  else match GetVersion s commitID with
       | None => Err (StatusNotFound, "config commit not found")
       | Some version => checked (FirstNonEmpty [configID; TextValue (rec_Data version) ["config_id"; "configId"]])
       end.

Definition set_if (b : bool) (key : string) (v : any) (data : object) : object := if b then <[key := v]> data else data.

Definition submitted_job (payload : object) (ctx : jobSubmitContext) (userID jobID now : string) : object :=
  let job := <["updated_at" := VString now]> (<["created_at" := VString now]> (<["submitted_at" := VString now]>
    (<["submission_payload" := VMap payload]> (<["namespace" := VString (jobNamespace (cf_K8sNamespacePrefix cfg) (jc_projectID ctx))]>
    (<["executor_type" := VString (FirstNonEmpty [TextValue payload ["executor_type"; "executorType"]; "scheduler"])]>
    (<["submit_type" := VString "job"]> (<["status" := VString "submitted"]> (<["user_id" := VString userID]>
    (<["project_id" := VString (jc_projectID ctx)]> (<["job_id" := VString jobID]> (<["id" := VString jobID]> payload))))))))))) in
  set_if (negb (str_empty (jc_configCommitID ctx))) "config_commit_id" (VString (jc_configCommitID ctx))
    (set_if (negb (str_empty (jc_configID ctx))) "config_id" (VString (jc_configID ctx)) job).

Definition jobAdmissionPayload (job payload : object) : object :=
  let pv := firstPayloadValue payload in
  let admission : object := list_to_map
    [("job_id", mget job "job_id"); ("project_id", mget job "project_id"); ("user_id", mget job "user_id");
     ("queue_name", pv ["queue_name"; "queueName"; "QueueName"]);
     ("device_class_name", pv ["device_class_name"; "deviceClassName"; "DeviceClassName"]);
     ("required_gpu", pv ["required_gpu"; "requiredGpu"; "RequiredGPU"]);
     ("required_cpu", pv ["required_cpu"; "requiredCPU"; "required_cpu_cores"; "RequiredCPU"]);
     ("required_memory", pv ["required_memory"; "requiredMemory"; "required_memory_mb"; "RequiredMemory"]);
     ("gpu_count", pv ["gpu_count"; "gpuCount"; "GPUCount"]);
     ("streaming_session", pv ["streaming_session"; "streamingSession"; "StreamingSession"]);
     ("stream_max_bitrate_kbps", pv ["stream_max_bitrate_kbps"; "streamMaxBitrateKbps"; "StreamMaxBitrateKbps"]);
     ("network_profile", pv ["network_profile"; "networkProfile"; "NetworkProfile"]);
     ("rdma_required", pv ["rdma_required"; "rdmaRequired"; "RDMARequired"]);
     ("nic_class", pv ["nic_class"; "nicClass"; "NICClass"]);
     ("topology_requirement", pv ["topology_requirement"; "topologyRequirement"; "TopologyRequirement"]);
     ("placement_profile", pv ["placement_profile"; "placementProfile"; "PlacementProfile"]);
     ("accelerator_profile", pv ["accelerator_profile"; "acceleratorProfile"; "AcceleratorProfile"]);
     ("resources", mget payload "resources")] in
  let put key keys data := match firstPresent payload keys with Some v => <[key := v]> data | None => data end in
  put "pinned_memory_limit" ["pinned_memory_limit"; "pinnedMemoryLimit"; "pinned_memory"; "pinnedMemory"]
    (put "sm_percentage" ["sm_percentage"; "smPercentage"; "SMPercentage"] admission).

(** The id is drawn even when the payload has one: it is an argument of FirstNonEmpty. *)
Definition buildSubmittedJob (s : store) (r : wl_request) (payload : object) : store * result jobSubmitError (object * object) :=
  let submitType := FirstNonEmpty [TextValue payload ["submit_type"; "submitType"]; "job"] in
  if negb (EqualFold submitType "job") then (s, Err (StatusBadRequest, "submit_type must be job"))
  else match resolveJobSubmitContext s r payload with
       | Err e => (s, Err e)
       | Ok ctx =>
           let userID := FirstNonEmpty [TextValue payload ["user_id"; "userId"; "UserID"]; TrimSpace (wr_header r "X-User-ID"); TrimSpace (wr_header r "X-Username")] in
           if str_empty userID then (s, Err (StatusBadRequest, "user_id is required"))
           else
             let '(next, s1) := NextJobID s in
             let jobID := FirstNonEmpty [TextValue payload ["job_id"; "jobId"; "id"]; next] in
             let job := submitted_job payload ctx userID jobID (format_rfc3339 (wr_now r)) in
             if BoolValue job ["streaming_session"; "streamingSession"; "StreamingSession"] then
               let image := TrimSpace (cf_StreamSidecarImage cfg) in
               if str_empty image
               then (s1, Err (StatusBadRequest, "streaming sessions require STREAM_SIDECAR_IMAGE to be configured"))
               else let job' := <["stream_sidecar_image" := VString image]> job in (s1, Ok (job', jobAdmissionPayload job' payload))
             else (s1, Ok (job, jobAdmissionPayload job payload))
       end.

(** *** Idempotency *)

Definition submitJobHash (value : string) : string := sha256_hex value.

Definition omit_empty (key value : string) (data : object) : object := set_if (negb (str_empty value)) key (VString value) data.

(** submitJobIdempotencyFingerprint as json.Marshal reads it. *)
Definition submit_fingerprint (userID projectID supplied submitType executorType configID commitID : string) (admission : object) : object :=
  omit_empty "supplied_job_id" supplied (omit_empty "config_id" configID (omit_empty "config_commit_id" commitID
    (list_to_map [("command", VString "workload_submit"); ("user_id", VString userID); ("project_id", VString projectID);
       ("submit_type", VString submitType); ("executor_type", VString executorType); ("admission", VMap admission)]))).

(** ("", "") without a key. *)
Definition submitJobIdempotencyHashes (r : wl_request) (payload job admissionPayload : object) : string * string :=
  let key := TrimSpace (wr_header r idempotencyKeyHeader) in
  if str_empty key then ("", "")
  else
    let userID := TextValue job ["user_id"; "userId"] in
    let supplied := TextValue payload ["job_id"; "jobId"; "id"] in
    let admission := if str_empty supplied then delete "job_id" admissionPayload else <["job_id" := VString supplied]> admissionPayload in
    let fingerprint := submit_fingerprint userID (TextValue job ["project_id"; "projectId"]) supplied
      (TextValue job ["submit_type"; "submitType"]) (TextValue job ["executor_type"; "executorType"])
      (TextValue job ["config_id"; "configId"]) (TextValue job ["config_commit_id"; "configCommitId"]) admission in
    (submitJobHash ("workload_submit" +:+ nul +:+ userID +:+ nul +:+ key), submitJobHash (default "" (marshal (VMap fingerprint)))).

Definition FindJobBySubmitIdempotencyKeyHash (s : store) (keyHash : string) : option record :=
  if str_empty keyHash then None
  else List.find (fun rc => String.eqb (TextValue (rec_Data rc) [internalSubmitIdempotencyKeyHash]) keyHash) (List_ s jobsResource).

Definition publicWorkloadJobData (data : object) : object :=
  delete internalSubmitIdempotencyFingerprintHash (delete internalSubmitIdempotencyKeyHash data).
Definition publicWorkloadJobRecord (rc : record) : record :=
  Record_ (rec_ID rc) (publicWorkloadJobData (rec_Data rc)) (rec_Version rc) (rec_CreatedAt rc) (rec_UpdatedAt rc).
Definition publicWorkloadJobRecords (l : list record) : list record := map publicWorkloadJobRecord l.

Definition submitJobIdempotencyResult (s : store) (keyHash fingerprintHash : string) : option response :=
  if str_empty keyHash then None
  else match FindJobBySubmitIdempotencyKeyHash s keyHash with
       | None => None
       | Some existing =>
           if negb (String.eqb (TextValue (rec_Data existing) [internalSubmitIdempotencyFingerprintHash]) fingerprintHash)
           then Some (StatusConflict, ErrorData "idempotency key is already used by a different workload submit request")
           else Some (StatusCreated, BRecord (publicWorkloadJobRecord existing))
       end.

(** *** Admission *)

Definition admissionAllowed (review : object) : bool := match mget review "allowed" with VBool b => b | _ => false end.

Definition admissionDenialData (review : object) (fallback : string) : object :=
  let data := set_if (str_empty (TextValue review ["reason"])) "reason" (VString fallback) review in
  match data !! "allowed" with Some _ => data | None => <["allowed" := VBool false]> data end.

(** An empty preemption stands for nil: both have length zero. *)
Definition admissionDenialWithPreemptionData (review preemption : object) (fallback : string) : object :=
  let data := admissionDenialData review fallback in
  if bool_decide (preemption = ∅) then data else <["auto_preemption" := VMap preemption]> data.

Definition shouldAutoPreemptAdmissionDenial (status : Z) (review : object) : bool :=
  if negb (status =? StatusConflict) then false
  else let reason := ToLower (TextValue review ["reason"]) in
       Contains reason "quota exceeded" || Contains reason "resource shortage" || Contains reason "insufficient resource".

Definition nonempty_text (v : any) : bool := match v with VString t => negb (str_empty t) | _ => true end.

Definition schedulerPreemptionPayload (job admissionPayload review : object) : option object :=
  let priority := IntValue review ["priority_value"; "priorityValue"; "priority"] in
  let requiredGPU := NumberValue review ["required_gpu"; "requiredGpu"; "RequiredGPU"] in
  let requiredCPU := NumberValue review ["required_cpu"; "requiredCPU"; "required_cpu_cores"; "RequiredCPU"] in
  if (priority <=? 0) || (f64_le requiredGPU f64_0 && f64_le requiredCPU f64_0) then None
  else
    let jobID := TextValue job ["job_id"; "jobId"; "id"] in
    let payload : object := list_to_map
      [("requester_job_id", VString jobID); ("project_id", VString (TextValue review ["project_id"; "projectId"]));
       ("queue_name", VString (FirstNonEmpty [TextValue review ["queue_name"; "queueName"]; TextValue admissionPayload ["queue_name"; "queueName"]]));
       ("priority_value", VInt priority); ("required_gpu", VFloat64 requiredGPU); ("required_cpu", VFloat64 requiredCPU);
       ("device_class_name", VString (FirstNonEmpty [TextValue review ["device_class_name"; "deviceClassName"];
          TextValue admissionPayload ["device_class_name"; "deviceClassName"]]));
       ("gpu_model", VString (TextValue admissionPayload ["gpu_model"; "gpuModel"; "dra_gpu_model"; "draGPUModel"]))] in
    if str_empty jobID then None else Some (filter (fun kv => nonempty_text kv.2 = true) payload).

Definition autoPreemptionHeaders (r : wl_request) (job : object) : headers :=
  let h := rq_Header (wr_http r) in
  let jobID := TextValue job ["job_id"; "jobId"; "id"] in
  let key := TrimSpace (header_of h idempotencyKeyHeader) in
  <[idempotencyKeyHeader := "auto-preempt:" +:+ jobID +:+ ":" +:+ (if str_empty key then jobID else key)]> h.

Definition reviewJobAdmission (st : sub_state) (r : wl_request) (payload : object) : sub_state * result string (Z * object) :=
  match newSchedulerAdmissionClient with
  | Some e => (st, Err e)
  | None => Review st (rq_Header (wr_http r)) payload
  end.

Definition unavailable (reason : string) : object := {[ "status" := VString "unavailable"; "reason" := VString reason ]}.

(** The status, the review and the preemption (empty for none). *)
Definition autoPreemptAndRetryAdmission (st : sub_state) (r : wl_request) (job admissionPayload : object) (status : Z) (review : object)
    : sub_state * result string (Z * object * object) :=
  if negb (shouldAutoPreemptAdmissionDenial status review) then (st, Ok (status, review, ∅))
  else match schedulerPreemptionPayload job admissionPayload review with
       | None => (st, Ok (status, review, ∅))
       | Some payload =>
           match newSchedulerPreemptionClient with
           | Some e => (st, Ok (status, review, unavailable e))
           | None =>
               match Preempt st (autoPreemptionHeaders r job) payload with
               | (st1, Err e) => (st1, Ok (status, review, unavailable e))
               | (st1, Ok (code, data)) =>
                   let preemption := <["http_status" := VInt code]> data in
                   if negb (code =? StatusOK) || negb (BoolValue preemption ["accepted"]) || negb (String.eqb (TextValue preemption ["status"]) "completed")
                   then (st1, Ok (status, admissionDenialWithPreemptionData review preemption "submit rejected by scheduler admission", preemption))
                   else match reviewJobAdmission st1 r admissionPayload with
                        | (st2, Err e) => (st2, Err e)
                        | (st2, Ok (status', review')) => (st2, Ok (status', review', preemption))
                        end
               end
           end
       end.

(** [Err None] is an error of the scheduler, [Err (Some _)] a denial. *)
Definition admitSubmittedJob (st : sub_state) (r : wl_request) (job admissionPayload : object)
    : sub_state * result (option response) (object * object) :=
  let decide_ st' status review preemption :=
    if (status <? StatusBadRequest) && admissionAllowed review then (st', Ok (review, preemption))
    else (st', Err (Some (if status <? StatusBadRequest then StatusForbidden else status,
                          BMap (admissionDenialWithPreemptionData review preemption "submit rejected by scheduler admission")))) in
  match reviewJobAdmission st r admissionPayload with
  | (st1, Err _) => (st1, Err None)
  | (st1, Ok (status, review)) =>
      if (StatusBadRequest <=? status) || negb (admissionAllowed review)
      then match autoPreemptAndRetryAdmission st1 r job admissionPayload status review with
           | (st2, Err _) => (st2, Err None)
           | (st2, Ok (status', review', preemption)) => decide_ st2 status' review' preemption
           end
      else decide_ st1 status review ∅
  end.

Definition review_keys : list string :=
  ["queue_name"; "priority_value"; "preemptible"; "is_preemptible"; "runtime_limit_seconds"; "max_runtime_seconds"; "device_class_name";
   "required_gpu"; "required_cpu"; "required_memory"; "streaming_session"; "stream_max_bitrate_kbps"; "network_profile"; "rdma_required";
   "nic_class"; "topology_requirement"; "network_annotations"; "network_env"; "placement_profile"; "scheduler_backend"; "scheduler_name";
   "gang_enabled"; "gang_min_available"; "placement_labels"; "placement_annotations"; "accelerator_profile"; "accelerator_node_selector";
   "accelerator_labels"; "sm_percentage"; "pinned_memory_limit"].

Definition applyAdmissionReview (job review : object) : object :=
  let job' := filter (fun kv => kv.1 ∈ review_keys) review ∪ job in
  match review !! "usage" with Some v => <["admission_usage" := v]> job' | None => job' end.

Definition applyAutoPreemptionResult (job preemption : object) : object :=
  if bool_decide (preemption = ∅) then job
  else
    let id := TextValue preemption ["preemption_id"; "id"] in
    let status := TextValue preemption ["status"] in
    set_if (negb (str_empty status)) "admission_preemption_status" (VString status)
      (set_if (negb (str_empty id)) "admission_preemption_id" (VString id) (<["admission_preemption" := VMap preemption]> job)).

(** *** Reservation *)

Definition schedulerReservationHeaders (src : headers) (job : object) (action : string) : headers :=
  let jobID := TextValue job ["job_id"; "jobId"; "id"] in
  let key := TrimSpace (header_of src idempotencyKeyHeader) in
  <[idempotencyKeyHeader := "workload-reservation:" +:+ action +:+ ":" +:+ jobID +:+ ":" +:+ (if str_empty key then jobID else key)]> src.

(** A key of the map that is present and not nil. *)
Definition present_as (data : object) (key as_ : string) : list (string * any) :=
  match data !! key with None | Some VNil => [] | Some v => [(as_, v)] end.

Definition submittedJobReservationPayload (job : object) : object :=
  let reserved := present_as job "required_gpu" "gpu" ++ present_as job "required_cpu" "cpu" ++ present_as job "required_memory" "memory" in
  let payload : object := list_to_map
    ([("job_id", VString (TextValue job ["job_id"; "jobId"; "id"])); ("project_id", VString (TextValue job ["project_id"; "projectId"]));
      ("user_id", VString (TextValue job ["user_id"; "userId"])); ("queue_name", VString (TextValue job ["queue_name"; "queueName"]));
      ("device_class_name", VString (TextValue job ["device_class_name"; "deviceClassName"]));
      ("required_gpu", mget job "required_gpu"); ("required_cpu", mget job "required_cpu"); ("required_memory", mget job "required_memory")]
     ++ match reserved with [] => [] | _ => [("reserved", VMap (list_to_map reserved))] end) in
  filter (fun kv => match kv.2 with VNil => false | v => negb (str_empty (TrimSpace (sprint v))) end = true) payload.

(** The job with its reservation, or the error. *)
Definition reserveAndCommitSubmittedJobQuota (st : sub_state) (r : wl_request) (job : object) : sub_state * result string object :=
  let h := rq_Header (wr_http r) in
  if negb (newSchedulerReservationClient cfg) then (st, Err (default "" scheduler_client_error))
  else
    let payload := submittedJobReservationPayload job in
    match Reserve st (schedulerReservationHeaders h job "reserve") payload with
    | (st1, Err e) => (st1, Err e)
    | (st1, Ok reserved) =>
        let reservationID := reservationRecordID reserved in
        if str_empty reservationID then (st1, Err "scheduler reservation response missing id")
        else match Commit st1 (schedulerReservationHeaders h job "commit") reservationID with
             | (st2, Err e) =>
                 let job' := <["reservation_id" := VString reservationID]> job in
                 (release_reservation st2 (schedulerReservationHeaders h job' "commit-rollback") job', Err e)
             | (st2, Ok _) =>
                 (st2, Ok (<["reservation_payload" := VMap payload]> (<["reservation_state" := VString "committed"]>
                            (<["reservation_id" := VString reservationID]> job))))
             end
    end.

(** *** The handler *)

Definition submitJob (st : sub_state) (r : wl_request) : sub_state * response :=
  match wr_body r with
  | Err _ => (st, (StatusBadRequest, ErrorData msgInvalidBody))
  | Ok payload =>
      let '(s1, built) := buildSubmittedJob (app_Store (su_app st)) r payload in
      let st1 := with_app st (App_ s1 (app_Events (su_app st))) in
      match built with
      | Err (status, message) => (st1, (status, ErrorData message))
      | Ok (job, admissionPayload) =>
          match requireProjectAccess cfg s1 r (TextValue job ["project_id"; "projectId"]) with
          | Some resp => (st1, resp)
          | None =>
              let '(keyHash, fingerprintHash) := submitJobIdempotencyHashes r payload job admissionPayload in
              match submitJobIdempotencyResult s1 keyHash fingerprintHash with
              | Some resp => (st1, resp)
              | None =>
                  match admitSubmittedJob st1 r job admissionPayload with
                  | (st2, Err None) => (st2, (StatusServiceUnavailable, ErrorData "scheduler admission unavailable"))
                  | (st2, Err (Some denial)) => (st2, denial)
                  | (st2, Ok (review, preemption)) =>
                      let job1 := applyAutoPreemptionResult (applyAdmissionReview job review) preemption in
                      match reserveAndCommitSubmittedJobQuota st2 r job1 with
                      | (st3, Err _) => (st3, (StatusServiceUnavailable, ErrorData "scheduler reservation unavailable"))
                      | (st3, Ok job2) =>
                          let job3 := if str_empty keyHash then job2
                                      else <[internalSubmitIdempotencyFingerprintHash := VString fingerprintHash]>
                                             (<[internalSubmitIdempotencyKeyHash := VString keyHash]> job2) in
                          match CreateRecordWithEvent (su_app st3) jobsResource job3
                                  (Some (fun rc => buildEvent r "JobSubmitted" "submitted" (rec_Data rc))) (wr_newid r) (wr_now r) with
                          | (a', Err e) =>
                              (releaseSubmittedJobReservation (with_app st3 a') (schedulerReservationHeaders (rq_Header (wr_http r)) job3 "submit-rollback") job3,
                               (createStatus e, ErrorData "job could not be submitted"))
                          | (a', Ok rc) => (with_app st3 a', (StatusCreated, BRecord (publicWorkloadJobRecord rc)))
                          end
                      end
                  end
              end
          end
      end
  end.

(** *** Access to jobs *)

Definition authorizedJobRecord (s : store) (r : wl_request) : result response record :=
  match FindJob s (wr_pathValue r "id") with
  | None => Err (StatusNotFound, ErrorData "job not found")
  | Some rc => match requireProjectAccess cfg s r (jobProjectID rc) with
               | Some resp => Err resp
               | None => Ok rc
               end
  end.

Definition listJobs (s : store) (r : wl_request) : response :=
  match authorizedWorkloadProjects cfg s r with
  | Err resp => resp
  | Ok projects => (StatusOK, BRecords (publicWorkloadJobRecords (filterRecordsForAuthorizedProjects (List_ s jobsResource) projects)))
  end.

Definition getJob (s : store) (r : wl_request) : response :=
  match authorizedJobRecord s r with
  | Err resp => resp
  | Ok rc => (StatusOK, BRecord (publicWorkloadJobRecord rc))
  end.

Definition job_text_id (job : record) (r : wl_request) : string :=
  FirstNonEmpty [TextValue (rec_Data job) ["job_id"; "jobId"]; rec_ID job; wr_pathValue r "id"].

Definition relatedJobRecords (s : store) (r : wl_request) (job : record) (resource : string) : list record :=
  let jobID := job_text_id job r in
  List.filter (fun rc => String.eqb (rec_ID rc) jobID || String.eqb (TextValue (rec_Data rc) ["job_id"; "jobId"]) jobID
                         || String.eqb (TextValue (rec_Data rc) ["job_record_id"; "jobRecordID"]) (rec_ID job)) (List_ s resource).

Definition listJobRelatedRecords (s : store) (r : wl_request) (resource : string) : response :=
  match authorizedJobRecord s r with
  | Err resp => resp
  | Ok job => (StatusOK, BRecords (relatedJobRecords s r job resource))
  end.
Definition listJobGPUUsage (s : store) (r : wl_request) : response := listJobRelatedRecords s r jobGPUUsageResource.

(** Lines of pod logs: the answer of ListJobPodLogs for a namespace, a job and the pods
    created for it; [None] when there is no cluster or it fails. *)
Record PodLogLine := LogLine { ll_Namespace : string; ll_Pod : string; ll_Container : string; ll_Line : Z; ll_Message : string; ll_Timestamp : string }.
Definition pod_logs : Type := string -> string -> list string -> option (list PodLogLine).

Definition createdPodNames (data : object) : list string :=
  let items := match firstPresent data ["created_resources"; "createdResources"; "CreatedResources"] with
               | Some (VMaps l) => l
               | Some (VList l) => omap as_map l
               | _ => []
               end in
  omap (fun item => if EqualFold (TextValue item ["kind"; "Kind"]) "Pod" then Some (TextValue item ["name"; "Name"]) else None) items.

Definition kubernetesJobLogRecord (job : record) (line : PodLogLine) : record :=
  Record_ ("k8s:" +:+ ll_Namespace line +:+ ":" +:+ ll_Pod line +:+ ":" +:+ ll_Container line +:+ ":" +:+ fmt_int 0 (ll_Line line))
    (list_to_map
      [("job_id", VString (FirstNonEmpty [TextValue (rec_Data job) ["job_id"; "jobId"]; rec_ID job])); ("job_record_id", VString (rec_ID job));
       ("project_id", VString (TextValue (rec_Data job) ["project_id"; "projectId"])); ("namespace", VString (ll_Namespace line));
       ("pod", VString (ll_Pod line)); ("container", VString (ll_Container line)); ("line", VString (ll_Message line));
       ("line_number", VInt (ll_Line line)); ("message", VString (ll_Message line)); ("timestamp", VString (ll_Timestamp line));
       ("source", VString "kubernetes_pod_logs")]) 0 zero_time zero_time.

Definition kubernetesJobLogRecords (logs : pod_logs) (r : wl_request) (job : record) : list record :=
  let jobID := job_text_id job r in
  let given := TextValue (rec_Data job) ["namespace"; "Namespace"; "pod_namespace"; "podNamespace"] in
  let expected := jobNamespace (cf_K8sNamespacePrefix cfg) (jobProjectID job) in
  let namespace := if str_empty given then expected else given in
  if str_empty expected || negb (String.eqb namespace expected) then []
  else if str_empty jobID || str_empty namespace then []
  else map (kubernetesJobLogRecord job) (default [] (logs namespace jobID (createdPodNames (rec_Data job)))).

Definition listJobLogs (logs : pod_logs) (s : store) (r : wl_request) : response :=
  match authorizedJobRecord s r with
  | Err resp => resp
  | Ok job => (StatusOK, BRecords (relatedJobRecords s r job jobLogsResource ++ kubernetesJobLogRecords logs r job))
  end.

(** *** Cancelling *)

Definition cancelJobRequestBody (payload : object) : object :=
  delete_keys ["id"; "job_id"; "jobId"; "project_id"; "projectId"; "job_record_id"; "jobRecordID"; "status"; "operation";
    "requested_at"; "requestedAt"; "idempotency_key"; "idempotencyKey"; internalCancelIdempotencyKeyHash;
    internalCancelIdempotencyFingerprintHash] payload.

Definition canonicalCancelJobID (job : record) : string := FirstNonEmpty [TextValue (rec_Data job) ["job_id"; "jobId"]; rec_ID job].

Definition cancelJobCommandPayload (job : record) (payload : object) (operation : string) : object * object :=
  let body := cancelJobRequestBody payload in
  (<["operation" := VString operation]> (<["status" := VString "accepted"]> (<["job_record_id" := VString (rec_ID job)]>
    (<["project_id" := VString (jobProjectID job)]> (<["job_id" := VString (canonicalCancelJobID job)]> body)))), body).

Definition cancelJobHash (value : string) : string := sha256_hex value.

(** A map that is empty is omitted from the fingerprint. *)
Definition cancelJobIdempotencyHashes (r : wl_request) (job : record) (command body : object) : string * string :=
  let key := TrimSpace (wr_header r "Idempotency-Key") in
  if str_empty key then ("", "")
  else
    let userID := workloadAuthenticatedUserID r in
    let fingerprint := set_if (negb (bool_decide (body = ∅))) "body" (VMap body) (list_to_map
      [("command", VString "workload_cancel"); ("user_id", VString userID); ("project_id", VString (jobProjectID job));
       ("job_record_id", VString (rec_ID job)); ("job_id", VString (canonicalCancelJobID job));
       ("status", VString (TextValue command ["status"])); ("operation", VString (TextValue command ["operation"]))]) in
    (cancelJobHash ("workload_cancel" +:+ nul +:+ userID +:+ nul +:+ key), cancelJobHash (default "" (marshal (VMap fingerprint)))).

Definition FindJobCommandByCancelIdempotencyKeyHash (s : store) (keyHash : string) : option record :=
  if str_empty keyHash then None
  else List.find (fun rc => String.eqb (TextValue (rec_Data rc) [internalCancelIdempotencyKeyHash]) keyHash) (List_ s jobCommandsResource).

Definition publicWorkloadJobCommandData (data : object) : object :=
  delete_keys ["idempotency_key"; "idempotencyKey"; internalCancelIdempotencyKeyHash; internalCancelIdempotencyFingerprintHash] data.
Definition publicWorkloadJobCommandRecord (rc : record) : record :=
  Record_ (rec_ID rc) (publicWorkloadJobCommandData (rec_Data rc)) (rec_Version rc) (rec_CreatedAt rc) (rec_UpdatedAt rc).

Definition cancelJobIdempotencyResult (s : store) (keyHash fingerprintHash : string) : option response :=
  if str_empty keyHash then None
  else match FindJobCommandByCancelIdempotencyKeyHash s keyHash with
       | None => None
       | Some existing =>
           if negb (String.eqb (TextValue (rec_Data existing) [internalCancelIdempotencyFingerprintHash]) fingerprintHash)
           then Some (StatusConflict, ErrorData "idempotency key is already used by a different workload cancel request")
           else Some (StatusAccepted, BRecord (publicWorkloadJobCommandRecord existing))
       end.

Definition cancelJob (a : app) (r : wl_request) (rt : route) : app * response :=
  match authorizedJobRecord (app_Store a) r with
  | Err resp => (a, resp)
  | Ok job =>
      match wr_body r with
      | Err _ => (a, (StatusBadRequest, ErrorData msgInvalidBody))
      | Ok payload =>
          let operation := FirstNonEmpty [rt_OperationID rt; "workload_job_cancel"] in
          let '(command, body) := cancelJobCommandPayload job payload operation in
          let '(keyHash, fingerprintHash) := cancelJobIdempotencyHashes r job command body in
          match cancelJobIdempotencyResult (app_Store a) keyHash fingerprintHash with
          | Some resp => (a, resp)
          | None =>
              let command1 := <["requested_at" := VString (format_rfc3339 (wr_now r))]> command in
              let command2 := if str_empty keyHash then command1
                              else <[internalCancelIdempotencyFingerprintHash := VString fingerprintHash]>
                                     (<[internalCancelIdempotencyKeyHash := VString keyHash]> command1) in
              match CreateRecordWithEvent a jobCommandsResource command2
                      (Some (fun rc => buildEvent r "JobCancelRequested" "cancel" (rec_Data rc))) (wr_newid r) (wr_now r) with
              | (a', Err e) => (a', (createStatus e, ErrorData "job command could not be created"))
              | (a', Ok rc) => (a', (StatusAccepted, BRecord (publicWorkloadJobCommandRecord rc)))
              end
          end
      end
  end.

(** *** Credentials for a streaming session *)

(** base64 of the HMAC-SHA1 of a text under a key. *)
Context (hmac_sha1_base64 : string -> string -> string).

Definition streamTURNPassword (secret username : string) : string := hmac_sha1_base64 secret username.

(** The product is of 64-bit durations. *)
Definition streamCredentialTTL (requestedSeconds : Z) : Z :=
  let maxTTL := if cf_StreamTURNCredentialTTL cfg <=? 0 then 8 * time_Hour else cf_StreamTURNCredentialTTL cfg in
  let ttl := if 0 <? requestedSeconds then i64 (requestedSeconds * time_Second) else maxTTL in
  if maxTTL <? ttl then maxTTL else ttl.

Definition in_range (lo hi : nat) (c : ascii) : bool := (lo <=? nat_of_ascii c)%nat && (nat_of_ascii c <=? hi)%nat.

(** The bytes of the rune at the front of a string, as [range] decodes it: an invalid
    encoding is a rune of one byte. *)
Definition rune_width (l : list ascii) : nat :=
  let cont := in_range 128 191 in
  match l with
  | a :: b :: c :: d :: _ =>
      if in_range 194 223 a then (if cont b then 2 else 1)
      else if in_range 224 239 a then
        (if (if in_range 224 224 a then in_range 160 191 b else if in_range 237 237 a then in_range 128 159 b else cont b) && cont c then 3 else 1)
      else if in_range 240 244 a then
        (if (if in_range 240 240 a then in_range 144 191 b else if in_range 244 244 a then in_range 128 143 b else cont b) && cont c && cont d then 4 else 1)
      else 1
  | a :: b :: c :: [] =>
      if in_range 194 223 a then (if cont b then 2 else 1)
      else if in_range 224 239 a then
        (if (if in_range 224 224 a then in_range 160 191 b else if in_range 237 237 a then in_range 128 159 b else cont b) && cont c then 3 else 1)
      else 1
  | a :: b :: [] => if in_range 194 223 a && cont b then 2 else 1
  | _ => 1
  end%nat.

Definition name_rune (c : ascii) : bool :=
  in_range 97 122 c || in_range 65 90 c || in_range 48 57 c || Ascii.eqb c "-" || Ascii.eqb c "_" || Ascii.eqb c ".".

(** [fuel] is the number of bytes: every rune takes one at least. *)
Fixpoint name_part_loop (fuel : nat) (l : list ascii) : list ascii :=
  match fuel, l with
  | S fuel', c :: rest => (if name_rune c then c else "-"%char) :: name_part_loop fuel' (drop (rune_width l) l)
  | _, _ => []
  end.

Fixpoint drop_dashes (l : list ascii) : list ascii :=
  match l with c :: rest => if Ascii.eqb c "-" then drop_dashes rest else l | [] => [] end.
Definition trim_dashes (l : list ascii) : list ascii := rev (drop_dashes (rev (drop_dashes l))).

Definition streamCredentialNamePart (value0 : string) : string :=
  let value := TrimSpace value0 in
  if str_empty value then "stream"
  else
    let out := of_bytes (trim_dashes (name_part_loop (String.length value) (bytes_of value))) in
    if str_empty out then "stream" else out.

Definition streamCredentialUser (r : wl_request) (payload : object) : string :=
  let user := FirstNonEmpty [TrimSpace (wr_header r "X-User-ID"); TrimSpace (wr_header r "X-Username"); "stream"] in
  let session := TextValue payload ["session_id"; "sessionId"] in
  streamCredentialNamePart (if str_empty session then user else user +:+ "-" +:+ session).

Definition streamJobActive (rc : record) : bool :=
  has_status [jobStatusSubmitted; jobStatusWaitingInfra; jobStatusQueued; jobStatusRunning] (currentJobStatus (rec_Data rc)).

Definition streamCredentialJob (s : store) (jobID : string) : result response record :=
  match FindJob s jobID with
  | None => Err (StatusNotFound, ErrorData "job not found")
  | Some rc => Ok rc
  end.

Definition streamCredentials (s : store) (r : wl_request) : response :=
  match wr_body r with
  | Err _ => (StatusBadRequest, ErrorData msgInvalidBody)
  | Ok payload =>
      let jobID := TextValue payload ["job_id"; "jobId"; "id"] in
      if str_empty jobID then (StatusBadRequest, ErrorData "job_id is required")
      else match streamCredentialJob s jobID with
           | Err resp => resp
           | Ok rc =>
               match requireProjectAccess cfg s r (jobProjectID rc) with
               | Some resp => resp
               | None =>
                   if negb (BoolValue (rec_Data rc) ["streaming_session"; "streamingSession"; "StreamingSession"])
                   then (StatusConflict, ErrorData "job is not a streaming session")
                   else if negb (streamJobActive rc) then (StatusConflict, ErrorData "streaming session is not active")
                   else if bool_decide (cf_StreamTURNURIs cfg = []) || str_empty (TrimSpace (cf_StreamTURNSharedSecret cfg))
                   then (StatusServiceUnavailable, ErrorData "stream TURN credentials are not configured")
                   else
                     let ttl := streamCredentialTTL (IntValue payload ["ttl_seconds"; "ttlSeconds"]) in
                     let expires := wr_now r + ttl in
                     let username := fmt_int 0 (expires / time_Second) +:+ ":" +:+ streamCredentialUser r payload in
                     (StatusOK, BMap {[ "job_id" := VString jobID;
                        "turn" := VMap (list_to_map
                          [("uris", VStrings (cf_StreamTURNURIs cfg)); ("username", VString username);
                           ("password", VString (streamTURNPassword (cf_StreamTURNSharedSecret cfg) username));
                           ("ttl_seconds", VInt (Z.quot ttl time_Second)); ("expires_at", VString (format_rfc3339 expires))]) ]})
               end
           end
  end.

End Submit.

(** ** What a submission does *)

Section Guarantees.
Context `{GoLib} {ip : Type} (cfg : config ip) (sched : scheduler).

(** The log of [st'] is that of [st] followed by [tr]. *)
Definition logged_ (st st' : sub_state) (tr : list (sub_call * answer)) : Prop := su_log st' = su_log st ++ tr.

Lemma logged_nil st st' : su_log st' = su_log st -> logged_ st st' [].
Proof. intros E. unfold logged_. by rewrite app_nil_r. Qed.

Lemma logged_app st1 st2 st3 t1 t2 : logged_ st1 st2 t1 -> logged_ st2 st3 t2 -> logged_ st1 st3 (t1 ++ t2).
Proof. unfold logged_. intros E1 E2. by rewrite E2, E1, app_assoc. Qed.

Lemma call_logged st c st' ans : call sched st c = (st', ans) -> logged_ st st' [(c, ans)].
Proof. unfold call. destruct (sched _ _) as [a' x]. by intros [= <- <-]. Qed.

Lemma Review_logged st h payload st' x :
  Review cfg sched st h payload = (st', x) ->
  exists ans, logged_ st st' [(CReview (schedulerAdmissionHeaders cfg h) payload, ans)] /\
    (forall status review, x = Ok (status, review) -> exists data rc env, ans = Answered status data rc env /\ review = answer_data data env).
Proof.
  unfold Review. destruct (call _ _ _) as [st1 ans] eqn:E. apply call_logged in E. exists ans. destruct ans as [e|s d w env]; simplify_eq.
  - split; [done|]. by intros.
  - split; [done|]. intros status review [= <- <-]. eauto 6.
Qed.

Lemma Preempt_logged st h payload st' x :
  Preempt cfg sched st h payload = (st', x) -> exists ans, logged_ st st' [(CPreempt (schedulerAdmissionHeaders cfg h) payload, ans)].
Proof.
  unfold Preempt. destruct (call _ _ _) as [st1 ans] eqn:E. apply call_logged in E. exists ans. destruct ans; by simplify_eq.
Qed.

(** A call that neither reserves, commits nor releases. *)
Definition advisory (e : sub_call * answer) : Prop := match e.1 with CReview _ _ | CPreempt _ _ => True | _ => False end.

(** The review in the log, of the payload [adm], that lets the job in. *)
Definition admitted_by (tr : list (sub_call * answer)) (adm review : object) : Prop :=
  exists h status data rc env, (CReview h adm, Answered status data rc env) ∈ tr /\ review = answer_data data env /\
    status < StatusBadRequest /\ admissionAllowed review = true.

Lemma reviewJobAdmission_logged st r payload st' x :
  reviewJobAdmission cfg sched st r payload = (st', x) ->
  exists tr, logged_ st st' tr /\ Forall advisory tr /\
    (forall status review, x = Ok (status, review) ->
       exists h data rc env, (CReview h payload, Answered status data rc env) ∈ tr /\ review = answer_data data env).
Proof.
  unfold reviewJobAdmission. destruct (newSchedulerAdmissionClient cfg).
  - intros [= <- <-]. exists []. split; [by apply logged_nil|]. split; [constructor|]. by intros.
  - intros E. apply Review_logged in E as (ans & Hl & Hx). eexists. split; [exact Hl|]. split; [by constructor|].
    intros status review Er. destruct (Hx status review Er) as (data & rc & env & -> & ->). repeat eexists. apply list_elem_of_here.
Qed.

Lemma autoPreempt_logged st r job adm status review st' x :
  autoPreemptAndRetryAdmission cfg sched st r job adm status review = (st', x) ->
  exists tr, logged_ st st' tr /\ Forall advisory tr /\
    (forall status' review' preemption, x = Ok (status', review', preemption) ->
       (status' = status /\ StatusBadRequest <= status') \/
       (exists h data rc env, (CReview h adm, Answered status' data rc env) ∈ tr /\ review' = answer_data data env) \/
       (status' = status /\ review' = review)).
Proof.
  unfold autoPreemptAndRetryAdmission. intros E.
  assert (HN : forall tr, logged_ st st' tr -> Forall advisory tr -> (exists p, x = Ok (status, review, p)) ->
    exists tr, logged_ st st' tr /\ Forall advisory tr /\
    (forall status' review' preemption, x = Ok (status', review', preemption) ->
       (status' = status /\ StatusBadRequest <= status') \/
       (exists h data rc env, (CReview h adm, Answered status' data rc env) ∈ tr /\ review' = answer_data data env) \/
       (status' = status /\ review' = review))).
  { intros tr Hl Ha Hx. exists tr. split; [done|]. split; [done|]. intros s' r' p' Ex. right. right. destruct Hx as [p ->]; by simplify_eq. }
  destruct (shouldAutoPreemptAdmissionDenial status review) eqn:Es; cbn [negb] in E.
  2:{ simplify_eq. apply (HN []); [by apply logged_nil|constructor|by eexists]. }
  assert (Hst : status = StatusConflict).
  { unfold shouldAutoPreemptAdmissionDenial in Es. by destruct (Z.eqb_spec status StatusConflict). }
  destruct (schedulerPreemptionPayload _ _ _); [|simplify_eq; apply (HN []); [by apply logged_nil|constructor|by eexists]].
  destruct (newSchedulerPreemptionClient cfg); [simplify_eq; apply (HN []); [by apply logged_nil|constructor|by eexists]|].
  destruct (Preempt _ _ _ _ _) as [st1 y] eqn:Ep. apply Preempt_logged in Ep as [ans Hl1].
  destruct y as [[code data]|e]; [|simplify_eq; eapply HN; [exact Hl1|by constructor|by eexists]].
  destruct (_ || _).
  - simplify_eq. eexists. split; [exact Hl1|]. split; [by constructor|]. intros s' r' p' [= <- <- <-]. left. done.
  - destruct (reviewJobAdmission _ _ _ _ _) as [st2 z] eqn:Er. apply reviewJobAdmission_logged in Er as (tr2 & Hl2 & Ha2 & Hx2).
    assert (st' = st2) as -> by (destruct z as [[]|]; by simplify_eq).
    eexists. split; [by eapply logged_app|]. split; [by apply Forall_app; split; [by constructor|]|].
    intros s' r' p' Ex. right. left. destruct z as [[s2 r2]|]; [|by simplify_eq]. assert (s2 = s' /\ r2 = r') as [-> ->] by by simplify_eq.
    destruct (Hx2 s' r' eq_refl) as (h & d & rc & env & Hin & ->). exists h, d, rc, env. split; [|done]. apply elem_of_app. by right.
Qed.

Lemma admit_logged st r job adm st' x :
  admitSubmittedJob cfg sched st r job adm = (st', x) ->
  exists tr, logged_ st st' tr /\ Forall advisory tr /\
    (forall review preemption, x = Ok (review, preemption) -> admitted_by tr adm review) /\
    (forall resp, x = Err (Some resp) -> exists m, resp.2 = BMap m).
Proof.
  unfold admitSubmittedJob. destruct (reviewJobAdmission _ _ _ _ _) as [st1 y] eqn:Er.
  apply reviewJobAdmission_logged in Er as (tr1 & Hl1 & Ha1 & Hx1). destruct y as [[status review]|e].
  2:{ intros [= <- <-]. exists tr1. do 2 (split; [done|]). split; by intros. }
  destruct (Hx1 status review eq_refl) as (h & d & rc & env & Hin & Hrev).
  assert (HD : forall st2 tr status' review' preemption,
    logged_ st st2 tr -> Forall advisory tr ->
    (status' < StatusBadRequest -> admissionAllowed review' = true ->
      exists h data rc env, (CReview h adm, Answered status' data rc env) ∈ tr /\ review' = answer_data data env) ->
    (if (status' <? StatusBadRequest) && admissionAllowed review' then (st2, Ok (review', preemption))
     else (st2, Err (Some (if status' <? StatusBadRequest then StatusForbidden else status',
                          BMap (admissionDenialWithPreemptionData review' preemption "submit rejected by scheduler admission"))))) = (st', x) ->
    exists tr, logged_ st st' tr /\ Forall advisory tr /\
      (forall review preemption, x = Ok (review, preemption) -> admitted_by tr adm review) /\
      (forall resp, x = Err (Some resp) -> exists m, resp.2 = BMap m)).
  { intros st2 tr status' review' preemption Hl Ha Hin' E. destruct (Z.ltb_spec status' StatusBadRequest) as [Hlt|]; cbn [andb] in E.
    - destruct (admissionAllowed review') eqn:Eal; injection E as <- <-; exists tr; do 2 (split; [done|]); (split; [|by intros ? [= <-]; eexists]);
        intros rv p [= <- <-]. destruct (Hin' Hlt eq_refl) as (h' & d' & rc' & env' & H1 & H2). unfold admitted_by. eauto 12.
    - injection E as <- <-. exists tr. do 2 (split; [done|]). split; [by intros|]. intros ? [= <-]. by eexists. }
  destruct ((StatusBadRequest <=? status) || negb (admissionAllowed review)) eqn:Ed.
  - destruct (autoPreemptAndRetryAdmission _ _ _ _ _ _ _ _) as [st2 z] eqn:Ep.
    apply autoPreempt_logged in Ep as (tr2 & Hl2 & Ha2 & Hx2). destruct z as [[[status' review'] preemption]|e].
    + apply (HD st2 (tr1 ++ tr2) status' review' preemption); [by eapply logged_app|by apply Forall_app|].
      intros Hlt Hal. destruct (Hx2 status' review' preemption eq_refl) as [[-> ?]|[(h' & d' & rc' & env' & H1 & H2)|[-> ->]]]; [lia| |].
      * exists h', d', rc', env'. split; [|done]. apply elem_of_app. by right.
      * rewrite Hal in Ed. destruct (Z.leb_spec StatusBadRequest status); [lia|done].
    + intros [= <- <-]. exists (tr1 ++ tr2). split; [by eapply logged_app|]. split; [by apply Forall_app|]. split; by intros.
  - apply (HD st1 tr1 status review ∅); [done|done|]. intros _ _. eauto 6.
Qed.


(** The reservation an answer to a reserve call grants; blank for none. *)
Definition reserved_id (ans : answer) : string :=
  match reservation_answer "reserve" ans with Ok rc => reservationRecordID rc | Err _ => "" end.

(** Every reservation granted in the log was given back in it. *)
Definition all_released (tr : list (sub_call * answer)) : Prop :=
  forall h payload ans, (CReserve h payload, ans) ∈ tr -> reserved_id ans ≠ "" -> exists h' ans', (CRelease h' (reserved_id ans), ans') ∈ tr.

Lemma advisory_released tr : Forall advisory tr -> all_released tr.
Proof. intros Ha h payload ans Hin. rewrite Forall_forall in Ha. by destruct (Ha _ Hin). Qed.

Lemma advisory_reserve tr h payload ans : Forall advisory tr -> (CReserve h payload, ans) ∈ tr -> False.
Proof. intros Ha Hin. rewrite Forall_forall in Ha. by destruct (Ha _ Hin). Qed.

Lemma reservation_of_written job id : TrimSpace id = id -> id ≠ "" -> job !! "reservation_id" = Some (VString id) -> reservation_of job = id.
Proof.
  intros Ht Hne Hj. assert (mget job "reservation_id" = VString id) as Hm by (unfold mget; by rewrite Hj).
  unfold reservation_of, TextValue. cbn [first_key]. by rewrite Hm, (text_written id Ht Hne).
Qed.

Lemma release_logged st h job id :
  job !! "reservation_id" = Some (VString id) -> TrimSpace id = id -> id ≠ "" ->
  exists h' ans, logged_ st (release_reservation cfg sched st h job) [(CRelease h' id, ans)].
Proof.
  intros Hj Ht Hne. unfold release_reservation. rewrite (reservation_of_written job id) by done.
  rewrite bool_decide_eq_false_2 by (intros ->; by rewrite lookup_empty in Hj).
  unfold str_empty. rewrite (proj2 (String.eqb_neq id "") Hne). unfold Release. destruct (call _ _ _) as [st' ans] eqn:E.
  apply call_logged in E. eauto.
Qed.

Lemma reservationRecordID_trimmed rc : TrimSpace (reservationRecordID rc) = reservationRecordID rc.
Proof. unfold reservationRecordID. apply TrimSpace_idem. Qed.

Lemma reserve_logged st r job st' x :
  reserveAndCommitSubmittedJobQuota cfg sched st r job = (st', x) ->
  exists tr, logged_ st st' tr /\ Forall (fun e => ~ advisory e) tr /\
    match x with
    | Err _ => all_released tr
    | Ok job' =>
        newSchedulerReservationClient cfg = true /\
        exists id payload, TrimSpace id = id /\ id ≠ "" /\
          job' = <["reservation_payload" := VMap payload]> (<["reservation_state" := VString "committed"]> (<["reservation_id" := VString id]> job)) /\
          (forall h payload ans, (CReserve h payload, ans) ∈ tr -> reserved_id ans = id) /\
          (exists h ans rc, (CCommit h id, ans) ∈ tr /\ reservation_answer "commit" ans = Ok rc)
    end.
Proof.
  unfold reserveAndCommitSubmittedJobQuota. destruct (newSchedulerReservationClient cfg) eqn:Ec; cbn [negb].
  2:{ intros [= <- <-]. exists []. split; [by apply logged_nil|]. split; [constructor|]. by intros h p ans Hin%elem_of_nil. }
  unfold Reserve. destruct (call sched st _) as [st1 ans1] eqn:E1. apply call_logged in E1.
  destruct (reservation_answer "reserve" ans1) as [reserved|e] eqn:Er.
  2:{ intros [= <- <-]. eexists. split; [exact E1|]. split; [by constructor; [intros []|]|]. intros h p ans Hin Hne.
      apply list_elem_of_singleton in Hin. injection Hin as _ _ ->. unfold reserved_id in Hne. by rewrite Er in Hne. }
  assert (Hid : reserved_id ans1 = reservationRecordID reserved) by (unfold reserved_id; by rewrite Er).
  unfold str_empty. destruct (String.eqb_spec (reservationRecordID reserved) "") as [Hb|Hb].
  { intros [= <- <-]. eexists. split; [exact E1|]. split; [by constructor; [intros []|]|]. intros h p ans Hin Hne.
    apply list_elem_of_singleton in Hin. injection Hin as _ _ ->. by rewrite Hid in Hne. }
  unfold Commit. destruct (call sched st1 _) as [st2 ans2] eqn:E2. apply call_logged in E2.
  destruct (reservation_answer "commit" ans2) as [committed|e] eqn:Eco; intros [= <- <-].
  - eexists. split; [by eapply logged_app|]. split; [by repeat constructor; intros []|]. split; [done|].
    exists (reservationRecordID reserved). eexists. split; [apply reservationRecordID_trimmed|]. split; [done|]. split; [done|]. split.
    + intros h p ans Hin. rewrite elem_of_app, !list_elem_of_singleton in Hin. destruct Hin as [[= _ _ ->]|[=]]. done.
    + repeat eexists; [|exact Eco]. apply elem_of_app. right. apply list_elem_of_here.
  - set (job' := <["reservation_id" := _]> job).
    destruct (release_logged st2 (schedulerReservationHeaders (rq_Header (wr_http r)) job' "commit-rollback") job' (reservationRecordID reserved))
      as (h' & ans' & Hl); [by apply lookup_insert_eq|apply reservationRecordID_trimmed|done|].
    eexists. split; [eapply logged_app; [exact E1|eapply logged_app; [exact E2|exact Hl]]|]. split; [by repeat constructor; intros []|].
    intros h p ans Hin Hne. rewrite !elem_of_app, !list_elem_of_singleton in Hin. destruct Hin as [[= _ _ ->]|[[=]|[=]]].
    rewrite Hid. exists h', ans'. rewrite !elem_of_app, !list_elem_of_singleton. by right; right.
Qed.


(** *** Outcomes *)

(** The request passed every check that comes before the scheduler is asked. *)
Definition prepared (s : store) (r : wl_request) (s1 : store) (payload job adm : object) : Prop :=
  wr_body r = Ok payload /\ buildSubmittedJob cfg s r payload = (s1, Ok (job, adm)) /\
  requireProjectAccess cfg s1 r (TextValue job ["project_id"; "projectId"]) = None.

Definition hashes (r : wl_request) (payload job adm : object) : string * string := submitJobIdempotencyHashes r payload job adm.

(** The job as it is filed. *)
Definition filed_job (job review preemption : object) (id : string) (reserved : object) (hs : string * string) : object :=
  let job2 := <["reservation_payload" := VMap reserved]> (<["reservation_state" := VString "committed"]>
    (<["reservation_id" := VString id]> (applyAutoPreemptionResult (applyAdmissionReview job review) preemption))) in
  if str_empty hs.1 then job2
  else <[internalSubmitIdempotencyFingerprintHash := VString hs.2]> (<[internalSubmitIdempotencyKeyHash := VString hs.1]> job2).

Inductive submit_outcome (st : sub_state) (r : wl_request) : sub_state -> response -> Prop :=
| SubmitRefused st' status m tr :
    logged_ st st' tr -> all_released tr -> submit_outcome st r st' (status, BMap m)
| SubmitReplayed s1 payload job adm p :
    prepared (app_Store (su_app st)) r s1 payload job adm ->
    submitJobIdempotencyResult s1 (hashes r payload job adm).1 (hashes r payload job adm).2 = Some (StatusCreated, BRecord p) ->
    submit_outcome st r (with_app st (App_ s1 (app_Events (su_app st)))) (StatusCreated, BRecord p)
| SubmitCreated st2 st3 a' s1 s4 payload job adm review preemption id reserved rc tr1 tr2 :
    prepared (app_Store (su_app st)) r s1 payload job adm ->
    submitJobIdempotencyResult s1 (hashes r payload job adm).1 (hashes r payload job adm).2 = None ->
    admitSubmittedJob cfg sched (with_app st (App_ s1 (app_Events (su_app st)))) r job adm = (st2, Ok (review, preemption)) ->
    logged_ st st2 tr1 -> Forall advisory tr1 -> admitted_by tr1 adm review ->
    reserveAndCommitSubmittedJobQuota cfg sched st2 r (applyAutoPreemptionResult (applyAdmissionReview job review) preemption)
      = (st3, Ok (<["reservation_payload" := VMap reserved]> (<["reservation_state" := VString "committed"]>
           (<["reservation_id" := VString id]> (applyAutoPreemptionResult (applyAdmissionReview job review) preemption))))) ->
    logged_ st2 st3 tr2 -> TrimSpace id = id -> id ≠ "" ->
    (forall h payload ans, (CReserve h payload, ans) ∈ tr2 -> reserved_id ans = id) ->
    (exists h ans w, (CCommit h id, ans) ∈ tr2 /\ reservation_answer "commit" ans = Ok w) ->
    Create (app_Store (su_app st3)) jobsResource (filed_job job review preemption id reserved (hashes r payload job adm)) (wr_newid r) (wr_now r) = (s4, Ok rc) ->
    app_Store a' = s4 ->
    submit_outcome st r (with_app st3 a') (StatusCreated, BRecord (publicWorkloadJobRecord rc)).

Lemma filed_reservation job review preemption id reserved hs :
  filed_job job review preemption id reserved hs !! "reservation_id" = Some (VString id).
Proof.
  unfold filed_job. assert (HJ : forall j : object, <["reservation_payload" := VMap reserved]> (<["reservation_state" := VString "committed"]>
    (<["reservation_id" := VString id]> j)) !! "reservation_id" = Some (VString id)).
  { intros j. rewrite 2 lookup_insert_ne by done. apply lookup_insert_eq. }
  destruct (str_empty hs.1); [apply HJ|]. rewrite 2 lookup_insert_ne by done. apply HJ.
Qed.

Lemma submitJob_outcome st r : submit_outcome st r (submitJob cfg sched st r).1 (submitJob cfg sched st r).2.
Proof.
  assert (Hnil : forall st' status text, su_log st' = su_log st -> submit_outcome st r st' (status, ErrorData text)).
  { intros st' status text E. eapply (SubmitRefused st r st' status _ []); [by apply logged_nil|]. by apply advisory_released. }
  unfold submitJob. destruct (wr_body r) as [payload|] eqn:Eb; [|by apply Hnil].
  destruct (buildSubmittedJob cfg (app_Store (su_app st)) r payload) as [s1 [[job adm]|[status text]]] eqn:Ebu; [|by apply Hnil].
  destruct (requireProjectAccess cfg s1 r _) as [[status bd]|] eqn:Ea.
  { apply requireProjectAccess_error in Ea as [t Et]. cbn in Et. subst bd. by apply Hnil. }
  assert (Hp : prepared (app_Store (su_app st)) r s1 payload job adm) by done.
  destruct (submitJobIdempotencyHashes r payload job adm) as [kh fh] eqn:Eh.
  destruct (submitJobIdempotencyResult s1 kh fh) as [[status bd]|] eqn:Ei.
  { assert (Hr := Ei). unfold submitJobIdempotencyResult in Hr. destruct (str_empty kh); [done|]. destruct (FindJobBySubmitIdempotencyKeyHash s1 kh); [|done].
    destruct (negb _); injection Hr as <- <-; [by apply Hnil|]. eapply (SubmitReplayed st r); [exact Hp|]. unfold hashes. by rewrite Eh. }
  destruct (admitSubmittedJob _ _ _ _ _ _) as [st2 x] eqn:Ead. pose proof (admit_logged _ _ _ _ _ _ Ead) as (tr1 & Hl1 & Ha1 & HO & HE).
  assert (Hl1' : logged_ st st2 tr1) by exact Hl1.
  destruct x as [[review preemption]|[[status bd]|]].
  2:{ destruct (HE _ eq_refl) as [m Hm]. cbn in Hm. subst bd. eapply SubmitRefused; [exact Hl1'|]. by apply advisory_released. }
  2:{ eapply SubmitRefused; [exact Hl1'|]. by apply advisory_released. }
  destruct (reserveAndCommitSubmittedJobQuota _ _ _ _ _) as [st3 y] eqn:Ere. pose proof (reserve_logged _ _ _ _ _ Ere) as (tr2 & Hl2 & Hna & Hy).
  destruct y as [job2|e].
  2:{ eapply SubmitRefused; [eapply logged_app; [exact Hl1'|exact Hl2]|]. intros h p ans Hin Hne. rewrite elem_of_app in Hin.
      destruct Hin as [Hin|Hin]; [by destruct (advisory_reserve _ _ _ _ Ha1 Hin)|]. destruct (Hy h p ans Hin Hne) as (h' & ans' & Hr).
      exists h', ans'. apply elem_of_app. by right. }
  destruct Hy as (Hcl & id & reserved & Ht & Hne & -> & Hres & Hcom).
  assert (Hj3 : (if str_empty kh then <["reservation_payload" := VMap reserved]> (<["reservation_state" := VString "committed"]>
      (<["reservation_id" := VString id]> (applyAutoPreemptionResult (applyAdmissionReview job review) preemption)))
    else <[internalSubmitIdempotencyFingerprintHash := VString fh]> (<[internalSubmitIdempotencyKeyHash := VString kh]>
      (<["reservation_payload" := VMap reserved]> (<["reservation_state" := VString "committed"]>
      (<["reservation_id" := VString id]> (applyAutoPreemptionResult (applyAdmissionReview job review) preemption))))))
    = filed_job job review preemption id reserved (hashes r payload job adm)) by (unfold hashes; by rewrite Eh).
  rewrite Hj3. destruct (CreateRecordWithEvent _ _ _ _ _ _) as [a' [rc|e]] eqn:Ecr.
  - apply CreateRecordWithEvent_ok in Ecr as (s4 & Ecr & Es & _).
    eapply (SubmitCreated st r st2 st3 a'); try done; [unfold hashes; by rewrite Eh|by apply (HO review preemption)].
  - destruct (release_logged (with_app st3 a') (schedulerReservationHeaders (rq_Header (wr_http r))
      (filed_job job review preemption id reserved (hashes r payload job adm)) "submit-rollback")
      (filed_job job review preemption id reserved (hashes r payload job adm)) id) as (h' & ans' & Hl3); [apply filed_reservation|done|done|].
    unfold releaseSubmittedJobReservation. rewrite Hcl.
    eapply SubmitRefused; [eapply logged_app; [exact Hl1'|eapply logged_app; [exact Hl2|exact Hl3]]|].
    intros h p ans Hin Hne'. rewrite !elem_of_app, list_elem_of_singleton in Hin. destruct Hin as [Hin|[Hin|[=]]];
      [by destruct (advisory_reserve _ _ _ _ Ha1 Hin)|].
    rewrite (Hres _ _ _ Hin). exists h', ans'. rewrite !elem_of_app, list_elem_of_singleton. by right; right.
Qed.

(** Quota does not leak: whatever the scheduler answers, every reservation it grants
    in the course of a submission is either held by the job the submission created, or
    its release was requested before the submission answered. *)
Theorem submission_settles_reservation st r :
  exists tr, su_log (submitJob cfg sched st r).1 = su_log st ++ tr /\
  forall h payload ans, (CReserve h payload, ans) ∈ tr -> reserved_id ans ≠ "" ->
    (exists h' ans', (CRelease h' (reserved_id ans), ans') ∈ tr) \/
    (exists rc, (submitJob cfg sched st r).2 = (StatusCreated, BRecord (publicWorkloadJobRecord rc)) /\
       Get (app_Store (su_app (submitJob cfg sched st r).1)) jobsResource (rec_ID rc) = Some rc /\
       reservation_of (rec_Data rc) = reserved_id ans).
Proof.
  destruct (submitJob_outcome st r) as [st' status m tr Hl Hr|s1 payload job adm p Hp Hi|
    st2 st3 a' s1 s4 payload job adm review preemption id reserved rc tr1 tr2 Hp Hi Had Hl1 Ha1 Hrev Hre Hl2 Ht Hne Hres Hcom Hcr Es].
  - exists tr. split; [exact Hl|]. intros h p ans Hin Hn. left. by apply (Hr h p ans).
  - exists []. split; [by apply logged_nil|]. by intros h q ans Hin%elem_of_nil.
  - exists (tr1 ++ tr2). split; [by eapply logged_app|]. intros h p ans Hin Hn. right. exists rc. split; [done|].
    rewrite elem_of_app in Hin. destruct Hin as [Hin|Hin]; [by destruct (advisory_reserve _ _ _ _ Ha1 Hin)|]. rewrite (Hres _ _ _ Hin).
    apply Create_ok in Hcr as (_ & Hid & _ & _ & _ & Hk & HG). cbn [su_app with_app]. rewrite Es, HG, decide_True by done. split; [done|].
    apply reservation_of_written; [done|done|]. rewrite Hk by done. apply filed_reservation.
Qed.


(** *** What the filed job keeps of the built one *)

Definition written_keys : list string :=
  ["admission_usage"; "admission_preemption"; "admission_preemption_id"; "admission_preemption_status"; "reservation_id"; "reservation_state";
   "reservation_payload"; internalSubmitIdempotencyKeyHash; internalSubmitIdempotencyFingerprintHash].

Lemma set_if_ne b key v data k : k ≠ key -> set_if b key v data !! k = data !! k.
Proof. intros Hk. unfold set_if. destruct b; [by rewrite lookup_insert_ne|done]. Qed.

Lemma filed_keeps job review preemption id reserved hs k :
  k ∉ review_keys -> k ∉ written_keys -> filed_job job review preemption id reserved hs !! k = job !! k.
Proof.
  intros H1 H2. unfold written_keys in H2. rewrite !not_elem_of_cons in H2. destruct_and! H2.
  assert (HR : applyAdmissionReview job review !! k = job !! k).
  { unfold applyAdmissionReview.
    assert ((filter (fun kv => kv.1 ∈ review_keys) review ∪ job) !! k = job !! k) as E.
    { apply lookup_union_r. apply map_lookup_filter_None. right. intros x _ Hx. by apply H1. }
    destruct (review !! "usage"); [by rewrite lookup_insert_ne|done]. }
  assert (HP : applyAutoPreemptionResult (applyAdmissionReview job review) preemption !! k = job !! k).
  { unfold applyAutoPreemptionResult. case_bool_decide; [done|]. rewrite !set_if_ne by done. by rewrite lookup_insert_ne. }
  unfold filed_job. destruct (str_empty hs.1); rewrite !lookup_insert_ne by done; exact HP.
Qed.

Lemma NextJobID_data s : st_data (NextJobID s).2 = st_data s.
Proof. unfold NextJobID. destruct (NextID _ _ _ _ _) as [[id s']|] eqn:E; [|done]. cbn. by eapply NextID_data. Qed.

(** The job a successful build yields. *)
Lemma build_ok s r payload s1 job adm :
  buildSubmittedJob cfg s r payload = (s1, Ok (job, adm)) ->
  st_data s1 = st_data s /\ adm = jobAdmissionPayload job payload /\
  exists ctx userID jobID, resolveJobSubmitContext s r payload = Ok ctx /\
    let base := submitted_job cfg payload ctx userID jobID (format_rfc3339 (wr_now r)) in
    job = base \/ (exists image, job = <["stream_sidecar_image" := VString image]> base).
Proof.
  unfold buildSubmittedJob. destruct (negb _); [done|]. destruct (resolveJobSubmitContext s r payload) as [ctx|]; [|done].
  destruct (str_empty _); [done|]. pose proof (NextJobID_data s) as Hd. destruct (NextJobID s) as [next s2]. cbn [snd] in Hd.
  destruct (BoolValue _ _).
  - destruct (str_empty _); [done|]. intros [= <- <- <-]. split; [done|]. split; [done|]. do 3 eexists. split; [done|]. right. by eexists.
  - intros [= <- <- <-]. split; [done|]. split; [done|]. do 3 eexists. split; [done|]. by left.
Qed.

Lemma build_status s r payload s1 job adm :
  buildSubmittedJob cfg s r payload = (s1, Ok (job, adm)) -> job !! "status" = Some (VString "submitted").
Proof.
  intros (_ & _ & ctx & userID & jobID & _ & Hj)%build_ok.
  assert (submitted_job cfg payload ctx userID jobID (format_rfc3339 (wr_now r)) !! "status" = Some (VString "submitted")) as Hs.
  { unfold submitted_job. rewrite !set_if_ne by done. rewrite 7 lookup_insert_ne by done. apply lookup_insert_eq. }
  destruct Hj as [-> |[image ->]]; [done|]. by rewrite lookup_insert_ne.
Qed.

(** The review is asked about the job that is filed. *)
Lemma admission_names job payload k : k ∈ ["job_id"; "project_id"; "user_id"] -> mget (jobAdmissionPayload job payload) k = mget job k.
Proof.
  intros Hk. unfold jobAdmissionPayload. set (base := list_to_map _).
  assert (Hb : base !! k = Some (mget job k)).
  { unfold base. cbn [list_to_map foldr fst snd]. rewrite !elem_of_cons, elem_of_nil in Hk. destruct Hk as [-> |[-> |[-> |[]]]].
    - apply lookup_insert_eq.
    - rewrite lookup_insert_ne by done. apply lookup_insert_eq.
    - rewrite 2 lookup_insert_ne by done. apply lookup_insert_eq. }
  assert (k ≠ "sm_percentage" /\ k ≠ "pinned_memory_limit") as [H1 H2].
  { rewrite !elem_of_cons, elem_of_nil in Hk. destruct Hk as [-> |[-> |[-> |[]]]]; done. }
  unfold mget. destruct (firstPresent payload _), (firstPresent payload _); rewrite ?lookup_insert_ne by done; by rewrite Hb.
Qed.

(** C11: No job without admission and quota: when a submission answers with a job, then
    either the job existed and no call was made (the replay of an idempotent request), or
    the scheduler's review of this job (its id, project and user) was answered below 400
    with allowed = true, the reservation the job names was committed, the caller has access to the job's
    project, and the job is filed with status submitted. *)
Theorem submit_only_admitted st r p :
  (submitJob cfg sched st r).2 = (StatusCreated, BRecord p) ->
  exists rc tr, p = publicWorkloadJobRecord rc /\ su_log (submitJob cfg sched st r).1 = su_log st ++ tr /\
  ((tr = [] /\ exists id, Get (app_Store (su_app st)) jobsResource id = Some rc) \/
   ((exists adm review, admitted_by tr adm review /\
      forall k, k ∈ ["job_id"; "project_id"; "user_id"] -> mget adm k = mget (rec_Data rc) k) /\
    (exists h ans w, (CCommit h (reservation_of (rec_Data rc)), ans) ∈ tr /\ reservation_answer "commit" ans = Ok w) /\
    requireProjectAccess cfg (app_Store (su_app st)) r (jobProjectID rc) = None /\
    Get (app_Store (su_app (submitJob cfg sched st r).1)) jobsResource (rec_ID rc) = Some rc /\ currentJobStatus (rec_Data rc) = jobStatusSubmitted)).
Proof.
  destruct (submitJob_outcome st r) as [st' status m tr Hl Hr|s1 payload job adm p' Hp Hi|
    st2 st3 a' s1 s4 payload job adm review preemption id reserved rc tr1 tr2 Hp Hi Had Hl1 Ha1 Hrev Hre Hl2 Ht Hne Hres Hcom Hcr Es]; intros [= Ep].
  - unfold submitJobIdempotencyResult, FindJobBySubmitIdempotencyKeyHash in Hi. destruct (str_empty _); [done|].
    destruct (List.find _ _) as [existing|] eqn:Ef; [|done]. destruct (negb _); [done|]. injection Hi as <-. exists existing, [].
    split; [done|]. split; [by apply logged_nil|]. left. split; [done|]. apply List.find_some in Ef as [Hin _].
    apply list_elem_of_In, elem_of_List in Hin as [id Hid]. exists id.
    destruct Hp as (_ & (Hd & _)%build_ok & _). by rewrite <- (Get_data _ _ Hd).
  - subst p. exists rc, (tr1 ++ tr2). split; [done|]. split; [by eapply logged_app|]. right. destruct Hp as (_ & Hb & Hacc).
    pose proof (build_status _ _ _ _ _ _ Hb) as Hst. apply build_ok in Hb as (Hd & Hadm & _).
    apply Create_ok in Hcr as (_ & Hid & _ & _ & _ & Hk & HG).
    assert (Hkeep : forall k, k ≠ "id" -> k ∉ review_keys -> k ∉ written_keys -> mget (rec_Data rc) k = mget job k).
    { intros k H1 H2 H3. unfold mget. by rewrite Hk, filed_keeps. }
    split; [|split; [|split; [|split]]].
    + destruct Hrev as (h & s & d & w & env & Hin & Hrest). exists adm, review. split.
      { exists h, s, d, w, env. split; [|done]. apply elem_of_app. by left. }
      intros k Hk3. rewrite Hadm, admission_names by done. symmetry. apply Hkeep; rewrite !elem_of_cons, elem_of_nil in Hk3;
        destruct Hk3 as [-> |[-> |[-> |[]]]]; by apply (bool_decide_unpack _).
    + rewrite (reservation_of_written (rec_Data rc) id) by (done || by rewrite Hk, filed_reservation).
      destruct Hcom as (h & ans & w & Hin & Hok). exists h, ans, w. split; [|done]. apply elem_of_app. by right.
    + rewrite <- (requireProjectAccess_data cfg (app_Store (su_app st)) s1) by done. rewrite <- Hacc. f_equal.
      unfold jobProjectID, TextValue. cbn [first_key]. by rewrite !Hkeep by by apply (bool_decide_unpack _).
    + cbn [su_app with_app]. by rewrite Es, HG, decide_True.
    + apply (status_written _ "submitted"); try done. rewrite Hk, filed_keeps by by apply (bool_decide_unpack _). done.
Qed.


(** *** Idempotency *)

(** The same request again: its headers, query and body; the clock and the identifiers
    drawn meanwhile differ. *)
Definition same_request (r r' : wl_request) : Prop := wr_http r' = wr_http r /\ wr_body r' = wr_body r.

(** No job is filed under the key. *)
Definition unused (s : store) (keyHash : string) : Prop :=
  forall id rc, Get s jobsResource id = Some rc -> TextValue (rec_Data rc) [internalSubmitIdempotencyKeyHash] ≠ keyHash.

Definition watched : list string := [configsResource; versionsResource; orgProjectsResource; orgProjectMembersResource].

Lemma jobs_not_watched : jobsResource ∉ watched.
Proof. by apply (bool_decide_unpack _). Qed.

Definition framed (s s' : store) : Prop :=
  (forall res, res ∈ watched -> bucket s' res = bucket s res) /\ (forall h, unused s h -> unused s' h).

#[local] Instance framed_preorder : PreOrder framed.
Proof.
  split; [by intros s|]. intros s1 s2 s3 [B1 U1] [B2 U2]. split; [intros res Hr; by rewrite B2, B1|]. intros h Hu. by apply U2, U1.
Qed.

Lemma framed_data s s' : st_data s' = st_data s -> framed s s'.
Proof.
  intros E. split; [intros res _; unfold bucket; by rewrite E|]. intros h Hu id rc Hg. apply (Hu id rc). by rewrite <- (Get_data _ _ E).
Qed.

(** The fields of the job that depend on when and under which id it is built. *)
Definition volatile : list string := ["id"; "job_id"; "submitted_at"; "created_at"; "updated_at"].

Lemma submitted_job_stable payload ctx userID jobID now jobID' now' k :
  k ∉ volatile -> submitted_job cfg payload ctx userID jobID now !! k = submitted_job cfg payload ctx userID jobID' now' !! k.
Proof.
  unfold volatile. rewrite !not_elem_of_cons. intros (H1 & H2 & H3 & H4 & H5 & _). unfold submitted_job, set_if.
  repeat match goal with |- context [if ?b then _ else _] => destruct b end; rewrite ?lookup_insert; repeat case_decide; congruence.
Qed.

(** The review payload without the id of the job. *)
Lemma admission_stable job job' payload :
  mget job' "project_id" = mget job "project_id" -> mget job' "user_id" = mget job "user_id" ->
  delete "job_id" (jobAdmissionPayload job' payload) = delete "job_id" (jobAdmissionPayload job payload) /\
  forall v, <["job_id" := v]> (jobAdmissionPayload job' payload) = <["job_id" := v]> (jobAdmissionPayload job payload).
Proof.
  intros Hp Hu.
  assert (exists f : object -> object, (forall v m, f (<["job_id" := v]> m) = <["job_id" := v]> (f m)) /\
    exists m, jobAdmissionPayload job' payload = f (<["job_id" := mget job' "job_id"]> m) /\
              jobAdmissionPayload job payload = f (<["job_id" := mget job "job_id"]> m)) as (f & Hf & m & E1 & E2).
  { unfold jobAdmissionPayload. rewrite Hp, Hu. cbn [list_to_map foldr fst snd].
    set (put key keys := fun data : object => match firstPresent payload keys with Some v => <[key := v]> data | None => data end).
    exists (fun data => put "pinned_memory_limit" ["pinned_memory_limit"; "pinnedMemoryLimit"; "pinned_memory"; "pinnedMemory"]
             (put "sm_percentage" ["sm_percentage"; "smPercentage"; "SMPercentage"] data)).
    split; [|eexists; split; reflexivity]. intros v m. unfold put.
    destruct (firstPresent payload _), (firstPresent payload _); rewrite ?(insert_insert_ne _ _ "job_id") by done; done. }
  rewrite E1, E2, !Hf. split; [by rewrite !delete_insert_eq|]. intros v. by rewrite !insert_insert_eq.
Qed.

Lemma hashes_stable r r' payload job job' :
  same_request r r' -> (forall k, k ∉ "stream_sidecar_image" :: volatile -> job' !! k = job !! k) ->
  hashes r' payload job' (jobAdmissionPayload job' payload) = hashes r payload job (jobAdmissionPayload job payload).
Proof.
  intros [Hh _] Hk. assert (Hm : forall k, k ∉ "stream_sidecar_image" :: volatile -> mget job' k = mget job k) by (intros k Hn; unfold mget; by rewrite Hk).
  unfold hashes, submitJobIdempotencyHashes, wr_header. rewrite Hh. destruct (str_empty _); [done|].
  destruct (admission_stable job job' payload) as [Ed Ei]; [by apply Hm, (bool_decide_unpack _)..|].
  assert (HT : forall a b, a ∉ "stream_sidecar_image" :: volatile -> b ∉ "stream_sidecar_image" :: volatile -> TextValue job' [a; b] = TextValue job [a; b]).
  { intros a b Ha Hb. unfold TextValue. cbn [first_key]. by rewrite !Hm. }
  rewrite !HT by by apply (bool_decide_unpack _). by rewrite Ed, Ei.
Qed.

Lemma resolve_framed s s' r r' payload :
  same_request r r' -> (forall res, res ∈ watched -> bucket s' res = bucket s res) ->
  resolveJobSubmitContext s' r' payload = resolveJobSubmitContext s r payload.
Proof.
  intros [Hh _] Hb. unfold resolveJobSubmitContext, GetConfig, GetVersion, Get. rewrite Hh, !Hb by by apply (bool_decide_unpack _). done.
Qed.

Lemma access_framed s s' r r' p :
  same_request r r' -> (forall res, res ∈ watched -> bucket s' res = bucket s res) ->
  requireProjectAccess cfg s' r' p = requireProjectAccess cfg s r p.
Proof.
  intros [Hh _] Hb. unfold requireProjectAccess, findWorkloadProject, workloadProjectMember, workloadAuthenticatedUserID, workloadRequestIsAdmin, wr_header, List_, Get.
  rewrite Hh, !Hb by by apply (bool_decide_unpack _). done.
Qed.

(** Building again finds the same project and the same hashes. *)
Lemma build_again s s' r r' payload s1 job adm :
  same_request r r' -> (forall res, res ∈ watched -> bucket s' res = bucket s res) -> buildSubmittedJob cfg s r payload = (s1, Ok (job, adm)) ->
  exists s1' job' adm', buildSubmittedJob cfg s' r' payload = (s1', Ok (job', adm')) /\ st_data s1' = st_data s' /\
    TextValue job' ["project_id"; "projectId"] = TextValue job ["project_id"; "projectId"] /\ hashes r' payload job' adm' = hashes r payload job adm.
Proof.
  intros Hr Hb. unfold buildSubmittedJob. rewrite (resolve_framed s s' r r' payload) by done. destruct (negb _); [done|].
  destruct (resolveJobSubmitContext s r payload) as [ctx|]; [|done]. unfold wr_header. rewrite (proj1 Hr). destruct (str_empty _); [done|].
  pose proof (NextJobID_data s') as Hd'. destruct (NextJobID s) as [next s2], (NextJobID s') as [next' s2']. cbn [snd] in Hd'.
  set (u := FirstNonEmpty _). set (i := FirstNonEmpty [_; next]). set (i' := FirstNonEmpty [_; next']).
  set (j := submitted_job cfg payload ctx u i _). set (j' := submitted_job cfg payload ctx u i' _).
  assert (Hj : forall k, k ∉ volatile -> j' !! k = j !! k) by (intros k Hk; by apply submitted_job_stable).
  assert (HB : BoolValue j' ["streaming_session"; "streamingSession"; "StreamingSession"] = BoolValue j ["streaming_session"; "streamingSession"; "StreamingSession"]).
  { unfold BoolValue. cbn [first_key]. unfold mget. by rewrite !Hj by by apply (bool_decide_unpack _). }
  assert (HF : forall x x', (forall k, k ∉ volatile -> x' !! k = x !! k) ->
    TextValue x' ["project_id"; "projectId"] = TextValue x ["project_id"; "projectId"] /\
    hashes r' payload x' (jobAdmissionPayload x' payload) = hashes r payload x (jobAdmissionPayload x payload)).
  { intros x x' Hx. split.
    - unfold TextValue. cbn [first_key]. unfold mget. by rewrite !Hx by by apply (bool_decide_unpack _).
    - apply hashes_stable; [done|]. intros k Hk. apply Hx. rewrite not_elem_of_cons in Hk. tauto. }
  rewrite HB. destruct (BoolValue j _).
  - destruct (str_empty _); [done|]. intros [= <- <- <-]. do 3 eexists. split; [done|]. split; [done|]. apply HF.
    intros k Hk. rewrite !lookup_insert. case_decide; [done|]. by apply Hj.
  - intros [= <- <- <-]. do 3 eexists. split; [done|]. split; [done|]. by apply HF.
Qed.


Lemma find_only {A} (f : A -> bool) l x : x ∈ l -> f x = true -> (forall y, y ∈ l -> f y = true -> y = x) -> List.find f l = Some x.
Proof.
  intros Hin Hx Hu. destruct (List.find f l) as [y|] eqn:E.
  - apply List.find_some in E as [Hy Hfy]. f_equal. apply Hu; [by apply list_elem_of_In|done].
  - apply list_elem_of_In in Hin. by rewrite (List.find_none f l E x Hin) in Hx.
Qed.

Lemma unused_find s h : h ≠ "" -> FindJobBySubmitIdempotencyKeyHash s h = None -> unused s h.
Proof.
  intros Hh. unfold FindJobBySubmitIdempotencyKeyHash, str_empty. rewrite (proj2 (String.eqb_neq h "") Hh). intros Ef id rc Hg E.
  assert (rc ∈ List_ s jobsResource) as Hin by (apply elem_of_List; eauto). apply list_elem_of_In in Hin.
  apply (List.find_none _ _ Ef) in Hin. cbn in Hin. apply String.eqb_neq in Hin. done.
Qed.

Section Frame.
(** A call to the scheduler changes no configuration file, version, project or membership,
    and files no job under an idempotency key. *)
Hypothesis sched_frame : forall a c, framed (app_Store a) (app_Store (sched a c).1).
(** A digest in hexadecimal is neither blank nor padded. *)
Hypothesis hex_text : forall x, TrimSpace (sha256_hex x) = sha256_hex x /\ sha256_hex x ≠ "".

Definition state_framed (st st' : sub_state) : Prop := framed (app_Store (su_app st)) (app_Store (su_app st')).

Lemma call_framed st c st' ans : call sched st c = (st', ans) -> state_framed st st'.
Proof.
  unfold call. pose proof (sched_frame (su_app st) c) as Hf. destruct (sched _ _) as [a' x]. by intros [= <- <-].
Qed.

Lemma review_framed st r payload st' x : reviewJobAdmission cfg sched st r payload = (st', x) -> state_framed st st'.
Proof.
  unfold reviewJobAdmission, Review. destruct (newSchedulerAdmissionClient cfg); [intros [= <- _]; unfold state_framed; reflexivity|].
  destruct (call _ _ _) as [st1 ans] eqn:E. apply call_framed in E. destruct ans; intros [= <- _]; done.
Qed.

Lemma admit_framed st r job adm st' x : admitSubmittedJob cfg sched st r job adm = (st', x) -> state_framed st st'.
Proof.
  unfold admitSubmittedJob. destruct (reviewJobAdmission _ _ _ _ _) as [st1 y] eqn:E1. apply review_framed in E1.
  destruct y as [[status review]|]; [|by intros [= <- _]].
  assert (HA : forall st2 z, autoPreemptAndRetryAdmission cfg sched st1 r job adm status review = (st2, z) -> state_framed st1 st2).
  { intros st2 z. unfold autoPreemptAndRetryAdmission. destruct (negb _); [intros [= <- _]; unfold state_framed; reflexivity|].
    destruct (schedulerPreemptionPayload _ _ _); [|intros [= <- _]; unfold state_framed; reflexivity].
    destruct (newSchedulerPreemptionClient cfg); [intros [= <- _]; unfold state_framed; reflexivity|].
    unfold Preempt. destruct (call _ _ _) as [st3 ans] eqn:E3. apply call_framed in E3. destruct ans as [|code data w env]; [by intros [= <- _]|].
    destruct (_ || _); [by intros [= <- _]|]. destruct (reviewJobAdmission _ _ st3 _ _) as [st4 q] eqn:E4. apply review_framed in E4.
    destruct q as [[]|]; intros [= <- _]; unfold state_framed in *; by etransitivity. }
  destruct (_ || _).
  - destruct (autoPreemptAndRetryAdmission _ _ _ _ _ _ _ _) as [st2 z]. specialize (HA st2 z eq_refl).
    destruct z as [[[status' review'] preemption]|]; [destruct (_ && _)|]; intros [= <- _]; unfold state_framed in *; by etransitivity.
  - destruct (_ && _); by intros [= <- _].
Qed.

Lemma reserve_framed st r job st' job' : reserveAndCommitSubmittedJobQuota cfg sched st r job = (st', Ok job') -> state_framed st st'.
Proof.
  unfold reserveAndCommitSubmittedJobQuota. destruct (negb _); [done|]. unfold Reserve. destruct (call sched st _) as [st1 ans1] eqn:E1.
  apply call_framed in E1. destruct (reservation_answer _ _); [|done]. destruct (str_empty _); [done|].
  unfold Commit. destruct (call sched st1 _) as [st2 ans2] eqn:E2. apply call_framed in E2. destruct (reservation_answer _ _); [|done].
  intros [= <- _]. unfold state_framed in *. by etransitivity.
Qed.

(** Under a key, the job of a first submission is the one the key leads to. *)
Lemma created_found s1 s3 s4 job hs newID now rc :
  framed s1 s3 -> unused s1 hs.1 -> (exists x y, hs = (sha256_hex x, sha256_hex y)) ->
  Create s3 jobsResource job newID now = (s4, Ok rc) -> job !! internalSubmitIdempotencyKeyHash = Some (VString hs.1) ->
  job !! internalSubmitIdempotencyFingerprintHash = Some (VString hs.2) ->
  submitJobIdempotencyResult s4 hs.1 hs.2 = Some (StatusCreated, BRecord (publicWorkloadJobRecord rc)).
Proof.
  intros [_ HU] Hun (x & y & Eh) HC Hk Hf. pose proof (hex_text x) as [Tx Nx]. pose proof (hex_text y) as [Ty Ny].
  apply HU in Hun. apply Create_ok in HC as (_ & _ & _ & _ & _ & Hd & HG). rewrite Eh in *. cbn [fst snd] in *.
  assert (HT : forall k z, rec_Data rc !! k = Some (VString (sha256_hex z)) -> TextValue (rec_Data rc) [k] = sha256_hex z).
  { intros k z Ek. destruct (hex_text z) as [Tz Nz]. assert (mget (rec_Data rc) k = VString (sha256_hex z)) as Hm by (unfold mget; by rewrite Ek).
    unfold TextValue. cbn [first_key]. by rewrite Hm, (text_written _ Tz Nz). }
  rewrite <- Hd in Hk, Hf by done. apply HT in Hk, Hf.
  unfold submitJobIdempotencyResult, FindJobBySubmitIdempotencyKeyHash, str_empty. rewrite (proj2 (String.eqb_neq _ "") Nx).
  rewrite (find_only _ _ rc).
  - rewrite Hf, String.eqb_refl. done.
  - apply elem_of_List. eexists. rewrite HG, decide_True by done. done.
  - rewrite Hk. apply String.eqb_refl.
  - intros rc' [id' Hg']%elem_of_List E%String.eqb_eq. rewrite HG in Hg'. case_decide; [by injection Hg'|]. by apply Hun in Hg'.
Qed.

Lemma hashes_hex r payload job adm :
  TrimSpace (wr_header r idempotencyKeyHeader) ≠ "" -> exists x y, hashes r payload job adm = (sha256_hex x, sha256_hex y).
Proof.
  intros Hk. unfold hashes, submitJobIdempotencyHashes, str_empty. rewrite (proj2 (String.eqb_neq _ "") Hk). unfold submitJobHash. eauto.
Qed.

Lemma filed_hashes job review preemption id reserved hs :
  hs.1 ≠ "" -> filed_job job review preemption id reserved hs !! internalSubmitIdempotencyKeyHash = Some (VString hs.1) /\
    filed_job job review preemption id reserved hs !! internalSubmitIdempotencyFingerprintHash = Some (VString hs.2).
Proof.
  intros Hn. unfold filed_job, str_empty. rewrite (proj2 (String.eqb_neq _ "") Hn).
  split; [rewrite lookup_insert_ne by done|]; apply lookup_insert_eq.
Qed.

(** C12: A submission with an idempotency key happens once: when it answered with a job,
    the same request again answers with the same job, makes no call to the scheduler and
    changes no record. *)
Theorem submit_idempotent st r r' p :
  same_request r r' -> TrimSpace (wr_header r idempotencyKeyHeader) ≠ "" ->
  let st1 := (submitJob cfg sched st r).1 in
  (submitJob cfg sched st r).2 = (StatusCreated, BRecord p) ->
  (submitJob cfg sched st1 r').2 = (StatusCreated, BRecord p) /\
  su_log (submitJob cfg sched st1 r').1 = su_log st1 /\
  st_data (app_Store (su_app (submitJob cfg sched st1 r').1)) = st_data (app_Store (su_app st1)).
Proof.
  intros Hr Hkey. cbn zeta.
  assert (HX : forall st1 s0 s1 payload job adm,
    prepared s0 r s1 payload job adm -> (forall res, res ∈ watched -> bucket (app_Store (su_app st1)) res = bucket s0 res) ->
    submitJobIdempotencyResult (app_Store (su_app st1)) (hashes r payload job adm).1 (hashes r payload job adm).2 = Some (StatusCreated, BRecord p) ->
    (submitJob cfg sched st1 r').2 = (StatusCreated, BRecord p) /\ su_log (submitJob cfg sched st1 r').1 = su_log st1 /\
    st_data (app_Store (su_app (submitJob cfg sched st1 r').1)) = st_data (app_Store (su_app st1))).
  { intros st1 s0 s1 payload job adm (Hb & Hbu & Hacc) Hbk Hi.
    destruct (build_again s0 (app_Store (su_app st1)) r r' payload s1 job adm Hr Hbk Hbu) as (s1' & job' & adm' & Hbu' & Hd' & Hp' & Hh').
    unfold submitJob. rewrite (proj2 Hr), Hb, Hbu', Hp'.
    rewrite (requireProjectAccess_data cfg (app_Store (su_app st1)) s1'), (access_framed s0 (app_Store (su_app st1)) r r') by done.
    apply build_ok in Hbu as (Hd1 & _). rewrite <- (requireProjectAccess_data cfg s0 s1) by done. rewrite Hacc.
    unfold hashes in *. rewrite Hh'. destruct (submitJobIdempotencyHashes r payload job adm) as [kh fh]. cbn [fst snd] in Hi.
    assert (submitJobIdempotencyResult s1' kh fh = Some (StatusCreated, BRecord p)) as ->.
    { revert Hi. unfold submitJobIdempotencyResult, FindJobBySubmitIdempotencyKeyHash, List_, bucket. by rewrite Hd'. }
    done. }
  destruct (submitJob_outcome st r) as [st' status m tr Hl Hrel|s1 payload job adm p' Hp Hi|
    st2 st3 a' s1 s4 payload job adm review preemption id reserved rc tr1 tr2 Hp Hi Had Hl1 Ha1 Hrev Hre Hl2 Ht Hne Hres Hcom Hcr Es]; intros [= Ep].
  - subst p'. eapply HX; [exact Hp| |exact Hi]. cbn [su_app with_app app_Store]. destruct Hp as (_ & (Hd & _)%build_ok & _).
    intros res _. unfold bucket. by rewrite Hd.
  - subst p. destruct (hashes_hex r payload job adm Hkey) as (x & y & Eh). pose proof (hex_text x) as [Tx Nx].
    assert (Hn : (hashes r payload job adm).1 ≠ "") by (by rewrite Eh).
    apply admit_framed in Had. apply reserve_framed in Hre. unfold state_framed in *. cbn [su_app with_app app_Store] in *.
    assert (HF : framed s1 (app_Store (su_app st3))) by by etransitivity.
    destruct (filed_hashes job review preemption id reserved _ Hn) as [Hk Hf].
    eapply HX; [exact Hp| |].
    + cbn [su_app with_app]. intros res Hw. rewrite Es. destruct Hp as (_ & (Hd & _)%build_ok & _).
      pose proof (bucket_Create (app_Store (su_app st3)) jobsResource (filed_job job review preemption id reserved (hashes r payload job adm))
        (wr_newid r) (wr_now r) res) as Hbc. rewrite Hcr in Hbc. cbn [fst] in Hbc. rewrite Hbc.
      * rewrite (proj1 HF res Hw). unfold bucket. by rewrite Hd.
      * intros <-. by apply jobs_not_watched.
    + cbn [su_app with_app]. rewrite Es.
      eapply (created_found s1 (app_Store (su_app st3)) s4); [done| |by eauto|exact Hcr|exact Hk|exact Hf].
      apply unused_find; [done|]. unfold submitJobIdempotencyResult, str_empty in Hi. rewrite (proj2 (String.eqb_neq _ "") Hn) in Hi.
      destruct (FindJobBySubmitIdempotencyKeyHash s1 _); [|done]. by destruct (negb _).
Qed.

End Frame.

(** Cancelling a job only files a command: no record of a job changes. *)
Lemma cancel_files_command a r rt id : Get (app_Store (cancelJob cfg a r rt).1) jobsResource id = Get (app_Store a) jobsResource id.
Proof.
  unfold cancelJob. destruct (authorizedJobRecord _ _ _) as [job|]; [|done]. destruct (wr_body r) as [payload|]; [|done].
  destruct (cancelJobCommandPayload _ _ _) as [command body]. destruct (cancelJobIdempotencyHashes _ _ _ _) as [kh fh].
  destruct (cancelJobIdempotencyResult _ _ _); [done|].
  match goal with |- context [CreateRecordWithEvent ?a1 ?res ?d ?b ?i ?t] =>
    pose proof (CreateRecordWithEvent_store a1 res d b i t) as HS; pose proof (bucket_Create (app_Store a1) res d i t jobsResource ltac:(done)) as HB;
    destruct (CreateRecordWithEvent a1 res d b i t) as [a' [rc|e]] end; cbn [fst] in *; unfold Get; by rewrite HS, HB.
Qed.

(** *** Reads *)

Definition member_of (s : store) (project user : string) : Prop :=
  exists m, m ∈ List_ s orgProjectMembersResource /\ memberRecordMatches m project user = true.

Lemma workloadProjectMember_spec s project user : workloadProjectMember s project user = true -> member_of s project user.
Proof.
  unfold workloadProjectMember. destruct (_ || _); [done|]. intros [Hg|Hl]%orb_true_iff.
  - apply existsb_exists in Hg as (id & _ & Hm). destruct (Get s orgProjectMembersResource id) as [m|] eqn:E; [|done].
    exists m. split; [apply elem_of_List; eauto|done].
  - apply existsb_exists in Hl as (m & Hin & Hm). exists m. split; [by apply list_elem_of_In|done].
Qed.

(** The records an answer shows. *)
Definition shows (resp : response) (rc : record) : Prop :=
  match resp.2 with BRecord x => x = rc | BRecords l => rc ∈ l | _ => False end.

Lemma public_hides job :
  rec_Data (publicWorkloadJobRecord job) !! internalSubmitIdempotencyKeyHash = None /\
  rec_Data (publicWorkloadJobRecord job) !! internalSubmitIdempotencyFingerprintHash = None.
Proof.
  cbn. unfold publicWorkloadJobData. split; [|apply lookup_delete_eq]. rewrite lookup_delete_ne by done. apply lookup_delete_eq.
Qed.

Lemma FindJob_In s id rc : FindJob s id = Some rc -> rc ∈ List_ s jobsResource.
Proof.
  unfold FindJob. destruct (str_empty id); [done|]. destruct (Get s jobsResource id) as [x|] eqn:E.
  - intros [= <-]. apply elem_of_List. eauto.
  - intros [Hin _]%List.find_some. by apply list_elem_of_In.
Qed.

Lemma authorizedJobRecord_ok s r rc :
  cf_RequireAuth cfg = true -> authorizedJobRecord cfg s r = Ok rc ->
  rc ∈ List_ s jobsResource /\ granted s r (jobProjectID rc).
Proof.
  intros Ha. unfold authorizedJobRecord. destruct (FindJob s _) as [x|] eqn:E; [|done].
  destruct (requireProjectAccess _ _ _ _) eqn:Er; [done|]. intros [= <-]. split; [by eapply FindJob_In|by eapply access_granted].
Qed.

(** Jobs are read within one's projects: with authentication required, every job that
    a caller who is no administrator is shown, in the listing or by its id, is a job of a
    project he is a member of, without the hashes of its idempotency key. *)
Theorem job_reads_isolated s r rc :
  cf_RequireAuth cfg = true -> workloadRequestIsAdmin r = false -> shows (listJobs cfg s r) rc \/ shows (getJob cfg s r) rc ->
  exists job, job ∈ List_ s jobsResource /\ rc = publicWorkloadJobRecord job /\
    rec_Data rc !! internalSubmitIdempotencyKeyHash = None /\ rec_Data rc !! internalSubmitIdempotencyFingerprintHash = None /\
    workloadAuthenticatedUserID r ≠ "" /\ member_of s (jobProjectID job) (workloadAuthenticatedUserID r).
Proof.
  intros Ha Hadm Hs.
  assert (exists job, job ∈ List_ s jobsResource /\ rc = publicWorkloadJobRecord job /\
    workloadAuthenticatedUserID r ≠ "" /\ member_of s (jobProjectID job) (workloadAuthenticatedUserID r)) as (job & H1 & -> & H2 & H3).
  2:{ exists job. destruct (public_hides job). done. }
  destruct Hs as [Hs|Hs].
  - unfold shows, listJobs, authorizedWorkloadProjects, workloadProjectAccessEnforced in Hs. rewrite Ha, Hadm in Hs. cbn [negb orb] in Hs.
    unfold str_empty in Hs. destruct (String.eqb_spec (workloadAuthenticatedUserID r) "") as [|Hu]; [done|]. cbn in Hs.
    apply list_elem_of_fmap in Hs as (job & -> & Hin). apply list_elem_of_In, List.filter_In in Hin as [Hin Hp]. exists job.
    split; [by apply list_elem_of_In|]. split; [done|]. split; [done|]. apply bool_decide_eq_true_1, elem_of_list_to_set in Hp.
    apply list_elem_of_filter in Hp as [_ (m & Ep & Hm)%list_elem_of_fmap]. apply list_elem_of_In, List.filter_In in Hm as [Hm Eu].
    exists m. split; [by apply list_elem_of_In|]. apply andb_true_iff. split; [apply String.eqb_eq; symmetry; exact Ep|exact Eu].
  - unfold shows, getJob in Hs. destruct (authorizedJobRecord cfg s r) as [job|resp] eqn:E.
    + cbn in Hs. subst rc. apply authorizedJobRecord_ok in E as [Hin (_ & Hu & Hm)]; [|done]. exists job. split; [done|]. split; [done|]. split; [done|].
      rewrite Hadm in Hm. destruct Hm as [|Hm]; [done|]. apply workloadProjectMember_spec in Hm.
      unfold jobProjectID in *. by rewrite TextValue_Trimmed in Hm.
    + unfold authorizedJobRecord in E. destruct (FindJob _ _); [|injection E as <-; done].
      destruct (requireProjectAccess _ _ _ _) eqn:Er; [|done]. injection E as <-. apply requireProjectAccess_error in Er as [t Et]. by rewrite Et in Hs.
Qed.

(** *** Streaming credentials *)

Lemma access_refused s r p status bd : requireProjectAccess cfg s r p = Some (status, bd) -> status ≠ StatusOK.
Proof. unfold requireProjectAccess. intros Hr. repeat case_match; try done; by injection Hr as <- <-. Qed.

(** The longest life of a credential. *)
Definition stream_max_ttl : Z := if cf_StreamTURNCredentialTTL cfg <=? 0 then 8 * time_Hour else cf_StreamTURNCredentialTTL cfg.

(** Relay credentials go to members of the project of a streaming job that has not
    ended, and are valid no longer than the configured time, whatever the caller asks. *)
Theorem stream_credentials_guarded hmac s r bd :
  cf_RequireAuth cfg = true -> streamCredentials cfg hmac s r = (StatusOK, bd) ->
  exists payload job turn, wr_body r = Ok payload /\ FindJob s (TextValue payload ["job_id"; "jobId"; "id"]) = Some job /\
    granted s r (jobProjectID job) /\ BoolValue (rec_Data job) ["streaming_session"; "streamingSession"; "StreamingSession"] = true /\
    currentJobStatus (rec_Data job) ∈ [jobStatusSubmitted; jobStatusWaitingInfra; jobStatusQueued; jobStatusRunning] /\
    bd = BMap {[ "job_id" := VString (TextValue payload ["job_id"; "jobId"; "id"]); "turn" := VMap turn ]} /\
    exists ttl, ttl <= stream_max_ttl /\ turn !! "expires_at" = Some (VString (format_rfc3339 (wr_now r + ttl))) /\
      turn !! "username" = Some (VString (fmt_int 0 ((wr_now r + ttl) / time_Second) +:+ ":" +:+ streamCredentialUser r payload)).
Proof.
  intros Ha. unfold streamCredentials. destruct (wr_body r) as [payload|]; [|done]. destruct (str_empty _); [done|].
  unfold streamCredentialJob. destruct (FindJob s _) as [job|] eqn:Ef; [|done].
  destruct (requireProjectAccess _ _ _ _) as [resp|] eqn:Er.
  { intros ->. apply access_refused in Er. done. }
  destruct (BoolValue (rec_Data job) _) eqn:Eb; cbn [negb]; [|done]. destruct (streamJobActive job) eqn:Es; cbn [negb]; [|done].
  destruct (_ || _); [done|]. intros [= <-]. do 3 eexists. split; [done|]. split; [exact Ef|]. split; [by eapply access_granted|]. split; [done|].
  split; [by apply bool_decide_eq_true_1 in Es|]. split; [done|]. eexists. split; [|split].
  2:{ cbn [list_to_map foldr fst snd]. rewrite 4 lookup_insert_ne by done. apply lookup_insert_eq. }
  2:{ cbn [list_to_map foldr fst snd]. rewrite 1 lookup_insert_ne by done. apply lookup_insert_eq. }
  unfold streamCredentialTTL. fold stream_max_ttl. destruct (Z.ltb_spec stream_max_ttl (if 0 <? IntValue payload ["ttl_seconds"; "ttlSeconds"] then
    i64 (IntValue payload ["ttl_seconds"; "ttlSeconds"] * time_Second) else stream_max_ttl)); lia.
Qed.

End Guarantees.

(** ** A demonstration: user u1, a member of project P1 ([config_store]) *)

#[local] Instance submit_golib : GoLib := {|
  parse_quantity _ := None; parse_float _ := None; parse_int64 _ := None; parse_rfc3339 _ := None;
  format_rfc3339 _ := "t"; time_string _ := ""; unmarshal_object _ := None; unmarshal_objects _ := None;
  unmarshal_strings _ := None; marshal _ := Some ""; sprint _ := "x"; sprintf f _ := f;
  sha256_hex x := if String.eqb x "" then "e3b0c442" else "9f86d081" |}.

Lemma demo_hex x : TrimSpace (sha256_hex x) = sha256_hex x /\ sha256_hex x ≠ "".
Proof. cbn. by destruct (String.eqb x ""). Qed.

(** One process with every service, authentication required and a relay configured. *)
Definition submit_config : config nat := @ConfigFromEnv nat demo_env_lib
  {[ "SERVICE_NAME" := "all"; envRequireAuth := "true"; envStreamTURNURIs := "turn:relay"; envStreamTURNSharedSecret := "s3cret" ]}.

(** A scheduler that admits everything and grants reservation r1. *)
Definition generous : scheduler := fun a c => (a,
  match c with
  | CReview _ _ => Answered 200 (Some {[ "allowed" := VBool true ]}) (Record_ "" ∅ 0 0 0) None
  | CReserve _ _ => Answered 201 None (Record_ "r1" ∅ 1 0 0) None
  | _ => Answered 200 None (Record_ "r1" ∅ 2 0 0) None
  end).
Lemma generous_frame a c : framed (app_Store a) (app_Store (generous a c).1).
Proof. by split. Qed.

Definition submit_state : sub_state := Sub (App_ config_store NewEventBus) [].
Definition keyed_request (now : Z) : wl_request :=
  WlRequest (Request "POST" {[ "X-User-ID" := "u1"; "Idempotency-Key" := "k" ]} ∅ ∅ "" 0 None None None)
    (Ok {[ "project_id" := VString "P1"; "streaming_session" := VBool false ]}) ∅ now "e1" "n1".

Definition answered_job (st : sub_state) (r : wl_request) : option record :=
  match submitJob submit_config generous st r with (_, (201, BRecord p)) => Some p | _ => None end.

(** The first submission answers with a job; [answered_job] is that job. *)
Lemma answered st r p : answered_job st r = Some p -> (submitJob submit_config generous st r).2 = (StatusCreated, BRecord p).
Proof.
  unfold answered_job. destruct (submitJob submit_config generous st r) as [st' [status bd]]. cbn [snd].
  destruct bd as [| |p0| | |]; [by repeat case_match|by repeat case_match| |by repeat case_match|by repeat case_match|by repeat case_match]. destruct (Z.eqb_spec status 201) as [->|Hn]; [by intros [= <-]|].
  repeat case_match; done.
Qed.

Lemma submit_only_admitted_witness :
  exists rc tr p, answered_job submit_state (keyed_request 5) = Some p /\ p = publicWorkloadJobRecord rc /\
    su_log (submitJob submit_config generous submit_state (keyed_request 5)).1 = su_log submit_state ++ tr /\ tr ≠ [] /\
    exists adm review, admitted_by tr adm review.
Proof.
  destruct (answered_job submit_state (keyed_request 5)) as [p|] eqn:E; [|vm_compute in E; discriminate E].
  destruct (submit_only_admitted submit_config generous submit_state (keyed_request 5) p (answered _ _ _ E))
    as (rc & tr & Hp & Hl & [[Ht _]|[(adm & review & Hrev & _) _]]).
  - rewrite Ht in Hl. apply (f_equal (@length _)) in Hl. vm_compute in Hl. discriminate Hl.
  - exists rc, tr, p. split; [reflexivity|]. split; [exact Hp|]. split; [exact Hl|].
    split; [|exists adm, review; exact Hrev]. intros ->. destruct Hrev as (h & s & d & w & env & Hin & _). by apply not_elem_of_nil in Hin.
Defined.

Lemma submit_idempotent_witness :
  exists p, let st1 := (submitJob submit_config generous submit_state (keyed_request 5)).1 in
    length (su_log st1) = 3%nat /\ answered_job submit_state (keyed_request 5) = Some p /\
    (submitJob submit_config generous st1 (keyed_request 9)).2 = (StatusCreated, BRecord p) /\
    su_log (submitJob submit_config generous st1 (keyed_request 9)).1 = su_log st1.
Proof.
  destruct (answered_job submit_state (keyed_request 5)) as [p|] eqn:E; [|vm_compute in E; discriminate E].
  exists p. cbv zeta. split; [by vm_compute|]. split; [reflexivity|].
  destruct (submit_idempotent submit_config generous generous_frame demo_hex submit_state (keyed_request 5) (keyed_request 9) p) as (H1 & H2 & _).
  - by split.
  - by vm_compute.
  - exact (answered _ _ _ E).
  - exact (conj H1 H2).
Defined.

(** The store after the submission, with a job of project P2 beside it. *)
Definition jobs_store : store :=
  (Create (app_Store (su_app (submitJob submit_config generous submit_state (keyed_request 5)).1)) jobsResource
     {[ "id" := VString "other"; "project_id" := VString "P2" ]} "other" 6).1.

Lemma job_reads_isolated_witness :
  exists rc, shows (listJobs submit_config jobs_store (keyed_request 9)) rc /\
    exists job, rc = publicWorkloadJobRecord job /\ member_of jobs_store (jobProjectID job) "u1".
Proof.
  destruct (listJobs submit_config jobs_store (keyed_request 9)) as [status [| | |[|rc l]| |]] eqn:E;
    try (apply (f_equal (fun x => match x.2 with BRecords (_ :: _) => true | _ => false end)) in E; vm_compute in E; discriminate E).
  exists rc. split; [apply list_elem_of_here|].
  destruct (job_reads_isolated submit_config jobs_store (keyed_request 9) rc) as (job & _ & Hp & _ & _ & _ & Hm).
  - by vm_compute.
  - by vm_compute.
  - left. rewrite E. apply list_elem_of_here.
  - exists job. exact (conj Hp Hm).
Defined.

Definition stream_store : store :=
  (Create config_store jobsResource
     {[ "id" := VString "s1"; "project_id" := VString "P1"; "status" := VString "running"; "streaming_session" := VBool true ]} "s1" 6).1.
Definition stream_request (ttl : Z) : wl_request :=
  WlRequest (Request "POST" {[ "X-User-ID" := "u1" ]} ∅ ∅ "" 0 None None None)
    (Ok {[ "job_id" := VString "s1"; "ttl_seconds" := VInt ttl ]}) ∅ (50 * time_Hour) "e1" "n1".

Lemma stream_credentials_guarded_witness :
  exists job (turn : object) ttl, FindJob stream_store "s1" = Some job /\ ttl <= stream_max_ttl submit_config /\
    turn !! "expires_at" = Some (VString (format_rfc3339 (50 * time_Hour + ttl))).
Proof.
  destruct (streamCredentials submit_config (fun _ x => x) stream_store (stream_request 1000000)) as [status bd] eqn:E.
  assert (status = StatusOK) as -> by (apply (f_equal fst) in E; vm_compute in E; exact (eq_sym E)).
  destruct (stream_credentials_guarded submit_config (fun _ x => x) stream_store (stream_request 1000000) bd)
    as (payload & job & turn & Hb & Hf & _ & _ & _ & _ & ttl & Hmax & Hexp & _).
  - by vm_compute.
  - exact E.
  - injection Hb as <-. exists job, turn, ttl. split; [exact Hf|]. exact (conj Hmax Hexp).
Defined.

(** ** What the operations do not settle *)

Definition submit_request (user : string) (hdrs : headers) (body : object) : wl_request :=
  WlRequest (Request "POST" (<["X-User-ID" := user]> hdrs) ∅ ∅ "" 0 None None None) (Ok body) ∅ 5 "e1" "n1".

(** The user of a job is read from the body first: a member submits in the name of
    another user, whose quota and history the job then counts in. *)
Example submit_as_another_user :
  (fun p => TextValue (rec_Data p) ["user_id"]) <$>
    answered_job submit_state (submit_request "u1" ∅ {[ "project_id" := VString "P1"; "user_id" := VString "u2" ]}) = Some "u2".
Proof. by vm_compute. Qed.

(** The body of a submission may carry the internal hashes of an idempotency key: with
    the hash of another user's key (the digest of public parts), that user's submission
    is answered with a conflict. *)
Definition victim_hash : string := submitJobHash ("workload_submit" +:+ nul +:+ "u2" +:+ nul +:+ "k").
Definition poisoning : wl_request :=
  submit_request "u1" ∅ {[ "project_id" := VString "P1"; internalSubmitIdempotencyKeyHash := VString victim_hash ]}.
Definition victim : wl_request := submit_request "u2" {[ "Idempotency-Key" := "k"; "X-Admin" := "true" ]} {[ "project_id" := VString "P1" ]}.
Example idempotency_key_poisoned :
  (submitJob submit_config generous submit_state victim).2.1 = StatusCreated /\
  (submitJob submit_config generous (submitJob submit_config generous submit_state poisoning).1 victim).2 =
    (StatusConflict, ErrorData "idempotency key is already used by a different workload submit request").
Proof. split; by vm_compute. Qed.

(** The number of retries is read from the job, which has the fields of the body: a job
    may start far below zero. *)
Example retries_from_body :
  (fun p => IntValue (rec_Data p) ["retry_count"; "retryCount"]) <$>
    answered_job submit_state (submit_request "u1" ∅ {[ "project_id" := VString "P1"; "retry_count" := VInt (-1000000) ]}) = Some (-1000000).
Proof. by vm_compute. Qed.

(** The requested life of a credential wraps around in 64 bits: it can be negative. *)
Example stream_ttl_overflow : streamCredentialTTL submit_config 9223372037 < 0.
Proof. by vm_compute. Qed.
