(* ===== verification/Unstructured.v ===== *)
(** * Kubernetes manifests as untyped objects
    (the interface of k8s.io/apimachinery/pkg/apis/meta/v1/unstructured)

    The dispatcher of the workload service and the cluster layer edit manifests as
    [map[string]any] through this library.  Its functions are a class, and what its
    documentation promises of them a second one: a read follows the fields through
    nested maps, a write creates the maps that are missing and fails, leaving the object
    as it was, when a level is not a map.  The accessors of [Unstructured] read and write
    the fields of the same names.  The functions [nested_get], [nested_set] and
    [nested_remove] state this, and a concrete instance shows that it can be met. *)

From stdpp Require Import base gmap strings list fin_maps.
From Stdlib Require Import ZArith Lia.
From S2P Require Import Prelude GoValue.

(** The value, whether it was found, and whether the object could be traversed. *)
Inductive nested (A : Type) : Type := Found (a : A) | Absent | Malformed.
Arguments Found {A} _.
Arguments Absent {A}.
Arguments Malformed {A}.

(** [v, _, _ := ...]: the zero value stands in. *)
Definition found_or {A} (d : A) (n : nested A) : A := match n with Found a => a | _ => d end.

Class UnstructuredLib := {
  NestedFieldNoCopy : object -> list string -> nested any;
  NestedMap : object -> list string -> nested object;
  NestedSlice : object -> list string -> nested (list any);
  NestedStringMap : object -> list string -> nested (gmap string string);
  NestedBool : object -> list string -> nested bool;
  SetNestedField : object -> any -> list string -> option object;
  SetNestedSlice : object -> list any -> list string -> option object;
  SetNestedStringMap : object -> gmap string string -> list string -> option object;
  GetKind : object -> string;
  SetKind : object -> string -> object;
  GetAPIVersion : object -> string;
  GetName : object -> string;
  SetName : object -> string -> object;
  SetNamespace : object -> string -> object;
  GetLabels : object -> option (gmap string string);
  SetLabels : object -> gmap string string -> object;
  GetAnnotations : object -> option (gmap string string);
  SetAnnotations : object -> gmap string string -> object
}.

(** ** What the library promises *)

Fixpoint nested_get (v : any) (fields : list string) : nested any :=
  match fields with
  | [] => Found v
  | f :: fs => match v with
               | VNil => Absent
               | VMap m => match m !! f with Some v' => nested_get v' fs | None => Absent end
               | _ => Malformed
               end
  end.

Definition nested_as {A} (cast : any -> option A) (n : nested any) : nested A :=
  match n with
  | Found v => match cast v with Some a => Found a | None => Malformed end
  | Absent => Absent
  | Malformed => Malformed
  end.

(** A map all of whose values are text. *)
Definition string_values (m : object) : option (gmap string string) :=
  if decide (map_Forall (fun _ v => is_Some (as_str v)) m) then Some (omap as_str m) else None.

Definition as_string_map (v : any) : option (gmap string string) := as_map v ≫= string_values.

Definition any_of_strings (m : gmap string string) : object := VString <$> m.

Fixpoint nested_set (m : object) (v : any) (fields : list string) : option object :=
  match fields with
  | [] => None
  | [f] => Some (<[f := v]> m)
  | f :: fs => match m !! f with
               | None => (fun m' => <[f := VMap m']> m) <$> nested_set ∅ v fs
               | Some (VMap m0) => (fun m' => <[f := VMap m']> m) <$> nested_set m0 v fs
               | Some _ => None
               end
  end.

Fixpoint nested_remove (m : object) (fields : list string) : object :=
  match fields with
  | [] => m
  | [f] => delete f m
  | f :: fs => match m !! f with Some (VMap m0) => <[f := VMap (nested_remove m0 fs)]> m | _ => m end
  end.

Definition nested_text (m : object) (fields : list string) : string :=
  default "" (as_str (found_or VNil (nested_get (VMap m) fields))).

(** Text set to "" is removed. *)
Definition set_text (m : object) (s : string) (fields : list string) : object :=
  if str_empty s then nested_remove m fields else default m (nested_set m (VString s) fields).

Definition nested_strings (m : object) (fields : list string) : option (gmap string string) :=
  match nested_as as_string_map (nested_get (VMap m) fields) with Found s => Some s | _ => None end.

Definition set_strings (m : object) (s : gmap string string) (fields : list string) : option object :=
  nested_set m (VMap (any_of_strings s)) fields.

Class UnstructuredLaws `{UnstructuredLib} : Prop := {
  law_field m p : NestedFieldNoCopy m p = nested_get (VMap m) p;
  law_map m p : NestedMap m p = nested_as as_map (nested_get (VMap m) p);
  law_slice m p : NestedSlice m p = nested_as as_list (nested_get (VMap m) p);
  law_string_map m p : NestedStringMap m p = nested_as as_string_map (nested_get (VMap m) p);
  law_bool m p : NestedBool m p = nested_as as_bool (nested_get (VMap m) p);
  law_set m v p : SetNestedField m v p = nested_set m v p;
  law_set_slice m l p : SetNestedSlice m l p = nested_set m (VList l) p;
  law_set_strings m s p : SetNestedStringMap m s p = set_strings m s p;
  law_kind m : GetKind m = nested_text m ["kind"];
  law_set_kind m s : SetKind m s = default m (nested_set m (VString s) ["kind"]);
  law_api m : GetAPIVersion m = nested_text m ["apiVersion"];
  law_name m : GetName m = nested_text m ["metadata"; "name"];
  law_set_name m s : SetName m s = set_text m s ["metadata"; "name"];
  law_set_namespace m s : SetNamespace m s = set_text m s ["metadata"; "namespace"];
  law_labels m : GetLabels m = nested_strings m ["metadata"; "labels"];
  law_set_labels m s : SetLabels m s = default m (set_strings m s ["metadata"; "labels"]);
  law_annotations m : GetAnnotations m = nested_strings m ["metadata"; "annotations"];
  law_set_annotations m s : SetAnnotations m s = default m (set_strings m s ["metadata"; "annotations"])
}.

(** The documented behaviour can be met. *)
Definition reference_lib : UnstructuredLib := {|
  NestedFieldNoCopy m p := nested_get (VMap m) p;
  NestedMap m p := nested_as as_map (nested_get (VMap m) p);
  NestedSlice m p := nested_as as_list (nested_get (VMap m) p);
  NestedStringMap m p := nested_as as_string_map (nested_get (VMap m) p);
  NestedBool m p := nested_as as_bool (nested_get (VMap m) p);
  SetNestedField m v p := nested_set m v p;
  SetNestedSlice m l p := nested_set m (VList l) p;
  SetNestedStringMap m s p := set_strings m s p;
  GetKind m := nested_text m ["kind"];
  SetKind m s := default m (nested_set m (VString s) ["kind"]);
  GetAPIVersion m := nested_text m ["apiVersion"];
  GetName m := nested_text m ["metadata"; "name"];
  SetName m s := set_text m s ["metadata"; "name"];
  SetNamespace m s := set_text m s ["metadata"; "namespace"];
  GetLabels m := nested_strings m ["metadata"; "labels"];
  SetLabels m s := default m (set_strings m s ["metadata"; "labels"]);
  GetAnnotations m := nested_strings m ["metadata"; "annotations"];
  SetAnnotations m s := default m (set_strings m s ["metadata"; "annotations"]) |}.

Lemma reference_laws : @UnstructuredLaws reference_lib.
Proof. by split. Qed.

(** ** Reads and writes *)

Lemma nested_get_app v p q : nested_get v (p ++ q) =
  match nested_get v p with Found v' => nested_get v' q | Absent => Absent | Malformed => Malformed end.
Proof.
  revert v. induction p as [|f p IH]; intros v; cbn; [done|].
  destruct v; try done. destruct (m !! f); [apply IH|done].
Qed.

(** One level of a write. *)
Lemma nested_set_cons m v f g p m' : nested_set m v (f :: g :: p) = Some m' <->
  exists m0 x, (m !! f = Some (VMap m0) \/ m !! f = None /\ m0 = ∅) /\ nested_set m0 v (g :: p) = Some x /\ m' = <[f := VMap x]> m.
Proof.
  change (nested_set m v (f :: g :: p)) with
    (match m !! f with
     | None => (fun x => <[f := VMap x]> m) <$> nested_set ∅ v (g :: p)
     | Some (VMap m0) => (fun x => <[f := VMap x]> m) <$> nested_set m0 v (g :: p)
     | Some _ => None end).
  split.
  - destruct (m !! f) as [[]|]; try done; intros (x & ? & ->)%fmap_Some; naive_solver.
  - intros (m0 & x & [E|[E ->]] & Hx & ->); rewrite E; by rewrite Hx.
Qed.

(** What was written is read back. *)
Lemma nested_get_set m v p m' : nested_set m v p = Some m' -> nested_get (VMap m') p = Found v.
Proof.
  revert m m'. induction p as [|f p IH]; intros m m' H; [done|]. destruct p as [|g p].
  - injection H as <-. cbn. by rewrite lookup_insert_eq.
  - apply nested_set_cons in H as (m0 & x & _ & Hx & ->). specialize (IH m0 x Hx).
    change (nested_get (VMap ?m) (f :: g :: p)) with (match m !! f with Some v' => nested_get v' (g :: p) | None => Absent end).
    by rewrite lookup_insert_eq.
Qed.

(** A write changes only the first field of its path. *)
Lemma nested_set_frame m v f p m' g : nested_set m v (f :: p) = Some m' -> g ≠ f -> m' !! g = m !! g.
Proof.
  intros H Hg. cbn in H. destruct p; [injection H as <-; by rewrite lookup_insert_ne|].
  destruct (m !! f) as [[]|]; try done; apply fmap_Some in H as (x & _ & ->); by rewrite lookup_insert_ne.
Qed.

Lemma nested_remove_frame m f p g : g ≠ f -> nested_remove m (f :: p) !! g = m !! g.
Proof.
  intros Hg. cbn. destruct p; [by rewrite lookup_delete_ne|].
  destruct (m !! f) as [[]|]; try done. by rewrite lookup_insert_ne.
Qed.

Lemma nested_default_frame m v f p g : g ≠ f -> default m (nested_set m v (f :: p)) !! g = m !! g.
Proof. destruct (nested_set m v (f :: p)) eqn:E; intros Hg; cbn [default from_option]; [by eapply nested_set_frame|done]. Qed.

Lemma set_text_frame m s f p g : g ≠ f -> set_text m s (f :: p) !! g = m !! g.
Proof. unfold set_text. case_match; auto using nested_remove_frame, nested_default_frame. Qed.

(** Reads through a key see only that key. *)
Lemma nested_get_key m m' f p : m !! f = m' !! f -> nested_get (VMap m) (f :: p) = nested_get (VMap m') (f :: p).
Proof. cbn. by intros ->. Qed.

Lemma nested_text_key m m' f p : m !! f = m' !! f -> nested_text m (f :: p) = nested_text m' (f :: p).
Proof. unfold nested_text. intros H. by rewrite (nested_get_key m m' f p H). Qed.

(** Two paths that part: neither is a prefix of the other. *)
Fixpoint diverge (p q : list string) : Prop :=
  match p, q with
  | a :: p', b :: q' => a ≠ b \/ (a = b /\ diverge p' q')
  | _, _ => False
  end.

#[global] Instance diverge_dec p q : base.Decision (diverge p q).
Proof. revert q. induction p as [|a p IH]; intros [|b q]; cbn; apply _. Defined.

Lemma diverge_sym p q : diverge p q -> diverge q p.
Proof. revert q. induction p as [|a p IH]; intros [|b q]; cbn; try done. intros [?|[-> ?]]; [left; congruence|right; auto]. Qed.

(** A write is not seen on a path that parts from it, *)
Lemma nested_get_diverge m v p q m' : diverge p q -> nested_set m v p = Some m' -> nested_get (VMap m') q = nested_get (VMap m) q.
Proof.
  revert q m m'. induction p as [|f p IH]; intros [|b q] m m' Hd H; try done. cbn in Hd.
  destruct (decide (f = b)) as [->|Hne].
  - destruct Hd as [?|[_ Hd]]; [done|]. destruct p as [|g p]; [done|]. destruct q as [|c q]; [done|].
    apply nested_set_cons in H as (m0 & x & Hm0 & Hx & ->).
    change (nested_get (VMap ?m) (b :: c :: q)) with (match m !! b with Some v' => nested_get v' (c :: q) | None => Absent end).
    rewrite lookup_insert_eq, (IH (c :: q) m0 x Hd Hx). by destruct Hm0 as [->|[-> ->]].
  - apply nested_get_key. eapply nested_set_frame; [done|congruence].
Qed.

(** and the object still can, or cannot, hold a value there. *)
Lemma nested_hold_diverge m v p q m' w : diverge p q -> nested_set m v p = Some m' ->
  is_Some (nested_set m' w q) -> is_Some (nested_set m w q).
Proof.
  revert q m m'. induction p as [|f p IH]; intros [|b q] m m' Hd H; try done. cbn in Hd. intros [y Hy].
  destruct q as [|c q]; [by eexists|]. apply nested_set_cons in Hy as (n0 & y' & Hn0 & Hy' & _).
  destruct (decide (f = b)) as [->|Hne].
  - destruct Hd as [?|[_ Hd]]; [done|]. destruct p as [|g p]; [done|].
    apply nested_set_cons in H as (m0 & x & Hm0 & Hx & ->). rewrite lookup_insert_eq in Hn0.
    destruct Hn0 as [[= <-]|[? _]]; [|done].
    destruct (IH (c :: q) m0 x Hd Hx (mk_is_Some _ _ Hy')) as [z Hz]. exists (<[b := VMap z]> m). apply nested_set_cons; eauto.
  - rewrite (nested_set_frame m v f p m' b H) in Hn0 by congruence. exists (<[b := VMap y']> m). apply nested_set_cons; eauto.
Qed.

(** Whether a value can be set does not depend on the value. *)
Lemma nested_hold_value m v w p : is_Some (nested_set m v p) -> is_Some (nested_set m w p).
Proof.
  revert m. induction p as [|f p IH]; intros m [m' H]; [done|]. destruct p as [|g p]; [by eexists|].
  apply nested_set_cons in H as (m0 & x & Hm0 & Hx & _). destruct (IH m0 (mk_is_Some _ _ Hx)) as [z Hz].
  exists (<[f := VMap z]> m). apply nested_set_cons; eauto.
Qed.

Lemma nested_hold_key m m' f p v : m !! f = m' !! f -> is_Some (nested_set m v (f :: p)) -> is_Some (nested_set m' v (f :: p)).
Proof.
  intros E [x Hx]. destruct p as [|g p]; [by eexists|]. apply nested_set_cons in Hx as (m0 & y & Hm0 & Hy & _).
  exists (<[f := VMap y]> m'). apply nested_set_cons. rewrite <- E. eauto.
Qed.

(** A write of a field of the map at [p] is an insertion there; where it fails there is no map. *)
Lemma nested_set_child m v p k m' : nested_set m v (p ++ [k]) = Some m' ->
  exists ps, nested_get (VMap m') p = Found (VMap (<[k := v]> ps)) /\ (nested_get (VMap m) p = Found (VMap ps) \/ ps = ∅).
Proof.
  revert m m'. induction p as [|f p IH]; intros m m' H.
  - injection H as <-. exists m. by split; [|left].
  - destruct (p ++ [k]) as [|g q] eqn:Ep; [by destruct p|].
    change ((f :: p) ++ [k]) with (f :: (p ++ [k])) in H. rewrite Ep in H.
    apply nested_set_cons in H as (m0 & x & Hm0 & Hx & ->). destruct (IH m0 x Hx) as (ps & H1 & H2).
    exists ps. cbn. rewrite lookup_insert_eq. split; [done|].
    destruct Hm0 as [->|[-> ->]]; [done|]. destruct H2 as [H2|]; [|by right]. right.
    destruct p; cbn in H2; [by injection H2 as <-|by rewrite lookup_empty in H2].
Qed.

Lemma nested_set_child_none m v p k ps : nested_get (VMap m) p = Found (VMap ps) -> is_Some (nested_set m v (p ++ [k])).
Proof.
  revert m. induction p as [|f p IH]; intros m H; [by eexists|].
  change ((f :: p) ++ [k]) with (f :: (p ++ [k])). cbn in H. destruct (m !! f) as [w|] eqn:E; [|done].
  assert (exists m0, w = VMap m0) as [m0 ->] by (destruct p; cbn in H; [injection H as ->; eauto|destruct w; try done; eauto]).
  destruct (IH m0 H) as [x Hx]. destruct (p ++ [k]) as [|g q] eqn:Ep; [by destruct p|].
  exists (<[f := VMap x]> m). apply nested_set_cons. exists m0, x. by rewrite E; split; [left|].
Qed.

(** ** Maps of text *)

Lemma string_values_of m : string_values (any_of_strings m) = Some m.
Proof.
  unfold string_values, any_of_strings. rewrite decide_True.
  - f_equal. apply map_eq. intros i. rewrite lookup_omap, lookup_fmap. by destruct (m !! i).
  - intros i v. rewrite lookup_fmap, fmap_Some. intros (s & _ & ->). by eexists.
Qed.

Lemma nested_strings_set m s p m' : set_strings m s p = Some m' -> nested_strings m' p = Some s.
Proof. unfold set_strings, nested_strings. intros H%nested_get_set. rewrite H. cbn. by rewrite string_values_of. Qed.

(** ** Decoded JSON *)

Section Json.
(** Text that is valid UTF-8. *)
Context (U : string -> Prop).

(** The values [json.Unmarshal] stores in an [any]. *)
Inductive json_value : any -> Prop :=
| JNil : json_value VNil
| JBool b : json_value (VBool b)
| JNumber f : json_value (VFloat64 f)
| JString s : U s -> json_value (VString s)
| JList l : Forall json_value l -> json_value (VList l)
| JMap m : map_Forall (fun k v => U k /\ json_value v) m -> json_value (VMap m).

Definition json_object (m : object) : Prop := map_Forall (fun k v => U k /\ json_value v) m.
Definition text_map (s : gmap string string) : Prop := map_Forall (fun k v => U k /\ U v) s.

Lemma json_map_inv m : json_value (VMap m) -> json_object m.
Proof. by inversion 1. Qed.

Lemma json_string_inv s : json_value (VString s) -> U s.
Proof. by inversion 1. Qed.

Lemma json_insert m k v : json_object m -> U k -> json_value v -> json_object (<[k := v]> m).
Proof. intros. by apply map_Forall_insert_2. Qed.

Lemma json_empty : json_object ∅.
Proof. apply map_Forall_empty. Qed.

Lemma json_nested_set m v p m' : json_object m -> Forall U p -> json_value v -> nested_set m v p = Some m' -> json_object m'.
Proof.
  intros Hm Hp Hv. revert m m' Hm. induction Hp as [|f p Hf Hp IH]; intros m m' Hm H; [done|].
  destruct p as [|g p]; [injection H as <-; by apply json_insert|].
  apply nested_set_cons in H as (m0 & x & Hm0 & Hx & ->). apply json_insert; [done|done|]. constructor. apply (IH m0); [|done].
  destruct Hm0 as [E|[_ ->]]; [|apply json_empty]. apply json_map_inv. by apply (Hm f).
Qed.

Lemma json_nested_get v p w : json_value v -> nested_get v p = Found w -> json_value w.
Proof.
  revert v. induction p as [|f p IH]; intros v Hv; cbn; [congruence|]. destruct v; try done.
  destruct (m !! f) eqn:E; [|done]. apply IH. by apply (json_map_inv m Hv f).
Qed.

Lemma json_strings s : text_map s -> json_value (VMap (any_of_strings s)).
Proof.
  intros Hs. constructor. intros i v. unfold any_of_strings. rewrite lookup_fmap, fmap_Some. intros (x & Hx & ->).
  destruct (Hs i x Hx). split; [done|by constructor].
Qed.

Lemma text_union s1 s2 : text_map s1 -> text_map s2 -> text_map (s1 ∪ s2).
Proof. apply map_Forall_union_2. Qed.

(** The text read from decoded JSON is valid. *)
Lemma json_text_map m p s : json_object m -> nested_strings m p = Some s -> text_map s.
Proof.
  intros Hm Hs. unfold nested_strings in Hs. destruct (nested_get (VMap m) p) as [v| |] eqn:E; try done. cbn in Hs.
  unfold as_string_map, string_values in Hs. destruct v; try done. cbn in Hs. destruct (decide _); [|done]. injection Hs as <-.
  apply (json_nested_get (VMap m)) in E; [|by constructor]. apply json_map_inv in E.
  intros k x Hk. rewrite lookup_omap in Hk. destruct (m0 !! k) as [v|] eqn:Ek; [|done]. destruct (E k v Ek) as [Hu Hv].
  destruct v; try done. injection Hk as <-. split; [done|by apply json_string_inv].
Qed.
End Json.
