(* ===== verification/WorkloadManifest.v ===== *)
(** * Workload service: the manifests a job dispatches
    (internal/services/workload/dispatcher.go from prepareDispatchManifest on, with
    podSpecPaths and the device configuration of dispatcher_dra.go)

    A tenant submits Kubernetes manifests; before the dispatcher creates them it gives
    them the namespace of the job, the labels the platform accounts and cleans up by, the
    scheduler, queue and priority of the job and its runtime limit, refuses a pod template
    that asks for a privilege of the host, and takes the service account token away.  A
    manifest is an untyped object edited through the class of Unstructured; the state is
    the object. *)

From stdpp Require Import base gmap strings list fin_maps.
From Stdlib Require Import ZArith Lia.
From S2P Require Import Prelude GoValue Store EventBus Crud RateLimit InputLimits Config Auth Guards SchedulerHttp WorkloadTypes WorkloadJobs WorkloadDispatch Unstructured.
Local Open Scope Z_scope.

Definition defaultDispatcherSchedulerName : string := "default-scheduler".
Definition volcanoSchedulerName : string := "volcano".
Definition volcanoQueueAnnotationKey : string := "volcano.sh/queue-name".
Definition volcanoGroupAnnotationKey : string := "scheduling.volcano.sh/group-name".
Definition schedulingGroupAnnotationKey : string := "scheduling.k8s.io/group-name".
Definition volcanoPodGroupLabelKey : string := "volcano.sh/podgroup".
Definition platformPreemptibleLabelKey : string := "platform-go/preemptible".
Definition LabelUserID : string := "platform-go/user-id".
Definition LabelGPUCount : string := "platform-go/gpu-count".
Definition draDefaultDeviceClassName : string := "gpu.nvidia.com".

(** [fmt.Errorf("%w: ...", cluster.ErrInvalidManifest, ...)] and [fmt.Errorf("...")]. *)
Definition invalid_manifest_text : string := "invalid Kubernetes manifest".
Definition plain_error (text : string) : derror := DError text ErrOther.

(** ** Pod templates *)

Definition podSpecPaths (kind : string) : list (list string) :=
  let k := ToLower kind in
  if String.eqb k "pod" then [["spec"]]
  else if String.eqb k "deployment" || String.eqb k "job" then [["spec"; "template"; "spec"]]
  else [].

Definition childPath (path : list string) (child : string) : list string := path ++ [child].

Definition dispatchRuntimeLimitSeconds `{GoLib} (job : object) : option Z :=
  let seconds := IntValue job ["runtime_limit_seconds"; "runtimeLimitSeconds"; "max_runtime_seconds"; "maxRuntimeSeconds"] in
  if seconds <=? 0 then None else Some seconds.

Definition priorityClassForJob `{GoLib} (job : object) : string :=
  let priority := jobPriority job in
  if 1000000 <=? priority then "platform-critical"
  else if 500000 <=? priority then "platform-interactive-high"
  else if 100000 <=? priority then "platform-interactive"
  else if 10000 <=? priority then "platform-batch-high"
  else if 1000 <=? priority then "platform-batch-medium"
  else "platform-batch-low".

(** ** The device configuration of a job *)

Record draDispatchConfig := DRAConfig {
  dra_GPUCount : Z;
  dra_SMPercentage : option Z;
  dra_PinnedMemoryLimit : option string;
  dra_DeviceClassName : string;
  dra_GPUClaimName : string
}.

Section Manifest.
Context `{GoLib} `{UnstructuredLib}.

Definition invalid_manifest (format : string) (args : list any) : derror :=
  DError (sprintf format (VString invalid_manifest_text :: args)) ErrInvalidManifest.

Definition intValue (v : any) : Z := default 0 (int_of v).

Definition dra_validate (c : draDispatchConfig) : option derror :=
  if dra_GPUCount c <? 0 then Some (plain_error "DRA GPU count must be non-negative")
  else if match dra_SMPercentage c with Some sm => (sm <? 1) || (100 <? sm) | None => false end
  then Some (plain_error "DRA SM percentage must be between 1 and 100")
  else match match dra_PinnedMemoryLimit c with
             | Some pinned => match parse_quantity pinned with
                              | None => Some (plain_error (sprintf "invalid DRA pinned memory limit %q: %w" [VString pinned]))
                              | Some _ => None
                              end
             | None => None
             end with
  | Some e => Some e
  | None => if negb (str_empty (TrimSpace (dra_GPUClaimName c))) && (dra_GPUCount c <? 1)
            then Some (plain_error "DRA GPU count must be at least 1 when gpu_claim_name is set")
            else None
  end.

Definition draConfigFromJob (job : object) : result derror draDispatchConfig :=
  let pinned := TextValue job ["pinned_memory_limit"; "pinnedMemoryLimit"; "pinned_memory"; "pinnedMemory"] in
  let cfg := {| dra_GPUCount := IntValue job ["gpu_count"; "gpuCount"; "GPUCount"];
                dra_SMPercentage := intValue <$> firstPresent job ["sm_percentage"; "smPercentage"; "SMPercentage"];
                dra_PinnedMemoryLimit := if str_empty pinned then None else Some pinned;
                dra_DeviceClassName :=
                  FirstNonEmpty [TextValue job ["device_class_name"; "deviceClassName"; "DeviceClassName"]; draDefaultDeviceClassName];
                dra_GPUClaimName := TextValue job ["gpu_claim_name"; "gpuClaimName"; "GPUClaimName"] |} in
  match dra_validate cfg with Some e => Err e | None => Ok cfg end.

Definition dra_enabled (c : draDispatchConfig) : bool :=
  (0 <? dra_GPUCount c) || negb (str_empty (TrimSpace (dra_GPUClaimName c))).

Definition jobRequestsDRA (job : object) : bool :=
  match draConfigFromJob job with Ok cfg => dra_enabled cfg | Err _ => false end.

(** ** Small editing steps *)

(** [_ = unstructured.SetNestedField(...)]: an object that cannot hold the field stays. *)
Definition put (u : object) (v : any) (path : list string) : object := default u (SetNestedField u v path).
Definition put_strings (u : object) (s : gmap string string) (path : list string) : object :=
  default u (SetNestedStringMap u s path).

(** Reads a map of text, empty when there is none, and writes it back with [values] on top. *)
Definition merge_strings (u : object) (values : gmap string string) (path : list string) : object :=
  put_strings u (values ∪ found_or ∅ (NestedStringMap u path)) path.

Definition mergeNestedStringMap (u : object) (values : gmap string string) (path : list string) : object :=
  if decide (values = ∅) then u else merge_strings u values path.

Definition isVolcanoVCJob (u : object) : bool :=
  EqualFold (GetKind u) "Job" && HasPrefix (ToLower (GetAPIVersion u)) "batch.volcano.sh/".

Definition isVolcanoPodGroup (u : object) : bool :=
  EqualFold (GetKind u) "PodGroup" && HasPrefix (ToLower (GetAPIVersion u)) "scheduling.volcano.sh/".

(** Every task that is a map is updated in place; the list is written back when one was. *)
Definition update_task (update : object -> object) (raw : any) : any :=
  match raw with VMap task => VMap (update task) | _ => raw end.

Definition updateVCJobTasks (u : object) (update : object -> object) : object :=
  match NestedSlice u ["spec"; "tasks"] with
  | Found tasks =>
      if existsb (fun raw => match raw with VMap _ => true | _ => false end) tasks
      then default u (SetNestedSlice u (map (update_task update) tasks) ["spec"; "tasks"]) else u
  | _ => u
  end.

(** ** The object of a resource *)

Definition dispatchObject (r : dispatchResource) : result derror object :=
  match unmarshal_object (dr_Raw r) with
  | None => Err (plain_error (sprintf "parse resource %s: %w" [VString (dr_Name r)]))
  | Some obj =>
      let u := if str_empty (GetKind obj) && negb (str_empty (dr_Kind r)) then SetKind obj (dr_Kind r) else obj in
      if str_empty (GetKind u) then Err (plain_error (sprintf "resource %s kind is required" [VString (dr_Name r)]))
      else if str_empty (GetName u)
      then if str_empty (dr_Name r) then Err (plain_error "resource name is required") else Ok (SetName u (dr_Name r))
      else Ok u
  end.

(** ** Labels *)

Definition label_entry (key value : string) : list (string * string) := if str_empty value then [] else [(key, value)].

Definition dispatchLabels (job : object) : gmap string string :=
  let gpu := IntValue job ["gpu_count"; "gpuCount"] in
  list_to_map
    (label_entry LabelJobID (TextValue job ["job_id"; "jobId"; "id"])
     ++ label_entry LabelProjectID (TextValue job ["project_id"; "projectId"])
     ++ label_entry LabelUserID (TextValue job ["user_id"; "userId"])
     ++ (if 0 <? gpu then [(LabelGPUCount, fmt_int 0 gpu)] else [])
     ++ (if workloadJobPreemptible job then [(platformPreemptibleLabelKey, "true")] else [])
     ++ (match dispatchRuntimeLimitSeconds job with Some seconds => [(RuntimeLimitSecondsKey, fmt_int 0 seconds)] | None => [] end)).

Definition mergeObjectLabels (u : object) (labels : gmap string string) : object :=
  if decide (labels = ∅) then u else SetLabels u (labels ∪ default ∅ (GetLabels u)).

Definition mergeVCJobTaskTemplateLabels (u : object) (labels : gmap string string) : object :=
  updateVCJobTasks u (fun task => merge_strings task labels ["template"; "metadata"; "labels"]).

Definition mergePodTemplateLabels (u : object) (labels : gmap string string) : object :=
  if decide (labels = ∅) then u
  else
    let k := ToLower (GetKind u) in
    if String.eqb k "deployment" then merge_strings u labels ["spec"; "template"; "metadata"; "labels"]
    else if String.eqb k "job"
    then if isVolcanoVCJob u then mergeVCJobTaskTemplateLabels u labels
         else merge_strings u labels ["spec"; "template"; "metadata"; "labels"]
    else u.

(** ** Scheduling *)

Definition setAnnotationValue (u : object) (key value : string) : object :=
  SetAnnotations u (<[key := value]> (default ∅ (GetAnnotations u))).

Definition setAnnotation (u : object) (queue : string) : object :=
  if str_empty queue then u else setAnnotationValue u volcanoQueueAnnotationKey queue.

Definition setTemplateAnnotation (u : object) (queue : string) : object :=
  if str_empty queue then u
  else merge_strings u {[volcanoQueueAnnotationKey := queue]} ["spec"; "template"; "metadata"; "annotations"].

Definition group_annotations (groupName : string) : gmap string string :=
  {[volcanoGroupAnnotationKey := groupName; schedulingGroupAnnotationKey := groupName]}.

Definition setPodGroupObjectMetadata (u : object) (group : string) : object :=
  let groupName := TrimSpace group in
  if str_empty groupName then u
  else
    let u1 := SetAnnotations u (group_annotations groupName ∪ default ∅ (GetAnnotations u)) in
    SetLabels u1 (<[volcanoPodGroupLabelKey := groupName]> (default ∅ (GetLabels u1))).

Definition setPodGroupTemplateMetadata (u : object) (group : string) : object :=
  let groupName := TrimSpace group in
  if str_empty groupName then u
  else
    let u1 := merge_strings u (group_annotations groupName) ["spec"; "template"; "metadata"; "annotations"] in
    merge_strings u1 {[volcanoPodGroupLabelKey := groupName]} ["spec"; "template"; "metadata"; "labels"].

Definition setVCJobTaskTemplateAnnotation (u : object) (queue : string) : object :=
  updateVCJobTasks u (fun task => merge_strings task {[volcanoQueueAnnotationKey := queue]} ["template"; "metadata"; "annotations"]).

Definition setVCJobTaskTemplateSpecField (u : object) (value field : string) : object :=
  updateVCJobTasks u (fun task => put task (VString value) ["template"; "spec"; field]).

Definition applyVCJobDispatchScheduling (u : object) (queue scheduler priorityClass : string) : object :=
  let u1 := if str_empty queue then u
            else setVCJobTaskTemplateAnnotation (put u (VString queue) ["spec"; "queue"]) queue in
  let u2 := if str_empty scheduler then u1 else put u1 (VString scheduler) ["spec"; "schedulerName"] in
  if str_empty priorityClass then u2
  else setVCJobTaskTemplateSpecField (put u2 (VString priorityClass) ["spec"; "priorityClassName"]) priorityClass "priorityClassName".

Definition applyPodGroupDispatchScheduling (u : object) (queue priorityClass : string) : object :=
  let u1 := if str_empty queue then u else put u (VString queue) ["spec"; "queue"] in
  if str_empty priorityClass then u1 else put u1 (VString priorityClass) ["spec"; "priorityClassName"].

Definition dispatchSchedulerName (u job : object) : string :=
  if jobRequestsDRA job then defaultDispatcherSchedulerName
  else
    let configured := TextValue job ["scheduler_name"; "schedulerName"] in
    if negb (str_empty configured) then configured
    else if isVolcanoVCJob u then volcanoSchedulerName else defaultDispatcherSchedulerName.

Definition applyDispatchScheduling (u job : object) (groupName : string) : object :=
  let queue := TextValue job ["queue_name"; "queueName"] in
  let scheduler := dispatchSchedulerName u job in
  let priorityClass := priorityClassForJob job in
  let set_spec u' prefix :=
    let u1 := if str_empty scheduler then u' else put u' (VString scheduler) (prefix ++ ["schedulerName"]) in
    if str_empty priorityClass then u1 else put u1 (VString priorityClass) (prefix ++ ["priorityClassName"]) in
  if isVolcanoVCJob u then applyVCJobDispatchScheduling u queue scheduler priorityClass
  else if isVolcanoPodGroup u then applyPodGroupDispatchScheduling u queue priorityClass
  else
    let k := ToLower (GetKind u) in
    if String.eqb k "pod"
    then setPodGroupObjectMetadata (setAnnotation (set_spec u ["spec"]) queue) groupName
    else if String.eqb k "deployment" || String.eqb k "job"
    then setPodGroupTemplateMetadata (setTemplateAnnotation (set_spec u ["spec"; "template"; "spec"]) queue) groupName
    else u.

(** ** The runtime limit *)

Definition positive_int64 (n : nested any) : option Z :=
  match n with
  | Found (VInt64 z) | Found (VInt z) => if 0 <? z then Some z else None
  | Found (VFloat64 f) => if f64_gt f f64_0 then Some (f64_to_int f) else None
  | Found (VNumber s) => match parse_int64 s with Some n => if 0 <? n then Some n else None | None => None end
  | _ => None
  end.

Definition nestedPositiveInt64 (obj : object) (fields : list string) : option Z := positive_int64 (NestedFieldNoCopy obj fields).

Definition capActiveDeadlineSeconds (u : object) (seconds : Z) (fields : list string) : object :=
  match nestedPositiveInt64 u fields with
  | Some current => if (0 <? current) && (current <=? seconds) then u else put u (VInt64 seconds) fields
  | None => put u (VInt64 seconds) fields
  end.

Definition applyDispatchRuntimeLimit (u job : object) : object :=
  match dispatchRuntimeLimitSeconds job with
  | None => u
  | Some seconds =>
      let k := ToLower (GetKind u) in
      if String.eqb k "pod" then capActiveDeadlineSeconds u seconds ["spec"; "activeDeadlineSeconds"]
      else if String.eqb k "job" && EqualFold (GetAPIVersion u) "batch/v1"
      then capActiveDeadlineSeconds u seconds ["spec"; "activeDeadlineSeconds"]
      else u
  end.

(** ** Refusing and hardening pod templates *)

Definition slice_maps (obj : object) (fields : list string) : list object :=
  omap as_map (found_or [] (NestedSlice obj fields)).

Definition unsafeContainerField (container : object) : option string :=
  match NestedBool container ["securityContext"; "privileged"] with
  | Found true => Some "privileged container"
  | _ =>
      match NestedSlice container ["securityContext"; "capabilities"; "add"] with
      | Found (_ :: _) => Some "added Linux capabilities"
      | _ => if existsb (fun port => bool_decide (is_Some (port !! "hostPort"))) (slice_maps container ["ports"])
             then Some "hostPort" else None
      end
  end.

(** The first hit of a search. *)
Fixpoint first_hit {A B} (f : A -> option B) (l : list A) : option B :=
  match l with [] => None | x :: xs => match f x with Some b => Some b | None => first_hit f xs end end.

Definition unsafePodContainerField (podSpec : object) : option string :=
  first_hit (fun key => first_hit unsafeContainerField (slice_maps podSpec [key])) ["containers"; "initContainers"; "ephemeralContainers"].

Definition unsafeHostPathVolume (podSpec : object) : bool :=
  existsb (fun vol => bool_decide (is_Some (vol !! "hostPath"))) (slice_maps podSpec ["volumes"]).

Definition unsafeHostNamespaceField (podSpec : object) : option string :=
  first_hit (fun ns => match NestedBool podSpec [ns] with Found true => Some ns | _ => None end) ["hostNetwork"; "hostPID"; "hostIPC"].

Definition unsafePodSpecField (podSpec : object) : option string :=
  match unsafeHostNamespaceField podSpec with
  | Some field => Some field
  | None => if unsafeHostPathVolume podSpec then Some "hostPath volume" else unsafePodContainerField podSpec
  end.

Definition rejectUnsafeDispatchPodSpec (podSpec : object) : option derror :=
  match RuntimeSocketHostPath podSpec with
  | Some socketPath => Some (invalid_manifest "%w: user workloads cannot mount container runtime socket %s" [VString socketPath])
  | None => match unsafePodSpecField podSpec with
            | Some field => Some (invalid_manifest "%w: user workloads cannot set %s" [VString field])
            | None => None
            end
  end.

Definition reject_at (obj : object) (path : list string) : option derror :=
  match NestedMap obj path with Found podSpec => rejectUnsafeDispatchPodSpec podSpec | _ => None end.

Definition rejectDispatchVCJobRuntimeSocketMounts (u : object) : option derror :=
  match NestedSlice u ["spec"; "tasks"] with
  | Found tasks => first_hit (fun task => reject_at task ["template"; "spec"]) (omap as_map tasks)
  | _ => None
  end.

Definition rejectDispatchRuntimeSocketMounts (u : object) : option derror :=
  if isVolcanoVCJob u then rejectDispatchVCJobRuntimeSocketMounts u
  else first_hit (reject_at u) (podSpecPaths (GetKind u)).

Definition setDispatchAutomountServiceAccountToken (obj : object) (path : list string) : object :=
  put obj (VBool false) (childPath path "automountServiceAccountToken").

Definition hardenDispatchVCJobTasks (u : object) : object :=
  updateVCJobTasks u (fun task => setDispatchAutomountServiceAccountToken task ["template"; "spec"]).

Definition hardenDispatchPodSpecs (u : object) : object :=
  if isVolcanoVCJob u then hardenDispatchVCJobTasks u
  else fold_left setDispatchAutomountServiceAccountToken (podSpecPaths (GetKind u)) u.

(** ** Preparing a manifest *)

Definition marshal_object (u : object) : result derror string :=
  match marshal (VMap u) with
  | Some raw => Ok raw
  | None => Err (plain_error (sprintf dispatcherMarshalResourceError [VString (GetName u)]))
  end.

(** The object as it is marshalled. *)
Definition prepared_object (job : object) (r : dispatchResource) (namespace groupName : string) : result derror object :=
  match dispatchObject r with
  | Err e => Err e
  | Ok u0 =>
      let u1 := if String.eqb (GetKind u0) "Namespace" then u0 else SetNamespace u0 namespace in
      let labels := dispatchLabels job in
      let u2 := mergePodTemplateLabels (mergeObjectLabels u1 labels) labels in
      let u3 := applyDispatchRuntimeLimit (applyDispatchScheduling u2 job groupName) job in
      match rejectDispatchRuntimeSocketMounts u3 with
      | Some e => Err e
      | None => Ok (hardenDispatchPodSpecs u3)
      end
  end.

Definition prepareDispatchManifestWithGroup (job : object) (r : dispatchResource) (namespace groupName : string) : result derror string :=
  match prepared_object job r namespace groupName with Err e => Err e | Ok u => marshal_object u end.

Definition prepareDispatchManifest (job : object) (r : dispatchResource) (namespace : string) : result derror string :=
  prepareDispatchManifestWithGroup job r namespace "".

End Manifest.

(** ** Safe pod templates

    What the platform never grants, said of the manifest alone and without the code's
    functions. *)

Definition container_safe (c : object) : Prop :=
  nested_get (VMap c) ["securityContext"; "privileged"] ≠ Found (VBool true) /\
  (forall adds, nested_get (VMap c) ["securityContext"; "capabilities"; "add"] = Found (VList adds) -> adds = []) /\
  (forall port, port ∈ mapItems (mget c "ports") -> port !! "hostPort" = None).

Definition pod_safe (ps : object) : Prop :=
  (forall ns, ns ∈ ["hostNetwork"; "hostPID"; "hostIPC"] -> ps !! ns ≠ Some (VBool true)) /\
  (forall volume, volume ∈ mapItems (mget ps "volumes") -> volume !! "hostPath" = None) /\
  (forall key c, key ∈ ["containers"; "initContainers"; "ephemeralContainers"] -> c ∈ mapItems (mget ps key) -> container_safe c).

(** The pod templates of a manifest: those of its tasks for a Volcano job, else the one at
    the path of its kind. *)
Definition is_vcjob (o : object) : bool :=
  EqualFold (nested_text o ["kind"]) "Job" && HasPrefix (ToLower (nested_text o ["apiVersion"])) "batch.volcano.sh/".

Definition pod_spec_at (o : object) (path : list string) : list object :=
  match nested_get (VMap o) path with Found (VMap ps) => [ps] | _ => [] end.

Definition vcjob_tasks (o : object) : list object :=
  match nested_get (VMap o) ["spec"; "tasks"] with Found v => mapItems v | _ => [] end.

Definition pod_specs (o : object) : list object :=
  if is_vcjob o then vcjob_tasks o ≫= fun task => pod_spec_at task ["template"; "spec"]
  else podSpecPaths (nested_text o ["kind"]) ≫= pod_spec_at o.

Definition hardened (ps : object) : Prop :=
  pod_safe ps /\ ps !! "automountServiceAccountToken" = Some (VBool false).

(** No pod of the manifest, read by the keys of the Kubernetes API, gets a privilege of the host
    or a service account token. *)
Definition manifest_safe (o : object) : Prop := Forall hardened (pod_specs o).

(** ** What the cluster client makes of a manifest (internal/platform/cluster/apply.go)

    The client decodes the text into structures: a key fills the field it is the same name
    as, up to [same], the folding of encoding/json; what is said of a field is said of every
    key that may fill it.  A manifest goes to the Volcano API only as a Job of the version
    the client knows, and is else created by its kind. *)

Section Client.
Context (same : string -> string -> bool).

Definition fields (m : object) (name : string) : list any := snd <$> filter (fun kv => same kv.1 name = true) (map_to_list m).
Definition text_field (m : object) (name text : string) : Prop := VString text ∈ fields m name \/ fields m name = [] /\ text = "".
Fixpoint reaches (v : any) (path : list string) (w : any) : Prop :=
  match path with
  | [] => w = v
  | name :: path => exists m v', v = VMap m /\ v' ∈ fields m name /\ reaches v' path w
  end.
Definition items (v : any) : list any := match v with VList l => l | _ => [] end.

Definition volcano_target (kind api : string) : bool := EqualFold kind "Job" && String.eqb (TrimSpace api) "batch.volcano.sh/v1alpha1".

Inductive client_pod (o : object) : object -> Prop :=
| pod_native kind api path ps :
    text_field o "kind" kind -> text_field o "apiVersion" api -> volcano_target kind api = false ->
    path ∈ podSpecPaths kind -> reaches (VMap o) path (VMap ps) -> client_pod o ps
| pod_of_task kind api v task ps :
    text_field o "kind" kind -> text_field o "apiVersion" api -> volcano_target kind api = true ->
    reaches (VMap o) ["spec"; "tasks"] v -> VMap task ∈ items v -> reaches (VMap task) ["template"; "spec"] (VMap ps) -> client_pod o ps.

Definition client_container_safe (c : object) : Prop :=
  (forall v, reaches (VMap c) ["securityContext"; "privileged"] v -> v ≠ VBool true) /\
  (forall adds, reaches (VMap c) ["securityContext"; "capabilities"; "add"] (VList adds) -> adds = []) /\
  (forall v port, v ∈ fields c "ports" -> VMap port ∈ items v -> fields port "hostPort" = []).

Definition client_pod_safe (ps : object) : Prop :=
  (forall ns v, ns ∈ ["hostNetwork"; "hostPID"; "hostIPC"] -> v ∈ fields ps ns -> v ≠ VBool true) /\
  (forall v volume, v ∈ fields ps "volumes" -> VMap volume ∈ items v -> fields volume "hostPath" = []) /\
  (forall key v c, key ∈ ["containers"; "initContainers"; "ephemeralContainers"] -> v ∈ fields ps key -> VMap c ∈ items v -> client_container_safe c) /\
  (forall v, v ∈ fields ps "automountServiceAccountToken" <-> v = VBool false).

Definition client_safe (o : object) : Prop := forall ps, client_pod o ps -> client_pod_safe ps.

(** The objects inside a value. *)
Inductive sub_object (o : object) : any -> Prop :=
| sub_here : sub_object o (VMap o)
| sub_map m k v : m !! k = Some v -> sub_object o v -> sub_object o (VMap m)
| sub_list l v : v ∈ l -> sub_object o v -> sub_object o (VList l).

Definition field_names : list string :=
  ["kind"; "apiVersion"; "spec"; "tasks"; "template"; "hostNetwork"; "hostPID"; "hostIPC"; "volumes"; "hostPath"; "containers";
   "initContainers"; "ephemeralContainers"; "securityContext"; "privileged"; "capabilities"; "add"; "ports"; "hostPort"; "automountServiceAccountToken"].
Definition exact_in (names : list string) (v : any) : Prop :=
  forall m, sub_object m v -> forall key name, is_Some (m !! key) -> name ∈ names -> same key name = true -> key = name.
Local Abbreviation exact := (exact_in field_names).

(** A manifest without surprises for the client: its keys are spelled as the fields they fill,
    and it is a Volcano job for the client when it is one for the dispatcher. *)
Definition plainly_written (o : object) : Prop :=
  exact (VMap o) /\ is_vcjob o = volcano_target (nested_text o ["kind"]) (nested_text o ["apiVersion"]).

Context (same_refl : forall name, same name name = true).

Lemma exact_item names m k v : exact_in names (VMap m) -> m !! k = Some v -> exact_in names v.
Proof. intros He Hk x Hx. apply He. by eapply sub_map. Qed.
Lemma exact_items names l v : exact_in names (VList l) -> v ∈ l -> exact_in names v.
Proof. intros He Hk x Hx. apply He. by eapply sub_list. Qed.

Lemma fields_exact names m name v : exact_in names (VMap m) -> name ∈ names -> v ∈ fields m name <-> m !! name = Some v.
Proof.
  intros He Hn. unfold fields. rewrite list_elem_of_fmap. split.
  - intros ([key w] & -> & Hin). apply list_elem_of_filter in Hin as [Hs Hin]. apply elem_of_map_to_list in Hin. cbn in *.
    by rewrite <- (He m (sub_here m) key name (ex_intro _ _ Hin) Hn Hs).
  - intros Hv. exists (name, v). split; [done|]. apply list_elem_of_filter. split; [apply same_refl|by apply elem_of_map_to_list].
Qed.
Lemma fields_none names m name : exact_in names (VMap m) -> name ∈ names -> m !! name = None -> fields m name = [].
Proof.
  intros He Hn Hm. destruct (fields m name) as [|v l] eqn:E; [done|]. assert (v ∈ fields m name) as Hv by (rewrite E; left).
  apply (fields_exact names m name v He Hn) in Hv. congruence.
Qed.

Lemma reaches_exact names path : Forall (fun name => name ∈ names) path -> forall v w, exact_in names v -> reaches v path w -> nested_get v path = Found w /\ exact_in names w.
Proof.
  induction 1 as [|name path Hn _ IH]; intros v w He; cbn [reaches nested_get]; [by intros ->|].
  intros (m & v' & -> & Hv & Hr). apply (fields_exact names) in Hv; [|done|done]. rewrite Hv. apply IH; [by eapply exact_item|done].
Qed.

Lemma text_exact names o name t : exact_in names (VMap o) -> name ∈ names -> text_field o name t -> nested_text o [name] = t.
Proof.
  intros He Hn. unfold nested_text. cbn [nested_get]. intros [Hv|[Hf ->]]; [apply (fields_exact names o name _ He Hn) in Hv; by rewrite Hv|].
  destruct (o !! name) as [v|] eqn:E; [|done]. apply (fields_exact names o name v He Hn) in E. rewrite Hf in E. by apply elem_of_nil in E.
Qed.

Lemma items_mapItems v c : VMap c ∈ items v -> c ∈ mapItems v.
Proof. destruct v; cbn; intros Hc; try by apply elem_of_nil in Hc. apply list_elem_of_omap. by exists (VMap c). Qed.
Lemma exact_of_items names v c : exact_in names v -> VMap c ∈ items v -> exact_in names (VMap c).
Proof. destruct v; cbn; intros He Hc; try by apply elem_of_nil in Hc. by eapply exact_items. Qed.

Ltac name_in := apply (bool_decide_unpack _); vm_compute; exact I.

Lemma container_client c : exact (VMap c) -> container_safe c -> client_container_safe c.
Proof.
  intros He (Hp & Ha & Hh). split_and!.
  - intros v [Hg _]%(reaches_exact field_names) ->; [by apply Hp|repeat constructor; name_in|done].
  - intros adds [Hg _]%(reaches_exact field_names); [by apply Ha|repeat constructor; name_in|done].
  - intros v port Hv Hport. apply (fields_exact field_names) in Hv; [|done|name_in].
    assert (exact (VMap port)) as Hep by (eapply exact_of_items; [by eapply exact_item|done]). apply (fields_none field_names); [done|name_in|].
    apply Hh. unfold mget. rewrite Hv. by apply items_mapItems.
Qed.

Lemma pod_client ps : exact (VMap ps) -> hardened ps -> client_pod_safe ps.
Proof.
  intros He [(Hn & Hv & Hc) Ha]. split_and!.
  - intros ns v Hns Hf. assert (ns ∈ field_names) as Hin by (rewrite !elem_of_cons, elem_of_nil in Hns; destruct Hns as [->|[->|[->|[]]]]; name_in).
    apply (fields_exact field_names) in Hf; [|done|done]. intros ->. by apply (Hn ns Hns).
  - intros v volume Hf Hvol. apply (fields_exact field_names) in Hf; [|done|name_in].
    assert (exact (VMap volume)) as Hev by (eapply exact_of_items; [by eapply exact_item|done]). apply (fields_none field_names); [done|name_in|].
    apply Hv. unfold mget. rewrite Hf. by apply items_mapItems.
  - intros key v c Hk Hf Hin. assert (key ∈ field_names) as Hkn by (rewrite !elem_of_cons, elem_of_nil in Hk; destruct Hk as [->|[->|[->|[]]]]; name_in).
    apply (fields_exact field_names) in Hf; [|done|done]. apply container_client; [eapply exact_of_items; [by eapply exact_item|done]|].
    apply (Hc key c Hk). unfold mget. rewrite Hf. by apply items_mapItems.
  - intros v. rewrite (fields_exact field_names) by (done || name_in). rewrite Ha. naive_solver.
Qed.

(** What is safe for the dispatcher is safe for the client, when it is plainly written. *)
Lemma safe_for_client o : manifest_safe o -> plainly_written o -> client_safe o.
Proof.
  unfold manifest_safe, pod_specs. intros Hs [He Hv] ps Hp. rewrite Forall_forall in Hs.
  destruct Hp as [kind api path ps Hk Ha Ht Hpath Hr|kind api v task ps Hk Ha Ht Hr Htask Hr'];
    apply (text_exact field_names) in Hk; [|done|name_in| |done|name_in]; (apply (text_exact field_names) in Ha; [|done|name_in]); subst kind api; rewrite Ht in Hv; rewrite Hv in Hs.
  - assert (Forall (fun name => name ∈ field_names) path) as Hnames.
    { unfold podSpecPaths in Hpath. destruct (String.eqb _ "pod"); [|destruct (_ || _); [|by apply elem_of_nil in Hpath]];
        apply list_elem_of_singleton in Hpath; subst path; repeat constructor; name_in. }
    apply (reaches_exact field_names) in Hr as [Hg Hep]; [|done|done]. apply pod_client; [done|]. apply Hs.
    apply list_elem_of_bind. exists path. split; [|done]. unfold pod_spec_at. rewrite Hg. left.
  - apply (reaches_exact field_names) in Hr as [Hg Hev]; [|repeat constructor; name_in|done].
    assert (exact (VMap task)) as Het by (by eapply exact_of_items).
    apply (reaches_exact field_names) in Hr' as [Hg' Hep]; [|repeat constructor; name_in|done]. apply pod_client; [done|]. apply Hs.
    apply list_elem_of_bind. exists task. split; [unfold pod_spec_at; rewrite Hg'; left|]. unfold vcjob_tasks. rewrite Hg. by apply items_mapItems.
Qed.

(** ** The deadline the client reads *)

Definition deadline_path : list string := ["spec"; "activeDeadlineSeconds"].





End Client.

Section Laws.
Context {GL : GoLib} {US : UnstructuredLib} {LW : UnstructuredLaws}.

Lemma first_hit_none {A B} (f : A -> option B) l : first_hit f l = None <-> Forall (fun x => f x = None) l.
Proof.
  induction l as [|x l IH]; cbn; [by split|]. rewrite Forall_cons, <- IH. destruct (f x); naive_solver.
Qed.

Lemma slice_maps_key obj k : slice_maps obj [k] = mapItems (mget obj k).
Proof.
  unfold slice_maps. rewrite law_slice. cbn. unfold mget.
  destruct (obj !! k) as [[]|]; done.
Qed.

Lemma found_bool obj p b : NestedBool obj p = Found b <-> nested_get (VMap obj) p = Found (VBool b).
Proof. rewrite law_bool. destruct (nested_get (VMap obj) p) as [[]| |]; cbn; naive_solver. Qed.

(** ** Refusal is complete *)

Lemma container_checked c : unsafeContainerField c = None -> container_safe c.
Proof.
  unfold unsafeContainerField. rewrite slice_maps_key. intros Hc.
  destruct (NestedBool c ["securityContext"; "privileged"]) as [[]| |] eqn:Eb; try discriminate Hc.
  all: destruct (NestedSlice c ["securityContext"; "capabilities"; "add"]) as [[|a l]| |] eqn:Es; try discriminate Hc.
  all: destruct (existsb _ _) eqn:Ex; [discriminate Hc|].
  all: split; [intros Hp%found_bool; congruence|split].
  all: try (intros adds Ha; rewrite law_slice, Ha in Es; cbn in Es; congruence).
  all: intros port Hp; destruct (port !! "hostPort") eqn:E; [|done].
  all: enough (existsb (fun p : object => bool_decide (is_Some (p !! "hostPort"))) (mapItems (mget c "ports")) = true) by congruence.
  all: apply existsb_Exists; exists port; split; [done|]; apply bool_decide_eq_true; eauto.
Qed.

Lemma pod_checked ps : rejectUnsafeDispatchPodSpec ps = None -> pod_safe ps.
Proof.
  unfold rejectUnsafeDispatchPodSpec, unsafePodSpecField, unsafeHostNamespaceField. intros Hr.
  destruct (RuntimeSocketHostPath ps); [done|].
  destruct (first_hit _ ["hostNetwork"; "hostPID"; "hostIPC"]) eqn:En; [done|].
  destruct (unsafeHostPathVolume ps) eqn:Ev; [done|]. destruct (unsafePodContainerField ps) eqn:Ec; [done|].
  split; [|split].
  - intros ns Hns Hb. apply first_hit_none in En. rewrite Forall_forall in En. specialize (En ns Hns). cbn beta in En.
    assert (NestedBool ps [ns] = Found true) as E by (apply found_bool; cbn; by rewrite Hb). by rewrite E in En.
  - intros volume Hv. destruct (volume !! "hostPath") eqn:E; [|done].
    unfold unsafeHostPathVolume in Ev. rewrite slice_maps_key in Ev.
    enough (existsb (fun v : object => bool_decide (is_Some (v !! "hostPath"))) (mapItems (mget ps "volumes")) = true) by congruence.
    apply existsb_Exists. exists volume. split; [done|]. apply bool_decide_eq_true. eauto.
  - intros key c Hk Hc. apply first_hit_none in Ec. rewrite Forall_forall in Ec. specialize (Ec key Hk). cbn beta in Ec.
    rewrite slice_maps_key in Ec. apply first_hit_none in Ec. rewrite Forall_forall in Ec. by apply container_checked, Ec.
Qed.

(** Taking the token away changes none of the fields that are refused. *)
Lemma pod_safe_automount ps v : pod_safe ps -> pod_safe (<["automountServiceAccountToken" := v]> ps).
Proof.
  intros (H1 & H2 & H3). split; [|split].
  - intros ns Hns. rewrite lookup_insert_ne; [by apply H1|]. intros <-. by repeat (apply elem_of_cons in Hns as [?|Hns]; [done|]); apply elem_of_nil in Hns.
  - intros vol. unfold mget. rewrite lookup_insert_ne by done. apply H2.
  - intros key c Hk. unfold mget. rewrite lookup_insert_ne; [by apply H3|].
    intros <-. by repeat (apply elem_of_cons in Hk as [?|Hk]; [done|]); apply elem_of_nil in Hk.
Qed.

Lemma pod_safe_empty : pod_safe ∅.
Proof.
  assert (forall k, mapItems (mget ∅ k) = []) as E by (intros k; unfold mget; by rewrite lookup_empty).
  split; [|split]; intros *; rewrite ?E, ?lookup_empty; [done|inversion 1|intros _; inversion 1].
Qed.

(** After hardening, the template at a path is safe if it was, and has no token. *)
Lemma automount_at o path :
  Forall pod_safe (pod_spec_at o path) -> Forall hardened (pod_spec_at (setDispatchAutomountServiceAccountToken o path) path).
Proof.
  intros Hs. unfold setDispatchAutomountServiceAccountToken, put, childPath. rewrite law_set.
  destruct (nested_set o _ _) as [o'|] eqn:E; cbn [default from_option id].
  - apply nested_set_child in E as (ps & Hps & Hold). unfold pod_spec_at in *. rewrite Hps. constructor; [|constructor].
    split; [|by rewrite lookup_insert_eq]. apply pod_safe_automount.
    destruct Hold as [Hold| ->]; [rewrite Hold in Hs; by inversion Hs|apply pod_safe_empty].
  - unfold pod_spec_at in *. destruct (nested_get (VMap o) path) as [[]| |] eqn:Eg; try (apply Forall_nil_2).
    apply (nested_set_child_none o (VBool false) path "automountServiceAccountToken") in Eg as [? ?]. congruence.
Qed.

(** ** What the steps leave alone *)

(** [o'] differs from [o] at most in the field [f]. *)
Definition only (f : string) (o o' : object) : Prop := forall g, g ≠ f -> o' !! g = o !! g.

Lemma only_refl f o : only f o o.
Proof. done. Qed.

Lemma only_trans f o1 o2 o3 : only f o1 o2 -> only f o2 o3 -> only f o1 o3.
Proof. intros H1 H2 g Hg. by rewrite H2, H1. Qed.

Lemma only_put f p u v : only f u (put u v (f :: p)).
Proof. intros g Hg. unfold put. rewrite law_set. by apply nested_default_frame. Qed.

Lemma only_strings f p u s : only f u (put_strings u s (f :: p)).
Proof. intros g Hg. unfold put_strings. rewrite law_set_strings. by apply nested_default_frame. Qed.

Lemma only_merge f p u s : only f u (merge_strings u s (f :: p)).
Proof. apply only_strings. Qed.

Lemma only_tasks u update : only "spec" u (updateVCJobTasks u update).
Proof.
  unfold updateVCJobTasks. rewrite law_slice. destruct (nested_as _ _); [|done|done]. case_match; [|done].
  intros g Hg. rewrite law_set_slice. by apply nested_default_frame.
Qed.

Lemma only_kind f o o' : f ≠ "kind" -> f ≠ "apiVersion" -> only f o o' -> GetKind o' = GetKind o /\ GetAPIVersion o' = GetAPIVersion o.
Proof.
  intros H1 H2 Ho. rewrite !law_kind, !law_api. split; apply nested_text_key, Ho; congruence.
Qed.

Lemma is_vcjob_spec o : isVolcanoVCJob o = is_vcjob o.
Proof. unfold isVolcanoVCJob. by rewrite law_kind, law_api. Qed.

Lemma only_vcjob f o o' : f ≠ "kind" -> f ≠ "apiVersion" -> only f o o' -> is_vcjob o' = is_vcjob o.
Proof. intros H1 H2 Ho. rewrite <- !is_vcjob_spec. unfold isVolcanoVCJob. by destruct (only_kind f o o' H1 H2 Ho) as [-> ->]. Qed.

(** The tasks of a Volcano job after an update of each. *)
Lemma tasks_updated u update :
  vcjob_tasks (updateVCJobTasks u update) = update <$> vcjob_tasks u.
Proof.
  unfold updateVCJobTasks, vcjob_tasks. rewrite law_slice.
  destruct (nested_get (VMap u) ["spec"; "tasks"]) as [v| |] eqn:E; cbn [nested_as]; rewrite ?E; try done.
  destruct v; cbn [as_list]; rewrite ?E; try done. cbn [mapItems].
  destruct (existsb _ l) eqn:Ex.
  - rewrite law_set_slice. change ["spec"; "tasks"] with (["spec"] ++ ["tasks"]) in *.
    rewrite nested_get_app in E. destruct (nested_get (VMap u) ["spec"]) as [ps| |] eqn:Es; try done.
    destruct ps; try done. destruct (nested_set_child_none u (VList (map (update_task update) l)) ["spec"] "tasks" m Es) as [u' Hu'].
    rewrite Hu'. cbn [default from_option id]. rewrite (nested_get_set _ _ _ _ Hu'). cbn [mapItems].
    clear. induction l as [|[] l IH]; cbn; by rewrite ?IH.
  - rewrite E. cbn [mapItems]. clear E. induction l as [|[] l IH]; cbn in *; try done; by apply IH.
Qed.

(** ** Prepared manifests are safe *)

Lemma harden_safe u : rejectDispatchRuntimeSocketMounts u = None -> manifest_safe (hardenDispatchPodSpecs u).
Proof.
  unfold rejectDispatchRuntimeSocketMounts, hardenDispatchPodSpecs, manifest_safe, pod_specs. rewrite is_vcjob_spec.
  assert (forall o p, reject_at o p = None -> Forall pod_safe (pod_spec_at o p)) as Hat.
  { intros o p Hr. unfold reject_at, pod_spec_at in *. rewrite law_map in Hr.
    destruct (nested_get (VMap o) p) as [[]| |]; cbn in Hr; try (apply Forall_nil_2). constructor; [by apply pod_checked|constructor]. }
  destruct (is_vcjob u) eqn:Ev; intros Hr.
  - unfold hardenDispatchVCJobTasks. rewrite (only_vcjob "spec" u _), Ev by (done || apply only_tasks). rewrite tasks_updated.
    unfold rejectDispatchVCJobRuntimeSocketMounts in Hr. rewrite law_slice in Hr. unfold vcjob_tasks.
    destruct (nested_get (VMap u) ["spec"; "tasks"]) as [[]| |]; cbn [nested_as as_list mapItems] in *; try (apply Forall_nil_2).
    apply first_hit_none in Hr. induction Hr as [|task rest Ht _ IH]; cbn; [constructor|]. apply Forall_app. split; [|done].
    by apply automount_at, Hat.
  - set (u' := fold_left _ _ _).
    assert (only "spec" u u' /\ Forall hardened (podSpecPaths (GetKind u) ≫= pod_spec_at u')) as [Ho Hh].
    { apply first_hit_none in Hr. subst u'. unfold podSpecPaths in *.
      case_match; [|case_match]; cbn [fold_left mbind list_bind]; (split; [by apply only_put||done|]); try constructor;
        inversion_clear Hr; rewrite app_nil_r; by apply automount_at, Hat. }
    rewrite (only_vcjob "spec" u u'), Ev by done. destruct (only_kind "spec" u u') as [Hk _]; [done..|].
    by rewrite <- law_kind, Hk.
Qed.

Lemma prepared_safe job r ns g o : prepared_object job r ns g = Ok o -> manifest_safe o.
Proof.
  unfold prepared_object. destruct (dispatchObject r); [|done]. cbn zeta.
  destruct (rejectDispatchRuntimeSocketMounts _) eqn:E; [done|]. intros [= <-]. by apply harden_safe.
Qed.

(** ** Labels, namespace and deadline *)

(** Where the object can hold a value at [p], what it reads there is as [Q] says. *)
Definition holds (o : object) (p : list string) (Q : nested any -> Prop) : Prop :=
  is_Some (nested_set o VNil p) -> Q (nested_get (VMap o) p).

Lemma holds_key o o' f p Q : o !! f = o' !! f -> holds o (f :: p) Q -> holds o' (f :: p) Q.
Proof.
  intros E Hc Hh. rewrite <- (nested_get_key o o' f p E). apply Hc.
  eapply nested_hold_key; [symmetry; exact E|exact Hh].
Qed.

Lemma holds_set u w q p Q : diverge q p -> holds u p Q -> holds (default u (nested_set u w q)) p Q.
Proof.
  intros Hd Hc Hh. destruct (nested_set u w q) as [u'|] eqn:E; cbn [default from_option id] in *; [|by apply Hc].
  rewrite (nested_get_diverge u w q p u') by done. apply Hc. by eapply nested_hold_diverge.
Qed.

Lemma holds_put u w q p Q : diverge q p -> holds u p Q -> holds (put u w q) p Q.
Proof. unfold put. rewrite law_set. apply holds_set. Qed.

Lemma holds_put_same u w p (Q : nested any -> Prop) : Q (Found w) -> holds (put u w p) p Q.
Proof.
  intros HQ Hh. unfold put in *. rewrite law_set in *. destruct (nested_set u w p) as [u'|] eqn:E; cbn [default from_option id] in *.
  - by rewrite (nested_get_set _ _ _ _ E).
  - destruct (nested_hold_value u VNil w p Hh). congruence.
Qed.

Lemma holds_merge u s q p Q : diverge q p -> holds u p Q -> holds (merge_strings u s q) p Q.
Proof. unfold merge_strings, put_strings. rewrite law_set_strings. apply holds_set. Qed.

(** A map of text that has [k] with value [v]. *)
Definition text_entry (k v : string) (n : nested any) : Prop :=
  match nested_as as_string_map n with Found s => s !! k = Some v | _ => False end.

Definition carries (o : object) (p : list string) (k v : string) : Prop := holds o p (text_entry k v).

Lemma merge_reads u p : found_or ∅ (NestedStringMap u p) = default ∅ (nested_strings u p).
Proof. rewrite law_string_map. unfold nested_strings. by destruct (nested_as _ _). Qed.

(** A merge puts its values there, and keeps the others. *)
Lemma carries_merge u s p k v : (s !! k = Some v \/ s !! k = None /\ carries u p k v) -> carries (merge_strings u s p) p k v.
Proof.
  intros Hk Hh. unfold merge_strings, put_strings in *. rewrite law_set_strings, (merge_reads u p) in *.
  destruct (set_strings u _ p) as [u'|] eqn:E; cbn [default from_option id] in *.
  - unfold text_entry. rewrite (nested_get_set _ _ _ _ E). cbn. rewrite string_values_of. destruct Hk as [Hk|[Hn Hk]].
    + by apply lookup_union_Some_l.
    + rewrite lookup_union_r by done. assert (is_Some (nested_set u VNil p)) as Hu by (eapply nested_hold_value; by eexists).
      specialize (Hk Hu). unfold text_entry, nested_strings in *. by destruct (nested_as _ _).
  - destruct (nested_hold_value u VNil (VMap (any_of_strings (s ∪ default ∅ (nested_strings u p)))) p Hh) as [? Hx].
    unfold set_strings in E. congruence.
Qed.

Lemma mergeObjectLabels_merge u labels : labels ≠ ∅ -> mergeObjectLabels u labels = merge_strings u labels ["metadata"; "labels"].
Proof.
  intros Hne. unfold mergeObjectLabels, merge_strings, put_strings. rewrite decide_False by done.
  by rewrite law_set_labels, law_labels, law_set_strings, (merge_reads u).
Qed.

Lemma setAnnotationValue_merge u key value :
  setAnnotationValue u key value = merge_strings u {[key := value]} ["metadata"; "annotations"].
Proof.
  unfold setAnnotationValue, merge_strings, put_strings.
  by rewrite law_set_annotations, law_annotations, law_set_strings, (merge_reads u), insert_union_singleton_l.
Qed.

Lemma setPodGroupObjectMetadata_merge u group : setPodGroupObjectMetadata u group =
  if str_empty (TrimSpace group) then u
  else merge_strings (merge_strings u (group_annotations (TrimSpace group)) ["metadata"; "annotations"])
         {[volcanoPodGroupLabelKey := TrimSpace group]} ["metadata"; "labels"].
Proof.
  unfold setPodGroupObjectMetadata, merge_strings, put_strings. case_match; [done|].
  by rewrite law_set_labels, law_labels, law_set_annotations, law_annotations, !law_set_strings, !merge_reads, insert_union_singleton_l.
Qed.

(** The labels of a job are not the one the dispatcher adds for a pod group. *)
Lemma labels_not_group job : dispatchLabels job !! volcanoPodGroupLabelKey = None.
Proof.
  apply not_elem_of_list_to_map_1. rewrite !fmap_app. intros Hin.
  repeat (apply elem_of_app in Hin as [Hin|Hin]).
  all: unfold label_entry in Hin; repeat case_match; cbn in Hin; first [by inversion Hin|apply list_elem_of_singleton in Hin; discriminate].
Qed.

Lemma labels_distinct job k v : dispatchLabels job !! k = Some v -> volcanoPodGroupLabelKey ≠ k.
Proof. intros Hk <-. rewrite labels_not_group in Hk. done. Qed.

(** Writes elsewhere, one after the other. *)
Ltac carry :=
  repeat first
    [ assumption
    | match goal with |- holds (if ?b then _ else _) _ _ => destruct b end
    | match goal with |- carries (if ?b then _ else _) _ _ _ => destruct b end
    | apply holds_put; [by apply (bool_decide_unpack _)|]
    | apply holds_merge; [by apply (bool_decide_unpack _)|] ].

Ltac frame :=
  repeat first
    [ apply only_refl
    | match goal with |- only _ _ (if ?b then _ else _) => destruct b end
    | eapply only_trans; [|apply only_put] | eapply only_trans; [|apply only_merge] | eapply only_trans; [|apply only_tasks] ].

Lemma only_spec_template u labels : only "spec" u (mergePodTemplateLabels u labels).
Proof. unfold mergePodTemplateLabels, mergeVCJobTaskTemplateLabels. destruct (decide _); [done|]. cbn zeta. frame. Qed.

Lemma only_spec_limit u job : only "spec" u (applyDispatchRuntimeLimit u job).
Proof.
  unfold applyDispatchRuntimeLimit, capActiveDeadlineSeconds. destruct (dispatchRuntimeLimitSeconds job); [|done]. cbn zeta.
  repeat case_match; frame.
Qed.

Lemma only_spec_harden u : only "spec" u (hardenDispatchPodSpecs u).
Proof.
  unfold hardenDispatchPodSpecs, hardenDispatchVCJobTasks, podSpecPaths. case_match; [apply only_tasks|].
  repeat case_match; cbn [fold_left]; frame.
Qed.

Lemma holds_only u u' p Q : only "spec" u u' -> holds u ("metadata" :: p) Q -> holds u' ("metadata" :: p) Q.
Proof. intros Ho. apply holds_key. symmetry. by apply Ho. Qed.

Lemma carries_group u group p k v : volcanoPodGroupLabelKey ≠ k -> carries u p k v ->
  carries (merge_strings u {[volcanoPodGroupLabelKey := group]} p) p k v.
Proof. intros Hk Hc. apply carries_merge. right. by rewrite lookup_singleton_ne. Qed.

Lemma carries_scheduling u job group k v : volcanoPodGroupLabelKey ≠ k ->
  carries u ["metadata"; "labels"] k v -> carries (applyDispatchScheduling u job group) ["metadata"; "labels"] k v.
Proof.
  intros Hk Hc. unfold applyDispatchScheduling. cbn zeta.
  destruct (isVolcanoVCJob u).
  { eapply holds_only; [|exact Hc]. unfold applyVCJobDispatchScheduling, setVCJobTaskTemplateAnnotation, setVCJobTaskTemplateSpecField. frame. }
  destruct (isVolcanoPodGroup u); [eapply holds_only; [|exact Hc]; unfold applyPodGroupDispatchScheduling; cbn zeta; frame|].
  destruct (String.eqb _ "pod").
  - rewrite setPodGroupObjectMetadata_merge. unfold setAnnotation. rewrite !setAnnotationValue_merge.
    destruct (str_empty (TrimSpace group)); [carry|]. apply carries_group; [done|]. carry.
  - destruct (_ || _); [|done]. eapply holds_only; [|exact Hc]. unfold setPodGroupTemplateMetadata, setTemplateAnnotation. cbn zeta. frame.
Qed.

Lemma carries_template u job group k v : volcanoPodGroupLabelKey ≠ k ->
  carries u ["spec"; "template"; "metadata"; "labels"] k v -> isVolcanoVCJob u = false ->
  carries (applyDispatchScheduling u job group) ["spec"; "template"; "metadata"; "labels"] k v.
Proof.
  intros Hk Hc Hv. unfold applyDispatchScheduling. cbn zeta. rewrite Hv.
  destruct (isVolcanoPodGroup u); [unfold applyPodGroupDispatchScheduling; cbn zeta; carry|].
  destruct (String.eqb _ "pod").
  - rewrite setPodGroupObjectMetadata_merge. unfold setAnnotation. rewrite !setAnnotationValue_merge. carry.
  - destruct (_ || _); [|done]. unfold setPodGroupTemplateMetadata, setTemplateAnnotation. cbn zeta.
    destruct (str_empty (TrimSpace group)); [carry|]. apply carries_group; [done|]. carry.
Qed.

(** The paths scheduling and labelling write. *)
Definition written_paths : list (list string) :=
  [["spec"; "queue"]; ["spec"; "tasks"]; ["spec"; "schedulerName"]; ["spec"; "priorityClassName"];
   ["spec"; "template"; "spec"; "schedulerName"]; ["spec"; "template"; "spec"; "priorityClassName"];
   ["spec"; "template"; "metadata"; "annotations"]; ["spec"; "template"; "metadata"; "labels"];
   ["metadata"; "annotations"]; ["metadata"; "labels"]].

Definition apart (p : list string) : Prop := Forall (fun q => diverge q p) written_paths.

Lemma apart_in p q : apart p -> q ∈ written_paths -> diverge q p.
Proof. unfold apart. rewrite Forall_forall. auto. Qed.

Lemma holds_tasks u update p Q : diverge ["spec"; "tasks"] p -> holds u p Q -> holds (updateVCJobTasks u update) p Q.
Proof.
  intros Hd Hh. unfold updateVCJobTasks. destruct (NestedSlice u _); [|done|done]. case_match; [|done].
  rewrite law_set_slice. by apply holds_set.
Qed.

Ltac carry_apart Ha :=
  repeat first
    [ assumption
    | match goal with |- holds (if ?b then _ else _) _ _ => destruct b end
    | apply holds_put; [by apply (apart_in _ _ Ha), (bool_decide_unpack _)|]
    | apply holds_merge; [by apply (apart_in _ _ Ha), (bool_decide_unpack _)|]
    | apply holds_tasks; [by apply (apart_in _ _ Ha), (bool_decide_unpack _)|] ].

Lemma holds_labels u labels p Q : apart p -> holds u p Q -> holds (mergePodTemplateLabels (mergeObjectLabels u labels) labels) p Q.
Proof.
  intros Ha Hh. destruct (decide (labels = ∅)) as [E|E].
  - unfold mergePodTemplateLabels, mergeObjectLabels. by rewrite !decide_True.
  - rewrite mergeObjectLabels_merge by done. unfold mergePodTemplateLabels, mergeVCJobTaskTemplateLabels.
    rewrite decide_False by done. cbn zeta. carry_apart Ha.
Qed.

Lemma holds_scheduling u job group p Q : apart p -> holds u p Q -> holds (applyDispatchScheduling u job group) p Q.
Proof.
  intros Ha Hh. unfold applyDispatchScheduling, applyVCJobDispatchScheduling, applyPodGroupDispatchScheduling,
    setVCJobTaskTemplateAnnotation, setVCJobTaskTemplateSpecField, setPodGroupTemplateMetadata, setTemplateAnnotation, setAnnotation.
  cbn zeta. rewrite setPodGroupObjectMetadata_merge, !setAnnotationValue_merge. carry_apart Ha.
Qed.

Lemma holds_harden u p Q : diverge ["spec"; "tasks"] p -> diverge ["spec"; "automountServiceAccountToken"] p ->
  diverge ["spec"; "template"; "spec"; "automountServiceAccountToken"] p -> holds u p Q -> holds (hardenDispatchPodSpecs u) p Q.
Proof.
  intros H1 H2 H3 Hh. unfold hardenDispatchPodSpecs, hardenDispatchVCJobTasks, podSpecPaths. case_match; [by apply holds_tasks|].
  repeat case_match; cbn [fold_left]; [by apply holds_put|by apply holds_put|done].
Qed.






(** The object before it is checked and hardened. *)
Lemma prepared_inv job r ns g o : prepared_object job r ns g = Ok o -> exists u,
  o = hardenDispatchPodSpecs (applyDispatchRuntimeLimit
        (applyDispatchScheduling (mergePodTemplateLabels (mergeObjectLabels u (dispatchLabels job)) (dispatchLabels job)) job g) job) /\
  (GetKind u ≠ "Namespace" -> exists u0, u = SetNamespace u0 ns).
Proof.
  unfold prepared_object. destruct (dispatchObject r) as [u0|]; [|done]. cbn zeta.
  destruct (rejectDispatchRuntimeSocketMounts _); [done|]. intros [= <-]. eexists; split; [done|].
  destruct (String.eqb_spec (GetKind u0) "Namespace") as [E|E]; [done|]. eauto.
Qed.

Lemma prepared_kind u job g f : f ∈ ["kind"; "apiVersion"] ->
  nested_text (hardenDispatchPodSpecs (applyDispatchRuntimeLimit
    (applyDispatchScheduling (mergePodTemplateLabels (mergeObjectLabels u (dispatchLabels job)) (dispatchLabels job)) job g) job)) [f]
  = nested_text u [f].
Proof.
  intros Hf. assert (apart [f] /\ f ≠ "spec") as [Ha Hne]
    by (apply elem_of_cons in Hf as [->|Hf%list_elem_of_singleton]; subst; by split; [apply (bool_decide_unpack _)|]).
  rewrite (nested_text_key _ _ f [] (only_spec_harden _ f Hne)), (nested_text_key _ _ f [] (only_spec_limit _ job f Hne)).
  unfold nested_text.
  enough (holds (applyDispatchScheduling (mergePodTemplateLabels (mergeObjectLabels u (dispatchLabels job)) (dispatchLabels job)) job g)
            [f] (fun n => n = nested_get (VMap u) [f])) as Hh by (by rewrite Hh).
  apply holds_scheduling, holds_labels; [done..|]. by intros _.
Qed.

(** The labels the platform accounts, bills and cleans up by. *)
Definition identity_labels (job : object) : list (string * string) :=
  [(LabelJobID, TextValue job ["job_id"; "jobId"; "id"]); (LabelProjectID, TextValue job ["project_id"; "projectId"]);
   (LabelUserID, TextValue job ["user_id"; "userId"])].

Lemma identity_dispatched job k v : (k, v) ∈ identity_labels job -> v ≠ "" -> dispatchLabels job !! k = Some v.
Proof.
  intros Hin Hv. unfold dispatchLabels, label_entry, str_empty.
  repeat (apply elem_of_cons in Hin as [[= -> ->]|Hin]); [| | |by inversion Hin].
  all: rewrite !list_to_map_app; rewrite (proj2 (String.eqb_neq _ _) Hv); cbn.
  all: repeat first [rewrite lookup_union_r by (repeat case_match; by rewrite ?lookup_empty, ?lookup_insert_ne by done)
                    |rewrite lookup_union_l' by (by eexists; apply lookup_insert_eq)].
  all: try (by apply lookup_insert_eq).
  all: apply lookup_union_Some_l, lookup_insert_eq.
Qed.

Lemma labels_dispatched job r ns g o k v : prepared_object job r ns g = Ok o -> dispatchLabels job !! k = Some v ->
  carries o ["metadata"; "labels"] k v /\
  (is_vcjob o = false -> ToLower (nested_text o ["kind"]) ∈ ["deployment"; "job"] ->
   carries o ["spec"; "template"; "metadata"; "labels"] k v).
Proof.
  intros (u & -> & _)%prepared_inv Hk. set (labels := dispatchLabels job) in *.
  assert (labels ≠ ∅) as Hne by (intros E; rewrite E, lookup_empty in Hk; done).
  pose proof (labels_distinct job k v Hk) as Hg. split.
  - apply (holds_only _ _ _ _ (only_spec_harden _)), (holds_only _ _ _ _ (only_spec_limit _ job)).
    apply carries_scheduling; [done|]. apply (holds_only _ _ _ _ (only_spec_template _ labels)).
    rewrite mergeObjectLabels_merge by done. apply carries_merge. by left.
  - intros Hv Hkind. unfold is_vcjob, labels in Hv. unfold labels in Hkind. rewrite !prepared_kind in Hv by (apply (bool_decide_unpack _); done).
    rewrite prepared_kind in Hkind by (apply (bool_decide_unpack _); done).
    set (u2 := mergePodTemplateLabels _ _).
    assert (carries u2 ["spec"; "template"; "metadata"; "labels"] k v /\ isVolcanoVCJob u2 = false) as [Hc Hv2].
    { rewrite is_vcjob_spec. subst u2. rewrite mergeObjectLabels_merge by done.
      rewrite (only_vcjob "spec" _ _ (ltac:(done)) (ltac:(done)) (only_spec_template _ labels)).
      rewrite (only_vcjob "metadata" u _) by (done || apply only_merge). split; [|done].
      unfold mergePodTemplateLabels. rewrite decide_False by done. cbn zeta.
      rewrite is_vcjob_spec, (only_vcjob "metadata" u _) by (done || apply only_merge).
      destruct (only_kind "metadata" u (merge_strings u labels ["metadata"; "labels"])) as [-> _]; [done|done|apply only_merge|].
      rewrite law_kind. replace (is_vcjob u) with false by done.
      repeat (apply elem_of_cons in Hkind as [->|Hkind]); [| |by inversion Hkind]; cbn; apply carries_merge; by left. }
    apply holds_harden; [by apply (bool_decide_unpack _)..|].
    assert (forall w, carries w ["spec"; "template"; "metadata"; "labels"] k v ->
              carries (applyDispatchRuntimeLimit w job) ["spec"; "template"; "metadata"; "labels"] k v) as Hl.
    { intros w Hw. unfold applyDispatchRuntimeLimit, capActiveDeadlineSeconds. cbn zeta. repeat case_match; carry. }
    by apply Hl, carries_template.
Qed.

(** Wherever a dispatched manifest, or the pod template of a deployment or batch job in
    it, can hold labels, it has the identifiers of the job, its project and its user as the
    platform knows them, whatever labels the tenant wrote; and unless it is a Namespace it
    is in the namespace of the job. *)
Theorem manifest_carries_job job r ns g o k v :
  prepared_object job r ns g = Ok o -> (k, v) ∈ identity_labels job -> v ≠ "" ->
  carries o ["metadata"; "labels"] k v /\
  (is_vcjob o = false -> ToLower (nested_text o ["kind"]) ∈ ["deployment"; "job"] ->
   carries o ["spec"; "template"; "metadata"; "labels"] k v) /\
  (nested_text o ["kind"] ≠ "Namespace" -> ns ≠ "" -> holds o ["metadata"; "namespace"] (eq (Found (VString ns)))).
Proof.
  intros Hp Hk Hv. pose proof (identity_dispatched job k v Hk Hv) as Hd. destruct (labels_dispatched _ _ _ _ _ _ _ Hp Hd) as [H1 H2].
  split; [done|]. split; [done|]. destruct (prepared_inv _ _ _ _ _ Hp) as (u & -> & Hns).
  intros Hkind Hne. rewrite prepared_kind in Hkind by (apply (bool_decide_unpack _); done). rewrite <- law_kind in Hkind.
  destruct (Hns Hkind) as [u0 ->]. apply (holds_only _ _ _ _ (only_spec_harden _)), (holds_only _ _ _ _ (only_spec_limit _ job)).
  apply holds_scheduling, holds_labels; [by apply (bool_decide_unpack _)..|]. rewrite law_set_namespace. unfold set_text, str_empty.
  rewrite (proj2 (String.eqb_neq _ _) Hne), <- law_set. by apply holds_put_same.
Qed.


End Laws.

(** ** Instances *)

Definition container (fields : list (string * any)) : any := VMap (list_to_map (("name", VString "main") :: fields)).

Definition pod_manifest (kind : string) (spec : list (string * any)) : object :=
  {["apiVersion" := VString "v1"; "kind" := VString kind;
    "metadata" := VMap {["name" := VString "w"; "labels" := VMap {["platform-go/user-id" := VString "mallory"; "app" := VString "x"]}]};
    "spec" := VMap (list_to_map spec)]}.

(** The manifests the examples submit, by the text that stands for them. *)
Definition sample (raw : string) : option object :=
  if String.eqb raw "pod"
  then Some (pod_manifest "Pod" [("activeDeadlineSeconds", VFloat64 (f64_of_int 90000)); ("containers", VList [container []])])
  else if String.eqb raw "privileged"
  then Some (pod_manifest "Pod" [("containers", VList [container [("securityContext", VMap {["privileged" := VBool true]})]])])
  else if String.eqb raw "variant"
  then Some (pod_manifest "Pod" [("hostnetwork", VBool true); ("containers", VList [container []])])
  else if String.eqb raw "late"
  then Some (pod_manifest "Pod" [("activedeadlineSeconds", VInt 90000); ("containers", VList [container []])])
  else if String.eqb raw "old job"
  then Some (<["apiVersion" := VString "batch/v1beta1"]> (pod_manifest "Job" [("activeDeadlineSeconds", VInt 90000)]))
  else if String.eqb raw "volcano v2"
  then Some (<["apiVersion" := VString "batch.volcano.sh/v2"]>
               (pod_manifest "Job" [("template", VMap {["spec" := VMap {["hostNetwork" := VBool true]}]})]))
  else if String.eqb raw "secret" then Some (pod_manifest "Secret" [])
  else None.

#[local] Instance sample_golib : GoLib := {|
  parse_quantity _ := None; parse_float _ := None; parse_int64 _ := None; parse_rfc3339 _ := None;
  format_rfc3339 _ := ""; time_string _ := ""; unmarshal_object := sample; unmarshal_objects _ := None;
  unmarshal_strings _ := None; marshal _ := Some "marshalled"; sprint _ := ""; sprintf f _ := f; sha256_hex s := s |}.
#[local] Existing Instance reference_lib.
#[local] Existing Instance reference_laws.

Definition sample_job : object :=
  {["id" := VString "j1"; "project_id" := VString "p1"; "user_id" := VString "alice"; "runtime_limit_seconds" := VInt 3600]}.

(** What the sample pod becomes. *)
Definition sample_prepared : object :=
  match prepared_object sample_job (Resource "w" "Pod" "pod") "proj-p1" "" with Ok o => o | Err _ => ∅ end.

Lemma sample_prepares : prepared_object sample_job (Resource "w" "Pod" "pod") "proj-p1" "" = Ok sample_prepared.
Proof. vm_compute. reflexivity. Qed.

(** The user of the job replaces the one the tenant wrote. *)
Lemma manifest_carries_job_witness :
  carries sample_prepared ["metadata"; "labels"] LabelUserID "alice" /\
  nested_strings sample_prepared ["metadata"; "labels"] ≫= (.!! "app") = Some "x".
Proof.
  split; [|vm_compute; reflexivity].
  refine (proj1 (manifest_carries_job sample_job (Resource "w" "Pod" "pod") "proj-p1" "" sample_prepared LabelUserID "alice" sample_prepares _ _)).
  - right; right; left.
  - discriminate.
Defined.

(** The sample pod is plainly written, so that it is safe for the client too. *)
Example sample_client_safe : plainly_written String.eqb sample_prepared /\ client_safe String.eqb sample_prepared.
Proof.
  assert (plainly_written String.eqb sample_prepared) as Hp.
  { split; [|vm_compute; reflexivity]. intros m _ key name _ _ E. by apply String.eqb_eq. }
  split; [done|]. apply safe_for_client; [apply String.eqb_refl|by eapply prepared_safe, sample_prepares|done].
Qed.

(** encoding/json decodes an object into a struct key by key, a key filling the field that
    has its name up to case; the later key wins. *)
Definition struct_field (o : object) (name : string) : option any :=
  snd <$> last (filter (fun kv => EqualFold kv.1 name = true) (SliceStable (fun a b => String.ltb a.1 b.1) (map_to_list o))).


(** A deadline in a key of another case stays beside the cap, and encoding/json takes the
    later key. *)
Example deadline_variant_wins :
  match prepared_object sample_job (Resource "w" "Pod" "late") "proj-p1" "" with
  | Ok o => match nested_get (VMap o) ["spec"] with
            | Found (VMap ps) => ps !! "activeDeadlineSeconds" = Some (VInt64 3600) /\ struct_field ps "activeDeadlineSeconds" = Some (VInt 90000)
            | _ => False
            end
  | Err _ => False
  end.
Proof. vm_compute. split; reflexivity. Qed.

(** A Job of another version than batch/v1 is not capped; the cluster client creates it as a
    batch job all the same. *)
Example job_version_uncapped :
  match prepared_object sample_job (Resource "w" "Job" "old job") "proj-p1" "" with
  | Ok o => nested_get (VMap o) deadline_path = Found (VInt 90000) /\ volcano_target (nested_text o ["kind"]) (nested_text o ["apiVersion"]) = false
  | Err _ => False
  end.
Proof. vm_compute. split; reflexivity. Qed.

Example privileged_refused :
  prepared_object sample_job (Resource "w" "Pod" "privileged") "proj-p1" "" = Err (DError "%w: user workloads cannot set %s" ErrInvalidManifest).
Proof. vm_compute. reflexivity. Qed.

(** The deny list looks at the kind the item declares and only without one at the kind of
    the manifest; the object is created with the kind of the manifest.  A Secret declared
    as a Pod is dispatched as a Secret. *)
Example denied_kind_masked :
  let item : object := {["kind" := VString "Pod"; "name" := VString "w"; "json" := VString "secret"]} in
  dispatchResources {["resources" := VList [VMap item]]} = Ok [Resource "w" "Pod" "secret"] /\
  deniedDispatchResourceKind "Secret" ≠ None /\
  match prepared_object sample_job (Resource "w" "Pod" "secret") "proj-p1" "" with
  | Ok o => nested_text o ["kind"] = "Secret" | Err _ => False
  end.
Proof. split; [vm_compute; reflexivity|]. split; [discriminate|vm_compute; reflexivity]. Qed.

(** The check and the token are about exact keys, but the cluster client decodes the
    manifest into a struct: a manifest that spells [hostNetwork] in another case passes the
    check and is created with the network of the host. *)
Example case_variant_passes :
  match prepared_object sample_job (Resource "w" "Pod" "variant") "proj-p1" "" with
  | Ok o => match nested_get (VMap o) ["spec"] with
            | Found (VMap ps) => NestedBool ps ["hostNetwork"] = Absent /\ struct_field ps "hostNetwork" = Some (VBool true)
            | _ => False
            end
  | Err _ => False
  end.
Proof. vm_compute. split; reflexivity. Qed.

(** The dispatcher takes a Job of any version of the Volcano group for a Volcano job and looks
    only at its tasks; the cluster client sends one version to Volcano and creates any other
    Job as a batch job, whose template nobody has checked. *)
Definition volcano_prepared : object :=
  match prepared_object sample_job (Resource "w" "Job" "volcano v2") "proj-p1" "" with Ok o => o | Err _ => ∅ end.

Example volcano_version_escapes :
  prepared_object sample_job (Resource "w" "Job" "volcano v2") "proj-p1" "" = Ok volcano_prepared /\
  manifest_safe volcano_prepared /\ ~ client_safe String.eqb volcano_prepared.
Proof.
  assert (prepared_object sample_job (Resource "w" "Job" "volcano v2") "proj-p1" "" = Ok volcano_prepared) as E by (vm_compute; reflexivity).
  split_and!; [done|by eapply prepared_safe|]. intros Hc.
  destruct (Hc {["hostNetwork" := VBool true]}) as [Hp _]; [|eapply (Hp "hostNetwork" (VBool true)); [left|vm_compute; left|done]].
  apply (pod_native String.eqb _ "Job" "batch.volcano.sh/v2" ["spec"; "template"; "spec"]);
    [left; vm_compute; left..|vm_compute; reflexivity|left|].
  cbn [reaches]. do 2 eexists. split; [reflexivity|]. split; [vm_compute; left|].
  do 2 eexists. split; [reflexivity|]. split; [vm_compute; first [left|right; left]|].
  do 2 eexists. split; [reflexivity|]. split; [vm_compute; left|]. vm_compute. reflexivity.
Qed.
