(* ===== verification/WorkloadText.v ===== *)
(** * Workload service: names and shell text
    (sanitizeDNSLabel of dispatcher_volcano.go, shellQuote of dispatcher_dataplane.go)

    Names of tenants become names of Kubernetes objects and paths become words of a shell
    script.  The names are DNS labels whatever they are made from, and the shell reads back
    the words that were quoted. *)

From stdpp Require Import base gmap strings list.
From Stdlib Require Import ZArith Lia Ascii.
From S2P Require Import Prelude GoValue.
Local Open Scope Z_scope.

(** ** DNS labels *)

Definition dash : ascii := "-"%char.

Definition label_char (c : ascii) : bool :=
  let n := nat_of_ascii c in
  ((97 <=? n)%nat && (n <=? 122)%nat) || ((48 <=? n)%nat && (n <=? 57)%nat) || Ascii.eqb c dash.

(** [strings.Map] maps a character outside the set to a dash.  One of several bytes gives
    several dashes here, and runs of dashes are reduced to one below. *)
Definition label_map (c : ascii) : ascii := let c' := lower_ascii c in if label_char c' then c' else dash.

(** unicode.ToLower takes two characters outside ASCII into the set: the capital I with a dot
    (U+0130) and the Kelvin sign (U+212A). *)
Fixpoint map_label (l : list ascii) : list ascii :=
  match l with
  | [] => []
  | a :: r =>
      match r with
      | [] => [label_map a]
      | b :: r1 =>
          if Ascii.eqb a "196"%char && Ascii.eqb b "176"%char then "i"%char :: map_label r1
          else match r1 with
               | [] => label_map a :: map_label r
               | c :: r2 => if Ascii.eqb a "226"%char && Ascii.eqb b "132"%char && Ascii.eqb c "170"%char then "k"%char :: map_label r2
                            else label_map a :: map_label r
               end
      end
  end.

(** [strings.ReplaceAll(s, "--", "-")]: from the left, without overlap. *)
Fixpoint replace_dashes (l : list ascii) : list ascii :=
  match l with
  | a :: ((b :: r) as rest) => if Ascii.eqb a dash && Ascii.eqb b dash then dash :: replace_dashes r else a :: replace_dashes rest
  | _ => l
  end.

Fixpoint has_double_dash (l : list ascii) : bool :=
  match l with
  | a :: ((b :: _) as rest) => (Ascii.eqb a dash && Ascii.eqb b dash) || has_double_dash rest
  | _ => false
  end.

(** The loop; every round shortens the text, so its length is fuel enough. *)
Fixpoint collapse_loop (fuel : nat) (l : list ascii) : list ascii :=
  match fuel with
  | O => l
  | S fuel' => if has_double_dash l then collapse_loop fuel' (replace_dashes l) else l
  end.

Fixpoint drop_dashes (l : list ascii) : list ascii :=
  match l with c :: r => if Ascii.eqb c dash then drop_dashes r else l | [] => [] end.
Definition trim_right_dashes (l : list ascii) : list ascii := rev (drop_dashes (rev l)).

Definition clean_label (l : list ascii) (maxLen : nat) : list ascii :=
  let mapped := map_label l in
  let sanitized := trim_right_dashes (drop_dashes (collapse_loop (length mapped) mapped)) in
  if (maxLen <? length sanitized)%nat then trim_right_dashes (take maxLen sanitized) else sanitized.

Definition cleanDNSLabel (value : string) (maxLen : Z) : string := of_bytes (clean_label (bytes_of value) (Z.to_nat maxLen)).

Definition sanitizeDNSLabel (name fallback : string) (maxLen : Z) : string :=
  let maxLen := if maxLen <=? 0 then 63 else maxLen in
  let cleaned := cleanDNSLabel name maxLen in
  if negb (str_empty cleaned) then cleaned
  else
    let cleaned' := cleanDNSLabel fallback maxLen in
    if negb (str_empty cleaned') then cleaned' else "a".

(** *** The loop ends *)

Lemma replace_dashes_cons a b r : replace_dashes (a :: b :: r) =
  if Ascii.eqb a dash && Ascii.eqb b dash then dash :: replace_dashes r else a :: replace_dashes (b :: r).
Proof. reflexivity. Qed.

Lemma has_double_cons a b r : has_double_dash (a :: b :: r) = (Ascii.eqb a dash && Ascii.eqb b dash) || has_double_dash (b :: r).
Proof. reflexivity. Qed.

Lemma replace_dashes_length l : (length (replace_dashes l) <= length l)%nat /\
  (has_double_dash l = true -> (length (replace_dashes l) < length l)%nat).
Proof.
  induction l as [l IH] using (induction_ltof1 _ (@length ascii)). unfold ltof in IH.
  destruct l as [|a [|b r]]; [done|done|]. rewrite replace_dashes_cons, has_double_cons.
  destruct (Ascii.eqb a dash && Ascii.eqb b dash) eqn:E; cbn [orb].
  - destruct (IH r) as [H _]; [cbn; lia|]. cbn [length]. split; [|intros _]; lia.
  - destruct (IH (b :: r)) as [H1 H2]; [cbn; lia|]. cbn [length] in H1, H2 |- *. split; [lia|]. intros H%H2. lia.
Qed.

Lemma collapse_done fuel l : (length l <= fuel)%nat -> has_double_dash (collapse_loop fuel l) = false.
Proof.
  revert l. induction fuel as [|fuel IH]; intros l Hl; cbn.
  - by destruct l; [|cbn in Hl; lia].
  - destruct (has_double_dash l) eqn:E; [|done]. apply IH. apply replace_dashes_length in E. lia.
Qed.

(** *** and is a single pass over the text *)

(** The text with every run of dashes reduced to one. *)
Fixpoint squeeze (l : list ascii) : list ascii :=
  match l with
  | a :: r => if Ascii.eqb a dash
              then match squeeze r with b :: _ => if Ascii.eqb b dash then squeeze r else a :: squeeze r | [] => [a] end
              else a :: squeeze r
  | [] => []
  end.

Lemma squeeze_dash l : squeeze (dash :: dash :: l) = squeeze (dash :: l).
Proof.
  change (squeeze (dash :: dash :: l)) with
    (match squeeze (dash :: l) with b :: _ => if Ascii.eqb b dash then squeeze (dash :: l) else dash :: squeeze (dash :: l) | [] => [dash] end).
  assert (exists r, squeeze (dash :: l) = dash :: r) as [r ->]; [|by rewrite Ascii.eqb_refl].
  cbn. destruct (squeeze l) as [|b s]; [by eexists|]. destruct (Ascii.eqb_spec b dash) as [->|]; by eexists.
Qed.

Lemma squeeze_cons a l l' : squeeze l = squeeze l' -> squeeze (a :: l) = squeeze (a :: l').
Proof. cbn. by intros ->. Qed.

Lemma squeeze_replace l : squeeze (replace_dashes l) = squeeze l.
Proof.
  induction l as [l IH] using (induction_ltof1 _ (@length ascii)). unfold ltof in IH.
  destruct l as [|a [|b r]]; [done|done|]. rewrite replace_dashes_cons.
  destruct (Ascii.eqb_spec a dash) as [->|Ha]; destruct (Ascii.eqb_spec b dash) as [->|Hb]; cbn [andb].
  1: rewrite squeeze_dash; apply squeeze_cons, IH; cbn; lia.
  all: apply squeeze_cons, IH; cbn; lia.
Qed.

Lemma squeeze_id l : has_double_dash l = false -> squeeze l = l.
Proof.
  induction l as [|a r IH]; [done|]. cbn [squeeze]. destruct r as [|b r].
  - intros _. cbn. by destruct (Ascii.eqb a dash).
  - intros H. rewrite has_double_cons in H. apply orb_false_iff in H as [Hd H]. rewrite (IH H).
    destruct (Ascii.eqb a dash); [|done]. cbn in Hd. by rewrite Hd.
Qed.

(** The loop computes the single pass. *)
Lemma collapse_squeeze l : collapse_loop (length l) l = squeeze l.
Proof.
  assert (forall fuel l, squeeze (collapse_loop fuel l) = squeeze l) as Hs.
  { induction fuel as [|fuel IH]; intros l'; cbn; [done|]. destruct (has_double_dash l'); [|done]. by rewrite IH, squeeze_replace. }
  rewrite <- (squeeze_id (collapse_loop (length l) l)); [apply Hs|by apply collapse_done].
Qed.

(** *** The result is a DNS label *)

Definition dns_label (l : list ascii) (maxLen : nat) : Prop :=
  l ≠ [] /\ (length l <= maxLen)%nat /\ Forall (fun c => label_char c = true) l /\
  hd_error l ≠ Some dash /\ last l ≠ Some dash /\ has_double_dash l = false.

Lemma drop_dashes_suffix l : exists p, l = p ++ drop_dashes l.
Proof.
  induction l as [|c r [p Hp]]; cbn; [by exists []|]. destruct (Ascii.eqb c dash); [|by exists []].
  exists (c :: p). cbn. by rewrite <- Hp.
Qed.

Lemma drop_dashes_head l : hd_error (drop_dashes l) ≠ Some dash.
Proof. induction l as [|c r IH]; cbn; [done|]. destruct (Ascii.eqb_spec c dash); [done|cbn; congruence]. Qed.

Lemma drop_dashes_id l : hd_error l ≠ Some dash -> drop_dashes l = l.
Proof. destruct l as [|c r]; cbn; [done|]. destruct (Ascii.eqb_spec c dash) as [->|]; [done|]. done. Qed.

Lemma last_rev {A} (l : list A) : last l = hd_error (rev l).
Proof. rewrite <- (rev_involutive l) at 1. destruct (rev l); cbn; [done|]. by rewrite last_snoc. Qed.

Lemma trim_right_prefix l : exists s, l = trim_right_dashes l ++ s.
Proof.
  destruct (drop_dashes_suffix (rev l)) as [p Hp]. exists (rev p). unfold trim_right_dashes.
  rewrite <- rev_app_distr, <- Hp. by rewrite rev_involutive.
Qed.

Lemma trim_right_last l : last (trim_right_dashes l) ≠ Some dash.
Proof. rewrite last_rev. unfold trim_right_dashes. rewrite rev_involutive. apply drop_dashes_head. Qed.

Lemma trim_right_id l : last l ≠ Some dash -> trim_right_dashes l = l.
Proof. rewrite last_rev. intros H. unfold trim_right_dashes. by rewrite drop_dashes_id, rev_involutive. Qed.

Lemma double_dash_app l1 l2 : has_double_dash (l1 ++ l2) = false -> has_double_dash l1 = false /\ has_double_dash l2 = false.
Proof.
  induction l1 as [|a [|b r] IH]; cbn [app has_double_dash]; [done| |].
  - intros H. split; [done|]. cbn in H. destruct l2; [done|]. apply orb_false_iff in H as [_ H]. exact H.
  - intros [-> H]%orb_false_iff. cbn. by apply IH.
Qed.

(** A piece of a good text is good. *)
Definition good (l : list ascii) : Prop := Forall (fun c => label_char c = true) l /\ has_double_dash l = false.

Lemma good_app l1 l2 : good (l1 ++ l2) -> good l1 /\ good l2.
Proof. unfold good. rewrite Forall_app. intros [[H1 H2] [H3 H4]%double_dash_app]. done. Qed.

Lemma good_squeeze l : Forall (fun c => label_char c = true) l -> good (squeeze l).
Proof.
  intros H. split; [|rewrite <- collapse_squeeze; by apply collapse_done].
  induction H as [|c r Hc _ IH]; cbn; [constructor|]. destruct (Ascii.eqb c dash); [|by constructor].
  destruct (squeeze r) as [|b s]; [by repeat constructor|]. destruct (Ascii.eqb b dash); [done|by constructor].
Qed.

Lemma label_map_char c : label_char (label_map c) = true.
Proof. unfold label_map. cbn zeta. destruct (label_char (lower_ascii c)) eqn:E; [done|reflexivity]. Qed.

Lemma label_map_id c : label_char c = true -> label_map c = c.
Proof. destruct c as [[] [] [] [] [] [] [] []]; cbn; try discriminate; reflexivity. Qed.

Lemma map_label_chars l : Forall (fun c => label_char c = true) (map_label l).
Proof.
  induction l as [l IH] using (induction_ltof1 _ (@length ascii)). unfold ltof in IH. destruct l as [|a [|b r1]]; cbn [map_label].
  - constructor.
  - repeat constructor. apply label_map_char.
  - destruct (_ && _); [constructor; [done|apply IH; cbn; lia]|]. destruct r1 as [|c r2].
    + repeat constructor; apply label_map_char.
    + destruct (_ && _); constructor; [done|apply IH; cbn; lia|apply label_map_char|apply (IH (b :: c :: r2)); cbn; lia].
Qed.

Lemma map_label_id l : Forall (fun c => label_char c = true) l -> map_label l = l.
Proof.
  induction 1 as [|a r Ha Hr IH]; [done|]. cbn [map_label]. pose proof (label_map_id a Ha) as Hm. destruct r as [|b r1]; [by rewrite Hm|].
  destruct (Ascii.eqb_spec a "196"%char) as [->|]; [done|]. destruct (Ascii.eqb_spec a "226"%char) as [->|]; [done|]. cbn [andb].
  destruct r1; by rewrite Hm, IH.
Qed.

Lemma head_prefix {A} (l s : list A) x : hd_error (l ++ s) ≠ Some x -> l ≠ [] -> hd_error l ≠ Some x.
Proof. by destruct l. Qed.

Lemma clean_label_valid l n : clean_label l n = [] \/ dns_label (clean_label l n) n.
Proof.
  unfold clean_label. cbn zeta. rewrite collapse_squeeze. set (q := squeeze (map_label l)).
  assert (good q) as Hq.
  { apply good_squeeze, map_label_chars. }
  set (d := drop_dashes q). set (t := trim_right_dashes d).
  assert (good t /\ (t ≠ [] -> hd_error t ≠ Some dash)) as [Ht Hh].
  { destruct (drop_dashes_suffix q) as [p Hp]. destruct (trim_right_prefix d) as [s Hs]. fold t in Hs.
    rewrite Hp in Hq. apply good_app in Hq as [_ Hq]. fold d in Hq. rewrite Hs in Hq. split; [by apply good_app in Hq as [Hq _]|].
    apply (head_prefix _ s). rewrite <- Hs. apply drop_dashes_head. }
  destruct (Nat.ltb_spec n (length t)) as [Hn|Hn].
  - destruct (trim_right_prefix (take n t)) as [s Hs]. set (w := trim_right_dashes (take n t)) in *.
    destruct (decide (w = [])) as [->|Hw]; [by left|right]. rewrite <- (take_drop n t), Hs, <- app_assoc in Ht, Hh.
    apply good_app in Ht as [[Hc Hd] _]. repeat split; try done.
    + apply (f_equal length) in Hs. rewrite length_app, length_take in Hs. lia.
    + eapply head_prefix; [apply Hh|done]. by destruct w.
    + apply trim_right_last.
  - destruct (decide (t = [])) as [E|E]; [by left|right]. destruct Ht. repeat split; try done; [by apply Hh|apply trim_right_last].
Qed.

Lemma clean_label_id l n : dns_label l n -> clean_label l n = l.
Proof.
  intros (_ & Hn & Hc & Hh & Hl & Hd). unfold clean_label. cbn zeta. rewrite collapse_squeeze.
  rewrite (map_label_id l Hc). rewrite squeeze_id, drop_dashes_id, trim_right_id by done. destruct (Nat.ltb_spec n (length l)); [lia|done].
Qed.

Lemma str_empty_bytes l : str_empty (of_bytes l) = match l with [] => true | _ => false end.
Proof. by destruct l. Qed.

Lemma sanitized_label name fallback maxLen : 0 < maxLen ->
  let n := Z.to_nat maxLen in
  dns_label (bytes_of (sanitizeDNSLabel name fallback maxLen)) n /\
  (dns_label (bytes_of name) n -> sanitizeDNSLabel name fallback maxLen = name).
Proof.
  intros Hm. cbn zeta. unfold sanitizeDNSLabel. destruct (Z.leb_spec maxLen 0); [lia|]. cbn zeta. unfold cleanDNSLabel.
  rewrite !str_empty_bytes. split.
  - destruct (clean_label_valid (bytes_of name) (Z.to_nat maxLen)) as [->|H1].
    + cbn [negb]. destruct (clean_label_valid (bytes_of fallback) (Z.to_nat maxLen)) as [->|H2]; cbn [negb].
      * repeat split; try done; [cbn; lia|by repeat constructor].
      * destruct (clean_label (bytes_of fallback) _) eqn:E; [by destruct H2|]. rewrite <- E in *. cbn [negb]. by rewrite bytes_of_of.
    + destruct (clean_label (bytes_of name) _) eqn:E; [by destruct H1|]. rewrite <- E in *. cbn [negb]. by rewrite bytes_of_of.
  - intros Hl. rewrite (clean_label_id _ _ Hl). destruct (bytes_of name) eqn:E; [by destruct Hl|]. cbn [negb]. rewrite <- E. apply of_bytes_of.
Qed.

(** C39: Whatever the names of a job and its manifests, the name the dispatcher makes of
    them is a DNS label of at most the given length: not empty, of lower-case letters,
    digits and dashes, without a dash at an end or two in a row; and a name that is one
    already is kept. *)
Theorem sanitized_name_valid name fallback maxLen : 0 < maxLen ->
  let n := Z.to_nat maxLen in
  dns_label (bytes_of (sanitizeDNSLabel name fallback maxLen)) n /\
  (dns_label (bytes_of name) n -> sanitizeDNSLabel name fallback maxLen = name).
Proof.
  apply sanitized_label.
Qed.

(** Such a name has no white space at its ends. *)
Lemma label_not_space ps l : Forall (fun p => match p with q :: _ => label_char q = false | [] => False end) ps ->
  match l with c :: _ => label_char c = true | [] => False end -> strip_any ps l = None.
Proof.
  intros Hps Hl. apply strip_any_none. eapply Forall_impl; [exact Hps|]. intros [|q p] Hq; [done|].
  destruct l as [|c l]; [done|]. cbn. destruct (Ascii.eqb_spec q c) as [->|]; [congruence|done].
Qed.

Lemma dns_label_trimmed s n : dns_label (bytes_of s) n -> TrimSpace s = s /\ s ≠ "".
Proof.
  intros (Hne & _ & Hc & _). split; [|by intros ->]. apply TrimSpace_fix. split; apply label_not_space.
  - by repeat constructor.
  - destruct (bytes_of s); [done|by inversion Hc].
  - by repeat constructor.
  - destruct (rev (bytes_of s)) as [|c r] eqn:E; [by apply (f_equal (@rev ascii)) in E; rewrite rev_involutive in E|].
    rewrite Forall_forall in Hc. apply Hc. apply list_elem_of_In, in_rev. rewrite E. by left.
Qed.

Lemma sanitized_name_valid_witness :
  dns_label (bytes_of (sanitizeDNSLabel "Alice__Job 7!" "pod" 63)) 63 /\ sanitizeDNSLabel "Alice__Job 7!" "pod" 63 = "alice-job-7".
Proof. split; [|vm_compute; reflexivity]. apply (proj1 (sanitized_name_valid "Alice__Job 7!" "pod" 63 ltac:(lia))). Defined.

Example kelvin_becomes_k : sanitizeDNSLabel (of_bytes ["226"; "132"; "170"; "A"; "196"; "176"]%char) "pod" 63 = "kai".
Proof. vm_compute. reflexivity. Qed.

(** ** Shell words *)

Definition quote_char : ascii := "'"%char.
Definition dquote_char : ascii := Ascii.ascii_of_nat 34.

(** A quote inside the text closes the quotation, is quoted by double quotes, and reopens it. *)
Definition escape_quote (c : ascii) : list ascii :=
  if Ascii.eqb c quote_char then [quote_char; dquote_char; quote_char; dquote_char; quote_char] else [c].

Definition shellQuote (value : string) : string :=
  of_bytes (quote_char :: flat_map escape_quote (bytes_of value) ++ [quote_char]).

(** [strings.TrimRight(s, "/")] *)
Fixpoint drop_slashes (l : list ascii) : list ascii :=
  match l with c :: r => if Ascii.eqb c "/"%char then drop_slashes r else l | [] => [] end.
Definition TrimRightSlash (s : string) : string := of_bytes (rev (drop_slashes (rev (bytes_of s)))).

(** *** How a POSIX shell reads a script

    Words are separated by blanks and commands by newlines; single quotes keep everything
    between them, double quotes everything but the characters that start an expansion.  A
    character with a meaning of its own outside quotes makes the script more than a list of
    plain commands, as does an open quotation: [None]. *)

Inductive quoting := Unquoted | Single | Double.

Definition char_in (c : ascii) (s : string) : bool := existsb (Ascii.eqb c) (bytes_of s).
Definition shell_special : string := "|&;<>()$`\*?[#~={}!".
Definition expands : string := "$`\!".
Definition newline : ascii := Ascii.ascii_of_nat 10.
Definition tab : ascii := Ascii.ascii_of_nat 9.

Record shell_state := Shell { sh_word : option (list ascii); sh_command : list string; sh_script : list (list string) }.

Definition end_word (st : shell_state) : shell_state :=
  match sh_word st with
  | Some w => Shell None (sh_command st ++ [of_bytes (rev w)]) (sh_script st)
  | None => st
  end.
Definition end_command (st : shell_state) : shell_state :=
  let st' := end_word st in
  match sh_command st' with
  | [] => st'
  | cmd => Shell None [] (sh_script st' ++ [cmd])
  end.
Definition begin_word (st : shell_state) : shell_state := Shell (Some (default [] (sh_word st))) (sh_command st) (sh_script st).
Definition add_char (c : ascii) (st : shell_state) : shell_state := Shell (Some (c :: default [] (sh_word st))) (sh_command st) (sh_script st).

Fixpoint shell_read (mode : quoting) (st : shell_state) (l : list ascii) : option shell_state :=
  match l with
  | [] => match mode with Unquoted => Some (end_command st) | _ => None end
  | c :: r =>
      match mode with
      | Unquoted =>
          if Ascii.eqb c newline then shell_read Unquoted (end_command st) r
          else if Ascii.eqb c " "%char || Ascii.eqb c tab then shell_read Unquoted (end_word st) r
          else if Ascii.eqb c quote_char then shell_read Single (begin_word st) r
          else if Ascii.eqb c dquote_char then shell_read Double (begin_word st) r
          else if char_in c shell_special then None
          else shell_read Unquoted (add_char c st) r
      | Single => if Ascii.eqb c quote_char then shell_read Unquoted st r else shell_read Single (add_char c st) r
      | Double =>
          if Ascii.eqb c dquote_char then shell_read Unquoted st r
          else if char_in c expands then None
          else shell_read Double (add_char c st) r
      end
  end.

(** The commands of a script, each a list of words. *)
Definition shell_parse (script : string) : option (list (list string)) :=
  sh_script <$> shell_read Unquoted (Shell None [] []) (bytes_of script).

(** *** Quoted words are read back *)

Lemma read_quoted_rest v : forall w cmd script rest,
  shell_read Single (Shell (Some w) cmd script) (flat_map escape_quote v ++ quote_char :: rest) =
  shell_read Unquoted (Shell (Some (rev v ++ w)) cmd script) rest.
Proof.
  induction v as [|c v IH]; intros w cmd script rest; [reflexivity|].
  cbn [flat_map rev]. unfold escape_quote at 1. rewrite <- !app_assoc. destruct (Ascii.eqb_spec c quote_char) as [->|Hc].
  - cbn. unfold add_char, begin_word. cbn. apply IH.
  - cbn. destruct (Ascii.eqb_spec c quote_char); [done|]. apply IH.
Qed.

Lemma read_quoted v cmd script rest :
  shell_read Unquoted (Shell None cmd script) (bytes_of (shellQuote v) ++ rest) =
  shell_read Unquoted (Shell (Some (rev (bytes_of v))) cmd script) rest.
Proof.
  unfold shellQuote. rewrite bytes_of_of. cbn. unfold begin_word. cbn. rewrite <- app_assoc. cbn.
  rewrite read_quoted_rest. by rewrite app_nil_r.
Qed.

(** A command whose last words are quoted, read to the end of its line. *)
Lemma read_end_quoted v cmd script rest :
  shell_read Unquoted (Shell (Some (rev (bytes_of v))) cmd script) (newline :: rest) =
  shell_read Unquoted (Shell None [] (script ++ [cmd ++ [v]])) rest.
Proof.
  cbn. unfold end_command, end_word. cbn. rewrite rev_involutive, of_bytes_of. by destruct cmd.
Qed.

Lemma read_blank_quoted v cmd script rest :
  shell_read Unquoted (Shell (Some (rev (bytes_of v))) cmd script) (" "%char :: rest) =
  shell_read Unquoted (Shell None (cmd ++ [v]) script) rest.
Proof. cbn. unfold end_word. cbn. by rewrite rev_involutive, of_bytes_of. Qed.

Lemma read_final_quoted v cmd script :
  shell_read Unquoted (Shell (Some (rev (bytes_of v))) cmd script) [] = Some (Shell None [] (script ++ [cmd ++ [v]])).
Proof. cbn. unfold end_command, end_word. cbn. rewrite rev_involutive, of_bytes_of. by destruct cmd. Qed.
