(* ===== verification/WorkloadInjectors.v ===== *)
(** * Workload service: what the job's profiles add to its manifests
    (dispatcher_placement.go, dispatcher_accelerator.go, dispatcher_network.go,
    dispatcher_streaming.go, dispatcher_dra.go)

    Each step takes the resources of a job, edits the object of each through the class of
    Unstructured and writes it back: labels and annotations of the placement profile, the
    node selector of the accelerator profile, annotations and environment of the network
    profile, the side container of a streaming session, and the device claims that replace
    the GPU resources of the containers. *)

From stdpp Require Import base gmap strings list fin_maps sorting.
From Stdlib Require Import ZArith Lia Ascii.
From S2P Require Import Prelude GoValue Store EventBus Crud RateLimit InputLimits Config Auth Guards SchedulerHttp WorkloadTypes WorkloadJobs WorkloadDispatch Unstructured WorkloadManifest.
Local Open Scope Z_scope.

(** The error of a library call that cannot set a value, without its text. *)
Definition field_error : derror := plain_error "value cannot be set".

(** The keys of a map as sort.Strings orders them. *)
Definition sortedNetworkKeys (m : gmap string string) : list string := SliceStable String.ltb (map fst (map_to_list m)).
Definition sortedPlacementKeys := sortedNetworkKeys.

(** The path of the metadata of a pod template. *)
Definition placementPodMetadataPath (podSpecPath : list string) : list string := removelast podSpecPath ++ ["metadata"].
Definition acceleratorPodMetadataPath := placementPodMetadataPath.
Definition podMetadataPath (podSpecPath : list string) : list string := removelast podSpecPath ++ ["metadata"; "annotations"].

Definition firstAnyValue (data : object) (keys : list string) : any := default VNil (GoValue.firstPresent data keys).

(** The entries of a map that are text, neither key nor text blank. *)
Definition networkStringMap (raw : any) : gmap string string :=
  match raw with
  | VMap data => filter (fun kv => TrimSpace kv.1 ≠ "" /\ TrimSpace kv.2 ≠ "") (omap as_str data)
  | _ => ∅
  end.
Definition placementStringMap := networkStringMap.

Section Injectors.
Context `{GoLib} `{UnstructuredLib}.

(** ** The shape of a step *)

(** The first error ends the loop. *)
Fixpoint each_resource (f : dispatchResource -> result derror dispatchResource) (rs : list dispatchResource) : result derror (list dispatchResource) :=
  match rs with
  | [] => Ok []
  | r :: rest => match f r with
                 | Err e => Err e
                 | Ok r' => match each_resource f rest with Ok out => Ok (r' :: out) | Err e => Err e end
                 end
  end.

Definition with_raw (r : dispatchResource) (u : object) : result derror dispatchResource :=
  match marshal_object u with Ok raw => Ok (Resource (dr_Name r) (dr_Kind r) raw) | Err e => Err e end.

Definition edit_resource (edit : object -> result derror object) (r : dispatchResource) : result derror dispatchResource :=
  match dispatchObject r with
  | Err e => Err e
  | Ok u => match edit u with Ok u' => with_raw r u' | Err e => Err e end
  end.

Fixpoint each_path (f : object -> list string -> result derror object) (u : object) (paths : list (list string)) : result derror object :=
  match paths with
  | [] => Ok u
  | p :: rest => match f u p with Ok u' => each_path f u' rest | Err e => Err e end
  end.

(** The maps of a list are edited in place; the first error ends the loop. *)
Fixpoint each_map (f : object -> result derror object) (l : list any) : result derror (list any) :=
  match l with
  | [] => Ok []
  | VMap m :: rest => match f m with
                      | Err e => Err e
                      | Ok m' => match each_map f rest with Ok out => Ok (VMap m' :: out) | Err e => Err e end
                      end
  | v :: rest => match each_map f rest with Ok out => Ok (v :: out) | Err e => Err e end
  end.

Definition set_slice (u : object) (l : list any) (path : list string) : result derror object :=
  match SetNestedSlice u l path with Some u' => Ok u' | None => Err field_error end.

Definition edit_tasks (f : object -> result derror object) (u : object) : result derror object :=
  match NestedSlice u ["spec"; "tasks"] with
  | Found tasks => match each_map f tasks with Ok tasks' => set_slice u tasks' ["spec"; "tasks"] | Err e => Err e end
  | _ => Ok u
  end.

(** ** Placement *)

Record dispatchPlacementSpec := PlacementSpec { pl_Labels : gmap string string; pl_Annotations : gmap string string }.

Definition placementSpecFromJob (job : object) : dispatchPlacementSpec :=
  PlacementSpec (placementStringMap (firstAnyValue job ["placement_labels"; "placementLabels"]))
                (placementStringMap (firstAnyValue job ["placement_annotations"; "placementAnnotations"])).

Definition placementSpecEmpty (spec : dispatchPlacementSpec) : bool :=
  bool_decide (pl_Labels spec = ∅) && bool_decide (pl_Annotations spec = ∅).

Definition mergePlacementStringMap (obj : object) (values : gmap string string) (path : list string) : object := merge_strings obj values path.

Definition mergePlacementObjectMetadata (u : object) (spec : dispatchPlacementSpec) : object :=
  let u1 := if decide (pl_Labels spec = ∅) then u else SetLabels u (pl_Labels spec ∪ default ∅ (GetLabels u)) in
  if decide (pl_Annotations spec = ∅) then u1 else SetAnnotations u1 (pl_Annotations spec ∪ default ∅ (GetAnnotations u1)).

Definition injectPlacementIntoPodTemplate (spec : dispatchPlacementSpec) (obj : object) (podSpecPath : list string) : object :=
  let metadataPath := placementPodMetadataPath podSpecPath in
  let obj1 := if decide (pl_Labels spec = ∅) then obj else mergePlacementStringMap obj (pl_Labels spec) (metadataPath ++ ["labels"]) in
  if decide (pl_Annotations spec = ∅) then obj1 else mergePlacementStringMap obj1 (pl_Annotations spec) (metadataPath ++ ["annotations"]).

Definition injectPlacementIntoVCJob (u : object) (spec : dispatchPlacementSpec) : object :=
  match NestedSlice u ["spec"; "tasks"] with
  | Found tasks =>
      default u (SetNestedSlice u (map (update_task (fun task => injectPlacementIntoPodTemplate spec task ["template"; "spec"])) tasks) ["spec"; "tasks"])
  | _ => u
  end.

Definition injectPlacementIntoResource (spec : dispatchPlacementSpec) : dispatchResource -> result derror dispatchResource :=
  edit_resource (fun u0 =>
    let u := mergePlacementObjectMetadata u0 spec in
    Ok (if isVolcanoVCJob u then injectPlacementIntoVCJob u spec
        else fold_left (injectPlacementIntoPodTemplate spec) (podSpecPaths (GetKind u)) u)).

Definition preparePlacementDispatchResources (job : object) (rs : list dispatchResource) : result derror (list dispatchResource) :=
  let spec := placementSpecFromJob job in
  if placementSpecEmpty spec then Ok rs else each_resource (injectPlacementIntoResource spec) rs.

(** ** Accelerators *)

Record dispatchAcceleratorSpec := AcceleratorSpec { ac_NodeSelector : gmap string string; ac_Labels : gmap string string }.

Definition acceleratorSpecFromJob (job : object) : dispatchAcceleratorSpec :=
  AcceleratorSpec (networkStringMap (firstAnyValue job ["accelerator_node_selector"; "acceleratorNodeSelector"]))
                  (networkStringMap (firstAnyValue job ["accelerator_labels"; "acceleratorLabels"])).

Definition acceleratorSpecEmpty (spec : dispatchAcceleratorSpec) : bool :=
  bool_decide (ac_NodeSelector spec = ∅) && bool_decide (ac_Labels spec = ∅).

Definition acceleratorOwnedLabelKey (key : string) : bool := HasPrefix key "accelerator." || HasPrefix key "nexuspaas.io/accelerator-".

Definition acceleratorSelectorConflictError : string := "accelerator selector conflict: key exists with different value".

Fixpoint merge_selector (selector : gmap string string) (keys : list string) (current : gmap string string) : result derror (gmap string string) :=
  match keys with
  | [] => Ok current
  | key :: rest =>
      let value := default "" (selector !! key) in
      if match current !! key with Some existing => negb (String.eqb existing value) | None => false end
      then Err (plain_error (acceleratorSelectorConflictError +:+ ": " +:+ key))
      else merge_selector selector rest (<[key := value]> current)
  end.

Definition mergeAcceleratorNodeSelector (obj : object) (path : list string) (selector : gmap string string) : result derror object :=
  match merge_selector selector (sortedNetworkKeys selector) (found_or ∅ (NestedStringMap obj path)) with
  | Err e => Err e
  | Ok merged => match SetNestedStringMap obj merged path with Some obj' => Ok obj' | None => Err field_error end
  end.

Definition mergeAcceleratorLabels (obj : object) (metadataPath : list string) (labels : gmap string string) : object :=
  merge_strings obj (filter (fun kv => acceleratorOwnedLabelKey kv.1 = true) labels) (metadataPath ++ ["labels"]).

Definition injectAcceleratorIntoPodTemplate (spec : dispatchAcceleratorSpec) (obj : object) (podSpecPath : list string) : result derror object :=
  match (if decide (ac_NodeSelector spec = ∅) then Ok obj
         else mergeAcceleratorNodeSelector obj (childPath podSpecPath "nodeSelector") (ac_NodeSelector spec)) with
  | Err e => Err e
  | Ok obj1 => Ok (if decide (ac_Labels spec = ∅) then obj1
                   else mergeAcceleratorLabels obj1 (acceleratorPodMetadataPath podSpecPath) (ac_Labels spec))
  end.

Definition injectAcceleratorIntoVCJob (u : object) (spec : dispatchAcceleratorSpec) : result derror object :=
  edit_tasks (fun task => injectAcceleratorIntoPodTemplate spec task ["template"; "spec"]) u.

Definition injectAcceleratorIntoResource (spec : dispatchAcceleratorSpec) : dispatchResource -> result derror dispatchResource :=
  edit_resource (fun u => if isVolcanoVCJob u then injectAcceleratorIntoVCJob u spec
                          else each_path (injectAcceleratorIntoPodTemplate spec) u (podSpecPaths (GetKind u))).

Definition prepareAcceleratorDispatchResources (job : object) (rs : list dispatchResource) : result derror (list dispatchResource) :=
  let spec := acceleratorSpecFromJob job in
  if acceleratorSpecEmpty spec then Ok rs else each_resource (injectAcceleratorIntoResource spec) rs.

(** ** Networks *)

Record dispatchNetworkSpec := NetworkSpec { nw_Annotations : gmap string string; nw_Env : gmap string string }.

Definition networkSpecFromJob (job : object) : dispatchNetworkSpec :=
  NetworkSpec (networkStringMap (firstAnyValue job ["network_annotations"; "networkAnnotations"]))
              (networkStringMap (firstAnyValue job ["network_env"; "networkEnv"])).

Definition networkSpecEmpty (spec : dispatchNetworkSpec) : bool :=
  bool_decide (nw_Annotations spec = ∅) && bool_decide (nw_Env spec = ∅).

(** [item["name"] == name] for an [any]. *)
Definition named_exactly (name : string) (item : object) : bool := match mget item "name" with VString s => String.eqb s name | _ => false end.

Fixpoint setNetworkEnv (items : list any) (name value : string) : list any :=
  match items with
  | [] => [VMap {["name" := VString name; "value" := VString value]}]
  | VMap item :: rest =>
      if named_exactly name item then VMap (<["value" := VString value]> item) :: rest else VMap item :: setNetworkEnv rest name value
  | raw :: rest => raw :: setNetworkEnv rest name value
  end.

Definition mergeNetworkEnv (env : gmap string string) (container : object) : object :=
  let items := default [] (as_list (mget container "env")) in
  <["env" := VList (fold_left (fun items key => setNetworkEnv items key (default "" (env !! key))) (sortedNetworkKeys env) items)]> container.

Definition mergeNetworkAnnotations (obj : object) (path : list string) (annotations : gmap string string) : result derror object :=
  match SetNestedStringMap obj (annotations ∪ found_or ∅ (NestedStringMap obj path)) path with Some obj' => Ok obj' | None => Err field_error end.

Definition injectNetworkIntoPodTemplate (spec : dispatchNetworkSpec) (obj : object) (podSpecPath : list string) : result derror object :=
  match (if decide (nw_Annotations spec = ∅) then Ok obj
         else mergeNetworkAnnotations obj (podMetadataPath podSpecPath) (nw_Annotations spec)) with
  | Err e => Err e
  | Ok obj1 =>
      if decide (nw_Env spec = ∅) then Ok obj1
      else match NestedSlice obj1 (childPath podSpecPath "containers") with
           | Found containers => set_slice obj1 (map (update_task (mergeNetworkEnv (nw_Env spec))) containers) (childPath podSpecPath "containers")
           | _ => Ok obj1
           end
  end.

Definition injectNetworkIntoVCJob (u : object) (spec : dispatchNetworkSpec) : result derror object :=
  edit_tasks (fun task => injectNetworkIntoPodTemplate spec task ["template"; "spec"]) u.

Definition injectNetworkIntoResource (spec : dispatchNetworkSpec) : dispatchResource -> result derror dispatchResource :=
  edit_resource (fun u => if isVolcanoVCJob u then injectNetworkIntoVCJob u spec
                          else each_path (injectNetworkIntoPodTemplate spec) u (podSpecPaths (GetKind u))).

Definition prepareNetworkDispatchResources (job : object) (rs : list dispatchResource) : result derror (list dispatchResource) :=
  let spec := networkSpecFromJob job in
  if networkSpecEmpty spec then Ok rs else each_resource (injectNetworkIntoResource spec) rs.

(** ** Streaming sessions *)

Definition streamSidecarContainerName : string := "selkies".
Definition streamSidecarSignalPort : Z := 8080.
Definition streamSidecarMetricsPort : Z := 9090.
Definition streamX11SocketVolumeName : string := "selkies-x11-socket".
Definition streamX11SocketMountPath : string := "/tmp/.X11-unix".
Definition streamSHMVolumeName : string := "selkies-shm".
Definition streamSHMMountPath : string := "/dev/shm".
Definition streamDisplayValue : string := ":0".

Record streamSidecarConfig := SidecarConfig { sc_Image : string; sc_BitrateKbps : Z }.

Definition streamingSessionEnabled (job : object) : bool := BoolValue job ["streaming_session"; "streamingSession"; "StreamingSession"].

Definition streamSidecarConfigFromJob (job : object) : result derror streamSidecarConfig :=
  let image := TrimSpace (TextValue job ["stream_sidecar_image"; "streamSidecarImage"]) in
  if str_empty image then Err (plain_error "streaming session requires a configured stream sidecar image (STREAM_SIDECAR_IMAGE)")
  else Ok (SidecarConfig image (IntValue job ["stream_max_bitrate_kbps"; "streamMaxBitrateKbps"; "StreamMaxBitrateKbps"])).

Definition sliceHasNamedItem (items : list any) (name : string) : bool :=
  existsb (fun raw => match raw with VMap item => String.eqb (TextValue item ["name"]) name | _ => false end) items.

(** [item["name"].(string)] of the items the dispatcher makes. *)
Definition item_name (item : object) : string := default "" (as_str (mget item "name")).

Definition addNamedItem (key : string) (item : object) (container : object) : object :=
  let list_ := default [] (as_list (mget container key)) in
  if sliceHasNamedItem list_ (item_name item) then container else <[key := VList (list_ ++ [VMap item])]> container.

Definition env_item (name value : string) : object := {["name" := VString name; "value" := VString value]}.

Definition sharedStreamVolumes : list object :=
  [{["name" := VString streamX11SocketVolumeName; "emptyDir" := VMap ∅]};
   {["name" := VString streamSHMVolumeName; "emptyDir" := VMap {["medium" := VString "Memory"]}]}].

Definition streamSidecarMounts : list object :=
  [{["name" := VString streamX11SocketVolumeName; "mountPath" := VString streamX11SocketMountPath]};
   {["name" := VString streamSHMVolumeName; "mountPath" := VString streamSHMMountPath]}].

Definition streamSidecarContainer (cfg : streamSidecarConfig) : object :=
  let bitrate := fmt_int 0 (sc_BitrateKbps cfg) in
  let env := [VMap (env_item "DISPLAY" streamDisplayValue); VMap (env_item "SELKIES_ENABLE_BASIC_AUTH" "false");
              VMap (env_item "NGINX_PORT" (fmt_int 0 streamSidecarSignalPort));
              VMap (env_item "SELKIES_METRICS_HTTP_PORT" (fmt_int 0 streamSidecarMetricsPort))]
             ++ (if 0 <? sc_BitrateKbps cfg
                 then [VMap (env_item "STREAM_MAX_BITRATE_KBPS" bitrate); VMap (env_item "SELKIES_VIDEO_BITRATE" bitrate)] else []) in
  {["name" := VString streamSidecarContainerName; "image" := VString (sc_Image cfg); "env" := VList env;
    "ports" := VList [VMap {["name" := VString "stream"; "containerPort" := VInt64 streamSidecarSignalPort]};
                      VMap {["name" := VString "stream-metrics"; "containerPort" := VInt64 streamSidecarMetricsPort]}];
    "volumeMounts" := VList (map VMap streamSidecarMounts)]}.

Definition stream_container (container : object) : object :=
  fold_left (fun c mount => addNamedItem "volumeMounts" mount c) streamSidecarMounts
    (addNamedItem "env" (env_item "DISPLAY" streamDisplayValue) container).

Definition addSharedStreamVolumes (u : object) (path : list string) : result derror object :=
  match NestedSlice u (childPath path "volumes") with
  | Malformed => Err (plain_error "read pod volumes: %w")
  | n =>
      let volumes := fold_left (fun vs vol => if sliceHasNamedItem vs (item_name vol) then vs else vs ++ [VMap vol])
                       sharedStreamVolumes (found_or [] n) in
      match SetNestedSlice u volumes (childPath path "volumes") with Some u' => Ok u' | None => Err (plain_error "set pod volumes: %w") end
  end.

(** The object, and whether the side container was added. *)
Definition injectSidecarIntoPodSpec (cfg : streamSidecarConfig) (u : object) (path : list string) : result derror (object * bool) :=
  match NestedSlice u (childPath path "containers") with
  | Malformed => Err (plain_error "read pod containers: %w")
  | Absent | Found [] => Ok (u, false)
  | Found containers =>
      if sliceHasNamedItem containers streamSidecarContainerName then Ok (u, false)
      else match SetNestedSlice u (map (update_task stream_container) containers ++ [VMap (streamSidecarContainer cfg)]) (childPath path "containers") with
           | None => Err (plain_error "set pod containers: %w")
           | Some u1 => match addSharedStreamVolumes u1 path with Ok u2 => Ok (u2, true) | Err e => Err e end
           end
  end.

Fixpoint inject_sidecars (cfg : streamSidecarConfig) (u : object) (mutated : bool) (paths : list (list string)) : result derror (object * bool) :=
  match paths with
  | [] => Ok (u, mutated)
  | p :: rest => match injectSidecarIntoPodSpec cfg u p with
                 | Ok (u', ok) => inject_sidecars cfg u' (mutated || ok) rest
                 | Err e => Err e
                 end
  end.

Definition injectStreamingSidecarIfNeeded (cfg : streamSidecarConfig) (r : dispatchResource) : result derror dispatchResource :=
  match dispatchObject r with
  | Err e => Err e
  | Ok u => match inject_sidecars cfg u false (podSpecPaths (GetKind u)) with
            | Err e => Err e
            | Ok (u', mutated) => if mutated then with_raw r u' else Ok r
            end
  end.

Definition prepareStreamingDispatchResources (job : object) (rs : list dispatchResource) : result derror (list dispatchResource) :=
  if negb (streamingSessionEnabled job) then Ok rs
  else match streamSidecarConfigFromJob job with
       | Err e => Err e
       | Ok cfg => each_resource (injectStreamingSidecarIfNeeded cfg) rs
       end.

(** ** Device claims *)

Definition draAPIVersion : string := "resource.k8s.io/v1".
Definition draResourceClaimTemplateKind : string := "ResourceClaimTemplate".
Definition draDefaultGPUResourceKey : string := "nvidia.com/gpu".
Definition draPodClaimName : string := "gpu".
Definition draLabelGPUCount : string := "platform-go/dra-gpu-count".
Definition draLabelSMPct : string := "platform-go/dra-sm-pct".
Definition draLabelEffectiveGPU : string := "platform-go/dra-effective-gpu".
Definition draLabelPinnedMem : string := "platform-go/dra-pinned-mem".
Definition draLabelGPUModel : string := "platform-go/dra-gpu-model".
Definition draLabelClaimName : string := "platform-go/dra-claim-name".
Definition draLabelSharingMode : string := "platform-go/dra-sharing-mode".
Definition draVolcanoResourceRequestAnno : string := "volcano.sh/resource-request".

(** strconv.FormatFloat(_, 'f', -1, 64) *)
Context (FormatFloat : float64 -> string).

Definition isGPUResourceKey (key : string) : bool :=
  let model := TrimPrefix key "nvidia.com/" in negb (String.eqb model key) && negb (str_empty model).

(** The text in front of the first dot: strings.Split(s, ".")[0]. *)
Fixpoint before_dot (l : list ascii) : list ascii :=
  match l with c :: r => if Ascii.eqb c "."%char then [] else c :: before_dot r | [] => [] end.
Definition first_part (s : string) : string := of_bytes (before_dot (bytes_of s)).

Definition modelFromDeviceClassName (name : string) : string :=
  if str_empty name then ""
  else if String.eqb name draDefaultDeviceClassName then "gpu"
  else if Contains name ".gpu." then first_part name
  else name.

Definition resourceKeyFromDeviceClassName (name : string) : string :=
  let model := modelFromDeviceClassName name in
  if str_empty model then draDefaultGPUResourceKey else "nvidia.com/" +:+ model.

Definition draResourceRequest (cfg : draDispatchConfig) : string :=
  resourceKeyFromDeviceClassName (dra_DeviceClassName cfg) +:+ ":" +:+ fmt_int 0 (dra_GPUCount cfg).

Definition sharedClaimTemplateName (cfg : draDispatchConfig) : string :=
  let base := if negb (str_empty (dra_DeviceClassName cfg)) && negb (String.eqb (dra_DeviceClassName cfg) draDefaultDeviceClassName)
              then "gpu-" +:+ first_part (dra_DeviceClassName cfg) else "gpu-shared" in
  let sm := default 100 (dra_SMPercentage cfg) in
  let mem := match dra_PinnedMemoryLimit cfg with Some p => ToLower p | None => "max" end in
  ToLower (base +:+ "-cnt" +:+ fmt_int 0 (dra_GPUCount cfg) +:+ "-sm" +:+ fmt_int 0 sm +:+ "-mem" +:+ mem).

Definition draGPULabels (cfg : draDispatchConfig) (claimName : string) : gmap string string :=
  if dra_GPUCount cfg <? 1 then ∅
  else
    let sm := match dra_SMPercentage cfg with Some p => if 0 <? p then p else 100 | None => 100 end in
    let model := modelFromDeviceClassName (dra_DeviceClassName cfg) in
    list_to_map
      ([(draLabelGPUCount, fmt_int 0 (dra_GPUCount cfg)); (draLabelSMPct, fmt_int 0 sm);
        (draLabelEffectiveGPU, FormatFloat (f64_div (f64_mul (f64_of_int (dra_GPUCount cfg)) (f64_of_int sm)) f64_100));
        (draLabelPinnedMem, match dra_PinnedMemoryLimit cfg with Some p => if str_empty p then "none" else p | None => "none" end)]
       ++ (if str_empty model then [] else [(draLabelGPUModel, model)])
       ++ (if str_empty claimName then [] else [(draLabelClaimName, claimName); (draLabelSharingMode, "shared-claim")])).

(** Only called when a percentage is set. *)
Definition draMPSConfig (cfg : draDispatchConfig) (sm : Z) : object :=
  let mpsConfig : object := match dra_PinnedMemoryLimit cfg with
                   | Some p => {["defaultActiveThreadPercentage" := VInt64 sm; "defaultPinnedDeviceMemoryLimit" := VString p]}
                   | None => {["defaultActiveThreadPercentage" := VInt64 sm]}
                   end in
  {["requests" := VList [VString draPodClaimName];
    "opaque" := VMap {["driver" := VString "gpu.nvidia.com";
                       "parameters" := VMap {["apiVersion" := VString "resource.nvidia.com/v1beta1"; "kind" := VString "GpuConfig";
                                              "sharing" := VMap {["strategy" := VString "MPS"; "mpsConfig" := VMap mpsConfig]}]}]}]}.

Definition claim_template (cfg : draDispatchConfig) (namespace name : string) : object :=
  let requests : any := VList [VMap {["name" := VString draPodClaimName;
                     "exactly" := VMap {["allocationMode" := VString "ExactCount"; "deviceClassName" := VString (dra_DeviceClassName cfg);
                                         "count" := VInt64 (dra_GPUCount cfg)]}]}] in
  let devices : object := match dra_SMPercentage cfg with
                 | Some sm => {["requests" := requests; "config" := VList [VMap (draMPSConfig cfg sm)]]}
                 | None => {["requests" := requests]}
                 end in
  {["apiVersion" := VString draAPIVersion; "kind" := VString draResourceClaimTemplateKind;
    "metadata" := VMap {["name" := VString name; "namespace" := VString namespace; "labels" := VStringMap (draGPULabels cfg name)]};
    "spec" := VMap {["spec" := VMap {["devices" := VMap devices]}]}]}.

(** The error of json.Marshal, without its text. *)
Definition marshal_raw (o : object) : result derror string :=
  match marshal (VMap o) with Some raw => Ok raw | None => Err (plain_error "marshal") end.

Definition buildResourceClaimTemplateManifest (cfg : draDispatchConfig) (namespace name : string) : result derror string :=
  marshal_raw (claim_template cfg namespace name).

Definition containerHasGPUMarker (container : object) : bool :=
  let resources := map_of (mget container "resources") in
  existsb (fun level => existsb isGPUResourceKey (map fst (map_to_list (map_of (mget resources level))))) ["requests"; "limits"].

(** An item that is not a map reads as an empty one. *)
Definition containersHaveGPUMarker (obj : object) (fields : list string) : bool :=
  existsb (fun raw => containerHasGPUMarker (map_of raw)) (found_or [] (NestedSlice obj fields)).

Definition resourceHasGPUMarker (u : object) : bool :=
  existsb (fun path => containersHaveGPUMarker u (childPath path "containers") || containersHaveGPUMarker u (childPath path "initContainers"))
    (podSpecPaths (GetKind u)).

Definition resourceHasDRAClaims (u : object) : bool :=
  existsb (fun path => match NestedSlice u (childPath path "resourceClaims") with Found (_ :: _) => true | _ => false end) (podSpecPaths (GetKind u)).

Definition resourceNeedsTemplateDRA (r : dispatchResource) : bool :=
  match dispatchObject r with
  | Err _ => false
  | Ok u => if resourceHasDRAClaims u then false else resourceHasGPUMarker u
  end.

Definition resourcesNeedTemplateDRA (rs : list dispatchResource) : bool := existsb resourceNeedsTemplateDRA rs.

Definition stripGPUMarkerKeys (resources : object) (level : string) : object :=
  match mget resources level with
  | VMap values =>
      let values' : object := filter (fun kv => isGPUResourceKey kv.1 = false) values in
      if decide (values' = ∅) then delete level resources else <[level := VMap values']> resources
  | _ => resources
  end.

Definition claim_container (containerClaim : object) (container : object) : object :=
  let resources := map_of (mget container "resources") in
  let claims := default [] (as_list (mget resources "claims")) in
  let resources1 : object := <["claims" := VList (claims ++ [VMap containerClaim])]> resources in
  <["resources" := VMap (stripGPUMarkerKeys (stripGPUMarkerKeys resources1 "requests") "limits")]> container.

Definition claim_containers (containerClaim : object) (path : list string) (u : object) (key : string) : result derror object :=
  match NestedSlice u (childPath path key) with
  | Found containers =>
      match SetNestedSlice u (map (update_task (claim_container containerClaim)) containers) (childPath path key) with
      | Some u' => Ok u' | None => Err (plain_error "set DRA container claims: %w")
      end
  | _ => Ok u
  end.

Definition injectContainerDRAClaims (u : object) (containerClaim : object) (path : list string) : result derror object :=
  match claim_containers containerClaim path u "containers" with
  | Ok u' => claim_containers containerClaim path u' "initContainers"
  | Err e => Err e
  end.

Definition mergeDRAMetadata (u : object) (cfg : draDispatchConfig) (claimName : string) : object :=
  let labels := draGPULabels cfg claimName in
  let k := ToLower (GetKind u) in
  if String.eqb k "pod" then setAnnotationValue (mergeObjectLabels u labels) draVolcanoResourceRequestAnno (draResourceRequest cfg)
  else if String.eqb k "deployment" || String.eqb k "job"
  then mergeNestedStringMap (mergeNestedStringMap (mergeObjectLabels u labels) labels ["spec"; "template"; "metadata"; "labels"])
         {[draVolcanoResourceRequestAnno := draResourceRequest cfg]} ["spec"; "template"; "metadata"; "annotations"]
  else u.

Definition injectDRAClaimIntoObject (u : object) (cfg : draDispatchConfig) (claimName : string) (directClaim : bool) : result derror object :=
  let claimRef : object := {["name" := VString draPodClaimName;
                    (if directClaim then "resourceClaimName" else "resourceClaimTemplateName") := VString claimName]} in
  let paths := podSpecPaths (GetKind u) in
  match paths with
  | [] => Err (invalid_manifest "%w: unsupported DRA workload kind %s" [VString (GetKind u)])
  | _ =>
      match each_path (fun u' path =>
              let claims := found_or [] (NestedSlice u' (childPath path "resourceClaims")) in
              match SetNestedSlice u' (claims ++ [VMap claimRef]) (childPath path "resourceClaims") with
              | None => Err (plain_error "set DRA resourceClaims: %w")
              | Some u1 => injectContainerDRAClaims u1 {["name" := VString draPodClaimName]} path
              end) u paths with
      | Err e => Err e
      | Ok u' => Ok (mergeDRAMetadata u' cfg claimName)
      end
  end.

Definition injectDRAIntoResourceIfNeeded (cfg : draDispatchConfig) (claimName : string) (r : dispatchResource) : result derror dispatchResource :=
  if negb (resourceNeedsTemplateDRA r) then Ok r
  else edit_resource (fun u => injectDRAClaimIntoObject u cfg claimName (negb (str_empty (TrimSpace (dra_GPUClaimName cfg))))) r.

(** The manifests to create first, and the resources. *)
Definition prepareDRADispatchManifests (job : object) (rs : list dispatchResource) (namespace : string)
  : result derror (list dispatchManifest * list dispatchResource) :=
  match draConfigFromJob job with
  | Err e => Err e
  | Ok cfg =>
      if negb (dra_enabled cfg) then Ok ([], rs)
      else
        let claimName := TrimSpace (dra_GPUClaimName cfg) in
        let inject prefix name :=
          if str_empty name then Ok (prefix, rs)
          else match each_resource (injectDRAIntoResourceIfNeeded cfg name) rs with Ok rs' => Ok (prefix, rs') | Err e => Err e end in
        if str_empty claimName && (0 <? dra_GPUCount cfg) && resourcesNeedTemplateDRA rs
        then
          let name := sharedClaimTemplateName cfg in
          match buildResourceClaimTemplateManifest cfg namespace name with
          | Err e => Err e
          | Ok raw => inject [Manifest raw []] name
          end
        else inject [] claimName
  end.

End Injectors.

(** ** Properties *)

Lemma diverge_child p a b : a ≠ b -> diverge (childPath p a) (childPath p b).
Proof. intros Hab. unfold childPath. induction p as [|f p IH]; cbn; [by left|by right]. Qed.

Lemma diverge_prefix p q r s : diverge p q -> diverge (p ++ r) (q ++ s).
Proof. revert q. induction p as [|a p IH]; intros [|b q]; cbn; try done. intros [?|[-> ?]]; [by left|right; auto]. Qed.

Section Properties.
Context {GL : GoLib} {US : UnstructuredLib} {LW : UnstructuredLaws}.

Lemma slice_after_set u l p u' : SetNestedSlice u l p = Some u' -> NestedSlice u' p = Found l.
Proof. rewrite law_set_slice, law_slice. intros H%nested_get_set. by rewrite H. Qed.

Lemma slice_apart u l p q u' : diverge p q -> SetNestedSlice u l p = Some u' -> NestedSlice u' q = NestedSlice u q.
Proof. rewrite law_set_slice, !law_slice. intros Hd Hs. by rewrite (nested_get_diverge _ _ _ _ _ Hd Hs). Qed.

(** *** Selectors *)

(** A merge fails on a conflict with the tenant's selector and only then; otherwise it is
    the union. *)
Lemma merge_selector_spec selector keys current : NoDup keys -> Forall (fun k => is_Some (selector !! k)) keys ->
  match merge_selector selector keys current with
  | Ok merged => (forall k v w, k ∈ keys -> selector !! k = Some v -> current !! k = Some w -> v = w) /\
                 (forall k, merged !! k = if decide (k ∈ keys) then selector !! k else current !! k)
  | Err _ => exists k v w, k ∈ keys /\ selector !! k = Some v /\ current !! k = Some w /\ v ≠ w
  end.
Proof.
  revert current. induction keys as [|k keys IH]; intros current Hnd Hk.
  - cbn. split; [by intros ??? ?%elem_of_nil|]. intros k. by rewrite decide_False by apply not_elem_of_nil.
  - apply NoDup_cons in Hnd as [Hni Hnd]. apply Forall_cons in Hk as [[v Hv] Hk]. cbn [merge_selector]. rewrite Hv. cbn [default from_option id].
    destruct (match current !! k with Some e => negb (String.eqb e v) | None => false end) eqn:Ec.
    { destruct (current !! k) as [e|] eqn:Ee; [|done]. exists k, v, e. apply negb_true_iff, String.eqb_neq in Ec. split; [left|auto]. }
    assert (forall w, current !! k = Some w -> v = w) as Hkv.
    { intros w Hw. rewrite Hw in Ec. apply negb_false_iff, String.eqb_eq in Ec. done. }
    specialize (IH (<[k := v]> current) Hnd Hk). destruct (merge_selector _ _ _) as [merged|e].
    + destruct IH as [H1 H2]. split.
      * intros k' v' w' [->|Hin]%elem_of_cons Hv' Hw'; [rewrite Hv in Hv'; injection Hv' as <-; by apply Hkv|].
        apply (H1 k'); [done|done|]. rewrite lookup_insert_ne; [done|]. by intros ->.
      * intros k'. rewrite H2. destruct (decide (k' ∈ keys)); [by rewrite decide_True by (by right)|].
        destruct (decide (k' = k)) as [->|Hne]; [by rewrite lookup_insert_eq, decide_True by left|].
        rewrite lookup_insert_ne by done. rewrite decide_False; [done|]. by intros [->|?]%elem_of_cons.
    + destruct IH as (k' & v' & w' & Hin & Hs & Hc & Hd). exists k', v', w'. rewrite lookup_insert_ne in Hc by (intros ->; done). split; [by right|done].
Qed.

Lemma sorted_keys_spec m : NoDup (sortedNetworkKeys m) /\ forall k, k ∈ sortedNetworkKeys m <-> is_Some (m !! k).
Proof.
  assert (sortedNetworkKeys m ≡ₚ map fst (map_to_list m)) as HP by apply SliceStable_perm. split.
  - rewrite HP. apply NoDup_fst_map_to_list.
  - intros k. rewrite HP. rewrite list_elem_of_In, in_map_iff. split.
    + intros ([k' v] & <- & Hin). exists v. by apply elem_of_map_to_list, list_elem_of_In.
    + intros [v Hv]. exists (k, v). split; [done|]. by apply list_elem_of_In, elem_of_map_to_list.
Qed.

(** The node selector of an accelerator profile is added to the tenant's without
    changing any of his entries: when an entry of his disagrees with the profile the merge
    fails, and else the selector written holds both (or the object cannot hold one). *)
Theorem node_selector_respected obj path selector :
  let mine := found_or ∅ (NestedStringMap obj path) in
  match mergeAcceleratorNodeSelector obj path selector with
  | Ok o => nested_strings o path = Some (selector ∪ mine) /\ selector ⊆ selector ∪ mine /\ mine ⊆ selector ∪ mine
  | Err e => (exists k v w, selector !! k = Some v /\ mine !! k = Some w /\ v ≠ w)
             \/ e = field_error /\ SetNestedStringMap obj (selector ∪ mine) path = None
  end.
Proof.
  cbn zeta. set (mine := found_or ∅ _). unfold mergeAcceleratorNodeSelector. fold mine.
  destruct (sorted_keys_spec selector) as [Hnd Hks].
  assert (Forall (fun k => is_Some (selector !! k)) (sortedNetworkKeys selector)) as Hall by (apply Forall_forall; intros k; apply Hks).
  pose proof (merge_selector_spec selector _ mine Hnd Hall) as Hspec. destruct (merge_selector _ _ _) as [merged|e].
  - destruct Hspec as [Hagree Hm]. assert (merged = selector ∪ mine) as ->.
    { apply map_eq. intros k. rewrite Hm. destruct (decide _) as [Hin|Hni].
      - apply Hks in Hin as [v Hv]. rewrite Hv. symmetry. by apply lookup_union_Some_l.
      - rewrite lookup_union_r; [done|]. destruct (selector !! k) eqn:E; [|done]. destruct Hni. apply Hks. by eexists. }
    destruct (SetNestedStringMap _ _ _) as [o|] eqn:Es; [|by right]. rewrite law_set_strings in Es.
    split; [by apply (nested_strings_set obj)|]. split; [apply map_union_subseteq_l|]. apply map_subseteq_spec. intros k w Hw.
    destruct (selector !! k) as [v|] eqn:E; [|by rewrite lookup_union_r].
    rewrite (lookup_union_Some_l selector mine k v E). f_equal. apply (Hagree k); [apply Hks; by eexists|done|done].
  - left. naive_solver.
Qed.

(** *** The side container *)

(** A template that was given the side container is left alone from then on. *)
Lemma sidecar_injected_once cfg u path u' : injectSidecarIntoPodSpec cfg u path = Ok (u', true) ->
  injectSidecarIntoPodSpec cfg u' path = Ok (u', false).
Proof.
  unfold injectSidecarIntoPodSpec at 1. destruct (NestedSlice u _) as [[|c l]| |]; try discriminate.
  destruct (sliceHasNamedItem _ _); [discriminate|]. set (cs := map _ _ ++ _).
  destruct (SetNestedSlice u cs _) as [u1|] eqn:E1; [|discriminate].
  unfold addSharedStreamVolumes. destruct (NestedSlice u1 (childPath path "volumes")) eqn:Ev; cbn [found_or].
  all: try discriminate.
  all: set (vs := fold_left _ _ _); destruct (SetNestedSlice u1 vs _) as [u2|] eqn:E2; [|discriminate]; intros [= <-].
  all: assert (NestedSlice u2 (childPath path "containers") = Found cs) as Ec
         by (rewrite (slice_apart _ _ _ _ _ (diverge_child path "volumes" "containers" ltac:(done)) E2); by apply (slice_after_set u)).
  all: assert (sliceHasNamedItem cs streamSidecarContainerName = true) as Hn
         by (apply existsb_Exists; exists (VMap (streamSidecarContainer cfg)); split; [apply elem_of_app; right; left|reflexivity]).
  all: unfold injectSidecarIntoPodSpec; clearbody cs; rewrite Ec; destruct cs as [|c' l']; [done|]; by rewrite Hn.
Qed.

(** *** Device claims *)

Lemma strip_other r level k : k ≠ level -> mget (stripGPUMarkerKeys r level) k = mget r k.
Proof.
  intros Hk. unfold stripGPUMarkerKeys. destruct (mget r level); try done. cbn zeta. unfold mget.
  destruct (decide _); [by rewrite lookup_delete_ne|by rewrite lookup_insert_ne].
Qed.

(** No GPU resource is left at the level, and every other one is. *)
Lemma strip_level r level k : map_of (mget (stripGPUMarkerKeys r level) level) !! k =
  if isGPUResourceKey k then None else map_of (mget r level) !! k.
Proof.
  assert (forall m : object, (filter (fun kv => isGPUResourceKey kv.1 = false) m : object) !! k = if isGPUResourceKey k then None else m !! k) as Hf.
  { intros m. destruct (isGPUResourceKey k) eqn:E.
    - apply map_lookup_filter_None. right. intros v _. cbn. congruence.
    - destruct (m !! k) as [v|] eqn:Em; [by apply map_lookup_filter_Some|]. apply map_lookup_filter_None. by left. }
  unfold stripGPUMarkerKeys. destruct (mget r level) eqn:E; try (rewrite E; cbn; rewrite lookup_empty; by destruct (isGPUResourceKey k)).
  cbn zeta. cbn [map_of as_map default from_option id]. destruct (decide _) as [Hd|Hd].
  - unfold mget. rewrite lookup_delete_eq. cbn. rewrite <- Hf, Hd. by rewrite lookup_empty.
  - unfold mget. rewrite lookup_insert_eq. cbn. apply Hf.
Qed.

Lemma no_marker_level (m : object) : (forall k, isGPUResourceKey k = true -> m !! k = None) -> existsb isGPUResourceKey (map fst (map_to_list m)) = false.
Proof.
  intros H. apply not_true_is_false. intros (k & Hin & Hk)%existsb_Exists.
  apply list_elem_of_In, in_map_iff in Hin as ([k' v] & <- & Hin). apply list_elem_of_In, elem_of_map_to_list in Hin.
  by rewrite (H k') in Hin.
Qed.

Definition container_claims (c : object) : list any := default [] (as_list (mget (map_of (mget c "resources")) "claims")).

Lemma claimed_container claim c :
  containerHasGPUMarker (claim_container claim c) = false /\ VMap claim ∈ container_claims (claim_container claim c).
Proof.
  unfold containerHasGPUMarker, container_claims, claim_container. cbn zeta. set (r1 := <["claims" := _]> _).
  set (r3 := stripGPUMarkerKeys (stripGPUMarkerKeys r1 "requests") "limits").
  assert (mget (<["resources" := VMap r3]> c) "resources" = VMap r3) as -> by (unfold mget; by rewrite lookup_insert_eq).
  cbn [map_of as_map default from_option id]. split.
  - cbn [existsb]. rewrite !no_marker_level; [done| |]; intros k Hk; subst r3.
    + by rewrite strip_level, Hk.
    + by rewrite strip_other, strip_level, Hk.
  - subst r3. rewrite !strip_other by done. unfold r1, mget. rewrite lookup_insert_eq. cbn. apply elem_of_app. right. left.
Qed.

(** Every container of a list has the claim and no GPU resource. *)
Definition claimed (claim : object) (l : list any) : Prop :=
  forall c, VMap c ∈ l -> containerHasGPUMarker c = false /\ VMap claim ∈ container_claims c.

Lemma claimed_map claim l : claimed claim (map (update_task (claim_container claim)) l).
Proof.
  intros c Hc. apply list_elem_of_In, in_map_iff in Hc as (raw & Hr & _). destruct raw; cbn in Hr; try discriminate.
  injection Hr as <-. apply claimed_container.
Qed.

Lemma claimed_no_marker claim l : claimed claim l -> existsb (fun raw => containerHasGPUMarker (map_of raw)) l = false.
Proof.
  intros Hl. apply not_true_is_false. intros (raw & Hin & Hm)%existsb_Exists. destruct raw; try discriminate Hm.
  destruct (Hl m Hin) as [Hn _]. change (containerHasGPUMarker m = true) in Hm. congruence.
Qed.

Lemma claim_containers_spec claim path key u u' : claim_containers claim path u key = Ok u' ->
  claimed claim (found_or [] (NestedSlice u' (childPath path key))) /\
  (forall q, diverge (childPath path key) q -> NestedSlice u' q = NestedSlice u q) /\
  (forall f p, path = f :: p -> only f u u').
Proof.
  unfold claim_containers. destruct (NestedSlice u (childPath path key)) as [l| |] eqn:E.
  - destruct (SetNestedSlice _ _ _) as [u1|] eqn:Es; [|done]. intros [= <-]. rewrite (slice_after_set _ _ _ _ Es).
    split; [apply claimed_map|]. split; [intros q Hq; by apply (slice_apart _ _ _ _ _ Hq Es)|].
    intros f p ->. intros g Hg. rewrite law_set_slice in Es. by eapply nested_set_frame.
  - intros [= <-]. rewrite E. split; [by intros ? ?%elem_of_nil|done].
  - intros [= <-]. rewrite E. split; [by intros ? ?%elem_of_nil|done].
Qed.

Lemma slice_merge u s q r : diverge q r -> NestedSlice (merge_strings u s q) r = NestedSlice u r.
Proof.
  intros Hd. unfold merge_strings, put_strings. rewrite law_set_strings, !law_slice. unfold set_strings.
  destruct (nested_set u _ q) as [u'|] eqn:E; cbn [default from_option id]; [|done]. by rewrite (nested_get_diverge _ _ _ _ _ Hd E).
Qed.

Lemma slice_merge_nested u s q r : diverge q r -> NestedSlice (mergeNestedStringMap u s q) r = NestedSlice u r.
Proof. intros Hd. unfold mergeNestedStringMap. destruct (decide _); [done|]. by apply slice_merge. Qed.

Lemma slice_labels u labels r : diverge ["metadata"; "labels"] r -> NestedSlice (mergeObjectLabels u labels) r = NestedSlice u r.
Proof.
  intros Hd. destruct (decide (labels = ∅)) as [E|E].
  - unfold mergeObjectLabels. by rewrite decide_True.
  - rewrite mergeObjectLabels_merge by done. by apply slice_merge.
Qed.

(** The metadata of the claim is written outside the pod template. *)
Lemma slice_metadata fmt u cfg name path key : path ∈ podSpecPaths (GetKind u) ->
  NestedSlice (mergeDRAMetadata fmt u cfg name) (childPath path key) = NestedSlice u (childPath path key).
Proof.
  unfold mergeDRAMetadata, podSpecPaths. cbn zeta. destruct (String.eqb _ "pod").
  - intros ->%list_elem_of_singleton. rewrite setAnnotationValue_merge, slice_merge, slice_labels; [done|by left..].
  - destruct (_ || _); [|by intros ?%elem_of_nil]. intros ->%list_elem_of_singleton.
    rewrite !slice_merge_nested, slice_labels; [done|by left|..]; cbn; right; split; try done; right; split; try done; by left.
Qed.

Lemma kind_merge u s f p : "kind" ≠ f -> nested_text (merge_strings u s (f :: p)) ["kind"] = nested_text u ["kind"].
Proof. intros Hf. apply nested_text_key. by apply only_merge. Qed.

Lemma kind_metadata fmt u cfg name : GetKind (mergeDRAMetadata fmt u cfg name) = GetKind u.
Proof.
  rewrite !law_kind. unfold mergeDRAMetadata, mergeNestedStringMap. cbn zeta. rewrite setAnnotationValue_merge.
  destruct (decide (draGPULabels fmt cfg name = ∅)) as [E|E].
  - rewrite E. unfold mergeObjectLabels. rewrite decide_True by done.
    repeat case_match; by rewrite ?kind_merge by done.
  - rewrite mergeObjectLabels_merge by done.
    repeat case_match; by rewrite ?kind_merge by done.
Qed.

Lemma pod_path_spec kind path : path ∈ podSpecPaths kind -> podSpecPaths kind = [path] /\ exists p, path = "spec" :: p.
Proof.
  unfold podSpecPaths. destruct (String.eqb _ "pod"); [intros ->%list_elem_of_singleton; eauto|].
  destruct (_ || _); [intros ->%list_elem_of_singleton; eauto|by intros ?%elem_of_nil].
Qed.

(** When the device claim of a job is put into a manifest, every container and init
    container of its pod template refers to the claim and asks for no GPU resource any more,
    so that a device is not counted twice; and the manifest is not given the claim again. *)
Theorem device_claims_replace_markers fmt u cfg name direct o :
  injectDRAClaimIntoObject fmt u cfg name direct = Ok o ->
  (forall path key, path ∈ podSpecPaths (GetKind o) -> key ∈ ["containers"; "initContainers"] ->
     claimed {["name" := VString draPodClaimName]} (found_or [] (NestedSlice o (childPath path key)))) /\
  resourceHasGPUMarker o = false /\ resourceHasDRAClaims o = true.
Proof.
  unfold injectDRAClaimIntoObject. cbn zeta. set (claim := {["name" := VString draPodClaimName]} : object).
  destruct (podSpecPaths (GetKind u)) as [|path rest] eqn:Ep; [done|].
  destruct (pod_path_spec (GetKind u) path) as [Hp [p0 Hp0]]; [rewrite Ep; left|]. rewrite Hp in Ep. injection Ep as <-.
  cbn [each_path]. set (claims := _ ++ [_]).
  destruct (SetNestedSlice u claims _) as [u1|] eqn:E1; [|done]. unfold injectContainerDRAClaims.
  destruct (claim_containers claim path u1 "containers") as [u2|] eqn:E2; [|done].
  destruct (claim_containers claim path u2 "initContainers") as [u3|] eqn:E3; [|done]. intros [= <-].
  apply claim_containers_spec in E2 as (C2 & S2 & O2). apply claim_containers_spec in E3 as (C3 & S3 & O3).
  assert (GetKind u3 = GetKind u) as Hk.
  { assert (only "spec" u u3) as Ho.
    { subst path. eapply only_trans; [|by eapply O3]. eapply only_trans; [|by eapply O2]. intros g Hg. rewrite law_set_slice in E1.
      by eapply nested_set_frame. }
    by apply (only_kind "spec"). }
  assert (forall key, NestedSlice (mergeDRAMetadata fmt u3 cfg name) (childPath path key) = NestedSlice u3 (childPath path key)) as Hm
    by (intros key; apply slice_metadata; rewrite Hk, Hp; left).
  assert (forall key, key ∈ ["containers"; "initContainers"] ->
            claimed claim (found_or [] (NestedSlice (mergeDRAMetadata fmt u3 cfg name) (childPath path key)))) as Hc.
  { intros key Hkey. rewrite Hm. apply elem_of_cons in Hkey as [->|Hkey%list_elem_of_singleton]; [|by subst].
    by rewrite S3 by (by apply diverge_child). }
  unfold resourceHasGPUMarker, resourceHasDRAClaims. rewrite kind_metadata, Hk, Hp. split; [|split].
  - intros q key ->%list_elem_of_singleton Hkey. by apply Hc.
  - cbn [existsb]. unfold containersHaveGPUMarker.
    rewrite !(claimed_no_marker claim) by (apply Hc; apply (bool_decide_unpack _); done). done.
  - cbn [existsb]. rewrite Hm, S3, S2 by (by apply diverge_child). rewrite (slice_after_set _ _ _ _ E1). subst claims.
    destruct (found_or [] _); reflexivity.
Qed.
End Properties.

(** ** Instances *)

#[local] Existing Instance reference_lib.
#[local] Existing Instance reference_laws.
#[local] Instance plain_golib : GoLib := {|
  parse_quantity _ := None; parse_float _ := None; parse_int64 _ := None; parse_rfc3339 _ := None;
  format_rfc3339 _ := ""; time_string _ := ""; unmarshal_object _ := None; unmarshal_objects _ := None;
  unmarshal_strings _ := None; marshal _ := None; sprint _ := ""; sprintf f _ := f; sha256_hex s := s |}.

Definition gpu_pod : object :=
  {["kind" := VString "Pod";
    "spec" := VMap {["containers" := VList [VMap {["name" := VString "main";
       "resources" := VMap {["limits" := VMap {["nvidia.com/gpu" := VString "1"; "cpu" := VString "2"]}]}]}]]}]}.

Definition gpu_config (deviceClass : string) : draDispatchConfig := DRAConfig 1 None None deviceClass "".

Definition gpu_pod_claimed : object :=
  match injectDRAClaimIntoObject (fun _ => "1") gpu_pod (gpu_config "gpu.nvidia.com") "gpu-shared-cnt1-sm100-memmax" false with
  | Ok o => o | Err _ => ∅
  end.

Lemma device_claims_replace_markers_witness : resourceHasGPUMarker gpu_pod = true /\ resourceHasGPUMarker gpu_pod_claimed = false.
Proof.
  split; [vm_compute; reflexivity|].
  refine (proj1 (proj2 (device_claims_replace_markers (fun _ => "1") gpu_pod (gpu_config "gpu.nvidia.com") "gpu-shared-cnt1-sm100-memmax" false gpu_pod_claimed _))).
  vm_compute; reflexivity.
Defined.

(** The name of the shared claim template has only the first part of the device class:
    templates for different classes have the same name, and as an object that exists counts
    as created, the second job gets the devices of the first. *)
Example claim_templates_collide :
  sharedClaimTemplateName (gpu_config "a100.gpu.nvidia.com") = sharedClaimTemplateName (gpu_config "a100.mig.nvidia.com") /\
  claim_template (fun _ => "1") (gpu_config "a100.gpu.nvidia.com") "ns" "n" ≠ claim_template (fun _ => "1") (gpu_config "a100.mig.nvidia.com") "ns" "n".
Proof.
  split; [vm_compute; reflexivity|]. intros E. apply (f_equal (fun o => nested_get (VMap o) ["metadata"; "labels"])) in E.
  vm_compute in E. discriminate E.
Qed.
