(* ===== verification/WorkloadStorage.v ===== *)
(** * Workload service: storage and data plane of a job
    (dispatcher_storage.go, dispatcher_dataplane.go, the plans of storage_mount_client.go
    and dataplane_client.go)

    The storage service answers a job's request for volumes with a plan; the dispatcher
    turns the plan into volumes and mounts of the pod templates, gives the containers the
    scratch volume and the checkpoint environment, and puts an init container in front that
    copies the data sets.  The services and the cluster are arguments. *)

From stdpp Require Import base gmap strings list fin_maps.
From Stdlib Require Import ZArith Lia Ascii.
From S2P Require Import Prelude GoValue Store EventBus Crud RateLimit InputLimits Config Auth Guards SchedulerHttp WorkloadTypes WorkloadJobs WorkloadDispatch Unstructured WorkloadManifest WorkloadText WorkloadInjectors.
Local Open Scope Z_scope.

(** ** Plans *)

Record storageMountPlanSelector := Selector { ss_PVCID : string; ss_Name : string; ss_MountPath : string; ss_ReadOnly : bool; ss_SubPath : string }.
Record storageMountPlanRequest := MountRequest { mr_UserID : string; mr_Namespace : string; mr_Mounts : list storageMountPlanSelector }.
Record storageMountPlanMount := PlanMount { pm_Name : string; pm_ClaimName : string; pm_MountPath : string; pm_ReadOnly : bool; pm_SubPath : string }.
Record storageMountPlanShareOp := ShareOp { so_SourceNamespace : string; so_SourcePVC : string; so_TargetPVC : string }.
Record storageMountPlan := MountPlan { sp_ManifestMounts : list storageMountPlanMount; sp_PVCShareOperations : list storageMountPlanShareOp }.

Record dataPlaneDatasetSource := DatasetSource { ds_StorageBindingID : string; ds_Mode : string; ds_CacheKey : string }.
Record dataPlaneCheckpointSpec := CheckpointSpec { cs_FlushTargetProfile : string; cs_WritePolicy : string; cs_RetainLocalLastN : Z }.
Record dataPlanePlanRequest := DataPlaneRequest {
  dq_JobID : string; dq_UserID : string; dq_Namespace : string;
  dq_DatasetSources : list dataPlaneDatasetSource; dq_ScratchProfile : string; dq_Checkpoint : dataPlaneCheckpointSpec }.
Record dataPlaneScratchPlan := ScratchPlan { sl_StorageClassName : string; sl_VolumeName : string; sl_ClaimName : string; sl_MountPath : string; sl_AccessMode : string }.
Record dataPlaneStageInOperation := StageIn {
  si_StorageBindingID : string; si_CacheKey : string; si_CacheHit : bool; si_SourceNamespace : string; si_SourcePVC : string;
  si_TargetPVC : string; si_VolumeName : string; si_SourcePath : string; si_ScratchPath : string }.
Record dataPlaneCheckpointPlan := CheckpointPlan { cp_WritePolicy : string; cp_LocalPath : string; cp_FlushTargetPath : string }.
Record dataPlanePlan := DataPlane { dp_Scratch : dataPlaneScratchPlan; dp_StageInOperations : list dataPlaneStageInOperation; dp_Checkpoint : dataPlaneCheckpointPlan }.

Definition empty_storage_plan : storageMountPlan := MountPlan [] [].
Definition empty_data_plane : dataPlanePlan := DataPlane (ScratchPlan "" "" "" "" "") [] (CheckpointPlan "" "" "").

Record storageMountSpec := MountSpec { sm_Name : string; sm_ClaimName : string; sm_MountPath : string; sm_ReadOnly : bool; sm_SubPath : string }.

(** The first item with each key. *)
Fixpoint first_by {A} (key : A -> string) (seen : list string) (l : list A) : list A :=
  match l with
  | [] => []
  | x :: r => if bool_decide (key x ∈ seen) then first_by key seen r else x :: first_by key (key x :: seen) r
  end.

Section Storage.
Context `{GoLib} `{UnstructuredLib}.

(** json.Unmarshal into an [any], and [strings.Join(_, "\x00")]. *)
Context (unmarshal_any : string -> option any).
Definition nul : string := String "000" EmptyString.

(** ** The request for volumes *)

Record storageMountFields := MountFields {
  mf_sourceNamespace : string; mf_sourcePVCRaw : string; mf_sourcePVC : string; mf_targetPVC : string; mf_claimName : string; mf_mountPath : string }.

Definition storageMountFieldsFromMap (data : object) : storageMountFields :=
  let sourceNamespace := TextValue data ["source_namespace"; "sourceNamespace"; "SourceNamespace"; "source_ns"; "sourceNs"; "SourceNS"] in
  let sourcePVCRaw := FirstNonEmpty [TextValue data ["source_pvc"; "sourcePVC"; "SourcePVC"];
                                     TextValue data ["source_pvc_name"; "sourcePVCName"; "SourcePVCName"];
                                     TextValue data ["source_claim_name"; "sourceClaimName"; "SourceClaimName"]] in
  let target0 := FirstNonEmpty [TextValue data ["target_pvc"; "targetPVC"; "TargetPVC"];
                                TextValue data ["target_pvc_name"; "targetPVCName"; "TargetPVCName"];
                                TextValue data ["target_claim_name"; "targetClaimName"; "TargetClaimName"]] in
  let claim0 := FirstNonEmpty [TextValue data ["claim_name"; "claimName"; "ClaimName"]; TextValue data ["pvc_name"; "pvcName"; "PVCName"];
                               target0; sourcePVCRaw; TextValue data ["pvc"; "PVC"]] in
  let sourcePVC := if str_empty sourcePVCRaw && negb (str_empty sourceNamespace) then claim0 else sourcePVCRaw in
  let targetPVC := if str_empty target0 && (negb (str_empty sourceNamespace) || negb (str_empty sourcePVCRaw))
                   then FirstNonEmpty [claim0; sourcePVC] else target0 in
  MountFields sourceNamespace sourcePVCRaw sourcePVC targetPVC (if str_empty targetPVC then claim0 else targetPVC)
    (TextValue data ["mount_path"; "mountPath"; "MountPath"; "path"; "Path"]).

Definition hasSharePlan (f : storageMountFields) : bool := negb (str_empty (mf_sourceNamespace f)) || negb (str_empty (mf_sourcePVCRaw f)).
Definition fields_present (f : storageMountFields) : bool :=
  negb (str_empty (mf_claimName f)) || negb (str_empty (mf_mountPath f)) || hasSharePlan f.

(** The selector of an item, none when it asks for nothing. *)
Definition storageMountPlanSelectorFromMap (data : object) : result derror (option storageMountPlanSelector) :=
  let fields := storageMountFieldsFromMap data in
  if negb (fields_present fields) then Ok None
  else
    let pvcID := FirstNonEmpty [TextValue data ["pvc_id"; "pvcId"]; TextValue data ["pvc_name"; "pvcName"; "PVCName"];
                                TextValue data ["claim_name"; "claimName"; "ClaimName"]; mf_targetPVC fields; mf_sourcePVC fields;
                                TextValue data ["pvc"; "PVC"]] in
    if str_empty pvcID then Err (invalid_manifest "%w: storage mount requires pvc_id" [])
    else Ok (Some (Selector pvcID (TextValue data ["name"; "Name"; "volume_name"; "volumeName"]) (mf_mountPath fields)
                     (BoolValue data ["read_only"; "readOnly"; "ReadOnly"]) (TextValue data ["sub_path"; "subPath"; "SubPath"]))).

(** Text is decoded and a map may nest the list; [fuel] bounds the nesting. *)
Fixpoint storageMountItems (fuel : nat) (value : any) : list object :=
  match fuel with
  | O => []
  | S fuel' =>
      match value with
      | VMaps l => l
      | VList l => omap as_map l
      | VMap m => match GoValue.firstPresent m ["items"; "mounts"; "storage_mounts"; "storageMounts"] with
                  | Some inner => storageMountItems fuel' inner
                  | None => [m]
                  end
      | VString text => match unmarshal_any (TrimSpace text) with Some decoded => storageMountItems fuel' decoded | None => [] end
      | _ => []
      end
  end.

Definition storage_keys : list string :=
  ["storage_mounts"; "storageMounts"; "StorageMounts"; "volume_mounts"; "volumeMounts"; "VolumeMounts"; "pvc_mounts"; "pvcMounts"; "PVCMounts"].

(** A value of the job, else of the payload it was submitted with. *)
Definition job_or_payload (job : object) (keys : list string) : option any :=
  match firstPresent job keys with
  | Some v => Some v
  | None => match firstPresent job ["submission_payload"; "submissionPayload"; "SubmissionPayload"] with
            | Some (VMap payload) => firstPresent payload keys
            | _ => None
            end
  end.

Definition firstStorageMountValue (job : object) : option any := job_or_payload job storage_keys.

Definition selector_key (s : storageMountPlanSelector) : string := ss_PVCID s +:+ nul +:+ ss_Name s +:+ nul +:+ ss_MountPath s.

Fixpoint selectors_of (items : list object) : result derror (list storageMountPlanSelector) :=
  match items with
  | [] => Ok []
  | item :: rest =>
      match storageMountPlanSelectorFromMap item with
      | Err e => Err e
      | Ok s => match selectors_of rest with
                | Ok l => Ok (match s with Some s => s :: l | None => l end)
                | Err e => Err e
                end
      end
  end.

Definition storageMountPlanSelectorsFromJob (fuel : nat) (job : object) : result derror (list storageMountPlanSelector) :=
  match firstStorageMountValue job with
  | None => Ok []
  | Some raw => match selectors_of (storageMountItems fuel raw) with
                | Ok l => Ok (first_by selector_key [] l)
                | Err e => Err e
                end
  end.

Definition resolveDispatchStorageMountPlan (fuel : nat) (client : option (string -> storageMountPlanRequest -> result derror storageMountPlan))
    (job : object) (namespace : string) : result derror storageMountPlan :=
  match storageMountPlanSelectorsFromJob fuel job with
  | Err e => Err e
  | Ok [] => Ok empty_storage_plan
  | Ok selectors =>
      match client with
      | None => Err (plain_error "storage mount plan client is not configured")
      | Some ask =>
          let projectID := TextValue job ["project_id"; "projectId"] in
          let userID := TextValue job ["user_id"; "userId"] in
          if str_empty projectID || str_empty userID then Err (invalid_manifest "%w: storage mounts require project_id and user_id" [])
          else ask projectID (MountRequest userID namespace selectors)
      end
  end.

(** ** Volumes shared into the namespace *)

Definition share_complete (op : storageMountPlanShareOp) : bool :=
  negb (str_empty (so_SourceNamespace op) || str_empty (so_SourcePVC op) || str_empty (so_TargetPVC op)).
Definition share_key (op : storageMountPlanShareOp) : string := so_SourceNamespace op +:+ "/" +:+ so_SourcePVC op +:+ ">" +:+ so_TargetPVC op.

Definition pvcMountOpsFromPlan (plan : storageMountPlan) : list storageMountPlanShareOp :=
  first_by share_key [] (filter (fun op => share_complete op = true) (sp_PVCShareOperations plan)).

(** The calls of the cluster client, up to the first that fails. *)
Fixpoint mount_each {A} (mount : A -> option derror) (l : list A) : option derror :=
  match l with [] => None | op :: rest => match mount op with Some e => Some e | None => mount_each mount rest end end.

Definition mount_error (format : string) (target sourceNs source namespace : string) (e : derror) : derror :=
  DError (sprintf format [VString target; VString sourceNs; VString source; VString namespace; VString (de_text e)]) (de_kind e).

Definition ensureDispatchPVCMounts (EnsurePVCMounted : string -> string -> string -> string -> option derror) (plan : storageMountPlan) (namespace : string) : option derror :=
  mount_each (fun op => mount_error "mount pvc %s from %s/%s into %s: %w" (so_TargetPVC op) (so_SourceNamespace op) (so_SourcePVC op) namespace
                          <$> EnsurePVCMounted (so_SourceNamespace op) (so_SourcePVC op) namespace (so_TargetPVC op))
    (pvcMountOpsFromPlan plan).

(** ** Volumes and mounts of a pod template *)

Definition storageMountSpecsFromPlan (plan : storageMountPlan) : list storageMountSpec :=
  omap (fun mount =>
    let claimName := TrimSpace (pm_ClaimName mount) in
    if str_empty claimName || str_empty (TrimSpace (pm_MountPath mount)) then None
    else Some (MountSpec (sanitizeDNSLabel (FirstNonEmpty [pm_Name mount; claimName]) "storage" 63) claimName (TrimSpace (pm_MountPath mount))
                 (pm_ReadOnly mount) (TrimSpace (pm_SubPath mount)))) (sp_ManifestMounts plan).

Definition manifestStorageMounts (mounts : list storageMountSpec) : list storageMountSpec := filter (fun m => sm_MountPath m ≠ "") mounts.

Definition storageVolumeMountMap (mount : storageMountSpec) : object :=
  list_to_map ([("name", VString (sm_Name mount)); ("mountPath", VString (sm_MountPath mount))]
               ++ (if sm_ReadOnly mount then [("readOnly", VBool true)] else [])
               ++ (if str_empty (sm_SubPath mount) then [] else [("subPath", VString (sm_SubPath mount))])).

Definition volume_map (mount : storageMountSpec) : object :=
  {["name" := VString (sm_Name mount); "persistentVolumeClaim" := VMap {["claimName" := VString (sm_ClaimName mount)]}]}.

Definition volume_claim (volume : object) : string := TextValue (map_of (mget volume "persistentVolumeClaim")) ["claimName"; "claim_name"].

(** The first volume of the name, if any. *)
Definition named_volume (name : string) (volumes : list any) : option object :=
  List.find (fun volume => String.eqb (TextValue volume ["name"]) name) (omap as_map volumes).

Definition ensureStorageVolume (obj : object) (path : list string) (mount : storageMountSpec) : result derror object :=
  let volumes := found_or [] (NestedSlice obj (childPath path "volumes")) in
  match named_volume (sm_Name mount) volumes with
  | Some volume =>
      if String.eqb (volume_claim volume) (sm_ClaimName mount) then Ok obj
      else Err (invalid_manifest "%w: storage volume %s already references a different PVC" [VString (sm_Name mount)])
  | None => match SetNestedSlice obj (volumes ++ [VMap (volume_map mount)]) (childPath path "volumes") with
            | Some obj' => Ok obj' | None => Err (plain_error "set storage volumes: %w")
            end
  end.

Definition mergeExistingStorageSubPath (existing : object) (mount : storageMountSpec) : result derror object :=
  if str_empty (sm_SubPath mount) then Ok existing
  else
    let sub := TextValue existing ["subPath"; "sub_path"] in
    if negb (str_empty sub) && negb (String.eqb sub (sm_SubPath mount))
    then Err (invalid_manifest "%w: storage mount %s already uses a different subPath" [VString (sm_Name mount)])
    else Ok (<["subPath" := VString (sm_SubPath mount)]> existing).

Definition mergeExistingStorageMount (existing : object) (mount : storageMountSpec) : result derror object :=
  if negb (String.eqb (TextValue existing ["mountPath"; "mount_path"]) (sm_MountPath mount))
  then Err (invalid_manifest "%w: storage mount %s already uses a different mountPath" [VString (sm_Name mount)])
  else mergeExistingStorageSubPath (if sm_ReadOnly mount then <["readOnly" := VBool true]> existing else existing) mount.

(** The list with the mount merged into the one of its name, or none when it has no such
    mount and the path is free. *)
Fixpoint merge_mount (mounts : list any) (mount : storageMountSpec) : result derror (option (list any)) :=
  match mounts with
  | [] => Ok None
  | VMap existing :: rest =>
      if String.eqb (TextValue existing ["name"]) (sm_Name mount)
      then match mergeExistingStorageMount existing mount with Ok m => Ok (Some (VMap m :: rest)) | Err e => Err e end
      else if String.eqb (TextValue existing ["mountPath"; "mount_path"]) (sm_MountPath mount)
      then Err (invalid_manifest "%w: storage mount path %s is already used" [VString (sm_MountPath mount)])
      else match merge_mount rest mount with Ok r => Ok (cons (VMap existing) <$> r) | Err e => Err e end
  | raw :: rest => match merge_mount rest mount with Ok r => Ok (cons raw <$> r) | Err e => Err e end
  end.

Definition ensureStorageMountInContainer (mount : storageMountSpec) (container : object) : result derror object :=
  let mounts := default [] (as_list (mget container "volumeMounts")) in
  match merge_mount mounts mount with
  | Err e => Err e
  | Ok (Some mounts') => Ok (<["volumeMounts" := VList mounts']> container)
  | Ok None => Ok (<["volumeMounts" := VList (mounts ++ [VMap (storageVolumeMountMap mount)])]> container)
  end.

Definition has_map (l : list any) : bool := existsb (fun raw => match raw with VMap _ => true | _ => false end) l.

Definition mount_containers (mount : storageMountSpec) (path : list string) (obj : object) (key : string) : result derror (object * bool) :=
  match NestedSlice obj (childPath path key) with
  | Found containers =>
      match each_map (ensureStorageMountInContainer mount) containers with
      | Err e => Err e
      | Ok containers' =>
          match SetNestedSlice obj containers' (childPath path key) with
          | Some obj' => Ok (obj', has_map containers)
          | None => Err (plain_error "set storage container mounts: %w")
          end
      end
  | _ => Ok (obj, false)
  end.

Definition ensureStorageContainerMounts (obj : object) (path : list string) (mount : storageMountSpec) : result derror (object * bool) :=
  match mount_containers mount path obj "containers" with
  | Err e => Err e
  | Ok (obj1, a1) => match mount_containers mount path obj1 "initContainers" with
                     | Err e => Err e
                     | Ok (obj2, a2) => Ok (obj2, a1 || a2)
                     end
  end.

Fixpoint injectStorageMountsIntoPodSpec (obj : object) (path : list string) (mounts : list storageMountSpec) : result derror (object * bool) :=
  match mounts with
  | [] => Ok (obj, false)
  | mount :: rest =>
      match ensureStorageVolume obj path mount with
      | Err e => Err e
      | Ok obj1 =>
          match ensureStorageContainerMounts obj1 path mount with
          | Err e => Err e
          | Ok (obj2, applied) => match injectStorageMountsIntoPodSpec obj2 path rest with
                                  | Ok (obj3, more) => Ok (obj3, applied || more)
                                  | Err e => Err e
                                  end
          end
      end
  end.

(** ** Steps that say whether they found a pod template *)

(** A task is written back when its template took the edit; the tasks are when one did. *)
Fixpoint apply_tasks (f : object -> result derror (object * bool)) (tasks : list any) : result derror (list any * bool) :=
  match tasks with
  | [] => Ok ([], false)
  | VMap task :: rest =>
      match f task with
      | Err e => Err e
      | Ok (task', ok) => match apply_tasks f rest with Ok (l, more) => Ok (VMap task' :: l, ok || more) | Err e => Err e end
      end
  | raw :: rest => match apply_tasks f rest with Ok (l, more) => Ok (raw :: l, more) | Err e => Err e end
  end.

Definition apply_vcjob (f : object -> list string -> result derror (object * bool)) (u : object) : result derror (object * bool) :=
  match NestedSlice u ["spec"; "tasks"] with
  | Found tasks =>
      match apply_tasks (fun task => f task ["template"; "spec"]) tasks with
      | Err e => Err e
      | Ok (tasks', applied) => Ok (if applied then default u (SetNestedSlice u tasks' ["spec"; "tasks"]) else u, applied)
      end
  | _ => Ok (u, false)
  end.

Fixpoint apply_paths (f : object -> list string -> result derror (object * bool)) (u : object) (paths : list (list string)) : result derror (object * bool) :=
  match paths with
  | [] => Ok (u, false)
  | p :: rest => match f u p with
                 | Err e => Err e
                 | Ok (u', ok) => match apply_paths f u' rest with Ok (u'', more) => Ok (u'', ok || more) | Err e => Err e end
                 end
  end.

Definition apply_resource (f : object -> list string -> result derror (object * bool)) (r : dispatchResource) : result derror (dispatchResource * bool) :=
  match dispatchObject r with
  | Err e => Err e
  | Ok u =>
      match (if isVolcanoVCJob u then apply_vcjob f u else apply_paths f u (podSpecPaths (GetKind u))) with
      | Err e => Err e
      | Ok (u', applied) => if applied then match with_raw r u' with Ok r' => Ok (r', true) | Err e => Err e end else Ok (r, false)
      end
  end.

Fixpoint apply_resources (f : object -> list string -> result derror (object * bool)) (rs : list dispatchResource) : result derror (list dispatchResource * bool) :=
  match rs with
  | [] => Ok ([], false)
  | r :: rest => match apply_resource f r with
                 | Err e => Err e
                 | Ok (r', ok) => match apply_resources f rest with Ok (l, more) => Ok (r' :: l, ok || more) | Err e => Err e end
                 end
  end.

Definition injectStorageMountsIntoVCJob (u : object) (mounts : list storageMountSpec) : result derror (object * bool) :=
  apply_vcjob (fun obj path => injectStorageMountsIntoPodSpec obj path mounts) u.
Definition injectStorageMountsIntoResource (r : dispatchResource) (mounts : list storageMountSpec) : result derror (dispatchResource * bool) :=
  apply_resource (fun obj path => injectStorageMountsIntoPodSpec obj path mounts) r.

Definition prepareStorageMountDispatchResources (plan : storageMountPlan) (rs : list dispatchResource) : result derror (list dispatchResource) :=
  match manifestStorageMounts (storageMountSpecsFromPlan plan) with
  | [] => Ok rs
  | mounts => match apply_resources (fun obj path => injectStorageMountsIntoPodSpec obj path mounts) rs with
              | Err e => Err e
              | Ok (rs', true) => Ok rs'
              | Ok (_, false) => Err (invalid_manifest "%w: storage mounts require a Pod, Deployment, Job, or VCJob manifest" [])
              end
  end.

(** ** The data plane *)

Definition dataPlaneStageInContainerName : string := "nexuspaas-stage-in".
Definition dataPlaneStageInImage : string := "busybox:1.36".
Definition checkpointDirEnv : string := "CHECKPOINT_DIR".
Definition checkpointFlushTargetEnv : string := "NEXUSPAAS_CHECKPOINT_FLUSH_TARGET".
Definition checkpointWritePolicyEnv : string := "NEXUSPAAS_CHECKPOINT_WRITE_POLICY".

Record dispatchDataPlaneSpec := DataPlaneSpec { dps_DatasetSources : list dataPlaneDatasetSource; dps_ScratchProfile : string; dps_Checkpoint : dataPlaneCheckpointSpec }.

Definition firstDataPlaneValue (job : object) : option any := job_or_payload job ["data_plane"; "dataPlane"; "DataPlane"].

Definition source_key (s : dataPlaneDatasetSource) : string := ds_StorageBindingID s +:+ nul +:+ ds_CacheKey s.

Definition dataPlaneDatasetSourcesFromValue (fuel : nat) (raw : any) : list dataPlaneDatasetSource :=
  first_by source_key [] (omap (fun item =>
    let bindingID := FirstNonEmpty [TextValue item ["storage_binding_id"; "storageBindingId"]; TextValue item ["binding_id"; "bindingId"];
                                    TextValue item ["pvc_id"; "pvcId"]] in
    if str_empty bindingID then None
    else Some (DatasetSource bindingID (FirstNonEmpty [TextValue item ["mode"]; "readOnly"]) (TextValue item ["cache_key"; "cacheKey"])))
    (storageMountItems fuel raw)).

Definition dataPlaneCheckpointFromValue (raw : any) : dataPlaneCheckpointSpec :=
  match raw with
  | VMap body => CheckpointSpec (TextValue body ["flush_target_profile"; "flushTargetProfile"]) (TextValue body ["write_policy"; "writePolicy"])
                   (IntValue body ["retain_local_last_n"; "retainLocalLastN"])
  | _ => CheckpointSpec "" "" 0
  end.

Definition dataPlaneSpecFromJob (fuel : nat) (job : object) : option dispatchDataPlaneSpec :=
  match firstDataPlaneValue job with
  | Some (VMap body) => Some (DataPlaneSpec (dataPlaneDatasetSourcesFromValue fuel (firstAnyValue body ["dataset_sources"; "datasetSources"; "sources"]))
                                (TextValue body ["scratch_profile"; "scratchProfile"]) (dataPlaneCheckpointFromValue (firstAnyValue body ["checkpoint"])))
  | _ => None
  end.

Definition resolveDispatchDataPlanePlan (fuel : nat) (client : option (string -> dataPlanePlanRequest -> result derror dataPlanePlan))
    (job : object) (namespace : string) : result derror dataPlanePlan :=
  match dataPlaneSpecFromJob fuel job with
  | None => Ok empty_data_plane
  | Some spec =>
      match client with
      | None => Err (plain_error "data plane plan client is not configured")
      | Some ask =>
          let projectID := TextValue job ["project_id"; "projectId"] in
          let userID := TextValue job ["user_id"; "userId"] in
          if str_empty projectID || str_empty userID then Err (invalid_manifest "%w: data_plane requires project_id and user_id" [])
          else ask projectID (DataPlaneRequest (TextValue job ["id"; "job_id"; "jobId"]) userID namespace (dps_DatasetSources spec)
                                (dps_ScratchProfile spec) (dps_Checkpoint spec))
      end
  end.

Definition dataPlaneScratchAccessMode (mode : string) : string :=
  let m := ToLower (TrimSpace mode) in
  if String.eqb m "rwx" || String.eqb m "readwritemany" then "ReadWriteMany"
  else if String.eqb m "rox" || String.eqb m "readonlymany" then "ReadOnlyMany"
  else "ReadWriteOnce".

Definition ensureDispatchDataPlaneScratchPVC (EnsurePVC : string -> string -> string -> string -> option derror) (plan : dataPlanePlan) (namespace : string) : option derror :=
  let s := dp_Scratch plan in
  if str_empty (sl_ClaimName s) then None
  else EnsurePVC namespace (sl_ClaimName s) (sl_StorageClassName s) (dataPlaneScratchAccessMode (sl_AccessMode s)).

Definition ensureDispatchDataPlanePVCMounts (EnsurePVC EnsurePVCMounted : string -> string -> string -> string -> option derror)
    (plan : dataPlanePlan) (namespace : string) : option derror :=
  match ensureDispatchDataPlaneScratchPVC EnsurePVC plan namespace with
  | Some e => Some e
  | None =>
      mount_each (fun op =>
        if si_CacheHit op || str_empty (si_SourceNamespace op) || str_empty (si_SourcePVC op) || str_empty (si_TargetPVC op) then None
        else mount_error "mount data plane pvc %s from %s/%s into %s: %w" (si_TargetPVC op) (si_SourceNamespace op) (si_SourcePVC op) namespace
               <$> EnsurePVCMounted (si_SourceNamespace op) (si_SourcePVC op) namespace (si_TargetPVC op)) (dp_StageInOperations plan)
  end.

Definition dataPlanePlanEmpty (plan : dataPlanePlan) : bool :=
  str_empty (sl_ClaimName (dp_Scratch plan)) && bool_decide (length (dp_StageInOperations plan) = 0%nat) && str_empty (cp_LocalPath (dp_Checkpoint plan)).

Definition dataPlaneScratchMount (plan : dataPlanePlan) : storageMountSpec :=
  MountSpec (sanitizeDNSLabel (FirstNonEmpty [sl_VolumeName (dp_Scratch plan); "nexuspaas-scratch"]) "scratch" 63)
    (TrimSpace (sl_ClaimName (dp_Scratch plan))) (TrimSpace (sl_MountPath (dp_Scratch plan))) false "".

Definition stage_volume (op : dataPlaneStageInOperation) : string :=
  sanitizeDNSLabel (FirstNonEmpty [si_VolumeName op; "stage-" +:+ si_StorageBindingID op]) "stage" 63.
Definition stages (op : dataPlaneStageInOperation) : bool := negb (si_CacheHit op || str_empty (si_TargetPVC op) || str_empty (si_SourcePath op)).

Definition dataPlaneStageSourceMounts (plan : dataPlanePlan) : list storageMountSpec :=
  map (fun op => MountSpec (stage_volume op) (si_TargetPVC op) (si_SourcePath op) true "")
    (first_by stage_volume [] (filter (fun op => stages op = true) (dp_StageInOperations plan))).

Definition ensureCheckpointEnv (checkpoint : dataPlaneCheckpointPlan) (container : object) : object :=
  let add name value c := if str_empty value then c else addNamedItem "env" (env_item name value) c in
  add checkpointWritePolicyEnv (cp_WritePolicy checkpoint)
    (add checkpointFlushTargetEnv (cp_FlushTargetPath checkpoint) (add checkpointDirEnv (cp_LocalPath checkpoint) container)).

Definition ensureDataPlaneAppContainers (obj : object) (path : list string) (scratch : storageMountSpec) (checkpoint : dataPlaneCheckpointPlan)
    : result derror (object * bool) :=
  match NestedSlice obj (childPath path "containers") with
  | Found containers =>
      match each_map (fun c => match ensureStorageMountInContainer scratch c with Ok c' => Ok (ensureCheckpointEnv checkpoint c') | Err e => Err e end) containers with
      | Err e => Err e
      | Ok containers' =>
          match SetNestedSlice obj containers' (childPath path "containers") with
          | Some obj' => Ok (obj', negb (bool_decide (length containers = 0%nat)))
          | None => Err (plain_error "set data plane containers: %w")
          end
      end
  | _ => Ok (obj, false)
  end.

Definition dataPlaneStageInVolumeMounts (scratch : storageMountSpec) (ops : list dataPlaneStageInOperation) : list any :=
  VMap (storageVolumeMountMap scratch)
  :: map (fun op => VMap (storageVolumeMountMap (MountSpec (stage_volume op) "" (si_SourcePath op) true "")))
       (first_by stage_volume [sm_Name scratch] (filter (fun op => stages op = true) ops)).

(** The script of the init container, a line for the directory and one for the copy of each
    data set that is not cached. *)
Definition copies (op : dataPlaneStageInOperation) : bool := negb (si_CacheHit op || str_empty (si_SourcePath op) || str_empty (si_ScratchPath op)).

Definition stage_lines (op : dataPlaneStageInOperation) : list string :=
  ["mkdir -p " +:+ shellQuote (si_ScratchPath op);
   "cp -a " +:+ shellQuote (TrimRightSlash (si_SourcePath op) +:+ "/.") +:+ " " +:+ shellQuote (TrimRightSlash (si_ScratchPath op) +:+ "/")].

Definition newline_text : string := String newline EmptyString.

Definition dataPlaneStageInCommand (ops : list dataPlaneStageInOperation) : string :=
  match flat_map stage_lines (filter (fun op => copies op = true) ops) with
  | [] => ""
  | lines => String.concat newline_text ("set -e" :: lines)
  end.

Definition stage_in_container (command : string) (scratch : storageMountSpec) (ops : list dataPlaneStageInOperation) : object :=
  {["name" := VString dataPlaneStageInContainerName; "image" := VString dataPlaneStageInImage;
    "command" := VList [VString "sh"; VString "-c"]; "args" := VList [VString command];
    "volumeMounts" := VList (dataPlaneStageInVolumeMounts scratch ops)]}.

(** The list of mounts is never empty, so the test of the code on it never holds. *)
Definition ensureDataPlaneStageInInitContainer (obj : object) (path : list string) (scratch : storageMountSpec) (ops : list dataPlaneStageInOperation)
    : result derror (object * bool) :=
  let command := dataPlaneStageInCommand ops in
  if str_empty command then Ok (obj, false)
  else
    let initContainers := found_or [] (NestedSlice obj (childPath path "initContainers")) in
    if sliceHasNamedItem initContainers dataPlaneStageInContainerName then Ok (obj, false)
    else match SetNestedSlice obj (initContainers ++ [VMap (stage_in_container command scratch ops)]) (childPath path "initContainers") with
         | Some obj' => Ok (obj', true)
         | None => Err (plain_error "set data plane initContainers: %w")
         end.

Fixpoint ensure_volumes (obj : object) (path : list string) (mounts : list storageMountSpec) : result derror object :=
  match mounts with
  | [] => Ok obj
  | mount :: rest => match ensureStorageVolume obj path mount with Ok obj' => ensure_volumes obj' path rest | Err e => Err e end
  end.

Definition injectDataPlaneIntoPodSpec (plan : dataPlanePlan) (obj : object) (path : list string) : result derror (object * bool) :=
  let scratch := dataPlaneScratchMount plan in
  if str_empty (sm_ClaimName scratch) || str_empty (sm_MountPath scratch)
  then Err (invalid_manifest "%w: data_plane scratch volume is incomplete" [])
  else match ensure_volumes obj path (scratch :: dataPlaneStageSourceMounts plan) with
       | Err e => Err e
       | Ok obj1 =>
           match ensureDataPlaneAppContainers obj1 path scratch (dp_Checkpoint plan) with
           | Err e => Err e
           | Ok (obj2, applied) =>
               match ensureDataPlaneStageInInitContainer obj2 path scratch (dp_StageInOperations plan) with
               | Err e => Err e
               | Ok (obj3, initApplied) => Ok (obj3, applied || initApplied)
               end
           end
       end.

Definition injectDataPlaneIntoVCJob (u : object) (plan : dataPlanePlan) : result derror (object * bool) := apply_vcjob (injectDataPlaneIntoPodSpec plan) u.
Definition injectDataPlaneIntoResource (r : dispatchResource) (plan : dataPlanePlan) : result derror (dispatchResource * bool) :=
  apply_resource (injectDataPlaneIntoPodSpec plan) r.

Definition prepareDataPlaneDispatchResources (plan : dataPlanePlan) (rs : list dispatchResource) : result derror (list dispatchResource) :=
  if dataPlanePlanEmpty plan then Ok rs
  else match apply_resources (injectDataPlaneIntoPodSpec plan) rs with
       | Err e => Err e
       | Ok (rs', true) => Ok rs'
       | Ok (_, false) => Err (invalid_manifest "%w: data_plane requires a Pod, Deployment, Job, or VCJob manifest" [])
       end.

End Storage.

(** ** The script does what it says *)

(** The commands of the script: one directory and one copy for each data set, whatever
    characters their paths are made of. *)
Definition stage_commands (op : dataPlaneStageInOperation) : list (list string) :=
  [["mkdir"; "-p"; si_ScratchPath op]; ["cp"; "-a"; TrimRightSlash (si_SourcePath op) +:+ "/."; TrimRightSlash (si_ScratchPath op) +:+ "/"]].

Lemma concat_cons sep a b l : String.concat sep (a :: b :: l) = a +:+ sep +:+ String.concat sep (b :: l).
Proof. reflexivity. Qed.

(** The lines of one data set, read at the start of a line. *)
Lemma read_stage op script rest :
  shell_read Unquoted (Shell None [] script)
    (bytes_of ("mkdir -p " +:+ shellQuote (si_ScratchPath op)) ++ newline ::
     bytes_of ("cp -a " +:+ shellQuote (TrimRightSlash (si_SourcePath op) +:+ "/.") +:+ " " +:+ shellQuote (TrimRightSlash (si_ScratchPath op) +:+ "/")) ++ rest)
  = shell_read Unquoted (Shell (Some (rev (bytes_of (TrimRightSlash (si_ScratchPath op) +:+ "/")))) ["cp"; "-a"; TrimRightSlash (si_SourcePath op) +:+ "/."]
                          (script ++ [["mkdir"; "-p"; si_ScratchPath op]])) rest.
Proof.
  rewrite (bytes_of_app "mkdir -p "), (bytes_of_app "cp -a "), (bytes_of_app (shellQuote (_ +:+ "/.")) (" " +:+ _)), (bytes_of_app " "), <- !app_assoc.
  change (shell_read Unquoted (Shell None [] script) (bytes_of "mkdir -p " ++ ?l)) with (shell_read Unquoted (Shell None ["mkdir"; "-p"] script) l).
  rewrite read_quoted, read_end_quoted.
  change (shell_read Unquoted (Shell None [] ?s) (bytes_of "cp -a " ++ ?l)) with (shell_read Unquoted (Shell None ["cp"; "-a"] s) l).
  rewrite read_quoted. change (bytes_of " " ++ ?l) with (" "%char :: l). by rewrite read_blank_quoted, read_quoted.
Qed.

Lemma read_stages ops : forall script,
  ops ≠ [] ->
  sh_script <$> shell_read Unquoted (Shell None [] script) (bytes_of (String.concat newline_text (flat_map stage_lines ops))) =
  Some (script ++ flat_map stage_commands ops).
Proof.
  induction ops as [|op ops IH]; intros script Hne; [done|]. cbn [flat_map stage_lines Datatypes.app].
  rewrite concat_cons. destruct (flat_map stage_lines ops) as [|l ls] eqn:El.
  - assert (ops = []) as -> by (destruct ops; [done|discriminate El]).
    cbn [String.concat flat_map]. rewrite bytes_of_app, (bytes_of_app newline_text). change (bytes_of newline_text ++ ?l) with (newline :: l).
    rewrite <- (app_nil_r (bytes_of ("cp -a " +:+ _))), read_stage, read_final_quoted. cbn. by rewrite <- app_assoc.
  - rewrite concat_cons, (bytes_of_app ("mkdir -p " +:+ _)), (bytes_of_app newline_text), (bytes_of_app ("cp -a " +:+ _)), (bytes_of_app newline_text).
    do 2 change (bytes_of newline_text ++ ?l) with (newline :: l). rewrite read_stage, read_end_quoted, IH by (by intros ->).
    cbn. by rewrite <- !app_assoc.
Qed.

(** C31: The script that stages data sets in is read by the shell as exactly the commands
    meant: "set -e", then for each data set to copy the creation of its directory and the
    copy, with the paths as single words.  No path, whatever quotes, newlines or operators
    it has, ends a command or adds one. *)
Theorem stage_in_script_exact ops :
  let copied := filter (fun op => copies op = true) ops in
  (copied = [] -> dataPlaneStageInCommand ops = "") /\
  (copied ≠ [] -> shell_parse (dataPlaneStageInCommand ops) = Some (["set"; "-e"] :: flat_map stage_commands copied)).
Proof.
  cbn zeta. unfold dataPlaneStageInCommand. set (copied := filter _ ops). split; [by intros ->|]. intros Hne.
  destruct (flat_map stage_lines copied) as [|l ls] eqn:El; [destruct copied; [done|discriminate El]|].
  unfold shell_parse. rewrite concat_cons, (bytes_of_app "set -e"), (bytes_of_app newline_text), <- El.
  change (shell_read Unquoted (Shell None [] []) (bytes_of "set -e" ++ bytes_of newline_text ++ ?l))
    with (shell_read Unquoted (Shell None [] [["set"; "-e"]]) l).
  by rewrite read_stages.
Qed.

(** A path made to break out of its quotes. *)
Definition hostile_stage : dataPlaneStageInOperation :=
  StageIn "b1" "" false "ns" "src" "dst" "" "/data/'; rm -rf / #" "/scratch/$(reboot)".

Lemma stage_in_script_exact_witness :
  shell_parse (dataPlaneStageInCommand [hostile_stage]) =
  Some [["set"; "-e"]; ["mkdir"; "-p"; "/scratch/$(reboot)"]; ["cp"; "-a"; "/data/'; rm -rf / #/."; "/scratch/$(reboot)/"]].
Proof. apply (proj2 (stage_in_script_exact [hostile_stage])). vm_compute. discriminate. Defined.

(** ** Volumes are the ones of the plan *)

Section Volumes.
Context {GL : GoLib} {US : UnstructuredLib} {LW : UnstructuredLaws}.

Definition pod_volumes (o : object) (path : list string) : list any := found_or [] (NestedSlice o (childPath path "volumes")).

(** The volume of the mount's name is the claim of the plan. *)
Definition volume_bound (m : storageMountSpec) (volumes : list any) : Prop :=
  exists v, named_volume (sm_Name m) volumes = Some v /\ volume_claim v = sm_ClaimName m.

(** A container has the volume at the path of the plan, read-only if the plan says so. *)
Definition mount_matches (m : storageMountSpec) (vm : object) : Prop :=
  TextValue vm ["name"] = sm_Name m /\ TextValue vm ["mountPath"; "mount_path"] = sm_MountPath m /\
  (sm_ReadOnly m = true -> vm !! "readOnly" = Some (VBool true)).

Definition mounted (m : storageMountSpec) (c : object) : Prop :=
  exists vm, vm ∈ mapItems (mget c "volumeMounts") /\ mount_matches m vm.

(** Names, claims and paths of a plan are trimmed and not empty. *)
Definition trimmed_text (s : string) : Prop := TrimSpace s = s /\ s ≠ "".
Definition spec_wf (m : storageMountSpec) : Prop := trimmed_text (sm_Name m) /\ trimmed_text (sm_ClaimName m) /\ trimmed_text (sm_MountPath m).

Lemma plan_specs_wf plan : Forall spec_wf (manifestStorageMounts (storageMountSpecsFromPlan plan)).
Proof.
  apply Forall_forall. intros m [_ Hm]%list_elem_of_filter. unfold storageMountSpecsFromPlan in Hm.
  apply list_elem_of_omap in Hm as (pm & _ & Hm). cbn zeta in Hm.
  destruct (str_empty (TrimSpace (pm_ClaimName pm)) || str_empty (TrimSpace (pm_MountPath pm))) eqn:E; [done|]. injection Hm as <-.
  to_prop. unfold str_empty in *. to_prop. split; [|split]; cbn.
  - eapply dns_label_trimmed. apply (proj1 (sanitized_label _ _ 63 ltac:(lia))).
  - by split; [apply TrimSpace_idem|].
  - by split; [apply TrimSpace_idem|].
Qed.

Lemma text_value_set (m : object) k s : m !! k = Some (VString s) -> trimmed_text s -> forall ks, TextValue m (k :: ks) = s.
Proof.
  intros Hk [Ht Hne] ks. unfold TextValue. cbn [first_key]. unfold mget. rewrite Hk. cbn [default from_option id text_of].
  unfold nonempty, str_empty. rewrite Ht. by rewrite (proj2 (String.eqb_neq _ _) Hne).
Qed.

Lemma text_value_keep (m : object) k v ks : k ∉ ks -> TextValue (<[k := v]> m) ks = TextValue m ks.
Proof.
  intros Hk. unfold TextValue. f_equal. induction ks as [|x ks IH]; [done|]. cbn [first_key]. unfold mget.
  rewrite lookup_insert_ne by (intros ->; apply Hk; left). rewrite IH; [done|]. intros H; apply Hk; by right.
Qed.

(** *** Mounts of a container *)

Lemma storage_mount_matches m : spec_wf m -> mount_matches m (storageVolumeMountMap m).
Proof.
  intros (Hn & _ & Hp). unfold mount_matches. split; [|split].
  - apply text_value_set; [|done]. unfold storageVolumeMountMap. by destruct (sm_ReadOnly m), (str_empty (sm_SubPath m)).
  - apply text_value_set; [|done]. unfold storageVolumeMountMap. by destruct (sm_ReadOnly m), (str_empty (sm_SubPath m)).
  - intros Hr. unfold storageVolumeMountMap. rewrite Hr. by destruct (str_empty (sm_SubPath m)).
Qed.

(** Merging a mount keeps what the others are, and makes this one right. *)
Lemma merge_existing m existing vm : mergeExistingStorageMount existing m = Ok vm ->
  TextValue existing ["name"] = sm_Name m -> mount_matches m vm /\ (forall m', mount_matches m' existing -> mount_matches m' vm).
Proof.
  unfold mergeExistingStorageMount. destruct (String.eqb_spec (TextValue existing ["mountPath"; "mount_path"]) (sm_MountPath m)) as [Hp|]; [|done].
  cbn [negb]. set (e1 := if sm_ReadOnly m then _ else _). intros Hm Hn.
  assert (vm = e1 \/ vm = <["subPath" := VString (sm_SubPath m)]> e1) as Hvm.
  { unfold mergeExistingStorageSubPath in Hm. destruct (str_empty (sm_SubPath m)); [left; congruence|]. cbn zeta in Hm.
    destruct (_ && _); [done|right; congruence]. }
  assert (forall m', (mount_matches m' existing \/ m' = m) -> mount_matches m' e1) as H1.
  { intros m' Hm'. unfold mount_matches, e1 in *. destruct (sm_ReadOnly m) eqn:Er.
    - rewrite !text_value_keep by (apply (bool_decide_unpack _); done). rewrite lookup_insert_eq.
      destruct Hm' as [(? & ? & ?)| ->]; done.
    - destruct Hm' as [?| ->]; [done|]. split; [done|]. split; [done|congruence]. }
  assert (forall m', (mount_matches m' existing \/ m' = m) -> mount_matches m' vm) as H2.
  { intros m' Hm'%H1. destruct Hvm as [->| ->]; [done|]. unfold mount_matches in *.
    rewrite !text_value_keep by (apply (bool_decide_unpack _); done). by rewrite lookup_insert_ne. }
  split; [apply H2; by right|]. intros m' ?. apply H2. by left.
Qed.

Lemma merge_mount_spec m l : match merge_mount l m with
  | Ok (Some l') => (exists vm, VMap vm ∈ l' /\ mount_matches m vm) /\
                    (forall m' vm, VMap vm ∈ l -> mount_matches m' vm -> exists vm', VMap vm' ∈ l' /\ mount_matches m' vm')
  | _ => True
  end.
Proof.
  induction l as [|raw l IH]; [done|].
  assert (match (match merge_mount l m with Ok r => Ok (cons raw <$> r) | Err e => Err e end) with
          | Ok (Some l') => (exists vm, VMap vm ∈ l' /\ mount_matches m vm) /\
              (forall m' vm, VMap vm ∈ raw :: l -> mount_matches m' vm -> exists vm', VMap vm' ∈ l' /\ mount_matches m' vm')
          | _ => True end) as Hrec.
  { destruct (merge_mount l m) as [[l'|]|]; cbn; [|done|done]. destruct IH as [(vm & Hin & Hvm) Hk]. split.
    - exists vm. split; [by right|done].
    - intros m' vm' [Hin'|Hin']%elem_of_cons Hm'; [exists vm'; split; [rewrite Hin'; left|done]|].
      destruct (Hk m' vm' Hin' Hm') as (vm'' & ? & ?). exists vm''. split; [by right|done]. }
  destruct raw; try exact Hrec. cbn [merge_mount].
  destruct (String.eqb_spec (TextValue m0 ["name"]) (sm_Name m)) as [En|En].
  - destruct (mergeExistingStorageMount m0 m) as [vm|] eqn:Em; [|done]. destruct (merge_existing _ _ _ Em En) as [H1 H2]. split.
    + exists vm. split; [left|done].
    + intros m' vm' [[= ->]|Hin]%elem_of_cons Hm'; [exists vm; split; [left|by apply H2]|exists vm'; split; [by right|done]].
  - destruct (String.eqb _ (sm_MountPath m)); [done|]. exact Hrec.
Qed.

Lemma in_map_items vm l : vm ∈ mapItems (VList l) <-> VMap vm ∈ l.
Proof.
  cbn. rewrite list_elem_of_omap. split; [|intros H; by exists (VMap vm)]. intros ([] & Hin & E); try done. cbn in E. by injection E as <-.
Qed.

Lemma mounted_list m c l : mget c "volumeMounts" = VList l -> mounted m c <-> exists vm, VMap vm ∈ l /\ mount_matches m vm.
Proof. intros E. unfold mounted. rewrite E. by setoid_rewrite in_map_items. Qed.

Lemma container_mounted m c c' : spec_wf m -> ensureStorageMountInContainer m c = Ok c' ->
  mounted m c' /\ (forall m', mounted m' c -> mounted m' c').
Proof.
  intros Hwf. unfold ensureStorageMountInContainer. cbn zeta. set (l := default [] (as_list (mget c "volumeMounts"))).
  assert (forall l' : list any, mget (<["volumeMounts" := VList l']> c) "volumeMounts" = VList l') as Hg by (intros; unfold mget; by rewrite lookup_insert_eq).
  assert (forall m', mounted m' c -> exists vm, VMap vm ∈ l /\ mount_matches m' vm) as Hl.
  { intros m' Hm'. unfold l. destruct (mget c "volumeMounts") eqn:E; try (unfold mounted in Hm'; rewrite E in Hm'; destruct Hm' as (? & []%elem_of_nil & _)).
    by apply (mounted_list m' c l0 E). }
  pose proof (merge_mount_spec m l) as Hs. destruct (merge_mount l m) as [[l'|]|]; [| |done]; intros [= <-].
  - destruct Hs as [H1 H2]. split; [by apply (mounted_list m _ l' (Hg l'))|]. intros m' (vm & Hin & Hm')%Hl.
    apply (mounted_list m' _ l' (Hg l')). by eapply H2.
  - split; [|intros m' (vm & Hin & Hm')%Hl]; apply (mounted_list _ _ _ (Hg _)).
    + exists (storageVolumeMountMap m). split; [apply elem_of_app; right; left|by apply storage_mount_matches].
    + exists vm. split; [apply elem_of_app; by left|done].
Qed.

(** *** Mounts of a pod template *)

Definition container_keys : list string := ["containers"; "initContainers"].

Definition mounted_all (m : storageMountSpec) (o : object) (path : list string) : Prop :=
  forall key c, key ∈ container_keys -> VMap c ∈ found_or [] (NestedSlice o (childPath path key)) -> mounted m c.

Lemma each_map_spec (f : object -> result derror object) l l' c' : each_map f l = Ok l' -> VMap c' ∈ l' -> exists c, VMap c ∈ l /\ f c = Ok c'.
Proof.
  revert l'. induction l as [|raw l IH]; intros l' H Hin; [injection H as <-; by apply elem_of_nil in Hin|].
  assert (forall out, each_map f l = Ok out -> VMap c' ∈ out -> exists c, VMap c ∈ raw :: l /\ f c = Ok c') as Hrest.
  { intros out Ho Hi. destruct (IH out Ho Hi) as (c & ? & ?). exists c. split; [by right|done]. }
  destruct raw; cbn [each_map] in H; [..|destruct (f m) as [m'|] eqn:Ef; [|done]|]; destruct (each_map f l) as [out|] eqn:Eo; try done;
    injection H as <-; apply elem_of_cons in Hin as [Hin|Hin]; try discriminate Hin; try (by apply (Hrest out)).
  injection Hin as ->. exists m. split; [left|done].
Qed.

Lemma find_append {A} (f : A -> bool) l1 l2 :
  List.find f (l1 ++ l2) = match List.find f l1 with Some x => Some x | None => List.find f l2 end.
Proof. induction l1 as [|x l1 IH]; cbn; [done|]. by destruct (f x). Qed.

Lemma volume_ensured obj path m o : spec_wf m -> ensureStorageVolume obj path m = Ok o ->
  volume_bound m (pod_volumes o path) /\ (forall m', volume_bound m' (pod_volumes obj path) -> volume_bound m' (pod_volumes o path)) /\
  (forall key, key ∈ container_keys -> NestedSlice o (childPath path key) = NestedSlice obj (childPath path key)).
Proof.
  intros (Hn & Hc & _). unfold ensureStorageVolume. cbn zeta. fold (pod_volumes obj path). set (vols := pod_volumes obj path).
  destruct (named_volume (sm_Name m) vols) as [v|] eqn:Ev.
  - destruct (String.eqb_spec (volume_claim v) (sm_ClaimName m)) as [E|]; [|done]. intros [= <-]. fold vols. split; [by exists v|done].
  - destruct (SetNestedSlice _ _ _) as [o'|] eqn:Es; [|done]. intros [= <-].
    assert (pod_volumes o' path = vols ++ [VMap (volume_map m)]) as Ep by (unfold pod_volumes; by rewrite (slice_after_set _ _ _ _ Es)).
    rewrite Ep. split; [|split].
    + exists (volume_map m). unfold named_volume, volume_bound in *. rewrite omap_app. cbn [omap list_omap as_map].
      rewrite find_append, Ev. cbn [List.find]. rewrite (text_value_set (volume_map m) "name" (sm_Name m)) by done.
      rewrite String.eqb_refl. split; [done|]. by apply text_value_set.
    + intros m' (v & Hv & Hcl). exists v. split; [|done]. unfold named_volume in *. by rewrite omap_app, find_append, Hv.
    + intros key Hk. apply (slice_apart _ _ _ _ _ (diverge_child path "volumes" key (ltac:(intros <-; revert Hk; by apply (bool_decide_unpack _)))) Es).
Qed.

Lemma containers_mounted m path key obj o b : spec_wf m -> key ∈ container_keys -> mount_containers m path obj key = Ok (o, b) ->
  (forall c, VMap c ∈ found_or [] (NestedSlice o (childPath path key)) -> mounted m c) /\
  (forall m', mounted_all m' obj path -> mounted_all m' o path) /\
  (forall k, k ≠ key -> NestedSlice o (childPath path k) = NestedSlice obj (childPath path k)).
Proof.
  intros Hwf Hkey. unfold mount_containers. destruct (NestedSlice obj (childPath path key)) as [l| |] eqn:E.
  2,3: intros [= <- <-]; rewrite E; cbn; split; [by intros ? ?%elem_of_nil|done].
  destruct (each_map _ l) as [l'|] eqn:El; [|done]. destruct (SetNestedSlice _ _ _) as [o'|] eqn:Es; [|done]. intros [= <- <-].
  assert (forall k, k ≠ key -> NestedSlice o' (childPath path k) = NestedSlice obj (childPath path k)) as Hother
    by (intros k Hk; apply (slice_apart _ _ _ _ _ (diverge_child path key k ltac:(congruence)) Es)).
  rewrite (slice_after_set _ _ _ _ Es). cbn [found_or]. split; [|split; [|done]].
  - intros c Hc. destruct (each_map_spec _ _ _ _ El Hc) as (c0 & _ & Hf). by apply (container_mounted m c0 c Hwf) in Hf as [? _].
  - intros m' Hm' k c Hk. destruct (decide (k = key)) as [->|Hne].
    + rewrite (slice_after_set _ _ _ _ Es). cbn [found_or]. intros Hc. destruct (each_map_spec _ _ _ _ El Hc) as (c0 & Hin & Hf).
      apply (container_mounted m c0 c Hwf) in Hf as [_ Hf]. apply Hf, (Hm' key); [done|]. by rewrite E.
    + rewrite Hother by done. by apply Hm'.
Qed.

Lemma template_mounted m path obj o b : spec_wf m -> ensureStorageContainerMounts obj path m = Ok (o, b) ->
  mounted_all m o path /\ (forall m', mounted_all m' obj path -> mounted_all m' o path) /\ pod_volumes o path = pod_volumes obj path.
Proof.
  intros Hwf. unfold ensureStorageContainerMounts. destruct (mount_containers m path obj "containers") as [[o1 b1]|] eqn:E1; [|done].
  destruct (mount_containers m path o1 "initContainers") as [[o2 b2]|] eqn:E2; [|done]. intros [= <- <-].
  apply containers_mounted in E1 as (M1 & K1 & S1); [|done|by apply (bool_decide_unpack _)].
  apply containers_mounted in E2 as (M2 & K2 & S2); [|done|by apply (bool_decide_unpack _)]. split; [|split; [auto|]].
  - intros key c [->|Hk%list_elem_of_singleton]%elem_of_cons Hc; [|subst; by apply M2]. rewrite S2 in Hc by done. by apply M1.
  - unfold pod_volumes. by rewrite S2, S1.
Qed.

Lemma mounts_injected path mounts : forall obj o b, Forall spec_wf mounts -> injectStorageMountsIntoPodSpec obj path mounts = Ok (o, b) ->
  (forall m, m ∈ mounts -> volume_bound m (pod_volumes o path) /\ mounted_all m o path) /\
  (forall m, volume_bound m (pod_volumes obj path) -> volume_bound m (pod_volumes o path)) /\
  (forall m, mounted_all m obj path -> mounted_all m o path).
Proof.
  induction mounts as [|m mounts IH]; intros obj o b Hwf H.
  - injection H as <- <-. split; [by intros ? ?%elem_of_nil|done].
  - cbn [injectStorageMountsIntoPodSpec] in H. apply Forall_cons in Hwf as [Hm Hwf].
    destruct (ensureStorageVolume obj path m) as [o1|] eqn:E1; [|done].
    destruct (ensureStorageContainerMounts o1 path m) as [[o2 b2]|] eqn:E2; [|done].
    destruct (injectStorageMountsIntoPodSpec o2 path mounts) as [[o3 b3]|] eqn:E3; [|done]. injection H as <- <-.
    apply volume_ensured in E1 as (V1 & W1 & S1); [|done]. apply template_mounted in E2 as (M2 & K2 & V2); [|done].
    destruct (IH _ _ _ Hwf E3) as (H3 & V3 & M3). split; [|split].
    + intros m' [->|Hin]%elem_of_cons; [|by apply H3]. split; [apply V3; by rewrite V2|by apply M3].
    + intros m' Hb. apply V3. rewrite V2. by apply W1.
    + intros m' Ha. apply M3, K2. intros key c Hk. rewrite S1 by done. by apply Ha.
Qed.

(** When the volumes of a storage plan were put into a pod template, each volume name of
    the plan stands for the claim of the plan, also where the tenant declared a volume of
    that name, and every container and init container mounts it at the path of the plan,
    read-only where the plan says so. *)
Theorem storage_plan_mounted plan obj path o b :
  let mounts := manifestStorageMounts (storageMountSpecsFromPlan plan) in
  injectStorageMountsIntoPodSpec obj path mounts = Ok (o, b) ->
  forall m, m ∈ mounts -> volume_bound m (pod_volumes o path) /\ mounted_all m o path.
Proof. cbn zeta. intros H. apply (proj1 (mounts_injected path _ obj o b (plan_specs_wf plan) H)). Qed.
End Volumes.

#[local] Existing Instance reference_lib.
#[local] Existing Instance reference_laws.
#[local] Instance storage_golib : GoLib := {|
  parse_quantity _ := None; parse_float _ := None; parse_int64 _ := None; parse_rfc3339 _ := None;
  format_rfc3339 _ := ""; time_string _ := ""; unmarshal_object _ := None; unmarshal_objects _ := None;
  unmarshal_strings _ := None; marshal _ := None; sprint _ := ""; sprintf f _ := f; sha256_hex s := s |}.

Definition read_only_plan : storageMountPlan := MountPlan [PlanMount "data" "team-data" "/data" true ""] [].

Definition data_mount (path : string) : any := VMap {["name" := VString "data"; "mountPath" := VString path]}.
Definition mounting_pod : object :=
  {["spec" := VMap {["containers" := VList [VMap {["name" := VString "main"; "volumeMounts" := VList [data_mount "/data"; data_mount "/rw"]]}]]}]}.

Definition mounting_pod_injected : object * bool :=
  match injectStorageMountsIntoPodSpec mounting_pod ["spec"] (manifestStorageMounts (storageMountSpecsFromPlan read_only_plan)) with
  | Ok r => r | Err _ => (∅, false)
  end.

Lemma storage_plan_mounted_witness :
  volume_bound (MountSpec "data" "team-data" "/data" true "") (pod_volumes (fst mounting_pod_injected) ["spec"]) /\
  mounted_all (MountSpec "data" "team-data" "/data" true "") (fst mounting_pod_injected) ["spec"].
Proof.
  refine (storage_plan_mounted read_only_plan mounting_pod ["spec"] (fst mounting_pod_injected) (snd mounting_pod_injected) _ _ _).
  - vm_compute. reflexivity.
  - vm_compute. left.
Defined.

(** The read-only flag is set on the first mount of the volume's name: a second mount of it
    in the tenant's manifest stays writable, on a volume he may only read. *)
Example second_mount_writable :
  match nested_get (VMap (fst mounting_pod_injected)) ["spec"; "containers"] with
  | Found (VList [VMap c]) => map (fun vm => (TextValue vm ["mountPath"], vm !! "readOnly")) (mapItems (mget c "volumeMounts"))
  | _ => []
  end = [("/data", Some (VBool true)); ("/rw", None)].
Proof. vm_compute. reflexivity. Qed.
