(* ===== verification/WorkloadVolcano.v ===== *)
(** * Workload service: gangs, and all manifests of a job
    (dispatcher_volcano.go, prepareDispatchManifests of dispatcher.go)

    For the Volcano scheduler the batch jobs of a workload become one Volcano job, with the
    pods it stands for as a fallback, and its pods and deployments join a pod group.  The
    file ends with the whole preparation, the steps of WorkloadStorage, WorkloadInjectors
    and WorkloadManifest in the order of the code, and with the dispatcher of
    WorkloadDispatch running on it. *)

From stdpp Require Import base gmap strings list fin_maps.
From Stdlib Require Import ZArith Lia Ascii DecimalString.
From S2P Require Import Prelude GoValue Store EventBus Crud RateLimit InputLimits Config Auth Guards SchedulerHttp WorkloadTypes WorkloadJobs WorkloadDispatch Unstructured WorkloadManifest WorkloadText WorkloadInjectors WorkloadStorage.
Local Open Scope Z_scope.

Definition volcanoVCJobAPIVersion : string := "batch.volcano.sh/v1alpha1".
Definition volcanoVCJobKind : string := "Job".
Definition volcanoPodGroupAPIVersion : string := "scheduling.volcano.sh/v1beta1".
Definition volcanoPodGroupKind : string := "PodGroup".
Definition platformJobQueueLabelKey : string := "platform-go/job-queue".
Definition platformQueueNameLabelKey : string := "platform-go/queue-name".

Record volcanoTaskTemplate := TaskTemplate { vt_sourceName : string; vt_replicas : Z; vt_template : object }.
Record volcanoDispatchParts := Parts { vp_extras : list dispatchManifest; vp_native : list dispatchResource; vp_tasks : list volcanoTaskTemplate }.

(** [make([]dispatchManifest, 0, count)]: the runtime panics when the capacity is negative or
    its elements of 48 bytes exceed the address space of 2^48 bytes. *)
Definition manifest_size : Z := 48.
Definition makeslice_ok (count : Z) : bool := (0 <=? count) && (count * manifest_size <=? 2 ^ 48).

Section Volcano.
Context `{GoLib} `{UnstructuredLib}.

Definition positiveNestedInt64 (obj : object) (fields : list string) : Z :=
  match NestedFieldNoCopy obj fields with
  | Found (VInt z) | Found (VInt32 z) | Found (VInt64 z) => z
  | Found (VFloat64 f) => f64_to_int f
  | Found (VNumber s) => default 0 (parse_int64 s)
  | _ => 0
  end.

Definition batchJobReplicas (u : object) : Z :=
  let parallelism := positiveNestedInt64 u ["spec"; "parallelism"] in
  if 0 <? parallelism then parallelism
  else
    let completions := positiveNestedInt64 u ["spec"; "completions"] in
    if 0 <? completions then completions else 1.

Definition taskReplicaCount (t : volcanoTaskTemplate) : Z := if 0 <? vt_replicas t then vt_replicas t else 1.

Definition nativeReplicaCount (r : dispatchResource) : Z :=
  match dispatchObject r with
  | Err _ => 1
  | Ok u => if EqualFold (GetKind u) "Deployment"
            then let replicas := positiveNestedInt64 u ["spec"; "replicas"] in if 0 <? replicas then replicas else 1
            else 1
  end.

(** Sums of replicas wrap at 64 bits. *)
Definition sum_i64 (l : list Z) : Z := fold_left (fun acc z => i64 (acc + z)) l 0.

Definition podTemplateHasContainers (template : object) : bool :=
  existsb (fun key => match NestedSlice template ["spec"; key] with Found (_ :: _) => true | _ => false end) ["containers"; "initContainers"].

Definition job_queue (job : object) : string := TextValue job ["queue_name"; "queueName"].

(** ** A batch job as a task *)

Definition volcanoTaskFromBatchJob (job : object) (r : dispatchResource) (u : object) (labels : gmap string string) : result derror volcanoTaskTemplate :=
  match NestedMap u ["spec"; "template"] with
  | Found template =>
      if negb (podTemplateHasContainers template)
      then Err (invalid_manifest "%w: job %s has empty pod template containers" [VString (GetName u)])
      else
        let t1 := mergeNestedStringMap template labels ["metadata"; "labels"] in
        let queue := job_queue job in
        let t2 := if str_empty queue then t1 else mergeNestedStringMap t1 {[volcanoQueueAnnotationKey := queue]} ["metadata"; "annotations"] in
        let t3 := put t2 (VString volcanoSchedulerName) ["spec"; "schedulerName"] in
        let t4 := if str_empty (priorityClassForJob job) then t3 else put t3 (VString (priorityClassForJob job)) ["spec"; "priorityClassName"] in
        match rejectUnsafeDispatchPodSpec (found_or ∅ (NestedMap t4 ["spec"])) with
        | Some e => Err e
        | None => Ok (TaskTemplate (FirstNonEmpty [dr_Name r; GetName u]) (batchJobReplicas u) (setDispatchAutomountServiceAccountToken t4 ["spec"]))
        end
  | _ => Err (invalid_manifest "%w: job %s spec.template is required" [VString (GetName u)])
  end.

(** ** Synthesized objects *)

Definition object_meta (name namespace : string) (labels : gmap string string) : any :=
  VMap {["name" := VString name; "namespace" := VString namespace; "labels" := VStringMap labels]}.

Definition with_queue (job : object) (spec : object) : object :=
  if str_empty (job_queue job) then spec else <["queue" := VString (job_queue job)]> spec.

Definition vcjob_task (i : nat) (t : volcanoTaskTemplate) : any :=
  let replicas := if vt_replicas t <? 1 then 1 else vt_replicas t in
  VMap {["name" := VString ("t" +:+ fmt_int 0 (Z.of_nat i)); "replicas" := VInt64 replicas; "minAvailable" := VInt64 replicas;
         "template" := VMap (vt_template t)]}.

Definition vcjob_object (job : object) (namespace name : string) (labels : gmap string string) (templates : list volcanoTaskTemplate) : object :=
  let minAvailable0 := sum_i64 (map (fun t => if vt_replicas t <? 1 then 1 else vt_replicas t) templates) in
  let minAvailable := if minAvailable0 <? 1 then 1 else minAvailable0 in
  let spec : object := {["minAvailable" := VInt64 minAvailable; "schedulerName" := VString volcanoSchedulerName;
                "priorityClassName" := VString (priorityClassForJob job); "tasks" := VList (imap vcjob_task templates);
                "plugins" := VMap {["env" := VList []]}]} in
  {["apiVersion" := VString volcanoVCJobAPIVersion; "kind" := VString volcanoVCJobKind; "metadata" := object_meta name namespace labels;
    "spec" := VMap (with_queue job spec)]}.

Definition synthesizedVCJob (job : object) (namespace name : string) (labels : gmap string string) (templates : list volcanoTaskTemplate) : result derror string :=
  marshal_raw (vcjob_object job namespace name labels templates).

Definition pod_group_object (job : object) (namespace name : string) (labels : gmap string string) (minMember0 : Z) : object :=
  let minMember := if minMember0 <? 1 then 1 else minMember0 in
  {["apiVersion" := VString volcanoPodGroupAPIVersion; "kind" := VString volcanoPodGroupKind; "metadata" := object_meta name namespace labels;
    "spec" := VMap (with_queue job {["minMember" := VInt64 minMember; "priorityClassName" := VString (priorityClassForJob job)]})]}.

Definition synthesizedPodGroupWithMinMember (job : object) (namespace name : string) (labels : gmap string string) (minMember : Z) : result derror string :=
  marshal_raw (pod_group_object job namespace name labels minMember).

Definition synthesizedPodGroup (job : object) (namespace name : string) (labels : gmap string string) (native : list dispatchResource) : result derror string :=
  synthesizedPodGroupWithMinMember job namespace name labels (sum_i64 (map nativeReplicaCount native)).

Definition synthesizedPodGroupForTasks (job : object) (namespace name : string) (labels : gmap string string) (templates : list volcanoTaskTemplate) : result derror string :=
  synthesizedPodGroupWithMinMember job namespace name labels (sum_i64 (map taskReplicaCount templates)).

(** ** The pods a task stands for *)

Definition job_identifier (job : object) : string := FirstNonEmpty [TextValue job ["job_id"; "jobId"]; TextValue job ["id"]].

Definition fallbackPodName (job : object) (taskIndex : nat) (replica : Z) : string :=
  sanitizeDNSLabel (ToLower (job_identifier job) +:+ "-" +:+ fmt_int 0 (Z.of_nat taskIndex) +:+ "-" +:+ fmt_int 0 replica) "pod" 63.

Definition applyFallbackPodQueueMetadata (u : object) (queue : string) : object :=
  let labels0 := default ∅ (GetLabels u) in
  let labels1 := if str_empty queue then labels0 else <[platformQueueNameLabelKey := queue]> (<[platformJobQueueLabelKey := queue]> labels0) in
  SetLabels u (match labels1 !! platformPreemptibleLabelKey with Some _ => labels1 | None => <[platformPreemptibleLabelKey := "false"]> labels1 end).

Definition cloneJSONMap (m : object) : option object := marshal (VMap m) ≫= unmarshal_object.

Definition fallback_pod (job : object) (namespace groupName : string) (labels : gmap string string) (t : volcanoTaskTemplate) (taskIndex : nat) (replica replicas : Z)
    : result derror object :=
  match cloneJSONMap (vt_template t) with
  | None => Err (plain_error (sprintf "clone fallback pod template %s: %w" [VString (vt_sourceName t)]))
  | Some copied =>
      match NestedMap copied ["spec"] with
      | Found spec =>
          let metadata := found_or ∅ (NestedMap copied ["metadata"]) in
          let pod0 : object := {["apiVersion" := VString "v1"; "kind" := VString "Pod"; "metadata" := VMap metadata; "spec" := VMap spec]} in
          let pod1 := if str_empty (GetName pod0) && (replicas =? 1) then SetName pod0 (vt_sourceName t) else pod0 in
          let pod2 := if str_empty (GetName pod1) || (1 <? replicas) then SetName pod1 (fallbackPodName job taskIndex replica) else pod1 in
          let pod3 := mergeObjectLabels (SetNamespace pod2 namespace) labels in
          let queue := job_queue job in
          Ok (setPodGroupObjectMetadata (setAnnotation (applyFallbackPodQueueMetadata pod3 queue) queue) groupName)
      | _ => Err (invalid_manifest "%w: job %s fallback pod spec is required" [VString (vt_sourceName t)])
      end
  end.

Definition fallbackPodForTask (job : object) (namespace groupName : string) (labels : gmap string string) (t : volcanoTaskTemplate) (taskIndex : nat) (replica replicas : Z)
    : result derror string :=
  match fallback_pod job namespace groupName labels t taskIndex replica replicas with Err e => Err e | Ok pod => marshal_object pod end.

(** One manifest per item; the first error ends the loop. *)
Fixpoint each_manifest {A} (f : A -> result derror string) (l : list A) : result derror (list dispatchManifest) :=
  match l with
  | [] => Ok []
  | x :: rest => match f x with
                 | Err e => Err e
                 | Ok raw => match each_manifest f rest with Ok ms => Ok (Manifest raw [] :: ms) | Err e => Err e end
                 end
  end.

Definition task_replicas (i : nat) (t : volcanoTaskTemplate) : list (nat * volcanoTaskTemplate * Z) :=
  (fun replica => (i, t, Z.of_nat replica)) <$> seq 0 (Z.to_nat (taskReplicaCount t)).

(** [None]: the allocation of the result panics. *)
Definition fallbackPodsForTasks (job : object) (namespace groupName : string) (labels : gmap string string) (templates : list volcanoTaskTemplate)
    : option (result derror (list dispatchManifest)) :=
  if makeslice_ok (sum_i64 (map taskReplicaCount templates))
  then Some (each_manifest (fun '(i, t, replica) => fallbackPodForTask job namespace groupName labels t i replica (taskReplicaCount t))
               (mjoin (imap task_replicas templates)))
  else None.

Definition synthesizedVCJobFallbackManifests (job : object) (namespace name : string) (labels : gmap string string) (templates : list volcanoTaskTemplate)
    : option (result derror (list dispatchManifest)) :=
  match synthesizedPodGroupForTasks job namespace name labels templates with
  | Err e => Some (Err e)
  | Ok raw => match fallbackPodsForTasks job namespace name labels templates with
              | None => None
              | Some (Err e) => Some (Err e)
              | Some (Ok pods) => Some (Ok (Manifest raw [] :: pods))
              end
  end.

(** ** Assembly *)

Definition addJobResource (p : volcanoDispatchParts) (job : object) (namespace : string) (labels : gmap string string) (r : dispatchResource) (u : object)
    : result derror volcanoDispatchParts :=
  if isVolcanoVCJob u
  then match prepareDispatchManifest job r namespace with
       | Err e => Err e
       | Ok raw => Ok (Parts (vp_extras p ++ [Manifest raw []]) (vp_native p) (vp_tasks p))
       end
  else match volcanoTaskFromBatchJob job r u labels with
       | Err e => Err e
       | Ok task => Ok (Parts (vp_extras p) (vp_native p) (vp_tasks p ++ [task]))
       end.

Definition addResource (p : volcanoDispatchParts) (job : object) (namespace : string) (labels : gmap string string) (r : dispatchResource)
    : result derror volcanoDispatchParts :=
  match dispatchObject r with
  | Err e => Err e
  | Ok u =>
      let k := ToLower (GetKind u) in
      if String.eqb k "job" then addJobResource p job namespace labels r u
      else if String.eqb k "pod" || String.eqb k "deployment" then Ok (Parts (vp_extras p) (vp_native p ++ [r]) (vp_tasks p))
      else match prepareDispatchManifest job r namespace with
           | Err e => Err e
           | Ok raw => Ok (Parts (vp_extras p ++ [Manifest raw []]) (vp_native p) (vp_tasks p))
           end
  end.

Fixpoint add_resources (p : volcanoDispatchParts) (job : object) (namespace : string) (labels : gmap string string) (rs : list dispatchResource)
    : result derror volcanoDispatchParts :=
  match rs with
  | [] => Ok p
  | r :: rest => match addResource p job namespace labels r with Ok p' => add_resources p' job namespace labels rest | Err e => Err e end
  end.

Definition collectVolcanoDispatchParts (job : object) (rs : list dispatchResource) (namespace : string) (labels : gmap string string) : result derror volcanoDispatchParts :=
  add_resources (Parts [] [] []) job namespace labels rs.

Definition volcanoGroupName (job : object) (rs : list dispatchResource) (tasks : list volcanoTaskTemplate) (native : list dispatchResource) : string :=
  let fallback := match tasks, native, rs with
                  | t :: _, _, _ => vt_sourceName t
                  | [], r :: _, _ => dr_Name r
                  | [], [], r :: _ => dr_Name r
                  | [], [], [] => ""
                  end in
  sanitizeDNSLabel (ToLower (job_identifier job)) fallback 55.

Definition appendNativeWithPodGroup (job : object) (namespace groupName : string) (native : list dispatchResource) (ms : list dispatchManifest)
    : result derror (list dispatchManifest) :=
  match each_manifest (fun r => prepareDispatchManifestWithGroup job r namespace groupName) native with Ok out => Ok (ms ++ out) | Err e => Err e end.

Definition appendSynthesizedVCJob (job : object) (namespace groupName : string) (labels : gmap string string) (parts : volcanoDispatchParts) (ms : list dispatchManifest)
    : option (result derror (list dispatchManifest)) :=
  match synthesizedVCJob job namespace groupName labels (vp_tasks parts) with
  | Err e => Some (Err e)
  | Ok raw =>
      match synthesizedVCJobFallbackManifests job namespace groupName labels (vp_tasks parts) with
      | None => None
      | Some (Err e) => Some (Err e)
      | Some (Ok fallback) => Some (appendNativeWithPodGroup job namespace groupName (vp_native parts) (ms ++ [Manifest raw fallback]))
      end
  end.

Definition appendSynthesizedPodGroup (job : object) (namespace groupName : string) (labels : gmap string string) (parts : volcanoDispatchParts) (ms : list dispatchManifest)
    : result derror (list dispatchManifest) :=
  match synthesizedPodGroup job namespace groupName labels (vp_native parts) with
  | Err e => Err e
  | Ok raw => appendNativeWithPodGroup job namespace groupName (vp_native parts) (ms ++ [Manifest raw []])
  end.

Definition assembleVolcanoDispatchManifests (job : object) (namespace groupName : string) (labels : gmap string string) (parts : volcanoDispatchParts)
    : option (result derror (list dispatchManifest)) :=
  match vp_tasks parts, vp_native parts with
  | _ :: _, _ => appendSynthesizedVCJob job namespace groupName labels parts (vp_extras parts)
  | [], _ :: _ => Some (appendSynthesizedPodGroup job namespace groupName labels parts (vp_extras parts))
  | [], [] => Some (Ok (vp_extras parts))
  end.

Definition prepareVolcanoDispatchManifests (job : object) (rs : list dispatchResource) (namespace : string) : option (result derror (list dispatchManifest)) :=
  let labels := dispatchLabels job in
  match collectVolcanoDispatchParts job rs namespace labels with
  | Err e => Some (Err e)
  | Ok parts => assembleVolcanoDispatchManifests job namespace (volcanoGroupName job rs (vp_tasks parts) (vp_native parts)) labels parts
  end.

(** ** The whole preparation *)

(** [dynamic]: the cluster client can create custom resources. *)
Definition shouldSynthesizeVolcano (job : object) (dynamic : bool) : bool :=
  dynamic && negb (jobRequestsDRA job) && EqualFold (TextValue job ["scheduler_name"; "schedulerName"]) volcanoSchedulerName.

Definition and_then {A B} (r : result derror A) (k : A -> option (result derror B)) : option (result derror B) :=
  match r with Ok a => k a | Err e => Some (Err e) end.

(** [None]: the preparation panics. *)
Definition prepareDispatchManifests (FormatFloat : float64 -> string) (dynamic : bool) (job : object) (rs : list dispatchResource) (namespace : string)
    (storagePlan : storageMountPlan) (plane : dataPlanePlan) : option (result derror (list dispatchManifest)) :=
  and_then (prepareStorageMountDispatchResources storagePlan rs) (fun rs =>
  and_then (prepareDataPlaneDispatchResources plane rs) (fun rs =>
  and_then (preparePlacementDispatchResources job rs) (fun rs =>
  and_then (prepareAcceleratorDispatchResources job rs) (fun rs =>
  and_then (prepareNetworkDispatchResources job rs) (fun rs =>
  and_then (prepareStreamingDispatchResources job rs) (fun rs =>
  and_then (prepareDRADispatchManifests FormatFloat job rs namespace) (fun '(prefix, rs) =>
  if shouldSynthesizeVolcano job dynamic
  then match prepareVolcanoDispatchManifests job rs namespace with
       | Some (Ok ms) => Some (Ok (prefix ++ ms))
       | other => other
       end
  else match each_manifest (fun r => prepareDispatchManifest job r namespace) rs with
       | Ok ms => Some (Ok (prefix ++ ms))
       | Err e => Some (Err e)
       end))))))).

End Volcano.

(** ** Every manifest is safe *)

(** The texts a manifest may send to the cluster: its own and those of its fallback. *)
Fixpoint manifest_raws (m : dispatchManifest) : list string :=
  match m with Manifest raw fallback => raw :: flat_map manifest_raws fallback end.

Definition ascii_text (s : string) : Prop := Forall (fun c => (nat_of_ascii c < 128)%nat) (bytes_of s).

(** What is relied on of encoding/json: the text it decodes is UTF-8, of which ASCII is a
    part, and what it encodes of decoded values it decodes again. *)
Class JsonLaws `{GoLib} (utf8 : string -> Prop) : Prop := {
  utf8_ascii s : ascii_text s -> utf8 s;
  json_decoded s m : unmarshal_object s = Some m -> json_object utf8 m;
  json_clone m s m' : json_object utf8 m -> marshal (VMap m) = Some s -> unmarshal_object s = Some m' -> m' = m
}.

Lemma ascii_uint d : ascii_text (NilEmpty.string_of_uint d).
Proof. unfold ascii_text. induction d; cbn; constructor; try done; apply (bool_decide_unpack _); vm_compute; done. Qed.

Lemma ascii_nat w n : ascii_text (fmt_nat w n).
Proof. apply ascii_uint. Qed.

Lemma ascii_int n : ascii_text (fmt_int 0 n).
Proof.
  unfold fmt_int. case_match; [apply ascii_nat|]. unfold ascii_text. rewrite bytes_of_app. apply Forall_app. split; [|apply ascii_nat].
  apply (bool_decide_unpack _). vm_compute. done.
Qed.

Section Safety.
Context {GL : GoLib} {US : UnstructuredLib} {LW : UnstructuredLaws} {utf8 : string -> Prop} {JL : JsonLaws utf8}.

(** A text the cluster may be sent. *)
Definition raw_safe (raw : string) : Prop := exists o, marshal (VMap o) = Some raw /\ manifest_safe o.

(** The text of the job is UTF-8, as all text that was decoded. *)
Context (job : object) (Hjob : forall keys, utf8 (TextValue job keys)).

Ltac const := apply utf8_ascii; apply (bool_decide_unpack _); vm_compute; done.

Ltac const_path := repeat (apply Forall_cons_2; [const|]); apply Forall_nil_2.

Lemma priority_text : utf8 (priorityClassForJob job).
Proof. unfold priorityClassForJob. cbn zeta. repeat case_match; const. Qed.

Lemma labels_text : text_map utf8 (dispatchLabels job).
Proof.
  intros k v Hk. apply elem_of_list_to_map_2 in Hk. unfold label_entry in Hk.
  repeat (apply elem_of_app in Hk as [Hk|Hk]); repeat case_match; first [by apply elem_of_nil in Hk|apply list_elem_of_singleton in Hk; injection Hk as -> ->].
  all: split; first [apply Hjob|apply utf8_ascii, ascii_int|const].
Qed.

Lemma json_put (m : object) v p : json_object utf8 m -> Forall utf8 p -> json_value utf8 v -> json_object utf8 (put m v p).
Proof. intros Hm Hp Hv. unfold put. rewrite law_set. destruct (nested_set m v p) eqn:E; cbn; [by eapply json_nested_set|done]. Qed.

Lemma json_merge (m : object) s p : json_object utf8 m -> Forall utf8 p -> text_map utf8 s -> json_object utf8 (mergeNestedStringMap m s p).
Proof.
  intros Hm Hp Hs. unfold mergeNestedStringMap. destruct (decide _); [done|]. unfold merge_strings, put_strings.
  rewrite law_set_strings, merge_reads. destruct (set_strings _ _ _) eqn:E; cbn; [|done].
  eapply json_nested_set; [exact Hm|exact Hp| |exact E]. apply json_strings, text_union; [done|].
  destruct (nested_strings m p) eqn:En; cbn; [by eapply json_text_map|apply map_Forall_empty].
Qed.

(** A resource's pod template is the one that was decoded. *)
Lemma object_decoded r u : dispatchObject r = Ok u -> exists obj, json_object utf8 obj /\ u !! "spec" = obj !! "spec".
Proof.
  unfold dispatchObject. destruct (unmarshal_object (dr_Raw r)) as [obj|] eqn:E; [|done]. cbn zeta.
  set (u0 := if (_ : bool) then SetKind obj _ else obj). assert (u0 !! "spec" = obj !! "spec") as E0.
  { unfold u0. case_match; [|done]. rewrite law_set_kind. by apply nested_default_frame. }
  intros Hu. exists obj. split; [by eapply json_decoded|]. rewrite <- E0.
  destruct (str_empty (GetKind u0)); [done|]. destruct (str_empty (GetName u0)); [|by injection Hu as <-].
  destruct (str_empty (dr_Name r)); [done|]. injection Hu as <-. rewrite law_set_name. by apply set_text_frame.
Qed.

(** ** Tasks *)

Definition task_safe (t : volcanoTaskTemplate) : Prop := Forall hardened (pod_spec_at (vt_template t) ["spec"]) /\ json_object utf8 (vt_template t).

Lemma task_from_job r u t : dispatchObject r = Ok u -> volcanoTaskFromBatchJob job r u (dispatchLabels job) = Ok t -> task_safe t.
Proof.
  intros (obj & Hobj & Espec)%object_decoded. unfold volcanoTaskFromBatchJob. rewrite law_map.
  rewrite (nested_get_key u obj "spec" ["template"] Espec).
  destruct (nested_get (VMap obj) ["spec"; "template"]) as [v| |] eqn:Et; cbn [nested_as]; try done. destruct v; cbn [as_map]; try done.
  assert (json_object utf8 m) as Hm by (apply json_map_inv; eapply json_nested_get; [|exact Et]; by constructor).
  destruct (negb (podTemplateHasContainers m)); [done|]. cbn zeta.
  set (t4 := if str_empty (priorityClassForJob job) then (_ : object) else _).
  assert (json_object utf8 t4) as H4.
  { assert (json_object utf8 (mergeNestedStringMap m (dispatchLabels job) ["metadata"; "labels"])) as H1
      by (apply json_merge; [done|const_path|apply labels_text]).
    unfold t4. destruct (str_empty (job_queue job)), (str_empty (priorityClassForJob job)); repeat (apply json_put; [|const_path|constructor; first [apply priority_text|const]]).
    all: first [exact H1|apply json_merge; [exact H1|const_path|]].
    all: intros k v Hk; apply lookup_singleton_Some in Hk as [<- <-]; split; [const|apply Hjob]. }
  destruct (rejectUnsafeDispatchPodSpec _) eqn:Er; [done|]. intros [= <-]. split; cbn [vt_template].
  - apply automount_at. unfold pod_spec_at. rewrite law_map in Er. destruct (nested_get (VMap t4) ["spec"]) as [[]| |]; try (apply Forall_nil_2).
    constructor; [|constructor]. by apply pod_checked.
  - apply json_put; [done|const_path|constructor].
Qed.

(** ** The objects the dispatcher makes *)

Lemma vcjob_safe ns name labels tasks : Forall task_safe tasks -> manifest_safe (vcjob_object job ns name labels tasks).
Proof.
  intros Ht. unfold manifest_safe, pod_specs. set (o := vcjob_object job ns name labels tasks).
  assert (is_vcjob o = true) as -> by reflexivity.
  assert (vcjob_tasks o = omap as_map (imap vcjob_task tasks)) as ->.
  { unfold vcjob_tasks, o, vcjob_object, with_queue. cbn zeta. by destruct (str_empty (job_queue job)). }
  clear o. change vcjob_task with (fun i => vcjob_task (id i)). generalize (@id nat) as g.
  induction Ht as [|t tasks [Hs _] _ IH]; intros g; [constructor|]. rewrite imap_cons. cbn [omap list_omap as_map vcjob_task mbind list_bind].
  apply Forall_app. split; [exact Hs|]. apply (IH (g ∘ S)).
Qed.

Lemma no_pods o : podSpecPaths (nested_text o ["kind"]) = [] -> is_vcjob o = false -> manifest_safe o.
Proof. intros Hp Hv. unfold manifest_safe, pod_specs. rewrite Hv, Hp. constructor. Qed.

Lemma pod_group_safe ns name labels n : manifest_safe (pod_group_object job ns name labels n).
Proof. by apply no_pods. Qed.

Lemma claim_template_safe fmt cfg ns name : manifest_safe (claim_template fmt cfg ns name).
Proof. by apply no_pods. Qed.

(** The pods of a task have its template, and only their metadata is edited. *)
Lemma fallback_pod_safe ns g labels t i replica replicas pod :
  task_safe t -> fallback_pod job ns g labels t i replica replicas = Ok pod -> manifest_safe pod.
Proof.
  intros [Hs Hj]. unfold fallback_pod, cloneJSONMap. destruct (marshal (VMap (vt_template t))) as [raw|] eqn:Em; [|done]. cbn [mbind option_bind].
  destruct (unmarshal_object raw) as [copied|] eqn:Eu; [|done]. rewrite (json_clone _ _ _ Hj Em Eu). clear Eu copied.
  rewrite !law_map. destruct (nested_get (VMap (vt_template t)) ["spec"]) as [v| |] eqn:Ev; try done. destruct v; try done. cbn [nested_as as_map]. cbn zeta.
  set (pod0 := {["apiVersion" := VString "v1"; "kind" := _; "metadata" := _; "spec" := VMap m]} : object).
  set (pod1 := if str_empty (GetName pod0) && _ then _ else pod0). set (pod2 := if str_empty (GetName pod1) || _ then _ else pod1). intros [= <-].
  assert (only "metadata" pod0 pod2) as H2.
  { assert (forall u s, only "metadata" u (SetName u s)) as Hn by (intros u s g' Hg; rewrite law_set_name; by apply set_text_frame).
    apply only_trans with pod1; [unfold pod1|unfold pod2]; case_match; by try apply Hn. }
  set (pod3 := mergeObjectLabels (SetNamespace pod2 ns) labels).
  assert (only "metadata" pod0 pod3) as H3.
  { eapply only_trans; [exact H2|]. apply only_trans with (SetNamespace pod2 ns).
    - intros g' Hg. rewrite law_set_namespace. by apply set_text_frame.
    - unfold pod3, mergeObjectLabels. destruct (decide _); [done|]. intros g' Hg. rewrite law_set_labels. by apply nested_default_frame. }
  set (o := setPodGroupObjectMetadata _ _).
  assert (only "metadata" pod0 o) as Ho.
  { eapply only_trans; [exact H3|]. unfold o. rewrite setPodGroupObjectMetadata_merge.
    apply only_trans with (setAnnotation (applyFallbackPodQueueMetadata pod3 (job_queue job)) (job_queue job)).
    - apply only_trans with (applyFallbackPodQueueMetadata pod3 (job_queue job)).
      + intros g' Hg. unfold applyFallbackPodQueueMetadata. rewrite law_set_labels. by apply nested_default_frame.
      + unfold setAnnotation. case_match; [done|]. rewrite setAnnotationValue_merge. apply only_merge.
    - case_match; [done|]. eapply only_trans; apply only_merge. }
  assert (nested_text o ["kind"] = "Pod") as Hk by (rewrite (nested_text_key o pod0) by (by apply Ho); reflexivity).
  unfold manifest_safe, pod_specs, is_vcjob. rewrite Hk. cbn [EqualFold].
  change (EqualFold "Pod" "Job") with false. cbn [andb].
  change (podSpecPaths "Pod") with [["spec"]]. cbn [mbind list_bind]. rewrite app_nil_r.
  unfold pod_spec_at in *. rewrite (nested_get_key o pod0) by (by apply Ho). rewrite Ev in Hs. exact Hs.
Qed.

(** ** Lists of manifests *)

Definition all_safe (ms : list dispatchManifest) : Prop := forall raw, raw ∈ flat_map manifest_raws ms -> raw_safe raw.

Lemma all_safe_app ms1 ms2 : all_safe ms1 -> all_safe ms2 -> all_safe (ms1 ++ ms2).
Proof. intros H1 H2 raw Hin. rewrite flat_map_app in Hin. apply elem_of_app in Hin as [?|?]; auto. Qed.

Lemma all_safe_one raw fallback : raw_safe raw -> all_safe fallback -> all_safe [Manifest raw fallback].
Proof. intros H1 H2 r Hin. cbn in Hin. rewrite app_nil_r in Hin. apply elem_of_cons in Hin as [->|?]; auto. Qed.

Lemma all_safe_nil : all_safe [].
Proof. by intros raw ?%elem_of_nil. Qed.

Lemma each_safe {A} (f : A -> result derror string) l ms :
  (forall x raw, x ∈ l -> f x = Ok raw -> raw_safe raw) -> each_manifest f l = Ok ms -> all_safe ms.
Proof.
  revert ms. induction l as [|x l IH]; intros ms Hf H; [injection H as <-; apply all_safe_nil|]. cbn in H.
  destruct (f x) as [raw|] eqn:Ex; [|done]. destruct (each_manifest f l) as [rest|] eqn:Er; [|done]. injection H as <-.
  apply (all_safe_app [_]); [apply all_safe_one; [eapply Hf; [left|done]|apply all_safe_nil]|]. apply IH; [|done]. intros; eapply Hf; [by right|done].
Qed.

Lemma marshalled_safe o raw : manifest_safe o -> marshal_raw o = Ok raw -> raw_safe raw.
Proof. unfold marshal_raw. destruct (marshal (VMap o)) eqn:E; [|done]. intros Hs [= <-]. by exists o. Qed.

Lemma prepared_raw_safe r ns g raw : prepareDispatchManifestWithGroup job r ns g = Ok raw -> raw_safe raw.
Proof.
  unfold prepareDispatchManifestWithGroup, marshal_object. destruct (prepared_object job r ns g) as [o|] eqn:E; [|done].
  destruct (marshal (VMap o)) eqn:Em; [|done]. intros [= <-]. exists o. split; [done|by eapply prepared_safe].
Qed.

Lemma fallback_pods_safe ns g tasks r : Forall task_safe tasks ->
  fallbackPodsForTasks job ns g (dispatchLabels job) tasks = Some (Ok r) -> all_safe r.
Proof.
  intros Ht. unfold fallbackPodsForTasks. case_match; [|done]. intros [= H1]. eapply each_safe; [|exact H1]. intros [[i t] replica] raw Hin Hf.
  assert (task_safe t) as Hs.
  { apply list_elem_of_join in Hin as (l & Hin & Hl). apply elem_of_lookup_imap in Hl as (j & t' & -> & Hl).
    unfold task_replicas in Hin. apply list_elem_of_fmap in Hin as (? & [= _ -> _] & _). by apply (Forall_lookup_1 _ _ _ _ Ht Hl). }
  unfold fallbackPodForTask, marshal_object in Hf. destruct (fallback_pod _ _ _ _ _ _ _ _) as [pod|] eqn:Ep; [|done].
  destruct (marshal (VMap pod)) eqn:Em; [|done]. injection Hf as <-. exists pod. split; [done|by eapply fallback_pod_safe].
Qed.

(** What the parts of a gang have in common. *)
Definition parts_safe (p : volcanoDispatchParts) : Prop := all_safe (vp_extras p) /\ Forall task_safe (vp_tasks p).

Lemma add_resource_safe p ns r p' : parts_safe p -> addResource p job ns (dispatchLabels job) r = Ok p' -> parts_safe p'.
Proof.
  intros [He Ht]. unfold addResource. destruct (dispatchObject r) as [u|] eqn:Eu; [|done]. cbn zeta.
  assert (forall raw, prepareDispatchManifest job r ns = Ok raw -> all_safe (vp_extras p ++ [Manifest raw []])) as Hx.
  { intros raw Hr. apply all_safe_app; [done|]. apply all_safe_one; [by eapply prepared_raw_safe|apply all_safe_nil]. }
  unfold addJobResource. destruct (String.eqb _ "job").
  - destruct (isVolcanoVCJob u).
    + destruct (prepareDispatchManifest job r ns); [|done]. intros [= <-]. split; cbn; auto.
    + destruct (volcanoTaskFromBatchJob _ _ _ _) as [t|] eqn:Et; [|done]. intros [= <-]. split; cbn; [done|].
      apply Forall_app. split; [done|]. constructor; [by eapply task_from_job|constructor].
  - destruct (_ || _); [intros [= <-]; by split|]. destruct (prepareDispatchManifest job r ns); [|done]. intros [= <-]. split; cbn; auto.
Qed.

Lemma add_resources_safe ns rs : forall p p', parts_safe p -> add_resources p job ns (dispatchLabels job) rs = Ok p' -> parts_safe p'.
Proof.
  induction rs as [|r rs IH]; intros p p' Hp H; cbn in H; [by injection H as <-|].
  destruct (addResource p job ns (dispatchLabels job) r) as [p1|] eqn:E; [|done]. eapply IH; [|exact H]. by eapply add_resource_safe.
Qed.

Lemma native_safe ns g native ms out : all_safe ms -> appendNativeWithPodGroup job ns g native ms = Ok out -> all_safe out.
Proof.
  intros Hms. unfold appendNativeWithPodGroup. destruct (each_manifest _ native) as [l|] eqn:E; [|done]. intros [= <-].
  apply all_safe_app; [done|]. eapply each_safe; [|exact E]. intros r raw _. apply prepared_raw_safe.
Qed.

Lemma volcano_safe rs ns ms : prepareVolcanoDispatchManifests job rs ns = Some (Ok ms) -> all_safe ms.
Proof.
  unfold prepareVolcanoDispatchManifests. cbn zeta. destruct (collectVolcanoDispatchParts job rs ns (dispatchLabels job)) as [p|] eqn:Ep; [|done].
  apply add_resources_safe in Ep as [He Ht]; [|by split; [apply all_safe_nil|constructor]].
  generalize (volcanoGroupName job rs (vp_tasks p) (vp_native p)) as g. intros g. unfold assembleVolcanoDispatchManifests.
  destruct (vp_tasks p) as [|t tasks] eqn:Etasks; [destruct (vp_native p) as [|r native] eqn:En|].
  - by intros [= <-].
  - unfold appendSynthesizedPodGroup, synthesizedPodGroup, synthesizedPodGroupWithMinMember. destruct (marshal_raw _) as [raw|] eqn:Em; [|done].
    intros [= H]. eapply native_safe; [|exact H]. apply all_safe_app; [done|].
    apply all_safe_one; [eapply marshalled_safe; [apply pod_group_safe|exact Em]|apply all_safe_nil].
  - rewrite <- Etasks in Ht. unfold appendSynthesizedVCJob, synthesizedVCJob. destruct (marshal_raw (vcjob_object _ _ _ _ _)) as [raw|] eqn:Em; [|done].
    unfold synthesizedVCJobFallbackManifests, synthesizedPodGroupForTasks, synthesizedPodGroupWithMinMember.
    destruct (marshal_raw (pod_group_object _ _ _ _ _)) as [raw2|] eqn:Em2; [|done].
    destruct (fallbackPodsForTasks _ _ _ _ _) as [[pods|]|] eqn:Ef; [|done|done]. intros [= H]. eapply native_safe; [|exact H].
    apply all_safe_app; [done|]. apply all_safe_one; [eapply marshalled_safe; [by apply vcjob_safe|exact Em]|].
    apply (all_safe_app [_]); [|by eapply fallback_pods_safe]. apply all_safe_one; [|apply all_safe_nil].
    eapply marshalled_safe; [apply pod_group_safe|exact Em2].
Qed.

Lemma prefix_safe fmt rs ns prefix rs' : prepareDRADispatchManifests fmt job rs ns = Ok (prefix, rs') -> all_safe prefix.
Proof.
  unfold prepareDRADispatchManifests. destruct (draConfigFromJob job) as [cfg|]; [|done].
  destruct (negb (dra_enabled cfg)); [intros [= <- _]; apply all_safe_nil|]. cbn zeta. destruct (_ && _).
  - unfold buildResourceClaimTemplateManifest. destruct (marshal_raw _) as [raw|] eqn:Em; [|done]. intros H.
    assert (all_safe [Manifest raw []]) as Hs by (apply all_safe_one; [eapply marshalled_safe; [apply claim_template_safe|exact Em]|apply all_safe_nil]).
    destruct (str_empty _); [by injection H as <- _|]. destruct (each_resource _ rs); [by injection H as <- _|done].
  - destruct (str_empty _); [intros [= <- _]; apply all_safe_nil|]. destruct (each_resource _ rs); [intros [= <- _]; apply all_safe_nil|done].
Qed.

Lemma prepared_all_safe fmt dynamic rs ns sp dp ms :
  prepareDispatchManifests fmt dynamic job rs ns sp dp = Some (Ok ms) -> all_safe ms.
Proof.
  unfold prepareDispatchManifests, and_then. intros H.
  repeat match type of H with match ?r with Ok _ => _ | Err _ => _ end = _ => destruct r eqn:?; [|discriminate H] end.
  destruct a5 as [prefix rs']. apply prefix_safe in Heqr5. destruct (shouldSynthesizeVolcano job dynamic).
  - destruct (prepareVolcanoDispatchManifests job rs' ns) as [[vs|]|] eqn:Ev; [|discriminate H|discriminate H]. injection H as <-.
    apply all_safe_app; [done|by eapply volcano_safe].
  - destruct (each_manifest _ rs') as [l|] eqn:El; [|discriminate H]. injection H as <-. apply all_safe_app; [done|].
    eapply each_safe; [|exact El]. intros r raw _. apply prepared_raw_safe.
Qed.
End Safety.

(** ** The dispatcher on the prepared manifests *)

(** What was sent to the cluster to be created. *)
Definition created (tr : list wl_call) : list string := omap (fun c => match c with CallCreate _ raw => Some raw | _ => None end) tr.

Lemma created_app t1 t2 : created (t1 ++ t2) = created t1 ++ created t2.
Proof. apply omap_app. Qed.

(** The cluster client, the clients of the storage service, the clock. *)
Record dispatch_world := World {
  dw_cluster : bool;
  dw_dynamic : bool;
  dw_EnsureNamespace : string -> option derror;
  dw_EnsurePVC : string -> string -> string -> string -> option derror;
  dw_EnsurePVCMounted : string -> string -> string -> string -> option derror;
  dw_CreateByJSON : string -> string -> result derror CreatedObject;
  dw_storage : option (string -> storageMountPlanRequest -> result derror storageMountPlan);
  dw_data : option (string -> dataPlanePlanRequest -> result derror dataPlanePlan);
  dw_clock : string -> Z
}.

Section Dispatching.
Context {GL : GoLib} {US : UnstructuredLib} {ip : Type} (cfg : config ip).
Context (unmarshal_any : string -> option any) (FormatFloat : float64 -> string) (fuel : nat).

(** A panic ends the process; no call follows it here either. *)
Definition panic : derror := plain_error "panic: makeslice: cap out of range".

Definition dispatcher (w : dispatch_world) : dispatch_env storageMountPlan dataPlanePlan := {|
  dv_cluster := dw_cluster w;
  dv_EnsureNamespace := dw_EnsureNamespace w;
  dv_storagePlan := resolveDispatchStorageMountPlan unmarshal_any fuel (dw_storage w);
  dv_storageClaims := ensureDispatchPVCMounts (dw_EnsurePVCMounted w);
  dv_dataPlane := resolveDispatchDataPlanePlan unmarshal_any fuel (dw_data w);
  dv_dataClaims := ensureDispatchDataPlanePVCMounts (dw_EnsurePVC w) (dw_EnsurePVCMounted w);
  dv_prepare job rs ns sp dp := default (Err panic) (prepareDispatchManifests FormatFloat (dw_dynamic w) job rs ns sp dp);
  dv_CreateByJSON := dw_CreateByJSON w;
  dv_clock := dw_clock w |}.

Lemma created_emit c st : (forall ns raw, c ≠ CallCreate ns raw) -> created (wl_trace (emit c st)) = created (wl_trace st).
Proof. intros Hc. cbn. rewrite created_app. destruct c; try (by rewrite app_nil_r). by destruct (Hc namespace raw). Qed.

Lemma created_release st job : created (wl_trace (releaseJobReservation cfg st job)) = created (wl_trace st).
Proof. unfold releaseJobReservation. repeat case_match; try done. by apply created_emit. Qed.

Lemma created_fail st id reason clock : created (wl_trace (failDispatchedJob cfg st id reason clock)) = created (wl_trace st).
Proof. unfold failDispatchedJob. cbn zeta. destruct (MarkDispatchFailed _ _ _ _ _) as [s []]; [|done]. case_match; [|done]. by rewrite created_release. Qed.

Lemma created_defer st rc now clock e : created (wl_trace (deferDispatchForInfrastructure cfg st rc now clock e)) = created (wl_trace st).
Proof. unfold deferDispatchForInfrastructure. cbn zeta. case_match; [apply created_fail|done]. Qed.

Lemma created_error st rc now clock e : created (wl_trace (handleDispatchCreateError cfg st rc now clock e)) = created (wl_trace st).
Proof. unfold handleDispatchCreateError. case_match; [apply created_fail|apply created_defer]. Qed.

Lemma created_rollback st ns id : created (wl_trace (rollbackDispatch st ns id)) = created (wl_trace st).
Proof. unfold rollbackDispatch. case_match; [done|]. by apply created_emit. Qed.

(** Only the texts of the manifests are sent. *)
Lemma created_all {SP DP} (ev : dispatch_env SP DP) ns l raw :
  Forall (fun m => forall raw, raw ∈ created (createDispatchManifest ev ns m).1 -> raw ∈ manifest_raws m) l ->
  raw ∈ created (create_all (createDispatchManifest ev ns) l).1 -> raw ∈ flat_map manifest_raws l.
Proof.
  induction 1 as [|m l Hm _ IH]; [done|]. cbn [create_all flat_map]. specialize (Hm raw).
  destruct (createDispatchManifest ev ns m) as [tr [objs|e]]; cbn [fst] in Hm; [|intros; apply elem_of_app; left; auto].
  destruct (create_all (createDispatchManifest ev ns) l) as [tr' [more|e]]; cbn [fst] in *; rewrite created_app, !elem_of_app; naive_solver.
Qed.

Lemma created_raws {SP DP} (ev : dispatch_env SP DP) ns m raw : raw ∈ created (createDispatchManifest ev ns m).1 -> raw ∈ manifest_raws m.
Proof.
  revert raw. induction m as [r fallback IH] using manifest_ind. intros raw. pose proof (fun raw => created_all ev ns fallback raw IH) as Hall. cbn.
  destruct (dv_CreateByJSON _ _ ev ns r); [cbn; intros ->%list_elem_of_singleton; left|].
  destruct fallback as [|f l]; [cbn; intros ->%list_elem_of_singleton; left|].
  fold (createDispatchManifest ev). specialize (Hall raw). destruct (create_all (createDispatchManifest ev ns) (f :: l)) as [tr res]. cbn [fst] in *.
  cbn. intros [->|Hin]%elem_of_cons; [left|right; by apply Hall].
Qed.

Context {LW : UnstructuredLaws} {utf8 : string -> Prop} {JL : JsonLaws utf8}.

Lemma dispatch_creates_safe w now st rc raw : (forall keys, utf8 (TextValue (rec_Data rc) keys)) ->
  raw ∈ created (wl_trace (dispatchJob cfg (dispatcher w) now st rc)) -> raw ∈ created (wl_trace st) \/ raw_safe raw.
Proof.
  intros Hu. unfold dispatchJob. cbn zeta. case_match; [rewrite created_defer; by left|].
  case_match; [rewrite created_fail; by left|].
  destruct (dispatchResources (rec_Data rc)) as [[|r rs]|]; [rewrite created_fail; by left| |rewrite created_fail; by left].
  set (ns := TextValue (rec_Data rc) ["namespace"; "Namespace"]).
  destruct (dv_EnsureNamespace _ _ _ _); [rewrite created_defer, created_emit by done; by left|].
  destruct (dv_storagePlan _ _ _ _ _) as [sp|]; [|rewrite created_error, created_emit by done; by left].
  destruct (dv_storageClaims _ _ _ _ _); [rewrite created_error, !created_emit by done; by left|].
  destruct (dv_dataPlane _ _ _ _ _) as [dp|]; [|rewrite created_error, !created_emit by done; by left].
  destruct (dv_dataClaims _ _ _ _ _); [rewrite created_error, !created_emit by done; by left|].
  cbn [dv_prepare dispatcher].
  destruct (prepareDispatchManifests FormatFloat (dw_dynamic w) (rec_Data rc) (r :: rs) ns sp dp) as [[ms|e]|] eqn:Ep; cbn [default from_option id];
    [|rewrite created_fail, created_rollback, !created_emit by done; by left|rewrite created_fail, created_rollback, !created_emit by done; by left].
  apply prepared_all_safe in Ep; [|done].
  assert (forall raw, raw ∈ created (create_manifests (dispatcher w) ns ms).1 -> raw_safe raw) as Hc.
  { intros raw' Hin. apply Ep. eapply created_all; [|exact Hin]. apply Forall_forall. intros m _ raw''. apply created_raws. }
  specialize (Hc raw). destruct (create_manifests (dispatcher w) ns ms) as [tr [objs|e]]; cbn [fst] in Hc.
  - cbn. rewrite !created_app, !elem_of_app. set_solver.
  - rewrite created_error, created_rollback. cbn. rewrite !created_app, !elem_of_app. set_solver.
Qed.

Lemma dispatch_fold_safe w now raw l : Forall (fun c => forall keys, utf8 (TextValue (rec_Data (dc_record c)) keys)) l -> forall st,
  raw ∈ created (wl_trace (fold_left (fun st' c => dispatchJob cfg (dispatcher w) now st' (dc_record c)) l st)) ->
  raw ∈ created (wl_trace st) \/ raw_safe raw.
Proof.
  induction 1 as [|c l Hc _ IH]; intros st Hin; cbn in Hin; [by left|].
  destruct (IH _ Hin) as [H1|H1]; [|by right]. by apply dispatch_creates_safe in H1.
Qed.

(** C13: Everything a run of the dispatcher sends to the cluster, the pods it falls back to
    included, is a manifest in which, read by the exact keys of the Kubernetes API, no pod
    asks for a namespace, path, port, socket or capability of the host or is privileged, and
    every pod has its service account token taken away; and if the manifest is plainly
    written ([plainly_written]: no key differs from the name of one of these fields only in
    what encoding/json folds, and it is a Volcano job for the cluster client when it is one
    for the dispatcher) no pod the client decodes from it has any of these either, whatever
    the folding.  A manifest that is not plainly written can escape: [case_variant_passes],
    [volcano_version_escapes].  It holds for every job of valid text, plan and profile, on
    every path through the preparation. *)
Theorem dispatched_manifests_safe w st now :
  (forall rc, rc ∈ List_ (wl_store st) jobsResource -> forall keys, utf8 (TextValue (rec_Data rc) keys)) ->
  forall raw, raw ∈ created (wl_trace (dispatchSubmittedWorkloads cfg (dispatcher w) st now)) ->
  raw ∈ created (wl_trace st) \/
  exists o, marshal (VMap o) = Some raw /\ manifest_safe o /\
    forall same, (forall name, same name name = true) -> plainly_written same o -> client_safe same o.
Proof.
  intros Hu raw. unfold dispatchSubmittedWorkloads.
  assert (Forall (fun c => forall keys, utf8 (TextValue (rec_Data (dc_record c)) keys))
            (take dispatcherMaxJobsPerRun (ListDispatchCandidates (wl_store st) now))) as Hc.
  { apply Forall_take, Forall_forall. intros c Hc. unfold ListDispatchCandidates in Hc. rewrite SliceStable_perm in Hc.
    apply list_elem_of_omap in Hc as (rc & Hin & Hcand). apply Hu. unfold dispatch_candidate in Hcand. cbn zeta in Hcand.
    repeat case_match; simplify_eq; done. }
  intros Hin. apply dispatch_fold_safe in Hin as [Hin|(o & Ho & Hs)]; [by left| |done]. right. exists o. split_and!; [done|done|].
  intros same Hr. by apply safe_for_client.
Qed.
End Dispatching.

(** ** A gang that falls back to its pods *)

(** Equality of small values: what it finds equal is. *)
Fixpoint list_eqb {A} (f : A -> A -> bool) (l l' : list A) : bool :=
  match l, l' with
  | [], [] => true
  | x :: r, y :: r' => f x y && list_eqb f r r'
  | _, _ => false
  end.

Fixpoint any_eqb (n : nat) (a b : any) : bool :=
  match n with
  | O => false
  | S n => match a, b with
           | VBool x, VBool y => Bool.eqb x y
           | VString x, VString y => String.eqb x y
           | VList l, VList l' => list_eqb (any_eqb n) l l'
           | VMap m, VMap m' => list_eqb (fun p q => String.eqb p.1 q.1 && any_eqb n p.2 q.2) (map_to_list m) (map_to_list m')
           | _, _ => false
           end
  end.

Lemma list_eqb_sound {A} (f : A -> A -> bool) l l' : (forall x y, f x y = true -> x = y) -> list_eqb f l l' = true -> l = l'.
Proof.
  intros Hf. revert l'. induction l as [|x l IH]; intros [|y l']; cbn; try done. intros [H1 H2]%andb_true_iff. f_equal; auto.
Qed.

Lemma any_eqb_sound n a b : any_eqb n a b = true -> a = b.
Proof.
  revert a b. induction n as [|n IH]; [done|]. intros [] []; cbn; try done; intros H.
  - f_equal. by apply eqb_prop.
  - f_equal. by apply String.eqb_eq.
  - f_equal. by apply (list_eqb_sound (any_eqb n)).
  - f_equal. apply map_to_list_inj. apply (list_eqb_sound (fun p q => String.eqb p.1 q.1 && any_eqb n p.2 q.2)) in H; [by rewrite H|].
    intros [k v] [k' v']. cbn. intros [H1%String.eqb_eq H2%IH]%andb_true_iff. by subst.
Qed.

Definition gang_template : object :=
  {["metadata" := VMap {["labels" := VMap {["platform-go/job-id" := VString "j1"]}]};
    "spec" := VMap {["containers" := VList [VMap {["name" := VString "main"]}]; "schedulerName" := VString "volcano";
                     "priorityClassName" := VString "platform-batch-low"; "automountServiceAccountToken" := VBool false]}]}.

Definition gang_job (parallelism : Z) : object :=
  {["apiVersion" := VString "batch/v1"; "kind" := VString "Job"; "metadata" := VMap {["name" := VString "train"]};
    "spec" := VMap {["parallelism" := VFloat64 (f64_of_int parallelism);
                     "template" := VMap {["spec" := VMap {["containers" := VList [VMap {["name" := VString "main"]}]]}]}]}]}.

Definition huge : Z := 1000000000000000000.

#[local] Instance gang_golib : GoLib := {|
  parse_quantity _ := None; parse_float _ := None; parse_int64 _ := None; parse_rfc3339 _ := None; format_rfc3339 _ := ""; time_string _ := "";
  unmarshal_object s := if String.eqb s "pair" then Some (gang_job 2) else if String.eqb s "huge" then Some (gang_job huge)
                        else if String.eqb s "template" then Some gang_template else None;
  unmarshal_objects _ := None; unmarshal_strings _ := None;
  marshal v := if any_eqb 9 v (VMap gang_template) then Some "template"
               else match v with VMap o => Some ("object " +:+ nested_text o ["kind"] +:+ "/" +:+ nested_text o ["metadata"; "name"]) | _ => None end;
  sprint _ := ""; sprintf f _ := f; sha256_hex s := s |}.
#[local] Existing Instance reference_lib.
#[local] Existing Instance reference_laws.

Ltac json_known := repeat first
  [ exact I | apply map_Forall_insert_2; [split; [exact I|]|] | apply map_Forall_empty
  | apply JMap | apply JList | apply JString | apply JBool | apply JNumber | apply Forall_cons_2 | apply Forall_nil_2 ].

#[local] Instance gang_json : JsonLaws (fun _ => True).
Proof.
  split; [done| |].
  - intros s m. cbn [unmarshal_object gang_golib]. intros Hm. repeat case_match; try done; injection Hm as <-.
    all: unfold json_object, gang_job, gang_template; json_known.
  - intros m s m' _. cbn [marshal gang_golib unmarshal_object]. destruct (any_eqb 9 (VMap m) (VMap gang_template)) eqn:E.
    + apply any_eqb_sound in E. injection E as ->. intros [= <-]. cbn. by intros [= <-].
    + intros [= <-]. done.
Qed.

Definition gang_record (raw : string) : object :=
  {["id" := VString "j1"; "status" := VString "submitted"; "namespace" := VString "proj-p1"; "scheduler_name" := VString "volcano";
    "resources" := VList [VMap {["kind" := VString "Job"; "name" := VString "train"; "json" := VString raw]}]]}.
Definition gang_state (raw : string) : wl_state := WL (Create NewStore jobsResource (gang_record raw) "j1" 1).1 [].

(** A cluster without Volcano: it creates everything but Volcano jobs. *)
Definition no_volcano : dispatch_world := {|
  dw_cluster := true; dw_dynamic := true; dw_EnsureNamespace _ := None; dw_EnsurePVC _ _ _ _ := None; dw_EnsurePVCMounted _ _ _ _ := None;
  dw_CreateByJSON ns raw := if String.eqb raw "object Job/j1" then Err cluster_unavailable else Ok (Created "" ns raw);
  dw_storage := None; dw_data := None; dw_clock _ := 7 |}.

Definition gang_run (raw : string) : wl_state :=
  dispatchSubmittedWorkloads all_config (dispatcher (fun _ => None) (fun _ => "") 1 no_volcano) (gang_state raw) 9.

(** The Volcano job is refused, so the pod group and the two pods of the gang are created. *)
Lemma dispatched_manifests_safe_witness :
  created (wl_trace (gang_run "pair")) = ["object Job/j1"; "object PodGroup/j1"; "object Pod/j1-0-0"; "object Pod/j1-0-1"] /\
  exists o, marshal (VMap o) = Some "object Pod/j1-0-1" /\ manifest_safe o /\
    forall same, (forall name, same name name = true) -> plainly_written same o -> client_safe same o.
Proof.
  split; [vm_compute; reflexivity|].
  destruct (dispatched_manifests_safe all_config (fun _ => None) (fun _ => "") 1 no_volcano (gang_state "pair") 9 (fun _ _ _ => I) "object Pod/j1-0-1") as [H|H];
    [vm_compute; right; right; right; left|vm_compute in H; inversion H|exact H].
Defined.

(** The size of a gang is the tenant's: the fallback of a batch job with enough parallelism
    cannot be allocated, and the dispatcher panics on it before it has written anything to
    the job, so that it meets the job again at the next start. *)
Example gang_size_panics :
  prepareDispatchManifests (fun _ => "") true (gang_record "huge") [Resource "train" "Job" "huge"] "proj-p1" empty_storage_plan empty_data_plane = None.
Proof. vm_compute. reflexivity. Qed.
