(* ===== verification/ServiceHttp.v ===== *)
(** * Requests of the services that keep their records in the shared store
    (the common shape of the handlers of internal/services)

    A request with the clock reading and the fresh identifiers drawn while it is served,
    the early return of a handler that refuses, and the frame of the record-plus-event
    helpers: which records a request can have changed. *)

From stdpp Require Import base gmap strings list fin_maps.
From Stdlib Require Import ZArith Lia Ascii.
From S2P Require Import Prelude GoValue Store EventBus Crud Tx RateLimit InputLimits Config Auth Guards Routing.
Local Open Scope Z_scope.
Local Open Scope go_scope.

Definition StatusUnauthorized : Z := 401.

Record service_request := ServiceRequest {
  sq_http : request;
  sq_body : result input_error object;   (* the outcome of DecodeMapWithError *)
  sq_path : gmap string string;
  sq_now : Z;
  sq_uuid : nat -> string;               (* NewUUID, in the order drawn *)
  sq_newid : nat -> string               (* the identifiers the store makes *)
}.

Definition sq_header (r : service_request) (name : string) : string := Header_Get (sq_http r) name.
(** [r.PathValue(name)] *)
Definition PathValue (r : service_request) (name : string) : string := default "" (sq_path r !! name).

(** A handler returns early with an answer before it changed anything. *)
Definition handle (a : app) (c : result response (app * response)) : app * response :=
  match c with Ok x => x | Err resp => (a, resp) end.

Definition refuse {A} (status : Z) (text : string) : result response A := Err (status, message text).
Definition require (b : bool) (status : Z) (text : string) : result response unit := guard_else b (status, message text).

Definition decode_body (r : service_request) : result response object :=
  match sq_body r with Ok payload => Ok payload | Err _ => refuse StatusBadRequest errInvalidRequestBody end.

Section Time.
Context `{GoLib}.
(** A [time.Time] in a record. *)
Definition time_value (t : Z) : any := VTime t (time_string t).
End Time.

(** ** Routes without a handler of their own *)

(** The request as the generic handlers read it. *)
Definition crud_request (rt : route) (r : service_request) : http_request :=
  Request_ (rt_Method rt) (match sq_body r with Ok payload => Some payload | Err _ => None end) (sq_path r)
    (sq_header r "Idempotency-Key") (sq_header r "X-Trace-ID") (routeService rt) (sq_now r) (sq_uuid r 0%nat)
    (sq_newid r 0%nat) (sq_newid r 1%nat).

Section Generic.
Context `{GoLib} {ip : Type} (cfg : config ip).

(** App.handleRoute of a route that no service registered a handler for, whose action is not
    one of the platform's own and which names no adapter: the generic record handler answers
    it.  Of the guards in front of it the administrator's is shown, since nothing else
    checks the caller. *)
Definition serve_generic (a : app) (r : service_request) (rt : route) : app * response :=
  if cf_RequireAuth cfg && rt_AuthRequired rt && rt_Admin rt && negb (adminAllowed (app_Store a) (sq_http r))
  then (a, (StatusForbidden, message "administrator privileges are required"))
  else handleCRUD newCRUDValidator a (crud_request rt r) rt.

End Generic.

(** The data of a record with its id filled in, as the repositories hand it out. *)
Definition record_map (rc : record) : object :=
  match mget (rec_Data rc) "id" with VNil => <["id" := VString (rec_ID rc)]> (rec_Data rc) | _ => rec_Data rc end.

(** ** Frames *)

(** Every record outside [P] is as before. *)
Definition frame (P : string -> string -> Prop) (s s' : store) : Prop :=
  forall res id, ~ P res id -> Get s' res id = Get s res id.

Definition nothing (res id : string) : Prop := False.
(** Records of one resource. *)
Definition in_resource (resource : string) (res id : string) : Prop := res = resource.
(** One record. *)
Definition at_record (resource key : string) (res id : string) : Prop := res = resource /\ id = key.

Lemma frame_refl P s : frame P s s.
Proof. by intros res id _. Qed.

Lemma frame_trans P s1 s2 s3 : frame P s1 s2 -> frame P s2 s3 -> frame P s1 s3.
Proof. intros H1 H2 res id Hn. by rewrite H2, H1. Qed.

Lemma frame_weaken (P Q : string -> string -> Prop) s s' :
  (forall res id, P res id -> Q res id) -> frame P s s' -> frame Q s s'.
Proof. intros Hpq Hf res id Hn. apply Hf. naive_solver. Qed.

Lemma frame_data P s s' : st_data s' = st_data s -> frame P s s'.
Proof. intros He res id _. unfold Get, bucket. by rewrite He. Qed.

Lemma frame_Create s res d i t : frame (at_record res (create_id d i)) s (Create s res d i t).1.
Proof.
  intros res' id' Hn. destruct (Create s res d i t) as [s' [rc|e]] eqn:E; cbn [fst].
  - apply Create_ok in E as (_ & _ & _ & _ & _ & _ & Hg). rewrite Hg. case_decide; [|done]. destruct Hn. by split; destruct_and?.
  - by apply Create_err in E as (_ & _ & Hg).
Qed.

Lemma frame_Update s res id d t : frame (at_record res id) s (Update s res id d t).1.
Proof.
  intros res' id' Hn. pose proof (Update_cases s res id d t) as HU.
  destruct (Update s res id d t) as [s' [rc|]], (Get s res id); try done; [|by subst].
  destruct HU as (_ & _ & _ & _ & _ & Hg). cbn [fst]. rewrite Hg. case_decide; [|done]. destruct Hn. by split; destruct_and?.
Qed.

Lemma frame_Delete s res id : frame (at_record res id) s (Delete s res id).1.
Proof.
  intros res' id' Hn. unfold Delete. destruct (bucket s res !! id); [|done]. cbn [fst]. rewrite Get_set_delete.
  case_decide; [|done]. destruct Hn. by split; destruct_and?.
Qed.

(** The helpers leave the store of the operation they make. *)
Lemma frame_CreateRecordWithEvent a res d b i t :
  frame (at_record res (create_id d i)) (app_Store a) (app_Store (CreateRecordWithEvent a res d b i t).1).
Proof. rewrite CreateRecordWithEvent_store. apply frame_Create. Qed.
Lemma frame_UpdateRecordWithEvent a res id d b t :
  frame (at_record res id) (app_Store a) (app_Store (UpdateRecordWithEvent a res id d b t).1).
Proof. rewrite UpdateRecordWithEvent_store. apply frame_Update. Qed.
Lemma frame_DeleteRecordWithEvent a res id b :
  frame (at_record res id) (app_Store a) (app_Store (DeleteRecordWithEvent a res id b).1).
Proof. rewrite DeleteRecordWithEvent_store. apply frame_Delete. Qed.

(** An upsert with an id in the payload writes that record. *)
Section Upsert.
Context `{GoLib}.

Definition upsert_id (id : string) (data : object) (newID : string) : string :=
  let id1 := if str_empty id then asString (mget data "id") else id in
  if str_empty id1 then newID else id1.

Lemma UpsertRecordWithEvent_store a res id data b i1 i2 t :
  app_Store (UpsertRecordWithEvent a res id data b i1 i2 t).1 =
  (upsertRecordWithoutTransactionalStore (app_Store a) res (upsert_id id data i1)
     (<["id" := VString (upsert_id id data i1)]> data) i2 t).1.
Proof.
  unfold UpsertRecordWithEvent, upsert_id. cbn zeta.
  destruct (upsertRecordWithoutTransactionalStore _ _ _ _ _ _) as [s [rc|e]]; [|done].
  destruct b as [f|]; [|done]. destruct (publish_event _ _) eqn:E; [|done]. cbn. by apply publish_event_store in E.
Qed.

Lemma frame_UpsertRecordWithEvent a res id data b i1 i2 t : upsert_id id data i1 ≠ "" ->
  frame (at_record res (upsert_id id data i1)) (app_Store a) (app_Store (UpsertRecordWithEvent a res id data b i1 i2 t).1).
Proof.
  intros Hne res' id' Hn. rewrite UpsertRecordWithEvent_store.
  destruct (upsert_ok (app_Store a) res (upsert_id id data i1) (<["id" := VString (upsert_id id data i1)]> data) i2 t)
    as (s' & rc & -> & _ & _ & _ & _ & Hg); [apply lookup_insert_eq|done|]. cbn [fst]. apply Hg.
  intros [= -> ->]. by apply Hn.
Qed.
End Upsert.

(** Publishing touches no record. *)
Lemma publish_default_store a e : app_Store (default a (publish_event a e)) = app_Store a.
Proof. destruct (publish_event a e) as [a'|] eqn:E; [|done]. cbn. by eapply publish_event_store. Qed.

#[export] Hint Resolve frame_refl frame_Create frame_Update frame_Delete frame_CreateRecordWithEvent
  frame_UpdateRecordWithEvent frame_DeleteRecordWithEvent : nexus.

(** A resource outside the frame has the same rows. *)
Lemma frame_List P s s' res : frame P s s' -> (forall id, ~ P res id) -> List_ s' res = List_ s res.
Proof.
  intros Hf Hn. assert (bucket s' res = bucket s res) as He by (apply map_eq; intros id; exact (Hf res id (Hn id))).
  unfold List_. by rewrite He.
Qed.

(** ** How the records of a resource evolve *)

(** Every record of the resource is still there, its data in relation to what it was. *)
Definition evolves (R : object -> object -> Prop) (resource : string) (s s' : store) : Prop :=
  forall id rc, Get s resource id = Some rc -> exists rc', Get s' resource id = Some rc' /\ R (rec_Data rc) (rec_Data rc').

Section Evolves.
Context (R : object -> object -> Prop) `{HR : !PreOrder R}.

Lemma evolves_refl res s : evolves R res s s.
Proof. intros id rc Hg. exists rc. split; [done|reflexivity]. Qed.

Lemma evolves_trans res s1 s2 s3 : evolves R res s1 s2 -> evolves R res s2 s3 -> evolves R res s1 s3.
Proof. intros H1 H2 id rc Hg. destruct (H1 _ _ Hg) as (rc1 & Hg1 & ?). destruct (H2 _ _ Hg1) as (rc2 & ? & ?). exists rc2. split; [done|by etransitivity]. Qed.

Lemma evolves_same res s s' : (forall id, Get s' res id = Get s res id) -> evolves R res s s'.
Proof. intros He id rc Hg. exists rc. split; [by rewrite He|reflexivity]. Qed.

Lemma evolves_Create res s d i t : evolves R res s (Create s res d i t).1.
Proof.
  intros id rc Hg. exists rc. split; [|reflexivity]. destruct (Create s res d i t) as [s' [rc'|e]] eqn:E; cbn [fst].
  - apply Create_ok in E as (Hn & _ & _ & _ & _ & _ & Hs). rewrite Hs. case_decide; [|done]. destruct_and?; subst. congruence.
  - apply Create_err in E as (_ & _ & Hs). by rewrite Hs.
Qed.

(** No record appears or disappears. *)
Definition patches (resource : string) (s s' : store) : Prop :=
  forall id, option_Forall2 (fun rc rc' => R (rec_Data rc) (rec_Data rc')) (Get s resource id) (Get s' resource id).

Lemma patches_same res s s' : (forall id, Get s' res id = Get s res id) -> patches res s s'.
Proof. intros He id. rewrite He. destruct (Get s res id); constructor. reflexivity. Qed.

Lemma patches_trans res s1 s2 s3 : patches res s1 s2 -> patches res s2 s3 -> patches res s1 s3.
Proof.
  intros H1 H2 id. specialize (H1 id). specialize (H2 id). destruct H1 as [rc1 rc2 ?|]; inversion H2; subst; constructor. by etransitivity.
Qed.

Lemma patches_evolves res s s' : patches res s s' -> evolves R res s s'.
Proof. intros Hp id rc Hg. specialize (Hp id). rewrite Hg in Hp. inversion Hp; subst. eauto. Qed.

Lemma patches_Update res s key d t :
  (forall rc, Get s res key = Some rc -> R (rec_Data rc) (d ∪ rec_Data rc)) -> patches res s (Update s res key d t).1.
Proof.
  intros HU. pose proof (Update_cases s res key d t) as HC.
  destruct (Update s res key d t) as [s' [rc'|]], (Get s res key) as [old|] eqn:Eo; try done; cbn [fst]; [|subst; by apply patches_same].
  destruct HC as (Hd & _ & _ & _ & _ & Hs). intros id. rewrite Hs. case_decide as Hc; [|by apply patches_same].
  destruct Hc as [_ <-]. rewrite Eo. constructor.
  assert (rec_Data rc' = d ∪ rec_Data old) as -> by (apply map_eq; intros k; rewrite Hd, lookup_union; by destruct (d !! k), (rec_Data old !! k)).
  by apply HU.
Qed.
End Evolves.

(** ** Readers depend on their keys only *)

Definition agree_on (keys : list string) (d d' : object) : Prop := forall k, k ∈ keys -> d' !! k = d !! k.

#[export] Instance agree_on_preorder keys : PreOrder (agree_on keys).
Proof. split; [by intros d k _|]. intros d1 d2 d3 H1 H2 k Hk. rewrite H2, H1; done. Qed.

Lemma agree_on_subset keys keys' d d' : keys' ⊆ keys -> agree_on keys d d' -> agree_on keys' d d'.
Proof. intros Hs Ha k Hk. apply Ha. set_solver. Qed.

Lemma agree_union keys (patch d : object) : Forall (fun k => patch !! k = None) keys -> agree_on keys d (patch ∪ d).
Proof. intros Hp k Hk. rewrite lookup_union, (proj1 (Forall_forall _ _) Hp k Hk). by destruct (d !! k). Qed.

Lemma first_key_agree {A} (f : any -> option A) keys d d' : agree_on keys d d' -> first_key f d' keys = first_key f d keys.
Proof.
  induction keys as [|k keys IH]; intros Ha; [done|]. cbn. unfold mget. rewrite (Ha k) by set_solver.
  destruct (f _); [done|]. apply IH. eapply agree_on_subset; [|done]. set_solver.
Qed.

Lemma TextValue_agree keys d d' : agree_on keys d d' -> TextValue d' keys = TextValue d keys.
Proof. intros Ha. unfold TextValue. by rewrite (first_key_agree _ _ _ _ Ha). Qed.
Lemma IntValue_agree `{GoLib} keys d d' : agree_on keys d d' -> IntValue d' keys = IntValue d keys.
Proof. intros Ha. unfold IntValue. by rewrite (first_key_agree _ _ _ _ Ha). Qed.

Lemma record_map_agree keys rc : "id" ∉ keys -> agree_on keys (rec_Data rc) (record_map rc).
Proof. intros Hn k Hk. unfold record_map. destruct (mget _ _); try done. rewrite lookup_insert_ne; set_solver. Qed.

Lemma TextValue_text data k keys t : data !! k = Some (VString t) -> Trimmed t -> t ≠ "" -> TextValue data (k :: keys) = t.
Proof.
  intros Hl Ht Hne. unfold TextValue, mget. cbn. unfold mget. rewrite Hl. cbn. rewrite (TrimSpace_fix _ Ht). unfold nonempty, str_empty.
  by rewrite (proj2 (String.eqb_neq _ _) Hne).
Qed.

(** ** Trimmed text stays trimmed in lower case *)

Definition no_lower (p : list ascii) : Prop := Forall (fun c => forall d, lower_ascii d = c -> d = c) p.

Lemma space_no_lower : Forall no_lower space_encodings.
Proof.
  assert (forallb (forallb (fun c => negb ((97 <=? nat_of_ascii c)%nat && (nat_of_ascii c <=? 122)%nat))) space_encodings = true) as Hall
    by (vm_compute; reflexivity).
  apply Forall_forall. intros p Hp. apply Forall_forall. intros c Hc d Hd. subst c.
  rewrite List.forallb_forall in Hall. apply list_elem_of_In, Hall in Hp. rewrite List.forallb_forall in Hp.
  apply list_elem_of_In, Hp in Hc. clear Hall Hp. unfold lower_ascii in *.
  destruct ((65 <=? nat_of_ascii d)%nat && (nat_of_ascii d <=? 90)%nat) eqn:E; [|done]. exfalso.
  apply andb_true_iff in E as [E1 E2]. apply Nat.leb_le in E1, E2. rewrite nat_ascii_embedding in Hc by lia.
  apply negb_true_iff, andb_false_iff in Hc as [Hc|Hc]; apply Nat.leb_gt in Hc; lia.
Qed.

Lemma strip_lower p l : no_lower p -> strip_prefix p l = None -> strip_prefix p (map lower_ascii l) = None.
Proof.
  intros Hp. revert l. induction Hp as [|c p Hc _ IH]; intros l Hs; [done|]. destruct l as [|d l]; [done|]. cbn in *.
  destruct (Ascii.eqb_spec c (lower_ascii d)) as [E|]; [|done]. rewrite (Hc d), Ascii.eqb_refl in Hs by done. by apply IH.
Qed.

Lemma strip_any_lower ps l : Forall no_lower ps -> strip_any ps l = None -> strip_any ps (map lower_ascii l) = None.
Proof.
  rewrite !strip_any_none, !Forall_forall. intros Hl Hn p Hp. apply strip_lower; auto.
Qed.

Lemma Trimmed_of_fix t : TrimSpace t = t -> Trimmed t.
Proof. intros <-. apply TrimSpace_Trimmed. Qed.

Lemma Trimmed_ToLower s : Trimmed s -> Trimmed (ToLower s).
Proof.
  unfold Trimmed, ToLower, trimmed_bytes. rewrite bytes_of_of. intros [H1 H2]. split; [by apply strip_any_lower; [apply space_no_lower|]|].
  rewrite <- map_rev. apply strip_any_lower; [|done]. apply Forall_fmap. eapply Forall_impl; [apply space_no_lower|].
  intros p Hp. unfold no_lower in *. cbn. by apply Forall_rev.
Qed.

Lemma TrimSpace_ToLower s : TrimSpace (ToLower (TrimSpace s)) = ToLower (TrimSpace s).
Proof. apply TrimSpace_fix, Trimmed_ToLower, TrimSpace_Trimmed. Qed.

(** ** What the generic handlers write *)

Definition op_resource (o : store_op) : string :=
  match o with OpCreate res _ _ _ | OpUpdate res _ _ _ | OpDelete res _ | OpNextID res _ _ _ => res end.

Lemma frame_op s o : frame (in_resource (op_resource o)) s (run_op s o).
Proof.
  destruct o as [res d i t|res id d t|res id|res p b w]; cbn [run_op op_resource].
  - eapply frame_weaken; [|apply frame_Create]. by intros ? ? [-> _].
  - eapply frame_weaken; [|apply frame_Update]. by intros ? ? [-> _].
  - eapply frame_weaken; [|apply frame_Delete]. by intros ? ? [-> _].
  - destruct (NextID s res p b w) as [[x s']|] eqn:E; [|apply frame_refl]. apply NextID_data in E. by apply frame_data.
Qed.

Section GenericWrites.
Context `{GoLib} {ip : Type} (cfg : config ip).

(** The generic handler reaches its store by writes to the resource of the route, and where
    the route is for administrators only when the caller is one. *)
Lemma serve_generic_ops a r rt : exists ops,
  Forall (fun o => op_resource o = rt_Resource rt /\
    (cf_RequireAuth cfg = true -> rt_AuthRequired rt = true -> rt_Admin rt = true -> adminAllowed (app_Store a) (sq_http r) = true)) ops /\
  app_Store (serve_generic cfg a r rt).1 = run_ops (app_Store a) ops.
Proof.
  unfold serve_generic. destruct (cf_RequireAuth cfg && rt_AuthRequired rt && rt_Admin rt && negb (adminAllowed (app_Store a) (sq_http r))) eqn:Eg;
    [by exists []|].
  assert (cf_RequireAuth cfg = true -> rt_AuthRequired rt = true -> rt_Admin rt = true -> adminAllowed (app_Store a) (sq_http r) = true) as Ha.
  { intros H1 H2 H3. rewrite H1, H2, H3 in Eg. by apply negb_false_iff in Eg. }
  clear Eg.
  set (Q := adminAllowed (app_Store a) (sq_http r) = true) in *. unfold handleCRUD. cbn zeta.
  destruct (String.eqb _ "GET"); [by exists []|]. destruct (String.eqb _ "POST"); [|destruct (String.eqb _ "PUT" || _); [|destruct (String.eqb _ "DELETE"); [|by exists []]]].
  - unfold handleCRUDCreate. destruct (hr_body _) as [payload|]; [|by exists []]. cbn zeta. destruct (negb _); [by exists []|].
    try (destruct (negb _); [by exists []|]). eexists [OpCreate (rt_Resource rt) payload _ _]. split; [by repeat constructor|].
    match goal with |- context [CreateRecordWithEvent ?a ?res ?d ?b ?i ?t] => pose proof (CreateRecordWithEvent_store a res d b i t) as Hs; destruct (CreateRecordWithEvent a res d b i t) as [a' [rc|e]] end; exact Hs.
  - unfold handleCRUDUpdate. destruct (hr_body _) as [payload|]; [|by exists []]. cbn zeta. destruct (negb _); [by exists []|].
    match goal with |- context [UpdateRecordWithEvent ?a ?res ?id ?d ?b ?t] => pose proof (UpdateRecordWithEvent_store a res id d b t) as Hs;
      destruct (UpdateRecordWithEvent a res id d b t) as [a' [[rc|]|e]]; [exists [OpUpdate res id d t]| |exists [OpUpdate res id d t]];
      [split; [by repeat constructor|exact Hs]| |split; [by repeat constructor|exact Hs]];
      match goal with |- context [CreateRecordWithEvent ?a1 ?res1 ?d1 ?b1 ?i1 ?t1] => exists [OpUpdate res id d t; OpCreate res1 d1 i1 t1]; split; [by repeat constructor|];
        pose proof (CreateRecordWithEvent_store a1 res1 d1 b1 i1 t1) as Hc; destruct (CreateRecordWithEvent a1 res1 d1 b1 i1 t1) as [a'' [rc|e]] end end;
      cbn [fst run_ops fold_left run_op] in *; by rewrite Hc, Hs.
  - unfold handleCRUDDelete. cbn zeta. match goal with |- context [DeleteRecordWithEvent ?a ?res ?id ?b] => exists [OpDelete res id]; split; [by repeat constructor|];
      pose proof (DeleteRecordWithEvent_store a res id b) as Hs; destruct (DeleteRecordWithEvent a res id b) as [a' [x|e]] end; exact Hs.
Qed.

Lemma frame_generic a r rt : frame (in_resource (rt_Resource rt)) (app_Store a) (app_Store (serve_generic cfg a r rt).1).
Proof.
  destruct (serve_generic_ops a r rt) as (ops & Hops & ->). generalize (app_Store a). induction Hops as [|o ops [Ho _] _ IH]; intros s; [apply frame_refl|].
  eapply frame_trans; [|apply IH]. rewrite <- Ho. apply frame_op.
Qed.

End GenericWrites.
