(* ===== verification/StorageAccess.v ===== *)
(** * Storage service: who may do what
    (the access part of internal/services/storage/helpers.go)

    The service keeps projections of users, roles, projects and memberships of the other
    services and reads them together with the originals where it runs beside their owner.
    From them follow who is an administrator, the role of a user in a group and in a
    project, and the checks the handlers begin with. *)

From stdpp Require Import base gmap strings list fin_maps.
From Stdlib Require Import ZArith Lia.
From S2P Require Import Prelude GoValue Store EventBus Crud Tx InputLimits Config Auth Guards ServiceHttp SchedulerHttp.
Local Open Scope Z_scope.
Local Open Scope go_scope.

Definition serviceName : string := "storage-service".
Definition storageProjectsResource : string := serviceName +:+ ":storage_projects".
Definition storageProjectMembersResource : string := serviceName +:+ ":storage_project_members".
Definition storageUserGroupsResource : string := serviceName +:+ ":storage_user_groups".
Definition storageIdentityUsersResource : string := serviceName +:+ ":storage_identity_users".
Definition storageIdentityRolesResource : string := serviceName +:+ ":storage_identity_roles".
Definition orgProjectsResource : string := "org-project-service:projects".
Definition orgProjectMembersResource : string := "org-project-service:project_members".
Definition orgUserGroupsResource : string := "org-project-service:user_groups".
Definition identityUsersResource : string := "identity-service:users".
Definition identityRolesResource : string := "identity-service:roles".

Definition msgAdminRequired : string := "admin access required".
Definition msgGroupMemberRequired : string := "group membership required".
Definition msgGroupAdminRequired : string := "group admin access required".
Definition msgProjectMember : string := "project member access required".
Definition msgProjectManager : string := "project manager access required".
Definition msgFastTransferMissing : string := "fast transfer not found".

Definition GroupKeys : list string := ["group_id"; "groupId"; "gid"; "g_id"].
Definition UserKeys : list string := ["user_id"; "userId"; "uid"; "u_id"].
Definition ProjectKeys : list string := ["id"; "p_id"; "PID"; "project_id"; "projectId"].

Section Access.
Context `{GoLib} {ip : Type} (cfg : config ip).

(** ** Rows *)

Definition storageRows (s : store) (resource : string) : list object := map record_map (List_ s resource).

Definition sourceCoHosted (sourceResource : string) : bool :=
  match before_colon (bytes_of sourceResource) with
  | Some owner => AllowsService cfg (of_bytes owner)
  | None => false
  end.

Definition merge_id (row : object) : string := TextValue row ["id"; "project_id"; "user_id"; "group_id"].

(** Rows of the projection win over rows of the source with the same identifier. *)
Definition mergeRows (source local : list object) : list object :=
  let seen := map merge_id local in
  local ++ List.filter (fun row => str_empty (merge_id row) || negb (bool_decide (merge_id row ∈ seen))) source.

Definition accessRows (s : store) (localResource sourceResource : string) : list object :=
  let local := storageRows s localResource in
  if negb (sourceCoHosted sourceResource) then local
  else
    let source := storageRows s sourceResource in
    match local with [] => source | _ => mergeRows source local end.

(** ** Users and roles *)

Definition requireUser (r : service_request) : result response string :=
  let userID := TrimSpace (sq_header r "X-User-ID") in
  if str_empty userID then refuse StatusUnauthorized "unauthorized" else Ok userID.

Definition grantsAdmin (data : object) : bool :=
  if BoolValue data ["admin_panel"; "adminPanel"; "AdminPanel"] then true
  else BoolValue (MapValue data ["capabilities"; "Capabilities"]) ["admin_panel"; "adminPanel"; "AdminPanel"].

Definition user_grants (roles : list object) (userID : string) (user : object) : bool :=
  if negb (String.eqb (TextValue user ["id"; "user_id"; "userId"]) userID) then false
  else grantsAdmin user ||
       existsb (fun role => String.eqb (TextValue role ["id"; "name"]) (TextValue user ["role_id"; "roleId"; "role"]) && grantsAdmin role) roles.

Definition hasAdminPanel (s : store) (r : service_request) (userID : string) : bool :=
  if EqualFold (sq_header r "X-User-Role") "admin" then true
  else
    let roles := accessRows s storageIdentityRolesResource identityRolesResource in
    existsb (user_grants roles userID) (accessRows s storageIdentityUsersResource identityUsersResource).

Definition normalizeRole (role : string) : string :=
  let role := ToLower (TrimSpace role) in
  if String.eqb role "member" then "user" else role.

Definition userGroupRows (s : store) : list object := accessRows s storageUserGroupsResource orgUserGroupsResource.

Definition groupRole (s : store) (groupID userID : string) : string :=
  match List.find (fun m => String.eqb (TextValue m GroupKeys) groupID && String.eqb (TextValue m UserKeys) userID) (userGroupRows s) with
  | Some m => normalizeRole (TextValue m ["role"])
  | None => ""
  end.

Definition canReadGroup (s : store) (r : service_request) (groupID userID : string) : bool :=
  hasAdminPanel s r userID || negb (str_empty (groupRole s groupID userID)).

Definition canManageGroup (s : store) (r : service_request) (groupID userID : string) : bool :=
  let role := groupRole s groupID userID in
  hasAdminPanel s r userID || String.eqb role "admin" || String.eqb role "manager".

(** ** Projects *)

Definition findProject (s : store) (projectID : string) : option object :=
  List.find (fun p => String.eqb (TextValue p ProjectKeys) projectID) (accessRows s storageProjectsResource orgProjectsResource).

Definition projectRole (s : store) (r : service_request) (project : object) (userID : string) : string :=
  if hasAdminPanel s r userID then "admin"
  else if String.eqb (TextValue project ["personal_user_id"; "personalUserID"]) userID then "admin"
  else
    let role := groupRole s (TextValue project ["owner_id"; "ownerId"; "GID"; "g_id"]) userID in
    if negb (str_empty role) then role
    else
      let projectID := TextValue project ProjectKeys in
      match List.find (fun m => String.eqb (TextValue m ["project_id"; "projectId"]) projectID &&
                                String.eqb (TextValue m ["user_id"; "userId"]) userID)
              (accessRows s storageProjectMembersResource orgProjectMembersResource) with
      | Some m => normalizeRole (TextValue m ["role"])
      | None => ""
      end.

Definition canReadProject (role : string) : bool := String.eqb role "admin" || String.eqb role "manager" || String.eqb role "user".
Definition canManageProject (role : string) : bool := String.eqb role "admin" || String.eqb role "manager".

Definition requireProjectRead (s : store) (r : service_request) (projectID userID : string) : result response object :=
  match findProject s projectID with
  | None => refuse StatusNotFound "Project not found"
  | Some project => if canReadProject (projectRole s r project userID) then Ok project else refuse StatusForbidden msgProjectMember
  end.

Definition requireProjectManager (s : store) (r : service_request) (projectID userID : string) : result response object :=
  match findProject s projectID with
  | None => refuse StatusNotFound "Project not found"
  | Some project => if canManageProject (projectRole s r project userID) then Ok project else refuse StatusForbidden msgProjectManager
  end.

(** Contracts for other services (mount_plan_contracts.go). *)
Definition requireStorageServiceAuth (r : service_request) : result response unit :=
  if str_empty (cf_ServiceAPIKey cfg) && bool_decide (cf_ServiceTrustedIdentities cfg = ∅)
  then refuse StatusNotFound "not found"
  else require (serviceRequestAuthorizedForAudience cfg (sq_http r) "storage-service")
         StatusUnauthorized "service authentication is required".

(** ** Path values, identifiers and permissions *)

Definition projectPathID (r : service_request) : string := TrimSpace (PathValue r "id").
Definition groupPathID (r : service_request) : string := TrimSpace (FirstNonBlank [PathValue r "id"; PathValue r "group_id"]).
Definition pvcPathID (r : service_request) : string := TrimSpace (FirstNonBlank [PathValue r "pvcId"; PathValue r "pvc_id"]).

Definition groupStorageID (groupID pvcID : string) : string := groupID +:+ ":" +:+ pvcID.
Definition storagePermissionID (groupID pvcID userID : string) : string := groupID +:+ ":" +:+ pvcID +:+ ":" +:+ userID.
Definition storagePolicyID (groupID pvcID : string) : string := groupID +:+ ":" +:+ pvcID.
Definition projectBindingID (projectID pvcID : string) : string := projectID +:+ ":" +:+ pvcID.
Definition projectPermissionID (projectID pvcID userID : string) : string := projectID +:+ ":" +:+ pvcID +:+ ":" +:+ userID.
Definition fastTransferID (projectID namespace name : string) : string := projectID +:+ ":" +:+ namespace +:+ ":" +:+ name.

Definition normalizePermission (permission : string) : string :=
  let p := ToLower (TrimSpace permission) in
  if bool_decide (p ∈ ["read"; "read_only"; "readonly"]) then "read_only"
  else if bool_decide (p ∈ ["write"; "read_write"; "readwrite"]) then "read_write"
  else if bool_decide (p ∈ ["none"; ""]) then "none"
  else p.

Definition storagePermissionAllows (permission : string) (readOnly : bool) : bool :=
  let p := normalizePermission permission in
  if readOnly then String.eqb p "read_only" || String.eqb p "read_write" else String.eqb p "read_write".

(** ** Rows and batches *)

Definition filterRows (rows : list object) (key value : string) : list object :=
  List.filter (fun row => String.eqb (TextValue row [key]) value) rows.

Fixpoint row_less (keys : list string) (a b : object) : bool :=
  match keys with
  | [] => false
  | k :: ks => let left := TextValue a [k] in let right := TextValue b [k] in
               if negb (String.eqb left right) then String.ltb left right else row_less ks a b
  end.
(** [sort.Slice]: rows that agree on the keys come in no fixed order. *)
Definition sortRows (rows : list object) (keys : list string) : list object := SliceStable (row_less keys) rows.

Definition list_maps (v : any) : list object := match v with VList l => omap as_map l | _ => [] end.
Definition payloadItems (payload : object) : list object :=
  list_maps (mget payload "items") ++ list_maps (mget payload "permissions").

Definition optionRows (options : list string) : list string :=
  List.filter (fun item => negb (str_empty item)) (map TrimSpace options).

Fixpoint firstStringSlice (payload : object) (keys : list string) : list string :=
  match keys with
  | [] => []
  | k :: ks => match default [] (StringSlice (mget payload k)) with [] => firstStringSlice payload ks | values => values end
  end.

(** What a batch reports. *)
Record batch := Batch { ba_succeeded : Z; ba_failed : Z; ba_errors : list string }.
Definition batchResult : batch := Batch 0 0 [].
Definition batch_ok (b : batch) : batch := Batch (ba_succeeded b + 1) (ba_failed b) (ba_errors b).
Definition batch_fail (b : batch) (e : string) : batch := Batch (ba_succeeded b) (ba_failed b + 1) (ba_errors b ++ [e]).
Definition batch_body (b : batch) : body :=
  BMap {[ "succeeded" := VInt (ba_succeeded b); "failed" := VInt (ba_failed b); "errors" := VStrings (ba_errors b) ]}.

Definition batchError (id : string) (data : body) : string :=
  match data with BMap row => id +:+ ": " +:+ TextValue row ["message"] | _ => id +:+ ": failed" end.

(** ** Events *)

(** The [k]th event of the request; two identifiers are drawn for each. *)
Definition storageEvent (r : service_request) (k : nat) (name : string) (data : object) : event :=
  Event_ (sq_uuid r (2 * k)) name serviceName (sq_now r)
    (FirstNonBlank [sq_header r "X-Trace-ID"; sq_header r "X-Request-ID"; sq_uuid r (2 * k + 1)]) 1 "" data.

(** A failed publication is logged. *)
Definition publishEvent (a : app) (r : service_request) (k : nat) (name : string) (data : object) : app :=
  default a (publish_event a (storageEvent r k name data)).

(** ** What the checks establish *)

Lemma requireUser_ok r userID : requireUser r = Ok userID -> userID ≠ "" /\ userID = TrimSpace (sq_header r "X-User-ID").
Proof. unfold requireUser, str_empty. cbn zeta. destruct (String.eqb_spec (TrimSpace (sq_header r "X-User-ID")) ""); [done|]. by intros [= <-]. Qed.

Lemma requireProjectManager_ok s r p u project : requireProjectManager s r p u = Ok project ->
  findProject s p = Some project /\ canManageProject (projectRole s r project u) = true.
Proof.
  unfold requireProjectManager. destruct (findProject s p) as [pr|]; [|done].
  destruct (canManageProject _) eqn:E; [|done]. by intros [= <-].
Qed.

Lemma normalizePermission_idem p : normalizePermission (normalizePermission p) = normalizePermission p.
Proof.
  unfold normalizePermission at 2 3. cbn zeta. set (q := ToLower (TrimSpace p)).
  assert (ToLower (TrimSpace q) = q) as Hq by (unfold q; by rewrite TrimSpace_ToLower, ToLower_idem).
  do 3 (case_bool_decide; [by vm_compute|]). unfold normalizePermission. cbn zeta. rewrite Hq.
  by rewrite !bool_decide_false.
Qed.

Lemma allows_normalized p ro : storagePermissionAllows (normalizePermission p) ro = storagePermissionAllows p ro.
Proof. unfold storagePermissionAllows. by rewrite normalizePermission_idem. Qed.
End Access.
