(* ===== verification/StorageRepository.v ===== *)
(** * Storage service: the repository
    (internal/services/storage/storage_repository.go)

    Volumes of groups, permissions on them, default policies, bindings of volumes to
    projects, permissions in projects, cache bindings, transfers and user volumes, all
    records of the shared store.  The store is always there, so the repository is never
    unavailable; cloning a map has no effect on values. *)

From stdpp Require Import base gmap strings list fin_maps.
From Stdlib Require Import ZArith Lia.
From S2P Require Import Prelude GoValue Store EventBus Crud Tx InputLimits Config Auth ServiceHttp StorageAccess.
Local Open Scope Z_scope.
Local Open Scope go_scope.

Definition groupStorageResource : string := serviceName +:+ ":group_storage".
Definition storagePermissionsResource : string := serviceName +:+ ":storage_permissions".
Definition storagePoliciesResource : string := serviceName +:+ ":storage_access_policies".
Definition projectBindingsResource : string := serviceName +:+ ":storage_bindings".
Definition projectPermissionsResource : string := serviceName +:+ ":project_storage_permissions".
Definition cacheBindingsResource : string := serviceName +:+ ":cache_bindings".
Definition fastTransfersResource : string := serviceName +:+ ":fast_transfers".
Definition userStorageResource : string := serviceName +:+ ":user_storage".

Section Repository.
Context `{GoLib}.

Definition storageRecordMap (rc : record) : object := record_map rc.

(** ** The generic operations *)

Definition create (s : store) (resource : string) (data : object) (newID : string) (now : Z) : store * result create_conflict object :=
  match Create s resource data newID now with
  | (s', Ok rc) => (s', Ok (storageRecordMap rc))
  | (s', Err e) => (s', Err e)
  end.

Definition get (s : store) (resource id : string) : option object := storageRecordMap <$> Get s resource id.

Definition update (s : store) (resource id : string) (data : object) (now : Z) : store * option object :=
  let '(s', rc) := Update s resource id data now in (s', storageRecordMap <$> rc).

Definition upsert (s : store) (resource id : string) (data : object) (newID : string) (now : Z) : store * result create_conflict object :=
  match upsertRecordWithoutTransactionalStore s resource id (<["id" := VString id]> data) newID now with
  | (s', Ok rc) => (s', Ok (storageRecordMap rc))
  | (s', Err e) => (s', Err e)
  end.

Definition listMaps (s : store) (resource : string) : list object := map storageRecordMap (List_ s resource).
Definition listMatching (s : store) (resource : string) (matches : object -> bool) : list object :=
  List.filter matches (listMaps s resource).

Definition matching_ids (s : store) (resource : string) (matches : object -> bool) : list string :=
  map rec_ID (List.filter (fun rc => matches (rec_Data rc)) (List_ s resource)).
Definition deleteMatching (s : store) (resource : string) (matches : object -> bool) : store :=
  fold_left (fun s' id => (Delete s' resource id).1) (matching_ids s resource matches) s.

(** The rows are found before the first is deleted; no deletion fails. *)
Fixpoint delete_ids_tx (resource : string) (ids : list string) : tx_fn unit unit :=
  match ids with
  | [] => stm_ret tt
  | id :: rest => tx_Delete resource id ;;; delete_ids_tx resource rest
  end.
Definition deleteMatchingTx (resource : string) (matches : object -> bool) : tx_fn unit unit :=
  fun t => delete_ids_tx resource (matching_ids (tx_store t) resource matches) t.

(** ** Record and event together *)

Definition createWithEvent (a : app) (resource : string) (data : object) (build : object -> event) (newID : string) (now : Z)
    : app * result store_error object :=
  match CreateRecordWithEvent a resource data (Some (fun rc => build (storageRecordMap rc))) newID now with
  | (a', Ok rc) => (a', Ok (storageRecordMap rc))
  | (a', Err e) => (a', Err e)
  end.

Definition upsertWithEvent (a : app) (resource id : string) (data : object) (build : object -> event) (newID : nat -> string) (now : Z)
    : app * result store_error object :=
  match UpsertRecordWithEvent a resource id data (Some (fun rc => build (storageRecordMap rc))) (newID 0%nat) (newID 1%nat) now with
  | (a', Ok rc) => (a', Ok (storageRecordMap rc))
  | (a', Err e) => (a', Err e)
  end.

Definition updateWithEvent (a : app) (resource id : string) (data : object) (build : object -> event) (now : Z)
    : app * result store_error (option object) :=
  match UpdateRecordWithEvent a resource id data (Some (fun rc => build (storageRecordMap rc))) now with
  | (a', Ok rc) => (a', Ok (storageRecordMap <$> rc))
  | (a', Err e) => (a', Err e)
  end.

Definition deleteWithEvent (a : app) (resource id : string) (build : bool -> event) : app * result store_error bool :=
  DeleteRecordWithEvent a resource id (Some build).

(** ** Volumes of groups *)

Definition ListGroupStorage (s : store) : list object := listMaps s groupStorageResource.
Definition ListGroupStorageByGroup (s : store) (groupID : string) : list object := filterRows (ListGroupStorage s) "group_id" groupID.
Definition CreateGroupStorageWithEvent (a : app) (data : object) (build : object -> event) (newID : string) (now : Z) :=
  createWithEvent a groupStorageResource data build newID now.
Definition status_patch (status : string) (now : Z) : object := {[ "status" := VString status; "updated_at" := time_value now ]}.
Definition UpdateGroupStorageStatusWithEvent (a : app) (groupID pvcID status : string) (build : object -> event) (now : Z) :=
  updateWithEvent a groupStorageResource (groupStorageID groupID pvcID) (status_patch status now) build now.
Definition FindGroupStorageSource (s : store) (groupID pvcID : string) : option object :=
  get s groupStorageResource (groupStorageID groupID pvcID).

Definition of_volume (groupID pvcID : string) (row : object) : bool :=
  String.eqb (TextValue row ["group_id"]) groupID && String.eqb (TextValue row ["pvc_id"]) pvcID.

Definition DeleteGroupStorageCascade (s : store) (groupID pvcID : string) : store * bool :=
  match Delete s groupStorageResource (groupStorageID groupID pvcID) with
  | (s', false) => (s', false)
  | (s', true) => (deleteMatching (deleteMatching s' storagePermissionsResource (of_volume groupID pvcID))
                     storagePoliciesResource (of_volume groupID pvcID), true)
  end.

Definition DeleteGroupStorageCascadeTx (groupID pvcID : string) : tx_fn unit bool :=
  deleted <-- tx_Delete groupStorageResource (groupStorageID groupID pvcID) ;;
  if deleted : bool
  then deleteMatchingTx storagePermissionsResource (of_volume groupID pvcID) ;;;
       deleteMatchingTx storagePoliciesResource (of_volume groupID pvcID) ;;;
       stm_ret true
  else stm_ret false.

(** ** Permissions and policies of groups *)

Definition UpsertStoragePermissionWithEvent (a : app) (data : object) (build : object -> event) (newID : nat -> string) (now : Z) :=
  upsertWithEvent a storagePermissionsResource (TextValue data ["id"]) data build newID now.
Definition DeleteStoragePermissionWithEvent (a : app) (groupID pvcID userID : string) (build : bool -> event) :=
  deleteWithEvent a storagePermissionsResource (storagePermissionID groupID pvcID userID) build.
Definition ListStoragePermissionsForPVC (s : store) (groupID pvcID : string) : list object :=
  listMatching s storagePermissionsResource (of_volume groupID pvcID).
Definition UpsertStoragePolicyWithEvent (a : app) (data : object) (build : object -> event) (newID : nat -> string) (now : Z) :=
  upsertWithEvent a storagePoliciesResource (storagePolicyID (TextValue data ["group_id"]) (TextValue data ["pvc_id"])) data build newID now.
Definition GetStoragePolicy (s : store) (groupID pvcID : string) : option object :=
  get s storagePoliciesResource (storagePolicyID groupID pvcID).

(** ** Bindings and permissions of projects *)

Definition ListProjectBindings (s : store) (projectID : string) : list object :=
  listMatching s projectBindingsResource (fun row => String.eqb (TextValue row ["project_id"]) projectID).
Definition CreateProjectBindingWithEvent (a : app) (data : object) (build : object -> event) (newID : string) (now : Z) :=
  createWithEvent a projectBindingsResource data build newID now.
Definition FindProjectStorageBinding (s : store) (projectID pvcID : string) : option object :=
  get s projectBindingsResource (projectBindingID projectID pvcID).

Definition of_binding (projectID pvcID : string) (row : object) : bool :=
  String.eqb (TextValue row ["project_id"]) projectID && String.eqb (TextValue row ["pvc_id"]) pvcID.

Definition DeleteProjectBindingCascade (s : store) (projectID pvcID : string) : store * bool :=
  match Delete s projectBindingsResource (projectBindingID projectID pvcID) with
  | (s', false) => (s', false)
  | (s', true) => (deleteMatching s' projectPermissionsResource (of_binding projectID pvcID), true)
  end.

Definition DeleteProjectBindingCascadeTx (projectID pvcID : string) : tx_fn unit bool :=
  deleted <-- tx_Delete projectBindingsResource (projectBindingID projectID pvcID) ;;
  if deleted : bool
  then deleteMatchingTx projectPermissionsResource (of_binding projectID pvcID) ;;; stm_ret true
  else stm_ret false.

Definition UpsertProjectPermissionWithEvent (a : app) (data : object) (build : object -> event) (newID : nat -> string) (now : Z) :=
  upsertWithEvent a projectPermissionsResource (TextValue data ["id"]) data build newID now.
Definition DeleteProjectPermissionWithEvent (a : app) (projectID pvcID userID : string) (build : bool -> event) :=
  deleteWithEvent a projectPermissionsResource (projectPermissionID projectID pvcID userID) build.
Definition ListProjectPermissionsForPVC (s : store) (projectID pvcID : string) : list object :=
  listMatching s projectPermissionsResource (of_binding projectID pvcID).

Definition EffectiveStoragePermission (s : store) (projectID groupID pvcID userID : string) : string :=
  match get s projectPermissionsResource (projectPermissionID projectID pvcID userID) with
  | Some record => normalizePermission (TextValue record ["permission"])
  | None =>
      match get s storagePermissionsResource (storagePermissionID groupID pvcID userID) with
      | Some record => normalizePermission (TextValue record ["permission"])
      | None =>
          match get s storagePoliciesResource (storagePolicyID groupID pvcID) with
          | Some record => normalizePermission (TextValue record ["default_permission"; "defaultPermission"])
          | None => "none"
          end
      end
  end.

(** ** Cache bindings *)

Definition ListCacheBindings (s : store) (projectID : string) : list object :=
  listMatching s cacheBindingsResource (fun row => String.eqb (TextValue row ["project_id"; "projectId"]) projectID).
Definition GetCacheBinding (s : store) (projectID id : string) : option object :=
  match get s cacheBindingsResource id with
  | Some row => if String.eqb (TextValue row ["project_id"; "projectId"]) projectID then Some row else None
  | None => None
  end.
Definition UpsertCacheBindingWithEvent (a : app) (id : string) (data : object) (build : object -> event) (newID : nat -> string) (now : Z) :=
  upsertWithEvent a cacheBindingsResource id data build newID now.
Definition DeleteCacheBindingWithEvent (a : app) (projectID id : string) (build : bool -> event) : app * result store_error bool :=
  match GetCacheBinding (app_Store a) projectID id with
  | Some row => if String.eqb (TextValue row ["id"]) id then deleteWithEvent a cacheBindingsResource id build else (a, Ok false)
  | None => (a, Ok false)
  end.

(** ** Transfers and user volumes *)

Definition NextFastTransferName (s : store) : string * store := default ("", s) (NextID s fastTransfersResource "transfer-" 1 5).
Definition CreateFastTransferWithEvent (a : app) (data : object) (build : object -> event) (newID : string) (now : Z) :=
  createWithEvent a fastTransfersResource data build newID now.
Definition GetFastTransfer (s : store) (projectID namespace name : string) : option object :=
  get s fastTransfersResource (fastTransferID projectID namespace name).
Definition internalFastTransferIdempotencyKeyHash : string := "internal_idempotency_key_hash".
Definition internalFastTransferIdempotencyFingerprint : string := "internal_idempotency_fingerprint_hash".
Definition FindFastTransferByIdempotencyKeyHash (s : store) (projectID keyHash : string) : option object :=
  if str_empty keyHash then None
  else List.find (fun row => String.eqb (TextValue row ["project_id"; "projectId"]) projectID &&
                             String.eqb (TextValue row [internalFastTransferIdempotencyKeyHash]) keyHash) (listMaps s fastTransfersResource).
Definition UpdateFastTransferWithEvent (a : app) (projectID namespace name : string) (data : object) (build : object -> event) (now : Z) :=
  updateWithEvent a fastTransfersResource (fastTransferID projectID namespace name) data build now.
Definition UpdateFastTransferDispatch (s : store) (projectID namespace name : string) (data : object) (now : Z) :=
  update s fastTransfersResource (fastTransferID projectID namespace name) data now.

Definition UpsertUserStorageWithEvent (a : app) (username : string) (data : object) (build : object -> event) (newID : nat -> string) (now : Z) :=
  upsertWithEvent a userStorageResource username data build newID now.
Definition UserStorageStatus (s : store) (username : string) : object :=
  default {[ "id" := VString username; "username" := VString username; "status" := VString "missing" ]}
    (get s userStorageResource username).

(** ** Frames and reads *)

Lemma frame_createWithEvent a res d b i t : frame (at_record res (create_id d i)) (app_Store a) (app_Store (createWithEvent a res d b i t).1).
Proof.
  unfold createWithEvent. pose proof (frame_CreateRecordWithEvent a res d (Some (fun rc => b (storageRecordMap rc))) i t) as Hf.
  by destruct (CreateRecordWithEvent _ _ _ _ _ _) as [a' []].
Qed.

Lemma frame_upsertWithEvent a res id d b i t : upsert_id id d (i 0%nat) ≠ "" ->
  frame (at_record res (upsert_id id d (i 0%nat))) (app_Store a) (app_Store (upsertWithEvent a res id d b i t).1).
Proof.
  intros Hne. unfold upsertWithEvent.
  pose proof (frame_UpsertRecordWithEvent a res id d (Some (fun rc => b (storageRecordMap rc))) (i 0%nat) (i 1%nat) t Hne) as Hf.
  by destruct (UpsertRecordWithEvent _ _ _ _ _ _ _ _) as [a' []].
Qed.

Lemma frame_upsert_at a res id d b i t : id ≠ "" ->
  frame (at_record res id) (app_Store a) (app_Store (upsertWithEvent a res id d b i t).1).
Proof.
  intros Hne. assert (upsert_id id d (i 0%nat) = id) as Hid by (unfold upsert_id, str_empty; by rewrite !(proj2 (String.eqb_neq _ _) Hne)).
  pose proof (frame_upsertWithEvent a res id d b i t) as Hf. rewrite Hid in Hf. by apply Hf.
Qed.

Lemma frame_updateWithEvent a res id d b t : frame (at_record res id) (app_Store a) (app_Store (updateWithEvent a res id d b t).1).
Proof.
  unfold updateWithEvent. pose proof (frame_UpdateRecordWithEvent a res id d (Some (fun rc => b (storageRecordMap rc))) t) as Hf.
  by destruct (UpdateRecordWithEvent _ _ _ _ _ _) as [a' []].
Qed.

Lemma frame_deleteWithEvent a res id b : frame (at_record res id) (app_Store a) (app_Store (deleteWithEvent a res id b).1).
Proof. apply frame_DeleteRecordWithEvent. Qed.

Lemma frame_delete_ids res ids t :
  frame (in_resource res) (tx_store t) (tx_store (delete_ids_tx res ids t).1).
Proof.
  revert t. induction ids as [|id ids IH]; intros t; [done|]. cbn [delete_ids_tx]. unfold stm_bind, tx_Delete.
  pose proof (frame_Delete (tx_store t) res id) as Hd. destruct (Delete (tx_store t) res id) as [s' b]. cbn [fst] in Hd.
  eapply frame_trans; [|apply (IH (StoreTx s' (tx_events t)))]. cbn [tx_store].
  eapply frame_weaken; [|exact Hd]. by intros ? ? [-> _].
Qed.

(** A successful upsert is read back. *)
Lemma upsertWithEvent_get a res id d b i t : id ≠ "" ->
  exists rc, Get (app_Store (upsertWithEvent a res id d b i t).1) res id = Some rc /\
    (forall k v, <["id" := VString id]> d !! k = Some v -> rec_Data rc !! k = Some v).
Proof.
  intros Hne. unfold upsertWithEvent.
  pose proof (UpsertRecordWithEvent_store a res id d (Some (fun rc => b (storageRecordMap rc))) (i 0%nat) (i 1%nat) t) as Hs.
  assert (upsert_id id d (i 0%nat) = id) as Hid by (unfold upsert_id, str_empty; by rewrite !(proj2 (String.eqb_neq _ _) Hne)).
  rewrite Hid in Hs. destruct (upsert_ok (app_Store a) res id (<["id" := VString id]> d) (i 1%nat) t) as (s' & rc & He & Hg & _ & Hd & _);
    [apply lookup_insert_eq|done|]. rewrite He in Hs. cbn [fst] in Hs.
  destruct (UpsertRecordWithEvent _ _ _ _ _ _ _ _) as [a' []]; cbn [fst] in *; rewrite Hs; eauto.
Qed.
End Repository.

#[export] Hint Resolve frame_createWithEvent frame_updateWithEvent frame_deleteWithEvent : nexus.
