(* ===== verification/StorageHandlers.v ===== *)
(** * Storage service: the handlers of volumes, permissions, policies and bindings
    (internal/services/storage/handler.go, helpers.go, cache_bindings.go,
    storage_profiles.go, benchmark_records.go) *)

From stdpp Require Import base gmap strings list fin_maps.
From Stdlib Require Import ZArith Lia Ascii.
From S2P Require Import Prelude GoValue Store EventBus Crud Tx InputLimits Config Auth ServiceHttp StorageAccess StorageRepository WorkloadText.
Local Open Scope Z_scope.
Local Open Scope go_scope.

Definition storageProfilesResource : string := serviceName +:+ ":storage_profiles".
Definition storageBenchmarkRecordsResource : string := serviceName +:+ ":storage_benchmark_records".
Definition cacheBindingChangedEvent : string := "CacheBindingChanged".
Definition msgStorageProfileSave : string := "storage profile could not be saved".

Section Handlers.
Context `{GoLib} {ip : Type} (cfg : config ip).

(** The identifiers drawn for the [k]th item of a batch. *)
Definition ids_at (r : service_request) (k n : nat) : string := sq_newid r (2 * k + n).

Definition ok_map (m : object) : response := (StatusOK, BMap m).

(** Saves and deletions that end the handler. *)
Definition saved (status_ok status_err : Z) (text : string) (out : app * result store_error object) : app * response :=
  match out with
  | (a', Ok row) => (a', (status_ok, BMap row))
  | (a', Err _) => (a', (status_err, message text))
  end.
Definition removed_quietly (text : string) (out : app * result store_error bool) : app * response :=
  match out with
  | (a', Ok _) => (a', (StatusOK, BNil))
  | (a', Err _) => (a', (StatusInternalServerError, message text))
  end.

(** ** Volumes of groups *)

Definition listStorageOptions : response :=
  ok_map {[ "storage_classes" := VStrings (optionRows (cf_StorageClassOptions cfg));
            "access_modes" := VStrings ["ReadWriteOnce"; "ReadWriteMany"];
            "permissions" := VStrings ["none"; "read_only"; "read_write"] ]}.

Definition listAdminGroupStorage (a : app) (r : service_request) : app * response := handle a (
  userID <-? requireUser r ;;
  require (hasAdminPanel cfg (app_Store a) r userID) StatusForbidden msgAdminRequired ;;?
  Ok (a, (StatusOK, BMaps (ListGroupStorage (app_Store a))))).

Definition groupStorageRows (s : store) (groupID : string) : list object := ListGroupStorageByGroup s groupID.

Definition listGroupStorage (a : app) (r : service_request) : app * response := handle a (
  userID <-? requireUser r ;;
  let groupID := groupPathID r in
  require (canReadGroup cfg (app_Store a) r groupID userID) StatusForbidden msgGroupMemberRequired ;;?
  Ok (a, (StatusOK, BMaps (groupStorageRows (app_Store a) groupID)))).

Definition listMyStorages (a : app) (r : service_request) : app * response := handle a (
  userID <-? requireUser r ;;
  let rows := flat_map (fun m => groupStorageRows (app_Store a) (TextValue m GroupKeys))
                (List.filter (fun m => String.eqb (TextValue m UserKeys) userID) (userGroupRows cfg (app_Store a))) in
  Ok (a, (StatusOK, BMaps (sortRows rows ["group_id"; "name"; "id"])))).

Definition group_storage_record (groupID pvcID name : string) (payload : object) (now : Z) : object :=
  list_to_map [("id", VString (groupStorageID groupID pvcID)); ("group_id", VString groupID); ("pvc_id", VString pvcID);
    ("name", VString name); ("size", VString (FirstNonBlank [TextValue payload ["size"]; "10Gi"]));
    ("storage_class", VString (TextValue payload ["storage_class"; "storageClass"])); ("status", VString "created");
    ("created_at", time_value now); ("updated_at", time_value now)].

Definition createGroupStorage (a : app) (r : service_request) : app * response := handle a (
  userID <-? requireUser r ;;
  require (hasAdminPanel cfg (app_Store a) r userID) StatusForbidden msgAdminRequired ;;?
  payload <-? decode_body r ;;
  let groupID := groupPathID r in
  let name := FirstNonBlank [TextValue payload ["name"]; TextValue payload ["pvc_id"; "pvcId"]] in
  require (negb (str_empty groupID || str_empty name)) StatusBadRequest "group id and storage name are required" ;;?
  let pvcID := FirstNonBlank [TextValue payload ["id"; "pvc_id"; "pvcId"]; name] in
  Ok (saved StatusCreated StatusConflict "group storage already exists"
        (CreateGroupStorageWithEvent a (group_storage_record groupID pvcID name payload (sq_now r))
           (storageEvent r 0 "GroupStorageCreated") (sq_newid r 0) (sq_now r)))).

(** A deletion with its cascade in one transaction, announced when there was something. *)
Definition delete_cascade (a : app) (cascade : tx_fn unit bool) (announce : event) (failed missing : string) : app * response :=
  match WithTx a (removed <-- cascade ;; if removed : bool then tx_Emit announce ;;; stm_ret true else stm_ret false) with
  | (a', Err _) => (a', (StatusInternalServerError, message failed))
  | (a', Ok false) => (a', (StatusNotFound, message missing))
  | (a', Ok true) => (a', (StatusOK, BNil))
  end.

Definition deleteGroupStorage (a : app) (r : service_request) : app * response := handle a (
  userID <-? requireUser r ;;
  require (hasAdminPanel cfg (app_Store a) r userID) StatusForbidden msgAdminRequired ;;?
  let groupID := groupPathID r in let pvcID := pvcPathID r in
  Ok (delete_cascade a (DeleteGroupStorageCascadeTx groupID pvcID)
        (storageEvent r 0 "GroupStorageDeleted" {[ "group_id" := VString groupID; "pvc_id" := VString pvcID ]})
        "group storage could not be deleted" "group storage not found")).

Definition commandGroupStorage (a : app) (r : service_request) (statusValue : string) : app * response := handle a (
  userID <-? requireUser r ;;
  let groupID := groupPathID r in let pvcID := pvcPathID r in
  require (canReadGroup cfg (app_Store a) r groupID userID) StatusForbidden msgGroupMemberRequired ;;?
  Ok (match UpdateGroupStorageStatusWithEvent a groupID pvcID statusValue (storageEvent r 0 "GroupStorageCommanded") (sq_now r) with
      | (a', Err _) => (a', (StatusInternalServerError, message "group storage could not be updated"))
      | (a', Ok None) => (a', (StatusNotFound, message "group storage not found"))
      | (a', Ok (Some row)) => (a', ok_map row)
      end)).
Definition startGroupStorage (a : app) (r : service_request) : app * response := commandGroupStorage a r "running".
Definition stopGroupStorage (a : app) (r : service_request) : app * response := commandGroupStorage a r "stopped".

(** ** Permissions and policies of groups *)

Definition permissionRecord (payload : object) (now : Z) : result string object :=
  let groupID := TextValue payload ["group_id"; "groupId"] in
  let pvcID := TextValue payload ["pvc_id"; "pvcId"] in
  let userID := TextValue payload ["user_id"; "userId"] in
  let permission := normalizePermission (TextValue payload ["permission"]) in
  if str_empty groupID || str_empty pvcID || str_empty userID || str_empty permission
  then Err "group_id, pvc_id, user_id and permission are required"
  else Ok (list_to_map [("id", VString (storagePermissionID groupID pvcID userID)); ("group_id", VString groupID);
             ("pvc_id", VString pvcID); ("user_id", VString userID); ("permission", VString permission); ("updated_at", time_value now)]).

Definition permission_deleted (groupID pvcID userID : string) : object :=
  {[ "group_id" := VString groupID; "pvc_id" := VString pvcID; "user_id" := VString userID; "action" := VString "delete" ]}.

Definition createStoragePermission (a : app) (r : service_request) : app * response := handle a (
  userID <-? requireUser r ;;
  payload <-? decode_body r ;;
  let groupID := TextValue payload ["group_id"; "groupId"] in
  require (canManageGroup cfg (app_Store a) r groupID userID) StatusForbidden msgGroupAdminRequired ;;?
  match permissionRecord payload (sq_now r) with
  | Err text => refuse StatusBadRequest text
  | Ok record => Ok (saved StatusOK StatusConflict "storage permission could not be saved"
                       (UpsertStoragePermissionWithEvent a record (storageEvent r 0 "StoragePermissionChanged") (sq_newid r) (sq_now r)))
  end).

Definition deleteStoragePermissionItem (a : app) (r : service_request) (k : nat) (item : object) : app * option string :=
  let groupID := TextValue item ["group_id"; "groupId"] in
  let pvcID := TextValue item ["pvc_id"; "pvcId"] in
  let targetUserID := TextValue item ["user_id"; "userId"] in
  match DeleteStoragePermissionWithEvent a groupID pvcID targetUserID
          (fun _ => storageEvent r k "StoragePermissionChanged" (permission_deleted groupID pvcID targetUserID)) with
  | (a', Ok _) => (a', None)
  | (a', Err e) => (a', Some (store_error_text e))
  end.

Definition applyStoragePermissionItem (a : app) (r : service_request) (k : nat) (item : object) (del : bool) : app * option string :=
  if del then deleteStoragePermissionItem a r k item
  else match permissionRecord item (sq_now r) with
       | Err text => (a, Some text)
       | Ok record =>
           match UpsertStoragePermissionWithEvent a record (storageEvent r k "StoragePermissionChanged") (ids_at r k) (sq_now r) with
           | (a', Ok _) => (a', None)
           | (a', Err e) => (a', Some (store_error_text e))
           end
       end.

(** One item after the other; a failure is counted and the next one tried. *)
Fixpoint batch_items (step : app -> nat -> object -> app * option string) (k : nat) (a : app) (b : batch) (items : list object) : app * batch :=
  match items with
  | [] => (a, b)
  | item :: rest =>
      match step a k item with
      | (a', None) => batch_items step (S k) a' (batch_ok b) rest
      | (a', Some e) => batch_items step (S k) a' (batch_fail b e) rest
      end
  end.

Definition item_in_group (groupID : string) (item : object) : object :=
  <["group_id" := VString (FirstNonBlank [TextValue item ["group_id"; "groupId"]; groupID])]> item.

Definition batchStoragePermissions (a : app) (r : service_request) (del : bool) : app * response := handle a (
  userID <-? requireUser r ;;
  payload <-? decode_body r ;;
  let groupID := TextValue payload ["group_id"; "groupId"] in
  require (canManageGroup cfg (app_Store a) r groupID userID) StatusForbidden msgGroupAdminRequired ;;?
  let '(a', b) := batch_items (fun a k item => applyStoragePermissionItem a r k (item_in_group groupID item) del) 0 a batchResult (payloadItems payload) in
  Ok (a', (StatusOK, batch_body b))).
Definition batchSetStoragePermissions (a : app) (r : service_request) : app * response := batchStoragePermissions a r false.
Definition batchDeleteStoragePermissions (a : app) (r : service_request) : app * response := batchStoragePermissions a r true.

Definition permissionsForPVC (s : store) (groupID pvcID : string) : list object :=
  sortRows (ListStoragePermissionsForPVC s groupID pvcID) ["user_id"].

Definition getStoragePermission (a : app) (r : service_request) : app * response := handle a (
  userID <-? requireUser r ;;
  let groupID := PathValue r "group_id" in let pvcID := PathValue r "pvc_id" in
  require (canReadGroup cfg (app_Store a) r groupID userID) StatusForbidden msgGroupMemberRequired ;;?
  Ok (a, ok_map {[ "group_id" := VString groupID; "pvc_id" := VString pvcID; "permissions" := VMaps (permissionsForPVC (app_Store a) groupID pvcID) ]})).
Definition listStoragePermissions (a : app) (r : service_request) : app * response := getStoragePermission a r.

Definition getStoragePolicy (a : app) (r : service_request) : app * response := handle a (
  userID <-? requireUser r ;;
  let groupID := PathValue r "group_id" in let pvcID := PathValue r "pvc_id" in
  require (canReadGroup cfg (app_Store a) r groupID userID) StatusForbidden msgGroupMemberRequired ;;?
  Ok (a, ok_map (default {[ "group_id" := VString groupID; "pvc_id" := VString pvcID; "default_permission" := VString "none" ]}
                   (GetStoragePolicy (app_Store a) groupID pvcID)))).

Definition deleteStoragePermission (a : app) (r : service_request) : app * response := handle a (
  userID <-? requireUser r ;;
  let groupID := PathValue r "group_id" in let pvcID := PathValue r "pvc_id" in let targetUserID := PathValue r "user_id" in
  require (canManageGroup cfg (app_Store a) r groupID userID) StatusForbidden msgGroupAdminRequired ;;?
  Ok (removed_quietly "storage permission could not be deleted"
        (DeleteStoragePermissionWithEvent a groupID pvcID targetUserID
           (fun _ => storageEvent r 0 "StoragePermissionChanged" (permission_deleted groupID pvcID targetUserID))))).

Definition createStoragePolicy (a : app) (r : service_request) : app * response := handle a (
  userID <-? requireUser r ;;
  payload <-? decode_body r ;;
  let groupID := TextValue payload ["group_id"; "groupId"] in
  require (canManageGroup cfg (app_Store a) r groupID userID) StatusForbidden msgGroupAdminRequired ;;?
  let pvcID := TextValue payload ["pvc_id"; "pvcId"] in
  let policy : object := list_to_map [("id", VString (storagePolicyID groupID pvcID)); ("group_id", VString groupID); ("pvc_id", VString pvcID);
    ("default_permission", VString (normalizePermission (FirstNonBlank [TextValue payload ["default_permission"; "defaultPermission"]; "none"])));
    ("updated_at", time_value (sq_now r))] in
  Ok (saved StatusOK StatusConflict "storage policy could not be saved"
        (UpsertStoragePolicyWithEvent a policy (storageEvent r 0 "StoragePolicyChanged") (sq_newid r) (sq_now r)))).

(** ** Bindings and permissions of projects *)

Definition listProjectBindings (a : app) (r : service_request) : app * response := handle a (
  userID <-? requireUser r ;;
  let projectID := projectPathID r in
  requireProjectRead cfg (app_Store a) r projectID userID ;;?
  Ok (a, (StatusOK, BMaps (ListProjectBindings (app_Store a) projectID)))).

Definition createProjectBinding (a : app) (r : service_request) : app * response := handle a (
  userID <-? requireUser r ;;
  let projectID := projectPathID r in
  requireProjectManager cfg (app_Store a) r projectID userID ;;?
  payload <-? decode_body r ;;
  let groupID := TextValue payload ["group_id"; "groupId"] in
  let pvcID := TextValue payload ["pvc_id"; "pvcId"] in
  require (negb (str_empty groupID || str_empty pvcID)) StatusBadRequest "group_id and pvc_id are required" ;;?
  let record : object := list_to_map [("id", VString (projectBindingID projectID pvcID)); ("project_id", VString projectID);
    ("group_id", VString groupID); ("pvc_id", VString pvcID); ("created_by", VString userID); ("created_at", time_value (sq_now r))] in
  Ok (saved StatusCreated StatusConflict "storage binding already exists"
        (CreateProjectBindingWithEvent a record (storageEvent r 0 "ProjectStorageBindingChanged") (sq_newid r 0) (sq_now r)))).

Definition deleteProjectBinding (a : app) (r : service_request) : app * response := handle a (
  userID <-? requireUser r ;;
  let projectID := projectPathID r in
  requireProjectManager cfg (app_Store a) r projectID userID ;;?
  let pvcID := FirstNonBlank [PathValue r "requestId"; PathValue r "pvcId"] in
  Ok (delete_cascade a (DeleteProjectBindingCascadeTx projectID pvcID)
        (storageEvent r 0 "ProjectStorageBindingChanged"
           {[ "project_id" := VString projectID; "pvc_id" := VString pvcID; "action" := VString "delete" ]})
        "storage binding could not be deleted" "storage binding not found")).

Definition projectPermissionsForPVC (s : store) (projectID pvcID : string) : list object :=
  sortRows (ListProjectPermissionsForPVC s projectID pvcID) ["user_id"].

Definition listProjectBindingPermissions (a : app) (r : service_request) : app * response := handle a (
  userID <-? requireUser r ;;
  let projectID := projectPathID r in let pvcID := pvcPathID r in
  requireProjectRead cfg (app_Store a) r projectID userID ;;?
  Ok (a, (StatusOK, BMaps (projectPermissionsForPVC (app_Store a) projectID pvcID)))).

Definition projectPermissionRecord (projectID pvcID userID permission : string) (now : Z) : object :=
  list_to_map [("id", VString (projectPermissionID projectID pvcID userID)); ("project_id", VString projectID); ("pvc_id", VString pvcID);
    ("user_id", VString userID); ("permission", VString permission); ("updated_at", time_value now)].

Definition project_permission_deleted (projectID pvcID userID : string) : object :=
  {[ "project_id" := VString projectID; "pvc_id" := VString pvcID; "user_id" := VString userID; "action" := VString "delete" ]}.

Definition setProjectBindingPermission (a : app) (r : service_request) : app * response := handle a (
  userID <-? requireUser r ;;
  let projectID := projectPathID r in let pvcID := pvcPathID r in
  requireProjectManager cfg (app_Store a) r projectID userID ;;?
  payload <-? decode_body r ;;
  let targetUserID := TextValue payload ["user_id"; "userId"] in
  let permission := normalizePermission (TextValue payload ["permission"]) in
  Ok (saved StatusOK StatusConflict "project storage permission could not be saved"
        (UpsertProjectPermissionWithEvent a (projectPermissionRecord projectID pvcID targetUserID permission (sq_now r))
           (storageEvent r 0 "ProjectStoragePermissionChanged") (sq_newid r) (sq_now r)))).

Definition deleteProjectBindingPermission (a : app) (r : service_request) : app * response := handle a (
  userID <-? requireUser r ;;
  let projectID := projectPathID r in let pvcID := pvcPathID r in let targetUserID := PathValue r "userId" in
  requireProjectManager cfg (app_Store a) r projectID userID ;;?
  Ok (removed_quietly "project storage permission could not be deleted"
        (DeleteProjectPermissionWithEvent a projectID pvcID targetUserID
           (fun _ => storageEvent r 0 "ProjectStoragePermissionChanged" (project_permission_deleted projectID pvcID targetUserID))))).

Definition project_permission_item (r : service_request) (projectID pvcID : string) (del : bool) (a : app) (k : nat) (item : object) : app * option string :=
  let targetUserID := TextValue item ["user_id"; "userId"] in
  if del
  then match DeleteProjectPermissionWithEvent a projectID pvcID targetUserID
               (fun _ => storageEvent r k "ProjectStoragePermissionChanged" (project_permission_deleted projectID pvcID targetUserID)) with
       | (a', Ok _) => (a', None)
       | (a', Err e) => (a', Some (store_error_text e))
       end
  else match UpsertProjectPermissionWithEvent a
               (projectPermissionRecord projectID pvcID targetUserID (normalizePermission (TextValue item ["permission"])) (sq_now r))
               (storageEvent r k "ProjectStoragePermissionChanged") (ids_at r k) (sq_now r) with
       | (a', Ok _) => (a', None)
       | (a', Err e) => (a', Some (store_error_text e))
       end.

Definition batchProjectPermissions (a : app) (r : service_request) (del : bool) : app * response := handle a (
  userID <-? requireUser r ;;
  let projectID := projectPathID r in let pvcID := pvcPathID r in
  requireProjectManager cfg (app_Store a) r projectID userID ;;?
  payload <-? decode_body r ;;
  let '(a', b) := batch_items (project_permission_item r projectID pvcID del) 0 a batchResult (payloadItems payload) in
  Ok (a', (StatusOK, batch_body b))).
Definition batchSetProjectBindingPermissions (a : app) (r : service_request) : app * response := batchProjectPermissions a r false.
Definition batchDeleteProjectBindingPermissions (a : app) (r : service_request) : app * response := batchProjectPermissions a r true.

(** ** User volumes *)

(** [payload] is what [platform.DecodeMap] finds: nothing when the body was read before. *)
Definition userStorageCommand (a : app) (r : service_request) (k : nat) (payload : object) (username statusValue : string) : app * response := handle a (
  userID <-? requireUser r ;;
  require (hasAdminPanel cfg (app_Store a) r userID) StatusForbidden msgAdminRequired ;;?
  let size := FirstNonBlank [TextValue payload ["size"]; TextValue payload ["quota"]; "10Gi"] in
  let record : object := list_to_map [("id", VString username); ("username", VString username); ("size", VString size);
    ("status", VString statusValue); ("updated_at", time_value (sq_now r))] in
  Ok (saved StatusOK StatusConflict "user storage could not be saved"
        (UpsertUserStorageWithEvent a username record (storageEvent r k "UserStorageChanged") (ids_at r k) (sq_now r)))).

Definition DecodeMap (r : service_request) : object := match sq_body r with Ok payload => payload | Err _ => ∅ end.

Definition initUserStorage (a : app) (r : service_request) : app * response :=
  userStorageCommand a r 0 (DecodeMap r) (PathValue r "username") "initialized".
Definition expandUserStorage (a : app) (r : service_request) : app * response :=
  userStorageCommand a r 0 (DecodeMap r) (PathValue r "username") "expanded".
Definition deleteUserStorage (a : app) (r : service_request) : app * response :=
  userStorageCommand a r 0 (DecodeMap r) (PathValue r "username") "deleted".

Fixpoint user_storage_batch (r : service_request) (statusValue : string) (k : nat) (a : app) (b : batch) (usernames : list string) : app * batch :=
  match usernames with
  | [] => (a, b)
  | username :: rest =>
      let '(a', (status, data)) := userStorageCommand a r k ∅ username statusValue in
      user_storage_batch r statusValue (S k) a' (if 400 <=? status then batch_fail b (batchError username data) else batch_ok b) rest
  end.

Definition batchUserStorageCommand (a : app) (r : service_request) (statusValue : string) : app * response := handle a (
  userID <-? requireUser r ;;
  require (hasAdminPanel cfg (app_Store a) r userID) StatusForbidden msgAdminRequired ;;?
  payload <-? decode_body r ;;
  let '(a', b) := user_storage_batch r statusValue 0 a batchResult (firstStringSlice payload ["usernames"; "users"]) in
  Ok (a', (StatusOK, batch_body b))).
Definition batchInitUserStorage (a : app) (r : service_request) : app * response := batchUserStorageCommand a r "initialized".

Definition batchUserStorageStatus (a : app) (r : service_request) : app * response := handle a (
  userID <-? requireUser r ;;
  require (hasAdminPanel cfg (app_Store a) r userID) StatusForbidden msgAdminRequired ;;?
  payload <-? decode_body r ;;
  Ok (a, (StatusOK, BMaps (map (UserStorageStatus (app_Store a)) (firstStringSlice payload ["usernames"; "users"]))))).

Definition getUserStorageStatus (a : app) (r : service_request) : app * response := handle a (
  userID <-? requireUser r ;;
  require (hasAdminPanel cfg (app_Store a) r userID) StatusForbidden msgAdminRequired ;;?
  Ok (a, ok_map (UserStorageStatus (app_Store a) (PathValue r "username")))).
(** ** Names *)

(** Letters and digits are kept in lower case, every run of other characters is a dash. *)
Fixpoint plan_chars (lastDash : bool) (l : list ascii) : list ascii :=
  match l with
  | [] => []
  | c :: rest => if label_char c && negb (Ascii.eqb c dash) then c :: plan_chars false rest
                 else if lastDash then plan_chars true rest else dash :: plan_chars true rest
  end.
Definition trim_dashes (l : list ascii) : list ascii := trim_right_dashes (drop_dashes l).

Definition storagePlanName (value fallback : string) : string :=
  let name0 := trim_dashes (plan_chars false (bytes_of (ToLower (TrimSpace value)))) in
  let name := match name0 with [] => bytes_of fallback | _ => name0 end in
  of_bytes (if (63 <? length name)%nat then trim_dashes (take 63 name) else name).

(** ** Cache bindings *)

Definition cacheBindingID (projectID storageBindingID cacheKey nodeClass : string) : string :=
  let parts := [projectID; storageBindingID; cacheKey] ++ (if str_empty (TrimSpace nodeClass) then [] else [nodeClass]) in
  storagePlanName (String.concat "-" parts) "cache-binding".

Definition cacheBindingPathID (r : service_request) : string :=
  TrimSpace (FirstNonBlank [PathValue r "cacheBindingId"; PathValue r "bindingId"; PathValue r "id"]).

Definition cacheBindingRecord (projectID : string) (payload : object) (pathID : string) (now : Z) : result string object :=
  let storageBindingID := TextValue payload ["storage_binding_id"; "storageBindingId"] in
  let cacheKey := TextValue payload ["cache_key"; "cacheKey"] in
  let scratchProfile := TextValue payload ["scratch_profile"; "scratchProfile"] in
  if str_empty storageBindingID || str_empty cacheKey || str_empty scratchProfile
  then Err "storage_binding_id, cache_key, and scratch_profile are required"
  else
    let nodeClass := TextValue payload ["node_class"; "nodeClass"] in
    let id := FirstNonBlank [pathID; TextValue payload ["id"]; cacheBindingID projectID storageBindingID cacheKey nodeClass] in
    let record1 : object :=
      <["node_class" := VString nodeClass]> (<["scratch_profile" := VString scratchProfile]> (<["cache_key" := VString cacheKey]>
        (<["storage_binding_id" := VString storageBindingID]> (<["project_id" := VString projectID]> (<["id" := VString id]> payload))))) in
    let record2 : object :=
      match record1 !! "node_selector", record1 !! "nodeSelector" with
      | None, Some selector => delete "nodeSelector" (<["node_selector" := selector]> record1)
      | _, _ => record1
      end in
    let record3 : object := match record2 !! "last_staged_at" with None => <["last_staged_at" := time_value now]> record2 | Some _ => record2 end in
    Ok (<["updated_at" := time_value now]> record3).

Definition cacheBindingEventPayload (data : object) (action : string) : object :=
  <["action" := VString action]> (<["cache_binding_id" := VString (TextValue data ["id"])]> data).

Definition listCacheBindings (a : app) (r : service_request) : app * response := handle a (
  userID <-? requireUser r ;;
  let projectID := projectPathID r in
  requireProjectManager cfg (app_Store a) r projectID userID ;;?
  Ok (a, (StatusOK, BMaps (ListCacheBindings (app_Store a) projectID)))).

Definition getCacheBinding (a : app) (r : service_request) : app * response := handle a (
  userID <-? requireUser r ;;
  let projectID := projectPathID r in
  requireProjectManager cfg (app_Store a) r projectID userID ;;?
  match GetCacheBinding (app_Store a) projectID (cacheBindingPathID r) with
  | None => refuse StatusNotFound "cache binding not found"
  | Some row => Ok (a, ok_map row)
  end).

Definition upsertCacheBinding (a : app) (r : service_request) : app * response := handle a (
  userID <-? requireUser r ;;
  let projectID := projectPathID r in
  requireProjectManager cfg (app_Store a) r projectID userID ;;?
  payload <-? decode_body r ;;
  match cacheBindingRecord projectID payload (cacheBindingPathID r) (sq_now r) with
  | Err text => refuse StatusBadRequest text
  | Ok record =>
      Ok (saved StatusOK StatusConflict "cache binding could not be saved"
            (UpsertCacheBindingWithEvent a (TextValue record ["id"]) record
               (fun data => storageEvent r 0 cacheBindingChangedEvent (cacheBindingEventPayload data "upserted")) (sq_newid r) (sq_now r)))
  end).
Definition createCacheBinding (a : app) (r : service_request) : app * response := upsertCacheBinding a r.
Definition updateCacheBinding (a : app) (r : service_request) : app * response := upsertCacheBinding a r.

Definition deleteCacheBinding (a : app) (r : service_request) : app * response := handle a (
  userID <-? requireUser r ;;
  let projectID := projectPathID r in
  requireProjectManager cfg (app_Store a) r projectID userID ;;?
  let id := cacheBindingPathID r in
  Ok (match DeleteCacheBindingWithEvent a projectID id
              (fun deleted => storageEvent r 0 cacheBindingChangedEvent
                 {[ "id" := VString id; "cache_binding_id" := VString id; "project_id" := VString projectID;
                    "action" := VString "deleted"; "deleted" := VBool deleted ]}) with
      | (a', Err _) => (a', (StatusInternalServerError, message "cache binding could not be deleted"))
      | (a', Ok false) => (a', (StatusNotFound, message "cache binding not found"))
      | (a', Ok true) => (a', ok_map {[ "id" := VString id; "deleted" := VBool true ]})
      end)).

(** ** Profiles and benchmarks, behind the administrator guard of their routes *)

Definition missingStorageProfileRequired (payload : object) : string :=
  default "" (List.find (fun field => match payload !! field with
                                      | None => true
                                      | Some (VString text) => str_empty (TrimSpace text)
                                      | Some _ => false
                                      end) ["name"; "provider"; "tier"; "access_mode"]).

Definition storageProfileEventPayload (data : object) (action : string) : object :=
  <["action" := VString action]> (<["profile_id" := VString (TextValue data ["id"])]> data).

Definition storageProfileCreateError (e : store_error) : Z :=
  match e with EConflict _ => StatusConflict | EPublish => StatusInternalServerError end.

Definition storageProfilePayload (r : service_request) : result response object :=
  match sq_body r with Ok payload => Ok payload | Err e => refuse StatusBadRequest (error_text e) end.

Definition complete_profile (payload : object) : result response unit :=
  let missing := missingStorageProfileRequired payload in
  require (str_empty missing) StatusBadRequest ("missing required field: " +:+ missing).

Definition create_profile (a : app) (r : service_request) (status : Z) (action : string) (payload : object) : app * response :=
  match CreateRecordWithEvent a storageProfilesResource payload
          (Some (fun rc => storageEvent r 0 "StorageProfileChanged" (storageProfileEventPayload (rec_Data rc) action))) (sq_newid r 0) (sq_now r) with
  | (a', Err e) => (a', (storageProfileCreateError e, message msgStorageProfileSave))
  | (a', Ok rc) => (a', (status, BRecord rc))
  end.

Definition createStorageProfile (a : app) (r : service_request) : app * response := handle a (
  payload <-? storageProfilePayload r ;;
  complete_profile payload ;;?
  Ok (create_profile a r StatusCreated "created" payload)).

Definition updateStorageProfile (a : app) (r : service_request) : app * response := handle a (
  payload0 <-? storageProfilePayload r ;;
  complete_profile payload0 ;;?
  let id0 := TrimSpace (PathValue r "id") in
  let id := if str_empty id0 then TextValue payload0 ["id"] else id0 in
  let payload := <["id" := VString id]> payload0 in
  Ok (match UpdateRecordWithEvent a storageProfilesResource id payload
              (Some (fun rc => storageEvent r 0 "StorageProfileChanged" (storageProfileEventPayload (rec_Data rc) "updated"))) (sq_now r) with
      | (a', Err _) => (a', (StatusInternalServerError, message msgStorageProfileSave))
      | (a', Ok None) => create_profile a' r StatusOK "updated" payload
      | (a', Ok (Some rc)) => (a', (StatusOK, BRecord rc))
      end)).

Definition deleteStorageProfile (a : app) (r : service_request) : app * response :=
  let id := TrimSpace (PathValue r "id") in
  match DeleteRecordWithEvent a storageProfilesResource id
          (Some (fun deleted => storageEvent r 0 "StorageProfileChanged"
             {[ "profile_id" := VString id; "id" := VString id; "action" := VString "deleted"; "deleted" := VBool deleted ]})) with
  | (a', Err _) => (a', (StatusInternalServerError, message "storage profile could not be deleted"))
  | (a', Ok deleted) => (a', ok_map {[ "id" := VString id; "deleted" := VBool deleted ]})
  end.

Definition storage_profile (id name provider tier access_mode performance mount_mode topology : string) (rest : list (string * any)) : object :=
  list_to_map (rest ++ [("id", VString id); ("name", VString name); ("provider", VString provider); ("tier", VString tier);
    ("access_mode", VString access_mode); ("performance_class", VString performance); ("mount_mode", VString mount_mode);
    ("mount_options", VList []); ("node_selector", VMap ∅); ("topology_policy", VString topology);
    ("allow_cross_namespace", VBool false); ("allowed_project_scopes", VList [])]).

Definition defaultStorageProfiles : list object :=
  [ storage_profile "longhorn-rwx-standard" "Longhorn RWX standard" "longhorn" "standard" "rwx" "standard" "nfs" "none"
      [("storage_class_name", VString "longhorn-rwx-standard")];
    storage_profile "cephfs-rwx-authority" "CephFS RWX authority" "cephfs" "authority" "rwx" "high-throughput" "kernel" "none"
      [("storage_class_name", VString "cephfs-rwx-authority"); ("mount_options", VList [VString "noatime"])];
    storage_profile "local-nvme-scratch" "Local NVMe scratch" "local-nvme" "hot-scratch" "rwo" "low-latency" "local-pv" "same-node"
      [("storage_class_name", VString "local-nvme-scratch"); ("node_selector", VMap {["nexuspaas.io/local-nvme" := VString "true"]})];
    storage_profile "minio-artifact" "MinIO artifact" "minio" "object-artifact" "object" "standard" "s3" "none" [] ].

(** The start-up profiles that are missing are created; a conflict is as good. *)
Definition seedDefaultStorageProfiles (s : store) (newID : string) (now : Z) : store :=
  if negb (AllowsService cfg serviceName) then s
  else fold_left (fun s' profile => match Get s' storageProfilesResource (TextValue profile ["id"]) with
                                    | Some _ => s'
                                    | None => (Create s' storageProfilesResource profile newID now).1
                                    end) defaultStorageProfiles s.

Definition createStorageBenchmarkRecord (a : app) (r : service_request) : app * response := handle a (
  payload <-? decode_body r ;;
  require (negb (str_empty (TextValue payload ["storage_profile"; "storageProfile"]))) StatusBadRequest "storage_profile is required" ;;?
  let '(s1, record0) := if str_empty (TextValue payload ["id"])
                        then let '(id, s') := default ("", app_Store a) (NextID (app_Store a) storageBenchmarkRecordsResource "benchmark-" 1 5) in
                             (s', <["id" := VString id]> payload)
                        else (app_Store a, payload) in
  let record1 : object := <["storage_profile" := VString (TextValue payload ["storage_profile"; "storageProfile"])]> record0 in
  let record : object := match record1 !! "created_at" with None => <["created_at" := time_value (sq_now r)]> record1 | Some _ => record1 end in
  Ok (match CreateRecordWithEvent (App_ s1 (app_Events a)) storageBenchmarkRecordsResource record
              (Some (fun rc => storageEvent r 0 "StorageBenchmarkRecorded"
                 (<["action" := VString "recorded"]> (<["benchmark_record_id" := VString (rec_ID rc)]> (rec_Data rc))))) (sq_newid r 0) (sq_now r) with
      | (a', Err _) => (a', (StatusConflict, message "storage benchmark record could not be saved"))
      | (a', Ok rc) => (a', (StatusCreated, BRecord rc))
      end)).
End Handlers.

(** ** A demonstration: project P1 of group G1, whose manager u1 is no member of G2 *)

Definition storage_golib : GoLib := {|
  parse_quantity _ := None; parse_float _ := None; parse_int64 _ := None; parse_rfc3339 _ := None;
  format_rfc3339 _ := "t"; time_string _ := ""; unmarshal_object _ := None; unmarshal_objects _ := None;
  unmarshal_strings _ := None; marshal _ := Some "{}"; sprint _ := "x"; sprintf f _ := f;
  sha256_hex x := if String.eqb x "" then "e3b0c442" else "9f86d081" |}.

Definition storage_config : config nat := @ConfigFromEnv nat demo_env_lib {[ "SERVICE_NAME" := "storage-service"; envServiceAPIKey := "s3cret" ]}.

Definition put_row (s : store) (x : string * object) : store := (Create s x.1 x.2 "n" 1).1.
Definition storage_store : store := fold_left put_row
  [ (storageProjectsResource, {[ "id" := VString "P1"; "owner_id" := VString "G1" ]});
    (storageUserGroupsResource, {[ "id" := VString "m1"; "group_id" := VString "G1"; "user_id" := VString "u1"; "role" := VString "manager" ]}) ] NewStore.
Definition storage_app : app := App_ storage_store NewEventBus.

(** A request of [user]. *)
Definition request_of (user : string) (payload : object) (path : gmap string string) (now : Z) : service_request :=
  ServiceRequest (Request "POST" {[ "X-User-ID" := user; "X-Service-Key" := "s3cret"; "Idempotency-Key" := "k1" ]} ∅ ∅ "" 0 None None None)
    (Ok payload) path now (fun _ => "e") (fun _ => "n").
