(* ===== verification/StorageTransfer.v ===== *)
(** * Storage service: transfers
    (internal/services/storage/fast_transfer_state.go, fast_transfer_dispatch.go and the
    transfer handlers of handler.go)

    A transfer is started once per idempotency key, handed to the service that runs the
    copying job, and moved by its progress reports and by cancellation through the states
    queued, running and the three final ones.  The service that runs the job is an argument
    of the model. *)

From stdpp Require Import base gmap strings list fin_maps.
From Stdlib Require Import ZArith Lia Ascii.
From S2P Require Import Prelude GoValue Store EventBus Crud Tx InputLimits Config Auth Guards ServiceHttp SchedulerHttp StorageAccess StorageRepository WorkloadText StorageHandlers.
Local Open Scope Z_scope.
Local Open Scope go_scope.

Definition fastTransferStatusQueued : string := "queued".
Definition fastTransferStatusRunning : string := "running".
Definition fastTransferStatusSucceeded : string := "succeeded".
Definition fastTransferStatusFailed : string := "failed".
Definition fastTransferStatusCancelled : string := "cancelled".
Definition fastTransferStatusStaged : string := "staged".
Definition fastTransferChangedEvent : string := "FastTransferChanged".
Definition fastTransferQueuedEvent : string := "FastTransferQueued".
Definition fastTransferProgressedEvent : string := "FastTransferProgressed".
Definition fastTransferCompletedEvent : string := "FastTransferCompleted".
Definition fastTransferFailedEvent : string := "FastTransferFailed".
Definition fastTransferIdempotencyHeader : string := "Idempotency-Key".
Definition k8sControlServiceName : string := "k8s-control-service".
Definition fastTransferDispatchNotConfigured : string := "not_configured".
Definition fastTransferDispatchSubmitted : string := "submitted".
Definition fastTransferDispatchUnavailable : string := "unavailable".
Definition fastTransferDispatchFailed : string := "failed".

Definition StatusAccepted : Z := 202.
Definition nul : string := String (ascii_of_nat 0) "".

Record fastTransferProgressPatch := ProgressPatch {
  fp_status : string; fp_progress : Z; fp_bytesDone : Z; fp_bytesTotal : Z;
  fp_checksum : string; fp_resume : string; fp_errorText : string }.

(** ** States *)

Definition normalizeFastTransferStatus (status : string) : string :=
  let s := ToLower (TrimSpace status) in
  if String.eqb s "" then fastTransferStatusQueued else s.

Definition fastTransferCanTransition (from to : string) : bool :=
  let from := normalizeFastTransferStatus from in
  let to := normalizeFastTransferStatus to in
  if String.eqb from to && (String.eqb to fastTransferStatusRunning || String.eqb to fastTransferStatusQueued) then true
  else if String.eqb from fastTransferStatusQueued
  then String.eqb to fastTransferStatusRunning || String.eqb to fastTransferStatusCancelled
  else if String.eqb from fastTransferStatusRunning
  then String.eqb to fastTransferStatusSucceeded || String.eqb to fastTransferStatusFailed || String.eqb to fastTransferStatusCancelled
  else if String.eqb from fastTransferStatusStaged then String.eqb to fastTransferStatusCancelled
  else false.

Definition fastTransferTransitionEvent (status : string) : string :=
  let s := normalizeFastTransferStatus status in
  if String.eqb s fastTransferStatusRunning then fastTransferProgressedEvent
  else if String.eqb s fastTransferStatusSucceeded then fastTransferCompletedEvent
  else if String.eqb s fastTransferStatusFailed then fastTransferFailedEvent
  else fastTransferChangedEvent.

(** ** The job that moves the data *)

Record fastTransferDispatchEndpoint := Endpoint { ep_Namespace : string; ep_PVC : string; ep_Path : string }.
Record fastTransferMoverDispatchRequest := MoverRequest {
  mv_ProjectID : string; mv_TransferID : string; mv_TargetNamespace : string; mv_Name : string;
  mv_Source : fastTransferDispatchEndpoint; mv_Target : fastTransferDispatchEndpoint; mv_Tool : string;
  mv_ProgressCallback : gmap string string }.
Record fastTransferMoverDispatchResponse := MoverResponse {
  mp_Namespace : string; mp_Name : string; mp_Action : string; mp_Reason : string; mp_Error : string }.
(** The answer to an internal request: the status, the decoded body, and the message of the
    error envelope where there is one. *)
Record mover_answer := MoverAnswer { ma_StatusCode : Z; ma_response : fastTransferMoverDispatchResponse; ma_envelope : option string }.

Section Transfer.
Context `{GoLib} {ip : Type} (cfg : config ip).

(** json.Number.Int64 with its error ignored: the number the conversion stops at. *)
Context (number_int64 : string -> Z).

(** The service that runs the job: an answer, or the text of the error. *)
Context (mover : fastTransferMoverDispatchRequest -> result string mover_answer).

Fixpoint fastTransferInt64 (data : object) (keys : list string) : Z :=
  match keys with
  | [] => 0
  | key :: rest => match data !! key with
                   | Some (VInt z) | Some (VInt64 z) => z
                   | Some (VFloat64 f) => f64_to_int f
                   | Some (VNumber s) => number_int64 s
                   | _ => fastTransferInt64 data rest
                   end
  end.

Definition fastTransferHasAny (data : object) (keys : list string) : bool :=
  existsb (fun key => bool_decide (is_Some (data !! key))) keys.
Definition fastTransferInt (payload current : object) (keys : list string) : Z :=
  if fastTransferHasAny payload keys then IntValue payload keys else IntValue current keys.
Definition fastTransferInt64OrCurrent (payload current : object) (keys : list string) : Z :=
  if fastTransferHasAny payload keys then fastTransferInt64 payload keys else fastTransferInt64 current keys.

(** ** Records and idempotency keys *)

(** The key of the payload, else of the header of the request, when there is one. *)
Definition fastTransferIdempotencyKey (r : option service_request) (payload : object) : string :=
  let key := TextValue payload ["idempotency_key"; "idempotencyKey"] in
  match r with
  | Some r => if str_empty key then TrimSpace (sq_header r fastTransferIdempotencyHeader) else key
  | None => key
  end.

Definition fastTransferHash (value : string) : string := sha256_hex value.

Definition fastTransferIdempotencyHashes (r : service_request) (payload : object) (projectID userID : string) : string * string :=
  let key := fastTransferIdempotencyKey (Some r) payload in
  if str_empty key then ("", "")
  else
    let fingerprint : object := <["user_id" := VString userID]> (<["project_id" := VString projectID]>
                                  (delete "idempotencyKey" (delete "idempotency_key" payload))) in
    (fastTransferHash ("fast_transfer" +:+ nul +:+ projectID +:+ nul +:+ userID +:+ nul +:+ key),
     fastTransferHash (default "" (marshal (VMap fingerprint)))).

(** The next name is drawn whether the payload has one or not. *)
Definition fastTransferRecord (s : store) (projectID userID : string) (payload : object) (now : Z) : store * object :=
  let '(next, s') := NextFastTransferName s in
  let name := FirstNonBlank [TextValue payload ["name"]; next] in
  let namespace := FirstNonBlank [TextValue payload ["target_namespace"; "targetNamespace"]; "project-" +:+ projectID] in
  (s', list_to_map [("id", VString (fastTransferID projectID namespace name)); ("project_id", VString projectID);
         ("target_namespace", VString namespace); ("name", VString name); ("status", VString fastTransferStatusQueued);
         ("progress_pct", VInt 0); ("bytes_total", VInt64 (fastTransferInt64 payload ["bytes_total"; "bytesTotal"]));
         ("bytes_done", VInt64 0); ("checksum", VString (TextValue payload ["checksum"]));
         ("resume_token", VString (TextValue payload ["resume_token"; "resumeToken"]));
         ("idempotency_key", VString (fastTransferIdempotencyKey None payload)); ("error", VString "");
         ("created_by", VString userID); ("created_at", time_value now); ("updated_at", time_value now)] ∪ payload).

Definition fastTransferEventPayload (record : object) (action : string) : object :=
  <["transfer_id" := VString (TextValue record ["id"])]> (<["action" := VString action]> record).

(** ** Patches: an error carries the status of the answer *)

Definition cannot_transition (from to : string) : string := "fast transfer cannot transition from " +:+ from +:+ " to " +:+ to.

Definition fastTransferCancelPatch (current : object) (now : Z) : result (Z * string) object :=
  let status := normalizeFastTransferStatus (TextValue current ["status"]) in
  if negb (fastTransferCanTransition status fastTransferStatusCancelled)
  then Err (StatusConflict, cannot_transition status "cancelled")
  else Ok {[ "status" := VString fastTransferStatusCancelled; "updated_at" := time_value now ]}.

Definition fastTransferProgressPatchMap (current : object) (patch : fastTransferProgressPatch) (now : Z) : result (Z * string) (object * string) :=
  let from := normalizeFastTransferStatus (TextValue current ["status"]) in
  let to := normalizeFastTransferStatus (fp_status patch) in
  if str_empty to then Err (StatusUnprocessableEntity, "status is required")
  else if negb (fastTransferCanTransition from to) && negb (String.eqb from to) then Err (StatusConflict, cannot_transition from to)
  else
    let progress := if (fp_progress patch =? 0) && String.eqb to fastTransferStatusSucceeded then 100 else fp_progress patch in
    if progress <? IntValue current ["progress_pct"; "progressPct"] then Err (StatusConflict, "progress_pct cannot decrease")
    else if fp_bytesDone patch <? fastTransferInt64 current ["bytes_done"; "bytesDone"] then Err (StatusConflict, "bytes_done cannot decrease")
    else
      let next0 : object := {[ "status" := VString to; "progress_pct" := VInt progress; "bytes_done" := VInt64 (fp_bytesDone patch);
                               "updated_at" := time_value now ]} in
      let next1 : object := if 0 <? fp_bytesTotal patch then <["bytes_total" := VInt64 (fp_bytesTotal patch)]> next0 else next0 in
      let next2 : object := if str_empty (fp_checksum patch) then next1 else <["checksum" := VString (fp_checksum patch)]> next1 in
      let next3 : object := if str_empty (fp_resume patch) then next2 else <["resume_token" := VString (fp_resume patch)]> next2 in
      let next4 : object := if negb (str_empty (fp_errorText patch)) || String.eqb to fastTransferStatusFailed
                            then <["error" := VString (fp_errorText patch)]> next3 else next3 in
      Ok (next4, fastTransferTransitionEvent to).

Definition fastTransferProgressPatchFromPayload (current payload : object) (now : Z) : result (Z * string) (object * string) :=
  let status := FirstNonBlank [TextValue payload ["status"]; fastTransferStatusRunning] in
  let progress := if String.eqb (normalizeFastTransferStatus status) fastTransferStatusSucceeded &&
                     negb (fastTransferHasAny payload ["progress_pct"; "progressPct"])
                  then 100 else fastTransferInt payload current ["progress_pct"; "progressPct"] in
  fastTransferProgressPatchMap current
    (ProgressPatch status progress (fastTransferInt64OrCurrent payload current ["bytes_done"; "bytesDone"])
       (fastTransferInt64OrCurrent payload current ["bytes_total"; "bytesTotal"]) (TextValue payload ["checksum"])
       (TextValue payload ["resume_token"; "resumeToken"]) (TextValue payload ["error"])) now.

(** ** Dispatch *)

Definition truncateDispatchError (value : string) : string :=
  let value := TrimSpace value in if (200 <? String.length value)%nat then String.substring 0 200 value else value.

Definition fastTransferDispatchMetadata (status errText namespace name : string) : object :=
  {[ "dispatch_status" := VString status; "dispatch_error" := VString (truncateDispatchError errText);
     "mover_job_namespace" := VString namespace; "mover_job_name" := VString name ]}.

Definition fastTransferCanSendServiceIdentity : bool :=
  negb (str_empty (TrimSpace (cf_ServiceIdentityName cfg))) && negb (str_empty (TrimSpace (cf_ServiceIdentityKey cfg)))
  || negb (str_empty (TrimSpace (cf_ServiceAPIKey cfg))).

(** What is known without asking: nothing when the job can be asked for. *)
Definition fastTransferDispatchPatch (record : object) : option object :=
  if negb fastTransferCanSendServiceIdentity
  then Some (fastTransferDispatchMetadata fastTransferDispatchNotConfigured "service identity is not configured" "" "")
  else if negb (AllowsService cfg k8sControlServiceName) && str_empty (TrimSpace (default "" (cf_ServiceURLs cfg !! k8sControlServiceName)))
  then Some (fastTransferDispatchMetadata fastTransferDispatchNotConfigured "k8s-control-service URL is not configured" "" "")
  else if str_empty (TextValue record ["id"])
  then Some (fastTransferDispatchMetadata fastTransferDispatchFailed "transfer id is missing" "" "")
  else None.

Definition fastTransferEndpointFromRecord (record : object) (key fallbackNamespace : string) : fastTransferDispatchEndpoint :=
  let data := map_of (mget record key) in
  Endpoint (FirstNonBlank [TextValue data ["namespace"]; fallbackNamespace]) (TextValue data ["pvc"; "pvc_id"; "pvcId"])
    (FirstNonBlank [TextValue data ["path"]; "/"]).

Definition fastTransferMoverDispatchPayload (record : object) : fastTransferMoverDispatchRequest :=
  let projectID := TextValue record ["project_id"; "projectId"] in
  let namespace := TextValue record ["target_namespace"; "targetNamespace"] in
  let name := TextValue record ["name"] in
  MoverRequest projectID (TextValue record ["id"]) namespace name
    (fastTransferEndpointFromRecord record "source" namespace) (fastTransferEndpointFromRecord record "target" namespace)
    (FirstNonBlank [TextValue record ["tool"]; "rsync"])
    {["path" := "/internal/storage/projects/" +:+ projectID +:+ "/transfers/" +:+ namespace +:+ "/" +:+ name +:+ "/progress"]}.

Definition fastTransferDispatchHTTPError (resp : mover_answer) : string :=
  let response := ma_response resp in
  if negb (str_empty (mp_Reason response)) then mp_Reason response
  else if negb (str_empty (mp_Error response)) then mp_Error response
  else match ma_envelope resp with
       | Some text => if str_empty text then "k8s-control-service returned " +:+ fmt_int 0 (ma_StatusCode resp) else text
       | None => "k8s-control-service returned " +:+ fmt_int 0 (ma_StatusCode resp)
       end.

Definition persistFastTransferDispatch (s : store) (record patch0 : object) (now : Z) : store * object :=
  let patch := <["updated_at" := time_value now]> patch0 in
  match UpdateFastTransferDispatch s (TextValue record ["project_id"; "projectId"]) (TextValue record ["target_namespace"; "targetNamespace"])
          (TextValue record ["name"]) patch now with
  | (s', Some updated) => (s', updated)
  | (s', None) => (s', patch ∪ record)
  end.

Definition mover_patch (record : object) : object :=
  match mover (fastTransferMoverDispatchPayload record) with
  | Err text => fastTransferDispatchMetadata fastTransferDispatchUnavailable text "" ""
  | Ok resp =>
      let response := ma_response resp in
      if (200 <=? ma_StatusCode resp) && (ma_StatusCode resp <? 300)
      then fastTransferDispatchMetadata fastTransferDispatchSubmitted "" (mp_Namespace response) (mp_Name response)
      else
        let status := if (ma_StatusCode resp =? StatusBadRequest) || (ma_StatusCode resp =? StatusUnprocessableEntity)
                      then fastTransferDispatchFailed else fastTransferDispatchUnavailable in
        fastTransferDispatchMetadata status (fastTransferDispatchHTTPError resp) (mp_Namespace response) (mp_Name response)
  end.

Definition dispatchFastTransferMoverJob (s : store) (record : object) (now : Z) : store * object :=
  persistFastTransferDispatch s record (match fastTransferDispatchPatch record with Some patch => patch | None => mover_patch record end) now.

(** ** Handlers *)

Definition startFastTransfer (a : app) (r : service_request) : app * response := handle a (
  userID <-? requireUser r ;;
  let projectID := projectPathID r in
  requireProjectManager cfg (app_Store a) r projectID userID ;;?
  payload <-? decode_body r ;;
  let '(keyHash, fingerprintHash) := fastTransferIdempotencyHashes r payload projectID userID in
  match FindFastTransferByIdempotencyKeyHash (app_Store a) projectID keyHash with
  | Some existing =>
      if negb (String.eqb (TextValue existing [internalFastTransferIdempotencyFingerprint]) fingerprintHash)
      then refuse StatusConflict "idempotency key is already used by a different fast transfer request"
      else Ok (a, (StatusAccepted, BMap existing))
  | None =>
      let '(s1, transfer0) := fastTransferRecord (app_Store a) projectID userID payload (sq_now r) in
      let transfer : object := if str_empty keyHash then transfer0
                               else <[internalFastTransferIdempotencyFingerprint := VString fingerprintHash]>
                                      (<[internalFastTransferIdempotencyKeyHash := VString keyHash]> transfer0) in
      Ok (match CreateFastTransferWithEvent (App_ s1 (app_Events a)) transfer
                  (fun data => storageEvent r 0 fastTransferChangedEvent (fastTransferEventPayload data "queued")) (sq_newid r 0) (sq_now r) with
          | (a', Err _) => (a', (StatusConflict, message "fast transfer already exists"))
          | (a', Ok record) =>
              let a2 := publishEvent a' r 1 fastTransferQueuedEvent (fastTransferEventPayload record "queued") in
              let '(s3, record') := dispatchFastTransferMoverJob (app_Store a2) record (sq_now r) in
              (App_ s3 (app_Events a2), (StatusAccepted, BMap record'))
          end)
  end).

Definition getFastTransfer (a : app) (r : service_request) : app * response := handle a (
  userID <-? requireUser r ;;
  let projectID := projectPathID r in
  requireProjectRead cfg (app_Store a) r projectID userID ;;?
  match GetFastTransfer (app_Store a) projectID (PathValue r "targetNamespace") (PathValue r "name") with
  | None => refuse StatusNotFound msgFastTransferMissing
  | Some record => Ok (a, ok_map record)
  end).

(** A patch of the transfer is saved with its event. *)
Definition patch_transfer (a : app) (r : service_request) (projectID : string) (patch : object) (action failed : string)
    : app * result response object :=
  match UpdateFastTransferWithEvent a projectID (PathValue r "targetNamespace") (PathValue r "name") patch
          (fun data => storageEvent r 0 fastTransferChangedEvent (fastTransferEventPayload data action)) (sq_now r) with
  | (a', Err _) => (a', Err (StatusInternalServerError, message failed))
  | (a', Ok None) => (a', Err (StatusNotFound, message msgFastTransferMissing))
  | (a', Ok (Some updated)) => (a', Ok updated)
  end.

Definition cancelFastTransfer (a : app) (r : service_request) : app * response := handle a (
  userID <-? requireUser r ;;
  let projectID := projectPathID r in
  requireProjectManager cfg (app_Store a) r projectID userID ;;?
  match GetFastTransfer (app_Store a) projectID (PathValue r "targetNamespace") (PathValue r "name") with
  | None => refuse StatusNotFound msgFastTransferMissing
  | Some current =>
      match fastTransferCancelPatch current (sq_now r) with
      | Err (status, text) => refuse status text
      | Ok patch => Ok (match patch_transfer a r projectID patch "cancelled" "fast transfer could not be cancelled" with
                        | (a', Err resp) => (a', resp)
                        | (a', Ok updated) => (a', ok_map updated)
                        end)
      end
  end).

Definition updateFastTransferProgress (a : app) (r : service_request) : app * response := handle a (
  requireStorageServiceAuth cfg r ;;?
  payload <-? decode_body r ;;
  let projectID := TrimSpace (PathValue r "project_id") in
  match GetFastTransfer (app_Store a) projectID (PathValue r "targetNamespace") (PathValue r "name") with
  | None => refuse StatusNotFound msgFastTransferMissing
  | Some current =>
      match fastTransferProgressPatchFromPayload current payload (sq_now r) with
      | Err (status, text) => refuse status text
      | Ok (patch, eventName) =>
          Ok (match patch_transfer a r projectID patch "progress" "fast transfer could not be updated" with
              | (a', Err resp) => (a', resp)
              | (a', Ok updated) =>
                  ((if String.eqb eventName fastTransferChangedEvent then a'
                    else publishEvent a' r 1 eventName (fastTransferEventPayload updated (TextValue updated ["status"]))), ok_map updated)
              end)
      end
  end).

(** ** Histories of transfers *)

Inductive transfer_op := StartOp (r : service_request) | CancelOp (r : service_request) | ProgressOp (r : service_request).

Definition transfer_step (a : app) (op : transfer_op) : app :=
  match op with
  | StartOp r => (startFastTransfer a r).1
  | CancelOp r => (cancelFastTransfer a r).1
  | ProgressOp r => (updateFastTransferProgress a r).1
  end.

(** A transfer as its readers see it. *)
Definition progress_keys : list string := ["progress_pct"; "progressPct"].
Definition bytes_keys : list string := ["bytes_done"; "bytesDone"].
Definition transfer_status (d : object) : string := normalizeFastTransferStatus (TextValue d ["status"]).
Definition transfer_progress (d : object) : Z := IntValue d progress_keys.
Definition transfer_bytes (d : object) : Z := fastTransferInt64 d bytes_keys.
Definition state_keys : list string := "status" :: progress_keys ++ bytes_keys.

Definition can_move (from to : string) : Prop := fastTransferCanTransition from to = true.

(** The second state can follow the first. *)
Definition advances (d d' : object) : Prop :=
  rtc can_move (transfer_status d) (transfer_status d') /\
  transfer_progress d <= transfer_progress d' /\ transfer_bytes d <= transfer_bytes d'.

#[local] Instance advances_preorder : PreOrder advances.
Proof.
  split; [intros d; split; [constructor|lia]|]. intros d1 d2 d3 (R1 & P1 & B1) (R2 & P2 & B2).
  split; [by etransitivity|lia].
Qed.

Lemma int64_agree keys d d' : agree_on keys d d' -> fastTransferInt64 d' keys = fastTransferInt64 d keys.
Proof.
  induction keys as [|k keys IH]; intros Ha; [done|]. cbn. rewrite (Ha k) by set_solver.
  rewrite IH; [done|]. eapply agree_on_subset; [|done]. set_solver.
Qed.

Lemma agree_advances d d' : agree_on state_keys d d' -> advances d d'.
Proof.
  intros Ha. unfold advances, transfer_status, transfer_progress, transfer_bytes.
  rewrite (TextValue_agree ["status"] d d'), (IntValue_agree progress_keys d d'), (int64_agree bytes_keys d d');
    [split; [constructor|lia]|..]; eapply agree_on_subset; try exact Ha; unfold state_keys, progress_keys, bytes_keys; set_solver.
Qed.

Lemma normalize_status_idem t : normalizeFastTransferStatus (normalizeFastTransferStatus t) = normalizeFastTransferStatus t.
Proof.
  unfold normalizeFastTransferStatus at 2 3. cbn zeta. destruct (String.eqb_spec (ToLower (TrimSpace t)) ""); [by vm_compute|].
  unfold normalizeFastTransferStatus. cbn zeta. rewrite TrimSpace_ToLower, ToLower_idem. by rewrite (proj2 (String.eqb_neq _ _)).
Qed.

(** A record that carries a normal status has that status. *)
Lemma transfer_status_of d t : d !! "status" = Some (VString (normalizeFastTransferStatus t)) ->
  transfer_status d = normalizeFastTransferStatus t.
Proof.
  intros Hl. unfold transfer_status. rewrite (TextValue_text d "status" [] _ Hl); [apply normalize_status_idem|..];
    unfold normalizeFastTransferStatus; cbn zeta; destruct (String.eqb_spec (ToLower (TrimSpace t)) ""); try done.
  apply Trimmed_ToLower, TrimSpace_Trimmed.
Qed.

Lemma can_move_normal f t : fastTransferCanTransition (normalizeFastTransferStatus f) (normalizeFastTransferStatus t) = fastTransferCanTransition f t.
Proof. unfold fastTransferCanTransition. by rewrite !normalize_status_idem. Qed.

(** ** Patches advance *)

Lemma transfer_view_record rc :
  transfer_status (record_map rc) = transfer_status (rec_Data rc) /\ transfer_progress (record_map rc) = transfer_progress (rec_Data rc) /\
  transfer_bytes (record_map rc) = transfer_bytes (rec_Data rc).
Proof.
  unfold transfer_status, transfer_progress, transfer_bytes.
  split_and!; [f_equal; apply TextValue_agree|apply IntValue_agree|apply int64_agree]; apply record_map_agree; set_solver.
Qed.

Lemma cancel_patch_advances rc patch now :
  fastTransferCancelPatch (record_map rc) now = Ok patch -> advances (rec_Data rc) (patch ∪ rec_Data rc).
Proof.
  unfold fastTransferCancelPatch. cbn zeta. fold (transfer_status (record_map rc)). rewrite (proj1 (transfer_view_record rc)).
  destruct (fastTransferCanTransition _ _) eqn:Ec; [|done]. intros [= <-].
  set (patch := {["status" := _; "updated_at" := _]} : object).
  assert (agree_on (progress_keys ++ bytes_keys) (rec_Data rc) (patch ∪ rec_Data rc)) as Ha by (apply agree_union; by repeat constructor).
  split; [|unfold transfer_progress, transfer_bytes; rewrite (IntValue_agree progress_keys (rec_Data rc) (patch ∪ rec_Data rc)), (int64_agree bytes_keys (rec_Data rc) (patch ∪ rec_Data rc));
           [lia|..]; eapply agree_on_subset; try exact Ha; set_solver].
  apply rtc_once. unfold can_move.
  rewrite (transfer_status_of (patch ∪ rec_Data rc) fastTransferStatusCancelled); [done|]. apply lookup_union_Some_l, lookup_insert_eq.
Qed.

(** A field set on a condition leaves the others. *)
Lemma lookup_if_set (b : bool) (m : object) j w k v : k ≠ j -> m !! k = Some v ->
  (if b then <[j := w]> m else m) !! k = Some v /\ (if b then m else <[j := w]> m) !! k = Some v.
Proof. intros Hn Hk. by destruct b; rewrite ?lookup_insert_ne. Qed.

(** What a patch of a progress report says. *)
Lemma progress_patch_ok current patch now next ev : fastTransferProgressPatchMap current patch now = Ok (next, ev) ->
  let from := transfer_status current in let to := normalizeFastTransferStatus (fp_status patch) in
  (can_move from to \/ from = to) /\
  exists progress, transfer_progress current <= progress /\ transfer_bytes current <= fp_bytesDone patch /\
    next !! "status" = Some (VString to) /\ next !! "progress_pct" = Some (VInt progress) /\ next !! "bytes_done" = Some (VInt64 (fp_bytesDone patch)).
Proof.
  unfold fastTransferProgressPatchMap. fold progress_keys bytes_keys. fold (transfer_status current) (transfer_progress current) (transfer_bytes current).
  cbn zeta.
  set (to := normalizeFastTransferStatus (fp_status patch)). set (progress := if _ : bool then 100 else _).
  destruct (str_empty to); [done|]. destruct (negb _ && negb _) eqn:Em; [done|].
  destruct (progress <? _) eqn:Ep; [done|]. destruct (fp_bytesDone patch <? _) eqn:Eb; [done|]. intros [= <- _].
  split.
  - apply andb_false_iff in Em as [Em|Em]; apply negb_false_iff in Em; [by left|right; by apply String.eqb_eq].
  - exists progress. split_and!; [lia|lia|..]; clearbody to progress; clear;
      repeat (apply lookup_if_set; [discriminate|]); rewrite ?lookup_insert_ne by discriminate; apply lookup_insert_eq.
Qed.

Lemma progress_patch_advances rc payload now next ev :
  fastTransferProgressPatchFromPayload (record_map rc) payload now = Ok (next, ev) -> advances (rec_Data rc) (next ∪ rec_Data rc).
Proof.
  intros Hp. apply progress_patch_ok in Hp as (Hm & progress & Hle & Hbe & Hs & Hpr & Hb).
  destruct (transfer_view_record rc) as (Es & Ep & Eb). rewrite Es in Hm. rewrite Ep in Hle. rewrite Eb in Hbe.
  assert (forall k v, next !! k = Some v -> (next ∪ rec_Data rc) !! k = Some v) as Hu
    by (intros k v; apply lookup_union_Some_l).
  apply Hu in Hs, Hpr, Hb. split; [|split].
  - rewrite (transfer_status_of _ _ Hs). destruct Hm as [Hm| ->]; [by apply rtc_once|constructor].
  - unfold transfer_progress at 2, IntValue, progress_keys. cbn. unfold mget. by rewrite Hpr.
  - unfold transfer_bytes at 2, bytes_keys. cbn. by rewrite Hb.
Qed.

(** ** Steps advance *)

Definition transfers_evolve (R : object -> object -> Prop) (a a' : app) : Prop := evolves R fastTransfersResource (app_Store a) (app_Store a').
Definition transfers_patched (R : object -> object -> Prop) (a a' : app) : Prop := patches R fastTransfersResource (app_Store a) (app_Store a').

Lemma patch_transfer_patches R `{!PreOrder R} a r p patch action failed :
  (forall rc, Get (app_Store a) fastTransfersResource (fastTransferID p (PathValue r "targetNamespace") (PathValue r "name")) = Some rc ->
     R (rec_Data rc) (patch ∪ rec_Data rc)) ->
  transfers_patched R a (patch_transfer a r p patch action failed).1.
Proof.
  intros HR. unfold patch_transfer, UpdateFastTransferWithEvent, updateWithEvent, transfers_patched.
  assert (forall b, patches R fastTransfersResource (app_Store a) (app_Store (UpdateRecordWithEvent a fastTransfersResource
    (fastTransferID p (PathValue r "targetNamespace") (PathValue r "name")) patch b (sq_now r)).1)) as Hev
    by (intros b; rewrite UpdateRecordWithEvent_store; by apply patches_Update).
  specialize (Hev (Some (fun rc => storageEvent r 0 fastTransferChangedEvent (fastTransferEventPayload (storageRecordMap rc) action)))).
  by destruct (UpdateRecordWithEvent _ _ _ _ _ _) as [a' [[]|]].
Qed.

Lemma get_record s p ns n current : GetFastTransfer s p ns n = Some current ->
  exists rc, Get s fastTransfersResource (fastTransferID p ns n) = Some rc /\ current = record_map rc.
Proof. unfold GetFastTransfer, get. intros (rc & -> & ?)%fmap_Some. eauto. Qed.

(** Cancellation and progress apply a patch to one transfer, or change nothing. *)
Lemma cancel_patches R `{!PreOrder R} a r :
  (forall rc patch, fastTransferCancelPatch (record_map rc) (sq_now r) = Ok patch -> R (rec_Data rc) (patch ∪ rec_Data rc)) ->
  transfers_patched R a (cancelFastTransfer a r).1.
Proof.
  intros HR. unfold cancelFastTransfer. destruct (requireUser r) as [u|]; [|by apply patches_same]. cbn.
  destruct (requireProjectManager _ _ _ _ _); [|by apply patches_same]. cbn.
  destruct (GetFastTransfer _ _ _ _) as [current|] eqn:Eg; [|by apply patches_same]. apply get_record in Eg as (rc & Eg & ->).
  destruct (fastTransferCancelPatch _ _) as [patch|[]] eqn:Ep; [|by apply patches_same]. cbn.
  pose proof (patch_transfer_patches R a r (projectPathID r) patch "cancelled" "fast transfer could not be cancelled") as Hev.
  destruct (patch_transfer _ _ _ _ _ _) as [a' []]; apply Hev; intros rc' Hrc'; replace rc' with rc by congruence; by apply HR.
Qed.

Lemma progress_patches R `{!PreOrder R} a r :
  (forall rc payload patch ev, fastTransferProgressPatchFromPayload (record_map rc) payload (sq_now r) = Ok (patch, ev) ->
     R (rec_Data rc) (patch ∪ rec_Data rc)) ->
  transfers_patched R a (updateFastTransferProgress a r).1.
Proof.
  intros HR. unfold updateFastTransferProgress. destruct (requireStorageServiceAuth _ _); [|by apply patches_same]. cbn.
  destruct (decode_body r) as [payload|]; [|by apply patches_same]. cbn.
  destruct (GetFastTransfer _ _ _ _) as [current|] eqn:Eg; [|by apply patches_same]. apply get_record in Eg as (rc & Eg & ->).
  destruct (fastTransferProgressPatchFromPayload _ _ _) as [[patch ev]|[]] eqn:Ep; [|by apply patches_same]. cbn.
  pose proof (patch_transfer_patches R a r (TrimSpace (PathValue r "project_id")) patch "progress" "fast transfer could not be updated") as Hev.
  destruct (patch_transfer _ _ _ _ _ _) as [a' []]; cbn in *; unfold transfers_patched in *;
    [destruct (String.eqb _ _); cbn; unfold publishEvent; rewrite ?publish_default_store|];
    apply Hev; intros rc' Hrc'; replace rc' with rc by congruence; by eapply HR.
Qed.

(** A start makes one record and patches only where the job runs. *)
Definition dispatch_keys : list string := ["dispatch_status"; "dispatch_error"; "mover_job_namespace"; "mover_job_name"; "updated_at"].

Lemma metadata_lookup st e ns n now k : k ∉ dispatch_keys -> <["updated_at" := time_value now]> (fastTransferDispatchMetadata st e ns n) !! k = None.
Proof. unfold fastTransferDispatchMetadata, dispatch_keys. intros Hn. rewrite !lookup_insert_ne by set_solver. by rewrite lookup_singleton_ne by set_solver. Qed.

Lemma dispatch_patches R `{!PreOrder R} s record now :
  (forall d patch, (forall k, k ∉ dispatch_keys -> patch !! k = None) -> R d (patch ∪ d)) ->
  patches R fastTransfersResource s (dispatchFastTransferMoverJob s record now).1.
Proof.
  intros HR. unfold dispatchFastTransferMoverJob, persistFastTransferDispatch, UpdateFastTransferDispatch, update. cbn zeta.
  set (id := fastTransferID _ _ _).
  assert (forall st e ns n, patches R fastTransfersResource s (Update s fastTransfersResource id
            (<["updated_at" := time_value now]> (fastTransferDispatchMetadata st e ns n)) now).1) as Hev.
  { intros st e ns n. apply patches_Update; [done|]. intros rc _. apply HR. intros k. apply metadata_lookup. }
  unfold fastTransferDispatchPatch, mover_patch.
  repeat case_match; simplify_eq; cbn [fst];
    match goal with HU : Update _ _ _ (<[_ := _]> (fastTransferDispatchMetadata ?st ?e ?ns ?n)) _ = _ |- _ => specialize (Hev st e ns n); by rewrite HU in Hev end.
Qed.

Lemma next_name_data s : st_data (NextFastTransferName s).2 = st_data s.
Proof. unfold NextFastTransferName. destruct (NextID _ _ _ _ _) as [[id s']|] eqn:E; [|done]. by apply NextID_data in E. Qed.

Lemma transfer_record_data s p u payload now : st_data (fastTransferRecord s p u payload now).1 = st_data s.
Proof. unfold fastTransferRecord. pose proof (next_name_data s). by destruct (NextFastTransferName s). Qed.

Definition start_hashes (r : service_request) (u : string) (payload : object) : string * string :=
  fastTransferIdempotencyHashes r payload (projectPathID r) u.

(** The new transfer of a start, before it is stored. *)
Definition new_transfer (s : store) (r : service_request) (u : string) (payload : object) : store * object :=
  let p := projectPathID r in
  let '(kh, fh) := start_hashes r u payload in
  let '(s1, transfer0) := fastTransferRecord s p u payload (sq_now r) in
  (s1, if str_empty kh then transfer0
       else <[internalFastTransferIdempotencyFingerprint := VString fh]> (<[internalFastTransferIdempotencyKeyHash := VString kh]> transfer0)).

(** A start refuses, finds its transfer, or stores a new one and hands it over. *)
Inductive start_outcome (a : app) (r : service_request) : app * response -> Prop :=
| start_refused resp : resp.1 ≠ StatusAccepted -> start_outcome a r (a, resp)
| start_again u payload existing :
    requireUser r = Ok u -> sq_body r = Ok payload ->
    FindFastTransferByIdempotencyKeyHash (app_Store a) (projectPathID r) (start_hashes r u payload).1 = Some existing ->
    start_outcome a r (a, (StatusAccepted, BMap existing))
| start_conflict u payload s1 transfer s2 e a' text :
    requireUser r = Ok u -> sq_body r = Ok payload -> new_transfer (app_Store a) r u payload = (s1, transfer) ->
    st_data s1 = st_data (app_Store a) ->
    Create s1 fastTransfersResource transfer (sq_newid r 0) (sq_now r) = (s2, e) -> app_Store a' = s2 ->
    start_outcome a r (a', (StatusConflict, message text))
| start_created u payload s1 transfer s2 rc a' row :
    requireUser r = Ok u -> sq_body r = Ok payload -> new_transfer (app_Store a) r u payload = (s1, transfer) ->
    st_data s1 = st_data (app_Store a) ->
    Create s1 fastTransfersResource transfer (sq_newid r 0) (sq_now r) = (s2, Ok rc) ->
    dispatchFastTransferMoverJob s2 (record_map rc) (sq_now r) = (app_Store a', row) ->
    start_outcome a r (a', (StatusAccepted, BMap row)).

Lemma start_cases a r : start_outcome a r (startFastTransfer a r).
Proof.
  unfold startFastTransfer. destruct (requireUser r) as [u|resp] eqn:Eu; cbn;
    [|apply start_refused; unfold requireUser, refuse in Eu; repeat case_match; by simplify_eq].
  destruct (requireProjectManager _ _ _ _ _) as [|resp] eqn:Em; cbn;
    [|apply start_refused; unfold requireProjectManager, refuse in Em; repeat case_match; by simplify_eq].
  unfold decode_body. destruct (sq_body r) as [payload|] eqn:Eb; cbn; [|by apply start_refused]. fold (start_hashes r u payload).
  destruct (start_hashes r u payload) as [kh fh] eqn:Eh.
  destruct (FindFastTransferByIdempotencyKeyHash _ _ _) as [existing|] eqn:Ef.
  { destruct (negb _); cbn; [by apply start_refused|]. eapply start_again; [done..|]. by rewrite Eh. }
  pose proof (transfer_record_data (app_Store a) (projectPathID r) u payload (sq_now r)) as Hd.
  destruct (fastTransferRecord _ _ _ _ _) as [s1 transfer0] eqn:Et. cbn [fst] in Hd. set (transfer := if str_empty kh then _ else _). cbn.
  assert (new_transfer (app_Store a) r u payload = (s1, transfer)) as Hnew by (unfold new_transfer; by rewrite Eh, Et).
  unfold CreateFastTransferWithEvent, createWithEvent. set (build := fun rc => storageEvent _ _ _ _).
  pose proof (CreateRecordWithEvent_store (App_ s1 (app_Events a)) fastTransfersResource transfer (Some build) (sq_newid r 0) (sq_now r)) as Hs.
  change (app_Store (App_ s1 (app_Events a))) with s1 in Hs.
  destruct (CreateRecordWithEvent _ _ _ _ _ _) as [a' [rc|e]] eqn:Ec; cbn [fst] in Hs.
  - apply CreateRecordWithEvent_ok in Ec as (s2 & E & _ & _). change (app_Store (App_ s1 _)) with s1 in E. rewrite E in Hs. cbn in Hs.
    unfold publishEvent. rewrite publish_default_store, Hs. unfold storageRecordMap.
    destruct (dispatchFastTransferMoverJob s2 (record_map rc) (sq_now r)) as [s3 row] eqn:Ed. by eapply start_created.
  - destruct (Create _ _ _ _ _) as [s2 x] eqn:E. by eapply start_conflict.
Qed.

Lemma start_evolves R `{!PreOrder R} a r :
  (forall d patch, (forall k, k ∉ dispatch_keys -> patch !! k = None) -> R d (patch ∪ d)) ->
  transfers_evolve R a (startFastTransfer a r).1.
Proof.
  intros HR. assert (forall s1 transfer, st_data s1 = st_data (app_Store a) ->
    evolves R fastTransfersResource (app_Store a) (Create s1 fastTransfersResource transfer (sq_newid r 0) (sq_now r)).1) as Hcr.
  { intros s1 transfer Hd. eapply evolves_trans; [done| |by apply evolves_Create]. apply evolves_same; [done|]. intros id. unfold Get, bucket. by rewrite Hd. }
  unfold transfers_evolve. destruct (start_cases a r) as [| |u payload s1 transfer s2 e a' text _ _ _ Hd Hc Hs|u payload s1 transfer s2 rc a' row _ _ _ Hd Hc Hs];
    cbn; [by apply evolves_refl..|subst s2|]; specialize (Hcr s1 transfer Hd); rewrite Hc in Hcr; [done|].
  eapply evolves_trans; [done|exact Hcr|]. change (app_Store a') with (app_Store a', row).1. rewrite <- Hs. by apply patches_evolves, dispatch_patches.
Qed.

Lemma state_dispatch_disjoint k : k ∈ state_keys -> k ∉ dispatch_keys.
Proof. unfold state_keys, progress_keys, bytes_keys, dispatch_keys. set_solver. Qed.

Lemma transfer_step_advances a op : transfers_evolve advances a (transfer_step a op).
Proof.
  destruct op as [r|r|r]; cbn.
  - apply start_evolves; [apply _|]. intros d patch Hp. apply agree_advances, agree_union, Forall_forall. intros k Hk. apply Hp. by apply state_dispatch_disjoint.
  - apply patches_evolves, cancel_patches; [apply _|]. intros rc patch. apply cancel_patch_advances.
  - apply patches_evolves, progress_patches; [apply _|]. intros rc payload patch ev. apply progress_patch_advances.
Qed.

Definition final (status : string) : Prop := status ∈ [fastTransferStatusSucceeded; fastTransferStatusFailed; fastTransferStatusCancelled].

Lemma final_stuck st st' : final st -> rtc can_move st st' -> st' = st.
Proof.
  intros Hf Hr. destruct Hr as [|st t st' Hm _]; [done|]. exfalso. unfold can_move, fastTransferCanTransition in Hm. cbn zeta in Hm.
  set (to := normalizeFastTransferStatus t) in Hm. clearbody to. unfold final in Hf.
  rewrite !elem_of_cons, elem_of_nil in Hf. destruct Hf as [-> |[-> |[-> |[]]]];
    match type of Hm with context [normalizeFastTransferStatus ?x] =>
      replace (normalizeFastTransferStatus x) with x in Hm by (vm_compute; reflexivity);
      revert Hm; destruct (String.eqb_spec x to) as [<-|]; intros Hm; discriminate Hm end.
Qed.

(** C30: Transfers only move forward: over any history of starts, cancellations and progress
    reports, whoever sends them and whatever they say, a transfer that exists still exists,
    its percentage and its byte count are no smaller than before, its status was reached
    by allowed transitions (queued to running, running to one of the three final states,
    cancellation before the end), and a final status is the status for ever. *)
Theorem transfers_forward a ops id rc :
  Get (app_Store a) fastTransfersResource id = Some rc ->
  exists rc', Get (app_Store (fold_left transfer_step ops a)) fastTransfersResource id = Some rc' /\
    advances (rec_Data rc) (rec_Data rc') /\
    (final (transfer_status (rec_Data rc)) -> transfer_status (rec_Data rc') = transfer_status (rec_Data rc)).
Proof.
  intros Hg. assert (transfers_evolve advances a (fold_left transfer_step ops a)) as Hev.
  { clear. revert a. induction ops as [|op ops IH]; intros a; [apply evolves_refl; apply _|].
    eapply evolves_trans; [apply _|apply transfer_step_advances|apply IH]. }
  destruct (Hev id rc Hg) as (rc' & Hg' & Ha). exists rc'. split_and!; [done|done|]. intros Hf. apply (final_stuck _ _ Hf), Ha.
Qed.

(** ** A retried start *)

(** What identifies a transfer: no patch touches it. *)
Definition ident_keys : list string :=
  ["project_id"; "projectId"; internalFastTransferIdempotencyKeyHash; internalFastTransferIdempotencyFingerprint].

Lemma lookup_if_none (b : bool) (m : object) j w k : k ≠ j -> m !! k = None ->
  (if b then <[j := w]> m else m) !! k = None /\ (if b then m else <[j := w]> m) !! k = None.
Proof. intros Hn Hk. by destruct b; rewrite ?lookup_insert_ne. Qed.

Lemma progress_patch_ident current payload now next ev : fastTransferProgressPatchFromPayload current payload now = Ok (next, ev) ->
  Forall (fun k => next !! k = None) ident_keys.
Proof.
  unfold fastTransferProgressPatchFromPayload. set (pt := ProgressPatch _ _ _ _ _ _ _). clearbody pt.
  unfold fastTransferProgressPatchMap. cbn zeta. set (to := normalizeFastTransferStatus (fp_status pt)). clearbody to.
  destruct (str_empty to); [done|]. destruct (negb _ && negb _); [done|]. destruct (_ <? _); [done|]. destruct (_ <? _); [done|].
  intros [= <- _]. clear. repeat constructor; repeat (apply lookup_if_none; [discriminate|]); by rewrite !lookup_insert_ne by discriminate.
Qed.

Definition not_start (op : transfer_op) : Prop := match op with StartOp _ => False | _ => True end.

Lemma ident_step a op : not_start op -> transfers_patched (agree_on ident_keys) a (transfer_step a op).
Proof.
  destruct op as [r|r|r]; [done|intros _; cbn..].
  - apply cancel_patches; [apply _|]. intros rc patch. unfold fastTransferCancelPatch. destruct (negb _); [done|]. intros [= <-].
    apply agree_union. by repeat constructor.
  - apply progress_patches; [apply _|]. intros rc payload patch ev Hp. by eapply agree_union, progress_patch_ident.
Qed.

Lemma ident_steps ops a : Forall not_start ops -> transfers_patched (agree_on ident_keys) a (fold_left transfer_step ops a).
Proof.
  intros Hn. revert a. induction Hn as [|op ops Ho _ IH]; intros a; [by apply patches_same; [apply _|]|].
  eapply patches_trans; [apply _|by apply ident_step|apply IH].
Qed.

Definition transfer_of_key (p kh : string) (d : object) : bool :=
  String.eqb (TextValue d ["project_id"; "projectId"]) p && String.eqb (TextValue d [internalFastTransferIdempotencyKeyHash]) kh.

Lemma transfer_of_key_agree p kh d d' : agree_on ident_keys d d' ->
  transfer_of_key p kh d' = transfer_of_key p kh d /\
  TextValue d' [internalFastTransferIdempotencyFingerprint] = TextValue d [internalFastTransferIdempotencyFingerprint].
Proof.
  intros Ha. unfold transfer_of_key.
  rewrite !(TextValue_agree _ d d'); [done|..]; eapply agree_on_subset; try exact Ha; unfold ident_keys; set_solver.
Qed.

Lemma ident_record_map rc : agree_on ident_keys (rec_Data rc) (record_map rc).
Proof. apply record_map_agree. unfold ident_keys. set_solver. Qed.

(** The record at [id] is the one of the key, with the fingerprint. *)
Definition sole_transfer (s : store) (p kh fh id : string) : Prop :=
  (exists rc, Get s fastTransfersResource id = Some rc /\ transfer_of_key p kh (rec_Data rc) = true /\
     TextValue (rec_Data rc) [internalFastTransferIdempotencyFingerprint] = fh) /\
  (forall id' rc', Get s fastTransfersResource id' = Some rc' -> transfer_of_key p kh (rec_Data rc') = true -> id' = id).

Lemma sole_patched s s' p kh fh id : patches (agree_on ident_keys) fastTransfersResource s s' -> sole_transfer s p kh fh id -> sole_transfer s' p kh fh id.
Proof.
  intros Hp [(rc & Hg & Hk & Hf) Hu]. split.
  - pose proof (Hp id) as Hi. rewrite Hg in Hi. inversion Hi as [? rc' Ha|]; subst.
    destruct (transfer_of_key_agree p kh _ _ Ha) as [E1 E2]. exists rc'. by rewrite E1, E2.
  - intros id' rc' Hg' Hk'. pose proof (Hp id') as Hi. rewrite Hg' in Hi. inversion Hi as [rc0 ? Ha E0|]; subst.
    apply (Hu id' rc0); [done|]. by rewrite <- (proj1 (transfer_of_key_agree p kh _ _ Ha)).
Qed.

Lemma find_matches s p kh : kh ≠ "" ->
  FindFastTransferByIdempotencyKeyHash s p kh = List.find (transfer_of_key p kh) (map record_map (List_ s fastTransfersResource)).
Proof. intros Hk. unfold FindFastTransferByIdempotencyKeyHash, str_empty. by rewrite (proj2 (String.eqb_neq _ _) Hk). Qed.

Lemma sole_found s p kh fh id : kh ≠ "" -> sole_transfer s p kh fh id ->
  exists rc, Get s fastTransfersResource id = Some rc /\ FindFastTransferByIdempotencyKeyHash s p kh = Some (record_map rc) /\
    TextValue (record_map rc) [internalFastTransferIdempotencyFingerprint] = fh.
Proof.
  intros Hk [(rc & Hg & Hm & Hf) Hu]. exists rc. split; [done|]. rewrite (find_matches _ _ _ Hk).
  destruct (transfer_of_key_agree p kh _ _ (ident_record_map rc)) as [E1 E2]. rewrite E2. split; [|done].
  destruct (List.find _ _) as [row|] eqn:Ef.
  - apply find_spec in Ef as [(rc' & -> & Hin)%list_elem_of_fmap Hrow]. apply elem_of_List in Hin as [id' Hg'].
    rewrite (proj1 (transfer_of_key_agree p kh _ _ (ident_record_map rc'))) in Hrow.
    assert (id' = id) as -> by (by eapply Hu). congruence.
  - exfalso. rewrite find_none_spec, Forall_forall in Ef. specialize (Ef (record_map rc)). rewrite E1 in Ef.
    assert (transfer_of_key p kh (rec_Data rc) = false); [|congruence]. apply Ef, list_elem_of_fmap_2, elem_of_List. eauto.
Qed.

Lemma none_found s p kh id rc : kh ≠ "" -> FindFastTransferByIdempotencyKeyHash s p kh = None ->
  Get s fastTransfersResource id = Some rc -> transfer_of_key p kh (rec_Data rc) = false.
Proof.
  intros Hk Hn Hg. rewrite (find_matches _ _ _ Hk) in Hn. rewrite find_none_spec, Forall_forall in Hn.
  rewrite <- (proj1 (transfer_of_key_agree p kh _ _ (ident_record_map rc))). apply Hn, list_elem_of_fmap_2, elem_of_List. eauto.
Qed.

(** Only transfers change. *)
Definition only_transfers (a a' : app) : Prop := frame (in_resource fastTransfersResource) (app_Store a) (app_Store a').

Lemma at_in res key s s' : frame (at_record res key) s s' -> frame (in_resource res) s s'.
Proof. apply frame_weaken. by intros ? ? [-> _]. Qed.

Lemma patch_transfer_frame a r p patch action failed : only_transfers a (patch_transfer a r p patch action failed).1.
Proof.
  unfold patch_transfer, UpdateFastTransferWithEvent, only_transfers.
  match goal with |- context [updateWithEvent ?a ?res ?id ?d ?b ?t] => pose proof (at_in _ _ _ _ (frame_updateWithEvent a res id d b t)) as Hf end.
  by destruct (updateWithEvent _ _ _ _ _ _) as [a' [[]|]].
Qed.

Lemma dispatch_frame s record now : frame (in_resource fastTransfersResource) s (dispatchFastTransferMoverJob s record now).1.
Proof.
  unfold dispatchFastTransferMoverJob, persistFastTransferDispatch, UpdateFastTransferDispatch, update. cbn zeta.
  set (patch := <["updated_at" := _]> _). set (id := fastTransferID _ _ _).
  pose proof (at_in _ _ _ _ (frame_Update s fastTransfersResource id patch now)) as Hf.
  by destruct (Update _ _ _ _ _) as [s' [rc|]].
Qed.


Lemma transfer_step_frame a op : only_transfers a (transfer_step a op).
Proof.
  destruct op as [r|r|r]; cbn; unfold only_transfers.
  - destruct (start_cases a r) as [| |u payload s1 transfer s2 e a' text _ _ _ Hd Hc Hs|u payload s1 transfer s2 rc a' row _ _ _ Hd Hc Hs]; [done..| |]; cbn;
      pose proof (frame_trans _ _ _ _ (frame_data (in_resource fastTransfersResource) _ _ Hd)
                  (at_in _ _ _ _ (frame_Create s1 fastTransfersResource transfer (sq_newid r 0) (sq_now r)))) as Hf; rewrite Hc in Hf; [by subst s2|].
    eapply frame_trans; [exact Hf|]. change (app_Store a') with (app_Store a', row).1. rewrite <- Hs. apply dispatch_frame.
  - unfold cancelFastTransfer. destruct (requireUser r); [|done]. cbn. destruct (requireProjectManager _ _ _ _ _); [|done]. cbn.
    destruct (GetFastTransfer _ _ _ _); [|done]. destruct (fastTransferCancelPatch _ _) as [patch|[]]; [|done]. cbn.
    pose proof (patch_transfer_frame a r (projectPathID r) patch "cancelled" "fast transfer could not be cancelled") as Hf.
    by destruct (patch_transfer _ _ _ _ _ _) as [a' []].
  - unfold updateFastTransferProgress. destruct (requireStorageServiceAuth _ _); [|done]. cbn. destruct (decode_body r); [|done]. cbn.
    destruct (GetFastTransfer _ _ _ _); [|done]. destruct (fastTransferProgressPatchFromPayload _ _ _) as [[patch ev]|[]]; [|done]. cbn.
    pose proof (patch_transfer_frame a r (TrimSpace (PathValue r "project_id")) patch "progress" "fast transfer could not be updated") as Hf.
    destruct (patch_transfer _ _ _ _ _ _) as [a' []]; [|done]. cbn. case_match; [done|]. unfold publishEvent. by rewrite publish_default_store.
Qed.

Lemma transfer_steps_frame ops a : only_transfers a (fold_left transfer_step ops a).
Proof. revert a. induction ops as [|op ops IH]; intros a; [done|]. eapply frame_trans; [apply transfer_step_frame|apply IH]. Qed.

(** Access does not depend on transfers. *)
Lemma manager_frame a a' r p u : only_transfers a a' ->
  requireProjectManager cfg (app_Store a') r p u = requireProjectManager cfg (app_Store a) r p u.
Proof.
  intros Hf. assert (forall l o, l ≠ fastTransfersResource -> o ≠ fastTransfersResource ->
    accessRows cfg (app_Store a') l o = accessRows cfg (app_Store a) l o) as Hr.
  { intros l o Hl Ho. unfold accessRows, storageRows.
    rewrite (frame_List _ _ _ l Hf), (frame_List _ _ _ o Hf) by (intros id Hin; by destruct Hin). done. }
  unfold requireProjectManager, findProject, projectRole, groupRole, userGroupRows, hasAdminPanel. by rewrite !Hr by discriminate.
Qed.

(** The digest of a text is text. *)
Definition hex_digest : Prop := forall t, sha256_hex t ≠ "" /\ TrimSpace (sha256_hex t) = sha256_hex t.

(** The request again: only the clock and the identifiers drawn may differ. *)
Definition same_request (r r' : service_request) : Prop := sq_http r' = sq_http r /\ sq_body r' = sq_body r /\ sq_path r' = sq_path r.

Lemma start_hashes_digest r u payload : fastTransferIdempotencyKey (Some r) payload ≠ "" ->
  exists x y, start_hashes r u payload = (sha256_hex x, sha256_hex y).
Proof.
  intros Hk. unfold start_hashes, fastTransferIdempotencyHashes, str_empty. cbn zeta. rewrite (proj2 (String.eqb_neq _ _) Hk).
  unfold fastTransferHash. eauto.
Qed.

Lemma transfer_record_project s p u payload now : (fastTransferRecord s p u payload now).2 !! "project_id" = Some (VString p).
Proof.
  unfold fastTransferRecord. destruct (NextFastTransferName s). cbn [snd]. apply lookup_union_Some_l.
  rewrite list_to_map_cons, lookup_insert_ne by discriminate. rewrite list_to_map_cons. apply lookup_insert_eq.
Qed.

(** What the new transfer is known by. *)
Lemma new_transfer_ident s r u payload kh fh : hex_digest -> projectPathID r ≠ "" -> fastTransferIdempotencyKey (Some r) payload ≠ "" ->
  start_hashes r u payload = (kh, fh) ->
  kh ≠ "" /\ (forall d, agree_on ident_keys (new_transfer s r u payload).2 d ->
    transfer_of_key (projectPathID r) kh d = true /\ TextValue d [internalFastTransferIdempotencyFingerprint] = fh).
Proof.
  intros Hhex Hp Hk Hh. destruct (start_hashes_digest r u payload Hk) as (x & y & Hxy). rewrite Hh in Hxy. injection Hxy as -> ->.
  destruct (Hhex x) as [Hx Tx], (Hhex y) as [Hy Ty]. split; [done|]. intros d Ha. unfold new_transfer, start_hashes in *. rewrite Hh in Ha.
  destruct (fastTransferRecord _ _ _ _ _) as [s1 t0] eqn:Et. cbn [snd] in Ha. unfold str_empty in Ha. rewrite (proj2 (String.eqb_neq _ _) Hx) in Ha.
  assert (t0 !! "project_id" = Some (VString (projectPathID r))) as Hp0.
  { change t0 with (s1, t0).2. rewrite <- Et. apply transfer_record_project. }
  assert (TextValue d ["project_id"; "projectId"] = projectPathID r) as E1.
  { apply TextValue_text; [|apply Trimmed_of_fix; apply TrimSpace_idem|done]. rewrite Ha by (unfold ident_keys; set_solver).
    by rewrite !lookup_insert_ne by discriminate. }
  assert (TextValue d [internalFastTransferIdempotencyKeyHash] = sha256_hex x) as E2.
  { apply TextValue_text; [|by apply Trimmed_of_fix|done]. rewrite Ha by (unfold ident_keys; set_solver).
    rewrite lookup_insert_ne by discriminate. apply lookup_insert_eq. }
  unfold transfer_of_key. rewrite E1, E2, !String.eqb_refl. split; [done|].
  apply TextValue_text; [|by apply Trimmed_of_fix|done]. rewrite Ha by (unfold ident_keys; set_solver). apply lookup_insert_eq.
Qed.

(** An accepted start with an unused key leaves the one transfer of the key. *)
Lemma start_sole a r u payload kh fh : hex_digest -> projectPathID r ≠ "" -> fastTransferIdempotencyKey (Some r) payload ≠ "" ->
  requireUser r = Ok u -> sq_body r = Ok payload -> start_hashes r u payload = (kh, fh) ->
  FindFastTransferByIdempotencyKeyHash (app_Store a) (projectPathID r) kh = None ->
  (startFastTransfer a r).2.1 = StatusAccepted ->
  exists id, Get (app_Store a) fastTransfersResource id = None /\ sole_transfer (app_Store (startFastTransfer a r).1) (projectPathID r) kh fh id.
Proof.
  intros Hhex Hp Hk Hu Hb Hh Hn Hacc. destruct (new_transfer_ident (app_Store a) r u payload kh fh Hhex Hp Hk Hh) as [Hkh Hid].
  remember (startFastTransfer a r) as out eqn:Eo. pose proof (start_cases a r) as Hc. rewrite <- Eo in Hc. clear Eo.
  destruct Hc as [resp Hr|u' payload' existing Hu' Hb' Hf|u' payload' s1 t s2 e a' text|u' payload' s1 t s2 rc a' row Hu' Hb' Hnew Hd Hc Hs]; [done| |done|];
    assert (u' = u) as -> by congruence; assert (payload' = payload) as -> by congruence; [rewrite Hh in Hf; cbn in Hf; congruence|].
  rewrite Hnew in Hid. cbn [snd] in Hid. apply Create_ok in Hc as (Hfree & _ & _ & _ & _ & Hdata & Hget).
  assert (forall id, Get s1 fastTransfersResource id = Get (app_Store a) fastTransfersResource id) as Hs1 by (intros id; unfold Get, bucket; by rewrite Hd).
  exists (create_id t (sq_newid r 0)). rewrite <- Hs1. split; [done|]. cbn [fst].
  eapply sole_patched; [change (app_Store a') with (app_Store a', row).1; rewrite <- Hs; apply dispatch_patches; [apply _|]|].
  { intros d patch Hp'. apply agree_union, Forall_forall. intros k Hk'. apply Hp'. revert Hk'. unfold ident_keys, dispatch_keys. set_solver. }
  split.
  - exists rc. rewrite Hget, decide_True by done. split; [done|]. apply Hid. intros k Hk'. apply Hdata. revert Hk'. unfold ident_keys. set_solver.
  - intros id' rc' Hg Hm. rewrite Hget in Hg. case_decide as Hi; [by destruct Hi|]. rewrite Hs1 in Hg.
    by rewrite (none_found _ _ _ _ _ Hkh Hn Hg) in Hm.
Qed.

(** A transfer is started once: when a request with an idempotency key that no transfer
    of the project uses was accepted, then, whatever cancellations and progress reports
    came in between, sending the same request again changes nothing and answers with the
    present state of the transfer the first request created. *)
Theorem start_idempotent a r r' ops u payload :
  hex_digest -> projectPathID r ≠ "" -> fastTransferIdempotencyKey (Some r) payload ≠ "" ->
  requireUser r = Ok u -> sq_body r = Ok payload -> same_request r r' -> Forall not_start ops ->
  FindFastTransferByIdempotencyKeyHash (app_Store a) (projectPathID r) (start_hashes r u payload).1 = None ->
  let a1 := (startFastTransfer a r).1 in let a2 := fold_left transfer_step ops a1 in
  (startFastTransfer a r).2.1 = StatusAccepted ->
  exists id rc1 rc2, Get (app_Store a) fastTransfersResource id = None /\ Get (app_Store a1) fastTransfersResource id = Some rc1 /\
    Get (app_Store a2) fastTransfersResource id = Some rc2 /\
    startFastTransfer a2 r' = (a2, (StatusAccepted, BMap (record_map rc2))).
Proof.
  cbn zeta. intros Hhex Hp Hk Hu Hb (Eh & Eb & Ep) Hops Hn Hacc. destruct (start_hashes r u payload) as [kh fh] eqn:Eha.
  destruct (start_sole a r u payload kh fh) as (id & Hfree & Hsole); [done..|].
  pose proof (sole_patched _ _ _ _ _ _ (ident_steps ops _ Hops) Hsole) as Hsole2.
  destruct (new_transfer_ident (app_Store a) r u payload kh fh Hhex Hp Hk Eha) as [Hkh _].
  destruct Hsole as [(rc1 & Hg1 & _) _]. destruct (sole_found _ _ _ _ _ Hkh Hsole2) as (rc2 & Hg2 & Hf2 & Hfp).
  exists id, rc1, rc2. split_and!; [done..|].
  assert (requireProjectManager cfg (app_Store a) r (projectPathID r) u = requireProjectManager cfg
    (app_Store (fold_left transfer_step ops (startFastTransfer a r).1)) r (projectPathID r) u) as Hm.
  { symmetry. apply manager_frame. eapply frame_trans; [apply (transfer_step_frame a (StartOp r))|apply transfer_steps_frame]. }
  set (a2 := fold_left transfer_step ops (startFastTransfer a r).1) in *. clearbody a2.
  assert (exists project, requireProjectManager cfg (app_Store a) r (projectPathID r) u = Ok project) as [project Hmgr].
  { revert Hacc. unfold startFastTransfer. rewrite Hu. cbn. destruct (requireProjectManager _ _ _ _ _) as [pr|resp] eqn:E; [eauto|].
    unfold requireProjectManager, refuse in E. repeat case_match; by simplify_eq. }
  rewrite Hmgr in Hm.
  assert (requireUser r' = Ok u) as Hu' by (rewrite <- Hu; unfold requireUser, sq_header; by rewrite Eh).
  assert (projectPathID r' = projectPathID r) as Hp' by (unfold projectPathID, PathValue; by rewrite Ep).
  assert (requireProjectManager cfg (app_Store a2) r' (projectPathID r) u = Ok project) as Hm'
    by (rewrite Hm; unfold requireProjectManager, projectRole, hasAdminPanel, sq_header; by rewrite Eh).
  assert (fastTransferIdempotencyHashes r' payload (projectPathID r) u = (kh, fh)) as Hh'
    by (rewrite <- Eha; unfold start_hashes, fastTransferIdempotencyHashes, fastTransferIdempotencyKey, sq_header; by rewrite Eh).
  unfold startFastTransfer. rewrite Hu', Hp'. cbn [res_bind]. rewrite Hm'. cbn [res_bind]. unfold decode_body. rewrite Eb, Hb. cbn [res_bind]. rewrite Hh', Hf2, Hfp, String.eqb_refl. done.
Qed.
End Transfer.

(** ** A demonstration *)

#[local] Existing Instance storage_golib.
Definition transfer_request (now : Z) : service_request :=
  request_of "u1" {[ "name" := VString "t1"; "target_namespace" := VString "ns" ]} {["id" := "P1"]} now.
Definition report (status : string) (now : Z) : transfer_op :=
  ProgressOp (request_of "mover" {[ "status" := VString status; "bytes_done" := VInt 7 ]} {[ "project_id" := "P1"; "targetNamespace" := "ns"; "name" := "t1" ]} now).
(** The service that runs the job accepts it. *)
Definition willing (q : fastTransferMoverDispatchRequest) : result string mover_answer := Ok (MoverAnswer 202 (MoverResponse "ns" "mover-t1" "created" "" "") None).
Definition started : app := (startFastTransfer storage_config (fun _ => 0) willing storage_app (transfer_request 5)).1.
Definition transfer_row (a : app) : object := default ∅ (rec_Data <$> Get (app_Store a) fastTransfersResource "P1:ns:t1").

Lemma transfers_forward_witness :
  let step := transfer_step storage_config (fun _ => 0) willing in
  let a1 := fold_left step [report "running" 6; report "succeeded" 7] started in
  let a2 := fold_left step [report "running" 8; report "failed" 9; CancelOp (request_of "u1" ∅ {[ "id" := "P1"; "targetNamespace" := "ns"; "name" := "t1" ]} 10)] a1 in
  transfer_status (transfer_row started) = "queued" /\ transfer_status (transfer_row a1) = "succeeded" /\ transfer_progress (transfer_row a1) = 100 /\
  exists rc', Get (app_Store a2) fastTransfersResource "P1:ns:t1" = Some rc' /\ transfer_status (rec_Data rc') = "succeeded".
Proof.
  cbv zeta. split; [by vm_compute|]. split; [by vm_compute|]. split; [by vm_compute|].
  set (a1 := fold_left _ [report "running" 6; report "succeeded" 7] started). set (ops := [report "running" 8; _; _]).
  assert (match Get (app_Store a1) fastTransfersResource "P1:ns:t1" with
          | Some rc => String.eqb (transfer_status (rec_Data rc)) "succeeded" | None => false end = true) as E by (vm_compute; reflexivity).
  clearbody a1 ops. destruct (Get (app_Store a1) fastTransfersResource "P1:ns:t1") as [rc|] eqn:Eg; [|discriminate E]. apply String.eqb_eq in E.
  destruct (transfers_forward storage_config (fun _ => 0) willing a1 ops "P1:ns:t1" rc Eg) as (rc' & Hg & _ & Hf).
  exists rc'. split; [exact Hg|]. rewrite Hf, E; [reflexivity|]. rewrite E. by left.
Defined.

Lemma start_idempotent_witness :
  let a2 := fold_left (transfer_step storage_config (fun _ => 0) willing) [report "running" 6] started in
  exists rc2, Get (app_Store a2) fastTransfersResource "P1:ns:t1" = Some rc2 /\
    startFastTransfer storage_config (fun _ => 0) willing a2 (transfer_request 9) = (a2, (StatusAccepted, BMap (record_map rc2))).
Proof.
  cbv zeta.
  destruct (start_idempotent storage_config (fun _ => 0) willing storage_app (transfer_request 5) (transfer_request 9) [report "running" 6] "u1"
    {[ "name" := VString "t1"; "target_namespace" := VString "ns" ]}) as (id & rc1 & rc2 & Hn & H1 & H2 & H3).
  - intros t. cbn. by destruct (String.eqb t "").
  - by vm_compute.
  - by vm_compute.
  - by vm_compute.
  - reflexivity.
  - by split.
  - by repeat constructor.
  - by vm_compute.
  - by vm_compute.
  - exists rc2. split; [|exact H3].
    assert (id = "P1:ns:t1") as <-; [|exact H2]. revert H1. unfold Get. clear.
    intros H1. assert (map fst (map_to_list (bucket (app_Store started) fastTransfersResource)) = ["P1:ns:t1"]) as Hk by (by vm_compute).
    apply elem_of_map_to_list in H1. apply (list_elem_of_fmap_2 fst) in H1. cbn [fst] in H1. unfold fmap in H1. fold started in H1.
    change (id ∈ map fst (map_to_list (bucket (app_Store started) fastTransfersResource))) in H1. rewrite Hk in H1. by apply list_elem_of_singleton in H1.
Defined.
