(* ===== verification/StoragePlans.v ===== *)
(** * Storage service: the contracts other services ask
    (internal/services/storage/mount_plan_contracts.go, data_plane_contracts.go,
    build_source_contracts.go)

    The dispatcher of the workload service asks which volumes a job may mount and where its
    data sets, scratch space and checkpoints are; the image registry asks whether a user may
    read build sources from a project's volumes.  The answers are typed here; the encoding
    into JSON is the identity on the fields. *)

From stdpp Require Import base gmap strings list fin_maps.
From Stdlib Require Import ZArith Lia Ascii.
From S2P Require Import Prelude GoValue Store EventBus Crud Tx InputLimits Config Auth Guards ServiceHttp SchedulerHttp StorageAccess StorageRepository WorkloadText StorageHandlers.
Local Open Scope Z_scope.
Local Open Scope go_scope.

Record storageMountPlanRequestMount := RequestMount { rm_PVCID : string; rm_Name : string; rm_MountPath : string; rm_ReadOnly : bool; rm_SubPath : string }.
Record storageMountPlanRequest := PlanRequest { pq_ProjectID : string; pq_UserID : string; pq_Namespace : string; pq_Mounts : list storageMountPlanRequestMount }.
Record storageManifestMount := ManifestMount { sm_Name : string; sm_ClaimName : string; sm_MountPath : string; sm_ReadOnly : bool; sm_SubPath : string }.
Record storagePVCShareOperation := ShareOperation { sh_SourceNamespace : string; sh_SourcePVC : string; sh_TargetPVC : string }.
Record storageMountPlanResponse := PlanResponse {
  pl_ProjectID : string; pl_UserID : string; pl_Namespace : string;
  pl_ManifestMounts : list storageManifestMount; pl_PVCShareOperations : list storagePVCShareOperation }.

Record storageDataPlaneDatasetSource := DatasetSource { dt_StorageBindingID : string; dt_Mode : string; dt_CacheKey : string }.
Record storageDataPlaneCheckpointRequest := CheckpointRequest { cr_FlushTargetProfile : string; cr_WritePolicy : string; cr_RetainLocalLastN : Z }.
Record storageDataPlanePlanRequest := DataRequest {
  dr_ProjectID : string; dr_JobID : string; dr_UserID : string; dr_Namespace : string; dr_NodeClass : string;
  dr_DatasetSources : list storageDataPlaneDatasetSource; dr_ScratchProfile : string; dr_Checkpoint : storageDataPlaneCheckpointRequest;
  dr_RetainLocalLast : Z }.
Record storageDataPlaneScratchPlan := ScratchPlan {
  sc_ProfileID : string; sc_StorageClassName : string; sc_VolumeName : string; sc_ClaimName : string; sc_MountPath : string; sc_AccessMode : string }.
Record storageDataPlaneStageInOperation := StageIn {
  st_StorageBindingID : string; st_CacheKey : string; st_CacheHit : bool; st_SourceNamespace : string; st_SourcePVC : string;
  st_TargetPVC : string; st_VolumeName : string; st_SourcePath : string; st_ScratchPath : string; st_CacheBindingID : string }.
Record storageDataPlaneCheckpointPlan := CheckpointPlan {
  ck_FlushTargetProfileID : string; ck_StorageClassName : string; ck_WritePolicy : string; ck_LocalPath : string; ck_FlushTargetPath : string;
  ck_RetainLocalLastN : Z }.
Record storageDataPlanePlan := DataPlan {
  dl_ProjectID : string; dl_JobID : string; dl_Namespace : string; dl_Scratch : storageDataPlaneScratchPlan;
  dl_StageInOperations : list storageDataPlaneStageInOperation; dl_Checkpoint : storageDataPlaneCheckpointPlan }.

Record storageBuildSourceAccessResponse := BuildSourceAccess {
  bs_ProjectID : string; bs_UserID : string; bs_StoragePath : string; bs_Allowed : bool; bs_Permission : string; bs_PVCID : string }.

Definition defaultScratchProfileID : string := "local-nvme-scratch".
Definition defaultCheckpointFlushProfileID : string := "cephfs-rwx-authority".
Definition defaultScratchMountPath : string := "/nexuspaas/scratch".
Definition defaultStageSourceBasePath : string := "/nexuspaas/stage-in".
Definition defaultCheckpointWritePolicy : string := "local-first-async-flush".
Definition defaultDataPlaneScratchVolume : string := "nexuspaas-scratch".
Definition dataPlanePlanBuiltEvent : string := "DataPlanePlanBuilt".

(** The answer of a contract: the plan, or a status and an error. *)
Inductive contract_answer (A : Type) := Answer (plan : A) | Refused (resp : response).
Arguments Answer {A}. Arguments Refused {A}.

Section Plans.
Context `{GoLib} {ip : Type} (cfg : config ip).

(** ** Volumes of a job *)

Definition mountPlanItems (raw : any) : list object :=
  match raw with
  | VMaps l => l
  | VList l => omap as_map l
  | VMap m => [m]
  | _ => []
  end.

Definition mountPlanPayloadItems (payload : object) : list object :=
  match firstPresent payload ["mounts"; "storage_mounts"; "storageMounts"; "items"] with
  | Some raw => mountPlanItems raw
  | None => []
  end.

Definition plan_mount (item : object) : storageMountPlanRequestMount :=
  RequestMount
    (FirstNonEmpty [TextValue item ["pvc_id"; "pvcId"]; TextValue item ["pvc_name"; "pvcName"]; TextValue item ["claim_name"; "claimName"];
                    TextValue item ["target_pvc"; "targetPVC"]; TextValue item ["source_pvc"; "sourcePVC"]; TextValue item ["pvc"; "PVC"]])
    (TextValue item ["name"; "volume_name"; "volumeName"]) (TextValue item ["mount_path"; "mountPath"; "path"])
    (BoolValue item ["read_only"; "readOnly"]) (TextValue item ["sub_path"; "subPath"]).

Definition storageMountPlanRequestFromPayload (projectID : string) (payload : object) : result string storageMountPlanRequest :=
  let req := PlanRequest projectID (TextValue payload ["user_id"; "userId"]) (TextValue payload ["namespace"; "target_namespace"; "targetNamespace"])
               (map plan_mount (mountPlanPayloadItems payload)) in
  if existsb (fun m => str_empty (rm_PVCID m)) (pq_Mounts req) then Err "pvc_id is required"
  else if str_empty (pq_ProjectID req) || str_empty (pq_UserID req) then Err "project_id and user_id are required"
  else Ok req.

Definition findProjectStorageBinding (s : store) (projectID pvcID : string) : option object := FindProjectStorageBinding s projectID pvcID.
Definition findGroupStorageSource (s : store) (groupID pvcID : string) : option object := FindGroupStorageSource s groupID pvcID.
Definition effectiveStoragePermission (s : store) (projectID groupID pvcID userID : string) : string :=
  EffectiveStoragePermission s projectID groupID pvcID userID.

Definition storageSourceDispatchReady (source : object) : bool :=
  let status := ToLower (TrimSpace (TextValue source ["status"])) in
  negb (String.eqb status "stopped" || String.eqb status "deleted").

Definition groupStorageNamespace (source : object) (groupID : string) : string :=
  FirstNonEmpty [TextValue source ["namespace"; "source_namespace"; "sourceNamespace"; "pvc_namespace"; "pvcNamespace"];
                 "group-" +:+ groupID +:+ "-storage"].

(** The claim a source is known by. *)
Definition source_claim (source : object) (pvcID : string) : string :=
  FirstNonEmpty [TextValue source ["source_pvc"; "sourcePVC"]; TextValue source ["pvc_name"; "pvcName"]; TextValue source ["pvc_id"; "pvcId"]; pvcID].
Definition target_claim (binding : object) (pvcID : string) : string :=
  FirstNonEmpty [TextValue binding ["target_pvc"; "targetPVC"]; TextValue binding ["pvc_id"; "pvcId"]; pvcID].

(** One round of the loop: what the mount adds to the plan. *)
Definition resolve_mount (s : store) (req : storageMountPlanRequest) (mount : storageMountPlanRequestMount)
    : result (Z * string) (storagePVCShareOperation * option storageManifestMount) :=
  match findProjectStorageBinding s (pq_ProjectID req) (rm_PVCID mount) with
  | None => Err (StatusNotFound, "storage binding not found")
  | Some binding =>
      let groupID := TextValue binding ["group_id"; "groupId"] in
      match findGroupStorageSource s groupID (rm_PVCID mount) with
      | None => Err (StatusNotFound, "group storage source not found")
      | Some source =>
          if negb (storageSourceDispatchReady source) then Err (StatusConflict, "group storage source is not dispatch-ready")
          else if negb (storagePermissionAllows (effectiveStoragePermission s (pq_ProjectID req) groupID (rm_PVCID mount) (pq_UserID req)) (rm_ReadOnly mount))
          then Err (StatusForbidden, "storage permission denied")
          else
            let targetPVC := target_claim binding (rm_PVCID mount) in
            Ok (ShareOperation (groupStorageNamespace source groupID) (source_claim source (rm_PVCID mount)) targetPVC,
                if str_empty (rm_MountPath mount) then None
                else Some (ManifestMount (FirstNonEmpty [rm_Name mount; targetPVC]) targetPVC (rm_MountPath mount) (rm_ReadOnly mount) (rm_SubPath mount)))
      end
  end.

Fixpoint resolve_mounts (s : store) (req : storageMountPlanRequest) (plan : storageMountPlanResponse) (mounts : list storageMountPlanRequestMount)
    : result (Z * string) storageMountPlanResponse :=
  match mounts with
  | [] => Ok plan
  | mount :: rest =>
      match resolve_mount s req mount with
      | Err e => Err e
      | Ok (op, mm) =>
          resolve_mounts s req (PlanResponse (pl_ProjectID plan) (pl_UserID plan) (pl_Namespace plan)
            (pl_ManifestMounts plan ++ match mm with Some m => [m] | None => [] end) (pl_PVCShareOperations plan ++ [op])) rest
      end
  end.

Definition resolveStorageMountPlan (s : store) (req : storageMountPlanRequest) : result (Z * string) storageMountPlanResponse :=
  resolve_mounts s req (PlanResponse (pq_ProjectID req) (pq_UserID req) (pq_Namespace req) [] []) (pq_Mounts req).

Definition nonempty_texts (l : list string) : list string := List.filter (fun t => negb (str_empty t)) l.
Definition requestedPVCIDs (mounts : list storageMountPlanRequestMount) : list string := nonempty_texts (map rm_PVCID mounts).
Definition targetPVCs (ops : list storagePVCShareOperation) : list string := nonempty_texts (map sh_TargetPVC ops).

Definition publishMountPlanResolved (a : app) (r : service_request) (req : storageMountPlanRequest) (plan : storageMountPlanResponse) : app :=
  publishEvent a r 0 "StorageMountPlanResolved"
    (list_to_map [("action", VString "resolved"); ("project_id", VString (pq_ProjectID req)); ("user_id", VString (pq_UserID req));
       ("namespace", VString (pq_Namespace req)); ("mount_count", VInt (Z.of_nat (length (pq_Mounts req))));
       ("manifest_mount_count", VInt (Z.of_nat (length (pl_ManifestMounts plan))));
       ("share_operation_count", VInt (Z.of_nat (length (pl_PVCShareOperations plan))));
       ("pvc_ids", VStrings (requestedPVCIDs (pq_Mounts req))); ("target_pvcs", VStrings (targetPVCs (pl_PVCShareOperations plan)))]).

(** The contracts end with an answer of their own. *)
Definition contract {A} (a : app) (c : result response (app * A)) : app * contract_answer A :=
  match c with Ok (a', plan) => (a', Answer plan) | Err resp => (a, Refused resp) end.
Definition status_error {A} (c : result (Z * string) A) : result response A :=
  match c with Ok x => Ok x | Err (status, text) => refuse status text end.

Definition resolveStorageMountPlanContract (a : app) (r : service_request) : app * contract_answer storageMountPlanResponse := contract a (
  requireStorageServiceAuth cfg r ;;?
  payload <-? decode_body r ;;
  match storageMountPlanRequestFromPayload (TrimSpace (PathValue r "project_id")) payload with
  | Err text => refuse StatusUnprocessableEntity text
  | Ok req =>
      plan <-? status_error (resolveStorageMountPlan (app_Store a) req) ;;
      Ok (publishMountPlanResolved a r req plan, plan)
  end).

(** ** Data sets, scratch space and checkpoints *)

Definition firstText (values : list string) : string := FirstNonEmpty (map TrimSpace values).

Fixpoint firstAny (values : list any) : any :=
  match values with [] => VNil | VNil :: rest => firstAny rest | v :: _ => v end.

Definition dataset_source (entry : object) : option storageDataPlaneDatasetSource :=
  let bindingID := firstText [TextValue entry ["storage_binding_id"]; TextValue entry ["storageBindingId"]; TextValue entry ["binding_id"];
                              TextValue entry ["bindingId"]; TextValue entry ["pvc_id"]; TextValue entry ["pvcId"]] in
  if str_empty bindingID then None
  else Some (DatasetSource bindingID (firstText [TextValue entry ["mode"]; "readOnly"]) (firstText [TextValue entry ["cache_key"]; TextValue entry ["cacheKey"]])).

Definition storageDataPlaneDatasetSources (payload : object) : list storageDataPlaneDatasetSource :=
  match firstAny [mget payload "dataset_sources"; mget payload "datasetSources"; mget payload "sources"] with
  | VList items => omap dataset_source (omap as_map items)
  | _ => []
  end.

Definition storageDataPlaneCheckpointFromPayload (payload : object) : storageDataPlaneCheckpointRequest :=
  match mget payload "checkpoint" with
  | VMap checkpoint =>
      let retain := IntValue checkpoint ["retain_local_last_n"] in
      CheckpointRequest
        (firstText [TextValue checkpoint ["flush_target_profile"]; TextValue checkpoint ["flushTargetProfile"]; defaultCheckpointFlushProfileID])
        (firstText [TextValue checkpoint ["write_policy"]; TextValue checkpoint ["writePolicy"]; defaultCheckpointWritePolicy])
        (if retain =? 0 then IntValue checkpoint ["retainLocalLastN"] else retain)
  | _ => CheckpointRequest defaultCheckpointFlushProfileID defaultCheckpointWritePolicy 0
  end.

Definition storageDataPlanePlanRequestFromPayload (projectID : string) (payload : object) : result string storageDataPlanePlanRequest :=
  let req := DataRequest
    (firstText [projectID; TextValue payload ["project_id"]; TextValue payload ["projectId"]])
    (firstText [TextValue payload ["job_id"]; TextValue payload ["jobId"]])
    (firstText [TextValue payload ["user_id"]; TextValue payload ["userId"]])
    (firstText [TextValue payload ["namespace"]; TextValue payload ["target_namespace"]; TextValue payload ["targetNamespace"]])
    (firstText [TextValue payload ["node_class"]; TextValue payload ["nodeClass"]])
    (storageDataPlaneDatasetSources payload)
    (firstText [TextValue payload ["scratch_profile"]; TextValue payload ["scratchProfile"]; defaultScratchProfileID])
    (storageDataPlaneCheckpointFromPayload payload) 0 in
  if str_empty (dr_ProjectID req) then Err "project_id is required"
  else if str_empty (dr_UserID req) then Err "user_id is required"
  else Ok req.

Definition getStorageProfilePayload (s : store) (profileID : string) : result string object :=
  if str_empty (TrimSpace profileID) then Err "storage profile is required"
  else match Get s storageProfilesResource profileID with
       | None => Err (sprintf "storage profile %q not found" [VString profileID])
       | Some rec => Ok (rec_Data rec)
       end.

Definition cacheBindingNodeClassMatches (requested cached : string) : bool :=
  let requested := TrimSpace requested in let cached := TrimSpace cached in
  if str_empty requested then str_empty cached else str_empty cached || String.eqb cached requested.

Definition findDataPlaneCacheBinding (s : store) (req : storageDataPlanePlanRequest) (source : storageDataPlaneDatasetSource) : option object :=
  if str_empty (TrimSpace (dt_CacheKey source)) then None
  else List.find (fun row =>
         String.eqb (TextValue row ["cache_key"; "cacheKey"]) (dt_CacheKey source) &&
         (let bindingID := TextValue row ["storage_binding_id"; "storageBindingId"] in
          str_empty bindingID || String.eqb bindingID (dt_StorageBindingID source)) &&
         (let scratch := TextValue row ["scratch_profile"; "scratchProfile"] in
          str_empty scratch || String.eqb scratch (dr_ScratchProfile req)) &&
         cacheBindingNodeClassMatches (dr_NodeClass req) (TextValue row ["node_class"; "nodeClass"])) (ListCacheBindings s (dr_ProjectID req)).

Definition resolveStorageDataPlaneStageIn (s : store) (req : storageDataPlanePlanRequest) (source : storageDataPlaneDatasetSource)
    : result (Z * string) storageDataPlaneStageInOperation :=
  let bindingID := dt_StorageBindingID source in
  match findProjectStorageBinding s (dr_ProjectID req) bindingID with
  | None => Err (StatusNotFound, "storage binding not found")
  | Some binding =>
      let groupID := TextValue binding ["group_id"; "groupId"] in
      let pvcID := FirstNonEmpty [TextValue binding ["source_pvc_id"; "sourcePvcId"]; TextValue binding ["pvc_id"; "pvcId"]; bindingID] in
      if str_empty groupID || str_empty pvcID then Err (StatusNotFound, sprintf "binding %s has no source group PVC" [VString bindingID])
      else
        match findGroupStorageSource s groupID pvcID with
        | None => Err (StatusNotFound, "group storage source not found")
        | Some sourcePVC =>
            if negb (storageSourceDispatchReady sourcePVC) then Err (StatusConflict, "group storage source is not dispatch-ready")
            else if negb (storagePermissionAllows (effectiveStoragePermission s (dr_ProjectID req) groupID pvcID (dr_UserID req)) true)
            then Err (StatusForbidden, "storage permission denied")
            else
              let label := storagePlanName (firstText [dt_CacheKey source; bindingID]) "dataset" in
              let cacheBinding := findDataPlaneCacheBinding s req source in
              Ok (StageIn bindingID (dt_CacheKey source) (bool_decide (is_Some cacheBinding)) (groupStorageNamespace sourcePVC groupID)
                    (source_claim sourcePVC pvcID) (target_claim binding bindingID) ("stage-" +:+ label)
                    (defaultStageSourceBasePath +:+ "/" +:+ label) (defaultScratchMountPath +:+ "/datasets/" +:+ label)
                    (TextValue (default ∅ cacheBinding) ["id"]))
        end
  end.

Fixpoint stage_ins (s : store) (req : storageDataPlanePlanRequest) (sources : list storageDataPlaneDatasetSource)
    : result (Z * string) (list storageDataPlaneStageInOperation) :=
  match sources with
  | [] => Ok []
  | source :: rest => op <-? resolveStorageDataPlaneStageIn s req source ;; ops <-? stage_ins s req rest ;; Ok (op :: ops)
  end.

Definition profile_or_422 (s : store) (profileID : string) : result (Z * string) object :=
  match getStorageProfilePayload s profileID with Ok p => Ok p | Err text => Err (StatusUnprocessableEntity, text) end.

Definition resolveStorageDataPlanePlan (s : store) (req : storageDataPlanePlanRequest) : result (Z * string) storageDataPlanePlan :=
  scratchProfile <-? profile_or_422 s (dr_ScratchProfile req) ;;
  checkpointProfile <-? profile_or_422 s (cr_FlushTargetProfile (dr_Checkpoint req)) ;;
  let identity := storagePlanName (firstText [dr_JobID req; dr_ProjectID req]) "job" in
  ops <-? stage_ins s req (dr_DatasetSources req) ;;
  Ok (DataPlan (dr_ProjectID req) (dr_JobID req) (dr_Namespace req)
        (ScratchPlan (dr_ScratchProfile req) (TextValue scratchProfile ["storage_class_name"]) defaultDataPlaneScratchVolume ("scratch-" +:+ identity)
           defaultScratchMountPath (TextValue scratchProfile ["access_mode"]))
        ops
        (CheckpointPlan (cr_FlushTargetProfile (dr_Checkpoint req)) (TextValue checkpointProfile ["storage_class_name"])
           (cr_WritePolicy (dr_Checkpoint req)) (defaultScratchMountPath +:+ "/checkpoints") ("/checkpoints/" +:+ identity)
           (cr_RetainLocalLastN (dr_Checkpoint req)))).

Definition stage_in_payload (op : storageDataPlaneStageInOperation) : any :=
  VMap (list_to_map [("storage_binding_id", VString (st_StorageBindingID op)); ("cache_key", VString (st_CacheKey op));
    ("cache_hit", VBool (st_CacheHit op)); ("source_namespace", VString (st_SourceNamespace op)); ("source_pvc", VString (st_SourcePVC op));
    ("target_pvc", VString (st_TargetPVC op)); ("volume_name", VString (st_VolumeName op)); ("source_path", VString (st_SourcePath op));
    ("scratch_path", VString (st_ScratchPath op)); ("cache_binding_id", VString (st_CacheBindingID op))]).

Definition storageDataPlanePlanPayload (plan : storageDataPlanePlan) : object :=
  let sc := dl_Scratch plan in let ck := dl_Checkpoint plan in
  list_to_map [("project_id", VString (dl_ProjectID plan)); ("job_id", VString (dl_JobID plan)); ("namespace", VString (dl_Namespace plan));
    ("scratch", VMap (list_to_map [("profile_id", VString (sc_ProfileID sc)); ("storage_class_name", VString (sc_StorageClassName sc));
       ("volume_name", VString (sc_VolumeName sc)); ("claim_name", VString (sc_ClaimName sc)); ("mount_path", VString (sc_MountPath sc));
       ("access_mode", VString (sc_AccessMode sc))]));
    ("stage_in_operations", VList (map stage_in_payload (dl_StageInOperations plan)));
    ("checkpoint", VMap (list_to_map [("flush_target_profile_id", VString (ck_FlushTargetProfileID ck)); ("storage_class_name", VString (ck_StorageClassName ck));
       ("write_policy", VString (ck_WritePolicy ck)); ("local_path", VString (ck_LocalPath ck)); ("flush_target_path", VString (ck_FlushTargetPath ck));
       ("retain_local_last_n", VInt (ck_RetainLocalLastN ck))]))].

Definition publish_plan_built (a : app) (r : service_request) (plan : storageDataPlanePlan) : app :=
  publishEvent a r 0 dataPlanePlanBuiltEvent
    (list_to_map [("action", VString "built"); ("project_id", VString (dl_ProjectID plan)); ("job_id", VString (dl_JobID plan));
       ("namespace", VString (dl_Namespace plan)); ("scratch_profile", VString (sc_ProfileID (dl_Scratch plan)));
       ("checkpoint_profile", VString (ck_FlushTargetProfileID (dl_Checkpoint plan)));
       ("dataset_source_count", VInt (Z.of_nat (length (dl_StageInOperations plan))))]).

Definition resolveStorageDataPlanePlanContract (a : app) (r : service_request) : app * response := handle a (
  requireStorageServiceAuth cfg r ;;?
  payload <-? decode_body r ;;
  match storageDataPlanePlanRequestFromPayload (TrimSpace (PathValue r "project_id")) payload with
  | Err text => refuse StatusUnprocessableEntity text
  | Ok req =>
      plan <-? status_error (resolveStorageDataPlanePlan (app_Store a) req) ;;
      Ok (publish_plan_built a r plan, ok_map (storageDataPlanePlanPayload plan))
  end).

(** ** Build sources *)

Definition resolveStorageBuildSourceAccessContract (a : app) (r : service_request) : app * contract_answer storageBuildSourceAccessResponse := contract a (
  requireStorageServiceAuth cfg r ;;?
  payload <-? decode_body r ;;
  let projectID := TrimSpace (PathValue r "project_id") in
  let userID := TextValue payload ["user_id"; "userId"] in
  let storagePath := TextValue payload ["storage_path"; "storagePath"] in
  require (negb (str_empty projectID || str_empty userID || str_empty storagePath)) StatusUnprocessableEntity
    "project_id, user_id, and storage_path are required" ;;?
  let permission binding := effectiveStoragePermission (app_Store a) projectID (TextValue binding ["group_id"; "groupId"])
                              (TextValue binding ["pvc_id"; "pvcId"]) userID in
  Ok (a, match List.find (fun binding => storagePermissionAllows (permission binding) true) (ListProjectBindings (app_Store a) projectID) with
         | Some binding => BuildSourceAccess projectID userID storagePath true (normalizePermission (permission binding)) (TextValue binding ["pvc_id"; "pvcId"])
         | None => BuildSourceAccess projectID userID storagePath false "none" ""
         end)).

(** ** What a plan contains *)

(** The volume [pvcID] of the project's binding may be used by the user, in the mode asked
    for: the binding names the group, the group has the volume, the volume is in service,
    and the permission in force allows the mode. *)
Definition entitled (s : store) (projectID userID pvcID : string) (readOnly : bool) (binding source : object) : Prop :=
  FindProjectStorageBinding s projectID pvcID = Some binding /\
  let groupID := TextValue binding ["group_id"; "groupId"] in
  FindGroupStorageSource s groupID pvcID = Some source /\ storageSourceDispatchReady source = true /\
  storagePermissionAllows (EffectiveStoragePermission s projectID groupID pvcID userID) readOnly = true.

(** What one mount of the request stands for. *)
Definition granted (s : store) (req : storageMountPlanRequest) (mount : storageMountPlanRequestMount)
    (out : storagePVCShareOperation * option storageManifestMount) : Prop :=
  exists binding source,
    entitled s (pq_ProjectID req) (pq_UserID req) (rm_PVCID mount) (rm_ReadOnly mount) binding source /\
    let target := target_claim binding (rm_PVCID mount) in
    out.1 = ShareOperation (groupStorageNamespace source (TextValue binding ["group_id"; "groupId"])) (source_claim source (rm_PVCID mount)) target /\
    out.2 = if str_empty (rm_MountPath mount) then None
            else Some (ManifestMount (FirstNonEmpty [rm_Name mount; target]) target (rm_MountPath mount) (rm_ReadOnly mount) (rm_SubPath mount)).

Lemma resolve_mount_granted s req mount out : resolve_mount s req mount = Ok out <-> granted s req mount out.
Proof.
  unfold resolve_mount, granted, entitled, findProjectStorageBinding, findGroupStorageSource, effectiveStoragePermission. split.
  - destruct (FindProjectStorageBinding _ _ _) as [binding|]; [|done]. cbn zeta. destruct (FindGroupStorageSource _ _ _) as [source|] eqn:Es; [|done].
    destruct (storageSourceDispatchReady source) eqn:Er; [|done]. cbn [negb].
    destruct (storagePermissionAllows _ _) eqn:Ep; [|done]. cbn [negb]. intros [= <-]. exists binding, source. by rewrite Es.
  - intros (binding & source & (-> & Hs & Hr & Hp) & H1 & H2). cbn zeta. cbn zeta in Hs, Hp, H1, H2. rewrite Hs, Hr. cbn [negb]. rewrite Hp. cbn [negb].
    destruct out as [op mm]. cbn in H1, H2. by subst.
Qed.

Lemma resolve_mounts_spec s req mounts plan plan' :
  resolve_mounts s req plan mounts = Ok plan' <->
  exists outs, Forall2 (granted s req) mounts outs /\
    plan' = PlanResponse (pl_ProjectID plan) (pl_UserID plan) (pl_Namespace plan)
              (pl_ManifestMounts plan ++ omap snd outs) (pl_PVCShareOperations plan ++ map fst outs).
Proof.
  revert plan. induction mounts as [|mount mounts IH]; intros plan; cbn [resolve_mounts].
  - split; [intros [= <-]; exists []; split; [constructor|]|].
    + cbn. rewrite !app_nil_r. by destruct plan.
    + intros (outs & Hf & ->). inversion Hf; subst. cbn. rewrite !app_nil_r. by destruct plan.
  - split.
    + destruct (resolve_mount s req mount) as [[op mm]|] eqn:E; [|done]. intros Hr. apply IH in Hr as (outs & Hf & ->).
      exists ((op, mm) :: outs). split; [constructor; [by apply resolve_mount_granted|done]|]. cbn. rewrite <- !(assoc_L (++)).
      by destruct mm.
    + intros (outs & Hf & ->). inversion Hf as [|? [op mm] ? outs' Hg Hf']; subst. apply resolve_mount_granted in Hg. rewrite Hg.
      apply IH. exists outs'. split; [done|]. cbn. rewrite <- !(assoc_L (++)). by destruct mm.
Qed.

(** A mount plan is what the user is entitled to, no more and no less: the storage
    service answers a request with a plan exactly when every volume asked for is bound to the
    project, exists in the bound group and is in service, and the permission in force for
    the user allows the mode asked for; the plan then has, in the order of the request, one
    share operation per volume, from the group's namespace to the claim of the binding, and
    one manifest mount for each with a path, read-only exactly when asked so. *)
Theorem mount_plan_exact s req plan :
  resolveStorageMountPlan s req = Ok plan <->
  exists outs, Forall2 (granted s req) (pq_Mounts req) outs /\
    plan = PlanResponse (pq_ProjectID req) (pq_UserID req) (pq_Namespace req) (omap snd outs) (map fst outs).
Proof. unfold resolveStorageMountPlan. apply resolve_mounts_spec. Qed.

(** A data set is staged under the same conditions, for reading. *)
Lemma stage_in_entitled s req source op : resolveStorageDataPlaneStageIn s req source = Ok op ->
  exists binding pvcID volume, FindProjectStorageBinding s (dr_ProjectID req) (dt_StorageBindingID source) = Some binding /\
    let groupID := TextValue binding ["group_id"; "groupId"] in
    FindGroupStorageSource s groupID pvcID = Some volume /\ storageSourceDispatchReady volume = true /\
    storagePermissionAllows (EffectiveStoragePermission s (dr_ProjectID req) groupID pvcID (dr_UserID req)) true = true /\
    st_SourceNamespace op = groupStorageNamespace volume groupID /\ st_SourcePVC op = source_claim volume pvcID /\
    st_StorageBindingID op = dt_StorageBindingID source.
Proof.
  unfold resolveStorageDataPlaneStageIn, findProjectStorageBinding, findGroupStorageSource, effectiveStoragePermission. cbn zeta.
  destruct (FindProjectStorageBinding _ _ _) as [binding|]; [|done]. destruct (_ || _); [done|].
  destruct (FindGroupStorageSource _ _ _) as [volume|] eqn:Es; [|done]. destruct (storageSourceDispatchReady volume) eqn:Er; [|done].
  destruct (storagePermissionAllows _ _) eqn:Ep; [|done]. cbn [negb]. intros [= <-]. eexists _, _, _. by split_and!.
Qed.

Lemma stage_ins_spec s req sources ops : stage_ins s req sources = Ok ops ->
  Forall2 (fun source op => resolveStorageDataPlaneStageIn s req source = Ok op) sources ops.
Proof.
  revert ops. induction sources as [|source sources IH]; intros ops; cbn; [intros [= <-]; constructor|].
  intros (op & Ho & (ops' & Hops & Heq)%res_bind_ok)%res_bind_ok. injection Heq as <-. constructor; auto.
Qed.
End Plans.
