(* ===== verification/Tables.v ===== *)
(** * Resources as finite maps

    A service that files its records under identifiers composed of several parts uses a
    resource of the store as a table.  [table] relates the resource to the finite map it
    stands for: every record is the row of one key and every key has its row.  The
    operations of the repositories are the operations of the map, as long as the composed
    identifiers determine their parts. *)

From stdpp Require Import base gmap strings list fin_maps.
From Stdlib Require Import ZArith Lia Ascii DecimalString.
From S2P Require Import Prelude GoValue Store EventBus Crud Tx InputLimits Config Auth ServiceHttp.
Local Open Scope Z_scope.

Section Table.
Context {K : Type} `{Countable K} {V : Type}.
(** The identifier of a key, the keys in use, and what the data of a row says. *)
Context (idf : K -> string) (wf : K -> Prop) (row : K -> V -> object -> Prop).
Context (idf_inj : forall k k', wf k -> wf k' -> idf k = idf k' -> k = k').

Definition table (resource : string) (s : store) (m : gmap K V) : Prop :=
  (forall id rc, Get s resource id = Some rc -> exists k v, id = idf k /\ wf k /\ m !! k = Some v /\ row k v (rec_Data rc)) /\
  (forall k v, m !! k = Some v -> wf k /\ exists rc, Get s resource (idf k) = Some rc /\ row k v (rec_Data rc)).

Lemma table_empty res s : (forall id, Get s res id = None) -> table res s ∅.
Proof. intros He. split; [intros id rc; by rewrite He|intros k v; by rewrite lookup_empty]. Qed.

Lemma table_same res s s' m : (forall id, Get s' res id = Get s res id) -> table res s m -> table res s' m.
Proof.
  intros He [H1 H2]. split; [intros id rc; rewrite He; apply H1|]. intros k v Hk. destruct (H2 k v Hk) as (Hw & rc & Hg & Hr).
  split; [done|]. exists rc. by rewrite He.
Qed.

(** Reading a key. *)
Lemma table_get res s m k : wf k -> table res s m ->
  match m !! k with
  | Some v => exists rc, Get s res (idf k) = Some rc /\ row k v (rec_Data rc)
  | None => Get s res (idf k) = None
  end.
Proof.
  intros Hw [H1 H2]. destruct (m !! k) as [v|] eqn:E; [by apply H2|]. destruct (Get s res (idf k)) as [rc|] eqn:Eg; [|done].
  destruct (H1 _ _ Eg) as (k' & v & Hi & Hw' & Hk' & _). apply idf_inj in Hi; [|done..]. congruence.
Qed.

(** Writing the row of a key. *)
Lemma table_insert res s s' m k v rc : wf k -> table res s m ->
  Get s' res (idf k) = Some rc -> row k v (rec_Data rc) -> (forall id, id ≠ idf k -> Get s' res id = Get s res id) ->
  table res s' (<[k := v]> m).
Proof.
  intros Hw [H1 H2] Hg Hr Ho. split.
  - intros id rc' Hg'. destruct (decide (id = idf k)) as [->|Hn].
    + exists k, v. rewrite lookup_insert_eq. replace rc' with rc by congruence. done.
    + rewrite Ho in Hg' by done. destruct (H1 _ _ Hg') as (k' & v' & -> & Hw' & Hk' & Hr'). exists k', v'.
      rewrite lookup_insert_ne by congruence. done.
  - intros k' v' Hk'. rewrite lookup_insert_Some in Hk'. destruct Hk' as [[-> ->]|[Hn Hk']]; [eauto|].
    destruct (H2 _ _ Hk') as (Hw' & rc' & Hg' & Hr'). split; [done|]. exists rc'. rewrite Ho; [done|]. intros Hi. by apply Hn, idf_inj.
Qed.

(** Deleting the rows of the keys that satisfy [P]. *)
Lemma table_delete_where res s s' m m' (P : K -> bool) : table res s m ->
  (forall k, m' !! k = if P k then None else m !! k) ->
  (forall k, wf k -> Get s' res (idf k) = if P k then None else Get s res (idf k)) ->
  (forall id rc, Get s' res id = Some rc -> Get s res id = Some rc) ->
  table res s' m'.
Proof.
  intros [H1 H2] Hm Hd Hs. split.
  - intros id rc Hg. destruct (H1 _ _ (Hs _ _ Hg)) as (k & v & -> & Hw & Hk & Hr). exists k, v. rewrite (Hd k Hw) in Hg. rewrite Hm.
    by destruct (P k).
  - intros k v Hk. rewrite Hm in Hk. destruct (P k) eqn:EP; [done|]. destruct (H2 _ _ Hk) as (Hw & rc & Hg & Hr). split; [done|].
    exists rc. by rewrite (Hd k Hw), EP.
Qed.

Lemma table_delete res s s' m k : wf k -> table res s m ->
  (forall id, Get s' res id = if decide (id = idf k) then None else Get s res id) -> table res s' (delete k m).
Proof.
  intros Hw Ht Hg. apply (table_delete_where res s s' m _ (fun k' => bool_decide (k' = k))); [done|..].
  - intros k'. case_bool_decide as Hk; [subst; apply lookup_delete_eq|by apply lookup_delete_ne].
  - intros k' Hw'. rewrite Hg. case_bool_decide as Hk; case_decide as Hi; try done; [congruence|]. by apply idf_inj in Hi.
  - intros id rc. rewrite Hg. by case_decide.
Qed.
End Table.

(** ** Deleting several rows *)

Lemma Delete_Get s res i res' id : Get (Delete s res i).1 res' id = if decide (res' = res /\ id = i) then None else Get s res' id.
Proof.
  unfold Delete. destruct (bucket s res !! i) eqn:E; cbn [fst].
  - rewrite Get_set_delete. repeat case_decide; naive_solver.
  - destruct (decide (res' = res /\ id = i)) as [[-> ->]|]; [exact E|reflexivity].
Qed.

(** The store after the rows with the identifiers are gone. *)
Lemma fold_Delete_Get res ids s res' id :
  Get (fold_left (fun s' i => (Delete s' res i).1) ids s) res' id = if decide (res' = res /\ id ∈ ids) then None else Get s res' id.
Proof.
  revert s. induction ids as [|i ids IH]; intros s; cbn [fold_left]; [by rewrite decide_False by set_solver|].
  rewrite IH, Delete_Get. repeat case_decide; try done; set_solver.
Qed.

(** ** Every record is filed under its own identifier *)

Definition filed (s : store) : Prop := forall res id rc, Get s res id = Some rc -> rec_ID rc = id.

Lemma filed_data s s' : st_data s' = st_data s -> filed s -> filed s'.
Proof. intros He Hf res id rc. unfold Get, bucket. rewrite He. apply Hf. Qed.

Lemma filed_Create s res d i t : filed s -> filed (Create s res d i t).1.
Proof.
  intros Hf r id rc. destruct (Create s res d i t) as [s' [rc'|e]] eqn:E; cbn [fst].
  - apply Create_ok in E as (_ & Hi & _ & _ & _ & _ & Hg). rewrite Hg. case_decide as Hd; [|apply Hf]. intros [= <-]. by destruct Hd as [_ <-].
  - apply Create_err in E as (_ & _ & Hg). rewrite Hg. apply Hf.
Qed.

Lemma filed_Update s res id0 d t : filed s -> filed (Update s res id0 d t).1.
Proof.
  intros Hf r id rc. pose proof (Update_cases s res id0 d t) as HU.
  destruct (Update s res id0 d t) as [s' [rc'|]], (Get s res id0) as [old|] eqn:Eo; try done; cbn [fst]; [|subst; apply Hf].
  destruct HU as (_ & Hi & _ & _ & _ & Hg). rewrite Hg. case_decide as Hd; [|apply Hf]. intros [= <-]. destruct Hd as [_ <-].
  rewrite Hi. by eapply Hf.
Qed.

Lemma filed_Delete s res id0 : filed s -> filed (Delete s res id0).1.
Proof. intros Hf r id rc. rewrite Delete_Get. case_decide; [done|apply Hf]. Qed.

Lemma filed_fold_Delete res ids s : filed s -> filed (fold_left (fun s' i => (Delete s' res i).1) ids s).
Proof. revert s. induction ids as [|i ids IH]; intros s Hf; [done|]. by apply IH, filed_Delete. Qed.

Lemma filed_upsert s res id d i t : filed s -> filed (upsertRecordWithoutTransactionalStore s res id d i t).1.
Proof.
  intros Hf. unfold upsertRecordWithoutTransactionalStore. pose proof (filed_Update s res id d t Hf) as H1.
  destruct (Update s res id d t) as [s1 [rc|]]; [done|]. cbn [fst] in H1. pose proof (filed_Create s1 res d i t H1) as H2.
  destruct (Create s1 res d i t) as [s2 [rc|e]]; [done|]. cbn [fst] in *. pose proof (filed_Update s2 res id d t H2) as H3.
  by destruct (Update s2 res id d t) as [s3 [rc|]].
Qed.

(** ** Identifiers joined by colons *)

Definition colon : ascii := ":".
Definition colon_free (t : string) : Prop := colon ∉ bytes_of t.

Lemma split_char (c : ascii) a b x y : c ∉ a -> c ∉ b -> a ++ c :: x = b ++ c :: y -> a = b /\ x = y.
Proof.
  revert b. induction a as [|c1 a IH]; intros [|d b] Ha Hb He; cbn in He.
  - by injection He as ->.
  - injection He as <- _. set_solver.
  - injection He as -> _. set_solver.
  - injection He as -> He. destruct (IH b) as [-> ->]; [set_solver| set_solver|done|done].
Qed.

Lemma split_colon a b x y : colon ∉ a -> colon ∉ b -> a ++ colon :: x = b ++ colon :: y -> a = b /\ x = y.
Proof. apply split_char. Qed.

Lemma join_colon_inj a b x y : colon_free a -> colon_free b -> a +:+ ":" +:+ x = b +:+ ":" +:+ y -> a = b /\ x = y.
Proof.
  intros Ha Hb He. apply (f_equal bytes_of) in He. rewrite !bytes_of_app in He. cbn in He.
  apply split_colon in He as [H1 H2]; [|done..]. split; by apply bytes_of_inj.
Qed.

(** Joined identifiers stay trimmed. *)
Lemma strip_prefix_before_colon p a r rest : colon ∉ p -> strip_prefix p (a ++ colon :: r) = Some rest -> exists rest', strip_prefix p a = Some rest'.
Proof.
  revert a. induction p as [|c p IH]; intros a Hp Hs; [by exists a|]. destruct a as [|d a]; cbn in Hs |- *.
  - destruct (Ascii.eqb_spec c colon) as [->|]; [set_solver|done].
  - destruct (Ascii.eqb c d); [|done]. apply (IH a); [set_solver|done].
Qed.

Lemma colon_not_space : Forall (fun p => colon ∉ p) space_encodings.
Proof. apply (bool_decide_unpack _). by vm_compute. Qed.

Lemma strip_any_before_colon ps a r : Forall (fun p => colon ∉ p) ps -> strip_any ps a = None -> strip_any ps (a ++ colon :: r) = None.
Proof.
  rewrite !strip_any_none, !Forall_forall. intros Hc Hn p Hp. destruct (strip_prefix p (a ++ colon :: r)) as [rest|] eqn:E; [|done].
  apply strip_prefix_before_colon in E as [rest' E]; [|by apply Hc]. by rewrite (Hn p Hp) in E.
Qed.

Lemma Trimmed_join a b : Trimmed a -> Trimmed b -> Trimmed (a +:+ ":" +:+ b).
Proof.
  unfold Trimmed, trimmed_bytes. rewrite !bytes_of_app. change (bytes_of ":") with [colon]. cbn [Datatypes.app]. intros [Ha _] [_ Hb]. split.
  - by apply strip_any_before_colon; [apply colon_not_space|].
  - rewrite rev_app_distr. cbn [rev]. rewrite <- !(assoc_L (++)). cbn [Datatypes.app]. apply strip_any_before_colon; [|done].
    apply Forall_fmap. eapply Forall_impl; [apply colon_not_space|]. intros p Hp. cbn. by rewrite list_elem_of_In, <- in_rev, <- list_elem_of_In.
Qed.

(** ** Identifiers drawn by the store stay trimmed *)

Definition graphic (c : ascii) : bool := (33 <=? nat_of_ascii c)%nat && (nat_of_ascii c <=? 126)%nat.

Lemma strip_any_graphic ps l : Forall (fun p => match p with c :: _ => graphic c = false | [] => False end) ps ->
  Forall (fun c => graphic c = true) l -> strip_any ps l = None.
Proof.
  intros Hp Hl. rewrite strip_any_none, Forall_forall. rewrite Forall_forall in Hp. intros p Hin. specialize (Hp p Hin).
  destruct p as [|c p]; [done|]. destruct l as [|d l]; [done|]. cbn. inversion_clear Hl.
  destruct (Ascii.eqb_spec c d) as [->|]; [congruence|done].
Qed.

Lemma Trimmed_graphic t : Forall (fun c => graphic c = true) (bytes_of t) -> Trimmed t.
Proof.
  intros Hg. unfold Trimmed, trimmed_bytes. split; apply strip_any_graphic; try done; [repeat constructor..|by apply Forall_rev].
Qed.

Lemma uint_graphic d : Forall (fun c => graphic c = true) (bytes_of (NilEmpty.string_of_uint d)).
Proof. unfold bytes_of. induction d; cbn; repeat constructor; done. Qed.

Lemma format_id_graphic prefix w n : Forall (fun c => graphic c = true) (bytes_of prefix) -> Forall (fun c => graphic c = true) (bytes_of (format_id prefix w n)).
Proof.
  assert (forall w n, Forall (fun c => graphic c = true) (bytes_of (fmt_int w n))) as Hf.
  { intros w' n'. unfold fmt_int, fmt_nat. destruct (0 <=? n'); [apply uint_graphic|]. rewrite bytes_of_app. apply Forall_app. split; [by repeat constructor|apply uint_graphic]. }
  intros Hp. unfold format_id. destruct (0 <? w); rewrite bytes_of_app; apply Forall_app; split; auto.
Qed.

Lemma next_loop_id fuel m prefix w k n id : next_loop fuel m prefix w k = Some (n, id) -> exists n', id = format_id prefix w n'.
Proof. revert k. induction fuel as [|fuel IH]; intros k; cbn [next_loop]; [done|]. destruct (m !! _); [apply IH|]. intros [= <- <-]. eauto. Qed.

Lemma NextID_Trimmed s res prefix base w id s' : NextID s res prefix base w = Some (id, s') ->
  Forall (fun c => graphic c = true) (bytes_of prefix) -> Trimmed id.
Proof.
  unfold NextID. destruct (next_loop _ _ _ _ _) as [[n i]|] eqn:E; [|done]. intros [= -> <-] Hp. apply next_loop_id in E as [n' ->].
  by apply Trimmed_graphic, format_id_graphic.
Qed.
