(* ===== verification/StoragePermissions.v ===== *)
(** * Storage service: permissions as a table

    The abstract access state of the service is five finite maps: the groups' volumes, the
    bindings of volumes to projects, the permissions given in projects and in groups, and
    the default permissions of volumes.  Every request that a handler of the service serves
    and that touches them is a list of operations on these maps, carried out when the caller
    is entitled to them.  The record store the handlers work on refines this state: over any
    history of such requests the permission in force is the one of the maps.  The routes of
    the table without a handler, which the generic record handler serves, are routes here
    too, outside the maps. *)

From stdpp Require Import base gmap strings list fin_maps.
From Stdlib Require Import ZArith Lia Ascii.
From S2P Require Import Prelude GoValue Store EventBus Crud Tx InputLimits Config Auth Guards Routing ServiceHttp SchedulerHttp StorageAccess StorageRepository WorkloadText StorageHandlers Tables.
Local Open Scope Z_scope.
Local Open Scope go_scope.

(** ** The abstract state *)

Abbreviation key2 := (string * string)%type.
Abbreviation key3 := (string * string * string)%type.

Record access_state := AccessState {
  ac_volumes : gmap key2 unit;         (* group, volume *)
  ac_bindings : gmap key2 string;      (* project, volume: the group *)
  ac_project : gmap key3 string;       (* project, volume, user: the permission *)
  ac_group : gmap key3 string;         (* group, volume, user: the permission *)
  ac_policy : gmap key2 string         (* group, volume: the default permission *)
}.
Definition no_access : access_state := AccessState ∅ ∅ ∅ ∅ ∅.

Inductive access_op :=
| AddVolume (g v : string) | RemoveVolume (g v : string)
| Bind (p g v : string) | Unbind (p v : string)
| SetProject (p v u perm : string) | ClearProject (p v u : string)
| SetGroup (g v u perm : string) | ClearGroup (g v u : string)
| SetPolicy (g v perm : string).

Definition of_pair (x v : string) (k : key3) : bool := String.eqb k.1.1 x && String.eqb k.1.2 v.
(** Without the entries of a pair. *)
Definition drop_pair (x v : string) (m : gmap key3 string) : gmap key3 string := filter (fun kv => of_pair x v kv.1 = false) m.

Definition access_step (st : access_state) (op : access_op) : access_state :=
  let '(AccessState vols binds proj grp pol) := st in
  match op with
  | AddVolume g v => AccessState (<[(g, v) := tt]> vols) binds proj grp pol
  | RemoveVolume g v =>
      match vols !! (g, v) with
      | None => st
      | Some _ => AccessState (delete (g, v) vols) binds proj (drop_pair g v grp) (delete (g, v) pol)
      end
  | Bind p g v => match binds !! (p, v) with Some _ => st | None => AccessState vols (<[(p, v) := g]> binds) proj grp pol end
  | Unbind p v =>
      match binds !! (p, v) with
      | None => st
      | Some _ => AccessState vols (delete (p, v) binds) (drop_pair p v proj) grp pol
      end
  | SetProject p v u perm => AccessState vols binds (<[(p, v, u) := normalizePermission perm]> proj) grp pol
  | ClearProject p v u => AccessState vols binds (delete (p, v, u) proj) grp pol
  | SetGroup g v u perm => AccessState vols binds proj (<[(g, v, u) := normalizePermission perm]> grp) pol
  | ClearGroup g v u => AccessState vols binds proj (delete (g, v, u) grp) pol
  | SetPolicy g v perm => AccessState vols binds proj grp (<[(g, v) := normalizePermission perm]> pol)
  end.

(** The permission of a user on a volume in a project: what the project gave, else what the
    group gave, else the default of the volume, else none. *)
Definition permission_in (st : access_state) (p g v u : string) : string :=
  match ac_project st !! (p, v, u) with
  | Some perm => perm
  | None => match ac_group st !! (g, v, u) with
            | Some perm => perm
            | None => default "none" (ac_policy st !! (g, v))
            end
  end.

(** ** The requests *)

(** The routes of the service's table on these records that no handler is registered for. *)
Inductive generic_route := GPostVolume | GDeleteVolume | GDeletePermission | GPostProjectPermission | GDeleteProjectPermission.

(** Their rows of the table. *)
Definition generic_spec (g : generic_route) : route := catalog_route serviceName (
  match g with
  | GPostVolume => Route "POST" "/api/v1/admin/group-storage" "group_storage" "create" [Admin; Adapter "minio"]
  | GDeleteVolume => Route "DELETE" "/api/v1/admin/group-storage/{id}" "group_storage" "delete" [ID "id"; Admin; Adapter "minio"]
  | GDeletePermission => Route "DELETE" "/api/v1/storage/permissions/{id}" "storage_permissions" "delete" [ID "id"]
  | GPostProjectPermission => Route "POST" "/api/v1/projects/{id}/storage/permissions" "project_storage_permissions" "create" [ID "id"]
  | GDeleteProjectPermission => Route "DELETE" "/api/v1/projects/{id}/storage/permissions/{requestId}" "project_storage_permissions" "delete" [ID "requestId"]
  end).

(** [degraded] of a generic route is what the call of its adapter reports; a route that names
    an adapter ends there when it is degraded. *)
Inductive access_route :=
| PostVolume | DeleteVolume | PostBinding | DeleteBinding
| PutProjectPermission | DeleteProjectPermission | PutProjectBatch | DeleteProjectBatch
| PostPermission | DeletePermission | PostBatch | DeleteBatch | PostPolicy
| Generic (g : generic_route) (degraded : bool).
Definition handled (rt : access_route) : bool := match rt with Generic _ _ => false | _ => true end.

(** Identifiers as they are in use: text without a colon. *)
Definition text_id (t : string) : Prop := t ≠ "" /\ Trimmed t /\ colon_free t.
Definition wf2 (k : key2) : Prop := text_id k.1 /\ text_id k.2.
Definition wf3 (k : key3) : Prop := wf2 k.1 /\ Trimmed k.2.

Definition wf_op (op : access_op) : Prop :=
  match op with
  | AddVolume a b | RemoveVolume a b | Unbind a b | SetPolicy a b _ => wf2 (a, b)
  | Bind p g v => wf2 (p, v) /\ text_id g
  | SetProject a b u _ | ClearProject a b u | SetGroup a b u _ | ClearGroup a b u => wf3 (a, b, u)
  end.

Section Requests.
Context `{GoLib} {ip : Type} (cfg : config ip).

Definition payload_of (r : service_request) : object := match sq_body r with Ok payload => payload | Err _ => ∅ end.

Definition item_op (groupID : string) (del : bool) (item0 : object) : list access_op :=
  let item := item_in_group groupID item0 in
  let g := TextValue item ["group_id"; "groupId"] in let v := TextValue item ["pvc_id"; "pvcId"] in let u := TextValue item ["user_id"; "userId"] in
  if del then [ClearGroup g v u]
  else if str_empty g || str_empty v || str_empty u then [] else [SetGroup g v u (TextValue item ["permission"])].

(** What a request of a handler asks for. *)
Definition request_ops (rt : access_route) (r : service_request) : list access_op :=
  let payload := payload_of r in
  let g := TextValue payload ["group_id"; "groupId"] in let v := TextValue payload ["pvc_id"; "pvcId"] in let u := TextValue payload ["user_id"; "userId"] in
  let p := projectPathID r in
  let named name := match name with "" => [] | _ => [AddVolume (groupPathID r) (FirstNonBlank [TextValue payload ["id"; "pvc_id"; "pvcId"]; name])] end in
  match rt with
  | PostVolume => if str_empty (groupPathID r) then [] else named (FirstNonBlank [TextValue payload ["name"]; TextValue payload ["pvc_id"; "pvcId"]])
  | DeleteVolume => [RemoveVolume (groupPathID r) (pvcPathID r)]
  | PostBinding => if str_empty g || str_empty v then [] else [Bind p g v]
  | DeleteBinding => [Unbind p (FirstNonBlank [PathValue r "requestId"; PathValue r "pvcId"])]
  | PutProjectPermission => [SetProject p (pvcPathID r) u (TextValue payload ["permission"])]
  | DeleteProjectPermission => [ClearProject p (pvcPathID r) (PathValue r "userId")]
  | PutProjectBatch => map (fun item => SetProject p (pvcPathID r) (TextValue item ["user_id"; "userId"]) (TextValue item ["permission"])) (payloadItems payload)
  | DeleteProjectBatch => map (fun item => ClearProject p (pvcPathID r) (TextValue item ["user_id"; "userId"])) (payloadItems payload)
  | PostPermission => if str_empty g || str_empty v || str_empty u then [] else [SetGroup g v u (TextValue payload ["permission"])]
  | DeletePermission => [ClearGroup (PathValue r "group_id") (PathValue r "pvc_id") (PathValue r "user_id")]
  | PostBatch => flat_map (item_op g false) (payloadItems payload)
  | DeleteBatch => flat_map (item_op g true) (payloadItems payload)
  | PostPolicy => [SetPolicy g v (FirstNonBlank [TextValue payload ["default_permission"; "defaultPermission"]; "none"])]
  | Generic _ _ => []
  end.

(** Routes that read a body refuse one that does not decode. *)
Definition reads_body (rt : access_route) : bool :=
  match rt with DeleteVolume | DeleteBinding | DeleteProjectPermission | DeletePermission => false | _ => true end.
Definition decodes (r : service_request) : bool := match sq_body r with Ok _ => true | Err _ => false end.

(** Who may ask: an administrator for volumes, a manager of the project, a manager of the
    group.  The generic routes for volumes are behind the administrator guard; those for
    permissions ask nothing of their caller. *)
Definition may (s : store) (rt : access_route) (r : service_request) : bool :=
  match rt with
  | Generic g _ => negb (cf_RequireAuth cfg && rt_Admin (generic_spec g)) || adminAllowed s (sq_http r)
  | _ =>
  match requireUser r with
  | Err _ => false
  | Ok u =>
      match rt with
      | PostVolume | DeleteVolume => hasAdminPanel cfg s r u
      | PostBinding | DeleteBinding | PutProjectPermission | DeleteProjectPermission | PutProjectBatch | DeleteProjectBatch =>
          match requireProjectManager cfg s r (projectPathID r) u with Ok _ => true | Err _ => false end
      | DeletePermission => canManageGroup cfg s r (PathValue r "group_id") u
      | PostPermission | PostBatch | DeleteBatch | PostPolicy => canManageGroup cfg s r (TextValue (payload_of r) ["group_id"; "groupId"]) u
      | Generic _ _ => false
      end
  end
  end.

(** The request served. *)
Definition serve (a : app) (x : access_route * service_request) : app :=
  let r := x.2 in
  match x.1 with
  | PostVolume => (createGroupStorage cfg a r).1
  | DeleteVolume => (deleteGroupStorage cfg a r).1
  | PostBinding => (createProjectBinding cfg a r).1
  | DeleteBinding => (deleteProjectBinding cfg a r).1
  | PutProjectPermission => (setProjectBindingPermission cfg a r).1
  | DeleteProjectPermission => (deleteProjectBindingPermission cfg a r).1
  | PutProjectBatch => (batchSetProjectBindingPermissions cfg a r).1
  | DeleteProjectBatch => (batchDeleteProjectBindingPermissions cfg a r).1
  | PostPermission => (createStoragePermission cfg a r).1
  | DeletePermission => (deleteStoragePermission cfg a r).1
  | PostBatch => (batchSetStoragePermissions cfg a r).1
  | DeleteBatch => (batchDeleteStoragePermissions cfg a r).1
  | PostPolicy => (createStoragePolicy cfg a r).1
  | Generic g degraded =>
      if negb (str_empty (rt_ExternalAdapter (generic_spec g))) && degraded then a else (serve_generic cfg a r (generic_spec g)).1
  end.

(** The request on the maps. *)
Definition effect (s : store) (x : access_route * service_request) : list access_op :=
  if may s x.1 x.2 && (negb (reads_body x.1) || decodes x.2) then request_ops x.1 x.2 else [].

(** ** The store as the maps *)

Definition row3 (owner : string) (k : key3) (perm : string) (d : object) : Prop :=
  TextValue d [owner] = k.1.1 /\ TextValue d ["pvc_id"] = k.1.2 /\ TextValue d ["permission"] = perm /\ normalizePermission perm = perm.
Definition row_policy (k : key2) (perm : string) (d : object) : Prop :=
  TextValue d ["group_id"] = k.1 /\ TextValue d ["pvc_id"] = k.2 /\ TextValue d ["default_permission"; "defaultPermission"] = perm /\ normalizePermission perm = perm.
Definition row_binding (k : key2) (g : string) (d : object) : Prop := TextValue d ["group_id"; "groupId"] = g.
Definition row_volume (k : key2) (_ : unit) (d : object) : Prop := True.

Definition id2 (k : key2) : string := k.1 +:+ ":" +:+ k.2.
Definition id3 (k : key3) : string := k.1.1 +:+ ":" +:+ k.1.2 +:+ ":" +:+ k.2.

Record refines (s : store) (st : access_state) : Prop := {
  ref_filed : filed s;
  ref_volumes : table id2 wf2 row_volume groupStorageResource s (ac_volumes st);
  ref_bindings : table id2 wf2 row_binding projectBindingsResource s (ac_bindings st);
  ref_project : table id3 wf3 (row3 "project_id") projectPermissionsResource s (ac_project st);
  ref_group : table id3 wf3 (row3 "group_id") storagePermissionsResource s (ac_group st);
  ref_policy : table id2 wf2 row_policy storagePoliciesResource s (ac_policy st)
}.

Lemma id2_inj k k' : wf2 k -> wf2 k' -> id2 k = id2 k' -> k = k'.
Proof.
  destruct k as [a b], k' as [a' b']. intros [(_ & _ & Ha) _] [(_ & _ & Ha') _] He. unfold id2 in He. cbn in *.
  apply join_colon_inj in He as [-> ->]; done.
Qed.

Lemma id3_inj k k' : wf3 k -> wf3 k' -> id3 k = id3 k' -> k = k'.
Proof.
  destruct k as [[a b] c], k' as [[a' b'] c']. intros [[(_ & _ & Ha) (_ & _ & Hb)] _] [[(_ & _ & Ha') (_ & _ & Hb')] _] He. unfold id3 in He. cbn in *.
  apply join_colon_inj in He as [-> He]; [|done..]. apply join_colon_inj in He as [-> ->]; done.
Qed.

Lemma Trimmed_id2 k : wf2 k -> Trimmed (id2 k).
Proof. intros [(_ & Ha & _) (_ & Hb & _)]. exact (Trimmed_join _ _ Ha Hb). Qed.
Lemma Trimmed_id3 k : wf3 k -> Trimmed (id3 k).
Proof. intros [[(_ & Ha & _) (_ & Hb & _)] Hc]. exact (Trimmed_join _ _ Ha (Trimmed_join _ _ Hb Hc)). Qed.
Lemma joined_nonempty a b : a +:+ ":" +:+ b ≠ "".
Proof. by destruct a. Qed.

Lemma normalizePermission_text perm : normalizePermission perm ≠ "" /\ Trimmed (normalizePermission perm).
Proof.
  unfold normalizePermission. cbn zeta. do 2 (case_bool_decide; [split; [discriminate|apply Trimmed_of_fix; by vm_compute]|]).
  case_bool_decide as Hc; [split; [discriminate|apply Trimmed_of_fix; by vm_compute]|]. split; [intros He; apply Hc; rewrite He; set_solver|].
  apply Trimmed_ToLower, TrimSpace_Trimmed.
Qed.

(** ** One operation on the store *)

Section Rows.
Context {K : Type} `{Countable K} {V : Type} (idf : K -> string) (wf : K -> Prop) (row : K -> V -> object -> Prop).
Context (idf_inj : forall k k', wf k -> wf k' -> idf k = idf k' -> k = k').

Lemma upsert_table res a m k v d b i t : wf k -> idf k ≠ "" -> table idf wf row res (app_Store a) m ->
  (forall d', (forall key w, <["id" := VString (idf k)]> d !! key = Some w -> d' !! key = Some w) -> row k v d') ->
  table idf wf row res (app_Store (upsertWithEvent a res (idf k) d b i t).1) (<[k := v]> m).
Proof.
  intros Hw Hne Ht Hr. destruct (upsertWithEvent_get a res (idf k) d b i t Hne) as (rc & Hg & Hd).
  assert (upsert_id (idf k) d (i 0%nat) = idf k) as Hu by (unfold upsert_id, str_empty; by rewrite !(proj2 (String.eqb_neq _ _) Hne)).
  pose proof (frame_upsertWithEvent a res (idf k) d b i t) as Hf. rewrite Hu in Hf.
  eapply table_insert; [done|done|exact Ht|exact Hg|by apply Hr|]. intros id Hn. apply (Hf Hne). by intros [_ ->].
Qed.

Lemma delete_table res a m k b : wf k -> table idf wf row res (app_Store a) m ->
  table idf wf row res (app_Store (deleteWithEvent a res (idf k) b).1) (delete k m).
Proof.
  intros Hw Ht. unfold deleteWithEvent. rewrite DeleteRecordWithEvent_store. eapply table_delete; [done|done|exact Ht|].
  intros id. rewrite Delete_Get. repeat case_decide; naive_solver.
Qed.

Lemma create_table res a m k v d b i t : wf k -> create_id d i = idf k -> table idf wf row res (app_Store a) m ->
  (forall d', (forall key, key ≠ "id" -> d' !! key = d !! key) -> row k v d') ->
  table idf wf row res (app_Store (createWithEvent a res d b i t).1) (match m !! k with Some _ => m | None => <[k := v]> m end).
Proof.
  intros Hw Hi Ht Hr. assert (app_Store (createWithEvent a res d b i t).1 = (Create (app_Store a) res d i t).1) as ->.
  { unfold createWithEvent. pose proof (CreateRecordWithEvent_store a res d (Some (fun rc => b (storageRecordMap rc))) i t) as Hs.
    by destruct (CreateRecordWithEvent _ _ _ _ _ _) as [a' []]. }
  pose proof (table_get idf wf row idf_inj res (app_Store a) m k Hw Ht) as Hk.
  destruct (Create (app_Store a) res d i t) as [s' [rc|e]] eqn:E; cbn [fst].
  - apply Create_ok in E as (Hn & _ & _ & _ & _ & Hd & Hg). rewrite Hi in Hn, Hg. destruct (m !! k) as [v'|]; [destruct Hk as (rc' & Hk & _); congruence|].
    eapply table_insert; [done|done|exact Ht|by rewrite Hg, decide_True|by apply Hr|]. intros id Hid. rewrite Hg, decide_False; [done|]. intros [_ He]. congruence.
  - apply Create_err in E as (_ & [rc Hs] & Hg). rewrite Hi in Hs. destruct (m !! k) as [v'|]; [|congruence].
    apply (table_same idf wf row res (app_Store a)); [intros id; apply Hg|done].
Qed.
End Rows.

Lemma TextValue_field (d d' : object) k keys t : (forall key w, d !! key = Some w -> d' !! key = Some w) ->
  d !! k = Some (VString t) -> t ≠ "" -> Trimmed t -> TextValue d' (k :: keys) = t.
Proof. intros Hs Hk Hne Ht. apply TextValue_text; [by apply Hs|done|done]. Qed.

(** Rows that a cascade looks for. *)
Lemma delete_ids_store res ids t : tx_store (delete_ids_tx res ids t).1 = fold_left (fun s i => (Delete s res i).1) ids (tx_store t).
Proof.
  revert t. induction ids as [|i ids IH]; intros t; [done|]. cbn [delete_ids_tx fold_left]. unfold stm_bind, tx_Delete.
  destruct (Delete (tx_store t) res i) as [s' b] eqn:E. cbn [fst]. exact (IH (StoreTx s' (tx_events t))).
Qed.

Lemma elem_of_matching s res f id : (forall id rc, Get s res id = Some rc -> rec_ID rc = id) ->
  id ∈ matching_ids s res f <-> exists rc, Get s res id = Some rc /\ f (rec_Data rc) = true.
Proof.
  intros Hid. unfold matching_ids. rewrite list_elem_of_fmap. split.
  - intros (rc & -> & Hin). apply list_elem_of_In, List.filter_In in Hin as [Hin Hf]. apply list_elem_of_In, elem_of_List in Hin as [id' Hg].
    rewrite (Hid _ _ Hg). eauto.
  - intros (rc & Hg & Hf). exists rc. split; [symmetry; by eapply Hid|]. apply list_elem_of_In, List.filter_In. split; [|done].
    apply list_elem_of_In, elem_of_List. eauto.
Qed.

(** The tables an operation does not touch. *)
Ltac untouched Hf := eapply table_same; [intros ?id; apply Hf; intros Hin; first [discriminate Hin|destruct Hin as [Hin _]; discriminate Hin]|try eassumption].

Lemma filed_upsertWithEvent a res id d b i t : filed (app_Store a) -> filed (app_Store (upsertWithEvent a res id d b i t).1).
Proof.
  intros Hf. unfold upsertWithEvent. pose proof (UpsertRecordWithEvent_store a res id d (Some (fun rc => b (storageRecordMap rc))) (i 0%nat) (i 1%nat) t) as Hs.
  destruct (UpsertRecordWithEvent _ _ _ _ _ _ _ _) as [a' []]; cbn [fst] in *; rewrite Hs; by apply filed_upsert.
Qed.
Lemma filed_createWithEvent a res d b i t : filed (app_Store a) -> filed (app_Store (createWithEvent a res d b i t).1).
Proof.
  intros Hf. unfold createWithEvent. pose proof (CreateRecordWithEvent_store a res d (Some (fun rc => b (storageRecordMap rc))) i t) as Hs.
  destruct (CreateRecordWithEvent _ _ _ _ _ _) as [a' []]; cbn [fst] in *; rewrite Hs; by apply filed_Create.
Qed.
Lemma filed_deleteWithEvent a res id b : filed (app_Store a) -> filed (app_Store (deleteWithEvent a res id b).1).
Proof. intros Hf. unfold deleteWithEvent. rewrite DeleteRecordWithEvent_store. by apply filed_Delete. Qed.

Lemma lookup_record3 (owner : string) (a b c id : string) (perm : string) (now : Z) :
  let d : object := list_to_map [("id", VString id); (owner, VString a); ("pvc_id", VString b); ("user_id", VString c); ("permission", VString perm); ("updated_at", time_value now)] in
  owner ∉ ["id"; "pvc_id"; "user_id"; "permission"; "updated_at"] ->
  d !! owner = Some (VString a) /\ d !! "pvc_id" = Some (VString b) /\ d !! "permission" = Some (VString perm).
Proof.
  cbn zeta. intros Hn. rewrite !list_to_map_cons.
  split_and!; rewrite ?lookup_insert_ne by set_solver; apply lookup_insert_eq.
Qed.

Lemma upsert_row3 owner res a m x v u perm b i t now : owner ∈ ["project_id"; "group_id"] -> wf3 (x, v, u) ->
  table id3 wf3 (row3 owner) res (app_Store a) m ->
  let d : object := list_to_map [("id", VString (id3 (x, v, u))); (owner, VString x); ("pvc_id", VString v); ("user_id", VString u);
                                 ("permission", VString (normalizePermission perm)); ("updated_at", time_value now)] in
  TextValue d ["id"] = id3 (x, v, u) /\
  table id3 wf3 (row3 owner) res (app_Store (upsertWithEvent a res (id3 (x, v, u)) d b i t).1) (<[(x, v, u) := normalizePermission perm]> m).
Proof.
  intros Ho Hw Ht d. assert (owner ∉ ["id"; "pvc_id"; "user_id"; "permission"; "updated_at"]) as Hn by set_solver.
  destruct (lookup_record3 owner x v u (id3 (x, v, u)) (normalizePermission perm) now Hn) as (L1 & L2 & L3). fold d in L1, L2, L3.
  destruct Hw as [[(Nx & Tx & Cx) (Nv & Tv & Cv)] Tu]. split.
  - apply TextValue_text; [subst d; rewrite list_to_map_cons; apply lookup_insert_eq| |apply joined_nonempty]. by apply Trimmed_id3.
  - apply upsert_table; [apply id3_inj|done|apply joined_nonempty|done|]. intros d' Hd. destruct (normalizePermission_text perm) as [Np Tp].
    unfold row3. cbn [fst snd] in *.
    split_and!; [..|apply normalizePermission_idem]; eapply TextValue_field; try exact Hd; rewrite ?lookup_insert_ne by set_solver; done.
Qed.

Lemma sim_SetProject a st p v u perm b i t now : refines (app_Store a) st -> wf3 (p, v, u) ->
  refines (app_Store (UpsertProjectPermissionWithEvent a (projectPermissionRecord p v u (normalizePermission perm) now) b i t).1)
    (access_step st (SetProject p v u perm)).
Proof.
  intros [Hf Hv Hb Hp Hg Hl] Hw. unfold UpsertProjectPermissionWithEvent.
  destruct (upsert_row3 "project_id" projectPermissionsResource a (ac_project st) p v u perm b i t now) as [Hid Hrow]; [set_solver|done|done|].
  replace (TextValue (projectPermissionRecord p v u (normalizePermission perm) now) ["id"]) with (id3 (p, v, u)) by (symmetry; exact Hid).
  pose proof (frame_upsert_at a projectPermissionsResource (id3 (p, v, u)) (projectPermissionRecord p v u (normalizePermission perm) now) b i t (joined_nonempty _ _)) as Hfr.
  destruct st as [vols binds proj grp pol]. split; [by apply filed_upsertWithEvent|untouched Hfr|untouched Hfr|exact Hrow|untouched Hfr|untouched Hfr].
Qed.

Lemma sim_SetGroup a st g v u perm d b i t now : refines (app_Store a) st -> wf3 (g, v, u) ->
  d = list_to_map [("id", VString (storagePermissionID g v u)); ("group_id", VString g); ("pvc_id", VString v); ("user_id", VString u);
                   ("permission", VString (normalizePermission perm)); ("updated_at", time_value now)] ->
  refines (app_Store (UpsertStoragePermissionWithEvent a d b i t).1) (access_step st (SetGroup g v u perm)).
Proof.
  intros [Hf Hv Hb Hp Hg Hl] Hw ->. unfold UpsertStoragePermissionWithEvent. set (d := list_to_map _).
  destruct (upsert_row3 "group_id" storagePermissionsResource a (ac_group st) g v u perm b i t now) as [Hid Hrow]; [set_solver|done|done|].
  replace (TextValue d ["id"]) with (id3 (g, v, u)) by (symmetry; exact Hid).
  pose proof (frame_upsert_at a storagePermissionsResource (id3 (g, v, u)) d b i t (joined_nonempty _ _)) as Hfr.
  destruct st as [vols binds proj grp pol]. split; [by apply filed_upsertWithEvent|untouched Hfr|untouched Hfr|untouched Hfr|exact Hrow|untouched Hfr].
Qed.

Lemma sim_ClearProject a st p v u b : refines (app_Store a) st -> wf3 (p, v, u) ->
  refines (app_Store (DeleteProjectPermissionWithEvent a p v u b).1) (access_step st (ClearProject p v u)).
Proof.
  intros [Hf Hv Hb Hp Hg Hl] Hw. unfold DeleteProjectPermissionWithEvent. change (projectPermissionID p v u) with (id3 (p, v, u)).
  pose proof (frame_deleteWithEvent a projectPermissionsResource (id3 (p, v, u)) b) as Hfr. destruct st as [vols binds proj grp pol].
  split; [by apply filed_deleteWithEvent|untouched Hfr|untouched Hfr|apply delete_table; [apply id3_inj|done|done]|untouched Hfr|untouched Hfr].
Qed.

Lemma sim_ClearGroup a st g v u b : refines (app_Store a) st -> wf3 (g, v, u) ->
  refines (app_Store (DeleteStoragePermissionWithEvent a g v u b).1) (access_step st (ClearGroup g v u)).
Proof.
  intros [Hf Hv Hb Hp Hg Hl] Hw. unfold DeleteStoragePermissionWithEvent. change (storagePermissionID g v u) with (id3 (g, v, u)).
  pose proof (frame_deleteWithEvent a storagePermissionsResource (id3 (g, v, u)) b) as Hfr. destruct st as [vols binds proj grp pol].
  split; [by apply filed_deleteWithEvent|untouched Hfr|untouched Hfr|untouched Hfr|apply delete_table; [apply id3_inj|done|done]|untouched Hfr].
Qed.

Lemma sim_SetPolicy a st g v perm d b i t now : refines (app_Store a) st -> wf2 (g, v) ->
  d = list_to_map [("id", VString (storagePolicyID g v)); ("group_id", VString g); ("pvc_id", VString v);
                   ("default_permission", VString (normalizePermission perm)); ("updated_at", time_value now)] ->
  refines (app_Store (UpsertStoragePolicyWithEvent a d b i t).1) (access_step st (SetPolicy g v perm)).
Proof.
  intros [Hf Hv Hb Hp Hg Hl] Hw ->. unfold UpsertStoragePolicyWithEvent. set (d := list_to_map _).
  assert (d !! "group_id" = Some (VString g) /\ d !! "pvc_id" = Some (VString v) /\ d !! "default_permission" = Some (VString (normalizePermission perm)))
    as (L1 & L2 & L3) by (subst d; rewrite !list_to_map_cons; split_and!; rewrite ?lookup_insert_ne by discriminate; apply lookup_insert_eq).
  destruct Hw as [(Ng & Tg & Cg) (Nv & Tv & Cv)]. cbn [fst snd] in *.
  replace (TextValue d ["group_id"]) with g by (symmetry; by apply TextValue_text). replace (TextValue d ["pvc_id"]) with v by (symmetry; by apply TextValue_text).
  change (storagePolicyID g v) with (id2 (g, v)).
  pose proof (frame_upsert_at a storagePoliciesResource (id2 (g, v)) d b i t (joined_nonempty _ _)) as Hfr. destruct st as [vols binds proj grp pol].
  split; [by apply filed_upsertWithEvent|untouched Hfr|untouched Hfr|untouched Hfr|untouched Hfr|].
  apply upsert_table; [apply id2_inj|done|apply joined_nonempty|done|]. intros d' Hd. destruct (normalizePermission_text perm) as [Np Tp].
  unfold row_policy. cbn [fst snd]. split_and!; [..|apply normalizePermission_idem]; eapply TextValue_field; try exact Hd; rewrite ?lookup_insert_ne by discriminate; done.
Qed.

Lemma create_id_field (d : object) id i : d !! "id" = Some (VString id) -> id ≠ "" -> Trimmed id -> create_id d i = id.
Proof.
  intros Hd Hn Ht. unfold create_id, asString, mget. rewrite Hd. cbn. unfold str_empty. by rewrite (proj2 (String.eqb_neq _ _) Hn).
Qed.

Lemma sim_Bind a st p g v d b i t : refines (app_Store a) st -> wf2 (p, v) -> text_id g ->
  d !! "id" = Some (VString (projectBindingID p v)) -> d !! "group_id" = Some (VString g) ->
  refines (app_Store (CreateProjectBindingWithEvent a d b i t).1) (access_step st (Bind p g v)).
Proof.
  intros [Hf Hv Hb Hp Hg Hl] Hw (Ng & Tg & _) Hid Hgr. unfold CreateProjectBindingWithEvent.
  assert (create_id d i = id2 (p, v)) as Hc by (apply create_id_field; [done|apply joined_nonempty|by apply Trimmed_id2]).
  pose proof (frame_createWithEvent a projectBindingsResource d b i t) as Hfr.
  pose proof (create_table id2 wf2 row_binding id2_inj projectBindingsResource a (ac_bindings st) (p, v) g d b i t Hw Hc Hb) as Ht.
  destruct st as [vols binds proj grp pol]. cbn [ac_bindings] in Ht.
  assert (forall d' : object, (forall key, key ≠ "id" -> d' !! key = d !! key) -> row_binding (p, v) g d') as Hrow.
  { intros d' Hd. apply TextValue_text; [by rewrite Hd|done|done]. }
  specialize (Ht Hrow). cbn [access_step]. revert Ht. destruct (binds !! (p, v)) as [g'|]; intros Ht;
    (split; [by apply filed_createWithEvent|untouched Hfr|exact Ht|untouched Hfr|untouched Hfr|untouched Hfr]).
Qed.

Lemma sim_AddVolume a st g v d b i t : refines (app_Store a) st -> wf2 (g, v) -> d !! "id" = Some (VString (groupStorageID g v)) ->
  refines (app_Store (CreateGroupStorageWithEvent a d b i t).1) (access_step st (AddVolume g v)).
Proof.
  intros [Hf Hv Hb Hp Hg Hl] Hw Hid. unfold CreateGroupStorageWithEvent.
  assert (create_id d i = id2 (g, v)) as Hc by (apply create_id_field; [done|apply joined_nonempty|by apply Trimmed_id2]).
  pose proof (frame_createWithEvent a groupStorageResource d b i t) as Hfr.
  pose proof (create_table id2 wf2 row_volume id2_inj groupStorageResource a (ac_volumes st) (g, v) tt d b i t Hw Hc Hv) as Ht.
  destruct st as [vols binds proj grp pol]. cbn [ac_volumes] in Ht. specialize (Ht (fun _ _ => I)).
  assert (<[(g, v) := tt]> vols = match vols !! (g, v) with Some _ => vols | None => <[(g, v) := tt]> vols end) as He
    by (destruct (vols !! (g, v)) as [[]|] eqn:E; [by apply insert_id|done]).
  split; cbn [access_step ac_volumes]; [by apply filed_createWithEvent|by rewrite He|untouched Hfr|untouched Hfr|untouched Hfr|untouched Hfr].
Qed.

(** ** Cascades *)

Lemma delete_cascade_store a c e f m : app_Store (delete_cascade a c e f m).1 = tx_store (c (StoreTx (app_Store a) [])).1.
Proof.
  unfold delete_cascade. set (fn := stm_bind c _). pose proof (WithTx_store a fn) as Hs.
  assert (tx_store (fn (StoreTx (app_Store a) [])).1 = tx_store (c (StoreTx (app_Store a) [])).1) as Hc
    by (unfold fn, stm_bind; destruct (c _) as [t [[]|]]; done).
  rewrite Hc in Hs. by destruct (WithTx a fn) as [a' [[]|]].
Qed.

(** The rows that match go. *)
Lemma drop_where {K V} `{Countable K} (idf : K -> string) (wf : K -> Prop) (row : K -> V -> object -> Prop) res s m m' (f : object -> bool) (P : K -> bool) :
  (forall k k', wf k -> wf k' -> idf k = idf k' -> k = k') -> filed s ->
  (forall k v d, row k v d -> f d = P k) -> (forall k, m' !! k = if P k then None else m !! k) ->
  table idf wf row res s m ->
  table idf wf row res (fold_left (fun s' i => (Delete s' res i).1) (matching_ids s res f) s) m'.
Proof.
  intros Hi Hfi Hrow Hm Ht. eapply (table_delete_where idf wf row res s _ m _ P); [done|exact Hm|..].
  - intros k Hk. rewrite fold_Delete_Get. pose proof (table_get idf wf row Hi res s m k Hk Ht) as Hg. destruct (m !! k) as [v|].
    + destruct Hg as (rc & Hg & Hr). pose proof (Hrow k v _ Hr) as Hf. destruct (P k).
      * rewrite decide_True; [done|]. split; [done|]. apply elem_of_matching; [apply Hfi|]. eauto.
      * rewrite decide_False; [done|]. intros [_ Hin]. apply elem_of_matching in Hin as (rc' & Hg' & Hf'); [|apply Hfi]. congruence.
    + rewrite Hg. by destruct (decide _), (P k).
  - intros id rc. rewrite fold_Delete_Get. by case_decide.
Qed.

Lemma drop_pair_lookup x v m k : drop_pair x v m !! k = if of_pair x v k then None else m !! k.
Proof.
  unfold drop_pair. destruct (of_pair x v k) eqn:E.
  - apply map_lookup_filter_None. right. intros w _. cbn. by rewrite E.
  - destruct (m !! k) as [w|] eqn:Em; [by apply map_lookup_filter_Some|]. apply map_lookup_filter_None. by left.
Qed.

Lemma of_fields_pair owner x v k perm d : row3 owner k perm d ->
  String.eqb (TextValue d [owner]) x && String.eqb (TextValue d ["pvc_id"]) v = of_pair x v k.
Proof. intros (-> & -> & _). done. Qed.

Lemma fold_Delete_frame res ids s : frame (in_resource res) s (fold_left (fun s' i => (Delete s' res i).1) ids s).
Proof. intros r id Hn. rewrite fold_Delete_Get, decide_False; [done|]. intros [-> _]. by apply Hn. Qed.

Lemma Delete_table {K V} `{Countable K} (idf : K -> string) (wf : K -> Prop) (row : K -> V -> object -> Prop) res s m k :
  (forall k k', wf k -> wf k' -> idf k = idf k' -> k = k') -> wf k -> table idf wf row res s m ->
  table idf wf row res (Delete s res (idf k)).1 (delete k m).
Proof.
  intros Hi Hw Ht. eapply table_delete; [done|done|exact Ht|]. intros id. rewrite Delete_Get. repeat case_decide; naive_solver.
Qed.

Lemma Delete_found s res id : (Delete s res id).2 = bool_decide (is_Some (Get s res id)).
Proof. unfold Delete. fold (Get s res id). by destruct (Get s res id). Qed.

Lemma sim_Unbind s st p v e : refines s st -> wf2 (p, v) ->
  refines (tx_store (DeleteProjectBindingCascadeTx p v (StoreTx s e)).1) (access_step st (Unbind p v)).
Proof.
  intros [Hf Hv Hb Hp Hg Hl] Hw. unfold DeleteProjectBindingCascadeTx, stm_bind, tx_Delete. cbn [tx_store tx_events].
  pose proof (Delete_found s projectBindingsResource (projectBindingID p v)) as Hdel.
  pose proof (table_get id2 wf2 row_binding id2_inj projectBindingsResource s (ac_bindings st) (p, v) Hw Hb) as Hk.
  change (id2 (p, v)) with (projectBindingID p v) in Hk.
  pose proof (frame_Delete s projectBindingsResource (projectBindingID p v)) as Hfr. pose proof (filed_Delete s projectBindingsResource (projectBindingID p v) Hf) as Hf'.
  pose proof (Delete_table id2 wf2 row_binding projectBindingsResource s (ac_bindings st) (p, v) id2_inj Hw Hb) as Hb'.
  change (id2 (p, v)) with (projectBindingID p v) in Hb'.
  destruct st as [vols binds proj grp pol]. cbn [access_step ac_bindings ac_project ac_group ac_policy ac_volumes] in *.
  destruct (Delete s projectBindingsResource (projectBindingID p v)) as [s1 del] eqn:Ed. cbn [fst snd] in *.
  destruct (binds !! (p, v)) as [g|].
  - destruct Hk as (rc & Hk & _). rewrite Hk, bool_decide_true in Hdel by done. subst del. unfold deleteMatchingTx. cbn [tx_store].
    assert (table id3 wf3 (row3 "project_id") projectPermissionsResource s1 proj) as Hp1 by (untouched Hfr).
    pose proof (drop_where id3 wf3 (row3 "project_id") projectPermissionsResource s1 proj (drop_pair p v proj) (of_binding p v) (of_pair p v) id3_inj Hf'
                  (fun k perm d Hr => of_fields_pair _ _ _ _ _ _ Hr) (drop_pair_lookup p v proj) Hp1) as Hp2.
    pose proof (delete_ids_store projectPermissionsResource (matching_ids s1 projectPermissionsResource (of_binding p v)) (StoreTx s1 e)) as Hs.
    destruct (delete_ids_tx _ _ _) as [t2 [x|x]]; unfold stm_ret; cbn [fst] in Hs |- *; rewrite Hs; cbn [tx_store];
      pose proof (fold_Delete_frame projectPermissionsResource (matching_ids s1 projectPermissionsResource (of_binding p v)) s1) as Hfr2;
      (split; cbn [ac_bindings ac_project ac_group ac_policy ac_volumes];
        [by apply filed_fold_Delete|untouched Hfr2; untouched Hfr|untouched Hfr2; exact Hb'|exact Hp2|untouched Hfr2; untouched Hfr|untouched Hfr2; untouched Hfr]).
  - rewrite Hk in Hdel. cbn in Hdel. subst del. unfold stm_ret. cbn [fst tx_store].
    assert (s1 = s) as -> by (revert Ed; unfold Delete; case_match; by intros [= <-]). done.
Qed.

Lemma delete_matching_store res f t :
  tx_store (deleteMatchingTx res f t).1 = fold_left (fun s i => (Delete s res i).1) (matching_ids (tx_store t) res f) (tx_store t) /\
  exists x, (deleteMatchingTx res f t).2 = Ok x.
Proof.
  unfold deleteMatchingTx. split; [apply delete_ids_store|]. generalize (matching_ids (tx_store t) res f). intros ids. revert t.
  induction ids as [|i ids IH]; intros t; [by exists tt|]. cbn [delete_ids_tx]. unfold stm_bind, tx_Delete. destruct (Delete _ _ _). apply IH.
Qed.

Lemma sim_RemoveVolume s st g v e : refines s st -> wf2 (g, v) ->
  refines (tx_store (DeleteGroupStorageCascadeTx g v (StoreTx s e)).1) (access_step st (RemoveVolume g v)).
Proof.
  intros [Hf Hv Hb Hp Hg Hl] Hw. unfold DeleteGroupStorageCascadeTx, stm_bind, tx_Delete. cbn [tx_store tx_events].
  pose proof (Delete_found s groupStorageResource (groupStorageID g v)) as Hdel.
  pose proof (table_get id2 wf2 row_volume id2_inj groupStorageResource s (ac_volumes st) (g, v) Hw Hv) as Hk.
  change (id2 (g, v)) with (groupStorageID g v) in Hk.
  pose proof (frame_Delete s groupStorageResource (groupStorageID g v)) as Hfr. pose proof (filed_Delete s groupStorageResource (groupStorageID g v) Hf) as Hf1.
  pose proof (Delete_table id2 wf2 row_volume groupStorageResource s (ac_volumes st) (g, v) id2_inj Hw Hv) as Hv'.
  change (id2 (g, v)) with (groupStorageID g v) in Hv'.
  destruct st as [vols binds proj grp pol]. cbn [access_step ac_bindings ac_project ac_group ac_policy ac_volumes] in *.
  destruct (Delete s groupStorageResource (groupStorageID g v)) as [s1 del] eqn:Ed. cbn [fst snd] in *.
  destruct (vols !! (g, v)) as [[]|].
  - destruct Hk as (rc & Hk & _). rewrite Hk in Hdel. cbn in Hdel. subst del.
    set (perms := matching_ids s1 storagePermissionsResource (of_volume g v)).
    destruct (delete_matching_store storagePermissionsResource (of_volume g v) (StoreTx s1 e)) as [Hs2 [x2 Hx2]]. cbn [tx_store] in Hs2. fold perms in Hs2.
    destruct (deleteMatchingTx storagePermissionsResource (of_volume g v) (StoreTx s1 e)) as [t2 r2]. cbn [fst snd] in *. subst r2.
    pose proof (fold_Delete_frame storagePermissionsResource perms s1) as Hfr2. pose proof (filed_fold_Delete storagePermissionsResource perms s1 Hf1) as Hf2.
    rewrite <- Hs2 in Hfr2, Hf2. set (pols := matching_ids (tx_store t2) storagePoliciesResource (of_volume g v)).
    destruct (delete_matching_store storagePoliciesResource (of_volume g v) t2) as [Hs3 [x3 Hx3]]. fold pols in Hs3.
    destruct (deleteMatchingTx storagePoliciesResource (of_volume g v) t2) as [t3 r3]. cbn [fst snd] in *. subst r3. unfold stm_ret. cbn [fst].
    pose proof (fold_Delete_frame storagePoliciesResource pols (tx_store t2)) as Hfr3. pose proof (filed_fold_Delete storagePoliciesResource pols (tx_store t2) Hf2) as Hf3.
    rewrite <- Hs3 in Hfr3, Hf3. split; cbn [ac_bindings ac_project ac_group ac_policy ac_volumes]; [done|..].
    + untouched Hfr3. untouched Hfr2.
    + untouched Hfr3. untouched Hfr2. untouched Hfr.
    + untouched Hfr3. untouched Hfr2. untouched Hfr.
    + untouched Hfr3. rewrite Hs2. eapply (drop_where id3 wf3 (row3 "group_id")); [apply id3_inj|exact Hf1| |apply drop_pair_lookup|untouched Hfr].
      intros k perm d Hr. by eapply of_fields_pair.
    + rewrite Hs3. eapply (drop_where id2 wf2 row_policy) with (P := fun k => bool_decide (k = (g, v))); [apply id2_inj|exact Hf2| | |untouched Hfr2; untouched Hfr].
      * intros [x y] perm d (H1 & H2 & _). unfold of_volume. rewrite H1, H2. cbn [fst snd].
        destruct (String.eqb_spec x g), (String.eqb_spec y v); cbn; case_bool_decide; naive_solver.
      * intros k. case_bool_decide; [subst; apply lookup_delete_eq|by apply lookup_delete_ne].
  - rewrite Hk in Hdel. cbn in Hdel. subst del. unfold stm_ret. cbn [fst tx_store].
    assert (s1 = s) as -> by (revert Ed; unfold Delete; case_match; by intros [= <-]). done.
Qed.

(** ** Requests *)

Lemma permissionRecord_cases d now :
  let g := TextValue d ["group_id"; "groupId"] in let v := TextValue d ["pvc_id"; "pvcId"] in let u := TextValue d ["user_id"; "userId"] in
  if str_empty g || str_empty v || str_empty u then exists text, permissionRecord d now = Err text
  else permissionRecord d now = Ok (list_to_map [("id", VString (storagePermissionID g v u)); ("group_id", VString g); ("pvc_id", VString v); ("user_id", VString u);
         ("permission", VString (normalizePermission (TextValue d ["permission"]))); ("updated_at", time_value now)]).
Proof.
  cbn zeta. unfold permissionRecord. cbn zeta. destruct (str_empty (TextValue d ["group_id"; "groupId"]) || str_empty (TextValue d ["pvc_id"; "pvcId"]) || _); cbn [orb]; [eauto|].
  unfold str_empty. by rewrite (proj2 (String.eqb_neq _ _) (proj1 (normalizePermission_text _))).
Qed.

Lemma saved_store o e m out : app_Store (saved o e m out).1 = app_Store out.1.
Proof. by destruct out as [a []]. Qed.
Lemma removed_store m out : app_Store (removed_quietly m out).1 = app_Store out.1.
Proof. by destruct out as [a []]. Qed.

Lemma batch_sim step ops_of items k a b st :
  (forall a st k item, refines (app_Store a) st -> Forall wf_op (ops_of item) ->
     refines (app_Store (step a k item).1) (fold_left access_step (ops_of item) st)) ->
  refines (app_Store a) st -> Forall wf_op (flat_map ops_of items) ->
  refines (app_Store (batch_items step k a b items).1) (fold_left access_step (flat_map ops_of items) st).
Proof.
  intros Hstep. revert k a b st. induction items as [|item items IH]; intros k a b st Hr Hw; [done|].
  cbn [flat_map] in *. apply Forall_app in Hw as [Hw1 Hw2]. rewrite fold_left_app. cbn [batch_items].
  pose proof (Hstep a st k item Hr Hw1) as Hs. destruct (step a k item) as [a' [e|]]; by apply IH.
Qed.

Lemma flat_map_singleton {A B} (f : A -> B) l : flat_map (fun x => [f x]) l = map f l.
Proof. induction l as [|x l IH]; [done|]. cbn. by rewrite IH. Qed.

Lemma item_sim r g del a st k item : refines (app_Store a) st -> Forall wf_op (item_op g del item) ->
  refines (app_Store (applyStoragePermissionItem a r k (item_in_group g item) del).1) (fold_left access_step (item_op g del item) st).
Proof.
  intros Hr Hw. unfold item_op, applyStoragePermissionItem in *. cbn zeta in *. set (it := item_in_group g item) in *. destruct del.
  - inversion Hw as [|? ? Hw1 _]; subst. unfold deleteStoragePermissionItem. cbn zeta.
    match goal with |- context [DeleteStoragePermissionWithEvent a ?x ?y ?z ?b] => pose proof (sim_ClearGroup a st x y z b Hr Hw1) as Hs end.
    by destruct (DeleteStoragePermissionWithEvent _ _ _ _ _) as [a' []].
  - pose proof (permissionRecord_cases it (sq_now r)) as Hc. cbn zeta in Hc. destruct (_ || _ || _); [destruct Hc as [text ->]; done|]. rewrite Hc.
    inversion Hw as [|? ? Hw1 _]; subst.
    match goal with |- context [UpsertStoragePermissionWithEvent a ?d ?b ?i ?t] => pose proof (sim_SetGroup a st _ _ _ (TextValue it ["permission"]) d b i t (sq_now r) Hr Hw1 eq_refl) as Hs end.
    by destruct (UpsertStoragePermissionWithEvent _ _ _ _ _) as [a' []].
Qed.

Lemma project_item_sim r p v (del : bool) a st k item :
  let op := if del then ClearProject p v (TextValue item ["user_id"; "userId"]) else SetProject p v (TextValue item ["user_id"; "userId"]) (TextValue item ["permission"]) in
  refines (app_Store a) st -> Forall wf_op [op] ->
  refines (app_Store (project_permission_item r p v del a k item).1) (fold_left access_step [op] st).
Proof.
  cbn zeta. intros Hr Hw. inversion Hw as [|? ? Hw1 _]; subst. unfold project_permission_item. cbn zeta. destruct del.
  - match goal with |- context [DeleteProjectPermissionWithEvent a ?x ?y ?z ?b] => pose proof (sim_ClearProject a st x y z b Hr Hw1) as Hs end.
    by destruct (DeleteProjectPermissionWithEvent _ _ _ _ _) as [a' []].
  - match goal with |- context [UpsertProjectPermissionWithEvent a ?d ?b ?i ?t] =>
      pose proof (sim_SetProject a st p v _ (TextValue item ["permission"]) b i t (sq_now r) Hr Hw1) as Hs end.
    by destruct (UpsertProjectPermissionWithEvent _ _ _ _ _) as [a' []].
Qed.

(** One request, on the store and on the maps. *)
Definition simulated (rt : access_route) : Prop := forall a st r,
  refines (app_Store a) st -> Forall wf_op (request_ops rt r) ->
  refines (app_Store (serve a (rt, r))) (fold_left access_step (effect (app_Store a) (rt, r)) st).

(** The checks of a route decide between its operations and nothing. *)
Ltac start := intros a st r Hr Hw; unfold effect, may; cbn [fst snd serve reads_body negb orb].
Ltac user := destruct (requireUser _) as [u0|]; [cbn [res_bind]|done].
Ltac allowed := unfold require, guard_else; match goal with |- context [if ?b then Ok tt else _] => destruct b; [|done] end; cbn [res_bind].
Ltac sole_op Hw := inversion Hw as [|? ? Hw1 _]; subst; cbn [fold_left handle].

Lemma serve_PostPermission : simulated PostPermission.
Proof.
  start. unfold createStoragePermission, request_ops, decode_body, decodes, payload_of in *. user.
  destruct (sq_body r) as [payload|]; cbn [res_bind]; [rewrite andb_true_r|by rewrite andb_false_r]. allowed.
  pose proof (permissionRecord_cases payload (sq_now r)) as Hc. cbn zeta in Hc, Hw |- *.
  destruct (str_empty (TextValue payload ["group_id"; "groupId"]) || _ || _); [destruct Hc as [text ->]; done|]. rewrite Hc.
  sole_op Hw. rewrite saved_store. by eapply sim_SetGroup.
Qed.

Lemma serve_DeletePermission : simulated DeletePermission.
Proof. start. unfold deleteStoragePermission. user. rewrite andb_true_r. allowed. sole_op Hw. rewrite removed_store. by apply sim_ClearGroup. Qed.

Lemma serve_PostPolicy : simulated PostPolicy.
Proof.
  start. unfold createStoragePolicy, request_ops, decode_body, decodes, payload_of in *. user.
  destruct (sq_body r) as [payload|]; cbn [res_bind]; [rewrite andb_true_r|by rewrite andb_false_r]. allowed. sole_op Hw.
  rewrite saved_store. by eapply sim_SetPolicy.
Qed.

Lemma serve_batch (del : bool) : simulated (if del then DeleteBatch else PostBatch).
Proof.
  destruct del; start; unfold batchSetStoragePermissions, batchDeleteStoragePermissions, batchStoragePermissions, request_ops, decode_body, decodes, payload_of in *; user;
    (destruct (sq_body r) as [payload|]; cbn [res_bind]; [rewrite andb_true_r|by rewrite andb_false_r]); allowed.
  - pose proof (batch_sim (fun a k item => applyStoragePermissionItem a r k (item_in_group (TextValue payload ["group_id"; "groupId"]) item) true)
                  (item_op (TextValue payload ["group_id"; "groupId"]) true) (payloadItems payload) 0 a batchResult st
                  (fun a st k item => item_sim r _ true a st k item) Hr Hw) as Hs. by destruct (batch_items _ _ _ _ _).
  - pose proof (batch_sim (fun a k item => applyStoragePermissionItem a r k (item_in_group (TextValue payload ["group_id"; "groupId"]) item) false)
                  (item_op (TextValue payload ["group_id"; "groupId"]) false) (payloadItems payload) 0 a batchResult st
                  (fun a st k item => item_sim r _ false a st k item) Hr Hw) as Hs. by destruct (batch_items _ _ _ _ _).
Qed.

(** The manager of the project. *)
Ltac manager := match goal with |- context [requireProjectManager ?c ?s ?r ?p ?u] => destruct (requireProjectManager c s r p u); [cbn [res_bind]|done] end.

Lemma serve_PutProjectPermission : simulated PutProjectPermission.
Proof.
  start. unfold setProjectBindingPermission, request_ops, decode_body, decodes, payload_of in *. user. manager.
  destruct (sq_body r) as [payload|]; cbn [res_bind andb]; [|done]. sole_op Hw. rewrite saved_store. by apply sim_SetProject.
Qed.

Lemma serve_DeleteProjectPermission : simulated DeleteProjectPermission.
Proof. start. unfold deleteProjectBindingPermission. user. manager. sole_op Hw. rewrite removed_store. by apply sim_ClearProject. Qed.

Lemma serve_project_batch (del : bool) : simulated (if del then DeleteProjectBatch else PutProjectBatch).
Proof.
  destruct del; start; unfold batchSetProjectBindingPermissions, batchDeleteProjectBindingPermissions, batchProjectPermissions, request_ops, decode_body, decodes, payload_of in *;
    user; manager; (destruct (sq_body r) as [payload|]; cbn [res_bind andb]; [|done]); cbn zeta in *; rewrite <- flat_map_singleton in Hw |- *.
  - pose proof (batch_sim (project_permission_item r (projectPathID r) (pvcPathID r) true) _ (payloadItems payload) 0 a batchResult st
                  (fun a st k item => project_item_sim r _ _ true a st k item) Hr Hw) as Hs. by destruct (batch_items _ _ _ _ _).
  - pose proof (batch_sim (project_permission_item r (projectPathID r) (pvcPathID r) false) _ (payloadItems payload) 0 a batchResult st
                  (fun a st k item => project_item_sim r _ _ false a st k item) Hr Hw) as Hs. by destruct (batch_items _ _ _ _ _).
Qed.

Lemma serve_PostBinding : simulated PostBinding.
Proof.
  start. unfold createProjectBinding, request_ops, decode_body, decodes, payload_of in *. user. manager.
  destruct (sq_body r) as [payload|]; cbn [res_bind andb]; [|done]. cbn zeta in *. unfold require, guard_else.
  destruct (str_empty (TextValue payload ["group_id"; "groupId"]) || _); cbn [negb res_bind]; [done|]. sole_op Hw. destruct Hw1 as [Hw1 Hw2].
  rewrite saved_store. apply sim_Bind; [done|done|done|..]; rewrite !list_to_map_cons; rewrite ?lookup_insert_ne by discriminate; apply lookup_insert_eq.
Qed.

Lemma serve_DeleteBinding : simulated DeleteBinding.
Proof. start. unfold deleteProjectBinding. user. manager. sole_op Hw. rewrite delete_cascade_store. by apply sim_Unbind. Qed.

Lemma serve_DeleteVolume : simulated DeleteVolume.
Proof. start. unfold deleteGroupStorage. user. rewrite andb_true_r. allowed. sole_op Hw. rewrite delete_cascade_store. by apply sim_RemoveVolume. Qed.

Lemma serve_PostVolume : simulated PostVolume.
Proof.
  start. unfold createGroupStorage, request_ops, decode_body, decodes, payload_of in *. user. allowed.
  destruct (sq_body r) as [payload|]; cbn [res_bind andb]; [|done]. cbn zeta in *.
  destruct (str_empty (groupPathID r)); cbn [orb negb]; [done|].
  set (name := FirstNonBlank [TextValue payload ["name"]; TextValue payload ["pvc_id"; "pvcId"]]) in *. clearbody name.
  destruct name as [|c name]; [done|]. unfold str_empty, require, guard_else. cbn [String.eqb negb res_bind]. sole_op Hw.
  rewrite saved_store. apply sim_AddVolume; [done|done|]. unfold group_storage_record. rewrite list_to_map_cons. apply lookup_insert_eq.
Qed.

Lemma serve_refines a st x : handled x.1 = true -> refines (app_Store a) st -> Forall wf_op (request_ops x.1 x.2) ->
  refines (app_Store (serve a x)) (fold_left access_step (effect (app_Store a) x) st).
Proof.
  destruct x as [rt r]. cbn [fst snd]. intros Hh. destruct rt; try discriminate Hh; clear Hh; revert a st r;
    [apply serve_PostVolume|apply serve_DeleteVolume|apply serve_PostBinding|apply serve_DeleteBinding|apply serve_PutProjectPermission
    |apply serve_DeleteProjectPermission|apply (serve_project_batch false)|apply (serve_project_batch true)|apply serve_PostPermission
    |apply serve_DeletePermission|apply (serve_batch false)|apply (serve_batch true)|apply serve_PostPolicy].
Qed.

(** ** Histories *)

(** The maps after the requests: each changes them by its effect in the state it meets. *)
Fixpoint run_access (a : app) (st : access_state) (xs : list (access_route * service_request)) : access_state :=
  match xs with
  | [] => st
  | x :: rest => run_access (serve a x) (fold_left access_step (effect (app_Store a) x) st) rest
  end.

Definition access_resources : list string :=
  [groupStorageResource; projectBindingsResource; projectPermissionsResource; storagePermissionsResource; storagePoliciesResource].

Lemma refines_empty s : filed s -> (forall res id, res ∈ access_resources -> Get s res id = None) -> refines s no_access.
Proof. intros Hf Hn. split; [done|..]; apply table_empty; intros id; apply Hn; unfold access_resources; set_solver. Qed.

(** A request to a handler, with identifiers as they are in use. *)
Definition regular (x : access_route * service_request) : Prop := handled x.1 = true /\ Forall wf_op (request_ops x.1 x.2).

Lemma run_refines xs a st : refines (app_Store a) st -> Forall regular xs ->
  refines (app_Store (fold_left serve xs a)) (run_access a st xs).
Proof.
  revert a st. induction xs as [|x xs IH]; intros a st Hr Hw; [done|]. apply Forall_cons in Hw as [[Hh Hx] Hw]. cbn [fold_left run_access]. apply IH; [|done].
  by apply serve_refines.
Qed.

Lemma TextValue_record_map keys rc : "id" ∉ keys -> TextValue (record_map rc) keys = TextValue (rec_Data rc) keys.
Proof. intros Hn. by apply TextValue_agree, record_map_agree. Qed.

Lemma refines_permission s st p g v u : refines s st -> text_id p -> text_id g -> text_id v -> Trimmed u ->
  EffectiveStoragePermission s p g v u = permission_in st p g v u.
Proof.
  intros [_ _ _ Hp Hg Hl] Tp Tg Tv Tu. unfold EffectiveStoragePermission, permission_in, get, storageRecordMap.
  pose proof (table_get id3 wf3 _ id3_inj _ s _ (p, v, u) (conj (conj Tp Tv) Tu) Hp) as H1. change (id3 (p, v, u)) with (projectPermissionID p v u) in H1.
  destruct (ac_project st !! (p, v, u)) as [perm|].
  { destruct H1 as (rc & -> & _ & _ & Ht & Hn). cbn [fmap option_fmap option_map]. by rewrite TextValue_record_map, Ht by set_solver. }
  rewrite H1. cbn [fmap option_fmap option_map].
  pose proof (table_get id3 wf3 _ id3_inj _ s _ (g, v, u) (conj (conj Tg Tv) Tu) Hg) as H2. change (id3 (g, v, u)) with (storagePermissionID g v u) in H2.
  destruct (ac_group st !! (g, v, u)) as [perm|].
  { destruct H2 as (rc & -> & _ & _ & Ht & Hn). cbn [fmap option_fmap option_map]. by rewrite TextValue_record_map, Ht by set_solver. }
  rewrite H2. cbn [fmap option_fmap option_map].
  pose proof (table_get id2 wf2 _ id2_inj _ s _ (g, v) (conj Tg Tv) Hl) as H3. change (id2 (g, v)) with (storagePolicyID g v) in H3.
  destruct (ac_policy st !! (g, v)) as [perm|]; [|by rewrite H3].
  destruct H3 as (rc & -> & _ & _ & Ht & Hn). cbn [fmap option_fmap option_map default]. by rewrite TextValue_record_map, Ht by set_solver.
Qed.

(** C27: Storage permissions refine their specification: started without volumes, bindings and
    permissions, and after any history of requests to the handlers that change them
    (identifiers are text without a colon), the group a project's volume is bound to and the
    permission in force for a user are those of the maps: the permission last given in the
    project, else the one last given in the group, else the last default of the volume, else
    none; removing a binding or a volume removes what was given with it, and a request of a
    caller who is not entitled to it changes nothing.  Entitled to a group permission is the
    manager of the group the request names: an item of a batch is carried out for the group
    the item names (batch_writes_other_group).  The routes of the table that the generic
    record handler serves are not in these histories: they write permissions outside the maps
    (generic_post_gives_permission). *)
Theorem permissions_refine a xs p v u :
  filed (app_Store a) -> (forall res id, res ∈ access_resources -> Get (app_Store a) res id = None) ->
  Forall regular xs -> text_id p -> text_id v -> Trimmed u ->
  let s := app_Store (fold_left serve xs a) in let st := run_access a no_access xs in
  ((fun b => TextValue b ["group_id"; "groupId"]) <$> FindProjectStorageBinding s p v) = ac_bindings st !! (p, v) /\
  (forall g, text_id g -> EffectiveStoragePermission s p g v u = permission_in st p g v u).
Proof.
  intros Hf Hn Hw Tp Tv Tu. cbn zeta. pose proof (run_refines xs a no_access (refines_empty _ Hf Hn) Hw) as Hr. split; [|intros g Tg; by apply refines_permission].
  destruct Hr as [_ _ Hb _ _ _]. pose proof (table_get id2 wf2 _ id2_inj _ _ _ (p, v) (conj Tp Tv) Hb) as Hk.
  unfold FindProjectStorageBinding, get, storageRecordMap. change (id2 (p, v)) with (projectBindingID p v) in Hk.
  destruct (ac_bindings _ !! (p, v)) as [g|]; [|by rewrite Hk]. destruct Hk as (rc & -> & Hg). cbn [fmap option_fmap option_map].
  by rewrite TextValue_record_map, Hg by set_solver.
Qed.

(** ** Who changes what *)














End Requests.

(** ** A demonstration *)

#[local] Existing Instance storage_golib.

Definition bind_own : access_route * service_request :=
  (PostBinding, request_of "u1" {[ "group_id" := VString "G1"; "pvc_id" := VString "data" ]} {["id" := "P1"]} 5).
Definition own_policy : access_route * service_request :=
  (PostPolicy, request_of "u1" {[ "group_id" := VString "G1"; "pvc_id" := VString "data"; "default_permission" := VString "read" ]} ∅ 6).
Definition give_write : access_route * service_request :=
  (PutProjectPermission, request_of "u1" {[ "user_id" := VString "u2"; "permission" := VString "write" ]} {[ "id" := "P1"; "pvcId" := "data" ]} 7).
Definition stranger_write : access_route * service_request :=
  (PutProjectPermission, request_of "u9" {[ "user_id" := VString "u9"; "permission" := VString "write" ]} {[ "id" := "P1"; "pvcId" := "data" ]} 8).
Definition access_history : list (access_route * service_request) := [bind_own; own_policy; give_write; stranger_write].

Lemma text_id_of t : negb (str_empty t) && String.eqb (TrimSpace t) t && negb (existsb (Ascii.eqb colon) (bytes_of t)) = true -> text_id t.
Proof.
  rewrite !andb_true_iff, !negb_true_iff. intros [[H1 H2] H3]. split; [by apply String.eqb_neq|]. split; [by apply Trimmed_of_fix, String.eqb_eq|].
  intros Hin. assert (existsb (Ascii.eqb colon) (bytes_of t) = true) as Hc; [|congruence]. apply existsb_Exists. exists colon. by rewrite Ascii.eqb_refl.
Qed.

Lemma storage_store_filed : filed storage_store.
Proof. unfold storage_store. cbn [fold_left]. unfold put_row. do 2 apply filed_Create. intros res id rc. done. Qed.

(** The history gives u2 the permission to write, everyone else of the group to read, and
    the stranger no permission of his own. *)
Lemma permissions_refine_witness :
  let s := app_Store (fold_left (serve storage_config) access_history storage_app) in
  EffectiveStoragePermission s "P1" "G1" "data" "u2" = "read_write" /\ EffectiveStoragePermission s "P1" "G1" "data" "u9" = "read_only" /\
  ((fun b => TextValue b ["group_id"; "groupId"]) <$> FindProjectStorageBinding s "P1" "data") = Some "G1".
Proof.
  cbv zeta.
  assert (forall u, Trimmed u -> let s := app_Store (fold_left (serve storage_config) access_history storage_app) in
    let st := run_access storage_config storage_app no_access access_history in
    ((fun b => TextValue b ["group_id"; "groupId"]) <$> FindProjectStorageBinding s "P1" "data") = ac_bindings st !! ("P1", "data") /\
    (forall g, text_id g -> EffectiveStoragePermission s "P1" g "data" u = permission_in st "P1" g "data" u)) as Hall.
  { intros u Hu. apply (permissions_refine storage_config storage_app access_history "P1" "data" u); try exact Hu; try (apply text_id_of; by vm_compute).
    - apply storage_store_filed.
    - intros res id Hin. unfold access_resources in Hin. rewrite !elem_of_cons, elem_of_nil in Hin.
      destruct Hin as [-> |[-> |[-> |[-> |[-> |[]]]]]]; vm_compute; reflexivity.
    - repeat constructor; try reflexivity; cbn; first [apply text_id_of|apply Trimmed_of_fix]; by vm_compute. }
  destruct (Hall "u2") as [Hb H2]; [apply Trimmed_of_fix; by vm_compute|]. destruct (Hall "u9") as [_ H9]; [apply Trimmed_of_fix; by vm_compute|].
  rewrite (H2 "G1"), (H9 "G1"), Hb by (apply text_id_of; by vm_compute). split; [by vm_compute|]. split; by vm_compute.
Defined.


(** ** Where the checks fall short *)

(** The table has a route POST /api/v1/projects/{id}/storage/permissions without a handler: the
    generic one stores the permission whoever asks, for the project and the user the body
    names. *)
Example generic_post_gives_permission :
  let x := (Generic GPostProjectPermission false, request_of "u9" {[ "id" := VString "P1:data:u9"; "permission" := VString "read_write" ]} {["id" := "P1"]} 5) in
  (match requireProjectManager storage_config storage_store x.2 "P1" "u9" with Ok _ => false | Err _ => true end) = true /\
  EffectiveStoragePermission (app_Store (serve storage_config storage_app x)) "P1" "G1" "data" "u9" = "read_write".
Proof. split; by vm_compute. Qed.

(** The manager of G1 names G1 in the request and G2 in the item: the batch writes the
    permissions of G2. *)
Example batch_writes_other_group :
  let x := (PostBatch, request_of "u1" {[ "group_id" := VString "G1"; "items" := VList [VMap
             {[ "group_id" := VString "G2"; "pvc_id" := VString "secret"; "user_id" := VString "u1"; "permission" := VString "write" ]}] ]} ∅ 5) in
  canManageGroup storage_config storage_store x.2 "G2" "u1" = false /\
  EffectiveStoragePermission (app_Store (serve storage_config storage_app x)) "P9" "G2" "secret" "u1" = "read_write".
Proof. split; by vm_compute. Qed.

(** The manager of P1 binds a volume of G2, whose permissions are none of his, and gives
    himself the permission in the project: it goes before those of the group. *)
Definition foreign_volume : store := put_row storage_store
  (groupStorageResource, {[ "id" := VString "G2:secret"; "group_id" := VString "G2"; "pvc_id" := VString "secret"; "status" := VString "created" ]}).
Definition foreign_requests : list (access_route * service_request) :=
  [(PostBinding, request_of "u1" {[ "group_id" := VString "G2"; "pvc_id" := VString "secret" ]} {["id" := "P1"]} 5);
   (PutProjectPermission, request_of "u1" {[ "user_id" := VString "u1"; "permission" := VString "write" ]} {[ "id" := "P1"; "pvcId" := "secret" ]} 6)].
Example project_manager_takes_foreign_volume :
  let s := app_Store (fold_left (serve storage_config) foreign_requests (App_ foreign_volume NewEventBus)) in
  canReadGroup storage_config foreign_volume (request_of "u1" ∅ ∅ 5) "G2" "u1" = false /\
  EffectiveStoragePermission s "P1" "G2" "secret" "u1" = "read_write".
Proof. split; by vm_compute. Qed.

(** Identifiers with a colon collide: the permission given on the volume v:w of group g is
    the one of the volume w of group g:v. *)
Example joined_ids_collide : storagePermissionID "g" "v:w" "u" = storagePermissionID "g:v" "w" "u".
Proof. reflexivity. Qed.

(** Every cache binding made by POST gets the identifier of its project, from the path: the
    second one replaces the first. *)
Example cache_bindings_overwrite :
  let post key a := (createCacheBinding storage_config a (request_of "u1"
    {[ "storage_binding_id" := VString "data"; "cache_key" := VString key; "scratch_profile" := VString "local" ]} {["id" := "P1"]} 5)).1 in
  let a := post "k2" (post "k1" storage_app) in
  length (ListCacheBindings (app_Store a) "P1") = 1%nat /\
  ((fun row => TextValue row ["cache_key"]) <$> GetCacheBinding (app_Store a) "P1" "P1") = Some "k2".
Proof. split; by vm_compute. Qed.
