(* ===== verification/StorageDispatch.v ===== *)
(** * The dispatcher asks the storage service
    (storage_mount_client.go of the workload service and mount_plan_contracts.go of the
    storage service, composed)

    The dispatcher of the workload service resolves the volumes of a job through the
    internal JSON client; the storage service answers from its records.  Here the client of
    WorkloadStorage is the contract of StoragePlans behind the encoding of the request and
    the decoding of the answer. *)

From stdpp Require Import base gmap strings list fin_maps.
From Stdlib Require Import ZArith Lia Ascii.
From S2P Require Import Prelude GoValue Store EventBus Crud Tx InputLimits Config Auth Guards SchedulerHttp WorkloadTypes WorkloadJobs WorkloadDispatch Unstructured WorkloadManifest WorkloadText WorkloadInjectors WorkloadStorage ServiceHttp StorageAccess StorageRepository StorageHandlers StoragePlans.
Local Open Scope Z_scope.
Local Open Scope go_scope.

Section Dispatch.
Context `{GoLib} `{UnstructuredLib} {ip : Type} (cfg : config ip).

(** The body of the request, with its empty fields left out. *)
Definition omit_empty (key text : string) : list (string * any) := if str_empty text then [] else [(key, VString text)].

Definition selector_payload (m : storageMountPlanSelector) : any :=
  VMap (list_to_map ([("pvc_id", VString (ss_PVCID m))] ++ omit_empty "name" (ss_Name m) ++ omit_empty "mount_path" (ss_MountPath m) ++
    (if ss_ReadOnly m then [("read_only", VBool true)] else []) ++ omit_empty "sub_path" (ss_SubPath m))).

Definition request_payload (req : WorkloadStorage.storageMountPlanRequest) : object :=
  {[ "user_id" := VString (mr_UserID req); "namespace" := VString (mr_Namespace req); "mounts" := VList (map selector_payload (mr_Mounts req)) ]}.

(** The plan as the client decodes it. *)
Definition decoded_plan (plan : storageMountPlanResponse) : storageMountPlan :=
  MountPlan (map (fun m => PlanMount (StoragePlans.sm_Name m) (StoragePlans.sm_ClaimName m) (StoragePlans.sm_MountPath m) (StoragePlans.sm_ReadOnly m) (StoragePlans.sm_SubPath m))
               (pl_ManifestMounts plan))
    (map (fun op => ShareOp (sh_SourceNamespace op) (sh_SourcePVC op) (sh_TargetPVC op)) (pl_PVCShareOperations plan)).

(** The request as the storage service receives it: [r] has the headers of the calling
    service, the clock and the identifiers. *)
Definition storage_request (r : service_request) (projectID : string) (req : WorkloadStorage.storageMountPlanRequest) : service_request :=
  ServiceRequest (sq_http r) (Ok (request_payload req)) {["project_id" := projectID]} (sq_now r) (sq_uuid r) (sq_newid r).

(** internalStorageMountPlanClient.Resolve *)
Definition Resolve (a : app) (r : service_request) (projectID : string) (req : WorkloadStorage.storageMountPlanRequest) : result derror storageMountPlan :=
  match (resolveStorageMountPlanContract cfg a (storage_request r projectID req)).2 with
  | Answer plan => Ok (decoded_plan plan)
  | Refused (status, _) =>
      if (400 <=? status) && (status <? 500) then Err (invalid_manifest "%w: storage mount plan returned HTTP %d" [VInt status])
      else Err (plain_error (sprintf "storage mount plan returned HTTP %d" [VInt status]))
  end.

(** ** What reaches the cluster *)

Lemma payload_user req : TextValue (request_payload req) ["user_id"; "userId"] = TrimSpace (mr_UserID req).
Proof.
  unfold TextValue, request_payload. cbn [first_key]. unfold mget. rewrite lookup_insert_eq. cbn [from_option id text_of]. unfold nonempty.
  destruct (str_empty (TrimSpace (mr_UserID req))) eqn:E; [|done]. rewrite !lookup_insert_ne, lookup_singleton_ne by discriminate. cbn. symmetry. by apply String.eqb_eq.
Qed.

Lemma contract_plan a r projectID req plan :
  (resolveStorageMountPlanContract cfg a (storage_request r projectID req)).2 = Answer plan ->
  exists q, pq_ProjectID q = TrimSpace projectID /\ pq_UserID q = TrimSpace (mr_UserID req) /\ resolveStorageMountPlan (app_Store a) q = Ok plan.
Proof.
  unfold resolveStorageMountPlanContract. destruct (requireStorageServiceAuth _ _); [|done]. cbn [res_bind]. unfold decode_body. cbn [sq_body storage_request res_bind].
  unfold storageMountPlanRequestFromPayload. cbn zeta. set (q := PlanRequest _ _ _ _). destruct (existsb _ _); [done|]. destruct (_ || _); [done|].
  destruct (resolveStorageMountPlan (app_Store a) q) as [plan'|[st tx]] eqn:E; cbn [status_error res_bind]; [|done]. intros [= <-]. exists q.
  split_and!; [|exact (payload_user req)|exact E]. unfold q, PathValue. cbn [pq_ProjectID sq_path storage_request]. by rewrite lookup_singleton_eq.
Qed.

(** A volume the user of the job may use in a mode, through the binding of the project. *)
Definition may_use (s : store) (projectID userID pvcID : string) (readOnly : bool) (sourceNs sourcePVC target : string) : Prop :=
  exists binding source, entitled s projectID userID pvcID readOnly binding source /\
    sourceNs = groupStorageNamespace source (TextValue binding ["group_id"; "groupId"]) /\
    sourcePVC = source_claim source pvcID /\ target = target_claim binding pvcID.

Lemma plan_entitled s q plan : resolveStorageMountPlan s q = Ok plan ->
  Forall (fun op => exists pvcID ro, may_use s (pq_ProjectID q) (pq_UserID q) pvcID ro (sh_SourceNamespace op) (sh_SourcePVC op) (sh_TargetPVC op)) (pl_PVCShareOperations plan) /\
  Forall (fun m => exists pvcID ns pvc, may_use s (pq_ProjectID q) (pq_UserID q) pvcID (StoragePlans.sm_ReadOnly m) ns pvc (StoragePlans.sm_ClaimName m)) (pl_ManifestMounts plan).
Proof.
  intros (outs & Hf & ->)%mount_plan_exact. cbn [pl_PVCShareOperations pl_ManifestMounts].
  split; induction Hf as [|mount [op mm] mounts outs (binding & source & He & H1 & H2) _ IH]; cbn; try constructor; cbn in H1, H2.
  - subst op. exists (rm_PVCID mount), (rm_ReadOnly mount), binding, source. by split_and!.
  - exact IH.
  - subst mm. destruct (str_empty (rm_MountPath mount)); [exact IH|]. constructor; [|exact IH].
    eexists (rm_PVCID mount), _, _, binding, source. cbn. by split_and!.
Qed.

Lemma first_by_sub {A} (key : A -> string) seen l x : x ∈ first_by key seen l -> x ∈ l.
Proof. revert seen. induction l as [|y l IH]; intros seen; cbn; [done|]. case_bool_decide; [intros Hx|rewrite elem_of_cons; intros [->|Hx]]; set_solver. Qed.

(** C28: What the storage plan of a job holds was permitted: whatever volumes a job asks for
    and however it spells them, every volume the dispatcher is told to share into the job's
    namespace, and every mount specification the plan hands on to the manifest, names a
    volume the storage service found bound to the project of the job, in service, and
    permitted to the user of the job; and a specification that is not read-only is for a
    volume the user may write.  The claim is about the plan, not about the pods: the
    read-only flag is set on the first mount of the volume's name in a container, and a second
    mount of it that the job's own manifest has stays writable (second_mount_writable). *)
Theorem dispatched_mounts_permitted unmarshal_any fuel a r job namespace plan :
  resolveDispatchStorageMountPlan unmarshal_any fuel (Some (Resolve a r)) job namespace = Ok plan ->
  let projectID := TextValue job ["project_id"; "projectId"] in let userID := TextValue job ["user_id"; "userId"] in
  (forall op, op ∈ pvcMountOpsFromPlan plan ->
     exists pvcID ro, may_use (app_Store a) projectID userID pvcID ro (so_SourceNamespace op) (so_SourcePVC op) (so_TargetPVC op)) /\
  (forall m, m ∈ storageMountSpecsFromPlan plan ->
     exists pvcID ns pvc target, may_use (app_Store a) projectID userID pvcID (WorkloadStorage.sm_ReadOnly m) ns pvc target /\
       WorkloadStorage.sm_ClaimName m = TrimSpace target).
Proof.
  unfold resolveDispatchStorageMountPlan. destruct (storageMountPlanSelectorsFromJob _ _ _) as [[|sel sels]|]; [| |done].
  { intros [= <-]. split; [intros op Hop|intros m Hm]; cbn in *; [by apply elem_of_nil in Hop|by apply elem_of_nil in Hm]. }
  cbn zeta. destruct (_ || _); [done|]. unfold Resolve. destruct (resolveStorageMountPlanContract _ _ _).2 as [p|[st b]] eqn:Ec; [|by case_match].
  intros [= <-]. apply contract_plan in Ec as (q & Hp & Hu & Hok). cbn [mr_UserID] in Hu. rewrite TextValue_Trimmed in Hp, Hu.
  apply plan_entitled in Hok as [Hops Hms]. rewrite Hp, Hu, Forall_forall in Hops. rewrite Hp, Hu, Forall_forall in Hms. split.
  - intros op Hop. apply first_by_sub, list_elem_of_filter in Hop as [_ Hop]. cbn in Hop. apply list_elem_of_fmap in Hop as (op' & -> & Hop'). by apply Hops.
  - intros m Hm. unfold storageMountSpecsFromPlan in Hm. apply list_elem_of_omap in Hm as (pm & Hpm & Hm). cbn in Hpm.
    apply list_elem_of_fmap in Hpm as (mm & -> & Hmm). cbn in Hm. destruct (_ || _) in Hm; [done|]. injection Hm as <-. cbn.
    destruct (Hms mm Hmm) as (pvcID & ns & pvc & Hmay). eauto 10.
Qed.
End Dispatch.

(** ** A demonstration *)

#[local] Existing Instance reference_lib.
#[local] Existing Instance StorageHandlers.storage_golib.

Definition mounted_store : store := fold_left put_row
  [ (groupStorageResource, {[ "id" := VString "G1:data"; "group_id" := VString "G1"; "pvc_id" := VString "data"; "status" := VString "running" ]});
    (projectBindingsResource, {[ "id" := VString "P1:data"; "project_id" := VString "P1"; "group_id" := VString "G1"; "pvc_id" := VString "data" ]});
    (storagePoliciesResource, {[ "id" := VString "G1:data"; "group_id" := VString "G1"; "pvc_id" := VString "data"; "default_permission" := VString "read_only" ]}) ] storage_store.
Definition mounting_job (readOnly : bool) : object :=
  {[ "project_id" := VString "P1"; "user_id" := VString "u1"; "storage_mounts" := VList [VMap
     {[ "pvc_id" := VString "data"; "mount_path" := VString "/data"; "read_only" := VBool readOnly ]}] ]}.
Definition mounting_caller : service_request := request_of "workload" ∅ ∅ 5.
Definition mounting_plan (readOnly : bool) : result derror storageMountPlan :=
  resolveDispatchStorageMountPlan (fun _ => None) 3 (Some (Resolve storage_config (App_ mounted_store NewEventBus) mounting_caller)) (mounting_job readOnly) "proj-p1".

Lemma dispatched_mounts_permitted_witness :
  exists plan op, mounting_plan true = Ok plan /\ op ∈ pvcMountOpsFromPlan plan /\ so_SourceNamespace op = "group-G1-storage" /\
    exists pvcID ro, may_use mounted_store "P1" "u1" pvcID ro (so_SourceNamespace op) (so_SourcePVC op) (so_TargetPVC op).
Proof.
  assert (mounting_plan true = Ok (MountPlan [PlanMount "data" "data" "/data" true ""] [ShareOp "group-G1-storage" "data" "data"])) as E by (vm_compute; reflexivity).
  set (plan := MountPlan _ _) in E. set (op := ShareOp "group-G1-storage" "data" "data") in plan.
  assert (op ∈ pvcMountOpsFromPlan plan) as Hop by (vm_compute; left).
  exists plan, op. split; [exact E|]. split; [exact Hop|]. split; [reflexivity|]. clearbody plan. unfold mounting_plan in E.
  destruct (dispatched_mounts_permitted storage_config _ _ _ _ _ _ _ E) as [Hops _]. specialize (Hops op Hop).
  replace (TextValue (mounting_job true) ["project_id"; "projectId"]) with "P1" in Hops by (vm_compute; reflexivity).
  replace (TextValue (mounting_job true) ["user_id"; "userId"]) with "u1" in Hops by (vm_compute; reflexivity). exact Hops.
Defined.

(** Asking to write a volume that may only be read fails the job. *)
Example write_denied : match mounting_plan false with Ok _ => false | Err e => match de_kind e with ErrInvalidManifest => true | _ => false end end = true.
Proof. vm_compute. reflexivity. Qed.

(** Two data sets whose keys differ only in punctuation get one label: one volume name and
    one directory for both. *)
Example stage_in_labels_collide : storagePlanName "imagenet/v1" "dataset" = storagePlanName "imagenet.v1" "dataset".
Proof. vm_compute. reflexivity. Qed.
