(* ===== verification/ServiceProjection.v ===== *)
(** * Projections whose read model is kept in the store of the service
    (internal/platform/projection.go, as the services call it)

    [App.RunProjection] with an [apply] function that writes the records of the service:
    the dead letters and the read model share the application's store.  The counters of
    the projection registry, which only the status endpoint reads, are those of
    [Projection] and are not repeated. *)

From stdpp Require Import base gmap strings list fin_maps.
From Stdlib Require Import ZArith Lia.
From S2P Require Import Prelude GoValue Store EventBus Crud Tx Projection InputLimits Config Auth ServiceHttp Tables.
Local Open Scope Z_scope.

Section ServiceProjection.
Context `{GoLib} (apply : store -> event -> store * option string) (consumer : string) (now : Z).

(** One turn of the loop; the flag says that some [Consume] failed. *)
Definition project_service_event (st : app * bool) (e : event) : app * bool :=
  let '(a, failed) := st in
  match Consume (app_Events a) consumer e with
  | (b, Err _) => (App_ (app_Store a) b, true)
  | (b, Ok false) => (App_ (app_Store a) b, failed)
  | (b, Ok true) =>
      match apply (app_Store a) e with
      | (s, Some cause) => (App_ (deadLetterEvent s consumer e cause now).1 b, failed)
      | (s, None) => (App_ (resolveDeadLetterEvent s consumer e) b, failed)
      end
  end.

Definition run_service_projection (a : app) : app :=
  let '(a1, failed) := fold_left project_service_event (bus_outbox (app_Events a)) (a, false) in
  if failed then a1 else App_ (app_Store a1) (Checkpoint (app_Events a1) consumer).

(** ** What a run touches *)

Lemma frame_deadLetterEvent s e cause :
  frame (in_resource deadLetterResource) s (deadLetterEvent s consumer e cause now).1.
Proof.
  assert (forall r i res id, at_record r i res id -> in_resource r res id) as Hw by (by intros r i res id [-> _]).
  unfold deadLetterEvent. destruct (match Get s _ _ with Some _ => _ | None => _ end) as [n retried].
  set (d := dead_letter_record consumer e cause n now).
  pose proof (frame_weaken _ _ _ _ (Hw _ _) (frame_Update s deadLetterResource (dead_letter_id consumer e) d now)) as HU.
  destruct (Update _ _ _ d now) as [s' [rc|]]; cbn [fst] in *; [exact HU|].
  eapply frame_trans; [exact HU|]. eapply frame_weaken; [apply (Hw deadLetterResource)|apply frame_Create].
Qed.

Lemma frame_resolveDeadLetterEvent s e : frame (in_resource deadLetterResource) s (resolveDeadLetterEvent s consumer e).
Proof. eapply frame_weaken; [|apply frame_Delete]. by intros res id [-> _]. Qed.

Section Frame.
Context (P : string -> string -> Prop).
Context (P_letters : forall id, P deadLetterResource id).
Context (P_apply : forall s e, frame P s (apply s e).1).

Lemma letters_in_frame s s' : frame (in_resource deadLetterResource) s s' -> frame P s s'.
Proof. apply frame_weaken. intros res id ->. apply P_letters. Qed.

Lemma project_service_event_frame st e : frame P (app_Store st.1) (app_Store (project_service_event st e).1).
Proof.
  destruct st as [a failed]. cbn. destruct (Consume _ _ _) as [b [[]|err]]; cbn; [|apply frame_refl..].
  pose proof (P_apply (app_Store a) e) as HP. destruct (apply (app_Store a) e) as [s [cause|]]; cbn in *;
    (eapply frame_trans; [exact HP|]); apply letters_in_frame; [apply frame_deadLetterEvent|apply frame_resolveDeadLetterEvent].
Qed.

Lemma fold_project_frame es st : frame P (app_Store st.1) (app_Store (fold_left project_service_event es st).1).
Proof.
  revert st. induction es as [|e es IH]; intros st; [apply frame_refl|]. cbn [fold_left].
  eapply frame_trans; [apply project_service_event_frame|apply IH].
Qed.

Lemma run_service_projection_frame a : frame P (app_Store a) (app_Store (run_service_projection a)).
Proof.
  unfold run_service_projection. pose proof (fold_project_frame (bus_outbox (app_Events a)) (a, false)) as HF.
  by destruct (fold_left _ _ _) as [a1 []].
Qed.
End Frame.

(** An invariant of the store that [apply] and the dead letters keep. *)
Section Keeps.
Context (I : store -> Prop) (I_apply : forall s e, I s -> I (apply s e).1).
Context (I_letter : forall s e cause, I s -> I (deadLetterEvent s consumer e cause now).1).
Context (I_resolve : forall s e, I s -> I (resolveDeadLetterEvent s consumer e)).

Lemma fold_project_keeps es st : I (app_Store st.1) -> I (app_Store (fold_left project_service_event es st).1).
Proof.
  revert st. induction es as [|e es IH]; intros [a failed] Hi; [done|]. cbn [fold_left]. apply IH. cbn [project_service_event].
  destruct (Consume _ _ _) as [b [[]|err]]; cbn [fst app_Store]; [|exact Hi..].
  pose proof (I_apply (app_Store a) e Hi) as HP.
  destruct (apply (app_Store a) e) as [s [cause|]]; cbn [fst app_Store] in *; [by apply I_letter|by apply I_resolve].
Qed.

Lemma run_service_projection_keeps a : I (app_Store a) -> I (app_Store (run_service_projection a)).
Proof.
  intros Hi. unfold run_service_projection. pose proof (fold_project_keeps (bus_outbox (app_Events a)) (a, false) Hi) as HF.
  by destruct (fold_left _ _ _) as [a1 []].
Qed.
End Keeps.

(** ** A second run finds nothing to do *)

(** Every event was consumed, or cannot be. *)
Definition caught_up (b : eventbus) (e : event) : Prop :=
  str_empty consumer || str_empty (ev_EventID e) = true \/ ev_EventID e ∈ consumer_inbox b consumer.

Lemma Consume_caught_up b e e' : caught_up b e' \/ e' = e -> caught_up (Consume b consumer e).1 e'.
Proof.
  unfold Consume. destruct (str_empty consumer || str_empty (ev_EventID e)) eqn:Ee; cbn [fst].
  { intros [?| ->]; [done|by left]. }
  intros Hc. assert (forall m, consumer_inbox b consumer ⊆ m -> ev_EventID e ∈ m ->
    caught_up (EventBus_ (bus_outbox b) (<[consumer := m]> (bus_inbox b)) (bus_checkpoints b)) e') as Hm.
  { intros m Hsub Hin. destruct Hc as [[Hl|Hr]| ->]; [by left|right..];
      unfold consumer_inbox; cbn [bus_inbox]; rewrite lookup_insert_eq; cbn; [by apply Hsub|done]. }
  case_bool_decide as Hin; cbn [fst]; apply Hm; set_solver.
Qed.

Lemma project_service_event_events st e : app_Events (project_service_event st e).1 = (Consume (app_Events st.1) consumer e).1.
Proof. destruct st as [a failed]. cbn. destruct (Consume _ _ _) as [b [[]|err]]; [|done..]. by destruct (apply _ _) as [s [cause|]]. Qed.

Lemma fold_project_caught_up es st e' : caught_up (app_Events st.1) e' \/ e' ∈ es ->
  caught_up (app_Events (fold_left project_service_event es st).1) e'.
Proof.
  revert st. induction es as [|e es IH]; intros st Hc; cbn [fold_left]; [set_solver|]. apply IH.
  rewrite project_service_event_events. destruct Hc as [Hc|Hc]; [left; by apply Consume_caught_up; left|].
  apply elem_of_cons in Hc as [->|Hc]; [left; by apply Consume_caught_up; right|by right].
Qed.

Lemma fold_project_outbox es st :
  bus_outbox (app_Events (fold_left project_service_event es st).1) = bus_outbox (app_Events st.1).
Proof.
  revert st. induction es as [|e es IH]; intros st; [done|]. cbn [fold_left]. rewrite IH, project_service_event_events. apply Consume_outbox.
Qed.

Lemma run_service_projection_outbox a : bus_outbox (app_Events (run_service_projection a)) = bus_outbox (app_Events a).
Proof.
  unfold run_service_projection. pose proof (fold_project_outbox (bus_outbox (app_Events a)) (a, false)) as Ho.
  by destruct (fold_left _ _ _) as [a1 []].
Qed.

Lemma run_service_projection_caught_up a e : e ∈ bus_outbox (app_Events a) -> caught_up (app_Events (run_service_projection a)) e.
Proof.
  intros He. unfold run_service_projection.
  pose proof (fold_project_caught_up (bus_outbox (app_Events a)) (a, false) e (or_intror He)) as Hc.
  by destruct (fold_left _ _ _) as [a1 []].
Qed.

Lemma fold_project_idle es st : (forall e, e ∈ es -> caught_up (app_Events st.1) e) ->
  app_Store (fold_left project_service_event es st).1 = app_Store st.1.
Proof.
  revert st. induction es as [|e es IH]; intros st Hc; [done|]. cbn [fold_left]. rewrite IH.
  - destruct st as [a failed]. cbn in *. specialize (Hc e (list_elem_of_here _ _)). unfold Consume.
    destruct (str_empty consumer || str_empty (ev_EventID e)) eqn:Ee; [done|]. destruct Hc as [|Hc]; [congruence|].
    by rewrite bool_decide_true.
  - intros e' He'. rewrite project_service_event_events. apply Consume_caught_up. left. apply Hc. by apply list_elem_of_further.
Qed.

(** Running the projection again at once changes no record. *)
Lemma run_service_projection_twice a :
  app_Store (run_service_projection (run_service_projection a)) = app_Store (run_service_projection a).
Proof.
  set (a1 := run_service_projection a). unfold run_service_projection at 1.
  assert (app_Store (fold_left project_service_event (bus_outbox (app_Events a1)) (a1, false)).1 = app_Store a1) as HS.
  { apply fold_project_idle. intros e He. cbn. apply run_service_projection_caught_up. revert He. unfold a1. by rewrite run_service_projection_outbox. }
  by destruct (fold_left _ _ _) as [a2 []].
Qed.

End ServiceProjection.
