(* ===== verification/PolicyIdentity.v ===== *)
(** * Authorization-policy service: requests, identities and administrators
    (internal/services/authorizationpolicy: authorization_policy_projection_repository.go,
    identity_projection.go, helpers.go)

    The service keeps its own copies of users, roles, projects, plans and image rules, fed
    by the events of the services that own them.  Every administrative request first
    brings the copies of users and roles up to date and then asks whether the caller's
    role opens the admin panel. *)

From stdpp Require Import base gmap strings list fin_maps sorting.
From Stdlib Require Import ZArith Lia Ascii.
From S2P Require Import Prelude GoValue Store EventBus Crud Tx Projection InputLimits Config Auth ServiceHttp Tables ServiceProjection.
Local Open Scope Z_scope.
Local Open Scope go_scope.

Definition serviceName : string := "authorization-policy-service".
Definition authorizationRolesResource : string := serviceName +:+ ":roles".
Definition identityProjectionConsumer : string := serviceName +:+ ":identity_projection".
Definition policyDataProjectionConsumer : string := serviceName +:+ ":policy_data_projection".
Definition policyIdentityUsers : string := serviceName +:+ ":identity_users".
Definition policyIdentityRoles : string := serviceName +:+ ":identity_roles".
Definition usersResource : string := "identity-service:users".
Definition rolesResource : string := "identity-service:roles".
Definition policyDataProjectsResource : string := serviceName +:+ ":policy_projects".
Definition policyDataPlansResource : string := serviceName +:+ ":policy_plans".
Definition policyDataImageAllowListsResource : string := serviceName +:+ ":policy_image_allow_lists".
Definition policySourceProjectsResource : string := "org-project-service:projects".
Definition policySourcePlansResource : string := "scheduler-quota-service:plans".
Definition policySourceImageAllowListsResource : string := "image-registry-service:image_allow_lists".

Definition idKeys : list string := ["id"; "ID"].
Definition userIdKeys : list string := ["user_id"; "userId"; "UserID"].
Definition nameKeys : list string := ["name"; "Name"].

(** ** Requests *)

(** A request with the outcome of reading its body: the text, or the error. *)
Record policy_request := PolicyRequest { pq_service :> service_request; pq_raw : result string string }.

Definition readRequestBody (r : policy_request) : result string string :=
  match pq_raw r with Ok raw => Ok raw | Err e => Err ("read body: " +:+ e) end.

(** ** Identifiers of the copied rows *)

Definition policyIdentityReadModelID (resource : string) (data : object) : string :=
  let id := TextValue data idKeys in
  let userID := TextValue data userIdKeys in
  let name := TextValue data nameKeys in
  if String.eqb resource policyIdentityUsers then FirstNonEmpty [id; userID]
  else if String.eqb resource policyIdentityRoles then FirstNonEmpty [id; name; userID]
  else FirstNonEmpty [id; userID; name].

Definition policyProjectID (data : object) : string :=
  FirstNonEmpty [TextValue data idKeys; TextValue data ["project_id"; "projectId"; "p_id"; "pId"; "P_ID"]].
Definition policyPlanID (data : object) : string := FirstNonEmpty [TextValue data idKeys; TextValue data ["plan_id"; "planId"]].

Definition policyImageRuleID (data : object) : string :=
  let id := TextValue data idKeys in
  if negb (str_empty id) then id
  else
    let projectID := TextValue data ["project_id"; "projectId"] in
    let tagID := FirstNonEmpty [TextValue data ["tag_id"; "tagId"]; TextValue data ["image_reference"; "imageReference"]] in
    if negb (str_empty projectID) && negb (str_empty tagID) then projectID +:+ ":" +:+ tagID else tagID.

Section Policy.
Context `{GoLib} {ip : Type} (cfg : config ip).

(** The payload and the keys it has; a blank body is an empty payload. *)
Definition decodePayload (r : policy_request) : result string (object * gset string) :=
  raw <-? readRequestBody r ;;
  if str_empty (TrimSpace raw) then Ok (∅, ∅)
  else match unmarshal_object raw with
       | None => Err "invalid JSON body"
       | Some payload => Ok (payload, dom payload)
       end.

(** ** The repository of the copies *)

(** The new store, and the error of the projection. *)
Definition upsertReadModel (s : store) (resource : string) (data : object) (idFn : object -> string) (now : Z) : store * option string :=
  let id := idFn data in
  if str_empty id then (s, None)
  else
    let data := <["id" := VString id]> data in
    match Update s resource id data now with
    | (s1, Some _) => (s1, None)
    | (s1, None) =>
        match Create s1 resource data "" now with
        | (s2, Ok _) => (s2, None)
        | (s2, Err _) =>
            match Update s2 resource id data now with
            | (s3, Some _) => (s3, None)
            | (s3, None) => (s3, Some ("authorization policy projection conflict update missed for " +:+ resource +:+ "/" +:+ id))
            end
        end
    end.

Definition deleteReadModelByID (s : store) (resource id : string) : store * bool :=
  if str_empty id then (s, false) else Delete s resource id.

Definition deleteIdentityReadModel (s : store) (resource : string) (data : object) : store * bool :=
  match as_bool (mget data "deleted") with
  | Some false => (s, false)
  | _ => deleteReadModelByID s resource (policyIdentityReadModelID resource data)
  end.

Definition UpsertIdentityUser (s : store) (data : object) (now : Z) :=
  upsertReadModel s policyIdentityUsers data (policyIdentityReadModelID policyIdentityUsers) now.
Definition UpsertIdentityRole (s : store) (data : object) (now : Z) :=
  upsertReadModel s policyIdentityRoles data (policyIdentityReadModelID policyIdentityRoles) now.
Definition DeleteIdentityUser (s : store) (data : object) : store * bool := deleteIdentityReadModel s policyIdentityUsers data.
Definition DeleteIdentityRole (s : store) (data : object) : store * bool := deleteIdentityReadModel s policyIdentityRoles data.
Definition UpsertPolicyProject (s : store) (data : object) (now : Z) := upsertReadModel s policyDataProjectsResource data policyProjectID now.
Definition UpsertPolicyPlan (s : store) (data : object) (now : Z) := upsertReadModel s policyDataPlansResource data policyPlanID now.
Definition UpsertPolicyImageAllowList (s : store) (data : object) (now : Z) :=
  upsertReadModel s policyDataImageAllowListsResource data policyImageRuleID now.
Definition DeletePolicyProject (s : store) (data : object) : store * bool :=
  deleteReadModelByID s policyDataProjectsResource (policyProjectID data).
Definition DeletePolicyPlan (s : store) (data : object) : store * bool := deleteReadModelByID s policyDataPlansResource (policyPlanID data).

(** By identifier, else every rule of the tag. *)
Definition DeletePolicyImageAllowList (s : store) (data : object) : store * bool :=
  let id := policyImageRuleID data in
  let '(s1, deleted) := if str_empty id then (s, false) else deleteReadModelByID s policyDataImageAllowListsResource id in
  if deleted then (s1, true)
  else
    let tagID := TextValue data ["tag_id"; "tagId"] in
    if str_empty tagID then (s1, false)
    else
      fold_left (fun '(s', d) rc =>
        if String.eqb (TextValue (rec_Data rc) ["tag_id"; "tagId"]) tagID
        then let '(s'', b) := Delete s' policyDataImageAllowListsResource (rec_ID rc) in (s'', b || d) else (s', d))
        (List_ s1 policyDataImageAllowListsResource) (s1, false).

(** The rows of a resource; a row without identifier gets that of its record. *)
Definition projection_row (rc : record) : object :=
  if str_empty (TextValue (rec_Data rc) idKeys) then <["id" := VString (rec_ID rc)]> (rec_Data rc) else rec_Data rc.
Definition projection_listMaps (s : store) (resource : string) : list object := map projection_row (List_ s resource).

Definition identitySourceCoHosted (sourceResource : string) : bool :=
  match before_colon (bytes_of sourceResource) with
  | Some owner => AllowsService cfg (of_bytes owner)
  | None => false
  end.
Definition policyDataSourceCoHosted : bool := String.eqb (cf_ServiceName cfg) "all".

(** The copies first, then the rows of the owner that no copy shadows. *)
Definition merge_records (idFn : object -> string) (source local : list object) : list object :=
  let seen := map idFn local in
  local ++ List.filter (fun row => negb (negb (str_empty (idFn row)) && bool_decide (idFn row ∈ seen))) source.
Definition mergePolicyIdentityRecords (resource : string) : list object -> list object -> list object :=
  merge_records (policyIdentityReadModelID resource).
Definition mergePolicyDataRecords (source local : list object) (idFn : object -> string) : list object := merge_records idFn source local.

Definition identityRecords (s : store) (localResource sourceResource : string) : list object :=
  let local := projection_listMaps s localResource in
  if negb (identitySourceCoHosted sourceResource) then local
  else
    let source := projection_listMaps s sourceResource in
    match local with [] => source | _ => mergePolicyIdentityRecords localResource source local end.

Definition policyDataRecords (s : store) (localResource sourceResource : string) (idFn : object -> string) : list object :=
  let local := projection_listMaps s localResource in
  if negb policyDataSourceCoHosted then local
  else
    let source := projection_listMaps s sourceResource in
    match local with [] => source | _ => mergePolicyDataRecords source local idFn end.

Definition ListIdentityUsers (s : store) : list object := identityRecords s policyIdentityUsers usersResource.
Definition ListIdentityRoles (s : store) : list object := identityRecords s policyIdentityRoles rolesResource.
Definition ListPolicyProjects (s : store) : list object :=
  policyDataRecords s policyDataProjectsResource policySourceProjectsResource policyProjectID.

Definition FindPolicyPlanForProject (s : store) (project : object) : option object :=
  let planID := TextValue project ["plan_id"; "planId"; "resource_plan_id"; "resourcePlanId"] in
  if str_empty planID then None
  else List.find (fun plan => String.eqb (policyPlanID plan) planID)
         (policyDataRecords s policyDataPlansResource policySourcePlansResource policyPlanID).

Definition ListPolicyImageRulesForProject (s : store) (projectID : string) : list object :=
  if str_empty projectID then []
  else List.filter (fun row => let p := TextValue row ["project_id"; "projectId"] in String.eqb p projectID || String.eqb p "*")
         (policyDataRecords s policyDataImageAllowListsResource policySourceImageAllowListsResource policyImageRuleID).

(** ** The identity projection *)

Definition policyIdentityEventData (e : event) : object :=
  match mget (ev_Data e) "new" with VMap next => next | _ => ev_Data e end.

(** The resource, the data and whether they are deleted. *)
Definition policyIdentityProjection (e : event) : option (string * object * bool) :=
  let name := ToLower (ev_Name e) in
  if bool_decide (name ∈ ["usercreated"; "userupdated"; "userdisabled"]) then Some (policyIdentityUsers, policyIdentityEventData e, false)
  else if String.eqb name "userdeleted" then Some (policyIdentityUsers, policyIdentityEventData e, true)
  else if bool_decide (name ∈ ["rolecreated"; "roleupdated"]) then Some (policyIdentityRoles, policyIdentityEventData e, false)
  else if String.eqb name "roledeleted" then Some (policyIdentityRoles, policyIdentityEventData e, true)
  else None.

Definition upsertPolicyIdentityReadModel (s : store) (resource : string) (data : object) (now : Z) : store * option string :=
  if String.eqb resource policyIdentityUsers then UpsertIdentityUser s data now
  else if String.eqb resource policyIdentityRoles then UpsertIdentityRole s data now
  else (s, None).
Definition deletePolicyIdentityReadModel (s : store) (resource : string) (data : object) : store * bool :=
  if String.eqb resource policyIdentityUsers then DeleteIdentityUser s data
  else if String.eqb resource policyIdentityRoles then DeleteIdentityRole s data
  else (s, false).

Definition projectPolicyIdentityEvent (now : Z) (s : store) (e : event) : store * option string :=
  match policyIdentityProjection e with
  | None => (s, None)
  | Some (resource, data, true) => ((deletePolicyIdentityReadModel s resource data).1, None)
  | Some (resource, data, false) => upsertPolicyIdentityReadModel s resource data now
  end.

Definition syncPolicyIdentityReadModels (a : app) (now : Z) : app :=
  run_service_projection (projectPolicyIdentityEvent now) identityProjectionConsumer now a.

(** The state after the copies were brought up to date, and the rows asked for. *)
Definition policyIdentityRecords (a : app) (r : policy_request) (localResource : string) : app * list object :=
  let a1 := syncPolicyIdentityReadModels a (sq_now r) in
  (a1, if String.eqb localResource policyIdentityUsers then ListIdentityUsers (app_Store a1)
       else if String.eqb localResource policyIdentityRoles then ListIdentityRoles (app_Store a1)
       else []).

(** ** Administrators *)

Definition listMaps (s : store) (resource : string) : list object := map record_map (List_ s resource).

Definition recordGrantsAdminPanel (data : object) : bool :=
  BoolValue data ["admin_panel"; "adminPanel"; "AdminPanel"] ||
  BoolValue (MapValue data ["capabilities"; "Capabilities"]) ["admin_panel"; "adminPanel"; "AdminPanel"].

(** The first row of the user decides. *)
Definition user_has_panel (users roles : list object) (userID : string) : bool :=
  match List.find (fun user => String.eqb (policyIdentityReadModelID policyIdentityUsers user) userID
                               || String.eqb (TextValue user userIdKeys) userID) users with
  | None => false
  | Some user =>
      let roleID := TextValue user ["role_id"; "roleId"; "RoleID"; "role"; "Role"] in
      existsb (fun role => (String.eqb (policyIdentityReadModelID policyIdentityRoles role) roleID
                            || String.eqb (TextValue role nameKeys) roleID) && recordGrantsAdminPanel role) roles
  end.

Definition hasAdminPanel (a : app) (r : policy_request) (userID : string) : app * bool :=
  let '(a1, roles) := policyIdentityRecords a r policyIdentityRoles in
  let roles := roles ++ listMaps (app_Store a1) authorizationRolesResource in
  let '(a2, users) := policyIdentityRecords a1 r policyIdentityUsers in
  (a2, user_has_panel users roles userID).

Definition request_user (r : policy_request) : string := TrimSpace (sq_header r "X-User-ID").

(** The state after the check, and the refusal. *)
Definition requireAdmin (a : app) (r : policy_request) : app * option response :=
  if str_empty (request_user r) then (a, Some (StatusUnauthorized, message "unauthorized"))
  else
    let '(a1, admin) := hasAdminPanel a r (request_user r) in
    (a1, if admin then None else Some (StatusForbidden, message "Only administrators can perform this operation")).

(** What an administrative handler does once the caller was admitted. *)
Definition as_admin (a : app) (r : policy_request) (k : app -> app * response) : app * response :=
  match requireAdmin a r with
  | (a1, Some refusal) => (a1, refusal)
  | (a1, None) => k a1
  end.

(** ** Events *)

(** The [k]th event of the request; two identifiers are drawn for each. *)
Definition authorizationPolicyEvent (r : policy_request) (k : nat) (name action : string) (data : object) : event :=
  Event_ (sq_uuid r (2 * k)) name serviceName (sq_now r)
    (FirstNonEmpty [sq_header r "X-Trace-ID"; sq_header r "X-Request-ID"; sq_uuid r (2 * k + 1)]) 1
    (sq_header r "Idempotency-Key") (<["action" := VString action]> data).
Definition proxyPolicyEvent (r : policy_request) (k : nat) (action : string) (data : object) : event :=
  authorizationPolicyEvent r k "ProxyPolicyChanged" action data.
Definition policyChangedEvent (r : policy_request) (k : nat) (action : string) (data : object) : event :=
  authorizationPolicyEvent r k "PolicyChanged" action data.

(** A transaction that emits an event when its callback says so. *)
Definition announced {E A} (c : tx_fn E A) (ev : A -> option event) : tx_fn E A :=
  x <-- c ;; match ev x with Some e => tx_Emit e ;;; stm_ret x | None => stm_ret x end.

Lemma announced_store {E A} a (c : tx_fn E A) ev : app_Store (WithTx a (announced c ev)).1 = tx_store (c (StoreTx (app_Store a) [])).1.
Proof.
  rewrite WithTx_store. unfold announced, stm_bind, tx_Emit, stm_ret. destruct (c _) as [t [x|e]]; [|done]. by destruct (ev x).
Qed.

(** With usable events the outcome is that of the callback. *)
Lemma announced_result {E A} a (c : tx_fn E A) ev :
  (forall x e, ev x = Some e -> event_metadata_ok e = true) ->
  tx_events (c (StoreTx (app_Store a) [])).1 = [] ->
  (WithTx a (announced c ev)).2 =
  match (c (StoreTx (app_Store a) [])).2 with Ok x => Ok x | Err e => Err (TxCallback e) end.
Proof.
  intros Hev Hq. unfold WithTx, announced, stm_bind, tx_Emit, stm_ret. destruct (c _) as [t [x|e]]; [|done]. cbn [fst snd] in *.
  destruct (ev x) as [e|] eqn:Ee; cbn [tx_events tx_store]; rewrite Hq; [|done]. cbn [Datatypes.app publish_all].
  destruct (publish_event_ok (App_ (tx_store t) (app_Events a)) e) as (b & _ & ->); [by eapply Hev|]. done.
Qed.

(** The identifiers drawn for a request are not empty. *)
Definition uuids_drawn (r : policy_request) : Prop := forall n, sq_uuid (pq_service r) n ≠ "".

Lemma policy_event_ok r k name action data :
  name ≠ "" -> uuids_drawn r -> event_metadata_ok (authorizationPolicyEvent r k name action data) = true.
Proof.
  intros Hn Hu. unfold event_metadata_ok, authorizationPolicyEvent. cbn [ev_Name ev_Source ev_EventID ev_TraceID ev_SchemaVersion].
  assert (forall s, s ≠ "" -> negb (str_empty s) = true) as Hne by (intros s Hs; unfold str_empty; by rewrite (proj2 (String.eqb_neq _ _) Hs)).
  rewrite !Hne; [done|..|done|done]; [|apply Hu]. cbn [FirstNonEmpty]. unfold str_empty.
  repeat match goal with |- context [String.eqb ?x ""] => destruct (String.eqb_spec x "") as [?|Hd]; [|exact Hd] end.
  match goal with He : sq_uuid _ _ = "" |- _ => destruct (Hu _ He) end.
Qed.

(** ** Who is an administrator *)

(** The answer on a store whose copies are up to date. *)
Definition administrator (s : store) (userID : string) : bool :=
  user_has_panel (ListIdentityUsers s) (ListIdentityRoles s ++ listMaps s authorizationRolesResource) userID.

Lemma hasAdminPanel_spec a r userID :
  app_Store (hasAdminPanel a r userID).1 = app_Store (syncPolicyIdentityReadModels a (sq_now r)) /\
  (hasAdminPanel a r userID).2 = administrator (app_Store (syncPolicyIdentityReadModels a (sq_now r))) userID.
Proof.
  unfold hasAdminPanel, policyIdentityRecords. cbn zeta. cbn [String.eqb]. change (String.eqb policyIdentityRoles policyIdentityUsers) with false.
  rewrite !String.eqb_refl. cbn [fst snd].
  set (a1 := syncPolicyIdentityReadModels a (sq_now r)).
  assert (app_Store (syncPolicyIdentityReadModels a1 (sq_now r)) = app_Store a1) as He by apply run_service_projection_twice.
  rewrite He. done.
Qed.

(** Only the copies, the dead letters and the inboxes change while a caller is checked. *)
Definition identity_copy (res id : string) : Prop :=
  res = policyIdentityUsers \/ res = policyIdentityRoles \/ res = deadLetterResource.

Lemma frame_upsertReadModel s res data idFn now :
  frame (in_resource res) s (upsertReadModel s res data idFn now).1.
Proof.
  assert (forall i r id, at_record res i r id -> in_resource res r id) as Hw by (by intros i r id [-> _]).
  unfold upsertReadModel. cbn zeta. destruct (str_empty _); [apply frame_refl|]. set (d := <["id" := _]> data). set (key := idFn data).
  pose proof (frame_weaken _ _ _ _ (Hw _) (frame_Update s res key d now)) as H1.
  destruct (Update s res key d now) as [s1 [rc|]]; [exact H1|]. cbn [fst] in H1.
  pose proof (frame_weaken _ _ _ _ (Hw _) (frame_Create s1 res d "" now)) as H2.
  destruct (Create s1 res d "" now) as [s2 [rc|e]]; cbn [fst] in *; [by eapply frame_trans|].
  pose proof (frame_weaken _ _ _ _ (Hw _) (frame_Update s2 res key d now)) as H3.
  destruct (Update s2 res key d now) as [s3 [rc|]]; cbn [fst] in *; eauto using frame_trans.
Qed.

Lemma frame_deleteReadModelByID s res id : frame (in_resource res) s (deleteReadModelByID s res id).1.
Proof.
  unfold deleteReadModelByID. destruct (str_empty id); [apply frame_refl|]. eapply frame_weaken; [|apply frame_Delete]. by intros r i [-> _].
Qed.

Lemma projectPolicyIdentityEvent_frame now s e : frame identity_copy s (projectPolicyIdentityEvent now s e).1.
Proof.
  assert (forall res s s', res = policyIdentityUsers \/ res = policyIdentityRoles -> frame (in_resource res) s s' -> frame identity_copy s s') as Hw.
  { intros res s1 s2 Hr. apply frame_weaken. intros r i ->. unfold identity_copy. tauto. }
  unfold projectPolicyIdentityEvent. destruct (policyIdentityProjection e) as [[[res data] []]|]; [..|apply frame_refl]; cbn [fst].
  - unfold deletePolicyIdentityReadModel, DeleteIdentityUser, DeleteIdentityRole, deleteIdentityReadModel.
    repeat destruct (String.eqb _ _); try (destruct (as_bool _) as [[]|]); cbn [fst];
      try apply frame_refl; eapply Hw, frame_deleteReadModelByID; tauto.
  - unfold upsertPolicyIdentityReadModel, UpsertIdentityUser, UpsertIdentityRole.
    repeat destruct (String.eqb _ _); cbn [fst]; try apply frame_refl; eapply Hw, frame_upsertReadModel; tauto.
Qed.

Lemma sync_frame a now : frame identity_copy (app_Store a) (app_Store (syncPolicyIdentityReadModels a now)).
Proof.
  apply run_service_projection_frame; [unfold identity_copy; tauto|]. intros s e. apply projectPolicyIdentityEvent_frame.
Qed.


Lemma requireAdmin_spec a r :
  frame identity_copy (app_Store a) (app_Store (requireAdmin a r).1) /\
  ((requireAdmin a r).2 = None <->
     request_user r ≠ "" /\ administrator (app_Store (syncPolicyIdentityReadModels a (sq_now r))) (request_user r) = true) /\
  ((requireAdmin a r).2 = None -> app_Store (requireAdmin a r).1 = app_Store (syncPolicyIdentityReadModels a (sq_now r))).
Proof.
  unfold requireAdmin, str_empty. destruct (String.eqb_spec (request_user r) "") as [He|He]; cbn [fst snd].
  { split; [apply frame_refl|]. split; [|done]. split; [done|]. by intros [? _]. }
  destruct (hasAdminPanel_spec a r (request_user r)) as [Hs Hb]. destruct (hasAdminPanel a r (request_user r)) as [a1 b]. cbn [fst snd] in *. subst b.
  rewrite Hs. split; [apply sync_frame|]. split; [|done]. destruct (administrator _ _); split; try done. by intros [_ ?].
Qed.

End Policy.
