(* ===== verification/PolicyRaw.v ===== *)
(** * Authorization-policy service: permission policies and the decision point
    (internal/services/authorizationpolicy: raw_permission_repository.go, permissions.go,
    permission_policy.go, seed.go, handler.go)

    A permission policy is a list of at least four texts: subject, domain, object, action.
    It is filed under its parts joined by the unit separator, and the decision point of the
    platform allows a request when the record of exactly its tuple exists.  Policies change
    through the administrative endpoints and, when a process starts, through the
    reconciliation of the policies of the static administrators. *)

From stdpp Require Import base gmap strings list fin_maps.
From Stdlib Require Import ZArith Lia Ascii.
From S2P Require Import Prelude GoValue Store EventBus Crud Tx RateLimit InputLimits Config Auth Guards Routing SchedulerHttp ServiceHttp Tables ServiceProjection PolicyIdentity.
Local Open Scope Z_scope.
Local Open Scope go_scope.

Definition rawPoliciesResource : string := serviceName +:+ ":permission_policies".
Definition groupingResource : string := serviceName +:+ ":permission_grouping_policies".
Definition msgInvalidPolicyFormat : string := "invalid policy format".
Definition msgInvalidEnforceRequest : string := "invalid enforce request: requires sub, obj, act".
Definition msgInvalidBatchRequest : string := "invalid batch request".
Definition msgPolicyAlreadyExists : string := "policy already exists".
Definition msgPolicyNotFound : string := "policy not found".
Definition msgInvalidSimulateRequest : string := "invalid simulate request: requires sub, dom, obj, act".

(** ** Policies and their records (permission_policy.go) *)

(** The unit separator. *)
Definition separator : ascii := byte 31.
Definition sep : string := String separator "".

Definition rawPolicyID (policy : list string) : string := String.concat sep policy.
Definition normalizePolicy (policy : list string) : list string := map TrimSpace policy.

(** [fmt.Sprintf("v%d", i)] *)
Definition v_key (i : nat) : string := "v" +:+ fmt_int 0 (Z.of_nat i).

Definition rawPolicyRecord (policy : list string) : object :=
  let record : object := {[ "id" := VString (rawPolicyID policy); "policy" := VStrings policy ]} in
  let record := foldl (fun rc '(i, value) => <[v_key i := VString value]> rc) record (imap pair policy) in
  match policy with
  | sub :: dom :: obj :: act :: _ =>
      <["act" := VString act]> (<["obj" := VString obj]> (<["dom" := VString dom]> (<["sub" := VString sub]> record)))
  | _ => record
  end.

Definition groupingPolicyID (opType userID role domain : string) : string := String.concat sep [opType; userID; role; domain].
Definition groupingPolicyRecord (opType userID role domain : string) : object :=
  list_to_map [("id", VString (groupingPolicyID opType userID role domain)); ("type", VString opType);
    ("user_id", VString userID); ("role", VString role); ("domain", VString domain)].

Record permission_op := PermissionOp {
  op_type : string; op_action : string; op_project_id : string; op_group_id : string; op_user_id : string; op_role : string
}.

Record rawPermissionPolicyUpdateResult := UpdateResult { ur_Found : bool; ur_Conflict : bool; ur_Updated : bool }.

(** Decoding the body of an update: json.Unmarshal into a struct of the two slices [old]
    and [new]. *)
Class PolicyLib := { unmarshal_policy_update : string -> option (list string * list string) }.

Section Raw.
Context `{GoLib} `{AuthLib} `{PolicyLib} {ip : Type} `{NetLib ip} (cfg : config ip).

Definition policySlice (value : any) : list string :=
  match value with
  | VStrings typed => typed
  | VList typed => map (fun item => TrimSpace (sprint item)) typed
  | _ => []
  end.

Definition decodeRawPolicy (r : policy_request) : result string (list string) :=
  raw <-? readRequestBody r ;;
  match unmarshal_strings raw with
  | None => Err msgInvalidPolicyFormat
  | Some policy => Ok (normalizePolicy policy)
  end.

Definition decodeRawPolicyUpdate (r : policy_request) : result string (list string * list string) :=
  raw <-? readRequestBody r ;;
  match unmarshal_policy_update raw with
  | None => Err msgInvalidPolicyFormat
  | Some (old, new) =>
      let oldPolicy := normalizePolicy old in
      let newPolicy := normalizePolicy new in
      if (length oldPolicy <? 4)%nat || (length newPolicy <? 4)%nat then Err msgInvalidPolicyFormat
      else Ok (oldPolicy, newPolicy)
  end.

Fixpoint decode_operations (items : list any) (i : Z) : result string (list permission_op) :=
  match items with
  | [] => Ok []
  | VMap raw :: rest =>
      let op := PermissionOp (TextValue raw ["type"]) (TextValue raw ["action"]) (TextValue raw ["project_id"; "projectId"])
                  (TextValue raw ["group_id"; "groupId"]) (TextValue raw ["user_id"; "userId"]) (TextValue raw ["role"]) in
      if str_empty (op_type op) || str_empty (op_action op) || str_empty (op_user_id op) then Err msgInvalidBatchRequest
      else operations <-? decode_operations rest (i + 1) ;; Ok (op :: operations)
  | _ :: _ => Err ("operations[" +:+ fmt_int 0 i +:+ "] must be an object")
  end.

Definition decodePermissionOperations (r : policy_request) : result string (list permission_op) :=
  match decodePayload r with
  | Err _ => Err msgInvalidBatchRequest
  | Ok (payload, _) =>
      match mget payload "operations" with
      | VList ((_ :: _) as items) => decode_operations items 0
      | _ => Err msgInvalidBatchRequest
      end
  end.

(** ** The repository *)

(** The values [v0], [v1], ... up to the first that is missing. *)
Fixpoint v_values (fuel : nat) (data : object) (i : nat) : list string :=
  match fuel with
  | O => []
  | S fuel' =>
      let value := TextValue data [v_key i] in
      if str_empty value then [] else value :: v_values fuel' data (S i)
  end.

Definition policy_of_record (rc : record) : list string :=
  match policySlice (mget (rec_Data rc) "policy") with
  | [] => v_values (S (size (rec_Data rc))) (rec_Data rc) 0
  | policy => policy
  end.

Definition ListRawPermissionPolicies (s : store) : list (list string) :=
  SliceStable (fun x y => String.ltb (rawPolicyID x) (rawPolicyID y))
    (List.filter (fun policy => (0 <? length policy)%nat) (map policy_of_record (List_ s rawPoliciesResource))).

Definition RawPermissionPolicyExists (s : store) (policy : list string) : bool :=
  match Get s rawPoliciesResource (rawPolicyID policy) with Some _ => true | None => false end.

Definition RawPermissionAllowed (s : store) (subject domain object_ action : string) : bool :=
  RawPermissionPolicyExists s [subject; domain; object_; action].

(** A conflict is reported like an existing policy. *)
Definition CreateRawPermissionPolicyTx (policy : list string) (now : Z) : tx_fn string bool := fun t =>
  if RawPermissionPolicyExists (tx_store t) policy then (t, Ok false)
  else match tx_Create rawPoliciesResource (rawPolicyRecord policy) "" now t with
       | (t', Ok _) => (t', Ok true)
       | (t', Err _) => (t', Ok false)
       end.

Definition CreateRawPermissionPolicyRecord (s : store) (policy : list string) (metadata : object) (now : Z) : store * bool :=
  if RawPermissionPolicyExists s policy then (s, false)
  else match Create s rawPoliciesResource (metadata ∪ rawPolicyRecord policy) "" now with
       | (s', Ok _) => (s', true)
       | (s', Err _) => (s', false)
       end.

Definition UpdateRawPermissionPolicyTx (oldPolicy newPolicy : list string) (now : Z)
    : tx_fn string rawPermissionPolicyUpdateResult := fun t =>
  let oldID := rawPolicyID oldPolicy in
  match Get (tx_store t) rawPoliciesResource oldID with
  | None => (t, Ok (UpdateResult false false false))
  | Some _ =>
      let newID := rawPolicyID newPolicy in
      if negb (String.eqb oldID newID) then
        match Get (tx_store t) rawPoliciesResource newID with
        | Some _ => (t, Ok (UpdateResult true true false))
        | None =>
            match tx_Create rawPoliciesResource (rawPolicyRecord newPolicy) "" now t with
            | (t1, Err _) => (t1, Ok (UpdateResult true true false))
            | (t1, Ok _) =>
                match tx_Delete rawPoliciesResource oldID t1 with
                | (t2, Ok _) => (t2, Ok (UpdateResult true false true))
                | (t2, Err e) => (t2, Err e)
                end
            end
        end
      else
        match tx_Update rawPoliciesResource oldID (rawPolicyRecord newPolicy) now t with
        | (t1, Ok updated) => (t1, Ok (UpdateResult true false (match updated with Some _ => true | None => false end)))
        | (t1, Err e) => (t1, Err e)
        end
  end.

Definition DeleteRawPermissionPolicyTx (policy : list string) : tx_fn string bool := tx_Delete rawPoliciesResource (rawPolicyID policy).

Definition ListRawPermissionPolicyRecords (s : store) : list object :=
  map (fun rc => <["id" := VString (rec_ID rc)]> (rec_Data rc)) (List_ s rawPoliciesResource).
Definition DeleteRawPermissionPolicyRecord (s : store) (id : string) : store * bool := Delete s rawPoliciesResource id.

(** *** Grouping policies *)

Definition UpsertGroupingPolicyTx (opType userID role domain : string) (now : Z) : tx_fn string unit := fun t =>
  let id := groupingPolicyID opType userID role domain in
  let record := groupingPolicyRecord opType userID role domain in
  match Get (tx_store t) groupingResource id with
  | Some _ => (tx_Update groupingResource id record now ;;; stm_ret tt) t
  | None =>
      match tx_Create groupingResource record "" now t with
      | (t1, Ok _) => (t1, Ok tt)
      | (t1, Err _) => (tx_Update groupingResource id record now ;;; stm_ret tt) t1
      end
  end.
Definition DeleteGroupingPolicyTx (opType userID role domain : string) : tx_fn string bool :=
  tx_Delete groupingResource (groupingPolicyID opType userID role domain).

Definition ApplyPermissionOperationTx (op : permission_op) (now : Z) : tx_fn string unit :=
  let apply (domain : string) : tx_fn string unit :=
    if String.eqb (op_action op) "add" || String.eqb (op_action op) "update"
    then UpsertGroupingPolicyTx (op_type op) (op_user_id op) (op_role op) domain now
    else if String.eqb (op_action op) "remove"
    then DeleteGroupingPolicyTx (op_type op) (op_user_id op) (op_role op) domain ;;; stm_ret tt
    else stm_ret tt in
  if String.eqb (op_type op) "project_member" then apply (op_project_id op)
  else if String.eqb (op_type op) "group_role" then apply (op_group_id op)
  else stm_fail ("unsupported operation type: " +:+ op_type op).

Definition ListGroupingPolicies (s : store) : list object :=
  SliceStable (fun x y => String.ltb (TextValue x ["id"]) (TextValue y ["id"])) (map rec_Data (List_ s groupingResource)).

(** ** The decision point *)

Definition RawPolicyPDP_Enforce (s : store) (subject domain object_ action : string) : option Decision :=
  if RawPermissionAllowed s subject domain object_ action
  then Some (Decision_ true "authorization-policy-service raw policy matched" 1)
  else Some (Decision_ false "authorization-policy-service raw policy denied" 1).

(** The decision point [Register] installs, on the current store. *)
Definition service_pdp (s : store) : PDP := RemotePDP (RawPolicyPDP_Enforce s).

(** ** The handlers *)

Definition bad_request {A} (c : result string A) : result response A :=
  match c with Ok x => Ok x | Err text => refuse StatusBadRequest text end.

Definition listRawPermissionPolicies (a : app) (r : policy_request) : app * response :=
  as_admin cfg a r (fun a => (a, (StatusOK, BValue (VList (map VStrings (ListRawPermissionPolicies (app_Store a))))))).

Definition addRawPermissionPolicy (a : app) (r : policy_request) : app * response := handle a (
  policy <-? bad_request (decodeRawPolicy r) ;;
  require (4 <=? length policy)%nat StatusBadRequest "policy must have at least 4 elements [sub, dom, obj, act]" ;;?
  Ok (as_admin cfg a r (fun a =>
    match WithTx a (announced (CreateRawPermissionPolicyTx policy (sq_now r)) (fun created : bool =>
                    if created then Some (policyChangedEvent r 0 "policy_added" {[ "policy" := VStrings policy ]}) else None)) with
    | (a', Err _) => (a', (StatusInternalServerError, message "policy could not be created"))
    | (a', Ok false) => (a', (StatusConflict, message msgPolicyAlreadyExists))
    | (a', Ok true) => (a', (StatusOK, BNil))
    end))).

Definition updateRawPermissionPolicy (a : app) (r : policy_request) : app * response := handle a (
  policies <-? bad_request (decodeRawPolicyUpdate r) ;;
  let '(oldPolicy, newPolicy) := policies in
  Ok (as_admin cfg a r (fun a =>
    match WithTx a (announced (UpdateRawPermissionPolicyTx oldPolicy newPolicy (sq_now r)) (fun res =>
                    if ur_Updated res
                    then Some (policyChangedEvent r 0 "policy_updated" {[ "old" := VStrings oldPolicy; "new" := VStrings newPolicy ]})
                    else None)) with
    | (a', Err _) => (a', (StatusInternalServerError, message "policy could not be updated"))
    | (a', Ok res) =>
        (a', if negb (ur_Found res) then (StatusNotFound, message msgPolicyNotFound)
             else if ur_Conflict res then (StatusConflict, message msgPolicyAlreadyExists)
             else (StatusOK, BNil))
    end))).

Definition removeRawPermissionPolicy (a : app) (r : policy_request) : app * response := handle a (
  policy <-? bad_request (decodeRawPolicy r) ;;
  Ok (as_admin cfg a r (fun a =>
    match WithTx a (announced (DeleteRawPermissionPolicyTx policy) (fun deleted : bool =>
                    if deleted then Some (policyChangedEvent r 0 "policy_removed" {[ "policy" := VStrings policy ]}) else None)) with
    | (a', Err _) => (a', (StatusInternalServerError, message "policy could not be deleted"))
    | (a', Ok false) => (a', (StatusNotFound, message msgPolicyNotFound))
    | (a', Ok true) => (a', (StatusOK, BNil))
    end))).

Definition op_map (op : permission_op) : gmap string string :=
  list_to_map [("type", op_type op); ("action", op_action op); ("project_id", op_project_id op);
    ("group_id", op_group_id op); ("user_id", op_user_id op); ("role", op_role op)].

(** One transaction per operation; the first that fails ends the batch. *)
Fixpoint process_operations (a : app) (r : policy_request) (k : nat) (operations : list permission_op) : app * response :=
  match operations with
  | [] => (a, (StatusOK, BNil))
  | op :: rest =>
      match WithTx a (announced (ApplyPermissionOperationTx op (sq_now r)) (fun _ =>
                      Some (policyChangedEvent r k "batch_permissions_processed"
                        {[ "operation" := VStringMap (op_map op); "operations" := VList [VStringMap (op_map op)] ]}))) with
      | (a', Err (TxCallback text)) => (a', (StatusInternalServerError, message text))
      | (a', Err TxPublish) => (a', (StatusInternalServerError, message "event metadata is incomplete"))
      | (a', Ok _) => process_operations a' r (S k) rest
      end
  end.

Definition batchProcessPermissions (a : app) (r : policy_request) : app * response := handle a (
  operations <-? bad_request (decodePermissionOperations r) ;;
  Ok (as_admin cfg a r (fun a => process_operations a r 0 operations))).

Definition permissionTuple (payload : object) : string * string * string * string :=
  (TextValue payload ["sub"], TextValue payload ["dom"], TextValue payload ["obj"], TextValue payload ["act"]).

Definition isServiceOrAdminPrincipal (r : policy_request) : bool :=
  bool_decide (ToLower (TrimSpace (sq_header r "X-User-Role")) ∈ ["service"; "admin"; "superadmin"; "root"])
  && negb (str_empty (request_user r)).

Definition decision_map (d : Decision) : object :=
  let m : object := {[ "allowed" := VBool (dec_Allowed d); "version" := VInt (dec_Version d) ]} in
  if str_empty (dec_Reason d) then m else <["reason" := VString (dec_Reason d)]> m.

Definition enforcePermission (a : app) (r : policy_request) : app * response := handle a (
  require (serviceRequestAuthorizedForAudience cfg (sq_http r) "" || isServiceOrAdminPrincipal r)
    StatusForbidden "service principal is required" ;;?
  match decodePayload r with
  | Err _ => refuse StatusBadRequest msgInvalidEnforceRequest
  | Ok (payload, _) =>
      let '(sub, dom, obj, act) := permissionTuple payload in
      require (negb (str_empty sub || str_empty obj || str_empty act)) StatusBadRequest msgInvalidEnforceRequest ;;?
      match RawPolicyPDP_Enforce (app_Store a) sub dom obj act with
      | None => refuse StatusInternalServerError "policy decision failed"
      | Some decision => Ok (a, (StatusOK, BMap (decision_map decision)))
      end
  end).

Definition simulatePermissionEnforce (a : app) (r : policy_request) : app * response := handle a (
  match decodePayload r with
  | Err _ => refuse StatusBadRequest msgInvalidSimulateRequest
  | Ok (payload, _) =>
      let '(sub, dom, obj, act) := permissionTuple payload in
      require (negb (str_empty sub || str_empty dom || str_empty obj || str_empty act)) StatusBadRequest msgInvalidSimulateRequest ;;?
      Ok (as_admin cfg a r (fun a =>
        (a, (StatusOK, BMap {[ "allowed" := VBool (RawPermissionAllowed (app_Store a) sub dom obj act) ]}))))
  end).

(** ** Start-up: the policies of the static administrators (seed.go) *)

Definition adminBootstrapManagedKey : string := "bootstrap_managed".
Definition adminBootstrapSourceKey : string := "bootstrap_source".
Definition adminBootstrapSource : string := "static_admin_api_key".
Definition adminBootstrapMetadata : object :=
  {[ adminBootstrapManagedKey := VBool true; adminBootstrapSourceKey := VString adminBootstrapSource ]}.

Definition adminBootstrapManaged (data : object) : bool :=
  default false (as_bool (mget data adminBootstrapManagedKey)) &&
  String.eqb (default "" (as_str (mget data adminBootstrapSourceKey))) adminBootstrapSource.

Definition adminBootstrapRoute (rt : route) : bool :=
  rt_AuthRequired rt && negb (rt_PolicyBypass rt) && negb (rt_ServiceAuthRequired rt)
  && negb (isInternalRoutePattern (rt_Pattern rt)) && negb (str_empty (rt_Resource rt)) && negb (str_empty (rt_OperationID rt)).

Definition bootstrap_subjects : gset string :=
  list_to_set (omap (fun kp => let p := principal_normalized kp.2 in
    if negb (str_empty (akp_ID p)) && akp_Admin p then Some (akp_ID p) else None) (map_to_list (cf_APIKeyPrincipals cfg))).

(** The desired policies by identifier. *)
Definition adminBootstrapPolicies (catalog : list route) : gmap string (list string) :=
  foldl (fun desired rt =>
    if adminBootstrapRoute rt
    then set_fold (fun subject d => let policy := [subject; ""; rt_Resource rt; rt_OperationID rt] in <[rawPolicyID policy := policy]> d)
           desired bootstrap_subjects
    else desired) ∅ catalog.

Definition bootstrap_create (now : Z) (s : store) (policy : list string) : store :=
  if RawPermissionPolicyExists s policy then s else (CreateRawPermissionPolicyRecord s policy adminBootstrapMetadata now).1.

Definition bootstrap_prune (desired : gmap string (list string)) (s : store) (row : object) : store :=
  if negb (adminBootstrapManaged row) then s
  else
    let id := default "" (as_str (mget row "id")) in
    match desired !! id with
    | Some _ => s
    | None => (DeleteRawPermissionPolicyRecord s id).1
    end.

Definition reconcileAdminBootstrapPolicies (a : app) (catalog : list route) (now : Z) : app :=
  if negb (AllowsService cfg serviceName) then a
  else
    let desired := adminBootstrapPolicies catalog in
    let s1 := foldl (bootstrap_create now) (app_Store a) (map snd (map_to_list desired)) in
    let s2 := foldl (bootstrap_prune desired) s1 (ListRawPermissionPolicyRecords s1) in
    App_ s2 (app_Events a).

End Raw.

(** ** Identifiers determine policies *)

Definition sep_free (t : string) : Prop := separator ∉ bytes_of t.
#[export] Instance sep_free_dec t : base.Decision (sep_free t).
Proof. unfold sep_free. apply _. Defined.

(** The policies the endpoints accept, with parts free of the separator. *)
Definition policy_wf (p : list string) : Prop := (4 <= length p)%nat /\ Forall sep_free p.

Lemma rawPolicyID_cons x y l : bytes_of (rawPolicyID (x :: y :: l)) = bytes_of x ++ separator :: bytes_of (rawPolicyID (y :: l)).
Proof. unfold rawPolicyID. cbn [String.concat]. by rewrite !bytes_of_app. Qed.

Lemma rawPolicyID_inj p q : p ≠ [] -> q ≠ [] -> Forall sep_free p -> Forall sep_free q -> rawPolicyID p = rawPolicyID q -> p = q.
Proof.
  revert q. induction p as [|x p IH]; intros [|x' q] Hp Hq Fp Fq He; try done. inversion_clear Fp as [|? ? Hx Fp']. inversion_clear Fq as [|? ? Hx' Fq'].
  destruct p as [|y p], q as [|y' q].
  - cbn in He. by subst.
  - exfalso. apply (f_equal bytes_of) in He. rewrite rawPolicyID_cons in He. change (rawPolicyID [x]) with x in He. unfold sep_free in Hx. rewrite He in Hx. set_solver.
  - exfalso. apply (f_equal bytes_of) in He. rewrite rawPolicyID_cons in He. change (rawPolicyID [x']) with x' in He. unfold sep_free in Hx'. rewrite <- He in Hx'. set_solver.
  - apply (f_equal bytes_of) in He. rewrite !rawPolicyID_cons in He. apply split_char in He as [He1 He2]; [|done..].
    apply bytes_of_inj in He1, He2. subst x'. f_equal. by apply IH.
Qed.

Lemma policy_wf_inj p q : policy_wf p -> policy_wf q -> rawPolicyID p = rawPolicyID q -> p = q.
Proof. intros [Lp Fp] [Lq Fq]. apply rawPolicyID_inj; try done; by intros ->; cbn in *; lia. Qed.

(** Shorter lists never collide with a policy either. *)
Lemma short_no_policy p q : Forall sep_free p -> policy_wf q -> rawPolicyID p = rawPolicyID q -> p = q.
Proof.
  intros Fp [Lq Fq] He. destruct p as [|x p]; [|apply rawPolicyID_inj; try done; intros ->; cbn in Lq; lia].
  exfalso. destruct q as [|a [|b q]]; cbn in Lq; [lia..|]. apply (f_equal bytes_of) in He. rewrite rawPolicyID_cons in He. cbn in He.
  by destruct (bytes_of a).
Qed.

Lemma policy_id_nonempty p : (2 <= length p)%nat -> rawPolicyID p ≠ "".
Proof.
  destruct p as [|x [|y p]]; cbn [length]; try lia. intros _ He. apply (f_equal bytes_of) in He. rewrite rawPolicyID_cons in He. cbn in He. by destruct (bytes_of x).
Qed.

Lemma v_key_head i : exists t, v_key i = String "v" t.
Proof. unfold v_key. cbn. eauto. Qed.

Lemma rawPolicyRecord_id p : rawPolicyRecord p !! "id" = Some (VString (rawPolicyID p)).
Proof.
  assert (forall l (rc : object), foldl (fun rc '(i, value) => <[v_key i := VString value]> rc) rc l !! "id" = rc !! "id") as Hf.
  { induction l as [|[i v] l IH]; intros rc; [done|]. cbn [foldl]. rewrite IH, lookup_insert_ne; [done|].
    destruct (v_key_head i) as [t ->]. discriminate. }
  unfold rawPolicyRecord. cbn zeta. set (rc := foldl _ _ (imap pair p)).
  assert (rc !! "id" = Some (VString (rawPolicyID p))) as Hid by (unfold rc; rewrite Hf; apply lookup_insert_eq). clearbody rc.
  destruct p as [|a [|b [|c [|d l]]]]; try exact Hid. rewrite !lookup_insert_ne by discriminate. exact Hid.
Qed.

Lemma create_id_policy d p : d !! "id" = Some (VString (rawPolicyID p)) -> (2 <= length p)%nat -> create_id d "" = rawPolicyID p.
Proof.
  intros Hd Hl. unfold create_id, mget. rewrite Hd. cbn. apply policy_id_nonempty in Hl. unfold str_empty. by rewrite (proj2 (String.eqb_neq _ _) Hl).
Qed.

(** ** The set of policies a store holds *)

Abbreviation policy_set := (gset (list string)).

Definition policies (s : store) (P : policy_set) : Prop :=
  (forall p, p ∈ P -> policy_wf p) /\
  (forall id, is_Some (Get s rawPoliciesResource id) <-> exists p, p ∈ P /\ id = rawPolicyID p).

Section Policies.
Context (s : store) (P : policy_set) (HP : policies s P).

(** Membership of any list, a policy or not. *)
Lemma policies_mem p : Forall sep_free p -> RawPermissionPolicyExists s p = bool_decide (p ∈ P).
Proof.
  intros Hs. destruct HP as [Hwf Hg]. unfold RawPermissionPolicyExists. specialize (Hg (rawPolicyID p)).
  destruct (Get s _ _) as [rc|]; case_bool_decide as Hb; try done; exfalso.
  - destruct (proj1 Hg) as (q & Hq & He); [by eexists|]. apply short_no_policy in He; [by subst|done|by apply Hwf].
  - destruct (proj2 Hg) as [rc Hrc]; [by exists p|]. done.
Qed.

Lemma policies_same s' : (forall id, Get s' rawPoliciesResource id = Get s rawPoliciesResource id) -> policies s' P.
Proof. intros He. destruct HP as [Hwf Hg]. split; [done|]. intros id. rewrite He. apply Hg. Qed.

Lemma policies_insert s' p rc : policy_wf p ->
  (forall id, Get s' rawPoliciesResource id = if decide (id = rawPolicyID p) then Some rc else Get s rawPoliciesResource id) -> policies s' ({[p]} ∪ P).
Proof.
  intros Hw He. destruct HP as [Hwf Hg]. split; [set_solver|]. intros id. rewrite He. case_decide as Hd.
  - split; [intros _; exists p; set_solver|by eexists].
  - rewrite Hg. split; intros (q & Hq & ->); exists q; [set_solver|]. split; [|done]. apply elem_of_union in Hq as [Hq|]; [|done]. set_solver.
Qed.

Lemma policies_delete s' p : Forall sep_free p ->
  (forall id, Get s' rawPoliciesResource id = if decide (id = rawPolicyID p) then None else Get s rawPoliciesResource id) -> policies s' (P ∖ {[p]}).
Proof.
  intros Hw He. destruct HP as [Hwf Hg]. split; [set_solver|]. intros id. rewrite He. case_decide as Hd.
  - subst id. split; [by intros []|]. intros (q & Hq & Hi). exfalso. apply short_no_policy in Hi; [set_solver|done|]. apply Hwf. set_solver.
  - rewrite Hg. split; intros (q & Hq & ->); exists q; set_solver.
Qed.

Lemma policies_move s' p q rc : policy_wf p -> policy_wf q -> p ≠ q ->
  (forall id, Get s' rawPoliciesResource id =
     if decide (id = rawPolicyID p) then None else if decide (id = rawPolicyID q) then Some rc else Get s rawPoliciesResource id) ->
  policies s' ({[q]} ∪ P ∖ {[p]}).
Proof.
  intros Wp Wq Hne He. pose proof HP as [Hwf Hg]. split; [set_solver|]. intros id. rewrite He. case_decide as Hd; [|case_decide as Hd'].
  - subst id. split; [by intros []|]. intros (x & Hx & Hi). exfalso. apply elem_of_union in Hx as [Hx|Hx].
    + apply elem_of_singleton in Hx as ->. by apply Hne, policy_wf_inj.
    + apply policy_wf_inj in Hi; [set_solver|done|]. apply Hwf. set_solver.
  - split; [intros _; exists q; set_solver|by eexists].
  - rewrite Hg. split; intros (x & Hx & ->); exists x; set_solver.
Qed.
End Policies.

Lemma policies_frame (Q : string -> string -> Prop) s s' P : frame Q s s' -> (forall id, ~ Q rawPoliciesResource id) -> policies s P -> policies s' P.
Proof. intros Hf Hn HP. apply (policies_same s P HP). intros id. by apply Hf. Qed.

(** ** What the endpoints do to the set *)

Section Effects.
Context `{GoLib} `{AuthLib} `{PolicyLib} {ip : Type} `{NetLib ip} (cfg : config ip).

(** A change of the policies, and what it should do: the status of a caller who is refused
    is given. *)
Inductive raw_op :=
| OpAdd (p : list string)
| OpUpdate (old new : list string)
| OpRemove (p : list string).

Definition raw_spec (refused : option Z) (op : raw_op) (P : policy_set) : policy_set * Z :=
  match op with
  | OpAdd p =>
      if (length p <? 4)%nat then (P, StatusBadRequest)
      else match refused with
           | Some status => (P, status)
           | None => if decide (p ∈ P) then (P, StatusConflict) else ({[p]} ∪ P, StatusOK)
           end
  | OpUpdate old new =>
      match refused with
      | Some status => (P, status)
      | None =>
          if decide (old ∈ P) then
            if decide (old = new) then (P, StatusOK)
            else if decide (new ∈ P) then (P, StatusConflict)
            else ({[new]} ∪ P ∖ {[old]}, StatusOK)
          else (P, StatusNotFound)
      end
  | OpRemove p =>
      match refused with
      | Some status => (P, status)
      | None => if decide (p ∈ P) then (P ∖ {[p]}, StatusOK) else (P, StatusNotFound)
      end
  end.

Lemma identity_copy_not_raw id : ~ identity_copy rawPoliciesResource id.
Proof. unfold identity_copy. intros [E|[E|E]]; vm_compute in E; discriminate E. Qed.

Lemma requireAdmin_policies a r P : policies (app_Store a) P -> policies (app_Store (requireAdmin cfg a r).1) P.
Proof. apply policies_frame with identity_copy; [apply requireAdmin_spec|apply identity_copy_not_raw]. Qed.

Definition refused_status (a : app) (r : policy_request) : option Z := fst <$> (requireAdmin cfg a r).2.

Lemma as_admin_refused a r k :
  as_admin cfg a r k =
  match (requireAdmin cfg a r).2 with Some refusal => ((requireAdmin cfg a r).1, refusal) | None => k (requireAdmin cfg a r).1 end.
Proof. unfold as_admin. by destruct (requireAdmin cfg a r) as [a1 [resp|]]. Qed.

(** The callbacks on the store. *)
Lemma create_policy_run p now t :
  (2 <= length p)%nat -> exists s' rc,
  CreateRawPermissionPolicyTx p now t =
    (StoreTx s' (tx_events t), Ok (negb (RawPermissionPolicyExists (tx_store t) p))) /\
  (forall id, Get s' rawPoliciesResource id =
     if decide (id = rawPolicyID p /\ RawPermissionPolicyExists (tx_store t) p = false) then Some rc else Get (tx_store t) rawPoliciesResource id).
Proof.
  intros Hl. unfold CreateRawPermissionPolicyTx. destruct (RawPermissionPolicyExists (tx_store t) p) eqn:Ee.
  { exists (tx_store t), (Record_ "" ∅ 0 0 0). destruct t. split; [done|]. intros id. by rewrite decide_False by (intros [_ ?]; done). }
  unfold tx_Create. destruct (Create (tx_store t) rawPoliciesResource (rawPolicyRecord p) "" now) as [s' [rc|e]] eqn:EC.
  - apply Create_ok in EC as (_ & _ & _ & _ & _ & _ & Hg). rewrite (create_id_policy _ p) in Hg by (done || apply rawPolicyRecord_id).
    exists s', rc. split; [done|]. intros id. rewrite Hg. repeat case_decide; naive_solver.
  - apply Create_err in EC as (_ & Hs & _). rewrite (create_id_policy _ p) in Hs by (done || apply rawPolicyRecord_id).
    unfold RawPermissionPolicyExists in Ee. destruct (Get _ _ _); [done|]. by destruct Hs.
Qed.

Lemma add_refines a r P p : policies (app_Store a) P -> uuids_drawn r -> decodeRawPolicy r = Ok p -> Forall sep_free p ->
  policies (app_Store (addRawPermissionPolicy cfg a r).1) (raw_spec (refused_status a r) (OpAdd p) P).1 /\
  (addRawPermissionPolicy cfg a r).2.1 = (raw_spec (refused_status a r) (OpAdd p) P).2.
Proof.
  intros HP Hu Hd Hs. unfold addRawPermissionPolicy, handle, raw_spec, refused_status. rewrite Hd. cbn [bad_request res_bind].
  unfold require, guard_else. rewrite Nat.leb_antisym. destruct (Nat.ltb_spec (length p) 4) as [Hl|Hl]; cbn [negb res_bind]; [done|].
  rewrite as_admin_refused. pose proof (requireAdmin_policies a r P HP) as HP1. destruct (requireAdmin cfg a r) as [a1 [resp|]]; cbn [fst snd fmap option_fmap option_map] in *; [done|].
  destruct (create_policy_run p (sq_now r) (StoreTx (app_Store a1) [])) as (s' & rc & Hrun & Hget); [lia|].
  set (ev := fun created : bool => if created then Some (policyChangedEvent r 0 "policy_added" {[ "policy" := VStrings p ]}) else None).
  pose proof (announced_store a1 (CreateRawPermissionPolicyTx p (sq_now r)) ev) as Hst.
  pose proof (announced_result a1 (CreateRawPermissionPolicyTx p (sq_now r)) ev) as Hres.
  rewrite Hrun in Hst, Hres. cbn [fst snd tx_store tx_events] in *.
  rewrite (policies_mem _ P HP1) in * by done.
  specialize (Hres ltac:(intros [] e; [intros [= <-]; by apply policy_event_ok|done]) eq_refl).
  destruct (WithTx a1 _) as [a2 out]. cbn [fst snd] in *. subst out. rewrite bool_decide_decide. rewrite bool_decide_decide in Hget.
  destruct (decide (p ∈ P)) as [Hin|Hin]; cbn [negb fst snd]; rewrite Hst; (split; [|done]).
  - apply (policies_same _ P HP1). intros id. rewrite Hget. by rewrite decide_False by (intros [_ ?]; done).
  - apply (policies_insert _ P HP1 _ p rc); [split; [lia|done]|]. intros id. rewrite Hget. repeat case_decide; naive_solver.
Qed.

Lemma delete_policy_run p t : exists s',
  DeleteRawPermissionPolicyTx p t = (StoreTx s' (tx_events t), Ok (RawPermissionPolicyExists (tx_store t) p)) /\
  (forall id, Get s' rawPoliciesResource id = if decide (id = rawPolicyID p) then None else Get (tx_store t) rawPoliciesResource id).
Proof.
  unfold DeleteRawPermissionPolicyTx, tx_Delete, RawPermissionPolicyExists. pose proof (Delete_Get (tx_store t) rawPoliciesResource (rawPolicyID p)) as HD.
  assert ((Delete (tx_store t) rawPoliciesResource (rawPolicyID p)).2 =
          match Get (tx_store t) rawPoliciesResource (rawPolicyID p) with Some _ => true | None => false end) as Hb
    by (unfold Delete, Get; by destruct (bucket _ _ !! _)).
  destruct (Delete _ _ _) as [s' b]. cbn [fst snd] in *. exists s'. rewrite Hb. split; [done|]. intros id. rewrite HD. repeat case_decide; naive_solver.
Qed.

Lemma remove_refines a r P p : policies (app_Store a) P -> uuids_drawn r -> decodeRawPolicy r = Ok p -> Forall sep_free p ->
  policies (app_Store (removeRawPermissionPolicy cfg a r).1) (raw_spec (refused_status a r) (OpRemove p) P).1 /\
  (removeRawPermissionPolicy cfg a r).2.1 = (raw_spec (refused_status a r) (OpRemove p) P).2.
Proof.
  intros HP Hu Hd Hs. unfold removeRawPermissionPolicy, handle, raw_spec, refused_status. rewrite Hd. cbn [bad_request res_bind].
  rewrite as_admin_refused. pose proof (requireAdmin_policies a r P HP) as HP1. destruct (requireAdmin cfg a r) as [a1 [resp|]]; cbn [fst snd fmap option_fmap option_map] in *; [done|].
  set (ev := fun deleted : bool => if deleted then Some (policyChangedEvent r 0 "policy_removed" {[ "policy" := VStrings p ]}) else None).
  pose proof (announced_store a1 (DeleteRawPermissionPolicyTx p) ev) as Hst. pose proof (announced_result a1 (DeleteRawPermissionPolicyTx p) ev) as Hres.
  destruct (delete_policy_run p (StoreTx (app_Store a1) [])) as (s' & Hrun & Hget). rewrite Hrun in Hst, Hres. cbn [fst snd tx_store tx_events] in *.
  specialize (Hres ltac:(intros [] e; [intros [= <-]; by apply policy_event_ok|done]) eq_refl).
  rewrite (policies_mem _ P HP1 p Hs) in Hres. destruct (WithTx a1 _) as [a2 out]. cbn [fst snd] in *. subst out. rewrite bool_decide_decide.
  pose proof (policies_delete _ P HP1 _ p Hs Hget) as HP2. destruct (decide (p ∈ P)) as [Hin|Hin]; cbn [fst snd]; rewrite Hst; (split; [|done]); [exact HP2|].
  replace P with (P ∖ {[p]}) at 1 by set_solver. exact HP2.
Qed.

(** An update files the new policy and removes the old one. *)
Lemma update_policy_run old new now t :
  (4 <= length new)%nat -> exists s' rc,
  UpdateRawPermissionPolicyTx old new now t =
    (StoreTx s' (tx_events t),
     Ok (if negb (RawPermissionPolicyExists (tx_store t) old) then UpdateResult false false false
         else if String.eqb (rawPolicyID old) (rawPolicyID new) then UpdateResult true false true
         else if RawPermissionPolicyExists (tx_store t) new then UpdateResult true true false
         else UpdateResult true false true)) /\
  (forall id, Get s' rawPoliciesResource id =
     if RawPermissionPolicyExists (tx_store t) old then
       if String.eqb (rawPolicyID old) (rawPolicyID new) then
         if decide (id = rawPolicyID new) then Some rc else Get (tx_store t) rawPoliciesResource id
       else if RawPermissionPolicyExists (tx_store t) new then Get (tx_store t) rawPoliciesResource id
       else if decide (id = rawPolicyID old) then None
       else if decide (id = rawPolicyID new) then Some rc else Get (tx_store t) rawPoliciesResource id
     else Get (tx_store t) rawPoliciesResource id).
Proof.
  intros Hl. set (rc0 := Record_ "" ∅ 0 0 0). unfold UpdateRawPermissionPolicyTx, RawPermissionPolicyExists. destruct t as [s evs]. cbn [tx_store tx_events].
  destruct (Get s rawPoliciesResource (rawPolicyID old)) as [rold|] eqn:Eo; cbn [negb]; [|by exists s, rc0].
  destruct (String.eqb_spec (rawPolicyID old) (rawPolicyID new)) as [Hi|Hi]; cbn [negb].
  - unfold tx_Update. cbn [tx_store tx_events]. pose proof (Update_cases s rawPoliciesResource (rawPolicyID old) (rawPolicyRecord new) now) as HU.
    destruct (Update s _ _ _ _) as [s1 [rc1|]]; rewrite Eo in HU; [|done]. destruct HU as (_ & _ & _ & _ & _ & Hg).
    exists s1, rc1. split; [done|]. intros id. rewrite Hg, <- Hi. repeat case_decide; naive_solver.
  - destruct (Get s rawPoliciesResource (rawPolicyID new)) as [rnew|] eqn:En; [by exists s, rc0|].
    unfold tx_Create, tx_Delete. cbn [tx_store tx_events].
    destruct (Create s rawPoliciesResource (rawPolicyRecord new) "" now) as [s1 [rc1|e]] eqn:EC.
    + apply Create_ok in EC as (_ & _ & _ & _ & _ & _ & Hg). rewrite (create_id_policy _ new) in Hg by (apply rawPolicyRecord_id || lia).
      cbn [tx_store tx_events]. pose proof (Delete_Get s1 rawPoliciesResource (rawPolicyID old)) as HD.
      destruct (Delete s1 rawPoliciesResource (rawPolicyID old)) as [s2 b]. cbn [fst] in HD. exists s2, rc1. split; [done|].
      intros id. rewrite HD, Hg. repeat case_decide; naive_solver.
    + apply Create_err in EC as (_ & Hs & _). rewrite (create_id_policy _ new) in Hs by (apply rawPolicyRecord_id || lia). rewrite En in Hs. by destruct Hs.
Qed.

Lemma update_refines a r P old new : policies (app_Store a) P -> uuids_drawn r -> decodeRawPolicyUpdate r = Ok (old, new) ->
  Forall sep_free old -> Forall sep_free new ->
  policies (app_Store (updateRawPermissionPolicy cfg a r).1) (raw_spec (refused_status a r) (OpUpdate old new) P).1 /\
  (updateRawPermissionPolicy cfg a r).2.1 = (raw_spec (refused_status a r) (OpUpdate old new) P).2.
Proof.
  intros HP Hu Hd Ho Hn. unfold updateRawPermissionPolicy, handle, raw_spec, refused_status.
  assert (policy_wf old /\ policy_wf new) as [Wo Wn].
  { revert Hd. unfold decodeRawPolicyUpdate. destruct (readRequestBody r) as [raw|]; [|done]. cbn [res_bind].
    destruct (unmarshal_policy_update raw) as [[o n]|]; [|done]. cbn zeta.
    destruct (Nat.ltb_spec (length (normalizePolicy o)) 4), (Nat.ltb_spec (length (normalizePolicy n)) 4); try done. by intros [= <- <-]. }
  rewrite Hd. cbn [bad_request res_bind].
  rewrite as_admin_refused. pose proof (requireAdmin_policies a r P HP) as HP1. destruct (requireAdmin cfg a r) as [a1 [resp|]]; cbn [fst snd fmap option_fmap option_map] in *; [done|].
  set (ev := fun res => if ur_Updated res then Some (policyChangedEvent r 0 "policy_updated" {[ "old" := VStrings old; "new" := VStrings new ]}) else None).
  pose proof (announced_store a1 (UpdateRawPermissionPolicyTx old new (sq_now r)) ev) as Hst.
  pose proof (announced_result a1 (UpdateRawPermissionPolicyTx old new (sq_now r)) ev) as Hres.
  destruct (update_policy_run old new (sq_now r) (StoreTx (app_Store a1) [])) as (s' & rc & Hrun & Hget); [apply Wn|].
  rewrite Hrun in Hst, Hres. cbn [fst snd tx_store tx_events] in *.
  specialize (Hres ltac:(intros x e; unfold ev; destruct (ur_Updated x); [intros [= <-]; by apply policy_event_ok|done]) eq_refl).
  rewrite !(policies_mem _ P HP1) in Hres by done. setoid_rewrite (policies_mem _ P HP1 old Ho) in Hget. setoid_rewrite (policies_mem _ P HP1 new Hn) in Hget.
  destruct (WithTx a1 _) as [a2 out]. cbn [fst snd] in *. subst out. rewrite !bool_decide_decide. cbn [fst snd]. rewrite Hst. clear Hst.
  destruct (decide (old ∈ P)) as [Hin|Hin]; cbn [negb fst snd ur_Found ur_Conflict]; [|split; [|done]; apply (policies_same _ P HP1); intros id; rewrite Hget; by rewrite bool_decide_false].
  setoid_rewrite (bool_decide_true (old ∈ P)) in Hget; [|done].
  destruct (String.eqb_spec (rawPolicyID old) (rawPolicyID new)) as [Hi|Hi].
  - apply policy_wf_inj in Hi; [subst new|done..]. rewrite decide_True by done. split; [|done].
    replace P with ({[old]} ∪ P) by set_solver. by apply (policies_insert _ P HP1 _ old rc).
  - rewrite (decide_False (P := old = new)) by congruence. destruct (decide (new ∈ P)) as [Hin2|Hin2]; cbn [fst snd ur_Found ur_Conflict negb];
      [split; [|done]; apply (policies_same _ P HP1); intros id; rewrite Hget; by rewrite bool_decide_true|]. split; [|done].
    apply (policies_move _ P HP1 _ old new rc); [done..|congruence|]. intros id. rewrite Hget. by rewrite bool_decide_false.
Qed.
End Effects.
