(* ===== verification/PolicyProxy.v ===== *)
(** * Authorization-policy service: access to the proxied services
    (internal/services/authorizationpolicy: authorization_policy_repository.go,
    policies.go, assignments.go, roles.go, services.go, seed_data.go, helpers.go)

    Administrators give users and roles policies, which are lists of rules over the
    services behind the proxy.  Policies, rules, assignments, roles and memberships are
    records; defaults are created the first time a resource is read.  Reading can therefore
    write: the functions thread the store. *)

From stdpp Require Import base gmap strings list fin_maps.
From Stdlib Require Import ZArith Lia Ascii.
From S2P Require Import Prelude GoValue Store EventBus Crud Tx InputLimits Config Auth SchedulerHttp ServiceHttp Tables ServiceProjection PolicyIdentity PolicyRaw.
Local Open Scope Z_scope.
Local Open Scope go_scope.

Definition servicesResource : string := serviceName +:+ ":proxy_services".
Definition policiesResource : string := serviceName +:+ ":proxy_policies".
Definition rulesResource : string := serviceName +:+ ":proxy_policy_rules".
Definition assignmentsResource : string := serviceName +:+ ":proxy_policy_assignments".
Definition platformRolesResource : string := serviceName +:+ ":proxy_roles".
Definition roleUsersResource : string := serviceName +:+ ":proxy_role_users".
Definition seedMarkersResource : string := serviceName +:+ ":seed_markers".
Definition msgPolicyRuleExists : string := "policy rule already exists".
Definition msgRoleNotFound : string := "role not found".
Definition msgUserIDRequired : string := "user_id is required".
Definition StatusMethodNotAllowed : Z := 405.

Definition policyKeys : list string := ["policy_id"; "policyId"].
Definition roleKeys : list string := ["role_id"; "roleId"].
Definition memberKeys : list string := ["user_id"; "userId"].
Definition serviceKeys : list string := ["service_id"; "serviceId"].
Definition targetTypeKeys : list string := ["target_type"; "targetType"].
Definition targetIdKeys : list string := ["target_id"; "targetId"].

(** ** Defaults (seed_data.go) *)

Definition all_actions : list string := ["view"; "create"; "update"; "delete"].

Definition service_row (id name description category route_path pattern : string) (sort_order : Z) : object :=
  list_to_map [("id", VString id); ("name", VString name); ("description", VString description); ("category", VString category);
    ("route_path", VString route_path); ("api_patterns", VStrings [pattern]); ("actions", VStrings all_actions); ("sort_order", VInt sort_order)].

Definition defaultServices : list object :=
  [service_row "SVC_MINIO" "MinIO Console" "Object storage management console" "services" "/admin/minio" "/api/v1/minio-console/*" 10;
   service_row "SVC_HARBOR" "Harbor Registry" "Container image registry" "services" "/admin/registry" "/api/v1/harbor/*" 20;
   service_row "SVC_GRAFANA" "Grafana" "Monitoring and observability dashboards" "monitoring" "/admin/monitoring" "/api/v1/grafana/*" 30;
   service_row "SVC_PGADMIN" "PgAdmin" "PostgreSQL database management" "services" "/admin/pgadmin" "/api/v1/pgadmin/*" 40;
   service_row "SVC_IDE" "IDE Proxy" "IDE workspace access (Jupyter, VS Code)" "compute" "/workspaces" "/api/v1/ide/proxy/*" 50;
   service_row "SVC_USER_STORAGE" "Personal Storage" "User personal file browser storage" "storage" "/storage" "/api/v1/k8s/user-storage/proxy/*" 60;
   service_row "SVC_GROUP_STORAGE" "Group Storage" "Group shared file browser storage" "storage" "/storage" "/api/v1/storage/*/storage/*/proxy/*" 70;
   service_row "SVC_LONGHORN" "Longhorn UI" "Kubernetes block storage management" "infrastructure" "/admin/infrastructure/storage" "/api/v1/longhorn/*" 80].

Definition rule_row (id service_id : string) (actions : list string) : object :=
  list_to_map [("id", VString id); ("service_id", VString service_id); ("actions", VStrings actions)].
Definition policy_row (id name description : string) (rules : list object) : object :=
  list_to_map [("id", VString id); ("name", VString name); ("description", VString description); ("is_system", VBool true); ("rules", VMaps rules)].

Definition defaultPolicies : list object :=
  [policy_row "PO2600001" "full-proxy-access" "Full access to all proxy services (MinIO, Harbor, Grafana, PgAdmin, IDE, Storage, Longhorn)"
     [rule_row "PR2600001" "SVC_MINIO" all_actions; rule_row "PR2600002" "SVC_HARBOR" all_actions; rule_row "PR2600003" "SVC_GRAFANA" all_actions;
      rule_row "PR2600004" "SVC_PGADMIN" all_actions; rule_row "PR2600009" "SVC_IDE" all_actions; rule_row "PR2600010" "SVC_USER_STORAGE" all_actions;
      rule_row "PR2600011" "SVC_GROUP_STORAGE" all_actions; rule_row "PR2600015" "SVC_LONGHORN" all_actions];
   policy_row "PO2600002" "read-only-proxy-access" "View-only access to all proxy services"
     [rule_row "PR2600005" "SVC_MINIO" ["view"]; rule_row "PR2600006" "SVC_HARBOR" ["view"]; rule_row "PR2600007" "SVC_GRAFANA" ["view"];
      rule_row "PR2600008" "SVC_PGADMIN" ["view"]; rule_row "PR2600012" "SVC_IDE" all_actions; rule_row "PR2600013" "SVC_USER_STORAGE" all_actions;
      rule_row "PR2600014" "SVC_GROUP_STORAGE" all_actions; rule_row "PR2600016" "SVC_LONGHORN" ["view"]]].

Definition role_row (id name display_name description : string) : object :=
  list_to_map [("id", VString id); ("name", VString name); ("display_name", VString display_name); ("description", VString description); ("is_system", VBool true)].
Definition defaultPlatformRoles : list object :=
  [role_row "RL2600001" "proxy-operator" "Proxy Operator" "Full access to all proxy services";
   role_row "RL2600002" "proxy-viewer" "Proxy Viewer" "Read-only access to all proxy services"].

Definition assignment_row (id policy_id target_type target_id : string) : object :=
  list_to_map [("id", VString id); ("policy_id", VString policy_id); ("target_type", VString target_type); ("target_id", VString target_id)].
Definition defaultAssignments : list object :=
  [assignment_row "PA2600001" "PO2600001" "role" "RL2600001"; assignment_row "PA2600002" "PO2600002" "role" "RL2600002"].

Section Proxy.
Context `{GoLib} {ip : Type} (cfg : config ip).

(** ** Seeds *)

Definition seedMarked (s : store) (name : string) : bool := match Get s seedMarkersResource name with Some _ => true | None => false end.

Definition claimSeed (s : store) (name : string) (now : Z) : store * bool :=
  match Create s seedMarkersResource {[ "id" := VString name; "created_at" := time_value now ]} "" now with
  | (s', Ok _) => (s', true)
  | (s', Err _) => (s', false)
  end.

(** The new store and the identifier of the record, empty when it was not created. *)
Definition seedCreate (s : store) (resource : string) (data : object) (now : Z) : store * string :=
  match Create s resource data "" now with
  | (s', Ok rc) => (s', rec_ID rc)
  | (s', Err _) => (s', "")
  end.

(** The marker is claimed once; a resource in use is only marked. *)
Definition seed_once (s : store) (marker resource : string) (now : Z) (fill : store -> store) : store :=
  if seedMarked s marker then s
  else match List_ s resource with
       | _ :: _ => (claimSeed s marker now).1
       | [] => let '(s1, claimed) := claimSeed s marker now in if claimed then fill s1 else s1
       end.

Definition stamped (now : Z) (row : object) : object := <["updated_at" := time_value now]> (<["created_at" := time_value now]> row).

Definition seed_rows (resource : string) (rows : list object) (now : Z) (s : store) : store :=
  foldl (fun s row => (seedCreate s resource (stamped now row) now).1) s rows.

Definition seed_policy (now : Z) (s : store) (row : object) : store :=
  let rules := match mget row "rules" with VMaps l => l | _ => [] end in
  let data := stamped now (delete "rules" row) in
  let '(s1, id) := seedCreate s policiesResource data now in
  let policyID := FirstNonEmpty [id; TextValue data ["id"]] in
  foldl (fun s rule => (seedCreate s rulesResource (<["policy_id" := VString policyID]> rule) now).1) s1 rules.

Definition EnsureDefaultProxyServices (s : store) (now : Z) : store :=
  seed_once s "proxy-services" servicesResource now (seed_rows servicesResource defaultServices now).
Definition EnsureDefaultProxyPolicies (s : store) (now : Z) : store :=
  seed_once s "proxy-policies" policiesResource now (fun s => foldl (seed_policy now) s defaultPolicies).
Definition EnsureDefaultProxyRoles (s : store) (now : Z) : store :=
  seed_once s "proxy-roles" platformRolesResource now (seed_rows platformRolesResource defaultPlatformRoles now).

Definition nextID (s : store) (resource prefix : string) : string * store := default ("", s) (NextID s resource prefix 2600001 7).

(** ** Services *)

Definition service_less (x y : object) : bool :=
  let left := IntValue x ["sort_order"; "sortOrder"] in
  let right := IntValue y ["sort_order"; "sortOrder"] in
  if left =? right then String.ltb (TextValue x ["id"]) (TextValue y ["id"]) else left <? right.

Definition ListProxyServices (s : store) (now : Z) : store * list object :=
  let s1 := EnsureDefaultProxyServices s now in (s1, SliceStable service_less (listMaps s1 servicesResource)).
Definition GetProxyService (s : store) (id : string) (now : Z) : store * option object :=
  let '(s1, rows) := ListProxyServices s now in (s1, List.find (fun row => String.eqb (TextValue row ["id"]) id) rows).

(** ** Policies and rules *)

Definition of_policy (id : string) (data : object) : bool := String.eqb (TextValue data policyKeys) id.
Definition service_text_less (x y : object) : bool := String.ltb (TextValue x serviceKeys) (TextValue y serviceKeys).

Definition composePolicy (s : store) (policy : object) : object :=
  let id := TextValue policy ["id"] in
  <["rules" := VMaps (SliceStable service_text_less
      (map record_map (List.filter (fun rc => of_policy id (rec_Data rc)) (List_ s rulesResource))))]> policy.

Definition ListProxyPolicies (s : store) (now : Z) : store * list object :=
  let s1 := EnsureDefaultProxyPolicies s now in
  (s1, SliceStable (fun x y => String.ltb (TextValue x ["name"]) (TextValue y ["name"])) (map (composePolicy s1) (listMaps s1 policiesResource))).

Definition GetProxyPolicy (s : store) (id : string) (now : Z) : store * option object :=
  let s1 := EnsureDefaultProxyPolicies s now in (s1, (fun rc => composePolicy s1 (rec_Data rc)) <$> Get s1 policiesResource id).

Definition name_taken (rows : list object) (excludeID name : string) : bool :=
  let normalized := ToLower (TrimSpace name) in
  existsb (fun row => negb (String.eqb (TextValue row ["id"]) excludeID) && String.eqb (ToLower (TextValue row ["name"])) normalized) rows.
Definition PolicyNameExists (s : store) (excludeID name : string) (now : Z) : store * bool :=
  let '(s1, rows) := ListProxyPolicies s now in (s1, name_taken rows excludeID name).

(** A read of the repository inside a transaction. *)
Definition tx_read {E A} (f : store -> store * A) : tx_fn E A := fun t => let '(s, x) := f (tx_store t) in (StoreTx s (tx_events t), Ok x).

Definition rule_record (id policyID : string) (rule : object) : object :=
  list_to_map [("id", VString id); ("policy_id", VString policyID); ("service_id", VString (TextValue rule serviceKeys));
    ("actions", VStrings (default [] (StringSlice (mget rule "actions"))))].

(** The identifier is drawn even when the rule brings one. *)
Fixpoint create_rules (policyID : string) (rules : list object) (now : Z) : tx_fn create_conflict (list object) :=
  match rules with
  | [] => stm_ret []
  | rule :: rest =>
      drawn <-- tx_read (fun s => let '(id, s') := nextID s rulesResource "PR" in (s', id)) ;;
      let row := rule_record (FirstNonEmpty [TextValue rule ["id"]; drawn]) policyID rule in
      tx_Create rulesResource row "" now ;;;
      created <-- create_rules policyID rest now ;;
      stm_ret (row :: created)
  end.

Definition with_rules (policy : object) (created : list object) : object := <["rules" := VMaps (SliceStable service_text_less created)]> policy.

Definition CreateProxyPolicyTx (policy : object) (rules : list object) (now : Z) : tx_fn create_conflict object :=
  rc <-- tx_Create policiesResource policy "" now ;;
  created <-- create_rules (rec_ID rc) rules now ;;
  stm_ret (with_rules (rec_Data rc) created).

Definition matching_ids (s : store) (resource : string) (matches : object -> bool) : list string :=
  map rec_ID (List.filter (fun rc => matches (rec_Data rc)) (List_ s resource)).
Fixpoint delete_ids {E} (resource : string) (ids : list string) : tx_fn E unit :=
  match ids with [] => stm_ret tt | id :: rest => tx_Delete resource id ;;; delete_ids resource rest end.
Definition delete_matching {E} (resource : string) (matches : object -> bool) : tx_fn E unit :=
  fun t => delete_ids resource (matching_ids (tx_store t) resource matches) t.

Definition UpdateProxyPolicyTx (id : string) (update : object) (replacement : option (list object)) (now : Z)
    : tx_fn create_conflict (option object) :=
  updated <-- tx_Update policiesResource id update now ;;
  match updated with
  | None => stm_ret None
  | Some rc =>
      match replacement with
      | None => tx_read (fun s => (s, Some (composePolicy s (rec_Data rc))))
      | Some rules =>
          delete_matching rulesResource (of_policy id) ;;;
          created <-- create_rules id rules now ;;
          stm_ret (Some (with_rules (rec_Data rc) created))
      end
  end.

Definition DeleteProxyPolicyCascadeTx (id : string) (now : Z) : tx_fn create_conflict (option object) :=
  current <-- tx_read (fun s => GetProxyPolicy s id now) ;;
  match current with
  | None => stm_ret None
  | Some policy =>
      delete_matching rulesResource (of_policy id) ;;;
      delete_matching assignmentsResource (of_policy id) ;;;
      tx_Delete policiesResource id ;;;
      stm_ret (Some policy)
  end.

(** ** Roles *)

Definition ListProxyRoles (s : store) (now : Z) : store * list object :=
  let s1 := EnsureDefaultProxyRoles s now in
  (s1, SliceStable (fun x y => String.ltb (TextValue x ["name"]) (TextValue y ["name"])) (listMaps s1 platformRolesResource)).
Definition GetProxyRole (s : store) (id : string) (now : Z) : store * option object :=
  let s1 := EnsureDefaultProxyRoles s now in (s1, rec_Data <$> Get s1 platformRolesResource id).
Definition RoleNameExists (s : store) (excludeID name : string) (now : Z) : store * bool :=
  let '(s1, rows) := ListProxyRoles s now in (s1, name_taken rows excludeID name).

Definition CreateProxyRoleTx (role : object) (now : Z) : tx_fn create_conflict object :=
  rc <-- tx_Create platformRolesResource role "" now ;; stm_ret (rec_Data rc).
Definition UpdateProxyRoleTx (id : string) (update : object) (now : Z) : tx_fn create_conflict (option object) :=
  updated <-- tx_Update platformRolesResource id update now ;; stm_ret (rec_Data <$> updated).

Definition of_role (id : string) (data : object) : bool := String.eqb (TextValue data roleKeys) id.
Definition for_role (id : string) (data : object) : bool :=
  String.eqb (TextValue data targetTypeKeys) "role" && String.eqb (TextValue data targetIdKeys) id.

Definition DeleteProxyRoleCascadeTx (id : string) (now : Z) : tx_fn create_conflict (option object) :=
  current <-- tx_read (fun s => GetProxyRole s id now) ;;
  delete_matching roleUsersResource (of_role id) ;;;
  delete_matching assignmentsResource (for_role id) ;;;
  tx_Delete platformRolesResource id ;;;
  stm_ret current.

(** ** Assignments *)

Definition composeAssignment (now : Z) (s : store) (data : object) : store * object :=
  let '(s1, policy) := GetProxyPolicy s (TextValue data policyKeys) now in
  (s1, match policy with Some p => <["policy" := VMap p]> data | None => data end).

(** Composing the rows one after the other. *)
Fixpoint compose_all (compose : store -> object -> store * object) (s : store) (rows : list object) : store * list object :=
  match rows with
  | [] => (s, [])
  | row :: rest =>
      let '(s1, out) := compose s row in
      let '(s2, outs) := compose_all compose s1 rest in (s2, out :: outs)
  end.

Definition seed_assignment (now : Z) (s : store) (row : object) : store :=
  let '(s1, policy) := GetProxyPolicy s (TextValue row policyKeys) now in
  match policy with
  | None => s1
  | Some _ =>
      let create s := (seedCreate s assignmentsResource (<["created_at" := time_value now]> row) now).1 in
      if String.eqb (TextValue row targetTypeKeys) "role"
      then match GetProxyRole s1 (TextValue row targetIdKeys) now with
           | (s2, None) => s2
           | (s2, Some _) => create s2
           end
      else create s1
  end.

Definition EnsureDefaultProxyAssignments (s : store) (now : Z) : store :=
  let s := EnsureDefaultProxyPolicies s now in
  let s := EnsureDefaultProxyRoles s now in
  seed_once s "proxy-assignments" assignmentsResource now (fun s => foldl (seed_assignment now) s defaultAssignments).

Definition assignment_key (row : object) : string :=
  TextValue row policyKeys +:+ "|" +:+ TextValue row targetTypeKeys +:+ "|" +:+ TextValue row targetIdKeys.
Definition sortAssignments (rows : list object) : list object := SliceStable (fun x y => String.ltb (assignment_key x) (assignment_key y)) rows.

Definition assignments_where (s : store) (matches : object -> bool) (now : Z) : store * list object :=
  let '(s1, rows) := compose_all (composeAssignment now) s
    (map rec_Data (List.filter (fun rc => matches (rec_Data rc)) (List_ s assignmentsResource))) in
  (s1, sortAssignments rows).
Definition ListPolicyAssignments (s : store) (policyID : string) (now : Z) : store * list object := assignments_where s (of_policy policyID) now.
Definition for_target (targetType targetID : string) (data : object) : bool :=
  String.eqb (TextValue data targetTypeKeys) targetType && String.eqb (TextValue data targetIdKeys) targetID.
Definition ListTargetAssignments (s : store) (targetType targetID : string) (now : Z) : store * list object :=
  assignments_where s (for_target targetType targetID) now.

Definition same_assignment (policyID targetType targetID : string) (data : object) : bool :=
  of_policy policyID data && for_target targetType targetID data.
Definition findAssignment (s : store) (policyID targetType targetID : string) : option record :=
  List.find (fun rc => same_assignment policyID targetType targetID (rec_Data rc)) (List_ s assignmentsResource).

Definition assignment_record (id policyID targetType targetID assignedBy : string) (now : Z) : object :=
  list_to_map [("id", VString id); ("policy_id", VString policyID); ("target_type", VString targetType); ("target_id", VString targetID);
    ("assigned_by", VString assignedBy); ("created_at", time_value now)].

(** The row, and whether it is new. *)
Definition CreatePolicyAssignmentTx (policyID targetType targetID assignedBy : string) (now : Z) : tx_fn create_conflict (object * bool) := fun t =>
  match findAssignment (tx_store t) policyID targetType targetID with
  | Some existing => (row <-- tx_read (fun s => composeAssignment now s (rec_Data existing)) ;; stm_ret (row, false)) t
  | None =>
      let '(id, s1) := nextID (tx_store t) assignmentsResource "PA" in
      match tx_Create assignmentsResource (assignment_record id policyID targetType targetID assignedBy now) "" now (StoreTx s1 (tx_events t)) with
      | (t1, Ok rc) => (row <-- tx_read (fun s => composeAssignment now s (rec_Data rc)) ;; stm_ret (row, true)) t1
      | (t1, Err e) =>
          match findAssignment (tx_store t1) policyID targetType targetID with
          | Some existing => (row <-- tx_read (fun s => composeAssignment now s (rec_Data existing)) ;; stm_ret (row, false)) t1
          | None => (t1, Err e)
          end
      end
  end.

Definition UnassignPolicyTx (policyID targetType targetID : string) : tx_fn create_conflict (option object) := fun t =>
  match findAssignment (tx_store t) policyID targetType targetID with
  | Some rc => (tx_Delete assignmentsResource (rec_ID rc) ;;; stm_ret (Some (rec_Data rc))) t
  | None => (t, Ok None)
  end.

(** ** Memberships *)

Definition composeRoleUser (now : Z) (s : store) (data : object) : store * object :=
  let '(s1, role) := GetProxyRole s (TextValue data roleKeys) now in
  (s1, match role with Some ro => <["role" := VMap ro]> data | None => data end).

Definition ListRoleUsers (s : store) (roleID : string) (now : Z) : store * list object :=
  let '(s1, rows) := compose_all (composeRoleUser now) s
    (map rec_Data (List.filter (fun rc => of_role roleID (rec_Data rc)) (List_ s roleUsersResource))) in
  (s1, SliceStable (fun x y => String.ltb (TextValue x memberKeys) (TextValue y memberKeys)) rows).

Definition findRoleUser (s : store) (roleID userID : string) : option record :=
  List.find (fun rc => of_role roleID (rec_Data rc) && String.eqb (TextValue (rec_Data rc) memberKeys) userID) (List_ s roleUsersResource).

Definition role_user_record (roleID userID assignedBy : string) (now : Z) : object :=
  list_to_map [("id", VString (roleID +:+ ":" +:+ userID)); ("user_id", VString userID); ("role_id", VString roleID);
    ("assigned_by", VString assignedBy); ("created_at", time_value now)].

Definition CreateRoleUserTx (roleID userID assignedBy : string) (now : Z) : tx_fn create_conflict (object * bool) := fun t =>
  match findRoleUser (tx_store t) roleID userID with
  | Some existing => (row <-- tx_read (fun s => composeRoleUser now s (rec_Data existing)) ;; stm_ret (row, false)) t
  | None =>
      match tx_Create roleUsersResource (role_user_record roleID userID assignedBy now) "" now t with
      | (t1, Ok rc) => (row <-- tx_read (fun s => composeRoleUser now s (rec_Data rc)) ;; stm_ret (row, true)) t1
      | (t1, Err e) =>
          match findRoleUser (tx_store t1) roleID userID with
          | Some existing => (row <-- tx_read (fun s => composeRoleUser now s (rec_Data existing)) ;; stm_ret (row, false)) t1
          | None => (t1, Err e)
          end
      end
  end.

Definition UnassignRoleUserTx (roleID userID : string) : tx_fn create_conflict (option object) := fun t =>
  match findRoleUser (tx_store t) roleID userID with
  | Some rc => (tx_Delete roleUsersResource (rec_ID rc) ;;; stm_ret (Some (rec_Data rc))) t
  | None => (t, Ok None)
  end.

End Proxy.
