(* ===== verification/PolicyHandlers.v ===== *)
(** * Authorization-policy service: the handlers of the proxied services
    (internal/services/authorizationpolicy: policies.go, assignments.go, roles.go,
    services.go, helpers.go, handler.go) *)

From stdpp Require Import base gmap strings list fin_maps.
From Stdlib Require Import ZArith Lia Ascii.
From S2P Require Import Prelude GoValue Store EventBus Crud Tx RateLimit InputLimits Config Auth Guards SchedulerHttp ServiceHttp Tables ServiceProjection PolicyIdentity PolicyRaw PolicyProxy.
Local Open Scope Z_scope.
Local Open Scope go_scope.

Definition with_store (a : app) (s : store) : app := App_ s (app_Events a).

Section Handlers.
Context `{GoLib} `{AuthLib} `{PolicyLib} {ip : Type} `{NetLib ip} (cfg : config ip).

Definition pathID (r : policy_request) : string := TrimSpace (PathValue r "id").

(** A read of the repository by a handler. *)
Definition reading {A} (a : app) (f : store -> store * A) : app * A := let '(s, x) := f (app_Store a) in (with_store a s, x).

Definition serviceRows (a : app) (r : policy_request) := reading a (fun s => ListProxyServices s (sq_now r)).
Definition policyRows (a : app) (r : policy_request) := reading a (fun s => ListProxyPolicies s (sq_now r)).
Definition findService (a : app) (r : policy_request) (id : string) := reading a (fun s => GetProxyService s id (sq_now r)).
Definition findPolicy (a : app) (r : policy_request) (id : string) := reading a (fun s => GetProxyPolicy s id (sq_now r)).
Definition roleRows (a : app) (r : policy_request) := reading a (fun s => ListProxyRoles s (sq_now r)).
Definition findPlatformRole (a : app) (r : policy_request) (id : string) := reading a (fun s => GetProxyRole s id (sq_now r)).
Definition policyNameExists (a : app) (r : policy_request) (excludeID name : string) := reading a (fun s => PolicyNameExists s excludeID name (sq_now r)).
Definition roleNameExists (a : app) (r : policy_request) (excludeID name : string) := reading a (fun s => RoleNameExists s excludeID name (sq_now r)).
Definition assignmentRowsForPolicy (a : app) (r : policy_request) (policyID : string) := reading a (fun s => ListPolicyAssignments s policyID (sq_now r)).
Definition ensureDefaultAssignments (a : app) (r : policy_request) : app := with_store a (EnsureDefaultProxyAssignments (app_Store a) (sq_now r)).

(** ** Services *)

Definition listServices (a : app) (r : policy_request) : app * response :=
  as_admin cfg a r (fun a => let '(a, rows) := serviceRows a r in (a, (StatusOK, BMaps rows))).
Definition getService (a : app) (r : policy_request) : app * response :=
  as_admin cfg a r (fun a =>
    match findService a r (pathID r) with
    | (a, None) => (a, (StatusNotFound, message "service not found"))
    | (a, Some service) => (a, (StatusOK, BMap service))
    end).
Definition createService (a : app) (r : policy_request) : app * response :=
  as_admin cfg a r (fun a => (a, (StatusMethodNotAllowed, message "proxy service definitions are managed by deployment configuration"))).

(** ** Policies *)

Fixpoint rule_inputs (items : list any) (i : Z) : result string (list object) :=
  match items with
  | [] => Ok []
  | VMap raw :: rest =>
      let serviceID := TextValue raw serviceKeys in
      let actions := default [] (StringSlice (mget raw "actions")) in
      if str_empty serviceID || (length actions =? 0)%nat
      then Err ("rules[" +:+ fmt_int 0 i +:+ "] requires service_id and at least one action")
      else rules <-? rule_inputs rest (i + 1) ;;
           Ok (({[ "service_id" := VString serviceID; "actions" := VStrings actions ]} : object) :: rules)
  | _ :: _ => Err ("rules[" +:+ fmt_int 0 i +:+ "] must be an object")
  end.

Definition parseRuleInputs (value : any) : result string (list object) :=
  match value with
  | VNil => Ok []
  | VList items => rule_inputs items 0
  | _ => Err "rules must be an array"
  end.

Definition listPolicies (a : app) (r : policy_request) : app * response :=
  as_admin cfg a r (fun a => let '(a, rows) := policyRows a r in (a, (StatusOK, BMaps rows))).
Definition getPolicy (a : app) (r : policy_request) : app * response :=
  as_admin cfg a r (fun a =>
    match findPolicy a r (pathID r) with
    | (a, None) => (a, (StatusNotFound, message msgPolicyNotFound))
    | (a, Some policy) => (a, (StatusOK, BMap policy))
    end).

Definition name_length_ok (name : string) : bool := (2 <=? String.length name)%nat && (String.length name <=? 100)%nat.

Definition policy_record (id name description : string) (now : Z) : object :=
  list_to_map [("id", VString id); ("name", VString name); ("description", VString description); ("is_system", VBool false);
    ("created_at", time_value now); ("updated_at", time_value now)].

Definition createPolicy (a : app) (r : policy_request) : app * response := as_admin cfg a r (fun a => handle a (
  decoded <-? bad_request (decodePayload r) ;;
  let payload := decoded.1 in
  let name := TextValue payload ["name"] in
  require (name_length_ok name) StatusBadRequest "name is required and must be between 2 and 100 characters" ;;?
  Ok (let '(a, taken) := policyNameExists a r "" name in handle a (
    require (negb taken) StatusBadRequest "policy name already exists" ;;?
    rules <-? bad_request (parseRuleInputs (mget payload "rules")) ;;
    Ok (
      let '(drawn, s1) := nextID (app_Store a) policiesResource "PO" in
      let id := FirstNonEmpty [TextValue payload ["id"]; drawn] in
      match WithTx (with_store a s1)
              (announced (CreateProxyPolicyTx (policy_record id name (TextValue payload ["description"]) (sq_now r)) rules (sq_now r))
                 (fun created => Some (proxyPolicyEvent r 0 "create" created))) with
      | (a', Err (TxCallback c)) =>
          (a', (StatusConflict, message (if Contains (store_error_text (EConflict c)) rulesResource then msgPolicyRuleExists else msgPolicyAlreadyExists)))
      | (a', Err TxPublish) => (a', (StatusInternalServerError, message "policy could not be created"))
      | (a', Ok policy) => (a', (StatusCreated, BMap policy))
      end))))).

(** The patch, or the refusal. *)
Definition policyUpdateFields (a : app) (r : policy_request) (id : string) (payload : object) (present : gset string) : app * result response object :=
  let update : object := {[ "description" := VString (TextValue payload ["description"]); "updated_at" := time_value (sq_now r) ]} in
  if bool_decide ("name" ∉ present) then (a, Ok update)
  else
    let name := TextValue payload ["name"] in
    if negb (name_length_ok name) then (a, refuse StatusBadRequest "name must be between 2 and 100 characters")
    else match policyNameExists a r id name with
         | (a, true) => (a, refuse StatusBadRequest "policy name already exists")
         | (a, false) => (a, Ok (<["name" := VString name]> update))
         end.

Definition updatePolicy (a : app) (r : policy_request) : app * response := as_admin cfg a r (fun a =>
  let id := pathID r in
  match findPolicy a r id with
  | (a, None) => (a, (StatusNotFound, message msgPolicyNotFound))
  | (a, Some current) => handle a (
      decoded <-? bad_request (decodePayload r) ;;
      let '(payload, present) := decoded in
      Ok (match policyUpdateFields a r id payload present with
          | (a, Err refusal) => (a, refusal)
          | (a, Ok update) => handle a (
              replacement <-? (if bool_decide ("rules" ∈ present)
                               then rules <-? bad_request (parseRuleInputs (mget payload "rules")) ;; Ok (Some rules)
                               else Ok None) ;;
              Ok (match WithTx a (announced (UpdateProxyPolicyTx id update replacement (sq_now r))
                                    (fun out => policy ← out; Some (proxyPolicyEvent r 0 "update" {[ "old" := VMap current; "new" := VMap policy ]}))) with
                  | (a', Err (TxCallback _)) => (a', (StatusConflict, message msgPolicyRuleExists))
                  | (a', Err TxPublish) => (a', (StatusInternalServerError, message "policy rules could not be updated"))
                  | (a', Ok None) => (a', (StatusNotFound, message msgPolicyNotFound))
                  | (a', Ok (Some policy)) => (a', (StatusOK, BMap policy))
                  end))
          end))
  end).

Definition deletePolicy (a : app) (r : policy_request) : app * response := as_admin cfg a r (fun a =>
  let id := pathID r in
  match findPolicy a r id with
  | (a, None) => (a, (StatusNotFound, message msgPolicyNotFound))
  | (a, Some current) =>
      match WithTx a (announced (DeleteProxyPolicyCascadeTx id (sq_now r)) (fun _ => Some (proxyPolicyEvent r 0 "delete" current))) with
      | (a', Err _) => (a', (StatusInternalServerError, message "policy could not be deleted"))
      | (a', Ok _) => (a', (StatusOK, BNil))
      end
  end).

(** ** Assignments *)

Definition validTargetType (targetType : string) : bool := String.eqb targetType "role" || String.eqb targetType "user".

Definition assignmentTarget (payload : object) : result string (string * string) :=
  let targetType := TextValue payload targetTypeKeys in
  let targetID := TextValue payload targetIdKeys in
  if negb (validTargetType targetType) then Err "target_type must be role or user"
  else if str_empty targetID then Err "target_id is required"
  else Ok (targetType, targetID).

Definition listPolicyAssignments (a : app) (r : policy_request) : app * response := as_admin cfg a r (fun a =>
  let a := ensureDefaultAssignments a r in
  match findPolicy a r (pathID r) with
  | (a, None) => (a, (StatusNotFound, message msgPolicyNotFound))
  | (a, Some _) => let '(a, rows) := assignmentRowsForPolicy a r (pathID r) in (a, (StatusOK, BMaps rows))
  end).

(** One assignment in its transaction; [k] counts the events of the request. *)
Definition assign_one (a : app) (r : policy_request) (k : nat) (policyID : string) (target : string * string) : app * result (tx_error create_conflict) (object * bool) :=
  WithTx a (announced (CreatePolicyAssignmentTx policyID target.1 target.2 (sq_header r "X-User-ID") (sq_now r))
              (fun out : object * bool => if out.2 then Some (proxyPolicyEvent r k "assign" out.1) else None)).

Definition assignPolicy (a : app) (r : policy_request) : app * response := as_admin cfg a r (fun a =>
  let a := ensureDefaultAssignments a r in
  match findPolicy a r (pathID r) with
  | (a, None) => (a, (StatusNotFound, message msgPolicyNotFound))
  | (a, Some _) => handle a (
      decoded <-? bad_request (decodePayload r) ;;
      target <-? bad_request (assignmentTarget decoded.1) ;;
      Ok (match assign_one a r 0 (pathID r) target with
          | (a', Err (TxCallback _)) => (a', (StatusConflict, message "assignment already exists"))
          | (a', Err TxPublish) => (a', (StatusInternalServerError, message "assignment could not be created"))
          | (a', Ok (row, created)) => (a', (if created : bool then StatusCreated else StatusOK, BMap row))
          end))
  end).

Fixpoint batch_targets (items : list any) (i : Z) : result string (list (string * string)) :=
  match items with
  | [] => Ok []
  | VMap raw :: rest =>
      match assignmentTarget raw with
      | Err text => Err ("assignments[" +:+ fmt_int 0 i +:+ "]: " +:+ text)
      | Ok target => targets <-? batch_targets rest (i + 1) ;; Ok (target :: targets)
      end
  | _ :: _ => Err ("assignments[" +:+ fmt_int 0 i +:+ "] must be an object")
  end.

Definition parseBatchPolicyAssignments (payload : object) : result string (list (string * string)) :=
  match mget payload "assignments" with
  | VList items =>
      if (length items =? 0)%nat || (100 <? length items)%nat then Err "assignments is required and must contain 1 to 100 items"
      else batch_targets items 0
  | _ => Err "assignments is required and must contain 1 to 100 items"
  end.

(** What a batch reports. *)
Record batch := Batch { ba_succeeded : Z; ba_failed : Z; ba_errors : list string }.
Definition batch_start : batch := Batch 0 0 [].
Definition batchFailure (b : batch) (text : string) : batch := Batch (ba_succeeded b) (ba_failed b + 1) (ba_errors b ++ [text]).
Definition batch_success (b : batch) : batch := Batch (ba_succeeded b + 1) (ba_failed b) (ba_errors b).
Definition batch_body (b : batch) : body :=
  BMap {[ "succeeded" := VInt (ba_succeeded b); "failed" := VInt (ba_failed b); "errors" := VStrings (ba_errors b) ]}.

Definition tx_error_text (e : tx_error create_conflict) : string :=
  store_error_text (match e with TxCallback c => EConflict c | TxPublish => EPublish end).

Fixpoint assign_batch (a : app) (r : policy_request) (k : nat) (policyID : string) (targets : list (string * string)) (b : batch) : app * batch :=
  match targets with
  | [] => (a, b)
  | target :: rest =>
      match assign_one a r k policyID target with
      | (a', Err e) => assign_batch a' r (S k) policyID rest (batchFailure b (tx_error_text e))
      | (a', Ok _) => assign_batch a' r (S k) policyID rest (batch_success b)
      end
  end.

Definition batchAssignPolicy (a : app) (r : policy_request) : app * response := as_admin cfg a r (fun a =>
  let a := ensureDefaultAssignments a r in
  match findPolicy a r (pathID r) with
  | (a, None) => (a, (StatusNotFound, message msgPolicyNotFound))
  | (a, Some _) => handle a (
      decoded <-? bad_request (decodePayload r) ;;
      targets <-? bad_request (parseBatchPolicyAssignments decoded.1) ;;
      Ok (let '(a', b) := assign_batch a r 0 (pathID r) targets batch_start in (a', (StatusOK, batch_body b))))
  end).

Definition unassignPolicy (a : app) (r : policy_request) : app * response := as_admin cfg a r (fun a =>
  let a := ensureDefaultAssignments a r in handle a (
  decoded <-? bad_request (decodePayload r) ;;
  target <-? bad_request (assignmentTarget decoded.1) ;;
  Ok (match WithTx a (announced (UnassignPolicyTx (pathID r) target.1 target.2)
                        (fun found => row ← found; Some (proxyPolicyEvent r 0 "unassign" row))) with
      | (a', Err _) => (a', (StatusInternalServerError, message "assignment could not be deleted"))
      | (a', Ok _) => (a', (StatusOK, BNil))
      end))).

Definition listTargetAssignments (a : app) (r : policy_request) : app * response := as_admin cfg a r (fun a =>
  let targetType := TrimSpace (PathValue r "type") in
  if negb (validTargetType targetType) || str_empty (pathID r)
  then (a, (StatusBadRequest, message "target type must be role or user and target id is required"))
  else
    let a := ensureDefaultAssignments a r in
    let '(a, rows) := reading a (fun s => ListTargetAssignments s targetType (pathID r) (sq_now r)) in
    (a, (StatusOK, BMaps rows))).

(** ** Roles *)

Definition listRoles (a : app) (r : policy_request) : app * response :=
  as_admin cfg a r (fun a => let '(a, rows) := roleRows a r in (a, (StatusOK, BMaps rows))).
Definition getRole (a : app) (r : policy_request) : app * response :=
  as_admin cfg a r (fun a =>
    match findPlatformRole a r (pathID r) with
    | (a, None) => (a, (StatusNotFound, message msgRoleNotFound))
    | (a, Some role) => (a, (StatusOK, BMap role))
    end).

Definition role_record (id name displayName description : string) (now : Z) : object :=
  list_to_map [("id", VString id); ("name", VString name); ("display_name", VString displayName); ("description", VString description);
    ("is_system", VBool false); ("created_at", time_value now); ("updated_at", time_value now)].

Definition createRole (a : app) (r : policy_request) : app * response := as_admin cfg a r (fun a => handle a (
  decoded <-? bad_request (decodePayload r) ;;
  let payload := decoded.1 in
  let name := TextValue payload ["name"] in
  let displayName := TextValue payload ["display_name"; "displayName"] in
  require (name_length_ok name) StatusBadRequest "name is required and must be between 2 and 100 characters" ;;?
  require (negb (str_empty displayName)) StatusBadRequest "display_name is required" ;;?
  Ok (let '(a, taken) := roleNameExists a r "" name in handle a (
    require (negb taken) StatusBadRequest "role name already exists" ;;?
    Ok (
      match WithTx a (announced (
              drawn <-- tx_read (fun s => let '(id, s') := nextID s platformRolesResource "RL" in (s', id)) ;;
              CreateProxyRoleTx (role_record (FirstNonEmpty [TextValue payload ["id"]; drawn]) name displayName (TextValue payload ["description"]) (sq_now r)) (sq_now r))
              (fun role => Some (proxyPolicyEvent r 0 "role_create" role))) with
      | (a', Err (TxCallback _)) => (a', (StatusConflict, message "role already exists"))
      | (a', Err TxPublish) => (a', (StatusInternalServerError, message "role could not be created"))
      | (a', Ok role) => (a', (StatusCreated, BMap role))
      end))))).

Definition role_patch (r : policy_request) (payload : object) (present : gset string) : object :=
  let update : object := {[ "updated_at" := time_value (sq_now r) ]} in
  let displayName := TextValue payload ["display_name"; "displayName"] in
  let update := if bool_decide ("display_name" ∈ present) && negb (str_empty displayName) then <["display_name" := VString displayName]> update else update in
  if bool_decide ("description" ∈ present) then <["description" := VString (TextValue payload ["description"])]> update else update.

Definition updateRole (a : app) (r : policy_request) : app * response := as_admin cfg a r (fun a =>
  match findPlatformRole a r (pathID r) with
  | (a, None) => (a, (StatusNotFound, message msgRoleNotFound))
  | (a, Some _) => handle a (
      decoded <-? bad_request (decodePayload r) ;;
      Ok (match WithTx a (announced (UpdateProxyRoleTx (pathID r) (role_patch r decoded.1 decoded.2) (sq_now r))
                            (fun out => role ← out; Some (proxyPolicyEvent r 0 "role_update" role))) with
          | (a', Err _) => (a', (StatusInternalServerError, message "role could not be updated"))
          | (a', Ok None) => (a', (StatusNotFound, message msgRoleNotFound))
          | (a', Ok (Some role)) => (a', (StatusOK, BMap role))
          end))
  end).

Definition deleteRole (a : app) (r : policy_request) : app * response := as_admin cfg a r (fun a =>
  match WithTx a (announced (DeleteProxyRoleCascadeTx (pathID r) (sq_now r)) (fun current => Some (proxyPolicyEvent r 0 "role_delete" (default ∅ current)))) with
  | (a', Err _) => (a', (StatusInternalServerError, message "role could not be deleted"))
  | (a', Ok _) => (a', (StatusOK, BNil))
  end).

Definition listRoleUsers (a : app) (r : policy_request) : app * response := as_admin cfg a r (fun a =>
  match findPlatformRole a r (pathID r) with
  | (a, None) => (a, (StatusNotFound, message msgRoleNotFound))
  | (a, Some _) => let '(a, rows) := reading a (fun s => ListRoleUsers s (pathID r) (sq_now r)) in (a, (StatusOK, BMaps rows))
  end).

Definition assign_member (a : app) (r : policy_request) (k : nat) (roleID userID : string) : app * result (tx_error create_conflict) (object * bool) :=
  WithTx a (announced (CreateRoleUserTx roleID userID (sq_header r "X-User-ID") (sq_now r))
              (fun out : object * bool => if out.2 then Some (proxyPolicyEvent r k "role_user_assign" out.1) else None)).

Definition assignRoleUser (a : app) (r : policy_request) : app * response := as_admin cfg a r (fun a =>
  match findPlatformRole a r (pathID r) with
  | (a, None) => (a, (StatusNotFound, message msgRoleNotFound))
  | (a, Some _) => handle a (
      decoded <-? bad_request (decodePayload r) ;;
      let userID := TextValue decoded.1 memberKeys in
      require (negb (str_empty userID)) StatusBadRequest msgUserIDRequired ;;?
      Ok (match assign_member a r 0 (pathID r) userID with
          | (a', Err (TxCallback _)) => (a', (StatusConflict, message "role user already exists"))
          | (a', Err TxPublish) => (a', (StatusInternalServerError, message "role user could not be created"))
          | (a', Ok (row, created)) => (a', (if created : bool then StatusCreated else StatusOK, BMap row))
          end))
  end).

Fixpoint member_batch (a : app) (r : policy_request) (k : nat) (roleID : string) (userIDs : list string) (b : batch) : app * batch :=
  match userIDs with
  | [] => (a, b)
  | userID :: rest =>
      if str_empty (TrimSpace userID) then member_batch a r (S k) roleID rest (batchFailure b msgUserIDRequired)
      else match assign_member a r k roleID userID with
           | (a', Err e) => member_batch a' r (S k) roleID rest (batchFailure b (tx_error_text e))
           | (a', Ok _) => member_batch a' r (S k) roleID rest (batch_success b)
           end
  end.

Definition batchAssignRoleUsers (a : app) (r : policy_request) : app * response := as_admin cfg a r (fun a =>
  match findPlatformRole a r (pathID r) with
  | (a, None) => (a, (StatusNotFound, message msgRoleNotFound))
  | (a, Some _) => handle a (
      decoded <-? bad_request (decodePayload r) ;;
      let userIDs := default [] (StringSlice (mget decoded.1 "user_ids")) in
      require (negb ((length userIDs =? 0)%nat || (100 <? length userIDs)%nat)) StatusBadRequest "user_ids is required and must contain 1 to 100 items" ;;?
      Ok (let '(a', b) := member_batch a r 0 (pathID r) userIDs batch_start in (a', (StatusOK, batch_body b))))
  end).

Definition unassignRoleUser (a : app) (r : policy_request) : app * response := as_admin cfg a r (fun a =>
  match WithTx a (announced (UnassignRoleUserTx (pathID r) (TrimSpace (PathValue r "user_id")))
                    (fun found => row ← found; Some (proxyPolicyEvent r 0 "role_user_unassign" row))) with
  | (a', Err _) => (a', (StatusInternalServerError, message "role user could not be deleted"))
  | (a', Ok _) => (a', (StatusOK, BNil))
  end).

Definition listSystemRoles (a : app) (r : policy_request) : app * response := as_admin cfg a r (fun a =>
  let '(a, rows) := policyIdentityRecords cfg a r policyIdentityRoles in
  (a, (StatusOK, BMaps (SliceStable (fun x y => String.ltb (TextValue x nameKeys) (TextValue y nameKeys)) rows)))).

(** ** The routes (handler.go, Register) *)

Inductive policy_route :=
| ListRaw | AddRaw | UpdateRaw | RemoveRaw | BatchRaw | EnforceRaw | SimulateRaw
| ListServices | CreateService | GetService
| ListPolicies | CreatePolicy | GetPolicy | UpdatePolicy | DeletePolicy
| ListAssignments | Assign | BatchAssign | Unassign | ListTarget
| ListRoles | CreateRole | GetRole | UpdateRole | DeleteRole
| ListMembers | AssignMember | BatchMembers | UnassignMember | SystemRoles.

Definition serve (route : policy_route) : app -> policy_request -> app * response :=
  match route with
  | ListRaw => listRawPermissionPolicies cfg | AddRaw => addRawPermissionPolicy cfg | UpdateRaw => updateRawPermissionPolicy cfg
  | RemoveRaw => removeRawPermissionPolicy cfg | BatchRaw => batchProcessPermissions cfg | EnforceRaw => enforcePermission cfg
  | SimulateRaw => simulatePermissionEnforce cfg
  | ListServices => listServices | CreateService => createService | GetService => getService
  | ListPolicies => listPolicies | CreatePolicy => createPolicy | GetPolicy => getPolicy | UpdatePolicy => updatePolicy
  | DeletePolicy => deletePolicy
  | ListAssignments => listPolicyAssignments | Assign => assignPolicy | BatchAssign => batchAssignPolicy | Unassign => unassignPolicy
  | ListTarget => listTargetAssignments
  | ListRoles => listRoles | CreateRole => createRole | GetRole => getRole | UpdateRole => updateRole | DeleteRole => deleteRole
  | ListMembers => listRoleUsers | AssignMember => assignRoleUser | BatchMembers => batchAssignRoleUsers
  | UnassignMember => unassignRoleUser | SystemRoles => listSystemRoles
  end.

End Handlers.
