(* ===== verification/PolicySteps.v ===== *)
(** * Authorization-policy service: integrity of the proxy access records

    The requests change the records of the proxied services by a few kinds of primitive
    steps only: [proxy_step].  Rule induction on it gives the invariant of the records and
    the resources a request leaves alone. *)

From stdpp Require Import base gmap strings list fin_maps relations.
From Stdlib Require Import ZArith Lia Ascii.
From S2P Require Import Prelude GoValue Store EventBus Crud Tx RateLimit InputLimits Config Auth Guards SchedulerHttp ServiceHttp Tables ServiceProjection PolicyIdentity PolicyRaw PolicyProxy PolicyHandlers.
Local Open Scope Z_scope.
Local Open Scope go_scope.

Section Steps.
Context `{GoLib}.

Definition has (s : store) (res id : string) : Prop := is_Some (Get s res id).

(** Which field of which resource names a record of which other resource. *)
Definition references : list (string * list string * string) :=
  [(rulesResource, policyKeys, policiesResource); (assignmentsResource, policyKeys, policiesResource);
   (roleUsersResource, roleKeys, platformRolesResource)].
Definition free_resources : list string := [servicesResource; policiesResource; platformRolesResource; seedMarkersResource].
Definition dependent_resources : list string := [rulesResource; assignmentsResource; roleUsersResource].
Definition proxy_resources : list string := free_resources ++ dependent_resources.

Definition assignment_parts (data : object) : string * string * string :=
  (TextValue data policyKeys, TextValue data targetTypeKeys, TextValue data targetIdKeys).

(** No assignment of the same policy to the same target. *)
Definition unassigned (s : store) (data : object) : Prop :=
  forall id rc, Get s assignmentsResource id = Some rc -> assignment_parts (rec_Data rc) ≠ assignment_parts data.

Inductive proxy_step : store -> store -> Prop :=
| step_create s res d t : res ∈ free_resources -> proxy_step s (Create s res d "" t).1
| step_depend s res keys target d t :
    (res, keys, target) ∈ references -> has s target (TextValue d keys) ->
    (res = assignmentsResource -> unassigned s d) -> proxy_step s (Create s res d "" t).1
| step_update s res id d t : res ∈ [policiesResource; platformRolesResource] -> proxy_step s (Update s res id d t).1
| step_delete s res id : res ∈ dependent_resources -> proxy_step s (Delete s res id).1
| step_drop s target id :
    target ∈ [policiesResource; platformRolesResource] ->
    (forall res keys rid rc, (res, keys, target) ∈ references -> Get s res rid = Some rc -> TextValue (rec_Data rc) keys ≠ id) ->
    proxy_step s (Delete s target id).1
| step_draw s s' : st_data s' = st_data s -> proxy_step s s'.

Abbreviation proxy_steps := (rtc proxy_step).

(** ** The invariant *)

Definition refers (s : store) (res : string) (keys : list string) (target : string) : Prop :=
  forall id rc, Get s res id = Some rc -> has s target (TextValue (rec_Data rc) keys).

Record proxy_inv (s : store) : Prop := {
  pi_filed : filed s;
  pi_refers : forall res keys target, (res, keys, target) ∈ references -> refers s res keys target;
  pi_unique : forall id1 id2 rc1 rc2, Get s assignmentsResource id1 = Some rc1 -> Get s assignmentsResource id2 = Some rc2 ->
    assignment_parts (rec_Data rc1) = assignment_parts (rec_Data rc2) -> id1 = id2
}.

(** What a created record says about the fields other than its identifier. *)
Lemma created_text s res d t s' rc keys : Create s res d "" t = (s', Ok rc) -> "id" ∉ keys -> TextValue (rec_Data rc) keys = TextValue d keys.
Proof. intros EC Hk. apply Create_ok in EC as (_ & _ & _ & _ & _ & Hd & _). apply TextValue_agree. intros k Hin. apply Hd. by intros ->. Qed.

Lemma references_keys res keys target : (res, keys, target) ∈ references -> "id" ∉ keys.
Proof. unfold references. rewrite !elem_of_cons, elem_of_nil. intros [E|[E|[E|[]]]]; injection E as -> -> ->; apply (bool_decide_unpack _); vm_compute; exact I. Qed.

Lemma references_res res keys target : (res, keys, target) ∈ references ->
  res ∈ dependent_resources /\ target ∈ [policiesResource; platformRolesResource].
Proof. unfold references. rewrite !elem_of_cons, elem_of_nil. intros [E|[E|[E|[]]]]; injection E as -> -> ->; set_solver. Qed.

Lemma references_fun x y : x ∈ references -> y ∈ references -> x.1.1 = y.1.1 -> x = y.
Proof.
  assert (Forall (fun x => Forall (fun y => x.1.1 = y.1.1 -> x = y) references) references) as HF by (apply (bool_decide_unpack _); vm_compute; exact I).
  rewrite Forall_forall in HF. intros Hx Hy. specialize (HF x Hx). cbn in HF. rewrite Forall_forall in HF. by apply HF.
Qed.

Lemma resources_distinct : NoDup proxy_resources.
Proof. apply (bool_decide_unpack _). vm_compute. exact I. Qed.

Lemma dependent_not_free res res' : res ∈ dependent_resources -> res' ∈ free_resources -> res ≠ res'.
Proof. intros H1 H2 ->. pose proof resources_distinct as HN. apply NoDup_app in HN as (_ & HN & _). by apply (HN res'). Qed.

Lemma targets_free target : target ∈ [policiesResource; platformRolesResource] -> target ∈ free_resources.
Proof. unfold free_resources. set_solver. Qed.

(** Creating a record elsewhere or for a new key keeps the references. *)
Lemma refers_create s res d t res' keys target : refers s res' keys target ->
  (res' = res -> ("id" ∉ keys) /\ has s target (TextValue d keys)) -> refers (Create s res d "" t).1 res' keys target.
Proof.
  intros Hr Hn id rc. destruct (Create s res d "" t) as [s' [rc'|e]] eqn:EC; cbn [fst].
  - pose proof (created_text _ _ _ _ _ _ keys EC) as Ht. apply Create_ok in EC as (_ & _ & _ & _ & _ & _ & Hg).
    assert (forall tgt i, has s tgt i -> has s' tgt i) as Hgrow by (intros tgt i; unfold has; rewrite Hg; case_decide; [by eexists|done]).
    rewrite Hg. case_decide as Hd; [|intros Hx; apply Hgrow, Hr with id; done]. intros [= <-]. destruct Hd as [-> _].
    destruct (Hn eq_refl) as [Hk Hh]. rewrite Ht by done. by apply Hgrow.
  - apply Create_err in EC as (_ & _ & Hg). unfold has. rewrite Hg. intros Hx. rewrite Hg. by apply Hr with id.
Qed.

Lemma proxy_step_inv s s' : proxy_step s s' -> proxy_inv s -> proxy_inv s'.
Proof.
  intros Hs [Hf Hr Hu]. destruct Hs as [s res d t Hres|s res keys0 target0 d t Href Hh Hun|s res id d t Hres|s res id Hres|s target0 id Htar Hno|s s' Hd].
  - split; [by apply filed_Create|..].
    + intros res' keys target Hin. apply refers_create; [by apply Hr|]. intros ->. destruct (dependent_not_free res res); [by apply references_res in Hin as [? _]|done|done].
    + assert (assignmentsResource ≠ res) as Hne by (apply dependent_not_free; [unfold dependent_resources; set_solver|done]).
      intros id1 id2 rc1 rc2. rewrite !(frame_Create s res d "" t) by (intros [E _]; done). apply Hu.
  - split; [by apply filed_Create|..].
    + intros res' keys target Hin. apply refers_create; [by apply Hr|]. intros ->.
      assert (keys = keys0 /\ target = target0) as [-> ->].
      { pose proof (references_fun _ _ Hin Href eq_refl) as E. by injection E. }
      split; [by eapply references_keys|done].
    + intros id1 id2 rc1 rc2. destruct (decide (res = assignmentsResource)) as [->|Hne];
        [|rewrite !(frame_Create s res d "" t) by (intros [E _]; done); apply Hu].
      destruct (Create s assignmentsResource d "" t) as [s' [rc|e]] eqn:EC; cbn [fst].
      * assert (assignment_parts (rec_Data rc) = assignment_parts d) as Hp
          by (unfold assignment_parts; rewrite !(created_text _ _ _ _ _ _ _ EC); [done|apply (bool_decide_unpack _); vm_compute; exact I..]).
        apply Create_ok in EC as (_ & _ & _ & _ & _ & _ & Hg). specialize (Hun eq_refl).
        assert (forall i x, Get s' assignmentsResource i = Some x -> (i = create_id d "" /\ x = rc) \/ Get s assignmentsResource i = Some x) as Hc.
        { intros i x. rewrite Hg. case_decide as Hdd; [|by right]. intros [= <-]. left. by destruct Hdd as [_ <-]. }
        intros E1 E2 Hq. destruct (Hc _ _ E1) as [[-> ->]|G1], (Hc _ _ E2) as [[-> ->]|G2]; [done|..].
        -- destruct (Hun _ _ G2). by rewrite <- Hq.
        -- destruct (Hun _ _ G1). by rewrite Hq.
        -- by apply (Hu _ _ _ _ G1 G2).
      * apply Create_err in EC as (_ & _ & Hg). rewrite !Hg. apply Hu.
  - split; [by apply filed_Update|..].
    + intros res' keys target Hin i rc.
      assert (res' ≠ res) as Hne by (apply dependent_not_free; [by apply references_res in Hin as [? _]|by apply targets_free]).
      rewrite (frame_Update s res id d t) by (intros [E _]; done). intros Hx. specialize (Hr _ _ _ Hin _ _ Hx). unfold has in *.
      pose proof (Update_cases s res id d t) as HU. destruct (Update s res id d t) as [s' [rc'|]], (Get s res id) as [old|]; try done; cbn [fst]; [|by subst].
      destruct HU as (_ & _ & _ & _ & _ & Hg). rewrite Hg. case_decide; [by eexists|done].
    + assert (assignmentsResource ≠ res) as Hne by (apply dependent_not_free; [unfold dependent_resources; set_solver|by apply targets_free]).
      intros id1 id2 rc1 rc2. rewrite !(frame_Update s res id d t) by (intros [E _]; done). apply Hu.
  - split; [by apply filed_Delete|..].
    + intros res' keys target Hin i rc. rewrite Delete_Get. case_decide; [done|]. intros Hx. specialize (Hr _ _ _ Hin _ _ Hx). unfold has in *.
      rewrite Delete_Get. rewrite decide_False; [done|]. intros [-> _]. apply references_res in Hin as [_ Hin]. by apply (dependent_not_free res res); [|apply targets_free|].
    + intros id1 id2 rc1 rc2. rewrite !Delete_Get. repeat case_decide; try done. apply Hu.
  - split; [by apply filed_Delete|..].
    + intros res' keys target Hin i rc. rewrite Delete_Get. case_decide; [done|]. intros Hx. pose proof (Hr _ _ _ Hin _ _ Hx) as Hh. unfold has in *.
      rewrite Delete_Get. case_decide as Hd; [|done]. destruct Hd as [-> Hd]. by destruct (Hno _ _ _ _ Hin Hx).
    + intros id1 id2 rc1 rc2. rewrite !Delete_Get. repeat case_decide; try done. apply Hu.
  - assert (forall res id, Get s' res id = Get s res id) as Hg by (intros; unfold Get, bucket; by rewrite Hd).
    split; [by eapply filed_data|..].
    + intros res keys target Hin i rc. unfold has. rewrite !Hg. by apply (Hr _ _ _ Hin).
    + intros id1 id2 rc1 rc2. rewrite !Hg. apply Hu.
Qed.

Lemma proxy_steps_inv s s' : proxy_steps s s' -> proxy_inv s -> proxy_inv s'.
Proof. induction 1; eauto using proxy_step_inv. Qed.

(** The other resources are left alone. *)
Definition proxy_record (res id : string) : Prop := res ∈ proxy_resources.

Lemma proxy_step_frame s s' : proxy_step s s' -> frame proxy_record s s'.
Proof.
  assert (forall r i, r ∈ proxy_resources -> forall res id, at_record r i res id -> proxy_record res id) as Hw by (by intros r i Hr res id [-> _]).
  unfold proxy_resources in *. intros [s0 res d t Hres|s0 res keys target d t Href _ _|s0 res id d t Hres|s0 res id Hres|s0 target id Htar _|s0 s1 Hd].
  - eapply frame_weaken; [|apply frame_Create]. apply Hw. set_solver.
  - eapply frame_weaken; [|apply frame_Create]. apply Hw. apply references_res in Href as [? _]. set_solver.
  - eapply frame_weaken; [|apply frame_Update]. apply Hw, elem_of_app. left. by apply targets_free.
  - eapply frame_weaken; [|apply frame_Delete]. apply Hw. set_solver.
  - eapply frame_weaken; [|apply frame_Delete]. apply Hw, elem_of_app. left. by apply targets_free.
  - by apply frame_data.
Qed.

Lemma proxy_steps_frame s s' : proxy_steps s s' -> frame proxy_record s s'.
Proof. induction 1; [apply frame_refl|]. eapply frame_trans; [by apply proxy_step_frame|done]. Qed.

Lemma proxy_steps_filed s s' : proxy_steps s s' -> filed s -> filed s'.
Proof.
  induction 1 as [|s s1 s2 Hs _ IH]; [done|]. intros Hf. apply IH. destruct Hs; eauto using filed_Create, filed_Update, filed_Delete, filed_data.
Qed.

(** ** Seeds only add records *)

Definition grows (s s' : store) : Prop := forall res id, has s res id -> has s' res id.
(** Steps that add records, and no assignment. *)
Definition seeds (s s' : store) : Prop :=
  proxy_steps s s' /\ grows s s' /\ (forall id, Get s' assignmentsResource id = Get s assignmentsResource id).

#[local] Instance seeds_preorder : PreOrder seeds.
Proof.
  split; [intros s; split; [apply rtc_refl|by split; [intros res id|]]|]. intros s1 s2 s3 (H1 & G1 & A1) (H2 & G2 & A2).
  split; [by etrans|]. split; [intros res id Hh; by apply G2, G1|]. intros id. by rewrite A2, A1.
Qed.

Lemma Create_grows s res d i t : grows s (Create s res d i t).1.
Proof.
  intros res' id. unfold has. destruct (Create s res d i t) as [s' [rc|e]] eqn:EC; cbn [fst].
  - apply Create_ok in EC as (_ & _ & _ & _ & _ & _ & Hg). rewrite Hg. case_decide; [by eexists|done].
  - apply Create_err in EC as (_ & _ & Hg). by rewrite Hg.
Qed.

Lemma Create_has s res d i t : has (Create s res d i t).1 res (create_id d i).
Proof.
  unfold has. destruct (Create s res d i t) as [s' [rc|e]] eqn:EC; cbn [fst].
  - apply Create_ok in EC as (_ & _ & _ & _ & _ & _ & Hg). rewrite Hg, decide_True by done. by eexists.
  - apply Create_err in EC as (_ & Hs & Hg). by rewrite Hg.
Qed.

Lemma seedCreate_store s res d t : (seedCreate s res d t).1 = (Create s res d "" t).1.
Proof. unfold seedCreate. by destruct (Create s res d "" t) as [s' [rc|e]]. Qed.

Lemma seeds_create s res d t : res ∈ free_resources -> seeds s (Create s res d "" t).1.
Proof.
  intros Hr. split; [by apply rtc_once, step_create|]. split; [apply Create_grows|]. intros id. apply frame_Create. intros [E _].
  apply (dependent_not_free assignmentsResource res); [unfold dependent_resources; set_solver|done..].
Qed.
Lemma seeds_depend s res keys target d t : (res, keys, target) ∈ references -> has s target (TextValue d keys) ->
  res ≠ assignmentsResource -> seeds s (Create s res d "" t).1.
Proof.
  intros Hr Hh Hn. split; [by eapply rtc_once, step_depend|]. split; [apply Create_grows|]. intros id. apply frame_Create. by intros [E _].
Qed.

Lemma seeds_foldl {A} (f : store -> A -> store) l s : (forall s x, x ∈ l -> seeds s (f s x)) -> seeds s (foldl f s l).
Proof.
  revert s. induction l as [|x l IH]; intros s Hf; [reflexivity|]. cbn [foldl]. etrans; [apply (Hf s x), list_elem_of_here|]. apply IH. intros s' y Hy. by apply Hf, list_elem_of_further.
Qed.

Lemma claimSeed_seeds s name now : seeds s (claimSeed s name now).1.
Proof.
  pose proof (seeds_create s seedMarkersResource {[ "id" := VString name; "created_at" := time_value now ]} now) as Hs.
  unfold claimSeed. destruct (Create _ _ _ _ _) as [s' [rc|e]]; apply Hs; unfold free_resources; set_solver.
Qed.

Lemma seed_once_seeds s marker res now fill :
  (forall s1, seeds s1 (fill s1)) -> seeds s (seed_once s marker res now fill).
Proof.
  intros Hf. unfold seed_once. destruct (seedMarked s marker); [reflexivity|]. pose proof (claimSeed_seeds s marker now) as Hc.
  destruct (List_ s res) as [|rc l]; [|exact Hc]. specialize (Hf (claimSeed s marker now).1).
  destruct (claimSeed s marker now) as [s1 []]; cbn [fst] in *; [by etrans|exact Hc].
Qed.

Lemma EnsureDefaultProxyServices_seeds s now : seeds s (EnsureDefaultProxyServices s now).
Proof.
  apply seed_once_seeds. intros s1. apply seeds_foldl. intros s2 row _. rewrite seedCreate_store. apply seeds_create. unfold free_resources. set_solver.
Qed.
Lemma EnsureDefaultProxyRoles_seeds s now : seeds s (EnsureDefaultProxyRoles s now).
Proof.
  apply seed_once_seeds. intros s1. apply seeds_foldl. intros s2 row _. rewrite seedCreate_store. apply seeds_create. unfold free_resources. set_solver.
Qed.

(** A row that carries its identifier in plain text. *)
Definition plain_id (row : object) (i : string) : Prop := row !! "id" = Some (VString i) /\ Trimmed i /\ i ≠ "".

Lemma plain_create_id row i : plain_id row i -> create_id row "" = i.
Proof. intros (Hi & _ & Hn). unfold create_id, mget. rewrite Hi. cbn. unfold str_empty. by rewrite (proj2 (String.eqb_neq _ _) Hn). Qed.

Lemma seed_policy_seeds now s row i : plain_id row i -> seeds s (seed_policy now s row).
Proof.
  intros Hp. unfold seed_policy. cbn zeta. set (data := stamped now (delete "rules" row)). set (rules := match mget row "rules" with VMaps l => l | _ => [] end).
  assert (plain_id data i) as Hd.
  { destruct Hp as (Hi & ? & ?). split; [|done]. unfold data, stamped. rewrite !lookup_insert_ne by discriminate. rewrite lookup_delete_ne by discriminate. exact Hi. }
  pose proof (seeds_create s policiesResource data now ltac:(unfold free_resources; set_solver)) as H1.
  assert (has (Create s policiesResource data "" now).1 policiesResource i) as Hh by (rewrite <- (plain_create_id _ _ Hd); apply Create_has).
  assert (FirstNonEmpty [(seedCreate s policiesResource data now).2; TextValue data ["id"]] = i) as Hid.
  { destruct Hd as (Hi & Ht & Hn). rewrite (TextValue_text _ _ _ _ Hi Ht Hn). unfold seedCreate.
    destruct (Create s policiesResource data "" now) as [s' [rc|e]] eqn:EC; cbn [snd FirstNonEmpty]; unfold str_empty.
    - apply Create_ok in EC as (_ & Hrc & _). rewrite Hrc, (plain_create_id data i) by done. by rewrite (proj2 (String.eqb_neq _ _) Hn).
    - cbn. by rewrite (proj2 (String.eqb_neq _ _) Hn). }
  pose proof (seedCreate_store s policiesResource data now) as Hst. destruct (seedCreate s policiesResource data now) as [s1 id]. cbn [fst snd] in *. subst s1.
  rewrite Hid. etrans; [exact H1|]. clearbody rules. clear -Hh Hd. revert Hh. generalize (Create s policiesResource data "" now).1. intros s1 Hh.
  destruct Hd as (_ & Ht & Hn). revert s1 Hh. induction rules as [|rule rules IH]; intros s1 Hh; [reflexivity|]. cbn [foldl].
  rewrite seedCreate_store. set (d := <["policy_id" := VString i]> rule).
  assert (TextValue d policyKeys = i) as Htx by (apply TextValue_text; [apply lookup_insert_eq|done..]).
  etrans; [eapply (seeds_depend s1 rulesResource policyKeys policiesResource)|apply IH, Create_grows, Hh].
  - unfold references. set_solver.
  - by rewrite Htx.
  - intros E. vm_compute in E. discriminate E.
Qed.

Lemma plain_default_policies row : row ∈ defaultPolicies -> exists i, plain_id row i.
Proof.
  unfold defaultPolicies. rewrite !elem_of_cons, elem_of_nil.
  intros [->|[->|[]]]; eexists; (split; [vm_compute; reflexivity|split; [|discriminate]]); apply Trimmed_of_fix; vm_compute; reflexivity.
Qed.

Lemma EnsureDefaultProxyPolicies_seeds s now : seeds s (EnsureDefaultProxyPolicies s now).
Proof.
  apply seed_once_seeds. intros s1. apply seeds_foldl. intros s2 row Hrow. destruct (plain_default_policies row Hrow) as [i Hi]. by eapply seed_policy_seeds.
Qed.

Lemma GetProxyPolicy_seeds s id now : seeds s (GetProxyPolicy s id now).1 /\ (is_Some (GetProxyPolicy s id now).2 -> has (GetProxyPolicy s id now).1 policiesResource id).
Proof. unfold GetProxyPolicy. cbn [fst snd]. split; [apply EnsureDefaultProxyPolicies_seeds|]. unfold has. by rewrite fmap_is_Some. Qed.
Lemma GetProxyRole_seeds s id now : seeds s (GetProxyRole s id now).1 /\ (is_Some (GetProxyRole s id now).2 -> has (GetProxyRole s id now).1 platformRolesResource id).
Proof. unfold GetProxyRole. cbn [fst snd]. split; [apply EnsureDefaultProxyRoles_seeds|]. unfold has. by rewrite fmap_is_Some. Qed.

(** ** Seeding assignments *)

Lemma steps_grow s s' : seeds s s' -> proxy_steps s s' /\ grows s s'.
Proof. intros (H1 & H2 & _). by split. Qed.

Lemma seed_assignment_steps now s row : unassigned s row ->
  (proxy_steps s (seed_assignment now s row) /\ grows s (seed_assignment now s row)) /\
  forall id rc, Get (seed_assignment now s row) assignmentsResource id = Some rc ->
    Get s assignmentsResource id = Some rc \/ assignment_parts (rec_Data rc) = assignment_parts row.
Proof.
  intros Hun. unfold seed_assignment. destruct (GetProxyPolicy_seeds s (TextValue row policyKeys) now) as [Hs1 Hh1].
  destruct (GetProxyPolicy s (TextValue row policyKeys) now) as [s1 [policy|]]; cbn [fst snd] in *;
    [|split; [by apply steps_grow|]; intros id rc; destruct Hs1 as (_ & _ & HA); rewrite HA; by left].
  specialize (Hh1 ltac:(by eexists)). set (d := <["created_at" := time_value now]> row).
  assert (forall keys, "created_at" ∉ keys -> TextValue d keys = TextValue row keys) as Hd
    by (intros keys Hk; apply TextValue_agree; intros k Hin; unfold d; rewrite lookup_insert_ne; [done|by intros <-]).
  assert (assignment_parts d = assignment_parts row) as Hp by (unfold assignment_parts; rewrite !Hd by (apply (bool_decide_unpack _); vm_compute; exact I); done).
  assert (forall s2, seeds s s2 -> has s2 policiesResource (TextValue row policyKeys) ->
    (proxy_steps s (seedCreate s2 assignmentsResource d now).1 /\ grows s (seedCreate s2 assignmentsResource d now).1) /\
    forall id rc, Get (seedCreate s2 assignmentsResource d now).1 assignmentsResource id = Some rc ->
      Get s assignmentsResource id = Some rc \/ assignment_parts (rec_Data rc) = assignment_parts row) as Hcreate.
  { intros s2 (H1 & H2 & H3) Hh2. rewrite seedCreate_store. split.
    - split; [|intros res id Hr; by apply Create_grows, H2]. etrans; [exact H1|]. apply rtc_once.
      apply (step_depend s2 assignmentsResource policyKeys policiesResource); [unfold references; set_solver|by rewrite Hd by (apply (bool_decide_unpack _); vm_compute; exact I)|].
      intros _ id rc. rewrite H3, Hp. apply Hun.
    - intros id rc. destruct (Create s2 assignmentsResource d "" now) as [s3 [rc'|e]] eqn:EC; cbn [fst].
      + assert (assignment_parts (rec_Data rc') = assignment_parts d) as Hq
          by (unfold assignment_parts; rewrite !(created_text _ _ _ _ _ _ _ EC); [done|apply (bool_decide_unpack _); vm_compute; exact I..]).
        apply Create_ok in EC as (_ & _ & _ & _ & _ & _ & Hg). rewrite Hg. case_decide; [intros [= <-]; right; by rewrite Hq|]. rewrite H3. by left.
      + apply Create_err in EC as (_ & _ & Hg). rewrite Hg, H3. by left. }
  destruct (String.eqb _ _); [|by apply Hcreate].
  destruct (GetProxyRole_seeds s1 (TextValue row targetIdKeys) now) as [Hs2 _].
  destruct (GetProxyRole s1 (TextValue row targetIdKeys) now) as [s2 [role|]]; cbn [fst snd] in *.
  - apply Hcreate; [by etrans|]. by apply Hs2.
  - pose proof (transitivity Hs1 Hs2) as Hs. split; [by apply steps_grow|]. intros id rc. destruct Hs as (_ & _ & HA). rewrite HA. by left.
Qed.

Lemma seed_assignments_steps now rows s : NoDup (map assignment_parts rows) ->
  (forall row, row ∈ rows -> unassigned s row) -> proxy_steps s (foldl (seed_assignment now) s rows) /\ grows s (foldl (seed_assignment now) s rows).
Proof.
  revert s. induction rows as [|row rows IH]; intros s Hn Hun; [split; [apply rtc_refl|by intros res id]|]. cbn [foldl]. inversion_clear Hn as [|? ? Hni Hnd].
  destruct (seed_assignment_steps now s row (Hun row ltac:(apply list_elem_of_here))) as [[H1 G1] HA].
  destruct (IH (seed_assignment now s row) Hnd) as [H2 G2].
  - intros row' Hin id rc Hg. destruct (HA _ _ Hg) as [Hg'|Hp]; [by apply (Hun row' (list_elem_of_further _ _ _ Hin) _ _ Hg')|].
    rewrite Hp. intros Heq. apply Hni. rewrite Heq. by apply (list_elem_of_fmap_2 assignment_parts).
  - split; [by etrans|]. intros res id Hh. by apply G2, G1.
Qed.

Lemma EnsureDefaultProxyAssignments_steps s now :
  proxy_steps s (EnsureDefaultProxyAssignments s now) /\ grows s (EnsureDefaultProxyAssignments s now).
Proof.
  unfold EnsureDefaultProxyAssignments. cbn zeta. pose proof (EnsureDefaultProxyPolicies_seeds s now) as H1. set (s1 := EnsureDefaultProxyPolicies s now) in *.
  pose proof (EnsureDefaultProxyRoles_seeds s1 now) as H2. set (s2 := EnsureDefaultProxyRoles s1 now) in *.
  pose proof (transitivity H1 H2) as (HS & HG & _). clearbody s2.
  assert (proxy_steps s2 (seed_once s2 "proxy-assignments" assignmentsResource now (fun s => foldl (seed_assignment now) s defaultAssignments)) /\
          grows s2 (seed_once s2 "proxy-assignments" assignmentsResource now (fun s => foldl (seed_assignment now) s defaultAssignments))) as [H3 G3].
  { unfold seed_once. destruct (seedMarked s2 _); [split; [apply rtc_refl|by intros res id]|].
    pose proof (claimSeed_seeds s2 "proxy-assignments" now) as Hc. destruct (List_ s2 assignmentsResource) as [|rc l] eqn:El; [|by apply steps_grow].
    destruct (claimSeed s2 "proxy-assignments" now) as [s3 []]; cbn [fst] in Hc; [|by apply steps_grow]. destruct Hc as (HS3 & HG3 & HA3).
    destruct (seed_assignments_steps now defaultAssignments s3) as [H4 G4].
    - apply (bool_decide_unpack _). vm_compute. exact I.
    - intros row _ id rc. rewrite HA3. intros Hg. assert (rc ∈ List_ s2 assignmentsResource) as Hin by (apply elem_of_List; eauto). rewrite El in Hin. by apply not_elem_of_nil in Hin.
    - split; [by etrans|]. intros res id Hh. by apply G4, HG3. }
  split; [by etrans|]. intros res id Hh. by apply G3, HG.
Qed.

End Steps.
