(* ===== verification/PolicyInvariant.v ===== *)
(** * Authorization-policy service: what its requests preserve

    Every request of the service is a sequence of the steps of [PolicySteps]: the rules and
    assignments always belong to existing policies, the memberships to existing roles, and
    no policy is assigned twice to the same target. *)

From stdpp Require Import base gmap strings list fin_maps relations.
From Stdlib Require Import ZArith Lia Ascii.
From S2P Require Import Prelude GoValue Store EventBus Crud Tx Projection RateLimit InputLimits Config Auth Guards SchedulerHttp ServiceHttp Tables ServiceProjection PolicyIdentity PolicyRaw PolicyProxy PolicyHandlers PolicySteps.
Local Open Scope Z_scope.
Local Open Scope go_scope.

Section Moves.
Context `{GoLib}.

(** A callback run on a store that satisfies [Pre] makes steps, and leaves one that
    satisfies [Post] when it succeeds. *)
Definition moves {E A} (Pre : store -> Prop) (c : tx_fn E A) (Post : A -> store -> Prop) : Prop :=
  forall t, filed (tx_store t) -> Pre (tx_store t) ->
    rtc proxy_step (tx_store t) (tx_store (c t).1) /\ match (c t).2 with Ok x => Post x (tx_store (c t).1) | Err _ => True end.

Lemma moves_ret {E A} (Pre : store -> Prop) (x : A) (Post : A -> store -> Prop) : (forall s, Pre s -> Post x s) -> moves (E := E) Pre (stm_ret x) Post.
Proof. intros HP t Hf Hp. split; [apply rtc_refl|]. by apply HP. Qed.

Lemma moves_bind {E A B} (Pre : store -> Prop) (c : tx_fn E A) Mid (k : A -> tx_fn E B) Post :
  moves Pre c Mid -> (forall x, moves (Mid x) (k x) Post) -> moves Pre (stm_bind c k) Post.
Proof.
  intros Hc Hk t Hf Hp. unfold stm_bind. destruct (Hc t Hf Hp) as [H1 H2]. destruct (c t) as [t1 [x|e]]; cbn [fst snd] in *; [|done].
  destruct (Hk x t1) as [H3 H4]; [by eapply proxy_steps_filed|done|]. split; [by etrans|done].
Qed.

Lemma moves_pre {E A} (Pre Pre' : store -> Prop) (c : tx_fn E A) Post : (forall s, Pre s -> Pre' s) -> moves Pre' c Post -> moves Pre c Post.
Proof. intros HP Hc t Hf Hp. apply Hc; auto. Qed.

Lemma moves_read {E A} (Pre : store -> Prop) (f : store -> store * A) (Post : A -> store -> Prop) :
  (forall s, Pre s -> rtc proxy_step s (f s).1 /\ Post (f s).2 (f s).1) -> moves (E := E) Pre (tx_read f) Post.
Proof. intros Hf t _ Hp. unfold tx_read. specialize (Hf _ Hp). by destruct (f (tx_store t)) as [s x]. Qed.

(** ** The primitive writes *)

Lemma moves_create (Pre : store -> Prop) res d now : res ∈ free_resources -> (forall s s', grows s s' -> Pre s -> Pre s') ->
  moves Pre (tx_Create res d "" now) (fun rc s => Pre s /\ has s res (rec_ID rc) /\ rec_ID rc = create_id d "").
Proof.
  intros Hr Hst t Hf Hp. pose proof (step_create (tx_store t) res d now Hr) as Hs. pose proof (Create_grows (tx_store t) res d "" now) as Hg.
  pose proof (Create_has (tx_store t) res d "" now) as Hh. unfold tx_Create.
  destruct (Create (tx_store t) res d "" now) as [s [rc|e]] eqn:EC; cbn [fst snd tx_store] in *; (split; [by apply rtc_once|]); [|done].
  apply Create_ok in EC as (_ & -> & _). split; [by eapply Hst|done].
Qed.

Lemma moves_depend (Pre : store -> Prop) res keys target d now : (res, keys, target) ∈ references ->
  (forall s, Pre s -> has s target (TextValue d keys) /\ (res = assignmentsResource -> unassigned s d)) -> (forall s s', grows s s' -> Pre s -> Pre s') ->
  moves Pre (tx_Create res d "" now) (fun _ s => Pre s).
Proof.
  intros Hr Hok Hst t Hf Hp. destruct (Hok _ Hp) as [Hh Hu]. pose proof (step_depend (tx_store t) res keys target d now Hr Hh Hu) as Hs.
  pose proof (Create_grows (tx_store t) res d "" now) as Hg. unfold tx_Create.
  destruct (Create (tx_store t) res d "" now) as [s [rc|e]]; cbn [fst snd tx_store] in *; (split; [by apply rtc_once|]); [by eapply Hst|done].
Qed.

Lemma moves_update {E} (Pre : store -> Prop) res id d now : res ∈ [policiesResource; platformRolesResource] ->
  moves (E := E) Pre (tx_Update res id d now) (fun out s => is_Some out -> has s res id).
Proof.
  intros Hr t Hf Hp. pose proof (step_update (tx_store t) res id d now Hr) as Hs. pose proof (Update_cases (tx_store t) res id d now) as HU.
  unfold tx_Update. destruct (Update (tx_store t) res id d now) as [s [rc|]]; cbn [fst snd tx_store] in *; (split; [by apply rtc_once|]); [|by intros []].
  destruct (Get (tx_store t) res id); [|done]. destruct HU as (_ & _ & _ & _ & _ & Hg). intros _. unfold has. rewrite Hg, decide_True by done. by eexists.
Qed.

(** Deletions only shrink their resource. *)
Definition shrinks (resource : string) (s s' : store) : Prop :=
  (forall res id rc, Get s' res id = Some rc -> Get s res id = Some rc) /\ (forall res id, res ≠ resource -> Get s' res id = Get s res id).

Lemma moves_delete {E} (Pre : store -> Prop) res id : res ∈ dependent_resources -> (forall s s', shrinks res s s' -> Pre s -> Pre s') ->
  moves (E := E) Pre (tx_Delete res id) (fun _ s => Pre s /\ Get s res id = None).
Proof.
  intros Hr Hst t Hf Hp. pose proof (step_delete (tx_store t) res id Hr) as Hs. pose proof (Delete_Get (tx_store t) res id) as HD.
  unfold tx_Delete. destruct (Delete (tx_store t) res id) as [s b]; cbn [fst snd tx_store] in *. split; [by apply rtc_once|].
  split; [|by rewrite HD, decide_True]. eapply Hst; [|done]. split; [intros res' id' rc; rewrite HD; by case_decide|].
  intros res' id' Hne. by rewrite HD, decide_False by (intros [? _]; done).
Qed.

Lemma moves_delete_ids {E} (Pre : store -> Prop) res ids : res ∈ dependent_resources -> (forall s s', shrinks res s s' -> Pre s -> Pre s') ->
  moves (E := E) Pre (delete_ids res ids) (fun _ s => Pre s /\ forall id, id ∈ ids -> Get s res id = None).
Proof.
  intros Hr. revert Pre. induction ids as [|id ids IH]; intros Pre Hst; cbn [delete_ids]; [apply moves_ret; intros s Hp; split; [done|set_solver]|].
  eapply moves_bind; [by apply moves_delete|]. intros b. cbn beta.
  intros t Hf Hp. destruct (IH (fun s => Pre s /\ Get s res id = None)) with (t := t) as [H1 H2]; [|done..|].
  - intros s s' Hs [Hq Hn]. split; [by eapply Hst|]. destruct (Get s' res id) eqn:E'; [|done]. apply Hs in E'. congruence.
  - split; [exact H1|]. destruct (delete_ids res ids t) as [t' [u|e]]; cbn [fst snd] in *; [|done]. destruct H2 as [[Hq Hn] Hall].
    split; [done|]. intros i [->|Hi]%elem_of_cons; [done|by apply Hall].
Qed.

(** After the deletion no row matches. *)
Lemma moves_delete_matching {E} (Pre : store -> Prop) res matches : res ∈ dependent_resources -> (forall s s', shrinks res s s' -> Pre s -> Pre s') ->
  moves (E := E) Pre (delete_matching res matches) (fun _ s => Pre s /\ forall id rc, Get s res id = Some rc -> matches (rec_Data rc) = false).
Proof.
  intros Hr Hst t Hf Hp. unfold delete_matching. set (ids := matching_ids (tx_store t) res matches).
  destruct (moves_delete_ids (E := E) (fun s => Pre s /\ shrinks res (tx_store t) s) res ids Hr) with (t := t) as [H1 H2].
  - intros s s' Hs [Hq Hn]. split; [by eapply Hst|]. destruct Hs as [S1 S2], Hn as [N1 N2]. split; [intros r i rc Hx; by apply N1, S1|].
    intros r i Hne. by rewrite S2, N2.
  - done.
  - split; [done|]. by split.
  - split; [exact H1|]. destruct (delete_ids res ids t) as [t' [u|e]]; cbn [fst snd] in *; [|done]. destruct H2 as [[Hq Hsh] Hall].
    split; [done|]. intros id rc Hg. destruct (matches (rec_Data rc)) eqn:Em; [|done]. exfalso.
    assert (id ∈ ids) as Hin; [|by rewrite (Hall _ Hin) in Hg]. pose proof (proj1 Hsh _ _ _ Hg) as Hg0. unfold ids, matching_ids.
    apply list_elem_of_fmap. exists rc. split; [by rewrite (Hf _ _ _ Hg0)|]. apply list_elem_of_In, filter_In. split; [|done].
    apply list_elem_of_In, elem_of_List. eauto.
Qed.

Lemma moves_drop {E} (Pre : store -> Prop) target id : target ∈ [policiesResource; platformRolesResource] ->
  (forall s res keys rid rc, Pre s -> (res, keys, target) ∈ references -> Get s res rid = Some rc -> TextValue (rec_Data rc) keys ≠ id) ->
  moves (E := E) Pre (tx_Delete target id) (fun _ _ => True).
Proof.
  intros Ht Hno t Hf Hp. pose proof (step_drop (tx_store t) target id Ht) as Hs. unfold tx_Delete.
  destruct (Delete (tx_store t) target id) as [s b]; cbn [fst snd tx_store] in *. split; [|done]. apply rtc_once, Hs. intros res keys rid rc. by apply Hno.
Qed.

(** ** The repository *)

Lemma text_field (d : object) k k2 t : d !! k = Some (VString t) -> d !! k2 = None -> Trimmed t -> TextValue d [k; k2] = t.
Proof.
  intros Hk Hk2 Ht. destruct (decide (t = "")) as [->|Hn]; [|by apply TextValue_text].
  unfold TextValue. cbn. unfold mget. rewrite Hk, Hk2. cbn. done.
Qed.

Lemma has_grows res id s s' : grows s s' -> has s res id -> has s' res id.
Proof. intros Hg. apply Hg. Qed.

Lemma nextID_moves {E} (Pre : store -> Prop) res prefix : (forall s s', st_data s' = st_data s -> Pre s -> Pre s') ->
  moves (E := E) Pre (tx_read (fun s => let '(id, s') := nextID s res prefix in (s', id))) (fun _ s => Pre s).
Proof.
  intros Hst. apply moves_read. intros s Hp.
  assert (st_data (nextID s res prefix).2 = st_data s) as Hd by (unfold nextID, NextID; by destruct (next_loop _ _ _ _ _) as [[n id]|]).
  destruct (nextID s res prefix) as [id s']; cbn [fst snd] in *. split; [by apply rtc_once, step_draw|by eapply Hst].
Qed.

Lemma has_data res id s s' : st_data s' = st_data s -> has s res id -> has s' res id.
Proof. intros Hd. unfold has, Get, bucket. by rewrite Hd. Qed.

Lemma create_rules_moves policyID rules now : Trimmed policyID ->
  moves (fun s => has s policiesResource policyID) (create_rules policyID rules now) (fun _ s => has s policiesResource policyID).
Proof.
  intros Ht. induction rules as [|rule rules IH]; cbn [create_rules]; [by apply moves_ret|].
  eapply moves_bind; [apply nextID_moves; intros s s'; apply has_data|]. intros drawn. cbn beta. cbn zeta.
  eapply moves_bind; [eapply (moves_depend _ rulesResource policyKeys policiesResource)|].
  - unfold references. set_solver.
  - intros s Hh. split; [|intros E; vm_compute in E; discriminate E]. unfold policyKeys. rewrite (text_field _ _ _ policyID); [done|reflexivity..|done].
  - intros s s'. apply has_grows.
  - intros rc. cbn beta. eapply moves_bind; [apply IH|]. intros created. by apply moves_ret.
Qed.

Lemma CreateProxyPolicyTx_moves policy rules now : Trimmed (create_id policy "") ->
  moves (fun _ => True) (CreateProxyPolicyTx policy rules now) (fun _ _ => True).
Proof.
  intros Ht. unfold CreateProxyPolicyTx. eapply moves_bind; [apply (moves_create (fun _ => True)); [unfold free_resources; set_solver|done]|].
  intros rc. cbn beta. destruct (decide (rec_ID rc = create_id policy "")) as [->|Hne].
  - eapply moves_bind; [eapply moves_pre; [|by apply create_rules_moves]; by intros s (_ & ? & _)|]. intros created. by apply moves_ret.
  - eapply (moves_pre _ (fun _ => False)); [by intros s (_ & _ & ?)|]. by intros t _ [].
Qed.

Lemma UpdateProxyPolicyTx_moves id update replacement now : Trimmed id ->
  moves (fun _ => True) (UpdateProxyPolicyTx id update replacement now) (fun _ _ => True).
Proof.
  intros Ht. unfold UpdateProxyPolicyTx. eapply moves_bind; [apply (moves_update (fun _ => True)); set_solver|].
  intros [rc|]; cbn beta; [|by apply moves_ret]. destruct replacement as [rules|].
  - eapply moves_bind; [apply (moves_delete_matching (fun s => is_Some (Some rc) -> has s policiesResource id))|].
    + unfold dependent_resources. set_solver.
    + intros s s' [_ Hs] Hh Hsome. unfold has. rewrite Hs; [by apply Hh|vm_compute; discriminate].
    + intros u. cbn beta. eapply moves_bind; [eapply moves_pre; [|by apply create_rules_moves]|intros created; by apply moves_ret].
      intros s [Hh _]. apply Hh. by eexists.
  - apply moves_read. intros s _. split; [apply rtc_refl|done].
Qed.

Definition no_rows (res : string) (matches : object -> bool) (s : store) : Prop := forall id rc, Get s res id = Some rc -> matches (rec_Data rc) = false.

Lemma no_rows_shrinks res matches res' s s' : shrinks res' s s' -> no_rows res matches s -> no_rows res matches s'.
Proof. intros [Hs _] Hn id rc Hg. by eapply Hn, Hs. Qed.

Lemma DeleteProxyPolicyCascadeTx_moves id now : moves (fun _ => True) (DeleteProxyPolicyCascadeTx id now) (fun _ _ => True).
Proof.
  unfold DeleteProxyPolicyCascadeTx. eapply (moves_bind _ _ (fun _ _ => True)).
  { apply moves_read. intros s _. split; [apply GetProxyPolicy_seeds|done]. }
  intros [policy|]; cbn beta; [|by apply moves_ret].
  eapply moves_bind; [apply (moves_delete_matching (fun _ => True)); [unfold dependent_resources; set_solver|done]|]. intros u. cbn beta.
  eapply moves_bind; [apply (moves_delete_matching (fun s => True /\ no_rows rulesResource (of_policy id) s));
    [unfold dependent_resources; set_solver|intros s s' Hs [_ Hn]; split; [done|by eapply no_rows_shrinks]]|]. intros u'. cbn beta.
  eapply moves_bind; [apply moves_drop; [set_solver|]|intros b; by apply moves_ret].
  intros s res keys rid rc [[_ Hr] Ha] Hin Hg. unfold references in Hin. rewrite !elem_of_cons, elem_of_nil in Hin.
  destruct Hin as [E|[E|[E|[]]]]; [..|apply (f_equal snd) in E; vm_compute in E; discriminate E]; injection E as -> ->.
  - specialize (Hr _ _ Hg). by apply String.eqb_neq in Hr.
  - specialize (Ha _ _ Hg). by apply String.eqb_neq in Ha.
Qed.

Lemma DeleteProxyRoleCascadeTx_moves id now : moves (fun _ => True) (DeleteProxyRoleCascadeTx id now) (fun _ _ => True).
Proof.
  unfold DeleteProxyRoleCascadeTx. eapply (moves_bind _ _ (fun _ _ => True)).
  { apply moves_read. intros s _. split; [apply GetProxyRole_seeds|done]. }
  intros current. cbn beta.
  eapply moves_bind; [apply (moves_delete_matching (fun _ => True)); [unfold dependent_resources; set_solver|done]|]. intros u. cbn beta.
  eapply moves_bind; [apply (moves_delete_matching (fun s => True /\ no_rows roleUsersResource (of_role id) s));
    [unfold dependent_resources; set_solver|intros s s' Hs [_ Hn]; split; [done|by eapply no_rows_shrinks]]|]. intros u'. cbn beta.
  eapply moves_bind; [apply moves_drop; [set_solver|]|intros b; by apply moves_ret].
  intros s res keys rid rc [[_ Hm] _] Hin Hg. unfold references in Hin. rewrite !elem_of_cons, elem_of_nil in Hin.
  destruct Hin as [E|[E|[E|[]]]]; [apply (f_equal snd) in E; vm_compute in E; discriminate E..|]. injection E as -> ->.
  specialize (Hm _ _ Hg). by apply String.eqb_neq in Hm.
Qed.

(** Assignments: the policy exists and the target is not assigned yet. *)
Lemma findAssignment_none s p ty i : findAssignment s p ty i = None ->
  forall id rc, Get s assignmentsResource id = Some rc -> assignment_parts (rec_Data rc) ≠ (p, ty, i).
Proof.
  unfold findAssignment. rewrite find_none_spec, Forall_forall. intros Hf id rc Hg. specialize (Hf rc ltac:(apply elem_of_List; eauto)).
  unfold same_assignment, of_policy, for_target in Hf. unfold assignment_parts. intros [= E1 E2 E3]. rewrite E1, E2, E3, !String.eqb_refl in Hf. done.
Qed.

Lemma composeAssignment_steps now s data : rtc proxy_step s (composeAssignment now s data).1.
Proof.
  unfold composeAssignment. destruct (GetProxyPolicy_seeds s (TextValue data policyKeys) now) as [[Hs _] _]. by destruct (GetProxyPolicy _ _ _) as [s1 o].
Qed.
Lemma composeRoleUser_steps now s data : rtc proxy_step s (composeRoleUser now s data).1.
Proof.
  unfold composeRoleUser. destruct (GetProxyRole_seeds s (TextValue data roleKeys) now) as [[Hs _] _]. by destruct (GetProxyRole _ _ _) as [s1 o].
Qed.

Lemma compose_moves {E} (f : store -> object -> store * object) data (b : bool) : (forall s d, rtc proxy_step s (f s d).1) ->
  moves (E := E) (fun _ => True) (row <-- tx_read (fun s => f s data) ;; stm_ret (row, b)) (fun _ _ => True).
Proof. intros Hf. eapply (moves_bind _ _ (fun _ _ => True)); [apply moves_read; intros s _; split; [apply Hf|done]|]. intros x. by apply moves_ret. Qed.

Lemma CreatePolicyAssignmentTx_moves policyID targetType targetID assignedBy now :
  Trimmed policyID -> Trimmed targetType -> Trimmed targetID ->
  moves (fun s => has s policiesResource policyID) (CreatePolicyAssignmentTx policyID targetType targetID assignedBy now) (fun _ _ => True).
Proof.
  intros H1 H2 H3 t Hf Hh. unfold CreatePolicyAssignmentTx. destruct (findAssignment (tx_store t) policyID targetType targetID) as [existing|] eqn:Ef.
  { apply (compose_moves (composeAssignment now)); [apply composeAssignment_steps|done|done]. }
  assert (st_data (nextID (tx_store t) assignmentsResource "PA").2 = st_data (tx_store t)) as Hd by (unfold nextID, NextID; by destruct (next_loop _ _ _ _ _) as [[n id]|]).
  destruct (nextID (tx_store t) assignmentsResource "PA") as [id s1]. cbn [snd] in Hd. set (d := assignment_record id policyID targetType targetID assignedBy now).
  assert (filed s1) as Hf1 by (by eapply filed_data).
  assert (rtc proxy_step (tx_store t) s1) as Hs1 by (by apply rtc_once, step_draw).
  assert (TextValue d policyKeys = policyID) as E1 by (apply text_field; [reflexivity..|done]).
  assert (TextValue d targetTypeKeys = targetType) as E2 by (apply text_field; [reflexivity..|done]).
  assert (TextValue d targetIdKeys = targetID) as E3 by (apply text_field; [reflexivity..|done]).
  assert (proxy_step s1 (Create s1 assignmentsResource d "" now).1) as Hs2.
  { apply (step_depend s1 assignmentsResource policyKeys policiesResource); [unfold references; set_solver|rewrite E1; by eapply has_data|].
    intros _ i rc. unfold Get, bucket. rewrite Hd. unfold assignment_parts at 2. rewrite E1, E2, E3. by apply findAssignment_none. }
  unfold tx_Create. cbn [tx_store tx_events]. destruct (Create s1 assignmentsResource d "" now) as [s2 [rc|e]]; cbn [fst] in Hs2.
  - destruct (compose_moves (E := create_conflict) (composeAssignment now) (rec_Data rc) true (composeAssignment_steps now) (StoreTx s2 (tx_events t))) as [H5 H6];
      [cbn; eapply proxy_steps_filed; [by apply rtc_once|done]|done|]. split; [|done]. etrans; [exact Hs1|]. by eapply rtc_l.
  - assert (rtc proxy_step (tx_store t) s2) as Hs3 by (etrans; [exact Hs1|by apply rtc_once]). cbn [tx_store].
    destruct (findAssignment s2 policyID targetType targetID) as [existing|]; [|by split].
    destruct (compose_moves (E := create_conflict) (composeAssignment now) (rec_Data existing) false (composeAssignment_steps now) (StoreTx s2 (tx_events t))) as [H5 H6];
      [by eapply proxy_steps_filed|done|]. split; [by etrans|done].
Qed.

Lemma CreateRoleUserTx_moves roleID userID assignedBy now : Trimmed roleID ->
  moves (fun s => has s platformRolesResource roleID) (CreateRoleUserTx roleID userID assignedBy now) (fun _ _ => True).
Proof.
  intros H1 t Hf Hh. unfold CreateRoleUserTx. destruct (findRoleUser (tx_store t) roleID userID) as [existing|].
  { apply (compose_moves (composeRoleUser now)); [apply composeRoleUser_steps|done|done]. }
  set (d := role_user_record roleID userID assignedBy now).
  assert (TextValue d roleKeys = roleID) as E1 by (apply text_field; [reflexivity..|done]).
  assert (proxy_step (tx_store t) (Create (tx_store t) roleUsersResource d "" now).1) as Hs2.
  { apply (step_depend _ roleUsersResource roleKeys platformRolesResource); [unfold references; set_solver|by rewrite E1|]. intros E. vm_compute in E. discriminate E. }
  unfold tx_Create. destruct (Create (tx_store t) roleUsersResource d "" now) as [s2 [rc|e]]; cbn [fst] in Hs2; cbn [tx_store tx_events];
    assert (filed s2) as Hf2 by (eapply proxy_steps_filed; [by apply rtc_once|done]).
  - destruct (compose_moves (E := create_conflict) (composeRoleUser now) (rec_Data rc) true (composeRoleUser_steps now) (StoreTx s2 (tx_events t))) as [H5 H6]; [done..|].
    split; [by eapply rtc_l|done].
  - destruct (findRoleUser s2 roleID userID) as [existing|]; [|split; [by apply rtc_once|done]].
    destruct (compose_moves (E := create_conflict) (composeRoleUser now) (rec_Data existing) false (composeRoleUser_steps now) (StoreTx s2 (tx_events t))) as [H5 H6]; [done..|].
    split; [by eapply rtc_l|done].
Qed.

Lemma unassign_moves {A} (find : store -> option record) res (out : record -> A) (none : A) : res ∈ dependent_resources ->
  moves (E := create_conflict) (fun _ => True)
    (fun t => match find (tx_store t) with Some rc => (tx_Delete res (rec_ID rc) ;;; stm_ret (out rc)) t | None => (t, Ok none) end) (fun _ _ => True).
Proof.
  intros Hr t Hf _. destruct (find (tx_store t)) as [rc|]; [|split; [apply rtc_refl|done]].
  pose proof (step_delete (tx_store t) res (rec_ID rc) Hr) as Hs. unfold stm_bind, tx_Delete, stm_ret.
  destruct (Delete (tx_store t) res (rec_ID rc)) as [s b]. split; [by apply rtc_once|done].
Qed.

Lemma moves_run {E A} (Pre : store -> Prop) (c : tx_fn E A) Post a ev : moves Pre c Post -> filed (app_Store a) -> Pre (app_Store a) ->
  rtc proxy_step (app_Store a) (app_Store (WithTx a (announced c ev)).1).
Proof. intros Hm Hf Hp. rewrite announced_store. by apply (Hm (StoreTx (app_Store a) []) Hf Hp). Qed.

End Moves.

(** ** The handlers *)

Section Requests.
Context `{GoLib} `{AuthLib} `{PolicyLib} {ip : Type} `{NetLib ip} (cfg : config ip).

Abbreviation steps := (rtc proxy_step).

Lemma handle_steps s a c : steps s (app_Store a) -> (forall x, c = Ok x -> steps s (app_Store x.1)) -> steps s (app_Store (handle a c).1).
Proof. intros Ha Hc. unfold handle. destruct c as [x|e]; [by apply Hc|done]. Qed.

Lemma reading_steps {A} a (f : store -> store * A) : steps (app_Store a) (f (app_Store a)).1 -> steps (app_Store a) (app_Store (reading a f).1).
Proof. unfold reading. by destruct (f (app_Store a)) as [s x]. Qed.

Lemma reading_store {A} a (f : store -> store * A) a' x : reading a f = (a', x) -> f (app_Store a) = (app_Store a', x).
Proof. unfold reading. destruct (f (app_Store a)) as [s y]. by intros [= <- <-]. Qed.

Lemma pathID_Trimmed r : Trimmed (pathID r).
Proof. apply TrimSpace_Trimmed. Qed.
Lemma TextValue_is_Trimmed d keys : Trimmed (TextValue d keys).
Proof. apply Trimmed_of_fix, TextValue_Trimmed. Qed.

Lemma assignmentTarget_Trimmed d target : assignmentTarget d = Ok target -> Trimmed target.1 /\ Trimmed target.2.
Proof. unfold assignmentTarget. destruct (negb _); [done|]. destruct (str_empty _); [done|]. intros [= <-]. split; apply TextValue_is_Trimmed. Qed.

Lemma drawn_Trimmed s res prefix x : Forall (fun c => graphic c = true) (bytes_of prefix) -> Trimmed (FirstNonEmpty [x; (nextID s res prefix).1]) \/ x ≠ "".
Proof.
  intros Hp. cbn [FirstNonEmpty]. unfold str_empty. destruct (String.eqb_spec x "") as [->|]; [left|by right].
  unfold nextID. destruct (NextID s res prefix 2600001 7) as [[id s']|] eqn:E; cbn.
  - apply NextID_Trimmed in E; [|done]. by destruct (String.eqb id "").
  - by apply Trimmed_of_fix.
Qed.

Lemma policy_record_id s x name desc now : Trimmed x ->
  Trimmed (create_id (policy_record (FirstNonEmpty [x; (nextID s policiesResource "PO").1]) name desc now) "").
Proof.
  intros Hx. assert (Trimmed (FirstNonEmpty [x; (nextID s policiesResource "PO").1])) as Ht.
  { destruct (drawn_Trimmed s policiesResource "PO" x) as [Ht|Hn]; [by repeat constructor|done|]. cbn [FirstNonEmpty]. unfold str_empty.
    by rewrite (proj2 (String.eqb_neq _ _) Hn). }
  revert Ht. generalize (FirstNonEmpty [x; (nextID s policiesResource "PO").1]). intros id Ht.
  change (create_id (policy_record id name desc now) "") with (if str_empty id then "" else id). destruct (str_empty id); [by apply Trimmed_of_fix|done].
Qed.

(** A transaction ends the handler, whatever it answers. *)
Ltac tx_end H := let HS := fresh in pose proof H as HS; destruct (WithTx _ _) as [? ?]; cbn [fst snd] in HS |- *; repeat case_match; exact HS.

Section AfterCheck.
Context (a : app) (r : policy_request) (Hf : filed (app_Store a)).

Lemma findPolicy_steps id a' o : findPolicy a r id = (a', o) ->
  steps (app_Store a) (app_Store a') /\ filed (app_Store a') /\ (is_Some o -> has (app_Store a') policiesResource id).
Proof.
  intros E. unfold findPolicy, findPlatformRole, policyNameExists, roleNameExists in E. apply reading_store in E. destruct (GetProxyPolicy_seeds (app_Store a) id (sq_now r)) as [[HS _] Hh]. rewrite E in *. cbn [fst snd] in *.
  split; [done|]. split; [by eapply proxy_steps_filed|done].
Qed.
Lemma findPlatformRole_steps id a' o : findPlatformRole a r id = (a', o) ->
  steps (app_Store a) (app_Store a') /\ filed (app_Store a') /\ (is_Some o -> has (app_Store a') platformRolesResource id).
Proof.
  intros E. unfold findPolicy, findPlatformRole, policyNameExists, roleNameExists in E. apply reading_store in E. destruct (GetProxyRole_seeds (app_Store a) id (sq_now r)) as [[HS _] Hh]. rewrite E in *. cbn [fst snd] in *.
  split; [done|]. split; [by eapply proxy_steps_filed|done].
Qed.
Lemma policyNameExists_steps ex name a' b : policyNameExists a r ex name = (a', b) -> steps (app_Store a) (app_Store a') /\ filed (app_Store a').
Proof.
  intros E. unfold findPolicy, findPlatformRole, policyNameExists, roleNameExists in E. apply reading_store in E. destruct (EnsureDefaultProxyPolicies_seeds (app_Store a) (sq_now r)) as [HS _]. unfold PolicyNameExists, ListProxyPolicies in E.
  injection E as E _. rewrite <- E. split; [done|by eapply proxy_steps_filed].
Qed.
Lemma roleNameExists_steps ex name a' b : roleNameExists a r ex name = (a', b) -> steps (app_Store a) (app_Store a') /\ filed (app_Store a').
Proof.
  intros E. unfold findPolicy, findPlatformRole, policyNameExists, roleNameExists in E. apply reading_store in E. destruct (EnsureDefaultProxyRoles_seeds (app_Store a) (sq_now r)) as [HS _]. unfold RoleNameExists, ListProxyRoles in E.
  injection E as E _. rewrite <- E. split; [done|by eapply proxy_steps_filed].
Qed.
Lemma ensureDefaultAssignments_steps : steps (app_Store a) (app_Store (ensureDefaultAssignments a r)) /\ filed (app_Store (ensureDefaultAssignments a r)).
Proof.
  destruct (EnsureDefaultProxyAssignments_steps (app_Store a) (sq_now r)) as [HS _]. split; [exact HS|by eapply proxy_steps_filed].
Qed.
End AfterCheck.

Lemma compose_all_steps f s rows : (forall s d, steps s (f s d).1) -> steps s (compose_all f s rows).1.
Proof.
  intros Hfs. revert s. induction rows as [|row rows IH]; intros s; cbn [compose_all]; [apply rtc_refl|].
  specialize (Hfs s row). destruct (f s row) as [s1 out]. specialize (IH s1). destruct (compose_all f s1 rows) as [s2 outs]. cbn [fst] in *. by etrans.
Qed.

Lemma assignments_where_steps s matches now : steps s (assignments_where s matches now).1.
Proof.
  unfold assignments_where. pose proof (compose_all_steps (composeAssignment now) s
    (map rec_Data (List.filter (fun rc => matches (rec_Data rc)) (List_ s assignmentsResource))) (composeAssignment_steps now)) as HS. by destruct (compose_all _ _ _).
Qed.
Lemma ListRoleUsers_steps s roleID now : steps s (ListRoleUsers s roleID now).1.
Proof.
  unfold ListRoleUsers. pose proof (compose_all_steps (composeRoleUser now) s
    (map rec_Data (List.filter (fun rc => of_role roleID (rec_Data rc)) (List_ s roleUsersResource))) (composeRoleUser_steps now)) as HS. by destruct (compose_all _ _ _).
Qed.

Lemma assign_one_steps a r k policyID target : filed (app_Store a) -> has (app_Store a) policiesResource policyID ->
  Trimmed policyID -> Trimmed target.1 -> Trimmed target.2 -> steps (app_Store a) (app_Store (assign_one a r k policyID target).1).
Proof. intros Hf Hh Ht1 Ht2 Ht3. unfold assign_one. eapply moves_run; [apply CreatePolicyAssignmentTx_moves; assumption|exact Hf|exact Hh]. Qed.
Lemma assign_member_steps a r k roleID userID : filed (app_Store a) -> has (app_Store a) platformRolesResource roleID -> Trimmed roleID ->
  steps (app_Store a) (app_Store (assign_member a r k roleID userID).1).
Proof. intros Hf Hh Ht1. unfold assign_member. eapply moves_run; [apply CreateRoleUserTx_moves; assumption|exact Hf|exact Hh]. Qed.

(** The policy named by a request is still there after an assignment. *)
Lemma composeAssignment_grows now s data : grows s (composeAssignment now s data).1.
Proof.
  unfold composeAssignment. destruct (GetProxyPolicy_seeds s (TextValue data policyKeys) now) as [(_ & Hg & _) _]. by destruct (GetProxyPolicy _ _ _) as [s1 o].
Qed.
Lemma composeRoleUser_grows now s data : grows s (composeRoleUser now s data).1.
Proof.
  unfold composeRoleUser. destruct (GetProxyRole_seeds s (TextValue data roleKeys) now) as [(_ & Hg & _) _]. by destruct (GetProxyRole _ _ _) as [s1 o].
Qed.

Lemma compose_read_grows (f : store -> object -> store * object) data (b : bool) (t : fallbackStoreTx) : (forall s d, grows s (f s d).1) ->
  grows (tx_store t) (tx_store ((row <-- tx_read (E := create_conflict) (fun s => f s data) ;; stm_ret (row, b)) t).1).
Proof. intros Hg. unfold stm_bind, tx_read, stm_ret. specialize (Hg (tx_store t) data). by destruct (f (tx_store t) data) as [s x]. Qed.

Lemma assign_one_grows a r k policyID target : grows (app_Store a) (app_Store (assign_one a r k policyID target).1).
Proof.
  unfold assign_one. rewrite announced_store. unfold CreatePolicyAssignmentTx. cbn [tx_store].
  destruct (findAssignment (app_Store a) policyID target.1 target.2) as [ex|]; [refine (compose_read_grows (composeAssignment (sq_now r)) (rec_Data ex) false (StoreTx (app_Store a) []) _); apply composeAssignment_grows|].
  assert (st_data (nextID (app_Store a) assignmentsResource "PA").2 = st_data (app_Store a)) as Hd by (unfold nextID, NextID; by destruct (next_loop _ _ _ _ _) as [[n id]|]).
  destruct (nextID (app_Store a) assignmentsResource "PA") as [id s1]. cbn [snd] in Hd.
  assert (grows (app_Store a) s1) as Hg1 by (intros res i; by apply has_data). set (d := assignment_record _ _ _ _ _ _).
  pose proof (Create_grows s1 assignmentsResource d "" (sq_now r)) as Hg2. unfold tx_Create. cbn [tx_store tx_events].
  destruct (Create s1 assignmentsResource d "" (sq_now r)) as [s2 [rc|e]]; cbn [fst] in Hg2; cbn [tx_store];
    [|destruct (findAssignment s2 policyID target.1 target.2) as [ex|]]; intros res i Hh; try (by apply Hg2, Hg1);
    (eapply (compose_read_grows (composeAssignment (sq_now r)) _ _ (StoreTx s2 [])); [apply composeAssignment_grows|by apply Hg2, Hg1]).
Qed.

Lemma assign_member_grows a r k roleID userID : grows (app_Store a) (app_Store (assign_member a r k roleID userID).1).
Proof.
  unfold assign_member. rewrite announced_store. unfold CreateRoleUserTx. cbn [tx_store].
  destruct (findRoleUser (app_Store a) roleID userID) as [ex|]; [refine (compose_read_grows (composeRoleUser (sq_now r)) (rec_Data ex) false (StoreTx (app_Store a) []) _); apply composeRoleUser_grows|].
  set (d := role_user_record _ _ _ _). pose proof (Create_grows (app_Store a) roleUsersResource d "" (sq_now r)) as Hg2. unfold tx_Create. cbn [tx_store tx_events].
  destruct (Create (app_Store a) roleUsersResource d "" (sq_now r)) as [s2 [rc|e]]; cbn [fst] in Hg2; cbn [tx_store];
    [|destruct (findRoleUser s2 roleID userID) as [ex|]]; intros res i Hh; try (by apply Hg2);
    (eapply (compose_read_grows (composeRoleUser (sq_now r)) _ _ (StoreTx s2 [])); [apply composeRoleUser_grows|by apply Hg2]).
Qed.

Lemma assign_batch_steps a r k policyID targets b : filed (app_Store a) -> has (app_Store a) policiesResource policyID -> Trimmed policyID ->
  Forall (fun t : string * string => Trimmed t.1 /\ Trimmed t.2) targets -> steps (app_Store a) (app_Store (assign_batch a r k policyID targets b).1).
Proof.
  intros Hf Hh Ht HF. revert a k b Hf Hh. induction HF as [|target targets [T1 T2] _ IH]; intros a k b Hf Hh; cbn [assign_batch]; [apply rtc_refl|].
  pose proof (assign_one_steps a r k policyID target Hf Hh Ht T1 T2) as HS. pose proof (assign_one_grows a r k policyID target) as HG.
  destruct (assign_one a r k policyID target) as [a' out]. cbn [fst] in *.
  destruct out; (etrans; [exact HS|apply IH; [by eapply proxy_steps_filed|by apply HG]]).
Qed.

Lemma member_batch_steps a r k roleID userIDs b : filed (app_Store a) -> has (app_Store a) platformRolesResource roleID -> Trimmed roleID ->
  steps (app_Store a) (app_Store (member_batch a r k roleID userIDs b).1).
Proof.
  intros Hf Hh Ht. revert a k b Hf Hh. induction userIDs as [|u us IH]; intros a k b Hf Hh; cbn [member_batch]; [apply rtc_refl|].
  destruct (str_empty (TrimSpace u)); [by apply IH|].
  pose proof (assign_member_steps a r k roleID u Hf Hh Ht) as HS. pose proof (assign_member_grows a r k roleID u) as HG.
  destruct (assign_member a r k roleID u) as [a' out]. cbn [fst] in *.
  destruct out; (etrans; [exact HS|apply IH; [by eapply proxy_steps_filed|by apply HG]]).
Qed.

(** *** Checking the caller *)

Lemma filed_upsertReadModel s res data idFn now : filed s -> filed (upsertReadModel s res data idFn now).1.
Proof.
  intros Hf. unfold upsertReadModel. cbn zeta. destruct (str_empty _); [exact Hf|]. set (d := <["id" := _]> data). set (key := idFn data).
  pose proof (filed_Update s res key d now Hf) as F1. destruct (Update s res key d now) as [s1 [rc|]]; [exact F1|]. cbn [fst] in F1.
  pose proof (filed_Create s1 res d "" now F1) as F2. destruct (Create s1 res d "" now) as [s2 [rc|e]]; cbn [fst] in *; [exact F2|].
  pose proof (filed_Update s2 res key d now F2) as F3. by destruct (Update s2 res key d now) as [s3 [rc|]].
Qed.
Lemma filed_deleteReadModelByID s res id : filed s -> filed (deleteReadModelByID s res id).1.
Proof. intros Hf. unfold deleteReadModelByID. destruct (str_empty id); [exact Hf|by apply filed_Delete]. Qed.

Lemma filed_projectPolicyIdentityEvent now s e : filed s -> filed (projectPolicyIdentityEvent now s e).1.
Proof.
  intros Hf. unfold projectPolicyIdentityEvent. destruct (policyIdentityProjection e) as [[[res data] []]|]; [..|exact Hf]; cbn [fst].
  - unfold deletePolicyIdentityReadModel, DeleteIdentityUser, DeleteIdentityRole, deleteIdentityReadModel.
    repeat destruct (String.eqb _ _); try (destruct (as_bool _) as [[]|]); cbn [fst]; first [exact Hf|by apply filed_deleteReadModelByID].
  - unfold upsertPolicyIdentityReadModel, UpsertIdentityUser, UpsertIdentityRole.
    repeat destruct (String.eqb _ _); cbn [fst]; first [exact Hf|by apply filed_upsertReadModel].
Qed.

Lemma filed_deadLetterEvent s c e cause now : filed s -> filed (deadLetterEvent s c e cause now).1.
Proof.
  intros Hf. unfold deadLetterEvent. destruct (match Get s _ _ with Some _ => _ | None => _ end) as [n retried]. set (d := dead_letter_record c e cause n now).
  pose proof (filed_Update s deadLetterResource (dead_letter_id c e) d now Hf) as F1. destruct (Update _ _ _ d now) as [s' [rc|]]; cbn [fst] in *; [exact F1|].
  by apply filed_Create.
Qed.

Lemma filed_sync a now : filed (app_Store a) -> filed (app_Store (syncPolicyIdentityReadModels a now)).
Proof.
  apply run_service_projection_keeps; [intros; by apply filed_projectPolicyIdentityEvent|intros; by apply filed_deadLetterEvent|intros; by apply filed_Delete].
Qed.

Lemma filed_requireAdmin a r : filed (app_Store a) -> filed (app_Store (requireAdmin cfg a r).1).
Proof.
  intros Hf. unfold requireAdmin. destruct (str_empty _); [exact Hf|]. destruct (hasAdminPanel_spec cfg a r (request_user r)) as [Hs _].
  destruct (hasAdminPanel cfg a r (request_user r)) as [a1 b]. cbn [fst] in *. rewrite Hs. by apply filed_sync.
Qed.

(** The copies of identities may change, then the records of the proxies by steps. *)
Definition effect (s s' : store) : Prop := exists s1, frame identity_copy s s1 /\ filed s1 /\ steps s1 s'.

Lemma as_admin_effect a r k : filed (app_Store a) ->
  (forall a1, filed (app_Store a1) -> steps (app_Store a1) (app_Store (k a1).1)) -> effect (app_Store a) (app_Store (as_admin cfg a r k).1).
Proof.
  intros Hf Hk. rewrite as_admin_refused. exists (app_Store (requireAdmin cfg a r).1). split; [apply requireAdmin_spec|]. split; [by apply filed_requireAdmin|].
  destruct (requireAdmin cfg a r).2 as [resp|]; [apply rtc_refl|]. by apply Hk, filed_requireAdmin.
Qed.

(** *** The routes *)

Lemma createPolicy_effect a r : filed (app_Store a) -> effect (app_Store a) (app_Store (createPolicy cfg a r).1).
Proof.
  intros Hf. apply as_admin_effect; [exact Hf|]. clear a Hf. intros a Hf. destruct (bad_request (decodePayload r)) as [[payload present]|e]; [|apply rtc_refl].
  cbn [res_bind fst]. destruct (require _ _ _) as [[]|]; [|apply rtc_refl]. cbn [res_bind]. unfold handle at 1.
  destruct (policyNameExists a r "" (TextValue payload ["name"])) as [a1 taken] eqn:En. apply policyNameExists_steps in En as [HS1 Hf1]; [|exact Hf].
  destruct (require _ _ _) as [[]|]; [|exact HS1]. cbn [res_bind]. destruct (bad_request (parseRuleInputs _)) as [rules|e]; [|exact HS1]. cbn [res_bind handle].
  pose proof (policy_record_id (app_Store a1) (TextValue payload ["id"]) (TextValue payload ["name"]) (TextValue payload ["description"]) (sq_now r) (TextValue_is_Trimmed _ _)) as Ht.
  assert (st_data (nextID (app_Store a1) policiesResource "PO").2 = st_data (app_Store a1)) as Hd by (unfold nextID, NextID; by destruct (next_loop _ _ _ _ _) as [[n id]|]).
  destruct (nextID (app_Store a1) policiesResource "PO") as [drawn s1]. cbn [fst snd] in Ht, Hd.
  assert (steps (app_Store a) (app_Store (with_store a1 s1))) as HS2 by (etrans; [exact HS1|by apply rtc_once, step_draw]).
  etrans; [exact HS2|].
  tx_end (moves_run _ _ _ (with_store a1 s1) (fun created => Some (proxyPolicyEvent r 0 "create" created)) (CreateProxyPolicyTx_moves _ rules (sq_now r) Ht) (filed_data _ _ Hd Hf1) I).
Qed.

Lemma policyUpdateFields_steps a r id payload present a' out : filed (app_Store a) -> policyUpdateFields a r id payload present = (a', out) ->
  steps (app_Store a) (app_Store a') /\ filed (app_Store a').
Proof.
  intros Hf. unfold policyUpdateFields. cbn zeta. case_bool_decide; [intros [= <- <-]; split; [apply rtc_refl|exact Hf]|].
  destruct (negb _); [intros [= <- <-]; split; [apply rtc_refl|exact Hf]|].
  destruct (policyNameExists a r id (TextValue payload ["name"])) as [a1 taken] eqn:En. apply policyNameExists_steps in En; [|exact Hf].
  destruct taken; intros [= <- <-]; exact En.
Qed.

Lemma updatePolicy_effect a r : filed (app_Store a) -> effect (app_Store a) (app_Store (updatePolicy cfg a r).1).
Proof.
  intros Hf. apply as_admin_effect; [exact Hf|]. clear a Hf. intros a Hf. cbn zeta. destruct (findPolicy a r (pathID r)) as [a1 [current|]] eqn:Ef;
    (apply findPolicy_steps in Ef as (HS1 & Hf1 & _); [|exact Hf]); [|exact HS1].
  destruct (bad_request (decodePayload r)) as [[payload present]|e]; [|exact HS1]. cbn [res_bind]. unfold handle at 1.
  destruct (policyUpdateFields a1 r (pathID r) payload present) as [a2 out] eqn:Eu. apply policyUpdateFields_steps in Eu as [HS2 Hf2]; [|exact Hf1].
  assert (steps (app_Store a) (app_Store a2)) as HS by (etrans; eassumption). destruct out as [update|refusal]; [|exact HS].
  match goal with |- context [res_bind ?c _] => destruct c as [replacement|e] end; [|exact HS]. cbn [res_bind handle]. etrans; [exact HS|].
  tx_end (moves_run _ _ _ a2 (fun out => policy ← out; Some (proxyPolicyEvent r 0 "update" {[ "old" := VMap current; "new" := VMap policy ]}))
    (UpdateProxyPolicyTx_moves _ update replacement (sq_now r) (pathID_Trimmed r)) Hf2 I).
Qed.

Lemma deletePolicy_effect a r : filed (app_Store a) -> effect (app_Store a) (app_Store (deletePolicy cfg a r).1).
Proof.
  intros Hf. apply as_admin_effect; [exact Hf|]. clear a Hf. intros a Hf. cbn zeta. destruct (findPolicy a r (pathID r)) as [a1 [current|]] eqn:Ef;
    (apply findPolicy_steps in Ef as (HS1 & Hf1 & _); [|exact Hf]); [|exact HS1]. etrans; [exact HS1|].
  tx_end (moves_run _ _ _ a1 (fun _ => Some (proxyPolicyEvent r 0 "delete" current)) (DeleteProxyPolicyCascadeTx_moves (pathID r) (sq_now r)) Hf1 I).
Qed.

(** The assignments start alike: defaults, then the policy of the path. *)
Lemma with_assignable_policy a r (a1 : app) o : filed (app_Store a) -> findPolicy (ensureDefaultAssignments a r) r (pathID r) = (a1, o) ->
  steps (app_Store a) (app_Store a1) /\ filed (app_Store a1) /\ (is_Some o -> has (app_Store a1) policiesResource (pathID r)).
Proof.
  intros Hf Ef. destruct (ensureDefaultAssignments_steps a r Hf) as [HS1 Hf1]. apply findPolicy_steps in Ef as (HS2 & Hf2 & Hh); [|exact Hf1].
  split; [etrans; eassumption|]. split; [exact Hf2|exact Hh].
Qed.

Lemma listPolicyAssignments_effect a r : filed (app_Store a) -> effect (app_Store a) (app_Store (listPolicyAssignments cfg a r).1).
Proof.
  intros Hf. apply as_admin_effect; [exact Hf|]. clear a Hf. intros a Hf. cbn zeta.
  destruct (findPolicy (ensureDefaultAssignments a r) r (pathID r)) as [a1 [p|]] eqn:Ef; (apply with_assignable_policy in Ef as (HS & Hf1 & _); [|exact Hf]); [|exact HS].
  pose proof (reading_steps a1 (fun s => ListPolicyAssignments s (pathID r) (sq_now r)) (assignments_where_steps _ _ _)) as HS2.
  unfold assignmentRowsForPolicy. destruct (reading a1 _) as [a2 rows]. cbn [fst] in *. etrans; eassumption.
Qed.

Lemma assignPolicy_effect a r : filed (app_Store a) -> effect (app_Store a) (app_Store (assignPolicy cfg a r).1).
Proof.
  intros Hf. apply as_admin_effect; [exact Hf|]. clear a Hf. intros a Hf. cbn zeta.
  destruct (findPolicy (ensureDefaultAssignments a r) r (pathID r)) as [a1 [p|]] eqn:Ef; (apply with_assignable_policy in Ef as (HS & Hf1 & Hh); [|exact Hf]); [|exact HS].
  specialize (Hh ltac:(eexists; reflexivity)). destruct (bad_request (decodePayload r)) as [decoded|e]; [|exact HS]. cbn [res_bind].
  destruct (assignmentTarget decoded.1) as [target|e] eqn:Et; [|exact HS]. cbn [bad_request res_bind handle]. apply assignmentTarget_Trimmed in Et as [T1 T2].
  pose proof (assign_one_steps a1 r 0 (pathID r) target Hf1 Hh (pathID_Trimmed r) T1 T2) as HS2. etrans; [exact HS|].
  destruct (assign_one a1 r 0 (pathID r) target) as [a2 [[row b]|[c|]]]; exact HS2.
Qed.

Lemma batch_targets_Trimmed items i targets : batch_targets items i = Ok targets -> Forall (fun t : string * string => Trimmed t.1 /\ Trimmed t.2) targets.
Proof.
  revert i targets. induction items as [|item items IH]; intros i targets; cbn [batch_targets]; [intros [= <-]; constructor|].
  destruct item; try discriminate. destruct (assignmentTarget m) as [target|e] eqn:Et; [|discriminate].
  destruct (batch_targets items (i + 1)) as [ts|e] eqn:Eb; [|discriminate]. cbn [res_bind]. intros [= <-]. constructor; [by eapply assignmentTarget_Trimmed|by eapply IH].
Qed.

Lemma parseBatch_Trimmed payload targets : parseBatchPolicyAssignments payload = Ok targets -> Forall (fun t : string * string => Trimmed t.1 /\ Trimmed t.2) targets.
Proof. unfold parseBatchPolicyAssignments. destruct (mget payload "assignments"); try discriminate. destruct (_ || _); [discriminate|]. apply batch_targets_Trimmed. Qed.

Lemma batchAssignPolicy_effect a r : filed (app_Store a) -> effect (app_Store a) (app_Store (batchAssignPolicy cfg a r).1).
Proof.
  intros Hf. apply as_admin_effect; [exact Hf|]. clear a Hf. intros a Hf. cbn zeta.
  destruct (findPolicy (ensureDefaultAssignments a r) r (pathID r)) as [a1 [p|]] eqn:Ef; (apply with_assignable_policy in Ef as (HS & Hf1 & Hh); [|exact Hf]); [|exact HS].
  specialize (Hh ltac:(eexists; reflexivity)). destruct (bad_request (decodePayload r)) as [decoded|e]; [|exact HS]. cbn [res_bind].
  destruct (parseBatchPolicyAssignments decoded.1) as [targets|e] eqn:Et; [|exact HS]. cbn [bad_request res_bind handle]. apply parseBatch_Trimmed in Et.
  pose proof (assign_batch_steps a1 r 0 (pathID r) targets batch_start Hf1 Hh (pathID_Trimmed r) Et) as HS2. etrans; [exact HS|].
  destruct (assign_batch a1 r 0 (pathID r) targets batch_start) as [a2 b]; exact HS2.
Qed.

Lemma unassignPolicy_effect a r : filed (app_Store a) -> effect (app_Store a) (app_Store (unassignPolicy cfg a r).1).
Proof.
  intros Hf. apply as_admin_effect; [exact Hf|]. clear a Hf. intros a Hf. cbn zeta. destruct (ensureDefaultAssignments_steps a r Hf) as [HS1 Hf1].
  destruct (bad_request (decodePayload r)) as [decoded|e]; [|exact HS1]. cbn [res_bind].
  destruct (bad_request (assignmentTarget decoded.1)) as [target|e]; [|exact HS1]. cbn [res_bind handle]. etrans; [exact HS1|].
  tx_end (moves_run _ _ _ (ensureDefaultAssignments a r) (fun found => row ← found; Some (proxyPolicyEvent r 0 "unassign" row))
    (unassign_moves (fun s => findAssignment s (pathID r) target.1 target.2) assignmentsResource (fun rc => Some (rec_Data rc)) None ltac:(unfold dependent_resources; set_solver)) Hf1 I).
Qed.

Lemma listTargetAssignments_effect a r : filed (app_Store a) -> effect (app_Store a) (app_Store (listTargetAssignments cfg a r).1).
Proof.
  intros Hf. apply as_admin_effect; [exact Hf|]. clear a Hf. intros a Hf. cbn zeta. destruct (_ || _); [apply rtc_refl|].
  destruct (ensureDefaultAssignments_steps a r Hf) as [HS1 Hf1].
  pose proof (reading_steps (ensureDefaultAssignments a r) (fun s => ListTargetAssignments s (TrimSpace (PathValue r "type")) (pathID r) (sq_now r)) (assignments_where_steps _ _ _)) as HS2.
  destruct (reading (ensureDefaultAssignments a r) _) as [a2 rows]. cbn [fst] in *. etrans; eassumption.
Qed.

Lemma createRole_effect a r : filed (app_Store a) -> effect (app_Store a) (app_Store (createRole cfg a r).1).
Proof.
  intros Hf. apply as_admin_effect; [exact Hf|]. clear a Hf. intros a Hf. destruct (bad_request (decodePayload r)) as [[payload present]|e]; [|apply rtc_refl].
  cbn [res_bind fst]. do 2 (destruct (require _ _ _) as [[]|]; [|apply rtc_refl]; cbn [res_bind]). unfold handle at 1.
  destruct (roleNameExists a r "" (TextValue payload ["name"])) as [a1 taken] eqn:En. apply roleNameExists_steps in En as [HS1 Hf1]; [|exact Hf].
  destruct (require _ _ _) as [[]|]; [|exact HS1]. cbn [res_bind handle]. etrans; [exact HS1|].
  assert (moves (fun _ => True)
    (drawn <-- tx_read (fun s => let '(id, s') := nextID s platformRolesResource "RL" in (s', id)) ;;
     CreateProxyRoleTx (role_record (FirstNonEmpty [TextValue payload ["id"]; drawn]) (TextValue payload ["name"]) (TextValue payload ["display_name"; "displayName"]) (TextValue payload ["description"]) (sq_now r)) (sq_now r))
    (fun _ _ => True)) as HM.
  { eapply moves_bind; [by apply (nextID_moves (fun _ => True))|]. intros drawn. cbn beta. unfold CreateProxyRoleTx.
    eapply moves_bind; [apply (moves_create (fun _ => True)); [unfold free_resources; set_solver|done]|]. intros rc. by apply moves_ret. }
  tx_end (moves_run _ _ _ a1 (fun role => Some (proxyPolicyEvent r 0 "role_create" role)) HM Hf1 I).
Qed.

Lemma updateRole_effect a r : filed (app_Store a) -> effect (app_Store a) (app_Store (updateRole cfg a r).1).
Proof.
  intros Hf. apply as_admin_effect; [exact Hf|]. clear a Hf. intros a Hf. destruct (findPlatformRole a r (pathID r)) as [a1 [ro|]] eqn:Ef;
    (apply findPlatformRole_steps in Ef as (HS1 & Hf1 & _); [|exact Hf]); [|exact HS1].
  destruct (bad_request (decodePayload r)) as [decoded|e]; [|exact HS1]. cbn [res_bind handle]. etrans; [exact HS1|].
  assert (moves (fun _ => True) (UpdateProxyRoleTx (pathID r) (role_patch r decoded.1 decoded.2) (sq_now r)) (fun _ _ => True)) as HM.
  { unfold UpdateProxyRoleTx. eapply moves_bind; [apply (moves_update (fun _ => True)); set_solver|]. intros o. by apply moves_ret. }
  tx_end (moves_run _ _ _ a1 (fun out => role ← out; Some (proxyPolicyEvent r 0 "role_update" role)) HM Hf1 I).
Qed.

Lemma deleteRole_effect a r : filed (app_Store a) -> effect (app_Store a) (app_Store (deleteRole cfg a r).1).
Proof.
  intros Hf. apply as_admin_effect; [exact Hf|]. clear a Hf. intros a Hf.
  tx_end (moves_run _ _ _ a (fun current => Some (proxyPolicyEvent r 0 "role_delete" (default ∅ current))) (DeleteProxyRoleCascadeTx_moves (pathID r) (sq_now r)) Hf I).
Qed.

Lemma listRoleUsers_effect a r : filed (app_Store a) -> effect (app_Store a) (app_Store (listRoleUsers cfg a r).1).
Proof.
  intros Hf. apply as_admin_effect; [exact Hf|]. clear a Hf. intros a Hf. destruct (findPlatformRole a r (pathID r)) as [a1 [ro|]] eqn:Ef;
    (apply findPlatformRole_steps in Ef as (HS1 & Hf1 & _); [|exact Hf]); [|exact HS1].
  pose proof (reading_steps a1 (fun s => ListRoleUsers s (pathID r) (sq_now r)) (ListRoleUsers_steps _ _ _)) as HS2.
  destruct (reading a1 _) as [a2 rows]. cbn [fst] in *. etrans; eassumption.
Qed.

Lemma assignRoleUser_effect a r : filed (app_Store a) -> effect (app_Store a) (app_Store (assignRoleUser cfg a r).1).
Proof.
  intros Hf. apply as_admin_effect; [exact Hf|]. clear a Hf. intros a Hf. destruct (findPlatformRole a r (pathID r)) as [a1 [ro|]] eqn:Ef;
    (apply findPlatformRole_steps in Ef as (HS1 & Hf1 & Hh); [|exact Hf]); [|exact HS1]. specialize (Hh ltac:(eexists; reflexivity)).
  destruct (bad_request (decodePayload r)) as [decoded|e]; [|exact HS1]. cbn [res_bind]. cbn zeta. destruct (require _ _ _) as [[]|]; [|exact HS1]. cbn [res_bind handle].
  pose proof (assign_member_steps a1 r 0 (pathID r) (TextValue decoded.1 memberKeys) Hf1 Hh (pathID_Trimmed r)) as HS2. etrans; [exact HS1|].
  destruct (assign_member a1 r 0 (pathID r) _) as [a2 [[row b]|[c|]]]; exact HS2.
Qed.

Lemma batchAssignRoleUsers_effect a r : filed (app_Store a) -> effect (app_Store a) (app_Store (batchAssignRoleUsers cfg a r).1).
Proof.
  intros Hf. apply as_admin_effect; [exact Hf|]. clear a Hf. intros a Hf. destruct (findPlatformRole a r (pathID r)) as [a1 [ro|]] eqn:Ef;
    (apply findPlatformRole_steps in Ef as (HS1 & Hf1 & Hh); [|exact Hf]); [|exact HS1]. specialize (Hh ltac:(eexists; reflexivity)).
  destruct (bad_request (decodePayload r)) as [decoded|e]; [|exact HS1]. cbn [res_bind]. cbn zeta. destruct (require _ _ _) as [[]|]; [|exact HS1]. cbn [res_bind handle].
  pose proof (member_batch_steps a1 r 0 (pathID r) (default [] (StringSlice (mget decoded.1 "user_ids"))) batch_start Hf1 Hh (pathID_Trimmed r)) as HS2. etrans; [exact HS1|].
  destruct (member_batch a1 r 0 (pathID r) _ batch_start) as [a2 b]; exact HS2.
Qed.

Lemma unassignRoleUser_effect a r : filed (app_Store a) -> effect (app_Store a) (app_Store (unassignRoleUser cfg a r).1).
Proof.
  intros Hf. apply as_admin_effect; [exact Hf|]. clear a Hf. intros a Hf.
  tx_end (moves_run _ _ _ a (fun found => row ← found; Some (proxyPolicyEvent r 0 "role_user_unassign" row))
    (unassign_moves (fun s => findRoleUser s (pathID r) (TrimSpace (PathValue r "user_id"))) roleUsersResource (fun rc => Some (rec_Data rc)) None ltac:(unfold dependent_resources; set_solver)) Hf I).
Qed.

End Requests.
