(* ===== verification/PolicyDecisions.v ===== *)
(** * Authorization-policy service: decisions follow the policies

    The theorems of the service over histories of requests: who can change what, what the
    decision point answers, how it composes with the guards of the platform, and what the
    start of a process does to the policies of the static administrators. *)

From stdpp Require Import base gmap strings list fin_maps relations.
From Stdlib Require Import ZArith Lia Ascii.
From S2P Require Import Prelude GoValue Store EventBus Crud Tx Projection RateLimit InputLimits Config Auth Guards SchedulerHttp ServiceHttp Tables ServiceProjection PolicyIdentity PolicyRaw PolicyProxy PolicyHandlers PolicySteps PolicyInvariant.
Local Open Scope Z_scope.
Local Open Scope go_scope.

Section Decisions.
Context `{GoLib} `{AuthLib} `{PolicyLib} {ip : Type} `{NetLib ip} (cfg : config ip).

(** ** Only administrators change anything *)

Definition caller_is_administrator (a : app) (r : policy_request) : Prop :=
  request_user r ≠ "" /\ administrator cfg (app_Store (syncPolicyIdentityReadModels a (sq_now r))) (request_user r) = true.

Lemma as_admin_changes a r k : frame identity_copy (app_Store a) (app_Store (as_admin cfg a r k).1) \/ caller_is_administrator a r.
Proof.
  rewrite as_admin_refused. destruct (requireAdmin_spec cfg a r) as (Hf & Hiff & _). destruct (requireAdmin cfg a r).2 as [resp|]; [by left|]. right. by apply Hiff.
Qed.

Lemma handle_changes a r c : (forall x, c = Ok x -> frame identity_copy (app_Store a) (app_Store x.1) \/ caller_is_administrator a r) ->
  frame identity_copy (app_Store a) (app_Store (handle a c).1) \/ caller_is_administrator a r.
Proof. intros Hc. unfold handle. destruct c as [x|e]; [by apply Hc|]. left. apply frame_refl. Qed.

Lemma serve_changes route a r : frame identity_copy (app_Store a) (app_Store (serve cfg route a r).1) \/ caller_is_administrator a r.
Proof.
  destruct route; cbn [serve]; try apply as_admin_changes; apply handle_changes; intros x E.
  - repeat inv_ok E. injection E as <-. apply as_admin_changes.
  - inv_ok E. destruct a0. injection E as <-. apply as_admin_changes.
  - repeat inv_ok E. injection E as <-. apply as_admin_changes.
  - repeat inv_ok E. injection E as <-. apply as_admin_changes.
  - inv_ok E. destruct (decodePayload r) as [[payload present]|]; [|done]. destruct (permissionTuple payload) as [[[sub dom] obj] act]. inv_ok E.
    destruct (RawPolicyPDP_Enforce _ _ _ _ _); [|done]. injection E as <-. left. apply frame_refl.
  - destruct (decodePayload r) as [[payload present]|]; [|done]. destruct (permissionTuple payload) as [[[sub dom] obj] act]. inv_ok E. injection E as <-. apply as_admin_changes.
Qed.

(** Whatever endpoint of the policy service a request calls, a record other than the
    service's copies of users and roles (and the dead letters of their projection) changes
    only when the request carries the identifier of a user whose role, in the copies
    brought up to date, opens the admin panel. *)
Theorem policy_changes_by_administrators route a r res id :
  Get (app_Store (serve cfg route a r).1) res id ≠ Get (app_Store a) res id -> ~ identity_copy res id -> caller_is_administrator a r.
Proof. intros Hne Hn. destruct (serve_changes route a r) as [Hf|Ha]; [|done]. by destruct Hne; apply Hf. Qed.

(** ** The records of the proxied services *)

Definition raw_record (res id : string) : Prop := res = rawPoliciesResource \/ res = groupingResource.

Lemma frame_announced {E A} (P : string -> string -> Prop) a (c : tx_fn E A) ev :
  frame P (app_Store a) (tx_store (c (StoreTx (app_Store a) [])).1) -> frame P (app_Store a) (app_Store (WithTx a (announced c ev)).1).
Proof. by rewrite announced_store. Qed.

Lemma tx_Create_store res d i now t : tx_store (tx_Create res d i now t).1 = (Create (tx_store t) res d i now).1.
Proof. unfold tx_Create. by destruct (Create _ _ _ _ _). Qed.
Lemma tx_Update_store {E} res id d now t : tx_store (tx_Update (E := E) res id d now t).1 = (Update (tx_store t) res id d now).1.
Proof. unfold tx_Update. by destruct (Update _ _ _ _ _). Qed.
Lemma tx_Delete_store {E} res id t : tx_store (tx_Delete (E := E) res id t).1 = (Delete (tx_store t) res id).1.
Proof. unfold tx_Delete. by destruct (Delete _ _ _). Qed.

(** A callback that writes one resource, and files what it writes. *)
Definition writes {E A} (resource : string) (c : tx_fn E A) : Prop :=
  forall t, frame (in_resource resource) (tx_store t) (tx_store (c t).1) /\ (filed (tx_store t) -> filed (tx_store (c t).1)).

Lemma writes_Create res d i now : writes res (tx_Create res d i now).
Proof. intros t. rewrite tx_Create_store. split; [|apply filed_Create]. eapply frame_weaken; [|apply frame_Create]. by intros r i' [-> _]. Qed.
Lemma writes_Update {E} res id d now : writes (E := E) res (tx_Update res id d now).
Proof. intros t. rewrite tx_Update_store. split; [|apply filed_Update]. eapply frame_weaken; [|apply frame_Update]. by intros r i' [-> _]. Qed.
Lemma writes_Delete {E} res id : writes (E := E) res (tx_Delete res id).
Proof. intros t. rewrite tx_Delete_store. split; [|apply filed_Delete]. eapply frame_weaken; [|apply frame_Delete]. by intros r i' [-> _]. Qed.
Lemma writes_ret {E A} res (x : A) : writes (E := E) res (stm_ret x).
Proof. intros t. split; [apply frame_refl|done]. Qed.
Lemma writes_bind {E A B} res (c : tx_fn E A) (k : A -> tx_fn E B) : writes res c -> (forall x, writes res (k x)) -> writes res (stm_bind c k).
Proof.
  intros Hc Hk t. unfold stm_bind. destruct (Hc t) as [F1 G1]. destruct (c t) as [t1 [x|e]]; cbn [fst] in *; [|done]. destruct (Hk x t1) as [F2 G2].
  split; [by eapply frame_trans|auto].
Qed.

Lemma writes_create_raw p now : writes rawPoliciesResource (CreateRawPermissionPolicyTx p now).
Proof.
  intros t. unfold CreateRawPermissionPolicyTx. destruct (RawPermissionPolicyExists _ _); [split; [apply frame_refl|done]|].
  pose proof (writes_Create rawPoliciesResource (rawPolicyRecord p) "" now t) as HW. by destruct (tx_Create _ _ _ _ _) as [t' [rc|e]].
Qed.
Lemma writes_update_raw old new now : writes rawPoliciesResource (UpdateRawPermissionPolicyTx old new now).
Proof.
  intros t. unfold UpdateRawPermissionPolicyTx. destruct (Get _ _ _); [|split; [apply frame_refl|done]]. cbn zeta. destruct (negb _).
  - destruct (Get _ _ _); [split; [apply frame_refl|done]|]. pose proof (writes_Create rawPoliciesResource (rawPolicyRecord new) "" now t) as [F1 G1].
    destruct (tx_Create _ _ _ _ _) as [t1 [rc|e]]; cbn [fst] in *; [|done]. pose proof (writes_Delete (E := string) rawPoliciesResource (rawPolicyID old) t1) as [F2 G2].
    destruct (tx_Delete _ _ _) as [t2 [b|e]]; cbn [fst] in *; (split; [by eapply frame_trans|auto]).
  - pose proof (writes_Update (E := string) rawPoliciesResource (rawPolicyID old) (rawPolicyRecord new) now t) as HW. by destruct (tx_Update _ _ _ _ _) as [t1 [o|e]].
Qed.

Lemma writes_upsert_grouping ty u ro dom now : writes groupingResource (UpsertGroupingPolicyTx ty u ro dom now).
Proof.
  intros t. unfold UpsertGroupingPolicyTx. cbn zeta.
  assert (writes (E := string) groupingResource (tx_Update groupingResource (groupingPolicyID ty u ro dom) (groupingPolicyRecord ty u ro dom) now ;;; stm_ret tt)) as HU
    by (apply writes_bind; [apply writes_Update|intros; apply writes_ret]).
  destruct (Get _ _ _); [apply HU|]. pose proof (writes_Create groupingResource (groupingPolicyRecord ty u ro dom) "" now t) as [F1 G1].
  destruct (tx_Create _ _ _ _ _) as [t1 [rc|e]]; cbn [fst] in *; [done|]. destruct (HU t1) as [F2 G2]. split; [by eapply frame_trans|auto].
Qed.

Lemma writes_operation op now : writes groupingResource (ApplyPermissionOperationTx op now).
Proof.
  unfold ApplyPermissionOperationTx. cbn zeta.
  assert (forall dom, writes groupingResource
    (if String.eqb (op_action op) "add" || String.eqb (op_action op) "update" then UpsertGroupingPolicyTx (op_type op) (op_user_id op) (op_role op) dom now
     else if String.eqb (op_action op) "remove" then DeleteGroupingPolicyTx (op_type op) (op_user_id op) (op_role op) dom ;;; stm_ret tt else stm_ret tt)) as HA.
  { intros dom. destruct (_ || _); [apply writes_upsert_grouping|]. destruct (String.eqb _ _); [|apply writes_ret]. apply writes_bind; [apply writes_Delete|intros; apply writes_ret]. }
  destruct (String.eqb (op_type op) "project_member"); [apply HA|]. destruct (String.eqb (op_type op) "group_role"); [apply HA|].
  intros t. split; [apply frame_refl|done].
Qed.

Lemma process_operations_frame a r k ops :
  frame (in_resource groupingResource) (app_Store a) (app_Store (process_operations a r k ops).1) /\ (filed (app_Store a) -> filed (app_Store (process_operations a r k ops).1)).
Proof.
  revert a k. induction ops as [|op ops IH]; intros a k; cbn [process_operations]; [split; [apply frame_refl|done]|].
  set (ev := fun _ : unit => _). pose proof (announced_store a (ApplyPermissionOperationTx op (sq_now r)) ev) as Hst.
  destruct (writes_operation op (sq_now r) (StoreTx (app_Store a) [])) as [F1 G1]. rewrite <- Hst in F1, G1. cbn [tx_store] in F1, G1. destruct (WithTx a _) as [a' out]. cbn [fst] in *.
  destruct out as [u|[text|]]; cbn [fst]; [|done..]. destruct (IH a' (S k)) as [F2 G2]. split; [by eapply frame_trans|auto].
Qed.

Definition raw_route (route : policy_route) : bool :=
  match route with ListRaw | AddRaw | UpdateRaw | RemoveRaw | BatchRaw | EnforceRaw | SimulateRaw => true | _ => false end.

Definition raw_or_copy (res id : string) : Prop := identity_copy res id \/ raw_record res id.

(** What the endpoints of permission policies can touch. *)
Definition touches_raw (s s' : store) : Prop := frame raw_or_copy s s' /\ (filed s -> filed s').

Lemma touches_raw_refl s : touches_raw s s.
Proof. split; [apply frame_refl|done]. Qed.

Lemma as_admin_raw a r k : (forall a1, touches_raw (app_Store a1) (app_Store (k a1).1)) -> touches_raw (app_Store a) (app_Store (as_admin cfg a r k).1).
Proof.
  intros Hk. rewrite as_admin_refused. destruct (requireAdmin_spec cfg a r) as (Hf & _ & _). pose proof (filed_requireAdmin cfg a r) as HF.
  apply (frame_weaken _ raw_or_copy) in Hf; [|by left]. destruct (requireAdmin cfg a r) as [a1 [resp|]]; cbn [fst snd] in *; [by split|].
  destruct (Hk a1) as [F2 G2]. split; [by eapply frame_trans|auto].
Qed.

Lemma writes_raw {A} res a (c : tx_fn string A) ev : writes res c -> raw_record res "" -> touches_raw (app_Store a) (app_Store (WithTx a (announced c ev)).1).
Proof.
  intros Hw Hr. rewrite announced_store. destruct (Hw (StoreTx (app_Store a) [])) as [F G]. split; [|exact G].
  eapply frame_weaken; [|exact F]. intros r' i ->. by right.
Qed.

Lemma raw_serve_touches route a r : raw_route route = true -> touches_raw (app_Store a) (app_Store (serve cfg route a r).1).
Proof.
  destruct route; try done; intros _; cbn [serve].
  - apply as_admin_raw. intros a1. apply touches_raw_refl.
  - unfold addRawPermissionPolicy, handle. destruct (bad_request _) as [p|]; [|apply touches_raw_refl]. cbn [res_bind].
    destruct (require _ _ _); [|apply touches_raw_refl]. cbn [res_bind]. apply as_admin_raw. intros a1. set (ev := fun created : bool => _).
    pose proof (writes_raw _ a1 _ ev (writes_create_raw p (sq_now r)) ltac:(by left)) as HW. destruct (WithTx a1 _) as [a2 [[]|e]]; exact HW.
  - unfold updateRawPermissionPolicy, handle. destruct (bad_request _) as [[old new]|]; [|apply touches_raw_refl]. cbn [res_bind]. apply as_admin_raw. intros a1.
    set (ev := fun res => _). pose proof (writes_raw _ a1 _ ev (writes_update_raw old new (sq_now r)) ltac:(by left)) as HW. destruct (WithTx a1 _) as [a2 [res|e]]; exact HW.
  - unfold removeRawPermissionPolicy, handle. destruct (bad_request _) as [p|]; [|apply touches_raw_refl]. cbn [res_bind]. apply as_admin_raw. intros a1.
    set (ev := fun deleted : bool => _). pose proof (writes_raw rawPoliciesResource a1 (DeleteRawPermissionPolicyTx p) ev (writes_Delete _ _) ltac:(by left)) as HW.
    destruct (WithTx a1 _) as [a2 [[]|e]]; exact HW.
  - unfold batchProcessPermissions, handle. destruct (bad_request _) as [ops|]; [|apply touches_raw_refl]. cbn [res_bind]. apply as_admin_raw. intros a1.
    destruct (process_operations_frame a1 r 0 ops) as [F G]. split; [|exact G]. eapply frame_weaken; [|exact F]. intros r' i ->. right. by right.
  - unfold enforcePermission, handle. destruct (require _ _ _); [|apply touches_raw_refl]. cbn [res_bind]. destruct (decodePayload r) as [[payload present]|]; [|apply touches_raw_refl].
    destruct (permissionTuple payload) as [[[sub dom] obj] act]. destruct (require _ _ _); [|apply touches_raw_refl]. cbn [res_bind].
    destruct (RawPolicyPDP_Enforce _ _ _ _ _); apply touches_raw_refl.
  - unfold simulatePermissionEnforce, handle. destruct (decodePayload r) as [[payload present]|]; [|apply touches_raw_refl].
    destruct (permissionTuple payload) as [[[sub dom] obj] act]. destruct (require _ _ _); [|apply touches_raw_refl]. cbn [res_bind]. apply as_admin_raw. intros a1. apply touches_raw_refl.
Qed.

Lemma reading_effect {A} a r (f : store -> store * A) (resp : A -> response) : filed (app_Store a) -> (forall s, rtc proxy_step s (f s).1) ->
  effect (app_Store a) (app_Store (as_admin cfg a r (fun a => let '(a, x) := reading a f in (a, resp x))).1).
Proof.
  intros Hf Hs. apply as_admin_effect; [done|]. intros a1 _. pose proof (reading_steps a1 f (Hs _)) as HS. by destruct (reading a1 f) as [a2 x].
Qed.

Lemma serve_effect route a r : raw_route route = false -> filed (app_Store a) -> effect (app_Store a) (app_Store (serve cfg route a r).1).
Proof.
  destruct route; try done; intros _ Hf; cbn [serve].
  - apply (reading_effect a r _ (fun rows => (StatusOK, BMaps rows))); [done|]. intros s. apply EnsureDefaultProxyServices_seeds.
  - apply as_admin_effect; [done|]. intros a1 _. apply rtc_refl.
  - apply as_admin_effect; [done|]. intros a1 Hf1. pose proof (reading_steps a1 (fun s => GetProxyService s (pathID r) (sq_now r)) ltac:(apply EnsureDefaultProxyServices_seeds)) as HS.
    unfold findService. by destruct (reading a1 _) as [a2 []].
  - apply (reading_effect a r _ (fun rows => (StatusOK, BMaps rows))); [done|]. intros s. apply EnsureDefaultProxyPolicies_seeds.
  - by apply createPolicy_effect.
  - apply as_admin_effect; [done|]. intros a1 Hf1. pose proof (reading_steps a1 (fun s => GetProxyPolicy s (pathID r) (sq_now r)) ltac:(apply GetProxyPolicy_seeds)) as HS.
    unfold findPolicy. by destruct (reading a1 _) as [a2 []].
  - by apply updatePolicy_effect.
  - by apply deletePolicy_effect.
  - by apply listPolicyAssignments_effect.
  - by apply assignPolicy_effect.
  - by apply batchAssignPolicy_effect.
  - by apply unassignPolicy_effect.
  - by apply listTargetAssignments_effect.
  - apply (reading_effect a r _ (fun rows => (StatusOK, BMaps rows))); [done|]. intros s. apply EnsureDefaultProxyRoles_seeds.
  - by apply createRole_effect.
  - apply as_admin_effect; [done|]. intros a1 Hf1. pose proof (reading_steps a1 (fun s => GetProxyRole s (pathID r) (sq_now r)) ltac:(apply GetProxyRole_seeds)) as HS.
    unfold findPlatformRole. by destruct (reading a1 _) as [a2 []].
  - by apply updateRole_effect.
  - by apply deleteRole_effect.
  - by apply listRoleUsers_effect.
  - by apply assignRoleUser_effect.
  - by apply batchAssignRoleUsers_effect.
  - by apply unassignRoleUser_effect.
  - exists (app_Store (serve cfg SystemRoles a r).1). cbn [serve].
    assert (frame identity_copy (app_Store a) (app_Store (listSystemRoles cfg a r).1) /\ filed (app_Store (listSystemRoles cfg a r).1)) as [HF HG].
    { unfold listSystemRoles. rewrite as_admin_refused. destruct (requireAdmin_spec cfg a r) as (Hfr & _ & _). pose proof (filed_requireAdmin cfg a r Hf) as HF1.
      destruct (requireAdmin cfg a r) as [a1 [resp|]]; cbn [fst snd] in *; [done|]. unfold policyIdentityRecords. cbn [fst].
      split; [eapply frame_trans; [exact Hfr|apply sync_frame]|by apply filed_sync]. }
    split; [exact HF|]. split; [exact HG|apply rtc_refl].
Qed.

(** ** The start of a process *)

Lemma bootstrap_create_get now s p id : (2 <= length p)%nat ->
  match Get s rawPoliciesResource id with
  | Some rc => Get (bootstrap_create now s p) rawPoliciesResource id = Some rc
  | None => if decide (id = rawPolicyID p)
            then exists rc, Get (bootstrap_create now s p) rawPoliciesResource id = Some rc /\ adminBootstrapManaged (rec_Data rc) = true
            else Get (bootstrap_create now s p) rawPoliciesResource id = None
  end.
Proof.
  intros Hl. unfold bootstrap_create, CreateRawPermissionPolicyRecord, RawPermissionPolicyExists. destruct (Get s rawPoliciesResource (rawPolicyID p)) as [rc0|] eqn:E0.
  { destruct (Get s rawPoliciesResource id) eqn:Ei; [done|]. case_decide; [congruence|done]. }
  set (d := adminBootstrapMetadata ∪ rawPolicyRecord p).
  assert (create_id d "" = rawPolicyID p) as Hid.
  { apply create_id_policy; [|done]. unfold d. rewrite lookup_union_r; [apply rawPolicyRecord_id|]. vm_compute. done. }
  assert (d !! adminBootstrapManagedKey = Some (VBool true)) as Hm1 by (apply lookup_union_Some_l; reflexivity).
  assert (d !! adminBootstrapSourceKey = Some (VString adminBootstrapSource)) as Hm2 by (apply lookup_union_Some_l; reflexivity). clearbody d.
  destruct (Create s rawPoliciesResource d "" now) as [s' [rc|e]] eqn:EC; cbn [fst].
  - apply Create_ok in EC as (_ & _ & _ & _ & _ & Hd & Hg). rewrite Hid in Hg. rewrite Hg. destruct (Get s rawPoliciesResource id) as [rc1|] eqn:Ei.
    + rewrite decide_False; [done|]. intros [_ <-]. congruence.
    + case_decide as Hc; case_decide as Hc'; [|naive_solver..]. subst id. exists rc. split; [done|]. unfold adminBootstrapManaged, mget. rewrite !Hd by done.
      by rewrite Hm1, Hm2.
  - apply Create_err in EC as (_ & [x Hx] & _). rewrite Hid, E0 in Hx. done.
Qed.

Lemma bootstrap_create_all now ps s id : Forall (fun p => (2 <= length p)%nat) ps ->
  match Get s rawPoliciesResource id with
  | Some rc => Get (foldl (bootstrap_create now) s ps) rawPoliciesResource id = Some rc
  | None => if decide (id ∈ map rawPolicyID ps)
            then exists rc, Get (foldl (bootstrap_create now) s ps) rawPoliciesResource id = Some rc /\ adminBootstrapManaged (rec_Data rc) = true
            else Get (foldl (bootstrap_create now) s ps) rawPoliciesResource id = None
  end.
Proof.
  intros HF. revert s. induction HF as [|p ps Hl _ IH]; intros s; cbn [foldl map].
  { destruct (Get s rawPoliciesResource id); [done|]. by rewrite decide_False by set_solver. }
  pose proof (bootstrap_create_get now s p id Hl) as H1'. specialize (IH (bootstrap_create now s p)). destruct (Get s rawPoliciesResource id) as [rc|]; [by rewrite H1' in IH|].
  destruct (decide (id = rawPolicyID p)) as [Hp|Hp].
  - destruct H1' as (rc & Hg & Hm). rewrite Hg in IH. rewrite decide_True by set_solver. eauto.
  - rewrite H1' in IH. destruct (decide (id ∈ map rawPolicyID ps)); [by rewrite decide_True by set_solver|by rewrite decide_False by set_solver].
Qed.

(** The rows the second pass deletes. *)
Definition prunes (desired : gmap string (list string)) (rc : record) : bool :=
  adminBootstrapManaged (rec_Data rc) && bool_decide (desired !! rec_ID rc = None).

Lemma bootstrap_prune_all desired rcs s :
  foldl (bootstrap_prune desired) s (map (fun rc => <["id" := VString (rec_ID rc)]> (rec_Data rc)) rcs) =
  fold_left (fun s' i => (Delete s' rawPoliciesResource i).1) (map rec_ID (List.filter (prunes desired) rcs)) s.
Proof.
  revert s. induction rcs as [|rc rcs IH]; intros s; [done|]. cbn [map foldl List.filter].
  assert (bootstrap_prune desired s (<["id" := VString (rec_ID rc)]> (rec_Data rc)) =
          if prunes desired rc then (Delete s rawPoliciesResource (rec_ID rc)).1 else s) as ->.
  { unfold bootstrap_prune, prunes, adminBootstrapManaged, mget. rewrite !lookup_insert_ne, lookup_insert_eq by discriminate.
    destruct (_ && _); [|done]. cbn. destruct (desired !! rec_ID rc); [by rewrite bool_decide_false|by rewrite bool_decide_true]. }
  rewrite IH. by destruct (prunes desired rc).
Qed.

(** The identifiers of the desired policies: every static administrator, every route of
    the catalog that needs a policy. *)
Lemma desired_spec catalog id p : adminBootstrapPolicies cfg catalog !! id = Some p ->
  id = rawPolicyID p /\ exists subject rt, subject ∈ bootstrap_subjects cfg /\ rt ∈ catalog /\ adminBootstrapRoute rt = true /\
    p = [subject; ""; rt_Resource rt; rt_OperationID rt].
Proof.
  unfold adminBootstrapPolicies. revert id p. induction catalog as [|rt catalog IH] using rev_ind; intros id p; [by cbn; rewrite lookup_empty|].
  rewrite foldl_snoc. set (m := foldl _ ∅ catalog) in *. intros Hl.
  assert (m !! id = Some p \/ (adminBootstrapRoute rt = true /\ exists subject, subject ∈ bootstrap_subjects cfg /\
    id = rawPolicyID [subject; ""; rt_Resource rt; rt_OperationID rt] /\ p = [subject; ""; rt_Resource rt; rt_OperationID rt])) as Hc.
  { revert Hl. clearbody m. clear IH. destruct (adminBootstrapRoute rt); [|by left].
    apply (set_fold_ind_L (fun out X => out !! id = Some p -> m !! id = Some p \/ (true = true /\ exists subject, subject ∈ X /\
      id = rawPolicyID [subject; ""; rt_Resource rt; rt_OperationID rt] /\ p = [subject; ""; rt_Resource rt; rt_OperationID rt]))); [by left|].
    intros x X out _ IHX. cbn zeta. rewrite lookup_insert_Some. intros [[<- <-]|[_ Hr]]; [right; split; [done|]; exists x; set_solver|].
    destruct (IHX Hr) as [?|(_ & y & ? & ? & ?)]; [by left|right; split; [done|]; exists y; set_solver]. }
  destruct Hc as [Hm|(Hrt & subject & Hs & -> & ->)].
  - destruct (IH _ _ Hm) as (-> & y & rt' & ? & ? & ? & ?). split; [done|]. exists y, rt'. set_solver.
  - split; [done|]. exists subject, rt. set_solver.
Qed.

Lemma desired_complete catalog subject rt : subject ∈ bootstrap_subjects cfg -> rt ∈ catalog -> adminBootstrapRoute rt = true ->
  is_Some (adminBootstrapPolicies cfg catalog !! rawPolicyID [subject; ""; rt_Resource rt; rt_OperationID rt]).
Proof.
  intros Hs Hin Hrt. unfold adminBootstrapPolicies. set (id := rawPolicyID _).
  assert (forall (m : gmap string (list string)) rt' X, is_Some (m !! id) ->
    is_Some (set_fold (fun y d => let policy := [y; ""; rt_Resource rt'; rt_OperationID rt'] in <[rawPolicyID policy := policy]> d) m (X : gset string) !! id)) as Hmono.
  { intros m rt' X Hm. apply (set_fold_ind_L (fun out _ => is_Some (out !! id))); [done|]. intros y Y out _ Ho. cbn zeta. rewrite lookup_insert_is_Some'. by right. }
  induction catalog as [|rt' catalog IH] using rev_ind; [by apply not_elem_of_nil in Hin|]. rewrite foldl_snoc. set (m := foldl _ ∅ catalog) in *.
  apply elem_of_app in Hin as [Hin|Hin].
  - specialize (IH Hin). destruct (adminBootstrapRoute rt'); [by apply Hmono|done].
  - apply list_elem_of_singleton in Hin as <-. rewrite Hrt. clearbody m.
    assert (subject ∈ bootstrap_subjects cfg -> is_Some (set_fold (fun y d => let policy := [y; ""; rt_Resource rt; rt_OperationID rt] in <[rawPolicyID policy := policy]> d) m (bootstrap_subjects cfg) !! id)) as Hx; [|by apply Hx].
    apply (set_fold_ind_L (fun out X => subject ∈ X -> is_Some (out !! id))); [set_solver|]. intros y Y out _ IHY Hy. cbn zeta.
    rewrite lookup_insert_is_Some'. apply elem_of_union in Hy as [Hy|Hy]; [|right; auto]. apply elem_of_singleton in Hy as <-. by left.
Qed.

Lemma desired_ids catalog id :
  id ∈ map rawPolicyID (map snd (map_to_list (adminBootstrapPolicies cfg catalog))) <-> is_Some (adminBootstrapPolicies cfg catalog !! id).
Proof.
  rewrite map_map, list_elem_of_fmap. split.
  - intros ([k p] & -> & Hin%elem_of_map_to_list). cbn. pose proof (desired_spec _ _ _ Hin) as [-> _]. by eexists.
  - intros [p Hp]. exists (id, p). split; [by apply desired_spec in Hp as [-> _]|by apply elem_of_map_to_list].
Qed.

Lemma desired_lengths catalog : Forall (fun p => (2 <= length p)%nat) (map snd (map_to_list (adminBootstrapPolicies cfg catalog))).
Proof.
  apply Forall_fmap, Forall_forall. intros [k p] Hin%elem_of_map_to_list. apply desired_spec in Hin as (_ & subject & rt & _ & _ & _ & ->). cbn. lia.
Qed.

Lemma bootstrap_create_frame now ps s :
  frame (in_resource rawPoliciesResource) s (foldl (bootstrap_create now) s ps) /\ (filed s -> filed (foldl (bootstrap_create now) s ps)).
Proof.
  revert s. induction ps as [|p ps IH]; intros s; cbn [foldl]; [split; [apply frame_refl|done]|]. destruct (IH (bootstrap_create now s p)) as [F2 G2].
  assert (frame (in_resource rawPoliciesResource) s (bootstrap_create now s p) /\ (filed s -> filed (bootstrap_create now s p))) as [F1 G1].
  { unfold bootstrap_create, CreateRawPermissionPolicyRecord. destruct (RawPermissionPolicyExists s p); [split; [apply frame_refl|done]|].
    set (d := adminBootstrapMetadata ∪ rawPolicyRecord p). pose proof (filed_Create s rawPoliciesResource d "" now) as HF.
    assert (frame (in_resource rawPoliciesResource) s (Create s rawPoliciesResource d "" now).1) as HR by (eapply frame_weaken; [|apply frame_Create]; by intros r i [-> _]).
    by destruct (Create s rawPoliciesResource d "" now) as [s1 [rc|e]]. }
  split; [by eapply frame_trans|auto].
Qed.

Lemma reconcile_frame a catalog now :
  frame (in_resource rawPoliciesResource) (app_Store a) (app_Store (reconcileAdminBootstrapPolicies cfg a catalog now)) /\
  (filed (app_Store a) -> filed (app_Store (reconcileAdminBootstrapPolicies cfg a catalog now))).
Proof.
  unfold reconcileAdminBootstrapPolicies. destruct (negb _); [split; [apply frame_refl|done]|]. cbn [app_Store]. unfold ListRawPermissionPolicyRecords. rewrite bootstrap_prune_all.
  set (s1 := foldl _ _ _). destruct (bootstrap_create_frame now (map snd (map_to_list (adminBootstrapPolicies cfg catalog))) (app_Store a)) as [F G]. fold s1 in F, G.
  split; [|intros Hf; by apply filed_fold_Delete, G]. eapply frame_trans; [exact F|]. intros res id Hn. rewrite fold_Delete_Get, decide_False; [done|]. by intros [-> _].
Qed.

(** When a process that hosts the policy service starts, the permission policies are
    reconciled exactly: a policy of a static administrator that is no longer wanted is
    removed, every other policy stays as it was, every wanted one exists afterwards, and
    nothing else changes.  Then every static administrator is allowed the operation of
    every route of the catalog that asks for a policy (outside any project). *)
Theorem bootstrap_exact a catalog now : AllowsService cfg serviceName = true -> filed (app_Store a) ->
  let desired := adminBootstrapPolicies cfg catalog in
  let s' := app_Store (reconcileAdminBootstrapPolicies cfg a catalog now) in
  (forall id,
     match Get (app_Store a) rawPoliciesResource id, desired !! id with
     | Some rc, None => Get s' rawPoliciesResource id = if adminBootstrapManaged (rec_Data rc) then None else Some rc
     | Some rc, Some _ => Get s' rawPoliciesResource id = Some rc
     | None, Some _ => exists rc, Get s' rawPoliciesResource id = Some rc /\ adminBootstrapManaged (rec_Data rc) = true
     | None, None => Get s' rawPoliciesResource id = None
     end) /\
  frame (in_resource rawPoliciesResource) (app_Store a) s' /\
  (forall subject rt, subject ∈ bootstrap_subjects cfg -> rt ∈ catalog -> adminBootstrapRoute rt = true ->
     exists d, Enforce (service_pdp s') subject "" (rt_Resource rt) (rt_OperationID rt) = Some d /\ dec_Allowed d = true).
Proof.
  intros Ha Hf desired s'.
  assert (forall id,
     match Get (app_Store a) rawPoliciesResource id, desired !! id with
     | Some rc, None => Get s' rawPoliciesResource id = if adminBootstrapManaged (rec_Data rc) then None else Some rc
     | Some rc, Some _ => Get s' rawPoliciesResource id = Some rc
     | None, Some _ => exists rc, Get s' rawPoliciesResource id = Some rc /\ adminBootstrapManaged (rec_Data rc) = true
     | None, None => Get s' rawPoliciesResource id = None
     end) as Hget.
  { intros id. subst s'. unfold reconcileAdminBootstrapPolicies. rewrite Ha. cbn [negb app_Store]. fold desired. unfold ListRawPermissionPolicyRecords. rewrite bootstrap_prune_all.
    set (s1 := foldl _ _ _). destruct (bootstrap_create_frame now (map snd (map_to_list desired)) (app_Store a)) as [_ HG]. fold s1 in HG. specialize (HG Hf).
    pose proof (bootstrap_create_all now (map snd (map_to_list desired)) (app_Store a) id (desired_lengths catalog)) as H1'. fold s1 in H1'.
    rewrite fold_Delete_Get. set (ids := map rec_ID _).
    assert (id ∈ ids <-> exists rc, Get s1 rawPoliciesResource id = Some rc /\ adminBootstrapManaged (rec_Data rc) = true /\ desired !! id = None) as Hids.
    { unfold ids. rewrite list_elem_of_fmap. split.
      - intros (rc & -> & Hin). apply list_elem_of_In, filter_In in Hin as [Hin Hp]. apply list_elem_of_In, elem_of_List in Hin as [i Hg]. unfold prunes in Hp. to_prop.
        pose proof (HG _ _ _ Hg) as Hi. subst i. eauto.
      - intros (rc & Hg & Hm & Hd). exists rc. pose proof (HG _ _ _ Hg) as Hi. split; [done|]. apply list_elem_of_In, filter_In. split; [apply list_elem_of_In, elem_of_List; eauto|].
        unfold prunes. by rewrite Hm, Hi, bool_decide_true. }
    pose proof (desired_ids catalog id) as Hdi. fold desired in Hdi.
    destruct (Get (app_Store a) rawPoliciesResource id) as [rc|] eqn:Eg, (desired !! id) as [p|] eqn:Ed.
    - rewrite decide_False; [done|]. intros [_ Hin]. apply Hids in Hin as (? & _ & _ & ?). done.
    - destruct (adminBootstrapManaged (rec_Data rc)) eqn:Em; [rewrite decide_True; [done|split; [done|]; apply Hids; eauto]|].
      rewrite decide_False; [done|]. intros [_ Hin]. apply Hids in Hin as (rc' & Hg & Hm & _). congruence.
    - rewrite decide_True in H1' by (apply Hdi; by eexists). destruct H1' as (rc & Hg & Hm). exists rc. rewrite decide_False; [done|].
      intros [_ Hin]. apply Hids in Hin as (? & _ & _ & ?). done.
    - rewrite decide_False in H1' by (intros Hx; apply Hdi in Hx as [? ?]; done). destruct (decide _); done. }
  split; [exact Hget|]. split; [apply reconcile_frame|]. intros subject rt Hs Hin Hrt. unfold Enforce, service_pdp, RawPolicyPDP_Enforce, RawPermissionAllowed, RawPermissionPolicyExists.
  pose proof (desired_complete catalog subject rt Hs Hin Hrt) as [p Hp]. fold desired in Hp. specialize (Hget (rawPolicyID [subject; ""; rt_Resource rt; rt_OperationID rt])). rewrite Hp in Hget.
  destruct (Get (app_Store a) rawPoliciesResource _) as [rc|]; [rewrite Hget|destruct Hget as (rc & -> & _)]; eauto.
Qed.

(** ** Histories *)

Lemma raw_not_proxy res id : res ∈ proxy_resources -> ~ raw_or_copy res id.
Proof.
  assert (Forall (fun r => r ∉ [policyIdentityUsers; policyIdentityRoles; deadLetterResource; rawPoliciesResource; groupingResource]) proxy_resources) as HF
    by (apply (bool_decide_unpack _); vm_compute; exact I).
  rewrite Forall_forall in HF. intros Hin. specialize (HF res Hin). unfold raw_or_copy, identity_copy, raw_record. set_solver.
Qed.

Lemma proxy_inv_frame s s' : frame raw_or_copy s s' -> filed s' -> proxy_inv s -> proxy_inv s'.
Proof.
  intros Hfr Hf [_ Hr Hu]. assert (forall res id, res ∈ proxy_resources -> Get s' res id = Get s res id) as He by (intros res id Hin; apply Hfr; by apply raw_not_proxy).
  assert (forall res, res ∈ dependent_resources -> res ∈ proxy_resources) as Hd by (unfold proxy_resources; set_solver).
  assert (forall res, res ∈ free_resources -> res ∈ proxy_resources) as Hfree by (unfold proxy_resources; set_solver).
  split; [exact Hf|..].
  - intros res keys target Hin id rc. pose proof (references_res _ _ _ Hin) as [H1' H2']. rewrite He by auto. intros Hg. unfold has. rewrite He by (by apply Hfree, targets_free).
    by apply (Hr _ _ _ Hin id).
  - intros id1 id2 rc1 rc2. rewrite !He by (apply Hd; unfold dependent_resources; set_solver). apply Hu.
Qed.

Lemma serve_inv route a r : proxy_inv (app_Store a) -> proxy_inv (app_Store (serve cfg route a r).1).
Proof.
  intros Hi. pose proof (pi_filed _ Hi) as Hf. destruct (raw_route route) eqn:Er.
  - destruct (raw_serve_touches route a r Er) as [F G]. by eapply proxy_inv_frame; [|apply G|].
  - destruct (serve_effect route a r Er Hf) as (s1 & F & G & HS). eapply proxy_steps_inv; [exact HS|]. eapply proxy_inv_frame; [|exact G|exact Hi].
    eapply frame_weaken; [|exact F]. by left.
Qed.

(** A request, an event another service published, or the start of a process. *)
Inductive policy_action :=
| Call (route : policy_route) (r : policy_request)
| Published (e : event)
| Started (catalog : list route) (now : Z).

Definition act (a : app) (x : policy_action) : app :=
  match x with
  | Call route r => (serve cfg route a r).1
  | Published e => default a (publish_event a e)
  | Started catalog now => reconcileAdminBootstrapPolicies cfg a catalog now
  end.
Definition fresh_app : app := App_ NewStore NewEventBus.

Lemma act_inv a x : proxy_inv (app_Store a) -> proxy_inv (app_Store (act a x)).
Proof.
  destruct x as [route r|e|catalog now]; cbn [act]; [apply serve_inv|by rewrite publish_default_store|]. intros Hi.
  destruct (reconcile_frame a catalog now) as [F G]. eapply proxy_inv_frame; [|apply G, Hi|exact Hi]. eapply frame_weaken; [|exact F]. intros res id ->. right. by left.
Qed.

Lemma fresh_inv : proxy_inv NewStore.
Proof. assert (forall res id, Get NewStore res id = None) as He by (intros; reflexivity).
  split; [intros res id rc; by rewrite He|intros res keys target _ id rc; by rewrite He|intros id1 id2 rc1 rc2; by rewrite He]. Qed.

(** C10: After any history of requests, published events and restarts, the records of the
    proxied services are sound: every rule and every assignment belongs to a policy that
    exists, every membership to a role that exists, and no policy is assigned twice to the
    same target. *)
Theorem proxy_access_sound history :
  let s := app_Store (foldl act fresh_app history) in
  (forall id rc, Get s rulesResource id = Some rc -> is_Some (Get s policiesResource (TextValue (rec_Data rc) policyKeys))) /\
  (forall id rc, Get s assignmentsResource id = Some rc -> is_Some (Get s policiesResource (TextValue (rec_Data rc) policyKeys))) /\
  (forall id rc, Get s roleUsersResource id = Some rc -> is_Some (Get s platformRolesResource (TextValue (rec_Data rc) roleKeys))) /\
  (forall id1 id2 rc1 rc2, Get s assignmentsResource id1 = Some rc1 -> Get s assignmentsResource id2 = Some rc2 ->
     assignment_parts (rec_Data rc1) = assignment_parts (rec_Data rc2) -> id1 = id2).
Proof.
  intros s. assert (proxy_inv s) as [_ Hr Hu].
  { subst s. induction history as [|x history IH] using rev_ind; [apply fresh_inv|]. rewrite foldl_snoc. by apply act_inv. }
  split; [|split; [|split; [|exact Hu]]]; apply (Hr _ _ _); unfold references; set_solver.
Qed.

(** ** Decisions refine a set of policies *)

(** The change a request asks for. *)
Definition asks (route : policy_route) (r : policy_request) : option raw_op :=
  match route with
  | AddRaw => match decodeRawPolicy r with Ok p => Some (OpAdd p) | Err _ => None end
  | UpdateRaw => match decodeRawPolicyUpdate r with Ok (old, new) => Some (OpUpdate old new) | Err _ => None end
  | RemoveRaw => match decodeRawPolicy r with Ok p => Some (OpRemove p) | Err _ => None end
  | _ => None
  end.

Definition op_parts (op : raw_op) : list string := match op with OpAdd p => p | OpUpdate old new => old ++ new | OpRemove p => p end.
Definition request_ok (x : policy_route * policy_request) : Prop :=
  uuids_drawn x.2 /\ match asks x.1 x.2 with Some op => Forall sep_free (op_parts op) | None => True end.

(** The requests one after the other, with their statuses. *)
Fixpoint serve_all (a : app) (reqs : list (policy_route * policy_request)) : app * list Z :=
  match reqs with
  | [] => (a, [])
  | (route, r) :: rest =>
      let '(a1, resp) := serve cfg route a r in
      let '(a2, statuses) := serve_all a1 rest in (a2, resp.1 :: statuses)
  end.

(** What they ask, each with the status its caller is refused with. *)
Fixpoint asked (a : app) (reqs : list (policy_route * policy_request)) : list (option Z * option raw_op) :=
  match reqs with
  | [] => []
  | (route, r) :: rest => (refused_status cfg a r, asks route r) :: asked (serve cfg route a r).1 rest
  end.

(** The abstract run over sets of policies. *)
Fixpoint spec_all (P : policy_set) (ops : list (option Z * option raw_op)) : policy_set * list (option Z) :=
  match ops with
  | [] => (P, [])
  | (refused, None) :: rest => let '(P', out) := spec_all P rest in (P', None :: out)
  | (refused, Some op) :: rest =>
      let '(P1, status) := raw_spec refused op P in
      let '(P', out) := spec_all P1 rest in (P', Some status :: out)
  end.

Lemma serve_policies_other route a r P : asks route r = None -> filed (app_Store a) -> policies (app_Store a) P -> policies (app_Store (serve cfg route a r).1) P.
Proof.
  intros Hn Hf HP. destruct (raw_route route) eqn:Er.
  - destruct route; try done; cbn [serve asks] in *.
    + unfold listRawPermissionPolicies. rewrite as_admin_refused. pose proof (requireAdmin_policies cfg a r P HP) as HR. destruct (requireAdmin cfg a r) as [a1 [resp|]]; exact HR.
    + unfold addRawPermissionPolicy, handle. destruct (decodeRawPolicy r); [done|exact HP].
    + unfold updateRawPermissionPolicy, handle. destruct (decodeRawPolicyUpdate r) as [[old new]|]; [done|exact HP].
    + unfold removeRawPermissionPolicy, handle. destruct (decodeRawPolicy r); [done|exact HP].
    + unfold batchProcessPermissions, handle. destruct (bad_request _) as [ops|]; [|exact HP]. cbn [res_bind]. rewrite as_admin_refused.
      pose proof (requireAdmin_policies cfg a r P HP) as HR. destruct (requireAdmin cfg a r) as [a1 [resp|]]; [exact HR|]. cbn [fst snd] in *.
      destruct (process_operations_frame a1 r 0 ops) as [F _]. apply (policies_frame _ _ _ P F); [|exact HR]. intros id E. vm_compute in E. discriminate E.
    + assert (app_Store (enforcePermission cfg a r).1 = app_Store a) as ->; [|exact HP]. unfold enforcePermission, handle. destruct (require _ _ _); [|done]. cbn [res_bind].
      destruct (decodePayload r) as [[payload present]|]; [|done]. destruct (permissionTuple payload) as [[[sub dom] obj] act0]. destruct (require _ _ _); [|done]. cbn [res_bind].
      by destruct (RawPolicyPDP_Enforce _ _ _ _ _).
    + unfold simulatePermissionEnforce, handle. destruct (decodePayload r) as [[payload present]|]; [|exact HP].
      destruct (permissionTuple payload) as [[[sub dom] obj] act0]. destruct (require _ _ _); [|exact HP]. cbn [res_bind]. rewrite as_admin_refused.
      pose proof (requireAdmin_policies cfg a r P HP) as HR. destruct (requireAdmin cfg a r) as [a1 [resp|]]; exact HR.
  - destruct (serve_effect route a r Er Hf) as (s1 & F & _ & HS). apply proxy_steps_frame in HS. apply (policies_frame _ _ _ P HS).
    + intros id Hin. apply (raw_not_proxy rawPoliciesResource id Hin). right. by left.
    + apply (policies_frame _ _ _ P F); [apply identity_copy_not_raw|exact HP].
Qed.

Lemma serve_policies route a r P op : asks route r = Some op -> uuids_drawn r -> Forall sep_free (op_parts op) -> policies (app_Store a) P ->
  policies (app_Store (serve cfg route a r).1) (raw_spec (refused_status cfg a r) op P).1 /\ (serve cfg route a r).2.1 = (raw_spec (refused_status cfg a r) op P).2.
Proof.
  intros Ha Hu Hs HP. destruct route; try done; cbn [serve asks] in *.
  - destruct (decodeRawPolicy r) eqn:Ed; [|done]. injection Ha as <-. by apply add_refines.
  - destruct (decodeRawPolicyUpdate r) as [[old new]|] eqn:Ed; [|done]. injection Ha as <-. apply Forall_app in Hs as [Ho Hn]. by apply update_refines.
  - destruct (decodeRawPolicy r) eqn:Ed; [|done]. injection Ha as <-. by apply remove_refines.
Qed.

Lemma serve_filed route a r : filed (app_Store a) -> filed (app_Store (serve cfg route a r).1).
Proof.
  intros Hf. destruct (raw_route route) eqn:Er; [by apply raw_serve_touches|]. destruct (serve_effect route a r Er Hf) as (s1 & _ & G & HS). by eapply proxy_steps_filed.
Qed.

Lemma policies_decide s P sub dom obj act0 : policies s P -> Forall sep_free [sub; dom; obj; act0] ->
  exists d, Enforce (service_pdp s) sub dom obj act0 = Some d /\ (dec_Allowed d = true <-> [sub; dom; obj; act0] ∈ P).
Proof.
  intros HP Hs. unfold Enforce, service_pdp, RawPolicyPDP_Enforce, RawPermissionAllowed. rewrite (policies_mem s P HP) by done.
  case_bool_decide; eexists; (split; [reflexivity|]); done.
Qed.

Lemma serve_all_refines a P reqs : filed (app_Store a) -> policies (app_Store a) P -> Forall request_ok reqs ->
  policies (app_Store (serve_all a reqs).1) (spec_all P (asked a reqs)).1 /\
  Forall2 (fun status o => match o with Some st => status = st | None => True end) (serve_all a reqs).2 (spec_all P (asked a reqs)).2.
Proof.
  intros Hf HP HR. revert a P Hf HP. induction HR as [|[route r] reqs [Hu Hs] _ IH]; intros a P Hf HP; cbn [serve_all asked spec_all]; [by split|].
  cbn [fst snd] in Hu, Hs. pose proof (serve_filed route a r Hf) as Hf1.
  pose proof (serve_policies_other route a r P) as Hother. pose proof (serve_policies route a r P) as Hsome.
  destruct (serve cfg route a r) as [a1 resp]. cbn [fst snd] in *. destruct (asks route r) as [op|].
  - destruct (Hsome op eq_refl Hu Hs HP) as [HP1 Hst]. clear Hsome Hother. destruct (raw_spec (refused_status cfg a r) op P) as [P1 status]. cbn [fst snd] in *.
    destruct (IH a1 P1 Hf1 HP1) as [HP2 HF]. destruct (serve_all a1 reqs) as [a2 statuses], (spec_all P1 _) as [P2 out]. cbn [fst snd] in *. split; [done|]. by constructor.
  - specialize (Hother eq_refl Hf HP). clear Hsome. destruct (IH a1 P Hf1 Hother) as [HP2 HF].
    destruct (serve_all a1 reqs) as [a2 statuses], (spec_all P _) as [P2 out]. cbn [fst snd] in *. split; [done|]. by constructor.
Qed.

(** C6: The permission policies refine a plain set of tuples.  Over any sequence of requests
    to the service, adding, updating and removing answer exactly what the set says (400 for
    a tuple too short, 404 for an unknown policy, 409 for one that exists, 401 and 403 for
    callers who are no administrators) and change the set only then; every other endpoint
    leaves it alone; and the decision point allows exactly the tuples of the set.  The
    parts of the policies must not contain the separator of the identifiers. *)
Theorem decisions_refine_policies a P reqs : filed (app_Store a) -> policies (app_Store a) P -> Forall request_ok reqs ->
  let P' := (spec_all P (asked a reqs)).1 in
  Forall2 (fun status o => match o with Some st => status = st | None => True end) (serve_all a reqs).2 (spec_all P (asked a reqs)).2 /\
  (forall sub dom obj act0, Forall sep_free [sub; dom; obj; act0] ->
     exists d, Enforce (service_pdp (app_Store (serve_all a reqs).1)) sub dom obj act0 = Some d /\ (dec_Allowed d = true <-> [sub; dom; obj; act0] ∈ P')).
Proof.
  intros Hf HP HR P'. destruct (serve_all_refines a P reqs Hf HP HR) as [HP' HF]. split; [exact HF|]. intros sub dom obj act0 Hs. by apply policies_decide.
Qed.

(** The tuple the guards put to the decision point. *)
Definition guarded_tuple (r : request) (rt : route) : list string :=
  [FirstNonEmpty [Header_Get r headerUserID; "anonymous"]; default "" (rq_Query r !! "project_id"); rt_Resource rt; rt_OperationID rt].

(** C7: The guards of the platform and the policy service together: when the decision
    point is the service's, a request to a route that asks for a policy reaches its handler
    only if the tuple of its verified user, its project, the resource and the operation is
    in the set that the administrators' requests up to then leave; a removed policy no
    longer lets anyone through. *)
Theorem guards_follow_policies a P reqs now st r rt st' r' :
  filed (app_Store a) -> policies (app_Store a) P -> Forall request_ok reqs ->
  cf_RequireAuth cfg = true -> rt_AuthRequired rt = true -> rt_PolicyBypass rt = false -> Forall sep_free (guarded_tuple r' rt) ->
  writeMiddlewareDenial cfg (service_pdp (app_Store (serve_all a reqs).1)) now st r rt = (st', r', None) ->
  guarded_tuple r' rt ∈ (spec_all P (asked a reqs)).1.
Proof.
  intros Hf HP HR Hc Hrt Hb Hs Hg. destruct (serve_all_refines a P reqs Hf HP HR) as [HP' _].
  apply guards_admit in Hg as [_ _ _ _ Hpol]. destruct (policyAllowed_spec _ _ _ (Hpol Hc Hrt)) as [_ Hdec]. destruct (Hdec Hb) as (d & Hd & Hal).
  destruct (policies_decide _ _ _ _ _ _ HP' Hs) as (d' & Hd' & Hiff). rewrite Hd in Hd'. injection Hd' as <-. by apply Hiff.
Qed.

End Decisions.

(** ** A history *)

Definition policy_golib : GoLib := {|
  parse_quantity := @parse_quantity auth_lib; parse_float := @parse_float auth_lib; parse_int64 := @parse_int64 auth_lib; parse_rfc3339 := @parse_rfc3339 auth_lib;
  format_rfc3339 := @format_rfc3339 auth_lib; time_string := @time_string auth_lib;
  unmarshal_object raw := if String.eqb raw "ghost" then Some ({[ "target_type" := VString "role"; "target_id" := VString "ghost" ]} : object)
                          else if String.eqb raw "rename" then Some ({[ "name" := VString "renamed" ]} : object) else None;
  unmarshal_objects := @unmarshal_objects auth_lib;
  unmarshal_strings raw := if String.eqb raw "jobs" then Some ["u1"; ""; "workload-service:jobs"; "list_jobs"]
                           else if String.eqb raw "five" then Some ["u1"; "P1"; "extra"; "workload-service:jobs"; "list_jobs"] else None;
  marshal := @marshal auth_lib; sprint := @sprint auth_lib; sprintf := @sprintf auth_lib; sha256_hex := @sha256_hex auth_lib |}.
Definition policy_lib : PolicyLib := {| unmarshal_policy_update _ := None |}.

Definition seed_row (s : store) (x : string * object) : store := (Create s x.1 x.2 "n" 1).1.
Definition policy_app : app := App_ (foldl seed_row NewStore
  [ (policyIdentityUsers, {[ "id" := VString "root"; "role_id" := VString "admins" ]});
    (policyIdentityRoles, {[ "id" := VString "admins"; "admin_panel" := VBool true ]}) ]) NewEventBus.
Definition policy_request_of (user raw : string) (path : gmap string string) : policy_request :=
  PolicyRequest (ServiceRequest (Request "POST" {[ "X-User-ID" := user ]} ∅ ∅ "" 0 None None None) (Err (OtherError "unused")) path 7 (fun _ => "e") (fun _ => "n")) (Ok raw).

Definition demo_serve : policy_route -> app -> policy_request -> app * response := @serve policy_golib policy_lib nat jwt_config.

(** The administrator adds a policy; someone else cannot. *)
Definition grant : policy_request := policy_request_of "root" "jobs" ∅.
Definition intruder : policy_request := policy_request_of "mallory" "jobs" ∅.
Definition demo_requests : list (policy_route * policy_request) := [(AddRaw, grant); (RemoveRaw, intruder); (AddRaw, grant)].
Definition jobs_tuple : list string := ["u1"; ""; "workload-service:jobs"; "list_jobs"].

Lemma drawn_demo user raw path : uuids_drawn (policy_request_of user raw path).
Proof. intros n. discriminate. Qed.

Lemma demo_requests_ok : Forall (@request_ok policy_golib policy_lib) demo_requests.
Proof. repeat constructor; try apply drawn_demo; vm_compute; repeat constructor; set_solver. Qed.

Lemma filed_policy_app : filed (app_Store policy_app).
Proof. unfold policy_app. cbn [app_Store foldl]. unfold seed_row. do 2 apply filed_Create. intros res id rc. discriminate. Qed.

Lemma policies_policy_app : policies (app_Store policy_app) ∅.
Proof.
  split; [set_solver|]. intros id. assert (Get (app_Store policy_app) rawPoliciesResource id = None) as ->.
  { assert (bucket (app_Store policy_app) rawPoliciesResource = ∅) as He by (vm_compute; reflexivity). unfold Get. by rewrite He. }
  split; [by intros []|]. by intros (p & ? & _).
Qed.

Example demo_statuses : (@serve_all policy_golib policy_lib nat jwt_config policy_app demo_requests).2 = [200; 403; 409].
Proof. vm_compute. reflexivity. Qed.

Lemma policy_changes_by_administrators_witness :
  @caller_is_administrator policy_golib nat jwt_config policy_app grant.
Proof.
  apply (@policy_changes_by_administrators policy_golib policy_lib nat jwt_config AddRaw policy_app grant rawPoliciesResource (rawPolicyID jobs_tuple)).
  - vm_compute. discriminate.
  - apply identity_copy_not_raw.
Defined.

Lemma decisions_refine_policies_witness :
  exists d, Enforce (service_pdp (app_Store (@serve_all policy_golib policy_lib nat jwt_config policy_app demo_requests).1)) "u1" "" "workload-service:jobs" "list_jobs" = Some d /\ dec_Allowed d = true.
Proof.
  destruct (@decisions_refine_policies policy_golib policy_lib nat jwt_config policy_app ∅ demo_requests filed_policy_app policies_policy_app demo_requests_ok) as [_ Hd].
  destruct (Hd "u1" "" "workload-service:jobs" "list_jobs") as (d & He & Hiff); [apply (bool_decide_unpack _); vm_compute; exact I|].
  exists d. split; [exact He|]. apply Hiff. apply (bool_decide_unpack _). vm_compute. exact I.
Defined.

(** The user of the token calls the route after the grant. *)
Definition granted_store : store := app_Store (@serve_all policy_golib policy_lib nat jwt_config policy_app demo_requests).1.
Definition granted_run : guard_state * request * option denial :=
  @writeMiddlewareDenial policy_golib crypto_lib nat net_lib jwt_config (service_pdp granted_store) (50 * time_Second) guard_start jwt_request authenticated_route.

Example granted_run_passes : granted_run.2 = None.
Proof. vm_compute. reflexivity. Qed.

Lemma guards_follow_policies_witness :
  guarded_tuple granted_run.1.2 authenticated_route ∈ (spec_all ∅ (@asked policy_golib policy_lib nat jwt_config policy_app demo_requests)).1.
Proof.
  apply (@guards_follow_policies policy_golib crypto_lib policy_lib nat net_lib jwt_config policy_app ∅ demo_requests (50 * time_Second) guard_start jwt_request
           authenticated_route granted_run.1.1 granted_run.1.2 filed_policy_app policies_policy_app demo_requests_ok).
  - vm_compute. reflexivity.
  - reflexivity.
  - reflexivity.
  - apply (bool_decide_unpack _). vm_compute. exact I.
  - vm_compute. reflexivity.
Defined.

(** A process with one static administrator starts. *)
Definition admin_env_lib : EnvLib nat := {|
  ParseBool := @ParseBool nat demo_env_lib; Atoi := @Atoi nat demo_env_lib; ParseDuration := @ParseDuration nat demo_env_lib;
  unmarshal_string_map := @unmarshal_string_map nat demo_env_lib;
  unmarshal_principals _ := Some {[ "k1" := Principal "ops" "" "" "" "" true [] ]};
  unmarshal_identities := @unmarshal_identities nat demo_env_lib; unmarshal_adapters := @unmarshal_adapters nat demo_env_lib;
  ParseCIDR := @ParseCIDR nat demo_env_lib; ParseHost := @ParseHost nat demo_env_lib; url_parts := @url_parts nat demo_env_lib |}.
Definition admin_config : config nat := @ConfigFromEnv nat admin_env_lib production_environ.

Lemma bootstrap_exact_witness :
  exists d, Enforce (service_pdp (app_Store (reconcileAdminBootstrapPolicies admin_config policy_app [authenticated_route] 9))) "ops" "" "workload-service:jobs" "list_jobs" = Some d /\ dec_Allowed d = true.
Proof.
  destruct (bootstrap_exact admin_config policy_app [authenticated_route] 9) as (_ & _ & Hall); [vm_compute; reflexivity|exact filed_policy_app|].
  apply (Hall "ops" authenticated_route); [apply (bool_decide_unpack _); vm_compute; exact I|apply list_elem_of_here|vm_compute; reflexivity].
Defined.

(** ** Behaviours to know of *)

(** A policy can be assigned to a role that does not exist. *)
Definition ghost_assigned : app * response := demo_serve Assign policy_app (policy_request_of "root" "ghost" {[ "id" := "PO2600001" ]}).
Example assignment_to_unknown_role :
  ghost_assigned.2.1 = 201 /\ (demo_serve GetRole ghost_assigned.1 (policy_request_of "root" "" {[ "id" := "ghost" ]})).2.1 = 404.
Proof. vm_compute. split; reflexivity. Qed.

(** A patch that only renames a policy clears its description. *)
Example rename_clears_description :
  match (demo_serve UpdatePolicy policy_app (policy_request_of "root" "rename" {[ "id" := "PO2600001" ]})).2 with
  | (status, BMap row) => (status, TextValue row ["name"], TextValue row ["description"])
  | (status, _) => (status, "", "")
  end = (200, "renamed", "").
Proof. vm_compute. reflexivity. Qed.

(** A project identifier that contains the separator turns a policy of five parts into a
    permission for another tuple. *)
Example separator_grants_other_tuple :
  RawPermissionAllowed (app_Store (demo_serve AddRaw policy_app (policy_request_of "root" "five" ∅)).1)
    "u1" ("P1" +:+ sep +:+ "extra") "workload-service:jobs" "list_jobs" = true.
Proof. vm_compute. reflexivity. Qed.
