(* ===== verification/ClusterPolicy.v ===== *)
(** * Cluster facade: namespaces of projects, usage of pods, policy data
    (internal/platform/cluster: cluster.go, namespace.go, resource_usage.go,
    policy_configmap.go)

    The cluster is what the API server holds: the names of the namespaces, the pods and one
    ConfigMap of policy data per namespace.  A call can fail; [fault] says which calls do
    and how.  The facade of the code turns the answers into the values its callers read. *)

From stdpp Require Import base gmap strings list fin_maps.
From Stdlib Require Import ZArith Lia.
From S2P Require Import Prelude GoValue RateLimit.
Local Open Scope Z_scope.
Local Open Scope go_scope.

Definition LabelJobID : string := "platform-go/job-id".
Definition LabelProjectID : string := "platform-go/project-id".
Definition LabelUserID : string := "platform-go/user-id".
Definition LabelDRAEffectiveGPU : string := "platform-go/dra-effective-gpu".
Definition LabelDRAGPUCount : string := "platform-go/dra-gpu-count".
Definition gpuResourceName : string := "nvidia.com/gpu".
Definition PolicyDataConfigMapName : string := "platform-policy-data".

(** ** Objects of the API server *)

Record kube_condition := KubeCondition { kc_Type : string; kc_Status : string; kc_LastTransitionTime : Z }.
(** A terminated state has the times of its start and of its end. *)
Record container_status := ContainerStatus { cs_Running : option Z; cs_Terminated : option (Z * Z) }.
Record kube_pod := KubePod {
  kp_Name : string; kp_Namespace : string; kp_UID : string; kp_Labels : gmap string string;
  kp_Phase : string; kp_Conditions : list kube_condition; kp_StartTime : option Z;
  kp_CreationTimestamp : Z; kp_DeletionTimestamp : option Z;
  kp_Requests : list (gmap string quantity);       (* of each container *)
  kp_ContainerStatuses : list container_status
}.
Record configmap := ConfigMap { cm_Labels : gmap string string; cm_Data : gmap string string }.

Inductive kube_error := AlreadyExists | OtherFault (text : string).
Inductive kube_call := ListNamespaces | ListPods | GetConfigMap (namespace : string) | CreateConfigMap (namespace : string) | UpdateConfigMap (namespace : string).

(** [kb_prefix] is the configured prefix of project namespaces; [kb_maps] the policy
    data by namespace. *)
Record kube := Kube { kb_prefix : string; kb_names : list string; kb_pods : list kube_pod; kb_maps : gmap string configmap }.

(** ** Namespaces *)

Definition projectNamespacePrefix (k : kube) (projectID : string) : string := ToLower (kb_prefix k +:+ "-" +:+ projectID +:+ "-").

Section Kube.
Context `{GoLib} (fault : kube_call -> option kube_error).

Definition fault_text (e : kube_error) : string := match e with AlreadyExists => "already exists" | OtherFault text => text end.

Definition ListProjectNamespaces (k : kube) (projectID : string) : result string (list string) :=
  match fault ListNamespaces with
  | Some e => Err ("list namespaces: " +:+ fault_text e)
  | None => Ok (List.filter (fun name => HasPrefix name (projectNamespacePrefix k projectID)) (kb_names k))
  end.

(** ** Policy data *)

Definition policyDataConfigMapLabels : gmap string string :=
  {[ "app.kubernetes.io/managed-by" := "platform-backend"; "app.kubernetes.io/part-of" := "platform"; "app.kubernetes.io/component" := "policy-data" ]}.
Definition mergeStringMaps (base overlay : gmap string string) : gmap string string := overlay ∪ base.

Definition put_map (k : kube) (namespace : string) (cm : configmap) : kube :=
  Kube (kb_prefix k) (kb_names k) (kb_pods k) (<[namespace := cm]> (kb_maps k)).

(** The new cluster and the error. *)
Definition EnsurePolicyDataConfigMap (k : kube) (namespace : string) (data : gmap string string) : kube * option string :=
  let namespace := TrimSpace namespace in
  if str_empty namespace then (k, Some "policy data configmap requires namespace")
  else match fault (GetConfigMap namespace) with
       | Some e => (k, Some ("get policy data configmap: " +:+ fault_text e))
       | None =>
           match kb_maps k !! namespace with
           | None =>
               match fault (CreateConfigMap namespace) with
               | Some AlreadyExists => (k, None)
               | Some (OtherFault text) => (k, Some ("create policy data configmap: " +:+ text))
               | None => (put_map k namespace (ConfigMap policyDataConfigMapLabels data), None)
               end
           | Some existing =>
               match fault (UpdateConfigMap namespace) with
               | Some e => (k, Some ("update policy data configmap: " +:+ fault_text e))
               | None => (put_map k namespace (ConfigMap (mergeStringMaps (cm_Labels existing) policyDataConfigMapLabels) data), None)
               end
           end
       end.

(** ** Usage of pods *)

Record PodResourceUsage := PodUsage {
  pu_JobID : string; pu_ProjectID : string; pu_UserID : string; pu_Namespace : string; pu_Name : string; pu_UID : string;
  pu_RequestedGPU : float64; pu_RequestedCPU : float64; pu_RequestedMemoryMB : float64;
  pu_ScheduledAt : Z; pu_RunningAt : option Z; pu_TerminatedAt : option Z; pu_LastSeenAt : Z; pu_Phase : string; pu_IsActive : bool
}.

Definition label (pod : kube_pod) (key : string) : string := default "" (kp_Labels pod !! key).

Definition isTerminalPhase (phase : string) : bool := String.eqb phase "Succeeded" || String.eqb phase "Failed".
Definition podActive (pod : kube_pod) : bool :=
  match kp_DeletionTimestamp pod with Some _ => false | None => negb (isTerminalPhase (kp_Phase pod)) end.

Definition conditionReady (c : kube_condition) : bool :=
  (String.eqb (kc_Type c) "ContainersReady" || String.eqb (kc_Type c) "Ready") && String.eqb (kc_Status c) "True"
  && negb (kc_LastTransitionTime c =? zero_time).

Definition nonzero (t : Z) : option Z := if t =? zero_time then None else Some t.

Definition containerStartedAt (status : container_status) : option Z :=
  match cs_Running status ≫= nonzero with
  | Some t => Some t
  | None => cs_Terminated status ≫= fun t => nonzero t.1
  end.

(** The least and the greatest of the times, the first of equal ones. *)
Definition earlier (best : option Z) (t : Z) : option Z := match best with Some b => if t <? b then Some t else best | None => Some t end.
Definition later (best : option Z) (t : Z) : option Z := match best with Some b => if b <? t then Some t else best | None => Some t end.

Definition earliestContainerStart (statuses : list container_status) : option Z := foldl earlier None (omap containerStartedAt statuses).

Definition runningStartedAtFromPod (pod : kube_pod) : option Z :=
  match earliestContainerStart (kp_ContainerStatuses pod) with
  | Some t => Some t
  | None => kc_LastTransitionTime <$> List.find conditionReady (kp_Conditions pod)
  end.

Definition terminatedAtFromPod (pod : kube_pod) : option Z :=
  foldl later None (omap (fun status => cs_Terminated status ≫= fun t => nonzero t.2) (kp_ContainerStatuses pod)).

Definition scheduled (c : kube_condition) : bool :=
  String.eqb (kc_Type c) "PodScheduled" && String.eqb (kc_Status c) "True" && negb (kc_LastTransitionTime c =? zero_time).

Definition scheduledAtFromPod (pod : kube_pod) (now : Z) : Z :=
  match List.find scheduled (kp_Conditions pod) with
  | Some c => kc_LastTransitionTime c
  | None =>
      match runningStartedAtFromPod pod with
      | Some t => t
      | None => match kp_StartTime pod with
                | Some t => t
                | None => default now (nonzero (kp_CreationTimestamp pod))
                end
      end
  end.

(** [value > 0] *)
Definition f64_positive (f : float64) : bool := SpecFloat.SFltb f64_0 f.

Fixpoint label_gpu (pod : kube_pod) (labels : list string) : option float64 :=
  match labels with
  | [] => None
  | l :: rest =>
      match parse_float (label pod l) with
      | Some value => if f64_positive value then Some value else label_gpu pod rest
      | None => label_gpu pod rest
      end
  end.

Definition podRequestedGPU (pod : kube_pod) : float64 :=
  match label_gpu pod [LabelDRAEffectiveGPU; LabelDRAGPUCount] with
  | Some value => value
  | None => foldl (fun gpu requests => match requests !! gpuResourceName with
                                       | Some q => f64_add gpu (q_AsApproximateFloat64 q)
                                       | None => gpu end) f64_0 (kp_Requests pod)
  end.

(** A missing quantity is the zero quantity. *)
Definition zero_quantity : quantity := Quantity 0 f64_0.
Definition request_of (requests : gmap string quantity) (name : string) : quantity := default zero_quantity (requests !! name).

Definition podRequestedResources (pod : kube_pod) : float64 * float64 * float64 :=
  (podRequestedGPU pod,
   foldl (fun cpu requests => f64_add cpu (q_AsApproximateFloat64 (request_of requests "cpu"))) f64_0 (kp_Requests pod),
   foldl (fun mem requests => f64_add mem (f64_div (f64_of_int (q_Value (request_of requests "memory"))) (f64_of_int (1024 * 1024)))) f64_0 (kp_Requests pod)).

Definition podResourceUsage (pod : kube_pod) (now : Z) : option PodResourceUsage :=
  if str_empty (label pod LabelJobID) then None
  else
    let '(gpu, cpu, memMB) := podRequestedResources pod in
    let active := podActive pod in
    let terminated := terminatedAtFromPod pod in
    Some (PodUsage (label pod LabelJobID) (label pod LabelProjectID) (label pod LabelUserID) (kp_Namespace pod) (kp_Name pod) (kp_UID pod)
            gpu cpu memMB (scheduledAtFromPod pod now) (runningStartedAtFromPod pod)
            (match terminated with Some t => Some t | None => if active then None else Some now end) now (kp_Phase pod) active).

(** The API server selects the pods that have the label; the callers pass the current time,
    never the zero one the code replaces. *)
Definition ListJobPodResourceUsage (k : kube) (now : Z) : result string (list PodResourceUsage) :=
  match fault ListPods with
  | Some e => Err ("list job pods: " +:+ fault_text e)
  | None => Ok (omap (fun pod => podResourceUsage pod now) (List.filter (fun pod => match kp_Labels pod !! LabelJobID with Some _ => true | None => false end) (kb_pods k)))
  end.

End Kube.

(** ** What the facade guarantees *)

Lemma ensure_names `{GoLib} fault k ns data : kb_names (EnsurePolicyDataConfigMap fault k ns data).1 = kb_names k
  /\ kb_prefix (EnsurePolicyDataConfigMap fault k ns data).1 = kb_prefix k /\ kb_pods (EnsurePolicyDataConfigMap fault k ns data).1 = kb_pods k.
Proof.
  unfold EnsurePolicyDataConfigMap. cbn zeta. destruct (str_empty _); [done|]. destruct (fault (GetConfigMap _)); [done|].
  destruct (kb_maps k !! _); destruct (fault _) as [[]|]; done.
Qed.

(** Only the map of the namespace changes. *)
Lemma ensure_frame `{GoLib} fault k ns data other : other ≠ TrimSpace ns ->
  kb_maps (EnsurePolicyDataConfigMap fault k ns data).1 !! other = kb_maps k !! other.
Proof.
  intros Ho. unfold EnsurePolicyDataConfigMap. cbn zeta. destruct (str_empty _); [done|]. destruct (fault (GetConfigMap _)); [done|].
  destruct (kb_maps k !! TrimSpace ns); destruct (fault _) as [[]|]; try done; cbn; by rewrite lookup_insert_ne.
Qed.

(** Calls that go through leave exactly the data, whatever was there. *)
Definition reachable (fault : kube_call -> option kube_error) (ns : string) : Prop :=
  fault (GetConfigMap ns) = None /\ fault (CreateConfigMap ns) = None /\ fault (UpdateConfigMap ns) = None.

Lemma ensure_writes `{GoLib} fault k ns data : Trimmed ns -> ns ≠ "" -> reachable fault ns ->
  (EnsurePolicyDataConfigMap fault k ns data).2 = None /\
  cm_Data <$> kb_maps (EnsurePolicyDataConfigMap fault k ns data).1 !! ns = Some data.
Proof.
  intros Ht Hn (Hg & Hc & Hu). unfold EnsurePolicyDataConfigMap. cbn zeta. rewrite (TrimSpace_fix _ Ht). unfold str_empty.
  rewrite (proj2 (String.eqb_neq _ _) Hn), Hg. destruct (kb_maps k !! ns); rewrite ?Hc, ?Hu; cbn; by rewrite lookup_insert_eq.
Qed.

(** The chosen times are among the observed ones and bound them. *)
Lemma foldl_earlier_spec l best t : foldl earlier best l = Some t ->
  (best = Some t \/ t ∈ l) /\ (forall b, best = Some b -> t <= b) /\ forall u, u ∈ l -> t <= u.
Proof.
  revert best. induction l as [|x l IH]; intros best; cbn [foldl]; intros Hf.
  - subst best. split; [by left|]. split; [intros b [= ->]; lia|intros u Hu; by apply not_elem_of_nil in Hu].
  - apply IH in Hf as (Hin & Hb & Hl). unfold earlier in *. destruct best as [b|].
    + destruct (x <? b) eqn:E; [apply Z.ltb_lt in E|apply Z.ltb_ge in E];
        (split; [set_solver|]); (split; [intros b' [= <-]; specialize (Hb _ eq_refl); lia|]);
        intros u Hu; apply elem_of_cons in Hu as [->|Hu]; specialize (Hb _ eq_refl); try lia; by apply Hl.
    + split; [set_solver|]. split; [done|]. intros u Hu. apply elem_of_cons in Hu as [->|Hu]; [by apply Hb|by apply Hl].
Qed.

Lemma foldl_later_spec l best t : foldl later best l = Some t ->
  (best = Some t \/ t ∈ l) /\ (forall b, best = Some b -> b <= t) /\ forall u, u ∈ l -> u <= t.
Proof.
  revert best. induction l as [|x l IH]; intros best; cbn [foldl]; intros Hf.
  - subst best. split; [by left|]. split; [intros b [= ->]; lia|intros u Hu; by apply not_elem_of_nil in Hu].
  - apply IH in Hf as (Hin & Hb & Hl). unfold later in *. destruct best as [b|].
    + destruct (b <? x) eqn:E; [apply Z.ltb_lt in E|apply Z.ltb_ge in E];
        (split; [set_solver|]); (split; [intros b' [= <-]; specialize (Hb _ eq_refl); lia|]);
        intros u Hu; apply elem_of_cons in Hu as [->|Hu]; specialize (Hb _ eq_refl); try lia; by apply Hl.
    + split; [set_solver|]. split; [done|]. intros u Hu. apply elem_of_cons in Hu as [->|Hu]; [by apply Hb|by apply Hl].
Qed.

(** The usage of a pod that is over has an end; the start and the end it reports are the
    earliest start and the latest end of its containers. *)
Lemma pod_usage_times `{GoLib} pod now u : podResourceUsage pod now = Some u ->
  (pu_IsActive u = false -> exists t, pu_TerminatedAt u = Some t) /\
  (forall status t, status ∈ kp_ContainerStatuses pod -> containerStartedAt status = Some t -> exists r, pu_RunningAt u = Some r /\ r <= t) /\
  (forall status f, status ∈ kp_ContainerStatuses pod -> cs_Terminated status ≫= (fun t => nonzero t.2) = Some f ->
     exists e, pu_TerminatedAt u = Some e /\ f <= e).
Proof.
  unfold podResourceUsage. destruct (str_empty _); [done|]. destruct (podRequestedResources pod) as [[gpu cpu] mem]. intros [= <-]. cbn.
  assert (forall (g : option Z -> Z -> option Z) (best : option Z) l, (forall b x, is_Some (g b x)) -> l ≠ [] -> is_Some (foldl g best l)) as Hs.
  { intros g best l Hg. revert best. induction l as [|x l IH]; [done|]. intros best _. cbn. destruct l; [apply Hg|by apply IH]. }
  assert (forall b x, is_Some (earlier b x) /\ is_Some (later b x)) as Hel.
  { intros [b|] x; cbn; [|eauto]. destruct (x <? b), (b <? x); eauto. }
  split; [|split].
  - destruct (terminatedAtFromPod pod); [eauto|]. intros ->. eauto.
  - intros status t Hin Ht. unfold runningStartedAtFromPod, earliestContainerStart.
    assert (t ∈ omap containerStartedAt (kp_ContainerStatuses pod)) as Ho by (apply list_elem_of_omap; eauto).
    destruct (foldl earlier None _) as [r|] eqn:Er.
    + exists r. split; [done|]. by apply foldl_earlier_spec in Er as (_ & _ & Hr); apply Hr.
    + exfalso. destruct (Hs earlier None (omap containerStartedAt (kp_ContainerStatuses pod))) as [r Hr]; [apply Hel| |congruence].
      intros He. rewrite He in Ho. by apply not_elem_of_nil in Ho.
  - intros status f Hin Hf. unfold terminatedAtFromPod.
    set (l := omap _ (kp_ContainerStatuses pod)). assert (f ∈ l) as Ho by (apply list_elem_of_omap; eauto).
    destruct (foldl later None l) as [e|] eqn:Ee.
    + exists e. split; [done|]. by apply foldl_later_spec in Ee as (_ & _ & He); apply He.
    + exfalso. destruct (Hs later None l) as [e He]; [apply Hel| |congruence]. intros Hn. rewrite Hn in Ho. by apply not_elem_of_nil in Ho.
Qed.
