(* ===== verification/PolicyData.v ===== *)
(** * Authorization-policy service: policy data of the cluster
    (internal/services/authorizationpolicy: policy_data_sync.go, projectionDrift of
    authorization_policy_projection_repository.go, identity_projection.go)

    A maintenance task copies projects, plans and image rules from the events of their
    owners and writes, for every namespace of every project, a ConfigMap the admission
    policies of the cluster read: whether the plan of the project is in force, its limits,
    and the images it may run.  Another task measures how far the copies drifted from
    their sources. *)

From stdpp Require Import base gmap strings list fin_maps.
From Stdlib Require Import ZArith Lia Ascii.
From S2P Require Import Prelude GoValue Store EventBus Crud Tx RateLimit InputLimits Config Auth AdmissionTypes AdmissionPlan SchedulerHttp ServiceHttp Tables ServiceProjection ClusterPolicy PolicyIdentity.
Local Open Scope Z_scope.
Local Open Scope go_scope.

Section Data.
Context `{GoLib}.

(** ** Readers *)

Definition firstPolicyValue (data : object) (keys : list string) : option any := firstPresent data keys.
Definition firstPolicyValueOrNil (data : object) (keys : list string) : any := default VNil (firstPolicyValue data keys).

(** strconv.ParseInt in base 10 is what json.Number.Int64 calls. *)
Definition policyInt64Value (value : any) (fallback : Z) : Z :=
  match value with
  | VInt z | VInt64 z | VInt32 z => z
  | VFloat64 f => f64_to_int f
  | VNumber s => default fallback (parse_int64 s)
  | VString s => default fallback (parse_int64 (TrimSpace s))
  | _ => fallback
  end.

(** json.Number.Float64 is strconv.ParseFloat. *)
Definition policy_number_of (v : any) : option float64 :=
  match v with
  | VFloat64 f | VFloat32 f => Some f
  | VInt z | VInt64 z => Some (f64_of_int z)
  | VNumber s => parse_float s
  | VString s => parse_float (TrimSpace s)
  | _ => None
  end.
Definition policyNumberValue (data : object) (keys : list string) : float64 := default f64_0 (first_key policy_number_of data keys).
Definition policyNonNegativeInt (data : object) (keys : list string) : Z := Z.max 0 (IntValue data keys).

Definition policyTimeValue (data : object) (keys : list string) : option Z := first_key time_of data keys.

(** ** Plan windows *)

Definition policyWeekWindows (data : object) : list object :=
  match firstPolicyValue data ["week_windows"; "weekWindows"; "WeekWindows"] with
  | Some (VMaps windows) => windows
  | Some (VString text) => if str_empty (TrimSpace text) then [] else default [] (unmarshal_objects text)
  | Some (VList items) => omap as_map items
  | _ => []
  end.

Definition policyWeekSecond (t : Z) : Z :=
  let secs := t / nanos_per_second in
  let day := secs mod 86400 in
  (weekday secs + 6) mod 7 * 86400 + day / 3600 * 3600 + day mod 3600 / 60 * 60 + day mod 60.

Definition policy_window_contains (second : Z) (window : object) : bool :=
  let start := policyInt64Value (firstPolicyValueOrNil window ["start"; "Start"]) (-1) in
  let end_ := policyInt64Value (firstPolicyValueOrNil window ["end"; "End"]) (-1) in
  (0 <=? start) && (start <? end_) && (end_ <=? 604800) && (start <=? second) && (second <? end_).

Definition policyWeekWindowsContain (windows : list object) (now : Z) : bool :=
  match windows with [] => true | _ => existsb (policy_window_contains (policyWeekSecond now)) windows end.

Definition policyPlanActive (data : object) (now : Z) : bool :=
  if str_empty (policyPlanID data) then false
  else if match policyTimeValue data ["valid_from"; "validFrom"; "ValidFrom"] with Some from => now <? from | None => false end then false
  else if match policyTimeValue data ["valid_until"; "validUntil"; "ValidUntil"] with Some until => until <? now | None => false end then false
  else policyWeekWindowsContain (policyWeekWindows data) now.

(** ** Images *)

Definition policyImageReference (rule : object) : string :=
  let ref := TextValue rule ["image_reference"; "imageReference"; "image"; "full_name"; "fullName"] in
  if negb (str_empty ref) then ref
  else
    let repository := TextValue rule ["repository"; "repo"] in
    let tag := TextValue rule ["tag"; "tag_name"; "tagName"] in
    if str_empty repository then "" else repository +:+ ":" +:+ (if str_empty tag then "*" else tag).

(** [strings.NewReplacer("-", "_", " ", "_")] *)
Definition underscores (s : string) : string :=
  of_bytes (map (fun c => if Ascii.eqb c "-" || Ascii.eqb c " " then "_"%char else c) (bytes_of s)).

Definition policyImageListKey (rule : object) : string :=
  let mode := underscores (ToLower (TrimSpace (TextValue rule ["delivery_mode"; "deliveryMode"; "mode"]))) in
  if str_empty mode || String.eqb mode "proxy" then "allowedProxyImages"
  else if bool_decide (mode ∈ ["mirrored"; "mirror"]) then "allowedMirroredImages"
  else if bool_decide (mode ∈ ["synced_mirrored"; "synced"; "mirrored_synced"]) then "syncedMirroredImages"
  else if bool_decide (mode ∈ ["built"; "published"; "published_built"]) then "publishedBuiltImages"
  else "".

(** The entries that are neither empty nor the last kept one. *)
Fixpoint dedup_adjacent (last : string) (entries : list string) : list string :=
  match entries with
  | [] => []
  | entry :: rest => if str_empty entry || String.eqb entry last then dedup_adjacent last rest else entry :: dedup_adjacent entry rest
  end.

Definition policyCommaList (entries : list string) : string :=
  match dedup_adjacent "" (SliceStable String.ltb entries) with
  | [] => ","
  | deduped => "," +:+ String.concat "," deduped +:+ ","
  end.

Definition imageKeys : list string := ["allowedProxyImages"; "allowedMirroredImages"; "syncedMirroredImages"; "publishedBuiltImages"].

(** The references of the enabled rules of a list. *)
Definition image_entries (rules : list object) (key : string) : list string :=
  omap (fun rule =>
    if BoolValue rule ["enabled"; "Enabled"] && negb (str_empty (policyImageReference rule)) && String.eqb (policyImageListKey rule) key
    then Some (policyImageReference rule) else None) rules.
Definition policyImageLists (rules : list object) (key : string) : string := policyCommaList (image_entries rules key).

(** ** The data *)

Record policyDataBuildInput := BuildInput {
  bi_project : object; bi_plan : option object; bi_imageRules : list object; bi_now : Z; bi_imageCheckEnabled : bool; bi_gpuUsage : float64
}.

Definition fmt_bool (b : bool) : string := if b then "true" else "false".
Definition fmt_g (f : float64) : string := sprintf "%g" [VFloat64 f].

Definition restrictivePolicyConfigMapData (imageCheckEnabled : bool) : gmap string string :=
  list_to_map [("maxJobRuntimeSeconds", "0"); ("gpuLimit", "0"); ("imageCheckEnabled", fmt_bool imageCheckEnabled); ("timeAllowed", "false");
    ("gpuNamespaceUsage", "0"); ("allowedProxyImages", ","); ("allowedMirroredImages", ","); ("syncedMirroredImages", ","); ("publishedBuiltImages", ",")].

(** A missing plan is the empty map: no identifier, no time. *)
Definition buildPolicyConfigMapData (input : policyDataBuildInput) : gmap string string :=
  if str_empty (policyProjectID (bi_project input)) then restrictivePolicyConfigMapData (bi_imageCheckEnabled input)
  else
    let plan := default ∅ (bi_plan input) in
    let known := negb (str_empty (policyPlanID plan)) in
    list_to_map [
      ("maxJobRuntimeSeconds", fmt_int 0 (policyNonNegativeInt (bi_project input) ["max_job_runtime_seconds"; "maxJobRuntimeSeconds"; "MaxJobRuntimeSeconds"]));
      ("gpuLimit", fmt_g (if known then policyNumberValue plan ["gpu_limit"; "gpuLimit"; "GPULimit"] else f64_0));
      ("imageCheckEnabled", fmt_bool (bi_imageCheckEnabled input));
      ("timeAllowed", fmt_bool (known && policyPlanActive plan (bi_now input)));
      ("gpuNamespaceUsage", fmt_g (bi_gpuUsage input));
      ("allowedProxyImages", policyImageLists (bi_imageRules input) "allowedProxyImages");
      ("allowedMirroredImages", policyImageLists (bi_imageRules input) "allowedMirroredImages");
      ("syncedMirroredImages", policyImageLists (bi_imageRules input) "syncedMirroredImages");
      ("publishedBuiltImages", policyImageLists (bi_imageRules input) "publishedBuiltImages")].

(** ** The projection of projects, plans and image rules *)

Definition policyEventData (e : event) : object :=
  match first_key as_map (ev_Data e) ["new"; "record"; "data"] with Some next => next | None => ev_Data e end.

Definition policyPlanPayloadHasRuntimeFields (data : object) : bool :=
  negb (str_empty (policyPlanID data)) &&
  existsb (fun key => match data !! key with Some _ => true | None => false end)
    ["gpu_limit"; "gpuLimit"; "valid_from"; "validFrom"; "valid_until"; "validUntil"; "week_windows"; "weekWindows"; "name"].

Definition policyDataProjection (e : event) : option (string * object * bool) :=
  let name := ToLower (TrimSpace (ev_Name e)) in
  let data := policyEventData e in
  if bool_decide (name ∈ ["projectcreated"; "projectupdated"]) then Some (policyDataProjectsResource, data, false)
  else if String.eqb name "projectdeleted" then Some (policyDataProjectsResource, data, true)
  else if String.eqb name "planchanged" then
    if String.eqb (ToLower (TextValue data ["action"])) "deleted" then Some (policyDataPlansResource, data, true)
    else if negb (policyPlanPayloadHasRuntimeFields data) then None
    else Some (policyDataPlansResource, data, false)
  else if bool_decide (name ∈ ["imageapproved"; "imagepublished"]) then Some (policyDataImageAllowListsResource, data, false)
  else if bool_decide (name ∈ ["imageunpublished"; "projectimageremoved"]) then Some (policyDataImageAllowListsResource, data, true)
  else None.

Definition upsertPolicyDataReadModel (s : store) (resource : string) (data : object) (now : Z) : store * option string :=
  if String.eqb resource policyDataProjectsResource then UpsertPolicyProject s data now
  else if String.eqb resource policyDataPlansResource then UpsertPolicyPlan s data now
  else if String.eqb resource policyDataImageAllowListsResource then UpsertPolicyImageAllowList s data now
  else (s, None).
Definition deletePolicyDataReadModel (s : store) (resource : string) (data : object) : store * bool :=
  if String.eqb resource policyDataProjectsResource then DeletePolicyProject s data
  else if String.eqb resource policyDataPlansResource then DeletePolicyPlan s data
  else if String.eqb resource policyDataImageAllowListsResource then DeletePolicyImageAllowList s data
  else (s, false).

Definition projectPolicyDataEvent (now : Z) (s : store) (e : event) : store * option string :=
  match policyDataProjection e with
  | None => (s, None)
  | Some (resource, data, true) => ((deletePolicyDataReadModel s resource data).1, None)
  | Some (resource, data, false) => upsertPolicyDataReadModel s resource data now
  end.

Definition syncPolicyDataReadModels (a : app) (now : Z) : app :=
  run_service_projection (projectPolicyDataEvent now) policyDataProjectionConsumer now a.

(** ** Writing the data to the cluster *)

Section Sync.
Context {ip : Type} (cfg : config ip) (fault : kube_call -> option kube_error).

Definition policyGPUUsageForNamespaces (k : kube) (namespaces : list string) (now : Z) : float64 :=
  match namespaces with
  | [] => f64_0
  | _ =>
      match ListJobPodResourceUsage fault k now with
      | Err _ => f64_0
      | Ok usages => foldl (fun total u => if pu_IsActive u && bool_decide (pu_Namespace u ∈ namespaces) then f64_add total (pu_RequestedGPU u) else total) f64_0 usages
      end
  end.

(** The data of a project whose namespaces are known. *)
Definition project_data (s : store) (k : kube) (project : object) (namespaces : list string) (now : Z) : gmap string string :=
  buildPolicyConfigMapData (BuildInput project (FindPolicyPlanForProject cfg s project)
    (ListPolicyImageRulesForProject cfg s (policyProjectID project)) now (cf_ImageCheckEnabled cfg) (policyGPUUsageForNamespaces k namespaces now)).

Definition ensure_namespace (projectID : string) (data : gmap string string) (st : kube * list string) (namespace : string) : kube * list string :=
  match EnsurePolicyDataConfigMap fault st.1 namespace data with
  | (k, None) => (k, st.2)
  | (k, Some e) => (k, st.2 ++ ["ensure policy data configmap " +:+ namespace +:+ "/" +:+ projectID +:+ ": " +:+ e])
  end.

Definition sync_project (s : store) (now : Z) (st : kube * list string) (project : object) : kube * list string :=
  let projectID := policyProjectID project in
  if str_empty projectID then st
  else match ListProjectNamespaces fault st.1 projectID with
       | Err e => (st.1, st.2 ++ ["list project namespaces " +:+ projectID +:+ ": " +:+ e])
       | Ok namespaces => foldl (ensure_namespace projectID (project_data s st.1 project namespaces now)) st namespaces
       end.

(** The new application, the cluster and the errors joined. *)
Definition syncPolicyData (a : app) (k : kube) (now : Z) : app * (kube * list string) :=
  let a1 := syncPolicyDataReadModels a now in
  (a1, foldl (sync_project (app_Store a1) now) (k, []) (ListPolicyProjects cfg (app_Store a1))).

(** ** Drift of the copies *)

(** [reflect.DeepEqual] on dynamic values: floats are compared by ==. *)
Fixpoint deep_equal (a b : any) : bool :=
  let maps (m m' : gmap string any) :=
    bool_decide (size m = size m') && map_fold (fun k v acc => acc && match m' !! k with Some v' => deep_equal v v' | None => false end) true m in
  match a, b with
  | VNil, VNil => true
  | VBool x, VBool y => Bool.eqb x y
  | VInt x, VInt y | VInt32 x, VInt32 y | VInt64 x, VInt64 y => x =? y
  | VFloat32 x, VFloat32 y | VFloat64 x, VFloat64 y => SpecFloat.SFeqb x y
  | VNumber x, VNumber y | VString x, VString y => String.eqb x y
  | VTime t x, VTime u y => (t =? u) && String.eqb x y
  | VStrings l, VStrings l' => bool_decide (l = l')
  | VStringMap m, VStringMap m' => bool_decide (m = m')
  | VList l, VList l' =>
      (fix lists (l l' : list any) := match l, l' with
                                      | [], [] => true
                                      | x :: l, y :: l' => deep_equal x y && lists l l'
                                      | _, _ => false end) l l'
  | VMaps l, VMaps l' =>
      (fix lists (l l' : list (gmap string any)) := match l, l' with
                                      | [], [] => true
                                      | x :: l, y :: l' => maps x y && lists l l'
                                      | _, _ => false end) l l'
  | VMap m, VMap m' => maps m m'
  | _, _ => false
  end.
Definition row_equal (x y : object) : bool := deep_equal (VMap x) (VMap y).

Record authorizationPolicyProjectionDriftFinding := DriftFinding { df_SourceResource : string; df_LocalResource : string; df_ID : string }.
Record authorizationPolicyProjectionDriftReport := DriftReport {
  dr_Missing : list authorizationPolicyProjectionDriftFinding;
  dr_Orphan : list authorizationPolicyProjectionDriftFinding;
  dr_Stale : list authorizationPolicyProjectionDriftFinding
}.
Record authorizationPolicyProjectionDriftPair := DriftPair { dp_source : string; dp_local : string; dp_idFn : object -> string }.

Definition authorizationPolicyProjectionDriftPairs : list authorizationPolicyProjectionDriftPair :=
  [DriftPair usersResource policyIdentityUsers (policyIdentityReadModelID policyIdentityUsers);
   DriftPair rolesResource policyIdentityRoles (policyIdentityReadModelID policyIdentityRoles);
   DriftPair policySourceProjectsResource policyDataProjectsResource policyProjectID;
   DriftPair policySourcePlansResource policyDataPlansResource policyPlanID;
   DriftPair policySourceImageAllowListsResource policyDataImageAllowListsResource policyImageRuleID].

Definition authorizationPolicyProjectionDriftNormalize (row : object) (idFn : object -> string) : option (string * object) :=
  let id := idFn row in if str_empty id then None else Some (id, <["id" := VString id]> row).

(** Later rows of an identifier replace earlier ones. *)
Definition authorizationPolicyProjectionDriftIndex (rows : list object) (idFn : object -> string) : gmap string object :=
  foldl (fun out row => match authorizationPolicyProjectionDriftNormalize row idFn with
                        | Some (id, normalized) => <[id := normalized]> out
                        | None => out end) ∅ rows.

Definition finding_less (x y : authorizationPolicyProjectionDriftFinding) : bool :=
  if negb (String.eqb (df_LocalResource x) (df_LocalResource y)) then String.ltb (df_LocalResource x) (df_LocalResource y)
  else if negb (String.eqb (df_ID x) (df_ID y)) then String.ltb (df_ID x) (df_ID y)
  else String.ltb (df_SourceResource x) (df_SourceResource y).
Definition sortAuthorizationPolicyProjectionDriftFindings : list authorizationPolicyProjectionDriftFinding -> list authorizationPolicyProjectionDriftFinding :=
  SliceStable finding_less.

(** The indices of a pair: source and local. *)
Definition pair_source (s : store) (pair : authorizationPolicyProjectionDriftPair) : gmap string object :=
  authorizationPolicyProjectionDriftIndex (projection_listMaps s (dp_source pair)) (dp_idFn pair).
Definition pair_local (s : store) (pair : authorizationPolicyProjectionDriftPair) : gmap string object :=
  authorizationPolicyProjectionDriftIndex (projection_listMaps s (dp_local pair)) (dp_idFn pair).

Definition pair_finding (pair : authorizationPolicyProjectionDriftPair) (id : string) : authorizationPolicyProjectionDriftFinding :=
  DriftFinding (dp_source pair) (dp_local pair) id.
Definition pair_missing (s : store) (pair : authorizationPolicyProjectionDriftPair) : list authorizationPolicyProjectionDriftFinding :=
  omap (fun '(id, _) => match pair_local s pair !! id with None => Some (pair_finding pair id) | Some _ => None end) (map_to_list (pair_source s pair)).
Definition pair_stale (s : store) (pair : authorizationPolicyProjectionDriftPair) : list authorizationPolicyProjectionDriftFinding :=
  omap (fun '(id, row) => match pair_local s pair !! id with
                          | Some local => if row_equal row local then None else Some (pair_finding pair id)
                          | None => None end) (map_to_list (pair_source s pair)).
Definition pair_orphan (s : store) (pair : authorizationPolicyProjectionDriftPair) : list authorizationPolicyProjectionDriftFinding :=
  omap (fun '(id, _) => match pair_source s pair !! id with None => Some (pair_finding pair id) | Some _ => None end) (map_to_list (pair_local s pair)).

Definition projectionDrift (s : store) : authorizationPolicyProjectionDriftReport :=
  let collect f := sortAuthorizationPolicyProjectionDriftFindings (flat_map (f s) authorizationPolicyProjectionDriftPairs) in
  DriftReport (collect pair_missing) (collect pair_orphan) (collect pair_stale).

(** The drift and the replay of the service's reconciler. *)
Definition reconciler_drift (s : store) : Z :=
  Z.of_nat (length (dr_Missing (projectionDrift s)) + length (dr_Orphan (projectionDrift s)) + length (dr_Stale (projectionDrift s))).
Definition reconciler_sync (a : app) (now : Z) : app := syncPolicyDataReadModels (syncPolicyIdentityReadModels a now) now.

End Sync.
End Data.

(** ** The cluster and admission agree on plans *)

Section Agreement.
Context `{GoLib}.

(** The bounds of the windows are numbers, as the plan editor writes them. *)
Definition plain_number (v : any) : Prop := match v with VInt32 _ | VNumber _ | VString _ => False | _ => True end.
Definition plain_windows (data : object) : Prop :=
  Forall (fun w => plain_number (firstPolicyValueOrNil w ["start"; "Start"]) /\ plain_number (firstPolicyValueOrNil w ["end"; "End"])) (policyWeekWindows data).

Lemma policyWeekWindows_admission data : policyWeekWindows data = admissionWeekWindows data.
Proof. unfold policyWeekWindows, admissionWeekWindows, firstPolicyValue. by destruct (firstPresent _ _) as [[]|]. Qed.

Lemma policyInt64Value_plain v fallback : plain_number v -> policyInt64Value v fallback = getInt64 v fallback.
Proof. by destruct v. Qed.

Lemma window_contains_plain second w :
  plain_number (firstPolicyValueOrNil w ["start"; "Start"]) -> plain_number (firstPolicyValueOrNil w ["end"; "End"]) ->
  policy_window_contains second w = window_contains second w.
Proof. intros Hs He. unfold policy_window_contains, window_contains. by rewrite !policyInt64Value_plain. Qed.

Lemma policyPlanActive_admission data now : plain_windows data ->
  policyPlanActive data now = negb (str_empty (policyPlanID data)) && admissionPlanActive data now.
Proof.
  intros Hp. unfold policyPlanActive, admissionPlanActive, policyTimeValue, admissionTimeValue. destruct (str_empty _); [done|]. cbn [negb andb].
  unfold plain_windows in Hp. rewrite policyWeekWindows_admission in *.
  assert (policyWeekWindowsContain (admissionWeekWindows data) now = admissionWeekWindowsContain (admissionWeekWindows data) now) as ->; [|done].
  unfold policyWeekWindowsContain, admissionWeekWindowsContain. change (policyWeekSecond now) with (admissionWeekSecond now).
  generalize (admissionWeekSecond now). intros second. assert (forall ws, Forall (fun w => plain_number (firstPolicyValueOrNil w ["start"; "Start"]) /\ plain_number (firstPolicyValueOrNil w ["end"; "End"])) ws ->
    existsb (policy_window_contains second) ws = existsb (window_contains second) ws) as He.
  { induction 1 as [|w ws [Hs He] _ IH]; [done|]. cbn. by rewrite window_contains_plain, IH. }
  destruct (admissionWeekWindows data); [done|]. by apply He.
Qed.
End Agreement.

(** ** What a list of images says *)

Definition comma : ascii := ",".
Definition comma_free (t : string) : Prop := comma ∉ bytes_of t.
#[export] Instance comma_free_dec t : base.Decision (comma_free t).
Proof. unfold comma_free. apply _. Defined.

(** strings.Contains(text, "," + ref + ",") *)
Definition listed (text ref : string) : Prop := exists pre post, bytes_of text = pre ++ bytes_of ("," +:+ ref +:+ ",") ++ post.

Lemma dedup_adjacent_spec entries last e : (e ∈ dedup_adjacent last entries -> e ∈ entries /\ e ≠ "") /\
  (e ∈ entries -> e ≠ "" -> e = last \/ e ∈ dedup_adjacent last entries).
Proof.
  revert last. induction entries as [|x l IH]; intros last; cbn [dedup_adjacent]; [split; intros He; by apply not_elem_of_nil in He|].
  unfold str_empty. destruct (String.eqb_spec x "") as [->|Hx]; cbn [orb]; [split|destruct (String.eqb_spec x last) as [->|Hl]; split].
  - intros He. apply IH in He as [??]. split; [by apply list_elem_of_further|done].
  - intros He Hn. apply elem_of_cons in He as [->|He]; [done|]. by apply IH.
  - intros He. apply IH in He as [??]. split; [by apply list_elem_of_further|done].
  - intros He Hn. apply elem_of_cons in He as [->|He]; [by left|]. by apply IH.
  - intros He. apply elem_of_cons in He as [->|He]; [split; [apply list_elem_of_here|done]|]. apply IH in He as [??]. split; [by apply list_elem_of_further|done].
  - intros He Hn. right. apply elem_of_cons in He as [->|He]; [apply list_elem_of_here|].
    destruct (proj2 (IH x) He Hn) as [->|Hin]; [apply list_elem_of_here|by apply list_elem_of_further].
Qed.

(** The text after the leading comma: every entry with its comma. *)
Definition entry_bytes (ds : list string) : list ascii := concat (map (fun d => bytes_of d ++ [comma]) ds).

Lemma concat_entries d ds : bytes_of (String.concat "," (d :: ds)) ++ [comma] = entry_bytes (d :: ds).
Proof.
  revert d. induction ds as [|d' ds IH]; intros d; [cbn; by rewrite app_nil_r|].
  change (String.concat "," (d :: d' :: ds)) with (d +:+ "," +:+ String.concat "," (d' :: ds)). rewrite !bytes_of_app.
  change (entry_bytes (d :: d' :: ds)) with ((bytes_of d ++ [comma]) ++ entry_bytes (d' :: ds)). rewrite <- IH, <- !app_assoc. done.
Qed.

Lemma comma_list_bytes entries : bytes_of (policyCommaList entries) = comma :: entry_bytes (dedup_adjacent "" (SliceStable String.ltb entries)).
Proof.
  unfold policyCommaList. destruct (dedup_adjacent _ _) as [|d ds]; [done|]. rewrite !bytes_of_app, <- concat_entries. done.
Qed.

Lemma app_comma_split d x p y : comma ∉ d -> d ++ comma :: x = p ++ comma :: y -> (p = d /\ x = y) \/ exists p', p = d ++ comma :: p' /\ x = p' ++ comma :: y.
Proof.
  revert p. induction d as [|c d IH]; intros p Hd He.
  - destruct p as [|c p]; cbn in He; injection He as He1; [by left|]. subst c. right. by exists p.
  - destruct p as [|c' p]; cbn in He; injection He as -> He; [set_solver|].
    destruct (IH p) as [[-> ->]|(p' & -> & ->)]; [set_solver|done|by left|right; by exists p'].
Qed.

Lemma entry_listed ds e pre post : Forall comma_free ds -> comma_free e ->
  comma :: entry_bytes ds = pre ++ (comma :: bytes_of e ++ [comma]) ++ post -> e ∈ ds.
Proof.
  intros Hds He. revert pre. induction Hds as [|d ds Hd _ IH]; intros pre Heq.
  - apply (f_equal length) in Heq. revert Heq. rewrite !length_app. cbn [length]. rewrite length_app. cbn. lia.
  - change (entry_bytes (d :: ds)) with ((bytes_of d ++ [comma]) ++ entry_bytes ds) in Heq. rewrite <- app_assoc in Heq. cbn [Datatypes.app] in Heq.
    destruct pre as [|c pre]; cbn [Datatypes.app] in Heq; injection Heq as Heq.
    + rewrite <- app_assoc in Heq. cbn [Datatypes.app] in Heq. apply split_char in Heq as [Hb _]; [|done..]. apply bytes_of_inj in Hb as ->. apply list_elem_of_here.
    + subst c. rename H into Heq. apply list_elem_of_further. apply app_comma_split in Heq as [[-> Hx]|(p' & -> & Hx)]; [| |done].
      * apply (IH []). cbn. by f_equal.
      * apply (IH (comma :: p')). cbn. by f_equal.
Qed.

Lemma entry_bytes_app l l' : entry_bytes (l ++ l') = entry_bytes l ++ entry_bytes l'.
Proof. unfold entry_bytes. by rewrite map_app, concat_app. Qed.

Lemma entry_bytes_last l : exists p, comma :: entry_bytes l = p ++ [comma].
Proof.
  destruct l as [|x l _] using rev_ind; [by exists []|]. exists (comma :: entry_bytes l ++ bytes_of x). rewrite entry_bytes_app.
  change (entry_bytes [x]) with ((bytes_of x ++ [comma]) ++ []). by rewrite app_nil_r, app_assoc.
Qed.

Lemma policyCommaList_spec entries e : Forall comma_free entries -> comma_free e -> e ≠ "" ->
  listed (policyCommaList entries) e <-> e ∈ entries.
Proof.
  intros Hf He Hn. unfold listed. rewrite comma_list_bytes. set (ds := dedup_adjacent _ _).
  assert (forall x, x ∈ SliceStable String.ltb entries <-> x ∈ entries) as Hp by (intros x; by rewrite SliceStable_perm).
  assert (e ∈ ds <-> e ∈ entries) as <-.
  { destruct (dedup_adjacent_spec (SliceStable String.ltb entries) "" e) as [H1 H2]. rewrite <- Hp. split; [intros Hx; exact (proj1 (H1 Hx))|].
    intros Hin. by destruct (H2 Hin Hn). }
  assert (bytes_of ("," +:+ e +:+ ",") = comma :: bytes_of e ++ [comma]) as -> by (rewrite !bytes_of_app; done). split.
  - intros (pre & post & Heq). apply (entry_listed ds e pre post); [|done..]. apply Forall_forall. intros x Hx.
    apply dedup_adjacent_spec in Hx as [Hx _]. apply Hp in Hx. rewrite Forall_forall in Hf. by apply Hf.
  - intros (l1 & l2 & Hds)%list_elem_of_split. rewrite Hds. destruct (entry_bytes_last l1) as [p Hl]. exists p, (entry_bytes l2).
    rewrite entry_bytes_app, app_comm_cons, Hl. change (entry_bytes (e :: l2)) with ((bytes_of e ++ [comma]) ++ entry_bytes l2).
    rewrite <- !app_assoc. cbn [Datatypes.app]. rewrite <- app_assoc. reflexivity.
Qed.

(** ** Measuring the drift *)

Section Drift.
Context `{GoLib}.

(** Source and copy have the same identifiers and equal rows. *)
Definition in_step (s : store) (pair : authorizationPolicyProjectionDriftPair) : Prop :=
  forall id, match pair_source s pair !! id, pair_local s pair !! id with
             | Some x, Some y => row_equal x y = true
             | None, None => True
             | _, _ => False
             end.

Lemma omap_nil {A B} (f : A -> option B) l : omap f l = [] <-> forall x, x ∈ l -> f x = None.
Proof.
  induction l as [|x l IH]; cbn; [split; [intros _ x Hx; by apply not_elem_of_nil in Hx|done]|].
  destruct (f x) as [y|] eqn:E; [split; [done|]; intros Hl; specialize (Hl x (list_elem_of_here _ _)); congruence|].
  rewrite IH. split; [|intros Hl y Hy; by apply Hl, list_elem_of_further]. intros Hl y [->|Hy]%elem_of_cons; [done|by apply Hl].
Qed.

Lemma omap_map_nil {B} (f : string * object -> option B) (m : gmap string object) :
  omap f (map_to_list m) = [] <-> forall id row, m !! id = Some row -> f (id, row) = None.
Proof.
  rewrite omap_nil. split; [intros Hl id row Hm; by apply Hl, elem_of_map_to_list|]. intros Hl [id row] Hx. by apply Hl, elem_of_map_to_list.
Qed.

Lemma pair_in_step s pair : in_step s pair <-> pair_missing s pair = [] /\ pair_orphan s pair = [] /\ pair_stale s pair = [].
Proof.
  unfold in_step, pair_missing, pair_orphan, pair_stale. rewrite !omap_map_nil. split.
  - intros Hs. split; [|split]; intros id row Hr; specialize (Hs id); rewrite Hr in Hs; destruct (_ !! id) as [x|]; try done. by rewrite Hs.
  - intros (Hm & Ho & Hst) id. destruct (pair_source s pair !! id) as [x|] eqn:Es, (pair_local s pair !! id) as [y|] eqn:El; [..|done].
    + specialize (Hst id x Es). cbn beta iota in Hst. rewrite El in Hst. by destruct (row_equal x y).
    + specialize (Hm id x Es). cbn beta iota in Hm. by rewrite El in Hm.
    + specialize (Ho id y El). cbn beta iota in Ho. by rewrite Es in Ho.
Qed.

Lemma flat_map_nil {A B} (f : A -> list B) l : flat_map f l = [] <-> forall x, x ∈ l -> f x = [].
Proof.
  induction l as [|x l IH]; cbn; [split; [intros _ x Hx; by apply not_elem_of_nil in Hx|done]|]. split.
  - intros [Hx Hl]%app_eq_nil y [->|Hy]%elem_of_cons; [done|by apply IH].
  - intros Hl. rewrite (Hl x) by apply list_elem_of_here. apply IH. intros y Hy. by apply Hl, list_elem_of_further.
Qed.

(** No drift is measured exactly when every copy is in step with its source. *)
Lemma drift_zero s : reconciler_drift s = 0 <-> forall pair, pair ∈ authorizationPolicyProjectionDriftPairs -> in_step s pair.
Proof.
  unfold reconciler_drift, projectionDrift. cbn [dr_Missing dr_Orphan dr_Stale]. unfold sortAuthorizationPolicyProjectionDriftFindings.
  rewrite !SliceStable_perm. setoid_rewrite pair_in_step. generalize authorizationPolicyProjectionDriftPairs. intros pairs.
  assert (forall {A} (l : list A), length l = 0%nat <-> l = []) as Hz by (intros A []; split; done).
  split.
  - intros Hl pair Hp. rewrite <- Nat2Z.inj_0 in Hl. apply Nat2Z.inj in Hl.
    assert (forall f : store -> authorizationPolicyProjectionDriftPair -> list authorizationPolicyProjectionDriftFinding,
      length (flat_map (f s) pairs) = 0%nat -> f s pair = []) as Hf by (intros f Hf%Hz; by eapply flat_map_nil).
    split; [|split]; apply Hf; lia.
  - intros Hp. rewrite !(proj2 (flat_map_nil _ pairs)); [done|..]; intros pair Hin; by apply Hp.
Qed.
End Drift.

(** ** Writing the data *)

Section Published.
Context `{GoLib} {ip : Type} (cfg : config ip) (fault : kube_call -> option kube_error).

(** A run changes policy data only. *)
Definition same_cluster (k k' : kube) : Prop := kb_names k' = kb_names k /\ kb_prefix k' = kb_prefix k /\ kb_pods k' = kb_pods k.

Lemma same_cluster_trans k1 k2 k3 : same_cluster k1 k2 -> same_cluster k2 k3 -> same_cluster k1 k3.
Proof. unfold same_cluster. intuition congruence. Qed.

Lemma ensure_namespace_same projectID data st ns : same_cluster st.1 (ensure_namespace fault projectID data st ns).1.
Proof.
  unfold ensure_namespace. pose proof (ensure_names fault st.1 ns data) as He. by destruct (EnsurePolicyDataConfigMap _ _ _ _) as [k [e|]].
Qed.

Lemma ensure_all_same projectID data nss st : same_cluster st.1 (foldl (ensure_namespace fault projectID data) st nss).1.
Proof.
  revert st. induction nss as [|n nss IH]; intros st; [done|]. cbn [foldl]. eapply same_cluster_trans; [apply ensure_namespace_same|apply IH].
Qed.

Lemma sync_project_same s now st project : same_cluster st.1 (sync_project cfg fault s now st project).1.
Proof.
  unfold sync_project. destruct (str_empty _); [done|]. destruct (ListProjectNamespaces _ _ _); [apply ensure_all_same|done].
Qed.

(** The data of a project depends on the pods and the names only. *)
Lemma project_data_same s k k' project nss now : same_cluster k k' -> project_data cfg fault s k' project nss now = project_data cfg fault s k project nss now.
Proof.
  intros (_ & _ & Hp). unfold project_data, policyGPUUsageForNamespaces, ListJobPodResourceUsage. by rewrite Hp.
Qed.

Definition data_at (k : kube) (ns : string) : option (gmap string string) := cm_Data <$> kb_maps k !! ns.

Lemma ensure_namespace_at projectID data st n ns : Trimmed n -> reachable fault ns -> ns ≠ "" ->
  data_at (ensure_namespace fault projectID data st n).1 ns = if decide (n = ns) then Some data else data_at st.1 ns.
Proof.
  intros Ht Hr Hn. unfold ensure_namespace, data_at. case_decide as Hd.
  - subst n. destruct (ensure_writes fault st.1 ns data Ht Hn Hr) as [He Hw]. destruct (EnsurePolicyDataConfigMap _ _ _ _) as [k [e|]]; [done|exact Hw].
  - pose proof (ensure_frame fault st.1 n data ns) as Hf. rewrite (TrimSpace_fix _ Ht) in Hf. specialize (Hf (not_eq_sym Hd)).
    destruct (EnsurePolicyDataConfigMap _ _ _ _) as [k [e|]]; cbn [fst] in *; by rewrite Hf.
Qed.

Lemma ensure_all_at projectID data nss st ns : Forall Trimmed nss -> reachable fault ns -> ns ≠ "" ->
  data_at (foldl (ensure_namespace fault projectID data) st nss).1 ns = if decide (ns ∈ nss) then Some data else data_at st.1 ns.
Proof.
  intros Ht Hr Hn. revert st. induction Ht as [|n nss Hn' _ IH]; intros st; cbn [foldl]; [by rewrite decide_False by apply not_elem_of_nil|].
  rewrite IH, (ensure_namespace_at projectID data st n ns) by done.
  destruct (decide (ns ∈ nss)), (decide (n = ns)), (decide (ns ∈ n :: nss)); try done; exfalso; set_solver.
Qed.

Context (k0 : kube) (names_trimmed : Forall Trimmed (kb_names k0)) (listing : fault ListNamespaces = None).

Definition namespaces_of (projectID : string) : list string :=
  List.filter (fun name => HasPrefix name (projectNamespacePrefix k0 projectID)) (kb_names k0).

(** The namespaces a project writes to: those with its prefix. *)
Definition owns (project : object) (ns : string) : Prop := policyProjectID project ≠ "" /\ ns ∈ namespaces_of (policyProjectID project).

Lemma namespaces_trimmed projectID : Forall Trimmed (namespaces_of projectID).
Proof.
  apply Forall_forall. intros n Hn. apply list_elem_of_In, filter_In in Hn as [Hn _]. rewrite Forall_forall in names_trimmed. by apply names_trimmed, list_elem_of_In.
Qed.

Lemma sync_project_at s now st project ns : same_cluster k0 st.1 -> reachable fault ns -> ns ≠ "" ->
  (owns project ns -> data_at (sync_project cfg fault s now st project).1 ns = Some (project_data cfg fault s k0 project (namespaces_of (policyProjectID project)) now)) /\
  (~ owns project ns -> data_at (sync_project cfg fault s now st project).1 ns = data_at st.1 ns).
Proof.
  intros Hk Hr Hn. unfold sync_project, ListProjectNamespaces, owns, str_empty. rewrite listing.
  destruct (String.eqb_spec (policyProjectID project) "") as [He|He]; [split; [by intros [? _]|done]|].
  assert (List.filter (fun name => HasPrefix name (projectNamespacePrefix st.1 (policyProjectID project))) (kb_names st.1) = namespaces_of (policyProjectID project)) as ->.
  { unfold namespaces_of, projectNamespacePrefix. by destruct Hk as (-> & -> & _). }
  rewrite (ensure_all_at _ _ _ _ ns) by (done || apply namespaces_trimmed). rewrite (project_data_same s k0 st.1) by done.
  split; [intros [_ Hin]; by rewrite decide_True|]. intros Hno. rewrite decide_False; [done|]. intros Hin. by apply Hno.
Qed.

Lemma sync_projects_same s now projects st : same_cluster st.1 (foldl (sync_project cfg fault s now) st projects).1.
Proof.
  revert st. induction projects as [|p ps IH]; intros st; [done|]. cbn [foldl]. eapply same_cluster_trans; [apply sync_project_same|apply IH].
Qed.

(** The namespace of a single project ends with the data of that project. *)
Lemma sync_projects_at s now projects project ns : reachable fault ns -> ns ≠ "" ->
  project ∈ projects -> owns project ns -> (forall q, q ∈ projects -> owns q ns -> q = project) ->
  data_at (foldl (sync_project cfg fault s now) (k0, []) projects).1 ns = Some (project_data cfg fault s k0 project (namespaces_of (policyProjectID project)) now).
Proof.
  intros Hr Hn Hin Ho Hu. assert (same_cluster k0 (k0, @nil string).1) as Hst by done. revert Hst.
  assert (project ∈ projects \/ data_at (k0, @nil string).1 ns = Some (project_data cfg fault s k0 project (namespaces_of (policyProjectID project)) now)) as Hor by tauto.
  clear Hin. revert Hor. generalize (k0, @nil string). revert Hu. induction projects as [|p ps IH]; intros Hu st Hor Hst; cbn [foldl].
  { destruct Hor as [Hin|]; [by apply not_elem_of_nil in Hin|done]. }
  destruct (sync_project_at s now st p ns Hst Hr Hn) as [Hyes Hno]. apply IH.
  - intros q Hq. apply Hu. by apply list_elem_of_further.
  - destruct (decide (policyProjectID p ≠ "" /\ ns ∈ namespaces_of (policyProjectID p))) as [Hd|Hd].
    + right. rewrite (Hyes Hd). by rewrite (Hu p (list_elem_of_here _ _) Hd).
    + rewrite (Hno Hd). destruct Hor as [Hor|Hor]; [|by right]. apply elem_of_cons in Hor as [<-|Hor]; [done|by left].
  - eapply same_cluster_trans; [exact Hst|apply sync_project_same].
Qed.

(** *** What the data of a project says *)

Lemma find_plan_id s project plan : FindPolicyPlanForProject cfg s project = Some plan -> policyPlanID plan ≠ "".
Proof.
  unfold FindPolicyPlanForProject, str_empty. destruct (String.eqb_spec (TextValue project ["plan_id"; "planId"; "resource_plan_id"; "resourcePlanId"]) "") as [|He]; [done|].
  intros [_ Hf]%find_some. apply String.eqb_eq in Hf. congruence.
Qed.

Lemma data_time s k project nss now : policyProjectID project ≠ "" ->
  project_data cfg fault s k project nss now !! "timeAllowed" = Some "true" <->
  exists plan, FindPolicyPlanForProject cfg s project = Some plan /\ policyPlanActive plan now = true.
Proof.
  intros Hp. unfold project_data, buildPolicyConfigMapData, str_empty. cbn [bi_project bi_plan bi_now]. rewrite (proj2 (String.eqb_neq _ _) Hp).
  cbn zeta. set (l := list_to_map _). assert (l !! "timeAllowed" = Some (fmt_bool (negb (String.eqb (policyPlanID (default ∅ (FindPolicyPlanForProject cfg s project))) "")
    && policyPlanActive (default ∅ (FindPolicyPlanForProject cfg s project)) now))) as -> by reflexivity. clear l.
  destruct (FindPolicyPlanForProject cfg s project) as [plan|] eqn:Ef; cbn [default from_option id].
  - apply find_plan_id in Ef. rewrite (proj2 (String.eqb_neq _ _) Ef). cbn [negb andb]. unfold fmt_bool.
    destruct (policyPlanActive plan now) eqn:Ea; split; intros Hx; try discriminate; [by exists plan|reflexivity|].
    destruct Hx as (plan' & [= <-] & Ha). congruence.
  - split; [intros Hx|by intros (plan & Hf & _)]. exfalso. revert Hx. vm_compute. discriminate.
Qed.

(** An image rule of the project lets the reference into the list. *)
Definition image_allowed (s : store) (projectID key ref : string) : Prop :=
  exists rule, rule ∈ ListPolicyImageRulesForProject cfg s projectID /\ BoolValue rule ["enabled"; "Enabled"] = true /\
    policyImageListKey rule = key /\ policyImageReference rule = ref.

Lemma data_images s k project nss now key ref : policyProjectID project ≠ "" -> key ∈ imageKeys ->
  (forall rule, rule ∈ ListPolicyImageRulesForProject cfg s (policyProjectID project) -> comma_free (policyImageReference rule)) ->
  comma_free ref -> ref ≠ "" ->
  (exists text, project_data cfg fault s k project nss now !! key = Some text /\ listed text ref) <-> image_allowed s (policyProjectID project) key ref.
Proof.
  intros Hp Hk Hc Hr Hn. unfold project_data, buildPolicyConfigMapData, str_empty. cbn [bi_project bi_plan bi_now bi_imageRules]. rewrite (proj2 (String.eqb_neq _ _) Hp).
  cbn zeta. set (rules := ListPolicyImageRulesForProject cfg s (policyProjectID project)) in *. set (l := list_to_map _).
  assert (l !! key = Some (policyImageLists rules key)) as -> by (unfold imageKeys in Hk; rewrite !elem_of_cons, elem_of_nil in Hk; destruct Hk as [->|[->|[->|[->|[]]]]]; reflexivity).
  clearbody l. unfold policyImageLists.
  assert (Forall comma_free (image_entries rules key)) as Hf.
  { apply Forall_forall. intros e He. unfold image_entries in He. apply list_elem_of_omap in He as (rule & Hin & He).
    destruct (_ && _); [|done]. injection He as <-. by apply Hc. }
  assert (ref ∈ image_entries rules key <-> image_allowed s (policyProjectID project) key ref) as <-.
  { unfold image_entries, image_allowed. rewrite list_elem_of_omap. fold rules. split.
    - intros (rule & Hin & He). exists rule. destruct (BoolValue rule _); [|done]. destruct (String.eqb_spec (policyImageListKey rule) key); [|by rewrite !andb_false_r in He].
      destruct (_ && true); [|done]. by injection He as <-.
    - intros (rule & Hin & Hb & <- & <-). exists rule. unfold str_empty. rewrite Hb, String.eqb_refl, (proj2 (String.eqb_neq _ _) Hn). done. }
  rewrite <- (policyCommaList_spec _ ref Hf Hr Hn). split; [by intros (text & [= <-] & Hl)|]. intros Hl. by eexists.
Qed.
End Published.

(** ** Theorems *)

Section Theorems.
Context `{GoLib} {ip : Type} (cfg : config ip) (fault : kube_call -> option kube_error).

Lemma owned_name_nonempty k project ns : owns k project ns -> ns ≠ "".
Proof.
  intros [_ Hin] ->. apply list_elem_of_In, filter_In in Hin as [_ Hp]. revert Hp. unfold HasPrefix, projectNamespacePrefix, ToLower. rewrite bytes_of_of, !bytes_of_app.
  destruct (bytes_of (kb_prefix k)); cbn; discriminate.
Qed.

(** C9: One run of the policy-data task.  For every namespace that carries the prefix of
    exactly one known project and whose API calls go through - whatever fails for other
    namespaces, provided the namespaces can be listed and their names have no surrounding
    blanks - the ConfigMap afterwards holds data about that project.  When the project's plan
    is found and its weekly windows are numbers, time is allowed exactly when the submit
    admission of the scheduler would hold the plan to be in force; for windows written as
    quoted texts the two tests differ (quoted_window_for_cluster_only).  When no plan is
    found, time is not allowed.  When no rule of the project has a reference with a comma,
    a non-empty reference without a comma is in one of the four image lists exactly when
    an enabled rule of the project, or of all projects, puts it there; a rule whose reference
    has a comma adds entries of its own (comma_reference_adds_entry). *)
Theorem policy_data_published a k now project ns :
  let s := app_Store (syncPolicyData cfg fault a k now).1 in
  let k' := (syncPolicyData cfg fault a k now).2.1 in
  Forall Trimmed (kb_names k) -> fault ListNamespaces = None -> reachable fault ns ->
  project ∈ ListPolicyProjects cfg s -> owns k project ns -> (forall q, q ∈ ListPolicyProjects cfg s -> owns k q ns -> q = project) ->
  exists data, data_at k' ns = Some data /\
    (forall plan, FindPolicyPlanForProject cfg s project = Some plan -> plain_windows plan ->
       (data !! "timeAllowed" = Some "true" <-> admissionPlanActive plan now = true)) /\
    (FindPolicyPlanForProject cfg s project = None -> data !! "timeAllowed" ≠ Some "true") /\
    ((forall rule, rule ∈ ListPolicyImageRulesForProject cfg s (policyProjectID project) -> comma_free (policyImageReference rule)) ->
     forall key ref, key ∈ imageKeys -> comma_free ref -> ref ≠ "" ->
       (exists text, data !! key = Some text /\ listed text ref) <-> image_allowed cfg s (policyProjectID project) key ref).
Proof.
  cbn zeta. unfold syncPolicyData. cbn [fst snd]. set (s := app_Store (syncPolicyDataReadModels a now)). intros Ht Hl Hr Hin Ho Hu.
  pose proof (owned_name_nonempty _ _ _ Ho) as Hn. pose proof (proj1 Ho) as Hp.
  rewrite (sync_projects_at cfg fault k Ht Hl s now _ project ns Hr Hn Hin Ho Hu). eexists. split; [reflexivity|]. split; [|split].
  - intros plan Hf Hw. rewrite (data_time cfg fault) by exact Hp. split.
    + intros (plan' & Hf' & Ha). assert (plan' = plan) as -> by congruence. rewrite policyPlanActive_admission in Ha by exact Hw. apply andb_true_iff in Ha as [_ Ha]. exact Ha.
    + intros Ha. exists plan. split; [exact Hf|]. rewrite policyPlanActive_admission, Ha by exact Hw. apply find_plan_id in Hf. unfold str_empty.
      by rewrite (proj2 (String.eqb_neq _ _) Hf).
  - intros Hf. rewrite (data_time cfg fault) by exact Hp. intros (plan & Hf' & _). congruence.
  - intros Hc key ref Hk Hcr Hnr. by apply data_images.
Qed.
End Theorems.

(** ** A run *)

Definition data_config : config nat := @ConfigFromEnv nat demo_env_lib {[ "SERVICE_NAME" := serviceName ]}.
Definition no_fault (c : kube_call) : option kube_error := None.
Definition put_row (s : store) (x : string * object) : store := (Create s x.1 x.2 "n" 1).1.
Definition day_plan (id : string) : object :=
  {[ "id" := VString id; "week_windows" := VMaps [ {[ "start" := VInt 0; "end" := VInt 604800 ]} ] ]}.
Definition data_app : app := App_ (foldl put_row NewStore
  [ (policyDataProjectsResource, {[ "id" := VString "p1"; "plan_id" := VString "pl" ]});
    (policyDataPlansResource, day_plan "pl");
    (policyDataImageAllowListsResource, {[ "id" := VString "r1"; "project_id" := VString "p1"; "enabled" := VBool true; "image" := VString "python:3" ]}) ]) NewEventBus.
Definition data_kube : kube := Kube "proj" ["default"; "proj-p1-alice"] [] ∅.

Lemma policy_data_published_witness : exists data,
  data_at (@syncPolicyData auth_lib nat data_config no_fault data_app data_kube 7).2.1 "proj-p1-alice" = Some data /\
  data !! "timeAllowed" = Some "true" /\ exists text, data !! "allowedProxyImages" = Some text /\ listed text "python:3".
Proof.
  set (s := app_Store (@syncPolicyData auth_lib nat data_config no_fault data_app data_kube 7).1).
  set (p := {[ "id" := VString "p1"; "plan_id" := VString "pl" ]} : object).
  set (rule := {[ "id" := VString "r1"; "project_id" := VString "p1"; "enabled" := VBool true; "image" := VString "python:3" ]} : object).
  assert (ListPolicyProjects data_config s = [p]) as Hps by (vm_compute; reflexivity).
  assert (FindPolicyPlanForProject data_config s p = Some (day_plan "pl")) as Hpl by (vm_compute; reflexivity).
  assert (ListPolicyImageRulesForProject data_config s (policyProjectID p) = [rule]) as Hrs by (vm_compute; reflexivity).
  assert (owns data_kube p "proj-p1-alice") as Ho by (split; [vm_compute; discriminate|apply (bool_decide_unpack ("proj-p1-alice" ∈ namespaces_of data_kube (policyProjectID p))); vm_compute; exact I]).
  destruct (@policy_data_published auth_lib nat data_config no_fault data_app data_kube 7 p "proj-p1-alice") as (data & Hd & Ht & _ & Hi).
  - repeat constructor; vm_compute; try reflexivity.
  - reflexivity.
  - repeat split; reflexivity.
  - fold s. rewrite Hps. apply list_elem_of_here.
  - exact Ho.
  - fold s. rewrite Hps. intros q Hq _. by apply list_elem_of_singleton in Hq.
  - exists data. split; [exact Hd|]. fold s in Ht, Hi. split.
    + apply (Ht _ Hpl); [repeat constructor|vm_compute; reflexivity].
    + rewrite Hrs in Hi. apply Hi.
      * intros r Hr. apply list_elem_of_singleton in Hr as ->. apply (bool_decide_unpack _). vm_compute. exact I.
      * apply (bool_decide_unpack _). vm_compute. exact I.
      * apply (bool_decide_unpack _). vm_compute. exact I.
      * discriminate.
      * exists rule. rewrite Hrs. split; [apply list_elem_of_here|]. repeat split; vm_compute; reflexivity.
Defined.

(** *** Where the hypotheses matter *)

(** A project [a] with a plan and a project [a-b] without: the prefix of the first is one
    of the namespaces of the second, which is told that its time is allowed. *)
Definition prefix_app : app := App_ (foldl put_row NewStore
  [ (policyDataProjectsResource, {[ "id" := VString "a-b" ]});
    (policyDataProjectsResource, {[ "id" := VString "a"; "plan_id" := VString "pl" ]});
    (policyDataPlansResource, day_plan "pl") ]) NewEventBus.
Example prefix_of_other_project :
  let k := (@syncPolicyData auth_lib nat data_config no_fault prefix_app (Kube "proj" ["proj-a-b-alice"] [] ∅) 7).2.1 in
  (data_at k "proj-a-b-alice" ≫= fun d => d !! "timeAllowed") = Some "true" /\
  FindPolicyPlanForProject data_config (app_Store prefix_app) {[ "id" := VString "a-b" ]} = None.
Proof. split; vm_compute; reflexivity. Qed.

(** A reference with a comma puts a second image on the list. *)
Definition comma_rule : object := {[ "enabled" := VBool true; "image" := VString "python:3,evil:1" ]}.
Example comma_reference_adds_entry : listed (policyImageLists [comma_rule] "allowedProxyImages") "evil:1" /\ "evil:1" ∉ image_entries [comma_rule] "allowedProxyImages".
Proof.
  split; [|apply (bool_decide_unpack _); vm_compute; exact I].
  exists (bytes_of ",python:3"), []. vm_compute. reflexivity.
Qed.

(** Quoted bounds count for the cluster and not for the submit admission. *)
Definition quoted_plan : object :=
  {[ "id" := VString "pl"; "week_windows" := VMaps [ {[ "start" := VString "0"; "end" := VString "604800" ]} ] ]}.
Definition number_lib : GoLib := {|
  parse_quantity := @parse_quantity auth_lib; parse_float := @parse_float auth_lib;
  parse_int64 t := if String.eqb t "0" then Some 0 else if String.eqb t "604800" then Some 604800 else None;
  parse_rfc3339 := @parse_rfc3339 auth_lib; format_rfc3339 := @format_rfc3339 auth_lib; time_string := @time_string auth_lib;
  unmarshal_object := @unmarshal_object auth_lib; unmarshal_objects := @unmarshal_objects auth_lib; unmarshal_strings := @unmarshal_strings auth_lib;
  marshal := @marshal auth_lib; sprint := @sprint auth_lib; sprintf := @sprintf auth_lib; sha256_hex := @sha256_hex auth_lib |}.
Example quoted_window_for_cluster_only :
  @policyPlanActive number_lib quoted_plan 7 = true /\ @admissionPlanActive number_lib quoted_plan 7 = false.
Proof. split; vm_compute; reflexivity. Qed.
