(* ===== verification/PolicyRemote.v ===== *)
(** * The decision point of the other services
    (internal/platform/policy_remote.go against internal/services/authorizationpolicy)

    A process that does not host the policy service asks it over HTTP.  The transport is an
    argument: any answer, or none.  [policy_endpoint] is the transport that delivers the
    question to the policy service, through the guards of its route and its handler, and the
    answer back. *)

From stdpp Require Import base gmap strings list fin_maps.
From Stdlib Require Import ZArith Lia Ascii.
From S2P Require Import Prelude GoValue Store EventBus Crud Tx RateLimit InputLimits Config Auth Guards Routing SchedulerHttp ServiceHttp Tables ServiceProjection PolicyIdentity PolicyRaw.
Local Open Scope Z_scope.
Local Open Scope go_scope.

(** The answer to a successful call (platform.Envelope). *)
Record envelope := Envelope_ { en_Success : bool; en_Data : object; en_RequestID : string; en_TraceID : string }.

(** encoding/json on the texts of the exchange. *)
Class RemoteLib := {
  encode_envelope : envelope -> string;
  unmarshal_envelope : string -> option (bool * string);   (* success and the raw text of data *)
  unmarshal_decision : string -> option Decision
}.

(** What the exchange relies on: texts that JSON can carry arrive unchanged, and a decision
    is read back from the envelope it was written to. *)
Class RemoteLaws `{GoLib} `{RemoteLib} (json_text : string -> Prop) := {
  question_law : forall m : gmap string string, (forall k t, m !! k = Some t -> json_text t) ->
    exists raw, marshal (VStringMap m) = Some raw /\ TrimSpace raw ≠ "" /\ unmarshal_object raw = Some (VString <$> m);
  answer_law : forall d requestID traceID, json_text (dec_Reason d) -> exists data,
    unmarshal_envelope (encode_envelope (Envelope_ true (decision_map d) requestID traceID)) = Some (true, data) /\
    data ≠ "" /\ unmarshal_decision data = Some d
}.

(** A POST with headers and body: an error, or the status and the body as far as it can be
    read. *)
Abbreviation transport := (gmap string string -> string -> result string (Z * result string string)).

Section Client.
Context `{GoLib} `{RemoteLib} {ip : Type} (cfg : config ip) (apiKey : string) (do : transport).

Definition decodeRemoteDecision (body : result string string) : option Decision :=
  match body with
  | Err _ => None
  | Ok raw =>
      match unmarshal_envelope raw with
      | Some (success, data) =>
          if negb (str_empty data) then if success then unmarshal_decision data else None
          else unmarshal_decision raw
      | None => unmarshal_decision raw
      end
  end.

Definition question (subject domain object_ action : string) : gmap string string :=
  {[ "sub" := subject; "dom" := domain; "obj" := object_; "act" := action ]}.

Definition request_headers : gmap string string :=
  let headers := (applyServiceIdentityHeaders cfg {[ "Content-Type" := "application/json" ]}).1 in
  if str_empty apiKey then headers else <["X-API-Key" := apiKey]> headers.

(** [None] is an error; the guard refuses then. *)
Definition RemotePDP_Enforce (subject domain object_ action : string) : option Decision :=
  match marshal (VStringMap (question subject domain object_ action)) with
  | None => None
  | Some body =>
      match do request_headers body with
      | Err _ => None
      | Ok (status, answer) =>
          if (status <? StatusOK) || (300 <=? status) then None
          else match decodeRemoteDecision answer with
               | None => None
               | Some d => Some (if str_empty (dec_Reason d)
                                 then Decision_ (dec_Allowed d) "remote authorization-policy-service decision" (dec_Version d) else d)
               end
      end
  end.

(** Whatever the network does, permission needs a decision that was decoded from a
    successful answer. *)
Lemma remote_fails_closed subject domain object_ action d :
  RemotePDP_Enforce subject domain object_ action = Some d -> dec_Allowed d = true ->
  exists body status answer d', do request_headers body = Ok (status, answer) /\ StatusOK <= status < 300 /\
    decodeRemoteDecision answer = Some d' /\ dec_Allowed d' = true.
Proof.
  unfold RemotePDP_Enforce. destruct (marshal _) as [body|]; [|done]. destruct (do _ body) as [[status answer]|e] eqn:Ed; [|done].
  destruct ((status <? StatusOK) || (300 <=? status)) eqn:Es; [done|]. destruct (decodeRemoteDecision answer) as [d'|] eqn:Edd; [|done].
  intros [= <-] Ha. exists body, status, answer, d'. split; [done|]. apply orb_false_iff in Es as [E1 E2]. split; [lia|]. split; [done|].
  by destruct (str_empty (dec_Reason d')).
Qed.
End Client.

(** ** The exchange with the policy service *)

Section Exchange.
Context `{GoLib} `{AuthLib} `{PolicyLib} `{RemoteLib} {ip : Type} `{NetLib ip} (client server : config ip) (apiKey : string).
Context (pdp : PDP) (st : guard_state) (a : app) (now : Z) (requestID traceID : string).

(** The route of the question, as the service's table has it. *)
Definition enforce_route : route :=
  catalog_route serviceName (Route "POST" "/api/v1/permissions/enforce" "permissions" "enforce" [ServiceInternal]).

(** The request that arrives. *)
Definition arriving (headers : gmap string string) (body : string) : request :=
  Request "POST" headers ∅ ∅ "" (Z.of_nat (String.length body)) (Some (BodyReader body None)) None None.

(** The request as the handler of the service sees it: it reads the body itself. *)
Definition enforce_request (r : request) : policy_request :=
  PolicyRequest (ServiceRequest r (Err (OtherError "read by the handler")) ∅ now (fun _ => "") (fun _ => ""))
    (match rq_Body r with
     | None => Ok ""
     | Some b => match ReadAll b with Ok text => Ok text | Err _ => Err "http: request body too large" end
     end).

(** The handler of App.wrap: the guards of the route, then the handler, and platform.WriteError or
    platform.WriteJSON of the outcome; a denial, and a body that is no map, carry no
    decision. *)
Definition policy_endpoint : transport := fun headers body =>
  match writeMiddlewareDenial server pdp now st (arriving headers body) enforce_route with
  | (_, _, Some d) => Ok (dn_status d, Ok (encode_envelope (Envelope_ false ∅ requestID traceID)))
  | (_, r, None) =>
      let '(status, answer) := (enforcePermission server a (enforce_request r)).2 in
      Ok (status, Ok (encode_envelope (Envelope_ (status <? 400) (match answer with BMap m => m | _ => ∅ end) requestID traceID)))
  end.

Context (json_text : string -> Prop) `{!RemoteLaws json_text}.

Lemma question_payload sub dom_ obj act k :
  (VString <$> question sub dom_ obj act : object) !! k =
  if String.eqb k "sub" then Some (VString sub) else if String.eqb k "dom" then Some (VString dom_)
  else if String.eqb k "obj" then Some (VString obj) else if String.eqb k "act" then Some (VString act) else None.
Proof.
  unfold question. rewrite lookup_fmap. repeat (case (String.eqb_spec k _); intros; [subst; reflexivity|]).
  rewrite !lookup_insert_ne by congruence. rewrite lookup_singleton_ne by congruence. done.
Qed.

Lemma text_of_question sub dom_ obj act : Trimmed sub -> Trimmed dom_ -> Trimmed obj -> Trimmed act ->
  permissionTuple (VString <$> question sub dom_ obj act) = (sub, dom_, obj, act).
Proof.
  intros T1 T2 T3 T4. unfold permissionTuple, TextValue. cbn [first_key]. unfold mget. rewrite !question_payload. cbn [String.eqb Ascii.eqb Bool.eqb default from_option id text_of].
  assert (forall t, Trimmed t -> default "" (match nonempty (TrimSpace t) with Some x => Some x | None => None end) = t) as Ht.
  { intros t Ht. rewrite (TrimSpace_fix _ Ht). unfold nonempty, str_empty. destruct (String.eqb_spec t "") as [->|]; done. }
  cbn. by rewrite !Ht.
Qed.

Lemma decoded_question sub dom_ obj act r raw :
  rq_Body r = Some (BodyReader raw (Some (EffectiveMaxAPIBodyBytes (cf_limits server)))) ->
  Z.of_nat (String.length raw) <= EffectiveMaxAPIBodyBytes (cf_limits server) ->
  TrimSpace raw ≠ "" -> unmarshal_object raw = Some (VString <$> question sub dom_ obj act : object) ->
  exists present, decodePayload (enforce_request r) = Ok (VString <$> question sub dom_ obj act, present).
Proof.
  intros Hr Hl Hb Hu. unfold decodePayload, readRequestBody. cbn [pq_raw enforce_request]. rewrite Hr. unfold ReadAll.
  cbn [br_limit br_bytes]. apply Z.ltb_ge in Hl. rewrite Hl. cbn [res_bind]. unfold str_empty.
  rewrite (proj2 (String.eqb_neq _ _) Hb), Hu. eauto.
Qed.

Lemma audience_any r audience :
  serviceRequestAuthorizedForAudience server r audience = true -> serviceRequestAuthorizedForAudience server r "" = true.
Proof.
  unfold serviceRequestAuthorizedForAudience, scopedServiceRequestAuthorized. destruct (negb _); [|done].
  destruct (_ !! _) as [trusted|]; [|done]. destruct (blank (sti_Key trusted)); [done|]. cbn zeta. by destruct (negb _).
Qed.

Lemma identity_headers_kept name r :
  name ∈ [serviceNameHeader; serviceKeyHeader] -> Header_Get (cleaned server r) name = Header_Get r name.
Proof.
  intros Hn. apply cleaned_header. unfold headerAPITokenID, headerUserID, headerUsername, headerUserRole, headerAdmin.
  rewrite !elem_of_cons, elem_of_nil in *. unfold serviceNameHeader, serviceKeyHeader in Hn. naive_solver discriminate.
Qed.

Lemma same_service r r' audience : (forall name, name ∈ [serviceNameHeader; serviceKeyHeader] -> Header_Get r name = Header_Get r' name) ->
  serviceRequestAuthorizedForAudience server r audience = serviceRequestAuthorizedForAudience server r' audience.
Proof.
  intros He. unfold serviceRequestAuthorizedForAudience, scopedServiceRequestAuthorized.
  rewrite (He serviceNameHeader), (He serviceKeyHeader) by (rewrite !elem_of_cons; tauto). reflexivity.
Qed.

(** The guards let the question through, with its body limited. *)
Lemma question_admitted headers raw :
  Z.of_nat (String.length raw) <= EffectiveMaxAPIBodyBytes (cf_limits server) ->
  serviceRequestAuthorizedForAudience server (arriving headers raw) serviceName = true ->
  acceptsServiceIdentity server = true ->
  exists st', writeMiddlewareDenial server pdp now st (arriving headers raw) enforce_route =
    (st', cleaned server (limited server (arriving headers raw) enforce_route), None).
Proof.
  intros Hl Hauth Hacc. unfold writeMiddlewareDenial. destruct (limitRequestBody server (arriving headers raw) enforce_route) as [r [d|]] eqn:El.
  { unfold limitRequestBody in El. cbn in El. apply Z.ltb_ge in Hl. rewrite Hl in El. done. }
  assert (limited server (arriving headers raw) enforce_route = r) as -> by (unfold limited; by rewrite El).
  assert (forall name, Header_Get r name = Header_Get (arriving headers raw) name) as Hh.
  { intros name. unfold limitRequestBody in El. cbn in El. destruct (_ <? _); by injection El as <-. }
  unfold requestGuards. cbn [run_guards]. unfold authn_guard, authorized. fold (cleaned server r).
  change (rt_AuthRequired enforce_route) with false. rewrite orb_true_r. cbn beta iota.
  unfold service_auth_guard. change (rt_ServiceAuthRequired enforce_route) with true. cbn [negb]. rewrite Hacc. cbn [negb].
  change (routeService enforce_route) with serviceName.
  rewrite (same_service _ (arriving headers raw)), Hauth by (intros name Hn; rewrite identity_headers_kept by done; apply Hh). cbn [negb].
  unfold admin_guard. change (rt_AuthRequired enforce_route) with false. rewrite andb_false_r. cbn [andb].
  unfold ratelimit_guard. change (rateLimitApplies enforce_route) with false. cbn [negb].
  unfold policy_guard. change (rt_AuthRequired enforce_route) with false. rewrite andb_false_r. cbn [andb]. by eexists.
Qed.

Lemma question_texts sub dom_ obj act k t : question sub dom_ obj act !! k = Some t -> t = sub \/ t = dom_ \/ t = obj \/ t = act.
Proof.
  intros Hk. pose proof (question_payload sub dom_ obj act k) as Hq. rewrite lookup_fmap, Hk in Hq. cbn in Hq.
  repeat (case_match; [injection Hq as ->; tauto|]). done.
Qed.

(** The caller's service identity, on the question it asks: one the policy service accepts
    for itself. *)
Definition identity_accepted : Prop :=
  acceptsServiceIdentity server = true /\
  serviceRequestAuthorizedForAudience server (Request "POST" (request_headers client apiKey) ∅ ∅ "" 0 None None None) serviceName = true.

(** A question the service guard does not let through has no answer. *)
Lemma unaccepted_undecided sub dom_ obj act :
  ~ identity_accepted -> RemotePDP_Enforce client apiKey policy_endpoint sub dom_ obj act = None.
Proof.
  intros Hn. unfold RemotePDP_Enforce. destruct (marshal _) as [raw|]; [|done]. unfold policy_endpoint.
  set (headers := request_headers client apiKey).
  destruct (writeMiddlewareDenial server pdp now st (arriving headers raw) enforce_route) as [[st' r'] d] eqn:Eg.
  assert (exists d', d = Some d' /\ 300 <= dn_status d') as (d' & -> & Hs).
  2: { cbn beta iota. apply Z.leb_le in Hs. by rewrite Hs, orb_true_r. }
  unfold writeMiddlewareDenial in Eg. destruct (limitRequestBody server (arriving headers raw) enforce_route) as [r [d0|]] eqn:El.
  { injection Eg as <- <- <-. exists d0. split; [done|]. unfold limitRequestBody in El. cbn in El. destruct (_ <? _); [|done]. by injection El as <- <-. }
  assert (forall name, Header_Get r name = Header_Get (arriving headers raw) name) as Hh.
  { intros name. unfold limitRequestBody in El. cbn in El. destruct (_ <? _); by injection El as <-. }
  unfold requestGuards in Eg. cbn [run_guards] in Eg. unfold authn_guard, authorized in Eg. fold (cleaned server r) in Eg.
  change (rt_AuthRequired enforce_route) with false in Eg. rewrite orb_true_r in Eg. cbn beta iota in Eg.
  unfold service_auth_guard in Eg at 1. change (rt_ServiceAuthRequired enforce_route) with true in Eg. cbn [negb] in Eg.
  destruct (acceptsServiceIdentity server) eqn:Ea; cbn [negb] in Eg; [|injection Eg as <- <- <-; by eexists].
  destruct (serviceRequestAuthorizedForAudience server (cleaned server r) (routeService enforce_route)) eqn:Es; cbn [negb] in Eg; [|injection Eg as <- <- <-; by eexists].
  exfalso. apply Hn. split; [done|]. rewrite <- Es. apply same_service. intros name Hnm. by rewrite identity_headers_kept, Hh.
Qed.

(** C8: Asking the policy service gives the same decision as being the policy service.  For
    any tuple of texts without surrounding blanks, with subject, object and action, whose
    question is within the body limit of the policy service, and a client whose service
    identity has the policy service among its audiences, the remote decision point, through
    the guards of the service's route and its handler, returns exactly the decision the policy
    service would take on its own store: allowed, reason and version.  Whatever the texts
    are, a client whose identity the policy service does not accept for that audience
    gets no decision at all, which the guard of the client takes as a refusal. *)
Theorem remote_decision_agrees sub dom_ obj act :
  (identity_accepted ->
   (forall t, t ∈ [sub; dom_; obj; act; "authorization-policy-service raw policy matched"; "authorization-policy-service raw policy denied"] -> json_text t) ->
   Trimmed sub -> Trimmed dom_ -> Trimmed obj -> Trimmed act -> sub ≠ "" -> obj ≠ "" -> act ≠ "" ->
   (forall raw, marshal (VStringMap (question sub dom_ obj act)) = Some raw -> Z.of_nat (String.length raw) <= EffectiveMaxAPIBodyBytes (cf_limits server)) ->
   RemotePDP_Enforce client apiKey policy_endpoint sub dom_ obj act = RawPolicyPDP_Enforce (app_Store a) sub dom_ obj act) /\
  (~ identity_accepted -> RemotePDP_Enforce client apiKey policy_endpoint sub dom_ obj act = None).
Proof.
  split; [|apply unaccepted_undecided].
  intros [Hacc Hauth] Hj T1 T2 T3 T4 N1 N3 N4 Hfit.
  destruct (question_law (question sub dom_ obj act)) as (raw & Hm & Hb & Hu).
  { intros k t Hk. apply Hj. eapply question_texts in Hk. rewrite !elem_of_cons. tauto. }
  specialize (Hfit raw Hm). set (headers := request_headers client apiKey).
  destruct (question_admitted headers raw Hfit Hauth Hacc) as [st' Hg].
  set (r := cleaned server (limited server (arriving headers raw) enforce_route)) in *.
  assert (rq_Body r = Some (BodyReader raw (Some (EffectiveMaxAPIBodyBytes (cf_limits server))))) as Hr.
  { unfold r. rewrite cleaned_body. unfold limited, limitRequestBody. cbn. apply Z.ltb_ge in Hfit. by rewrite Hfit. }
  destruct (decoded_question sub dom_ obj act r raw Hr Hfit Hb Hu) as [present Hdec].
  assert (serviceRequestAuthorizedForAudience server (sq_http (enforce_request r)) "" = true) as Ha.
  { apply (audience_any _ serviceName). rewrite <- Hauth. apply same_service. intros name Hn. cbn [sq_http enforce_request pq_service].
    unfold r. rewrite identity_headers_kept by done. unfold Header_Get. by rewrite (proj1 (limited_same server (arriving headers raw) enforce_route)). }
  assert (RawPolicyPDP_Enforce (app_Store a) sub dom_ obj act = Some (Decision_ (RawPermissionAllowed (app_Store a) sub dom_ obj act)
    (if RawPermissionAllowed (app_Store a) sub dom_ obj act then "authorization-policy-service raw policy matched" else "authorization-policy-service raw policy denied") 1)) as HR
    by (unfold RawPolicyPDP_Enforce; by destruct (RawPermissionAllowed _ _ _ _ _)).
  set (d := Decision_ _ _ 1) in HR.
  assert (enforcePermission server a (enforce_request r) = (a, (StatusOK, BMap (decision_map d)))) as He.
  { unfold enforcePermission. rewrite Ha. cbn [orb require guard_else handle res_bind]. rewrite Hdec. cbn beta iota.
    rewrite (text_of_question _ _ _ _ T1 T2 T3 T4). cbn beta iota. unfold str_empty.
    rewrite (proj2 (String.eqb_neq _ _) N1), (proj2 (String.eqb_neq _ _) N3), (proj2 (String.eqb_neq _ _) N4). cbn [orb negb require guard_else handle res_bind].
    by rewrite HR. }
  destruct (answer_law d requestID traceID) as (data & Henv & Hd & Hdd).
  { apply Hj. unfold d. cbn [dec_Reason]. rewrite !elem_of_cons. destruct (RawPermissionAllowed _ _ _ _ _); tauto. }
  unfold RemotePDP_Enforce. rewrite Hm. unfold policy_endpoint. fold headers. rewrite Hg, He. cbn [snd].
  change ((StatusOK <? StatusOK) || (300 <=? StatusOK)) with false. cbn beta iota. unfold decodeRemoteDecision.
  change (StatusOK <? 400) with true. rewrite Henv. unfold str_empty at 1. rewrite (proj2 (String.eqb_neq _ _) Hd). cbn [negb]. rewrite Hdd, HR.
  unfold d. by destruct (RawPermissionAllowed _ _ _ _ _).
Qed.
End Exchange.

(** ** An exchange *)

(** Texts that carry any countable value, as JSON carries the values of the exchange. *)
Fixpoint pos_text (p : BinNums.positive) : string :=
  match p with xH => "x" | xO p => String "0"%char (pos_text p) | xI p => String "1"%char (pos_text p) end.
Fixpoint text_pos (t : string) : option BinNums.positive :=
  match t with
  | String c "" => if Ascii.eqb c "x"%char then Some xH else None
  | String c t => if Ascii.eqb c "0"%char then xO <$> text_pos t else if Ascii.eqb c "1"%char then xI <$> text_pos t else None
  | _ => None
  end.

Lemma text_pos_text p : text_pos (pos_text p) = Some p.
Proof.
  assert (forall q, exists c t, pos_text q = String c t) as Hc by (intros [q|q|]; cbn; eauto).
  induction p as [p IH|p IH|]; [| |done]; cbn [pos_text text_pos]; destruct (Hc p) as (c & t & Hp); rewrite Hp in *; by rewrite IH.
Qed.

Lemma pos_text_graphic p : Forall (fun c => graphic c = true) (bytes_of (pos_text p)).
Proof. induction p as [p IH|p IH|]; cbn; by repeat constructor. Qed.

Definition carry {A} `{Countable A} (x : A) : string := pos_text (encode x).
Definition uncarry {A} `{Countable A} (t : string) : option A := text_pos t ≫= decode.

Lemma uncarry_carry {A} `{Countable A} (x : A) : uncarry (carry x) = Some x.
Proof. unfold uncarry, carry. rewrite text_pos_text. cbn. apply decode_encode. Qed.

Lemma carry_text {A} `{Countable A} (x : A) : TrimSpace (carry x) ≠ "" /\ carry x ≠ "".
Proof.
  assert (carry x ≠ "") as Hn by (unfold carry; by destruct (encode x)). split; [|done].
  rewrite TrimSpace_fix; [done|]. apply Trimmed_graphic, pos_text_graphic.
Qed.

Definition carry_lib : GoLib := {|
  parse_quantity := @parse_quantity auth_lib; parse_float := @parse_float auth_lib; parse_int64 := @parse_int64 auth_lib; parse_rfc3339 := @parse_rfc3339 auth_lib;
  format_rfc3339 := @format_rfc3339 auth_lib; time_string := @time_string auth_lib;
  unmarshal_object raw := (fmap VString : gmap string string -> object) <$> uncarry raw;
  unmarshal_objects := @unmarshal_objects auth_lib; unmarshal_strings := @unmarshal_strings auth_lib;
  marshal v := match v with VStringMap m => Some (carry m) | _ => None end;
  sprint := @sprint auth_lib; sprintf := @sprintf auth_lib; sha256_hex := @sha256_hex auth_lib |}.

Definition decision_of_map (m : object) : bool * string * Z :=
  (default false (as_bool (mget m "allowed")), default "" (as_str (mget m "reason")), match mget m "version" with VInt z => z | _ => 0 end).

Definition carry_remote : RemoteLib := {|
  encode_envelope e := carry (en_Success e, decision_of_map (en_Data e));
  unmarshal_envelope raw := match uncarry raw with Some (success, d) => Some ((success, carry (d : bool * string * Z)) : bool * string) | None => None end;
  unmarshal_decision data := match uncarry data with Some (allowed, reason, version) => Some (Decision_ allowed reason version) | None => None end |}.

Lemma decision_of_map_spec d : decision_of_map (decision_map d) = (dec_Allowed d, dec_Reason d, dec_Version d).
Proof.
  unfold decision_map, decision_of_map, str_empty. destruct d as [allowed reason version]. cbn [dec_Allowed dec_Reason dec_Version].
  destruct (String.eqb_spec reason "") as [->|]; reflexivity.
Qed.

Lemma carry_laws : @RemoteLaws carry_lib carry_remote (fun _ => True).
Proof.
  split.
  - intros m _. exists (carry m). destruct (carry_text m) as [Ht _]. cbn [marshal unmarshal_object carry_lib]. by rewrite uncarry_carry.
  - intros d q t _. exists (carry (dec_Allowed d, dec_Reason d, dec_Version d)). cbn [encode_envelope unmarshal_envelope unmarshal_decision carry_remote en_Success en_Data].
    rewrite decision_of_map_spec, uncarry_carry, uncarry_carry. destruct (carry_text (dec_Allowed d, dec_Reason d, dec_Version d)) as [_ Hn]. by destruct d.
Qed.

(** Two processes of one deployment: the policy service trusts the workload service, which may
    call it, and another service, which may not. *)
Definition pair_env_lib : EnvLib nat := {|
  ParseBool := @ParseBool nat demo_env_lib; Atoi := @Atoi nat demo_env_lib; ParseDuration _ := None; unmarshal_string_map _ := None;
  unmarshal_principals := @unmarshal_principals nat demo_env_lib;
  unmarshal_identities _ := Some {[ "workload-service" := TrustedIdentity "k" "" ["iam-unit"]; "usage-service" := TrustedIdentity "k2" "" ["workload-service"] ]};
  unmarshal_adapters _ := None; ParseCIDR _ := None; ParseHost _ := None; url_parts := @url_parts nat demo_env_lib |}.
Definition keyed_config (service key : string) : config nat := @ConfigFromEnv nat pair_env_lib
  {[ "SERVICE_NAME" := service; "SERVICE_IDENTITY_NAME" := service; envServiceAPIKey := key; "SERVICE_IDENTITY_KEY" := key; envServiceTrustedIdentities := "identities" ]}.
Definition holding_app : app := App_ (CreateRawPermissionPolicyRecord NewStore ["u1"; ""; "workload-service:jobs"; "list_jobs"] ∅ 1).1 NewEventBus.
Definition asked (caller key dom_ : string) : option Decision :=
  @RemotePDP_Enforce carry_lib carry_remote nat (keyed_config caller key) ""
    (@policy_endpoint carry_lib crypto_lib carry_remote nat net_lib (keyed_config serviceName "k3") NilPDP guard_start holding_app 7 "r" "t")
    "u1" dom_ "workload-service:jobs" "list_jobs".

Lemma remote_decision_agrees_witness :
  asked "workload-service" "k" "" = Some (Decision_ true "authorization-policy-service raw policy matched" 1) /\
  asked "usage-service" "k2" "" = None.
Proof.
  unfold asked. split.
  - rewrite (proj1 (@remote_decision_agrees carry_lib crypto_lib carry_remote nat net_lib (keyed_config "workload-service" "k") (keyed_config serviceName "k3") "" NilPDP guard_start holding_app 7 "r" "t"
             (fun _ => True) carry_laws "u1" "" "workload-service:jobs" "list_jobs")).
    + vm_compute. reflexivity.
    + split; vm_compute; reflexivity.
    + intros t _. exact I.
    + apply Trimmed_graphic. vm_compute. repeat constructor.
    + apply Trimmed_graphic. vm_compute. repeat constructor.
    + apply Trimmed_graphic. vm_compute. repeat constructor.
    + apply Trimmed_graphic. vm_compute. repeat constructor.
    + discriminate.
    + discriminate.
    + discriminate.
    + intros raw Hraw. change raw with (default "" (Some raw)). rewrite <- Hraw. apply Z.leb_le. vm_compute. reflexivity.
  - apply (proj2 (@remote_decision_agrees carry_lib crypto_lib carry_remote nat net_lib (keyed_config "usage-service" "k2") (keyed_config serviceName "k3") "" NilPDP guard_start holding_app 7 "r" "t"
             (fun _ => True) carry_laws "u1" "" "workload-service:jobs" "list_jobs")).
    intros [_ Ha]. vm_compute in Ha. discriminate Ha.
Defined.

(** Blanks around the domain are lost on the way to the service and kept by the local
    decision point: the two answers differ. *)
Example remote_trims_blanks :
  asked "workload-service" "k" " " = Some (Decision_ true "authorization-policy-service raw policy matched" 1) /\
  RawPolicyPDP_Enforce (app_Store holding_app) "u1" " " "workload-service:jobs" "list_jobs"
  = Some (Decision_ false "authorization-policy-service raw policy denied" 1).
Proof. split; vm_compute; reflexivity. Qed.
