(* ===== verification/OrgIdentity.v ===== *)
(** * Organisation and project service: handlers, identities and administrators
    (internal/services/orgproject: identity_projection.go, group_helpers.go)

    A handler of the service is a computation on the application that returns early with
    an answer, goes on with a value, or panics.  The service keeps copies of users and
    roles, fed by the events of the identity service; every question about a user first
    brings the copies up to date.  [observes] gives such a question its meaning as a
    function of the state, which a second reading does not change. *)

From stdpp Require Import base gmap strings list fin_maps.
From Stdlib Require Import ZArith Lia Ascii.
From S2P Require Import Prelude GoValue Store EventBus Crud Tx Projection InputLimits Config Auth Guards SchedulerHttp ServiceHttp Tables ServiceProjection PolicyIdentity.
Local Open Scope Z_scope.
Local Open Scope go_scope.

Definition serviceName : string := "org-project-service".
Definition groupsResource : string := serviceName +:+ ":groups".
Definition userGroupsResource : string := serviceName +:+ ":user_groups".
Definition gpuClaimsResource : string := serviceName +:+ ":gpu_claims".
Definition projectsResource : string := serviceName +:+ ":projects".
Definition projectMembersResource : string := serviceName +:+ ":project_members".
Definition projectUserQuotasResource : string := serviceName +:+ ":user_quotas".
Definition identityConsumer : string := serviceName +:+ ":identity_projection".
Definition orgIdentityUsers : string := serviceName +:+ ":identity_users".
Definition orgIdentityRoles : string := serviceName +:+ ":identity_roles".
Definition usersResource : string := "identity-service:users".
Definition rolesResource : string := "identity-service:roles".

Definition msgAdminAccessRequired : string := "admin access required".
Definition msgInvalidRequestBody : string := "invalid request body".
Definition msgGroupAdminRequired : string := "group admin access required".
Definition msgGroupMembership : string := "group membership required".
Definition msgGroupRecordNotFound : string := "group not found".
Definition msgGroupNotFound : string := "Group not found".
Definition msgProjectNotFound : string := "Project not found".
Definition msgProjectMemberNotFound : string := "project member not found".

(** ** Computations of the service *)

Inductive exit := Returns (resp : response) | Panics.

Definition org (A : Type) : Type := stm app exit A.

Definition refuse {A} (status : Z) (text : string) : org A := stm_fail (Returns (status, message text)).
Definition ensure (b : bool) (status : Z) (text : string) : org unit := if b then stm_ret tt else refuse status text.
Definition panic {A} : org A := stm_fail Panics.
Definition reads {A} (f : store -> A) : org A := fun a => (a, Ok (f (app_Store a))).
Definition writes {A} (f : app -> app * A) : org A := fun a => let '(a', x) := f a in (a', Ok x).

(** The answer of a handler, to its caller within the service and to the client: a panic
    ends the connection without an answer. *)
Definition answer (h : org response) : org response := fun a =>
  match h a with (a', Err (Returns resp)) => (a', Ok resp) | x => x end.
Definition serve (h : org response) (a : app) : app * option response :=
  match answer h a with (a', Ok resp) => (a', Some resp) | (a', Err _) => (a', None) end.

Fixpoint each {A B} (f : A -> org B) (l : list A) : org (list B) :=
  match l with
  | [] => stm_ret []
  | x :: l => y <-- f x ;; ys <-- each f l ;; stm_ret (y :: ys)
  end.
Definition select {A} (f : A -> org bool) (l : list A) : org (list A) :=
  keep <-- each f l ;; stm_ret (map fst (List.filter snd (combine l keep))).

(** ** Requests *)

Definition query (r : service_request) (name : string) : string := default "" (rq_Query (sq_http r) !! name).

Definition requireUser (r : service_request) : org string :=
  let userID := TrimSpace (sq_header r "X-User-ID") in
  if str_empty userID then refuse StatusUnauthorized "unauthorized" else stm_ret userID.

Definition decode (r : service_request) : org object :=
  match sq_body r with Ok payload => stm_ret payload | Err _ => refuse StatusBadRequest msgInvalidRequestBody end.

(** The event of the [k]th item of a request; two identifiers are drawn for each. *)
Definition eventFor (r : service_request) (k : nat) (name : string) (data : object) : event :=
  Event_ (sq_uuid r (2 * k)) name serviceName (sq_now r)
    (FirstNonBlank [sq_header r "X-Trace-ID"; sq_header r "X-Request-ID"; sq_uuid r (2 * k + 1)]) 1
    (sq_header r "Idempotency-Key") data.

(** ** The copies of users and roles *)

Definition identityKeys : list string := ["user_id"; "userId"; "UserID"].

Definition orgIdentityID (resource : string) (data : object) : string :=
  let id := TextValue data ["id"; "ID"] in
  let userID := TextValue data identityKeys in
  let name := TextValue data ["name"; "Name"] in
  if String.eqb resource orgIdentityRoles then FirstNonEmpty [id; name; userID] else FirstNonEmpty [id; userID; name].

(** identityProjectionSpec: the resource, and whether its row is deleted. *)
Definition orgIdentitySpec (name : string) : option (string * bool) :=
  let name := ToLower name in
  if bool_decide (name ∈ ["usercreated"; "userupdated"; "userdisabled"]) then Some (orgIdentityUsers, false)
  else if String.eqb name "userdeleted" then Some (orgIdentityUsers, true)
  else if bool_decide (name ∈ ["rolecreated"; "roleupdated"]) then Some (orgIdentityRoles, false)
  else if String.eqb name "roledeleted" then Some (orgIdentityRoles, true)
  else None.

Definition orgIdentityEventData (e : event) : object :=
  match mget (ev_Data e) "new" with VMap next => next | _ => ev_Data e end.

Definition saveOrgIdentity (s : store) (resource : string) (data : object) (now : Z) : store * option string :=
  let id := orgIdentityID resource data in
  if str_empty id then (s, None)
  else
    let data := <["id" := VString id]> data in
    match Update s resource id data now with
    | (s1, Some _) => (s1, None)
    | (s1, None) =>
        match Create s1 resource data "" now with
        | (s2, Ok _) => (s2, None)
        | (s2, Err _) =>
            match Update s2 resource id data now with
            | (s3, Some _) => (s3, None)
            | (s3, None) => (s3, Some ("org project identity projection conflict update missed for " +:+ resource +:+ "/" +:+ id))
            end
        end
    end.

Definition applyOrgIdentityEvent (now : Z) (s : store) (e : event) : store * option string :=
  match orgIdentitySpec (ev_Name e) with
  | None => (s, None)
  | Some (resource, deleted) =>
      let data := orgIdentityEventData e in
      if deleted then
        match as_bool (mget data "deleted") with
        | Some false => (s, None)
        | _ => ((Delete s resource (orgIdentityID resource data)).1, None)
        end
      else saveOrgIdentity s resource data now
  end.

Definition mergeOrgIdentityRows (resource : string) (source local : list object) : list object :=
  merge_records (orgIdentityID resource) source local.

Definition userIDFromMap (user : object) : string := TextValue user ["id"; "ID"; "user_id"; "userId"; "UID"; "uid"].

Definition userVisible (user : object) : bool :=
  negb (bool_decide (ToLower (TextValue user ["status"; "Status"]) ∈ ["disabled"; "deleted"; "delete"])).

Section Identity.
Context `{GoLib} {ip : Type} (cfg : config ip) (r : service_request).

Definition recordGrantsAdminPanel (data : object) : bool :=
  if BoolValue data ["admin_panel"; "adminPanel"; "AdminPanel"] then true
  else BoolValue (MapValue data ["capabilities"; "Capabilities"]) ["admin_panel"; "adminPanel"; "AdminPanel"].

(** The first row of the user decides. *)
Definition user_has_panel (users roles : list object) (userID : string) : bool :=
  match List.find (fun user => String.eqb (orgIdentityID orgIdentityUsers user) userID || String.eqb (TextValue user identityKeys) userID) users with
  | None => false
  | Some user =>
      recordGrantsAdminPanel user ||
      let roleID := TextValue user ["role_id"; "roleId"; "RoleID"; "role"; "Role"] in
      existsb (fun role => (String.eqb (orgIdentityID orgIdentityRoles role) roleID || String.eqb (TextValue role ["name"; "Name"]) roleID)
                           && recordGrantsAdminPanel role) roles
  end.

Definition sync (a : app) : app := run_service_projection (applyOrgIdentityEvent (sq_now r)) identityConsumer (sq_now r) a.
Definition syncOrgIdentity : org unit := writes (fun a => (sync a, tt)).

Definition orgRecordMaps (s : store) (resource : string) : list object := map record_map (List_ s resource).

Definition orgIdentitySourceCoHosted (sourceResource : string) : bool :=
  match before_colon (bytes_of sourceResource) with
  | Some owner => AllowsService cfg (of_bytes owner)
  | None => false
  end.

Definition identity_rows (localResource sourceResource : string) (s : store) : list object :=
  let local := orgRecordMaps s localResource in
  if negb (orgIdentitySourceCoHosted sourceResource) then local
  else
    let source := orgRecordMaps s sourceResource in
    match local with [] => source | _ => mergeOrgIdentityRows localResource source local end.

Definition orgIdentityRows (localResource sourceResource : string) : org (list object) :=
  syncOrgIdentity ;;; reads (identity_rows localResource sourceResource).

Definition userRows : org (list object) := orgIdentityRows orgIdentityUsers usersResource.

Definition named (id : string) (user : object) : bool :=
  String.eqb (userIDFromMap user) id || EqualFold (TextValue user ["username"; "email"]) id.
Definition findUser (id : string) : org (option object) :=
  users <-- userRows ;; stm_ret (List.find (named id) users).

Definition requestRoleGrantsAdminPanel : bool := cf_RequireAuth cfg && EqualFold (sq_header r "X-User-Role") "admin".

Definition hasAdminPanel (userID : string) : org bool :=
  if requestRoleGrantsAdminPanel then stm_ret true
  else
    roles <-- orgIdentityRows orgIdentityRoles rolesResource ;;
    users <-- orgIdentityRows orgIdentityUsers usersResource ;;
    stm_ret (user_has_panel users roles userID).

(** The users by identifier, name and address, in lower case: later rows win. *)
Definition lookup_keys (user : object) : list string :=
  List.filter (fun key => negb (str_empty key))
    (map (fun t => ToLower (TrimSpace t)) [userIDFromMap user; TextValue user ["username"]; TextValue user ["email"]]).
Definition userLookup : org (gmap string object) :=
  users <-- userRows ;;
  stm_ret (fold_left (fun out user => fold_left (fun out key => <[key := user]> out) (lookup_keys user) out) users ∅).


(** ** What a question about users changes *)

(** The copies brought up to date, any number of times. *)
Inductive settles : app -> app -> Prop :=
| settled a : settles a a
| settled_sync a a' : settles a a' -> settles a (sync a').

Lemma settles_trans a b c : settles a b -> settles b c -> settles a c.
Proof. intros H1 H2. induction H2; [exact H1|constructor; auto]. Qed.

Lemma settles_sync a a' : settles a a' -> app_Store (sync a') = app_Store (sync a).
Proof. induction 1 as [|a a' _ IH]; [done|]. rewrite <- IH. apply run_service_projection_twice. Qed.

(** The copies and the dead letters; no other record. *)
Definition identity_copy (res id : string) : Prop := res = orgIdentityUsers \/ res = orgIdentityRoles \/ res = deadLetterResource.

Lemma saveOrgIdentity_store s res data now : (saveOrgIdentity s res data now).1 = (upsertReadModel s res data (orgIdentityID res) now).1.
Proof.
  unfold saveOrgIdentity, upsertReadModel. cbn zeta. destruct (str_empty _); [done|]. destruct (Update _ _ _ _ _) as [s1 [rc|]]; [done|].
  destruct (Create _ _ _ _ _) as [s2 [rc|e]]; [done|]. by destruct (Update s2 _ _ _ _) as [s3 [rc|]].
Qed.

Lemma orgIdentitySpec_copy name res deleted : orgIdentitySpec name = Some (res, deleted) -> res = orgIdentityUsers \/ res = orgIdentityRoles.
Proof. unfold orgIdentitySpec. cbn zeta. repeat case_match; intros [= <- <-]; auto. Qed.

Lemma applyOrgIdentityEvent_frame now s e : frame identity_copy s (applyOrgIdentityEvent now s e).1.
Proof.
  unfold applyOrgIdentityEvent. destruct (orgIdentitySpec (ev_Name e)) as [[res deleted]|] eqn:E; [|apply frame_refl].
  apply orgIdentitySpec_copy in E. assert (forall s s', frame (in_resource res) s s' -> frame identity_copy s s') as Hw.
  { intros s1 s2. apply frame_weaken. intros r' i ->. unfold identity_copy. tauto. }
  destruct deleted; [|rewrite saveOrgIdentity_store; apply Hw, frame_upsertReadModel].
  assert (frame identity_copy s (Delete s res (orgIdentityID res (orgIdentityEventData e))).1) as HD.
  { apply Hw. eapply frame_weaken; [|apply frame_Delete]. by intros r' i [-> _]. }
  destruct (as_bool _) as [[]|]; cbn [fst]; [exact HD|apply frame_refl|exact HD].
Qed.

Lemma org_sync_frame a : frame identity_copy (app_Store a) (app_Store (sync a)).
Proof. apply run_service_projection_frame; [unfold identity_copy; tauto|]. intros s e. apply applyOrgIdentityEvent_frame. Qed.

(** The stores agree on the records the service owns. *)
Definition ownedResources : list string :=
  [groupsResource; userGroupsResource; gpuClaimsResource; projectsResource; projectMembersResource; projectUserQuotasResource].
Definition same_owned (s s' : store) : Prop := forall res, res ∈ ownedResources -> bucket s' res = bucket s res.

#[export] Instance same_owned_equivalence : Equivalence same_owned.
Proof.
  split; [by intros s res _|by intros s s' Hs res Hr; rewrite Hs|]. intros s1 s2 s3 H1 H2 res Hr. by rewrite H2, H1.
Qed.

Lemma frame_same_owned s s' : frame identity_copy s s' -> same_owned s s'.
Proof.
  intros Hf res Hr. apply map_eq. intros id. apply Hf. unfold identity_copy. intros Hc.
  assert (Forall (fun res => res ∉ [orgIdentityUsers; orgIdentityRoles; deadLetterResource]) ownedResources) as Hn
    by (apply (bool_decide_unpack _); vm_compute; exact I).
  rewrite Forall_forall in Hn. specialize (Hn res Hr).
  set_solver.
Qed.

Lemma settles_owned a a' : settles a a' -> same_owned (app_Store a) (app_Store a').
Proof.
  induction 1 as [|a a' _ IH]; [reflexivity|]. etransitivity; [exact IH|]. apply frame_same_owned, org_sync_frame.
Qed.

Lemma settles_frame a a' : settles a a' -> frame identity_copy (app_Store a) (app_Store a').
Proof. induction 1; [apply frame_refl|]. eapply frame_trans; [done|apply org_sync_frame]. Qed.

Lemma owned_Get s s' res id : same_owned s s' -> res ∈ ownedResources -> Get s' res id = Get s res id.
Proof. intros Hs Hr. unfold Get. by rewrite Hs. Qed.
Lemma owned_List s s' res : same_owned s s' -> res ∈ ownedResources -> List_ s' res = List_ s res.
Proof. intros Hs Hr. unfold List_. by rewrite Hs. Qed.

(** ** Questions *)

(** A function of the state that bringing the copies up to date does not change. *)
Definition stable {A} (f : app -> A) : Prop := forall a a', settles a a' -> f a' = f a.
(** The computation answers [f] and changes the copies only. *)
Definition observes {A} (c : org A) (f : app -> result exit A) : Prop :=
  (forall a, exists a', settles a a' /\ c a = (a', f a)) /\ stable f.

Lemma observes_ret {A} (x : A) : observes (stm_ret x) (fun _ => Ok x).
Proof. split; [|done]. intros a. exists a. split; [constructor|done]. Qed.
Lemma observes_fail {A} e : observes (stm_fail (A := A) e) (fun _ => Err e).
Proof. split; [|done]. intros a. exists a. split; [constructor|done]. Qed.

Lemma observes_bind {A B} (c : org A) (k : A -> org B) f g :
  observes c f -> (forall x, observes (k x) (g x)) -> observes (stm_bind c k) (fun a => res_bind (f a) (fun x => g x a)).
Proof.
  intros [Hc Hf] Hk. split.
  - intros a. destruct (Hc a) as (a1 & Hs1 & E1). unfold stm_bind. rewrite E1. destruct (f a) as [x|e]; cbn [res_bind]; [|eauto].
    destruct (Hk x) as [Hk1 Hg]. destruct (Hk1 a1) as (a2 & Hs2 & E2). exists a2. split; [by eapply settles_trans|].
    by rewrite E2, (Hg _ _ Hs1).
  - intros a a' Hs. rewrite (Hf _ _ Hs). destruct (f a) as [x|e]; [|done]. by apply Hk.
Qed.

Lemma observes_ext {A} (c : org A) f g : observes c f -> (forall a, f a = g a) -> observes c g.
Proof.
  intros [Hc Hf] He. split; [|intros a a' Hs; by rewrite <- !He, (Hf _ _ Hs)]. intros a. destruct (Hc a) as (a' & Hs & E). exists a'. by rewrite <- He.
Qed.

Lemma observes_reads {A} (f : store -> A) : (forall s s', same_owned s s' -> f s' = f s) -> observes (reads f) (fun a => Ok (f (app_Store a))).
Proof.
  intros Hf. split; [|intros a a' Hs; by rewrite (Hf _ _ (settles_owned _ _ Hs))]. intros a. exists a. split; [constructor|done].
Qed.

Lemma observes_if {A} (b : bool) (c1 c2 : org A) f1 f2 :
  observes c1 f1 -> observes c2 f2 -> observes (if b then c1 else c2) (fun a => if b then f1 a else f2 a).
Proof. by destruct b. Qed.
Lemma observes_option {A B} (x : option B) (k : B -> org A) (c : org A) f g :
  (forall y, observes (k y) (f y)) -> observes c g ->
  observes (match x with Some y => k y | None => c end) (fun a => match x with Some y => f y a | None => g a end).
Proof. by destruct x. Qed.

Lemma observes_each {A B} (f : A -> org B) g l :
  (forall x, observes (f x) (fun a => Ok (g x a))) -> observes (each f l) (fun a => Ok (map (fun x => g x a) l)).
Proof.
  intros Hf. induction l as [|x l IH]; cbn [each map]; [apply observes_ret|].
  eapply observes_ext; [eapply observes_bind; [apply Hf|]; intros y; eapply observes_bind; [apply IH|]; intros ys; apply observes_ret|].
  done.
Qed.

Lemma filter_combine {A} (p : A -> bool) l : map fst (List.filter snd (combine l (map p l))) = List.filter p l.
Proof. induction l as [|x l IH]; cbn; [done|]. destruct (p x); cbn; by rewrite IH. Qed.

Lemma observes_select {A} (f : A -> org bool) g l :
  (forall x, observes (f x) (fun a => Ok (g x a))) -> observes (select f l) (fun a => Ok (List.filter (fun x => g x a) l)).
Proof.
  intros Hf. eapply observes_ext; [eapply observes_bind; [by apply observes_each|]; intros keep; apply observes_ret|].
  intros a. cbn. by rewrite filter_combine.
Qed.

Lemma observes_ensure b status text : observes (ensure b status text) (fun _ => if b then Ok tt else Err (Returns (status, message text))).
Proof. destruct b; [apply observes_ret|apply observes_fail]. Qed.

(** ** Users and administrators *)

(** The rows of the copies, brought up to date. *)
Definition current_users (a : app) : list object := identity_rows orgIdentityUsers usersResource (app_Store (sync a)).
Definition user_named (a : app) (id : string) : option object := List.find (named id) (current_users a).
(** Who holds the admin panel. *)
Definition panel (a : app) (userID : string) : bool :=
  requestRoleGrantsAdminPanel ||
  user_has_panel (current_users a) (identity_rows orgIdentityRoles rolesResource (app_Store (sync a))) userID.

Lemma observes_rows local source : observes (orgIdentityRows local source) (fun a => Ok (identity_rows local source (app_Store (sync a)))).
Proof.
  split; [|intros a a' Hs; by rewrite (settles_sync _ _ Hs)]. intros a. exists (sync a). split; [by constructor; constructor|done].
Qed.

Lemma observes_userRows : observes userRows (fun a => Ok (current_users a)).
Proof. apply observes_rows. Qed.

Lemma observes_findUser id : observes (findUser id) (fun a => Ok (user_named a id)).
Proof. eapply observes_ext; [eapply observes_bind; [apply observes_rows|]; intros users; apply observes_ret|]. done. Qed.

Lemma observes_hasAdminPanel userID : observes (hasAdminPanel userID) (fun a => Ok (panel a userID)).
Proof.
  unfold hasAdminPanel, panel. destruct requestRoleGrantsAdminPanel; [by eapply observes_ext; [apply observes_ret|]|].
  eapply observes_ext; [eapply observes_bind; [apply observes_rows|]; intros roles; eapply observes_bind; [apply observes_rows|]; intros users; apply observes_ret|].
  done.
Qed.

Lemma stable_panel userID : stable (fun a => panel a userID).
Proof. intros a a' Hs. destruct (observes_hasAdminPanel userID) as [_ Hst]. specialize (Hst _ _ Hs). by injection Hst. Qed.

End Identity.
