(* ===== verification/OrgGroups.v ===== *)
(** * Organisation and project service: groups and memberships
    (internal/services/orgproject: org_project_group_gpu_repository.go,
    group_helpers.go, handler.go)

    The repository of groups, memberships and GPU claims over the record store, the
    helpers that look members up, and the handlers of the group routes. *)

From stdpp Require Import base gmap strings list fin_maps.
From Stdlib Require Import ZArith Lia Ascii.
From S2P Require Import Prelude GoValue Store EventBus Crud Tx Projection InputLimits Config Auth Guards SchedulerHttp ServiceHttp Tables ServiceProjection PolicyIdentity OrgIdentity.
Local Open Scope Z_scope.
Local Open Scope go_scope.

Definition allowedGroupRoles : list string := ["admin"; "manager"; "user"].
Definition groupIdKeys : list string := ["group_id"; "groupId"; "gid"; "g_id"].
Definition memberIdKeys : list string := ["user_id"; "userId"; "uid"; "u_id"].
Definition projectIdKeys : list string := ["project_id"; "projectId"].

Definition groupID (group : object) : string := TextValue group ["id"; "ID"; "gid"; "g_id"; "group_id"; "groupId"].
Definition membershipID (uid gid : string) : string := uid +:+ ":" +:+ gid.
Definition gpuClaimID (projectID namespace name : string) : string := projectID +:+ ":" +:+ namespace +:+ ":" +:+ name.
Definition normalizeRole (role : string) : string := ToLower (TrimSpace role).

(** ** Records as the repositories hand them out *)

Record platformRecord := PlatformRecord { pr_ID : string; pr_Data : object }.
Definition orgProjectGroupRecord : Type := platformRecord.
Definition orgProjectMembershipRecord : Type := platformRecord.
Definition orgProjectGPUClaimRecord : Type := platformRecord.

Definition recordDataWithID (rc : record) : object := record_map rc.
Definition groupRecordFromStore (rc : record) : orgProjectGroupRecord := PlatformRecord (rec_ID rc) (recordDataWithID rc).
Definition membershipRecordFromStore (rc : record) : orgProjectMembershipRecord := PlatformRecord (rec_ID rc) (recordDataWithID rc).
Definition gpuClaimRecordFromStore (rc : record) : orgProjectGPUClaimRecord := PlatformRecord (rec_ID rc) (recordDataWithID rc).
Definition membershipKeys (userID groupID : string) : list string := [membershipID userID groupID; userID +:+ "/" +:+ groupID].

(** The first of the keys that files a record. *)
Fixpoint get_first (s : store) (resource : string) (keys : list string) : option record :=
  match keys with
  | [] => None
  | key :: keys => match Get s resource key with Some rc => Some rc | None => get_first s resource keys end
  end.

(** ** Deleting the rows that match, counting them *)

Definition ids_where (s : store) (resource : string) (p : object -> bool) : list string :=
  map rec_ID (List.filter (fun rc => p (rec_Data rc)) (List_ s resource)).

Fixpoint delete_counted (resource : string) (ids : list string) (count : Z) (s : store) : store * Z :=
  match ids with
  | [] => (s, count)
  | id :: ids =>
      let '(s', deleted) := Delete s resource id in
      delete_counted resource ids (if deleted then count + 1 else count) s'
  end.

Fixpoint delete_counted_tx {E} (resource : string) (ids : list string) (count : Z) : tx_fn E Z :=
  match ids with
  | [] => stm_ret count
  | id :: ids =>
      deleted <-- tx_Delete resource id ;;
      delete_counted_tx resource ids (if deleted : bool then count + 1 else count)
  end.

Definition delete_where (resource : string) (p : object -> bool) (s : store) : store * Z :=
  delete_counted resource (ids_where s resource p) 0 s.
Definition delete_where_tx {E} (resource : string) (p : object -> bool) : tx_fn E Z :=
  fun t => delete_counted_tx resource (ids_where (tx_store t) resource p) 0 t.

(** A read of the store within a transaction. *)
Definition tx_reads {E A} (f : store -> A) : tx_fn E A := fun t => (t, Ok (f (tx_store t))).

(** ** The repository of groups *)

Definition ListGroups (s : store) : list orgProjectGroupRecord := map groupRecordFromStore (List_ s groupsResource).

Definition FindGroup (s : store) (id : string) : option orgProjectGroupRecord :=
  let id := TrimSpace id in
  if str_empty id then None
  else match Get s groupsResource id with
       | Some rc => Some (groupRecordFromStore rc)
       | None => List.find (fun group => String.eqb (groupID (pr_Data group)) id) (ListGroups s)
       end.

Definition CreateGroup (s : store) (group : object) (newID : string) (now : Z) : store * result create_conflict orgProjectGroupRecord :=
  match Create s groupsResource group newID now with
  | (s', Ok rc) => (s', Ok (groupRecordFromStore rc))
  | (s', Err e) => (s', Err e)
  end.

Definition CreateGroupWithEvent (a : app) (group : object) (build : record -> event) (newID : string) (now : Z)
    : app * result store_error orgProjectGroupRecord :=
  match CreateRecordWithEvent a groupsResource group (Some build) newID now with
  | (a', Ok rc) => (a', Ok (groupRecordFromStore rc))
  | (a', Err e) => (a', Err e)
  end.

(** The group before and after, when it was there. *)
Definition UpdateGroupWithEvent (a : app) (id : string) (update : object)
    (build : orgProjectGroupRecord -> orgProjectGroupRecord -> event) (now : Z)
    : app * result store_error (option (orgProjectGroupRecord * orgProjectGroupRecord)) :=
  match FindGroup (app_Store a) id with
  | None => (a, Ok None)
  | Some group =>
      match Get (app_Store a) groupsResource (pr_ID group) with
      | None => (a, Ok None)
      | Some old =>
          let oldRec := groupRecordFromStore old in
          match UpdateRecordWithEvent a groupsResource (pr_ID group) update (Some (fun rc => build oldRec (groupRecordFromStore rc))) now with
          | (a', Ok (Some rc)) => (a', Ok (Some (oldRec, groupRecordFromStore rc)))
          | (a', Ok None) => (a', Ok None)
          | (a', Err e) => (a', Err e)
          end
      end
  end.

Definition UpdateGroup (s : store) (id : string) (update : object) (now : Z) : store * option (orgProjectGroupRecord * orgProjectGroupRecord) :=
  match FindGroup s id with
  | None => (s, None)
  | Some group =>
      match Get s groupsResource (pr_ID group) with
      | None => (s, None)
      | Some old =>
          let '(s', updated) := Update s groupsResource (pr_ID group) update now in
          (s', (fun rc => (groupRecordFromStore old, groupRecordFromStore rc)) <$> updated)
      end
  end.

Definition of_group (groupID : string) (row : object) : bool := String.eqb (TextValue row groupIdKeys) groupID.
Definition DeleteMembershipsByGroup (s : store) (groupID : string) : store * Z := delete_where userGroupsResource (of_group groupID) s.
Definition deleteMembershipsByGroupTx {E} (groupID : string) : tx_fn E Z := delete_where_tx userGroupsResource (of_group groupID).

(** Members filed under the identifier of the data, where it differs. *)
Definition logical_id (group : orgProjectGroupRecord) : option string :=
  let logicalID := groupID (pr_Data group) in
  if negb (str_empty logicalID) && negb (String.eqb logicalID (pr_ID group)) then Some logicalID else None.

Definition DeleteGroupCascade (s : store) (id : string) : store * option (orgProjectGroupRecord * Z) :=
  match FindGroup s id with
  | None => (s, None)
  | Some group =>
      match Delete s groupsResource (pr_ID group) with
      | (s1, false) => (s1, None)
      | (s1, true) =>
          let '(s2, n) := DeleteMembershipsByGroup s1 (pr_ID group) in
          match logical_id group with
          | None => (s2, Some (group, n))
          | Some logicalID => let '(s3, m) := DeleteMembershipsByGroup s2 logicalID in (s3, Some (group, n + m))
          end
      end
  end.

Definition DeleteGroupCascadeTx {E} (id : string) : tx_fn E (option (orgProjectGroupRecord * Z)) :=
  found <-- tx_reads (fun s => FindGroup s id) ;;
  match found with
  | None => stm_ret None
  | Some group =>
      deleted <-- tx_Delete groupsResource (pr_ID group) ;;
      if deleted : bool then
        n <-- deleteMembershipsByGroupTx (pr_ID group) ;;
        match logical_id group with
        | None => stm_ret (Some (group, n))
        | Some logicalID => m <-- deleteMembershipsByGroupTx logicalID ;; stm_ret (Some (group, n + m))
        end
      else stm_ret None
  end.

Definition NextGroupID (s : store) : string * store := default (EmptyString, s) (NextID s groupsResource "G" 1 7).

(** ** The repository of memberships *)

Definition ListMemberships (s : store) : list orgProjectMembershipRecord := map membershipRecordFromStore (List_ s userGroupsResource).

Definition membership_matches (userID groupID : string) (rc : record) : bool :=
  String.eqb (TextValue (rec_Data rc) memberIdKeys) userID && String.eqb (TextValue (rec_Data rc) groupIdKeys) groupID.

(** By one of the composed keys, else by the row. *)
Definition membership_record (s : store) (userID groupID : string) : option record :=
  match get_first s userGroupsResource (membershipKeys userID groupID) with
  | Some rc => Some rc
  | None => List.find (membership_matches userID groupID) (List_ s userGroupsResource)
  end.
Definition FindMembership (s : store) (userID groupID : string) : option orgProjectMembershipRecord :=
  membershipRecordFromStore <$> membership_record s userID groupID.

Definition CreateMembership (s : store) (membership : object) (newID : string) (now : Z) : store * result create_conflict orgProjectMembershipRecord :=
  match Create s userGroupsResource membership newID now with
  | (s', Ok rc) => (s', Ok (membershipRecordFromStore rc))
  | (s', Err e) => (s', Err e)
  end.
Definition CreateMembershipTx (membership : object) (newID : string) (now : Z) : tx_fn create_conflict orgProjectMembershipRecord :=
  rc <-- tx_Create userGroupsResource membership newID now ;; stm_ret (membershipRecordFromStore rc).

Section Groups.
Context `{GoLib}.

Definition role_patch (role : string) (now : Z) : object := {[ "role" := VString role; "updated_at" := time_value now ]}.

Definition UpdateMembershipRole (s : store) (userID groupID role : string) (now : Z)
    : store * option (orgProjectMembershipRecord * orgProjectMembershipRecord) :=
  match FindMembership s userID groupID with
  | None => (s, None)
  | Some old =>
      let '(s', updated) := Update s userGroupsResource (pr_ID old) (role_patch role now) now in
      (s', (fun rc => (old, membershipRecordFromStore rc)) <$> updated)
  end.
Definition UpdateMembershipRoleTx {E} (userID groupID role : string) (now : Z)
    : tx_fn E (option (orgProjectMembershipRecord * orgProjectMembershipRecord)) :=
  found <-- tx_reads (fun s => FindMembership s userID groupID) ;;
  match found with
  | None => stm_ret None
  | Some old =>
      updated <-- tx_Update userGroupsResource (pr_ID old) (role_patch role now) now ;;
      stm_ret ((fun rc => (old, membershipRecordFromStore rc)) <$> updated)
  end.

Definition DeleteMembership (s : store) (userID groupID : string) : store * option orgProjectMembershipRecord :=
  match FindMembership s userID groupID with
  | None => (s, None)
  | Some membership =>
      let '(s', deleted) := Delete s userGroupsResource (pr_ID membership) in
      (s', if deleted then Some membership else None)
  end.
Definition DeleteMembershipTx {E} (userID groupID : string) : tx_fn E (option orgProjectMembershipRecord) :=
  found <-- tx_reads (fun s => FindMembership s userID groupID) ;;
  match found with
  | None => stm_ret None
  | Some membership =>
      deleted <-- tx_Delete userGroupsResource (pr_ID membership) ;;
      stm_ret (if deleted : bool then Some membership else None)
  end.

(** ** The repository of GPU claims *)

Definition of_project (projectID : string) (row : object) : bool := String.eqb (TextValue row projectIdKeys) projectID.

Definition ListGPUClaimsByProject (s : store) (projectID : string) : list orgProjectGPUClaimRecord :=
  map gpuClaimRecordFromStore (List.filter (fun rc => of_project projectID (rec_Data rc)) (List_ s gpuClaimsResource)).

Definition FindGPUClaim (s : store) (projectID name namespace : string) : option orgProjectGPUClaimRecord :=
  let by_key := if str_empty (TrimSpace namespace) then None else Get s gpuClaimsResource (gpuClaimID projectID namespace name) in
  match by_key with
  | Some rc => Some (gpuClaimRecordFromStore rc)
  | None => gpuClaimRecordFromStore <$>
              List.find (fun rc => of_project projectID (rec_Data rc) && String.eqb (TextValue (rec_Data rc) ["name"]) name)
                (List_ s gpuClaimsResource)
  end.

Definition CreateGPUClaim (s : store) (claim : object) (newID : string) (now : Z) : store * result create_conflict orgProjectGPUClaimRecord :=
  match Create s gpuClaimsResource claim newID now with
  | (s', Ok rc) => (s', Ok (gpuClaimRecordFromStore rc))
  | (s', Err e) => (s', Err e)
  end.
Definition CreateGPUClaimTx (claim : object) (newID : string) (now : Z) : tx_fn create_conflict orgProjectGPUClaimRecord :=
  rc <-- tx_Create gpuClaimsResource claim newID now ;; stm_ret (gpuClaimRecordFromStore rc).

Definition DeleteGPUClaim (s : store) (id : string) : store * option orgProjectGPUClaimRecord :=
  if str_empty (TrimSpace id) then (s, None)
  else match Get s gpuClaimsResource id with
       | None => (s, None)
       | Some rc => let '(s', deleted) := Delete s gpuClaimsResource id in (s', if deleted then Some (gpuClaimRecordFromStore rc) else None)
       end.
Definition DeleteGPUClaimTx {E} (id : string) : tx_fn E (option orgProjectGPUClaimRecord) :=
  if str_empty (TrimSpace id) then stm_ret None
  else
    found <-- tx_reads (fun s => Get s gpuClaimsResource id) ;;
    match found with
    | None => stm_ret None
    | Some rc => deleted <-- tx_Delete gpuClaimsResource id ;; stm_ret (if deleted : bool then Some (gpuClaimRecordFromStore rc) else None)
    end.

Definition DeleteGPUClaimsByProject (s : store) (projectID : string) : store * Z := delete_where gpuClaimsResource (of_project projectID) s.
Definition DeleteGPUClaimsByProjectTx {E} (projectID : string) : tx_fn E Z := delete_where_tx gpuClaimsResource (of_project projectID).

End Groups.
