(* ===== verification/OrgGroupHandlers.v ===== *)
(** * Organisation and project service: the group routes
    (internal/services/orgproject: group_helpers.go, handler.go) *)

From stdpp Require Import base gmap strings list fin_maps.
From Stdlib Require Import ZArith Lia Ascii.
From S2P Require Import Prelude GoValue Store EventBus Crud Tx Projection InputLimits Config Auth Guards SchedulerHttp ServiceHttp Tables ServiceProjection PolicyIdentity OrgIdentity OrgGroups.
Local Open Scope Z_scope.
Local Open Scope go_scope.

(** ** Pages *)

(** The digits of the text as a 64-bit number that wraps around. *)
Fixpoint digits_value (l : list ascii) (n : Z) : option Z :=
  match l with
  | [] => Some n
  | c :: l =>
      let v := Z.of_nat (nat_of_ascii c) in
      if (v <? 48) || (57 <? v) then None else digits_value l (i64 (i64 (n * 10) + (v - 48)))
  end.
Definition positiveInt (raw : string) (fallback : Z) : Z :=
  match digits_value (bytes_of raw) 0 with
  | None => fallback
  | Some n => if n <=? 0 then fallback else n
  end.

(** [rows[start:end]] panics unless [0 <= start <= end <= len(rows)]. *)
Definition slice {A} (rows : list A) (start stop : Z) : option (list A) :=
  if (0 <=? start) && (start <=? stop) && (stop <=? Z.of_nat (length rows))
  then Some (take (Z.to_nat (stop - start)) (drop (Z.to_nat start) rows)) else None.

Definition page_number (r : service_request) : Z := positiveInt (query r "page") 1.
Definition page_limit (r : service_request) : Z := positiveInt (FirstNonBlank [query r "limit"; query r "page_size"]) 20.

Definition pagedRows (r : service_request) (rows : list object) : option object :=
  let len := Z.of_nat (length rows) in
  let page := page_number r in
  let limit := page_limit r in
  let start0 := i64 (i64 (page - 1) * limit) in
  let start := if len <? start0 then len else start0 in
  let stop0 := i64 (start + limit) in
  let stop := if len <? stop0 then len else stop0 in
  list_ ← slice rows start stop;
  Some {[ "list" := VMaps list_; "total" := VInt len; "page" := VInt page; "page_size" := VInt limit ]}.

Definition or_panic {A} (x : option A) : org A := match x with Some x => stm_ret x | None => panic end.

(** ** Batches *)

(** The failures of a batch with their texts; the rest succeeded. *)
Record batch_count := BatchCount { bc_succeeded : Z; bc_failed : Z; bc_errors : list string }.
Definition batchResult : batch_count := BatchCount 0 0 [].
Definition count_item (b : batch_count) (failure : option string) : batch_count :=
  match failure with
  | Some text => BatchCount (bc_succeeded b) (bc_failed b + 1) (bc_errors b ++ [text])
  | None => BatchCount (bc_succeeded b + 1) (bc_failed b) (bc_errors b)
  end.
Definition batch_body (b : batch_count) : body :=
  BMap {[ "succeeded" := VInt (bc_succeeded b); "failed" := VInt (bc_failed b); "errors" := VStrings (bc_errors b) ]}.

Fixpoint batch {A} (step : nat -> A -> org (option string)) (k : nat) (items : list A) (b : batch_count) : org batch_count :=
  match items with
  | [] => stm_ret b
  | x :: items => failure <-- step k x ;; batch step (S k) items (count_item b failure)
  end.

(** The failure of an item: the message of its answer.  [data.(map[string]any)] panics on
    another body. *)
Definition item_failure (id : string) (resp : response) : org (option string) :=
  if 400 <=? resp.1
  then match resp.2 with
       | BMap data => stm_ret (Some (id +:+ ": " +:+ TextValue data ["message"]))
       | _ => panic
       end
  else stm_ret None.

Definition with_id (r : service_request) (id : string) : service_request :=
  ServiceRequest (sq_http r) (sq_body r) (<["id" := id]> (sq_path r)) (sq_now r) (sq_uuid r) (sq_newid r).

(** ** Values of requests *)

Section Values.
Context `{GoLib}.

Definition normalizeOptional (value : any) : string := match value with VNil => "" | _ => TrimSpace (sprint_item value) end.
Definition optionalText (data : object) (keys : list string) : string :=
  match firstPresent data keys with Some value => normalizeOptional value | None => "" end.
Definition firstNonNil (values : list any) : any :=
  default VNil (List.find (fun v => match v with VNil => false | _ => true end) values).
Definition normalizedHostPaths (payload : object) : list any :=
  match as_list (mget payload "allowed_host_paths") with
  | Some value => value
  | None => default [] (as_list (mget payload "allowedHostPaths"))
  end.

Fixpoint normalize_identifiers (input : list string) (seen : list string) : list string :=
  match input with
  | [] => []
  | raw :: input =>
      let item := TrimSpace raw in
      let key := ToLower item in
      if str_empty item || bool_decide (key ∈ seen) then normalize_identifiers input seen
      else item :: normalize_identifiers input (key :: seen)
  end.
Definition normalizeIdentifiers (input : list string) : list string := normalize_identifiers input [].

Definition strings (v : any) : list string := default [] (StringSlice v).

Definition validateOption (label value : string) (allowed : list string) : result string unit :=
  let value := TrimSpace value in
  if str_empty value || (length allowed =? 0)%nat then Ok tt
  else if existsb (fun option => EqualFold option value) allowed then Ok tt
  else Err ("invalid group policy option: " +:+ label +:+ " " +:+ value +:+ " is not configured").

Definition optionRows (options : list string) : list object :=
  map (fun option => ({[ "name" := VString option; "value" := VString option ]} : object)) options.

End Values.

Section Handlers.
Context `{GoLib} {ip : Type} (cfg : config ip).

Definition validateGroupPolicies (payload : object) : result string unit :=
  validateOption "storage class" (optionalText payload ["storage_class"; "storageClass"]) (cf_GroupStorageClassOptions cfg) ;;?
  validateOption "registry profile" (optionalText payload ["registry_profile"; "registryProfile"]) (cf_GroupRegistryProfileOptions cfg).

(** An error of a check is a bad request. *)
Definition checked (c : result string unit) : org unit := match c with Ok _ => stm_ret tt | Err text => refuse StatusBadRequest text end.

(** ** Looking up groups and members *)

Definition groupRows : org (list object) := reads (fun s => map pr_Data (ListGroups s)).
Definition membershipRows : org (list object) := reads (fun s => map pr_Data (ListMemberships s)).
Definition listMaps (resource : string) : org (list object) := reads (fun s => map record_map (List_ s resource)).
Definition findGroup (id : string) : org (option object) := reads (fun s => pr_Data <$> FindGroup s id).
Definition findUserGroupRecord (uid gid : string) : org (option platformRecord) := reads (fun s => FindMembership s uid gid).
Definition findUserGroup (uid gid : string) : org (option object) :=
  found <-- findUserGroupRecord uid gid ;; stm_ret (pr_Data <$> found).

Definition isGroupMember (uid gid : string) : org bool := found <-- findUserGroup uid gid ;; stm_ret (bool_decide (is_Some found)).

Definition isGroupAdmin (r : service_request) (uid gid : string) : org bool :=
  admin <-- hasAdminPanel cfg r uid ;;
  if admin : bool then stm_ret true
  else
    found <-- findUserGroup uid gid ;;
    stm_ret (match found with Some membership => String.eqb (TextValue membership ["role"]) "admin" | None => false end).

Definition decorateMembership (r : service_request) (membership : object) : org object :=
  let uid := TextValue membership memberIdKeys in
  let gid := TextValue membership groupIdKeys in
  user <-- findUser cfg r uid ;;
  let out := match user with
             | Some user => <["email" := VString (TextValue user ["email"; "Email"])]>
                              (<["username" := VString (TextValue user ["username"; "Username"])]> membership)
             | None => membership
             end in
  group <-- findGroup gid ;;
  let out := match group with
             | Some group => <["group_name" := VString (TextValue group ["group_name"; "groupName"; "name"])]> out
             | None => out
             end in
  stm_ret (<["group_id" := VString gid]> (<["user_id" := VString uid]> out)).

Definition by_username (x y : object) : bool := String.ltb (TextValue x ["username"]) (TextValue y ["username"]).

Definition membersForGroup (r : service_request) (gid : string) : org (list object) :=
  rows <-- membershipRows ;;
  out <-- each (decorateMembership r) (List.filter (of_group gid) rows) ;;
  stm_ret (SliceStable by_username out).

Definition formatByGroup (r : service_request) (gid : string) : org object :=
  group <-- findGroup gid ;;
  let groupName := match group with Some group => TextValue group ["group_name"; "groupName"; "name"] | None => "" end in
  users <-- membersForGroup r gid ;;
  stm_ret {[ gid := VMap {[ "group_id" := VString gid; "group_name" := VString groupName; "users" := VMaps users ]} ]}.

Definition newGroupID : org string := writes (fun a => let '(id, s) := NextGroupID (app_Store a) in (App_ s (app_Events a), id)).

(** ** Groups *)

Definition require_panel (r : service_request) (userID : string) : org unit :=
  admin <-- hasAdminPanel cfg r userID ;; ensure admin StatusForbidden msgAdminAccessRequired.

Definition listGroups (r : service_request) : org response :=
  userID <-- requireUser r ;;
  all <-- groupRows ;;
  visible <-- select (fun group =>
    admin <-- hasAdminPanel cfg r userID ;;
    if admin : bool then stm_ret true else isGroupMember userID (groupID group)) all ;;
  page <-- or_panic (pagedRows r visible) ;;
  stm_ret (StatusOK, BMap page).

Definition getGroup (r : service_request) : org response :=
  userID <-- requireUser r ;;
  let id := TrimSpace (PathValue r "id") in
  found <-- findGroup id ;;
  match found with
  | None => refuse StatusNotFound msgGroupNotFound
  | Some group =>
      admin <-- hasAdminPanel cfg r userID ;;
      member <-- (if admin : bool then stm_ret true else isGroupMember userID id) ;;
      ensure member StatusForbidden msgGroupMembership ;;;
      stm_ret (StatusOK, BMap group)
  end.

Definition groupPolicyOptions (r : service_request) : org response :=
  userID <-- requireUser r ;;
  require_panel r userID ;;;
  let storageClasses := optionRows (cf_GroupStorageClassOptions cfg) in
  let registryProfiles := optionRows (cf_GroupRegistryProfileOptions cfg) in
  stm_ret (StatusOK, BMap (list_to_map [("storage_classes", VMaps storageClasses); ("registry_profiles", VMaps registryProfiles);
    ("storageClassOptions", VMaps storageClasses); ("registryProfileOptions", VMaps registryProfiles);
    ("allowRunAsRootConfigurable", VBool true)])).

Definition group_name (data : object) : string :=
  FirstNonBlank [TextValue data ["group_name"; "groupName"]; TextValue data ["name"]].

Definition group_record (id name : string) (payload : object) (now : Z) : object :=
  list_to_map [("id", VString id); ("group_name", VString name); ("name", VString name);
    ("description", VString (TextValue payload ["description"]));
    ("storage_class", VString (optionalText payload ["storage_class"; "storageClass"]));
    ("registry_profile", VString (optionalText payload ["registry_profile"; "registryProfile"]));
    ("allow_run_as_root", VBool (BoolValue payload ["allow_run_as_root"; "allowRunAsRoot"]));
    ("allowed_host_paths", VList (normalizedHostPaths payload)); ("created_at", time_value now)].

Definition createGroup (r : service_request) : org response :=
  userID <-- requireUser r ;;
  require_panel r userID ;;;
  payload <-- decode r ;;
  let name := group_name payload in
  ensure (negb (str_empty name)) StatusBadRequest "group_name is required" ;;;
  checked (validateGroupPolicies payload) ;;;
  rows <-- groupRows ;;
  ensure (negb (existsb (fun group => EqualFold (TextValue group ["group_name"; "groupName"; "name"]) name) rows))
    StatusBadRequest "group already exists" ;;;
  drawn <-- newGroupID ;;
  let id := FirstNonBlank [TextValue payload ["id"; "gid"; "g_id"]; drawn] in
  created <-- writes (fun a => CreateGroupWithEvent a (group_record id name payload (sq_now r))
                                 (fun rc => eventFor r 0 "GroupCreated" (rec_Data rc)) (sq_newid r 0) (sq_now r)) ;;
  match created with
  | Ok group => stm_ret (StatusCreated, BMap (pr_Data group))
  | Err (EConflict _) => refuse StatusConflict "group already exists"
  | Err EPublish => refuse StatusInternalServerError "group could not be created"
  end.

Definition copied_group_fields : list string := ["description"; "storage_class"; "registry_profile"; "allow_run_as_root"; "allowed_host_paths"].

Definition group_patch (payload : object) (now : Z) : object :=
  let name := group_name payload in
  let named : object := if str_empty name then ∅ else {[ "group_name" := VString name; "name" := VString name ]} in
  let copied := fold_left (fun (out : object) key => match payload !! key with Some value => <[key := value]> out | None => out end)
                  copied_group_fields named in
  let classed := match payload !! "storageClass" with Some value => <["storage_class" := VString (normalizeOptional value)]> copied | None => copied end in
  let profiled := match payload !! "registryProfile" with Some value => <["registry_profile" := VString (normalizeOptional value)]> classed | None => classed end in
  <["updated_at" := time_value now]> profiled.

Definition updateGroup (r : service_request) : org response :=
  userID <-- requireUser r ;;
  require_panel r userID ;;;
  let id := TrimSpace (PathValue r "id") in
  found <-- findGroup id ;;
  ensure (bool_decide (is_Some found)) StatusNotFound msgGroupRecordNotFound ;;;
  payload <-- decode r ;;
  checked (validateGroupPolicies payload) ;;;
  updated <-- writes (fun a => UpdateGroupWithEvent a id (group_patch payload (sq_now r))
                       (fun old new => eventFor r 0 "GroupUpdated" {[ "old" := VMap (pr_Data old); "new" := VMap (pr_Data new) ]}) (sq_now r)) ;;
  match updated with
  | Ok (Some (_, group)) => stm_ret (StatusOK, BMap (pr_Data group))
  | _ => refuse StatusInternalServerError "group update failed"
  end.

(** A callback that reports a missing record as an error emits its event otherwise. *)
Definition emitting {E A} (c : tx_fn E (option A)) (missing : E) (ev : A -> event) : tx_fn E A :=
  found <-- c ;;
  match found with
  | None => stm_fail missing
  | Some x => tx_Emit (ev x) ;;; stm_ret x
  end.

Definition deleteGroup (r : service_request) (k : nat) : org response :=
  userID <-- requireUser r ;;
  require_panel r userID ;;;
  let id := TrimSpace (PathValue r "id") in
  found <-- findGroup id ;;
  ensure (bool_decide (is_Some found)) StatusNotFound msgGroupRecordNotFound ;;;
  deleted <-- writes (fun a => WithTx a (emitting (DeleteGroupCascadeTx id) msgGroupRecordNotFound
                                           (fun _ => eventFor r k "GroupDeleted" {[ "id" := VString id ]}))) ;;
  match deleted with
  | Ok _ => stm_ret (StatusOK, BNil)
  | Err _ => refuse StatusInternalServerError "group delete failed"
  end.

Definition batchDeleteGroups (r : service_request) : org response :=
  userID <-- requireUser r ;;
  require_panel r userID ;;;
  payload <-- decode r ;;
  result <-- batch (fun k id => resp <-- answer (deleteGroup (with_id r id) k) ;; item_failure id resp) 0
               (strings (mget payload "ids")) batchResult ;;
  stm_ret (StatusOK, batch_body result).

(** ** Memberships *)

Definition getUserGroup (r : service_request) : org response :=
  userID <-- requireUser r ;;
  let uid := FirstNonBlank [query r "u_id"; query r "uid"; query r "user_id"] in
  let gid := FirstNonBlank [query r "g_id"; query r "gid"; query r "group_id"] in
  if str_empty uid || str_empty gid then stm_ret (StatusOK, BValue (VList []))
  else
    allowed <-- (if String.eqb userID uid then stm_ret true
                 else admin <-- hasAdminPanel cfg r userID ;;
                      if admin : bool then stm_ret true else isGroupMember userID gid) ;;
    ensure allowed StatusForbidden msgGroupMembership ;;;
    found <-- findUserGroup uid gid ;;
    match found with
    | None => refuse StatusNotFound "Not found"
    | Some membership => out <-- decorateMembership r membership ;; stm_ret (StatusOK, BMap out)
    end.

Definition validateMembershipRequest (r : service_request) (actor uid gid role : string) : org unit :=
  ensure (negb (str_empty uid || str_empty gid || str_empty role)) StatusBadRequest "uid, gid and role are required" ;;;
  ensure (bool_decide (role ∈ allowedGroupRoles)) StatusBadRequest "role must be admin, manager or user" ;;;
  grant <-- (if String.eqb role "admin" then hasAdminPanel cfg r actor else stm_ret true) ;;
  ensure grant StatusForbidden "DB-backed admin panel access required" ;;;
  admin <-- isGroupAdmin r actor gid ;;
  ensure admin StatusForbidden msgGroupAdminRequired ;;;
  group <-- findGroup gid ;;
  ensure (bool_decide (is_Some group)) StatusNotFound msgGroupNotFound ;;;
  user <-- findUser cfg r uid ;;
  ensure (match user with Some user => userVisible user | None => false end) StatusBadRequest "user not assignable".

Definition updateExistingMembership (r : service_request) (k : nat) (existing : platformRecord) (uid gid role : string)
    : org (result (tx_error string) (platformRecord * platformRecord)) :=
  writes (fun a => WithTx a (emitting (UpdateMembershipRoleTx uid gid role (sq_now r)) "user group not found"
    (fun '(_, updated) => eventFor r k "GroupMembershipChanged" {[ "old" := VMap (pr_Data existing); "new" := VMap (pr_Data updated) ]}))).

Definition membership_row (uid gid role : string) (now : Z) : object :=
  list_to_map [("id", VString (membershipID uid gid)); ("user_id", VString uid); ("group_id", VString gid); ("role", VString role);
    ("created_at", time_value now); ("updated_at", time_value now)].

Definition createNewMembership (r : service_request) (k : nat) (uid gid role : string) : org (result (tx_error create_conflict) platformRecord) :=
  writes (fun a => WithTx a (
    created <-- CreateMembershipTx (membership_row uid gid role (sq_now r)) (sq_newid r k) (sq_now r) ;;
    tx_Emit (eventFor r k "GroupMembershipChanged"
      {[ "user_id" := VString uid; "group_id" := VString gid; "role" := VString role; "action" := VString "create" ]}) ;;;
    stm_ret created)).

Definition createMembership (r : service_request) (k : nat) (uid gid role : string) (upsert : bool) : org response :=
  actor <-- requireUser r ;;
  validateMembershipRequest r actor uid gid role ;;;
  found <-- findUserGroupRecord uid gid ;;
  match found with
  | Some existing =>
      if negb upsert then refuse StatusBadRequest "user group already exists"
      else
        updated <-- updateExistingMembership r k existing uid gid role ;;
        match updated with
        | Ok (_, record) => out <-- decorateMembership r (pr_Data record) ;; stm_ret (StatusOK, BMap out)
        | Err _ => refuse StatusInternalServerError "user group update failed"
        end
  | None =>
      created <-- createNewMembership r k uid gid role ;;
      match created with
      | Ok record => out <-- decorateMembership r (pr_Data record) ;; stm_ret (StatusOK, BMap out)
      | Err (TxCallback _) => refuse StatusConflict "user group already exists"
      | Err TxPublish => refuse StatusInternalServerError "user group could not be created"
      end
  end.

Definition payload_uid (payload : object) : string := FirstNonBlank [TextValue payload ["uid"; "u_id"]; TextValue payload ["user_id"; "userId"]].
Definition payload_gid (payload : object) : string := FirstNonBlank [TextValue payload ["gid"; "g_id"]; TextValue payload ["group_id"; "groupId"]].

Definition addUserToGroup (r : service_request) : org response :=
  payload <-- decode r ;;
  createMembership r 0 (payload_uid payload) (payload_gid payload) (normalizeRole (FirstNonBlank [TextValue payload ["role"]; "user"])) false.

Definition updateUserGroup (r : service_request) : org response :=
  payload <-- decode r ;;
  createMembership r 0 (payload_uid payload) (payload_gid payload) (normalizeRole (TextValue payload ["role"])) true.

Definition removeUserFromGroup (r : service_request) : org response :=
  actor <-- requireUser r ;;
  let uid := FirstNonBlank [query r "uid"; query r "u_id"; query r "user_id"] in
  let gid := FirstNonBlank [query r "gid"; query r "g_id"; query r "group_id"] in
  ensure (negb (str_empty uid || str_empty gid)) StatusBadRequest "uid and gid are required" ;;;
  admin <-- isGroupAdmin r actor gid ;;
  ensure admin StatusForbidden msgGroupAdminRequired ;;;
  found <-- findUserGroupRecord uid gid ;;
  ensure (bool_decide (is_Some found)) StatusNotFound "Not found" ;;;
  deleted <-- writes (fun a => WithTx a (emitting (DeleteMembershipTx uid gid) "membership not found"
    (fun _ => eventFor r 0 "GroupMembershipChanged" {[ "user_id" := VString uid; "group_id" := VString gid; "action" := VString "delete" ]}))) ;;
  match deleted with
  | Ok _ => stm_ret (StatusOK, BNil)
  | Err _ => refuse StatusInternalServerError "user group delete failed"
  end.

Definition batchAddMembers (r : service_request) : org response :=
  payload <-- decode r ;;
  let gid := payload_gid payload in
  let role := normalizeRole (TextValue payload ["role"]) in
  let userIDs := strings (firstNonNil [mget payload "user_ids"; mget payload "userIds"]) in
  ensure (negb (str_empty gid || str_empty role || (length userIDs =? 0)%nat)) StatusBadRequest "gid, role and user_ids are required" ;;;
  result <-- batch (fun k uid => resp <-- answer (createMembership r k uid gid role false) ;; item_failure uid resp) 0 userIDs batchResult ;;
  stm_ret (StatusOK, batch_body result).

Definition require_member (r : service_request) (userID gid : string) : org unit :=
  member <-- isGroupMember userID gid ;;
  allowed <-- (if member : bool then stm_ret true else hasAdminPanel cfg r userID) ;;
  ensure allowed StatusForbidden msgGroupMembership.

Definition userGroupsByGroup (r : service_request) : org response :=
  userID <-- requireUser r ;;
  let gid := FirstNonBlank [query r "g_id"; query r "gid"; query r "group_id"] in
  ensure (negb (str_empty gid)) StatusBadRequest "Missing g_id" ;;;
  require_member r userID gid ;;;
  out <-- formatByGroup r gid ;;
  stm_ret (StatusOK, BMap out).

Definition userGroupsByUser (r : service_request) : org response :=
  userID <-- requireUser r ;;
  let uid := FirstNonBlank [query r "u_id"; query r "uid"; query r "user_id"] in
  ensure (negb (str_empty uid)) StatusBadRequest "Missing u_id" ;;;
  allowed <-- (if String.eqb uid userID then stm_ret true else hasAdminPanel cfg r userID) ;;
  ensure allowed StatusForbidden "user self or admin access required" ;;;
  rows <-- membershipRows ;;
  out <-- each (decorateMembership r) (List.filter (fun m => String.eqb (TextValue m memberIdKeys) uid) rows) ;;
  stm_ret (StatusOK, BMaps out).

Definition groupMembers (r : service_request) : org response :=
  userID <-- requireUser r ;;
  let gid := TrimSpace (PathValue r "group_id") in
  require_member r userID gid ;;;
  out <-- membersForGroup r gid ;;
  stm_ret (StatusOK, BMaps out).

(** The users outside the members that may be added. *)
Definition available_users (current users : list object) : list object :=
  let excluded := map (fun member => TextValue member ["user_id"; "userId"]) current in
  List.filter (fun user => negb (str_empty (userIDFromMap user)) && negb (bool_decide (userIDFromMap user ∈ excluded)) && userVisible user) users.

Definition addMembersContext (r : service_request) : org response :=
  userID <-- requireUser r ;;
  let gid := TrimSpace (PathValue r "group_id") in
  admin <-- isGroupAdmin r userID gid ;;
  ensure admin StatusForbidden msgGroupAdminRequired ;;;
  found <-- findGroup gid ;;
  match found with
  | None => refuse StatusNotFound msgGroupNotFound
  | Some group =>
      current <-- membersForGroup r gid ;;
      users <-- userRows cfg r ;;
      page <-- or_panic (pagedRows r (available_users current users)) ;;
      stm_ret (StatusOK, BMap {[ "group" := VMap group; "current_members" := VMaps current; "available_users" := VMap page ]})
  end.

(** The identifiers sorted into users to add, unknown ones and members. *)
Record resolution := Resolution { rs_resolved : list object; rs_unresolved : list string; rs_already : list object; rs_seen : list string }.

Definition resolve_identifier (users : gmap string object) (already : list string) (out : resolution) (identifier : string) : resolution :=
  match users !! ToLower identifier with
  | Some user =>
      if negb (userVisible user) then Resolution (rs_resolved out) (rs_unresolved out ++ [identifier]) (rs_already out) (rs_seen out)
      else
        let id := userIDFromMap user in
        if bool_decide (id ∈ rs_seen out) then out
        else if bool_decide (id ∈ already)
        then Resolution (rs_resolved out) (rs_unresolved out) (rs_already out ++ [user]) (id :: rs_seen out)
        else Resolution (rs_resolved out ++ [user]) (rs_unresolved out) (rs_already out) (id :: rs_seen out)
  | None => Resolution (rs_resolved out) (rs_unresolved out ++ [identifier]) (rs_already out) (rs_seen out)
  end.

Definition resolveAddMembers (r : service_request) : org response :=
  userID <-- requireUser r ;;
  let gid := TrimSpace (PathValue r "group_id") in
  admin <-- isGroupAdmin r userID gid ;;
  ensure admin StatusForbidden msgGroupAdminRequired ;;;
  found <-- findGroup gid ;;
  ensure (bool_decide (is_Some found)) StatusNotFound msgGroupNotFound ;;;
  let payload := match sq_body r with Ok payload => payload | Err _ => ∅ end in
  let identifiers := normalizeIdentifiers (strings (mget payload "identifiers")) in
  rows <-- membershipRows ;;
  let already := map (fun member => TextValue member memberIdKeys) (List.filter (of_group gid) rows) in
  users <-- userLookup cfg r ;;
  let out := fold_left (resolve_identifier users already) identifiers (Resolution [] [] [] []) in
  stm_ret (StatusOK, BMap {[ "resolved" := VMaps (rs_resolved out); "unresolved" := VStrings (rs_unresolved out);
                             "already_members" := VMaps (rs_already out) ]}).

End Handlers.
