(* ===== verification/OrgProjects.v ===== *)
(** * Organisation and project service: the repository of projects
    (internal/services/orgproject: project_repository.go, and the record helpers of
    project_helpers.go)

    Projects, their direct members and the quotas of users in projects, over the record
    store; each operation that a handler runs in a transaction has a variant outside of
    one. *)

From stdpp Require Import base gmap strings list fin_maps.
From Stdlib Require Import ZArith Lia Ascii.
From S2P Require Import Prelude GoValue Store EventBus Crud Tx Projection InputLimits Config Auth Guards SchedulerHttp ServiceHttp Tables ServiceProjection PolicyIdentity OrgIdentity OrgGroups.
Local Open Scope Z_scope.
Local Open Scope go_scope.

Definition projectID (project : object) : string := TextValue project ["id"; "ID"; "p_id"; "PID"; "project_id"; "projectId"].
Definition projectMemberID (projectID userID : string) : string := projectID +:+ ":" +:+ userID.
Definition projectQuotaID (projectID userID : string) : string := projectID +:+ ":" +:+ userID.
Definition compositeProjectUserKeys (projectID userID : string) : list string := [projectMemberID projectID userID; projectID +:+ "/" +:+ userID].
Definition directUserKeys : list string := ["user_id"; "userId"].
Definition ownerKeys : list string := ["owner_id"; "ownerId"; "GID"; "g_id"].
Definition planKeys : list string := ["plan_id"; "planId"; "resource_plan_id"; "resourcePlanId"].

Definition orgProjectRecord : Type := platformRecord.
Definition orgProjectMemberRecord : Type := platformRecord.
Definition orgProjectQuotaRecord : Type := platformRecord.
Record orgProjectDeleteResult := DeleteResult { dr_ProjectMembers : Z; dr_UserQuotas : Z; dr_GPUClaims : Z }.
Record orgProjectPlanUpdate := PlanUpdate { pu_Old : orgProjectRecord; pu_New : orgProjectRecord }.

(** Several fields of a record with one value. *)
Definition set_fields (keys : list string) (value : any) (data : object) : object := fold_left (fun d key => <[key := value]> d) keys data.

Definition normalizeProjectRecord (data : object) (id0 : string) : object :=
  let id := FirstNonBlank [id0; projectID data] in
  let name := FirstNonBlank [TextValue data ["project_name"; "ProjectName"]; TextValue data ["name"]] in
  let ownerID := FirstNonBlank [TextValue data ["owner_id"; "ownerId"]; TextValue data ["g_id"; "gid"; "GID"]] in
  let project := if str_empty id then data else set_fields ["id"; "p_id"; "PID"; "project_id"] (VString id) data in
  let project := if str_empty name then project else set_fields ["project_name"; "ProjectName"; "name"] (VString name) project in
  if str_empty ownerID then project else set_fields ["owner_id"; "GID"; "g_id"] (VString ownerID) project.

Definition projectRecordFromStore (rc : record) : orgProjectRecord := PlatformRecord (rec_ID rc) (normalizeProjectRecord (rec_Data rc) (rec_ID rc)).
Definition memberRecordFromStore (rc : record) : orgProjectMemberRecord := PlatformRecord (rec_ID rc) (recordDataWithID rc).
Definition quotaRecordFromStore (rc : record) : orgProjectQuotaRecord := PlatformRecord (rec_ID rc) (recordDataWithID rc).

(** ** Projects *)

Definition ListProjects (s : store) : list orgProjectRecord := map projectRecordFromStore (List_ s projectsResource).

Definition FindProject (s : store) (id : string) : option orgProjectRecord :=
  let id := TrimSpace id in
  if str_empty id then None
  else match Get s projectsResource id with
       | Some rc => Some (projectRecordFromStore rc)
       | None => List.find (fun project => String.eqb (projectID (pr_Data project)) id) (ListProjects s)
       end.

Definition CreateProject (s : store) (project : object) (newID : string) (now : Z) : store * result create_conflict orgProjectRecord :=
  match Create s projectsResource project newID now with
  | (s', Ok rc) => (s', Ok (projectRecordFromStore rc))
  | (s', Err e) => (s', Err e)
  end.
Definition CreateProjectWithEvent (a : app) (project : object) (build : record -> event) (newID : string) (now : Z)
    : app * result store_error orgProjectRecord :=
  match CreateRecordWithEvent a projectsResource project (Some build) newID now with
  | (a', Ok rc) => (a', Ok (projectRecordFromStore rc))
  | (a', Err e) => (a', Err e)
  end.

(** The record is addressed by its own identifier. *)
Definition UpdateProjectWithEvent (a : app) (id : string) (update : object) (build : orgProjectRecord -> orgProjectRecord -> event) (now : Z)
    : app * result store_error (option (orgProjectRecord * orgProjectRecord)) :=
  match Get (app_Store a) projectsResource id with
  | None => (a, Ok None)
  | Some old =>
      let oldRec := projectRecordFromStore old in
      match UpdateRecordWithEvent a projectsResource id update (Some (fun rc => build oldRec (projectRecordFromStore rc))) now with
      | (a', Ok (Some rc)) => (a', Ok (Some (oldRec, projectRecordFromStore rc)))
      | (a', Ok None) => (a', Ok None)
      | (a', Err e) => (a', Err e)
      end
  end.
Definition UpdateProject (s : store) (id : string) (update : object) (now : Z) : store * option (orgProjectRecord * orgProjectRecord) :=
  match Get s projectsResource id with
  | None => (s, None)
  | Some old =>
      let '(s', updated) := Update s projectsResource id update now in
      (s', (fun rc => (projectRecordFromStore old, projectRecordFromStore rc)) <$> updated)
  end.
(** ... the same within a transaction. *)
Definition update_project_tx {E} (id : string) (update : object) (now : Z) : tx_fn E (option (orgProjectRecord * orgProjectRecord)) :=
  found <-- tx_reads (fun s => Get s projectsResource id) ;;
  match found with
  | None => stm_ret None
  | Some old =>
      updated <-- tx_Update projectsResource id update now ;;
      stm_ret ((fun rc => (projectRecordFromStore old, projectRecordFromStore rc)) <$> updated)
  end.

Definition NextProjectID (s : store) : string * store := default (EmptyString, s) (NextID s projectsResource "P" 1 8).

Section Repository.
Context `{GoLib}.

Definition workspace_patch (seconds now : Z) : object :=
  {[ "max_ide_runtime_seconds" := VInt seconds; "MaxIDERuntimeSeconds" := VInt seconds; "updated_at" := time_value now ]}.
Definition UpdateWorkspaceSettings (s : store) (projectID : string) (seconds now : Z) := UpdateProject s projectID (workspace_patch seconds now) now.
Definition UpdateWorkspaceSettingsTx {E} (projectID : string) (seconds now : Z) := update_project_tx (E := E) projectID (workspace_patch seconds now) now.

Definition plan_patch (planID : string) (now : Z) : object :=
  {[ "plan_id" := VString planID; "resource_plan_id" := VString planID; "updated_at" := time_value now ]}.
Definition BindProjectPlan (s : store) (projectID planID : string) (now : Z) := UpdateProject s projectID (plan_patch planID now) now.
Definition BindProjectPlanTx {E} (projectID planID : string) (now : Z) := update_project_tx (E := E) projectID (plan_patch planID now) now.

(** ** Deleting a project *)

Definition projectRowBelongsTo (canonicalProjectID requestedProjectID : string) (row : object) : bool :=
  let rowProjectID := TextValue row projectIdKeys in
  String.eqb rowProjectID canonicalProjectID || String.eqb rowProjectID requestedProjectID.

Definition DeleteProjectCascade (s : store) (projectID : string) : store * option (orgProjectRecord * orgProjectDeleteResult) :=
  match FindProject s projectID with
  | None => (s, None)
  | Some project =>
      let s := (Delete s projectsResource (pr_ID project)).1 in
      let '(s, members) := delete_where projectMembersResource (projectRowBelongsTo (pr_ID project) projectID) s in
      let '(s, quotas) := delete_where projectUserQuotasResource (projectRowBelongsTo (pr_ID project) projectID) s in
      let '(s, claims) := DeleteGPUClaimsByProject s (pr_ID project) in
      (s, Some (project, DeleteResult members quotas claims))
  end.

Definition deleteProjectOwnedRowsTx {E} (resource canonicalProjectID requestedProjectID : string) : tx_fn E Z :=
  delete_where_tx resource (projectRowBelongsTo canonicalProjectID requestedProjectID).

Definition DeleteProjectCascadeTx {E} (projectID : string) : tx_fn E (option (orgProjectRecord * orgProjectDeleteResult)) :=
  found <-- tx_reads (fun s => FindProject s projectID) ;;
  match found with
  | None => stm_ret None
  | Some project =>
      deleted <-- tx_Delete projectsResource (pr_ID project) ;;
      if deleted : bool then
        members <-- deleteProjectOwnedRowsTx projectMembersResource (pr_ID project) projectID ;;
        quotas <-- deleteProjectOwnedRowsTx projectUserQuotasResource (pr_ID project) projectID ;;
        claims <-- DeleteGPUClaimsByProjectTx (pr_ID project) ;;
        stm_ret (Some (project, DeleteResult members quotas claims))
      else stm_ret None
  end.

(** ** Direct members *)

Definition row_matches (projectID userID : string) (rc : record) : bool :=
  String.eqb (TextValue (rec_Data rc) projectIdKeys) projectID && String.eqb (TextValue (rec_Data rc) directUserKeys) userID.

(** By one of the composed keys, else by the row. *)
Definition project_user_record (resource : string) (s : store) (projectID userID : string) : option record :=
  match get_first s resource (compositeProjectUserKeys projectID userID) with
  | Some rc => Some rc
  | None => List.find (row_matches projectID userID) (List_ s resource)
  end.
Definition FindDirectProjectMember (s : store) (projectID userID : string) : option orgProjectMemberRecord :=
  memberRecordFromStore <$> project_user_record projectMembersResource s projectID userID.

Definition CreateDirectProjectMember (s : store) (member : object) (newID : string) (now : Z) : store * result create_conflict orgProjectMemberRecord :=
  match Create s projectMembersResource member newID now with
  | (s', Ok rc) => (s', Ok (memberRecordFromStore rc))
  | (s', Err e) => (s', Err e)
  end.
Definition CreateDirectProjectMemberTx (member : object) (newID : string) (now : Z) : tx_fn create_conflict orgProjectMemberRecord :=
  rc <-- tx_Create projectMembersResource member newID now ;; stm_ret (memberRecordFromStore rc).

Definition UpdateDirectProjectMemberRole (s : store) (projectID userID role : string) (now : Z)
    : store * option (orgProjectMemberRecord * orgProjectMemberRecord) :=
  match FindDirectProjectMember s projectID userID with
  | None => (s, None)
  | Some old =>
      let '(s', updated) := Update s projectMembersResource (pr_ID old) (role_patch role now) now in
      (s', (fun rc => (old, memberRecordFromStore rc)) <$> updated)
  end.
Definition UpdateDirectProjectMemberRoleTx {E} (projectID userID role : string) (now : Z)
    : tx_fn E (option (orgProjectMemberRecord * orgProjectMemberRecord)) :=
  found <-- tx_reads (fun s => FindDirectProjectMember s projectID userID) ;;
  match found with
  | None => stm_ret None
  | Some old =>
      updated <-- tx_Update projectMembersResource (pr_ID old) (role_patch role now) now ;;
      stm_ret ((fun rc => (old, memberRecordFromStore rc)) <$> updated)
  end.

(** ** Quotas *)

Definition GetProjectUserQuota (s : store) (projectID userID : string) : option orgProjectQuotaRecord :=
  quotaRecordFromStore <$> project_user_record projectUserQuotasResource s projectID userID.

Definition UpsertProjectUserQuota (s : store) (quota : object) (newID : string) (now : Z) : store * result create_conflict orgProjectQuotaRecord :=
  let id := TextValue quota ["id"] in
  match Update s projectUserQuotasResource id quota now with
  | (s', Some rc) => (s', Ok (quotaRecordFromStore rc))
  | (s', None) =>
      match Create s' projectUserQuotasResource quota newID now with
      | (s'', Ok rc) => (s'', Ok (quotaRecordFromStore rc))
      | (s'', Err e) => (s'', Err e)
      end
  end.

(** The zero record, when an update missed. *)
Definition quota_or_zero (rc : option record) : orgProjectQuotaRecord :=
  match rc with Some rc => quotaRecordFromStore rc | None => PlatformRecord "" ∅ end.

Definition UpsertProjectUserQuotaTx {E} (quota : object) (newID : string) (now : Z) : tx_fn E orgProjectQuotaRecord := fun t =>
  let id := TextValue quota ["id"] in
  match Get (tx_store t) projectUserQuotasResource id with
  | Some _ => (rc <-- tx_Update projectUserQuotasResource id quota now ;; stm_ret (quota_or_zero rc)) t
  | None =>
      match tx_Create projectUserQuotasResource quota newID now t with
      | (t', Ok rc) => (t', Ok (quotaRecordFromStore rc))
      | (t', Err _) => (rc <-- tx_Update projectUserQuotasResource id quota now ;; stm_ret (quota_or_zero rc)) t'
      end
  end.

Definition DeleteProjectUserQuota (s : store) (projectID userID : string) : store * bool :=
  match GetProjectUserQuota s projectID userID with
  | None => (s, false)
  | Some quota => Delete s projectUserQuotasResource (pr_ID quota)
  end.
Definition DeleteProjectUserQuotaTx {E} (projectID userID : string) : tx_fn E bool :=
  found <-- tx_reads (fun s => GetProjectUserQuota s projectID userID) ;;
  match found with
  | None => stm_ret false
  | Some quota => tx_Delete projectUserQuotasResource (pr_ID quota)
  end.

Definition DeleteDirectProjectMemberAndQuota (s : store) (projectID userID : string) : store * option orgProjectMemberRecord :=
  match FindDirectProjectMember s projectID userID with
  | None => (s, None)
  | Some member =>
      let s1 := (Delete s projectMembersResource (pr_ID member)).1 in
      ((DeleteProjectUserQuota s1 projectID userID).1, Some member)
  end.
Definition DeleteDirectProjectMemberAndQuotaTx {E} (projectID userID : string) : tx_fn E (option orgProjectMemberRecord) :=
  found <-- tx_reads (fun s => FindDirectProjectMember s projectID userID) ;;
  match found with
  | None => stm_ret None
  | Some member =>
      deleted <-- tx_Delete projectMembersResource (pr_ID member) ;;
      if deleted : bool then
        quota <-- tx_reads (fun s => GetProjectUserQuota s projectID userID) ;;
        match quota with
        | Some quota => tx_Delete projectUserQuotasResource (pr_ID quota) ;;; stm_ret (Some member)
        | None => stm_ret (Some member)
        end
      else stm_ret None
  end.

(** ** Plans of projects *)

Definition bound_to (planID : string) (data : object) : bool := String.eqb (TextValue data planKeys) planID.

Fixpoint clear_plans (projects : list orgProjectRecord) (planID : string) (now : Z) (s : store) : store * list orgProjectPlanUpdate :=
  match projects with
  | [] => (s, [])
  | project :: projects =>
      if negb (bound_to planID (pr_Data project)) then clear_plans projects planID now s
      else
        match UpdateProject s (pr_ID project) (plan_patch "" now) now with
        | (s', None) => clear_plans projects planID now s'
        | (s', Some (old, new)) => let '(s'', updates) := clear_plans projects planID now s' in (s'', PlanUpdate old new :: updates)
        end
  end.
Definition ClearProjectsPlan (s : store) (planID : string) (now : Z) : store * list orgProjectPlanUpdate :=
  clear_plans (ListProjects s) planID now s.

(** [emit] makes the event of the [k]th update. *)
Fixpoint clear_plans_tx {E} (projects : list orgProjectRecord) (planID : string) (now : Z) (emit : nat -> orgProjectPlanUpdate -> event) (k : nat) (cleared : Z)
    : tx_fn E Z :=
  match projects with
  | [] => stm_ret cleared
  | project :: projects =>
      if negb (bound_to planID (pr_Data project)) then clear_plans_tx projects planID now emit k cleared
      else
        updated <-- tx_Update projectsResource (pr_ID project) (plan_patch "" now) now ;;
        match updated with
        | None => clear_plans_tx projects planID now emit k cleared
        | Some rc =>
            tx_Emit (emit k (PlanUpdate project (projectRecordFromStore rc))) ;;;
            clear_plans_tx projects planID now emit (S k) (cleared + 1)
        end
  end.
Definition ClearProjectsPlanTx {E} (planID : string) (now : Z) (emit : nat -> orgProjectPlanUpdate -> event) : tx_fn E Z := fun t =>
  clear_plans_tx (ListProjects (tx_store t)) planID now emit 0 0 t.

End Repository.
