(* ===== verification/OrgProjectHandlers.v ===== *)
(** * Organisation and project service: the project routes
    (internal/services/orgproject: project_helpers.go, project_handlers.go,
    plan_binding_contracts.go) *)

From stdpp Require Import base gmap strings list fin_maps.
From Stdlib Require Import ZArith Lia Ascii.
From S2P Require Import Prelude GoValue Store EventBus Crud Tx Projection InputLimits Config Auth Guards SchedulerHttp ServiceHttp Tables ServiceProjection PolicyIdentity OrgIdentity OrgGroups OrgGroupHandlers OrgProjects.
Local Open Scope Z_scope.
Local Open Scope go_scope.

Definition allowedProjectRoles : list string := ["admin"; "manager"; "user"].

Record projectMemberInput := MemberInput { mi_UserID : string; mi_Role : string }.

Definition normalizeProjectRole (role0 : string) : string :=
  let role := normalizeRole role0 in
  if String.eqb role "member" then "user" else role.

Definition canReadProject (role : string) : bool := String.eqb role "admin" || String.eqb role "manager" || String.eqb role "user".
Definition canManageProject (role : string) : bool := String.eqb role "admin" || String.eqb role "manager".

Definition projectPathID (r : service_request) : string := TrimSpace (PathValue r "id").
Definition projectUserPathID (r : service_request) : string := TrimSpace (FirstNonBlank [PathValue r "userId"; PathValue r "user_id"]).

(** ** Names of Kubernetes *)

Definition label_char (c : ascii) : bool :=
  let n := nat_of_ascii c in ((97 <=? n)%nat && (n <=? 122)%nat) || ((48 <=? n)%nat && (n <=? 57)%nat).
Definition dash : ascii := "-".

Definition dnsLabelLike (value : string) : bool :=
  let l := bytes_of value in
  if (length l =? 0)%nat || (63 <? length l)%nat || Ascii.eqb (List.hd dash l) dash || Ascii.eqb (List.last l dash) dash then false
  else forallb (fun c => label_char c || Ascii.eqb c dash) l.

(** Runs of other characters become one dash. *)
Fixpoint k8s_part (l : list ascii) (lastDash : bool) : list ascii :=
  match l with
  | [] => []
  | c :: l =>
      if label_char c then c :: k8s_part l false
      else if lastDash then k8s_part l true else dash :: k8s_part l true
  end.
(** [strings.Trim(s, "-")] *)
Definition trim_dashes (l : list ascii) : list ascii :=
  let left := trim_loop [[dash]] (length l) l in
  rev (trim_loop [[dash]] (length left) (rev left)).
Definition safeK8sPart (value : string) : string :=
  let out := of_bytes (trim_dashes (k8s_part (bytes_of (ToLower (TrimSpace value))) false)) in
  if str_empty out then "user" else out.

(** ** Rows *)

Fixpoint rows_less (keys : list string) (x y : object) : bool :=
  match keys with
  | [] => false
  | key :: keys =>
      let left := TextValue x [key] in
      let right := TextValue y [key] in
      if String.eqb left right then rows_less keys x y else String.ltb left right
  end.
Definition sortRows (rows : list object) (keys : list string) : list object := SliceStable (rows_less keys) rows.

Definition hasAny (data : object) (keys : list string) : bool := existsb (fun key => bool_decide (is_Some (data !! key))) keys.
Definition nullableText (value : string) : any := if str_empty (TrimSpace value) then VNil else VString (TrimSpace value).

(** projectField: the two spellings of a field. *)
Record projectField := ProjectField { fd_snake : string; fd_camel : string }.
Definition projectIntFields : list projectField :=
  [ProjectField "max_concurrent_jobs_per_user" "MaxConcurrentJobsPerUser"; ProjectField "max_queued_jobs_per_user" "MaxQueuedJobsPerUser";
   ProjectField "max_job_runtime_seconds" "MaxJobRuntimeSeconds"; ProjectField "max_ide_runtime_seconds" "MaxIDERuntimeSeconds";
   ProjectField "max_project_users" "MaxProjectUsers"].
Definition projectBoolFields : list projectField :=
  [ProjectField "allow_image_build" "AllowImageBuild"; ProjectField "allow_node_port" "AllowNodePort";
   ProjectField "allow_run_as_root" "AllowRunAsRoot"; ProjectField "external_network_enabled" "ExternalNetworkEnabled"].

Definition payload_name (payload : object) : string := FirstNonBlank [TextValue payload ["project_name"; "ProjectName"]; TextValue payload ["name"]].
Definition payload_owner (payload : object) : string :=
  FirstNonBlank [TextValue payload ["g_id"; "gid"; "GID"]; TextValue payload ["group_id"; "owner_id"; "ownerId"]].

Section Values.
Context `{GoLib}.

Definition firstPresentText (data : object) (keys : list string) : option string := normalizeOptional <$> firstPresent data keys.

(** A field in both spellings: from the payload, or its zero on creation. *)
Definition apply_field (create : bool) (payload : object) (read : object -> list string -> any) (zero : any) (out : object) (f : projectField) : object :=
  if hasAny payload [fd_snake f; fd_camel f] then set_fields [fd_snake f; fd_camel f] (read payload [fd_snake f; fd_camel f]) out
  else if create then set_fields [fd_snake f; fd_camel f] zero out else out.

Definition applyProjectMutableFields (out payload : object) (create : bool) : object :=
  let name := payload_name payload in
  let out := if str_empty name then out else set_fields ["project_name"; "ProjectName"; "name"] (VString name) out in
  let out := match firstPresentText payload ["description"; "Description"] with
             | Some description => set_fields ["description"; "Description"] (VString description) out
             | None => if create then set_fields ["description"; "Description"] (VString "") out else out
             end in
  let ownerID := payload_owner payload in
  let out := if str_empty ownerID then out else set_fields ["owner_id"; "GID"; "g_id"] (VString ownerID) out in
  let out := match firstPresentText payload ["plan_id"; "planId"] with Some planID => <["plan_id" := nullableText planID]> out | None => out end in
  let out := match firstPresentText payload ["personal_user_id"; "personalUserID"] with
             | Some user => <["personal_user_id" := nullableText user]> out | None => out end in
  let out := fold_left (apply_field create payload (fun d keys => VInt (IntValue d keys)) (VInt 0)) projectIntFields out in
  fold_left (apply_field create payload (fun d keys => VBool (BoolValue d keys)) (VBool false)) projectBoolFields out.

Fixpoint firstStringSlice (payload : object) (keys : list string) : list string :=
  match keys with
  | [] => []
  | key :: keys => match strings (mget payload key) with [] => firstStringSlice payload keys | ids => ids end
  end.
Definition requestIDs (payload : object) : list string := firstStringSlice payload ["ids"; "project_ids"; "projectIds"].
Definition requestUserIDs (payload : object) : list string := firstStringSlice payload ["user_ids"; "userIds"; "ids"].

(** The objects among the items of a list. *)
Definition objects (items : list any) : list object := omap as_map items.
Definition input_user (row : object) : string := TextValue row ["user_id"; "userId"; "uid"; "id"].

Definition projectMemberInputs (payload : object) : list projectMemberInput :=
  match as_list (mget payload "members") with
  | Some raw => map (fun row => MemberInput (input_user row) (normalizeProjectRole (FirstNonBlank [TextValue row ["role"]; "user"]))) (objects raw)
  | None =>
      let role := normalizeProjectRole (FirstNonBlank [TextValue payload ["role"]; "user"]) in
      map (fun uid => MemberInput uid role) (requestUserIDs payload)
  end.
Definition updates_of (payload : object) : list object := objects (default [] (as_list (mget payload "updates"))).
Definition roleUpdateInputs (payload : object) : list projectMemberInput :=
  map (fun row => MemberInput (input_user row) (normalizeProjectRole (TextValue row ["role"]))) (updates_of payload).
Definition quotaUpdateInputs (payload : object) : list object := updates_of payload.

Definition batchError (id : string) (data : body) : string :=
  match data with BMap row => id +:+ ": " +:+ TextValue row ["message"] | _ => id +:+ ": failed" end.

(** ** Quotas *)

Definition quotaRecord (projectID userID : string) (payload : object) (now : Z) : object :=
  list_to_map [("id", VString (projectQuotaID projectID userID)); ("project_id", VString projectID); ("user_id", VString userID);
    ("gpu_limit", VFloat64 (NumberValue payload ["gpu_limit"; "GPULimit"])); ("cpu_limit", VFloat64 (NumberValue payload ["cpu_limit"; "CPULimit"]));
    ("memory_limit_gb", VFloat64 (NumberValue payload ["memory_limit_gb"; "MemoryLimitGB"])); ("updated_at", time_value now)].
Definition quotaDTO (data : object) : object :=
  {[ "gpu_limit" := VFloat64 (NumberValue data ["gpu_limit"; "GPULimit"]); "cpu_limit" := VFloat64 (NumberValue data ["cpu_limit"; "CPULimit"]);
     "memory_limit_gb" := VFloat64 (NumberValue data ["memory_limit_gb"; "MemoryLimitGB"]) ]}.
Definition validateQuotaPayload (payload : object) : result string unit :=
  if existsb (fun key => f64_lt (NumberValue payload [key]) f64_0)
       ["gpu_limit"; "cpu_limit"; "memory_limit_gb"; "GPULimit"; "CPULimit"; "MemoryLimitGB"]
  then Err "quota values must be non-negative" else Ok tt.

Definition workspaceSettings (project : object) : object :=
  {[ "max_ide_runtime_seconds" := VInt (IntValue project ["max_ide_runtime_seconds"; "MaxIDERuntimeSeconds"]) ]}.

End Values.

Section Handlers.
Context `{GoLib} {ip : Type} (cfg : config ip).

(** ** Roles *)

Definition projectRows : org (list object) := reads (fun s => map pr_Data (ListProjects s)).
Definition findProject (id : string) : org (option object) := reads (fun s => pr_Data <$> FindProject s id).
Definition findProjectMemberRecord (projectID userID : string) : org (option platformRecord) := reads (fun s => FindDirectProjectMember s projectID userID).
Definition findProjectMember (projectID userID : string) : org (option object) :=
  found <-- findProjectMemberRecord projectID userID ;; stm_ret (pr_Data <$> found).

Definition direct_role (project : object) (userID : string) : org string :=
  member <-- findProjectMember (projectID project) userID ;;
  stm_ret (match member with Some member => normalizeProjectRole (TextValue member ["role"]) | None => "" end).

Definition projectRoleForUser (r : service_request) (project : object) (userID : string) : org string :=
  admin <-- hasAdminPanel cfg r userID ;;
  if admin : bool then stm_ret "admin"
  else if String.eqb (TextValue project ["personal_user_id"; "personalUserID"]) userID then stm_ret "admin"
  else
    let ownerID := TextValue project ownerKeys in
    membership <-- (if str_empty ownerID then stm_ret None else findUserGroup userID ownerID) ;;
    match membership with
    | Some membership => stm_ret (normalizeProjectRole (TextValue membership ["role"]))
    | None => direct_role project userID
    end.

Definition requireExistingProject (id : string) : org object :=
  found <-- findProject id ;;
  match found with Some project => stm_ret project | None => refuse StatusNotFound msgProjectNotFound end.
Definition require_role (r : service_request) (id userID : string) (allowed : string -> bool) (text : string) : org object :=
  project <-- requireExistingProject id ;;
  role <-- projectRoleForUser r project userID ;;
  ensure (allowed role) StatusForbidden text ;;;
  stm_ret project.
Definition requireProjectRead (r : service_request) (id userID : string) : org object := require_role r id userID canReadProject "project member access required".
Definition requireProjectManager (r : service_request) (id userID : string) : org object := require_role r id userID canManageProject "Project manager access required".
Definition requireProjectAdmin (r : service_request) (id userID : string) : org object :=
  require_role r id userID (fun role => String.eqb role "admin") "Project admin access required".

Definition visibleProjects (r : service_request) (userID : string) : org (list object) :=
  rows <-- projectRows ;;
  visible <-- select (fun project => role <-- projectRoleForUser r project userID ;; stm_ret (canReadProject role)) rows ;;
  stm_ret (sortRows visible ["project_name"; "id"]).

(** ** Members *)

Definition decorateProjectMember (r : service_request) (projectID source : string) (member : object) : org object :=
  let uid := TextValue member memberIdKeys in
  let out := <["source" := VString source]> (<["role" := VString (normalizeProjectRole (FirstNonBlank [TextValue member ["role"]; "user"]))]>
               (<["project_id" := VString projectID]> (<["user_id" := VString uid]> member))) in
  user <-- findUser cfg r uid ;;
  stm_ret (match user with
           | Some user => <["email" := VString (TextValue user ["email"; "Email"])]>
                            (<["full_name" := VString (TextValue user ["full_name"; "fullName"; "FullName"])]>
                               (<["username" := VString (TextValue user ["username"; "Username"])]> out))
           | None => out
           end).

Definition owner_of (project : option object) : string := match project with Some project => TextValue project ownerKeys | None => "" end.

(** Members of the owning group first; a direct member who is one of them is left out. *)
Definition mergedProjectMembers (r : service_request) (projectID : string) : org (list object) :=
  project <-- findProject projectID ;;
  let ownerID := owner_of project in
  inherited <-- (if str_empty ownerID then stm_ret []
                 else rows <-- membershipRows ;; each (decorateProjectMember r projectID "group") (List.filter (of_group ownerID) rows)) ;;
  let seen := map (fun member => TextValue member ["user_id"]) inherited in
  direct <-- listMaps projectMembersResource ;;
  added <-- each (decorateProjectMember r projectID "direct")
              (List.filter (fun member => String.eqb (TextValue member projectIdKeys) projectID &&
                                          negb (bool_decide (TextValue member directUserKeys ∈ seen))) direct) ;;
  stm_ret (sortRows (inherited ++ added) ["username"; "user_id"]).

Definition inherits (project : option object) (targetUserID : string) : org bool :=
  let ownerID := owner_of project in
  if str_empty ownerID then stm_ret false else isGroupMember targetUserID ownerID.

Definition member_row (projectID userID role actor : string) (now : Z) : object :=
  list_to_map [("id", VString (projectMemberID projectID userID)); ("project_id", VString projectID); ("user_id", VString userID);
    ("role", VString role); ("added_by", VString actor); ("created_at", time_value now); ("updated_at", time_value now)].

(** The text of the error. *)
Definition createDirectProjectMember (r : service_request) (k : nat) (projectID targetUserID0 role0 actor : string) : org (option string) :=
  let targetUserID := TrimSpace targetUserID0 in
  let role := normalizeProjectRole role0 in
  if str_empty targetUserID || negb (bool_decide (role ∈ allowedProjectRoles)) then stm_ret (Some "user_id and valid role are required")
  else
    user <-- findUser cfg r targetUserID ;;
    if negb (bool_decide (is_Some user)) then stm_ret (Some "user not assignable")
    else
      project <-- findProject projectID ;;
      inherited <-- inherits project targetUserID ;;
      if inherited : bool then stm_ret (Some "group member inherits project role from owning group")
      else
        created <-- writes (fun a => WithTx a (
          record <-- CreateDirectProjectMemberTx (member_row projectID targetUserID role actor (sq_now r)) (sq_newid r k) (sq_now r) ;;
          tx_Emit (eventFor r k "project_memberCreated" (pr_Data record)))) ;;
        stm_ret (match created with
                 | Ok _ => None
                 | Err (TxCallback _) => Some "project member already exists"
                 | Err TxPublish => Some "project member could not be created"
                 end).

Definition deleteDirectProjectMember (r : service_request) (k : nat) (projectID targetUserID : string) : org response :=
  ensure (negb (str_empty targetUserID)) StatusBadRequest "Missing user ID" ;;;
  project <-- findProject projectID ;;
  inherited <-- inherits project targetUserID ;;
  ensure (negb inherited) StatusForbidden "Cannot remove group members from project; remove them from the group instead" ;;;
  found <-- findProjectMemberRecord projectID targetUserID ;;
  match found with
  | None => refuse StatusNotFound msgProjectMemberNotFound
  | Some member =>
      deleted <-- writes (fun a => WithTx a (emitting (DeleteDirectProjectMemberAndQuotaTx projectID targetUserID) msgProjectMemberNotFound
                                               (fun _ => eventFor r k "project_memberDeleted" (pr_Data member)))) ;;
      match deleted with
      | Ok _ => stm_ret (StatusOK, BNil)
      | Err _ => refuse StatusInternalServerError "project member delete failed"
      end
  end.

Definition updateDirectProjectMemberRoleWithEvent (r : service_request) (k : nat) (member : platformRecord) (projectID targetUserID role : string)
    : org (result (tx_error string) (platformRecord * platformRecord)) :=
  writes (fun a => WithTx a (emitting (UpdateDirectProjectMemberRoleTx projectID targetUserID role (sq_now r)) msgProjectMemberNotFound
    (fun '(_, updated) => eventFor r k "project_memberUpdated" {[ "old" := VMap (pr_Data member); "new" := VMap (pr_Data updated) ]}))).

Definition updateDirectProjectMemberRole (r : service_request) (k : nat) (projectID targetUserID role0 : string) : org response :=
  let role := normalizeProjectRole role0 in
  ensure (negb (str_empty targetUserID) && bool_decide (role ∈ allowedProjectRoles)) StatusBadRequest "invalid role: must be admin, manager, or user" ;;;
  project <-- findProject projectID ;;
  inherited <-- inherits project targetUserID ;;
  ensure (negb inherited) StatusForbidden "Cannot update group members in project; update their group role instead" ;;;
  found <-- findProjectMemberRecord projectID targetUserID ;;
  match found with
  | None => refuse StatusNotFound msgProjectMemberNotFound
  | Some member =>
      updated <-- updateDirectProjectMemberRoleWithEvent r k member projectID targetUserID role ;;
      match updated with
      | Ok (_, record) => stm_ret (StatusOK, BMap (pr_Data record))
      | Err _ => refuse StatusInternalServerError "project member update failed"
      end
  end.

Definition upsertQuota (r : service_request) (k : nat) (quota : object) : org response :=
  ensure (negb (str_empty (TextValue quota ["id"]) || str_empty (TextValue quota ["user_id"]))) StatusBadRequest "user_id is required" ;;;
  stored <-- writes (fun a => WithTx (E := unit) a (
    record <-- UpsertProjectUserQuotaTx quota (sq_newid r k) (sq_now r) ;;
    tx_Emit (eventFor r k "UserQuotaUpdated" (pr_Data record)) ;;;
    stm_ret record)) ;;
  match stored with
  | Ok record => stm_ret (StatusOK, BMap (quotaDTO (pr_Data record)))
  | Err _ => refuse StatusInternalServerError "quota update failed"
  end.

(** ** GPU claims *)

Definition findGPUClaim (projectID name namespace : string) : org (option platformRecord) := reads (fun s => FindGPUClaim s projectID name namespace).

(** What a claim asks for, once checked. *)
Record claim_terms := ClaimTerms { ct_name : string; ct_class : string; ct_count : Z; ct_sm : Z; ct_vram : Z; ct_policy : string }.

Definition claim_check (payload : object) : result string claim_terms :=
  let name := TrimSpace (TextValue payload ["name"]) in
  let deviceClass := TrimSpace (TextValue payload ["device_class_name"; "deviceClassName"]) in
  let gpuCount := IntValue payload ["gpu_count"; "gpuCount"] in
  let sm := IntValue payload ["sm_percentage"; "smPercentage"] in
  let vram := IntValue payload ["vram_percentage"; "vramPercentage"] in
  let policy := FirstNonBlank [TextValue payload ["vram_policy"; "vramPolicy"]; "elastic"] in
  guard_else (negb (str_empty name) && dnsLabelLike name) "name must be a valid DNS label" ;;?
  guard_else (negb (str_empty deviceClass)) "device_class_name is required" ;;?
  guard_else (1 <=? gpuCount) "gpu_count must be at least 1" ;;?
  guard_else ((1 <=? sm) && (sm <=? 100)) "sm_percentage must be between 1 and 100" ;;?
  guard_else ((1 <=? vram) && (vram <=? 100)) "vram_percentage must be between 1 and 100" ;;?
  guard_else (String.eqb policy "elastic" || String.eqb policy "hard_cap") "vram_policy must be elastic or hard_cap" ;;?
  Ok (ClaimTerms name deviceClass gpuCount sm vram policy).

Definition gpuClaimRecord (r : service_request) (projectID userID : string) (payload : object) : org (result string object) :=
  match claim_check payload with
  | Err text => stm_ret (Err text)
  | Ok t =>
      user <-- findUser cfg r userID ;;
      let username := match user with Some user => FirstNonBlank [TextValue user ["username"]; userID] | None => userID end in
      let namespace := FirstNonBlank [TextValue payload ["namespace"]; "project-" +:+ safeK8sPart projectID +:+ "-" +:+ safeK8sPart username] in
      stm_ret (Ok (list_to_map [("id", VString (gpuClaimID projectID namespace (ct_name t))); ("name", VString (ct_name t)); ("namespace", VString namespace);
        ("project_id", VString projectID); ("user_id", VString userID); ("username", VString username);
        ("device_class_name", VString (ct_class t)); ("gpu_count", VInt (ct_count t)); ("sm_percentage", VInt (ct_sm t));
        ("effective_gpu", VFloat64 (f64_div (f64_mul (f64_of_int (ct_count t)) (f64_of_int (ct_sm t))) f64_100));
        ("vram_policy", VString (ct_policy t)); ("vram_percentage", VInt (ct_vram t)); ("status", VString "created"); ("created_at", time_value (sq_now r))]))
  end.

Definition deleteProjectByID (projectID : string) : org unit :=
  writes (fun a => (App_ (DeleteProjectCascade (app_Store a) projectID).1 (app_Events a), tt)).

Definition newProjectID : org string := writes (fun a => let '(id, s) := NextProjectID (app_Store a) in (App_ s (app_Events a), id)).

(** ** Projects *)

Definition listProjects (r : service_request) : org response :=
  userID <-- requireUser r ;;
  projects <-- visibleProjects r userID ;;
  if str_empty (query r "page") then stm_ret (StatusOK, BMaps projects)
  else page <-- or_panic (pagedRows r projects) ;; stm_ret (StatusOK, BMap page).
Definition listProjectsByUser (r : service_request) : org response := listProjects r.

Definition project_record (id name ownerID userID : string) (payload : object) (now : Z) : object :=
  list_to_map [("id", VString id); ("p_id", VString id); ("PID", VString id); ("project_id", VString id);
    ("project_name", VString name); ("ProjectName", VString name); ("name", VString name);
    ("description", VString (TextValue payload ["description"; "Description"])); ("Description", VString (TextValue payload ["description"; "Description"]));
    ("owner_id", VString ownerID); ("GID", VString ownerID); ("g_id", VString ownerID); ("path", VString (FirstNonBlank [TextValue payload ["path"]; id]));
    ("created_at", time_value now); ("create_at", time_value now); ("created_by", VString userID)].

Definition createProject (r : service_request) : org response :=
  userID <-- requireUser r ;;
  require_panel cfg r userID ;;;
  payload <-- decode r ;;
  let name := payload_name payload in
  let ownerID := payload_owner payload in
  ensure (negb (str_empty name || str_empty ownerID)) StatusBadRequest "project_name and g_id are required" ;;;
  group <-- findGroup ownerID ;;
  ensure (bool_decide (is_Some group)) StatusNotFound msgGroupNotFound ;;;
  drawn <-- newProjectID ;;
  let id := FirstNonBlank [TextValue payload ["id"; "p_id"; "PID"]; drawn] in
  let project := applyProjectMutableFields (project_record id name ownerID userID payload (sq_now r)) payload true in
  created <-- writes (fun a => CreateProjectWithEvent a project (fun rc => eventFor r 0 "ProjectCreated" (rec_Data rc)) (sq_newid r 0) (sq_now r)) ;;
  match created with
  | Ok project => stm_ret (StatusCreated, BMap (pr_Data project))
  | Err (EConflict _) => refuse StatusConflict "project already exists"
  | Err EPublish => refuse StatusInternalServerError "project could not be created"
  end.

Definition getProject (r : service_request) : org response :=
  userID <-- requireUser r ;;
  project <-- requireProjectRead r (projectPathID r) userID ;;
  stm_ret (StatusOK, BMap project).

Definition updateProject (r : service_request) : org response :=
  userID <-- requireUser r ;;
  require_panel cfg r userID ;;;
  let id := projectPathID r in
  found <-- findProject id ;;
  match found with
  | None => refuse StatusNotFound msgProjectNotFound
  | Some existing =>
      payload <-- decode r ;;
      let ownerID := payload_owner payload in
      group <-- findGroup ownerID ;;
      ensure (str_empty ownerID || bool_decide (is_Some group)) StatusNotFound msgGroupNotFound ;;;
      let update := applyProjectMutableFields {[ "updated_at" := time_value (sq_now r) ]} payload false in
      if bool_decide (size update = 1%nat) then stm_ret (StatusOK, BMap existing)
      else
        updated <-- writes (fun a => UpdateProjectWithEvent a id update
          (fun old new => eventFor r 0 "ProjectUpdated" {[ "old" := VMap (pr_Data old); "new" := VMap (pr_Data new) ]}) (sq_now r)) ;;
        match updated with
        | Ok (Some (_, project)) => stm_ret (StatusOK, BMap (pr_Data project))
        | _ => refuse StatusInternalServerError "project update failed"
        end
  end.

Definition deleteProject (r : service_request) (k : nat) : org response :=
  userID <-- requireUser r ;;
  require_panel cfg r userID ;;;
  let id := projectPathID r in
  found <-- findProject id ;;
  match found with
  | None => refuse StatusNotFound msgProjectNotFound
  | Some project =>
      deleted <-- writes (fun a => WithTx a (emitting (DeleteProjectCascadeTx id) "project not found" (fun _ => eventFor r k "ProjectDeleted" project))) ;;
      match deleted with
      | Ok _ => stm_ret (StatusOK, BNil)
      | Err _ => refuse StatusInternalServerError "project delete failed"
      end
  end.

(** The failure of an item, by its status. *)
Definition failed_item (id : string) (resp : response) : option string := if 400 <=? resp.1 then Some (batchError id resp.2) else None.

Definition batchDeleteProjects (r : service_request) : org response :=
  userID <-- requireUser r ;;
  require_panel cfg r userID ;;;
  payload <-- decode r ;;
  result <-- batch (fun k id => resp <-- answer (deleteProject (with_id r id) k) ;; stm_ret (failed_item id resp)) 0 (requestIDs payload) batchResult ;;
  stm_ret (StatusOK, batch_body result).

(** ** Members of projects *)

Definition listProjectMembers (r : service_request) : org response :=
  userID <-- requireUser r ;;
  requireProjectRead r (projectPathID r) userID ;;;
  members <-- mergedProjectMembers r (projectPathID r) ;;
  stm_ret (StatusOK, BMaps members).

Definition projectAddMembersContext (r : service_request) : org response :=
  userID <-- requireUser r ;;
  project <-- requireProjectAdmin r (projectPathID r) userID ;;
  current <-- mergedProjectMembers r (projectPathID r) ;;
  users <-- userRows cfg r ;;
  page <-- or_panic (pagedRows r (available_users current users)) ;;
  stm_ret (StatusOK, BMap {[ "project" := VMap project; "current_members" := VMaps current; "available_users" := VMap page ]}).

(** What the administrators of a project do with its members: the check, then the payload. *)
Definition as_project_admin {A} (r : service_request) (k : string -> object -> org A) : org A :=
  userID <-- requireUser r ;;
  requireProjectAdmin r (projectPathID r) userID ;;;
  payload <-- decode r ;;
  k userID payload.

Definition addProjectMembers (r : service_request) : org response := as_project_admin r (fun userID payload =>
  let members := projectMemberInputs payload in
  ensure (negb (length members =? 0)%nat) StatusBadRequest "members are required" ;;;
  result <-- batch (fun k member =>
    failure <-- createDirectProjectMember r k (projectPathID r) (mi_UserID member) (mi_Role member) userID ;;
    stm_ret ((fun text => mi_UserID member +:+ ": " +:+ text) <$> failure)) 0 members batchResult ;;
  stm_ret (StatusOK, batch_body result)).

Definition batchRemoveProjectMembers (r : service_request) : org response := as_project_admin r (fun userID payload =>
  result <-- batch (fun k id => resp <-- answer (deleteDirectProjectMember r k (projectPathID r) id) ;; stm_ret (failed_item id resp))
               0 (requestUserIDs payload) batchResult ;;
  stm_ret (StatusOK, batch_body result)).

Definition removeProjectMember (r : service_request) : org response :=
  userID <-- requireUser r ;;
  requireProjectAdmin r (projectPathID r) userID ;;;
  deleteDirectProjectMember r 0 (projectPathID r) (projectUserPathID r).

Definition updateProjectMemberRole (r : service_request) : org response := as_project_admin r (fun userID payload =>
  updateDirectProjectMemberRole r 0 (projectPathID r) (projectUserPathID r) (normalizeProjectRole (TextValue payload ["role"]))).

Definition batchUpdateProjectMemberRoles (r : service_request) : org response := as_project_admin r (fun userID payload =>
  result <-- batch (fun k item => resp <-- answer (updateDirectProjectMemberRole r k (projectPathID r) (mi_UserID item) (mi_Role item)) ;;
                                  stm_ret (failed_item (mi_UserID item) resp)) 0 (roleUpdateInputs payload) batchResult ;;
  stm_ret (StatusOK, batch_body result)).

(** ** Quotas of members *)

Definition getProjectMemberQuota (r : service_request) : org response :=
  actor <-- requireUser r ;;
  let targetUserID := projectUserPathID r in
  ensure (negb (str_empty targetUserID)) StatusBadRequest "Missing user ID" ;;;
  project <-- requireExistingProject (projectPathID r) ;;
  role <-- projectRoleForUser r project actor ;;
  ensure (String.eqb actor targetUserID || canManageProject role) StatusForbidden "quota access requires self or project manager" ;;;
  found <-- reads (fun s => GetProjectUserQuota s (projectPathID r) targetUserID) ;;
  stm_ret (StatusOK, BMap (quotaDTO (match found with Some quota => pr_Data quota | None => ∅ end))).

Definition upsertProjectMemberQuota (r : service_request) : org response := as_project_admin r (fun actor payload =>
  checked (validateQuotaPayload payload) ;;;
  upsertQuota r 0 (quotaRecord (projectPathID r) (projectUserPathID r) payload (sq_now r))).

Definition deleteProjectMemberQuota (r : service_request) : org response :=
  actor <-- requireUser r ;;
  requireProjectAdmin r (projectPathID r) actor ;;;
  deleted <-- writes (fun a => WithTx (E := unit) a (
    DeleteProjectUserQuotaTx (projectPathID r) (projectUserPathID r) ;;;
    tx_Emit (eventFor r 0 "UserQuotaDeleted" {[ "project_id" := VString (projectPathID r); "user_id" := VString (projectUserPathID r) ]}))) ;;
  match deleted with
  | Ok _ => stm_ret (StatusOK, BNil)
  | Err _ => refuse StatusInternalServerError "quota delete failed"
  end.

(** Failed when the answer has a message; [data.(map[string]any)] panics on another body. *)
Definition quota_failure (resp : response) : org (option string) :=
  match resp.2 with
  | BMap data => let text := TextValue data ["message"] in stm_ret (if str_empty text then None else Some text)
  | _ => panic
  end.

Definition batchSetProjectMemberQuotas (r : service_request) : org response := as_project_admin r (fun actor payload =>
  let updates := quotaUpdateInputs payload in
  checked (fold_left (fun ok update => ok ;;? validateQuotaPayload update) updates (Ok tt)) ;;;
  result <-- batch (fun k update =>
    resp <-- answer (upsertQuota r k (quotaRecord (projectPathID r) (TextValue update directUserKeys) update (sq_now r))) ;; quota_failure resp)
    0 updates batchResult ;;
  stm_ret (StatusOK, batch_body result)).

(** ** Workspace settings *)

Definition getProjectWorkspaceSettings (r : service_request) : org response :=
  userID <-- requireUser r ;;
  project <-- requireProjectRead r (projectPathID r) userID ;;
  stm_ret (StatusOK, BMap (workspaceSettings project)).

(** An update that finds the record emits its event. *)
Definition update_emitting {E} (c : tx_fn E (option (platformRecord * platformRecord))) (ev : object -> event) : tx_fn E (option (platformRecord * platformRecord)) :=
  found <-- c ;;
  match found with
  | None => stm_ret None
  | Some (old, new) => tx_Emit (ev {[ "old" := VMap (pr_Data old); "new" := VMap (pr_Data new) ]}) ;;; stm_ret found
  end.

Definition updateProjectWorkspaceSettings (r : service_request) : org response :=
  userID <-- requireUser r ;;
  requireProjectManager r (projectPathID r) userID ;;;
  payload <-- decode r ;;
  ensure (hasAny payload ["max_ide_runtime_seconds"; "MaxIDERuntimeSeconds"]) StatusBadRequest "max_ide_runtime_seconds is required" ;;;
  let seconds := IntValue payload ["max_ide_runtime_seconds"; "MaxIDERuntimeSeconds"] in
  ensure (0 <=? seconds) StatusBadRequest "quota values must be non-negative" ;;;
  updated <-- writes (fun a => WithTx (E := unit) a
    (update_emitting (UpdateWorkspaceSettingsTx (projectPathID r) seconds (sq_now r)) (eventFor r 0 "ProjectUpdated"))) ;;
  match updated with
  | Ok (Some (_, project)) => stm_ret (StatusOK, BMap (pr_Data project))
  | Ok None => stm_ret (StatusOK, BMap ∅)
  | Err _ => refuse StatusInternalServerError "workspace settings update failed"
  end.

(** ** Claims of projects *)

Definition listGPUClaims (r : service_request) : org response :=
  userID <-- requireUser r ;;
  requireProjectRead r (projectPathID r) userID ;;;
  claims <-- reads (fun s => map pr_Data (ListGPUClaimsByProject s (projectPathID r))) ;;
  let mine := String.eqb (query r "scope") "mine" in
  stm_ret (StatusOK, BMaps (sortRows (List.filter (fun claim => negb (mine && negb (String.eqb (TextValue claim directUserKeys) userID))) claims)
                              ["namespace"; "name"])).

Definition createGPUClaim (r : service_request) : org response :=
  userID <-- requireUser r ;;
  requireProjectRead r (projectPathID r) userID ;;;
  payload <-- decode r ;;
  claim <-- gpuClaimRecord r (projectPathID r) userID payload ;;
  match claim with
  | Err text => refuse StatusBadRequest text
  | Ok claim =>
      created <-- writes (fun a => WithTx a (
        record <-- CreateGPUClaimTx claim (sq_newid r 0) (sq_now r) ;;
        tx_Emit (eventFor r 0 "GPUClaimCreated" (pr_Data record)) ;;;
        stm_ret record)) ;;
      match created with
      | Ok record => stm_ret (StatusCreated, BMap (pr_Data record))
      | Err (TxCallback _) => refuse StatusConflict "gpu claim already exists"
      | Err TxPublish => refuse StatusInternalServerError "gpu claim could not be created"
      end
  end.

Definition deleteGPUClaim (r : service_request) : org response :=
  userID <-- requireUser r ;;
  project <-- requireProjectRead r (projectPathID r) userID ;;
  let name := FirstNonBlank [PathValue r "requestId"; PathValue r "name"] in
  found <-- findGPUClaim (projectPathID r) name (query r "namespace") ;;
  match found with
  | None => refuse StatusNotFound "gpu claim not found"
  | Some record =>
      allowed <-- (if String.eqb (TextValue (pr_Data record) directUserKeys) userID then stm_ret true
                   else role <-- projectRoleForUser r project userID ;; stm_ret (canManageProject role)) ;;
      ensure allowed StatusForbidden "project manager access required" ;;;
      deleted <-- writes (fun a => WithTx (E := unit) a (
        found <-- DeleteGPUClaimTx (pr_ID record) ;;
        match found with
        | None => stm_ret tt
        | Some claim => tx_Emit (eventFor r 0 "GPUClaimDeleted" (pr_Data claim))
        end)) ;;
      match deleted with
      | Ok _ => stm_ret (StatusOK, BNil)
      | Err _ => refuse StatusInternalServerError "gpu claim delete failed"
      end
  end.

(** ** Plans bound by the scheduler *)

Definition eventProjectPlanUpdate : string := "ProjectUpdated".

Definition requireOrgProjectServiceAuth (r : service_request) : org unit :=
  if str_empty (cf_ServiceAPIKey cfg) then refuse StatusNotFound "not found"
  else ensure (serviceRequestAuthorizedForAudience cfg (sq_http r) "") StatusUnauthorized "service authentication is required".

Definition bindProjectPlan (r : service_request) : org response :=
  requireOrgProjectServiceAuth r ;;;
  payload <-- decode r ;;
  let projectID := TrimSpace (PathValue r "project_id") in
  ensure (negb (str_empty projectID)) StatusBadRequest "project_id is required" ;;;
  let planID := TextValue payload ["plan_id"; "planId"] in
  ensure (negb (str_empty planID)) StatusBadRequest "plan_id is required" ;;;
  updated <-- writes (fun a => WithTx (E := unit) a
    (update_emitting (BindProjectPlanTx projectID planID (sq_now r)) (eventFor r 0 eventProjectPlanUpdate))) ;;
  match updated with
  | Ok (Some (_, project)) => stm_ret (StatusOK, BRecord (Record_ (pr_ID project) (pr_Data project) 0 0 0))
  | _ =>
      found <-- findProject projectID ;;
      ensure (bool_decide (is_Some found)) StatusNotFound msgProjectNotFound ;;;
      refuse StatusInternalServerError "project plan binding failed"
  end.

Definition clearProjectsPlan (r : service_request) : org response :=
  requireOrgProjectServiceAuth r ;;;
  let planID := TrimSpace (PathValue r "plan_id") in
  ensure (negb (str_empty planID)) StatusBadRequest "plan_id is required" ;;;
  cleared <-- writes (fun a => WithTx (E := unit) a (ClearProjectsPlanTx planID (sq_now r)
    (fun k update => eventFor r k eventProjectPlanUpdate {[ "old" := VMap (pr_Data (pu_Old update)); "new" := VMap (pr_Data (pu_New update)) ]}))) ;;
  match cleared with
  | Ok n => stm_ret (StatusOK, BMap {[ "plan_id" := VString planID; "cleared" := VInt n ]})
  | Err _ => refuse StatusInternalServerError "project plan bindings clear failed"
  end.

End Handlers.
