(* ===== verification/OrgService.v ===== *)
(** * Organisation and project service: routes and who may write
    (internal/services/orgproject/handler.go, Register, and spec.go)

    Every route as a computation - those with a handler of the service, and those of the
    table without one, which the generic record handler serves -, what a caller must be to
    change anything through it, and the proof that nobody else does. *)

From stdpp Require Import base gmap strings list fin_maps.
From Stdlib Require Import ZArith Lia Ascii.
From S2P Require Import Prelude GoValue Store EventBus Crud Tx Projection InputLimits Config Auth Guards Routing SchedulerHttp ServiceHttp Tables ServiceProjection PolicyIdentity OrgIdentity OrgGroups OrgGroupHandlers OrgProjects OrgProjectHandlers.
Local Open Scope Z_scope.
Local Open Scope go_scope.

(** The routes of the service's table that no handler is registered for. *)
Inductive generic_route :=
| GPatchUserGroup | GDeleteUserGroup | GAddMembersContext | GResolveAddMembers | GPatchMemberRoles | GDeleteMembers.

Inductive org_route :=
| RListGroups | RCreateGroup | RGetGroup | RUpdateGroup | RDeleteGroup | RBatchDeleteGroups | RGroupPolicyOptions
| RGetUserGroup | RAddUserToGroup | RUpdateUserGroup | RRemoveUserFromGroup | RBatchAddMembers
| RUserGroupsByGroup | RUserGroupsByUser | RGroupMembers | RAddMembersContext | RResolveAddMembers
| RListProjects | RCreateProject | RBatchDeleteProjects | RListProjectsByUser | RGetProject | RUpdateProject | RDeleteProject
| RListProjectMembers | RProjectAddMembersContext | RAddProjectMembers | RBatchRemoveProjectMembers
| RBatchUpdateProjectMemberRoles | RBatchSetProjectMemberQuotas | RUpdateProjectMemberRole | RRemoveProjectMember
| RGetProjectMemberQuota | RUpsertProjectMemberQuota | RDeleteProjectMemberQuota
| RGetProjectWorkspaceSettings | RUpdateProjectWorkspaceSettings | RListGPUClaims | RCreateGPUClaim | RDeleteGPUClaim
| RBindProjectPlan | RClearProjectsPlan
| RGeneric (g : generic_route).

Definition pathProjectID : string := "/api/v1/projects/{id}".
Definition pathProjectMembers : string := pathProjectID +:+ "/members".
Definition pathProjectMemberQuota : string := pathProjectMembers +:+ "/{userId}/quota".
Definition pathGroupID : string := "/api/v1/groups/{id}".
Definition pathUserGroups : string := "/api/v1/user-groups".
Definition pathBindProjectPlan : string := "/internal/org-project/projects/{project_id}/plan".
Definition pathClearPlanBindings : string := "/internal/org-project/plans/{plan_id}/project-bindings".

Definition Register : list (string * string * org_route) :=
  [("GET", "/api/v1/groups", RListGroups); ("POST", "/api/v1/groups", RCreateGroup); ("GET", pathGroupID, RGetGroup);
   ("PUT", pathGroupID, RUpdateGroup); ("PATCH", pathGroupID, RUpdateGroup); ("DELETE", pathGroupID, RDeleteGroup);
   ("DELETE", "/api/v1/groups/batch", RBatchDeleteGroups); ("GET", "/api/v1/admin/group-policy-options", RGroupPolicyOptions);
   ("GET", pathUserGroups, RGetUserGroup); ("POST", pathUserGroups, RAddUserToGroup); ("PUT", pathUserGroups, RUpdateUserGroup);
   ("DELETE", pathUserGroups, RRemoveUserFromGroup); ("POST", "/api/v1/user-groups/batch", RBatchAddMembers);
   ("GET", "/api/v1/user-groups/by-group", RUserGroupsByGroup); ("GET", "/api/v1/user-groups/by-user", RUserGroupsByUser);
   ("GET", "/api/v1/user-groups/{group_id}/members", RGroupMembers);
   ("GET", "/api/v1/user-groups/{group_id}/add-members-context", RAddMembersContext);
   ("POST", "/api/v1/user-groups/{group_id}/resolve-add-members", RResolveAddMembers);
   ("GET", "/api/v1/projects", RListProjects); ("POST", "/api/v1/projects", RCreateProject);
   ("DELETE", "/api/v1/projects/batch", RBatchDeleteProjects); ("GET", "/api/v1/projects/by-user", RListProjectsByUser);
   ("GET", pathProjectID, RGetProject); ("PUT", pathProjectID, RUpdateProject); ("PATCH", pathProjectID, RUpdateProject);
   ("DELETE", pathProjectID, RDeleteProject); ("GET", pathProjectMembers, RListProjectMembers);
   ("GET", pathProjectID +:+ "/add-members-context", RProjectAddMembersContext); ("POST", pathProjectMembers, RAddProjectMembers);
   ("DELETE", pathProjectMembers, RBatchRemoveProjectMembers); ("PUT", pathProjectMembers +:+ "/roles", RBatchUpdateProjectMemberRoles);
   ("PUT", pathProjectMembers +:+ "/quotas", RBatchSetProjectMemberQuotas); ("PUT", pathProjectMembers +:+ "/{userId}", RUpdateProjectMemberRole);
   ("PATCH", pathProjectMembers +:+ "/{userId}/role", RUpdateProjectMemberRole); ("DELETE", pathProjectMembers +:+ "/{userId}", RRemoveProjectMember);
   ("GET", pathProjectMemberQuota, RGetProjectMemberQuota); ("PUT", pathProjectMemberQuota, RUpsertProjectMemberQuota);
   ("DELETE", pathProjectMemberQuota, RDeleteProjectMemberQuota);
   ("GET", pathProjectID +:+ "/workspace-settings", RGetProjectWorkspaceSettings);
   ("PUT", pathProjectID +:+ "/workspace-settings", RUpdateProjectWorkspaceSettings);
   ("GET", pathProjectID +:+ "/gpu-claims", RListGPUClaims); ("POST", pathProjectID +:+ "/gpu-claims", RCreateGPUClaim);
   ("DELETE", pathProjectID +:+ "/gpu-claims/{requestId}", RDeleteGPUClaim);
   ("PUT", pathBindProjectPlan, RBindProjectPlan); ("DELETE", pathClearPlanBindings, RClearProjectsPlan)].

(** Their rows of the table. *)
Definition generic_spec (g : generic_route) : route := catalog_route "org-project-service" (
  match g with
  | GPatchUserGroup => Route "PATCH" (pathUserGroups +:+ "/{id}") "user_groups" "update" [ID "id"]
  | GDeleteUserGroup => Route "DELETE" (pathUserGroups +:+ "/{id}") "user_groups" "delete" [ID "id"]
  | GAddMembersContext => Route "GET" (pathUserGroups +:+ "/add-members-context") "user_groups" "add_members_context" []
  | GResolveAddMembers => Route "POST" (pathUserGroups +:+ "/resolve-add-members") "user_groups" "resolve_add_members" []
  | GPatchMemberRoles => Route "PATCH" (pathProjectMembers +:+ "/batch/roles") "project_members" "batch_role_update" [ID "id"]
  | GDeleteMembers => Route "DELETE" (pathProjectMembers +:+ "/batch") "project_members" "batch_delete" [ID "id"]
  end).

(** Resources other services read with a service key: their list and record paths. *)
Definition registerInternalReadContracts : list (string * string * string) :=
  [(projectsResource, "/internal/org-project/projects", "/internal/org-project/projects/{id...}");
   (projectMembersResource, "/internal/org-project/project-members", "/internal/org-project/project-members/{id...}");
   (projectUserQuotasResource, "/internal/org-project/user-quotas", "/internal/org-project/user-quotas/{id...}");
   (userGroupsResource, "/internal/org-project/user-groups", "/internal/org-project/user-groups/{id...}")].

Section Service.
Context `{GoLib} {ip : Type} (cfg : config ip).

Definition dispatch (rt : org_route) (r : service_request) : org response :=
  match rt with
  | RListGroups => listGroups cfg r | RCreateGroup => createGroup cfg r | RGetGroup => getGroup cfg r
  | RUpdateGroup => updateGroup cfg r | RDeleteGroup => deleteGroup cfg r 0 | RBatchDeleteGroups => batchDeleteGroups cfg r
  | RGroupPolicyOptions => groupPolicyOptions cfg r | RGetUserGroup => getUserGroup cfg r
  | RAddUserToGroup => addUserToGroup cfg r | RUpdateUserGroup => updateUserGroup cfg r
  | RRemoveUserFromGroup => removeUserFromGroup cfg r | RBatchAddMembers => batchAddMembers cfg r
  | RUserGroupsByGroup => userGroupsByGroup cfg r | RUserGroupsByUser => userGroupsByUser cfg r
  | RGroupMembers => groupMembers cfg r | RAddMembersContext => addMembersContext cfg r | RResolveAddMembers => resolveAddMembers cfg r
  | RListProjects => listProjects cfg r | RCreateProject => createProject cfg r | RBatchDeleteProjects => batchDeleteProjects cfg r
  | RListProjectsByUser => listProjectsByUser cfg r | RGetProject => getProject cfg r | RUpdateProject => updateProject cfg r
  | RDeleteProject => deleteProject cfg r 0 | RListProjectMembers => listProjectMembers cfg r
  | RProjectAddMembersContext => projectAddMembersContext cfg r | RAddProjectMembers => addProjectMembers cfg r
  | RBatchRemoveProjectMembers => batchRemoveProjectMembers cfg r | RBatchUpdateProjectMemberRoles => batchUpdateProjectMemberRoles cfg r
  | RBatchSetProjectMemberQuotas => batchSetProjectMemberQuotas cfg r | RUpdateProjectMemberRole => updateProjectMemberRole cfg r
  | RRemoveProjectMember => removeProjectMember cfg r | RGetProjectMemberQuota => getProjectMemberQuota cfg r
  | RUpsertProjectMemberQuota => upsertProjectMemberQuota cfg r | RDeleteProjectMemberQuota => deleteProjectMemberQuota cfg r
  | RGetProjectWorkspaceSettings => getProjectWorkspaceSettings cfg r
  | RUpdateProjectWorkspaceSettings => updateProjectWorkspaceSettings cfg r
  | RListGPUClaims => listGPUClaims cfg r | RCreateGPUClaim => createGPUClaim cfg r | RDeleteGPUClaim => deleteGPUClaim cfg r
  | RBindProjectPlan => bindProjectPlan cfg r | RClearProjectsPlan => clearProjectsPlan cfg r
  | RGeneric g => fun a => let served := serve_generic cfg a r (generic_spec g) in (served.1, Ok served.2)
  end.

(** ** Who is entitled *)

Definition caller (r : service_request) : string := TrimSpace (sq_header r "X-User-ID").

Definition holds_panel (r : service_request) (a : app) : bool := negb (str_empty (caller r)) && panel cfg r a (caller r).

Definition group_role (s : store) (userID gid : string) : option string := (fun m => TextValue (pr_Data m) ["role"]) <$> FindMembership s userID gid.

Definition group_admin (r : service_request) (a : app) (gid : string) : bool :=
  negb (str_empty (caller r)) && (panel cfg r a (caller r) || bool_decide (group_role (app_Store a) (caller r) gid = Some "admin")).

(** The role of a user in a project: that of an administrator or owner, of the owning
    group, or of a direct member. *)
Definition role_at (r : service_request) (a : app) (project : object) (userID : string) : string :=
  if panel cfg r a userID then "admin"
  else if String.eqb (TextValue project ["personal_user_id"; "personalUserID"]) userID then "admin"
  else
    let ownerID := TextValue project ownerKeys in
    match (if str_empty ownerID then None else group_role (app_Store a) userID ownerID) with
    | Some role => normalizeProjectRole role
    | None => match FindDirectProjectMember (app_Store a) (projectID project) userID with
              | Some member => normalizeProjectRole (TextValue (pr_Data member) ["role"])
              | None => ""
              end
    end.

Definition project_allows (r : service_request) (a : app) (allowed : string -> bool) : bool :=
  negb (str_empty (caller r)) &&
  match FindProject (app_Store a) (projectPathID r) with
  | Some project => allowed (role_at r a (pr_Data project) (caller r))
  | None => false
  end.

Definition trusted_service (r : service_request) : bool :=
  negb (str_empty (cf_ServiceAPIKey cfg)) && serviceRequestAuthorizedForAudience cfg (sq_http r) "".

Definition with_payload (r : service_request) (f : object -> bool) : bool := match sq_body r with Ok payload => f payload | Err _ => false end.

(** The routes that have a handler of the service. *)
Definition handled (rt : org_route) : bool := match rt with RGeneric _ => false | _ => true end.

(** Whether the caller may change records through the route; reading changes none.  The
    generic routes that write ask nothing of their caller. *)
Definition entitled (rt : org_route) (r : service_request) (a : app) : bool :=
  match rt with
  | RCreateGroup | RUpdateGroup | RDeleteGroup | RBatchDeleteGroups
  | RCreateProject | RUpdateProject | RDeleteProject | RBatchDeleteProjects => holds_panel r a
  | RAddUserToGroup | RUpdateUserGroup | RBatchAddMembers => with_payload r (fun payload => group_admin r a (payload_gid payload))
  | RRemoveUserFromGroup => group_admin r a (FirstNonBlank [query r "gid"; query r "g_id"; query r "group_id"])
  | RAddProjectMembers | RBatchRemoveProjectMembers | RRemoveProjectMember | RUpdateProjectMemberRole
  | RBatchUpdateProjectMemberRoles | RUpsertProjectMemberQuota | RDeleteProjectMemberQuota | RBatchSetProjectMemberQuotas =>
      project_allows r a (fun role => String.eqb role "admin")
  | RUpdateProjectWorkspaceSettings => project_allows r a canManageProject
  | RCreateGPUClaim | RDeleteGPUClaim => project_allows r a canReadProject
  | RBindProjectPlan | RClearProjectsPlan => trusted_service r
  | RGeneric GAddMembersContext => false
  | RGeneric _ => true
  | _ => false
  end.

(** ** Computations that only look *)

Section Request.
Context (r : service_request).

Definition quiet {A} (c : org A) : Prop := forall a, settles r a (c a).1.

Lemma observes_quiet {A} (c : org A) f : observes r c f -> quiet c.
Proof. intros [Hc _] a. destruct (Hc a) as (a' & Hs & ->). exact Hs. Qed.
Lemma quiet_ret {A} (x : A) : quiet (stm_ret x).
Proof. intros a. constructor. Qed.
Lemma quiet_fail {A} e : quiet (stm_fail (A := A) e).
Proof. intros a. constructor. Qed.
Lemma quiet_reads {A} (f : store -> A) : quiet (reads f).
Proof. intros a. constructor. Qed.
Lemma quiet_bind {A B} (c : org A) (k : A -> org B) : quiet c -> (forall x, quiet (k x)) -> quiet (stm_bind c k).
Proof.
  intros Hc Hk a. unfold stm_bind. specialize (Hc a). destruct (c a) as [a1 [x|e]]; cbn [fst] in *; [|done].
  by eapply settles_trans; [|apply Hk].
Qed.
Lemma quiet_each {A B} (f : A -> org B) l : (forall x, quiet (f x)) -> quiet (each f l).
Proof.
  intros Hf. induction l as [|x l IH]; cbn [each]; [apply quiet_ret|]. apply quiet_bind; [done|]. intros y. apply quiet_bind; [done|]. intros ys. apply quiet_ret.
Qed.
Lemma quiet_select {A} (f : A -> org bool) l : (forall x, quiet (f x)) -> quiet (select f l).
Proof. intros Hf. apply quiet_bind; [by apply quiet_each|]. intros keep. apply quiet_ret. Qed.
Lemma quiet_ensure b status text : quiet (ensure b status text).
Proof. destruct b; [apply quiet_ret|apply quiet_fail]. Qed.
Lemma quiet_answer h : quiet h -> quiet (answer h).
Proof. intros Hh a. unfold answer. specialize (Hh a). by destruct (h a) as [a' [x|[]]]. Qed.
Lemma quiet_rows local source : quiet (orgIdentityRows cfg r local source).
Proof. eapply observes_quiet, observes_rows. Qed.
Lemma quiet_user id : quiet (findUser cfg r id).
Proof. eapply observes_quiet, observes_findUser. Qed.
Lemma quiet_panel userID : quiet (hasAdminPanel cfg r userID).
Proof. eapply observes_quiet, observes_hasAdminPanel. Qed.

End Request.

Ltac quiet_step :=
  match goal with
  | |- quiet _ (stm_bind _ _) => apply quiet_bind; [|intros ?]
  | |- quiet _ (stm_ret _) => apply quiet_ret
  | |- quiet _ (stm_fail _) => apply quiet_fail
  | |- quiet _ (refuse _ _) => apply quiet_fail
  | |- quiet _ panic => apply quiet_fail
  | |- quiet _ (reads _) => apply quiet_reads
  | |- quiet _ (ensure _ _ _) => apply quiet_ensure
  | |- quiet _ (each _ _) => apply quiet_each; intros ?
  | |- quiet _ (select _ _) => apply quiet_select; intros ?
  | |- quiet _ (hasAdminPanel _ _ _) => apply quiet_panel
  | |- quiet _ (findUser _ _ _) => apply quiet_user
  | |- quiet _ (orgIdentityRows _ _ _ _) => apply quiet_rows
  | |- quiet _ (let _ := _ in _) => cbn zeta
  | |- quiet _ (if ?b then _ else _) => destruct b
  | |- quiet _ (match ?x with _ => _ end) => destruct x
  end.
Ltac solve_quiet :=
  repeat (quiet_step || match goal with |- quiet _ ?c => let h := get_head c in unfold h end).

(** The routes that only read. *)
Definition reading (rt : org_route) : bool :=
  match rt with
  | RListGroups | RGetGroup | RGroupPolicyOptions | RGetUserGroup | RUserGroupsByGroup | RUserGroupsByUser | RGroupMembers
  | RAddMembersContext | RResolveAddMembers | RListProjects | RListProjectsByUser | RGetProject | RListProjectMembers
  | RProjectAddMembersContext | RGetProjectMemberQuota | RGetProjectWorkspaceSettings | RListGPUClaims
  | RGeneric GAddMembersContext => true
  | _ => false
  end.

Lemma quiet_reading rt r : reading rt = true -> quiet r (dispatch rt r).
Proof.
  destruct rt as [| | | | | | | | | | | | | | | | | | | | | | | | | | | | | | | | | | | | | | | | | |g]; intros Hr; try discriminate Hr; cbn [dispatch]; [solve_quiet..|].
  destruct g; try discriminate Hr. intros a. unfold serve_generic. cbn. rewrite andb_false_r. constructor.
Qed.

(** ** Computations behind a check *)

(** Unless [P] holds of the state, the computation only looks. *)
Definition gated {A} (r : service_request) (P : app -> bool) (c : org A) : Prop :=
  stable r P /\ forall a, P a = true \/ settles r a (c a).1.

Lemma gated_bind {A B} r P (c : org A) (k : A -> org B) : quiet r c -> (forall x, gated r P (k x)) -> stable r P -> gated r P (stm_bind c k).
Proof.
  intros Hc Hk HP. split; [done|]. intros a. unfold stm_bind. specialize (Hc a). destruct (c a) as [a1 [x|e]]; cbn [fst] in *; [|by right].
  destruct (Hk x) as [_ Hg]. destruct (Hg a1) as [Ht|Hs]; [left; by rewrite <- (HP _ _ Hc)|right; by eapply settles_trans].
Qed.

(** The check: what it returns tells whether [P] holds. *)
Lemma gated_check {A B} r P (c : org A) f (k : A -> org B) : stable r P -> observes r c f ->
  (forall a x, f a = Ok x -> P a = true \/ gated r P (k x)) -> gated r P (stm_bind c k).
Proof.
  intros HP [Hc Hf] Hk. split; [done|]. intros a. destruct (Hc a) as (a1 & Hs & E). unfold stm_bind. rewrite E.
  destruct (f a) as [x|e] eqn:Ef; [|by right]. destruct (Hk a x Ef) as [Ht|[_ Hg]]; [by left|].
  destruct (Hg a1) as [Ht|Hs1]; [left; by rewrite <- (HP _ _ Hs)|right; by eapply settles_trans].
Qed.

Lemma gated_quiet {A} r P (c : org A) : stable r P -> quiet r c -> gated r P c.
Proof. intros HP Hc. split; [done|]. intros a. right. apply Hc. Qed.

Lemma gated_then {A B} r P (c : org A) (k : A -> org B) : gated r P c -> (forall x, quiet r (k x)) -> gated r P (stm_bind c k).
Proof.
  intros [HP Hg] Hk. split; [done|]. intros a. destruct (Hg a) as [Ht|Hs]; [by left|right]. unfold stm_bind.
  destruct (c a) as [a1 [x|e]]; cbn [fst] in *; [|done]. by eapply settles_trans; [|apply Hk].
Qed.

Lemma gated_answer r P h : gated r P h -> gated r P (answer h).
Proof.
  intros [HP Hg]. split; [done|]. intros a. destruct (Hg a) as [Ht|Hs]; [by left|right]. unfold answer. by destruct (h a) as [a' [x|[]]].
Qed.

Lemma gated_batch {A} r P (step : nat -> A -> org (option string)) items k b : stable r P ->
  (forall k x, gated r P (step k x)) -> gated r P (batch step k items b).
Proof.
  intros HP Hs. revert k b. induction items as [|x items IH]; intros k b; cbn [batch]; [apply gated_quiet, quiet_ret; done|].
  split; [done|]. intros a. unfold stm_bind. destruct (Hs k x) as [_ Hg]. destruct (Hg a) as [Ht|Hs1]; [by left|].
  destruct (step k x a) as [a1 [f|e]]; cbn [fst] in *; [|by right].
  destruct (IH (S k) (count_item b f)) as [_ Hi]. destruct (Hi a1) as [Ht|Hs2]; [left; by rewrite <- (HP _ _ Hs1)|right; by eapply settles_trans].
Qed.

(** ** The checks of the handlers *)

Lemma observes_requireUser r : observes r (requireUser r) (fun _ => if str_empty (caller r) then Err (Returns (StatusUnauthorized, message "unauthorized")) else Ok (caller r)).
Proof. unfold requireUser, caller. destruct (str_empty _); [apply observes_fail|apply observes_ret]. Qed.

Lemma same_FindMembership s s' u g : same_owned s s' -> FindMembership s' u g = FindMembership s u g.
Proof.
  intros Hs. unfold FindMembership, membership_record, get_first, membershipKeys.
  rewrite !(owned_Get _ _ _ _ Hs), (owned_List _ _ _ Hs) by (apply (bool_decide_unpack _); vm_compute; exact I). done.
Qed.
Lemma same_group_role s s' u g : same_owned s s' -> group_role s' u g = group_role s u g.
Proof. intros Hs. unfold group_role. by rewrite (same_FindMembership _ _ _ _ Hs). Qed.
Lemma same_FindDirect s s' p u : same_owned s s' -> FindDirectProjectMember s' p u = FindDirectProjectMember s p u.
Proof.
  intros Hs. unfold FindDirectProjectMember, project_user_record, get_first, compositeProjectUserKeys.
  rewrite !(owned_Get _ _ _ _ Hs), (owned_List _ _ _ Hs) by (apply (bool_decide_unpack _); vm_compute; exact I). done.
Qed.
Lemma same_FindProject s s' id : same_owned s s' -> FindProject s' id = FindProject s id.
Proof.
  intros Hs. unfold FindProject, ListProjects.
  rewrite !(owned_Get _ _ _ _ Hs), (owned_List _ _ _ Hs) by (apply (bool_decide_unpack _); vm_compute; exact I). done.
Qed.
Lemma same_FindGroup s s' id : same_owned s s' -> FindGroup s' id = FindGroup s id.
Proof.
  intros Hs. unfold FindGroup, ListGroups.
  rewrite !(owned_Get _ _ _ _ Hs), (owned_List _ _ _ Hs) by (apply (bool_decide_unpack _); vm_compute; exact I). done.
Qed.

Lemma observes_findUserGroup r u g : observes r (findUserGroup u g) (fun a => Ok (pr_Data <$> FindMembership (app_Store a) u g)).
Proof.
  eapply observes_ext; [eapply observes_bind; [apply observes_reads; intros; by apply same_FindMembership|intros found; apply observes_ret]|]. done.
Qed.

Lemma observes_isGroupAdmin r u g :
  observes r (isGroupAdmin cfg r u g) (fun a => Ok (panel cfg r a u || bool_decide (group_role (app_Store a) u g = Some "admin"))).
Proof.
  eapply observes_ext; [eapply observes_bind; [apply observes_hasAdminPanel|]|].
  - intros admin. apply observes_if; [apply observes_ret|]. eapply observes_bind; [apply observes_findUserGroup|]. intros found. apply observes_ret.
  - intros a. cbn [res_bind]. destruct (panel cfg r a u); [done|]. cbn [res_bind orb]. f_equal. unfold group_role.
    destruct (FindMembership _ _ _) as [m|]; cbn [fmap option_fmap option_map]; [|done].
    destruct (String.eqb_spec (TextValue (pr_Data m) ["role"]) "admin") as [->|Hn]; [by rewrite bool_decide_true|rewrite bool_decide_false; congruence].
Qed.

Lemma observes_role r project u : observes r (projectRoleForUser cfg r project u) (fun a => Ok (role_at r a project u)).
Proof.
  eapply observes_ext; [eapply observes_bind; [apply observes_hasAdminPanel|]|].
  - intros admin. apply observes_if; [apply observes_ret|]. apply observes_if; [apply observes_ret|]. cbn zeta.
    eapply observes_bind; [apply observes_if; [apply observes_ret|apply observes_findUserGroup]|].
    intros m. apply observes_option; [intros y; apply observes_ret|].
    eapply observes_bind; [eapply observes_bind; [apply observes_reads; intros; by apply same_FindDirect|intros found; apply observes_ret]|].
    intros found. apply observes_ret.
  - intros a. unfold role_at, group_role. cbn [res_bind]. destruct (panel cfg r a u); [done|]. destruct (String.eqb _ u); [done|].
    destruct (str_empty _); cbn [res_bind fmap option_fmap option_map]; [by destruct (FindDirectProjectMember _ _ _)|].
    destruct (FindMembership _ _ _); cbn [res_bind fmap option_fmap option_map]; [done|by destruct (FindDirectProjectMember _ _ _)].
Qed.

Lemma stable_holds_panel r : stable r (holds_panel r).
Proof. intros a a' Hs. unfold holds_panel. by rewrite (stable_panel cfg r (caller r) a a' Hs). Qed.
Lemma stable_group_admin r gid : stable r (fun a => group_admin r a gid).
Proof.
  intros a a' Hs. unfold group_admin. by rewrite (stable_panel cfg r (caller r) a a' Hs), (same_group_role _ _ _ _ (settles_owned r _ _ Hs)).
Qed.
Lemma stable_role r project u : stable r (fun a => role_at r a project u).
Proof. intros a a' Hs. destruct (observes_role r project u) as [_ Hst]. specialize (Hst _ _ Hs). by injection Hst. Qed.
Lemma stable_project_allows r allowed : stable r (fun a => project_allows r a allowed).
Proof.
  intros a a' Hs. unfold project_allows. rewrite (same_FindProject _ _ _ (settles_owned r _ _ Hs)).
  destruct (FindProject _ _); [|done]. by rewrite (stable_role r _ _ _ _ Hs).
Qed.

(** A handler that asks for the user. *)
Lemma gated_user {A} r P (k : string -> org A) : stable r P ->
  (str_empty (caller r) = false -> gated r P (k (caller r))) -> gated r P (userID <-- requireUser r ;; k userID).
Proof.
  intros HP Hk. eapply gated_check; [done|apply observes_requireUser|]. intros a x. destruct (str_empty (caller r)) eqn:E; [done|].
  intros [= <-]. right. by apply Hk.
Qed.

(** A check whose outcome is [P]. *)
Lemma gated_ensure {A} r P (c : org bool) status text (k : org A) : stable r P -> observes r c (fun a => Ok (P a)) ->
  gated r P (b <-- c ;; ensure b status text ;;; k).
Proof.
  intros HP Hc. eapply gated_check; [done|exact Hc|]. intros a [|] E; [left; by injection E|right]. apply gated_quiet; [done|].
  unfold stm_bind, ensure. intros a'. constructor.
Qed.

Lemma gated_ext {A} r P Q (c : org A) : gated r P c -> (forall a, P a = Q a) -> gated r Q c.
Proof.
  intros [HP Hg] He. split; [intros a a' Hs; by rewrite <- !He, (HP _ _ Hs)|]. intros a. rewrite <- He. apply Hg.
Qed.

(** A check that goes on only where [P] holds. *)
Lemma gated_pass {A B} r P (c : org A) f (k : A -> org B) : stable r P -> observes r c f ->
  (forall a x, f a = Ok x -> P a = true) -> gated r P (stm_bind c k).
Proof. intros HP Hc Hp. eapply gated_check; [done|exact Hc|]. intros a x E. left. by eapply Hp. Qed.

Lemma observes_require_panel r u :
  observes r (require_panel cfg r u) (fun a => if panel cfg r a u then Ok tt else Err (Returns (StatusForbidden, message msgAdminAccessRequired))).
Proof.
  eapply observes_ext; [eapply observes_bind; [apply observes_hasAdminPanel|intros admin; apply observes_ensure]|]. done.
Qed.

Lemma gated_panel {A} r (k : string -> org A) : gated r (holds_panel r) (userID <-- requireUser r ;; (require_panel cfg r userID ;;; k userID)).
Proof.
  apply gated_user; [apply stable_holds_panel|]. intros Hc. eapply gated_pass; [apply stable_holds_panel|apply observes_require_panel|].
  intros a x. unfold holds_panel. rewrite Hc. by destruct (panel _ _ _ _).
Qed.

Lemma observes_require_role r id u allowed text :
  observes r (require_role cfg r id u allowed text) (fun a =>
    match FindProject (app_Store a) id with
    | None => Err (Returns (StatusNotFound, message msgProjectNotFound))
    | Some project => if allowed (role_at r a (pr_Data project) u) then Ok (pr_Data project) else Err (Returns (StatusForbidden, message text))
    end).
Proof.
  eapply observes_ext.
  - eapply observes_bind.
    + eapply observes_bind; [apply observes_reads; intros s s' Hs; by rewrite (same_FindProject _ _ id Hs)|].
      intros found. apply observes_option; [intros y; apply observes_ret|apply observes_fail].
    + intros project. eapply observes_bind; [apply observes_role|]. intros role.
      eapply observes_bind; [apply observes_ensure|]. intros u'. apply observes_ret.
  - intros a. cbn [res_bind]. destruct (FindProject (app_Store a) id); [|done]. cbn [res_bind fmap option_fmap option_map]. by destruct (allowed _).
Qed.

Lemma gated_project {A} r allowed text (k : string -> object -> org A) :
  gated r (fun a => project_allows r a allowed)
    (userID <-- requireUser r ;; (project <-- require_role cfg r (projectPathID r) userID allowed text ;; k userID project)).
Proof.
  apply gated_user; [apply stable_project_allows|]. intros Hc. eapply gated_pass; [apply stable_project_allows|apply observes_require_role|].
  intros a x. unfold project_allows. rewrite Hc. destruct (FindProject _ _); [|done]. by destruct (allowed _).
Qed.

(** What a request for a membership has shown once it passed its checks. *)
Definition membership_allowed (r : service_request) (a : app) (actor uid gid role : string) : Prop :=
  uid ≠ "" /\ gid ≠ "" /\ role ∈ allowedGroupRoles /\ (role = "admin" -> panel cfg r a actor = true) /\
  panel cfg r a actor || bool_decide (group_role (app_Store a) actor gid = Some "admin") = true /\
  is_Some (FindGroup (app_Store a) gid) /\ exists user, user_named cfg r a uid = Some user /\ userVisible user = true.

Lemma observes_validate r actor uid gid role : exists f, observes r (validateMembershipRequest cfg r actor uid gid role) f /\
  forall a x, f a = Ok x -> membership_allowed r a actor uid gid role.
Proof.
  eexists (fun a => _). split.
  - unfold validateMembershipRequest. do 2 (eapply observes_bind; [apply observes_ensure|intros ?]).
    eapply observes_bind; [apply observes_if; [apply observes_hasAdminPanel|apply observes_ret]|]. intros grant.
    eapply observes_bind; [apply observes_ensure|intros ?]. eapply observes_bind; [apply observes_isGroupAdmin|]. intros admin.
    eapply observes_bind; [apply observes_ensure|intros ?].
    eapply observes_bind; [apply observes_reads; intros s s' Hs; by rewrite (same_FindGroup _ _ gid Hs)|]. intros group.
    eapply observes_bind; [apply observes_ensure|intros ?]. eapply observes_bind; [apply observes_findUser|]. intros user. apply observes_ensure.
  - intros a x E. repeat (apply res_bind_ok in E as (? & ? & E)).
    repeat match goal with Hx : Ok _ = Ok _ |- _ => injection Hx as <- | Hx : (if ?b then Ok tt else Err _) = Ok _ |- _ => destruct b eqn:?; [|discriminate Hx] end.
    to_prop. unfold str_empty in *. to_prop. split_and!; auto.
    + intros ->. cbn in *. congruence.
    + by apply fmap_is_Some in Heqb0.
    + destruct (user_named cfg r a uid) as [user|]; [eauto|done].
Qed.

Lemma gated_membership r k uid gid role upsert : gated r (fun a => group_admin r a gid) (createMembership cfg r k uid gid role upsert).
Proof.
  assert (stable r (fun a => group_admin r a gid)) as HP by apply stable_group_admin.
  unfold createMembership. apply gated_user; [done|]. intros Hc. destruct (observes_validate r (caller r) uid gid role) as (f & Hf & Hp).
  eapply gated_pass; [done|exact Hf|]. intros a x E. unfold group_admin. rewrite Hc. by apply Hp in E as (_ & _ & _ & _ & ? & _).
Qed.

Lemma observes_service r : observes r (requireOrgProjectServiceAuth cfg r) (fun _ =>
  if str_empty (cf_ServiceAPIKey cfg) then Err (Returns (StatusNotFound, message "not found"))
  else if serviceRequestAuthorizedForAudience cfg (sq_http r) "" then Ok tt
  else Err (Returns (StatusUnauthorized, message "service authentication is required"))).
Proof. unfold requireOrgProjectServiceAuth. apply observes_if; [apply observes_fail|apply observes_ensure]. Qed.

Lemma gated_service {A} r (k : org A) : gated r (fun _ => trusted_service r) (requireOrgProjectServiceAuth cfg r ;;; k).
Proof.
  eapply gated_pass; [done|apply observes_service|]. intros a x. unfold trusted_service. destruct (str_empty _); [done|]. by destruct (serviceRequestAuthorizedForAudience _ _ _).
Qed.

Lemma stable_entitled rt r : stable r (entitled rt r).
Proof.
  intros a a' Hs. pose proof (stable_holds_panel r a a' Hs). pose proof (fun gid => stable_group_admin r gid a a' Hs).
  pose proof (fun allowed => stable_project_allows r allowed a a' Hs). cbn beta in *.
  destruct rt as [| | | | | | | | | | | | | | | | | | | | | | | | | | | | | | | | | | | | | | | | | |[]]; cbn [entitled]; auto. all: unfold with_payload; destruct (sq_body r); auto.
Qed.

Lemma quiet_decode r : quiet r (decode r).
Proof. unfold decode. destruct (sq_body r); [apply quiet_ret|apply quiet_fail]. Qed.

Lemma observes_decode r : observes r (decode r) (fun _ =>
  match sq_body r with Ok payload => Ok payload | Err _ => Err (Returns (StatusBadRequest, message msgInvalidRequestBody)) end).
Proof. unfold decode. destruct (sq_body r); [apply observes_ret|apply observes_fail]. Qed.

Lemma gated_payload {A} r P (k : object -> org A) : stable r P ->
  (forall payload, sq_body r = Ok payload -> gated r P (k payload)) -> gated r P (payload <-- decode r ;; k payload).
Proof.
  intros HP Hk. eapply gated_check; [done|apply observes_decode|]. intros a x. destruct (sq_body r) as [p|e]; [|done]. intros [= <-]. right. by apply Hk.
Qed.

Lemma gated_remove r : gated r (entitled RRemoveUserFromGroup r) (removeUserFromGroup cfg r).
Proof.
  pose proof (stable_entitled RRemoveUserFromGroup r) as HP. apply gated_user; [done|]. intros Hc. cbn zeta.
  apply gated_bind; [apply quiet_ensure| |done]. intros _. eapply gated_check; [done|apply observes_isGroupAdmin|].
  intros a admin. cbn [entitled]. unfold group_admin. rewrite Hc. cbn [negb andb]. intros Ha. destruct admin; [left; congruence|right].
  apply gated_quiet; [done|]. intros a'. constructor.
Qed.

Lemma gated_entitled rt r : reading rt = false -> gated r (entitled rt r) (dispatch rt r).
Proof.
  intros Hr. pose proof (stable_entitled rt r) as HP.
  destruct rt; try discriminate Hr; cbn [dispatch];
    try exact (gated_panel r _); try exact (gated_service r _); try exact (gated_remove r);
    try (unfold addProjectMembers, batchRemoveProjectMembers, updateProjectMemberRole, batchUpdateProjectMemberRoles, upsertProjectMemberQuota,
           batchSetProjectMemberQuotas, as_project_admin); try exact (gated_project r _ _ _).
  - apply gated_payload; [done|]. intros payload Hp. eapply gated_ext; [apply gated_membership|]. intros a. cbn [entitled]. unfold with_payload. by rewrite Hp.
  - apply gated_payload; [done|]. intros payload Hp. eapply gated_ext; [apply gated_membership|]. intros a. cbn [entitled]. unfold with_payload. by rewrite Hp.
  - apply gated_payload; [done|]. intros payload Hp. cbn zeta. apply gated_bind; [apply quiet_ensure| |done]. intros _.
    apply gated_then; [|intros x; apply quiet_ret]. apply gated_batch; [done|]. intros k uid. apply gated_then; [|intros resp; solve_quiet].
    apply gated_answer. eapply gated_ext; [apply gated_membership|]. intros a. cbn [entitled]. unfold with_payload. by rewrite Hp.
  - split; [done|]. intros a. left. by destruct g.
Qed.

(** C22: a request to a route with a handler changes a record of the service - a group, a
    membership, a project, a direct member, a quota or a GPU claim - only when its caller is
    entitled to the route: a holder of the admin panel for groups and projects, an
    administrator of the group for its memberships, an administrator of the project for its
    members and quotas, a manager for its workspace settings, a member for claims, a trusted
    service for plan bindings.  Every other request, and every request of a reading route,
    leaves all of them as they were.  The five routes of the table that write without a
    handler of the service check no caller (generic_patch_makes_admin), but change only group
    memberships and direct project members. *)
Theorem org_writes_entitled rt r a :
  (entitled rt r a = false -> same_owned (app_Store a) (app_Store (serve (dispatch rt r) a).1)) /\
  (handled rt = false -> forall res id, res ≠ userGroupsResource -> res ≠ projectMembersResource ->
     Get (app_Store (serve (dispatch rt r) a).1) res id = Get (app_Store a) res id).
Proof.
  split.
  2: { destruct rt as [| | | | | | | | | | | | | | | | | | | | | | | | | | | | | | | | | | | | | | | | | |g]; try done. intros _ res id Hu Hm. apply (frame_generic cfg a r (generic_spec g)). unfold in_resource. by destruct g. }
  intros He. unfold serve. assert (settles r a (answer (dispatch rt r) a).1) as Hs.
  { destruct (reading rt) eqn:Er; [by apply quiet_answer, quiet_reading|].
    destruct (gated_answer r _ _ (gated_entitled rt r Er)) as [_ Hg]. destruct (Hg a) as [Ht|]; [congruence|done]. }
  apply settles_owned in Hs. by destruct (answer (dispatch rt r) a) as [a' [x|e]].
Qed.

End Service.
