(* ===== verification/OrgEffects.v ===== *)
(** * Organisation and project service: the records a route can touch

    For every route the resources it may write; [keeps] says that a computation leaves a
    resource alone, and is closed under the ways the handlers are put together. *)

From stdpp Require Import base gmap strings list fin_maps.
From Stdlib Require Import ZArith Lia Ascii.
From S2P Require Import Prelude GoValue Store EventBus Crud Tx Projection InputLimits Config Auth Guards SchedulerHttp ServiceHttp Tables ServiceProjection PolicyIdentity OrgIdentity OrgGroups OrgGroupHandlers OrgProjects OrgProjectHandlers OrgService.
Local Open Scope Z_scope.
Local Open Scope go_scope.

(** ** Within a transaction *)

Definition tx_keeps {E A} (res : string) (c : tx_fn E A) : Prop := forall t, bucket (tx_store (c t).1) res = bucket (tx_store t) res.

Lemma bucket_Create_other s res' d i t res : res ≠ res' -> bucket (Create s res' d i t).1 res = bucket s res.
Proof. intros Hn. apply map_eq. intros id. apply (frame_Create s res' d i t res id). by intros [? _]. Qed.
Lemma bucket_Update s res' i d t res : res ≠ res' -> bucket (Update s res' i d t).1 res = bucket s res.
Proof. intros Hn. apply map_eq. intros id. apply (frame_Update s res' i d t res id). by intros [? _]. Qed.
Lemma bucket_Delete s res' i res : res ≠ res' -> bucket (Delete s res' i).1 res = bucket s res.
Proof. intros Hn. apply map_eq. intros id. apply (frame_Delete s res' i res id). by intros [? _]. Qed.

Section TxKeeps.
Context {E : Type} (res : string).

Lemma tx_keeps_ret {A} (x : A) : tx_keeps (E := E) res (stm_ret x).
Proof. by intros t. Qed.
Lemma tx_keeps_fail {A} e : tx_keeps (E := E) (A := A) res (stm_fail e).
Proof. by intros t. Qed.
Lemma tx_keeps_bind {A B} (c : tx_fn E A) (k : A -> tx_fn E B) : tx_keeps res c -> (forall x, tx_keeps res (k x)) -> tx_keeps res (stm_bind c k).
Proof. intros Hc Hk t. unfold stm_bind. specialize (Hc t). destruct (c t) as [t1 [x|e]]; cbn [fst] in *; [|done]. by rewrite Hk. Qed.
Lemma tx_keeps_reads {A} (f : store -> A) : tx_keeps (E := E) res (tx_reads f).
Proof. by intros t. Qed.
Lemma tx_keeps_emit e : tx_keeps (E := E) res (tx_Emit e).
Proof. by intros t. Qed.
Lemma tx_keeps_Update res' i d now : res ≠ res' -> tx_keeps (E := E) res (tx_Update res' i d now).
Proof. intros Hn t. unfold tx_Update. pose proof (bucket_Update (tx_store t) res' i d now res Hn). by destruct (Update _ _ _ _ _). Qed.
Lemma tx_keeps_Delete res' i : res ≠ res' -> tx_keeps (E := E) res (tx_Delete res' i).
Proof. intros Hn t. unfold tx_Delete. pose proof (bucket_Delete (tx_store t) res' i res Hn). by destruct (Delete _ _ _). Qed.
Lemma tx_keeps_delete_where res' p : res ≠ res' -> tx_keeps (E := E) res (delete_where_tx res' p).
Proof.
  intros Hn t. unfold delete_where_tx. generalize (ids_where (tx_store t) res' p) 0. intros ids. revert t.
  induction ids as [|i ids IH]; intros t n; [done|]. cbn [delete_counted_tx]. unfold stm_bind. pose proof (tx_keeps_Delete res' i Hn t) as Hd.
  destruct (tx_Delete res' i t) as [t1 [b|e]]; cbn [fst] in *; [|done]. by rewrite IH.
Qed.
End TxKeeps.
Lemma tx_keeps_Create res res' d i now : res ≠ res' -> tx_keeps res (tx_Create res' d i now).
Proof. intros Hn t. unfold tx_Create. pose proof (bucket_Create_other (tx_store t) res' d i now res Hn). by destruct (Create _ _ _ _ _). Qed.

(** ** In a handler *)

Definition keeps {A} (res : string) (c : org A) : Prop := forall a, bucket (app_Store (c a).1) res = bucket (app_Store a) res.

Section Keeps.
Context (res : string).

Lemma keeps_quiet `{GoLib} {A} r (c : org A) : res ∈ ownedResources -> quiet r c -> keeps res c.
Proof. intros Hr Hq a. by apply (settles_owned r _ _ (Hq a)). Qed.
Lemma org_keeps_ret {A} (x : A) : keeps res (stm_ret x).
Proof. by intros a. Qed.
Lemma org_keeps_fail {A} e : keeps res (stm_fail (A := A) e).
Proof. by intros a. Qed.
Lemma keeps_reads {A} (f : store -> A) : keeps res (reads f).
Proof. by intros a. Qed.
Lemma org_keeps_bind {A B} (c : org A) (k : A -> org B) : keeps res c -> (forall x, keeps res (k x)) -> keeps res (stm_bind c k).
Proof. intros Hc Hk a. unfold stm_bind. specialize (Hc a). destruct (c a) as [a1 [x|e]]; cbn [fst] in *; [|done]. by rewrite Hk. Qed.
Lemma keeps_each {A B} (f : A -> org B) l : (forall x, keeps res (f x)) -> keeps res (each f l).
Proof.
  intros Hf. induction l as [|x l IH]; cbn [each]; [apply org_keeps_ret|]. apply org_keeps_bind; [done|]. intros y. apply org_keeps_bind; [done|]. intros ys. apply org_keeps_ret.
Qed.
Lemma keeps_ensure b status text : keeps res (ensure b status text).
Proof. by destruct b. Qed.
Lemma keeps_answer h : keeps res h -> keeps res (answer h).
Proof. intros Hh a. specialize (Hh a). unfold answer. by destruct (h a) as [a' [x|[]]]. Qed.
Lemma keeps_batch {A} (step : nat -> A -> org (option string)) items k b : (forall k x, keeps res (step k x)) -> keeps res (batch step k items b).
Proof.
  intros Hs. revert k b. induction items as [|x items IH]; intros k b; cbn [batch]; [apply org_keeps_ret|]. apply org_keeps_bind; [done|]. intros f. apply IH.
Qed.
Lemma keeps_tx {E A} (fn : tx_fn E A) : tx_keeps res fn -> keeps res (writes (fun a => WithTx a fn)).
Proof.
  intros Hf a. unfold writes. pose proof (WithTx_store a fn) as Hs. specialize (Hf (StoreTx (app_Store a) [])).
  destruct (WithTx a fn) as [a' x]. cbn [fst] in *. by rewrite Hs, Hf.
Qed.
Lemma keeps_createGroup d b i now : res ≠ groupsResource -> keeps res (writes (fun a => CreateGroupWithEvent a d b i now)).
Proof.
  intros Hn a. unfold writes, CreateGroupWithEvent. pose proof (CreateRecordWithEvent_store a groupsResource d (Some b) i now) as Hs.
  destruct (CreateRecordWithEvent _ _ _ _ _ _) as [a' [x|e]]; cbn [fst] in *; rewrite Hs; by apply bucket_Create_other.
Qed.
Lemma keeps_updateGroup id d b now : res ≠ groupsResource -> keeps res (writes (fun a => UpdateGroupWithEvent a id d b now)).
Proof.
  intros Hn a. unfold writes, UpdateGroupWithEvent. destruct (FindGroup _ _) as [g|]; [|done]. destruct (Get _ _ _) as [old|]; [|done]. cbn zeta.
  pose proof (UpdateRecordWithEvent_store a groupsResource (pr_ID g) d (Some (fun rc => b (groupRecordFromStore old) (groupRecordFromStore rc))) now) as Hs.
  destruct (UpdateRecordWithEvent _ _ _ _ _ _) as [a' [[x|]|e]]; cbn [fst] in *; rewrite Hs; by apply bucket_Update.
Qed.
Lemma keeps_createProject d b i now : res ≠ projectsResource -> keeps res (writes (fun a => CreateProjectWithEvent a d b i now)).
Proof.
  intros Hn a. unfold writes, CreateProjectWithEvent. pose proof (CreateRecordWithEvent_store a projectsResource d (Some b) i now) as Hs.
  destruct (CreateRecordWithEvent _ _ _ _ _ _) as [a' [x|e]]; cbn [fst] in *; rewrite Hs; by apply bucket_Create_other.
Qed.
Lemma keeps_updateProject id d b now : res ≠ projectsResource -> keeps res (writes (fun a => UpdateProjectWithEvent a id d b now)).
Proof.
  intros Hn a. unfold writes, UpdateProjectWithEvent. destruct (Get _ _ _) as [old|]; [|done]. cbn zeta.
  pose proof (UpdateRecordWithEvent_store a projectsResource id d (Some (fun rc => b (projectRecordFromStore old) (projectRecordFromStore rc))) now) as Hs.
  destruct (UpdateRecordWithEvent _ _ _ _ _ _) as [a' [[x|]|e]]; cbn [fst] in *; rewrite Hs; by apply bucket_Update.
Qed.
Lemma keeps_newGroupID : keeps res newGroupID.
Proof. intros a. unfold newGroupID, writes, NextGroupID, NextID. by destruct (next_loop _ _ _ _ _) as [[n id]|]. Qed.
Lemma keeps_newProjectID : keeps res newProjectID.
Proof. intros a. unfold newProjectID, writes, NextProjectID, NextID. by destruct (next_loop _ _ _ _ _) as [[n id]|]. Qed.
End Keeps.

(** ** The routes *)

Definition touches (rt : org_route) : list string :=
  match rt with
  | RCreateGroup | RUpdateGroup => [groupsResource]
  | RDeleteGroup | RBatchDeleteGroups => [groupsResource; userGroupsResource]
  | RAddUserToGroup | RUpdateUserGroup | RRemoveUserFromGroup | RBatchAddMembers => [userGroupsResource]
  | RCreateProject | RUpdateProject | RUpdateProjectWorkspaceSettings | RBindProjectPlan | RClearProjectsPlan => [projectsResource]
  | RDeleteProject | RBatchDeleteProjects => [projectsResource; projectMembersResource; projectUserQuotasResource; gpuClaimsResource]
  | RAddProjectMembers | RUpdateProjectMemberRole | RBatchUpdateProjectMemberRoles => [projectMembersResource]
  | RRemoveProjectMember | RBatchRemoveProjectMembers => [projectMembersResource; projectUserQuotasResource]
  | RUpsertProjectMemberQuota | RDeleteProjectMemberQuota | RBatchSetProjectMemberQuotas => [projectUserQuotasResource]
  | RCreateGPUClaim | RDeleteGPUClaim => [gpuClaimsResource]
  | RGeneric GAddMembersContext => []
  | RGeneric g => [rt_Resource (generic_spec g)]
  | _ => []
  end.

Ltac tx_keeps_step :=
  match goal with
  | |- tx_keeps _ (stm_bind _ _) => apply tx_keeps_bind; [|intros ?]
  | |- tx_keeps _ (stm_ret _) => apply tx_keeps_ret
  | |- tx_keeps _ (stm_fail _) => apply tx_keeps_fail
  | |- tx_keeps _ (tx_reads _) => apply tx_keeps_reads
  | |- tx_keeps _ (tx_Emit _) => apply tx_keeps_emit
  | |- tx_keeps _ (tx_Update _ _ _ _) => apply tx_keeps_Update; assumption
  | |- tx_keeps _ (tx_Delete _ _) => apply tx_keeps_Delete; assumption
  | |- tx_keeps _ (tx_Create _ _ _ _) => apply tx_keeps_Create; assumption
  | |- tx_keeps _ (delete_where_tx _ _) => apply tx_keeps_delete_where; assumption
  | |- tx_keeps _ (let _ := _ in _) => cbn zeta
  | |- tx_keeps _ (if ?b then _ else _) => destruct b
  | |- tx_keeps _ (match ?x with _ => _ end) => destruct x
  end.

Section Routes.
Context `{GoLib} {ip : Type} (cfg : config ip).

Ltac solve_tx_keeps := repeat (tx_keeps_step || match goal with |- tx_keeps _ ?c => let h := get_head c in unfold h end).

Lemma tx_keeps_upsertQuota {E} res quota i now : res ≠ projectUserQuotasResource -> tx_keeps (E := E) res (UpsertProjectUserQuotaTx quota i now).
Proof.
  intros Hn t. unfold UpsertProjectUserQuotaTx. cbn zeta.
  assert (tx_keeps (E := E) res (rc <-- tx_Update projectUserQuotasResource (TextValue quota ["id"]) quota now ;; stm_ret (quota_or_zero rc))) as HU
    by solve_tx_keeps.
  destruct (Get _ _ _); [apply HU|]. pose proof (tx_keeps_Create res projectUserQuotasResource quota i now Hn t) as HC.
  destruct (tx_Create _ _ _ _ t) as [t1 [rc|e]]; cbn [fst] in *; [done|]. by rewrite HU.
Qed.

Lemma tx_keeps_clear {E} res planID now emit : res ≠ projectsResource -> tx_keeps (E := E) res (ClearProjectsPlanTx planID now emit).
Proof.
  intros Hn t. unfold ClearProjectsPlanTx. generalize (ListProjects (tx_store t)). intros l.
  enough (forall k n, tx_keeps (E := E) res (clear_plans_tx l planID now emit k n)) as Hl by apply Hl.
  clear t. induction l as [|p l IH]; intros k n; cbn [clear_plans_tx]; solve_tx_keeps; apply IH.
Qed.

Ltac keeps_step :=
  match goal with
  | |- keeps _ (stm_bind _ _) => apply org_keeps_bind; [|intros ?]
  | |- keeps _ (stm_ret _) => apply org_keeps_ret
  | |- keeps _ (stm_fail _) => apply org_keeps_fail
  | |- keeps _ (refuse _ _) => apply org_keeps_fail
  | |- keeps _ panic => apply org_keeps_fail
  | |- keeps _ (reads _) => apply keeps_reads
  | |- keeps _ (ensure _ _ _) => apply keeps_ensure
  | |- keeps _ (each _ _) => apply keeps_each; intros ?
  | |- keeps _ (answer _) => apply keeps_answer
  | |- keeps _ (batch _ _ _ _) => apply keeps_batch; intros ? ?
  | |- keeps _ (hasAdminPanel _ ?r _) => apply (keeps_quiet _ r); [assumption|apply quiet_panel]
  | |- keeps _ (findUser _ ?r _) => apply (keeps_quiet _ r); [assumption|apply quiet_user]
  | |- keeps _ newGroupID => apply keeps_newGroupID
  | |- keeps _ newProjectID => apply keeps_newProjectID
  | |- keeps _ (writes (fun a => WithTx a _)) => apply keeps_tx
  | |- keeps _ (writes (fun a => CreateGroupWithEvent a _ _ _ _)) => apply keeps_createGroup; assumption
  | |- keeps _ (writes (fun a => UpdateGroupWithEvent a _ _ _ _)) => apply keeps_updateGroup; assumption
  | |- keeps _ (writes (fun a => CreateProjectWithEvent a _ _ _ _)) => apply keeps_createProject; assumption
  | |- keeps _ (writes (fun a => UpdateProjectWithEvent a _ _ _ _)) => apply keeps_updateProject; assumption
  | |- tx_keeps _ (UpsertProjectUserQuotaTx _ _ _) => apply tx_keeps_upsertQuota; assumption
  | |- tx_keeps _ (ClearProjectsPlanTx _ _ _) => apply tx_keeps_clear; assumption
  | |- tx_keeps _ _ => tx_keeps_step
  | |- keeps _ (let _ := _ in _) => cbn zeta
  | |- keeps _ (if ?b then _ else _) => destruct b
  | |- keeps _ (match ?x with _ => _ end) => destruct x
  | |- keeps _ ?c => let h := get_head c in unfold h
  | |- tx_keeps _ ?c => let h := get_head c in unfold h
  end.

Lemma route_keeps rt r res : res ∈ ownedResources -> res ∉ touches rt -> keeps res (dispatch cfg rt r).
Proof.
  intros Hr Hn. destruct (reading rt) eqn:Er; [by eapply keeps_quiet, quiet_reading|].
  destruct rt as [| | | | | | | | | | | | | | | | | | | | | | | | | | | | | | | | | | | | | | | | | |g]; try discriminate Er;
    [..|intros a; cbn [dispatch fst]; apply map_eq; intros id; apply (frame_generic cfg a r (generic_spec g)); unfold in_resource;
        destruct g; cbn [touches] in Hn; [..|discriminate Er| | |]; intros ->; apply Hn; apply list_elem_of_here].
  all: cbn [touches] in Hn; rewrite ?not_elem_of_cons in Hn; destruct_and?; cbn [dispatch]; repeat keeps_step.
Qed.

End Routes.
