(* ===== verification/OrgMembers.v ===== *)
(** * Organisation and project service: memberships as a map
    (what handler.go promises about the members of groups)

    The memberships are a finite map from users and groups to roles.  [mstep] says how the
    map may change; every request refines a sequence of such steps, so that an
    administrator of a group is made by a holder of the admin panel only. *)

From stdpp Require Import base gmap strings list fin_maps relations.
From Stdlib Require Import ZArith Lia Ascii.
From S2P Require Import Prelude GoValue Store EventBus Crud Tx Projection InputLimits Config Auth Guards SchedulerHttp ServiceHttp Tables ServiceProjection PolicyIdentity OrgIdentity OrgGroups OrgGroupHandlers OrgProjects OrgProjectHandlers OrgService OrgEffects.
Local Open Scope Z_scope.
Local Open Scope go_scope.

(** ** Records filed under two names *)

(** Memberships, direct members and quotas are filed under a composed key, a user and a
    group or a project and a user, joined by a colon; older records use a slash.  [pairs]
    relates such a resource to the finite map it stands for. *)

Definition filed_in (resource : string) (s : store) : Prop := forall id rc, Get s resource id = Some rc -> rec_ID rc = id.

Lemma slash_no_colon u g id : colon_free u -> colon_free g -> id = u +:+ "/" +:+ g -> colon_free id.
Proof.
  intros Hu Hg ->. unfold colon_free in *. rewrite !bytes_of_app. change (bytes_of "/") with ["/"%char]. unfold colon in *.
  rewrite !elem_of_app, list_elem_of_singleton. intros [?|[?|?]]; done.
Qed.
Lemma join_has_colon a b : ~ colon_free (a +:+ ":" +:+ b).
Proof. unfold colon_free. rewrite !bytes_of_app. change (bytes_of ":") with [colon]. set_solver. Qed.

(** ** Deleting rows in a transaction *)

Lemma delete_where_tx_store {E} res p (t : fallbackStoreTx) :
  tx_store (delete_where_tx (E := E) res p t).1 = fold_left (fun s i => (Delete s res i).1) (ids_where (tx_store t) res p) (tx_store t) /\
  exists n, (delete_where_tx (E := E) res p t).2 = Ok n.
Proof.
  unfold delete_where_tx. generalize (ids_where (tx_store t) res p) 0. intros ids. revert t.
  induction ids as [|i ids IH]; intros t n; cbn [delete_counted_tx fold_left]; [eauto|]. unfold stm_bind, tx_Delete.
  destruct (Delete (tx_store t) res i) as [s b]. cbn [fst]. apply IH.
Qed.

(** The rows that do not match remain. *)
Lemma delete_where_Get {E} res p t res' id : filed_in res (tx_store t) ->
  Get (tx_store (delete_where_tx (E := E) res p t).1) res' id =
  match Get (tx_store t) res' id with
  | Some rc => if bool_decide (res' = res) && p (rec_Data rc) then None else Some rc
  | None => None
  end.
Proof.
  intros Hf. rewrite (proj1 (delete_where_tx_store res p t)), fold_Delete_Get.
  assert (id ∈ ids_where (tx_store t) res p <-> exists rc, Get (tx_store t) res id = Some rc /\ p (rec_Data rc) = true) as Hi.
  { unfold ids_where. rewrite list_elem_of_In, in_map_iff. split.
    - intros (rc & <- & [Hin Hp]%filter_In). apply list_elem_of_In, elem_of_List in Hin as [i Hg]. exists rc. split; [|done]. by rewrite (Hf _ _ Hg).
    - intros (rc & Hg & Hp). exists rc. split; [by apply Hf|]. apply filter_In. split; [|done]. apply list_elem_of_In, elem_of_List. eauto. }
  case_decide as Hd.
  - destruct Hd as [-> (rc & Hg & Hp)%Hi]. rewrite Hg, Hp. by rewrite bool_decide_true.
  - destruct (Get (tx_store t) res' id) as [rc|] eqn:Eg; [|done]. case_bool_decide as Hr; [|done]. subst. destruct (p (rec_Data rc)) eqn:Ep; [|done].
    destruct Hd. split; [done|]. apply Hi. eauto.
Qed.

Lemma filed_in_delete_where {E} res p t : filed_in res (tx_store t) -> filed_in res (tx_store (delete_where_tx (E := E) res p t).1).
Proof. intros Hf id rc. rewrite delete_where_Get by done. destruct (Get _ _ _) as [rc'|] eqn:Eg; [|done]. destruct (_ && _); [done|]. intros [= <-]. by apply Hf. Qed.

Lemma filed_in_Create res s d i t : filed_in res s -> filed_in res (Create s res d i t).1.
Proof.
  intros Hf id rc. destruct (Create s res d i t) as [s' [rc'|e]] eqn:E; cbn [fst].
  - apply Create_ok in E as (_ & Hi & _ & _ & _ & _ & Hg). rewrite Hg. case_decide as Hd; [|apply Hf]. intros [= <-]. by destruct Hd as [_ <-].
  - apply Create_err in E as (_ & _ & Hg). rewrite Hg. apply Hf.
Qed.
Lemma filed_in_Update res s i d t : filed_in res s -> filed_in res (Update s res i d t).1.
Proof.
  intros Hf id rc. pose proof (Update_cases s res i d t) as HU.
  destruct (Update s res i d t) as [s' [rc'|]], (Get s res i) as [old|] eqn:Eo; try done; cbn [fst]; [|subst; apply Hf].
  destruct HU as (_ & Hi & _ & _ & _ & Hg). rewrite Hg. case_decide as Hd; [|apply Hf]. intros [= <-]. destruct Hd as [_ <-]. rewrite Hi. by eapply Hf.
Qed.
Lemma filed_in_Delete res s i : filed_in res s -> filed_in res (Delete s res i).1.
Proof. intros Hf id rc. rewrite Delete_Get. case_decide; [done|apply Hf]. Qed.

(** ** Pairs *)

Definition pkey_id (k : string * string) : string := k.1 +:+ ":" +:+ k.2.
Definition pkey_wf (k : string * string) : Prop := colon_free k.1 /\ colon_free k.2.

Lemma pkey_id_inj k k' : pkey_wf k -> pkey_wf k' -> pkey_id k = pkey_id k' -> k = k'.
Proof. destruct k, k'. unfold pkey_id. cbn [fst snd]. intros [H1 _] [H2 _] He. by apply join_colon_inj in He as [-> ->]. Qed.

Section Pairs.
Context {V : Type} (res : string) (keys1 keys2 : list string) (vrow : V -> object -> Prop).

Definition prow (k : string * string) (v : V) (d : object) : Prop := TextValue d keys1 = k.1 /\ TextValue d keys2 = k.2 /\ vrow v d.
Definition pairs (s : store) (M : gmap (string * string) V) : Prop := table pkey_id pkey_wf prow res s M /\ filed_in res s.

(** The lookups of the repositories: by a key, else by the row. *)
Definition pair_matches (x y : string) (rc : record) : bool :=
  String.eqb (TextValue (rec_Data rc) keys1) x && String.eqb (TextValue (rec_Data rc) keys2) y.
Definition pair_record (s : store) (x y : string) : option record :=
  match get_first s res [x +:+ ":" +:+ y; x +:+ "/" +:+ y] with
  | Some rc => Some rc
  | None => List.find (pair_matches x y) (List_ s res)
  end.

Lemma pairs_same s s' M : bucket s' res = bucket s res -> pairs s M -> pairs s' M.
Proof.
  intros Hb [Ht Hf]. split; [eapply table_same; [|done]; intros id; unfold Get; by rewrite Hb|]. intros id rc. unfold Get. rewrite Hb. apply Hf.
Qed.

(** No record is filed under a key with a slash. *)
Lemma pairs_no_slash s M x y : pairs s M -> pkey_wf (x, y) -> Get s res (x +:+ "/" +:+ y) = None.
Proof.
  intros [[H1 _] _] [Hx Hy]. destruct (Get s res (x +:+ "/" +:+ y)) as [rc|] eqn:Es; [|done]. destruct (H1 _ _ Es) as (k & v & Hi & _).
  exfalso. eapply (join_has_colon k.1 k.2), slash_no_colon; [exact Hx|exact Hy|]. symmetry. exact Hi.
Qed.

(** A row that names the pair is the record of the pair. *)
Lemma pairs_match s M x y id rc : pairs s M -> Get s res id = Some rc -> pair_matches x y rc = true -> is_Some (M !! (x, y)).
Proof.
  intros [[H1 _] _] Hg Hm. destruct (H1 _ _ Hg) as ([k1 k2] & v & _ & _ & Hk & H2 & H3 & _). cbn [fst snd] in *. unfold pair_matches in Hm. rewrite H2, H3 in Hm.
  apply andb_true_iff in Hm as [<-%String.eqb_eq <-%String.eqb_eq]. eauto.
Qed.

Lemma pairs_find s M x y : pairs s M -> pkey_wf (x, y) ->
  match M !! (x, y) with
  | Some v => exists rc, pair_record s x y = Some rc /\ Get s res (x +:+ ":" +:+ y) = Some rc /\ prow (x, y) v (rec_Data rc)
  | None => pair_record s x y = None /\ Get s res (x +:+ ":" +:+ y) = None
  end.
Proof.
  intros HP Hw. pose proof (table_get pkey_id pkey_wf prow pkey_id_inj _ _ _ (x, y) Hw (proj1 HP)) as Hg. unfold pair_record, get_first.
  change (pkey_id (x, y)) with (x +:+ ":" +:+ y) in Hg. destruct (M !! (x, y)) as [v|] eqn:E.
  { destruct Hg as (rc & Hr & Hrow). exists rc. by rewrite Hr. }
  rewrite Hg, (pairs_no_slash s M x y HP Hw). split; [|done]. apply find_none_spec, Forall_forall. intros rc [id Hid]%elem_of_List.
  apply not_true_iff_false. intros Hm. destruct (pairs_match s M x y id rc HP Hid Hm) as [v Hv]. congruence.
Qed.

(** The scan over the rows finds the record of the pair. *)
Lemma pairs_scan s M x y v : pairs s M -> pkey_wf (x, y) -> M !! (x, y) = Some v ->
  exists rc, List.find (pair_matches x y) (List_ s res) = Some rc /\ prow (x, y) v (rec_Data rc).
Proof.
  intros HP Hw Hv. pose proof (pairs_find s M x y HP Hw) as Hf. rewrite Hv in Hf. destruct Hf as (rc & _ & Hg & Hrow). exists rc. split; [|done].
  assert (pair_matches x y rc = true) as Hm by (destruct Hrow as (H1 & H2 & _); unfold pair_matches; cbn [fst snd] in *; by rewrite H1, H2, !String.eqb_refl).
  destruct (List.find _ _) as [rc'|] eqn:E.
  - apply find_spec in E as [[id Hid]%elem_of_List Hm']. destruct HP as [[H1 _] _]. destruct (H1 _ _ Hid) as ([k1 k2] & v' & -> & _ & _ & Hk1 & Hk2 & _).
    unfold pair_matches in Hm'. cbn [fst snd] in *. rewrite Hk1, Hk2 in Hm'. apply andb_true_iff in Hm' as [->%String.eqb_eq ->%String.eqb_eq].
    change (pkey_id (x, y)) with (x +:+ ":" +:+ y) in Hid. congruence.
  - rewrite find_none_spec, Forall_forall in E. rewrite E in Hm; [done|]. apply elem_of_List. eauto.
Qed.

(** Writing the record of a pair. *)
Lemma pairs_put s s' M x y v rc : pairs s M -> pkey_wf (x, y) -> filed_in res s' ->
  Get s' res (x +:+ ":" +:+ y) = Some rc -> prow (x, y) v (rec_Data rc) ->
  (forall id, id ≠ x +:+ ":" +:+ y -> Get s' res id = Get s res id) -> pairs s' (<[(x, y) := v]> M).
Proof.
  intros [Ht _] Hw Hf Hg Hr Ho. split; [|done]. exact (table_insert pkey_id pkey_wf prow pkey_id_inj res s s' M (x, y) v rc Hw Ht Hg Hr Ho).
Qed.

End Pairs.

(** ** Memberships *)

Abbreviation members := (gmap (string * string) string).

(** ** The abstract system *)

(** [panel] says that the actor holds the admin panel. *)
Inductive mstep (panel : bool) (actor : string) : members -> members -> Prop :=
| m_put M u g role : role ∈ allowedGroupRoles -> (role = "admin" -> panel = true) ->
    panel = true \/ M !! (actor, g) = Some "admin" -> mstep panel actor M (<[(u, g) := role]> M)
| m_remove M u g : panel = true \/ M !! (actor, g) = Some "admin" -> mstep panel actor M (delete (u, g) M)
| m_drop M g : panel = true -> mstep panel actor M (filter (fun kv => kv.1.2 ≠ g) M).

(** Without the panel no administrator is made. *)
Lemma mstep_admins actor M M' k : mstep false actor M M' -> M' !! k = Some "admin" -> M !! k = Some "admin".
Proof.
  intros Hs. destruct Hs as [M u g role Hr Ha _|M u g _|M g Hp]; [..|done].
  - rewrite lookup_insert_Some. intros [[_ ->]|[_ ?]]; [by specialize (Ha eq_refl)|done].
  - by intros [_ ?]%lookup_delete_Some.
Qed.

(** ** The representation *)

Definition role_row (role : string) (d : object) : Prop := TextValue d ["role"] = role /\ role ∈ allowedGroupRoles.
Abbreviation mrow := (prow memberIdKeys groupIdKeys role_row).
Definition roster (s : store) (M : members) : Prop := pairs userGroupsResource memberIdKeys groupIdKeys role_row s M.

Lemma roster_same s s' M : bucket s' userGroupsResource = bucket s userGroupsResource -> roster s M -> roster s' M.
Proof. apply pairs_same. Qed.
Lemma roster_owned s s' M : same_owned s s' -> roster s M -> roster s' M.
Proof. intros Hs. apply roster_same, Hs. apply (bool_decide_unpack _). vm_compute. exact I. Qed.

(** ** Lookups *)

Lemma roster_find s M u g : roster s M -> pkey_wf (u, g) ->
  match M !! (u, g) with
  | Some role => exists rc, membership_record s u g = Some rc /\ Get s userGroupsResource (membershipID u g) = Some rc /\ mrow (u, g) role (rec_Data rc)
  | None => membership_record s u g = None /\ Get s userGroupsResource (membershipID u g) = None
  end.
Proof. exact (pairs_find userGroupsResource memberIdKeys groupIdKeys role_row s M u g). Qed.

Lemma membership_role rc : TextValue (pr_Data (membershipRecordFromStore rc)) ["role"] = TextValue (rec_Data rc) ["role"].
Proof. apply TextValue_agree, record_map_agree. set_solver. Qed.

Lemma roster_role s M u g : roster s M -> pkey_wf (u, g) -> group_role s u g = M !! (u, g).
Proof.
  intros Hr Hw. pose proof (roster_find s M u g Hr Hw) as Hf. unfold group_role, FindMembership. destruct (M !! (u, g)) as [role|].
  - destruct Hf as (rc & -> & _ & _ & _ & Hrole & _). cbn [fmap option_fmap option_map]. by rewrite membership_role, Hrole.
  - by destruct Hf as [-> _].
Qed.

Section Writes.
Context `{GoLib}.

(** ** The writes of memberships *)

Definition name_ok (t : string) : Prop := Trimmed t /\ colon_free t /\ t ≠ "".

Definition plain (t : string) : Prop := Trimmed t /\ colon_free t.

Lemma plain_wf u g : plain u -> plain g -> pkey_wf (u, g).
Proof. by intros [_ ?] [_ ?]. Qed.
Lemma name_wf u g : name_ok u -> name_ok g -> pkey_wf (u, g).
Proof. by intros (_ & ? & _) (_ & ? & _). Qed.

Lemma role_text role : role ∈ allowedGroupRoles -> Trimmed role /\ role ≠ "".
Proof.
  revert role. apply Forall_forall. unfold allowedGroupRoles. repeat constructor; try discriminate; apply Trimmed_of_fix; reflexivity.
Qed.

Lemma roster_create s M u g role i now : roster s M -> name_ok u -> name_ok g -> role ∈ allowedGroupRoles -> M !! (u, g) = None ->
  roster (Create s userGroupsResource (membership_row u g role now) i now).1 (<[(u, g) := role]> M).
Proof.
  intros Hr Hu Hg Hrole Hn. pose proof (name_wf _ _ Hu Hg) as Hw. pose proof (roster_find s M u g Hr Hw) as Hf. rewrite Hn in Hf. destruct Hf as [_ Hf].
  destruct Hr as [Ht Hfiled]. split; [|by apply filed_in_Create].
  assert (create_id (membership_row u g role now) i = membershipID u g) as Hi.
  { unfold create_id, mget. change (membership_row u g role now !! "id") with (Some (VString (membershipID u g))). cbn [default as_str from_option id].
    unfold str_empty, membershipID. destruct (String.eqb_spec (u +:+ ":" +:+ g) "") as [He|]; [|done]. exfalso. by destruct u. }
  destruct (Create _ _ _ _ _) as [s' [rc|e]] eqn:E; [|apply Create_err in E as (_ & He & _); rewrite Hi, Hf in He; by destruct He].
  apply Create_ok in E as (_ & _ & _ & _ & _ & Hd & Hgs). rewrite Hi in Hgs. cbn [fst].
  eapply (table_insert pkey_id pkey_wf mrow pkey_id_inj _ s s' M (u, g) role rc); [done|done|..].
  - rewrite Hgs. by rewrite decide_True.
  - destruct Hu as (Hut & _ & Hune), Hg as (Hgt & _ & Hgne). split; [|split; [|split; [|done]]].
    + apply TextValue_text; [by rewrite Hd by done|done|done].
    + apply TextValue_text; [by rewrite Hd by done|done|done].
    + apply TextValue_text; [by rewrite Hd by done|apply (role_text role Hrole)..].
  - intros id Hne. rewrite Hgs. rewrite decide_False; [done|]. intros [_ He]. by apply Hne.
Qed.

Lemma roster_update s M u g role0 role now : roster s M -> pkey_wf (u, g) -> role ∈ allowedGroupRoles -> M !! (u, g) = Some role0 ->
  roster (Update s userGroupsResource (membershipID u g) (role_patch role now) now).1 (<[(u, g) := role]> M).
Proof.
  intros Hr Hw Hrole Hs. pose proof (roster_find s M u g Hr Hw) as Hf. rewrite Hs in Hf. destruct Hf as (rc & _ & Hg & Hrow).
  destruct Hr as [Ht Hfiled]. split; [|by apply filed_in_Update].
  pose proof (Update_cases s userGroupsResource (membershipID u g) (role_patch role now) now) as HU. rewrite Hg in HU.
  destruct (Update _ _ _ _ _) as [s' [rc'|]]; [|done]. destruct HU as (Hd & _ & _ & _ & _ & Hgs). cbn [fst].
  eapply (table_insert pkey_id pkey_wf mrow pkey_id_inj _ s s' M (u, g) role rc'); [done|done|..].
  - rewrite Hgs. by rewrite decide_True.
  - assert (forall keys, Forall (fun k => role_patch role now !! k = None) keys -> agree_on keys (rec_Data rc) (rec_Data rc')) as Ha.
    { intros keys Hk k Hin. rewrite Forall_forall in Hk. rewrite Hd. by rewrite (Hk k Hin). }
    destruct Hrow as (Hu & Hgg & _ & _). split; [|split; [|split; [|done]]].
    + rewrite (TextValue_agree _ _ _ (Ha memberIdKeys ltac:(repeat constructor))). exact Hu.
    + rewrite (TextValue_agree _ _ _ (Ha groupIdKeys ltac:(repeat constructor))). exact Hgg.
    + apply TextValue_text; [by rewrite Hd|apply (role_text role Hrole)..].
  - intros id Hne. rewrite Hgs. rewrite decide_False; [done|]. intros [_ He]. by apply Hne.
Qed.

Lemma roster_delete s M u g : roster s M -> pkey_wf (u, g) -> roster (Delete s userGroupsResource (membershipID u g)).1 (delete (u, g) M).
Proof.
  intros [Ht Hf] Hw. split; [|by apply filed_in_Delete]. eapply table_delete; [exact pkey_id_inj|exact Hw|exact Ht|].
  intros id. rewrite Delete_Get. change (pkey_id (u, g)) with (membershipID u g). repeat case_decide; naive_solver.
Qed.

Lemma roster_drop {E} t M gid : roster (tx_store t) M ->
  roster (tx_store (deleteMembershipsByGroupTx (E := E) gid t).1) (filter (fun kv => kv.1.2 ≠ gid) M).
Proof.
  intros [Ht Hf]. split; [|by apply filed_in_delete_where]. destruct Ht as [H1 H2].
  eapply (table_delete_where pkey_id pkey_wf mrow _ (tx_store t) _ M _ (fun k => bool_decide (k.2 = gid))); [done|..].
  - intros [u g]. cbn [snd]. case_bool_decide as Hg.
    + apply map_lookup_filter_None_2. right. intros role _ Hn. by apply Hn.
    + destruct (M !! (u, g)) eqn:E1; [by apply map_lookup_filter_Some_2|]. apply map_lookup_filter_None_2. by left.
  - intros k Hk. unfold deleteMembershipsByGroupTx. rewrite delete_where_Get by done. destruct (Get (tx_store t) userGroupsResource (pkey_id k)) as [rc|] eqn:Eg.
    + destruct (H1 _ _ Eg) as (k' & v & He & Hw & _ & _ & Hgg & _). apply pkey_id_inj in He as <-; [|done..].
      rewrite bool_decide_true by done. unfold of_group. rewrite Hgg. cbn [andb]. case_bool_decide as Hd.
      * by rewrite Hd, String.eqb_refl.
      * by rewrite (proj2 (String.eqb_neq _ _) Hd).
    + by case_bool_decide.
  - intros id rc. unfold deleteMembershipsByGroupTx. rewrite delete_where_Get by done. destruct (Get _ _ _); [|done]. by destruct (_ && _).
Qed.

End Writes.

(** ** Requests *)

Lemma emitting_store {E A} (c : tx_fn E (option A)) missing ev t : tx_store (emitting c missing ev t).1 = tx_store (c t).1.
Proof. unfold emitting, stm_bind, tx_Emit, stm_ret, stm_fail. by destruct (c t) as [t1 [[x|]|e]]. Qed.

Lemma writes_tx_store {E A} a (fn : tx_fn E A) : app_Store (writes (fun a => WithTx a fn) a).1 = tx_store (fn (StoreTx (app_Store a) [])).1.
Proof. unfold writes. rewrite <- WithTx_store. by destruct (WithTx a fn). Qed.

Section Requests.
Context `{GoLib} {ip : Type} (cfg : config ip).

(** A computation that looks after it wrote. *)
Lemma then_quiet {A B} r (c : org A) (k : A -> org B) a : (forall x, quiet r (k x)) ->
  same_owned (app_Store (c a).1) (app_Store (stm_bind c k a).1).
Proof.
  intros Hk. unfold stm_bind. destruct (c a) as [a1 [x|e]]; cbn [fst]; [|reflexivity]. by apply (settles_owned r), Hk.
Qed.

Lemma quiet_decorate r m : quiet r (decorateMembership cfg r m).
Proof. unfold decorateMembership. cbn zeta. apply quiet_bind; [apply quiet_user|]. intros u. apply quiet_bind; [apply quiet_reads|]. intros g. apply quiet_ret. Qed.

(** Running a check first. *)
Lemma observes_run {A B} r (c : org A) f (k : A -> org B) a : observes r c f ->
  exists a1, settles r a a1 /\ stm_bind c k a = match f a with Ok x => k x a1 | Err e => (a1, Err e) end.
Proof. intros [Hc _]. destruct (Hc a) as (a1 & Hs & E). exists a1. split; [done|]. unfold stm_bind. rewrite E. by destruct (f a). Qed.

Ltac run_check r Hobs a1 Hs := match goal with |- context [stm_bind ?c ?k ?a] => destruct (observes_run r c _ k a Hobs) as (a1 & Hs & ->) end.

(** One request for a membership: refused, or the map has the new role. *)
Lemma createMembership_step r k uid gid role upsert a M : roster (app_Store a) M -> plain uid -> plain gid ->
  let a' := (createMembership cfg r k uid gid role upsert a).1 in
  (settles r a a' /\ roster (app_Store a') M) \/
  (membership_allowed cfg r a (caller r) uid gid role /\ (upsert = false -> M !! (uid, gid) = None) /\
   caller r ≠ "" /\ roster (app_Store a') (<[(uid, gid) := role]> M)).
Proof.
  intros HM Hu Hg. cbn zeta. assert (forall a', settles r a a' -> settles r a a' /\ roster (app_Store a') M) as Hquiet.
  { intros a' Hs. split; [done|]. eapply roster_owned, HM. by eapply settles_owned. }
  unfold createMembership. run_check r (observes_requireUser r) a1 Hs1.
  destruct (str_empty (caller r)) eqn:Ec; [left; by apply Hquiet|]. destruct (observes_validate cfg r (caller r) uid gid role) as (f & Hf & Hp).
  run_check r Hf a2 Hs2.
  pose proof (settles_trans r _ _ _ Hs1 Hs2) as Hs. destruct Hf as [_ Hst]. rewrite (Hst _ _ Hs1). destruct (f a) as [u|e] eqn:Ef; [|left; by apply Hquiet].
  apply Hp in Ef.
  match goal with |- context [stm_bind (findUserGroupRecord uid gid) ?k0 a2] =>
    change (stm_bind (findUserGroupRecord uid gid) k0 a2) with (k0 (FindMembership (app_Store a2) uid gid) a2); cbn beta end.
  pose proof (roster_owned _ _ _ (settles_owned r _ _ Hs) HM) as HM2.
  pose proof (roster_find _ M uid gid HM2 (plain_wf _ _ Hu Hg)) as Hfind. unfold FindMembership. pose proof Ef as (Hune & Hgne & Hrole & _).
  assert (name_ok uid) as Hun by (destruct Hu; by split_and!). assert (name_ok gid) as Hgn by (destruct Hg; by split_and!).
  apply String.eqb_neq in Ec. destruct (M !! (uid, gid)) as [role0|] eqn:EM.
  - destruct Hfind as (rc & -> & Hget & _). cbn [fmap option_fmap option_map]. destruct upsert; cbn [negb]; [|left; by apply Hquiet]. right. split_and!; [done|done|done|].
    eapply roster_owned; [apply (then_quiet r); intros [[? ?]|?]; [apply quiet_bind; [apply quiet_decorate|intros ?; apply quiet_ret]|apply quiet_fail]|].
    unfold updateExistingMembership. rewrite writes_tx_store, emitting_store. unfold UpdateMembershipRoleTx, stm_bind, tx_reads. cbn [tx_store].
    pose proof (roster_find _ M uid gid HM2 (plain_wf _ _ Hu Hg)) as Hf2. rewrite EM in Hf2. destruct Hf2 as (rc' & Hr' & Hg' & _). unfold FindMembership. rewrite Hr'.
    cbn [fmap option_fmap option_map pr_ID membershipRecordFromStore]. rewrite (proj2 HM2 _ _ Hg'). unfold tx_Update. cbn [tx_store].
    pose proof (roster_update _ M uid gid role0 role (sq_now r) HM2 (plain_wf _ _ Hu Hg) Hrole EM) as HU. by destruct (Update _ _ _ _ _).
  - destruct Hfind as [-> Hget]. cbn [fmap option_fmap option_map]. right. split_and!; [done|done|done|].
    eapply roster_owned; [apply (then_quiet r); intros [?|[?|]]; [apply quiet_bind; [apply quiet_decorate|intros ?; apply quiet_ret]|apply quiet_fail..]|].
    unfold createNewMembership. rewrite writes_tx_store. unfold CreateMembershipTx, stm_bind, tx_Create, tx_Emit, stm_ret. cbn [tx_store].
    pose proof (roster_create _ M uid gid role (sq_newid r k) (sq_now r) HM2 Hun Hgn Hrole EM) as HC. by destruct (Create _ _ _ _ _) as [s' [rc|e]].
Qed.

(** Removing a membership. *)
Lemma removeUserFromGroup_step r a M :
  let uid := FirstNonBlank [query r "uid"; query r "u_id"; query r "user_id"] in
  let gid := FirstNonBlank [query r "gid"; query r "g_id"; query r "group_id"] in
  roster (app_Store a) M -> pkey_wf (uid, gid) ->
  let a' := (removeUserFromGroup cfg r a).1 in
  (settles r a a' /\ roster (app_Store a') M) \/ (group_admin cfg r a gid = true /\ roster (app_Store a') (delete (uid, gid) M)).
Proof.
  intros uid gid HM Hw. cbn zeta. assert (forall a', settles r a a' -> settles r a a' /\ roster (app_Store a') M) as Hquiet.
  { intros a' Hs. split; [done|]. eapply roster_owned, HM. by eapply settles_owned. }
  set (G := fun a' => (settles r a a' /\ roster (app_Store a') M) \/ (group_admin cfg r a gid = true /\ roster (app_Store a') (delete (uid, gid) M))).
  change (G (removeUserFromGroup cfg r a).1). assert (forall a', settles r a a' -> G a') as HG by (intros a' Hs; left; by apply Hquiet).
  unfold removeUserFromGroup. fold uid gid. run_check r (observes_requireUser r) a1 Hs1.
  destruct (str_empty (caller r)) eqn:Ec; [by apply HG|]. run_check r (observes_ensure r (negb (str_empty uid || str_empty gid)) StatusBadRequest "uid and gid are required") a2 Hs2.
  pose proof (settles_trans r _ _ _ Hs1 Hs2) as Hs. destruct (negb _); [|by apply HG].
  run_check r (observes_isGroupAdmin cfg r (caller r) gid) a3 Hs3. pose proof (settles_trans r _ _ _ Hs Hs3) as Hs'.
  assert ((panel cfg r a2 (caller r) || bool_decide (group_role (app_Store a2) (caller r) gid = Some "admin")) = group_admin cfg r a gid) as ->.
  { rewrite <- (stable_group_admin cfg r gid a a2 Hs). unfold group_admin. by rewrite Ec. }
  destruct (group_admin cfg r a gid) eqn:Ea; [|by apply HG].
  match goal with |- G (stm_bind (ensure true _ _) ?k0 a3).1 => change (G (k0 tt a3).1); cbn beta end.
  match goal with |- G (stm_bind (findUserGroupRecord uid gid) ?k0 a3).1 => change (G (k0 (FindMembership (app_Store a3) uid gid) a3).1); cbn beta end.
  pose proof (roster_owned _ _ _ (settles_owned r _ _ Hs') HM) as HM3. pose proof (roster_find _ M uid gid HM3 Hw) as Hf.
  destruct (FindMembership (app_Store a3) uid gid) as [m|] eqn:EF; [|by apply HG].
  match goal with |- G (stm_bind (ensure _ _ _) ?k0 a3).1 => change (G (k0 tt a3).1); cbn beta end. right. split; [done|].
  eapply roster_owned; [apply (then_quiet r); intros [?|?]; [apply quiet_ret|apply quiet_fail]|].
  rewrite writes_tx_store, emitting_store. unfold DeleteMembershipTx, stm_bind, tx_reads. cbn [tx_store]. rewrite EF.
  assert (pr_ID m = membershipID uid gid) as Hid.
  { unfold FindMembership in EF. destruct (M !! (uid, gid)); [|destruct Hf as [Hf _]; by rewrite Hf in EF]. destruct Hf as (rc & Hr & Hg & _).
    rewrite Hr in EF. injection EF as <-. by apply (proj2 HM3). }
  rewrite Hid. unfold tx_Delete. cbn [tx_store]. pose proof (roster_delete _ M uid gid HM3 Hw) as HD. by destruct (Delete _ _ _).
Qed.

(** Deleting a group drops its members. *)
Lemma DeleteGroupCascadeTx_roster {E} t M id actor : roster (tx_store t) M ->
  exists M', roster (tx_store (DeleteGroupCascadeTx (E := E) id t).1) M' /\ rtc (mstep true actor) M M'.
Proof.
  intros HM. unfold DeleteGroupCascadeTx, stm_bind, tx_reads. cbn [tx_store]. destruct (FindGroup (tx_store t) id) as [group|]; [|by exists M].
  unfold tx_Delete. pose proof (bucket_Delete (tx_store t) groupsResource (pr_ID group) userGroupsResource ltac:(discriminate)) as Hb.
  destruct (Delete (tx_store t) groupsResource (pr_ID group)) as [s1 [|]]; cbn [fst] in Hb; [|exists M; split; [by eapply roster_same|done]].
  assert (roster (tx_store (StoreTx s1 (tx_events t))) M) as HM1 by (by eapply roster_same).
  pose proof (roster_drop (E := E) (StoreTx s1 (tx_events t)) M (pr_ID group) HM1) as HM2.
  destruct (delete_where_tx_store (E := E) userGroupsResource (of_group (pr_ID group)) (StoreTx s1 (tx_events t))) as [_ [n Hn]].
  change (delete_where_tx (E := E) userGroupsResource (of_group (pr_ID group))) with (deleteMembershipsByGroupTx (E := E) (pr_ID group)) in Hn.
  destruct (deleteMembershipsByGroupTx (E := E) (pr_ID group) (StoreTx s1 (tx_events t))) as [t2 x]. cbn [fst snd] in *. subst x.
  destruct (logical_id group) as [lid|]; [|eexists; split; [exact HM2|by apply rtc_once, m_drop]].
  pose proof (roster_drop (E := E) t2 _ lid HM2) as HM3.
  destruct (delete_where_tx_store (E := E) userGroupsResource (of_group lid) t2) as [_ [m Hm]].
  change (delete_where_tx (E := E) userGroupsResource (of_group lid)) with (deleteMembershipsByGroupTx (E := E) lid) in Hm.
  destruct (deleteMembershipsByGroupTx (E := E) lid t2) as [t3 x]. cbn [fst snd] in *. subst x.
  eexists. split; [exact HM3|]. eapply rtc_l; [by apply m_drop|]. by apply rtc_once, m_drop.
Qed.

Lemma deleteGroup_step r k a M : roster (app_Store a) M ->
  let a' := (deleteGroup cfg r k a).1 in
  exists M', roster (app_Store a') M' /\ rtc (mstep true (caller r)) M M' /\ (M' = M \/ holds_panel cfg r a = true).
Proof.
  intros HM. cbn zeta. assert (forall a', settles r a a' -> exists M', roster (app_Store a') M' /\ rtc (mstep true (caller r)) M M' /\ (M' = M \/ holds_panel cfg r a = true)) as Hquiet.
  { intros a' Hs. exists M. split_and!; [|done|by left]. eapply roster_owned, HM. by eapply settles_owned. }
  set (G := fun a' => exists M', roster (app_Store a') M' /\ rtc (mstep true (caller r)) M M' /\ (M' = M \/ holds_panel cfg r a = true)) in *.
  change (G (deleteGroup cfg r k a).1). unfold deleteGroup. run_check r (observes_requireUser r) a1 Hs1. destruct (str_empty (caller r)) eqn:Ec; [by apply Hquiet|].
  run_check r (observes_require_panel cfg r (caller r)) a2 Hs2. pose proof (settles_trans r _ _ _ Hs1 Hs2) as Hs.
  assert (panel cfg r a1 (caller r) = holds_panel cfg r a) as -> by (rewrite <- (stable_holds_panel cfg r a a1 Hs1); unfold holds_panel; by rewrite Ec).
  destruct (holds_panel cfg r a) eqn:Ep; [|by apply Hquiet]. cbn zeta. set (id := TrimSpace (PathValue r "id")).
  match goal with |- G (stm_bind (findGroup id) ?k0 a2).1 => change (G (k0 (pr_Data <$> FindGroup (app_Store a2) id) a2).1); cbn beta end.
  destruct (FindGroup (app_Store a2) id) as [group|]; [|by apply Hquiet].
  match goal with |- G (stm_bind (ensure _ _ _) ?k0 a2).1 => change (G (k0 tt a2).1); cbn beta end.
  pose proof (roster_owned _ _ _ (settles_owned r _ _ Hs) HM) as HM2.
  destruct (DeleteGroupCascadeTx_roster (E := string) (StoreTx (app_Store a2) []) M id (caller r) HM2) as (M' & HM' & Hrtc).
  exists M'. split_and!; [|done|by right].
  eapply roster_owned; [apply (then_quiet r); intros [?|?]; [apply quiet_ret|apply quiet_fail]|]. by rewrite writes_tx_store, emitting_store.
Qed.

(** ** The batch of new members *)

Definition add_item (r : service_request) (gid role : string) (k : nat) (uid : string) : org (option string) :=
  resp <-- answer (createMembership cfg r k uid gid role false) ;; item_failure uid resp.

Lemma add_item_state r gid role k uid a : (add_item r gid role k uid a).1 = (createMembership cfg r k uid gid role false a).1.
Proof.
  unfold add_item, stm_bind, answer, item_failure. destruct (createMembership _ _ _ _ _ _ _ a) as [a' [resp|[resp|]]]; [| |done];
    destruct (400 <=? resp.1); try done; by destruct resp.2.
Qed.

(** Once the caller was entitled to the group it stays so for the rest of the batch. *)
Definition may_put (p : bool) (actor gid role : string) (M : members) : Prop :=
  role ∈ allowedGroupRoles /\ (role = "admin" -> p = true) /\ (p = true \/ M !! (actor, gid) = Some "admin").

Lemma allowed_may_put r a M uid gid role : roster (app_Store a) M -> plain (caller r) -> plain gid -> caller r ≠ "" ->
  membership_allowed cfg r a (caller r) uid gid role -> may_put (holds_panel cfg r a) (caller r) gid role M.
Proof.
  intros HM Hc Hg Hne (_ & _ & Hrole & Ha & Hadm & _). unfold holds_panel, str_empty. rewrite (proj2 (String.eqb_neq _ _) Hne). cbn [negb andb].
  split_and!; [done|done|]. rewrite (roster_role _ M _ _ HM (plain_wf _ _ Hc Hg)) in Hadm. apply orb_true_iff in Hadm as [->|?%bool_decide_eq_true]; auto.
Qed.

Lemma batch_add r gid role p items : plain (caller r) -> plain gid -> Forall plain items ->
  forall a M k b, roster (app_Store a) M -> holds_panel cfg r a = p \/ may_put p (caller r) gid role M ->
  exists M', roster (app_Store (batch (add_item r gid role) k items b a).1) M' /\ rtc (mstep p (caller r)) M M'.
Proof.
  intros Hc Hg. induction 1 as [|uid items Hu _ IH]; intros a M k b HM HP; cbn [batch]; [by exists M|].
  pose proof (createMembership_step r k uid gid role false a M HM Hu Hg) as Hstep. cbn zeta in Hstep. rewrite <- (add_item_state r gid role k uid a) in Hstep.
  assert (exists M1, roster (app_Store (add_item r gid role k uid a).1) M1 /\ rtc (mstep p (caller r)) M M1 /\
    (holds_panel cfg r (add_item r gid role k uid a).1 = p \/ may_put p (caller r) gid role M1)) as (M1 & HM1 & Hr1 & HP1).
  { destruct Hstep as [[Hs HM1]|(Hal & Hnone & Hne & HM1)].
    - exists M. split_and!; [done|done|]. destruct HP as [HP|HP]; [left|by right]. by rewrite (stable_holds_panel cfg r _ _ Hs).
    - assert (may_put p (caller r) gid role M) as (Hrole & Ha & He) by (destruct HP as [<-|HP]; [by eapply allowed_may_put|done]).
      exists (<[(uid, gid) := role]> M). split_and!; [done|by apply rtc_once, m_put|right]. split_and!; [done|done|].
      destruct He as [He|He]; [by left|right]. rewrite lookup_insert_ne; [done|]. intros [= ->]. specialize (Hnone eq_refl). congruence. }
  unfold stm_bind. destruct (add_item r gid role k uid a) as [a1 [failure|e]]; cbn [fst] in *; [|by exists M1].
  destruct (IH a1 M1 (S k) (count_item b failure) HM1 HP1) as (M' & HM' & Hr'). exists M'. split; [done|etransitivity; eassumption].
Qed.

Lemma batch_delete r p ids : forall a M k b, roster (app_Store a) M -> p = true ->
  exists M', roster (app_Store (batch (fun k id => resp <-- answer (deleteGroup cfg (with_id r id) k) ;; item_failure id resp) k ids b a).1) M' /\
             rtc (mstep p (caller r)) M M'.
Proof.
  induction ids as [|id ids IH]; intros a M k b HM Hp; cbn [batch]; [by exists M|].
  destruct (deleteGroup_step (with_id r id) k a M HM) as (M1 & HM1 & Hr1 & _). cbn zeta in HM1.
  unfold stm_bind at 1 2. unfold answer at 1. destruct (deleteGroup cfg (with_id r id) k a) as [a1 [resp|[resp|]]]; cbn [fst] in HM1.
  1, 2: assert (forall resp, (item_failure id resp a1).1 = a1) as Hi by (intros [st bd]; unfold item_failure; destruct (400 <=? _); [by destruct bd|done]);
    specialize (Hi resp); destruct (item_failure id resp a1) as [a2 [f|e]]; cbn [fst] in Hi; subst a2;
    [destruct (IH a1 M1 (S k) (count_item b f) HM1 Hp) as (M' & HM' & Hr'); exists M'; split; [done|subst p; etransitivity; eassumption]|subst p; by exists M1].
  subst p. by exists M1.
Qed.

(** ** Every route *)

(** The users and groups a request names. *)
Definition names (rt : org_route) (r : service_request) : list string :=
  match rt with
  | RAddUserToGroup | RUpdateUserGroup => match sq_body r with Ok payload => [payload_uid payload; payload_gid payload] | Err _ => [] end
  | RBatchAddMembers => match sq_body r with
                        | Ok payload => payload_gid payload :: strings (firstNonNil [mget payload "user_ids"; mget payload "userIds"])
                        | Err _ => []
                        end
  | RRemoveUserFromGroup => [FirstNonBlank [query r "uid"; query r "u_id"; query r "user_id"]; FirstNonBlank [query r "gid"; query r "g_id"; query r "group_id"]]
  | _ => []
  end.

Lemma serve_state h a : app_Store (serve h a).1 = app_Store (h a).1.
Proof. unfold serve, answer. by destruct (h a) as [a' [x|[x|]]]. Qed.

Lemma membership_refines r k uid gid role upsert a M : roster (app_Store a) M -> plain (caller r) -> plain uid -> plain gid ->
  exists M', roster (app_Store (createMembership cfg r k uid gid role upsert a).1) M' /\ rtc (mstep (holds_panel cfg r a) (caller r)) M M'.
Proof.
  intros HM Hc Hu Hg. destruct (createMembership_step r k uid gid role upsert a M HM Hu Hg) as [[_ ?]|(Hal & _ & Hne & HM')]; [by exists M|].
  eexists. split; [exact HM'|]. apply rtc_once. destruct (allowed_may_put r a M uid gid role HM Hc Hg Hne Hal) as (? & ? & ?). by apply m_put.
Qed.

Lemma batchDelete_refines r a M : roster (app_Store a) M ->
  exists M', roster (app_Store (batchDeleteGroups cfg r a).1) M' /\ rtc (mstep (holds_panel cfg r a) (caller r)) M M'.
Proof.
  intros HM. set (G := fun a' => exists M', roster (app_Store a') M' /\ rtc (mstep (holds_panel cfg r a) (caller r)) M M'). change (G (batchDeleteGroups cfg r a).1).
  assert (forall a', settles r a a' -> G a') as HG by (intros a' Hs; exists M; split; [|done]; eapply roster_owned, HM; by eapply settles_owned).
  unfold batchDeleteGroups. run_check r (observes_requireUser r) a1 Hs1. destruct (str_empty (caller r)) eqn:Ec; [by apply HG|].
  run_check r (observes_require_panel cfg r (caller r)) a2 Hs2. pose proof (settles_trans r _ _ _ Hs1 Hs2) as Hs.
  assert (panel cfg r a1 (caller r) = holds_panel cfg r a) as -> by (rewrite <- (stable_holds_panel cfg r a a1 Hs1); unfold holds_panel; by rewrite Ec).
  destruct (holds_panel cfg r a) eqn:Ep; [|by apply HG]. unfold stm_bind at 1, decode. destruct (sq_body r) as [payload|e]; [cbn [stm_ret]|by apply HG].
  pose proof (roster_owned _ _ _ (settles_owned r _ _ Hs) HM) as HM2.
  destruct (batch_delete r true (strings (mget payload "ids")) a2 M 0 batchResult HM2 eq_refl) as (M' & HM' & Hr). exists M'. split; [|exact Hr].
  eapply roster_owned; [apply (then_quiet r); intros ?; apply quiet_ret|]. exact HM'.
Qed.

Lemma refines rt r a M : handled rt = true ->
  roster (app_Store a) M -> Forall plain (caller r :: names rt r) ->
  exists M', roster (app_Store (serve (dispatch cfg rt r) a).1) M' /\ rtc (mstep (holds_panel cfg r a) (caller r)) M M'.
Proof.
  intros Hh HM [Hc Hn]%Forall_cons. rewrite serve_state.
  destruct (decide (userGroupsResource ∈ touches rt)) as [Ht|Ht];
    [|exists M; split; [|done]; eapply roster_same, HM; apply route_keeps; [apply (bool_decide_unpack _); vm_compute; exact I|done]].
  destruct rt; try discriminate Hh; cbn [touches] in Ht; try (exfalso; revert Ht; apply (bool_decide_unpack _); vm_compute; exact I); clear Ht; cbn [dispatch names] in *.
  - destruct (deleteGroup_step r 0 a M HM) as (M' & HM' & Hr & [->|Hp]); [by exists M|]. exists M'. split; [exact HM'|]. by rewrite Hp.
  - apply batchDelete_refines; done.
  - unfold addUserToGroup, stm_bind, decode. destruct (sq_body r) as [payload|e]; [|by exists M]. inversion_clear Hn as [|? ? Hu Hg']. inversion_clear Hg' as [|? ? Hg _].
    by apply membership_refines.
  - unfold updateUserGroup, stm_bind, decode. destruct (sq_body r) as [payload|e]; [|by exists M]. inversion_clear Hn as [|? ? Hu Hg']. inversion_clear Hg' as [|? ? Hg _].
    by apply membership_refines.
  - apply Forall_cons in Hn as [Hu [Hg _]%Forall_cons].
    destruct (removeUserFromGroup_step r a M HM (plain_wf _ _ Hu Hg)) as [[_ HM']|[Hadm HM']]; [by exists M|]. eexists. split; [exact HM'|]. apply rtc_once, m_remove.
    unfold group_admin in Hadm. unfold holds_panel. destruct (negb _); [|done]. cbn [andb] in *. rewrite (roster_role _ M _ _ HM (plain_wf _ _ Hc Hg)) in Hadm.
    apply orb_true_iff in Hadm as [?|?%bool_decide_eq_true]; auto.
  - unfold batchAddMembers, stm_bind at 1, decode. destruct (sq_body r) as [payload|e]; [|by exists M]. inversion_clear Hn as [|? ? Hg Hu]. cbn [stm_ret]. cbn zeta.
    set (gid := payload_gid payload) in *. set (ids := strings _) in *. set (role := normalizeRole _).
    unfold stm_bind at 1, ensure. destruct (negb _); [cbn [stm_ret]|by exists M].
    destruct (batch_add r gid role (holds_panel cfg r a) ids Hc Hg Hu a M 0 batchResult HM (or_introl eq_refl)) as (M' & HM' & Hr). exists M'. split; [|exact Hr].
    eapply roster_owned; [apply (then_quiet r); intros ?; apply quiet_ret|]. exact HM'.
Qed.

(** C23: the memberships of groups are a map from users and groups to roles, and every
    request to a route with a handler of the service refines steps of the map: a role is put
    for a member, a member is removed, or all members of a group are dropped with it.  The
    steps of a request are those its caller may make: putting and removing need the admin
    panel or the role of an administrator in that very group, the role of an administrator is
    put with the panel only, and so are groups dropped.  Identifiers are those without a
    colon, which the composed keys of the records need.  The routes of the table that the
    generic record handler serves are not among these ([handled]): they write memberships
    outside the map's steps (generic_patch_makes_admin). *)
Theorem memberships_refined rt r a M :
  handled rt = true -> roster (app_Store a) M -> Forall plain (caller r :: names rt r) ->
  exists M', roster (app_Store (serve (dispatch cfg rt r) a).1) M' /\ rtc (mstep (holds_panel cfg r a) (caller r)) M M'.
Proof. apply refines. Qed.

(** ** Runs *)

(** A sequence of requests, each served on the state its predecessor left. *)
Inductive run_without_panel : app -> app -> Prop :=
| run_done a : run_without_panel a a
| run_request a rt r a' : handled rt = true -> Forall plain (caller r :: names rt r) -> holds_panel cfg r a = false ->
    run_without_panel (serve (dispatch cfg rt r) a).1 a' -> run_without_panel a a'.

(** C24: however many requests the handlers of the service serve, if none of their callers
    holds the admin panel then nobody becomes an administrator of a group: who is one at the
    end was one at the beginning.  The runs are of the routes with a handler ([handled]); a
    single request to the generic route PATCH /api/v1/user-groups/{id} makes its caller an
    administrator (generic_patch_makes_admin). *)
Theorem admins_made_by_panel a a' M u g :
  roster (app_Store a) M -> run_without_panel a a' -> pkey_wf (u, g) ->
  group_role (app_Store a') u g = Some "admin" -> group_role (app_Store a) u g = Some "admin".
Proof.
  intros HM Hrun Hw. revert M HM. induction Hrun as [a|a rt r a' Hh Hn Hp Hrun IH]; intros M HM Hadm; [done|].
  destruct (refines rt r a M Hh HM Hn) as (M' & HM' & Hr). rewrite Hp in Hr. specialize (IH M' HM' Hadm).
  rewrite (roster_role _ M' _ _ HM' Hw) in IH. rewrite (roster_role _ M _ _ HM Hw). clear -Hr IH.
  induction Hr as [|M1 M2 M3 Hs _ IHr]; [done|]. eapply mstep_admins; [exact Hs|]. by apply IHr.
Qed.

End Requests.
