(* ===== verification/OrgAccess.v ===== *)
(** * Organisation and project service: roles, quotas and the admission of jobs
    (project_helpers.go composed with schedulerquota/admission_plan.go)

    The role of a user in a project as a function of the two maps of members; the scheduler,
    which reads the same records, lets exactly those users submit; a quota that was set is
    the one admission enforces. *)

From stdpp Require Import base gmap strings list fin_maps.
From Stdlib Require Import ZArith Lia Ascii.
From S2P Require Import Prelude GoValue Store EventBus Crud Tx Projection InputLimits Config Auth Guards AdmissionTypes SchedulerHttp AdmissionPlan AdmissionQuota ServiceHttp Tables ServiceProjection PolicyIdentity OrgIdentity OrgGroups OrgGroupHandlers OrgProjects OrgProjectHandlers OrgService OrgEffects OrgMembers.
Local Open Scope Z_scope.
Local Open Scope go_scope.

(** ** The role of a user in a project *)

Definition direct (s : store) (D : members) : Prop := pairs projectMembersResource projectIdKeys directUserKeys role_row s D.

(** The admin panel and the owner of a personal project first, then the role in the owning
    group, then that of a direct member. *)
Definition role_spec (panel : bool) (personal owner pid : string) (M D : members) (u : string) : string :=
  if panel then "admin"
  else if String.eqb personal u then "admin"
  else match (if str_empty owner then None else M !! (u, owner)) with
       | Some role => role
       | None => default "" (D !! (pid, u))
       end.

Lemma normalize_allowed role : role ∈ allowedGroupRoles -> normalizeProjectRole role = role.
Proof. revert role. apply Forall_forall. repeat constructor; vm_compute; reflexivity. Qed.

Lemma roster_allowed s M k role : roster s M -> M !! k = Some role -> role ∈ allowedGroupRoles.
Proof. intros [[_ H2] _] Hk. by destruct (H2 _ _ Hk) as (_ & rc & _ & _ & _ & _ & ?). Qed.
Lemma direct_allowed s D k role : direct s D -> D !! k = Some role -> role ∈ allowedGroupRoles.
Proof. intros [[_ H2] _] Hk. by destruct (H2 _ _ Hk) as (_ & rc & _ & _ & _ & _ & ?). Qed.

Lemma direct_find s D p u : direct s D -> pkey_wf (p, u) ->
  (fun m => TextValue (pr_Data m) ["role"]) <$> FindDirectProjectMember s p u = D !! (p, u).
Proof.
  intros HD Hw. pose proof (pairs_find projectMembersResource projectIdKeys directUserKeys role_row s D p u HD Hw) as Hf. unfold FindDirectProjectMember.
  change (project_user_record projectMembersResource s p u) with (pair_record projectMembersResource projectIdKeys directUserKeys s p u).
  destruct (D !! (p, u)) as [role|]; [destruct Hf as (rc & -> & _ & _ & _ & Hr & _)|by destruct Hf as [-> _]].
  cbn [fmap option_fmap option_map]. f_equal. rewrite <- Hr. apply TextValue_agree, record_map_agree. set_solver.
Qed.

Section Access.
Context `{GoLib} {ip : Type} (cfg : config ip).

Lemma role_at_spec r a project u M D : roster (app_Store a) M -> direct (app_Store a) D ->
  pkey_wf (u, TextValue project ownerKeys) -> pkey_wf (projectID project, u) ->
  role_at cfg r a project u =
  role_spec (panel cfg r a u) (TextValue project ["personal_user_id"; "personalUserID"]) (TextValue project ownerKeys) (projectID project) M D u.
Proof.
  intros HM HD Hw1 Hw2. unfold role_at, role_spec. destruct (panel _ _ _ _); [done|]. destruct (String.eqb _ _); [done|]. cbn zeta.
  rewrite (roster_role _ M _ _ HM Hw1).
  assert (match FindDirectProjectMember (app_Store a) (projectID project) u with Some m => normalizeProjectRole (TextValue (pr_Data m) ["role"]) | None => "" end
          = default "" (D !! (projectID project, u))) as Hd.
  { rewrite <- (direct_find _ D _ _ HD Hw2). destruct (FindDirectProjectMember _ _ _) as [m|] eqn:EF; [|done]. cbn. apply normalize_allowed.
    pose proof (direct_find _ D _ _ HD Hw2) as HF. rewrite EF in HF. eapply direct_allowed; [exact HD|symmetry; exact HF]. }
  destruct (str_empty (TextValue project ownerKeys)); [exact Hd|]. destruct (M !! _) as [role|] eqn:EM; [|exact Hd].
  apply normalize_allowed. by eapply roster_allowed.
Qed.

(** the role of a user in a project is decided exactly in this order: "admin" for a
    holder of the admin panel and for the owner of a personal project; the role in the
    group that owns the project; the role of a direct member; and none otherwise.  In
    particular a direct role never overrides that of the owning group. *)
Theorem project_role_resolved r a project u M D :
  roster (app_Store a) M -> direct (app_Store a) D ->
  pkey_wf (u, TextValue project ownerKeys) -> pkey_wf (projectID project, u) ->
  (projectRoleForUser cfg r project u a).2 =
  Ok (role_spec (panel cfg r a u) (TextValue project ["personal_user_id"; "personalUserID"]) (TextValue project ownerKeys) (projectID project) M D u).
Proof.
  intros HM HD Hw1 Hw2. destruct (observes_role cfg r project u) as [Ho _]. destruct (Ho a) as (a' & _ & ->). cbn [snd]. f_equal. by apply role_at_spec.
Qed.

(** ** Projects as the service writes them *)

(** The record of a project: its identifier, its owner, and one spelling of the personal
    user. *)
Definition project_ok (rc : record) (owner : string) : Prop :=
  Trimmed (rec_ID rc) /\ rec_ID rc ≠ "" /\ rec_Data rc !! "owner_id" = Some (VString owner) /\ Trimmed owner /\ owner ≠ "" /\
  rec_Data rc !! "personalUserID" = None /\ rec_Data rc !! "personalUserId" = None.

Lemma set_fields_lookup keys v d k : set_fields keys v d !! k = if bool_decide (k ∈ keys) then Some v else d !! k.
Proof.
  unfold set_fields. revert d. induction keys as [|x keys IH]; intros d; [done|]. cbn [fold_left]. rewrite IH.
  destruct (decide (k = x)) as [->|Hn].
  - rewrite (bool_decide_true (x ∈ x :: keys)) by apply list_elem_of_here. case_bool_decide; [done|apply lookup_insert_eq].
  - rewrite lookup_insert_ne by done. assert (bool_decide (k ∈ x :: keys) = bool_decide (k ∈ keys)) as ->; [|done].
    apply bool_decide_ext. rewrite elem_of_cons. tauto.
Qed.

Ltac get_field :=
  rewrite set_fields_lookup;
  match goal with |- context [bool_decide ?P] => let b := eval vm_compute in (bool_decide P) in change (bool_decide P) with b end; cbv iota.

Lemma FirstNonBlank_head t rest : Trimmed t -> t ≠ "" -> FirstNonBlank (t :: rest) = t.
Proof. intros Ht Hne. cbn [FirstNonBlank]. cbn zeta. rewrite (TrimSpace_fix _ Ht). unfold str_empty. by rewrite (proj2 (String.eqb_neq _ _) Hne). Qed.

Lemma normalized_fields rc owner : project_ok rc owner ->
  let d := normalizeProjectRecord (rec_Data rc) (rec_ID rc) in
  projectID d = rec_ID rc /\ TextValue d ownerKeys = owner /\
  TextValue d ["personal_user_id"; "personalUserID"] = TextValue (rec_Data rc) ["personal_user_id"; "personalUserId"].
Proof.
  intros (Hi & Hine & Ho & Ht & Hone & Hp1 & Hp2). cbn zeta. unfold normalizeProjectRecord. cbn zeta.
  assert (forall t, t ≠ "" -> str_empty t = false) as He by (intros t Hne; unfold str_empty; by apply String.eqb_neq).
  rewrite (FirstNonBlank_head (rec_ID rc)) by done. rewrite (He _ Hine).
  rewrite (TextValue_text (rec_Data rc) "owner_id" ["ownerId"] owner) by done. rewrite (FirstNonBlank_head owner) by done.
  rewrite (He _ Hone). set (name := FirstNonBlank _).
  assert (forall k, bool_decide (k ∈ ["project_name"; "ProjectName"; "name"]) = false -> forall d : object,
    (if str_empty name then d else set_fields ["project_name"; "ProjectName"; "name"] (VString name) d) !! k = d !! k) as Hn.
  { intros k Hk d. destruct (str_empty name); [done|]. by rewrite set_fields_lookup, Hk. }
  split_and!.
  - apply TextValue_text; [|done|done]. get_field. rewrite Hn by reflexivity. by get_field.
  - apply TextValue_text; [|done|done]. by get_field.
  - unfold TextValue, first_key, mget. do 2 get_field. rewrite !Hn by reflexivity. do 2 get_field. by rewrite Hp1, Hp2.
Qed.

(** ** Admission reads the same members *)

Lemma TextValue_cons_some d k keys t : TextValue d [k] = t -> t ≠ "" -> TextValue d (k :: keys) = t.
Proof.
  unfold TextValue. cbn [first_key]. destruct (text_of (mget d k)); cbn [from_option default]; [done|]. by intros <-.
Qed.

(** Some record of the resource has the pair, with a role: exactly when the map does. *)
Lemma pairs_exists res keys1 keys2 s D x y (q : record -> bool) : pairs res keys1 keys2 role_row s D -> pkey_wf (x, y) ->
  (forall rc, q rc = pair_matches keys1 keys2 x y rc && negb (str_empty (TextValue (rec_Data rc) ["role"; "Role"]))) ->
  existsb q (List_ s res) = bool_decide (is_Some (D !! (x, y))).
Proof.
  intros HD Hw Hq. apply Bool.eq_iff_eq_true. rewrite existsb_Exists, bool_decide_eq_true. split.
  - intros (rc & [id Hg]%elem_of_List & Hm). rewrite Hq in Hm. apply andb_true_iff in Hm as [Hm _]. by eapply pairs_match.
  - intros [role Hr]. pose proof (pairs_find res keys1 keys2 role_row s D x y HD Hw) as Hf. rewrite Hr in Hf. destruct Hf as (rc & _ & Hg & H1 & H2 & H3 & H4).
    exists rc. split; [apply elem_of_List; eauto|]. rewrite Hq. unfold pair_matches. cbn [fst snd] in *. rewrite H1, H2, !String.eqb_refl. cbn [andb].
    destruct (role_text role H4) as [_ Hne]. rewrite (TextValue_cons_some _ _ _ _ H3 Hne). unfold str_empty. by rewrite (proj2 (String.eqb_neq _ _) Hne).
Qed.

(** The spelling in which the service writes memberships. *)
Definition spelled (s : store) : Prop := forall id rc, Get s userGroupsResource id = Some rc ->
  TextValue (rec_Data rc) ["user_id"] ≠ "" /\ TextValue (rec_Data rc) ["group_id"] ≠ "".

Lemma TextValue_heads d k keys keys' : TextValue d [k] ≠ "" -> TextValue d (k :: keys) = TextValue d (k :: keys').
Proof. intros Hne. by rewrite (TextValue_cons_some d k keys _ eq_refl Hne), (TextValue_cons_some d k keys' _ eq_refl Hne). Qed.

Lemma existsb_congr {A} (p q : A -> bool) l : (forall x, x ∈ l -> p x = q x) -> existsb p l = existsb q l.
Proof. intros He. induction l as [|x l IH]; [done|]. cbn. rewrite He, IH; [done|..]; intros; try apply He; set_solver. Qed.

Lemma admission_groups s M u owner : roster s M -> spelled s -> pkey_wf (u, owner) ->
  admissionUserInGroup (H0 := storeAdmissionReader s) owner u = bool_decide (is_Some (M !! (u, owner))).
Proof.
  intros HM Hsp Hw. unfold admissionUserInGroup.
  rewrite <- (pairs_exists userGroupsResource memberIdKeys groupIdKeys s M u owner
    (fun rc => pair_matches memberIdKeys groupIdKeys u owner rc && negb (str_empty (TextValue (rec_Data rc) ["role"; "Role"]))) HM Hw) by done.
  apply existsb_congr. intros rc [id Hg]%elem_of_List. destruct (Hsp _ _ Hg) as [H1 H2]. unfold group_matches, pair_matches.
  rewrite (TextValue_heads _ "group_id" _ ["groupId"; "gid"; "g_id"] H2), (TextValue_heads _ "user_id" _ ["userId"; "uid"; "u_id"] H1).
  fold memberIdKeys groupIdKeys. by rewrite (andb_comm (String.eqb (TextValue (rec_Data rc) groupIdKeys) owner)).
Qed.

Lemma can_read_spec p personal owner pid M D u s :
  roster s M -> direct s D -> u ≠ "" -> owner ≠ "" ->
  canReadProject (role_spec p personal owner pid M D u) =
  p || String.eqb personal u || bool_decide (is_Some (M !! (u, owner))) || bool_decide (is_Some (D !! (pid, u))).
Proof.
  intros HM HD Hu Ho. unfold role_spec. destruct p; [done|]. destruct (String.eqb personal u); [done|]. cbn [orb]. unfold str_empty.
  rewrite (proj2 (String.eqb_neq _ _) Ho). assert (forall role, role ∈ allowedGroupRoles -> canReadProject role = true) as Hread.
  { apply Forall_forall. repeat constructor. }
  destruct (M !! (u, owner)) as [role|] eqn:EM; [rewrite (bool_decide_true (is_Some _)) by eauto; cbn [orb]; eapply Hread, roster_allowed; done|].
  rewrite (bool_decide_false (is_Some None)) by (by intros []). cbn [orb].
  destruct (D !! (pid, u)) as [role|] eqn:ED; cbn; [eapply Hread, direct_allowed; done|done].
Qed.

Lemma admission_access s M D rc owner u : roster s M -> direct s D -> spelled s -> project_ok rc owner ->
  pkey_wf (u, owner) -> pkey_wf (rec_ID rc, u) -> u ≠ "" ->
  requireAdmissionProjectAccess (H0 := storeAdmissionReader s) rc u = Ok tt <->
  canReadProject (role_spec false (TextValue (rec_Data rc) ["personal_user_id"; "personalUserId"]) owner (rec_ID rc) M D u) = true.
Proof.
  intros HM HD Hsp (Hi & Hine & Ho & Hot & Hone & _ & _) Hw1 Hw2 Hu. rewrite (can_read_spec _ _ _ _ M D u s) by done. cbn [orb].
  unfold requireAdmissionProjectAccess. cbn zeta. rewrite (TextValue_text (rec_Data rc) "owner_id" ["ownerId"; "GID"; "g_id"] owner) by done.
  rewrite (String.eqb_sym u). destruct (String.eqb _ u); [done|]. cbn [orb].
  change (rd_ProjectMember (projectMemberKey (rec_ID rc) u)) with (Get s projectMembersResource (rec_ID rc +:+ "/" +:+ u)).
  rewrite (pairs_no_slash _ _ _ _ s D _ _ HD Hw2). cbn [recordHasFields].
  change rd_ListProjectMembers with (List_ s projectMembersResource).
  rewrite (pairs_exists projectMembersResource projectIdKeys directUserKeys s D (rec_ID rc) u (member_matches (rec_ID rc) u) HD Hw2) by done.
  unfold str_empty. rewrite (proj2 (String.eqb_neq _ _) Hone). cbn [negb andb].
  rewrite (admission_groups s M u owner HM Hsp Hw1). repeat case_bool_decide; done.
Qed.

(** C25: on the records the handlers of the organisation service write, the scheduler and that
    service agree on who may use a project: a user without the admin panel is admitted to
    submit jobs to a project exactly when the organisation service gives the user a role in
    it, be it as the owner of a personal project, through the owning group or as a direct
    member.  The two services look the members up in different ways, under different keys
    and spellings.  The conditions: every group membership and project membership is filed
    under the pair of its ids with one of the three roles admin, manager and user ([roster],
    [direct]) and names its user and group under the keys [user_id] and [group_id]
    ([spelled]); the project has an id and an owner without surrounding blanks and no
    personal user of another spelling ([project_ok]); and the ids have no colon.  A
    membership with a role of another name, which the generic route can write, is one the
    two services read differently (guest_role_divides). *)
Theorem submit_access_agrees r a rc owner u M D :
  roster (app_Store a) M -> direct (app_Store a) D -> spelled (app_Store a) -> project_ok rc owner ->
  pkey_wf (u, owner) -> pkey_wf (rec_ID rc, u) -> u ≠ "" -> panel cfg r a u = false ->
  exists role, (projectRoleForUser cfg r (pr_Data (projectRecordFromStore rc)) u a).2 = Ok role /\
    (requireAdmissionProjectAccess (H0 := storeAdmissionReader (app_Store a)) rc u = Ok tt <-> canReadProject role = true).
Proof.
  intros HM HD Hsp Hok Hw1 Hw2 Hu Hp. destruct (normalized_fields rc owner Hok) as (Hid & Hown & Hper). cbn zeta in *.
  destruct (observes_role cfg r (pr_Data (projectRecordFromStore rc)) u) as [Ho _]. destruct (Ho a) as (a' & _ & ->).
  eexists. split; [reflexivity|]. rewrite (admission_access _ M D rc owner u) by done. cbn [pr_Data projectRecordFromStore].
  rewrite (role_at_spec r a _ u M D HM HD); [by rewrite Hid, Hown, Hper, Hp|by rewrite Hown|by rewrite Hid].
Qed.

End Access.
