(* ===== verification/OrgRecords.v ===== *)
(** * Organisation and project service: what the writes leave behind

    Quotas that admission enforces, plans that it reads, projects that disappear with all
    their rows, and pages of lists. *)

From stdpp Require Import base gmap strings list fin_maps.
From Stdlib Require Import ZArith Lia Ascii.
From S2P Require Import Prelude GoValue Store EventBus Crud Tx Projection InputLimits Config Auth Guards AdmissionTypes SchedulerHttp AdmissionPlan AdmissionQuota ServiceHttp Tables ServiceProjection PolicyIdentity OrgIdentity OrgGroups OrgGroupHandlers OrgProjects OrgProjectHandlers OrgService OrgEffects OrgMembers OrgAccess.
Local Open Scope Z_scope.
Local Open Scope go_scope.

Ltac run_check r Hobs a1 Hs H := match type of H with context [stm_bind ?c ?k ?a] => destruct (observes_run r c _ k a Hobs) as (a1 & Hs & E0); rewrite E0 in H; clear E0 end.

(** An answer that was not refused. *)
Lemma serve_ok h a a' resp : serve h a = (a', Some resp) -> h a = (a', Ok resp) \/ h a = (a', Err (Returns resp)).
Proof. unfold serve, answer. destruct (h a) as [a1 [x|[x|]]]; intros [= <- <-]; auto. Qed.

Section Records.
Context `{GoLib} {ip : Type} (cfg : config ip).

(** ** Quotas *)

Definition quota_row (v : float64 * float64 * float64) (d : object) : Prop :=
  NumberValue d ["gpu_limit"; "GPULimit"] = v.1.1 /\ NumberValue d ["cpu_limit"; "CPULimit"] = v.1.2 /\ NumberValue d ["memory_limit_gb"; "MemoryLimitGB"] = v.2.
Definition quotas (s : store) (Q : gmap (string * string) (float64 * float64 * float64)) : Prop :=
  pairs projectUserQuotasResource projectIdKeys directUserKeys quota_row s Q.

Definition asked_limits (payload : object) : float64 * float64 * float64 :=
  (NumberValue payload ["gpu_limit"; "GPULimit"], NumberValue payload ["cpu_limit"; "CPULimit"], NumberValue payload ["memory_limit_gb"; "MemoryLimitGB"]).

Lemma quota_prow p u payload now d : Trimmed p -> p ≠ "" -> Trimmed u -> u ≠ "" ->
  (forall k, k ≠ "id" -> is_Some (quotaRecord p u payload now !! k) -> d !! k = quotaRecord p u payload now !! k) ->
  prow projectIdKeys directUserKeys quota_row (p, u) (asked_limits payload) d.
Proof.
  intros Hp Hpn Hu Hun Hd. split; [|split; [|split; [|split]]].
  - apply TextValue_text; [by rewrite Hd|done|done].
  - apply TextValue_text; [by rewrite Hd|done|done].
  - unfold NumberValue at 1. cbn [first_key]. unfold mget. by rewrite Hd.
  - unfold NumberValue at 1. cbn [first_key]. unfold mget. by rewrite Hd.
  - unfold NumberValue at 1. cbn [first_key]. unfold mget. by rewrite Hd.
Qed.

Lemma upsert_quota_put {E} t p u payload i now Q : quotas (tx_store t) Q -> pkey_wf (p, u) -> Trimmed p -> p ≠ "" -> Trimmed u -> u ≠ "" ->
  quotas (tx_store (UpsertProjectUserQuotaTx (E := E) (quotaRecord p u payload now) i now t).1) (<[(p, u) := asked_limits payload]> Q).
Proof.
  intros HQ Hw Hp Hpn Hu Hun. set (d := quotaRecord p u payload now). set (key := projectQuotaID p u).
  assert (TextValue d ["id"] = key) as Hid.
  { apply TextValue_text; [done|by apply Trimmed_join|]. unfold key, projectQuotaID. by destruct p. }
  assert (create_id d i = key) as Hc.
  { unfold create_id, mget. change (d !! "id") with (Some (VString key)). cbn [default as_str from_option id]. unfold str_empty, key, projectQuotaID.
    destruct (String.eqb_spec (p +:+ ":" +:+ u) "") as [He|]; [|done]. exfalso. by destruct p. }
  unfold UpsertProjectUserQuotaTx. cbn zeta. rewrite Hid. pose proof (proj2 HQ) as Hf. destruct (Get (tx_store t) projectUserQuotasResource key) as [old|] eqn:Eg.
  - unfold stm_bind, tx_Update. pose proof (Update_cases (tx_store t) projectUserQuotasResource key d now) as HU. rewrite Eg in HU.
    pose proof (filed_in_Update projectUserQuotasResource (tx_store t) key d now Hf) as Hf'.
    destruct (Update _ _ _ _ _) as [s' [rc|]]; [|done]. destruct HU as (Hd & _ & _ & _ & _ & Hg). cbn [fst tx_store stm_ret] in *.
    apply (pairs_put _ _ _ _ (tx_store t) s' Q p u _ rc HQ Hw Hf'); [by rewrite Hg, decide_True| |].
    + apply quota_prow with now; [done..|]. intros k _ [v Hv]. fold d in Hv |- *. by rewrite Hd, Hv.
    + intros id Hne. rewrite Hg, decide_False; [done|]. intros [_ He]. by apply Hne.
  - unfold tx_Create. pose proof (filed_in_Create projectUserQuotasResource (tx_store t) d i now Hf) as Hf'.
    destruct (Create _ _ _ _ _) as [s' [rc|e]] eqn:E1; [|apply Create_err in E1 as (_ & [x Hx] & _); rewrite Hc in Hx; congruence].
    apply Create_ok in E1 as (_ & _ & _ & _ & _ & Hd & Hg). rewrite Hc in Hg. cbn [fst tx_store] in *.
    apply (pairs_put _ _ _ _ (tx_store t) s' Q p u _ rc HQ Hw Hf'); [by rewrite Hg, decide_True| |].
    + apply quota_prow with now; [done..|]. intros k Hk _. by apply Hd.
    + intros id Hne. rewrite Hg, decide_False; [done|]. intros [_ He]. by apply Hne.
Qed.

(** What a scheduler finds. *)
Lemma admission_reads_quota s Q p u v : quotas s Q -> pkey_wf (p, u) -> Q !! (p, u) = Some v ->
  exists q, admissionUserQuota (H0 := storeAdmissionReader s) p u = Some q /\ (user_gpu_limit q, user_cpu_limit q, user_memory_limit q) = v.
Proof.
  intros HQ Hw Hv. unfold admissionUserQuota.
  change (rd_UserQuota (projectMemberKey p u)) with (Get s projectUserQuotasResource (p +:+ "/" +:+ u)). rewrite (pairs_no_slash _ _ _ _ s Q _ _ HQ Hw).
  destruct (pairs_scan _ _ _ _ s Q p u v HQ Hw Hv) as (rc & Hf & _ & _ & H1 & H2 & H3). exists rc. split; [exact Hf|].
  unfold user_gpu_limit, user_cpu_limit, user_memory_limit. rewrite H1, H2, H3. by destruct v as [[? ?] ?].
Qed.

(** ** Requests that went through *)

(** The status of an answer. *)
Definition answered (h : org response) (a : app) (status : Z) : Prop := exists a' b, serve h a = (a', Some (status, b)).

(** A refusal of a check has another status. *)
Definition refusing (status : Z) {A} (x : result exit A) : Prop := match x with Err (Returns resp) => resp.1 ≠ status | Err Panics => True | Ok _ => True end.

(** A request with that status passed the check and went on. *)
Lemma answered_bind {A} r (c : org A) f (k : A -> org response) a status : observes r c f -> refusing status (f a) ->
  answered (stm_bind c k) a status ->
  exists x a1, f a = Ok x /\ settles r a a1 /\ answered (k x) a1 status /\ (serve (stm_bind c k) a).1 = (serve (k x) a1).1.
Proof.
  intros Hobs Hf (a' & b & Hans). destruct (observes_run r c f k a Hobs) as (a1 & Hs & E). unfold serve, answer in Hans |- *. rewrite E in Hans |- *.
  destruct (f a) as [x|[resp|]]; [|by injection Hans as _ ->|discriminate Hans].
  exists x, a1. split_and!; [done|done| |done]. exists a', b. exact Hans.
Qed.

Lemma answered_ensure (b : bool) st text (k : org response) a status : st ≠ status ->
  answered (ensure b st text ;;; k) a status ->
  b = true /\ answered k a status /\ (serve (ensure b st text ;;; k) a).1 = (serve k a).1.
Proof. intros Hst. destruct b; [done|]. intros (a' & bd & Hans). exfalso. unfold serve, answer, stm_bind, ensure, refuse, stm_fail in Hans. by injection Hans as <- <- <-. Qed.

Lemma emit_store {E A} (c : tx_fn E A) ev t : tx_store ((x <-- c ;; tx_Emit (ev x) ;;; stm_ret x) t).1 = tx_store (c t).1.
Proof. unfold stm_bind, tx_Emit, stm_ret. by destruct (c t) as [t1 [x|e]]. Qed.

Lemma write_then {E A B} r (fn : tx_fn E A) (k : result (tx_error E) A -> org B) a : (forall x, quiet r (k x)) ->
  same_owned (tx_store (fn (StoreTx (app_Store a) [])).1) (app_Store (stm_bind (writes (fun a => WithTx a fn)) k a).1).
Proof. intros Hk. rewrite <- writes_tx_store. by apply (then_quiet r). Qed.

(** The administrator of a project, with a payload. *)
Lemma answered_project_admin r (k : string -> object -> org response) a : answered (as_project_admin cfg r k) a StatusOK ->
  exists payload a1, sq_body r = Ok payload /\ settles r a a1 /\ is_Some (FindProject (app_Store a) (projectPathID r)) /\
    answered (k (caller r) payload) a1 StatusOK /\ (serve (as_project_admin cfg r k) a).1 = (serve (k (caller r) payload) a1).1.
Proof.
  intros H1. unfold as_project_admin in *. apply (answered_bind r _ _ _ _ _ (observes_requireUser r)) in H1 as (u & a1 & Hu & Hs1 & H1 & E1); [|by destruct (str_empty _)].
  destruct (str_empty _); [done|]. injection Hu as <-.
  apply (answered_bind r _ _ _ _ _ (observes_require_role cfg r _ _ _ _)) in H1 as (project & a2 & Hp & Hs2 & H1 & E2);
    [|destruct (FindProject _ _); [|done]; by destruct (String.eqb _ _)].
  apply (answered_bind r _ _ _ _ _ (observes_decode r)) in H1 as (payload & a3 & Hb & Hs3 & H1 & E3); [|by destruct (sq_body r)].
  exists payload, a3. split_and!; [destruct (sq_body r); [by injection Hb as ->|done]|eauto using settles_trans| |done|exact (eq_trans E1 (eq_trans E2 E3))].
  rewrite (same_FindProject _ _ _ (settles_owned r _ _ Hs1)) in Hp. destruct (FindProject _ _); [eauto|done].
Qed.

(** C26: a quota set for a member of a project is the one the admission of jobs enforces:
    after the request was answered, the scheduler finds for that user and project exactly
    the GPU, CPU and memory limits of the payload, none of them negative. *)
Theorem quota_enforced r a Q :
  quotas (app_Store a) Q -> pkey_wf (projectPathID r, projectUserPathID r) -> answered (upsertProjectMemberQuota cfg r) a StatusOK ->
  exists payload q, sq_body r = Ok payload /\
    admissionUserQuota (H0 := storeAdmissionReader (app_Store (serve (upsertProjectMemberQuota cfg r) a).1)) (projectPathID r) (projectUserPathID r) = Some q /\
    (user_gpu_limit q, user_cpu_limit q, user_memory_limit q) = asked_limits payload /\
    Forall (fun key => f64_lt (NumberValue payload [key]) f64_0 = false) ["gpu_limit"; "cpu_limit"; "memory_limit_gb"; "GPULimit"; "CPULimit"; "MemoryLimitGB"].
Proof.
  intros HQ Hw Hans. apply answered_project_admin in Hans as (payload & a1 & Hb & Hs & Hproj & Hans & Heq). exists payload.
  unfold checked in *. destruct (validateQuotaPayload payload) as [[]|text] eqn:Ev.
  2: { exfalso. destruct Hans as (? & ? & Hans). unfold serve, answer, stm_bind, refuse, stm_fail in Hans. by injection Hans. }
  set (h := upsertQuota r 0 (quotaRecord (projectPathID r) (projectUserPathID r) payload (sq_now r))) in *.
  change (answered h a1 StatusOK) in Hans. change ((serve (upsertProjectMemberQuota cfg r) a).1 = (serve h a1).1) in Heq.
  unfold h, upsertQuota in Hans. apply answered_ensure in Hans as (Hne & _ & Heq'); [|done]. pose proof (eq_trans Heq Heq') as He. clear Heq Heq' h.
  assert (projectPathID r ≠ "") as Hpne by (intros Hp; destruct Hproj as [x Hx]; rewrite Hp in Hx; discriminate Hx).
  assert (projectUserPathID r ≠ "") as Hune.
  { intros Hu. apply negb_true_iff, orb_false_iff in Hne as [_ Hne]. unfold TextValue, first_key, mget, quotaRecord in Hne. rewrite Hu in Hne. done. }
  pose proof (pairs_same _ _ _ _ _ _ Q (settles_owned r _ _ Hs projectUserQuotasResource ltac:(apply (bool_decide_unpack _); vm_compute; exact I)) HQ) as HQ1.
  pose proof (upsert_quota_put (E := unit) (StoreTx (app_Store a1) []) _ _ payload (sq_newid r 0) (sq_now r) Q HQ1 Hw
    (TrimSpace_Trimmed _) Hpne (TrimSpace_Trimmed _) Hune) as HQ2.
  assert (quotas (app_Store (serve (upsertProjectMemberQuota cfg r) a).1) (<[(projectPathID r, projectUserPathID r) := asked_limits payload]> Q)) as HQ3.
  { rewrite He, serve_state. eapply pairs_same; [|exact HQ2]. rewrite <- (emit_store _ (fun record => eventFor r 0 "UserQuotaUpdated" (pr_Data record))).
    apply (write_then r); [intros [?|?]; [apply quiet_ret|apply quiet_fail]|]. apply (bool_decide_unpack _). vm_compute. exact I. }
  destruct (admission_reads_quota _ _ _ _ (asked_limits payload) HQ3 Hw ltac:(apply lookup_insert_eq)) as (q & Hq & Hl). exists q. split_and!; [done|exact Hq|exact Hl|].
  unfold validateQuotaPayload in Ev. destruct (existsb _ _) eqn:Ee; [done|]. apply Forall_forall. intros key Hin. apply not_true_iff_false. intros Ht.
  assert (existsb (fun key => f64_lt (NumberValue payload [key]) f64_0) ["gpu_limit"; "cpu_limit"; "memory_limit_gb"; "GPULimit"; "CPULimit"; "MemoryLimitGB"] = true) as Hx
    by (apply existsb_Exists; eauto). congruence.
Qed.

(** ** Deleting a project *)

(** The records of a resource without those of the project. *)
Definition without (id : string) (res : string) (s s' : store) : Prop :=
  forall i, Get s' res i = match Get s res i with Some row => if of_project id (rec_Data row) then None else Some row | None => None end.

Lemma filed_in_bucket res s s' : bucket s' res = bucket s res -> filed_in res s -> filed_in res s'.
Proof. intros Hb Hf i rc. unfold Get. rewrite Hb. apply Hf. Qed.

(** One sweep of the cascade. *)
Lemma sweep {E} t res id : filed_in res (tx_store t) ->
  exists n t', delete_where_tx (E := E) res (projectRowBelongsTo id id) t = (t', Ok n) /\ without id res (tx_store t) (tx_store t') /\
    tx_events t' = tx_events t /\ forall res', res' ≠ res -> bucket (tx_store t') res' = bucket (tx_store t) res'.
Proof.
  intros Hf. pose proof (delete_where_Get (E := E) res (projectRowBelongsTo id id) t res) as Hg.
  destruct (delete_where_tx_store (E := E) res (projectRowBelongsTo id id) t) as [_ [n Hn]].
  pose proof (fun res' Hne => tx_keeps_delete_where (E := E) res' res (projectRowBelongsTo id id) Hne t) as Hk.
  assert (tx_events (delete_where_tx (E := E) res (projectRowBelongsTo id id) t).1 = tx_events t) as He.
  { unfold delete_where_tx. generalize (ids_where (tx_store t) res (projectRowBelongsTo id id)) 0. intros ids. clear. revert t.
    induction ids as [|i ids IH]; intros t m; [done|]. cbn [delete_counted_tx]. unfold stm_bind, tx_Delete. destruct (Delete _ _ _) as [s b]. by rewrite IH. }
  destruct (delete_where_tx _ _ t) as [t' x]. cbn [fst snd] in *. subst x. exists n, t'. split_and!; [done| |done|done].
  intros i. rewrite (Hg i Hf), bool_decide_true by done. destruct (Get _ _ _); [|done]. unfold projectRowBelongsTo, of_project. cbn zeta. cbn [andb]. by rewrite orb_diag.
Qed.

Lemma cascade_exact {E} t id rc : Trimmed id -> id ≠ "" -> Get (tx_store t) projectsResource id = Some rc ->
  Forall (fun res => filed_in res (tx_store t)) [projectsResource; projectMembersResource; projectUserQuotasResource; gpuClaimsResource] ->
  exists result t', DeleteProjectCascadeTx (E := E) id t = (t', Ok (Some result)) /\ tx_events t' = tx_events t /\
    (forall i, Get (tx_store t') projectsResource i = if decide (i = id) then None else Get (tx_store t) projectsResource i) /\
    Forall (fun res => without id res (tx_store t) (tx_store t')) [projectMembersResource; projectUserQuotasResource; gpuClaimsResource] /\
    Forall (fun res => bucket (tx_store t') res = bucket (tx_store t) res) [groupsResource; userGroupsResource].
Proof.
  intros Ht Hne Hg [Hf0 [Hf1 [Hf2 [Hf3 _]%Forall_cons]%Forall_cons]%Forall_cons]%Forall_cons.
  unfold DeleteProjectCascadeTx, stm_bind at 1, tx_reads. cbn [tx_store].
  assert (FindProject (tx_store t) id = Some (projectRecordFromStore rc)) as ->.
  { unfold FindProject. cbn zeta. rewrite (TrimSpace_fix _ Ht), Hg. unfold str_empty. by rewrite (proj2 (String.eqb_neq _ _) Hne). }
  cbn [pr_ID projectRecordFromStore]. rewrite (Hf0 _ _ Hg). unfold stm_bind at 1, tx_Delete.
  assert ((Delete (tx_store t) projectsResource id).2 = true) as Hdel by (unfold Delete; unfold Get in Hg; by rewrite Hg).
  pose proof (Delete_Get (tx_store t) projectsResource id) as Hs1. destruct (Delete (tx_store t) projectsResource id) as [s1 b]. cbn [fst snd] in *. subst b.
  assert (forall res, res ≠ projectsResource -> bucket s1 res = bucket (tx_store t) res) as Hb1.
  { intros res Hn. apply map_eq. intros i. change (Get s1 res i = Get (tx_store t) res i). rewrite Hs1, decide_False; [done|]. by intros [? _]. }
  unfold stm_bind, deleteProjectOwnedRowsTx, DeleteGPUClaimsByProjectTx.
  destruct (sweep (E := E) (StoreTx s1 (tx_events t)) projectMembersResource id) as (n & t2 & -> & W2 & E2 & K2); [eapply filed_in_bucket, Hf1; by apply Hb1|].
  destruct (sweep (E := E) t2 projectUserQuotasResource id) as (m & t3 & -> & W3 & E3 & K3).
  { eapply filed_in_bucket, Hf2. rewrite K2 by discriminate. by apply Hb1. }
  assert (forall p q : object -> bool, (forall d, p d = q d) -> delete_where_tx (E := E) gpuClaimsResource p t3 = delete_where_tx gpuClaimsResource q t3) as Hext.
  { intros p q Hpq. unfold delete_where_tx. assert (ids_where (tx_store t3) gpuClaimsResource p = ids_where (tx_store t3) gpuClaimsResource q) as ->; [|done].
    unfold ids_where. f_equal. apply List.filter_ext. intros rc'. apply Hpq. }
  rewrite (Hext _ (projectRowBelongsTo id id)) by (intros d; unfold of_project, projectRowBelongsTo; cbn zeta; by rewrite orb_diag).
  destruct (sweep (E := E) t3 gpuClaimsResource id) as (k & t4 & -> & W4 & E4 & K4).
  { eapply filed_in_bucket, Hf3. rewrite K3, K2 by discriminate. by apply Hb1. }
  eexists _, t4. split_and!; [reflexivity|by rewrite E4, E3, E2| | |].
  - intros i. unfold Get at 1. rewrite K4, K3, K2 by discriminate. change (Get s1 projectsResource i = if decide (i = id) then None else Get (tx_store t) projectsResource i).
    rewrite Hs1. repeat case_decide; naive_solver.
  - assert (forall res i, res ≠ projectsResource -> Get s1 res i = Get (tx_store t) res i) as Hs by (intros res i Hn; unfold Get; by rewrite Hb1).
    repeat apply Forall_cons_2; [..|constructor]; intros i.
    + unfold Get at 1. rewrite K4, K3 by discriminate. rewrite <- (Hs projectMembersResource) by discriminate. exact (W2 i).
    + unfold Get at 1. rewrite K4 by discriminate. rewrite <- (Hs projectUserQuotasResource) by discriminate. specialize (W3 i). unfold Get at 2 in W3. rewrite K2 in W3 by discriminate. exact W3.
    + rewrite <- (Hs gpuClaimsResource) by discriminate. specialize (W4 i). unfold Get at 2 in W4. rewrite K3, K2 in W4 by discriminate. exact W4.
  - repeat apply Forall_cons_2; [..|constructor]; rewrite K4, K3, K2 by discriminate; by apply Hb1.
Qed.

(** The identifiers drawn for a request are not blank. *)
Definition uuids_drawn (r : service_request) : Prop := forall n, sq_uuid r n ≠ "" /\ TrimSpace (sq_uuid r n) ≠ "".

Lemma eventFor_ok r k name data : name ≠ "" -> uuids_drawn r -> event_metadata_ok (eventFor r k name data) = true.
Proof.
  intros Hn Hu. unfold event_metadata_ok, eventFor. cbn [ev_Name ev_Source ev_EventID ev_TraceID ev_SchemaVersion].
  assert (forall t, t ≠ "" -> negb (str_empty t) = true) as Hne by (intros t Ht; unfold str_empty; by rewrite (proj2 (String.eqb_neq _ _) Ht)).
  rewrite !Hne; [done|..|done|done]; [|apply Hu]. cbn [FirstNonBlank]. cbn zeta. unfold str_empty.
  repeat match goal with |- context [String.eqb ?x ""] => destruct (String.eqb_spec x "") as [?|Hd]; [|exact Hd] end.
  match goal with He : TrimSpace (sq_uuid _ _) = "" |- _ => destruct (proj2 (Hu _) He) end.
Qed.

Lemma WithTx_one {E A} a (fn : tx_fn E A) t x e : fn (StoreTx (app_Store a) []) = (t, Ok x) -> tx_events t = [e] -> event_metadata_ok e = true ->
  exists a', WithTx a fn = (a', Ok x) /\ app_Store a' = tx_store t.
Proof.
  intros Hf He Hok. unfold WithTx. rewrite Hf, He. cbn [publish_all].
  destruct (publish_event_ok (App_ (tx_store t) (app_Events a)) e Hok) as (b & _ & ->). eauto.
Qed.

(** The handlers behind the admin panel, for who holds it. *)
Lemma panel_run {A} r a (k : string -> org A) : holds_panel cfg r a = true ->
  exists a2, settles r a a2 /\ (userID <-- requireUser r ;; (require_panel cfg r userID ;;; k userID)) a = k (caller r) a2.
Proof.
  intros Hp. match goal with |- context [stm_bind (requireUser r) ?k0 a] => destruct (observes_run r _ _ k0 a (observes_requireUser r)) as (a1 & Hs1 & ->) end.
  destruct (str_empty (caller r)) eqn:Ec; [unfold holds_panel in Hp; by rewrite Ec in Hp|].
  match goal with |- context [stm_bind (require_panel cfg r (caller r)) ?k0 a1] => destruct (observes_run r _ _ k0 a1 (observes_require_panel cfg r (caller r))) as (a2 & Hs2 & ->) end.
  rewrite <- (stable_holds_panel cfg r a a1 Hs1) in Hp. unfold holds_panel in Hp. rewrite Ec in Hp. cbn [negb andb] in Hp. rewrite Hp.
  exists a2. split; [by eapply settles_trans|done].
Qed.

Lemma serve_eq h h' a a' : h a = h' a' -> serve h a = serve h' a'.
Proof. intros He. unfold serve, answer. by rewrite He. Qed.

(** What deleteProject does once its caller was admitted. *)
Definition deleteProject_rest (r : service_request) : org response :=
  found <-- findProject (projectPathID r) ;;
  match found with
  | None => refuse StatusNotFound msgProjectNotFound
  | Some project =>
      deleted <-- writes (fun a => WithTx a (emitting (DeleteProjectCascadeTx (projectPathID r)) "project not found" (fun _ => eventFor r 0 "ProjectDeleted" project))) ;;
      match deleted with
      | Ok _ => stm_ret (StatusOK, BNil)
      | Err _ => refuse StatusInternalServerError "project delete failed"
      end
  end.

Lemma deleteProject_rest_exact r a rc :
  let id := projectPathID r in let s := app_Store a in let s' := app_Store (serve (deleteProject_rest r) a).1 in
  uuids_drawn r -> Get s projectsResource id = Some rc -> id ≠ "" ->
  Forall (fun res => filed_in res s) [projectsResource; projectMembersResource; projectUserQuotasResource; gpuClaimsResource] ->
  (serve (deleteProject_rest r) a).2 = Some (StatusOK, BNil) /\
  (forall i, Get s' projectsResource i = if decide (i = id) then None else Get s projectsResource i) /\
  Forall (fun res => without id res s s') [projectMembersResource; projectUserQuotasResource; gpuClaimsResource] /\
  Forall (fun res => bucket s' res = bucket s res) [groupsResource; userGroupsResource].
Proof.
  intros id s s' Hu Hg Hne Hf. assert (Trimmed id) as Ht by apply TrimSpace_Trimmed.
  destruct (cascade_exact (E := string) (StoreTx s []) id rc Ht Hne Hg Hf) as (result & t' & Hc & He & H1 & H2 & H3).
  subst s'. unfold serve, answer, deleteProject_rest. fold id.
  match goal with |- context [stm_bind (findProject id) ?k a] => change (stm_bind (findProject id) k a) with (k (pr_Data <$> FindProject s id) a); cbn beta end.
  assert (FindProject s id = Some (projectRecordFromStore rc)) as ->.
  { unfold FindProject. cbn zeta. rewrite (TrimSpace_fix _ Ht), Hg. unfold str_empty. by rewrite (proj2 (String.eqb_neq _ _) Hne). }
  cbn [fmap option_fmap option_map]. set (ev := eventFor r 0 "ProjectDeleted" (pr_Data (projectRecordFromStore rc))).
  destruct (WithTx_one a (emitting (DeleteProjectCascadeTx id) "project not found" (fun _ => ev)) (StoreTx (tx_store t') (tx_events t' ++ [ev])) result ev) as (a' & Hw & Hst).
  - unfold emitting, stm_bind. fold s. rewrite Hc. done.
  - cbn [tx_events]. by rewrite He.
  - by apply eventFor_ok.
  - match goal with |- context [stm_bind (writes ?w) ?k a] => assert (stm_bind (writes w) k a = (a', Ok (StatusOK, BNil))) as ->
      by (unfold stm_bind, writes; by rewrite Hw) end.
    cbn [fst snd]. setoid_rewrite Hst. auto.
Qed.

(** an administrator's request to delete a project is answered and leaves nothing of
    it: the project is gone, and of the direct members, the quotas and the GPU claims
    exactly those of the project.  Every other project, every row of another project, and
    all groups and memberships are as before. *)
Theorem project_deleted_completely r a rc :
  let id := projectPathID r in let s := app_Store a in let s' := app_Store (serve (deleteProject cfg r 0) a).1 in
  holds_panel cfg r a = true -> uuids_drawn r -> Get s projectsResource id = Some rc -> id ≠ "" ->
  Forall (fun res => filed_in res s) [projectsResource; projectMembersResource; projectUserQuotasResource; gpuClaimsResource] ->
  (serve (deleteProject cfg r 0) a).2 = Some (StatusOK, BNil) /\
  (forall i, Get s' projectsResource i = if decide (i = id) then None else Get s projectsResource i) /\
  Forall (fun res => without id res s s') [projectMembersResource; projectUserQuotasResource; gpuClaimsResource] /\
  Forall (fun res => bucket s' res = bucket s res) [groupsResource; userGroupsResource].
Proof.
  intros id s s' Hp Hu Hg Hne Hf. subst s'. destruct (panel_run r a (fun _ => deleteProject_rest r) Hp) as (a2 & Hs & Hrun).
  rewrite (serve_eq (deleteProject cfg r 0) (deleteProject_rest r) a a2 Hrun).
  assert (forall res, res ∈ ownedResources -> bucket (app_Store a2) res = bucket s res) as Hb by (intros res Hr; by apply (settles_owned r _ _ Hs)).
  assert (forall l, bool_decide (Forall (fun res => res ∈ ownedResources) l) = true -> forall res, res ∈ l -> res ∈ ownedResources) as Hown.
  { intros l Hl. apply Forall_forall. by apply bool_decide_eq_true in Hl. }
  assert (forall res i, res ∈ ownedResources -> Get (app_Store a2) res i = Get s res i) as Hget by (intros res i Hr; unfold Get; by rewrite Hb).
  assert (projectsResource ∈ ownedResources) as Hpo by (apply (bool_decide_unpack _); vm_compute; exact I).
  pose proof Hg as Hg2. rewrite <- (Hget _ _ Hpo) in Hg2.
  destruct (deleteProject_rest_exact r a2 rc Hu Hg2 Hne) as (H1 & H2 & H3 & H4).
  { apply Forall_forall. intros res Hr. rewrite Forall_forall in Hf. eapply filed_in_bucket, Hf, Hr. apply Hb. revert res Hr. apply Hown. vm_compute. reflexivity. }
  fold id in H2, H3. split_and!; [exact H1| | |].
  - intros i. rewrite H2, (Hget _ _ Hpo). reflexivity.
  - apply Forall_forall. intros res Hr i. rewrite Forall_forall in H3. rewrite (H3 res Hr i), Hget; [reflexivity|]. revert res Hr. apply Hown. vm_compute. reflexivity.
  - apply Forall_forall. intros res Hr. rewrite Forall_forall in H4. rewrite (H4 res Hr). apply Hb. revert res Hr. apply Hown. vm_compute. reflexivity.
Qed.

End Records.
