(* ===== verification/OrgPlans.v ===== *)
(** * Organisation and project service: plans of projects and pages of lists
    (plan_binding_contracts.go, project_repository.go, group_helpers.go)

    The scheduler binds plans to projects and takes a deleted plan out of all of them; the
    admission of jobs reads the binding.  Lists are answered page by page. *)

From stdpp Require Import base gmap strings list fin_maps.
From Stdlib Require Import ZArith Lia Ascii.
From S2P Require Import Prelude GoValue Store EventBus Crud Tx Projection InputLimits Config Auth Guards AdmissionTypes SchedulerHttp SchedulerHandlers AdmissionPlan ServiceHttp Tables ServiceProjection PolicyIdentity OrgIdentity OrgGroups OrgGroupHandlers OrgProjects OrgProjectHandlers OrgService OrgEffects OrgMembers OrgAccess OrgRecords.
Local Open Scope Z_scope.
Local Open Scope go_scope.

(** ** Fields that survive an update *)

Lemma TextValue_set_fields keys v data ks : Forall (fun k => k ∉ ks) keys -> TextValue (set_fields keys v data) ks = TextValue data ks.
Proof.
  revert data. induction keys as [|k keys IH]; intros data Hk; [done|]. apply Forall_cons in Hk as [Hk Hks].
  unfold set_fields in *. cbn [fold_left]. rewrite IH by done. unfold TextValue. clear -Hk.
  induction ks as [|k' ks IH]; [done|]. cbn [first_key]. unfold mget in *. rewrite lookup_insert_ne by set_solver.
  destruct (text_of _); [done|]. apply IH. set_solver.
Qed.

(** The plan of a project, as the repository and the admission of jobs read it. *)
Lemma bound_to_plan planID rc : bound_to planID (pr_Data (projectRecordFromStore rc)) = String.eqb (project_plan_id rc) planID.
Proof.
  unfold bound_to. f_equal. cbn [pr_Data projectRecordFromStore]. unfold normalizeProjectRecord. cbn zeta.
  assert (forall b keys v d, bool_decide (Forall (fun k => k ∉ planKeys) keys) = true ->
    TextValue (if b : bool then d else set_fields keys v d) planKeys = TextValue d planKeys) as Hs.
  { intros [] keys v d Hk; [done|]. apply TextValue_set_fields. by apply bool_decide_eq_true in Hk. }
  rewrite !Hs by (vm_compute; reflexivity). reflexivity.
Qed.

Section Plans.
Context `{GoLib} {ip : Type} (cfg : config ip).

(** The record after the binding was set. *)
Definition patched (planID : string) (old new : record) : Prop :=
  exists now, forall k, rec_Data new !! k = match plan_patch planID now !! k with Some v => Some v | None => rec_Data old !! k end.

Lemma patched_bound planID old new : patched planID old new -> Trimmed planID -> planID ≠ "" -> project_plan_id new = planID.
Proof. intros [now Hp] Ht Hne. unfold project_plan_id. by apply TextValue_text; [rewrite Hp|..]. Qed.

Lemma patched_cleared old new : patched "" old new -> project_plan_id new = TextValue (rec_Data old) ["planId"; "resourcePlanId"].
Proof. intros [now Hp]. unfold project_plan_id, TextValue. cbn [first_key]. unfold mget. rewrite !Hp. reflexivity. Qed.

Lemma patched_again planID old mid new : patched planID old mid -> patched planID mid new -> patched planID old new.
Proof.
  intros [n1 H1] [n2 H2]. exists n2. intros k. rewrite H2, H1. unfold plan_patch.
  destruct (decide (k ∈ ["plan_id"; "resource_plan_id"; "updated_at"])) as [Hk|Hk].
  - rewrite !elem_of_cons in Hk. destruct Hk as [->|[->|[->|Hk]]]; [done..|]. by apply elem_of_nil in Hk.
  - rewrite !not_elem_of_cons in Hk. destruct Hk as (? & ? & ? & _). by rewrite !lookup_insert_ne, !lookup_singleton_ne by congruence.
Qed.

(** ** Clearing a plan *)

(** What a pass over the projects in [ids] does to one record. *)
Definition pass (planID : string) (ids : list string) (i : string) (old new : option record) : Prop :=
  match old, new with
  | None, None => True
  | Some old, Some new => if decide (i ∈ ids) then patched planID old new else new = old
  | _, _ => False
  end.

(** What clearing a plan does to the record of a project. *)
Definition cleared (planID : string) (old new : option record) : Prop :=
  match old, new with
  | None, None => True
  | Some old, Some new =>
      if String.eqb (project_plan_id old) planID then project_plan_id new = TextValue (rec_Data old) ["planId"; "resourcePlanId"] else new = old
  | _, _ => False
  end.

Definition bound_ids (planID : string) (projects : list platformRecord) : list string :=
  map pr_ID (List.filter (fun project => bound_to planID (pr_Data project)) projects).

Lemma pass_more planID id ids i old new : i ≠ id -> pass planID ids i old new -> pass planID (id :: ids) i old new.
Proof.
  intros Hne. unfold pass. destruct old, new; try done. destruct (decide (i ∈ ids)) as [Hi|Hi], (decide (i ∈ id :: ids)) as [Hj|Hj]; try done.
  - destruct Hj. by apply list_elem_of_further.
  - apply elem_of_cons in Hj as [?|?]; done.
Qed.

Lemma clear_plans_pass {E} planID now emit projects : forall k n t,
  let out := clear_plans_tx (E := E) projects planID now emit k n t in
  (exists m, out.2 = Ok m) /\
  (forall i, pass "" (bound_ids planID projects) i (Get (tx_store t) projectsResource i) (Get (tx_store out.1) projectsResource i)) /\
  (forall res, res ≠ projectsResource -> bucket (tx_store out.1) res = bucket (tx_store t) res).
Proof.
  induction projects as [|project projects IH]; intros k n t; cbn zeta; cbn [clear_plans_tx].
  { split_and!; [eauto| |done]. intros i. cbn. unfold pass. destruct (Get _ _ _); [|done]. destruct (decide _) as [Hi%elem_of_nil|_]; done. }
  unfold bound_ids. cbn [List.filter]. destruct (bound_to planID (pr_Data project)) eqn:Eb; cbn [negb map]; [|apply IH].
  fold (bound_ids planID projects). unfold stm_bind, tx_Update, tx_Emit. pose proof (Update_cases (tx_store t) projectsResource (pr_ID project) (plan_patch "" now) now) as HU.
  destruct (Update _ _ _ _ _) as [s' [rc|]], (Get (tx_store t) projectsResource (pr_ID project)) as [old|] eqn:Eg; try done.
  - destruct HU as (Hd & _ & _ & _ & _ & Hg). cbn [fst snd tx_store tx_events].
    match goal with |- context [clear_plans_tx _ _ _ _ ?k' ?n' ?t'] => destruct (IH k' n' t') as (Hm & Hp & Hb); destruct (clear_plans_tx projects planID now emit k' n' t') as [t2 x2] end.
    cbn [fst snd tx_store] in Hm, Hp, Hb |- *. split_and!; [exact Hm| |].
    + intros i. specialize (Hp i). rewrite Hg in Hp. destruct (decide (i = pr_ID project)) as [->|Hne].
      * rewrite decide_True in Hp by done. rewrite Eg. unfold pass in *. destruct (Get (tx_store t2) _ _) as [new|]; [|done].
        destruct (decide (_ ∈ _ :: _)) as [_|Hn]; [|destruct Hn; apply list_elem_of_here]. assert (patched "" old rc) as Hr by (by exists now).
        destruct (decide _); [by eapply patched_again|by subst].
      * rewrite decide_False in Hp by naive_solver. by apply pass_more.
    + intros res Hr. rewrite Hb by done. apply map_eq. intros i. change (Get s' res i = Get (tx_store t) res i). rewrite Hg, decide_False; naive_solver.
  - subst s'. destruct (IH k n (StoreTx (tx_store t) (tx_events t))) as (Hm & Hp & Hb).
    destruct (clear_plans_tx projects planID now emit k n _) as [t2 x2]. cbn [fst snd tx_store] in Hm, Hp, Hb |- *. split_and!; [exact Hm| |exact Hb].
    intros i. specialize (Hp i). destruct (decide (i = pr_ID project)) as [->|Hne]; [|by apply pass_more]. rewrite Eg in Hp |- *. exact Hp.
Qed.

Lemma bound_ids_spec planID s i rc : filed_in projectsResource s -> Get s projectsResource i = Some rc ->
  i ∈ bound_ids planID (ListProjects s) <-> project_plan_id rc = planID.
Proof.
  intros Hf Hg. unfold bound_ids, ListProjects. rewrite list_elem_of_In, in_map_iff. split.
  - intros (p & Hi & [(rc' & <- & Hin)%in_map_iff Hb]%filter_In). rewrite bound_to_plan in Hb. apply String.eqb_eq in Hb.
    apply list_elem_of_In, elem_of_List in Hin as [i' Hg']. cbn [pr_ID projectRecordFromStore] in Hi. rewrite (Hf _ _ Hg') in Hi. subst i'. by simplify_eq.
  - intros Hp. exists (projectRecordFromStore rc). split; [by apply Hf|]. apply filter_In. split; [|rewrite bound_to_plan; by apply String.eqb_eq].
    apply in_map_iff. exists rc. split; [done|]. apply list_elem_of_In, elem_of_List. eauto.
Qed.

Lemma answered_service r (k : org response) a : answered (requireOrgProjectServiceAuth cfg r ;;; k) a StatusOK ->
  exists a1, settles r a a1 /\ answered k a1 StatusOK /\ (serve (requireOrgProjectServiceAuth cfg r ;;; k) a).1 = (serve k a1).1.
Proof.
  intros Hans. apply (answered_bind r _ _ _ _ _ (observes_service cfg r)) in Hans as (x & a1 & _ & Hs & Hans & He); [by exists a1|].
  destruct (str_empty _); [done|]. by destruct (serviceRequestAuthorizedForAudience _ _ _).
Qed.

(** The transaction behind an answer. *)
Lemma clear_runs r a : answered (clearProjectsPlan cfg r) a StatusOK -> exists a1 emit, settles r a a1 /\
  same_owned (tx_store (ClearProjectsPlanTx (E := unit) (TrimSpace (PathValue r "plan_id")) (sq_now r) emit (StoreTx (app_Store a1) [])).1)
    (app_Store (serve (clearProjectsPlan cfg r) a).1).
Proof.
  intros Hans. apply answered_service in Hans as (a1 & Hs & Hans & He1). apply answered_ensure in Hans as (_ & _ & He2); [|done].
  rewrite (eq_trans He1 He2 : (serve (clearProjectsPlan cfg r) a).1 = _), serve_state. eexists a1, _. split; [done|].
  apply (write_then r). intros [?|?]; [apply quiet_ret|apply quiet_fail].
Qed.

(** when the scheduler takes a plan out of the projects, the projects bound to the plan
    lose the binding, up to one spelled in an older way, and no other project and no other
    record of the service changes. *)
Theorem plan_cleared r a :
  let planID := TrimSpace (PathValue r "plan_id") in let s := app_Store a in let s' := app_Store (serve (clearProjectsPlan cfg r) a).1 in
  filed_in projectsResource s -> answered (clearProjectsPlan cfg r) a StatusOK ->
  (forall i, cleared planID (Get s projectsResource i) (Get s' projectsResource i)) /\
  (forall res, res ∈ ownedResources -> res ≠ projectsResource -> bucket s' res = bucket s res).
Proof.
  intros planID s s' Hf Hans. destruct (clear_runs r a Hans) as (a1 & emit & Hs & Hw). fold planID s' in Hw. clearbody s'.
  pose proof (settles_owned r _ _ Hs) as Hs1. fold s in Hs1.
  assert (projectsResource ∈ ownedResources) as Hpo by (apply (bool_decide_unpack _); vm_compute; exact I).
  unfold ClearProjectsPlanTx at 1 in Hw. cbn [tx_store] in Hw.
  match type of Hw with context [clear_plans_tx ?p ?i ?n ?em ?k ?z ?t] => destruct (clear_plans_pass (E := unit) i n em p k z t) as (_ & Hp & Hb) end.
  cbn [tx_store] in Hp, Hb. split; [|intros res Hr Hne; rewrite (Hw res Hr), Hb, Hs1 by done; reflexivity].
  intros i. specialize (Hp i). rewrite (owned_Get _ _ projectsResource i Hw Hpo). rewrite (owned_Get _ _ projectsResource i Hs1 Hpo) in Hp.
  unfold pass in Hp. unfold cleared. destruct (Get s _ i) as [old|] eqn:Eg, (Get (tx_store _) _ i) as [new|]; try done.
  pose proof (bound_ids_spec planID (app_Store a1) i old) as Hi. rewrite (owned_Get _ _ projectsResource i Hs1 Hpo) in Hi.
  specialize (Hi (filed_in_bucket _ _ _ (Hs1 _ Hpo) Hf) Eg). destruct (String.eqb_spec (project_plan_id old) planID) as [He|He], (decide _); try tauto.
  by apply patched_cleared.
Qed.

(** ** Binding a plan *)

Lemma update_emitting_store {E} (c : tx_fn E (option (platformRecord * platformRecord))) ev t : tx_store (update_emitting c ev t).1 = tx_store (c t).1.
Proof. unfold update_emitting, stm_bind, tx_Emit, stm_ret. by destruct (c t) as [t1 [[[o n]|]|e]]. Qed.

Lemma update_project_Get {E} t id d now old : Get (tx_store t) projectsResource id = Some old ->
  exists new, (forall k, rec_Data new !! k = match d !! k with Some v => Some v | None => rec_Data old !! k end) /\
    forall res i, Get (tx_store (update_project_tx (E := E) id d now t).1) res i = if decide (projectsResource = res /\ id = i) then Some new else Get (tx_store t) res i.
Proof.
  intros Hg. unfold update_project_tx, stm_bind, tx_reads, tx_Update. rewrite Hg. pose proof (Update_cases (tx_store t) projectsResource id d now) as HU. rewrite Hg in HU.
  destruct (Update _ _ _ _ _) as [s' [rc|]]; [|done]. destruct HU as (Hd & _ & _ & _ & _ & Hs). exists rc. by split.
Qed.

(** The transaction behind an answer. *)
Lemma bind_runs r a : let id := TrimSpace (PathValue r "project_id") in answered (bindProjectPlan cfg r) a StatusOK ->
  exists payload a1 ev, sq_body r = Ok payload /\ TextValue payload ["plan_id"; "planId"] ≠ "" /\ settles r a a1 /\ is_Some (Get (app_Store a1) projectsResource id) /\
  same_owned (tx_store (update_emitting (E := unit) (BindProjectPlanTx id (TextValue payload ["plan_id"; "planId"]) (sq_now r)) ev (StoreTx (app_Store a1) [])).1)
    (app_Store (serve (bindProjectPlan cfg r) a).1).
Proof.
  intros id Hans. apply answered_service in Hans as (a1 & Hs1 & Hans & He1).
  apply (answered_bind r _ _ _ _ _ (observes_decode r)) in Hans as (payload & a2 & Hb & Hs2 & Hans & He2); [|by destruct (sq_body r)].
  apply answered_ensure in Hans as (_ & Hans & He3); [|done]. apply answered_ensure in Hans as (Hne & Hans & He4); [|done]. fold id in Hans.
  exists payload, a2. eexists. split; [destruct (sq_body r); [by injection Hb as ->|done]|]. split; [by apply negb_true_iff, String.eqb_neq in Hne|].
  split; [by eapply settles_trans|]. split.
  - destruct (Get (app_Store a2) projectsResource id) eqn:Eg; [eauto|]. destruct Hans as (a' & b & Hans). exfalso.
    unfold serve, answer, stm_bind at 1, writes, WithTx, update_emitting, stm_bind, BindProjectPlanTx, update_project_tx, stm_bind, tx_reads in Hans. cbn [tx_store] in Hans. rewrite Eg in Hans.
    cbn in Hans. by destruct (FindProject _ _).
  - rewrite (eq_trans He1 (eq_trans He2 (eq_trans He3 He4)) : (serve (bindProjectPlan cfg r) a).1 = _), serve_state. apply (write_then r).
    intros [[[? ?]|]|?]; [apply quiet_ret|..]; (apply quiet_bind; [apply quiet_reads|intros ?; apply quiet_bind; [apply quiet_ensure|intros ?; apply quiet_fail]]).
Qed.

(** a plan the scheduler binds to a project is the one the admission of jobs goes by:
    after the answer, a job of the project is admitted under that plan, if it is active, and
    refused for the lack of a plan otherwise, and no other record of the service changed. *)
Theorem plan_bound r a :
  let id := TrimSpace (PathValue r "project_id") in let s := app_Store a in let s' := app_Store (serve (bindProjectPlan cfg r) a).1 in
  answered (bindProjectPlan cfg r) a StatusOK ->
  exists payload new, sq_body r = Ok payload /\ Get s' projectsResource id = Some new /\
    (forall now, admissionProjectPlan (H0 := storeAdmissionReader s') new now =
      match rd_Plan (admissionReader := storeAdmissionReader s') (TextValue payload ["plan_id"; "planId"]) with
      | Some plan => if admissionPlanActive (rec_Data plan) now then Ok plan else deny StatusForbidden "project has no active resource plan"
      | None => deny StatusForbidden "project has no active resource plan"
      end) /\
    (forall res i, res ∈ ownedResources -> (res, i) ≠ (projectsResource, id) -> Get s' res i = Get s res i).
Proof.
  intros id s s' Hans. destruct (bind_runs r a Hans) as (payload & a1 & ev & Hb & Hne & Hs & [old Hg] & Hw). fold id s' in Hw. clearbody s'.
  pose proof (settles_owned r _ _ Hs) as Hs1. fold s in Hs1. assert (projectsResource ∈ ownedResources) as Hpo by (apply (bool_decide_unpack _); vm_compute; exact I).
  destruct (update_project_Get (E := unit) (StoreTx (app_Store a1) []) id (plan_patch (TextValue payload ["plan_id"; "planId"]) (sq_now r)) (sq_now r) old Hg) as (new & Hd & Hn).
  rewrite update_emitting_store in Hw. unfold BindProjectPlanTx in Hw. cbn [tx_store] in Hn. exists payload, new. split; [done|].
  assert (project_plan_id new = TextValue payload ["plan_id"; "planId"]) as Hp.
  { apply (patched_bound _ old); [by exists (sq_now r)| |done]. apply Trimmed_of_fix, TextValue_Trimmed. }
  split; [|split].
  - rewrite (owned_Get _ _ _ _ Hw Hpo), Hn, decide_True; done.
  - intros now. unfold admissionProjectPlan. cbn zeta. fold (project_plan_id new). rewrite Hp. unfold str_empty. by rewrite (proj2 (String.eqb_neq _ _) Hne).
  - intros res i Hr Hi. rewrite (owned_Get _ _ _ _ Hw Hr), Hn, decide_False; [by apply owned_Get|]. intros [<- <-]. by destruct Hi.
Qed.

(** ** Pages *)

Lemma positiveInt_pos raw fallback : 0 < fallback -> 0 < positiveInt raw fallback.
Proof. intros Hf. unfold positiveInt. destruct (digits_value _ _) as [n|]; [|done]. destruct (Z.leb_spec n 0); lia. Qed.

(** a page of a list is exact as long as its bounds fit a machine integer: the rows
    from [(page - 1) * limit] on, [limit] of them at most, and none beyond the list. *)
Theorem page_exact r (rows : list object) :
  let page := page_number r in let limit := page_limit r in
  (page - 1) * limit < two63 -> Z.of_nat (length rows) + limit < two63 ->
  pagedRows r rows = Some {[ "list" := VMaps (take (Z.to_nat limit) (drop (Z.to_nat ((page - 1) * limit)) rows));
                             "total" := VInt (Z.of_nat (length rows)); "page" := VInt page; "page_size" := VInt limit ]}.
Proof.
  intros page limit H1 H2. unfold pagedRows. fold page limit. cbn zeta.
  assert (0 < page) as Hp by (apply positiveInt_pos; lia). assert (0 < limit) as Hl by (apply positiveInt_pos; lia).
  assert (0 <= (page - 1) * limit) as H0 by nia. assert (page - 1 < two63) as Hpb by nia. unfold two63 in *.
  rewrite (i64_id (page - 1)) by (unfold in_i64, two63; lia). rewrite (i64_id ((page - 1) * limit)) by (unfold in_i64, two63; lia).
  generalize dependent ((page - 1) * limit). intros start Hs H0. set (len := Z.of_nat (length rows)) in *.
  destruct (Z.ltb_spec len start) as [Hlt|Hge].
  - rewrite i64_id by (unfold in_i64, two63; lia). rewrite (proj2 (Z.ltb_lt len (len + limit))) by lia. unfold slice. fold len.
    rewrite !(proj2 (Z.leb_le _ _)) by lia. cbn. rewrite Z.sub_diag, !drop_ge by lia. by rewrite !take_nil.
  - rewrite i64_id by (unfold in_i64, two63; lia). destruct (Z.ltb_spec len (start + limit)); unfold slice; fold len; rewrite !(proj2 (Z.leb_le _ _)) by lia; cbn.
    + rewrite !take_ge; [done|..]; rewrite length_drop; lia.
    + by replace (start + limit - start) with limit by lia.
Qed.

End Plans.
