(* ===== verification/OrgExamples.v ===== *)
(** * Organisation and project service: a small organisation

    One group with its administrator, one project of the group, and the requests that the
    theorems about the service are applied to; then behaviours worth knowing of. *)

From stdpp Require Import base gmap strings list fin_maps.
From Stdlib Require Import ZArith Lia Ascii.
From S2P Require Import Prelude GoValue Store EventBus Crud Tx Projection InputLimits Config Auth Guards AdmissionTypes SchedulerHttp SchedulerHandlers AdmissionPlan AdmissionQuota ServiceHttp Tables ServiceProjection PolicyIdentity OrgIdentity OrgGroups OrgGroupHandlers OrgProjects OrgProjectHandlers OrgService OrgEffects OrgMembers OrgAccess OrgRecords OrgPlans.
Local Open Scope Z_scope.
Local Open Scope go_scope.

Definition org_config : config nat := @ConfigFromEnv nat demo_env_lib {[ "SERVICE_NAME" := "org-project-service"; envServiceAPIKey := "s3cret" ]}.

Definition org_row (s : store) (x : string * object) : store := (Create s x.1 x.2 "n" 1).1.
Definition org_users : list (string * object) :=
  [ (orgIdentityUsers, {[ "id" := VString "root"; "username" := VString "root"; "admin_panel" := VBool true ]});
    (orgIdentityUsers, {[ "id" := VString "alice"; "username" := VString "Alice" ]});
    (orgIdentityUsers, {[ "id" := VString "bob"; "username" := VString "Bob"; "status" := VString "disabled" ]}) ].
Definition org_rows : list (string * object) :=
  org_users ++
  [ (groupsResource, {[ "id" := VString "G1"; "name" := VString "Physics" ]});
    (projectsResource, {[ "id" := VString "P1"; "name" := VString "simulation"; "owner_id" := VString "G1"; "plan_id" := VString "gold"; "resource_plan_id" := VString "gold" ]});
    (projectsResource, {[ "id" := VString "P2"; "name" := VString "notes"; "owner_id" := VString "G1"; "plan_id" := VString "silver" ]}) ].
Definition org_app : app := App_ (foldl org_row NewStore org_rows) NewEventBus.

Definition org_request (user : string) (headers path : gmap string string) (query : gmap string string) (payload : object) : service_request :=
  ServiceRequest (Request "POST" (<["X-User-ID" := user]> headers) ∅ query "" 0 None None None) (Ok payload) path 7 (fun _ => "e") (fun _ => "n").
Definition post (user : string) (payload : object) : service_request := org_request user ∅ ∅ ∅ payload.
Definition at_path (user : string) (path : gmap string string) (payload : object) : service_request := org_request user ∅ path ∅ payload.
Definition of_service (path : gmap string string) (payload : object) : service_request := org_request "" {[ serviceKeyHeader := "s3cret" ]} path ∅ payload.

Definition org_serve (rt : org_route) (r : service_request) (a : app) : app * option response := serve (@dispatch auth_lib nat org_config rt r) a.
Definition status_of (x : app * option response) : Z := match x.2 with Some (status, _) => status | None => 0 end.

Definition member_payload (user group role : string) : object := {[ "user_id" := VString user; "group_id" := VString group; "role" := VString role ]}.

(** The administrator makes alice an administrator of the group. *)
Definition promote : service_request := post "root" (member_payload "alice" "G1" "admin").
Definition org_app1 : app := (org_serve RAddUserToGroup promote org_app).1.

Definition quota_request : service_request := at_path "root" {[ "id" := "P1"; "userId" := "alice" ]}
  {[ "gpu_limit" := VInt 2; "cpu_limit" := VInt 8; "memory_limit_gb" := VInt 32 ]}.
Definition delete_request : service_request := at_path "root" {[ "id" := "P1" ]} ∅.
Definition bind_request : service_request := of_service {[ "project_id" := "P2" ]} {[ "plan_id" := VString "gold" ]}.
Definition clear_request : service_request := of_service {[ "plan_id" := "gold" ]} ∅.

(** ** The theorems at work *)

Lemma filed_org_app : filed (app_Store org_app).
Proof. unfold org_app, org_rows, org_users. cbn [app_Store foldl List.app]. unfold org_row. do 6 apply filed_Create. intros res id rc. discriminate. Qed.

(** Nothing is filed yet. *)
Lemma pairs_nothing {V} res keys1 keys2 (vrow : V -> object -> Prop) s : bucket s res = ∅ -> pairs res keys1 keys2 vrow s ∅.
Proof.
  intros Hb. assert (forall id, Get s res id = None) as Hg by (intros id; unfold Get; by rewrite Hb). split; [|intros id rc; by rewrite Hg].
  by apply table_empty.
Qed.

Lemma org_app_roster : roster (app_Store org_app) ∅.
Proof. apply pairs_nothing. vm_compute. reflexivity. Qed.

Lemma plain_demo l : bool_decide (Forall (fun t => TrimSpace t = t /\ (colon ∉ bytes_of t)) l) = true -> Forall plain l.
Proof. intros Hl%bool_decide_eq_true. eapply Forall_impl; [exact Hl|]. intros t [Ht Hc]. split; [by apply Trimmed_of_fix|exact Hc]. Qed.

Lemma pkey_demo k : bool_decide ((colon ∉ bytes_of k.1) /\ (colon ∉ bytes_of k.2)) = true -> pkey_wf k.
Proof. intros [? ?]%bool_decide_eq_true. by split. Qed.

(** Alice, not yet a member, tries to add herself. *)
Lemma org_writes_entitled_witness :
  same_owned (app_Store org_app) (app_Store (org_serve RAddUserToGroup (post "alice" (member_payload "alice" "G1" "admin")) org_app).1) /\
  Get (app_Store (org_serve (RGeneric GResolveAddMembers) (post "alice" ∅) org_app).1) groupsResource "G1" = Get (app_Store org_app) groupsResource "G1".
Proof.
  split; [apply (@org_writes_entitled auth_lib nat org_config); vm_compute; reflexivity|].
  apply (proj2 (@org_writes_entitled auth_lib nat org_config (RGeneric GResolveAddMembers) (post "alice" ∅) org_app)); [reflexivity|discriminate|discriminate].
Defined.

Lemma memberships_refined_witness : exists M', roster (app_Store org_app1) M' /\ rtc (mstep true "root") ∅ M'.
Proof.
  apply (@memberships_refined auth_lib nat org_config RAddUserToGroup promote org_app ∅ eq_refl org_app_roster). apply plain_demo. vm_compute. reflexivity.
Defined.

(** As an administrator of the group alice tries to add bob, whose account is disabled. *)
Definition add_bob : service_request := post "alice" (member_payload "bob" "G1" "user").
Definition org_app2 : app := (org_serve RAddUserToGroup add_bob org_app1).1.

Lemma admins_made_by_panel_witness : group_role (app_Store org_app1) "alice" "G1" = Some "admin".
Proof.
  destruct (@refines auth_lib nat org_config RAddUserToGroup promote org_app ∅ eq_refl org_app_roster) as (M & HM & _); [apply plain_demo; vm_compute; reflexivity|].
  apply (@admins_made_by_panel auth_lib nat org_config org_app1 org_app2 M "alice" "G1" HM).
  - apply (@run_request auth_lib nat org_config org_app1 RAddUserToGroup add_bob); [reflexivity|apply plain_demo; vm_compute; reflexivity|vm_compute; reflexivity|constructor].
  - apply pkey_demo. vm_compute. reflexivity.
  - vm_compute. reflexivity.
Defined.

Definition simulation : record := default (Record_ "" ∅ 0 0 0) (Get (app_Store org_app1) projectsResource "P1").

Lemma project_role_resolved_witness :
  exists M, roster (app_Store org_app1) M /\
    (@projectRoleForUser auth_lib nat org_config promote (rec_Data simulation) "alice" org_app1).2 =
    Ok (role_spec (@panel auth_lib nat org_config promote org_app1 "alice") "" "G1" "P1" M ∅ "alice").
Proof.
  destruct (@refines auth_lib nat org_config RAddUserToGroup promote org_app ∅ eq_refl org_app_roster) as (M & HM & _); [apply plain_demo; vm_compute; reflexivity|].
  exists M. split; [exact HM|]. apply (@project_role_resolved auth_lib nat org_config promote org_app1 (rec_Data simulation) "alice" M ∅ HM).
  - apply pairs_nothing. vm_compute. reflexivity.
  - apply pkey_demo. vm_compute. reflexivity.
  - apply pkey_demo. vm_compute. reflexivity.
Defined.

Lemma submit_access_agrees_witness :
  exists role, (@projectRoleForUser auth_lib nat org_config promote (pr_Data (projectRecordFromStore simulation)) "alice" org_app1).2 = Ok role /\
    (requireAdmissionProjectAccess (H0 := storeAdmissionReader (app_Store org_app1)) simulation "alice" = Ok tt <-> canReadProject role = true).
Proof.
  destruct (@refines auth_lib nat org_config RAddUserToGroup promote org_app ∅ eq_refl org_app_roster) as (M & HM & _); [apply plain_demo; vm_compute; reflexivity|].
  apply (@submit_access_agrees auth_lib nat org_config promote org_app1 simulation "G1" "alice" M ∅ HM).
  - apply pairs_nothing. vm_compute. reflexivity.
  - assert (map_Forall (fun _ rc => TextValue (rec_Data rc) ["user_id"] ≠ "" /\ TextValue (rec_Data rc) ["group_id"] ≠ "") (bucket (app_Store org_app1) userGroupsResource)) as Hs
      by (apply (bool_decide_unpack _); vm_compute; exact I).
    intros id rc Hg. exact (Hs id rc Hg).
  - split_and!; try (vm_compute; reflexivity); try (vm_compute; discriminate); apply Trimmed_of_fix; vm_compute; reflexivity.
  - apply pkey_demo. vm_compute. reflexivity.
  - apply pkey_demo. vm_compute. reflexivity.
  - discriminate.
  - vm_compute. reflexivity.
Defined.

Lemma answered_run h a status : match serve h a with (_, Some (st, _)) => Z.eqb st status | _ => false end = true -> answered h a status.
Proof. unfold answered. destruct (serve h a) as [a' [[st b]|]]; [|done]. intros ->%Z.eqb_eq. eauto. Qed.

Lemma quota_enforced_witness : exists q,
  admissionUserQuota (H0 := storeAdmissionReader (app_Store (org_serve RUpsertProjectMemberQuota quota_request org_app).1)) "P1" "alice" = Some q /\
  (user_gpu_limit q, user_cpu_limit q, user_memory_limit q) = (f64_of_int 2, f64_of_int 8, f64_of_int 32).
Proof.
  destruct (@quota_enforced auth_lib nat org_config quota_request org_app ∅) as (payload & q & Hb & Hq & Hl & _).
  - apply pairs_nothing. vm_compute. reflexivity.
  - apply pkey_demo. vm_compute. reflexivity.
  - apply answered_run. vm_compute. reflexivity.
  - exists q. split; [exact Hq|]. rewrite Hl. injection Hb as <-. vm_compute. reflexivity.
Defined.

Lemma project_deleted_completely_witness :
  Get (app_Store (org_serve RDeleteProject delete_request org_app).1) projectsResource "P1" = None.
Proof.
  destruct (@project_deleted_completely auth_lib nat org_config delete_request org_app simulation) as (_ & Hp & _).
  - vm_compute. reflexivity.
  - intros n. split; discriminate.
  - vm_compute. reflexivity.
  - discriminate.
  - repeat apply Forall_cons_2; [..|constructor]; intros id rc; apply filed_org_app.
  - exact (Hp "P1").
Defined.

Lemma plan_cleared_witness :
  bucket (app_Store (org_serve RClearProjectsPlan clear_request org_app).1) groupsResource = bucket (app_Store org_app) groupsResource.
Proof.
  destruct (@plan_cleared auth_lib nat org_config clear_request org_app) as [_ Hb].
  - intros id rc. apply filed_org_app.
  - apply answered_run. vm_compute. reflexivity.
  - apply Hb; [apply (bool_decide_unpack _); vm_compute; exact I|discriminate].
Defined.

Lemma plan_bound_witness : exists new, Get (app_Store (org_serve RBindProjectPlan bind_request org_app).1) projectsResource "P2" = Some new.
Proof.
  destruct (@plan_bound auth_lib nat org_config bind_request org_app) as (_ & new & _ & Hn & _); [apply answered_run; vm_compute; reflexivity|]. exists new. exact Hn.
Defined.

(** The second page, of one row. *)
Definition second_page : service_request := org_request "root" ∅ ∅ {[ "page" := "2"; "limit" := "1" ]} ∅.
Lemma page_exact_witness : pagedRows second_page [∅; {[ "id" := VInt 2 ]}; ∅] =
  Some {[ "list" := VMaps [{[ "id" := VInt 2 ]}]; "total" := VInt 3; "page" := VInt 2; "page_size" := VInt 1 ]}.
Proof. apply (page_exact second_page); vm_compute; reflexivity. Defined.

(** ** Behaviours to know of *)

(** The product of a large page size wraps around, and the request ends in a panic. *)
Definition huge_page : service_request := org_request "root" ∅ ∅ {[ "page" := "2"; "limit" := "9223372036854775807" ]} ∅.
Example huge_page_panics : (org_serve RListGroups huge_page org_app).2 = None.
Proof. vm_compute. reflexivity. Qed.

(** Clearing [plan_id] through the project's own route leaves its second spelling bound. *)
Definition unbind_request : service_request := at_path "root" {[ "id" := "P1" ]} {[ "plan_id" := VString "" ]}.
Example unbinding_leaves_plan :
  let out := org_serve RUpdateProject unbind_request org_app in
  status_of out = 200 /\ project_plan_id <$> Get (app_Store out.1) projectsResource "P1" = Some "gold".
Proof. vm_compute. split; reflexivity. Qed.

(** A member named by username is accepted and has no role. *)
Example member_by_username_has_no_role :
  let out := org_serve RAddUserToGroup (post "root" (member_payload "Alice" "G1" "admin")) org_app in
  status_of out = 200 /\ group_role (app_Store out.1) "Alice" "G1" = Some "admin" /\ group_role (app_Store out.1) "alice" "G1" = None.
Proof. vm_compute. split_and!; reflexivity. Qed.

(** A deleted group still owns its projects. *)
Example deleted_group_owns_projects :
  let out := org_serve RDeleteGroup (at_path "root" {[ "id" := "G1" ]} ∅) org_app in
  status_of out = 200 /\ (fun rc => TextValue (rec_Data rc) ["owner_id"]) <$> Get (app_Store out.1) projectsResource "P1" = Some "G1".
Proof. vm_compute. split; reflexivity. Qed.

(** With scoped identities and no shared key the scheduler's requests are not found. *)
Definition scoped_config : config nat := @ConfigFromEnv nat demo_env_lib {[ "SERVICE_NAME" := "org-project-service" ]}.
Example no_key_not_found : status_of (serve (@dispatch auth_lib nat scoped_config RBindProjectPlan bind_request) org_app) = 404.
Proof. vm_compute. reflexivity. Qed.

(** The table has a route PATCH /api/v1/user-groups/{id} without a handler: the generic one
    stores the record whoever asks.  Alice, who belongs to no group, makes herself an
    administrator of one, and any user removes a membership the same way. *)
Definition climb_request : service_request := org_request "alice" {[ "X-Trace-ID" := "t"; "Idempotency-Key" := "k" ]} {[ "id" := "alice:G1" ]} ∅ (member_payload "alice" "G1" "admin").
Definition expel_request : service_request := org_request "bob" {[ "X-Trace-ID" := "t"; "Idempotency-Key" := "k" ]} {[ "id" := "alice:G1" ]} ∅ ∅.
Example generic_patch_makes_admin :
  let out := org_serve (RGeneric GPatchUserGroup) climb_request org_app in
  status_of out = 200 /\ group_role (app_Store org_app) "alice" "G1" = None /\ group_role (app_Store out.1) "alice" "G1" = Some "admin" /\
  group_role (app_Store (org_serve (RGeneric GDeleteUserGroup) expel_request org_app1).1) "alice" "G1" = None.
Proof. vm_compute. split_and!; reflexivity. Qed.

(** The same route stores a role of any name: the scheduler takes the membership for access
    to the projects of the group, the organisation service gives no role for it. *)
Definition guest_request : service_request := org_request "alice" {[ "X-Trace-ID" := "t"; "Idempotency-Key" := "k" ]} {[ "id" := "alice:G1" ]} ∅ (member_payload "alice" "G1" "guest").
Definition guest_app : app := (org_serve (RGeneric GPatchUserGroup) guest_request org_app).1.
Example guest_role_divides :
  requireAdmissionProjectAccess (H0 := storeAdmissionReader (app_Store guest_app)) simulation "alice" = Ok tt /\
  match (@projectRoleForUser auth_lib nat org_config promote (pr_Data (projectRecordFromStore simulation)) "alice" guest_app).2 with
  | Ok role => canReadProject role = false
  | Err _ => False
  end.
Proof. vm_compute. split; reflexivity. Qed.

(** A disabled user cannot join a group but can be made a direct member of a project. *)
Definition join_request : service_request := at_path "root" {[ "id" := "P1" ]} {[ "members" := VList [VMap {[ "user_id" := VString "bob"; "role" := VString "user" ]}] ]}.
Example disabled_user_joins :
  status_of (org_serve RAddUserToGroup add_bob org_app1) = 400 /\
  (fun m => TextValue (pr_Data m) ["role"]) <$> FindDirectProjectMember (app_Store (org_serve RAddProjectMembers join_request org_app).1) "P1" "bob" = Some "user".
Proof. vm_compute. split; reflexivity. Qed.
