(* ===== verification/IdentityRepository.v ===== *)
(** * Identity service: requests, values, state and repositories
    (internal/services/identity: handler.go, helpers.go, users.go, principal_repository.go,
    auth_repository.go; platform/secrets.go)

    The identity service keeps the users of the platform and their credentials: passwords,
    sessions with refresh tokens, API tokens, and the failed logins that lock an account.
    Its handlers work on the record store and the event bus, on the denylist of revoked
    credentials, and on an LDAP directory that mirrors the users.  Users,
    roles and credentials are records of the store, which is always there; a conflict is the
    only error of creating one. *)

From stdpp Require Import base gmap strings list fin_maps.
From Stdlib Require Import ZArith Lia Ascii.
From S2P Require Import Prelude GoValue Store EventBus Crud Tx RateLimit InputLimits Config Auth SchedulerHttp ServiceHttp.
Local Open Scope Z_scope.
Local Open Scope go_scope.

Definition serviceName : string := "identity-service".
Definition rolesResource : string := serviceName +:+ ":roles".
Definition refreshTokensResource : string := serviceName +:+ ":refresh_tokens".
Definition captchasResource : string := serviceName +:+ ":captchas".
Definition loginFailuresResource : string := serviceName +:+ ":login_failures".

Definition defaultRoleID : string := "RO2600004".
Definition defaultLoginMaxFailed : Z := 5.
Definition defaultLoginLockout : Z := 15 * time_Minute.
Definition defaultAPITokenTTL : Z := 90 * 24 * time_Hour.
Definition defaultAPITokenMax : Z := 20.

Definition pathLogin : string := "/api/v1/login".
Definition pathCLILogin : string := "/api/v1/cli/login".

Definition msgInvalidInput : string := "invalid input".
Definition msgInvalidInputTitle : string := "Invalid input".
Definition msgInvalidCredentials : string := "Invalid credentials".
Definition msgAuthenticationRequired : string := "authentication required".
Definition msgAdminOnly : string := "admin access required".
Definition msgUserNotFound : string := "user not found".
Definition msgInvalidCaptcha : string := "Invalid captcha".
Definition msgCaptchaRequired : string := "Captcha required".
Definition reasonInvalidCaptcha : string := "invalid_captcha".
Definition reasonInvalidCredentials : string := "invalid_credentials".
Definition reasonLocked : string := "locked".
Definition reasonCaptchaRequired : string := "captcha_required".

(** ** Requests and answers *)

(** A request with everything drawn at random while it is served.  [sq_body] of the
    service request is the outcome of decodePayload. *)
Record identity_request := IdentityRequest {
  iq_service : service_request;
  iq_form : string;                     (* r.FormValue("refresh_token") *)
  iq_post : string;                     (* r.PostFormValue("token"), empty when the form does not parse *)
  iq_fields : gmap string string;       (* oidcFields *)
  iq_TLS : bool;                        (* r.TLS != nil *)
  iq_hex : nat -> string;               (* randomHex, in the order drawn *)
  iq_salt : nat -> option string;       (* the salts of HashSecret; None when the source of randomness fails *)
  iq_captcha : string * string          (* the answer of a new captcha and its picture *)
}.
Definition iq_now (r : identity_request) : Z := sq_now (iq_service r).
Definition iq_header (r : identity_request) (name : string) : string := sq_header (iq_service r) name.
Definition pathValue (r : identity_request) (name : string) : string := TrimSpace (PathValue (iq_service r) name).

Record cookie := Cookie { ck_Name : string; ck_Value : string; ck_Expires : option Z; ck_MaxAge : Z; ck_Secure : bool }.
Record reply := Reply { rp_Status : Z; rp_Data : body; rp_Cookies : list cookie }.

(** ** The directory *)

Record ldapUpsertResult := UpsertResult {
  lu_Username : string; lu_DN : string; lu_Created : bool; lu_Previous : gmap string (list string); lu_ModifiedAttrs : list string }.

(** ldapDirectory: a call that fails answers [None] or [false]. *)
Class ldapDirectory (D : Type) := {
  Authenticate : D -> string -> string -> option string;                        (* username, password: the name in the directory *)
  UpsertUser : D -> object -> string -> bool -> D * option ldapUpsertResult;    (* user, password, keep an existing password *)
  RestoreUpsert : D -> ldapUpsertResult -> D;
  Directory_DeleteUser : D -> object -> D * bool;
  RestoreDeletedUser : D -> object -> D;
  ListUsernames : D -> option (gset string)
}.

(** ** The state, and computations on it *)

Record identity_state (D : Type) := IdentityState { is_app : app; is_Revocations : revocations; is_dir : D }.
Arguments IdentityState {D}.
Arguments is_app {D}.
Arguments is_Revocations {D}.
Arguments is_dir {D}.

Inductive stop := Replies (rp : reply) | Crashes.

Section Computations.
Context {D : Type}.

Definition idm (A : Type) : Type := stm (identity_state D) stop A.

Definition is_store (st : identity_state D) : store := app_Store (is_app st).
Definition with_app (st : identity_state D) (a : app) : identity_state D := IdentityState a (is_Revocations st) (is_dir st).
Definition with_store (st : identity_state D) (s : store) : identity_state D := with_app st (App_ s (app_Events (is_app st))).

Definition reject {A} (status : Z) (text : string) : idm A := stm_fail (Replies (Reply status (message text) [])).
Definition demand (b : bool) (status : Z) (text : string) : idm unit := if b then stm_ret tt else reject status text.
Definition crash {A} : idm A := stm_fail Crashes.
Definition asks {A} (f : store -> A) : idm A := fun st => (st, Ok (f (is_store st))).
Definition changes {A} (f : store -> store * A) : idm A := fun st => let '(s, x) := f (is_store st) in (with_store st s, Ok x).
Definition on_app {A} (f : app -> app * A) : idm A := fun st => let '(a, x) := f (is_app st) in (with_app st a, Ok x).
Definition on_dir {A} (f : D -> D * A) : idm A := fun st => let '(d, x) := f (is_dir st) in (IdentityState (is_app st) (is_Revocations st) d, Ok x).
Definition on_revocations {A} (f : revocations -> revocations * A) : idm A := fun st =>
  let '(rv, x) := f (is_Revocations st) in (IdentityState (is_app st) rv (is_dir st), Ok x).

(** The answer to the caller within the service, and to the client: a panic gives none. *)
Definition replying (h : idm reply) : idm reply := fun st => match h st with (st', Err (Replies rp)) => (st', Ok rp) | x => x end.
Definition run (h : idm reply) (st : identity_state D) : identity_state D * option reply :=
  match replying h st with (st', Ok rp) => (st', Some rp) | (st', Err _) => (st', None) end.

Definition say (status : Z) (data : body) : idm reply := stm_ret (Reply status data []).

Definition decode (r : identity_request) (text : string) : idm object :=
  match sq_body (iq_service r) with Ok payload => stm_ret payload | Err _ => reject StatusBadRequest text end.

End Computations.

(** ** Values *)

Section Values.
Context `{GoLib}.

Definition textValue (data : object) (key : string) : string :=
  match mget data key with
  | VString s | VNumber s | VTime _ s => s
  | VFloat64 f => sprintf "%.0f" [VFloat64 f]
  | VInt z => sprintf "%d" [VInt z]
  | _ => ""
  end.

Definition intValue (data : object) (key : string) (fallback : Z) : Z :=
  match mget data key with
  | VInt z | VInt64 z => z
  | VFloat64 f => f64_to_int f
  | VNumber s => default fallback (parse_int64 s)
  | VString s =>
      let s := TrimSpace s in
      if String.eqb s "0" then 0 else if String.eqb s "1" then 1 else if String.eqb s "2" then 2 else fallback
  | _ => fallback
  end.

Definition boolValue (data : object) (key : string) : bool :=
  match mget data key with
  | VBool b => b
  | VString s => EqualFold s "true"
  | _ => false
  end.

Definition expiredAt (data : object) (now : Z) : bool :=
  let expiresAt := textValue data "expires_at" in
  if str_empty expiresAt then false
  else match parse_rfc3339 expiresAt with Some parsed => parsed <? now | None => true end.

Definition roleName (systemRole : Z) : string := if systemRole =? 0 then "admin" else if systemRole =? 1 then "manager" else "user".

Definition systemRoleFor (role : string) (fallback : Z) : Z :=
  let role := ToLower (TrimSpace role) in
  if String.eqb role "admin" then 0 else if String.eqb role "manager" then 1 else if String.eqb role "user" then 2 else fallback.

Definition permissionsForRole (role : string) (systemRole : Z) : list string :=
  if (systemRole =? 0) || EqualFold role "admin" then ["adminPanel"]
  else if (systemRole =? 1) || EqualFold role "manager" then ["projectManage"]
  else ["selfManage"].

Definition activeUser (user : object) : bool :=
  let status := ToLower (textValue user "status") in
  str_empty status || String.eqb status "online" || String.eqb status "offline".

Definition isAdminUser (user : object) : bool :=
  if (intValue user "system_role" 2 =? 0) || EqualFold (textValue user "role") "admin" then true
  else BoolValue (MapValue user ["capabilities"; "Capabilities"]) ["admin_panel"; "adminPanel"; "AdminPanel"].

Definition publicUser (user : object) : object :=
  let systemRole := intValue user "system_role" 2 in
  let role := FirstNonEmpty [textValue user "role"; roleName systemRole] in
  list_to_map [("id", VString (textValue user "id")); ("username", VString (textValue user "username"));
    ("name", VString (FirstNonEmpty [textValue user "name"; textValue user "full_name"; textValue user "username"]));
    ("full_name", VString (textValue user "full_name")); ("email", VString (textValue user "email"));
    ("role", VString role); ("role_id", VString (FirstNonEmpty [textValue user "role_id"; defaultRoleID]));
    ("system_role", VInt systemRole); ("permissions", VStrings (permissionsForRole role systemRole))].

(** The event of the [k]th item of a request. *)
Definition identityEvent (r : identity_request) (k : nat) (name : string) (data : object) : event :=
  Event_ (sq_uuid (iq_service r) (2 * k)) name serviceName (iq_now r)
    (FirstNonEmpty [iq_header r "X-Trace-ID"; sq_uuid (iq_service r) (2 * k + 1)]) 1 (iq_header r "Idempotency-Key") data.

(** An event that cannot be published is logged. *)
Definition publish {D} (r : identity_request) (k : nat) (name : string) (data : object) : idm (D := D) unit :=
  on_app (fun a => (default a (publish_event a (identityEvent r k name data)), tt)).

End Values.

(** [strings.ToUpper] on ASCII. *)
Definition upper_ascii (c : ascii) : ascii :=
  let n := nat_of_ascii c in if (97 <=? n)%nat && (n <=? 122)%nat then ascii_of_nat (n - 32) else c.
Definition ToUpper (s : string) : string := of_bytes (map upper_ascii (bytes_of s)).

(** ** Secrets *)

Class SecretLib := { hex_EncodeToString : string -> string }.

Section Secrets.
Context `{GoLib} `{AuthLib} `{SecretLib}.

Definition secretIterations : Z := 210000.

Definition HashSecret (salt : option string) (secret : string) : string :=
  match (s ← salt; d ← pbkdf2_key secret s secretIterations 32; Some (s, d)) with
  | Some (s, derived) => secretHashPrefix +:+ ":210000:" +:+ hex_EncodeToString s +:+ ":" +:+ hex_EncodeToString derived
  | None => legacySHA256Prefix +:+ sha256_hex secret
  end.

Definition passwordMatches (user : object) (password : string) : bool :=
  if VerifySecret (textValue user "password_hash") password then true
  else negb (str_empty (textValue user "password")) && VerifySecret ("plain:" +:+ textValue user "password") password.

End Secrets.

(** ** The repositories *)

Section Repository.
Context `{GoLib}.

(** ** Users and roles *)

Definition cloneIdentityRecord (rc : record) : record :=
  let data := match mget (rec_Data rc) "id" with
              | VNil => if str_empty (rec_ID rc) then rec_Data rc else <["id" := VString (rec_ID rc)]> (rec_Data rc)
              | _ => rec_Data rc
              end in
  Record_ (rec_ID rc) data 0 (rec_CreatedAt rc) (rec_UpdatedAt rc).

Definition next_id (s : store) (resource prefix : string) : store * string :=
  match NextID s resource prefix 2600001 0 with Some (id, s') => (s', id) | None => (s, EmptyString) end.
Definition NextUserID (s : store) : store * string := next_id s usersResource "US".

Definition ListUsers (s : store) : list record := map cloneIdentityRecord (List_ s usersResource).

Definition GetUser (s : store) (id : string) : option record :=
  if str_empty (TrimSpace id) then None else cloneIdentityRecord <$> Get s usersResource id.

Definition FindUserByUsername (s : store) (username0 : string) : option record :=
  let username := TrimSpace username0 in
  if str_empty username then None
  else cloneIdentityRecord <$> List.find (fun rc => EqualFold (textValue (rec_Data rc) "username") username) (List_ s usersResource).

Definition FindUserByIdentifier (s : store) (identifier0 : string) : option record :=
  let identifier := TrimSpace identifier0 in
  if str_empty identifier then None
  else match GetUser s identifier with
       | Some user => Some user
       | None => cloneIdentityRecord <$> List.find (fun rc => String.eqb (textValue (rec_Data rc) "username") identifier
                                                              || String.eqb (textValue (rec_Data rc) "email") identifier) (List_ s usersResource)
       end.

Definition CreateUser (s : store) (user : object) (newID : string) (now : Z) : store * result create_conflict record :=
  let '(s', created) := Create s usersResource user newID now in (s', rc <-? created ;; Ok (cloneIdentityRecord rc)).
Definition CreateUserWithEvent (a : app) (user : object) (build : record -> event) (newID : string) (now : Z) : app * result store_error record :=
  let '(a', created) := CreateRecordWithEvent a usersResource user (Some build) newID now in (a', rc <-? created ;; Ok (cloneIdentityRecord rc)).

Definition UpdateUser (s : store) (id : string) (update : object) (now : Z) : store * option record :=
  if str_empty (TrimSpace id) then (s, None)
  else let '(s', updated) := Update s usersResource id update now in (s', cloneIdentityRecord <$> updated).
Definition UpdateUserTx {E} (id : string) (update : object) (now : Z) : tx_fn E (option record) :=
  if str_empty (TrimSpace id) then stm_ret None
  else updated <-- tx_Update usersResource id update now ;; stm_ret (cloneIdentityRecord <$> updated).

Definition DeleteUser (s : store) (id : string) : store * bool :=
  if str_empty (TrimSpace id) then (s, false) else Delete s usersResource id.
Definition DeleteUserTx {E} (id : string) : tx_fn E bool :=
  if str_empty (TrimSpace id) then stm_ret false else tx_Delete usersResource id.

Definition SetUserStatus (s : store) (id status : string) (now : Z) : store * bool :=
  let '(s', updated) := UpdateUser s id {[ "status" := VString status ]} now in (s', bool_decide (is_Some updated)).

Definition GetUserSettings (s : store) (id : string) : option object :=
  (fun rc => MapValue (rec_Data rc) ["settings"]) <$> GetUser s id.

Definition UpdateUserSettings (s : store) (id : string) (settings : object) (now : Z) : store * option object :=
  let '(s', updated) := UpdateUser s id {[ "settings" := VMap settings; "updated_at" := VString (format_rfc3339 now) ]} now in
  (s', (fun rc => MapValue (rec_Data rc) ["settings"]) <$> updated).

Definition ListRoles (s : store) : list record := map cloneIdentityRecord (List_ s rolesResource).
Definition GetRole (s : store) (id : string) : option record :=
  if str_empty (TrimSpace id) then None else cloneIdentityRecord <$> Get s rolesResource id.

(** ** Active users *)

Record identityUser := IdentityUser { iu_ID : string; iu_Username : string; iu_Status : string; iu_Data : object }.

Definition userFromRecord (rc : record) : option identityUser :=
  let data := rec_Data rc in
  if negb (activeUser data) then None
  else Some (IdentityUser (FirstNonEmpty [rec_ID rc; textValue data "id"]) (textValue data "username") (textValue data "status") data).

Definition FindActiveUserByID (s : store) (id : string) : option identityUser := rc ← GetUser s id; userFromRecord rc.
Definition FindActiveUserByUsername (s : store) (username : string) : option identityUser := rc ← FindUserByUsername s username; userFromRecord rc.

(** ** Sessions and refresh tokens *)

Record identitySession := IdentitySession { se_Token : string; se_UserID : string; se_ExpiresAt : string; se_Data : object }.
Definition sessionFromRecord (rc : record) : identitySession :=
  let data := rec_Data rc in
  IdentitySession (FirstNonEmpty [rec_ID rc; textValue data "id"; textValue data "token"]) (textValue data "user_id") (textValue data "expires_at") data.
Definition refreshTokenFromRecord (rc : record) : identitySession := sessionFromRecord rc.

Definition credential_row (token userID : string) (now ttl : Z) : object :=
  {[ "id" := VString token; "token" := VString token; "user_id" := VString userID;
     "created_at" := VString (format_rfc3339 now); "expires_at" := VString (format_rfc3339 (now + ttl)) ]}.
Definition createSession (s : store) (token userID newID : string) (now ttl : Z) : store * result create_conflict record :=
  Create s sessionsResource (<["revoked" := VBool false]> (credential_row token userID now ttl)) newID now.
Definition createRefreshToken (s : store) (token userID newID : string) (now ttl : Z) : store * result create_conflict record :=
  Create s refreshTokensResource (credential_row token userID now ttl) newID now.

Record identitySessionPair := SessionPair { sp_AccessToken : string; sp_RefreshToken : string; sp_UserID : string }.

(** At most three attempts; a conflict of the second record takes the first one back. *)
Fixpoint issue_attempts (attempts : list nat) (r : identity_request) (userID : string) (accessTTL refreshTTL : Z) (s : store)
    : store * option identitySessionPair :=
  match attempts with
  | [] => (s, None)
  | i :: attempts =>
      let access := "access." +:+ userID +:+ "." +:+ iq_hex r (2 * i) in
      let refresh := "refresh." +:+ iq_hex r (2 * i + 1) in
      match createSession s access userID (sq_newid (iq_service r) (2 * i)) (iq_now r) accessTTL with
      | (s1, Err _) => issue_attempts attempts r userID accessTTL refreshTTL s1
      | (s1, Ok _) =>
          match createRefreshToken s1 refresh userID (sq_newid (iq_service r) (2 * i + 1)) (iq_now r) refreshTTL with
          | (s2, Err _) => issue_attempts attempts r userID accessTTL refreshTTL (Delete s2 sessionsResource access).1
          | (s2, Ok _) => (s2, Some (SessionPair access refresh userID))
          end
      end
  end.
Definition IssueSessionPair (r : identity_request) (userID : string) (accessTTL refreshTTL : Z) (s : store) : store * option identitySessionPair :=
  issue_attempts [0; 1; 2]%nat r userID accessTTL refreshTTL s.

Definition ConsumeRefreshToken (s : store) (token : string) (now : Z) : store * option identitySession :=
  match Get s refreshTokensResource token with
  | None => (s, None)
  | Some rc =>
      if expiredAt (rec_Data rc) now then (s, None)
      else let '(s', deleted) := Delete s refreshTokensResource token in
           (s', if deleted then Some (refreshTokenFromRecord rc) else None)
  end.

Definition FindValidSession (s : store) (token : string) (now : Z) : option identitySession :=
  match Get s sessionsResource token with
  | None => None
  | Some rc => if expiredAt (rec_Data rc) now || boolValue (rec_Data rc) "revoked" then None else Some (sessionFromRecord rc)
  end.

Definition RevokeSession (s : store) (token : string) : store * option identitySession :=
  match Get s sessionsResource token with
  | None => (s, None)
  | Some rc => let '(s', deleted) := Delete s sessionsResource token in (s', if deleted then Some (sessionFromRecord rc) else None)
  end.

Definition DeleteRefreshToken (s : store) (token : string) : store * bool := Delete s refreshTokensResource token.

(** ** API tokens *)

Record identityAPIToken := APIToken {
  at_ID : string; at_UserID : string; at_Name : string; at_TokenHash : string; at_TokenPrefix : string; at_ExpiresAt : string;
  at_CreatedAt : string; at_LastUsedAt : string; at_RevokedAt : string; at_Revoked : bool; at_Data : object }.

Definition apiTokenFromRecord (rc : record) : identityAPIToken :=
  let data := rec_Data rc in
  APIToken (FirstNonEmpty [rec_ID rc; textValue data "id"]) (textValue data "user_id") (textValue data "name") (textValue data "token_hash")
    (textValue data "token_prefix") (textValue data "expires_at") (textValue data "created_at") (textValue data "last_used_at")
    (textValue data "revoked_at") (boolValue data "revoked" || negb (str_empty (textValue data "revoked_at"))) data.

Definition tokenActiveAt (token : identityAPIToken) (now : Z) : bool := negb (at_Revoked token) && negb (expiredAt (at_Data token) now).

Definition Metadata (t : identityAPIToken) : object :=
  let out : object := {[ "id" := VString (at_ID t); "name" := VString (at_Name t); "token_prefix" := VString (at_TokenPrefix t);
                         "expires_at" := VString (at_ExpiresAt t); "created_at" := VString (at_CreatedAt t) ]} in
  if str_empty (at_LastUsedAt t) then out else <["last_used_at" := VString (at_LastUsedAt t)]> out.

Definition ListActiveAPITokens (s : store) (userID : string) (now : Z) : list identityAPIToken :=
  List.filter (fun token => String.eqb (at_UserID token) userID && tokenActiveAt token now) (map apiTokenFromRecord (List_ s apiTokensResource)).
Definition CountActiveAPITokens (s : store) (userID : string) (now : Z) : Z := Z.of_nat (length (ListActiveAPITokens s userID now)).

Definition tokenPrefix (token : string) : string := of_bytes (take 12 (bytes_of token)).

Definition TouchAPITokenLastUsed (s : store) (tokenID : string) (now : Z) : store * bool :=
  let '(s', updated) := Update s apiTokensResource tokenID {[ "last_used_at" := VString (format_rfc3339 now) ]} now in (s', bool_decide (is_Some updated)).

Definition RevokeAPIToken (s : store) (userID tokenID : string) (now : Z) : store * option identityAPIToken :=
  if str_empty tokenID then (s, None)
  else match Get s apiTokensResource tokenID with
       | None => (s, None)
       | Some rc =>
           let token := apiTokenFromRecord rc in
           if negb (String.eqb (at_UserID token) userID) || at_Revoked token then (s, None)
           else
             let '(s', updated) := Update s apiTokensResource tokenID {[ "revoked" := VBool true; "revoked_at" := VString (format_rfc3339 now) ]} now in
             (s', apiTokenFromRecord <$> updated)
       end.

Fixpoint revoke_all (tokens : list identityAPIToken) (userID : string) (now : Z) (s : store) : store * list identityAPIToken :=
  match tokens with
  | [] => (s, [])
  | token :: tokens =>
      if negb (String.eqb (at_UserID token) userID) || at_Revoked token then revoke_all tokens userID now s
      else
        let '(s1, updated) := RevokeAPIToken s userID (at_ID token) now in
        let '(s2, revoked) := revoke_all tokens userID now s1 in
        (s2, match updated with Some t => t :: revoked | None => revoked end)
  end.
Definition RevokeAPITokensForUser (s : store) (userID : string) (now : Z) : store * list identityAPIToken :=
  revoke_all (map apiTokenFromRecord (List_ s apiTokensResource)) userID now s.

(** ** Cleaning up *)

Fixpoint cleanup_records (resource : string) (records : list record) (shouldRemove : object -> bool) (s : store) (removed : Z) : store * Z :=
  match records with
  | [] => (s, removed)
  | rc :: records =>
      if shouldRemove (rec_Data rc)
      then let '(s', deleted) := Delete s resource (rec_ID rc) in cleanup_records resource records shouldRemove s' (if deleted : bool then removed + 1 else removed)
      else cleanup_records resource records shouldRemove s removed
  end.
Definition cleanupResource (resource : string) (shouldRemove : object -> bool) (s : store) : store * Z :=
  cleanup_records resource (List_ s resource) shouldRemove s 0.

Definition stale_token (now : Z) (data : object) : bool :=
  expiredAt data now || boolValue data "revoked" || negb (str_empty (textValue data "revoked_at")).

Definition CleanupExpiredAuthRecords (s : store) (now : Z) : store * Z :=
  let '(s1, n1) := cleanupResource sessionsResource (fun data => expiredAt data now) s in
  let '(s2, n2) := cleanupResource refreshTokensResource (fun data => expiredAt data now) s1 in
  let '(s3, n3) := cleanupResource apiTokensResource (stale_token now) s2 in
  (s3, n1 + n2 + n3).

(** ** New API tokens *)

Context `{AuthLib} `{SecretLib}.

Definition api_token_row (r : identity_request) (i : nat) (id userID name rawToken : string) (ttl : Z) : object :=
  {[ "id" := VString id; "user_id" := VString userID; "name" := VString name; "token_hash" := VString (HashSecret (iq_salt r i) rawToken);
     "token_prefix" := VString (tokenPrefix rawToken); "expires_at" := VString (format_rfc3339 (iq_now r + ttl));
     "created_at" := VString (format_rfc3339 (iq_now r)); "revoked" := VBool false ]}.

Fixpoint token_attempts (attempts : list nat) (r : identity_request) (userID name : string) (ttl : Z) (s : store)
    : store * option (identityAPIToken * string) :=
  match attempts with
  | [] => (s, None)
  | i :: attempts =>
      let '(s1, drawn) := next_id s apiTokensResource "AT" in
      let id := if (0 <? i)%nat then "AT" +:+ ToUpper (iq_hex r (2 * i)) else drawn in
      let rawToken := FormatUserAPIToken id (iq_hex r (2 * i + 1)) in
      match Create s1 apiTokensResource (api_token_row r i id userID name rawToken ttl) (sq_newid (iq_service r) i) (iq_now r) with
      | (s2, Ok rc) => (s2, Some (apiTokenFromRecord rc, rawToken))
      | (s2, Err _) => token_attempts attempts r userID name ttl s2
      end
  end.
Definition CreateAPIToken (r : identity_request) (userID name : string) (ttl0 : Z) (s : store) : store * option (identityAPIToken * string) :=
  token_attempts [0; 1; 2]%nat r userID name (if ttl0 <=? 0 then defaultAPITokenTTL else ttl0) s.

Definition Response (created : identityAPIToken * string) : object := <["token" := VString created.2]> (Metadata created.1).

Definition FindActiveAPITokenByRaw (s : store) (rawToken : string) (now : Z) : option (identityAPIToken * identityUser) :=
  tokenID ← ParseUserAPITokenID rawToken;
  rc ← Get s apiTokensResource tokenID;
  let token := apiTokenFromRecord rc in
  if negb (tokenActiveAt token now) || negb (VerifySecret (at_TokenHash token) rawToken) then None
  else user ← FindActiveUserByID s (at_UserID token); Some (token, user).

End Repository.
