(* ===== verification/IdentityAuth.v ===== *)
(** * Identity service: logging in and out, captchas and API tokens
    (internal/services/identity: auth.go, captcha.go, api_tokens.go, cleanup.go, the users of
    ldap.go, the callback of oidc.go)

    A password login counts its failures per user and address, asks for a captcha after
    the fifth and locks after the sixth.  A success issues a session with a refresh token,
    which is good for one exchange.  Tokens for the API are made and revoked by their user. *)

From stdpp Require Import base gmap strings list fin_maps.
From Stdlib Require Import ZArith Lia Ascii.
From S2P Require Import Prelude GoValue Store EventBus Crud Tx RateLimit InputLimits Config Auth Guards SchedulerHttp ServiceHttp IdentityRepository.
Local Open Scope Z_scope.
Local Open Scope go_scope.

(** ** Names of tokens *)

(** [utf8.RuneCountInString] of well-formed text: the bytes that begin a rune. *)
Definition rune_start (c : ascii) : bool := let n := nat_of_ascii c in negb ((128 <=? n)%nat && (n <=? 191)%nat).
Definition RuneCount (s : string) : nat := length (List.filter rune_start (bytes_of s)).

(** [strings.ContainsFunc(s, unicode.IsControl)]: the ASCII controls, and U+0080 to U+009F,
    which are two bytes. *)
Fixpoint has_control (l : list ascii) : bool :=
  match l with
  | [] => false
  | c :: l =>
      let n := nat_of_ascii c in
      (n <? 32)%nat || (n =? 127)%nat
      || match l with d :: _ => (n =? 194)%nat && (128 <=? nat_of_ascii d)%nat && (nat_of_ascii d <=? 159)%nat | [] => false end
      || has_control l
  end.

Definition normalizeAPITokenName (name0 : string) : option string :=
  let name := TrimSpace name0 in
  if str_empty name || (100 <? RuneCount name)%nat || has_control (bytes_of name) then None else Some name.

Section Auth.
Context `{GoLib} `{AuthLib} `{SecretLib} {ip : Type} `{NetLib ip} {D : Type} `{ldapDirectory D} (cfg : config ip).
Local Abbreviation idm := (IdentityRepository.idm (D := D)).

(** ** Who asks *)

Definition requestIPForApp (r : identity_request) : string :=
  ClientIPFromRequest (rq_RemoteAddr (sq_http (iq_service r))) (iq_header r "X-Forwarded-For") (cf_TrustedProxyCIDRs cfg).

Definition tokenFromCookie (r : identity_request) (name : string) : string := default "" (rq_Cookie (sq_http (iq_service r)) !! name).
Definition isSecure (r : identity_request) : bool := iq_TLS r || EqualFold (iq_header r "X-Forwarded-Proto") "https".

Definition cookieString (r : identity_request) (name value : string) (ttl maxAge : Z) : cookie :=
  Cookie name value (if 0 <? ttl then Some (iq_now r + ttl) else None) maxAge (isSecure r).
Definition authCookies (r : identity_request) (token refresh : string) : list cookie :=
  [cookieString r "token" token (24 * time_Hour) 0; cookieString r "refresh_token" refresh (7 * 24 * time_Hour) 0].
Definition clearAuthCookies (r : identity_request) : list cookie :=
  [cookieString r "token" "" (- time_Second) (-1); cookieString r "refresh_token" "" (- time_Second) (-1)].

(** The user the platform authenticated, if active. *)
Definition current_user (s : store) (r : identity_request) : option identityUser :=
  let userID := TrimSpace (iq_header r headerUserID) in
  if str_empty userID then None else FindActiveUserByID s userID.
Definition currentUser (r : identity_request) : idm (option identityUser) := asks (fun s => current_user s r).

Definition requireCurrent (r : identity_request) : idm identityUser :=
  user <-- currentUser r ;;
  match user with Some user => stm_ret user | None => reject StatusUnauthorized msgAuthenticationRequired end.

(** ** Failed logins *)

Definition loginFailureID (username ip : string) : string := "LF" +:+ hex_EncodeToString (ToLower (TrimSpace username) +:+ "|" +:+ TrimSpace ip).
Definition failure_id (r : identity_request) (username : string) : string := loginFailureID username (requestIPForApp r).

Definition login_locked (s : store) (r : identity_request) (username : string) : store * bool :=
  match Get s loginFailuresResource (failure_id r username) with
  | None => (s, false)
  | Some rc =>
      let lockedUntil := textValue (rec_Data rc) "locked_until" in
      if str_empty lockedUntil then (s, false)
      else match parse_rfc3339 lockedUntil with
           | None => (s, true)
           | Some parsed => if iq_now r <? parsed then (s, true) else ((Delete s loginFailuresResource (rec_ID rc)).1, false)
           end
  end.
Definition loginLocked (r : identity_request) (username : string) : idm bool := changes (fun s => login_locked s r username).

Definition failure_row (r : identity_request) (username : string) (count : Z) : object :=
  let row : object := {[ "id" := VString (failure_id r username); "username" := VString (ToLower (TrimSpace username)); "ip" := VString (requestIPForApp r);
                         "failures" := VInt count; "updated_at" := VString (format_rfc3339 (iq_now r)) ]} in
  if defaultLoginMaxFailed <? count then <["locked_until" := VString (format_rfc3339 (iq_now r + defaultLoginLockout))]> row else row.

Definition updateConflictingLoginFailure (s : store) (r : identity_request) (username : string) : store :=
  match Get s loginFailuresResource (failure_id r username) with
  | None => s
  | Some current =>
      (Update s loginFailuresResource (failure_id r username) (failure_row r username (intValue (rec_Data current) "failures" 0 + 1)) (iq_now r)).1
  end.

Definition record_failure (s : store) (r : identity_request) (username : string) : store :=
  match Get s loginFailuresResource (failure_id r username) with
  | Some current =>
      (Update s loginFailuresResource (failure_id r username) (failure_row r username (intValue (rec_Data current) "failures" 0 + 1)) (iq_now r)).1
  | None =>
      match Create s loginFailuresResource (failure_row r username 1) (sq_newid (iq_service r) 0) (iq_now r) with
      | (s', Ok _) => s'
      | (s', Err _) => updateConflictingLoginFailure s' r username
      end
  end.
Definition recordLoginFailure (r : identity_request) (username : string) : idm unit := changes (fun s => (record_failure s r username, tt)).

Definition clearLoginFailures (r : identity_request) (username : string) : idm unit :=
  changes (fun s => ((Delete s loginFailuresResource (failure_id r username)).1, tt)).

Definition publishLoginFailure (r : identity_request) (username path reason : string) : idm unit :=
  publish r 0 "AuditEvent" (list_to_map [("user_id", VString "anonymous"); ("username", VString (ToLower (TrimSpace username)));
    ("action", VString "login_failed"); ("resource_type", VString "auth"); ("resource", VString path); ("resource_id", VString path);
    ("success", VBool false); ("reason", VString reason); ("source_ip", VString (requestIPForApp r)); ("user_agent", VString (iq_header r "User-Agent"))]).

(** ** Captchas *)

Definition getCaptcha (r : identity_request) : idm reply :=
  let '(answer, image) := iq_captcha r in
  let id := "CAP" +:+ ToUpper (iq_hex r 0) in
  let payload : object := {[ "id" := VString id; "captcha_id" := VString id; "image" := VString image;
                             "expires_at" := VString (format_rfc3339 (iq_now r + 5 * time_Minute)) ]} in
  changes (fun s => ((Create s captchasResource (<["answer_hash" := VString (HashSecret (iq_salt r 0) answer)]> payload) (sq_newid (iq_service r) 0) (iq_now r)).1, tt)) ;;;
  say StatusOK (BMap (if cf_Production cfg then payload else <["answer" := VString answer]> payload)).

Definition verify_captcha (s : store) (r : identity_request) (id answer : string) : store * bool :=
  match Get s captchasResource id with
  | None => (s, false)
  | Some rc =>
      let s' := (Delete s captchasResource id).1 in
      (s', if expiredAt (rec_Data rc) (iq_now r) then false else VerifySecret (textValue (rec_Data rc) "answer_hash") (TrimSpace answer))
  end.
Definition verifyCaptcha (r : identity_request) (id answer : string) : idm bool := changes (fun s => verify_captcha s r id answer).

Definition captchaRequired (r : identity_request) (username : string) : idm bool := asks (fun s =>
  match Get s loginFailuresResource (failure_id r username) with
  | None => false
  | Some rc => defaultLoginMaxFailed <=? intValue (rec_Data rc) "failures" 0
  end).

(** A login that failed: counted, announced and refused. *)
Definition rejected {A} (r : identity_request) (username path reason text : string) : idm A :=
  recordLoginFailure r username ;;;
  publishLoginFailure r username path reason ;;;
  reject StatusUnauthorized text.
Definition rejectInvalidCaptcha {A} (r : identity_request) (username : string) : idm A :=
  rejected r username pathLogin reasonInvalidCaptcha msgInvalidCaptcha.

Definition validateLoginCaptcha (r : identity_request) (username : string) (payload : object) : idm unit :=
  let captchaID := TrimSpace (textValue payload "captcha_id") in
  let captchaAnswer := textValue payload "captcha_answer" in
  required <-- captchaRequired r username ;;
  if required : bool then
    if str_empty captchaID || str_empty (TrimSpace captchaAnswer) then rejected r username pathLogin reasonCaptchaRequired msgCaptchaRequired
    else ok <-- verifyCaptcha r captchaID captchaAnswer ;;
         if ok : bool then stm_ret tt else rejectInvalidCaptcha r username
  else if str_empty captchaID then stm_ret tt
  else ok <-- verifyCaptcha r captchaID captchaAnswer ;;
       if ok : bool then stm_ret tt else rejectInvalidCaptcha r username.

(** ** Passwords *)

Definition directory_user (st : identity_state D) (username password : string) : option string :=
  if cf_LDAPEnabled cfg then Authenticate (is_dir st) username password else None.

(** Who the password belongs to: the directory decides when it answers, and the stored
    password otherwise. *)
Definition authenticate (st : identity_state D) (username password : string) : option object :=
  match directory_user st username password with
  | Some ldapUsername =>
      let ldapUsername := if str_empty ldapUsername then username else ldapUsername in
      iu_Data <$> FindActiveUserByUsername (is_store st) ldapUsername
  | None =>
      user ← FindActiveUserByUsername (is_store st) username;
      if passwordMatches (iu_Data user) password then Some (iu_Data user) else None
  end.
Definition authenticateUser (username password : string) : idm (option object) := fun st => (st, Ok (authenticate st username password)).

(** ** Sessions *)

(** The session, its refresh token and the user as they are answered. *)
Definition issueSession (r : identity_request) (user : object) : idm (option (identitySessionPair * object)) :=
  let userID := textValue user "id" in
  issued <-- changes (IssueSessionPair r userID (24 * time_Hour) (7 * 24 * time_Hour)) ;;
  match issued with
  | None => stm_ret None
  | Some tokens =>
      changes (fun s => SetUserStatus s userID "online" (iq_now r)) ;;;
      stm_ret (Some (tokens, publicUser user))
  end.
Definition with_session (r : identity_request) (user : object) (k : identitySessionPair -> object -> idm reply) : idm reply :=
  issued <-- issueSession r user ;;
  match issued with
  | None => reject StatusServiceUnavailable "session could not be issued"
  | Some (tokens, shown) => k tokens shown
  end.

Definition login (r : identity_request) : idm reply :=
  payload <-- decode r msgInvalidInputTitle ;;
  let username := TrimSpace (textValue payload "username") in
  let password := textValue payload "password" in
  demand (negb (str_empty username || str_empty password)) StatusBadRequest "username and password are required" ;;;
  locked <-- loginLocked r username ;;
  (if locked : bool then publishLoginFailure r username pathLogin reasonLocked ;;; reject StatusUnauthorized msgInvalidCredentials else stm_ret tt) ;;;
  validateLoginCaptcha r username payload ;;;
  user <-- authenticateUser username password ;;
  match user with
  | None => rejected r username pathLogin reasonInvalidCredentials msgInvalidCredentials
  | Some user =>
      clearLoginFailures r username ;;;
      with_session r user (fun tokens shown =>
        stm_ret (Reply StatusOK (BMap {[ "token" := VString (sp_AccessToken tokens); "refresh_token" := VString (sp_RefreshToken tokens); "user" := VMap shown ]})
                   (authCookies r (sp_AccessToken tokens) (sp_RefreshToken tokens))))
  end.

(** The denylist entry of a credential lives as long as the credential would. *)
Definition revokeCredential (r : identity_request) (kind id expiresAt : string) : idm unit :=
  if str_empty id then stm_ret tt
  else
    let deny ttl := on_revocations (fun rv => (Revoke rv kind id ttl (iq_now r), tt)) in
    if str_empty expiresAt then deny (24 * time_Hour)
    else match parse_rfc3339 expiresAt with
         | None => deny (24 * time_Hour)
         | Some parsed => if parsed - iq_now r <=? 0 then stm_ret tt else deny (parsed - iq_now r)
         end.

Definition logout (r : identity_request) : idm reply :=
  let token := tokenFromCookie r "token" in
  (if str_empty token then stm_ret tt
   else
     session <-- changes (fun s => RevokeSession s token) ;;
     match session with
     | None => stm_ret tt
     | Some session =>
         (if str_empty (se_UserID session) then stm_ret tt
          else changes (fun s => SetUserStatus s (se_UserID session) "offline" (iq_now r)) ;;; stm_ret tt) ;;;
         revokeCredential r "session" token (se_ExpiresAt session)
     end) ;;;
  let refresh := tokenFromCookie r "refresh_token" in
  (if str_empty refresh then stm_ret tt else changes (fun s => DeleteRefreshToken s refresh) ;;; stm_ret tt) ;;;
  stm_ret (Reply StatusOK BNil (clearAuthCookies r)).

(** The refresh token a request presents. *)
Definition presented (r : identity_request) : string :=
  let payload := match sq_body (iq_service r) with Ok payload => payload | Err _ => ∅ end in
  FirstNonEmpty [TrimSpace (textValue payload "refresh_token"); TrimSpace (iq_form r); tokenFromCookie r "refresh_token"].

Definition refreshToken (r : identity_request) : idm reply :=
  let refresh := presented r in
  demand (negb (str_empty refresh)) StatusBadRequest "refresh_token is required" ;;;
  record <-- changes (fun s => ConsumeRefreshToken s refresh (iq_now r)) ;;
  match record with
  | None => reject StatusUnauthorized "Invalid refresh token"
  | Some record =>
      user <-- asks (fun s => FindActiveUserByID s (se_UserID record)) ;;
      match user with
      | None => reject StatusUnauthorized "Invalid refresh token"
      | Some user =>
          with_session r (iu_Data user) (fun tokens _ =>
            stm_ret (Reply StatusOK (BMap {[ "token" := VString (sp_AccessToken tokens); "refresh_token" := VString (sp_RefreshToken tokens) ]})
                       (authCookies r (sp_AccessToken tokens) (sp_RefreshToken tokens))))
      end
  end.

(** ** API tokens *)

Definition publishAPITokenEvent (r : identity_request) (userID action tokenID : string) (data : option object) : idm unit :=
  let payload : object := list_to_map [("user_id", VString userID); ("action", VString action); ("resource_type", VString "auth");
    ("resource", VString "api_token"); ("resource_id", VString tokenID); ("success", VBool true); ("source_ip", VString (requestIPForApp r));
    ("user_agent", VString (iq_header r "User-Agent"))] in
  publish r 0 "AuditEvent" (match data with Some data => <["data" := VMap data]> payload | None => payload end).

Definition createAPITokenForUser (r : identity_request) (userID name : string) : idm object :=
  match normalizeAPITokenName name with
  | None => reject StatusBadRequest "api token name must be 1-100 characters and must not contain control characters"
  | Some tokenName =>
      count <-- asks (fun s => CountActiveAPITokens s userID (iq_now r)) ;;
      demand (count <? defaultAPITokenMax) StatusTooManyRequests "too many active API tokens" ;;;
      created <-- changes (CreateAPIToken r userID tokenName defaultAPITokenTTL) ;;
      match created with
      | None => reject StatusServiceUnavailable "api token could not be created"
      | Some created =>
          publishAPITokenEvent r userID "api_token_created" (at_ID created.1)
            (Some {[ "name" := VString tokenName; "expires_at" := VString (at_ExpiresAt created.1) ]}) ;;;
          stm_ret (Response created)
      end
  end.

Definition cliLogin (r : identity_request) : idm reply :=
  payload <-- decode r msgInvalidInputTitle ;;
  let username := TrimSpace (textValue payload "username") in
  let password := textValue payload "password" in
  let name := TrimSpace (FirstNonEmpty [textValue payload "name"; "nexuspaas-cli"]) in
  demand (negb (str_empty username || str_empty password || (64 <? String.length name)%nat)) StatusBadRequest
    "username, password, and a valid token name are required" ;;;
  locked <-- loginLocked r username ;;
  (if locked : bool then publishLoginFailure r username pathCLILogin reasonLocked ;;; reject StatusUnauthorized msgInvalidCredentials else stm_ret tt) ;;;
  user <-- authenticateUser username password ;;
  match user with
  | None => rejected r username pathCLILogin reasonInvalidCredentials msgInvalidCredentials
  | Some user =>
      clearLoginFailures r username ;;;
      created <-- createAPITokenForUser r (textValue user "id") name ;;
      say StatusOK (BMap {[ "token" := mget created "token"; "token_id" := mget created "id"; "expires_at" := mget created "expires_at";
                            "user" := VMap (publicUser user) ]})
  end.

Definition listAPITokens (r : identity_request) : idm reply :=
  user <-- requireCurrent r ;;
  tokens <-- asks (fun s => map Metadata (ListActiveAPITokens s (textValue (iu_Data user) "id") (iq_now r))) ;;
  say StatusOK (BMaps tokens).

Definition createAPIToken (r : identity_request) : idm reply :=
  user <-- requireCurrent r ;;
  payload <-- decode r msgInvalidInput ;;
  let name := textValue payload "name" in
  demand (negb (str_empty (TrimSpace name))) StatusBadRequest msgInvalidInput ;;;
  created <-- createAPITokenForUser r (textValue (iu_Data user) "id") name ;;
  say StatusCreated (BMap created).

Definition revokeTokenForUser (r : identity_request) (userID tokenID : string) : idm bool :=
  token <-- changes (fun s => RevokeAPIToken s userID tokenID (iq_now r)) ;;
  match token with
  | None => stm_ret false
  | Some token => revokeCredential r "api_token" tokenID (at_ExpiresAt token) ;;; stm_ret true
  end.

Definition revoke_own (r : identity_request) (user : identityUser) (id : string) : idm reply :=
  ok <-- revokeTokenForUser r (textValue (iu_Data user) "id") id ;;
  demand ok StatusNotFound "API token not found" ;;;
  publishAPITokenEvent r (textValue (iu_Data user) "id") "api_token_revoked" id None ;;;
  say StatusOK BNil.
Definition revokeAPIToken (r : identity_request) : idm reply :=
  user <-- requireCurrent r ;; revoke_own r user (pathValue r "id").
Definition revokeCurrentAPIToken (r : identity_request) : idm reply :=
  user <-- requireCurrent r ;;
  let id := TrimSpace (APITokenID (sq_http (iq_service r))) in
  demand (negb (str_empty id)) StatusBadRequest "current API token required" ;;;
  revoke_own r user id.

(** The maintenance task. *)
Definition registerAuthCleanup (now : Z) : idm unit := changes (fun s => let '(s', _) := CleanupExpiredAuthRecords s now in (s', tt)).

End Auth.
