(* ===== verification/IdentityUsers.v ===== *)
(** * Identity service: users, the directory and the other services
    (internal/services/identity: users.go, ldap.go, register of auth.go,
    internal_read_contracts.go, the callback of oidc.go)

    Administrators manage users, users manage themselves.  A change goes to the directory
    first and is taken back there when the local write fails.  Other services ask whether a
    credential is good. *)

From stdpp Require Import base gmap strings list fin_maps.
From Stdlib Require Import ZArith Lia Ascii.
From S2P Require Import Prelude GoValue Store EventBus Crud Tx RateLimit InputLimits Config Auth Guards SchedulerHttp ServiceHttp IdentityRepository IdentityAuth.
Local Open Scope Z_scope.
Local Open Scope go_scope.

Definition StatusFound : Z := 302.
Definition msgLDAPSyncFailed : string := "user could not be synchronized".
Definition msgCredentialInvalid : string := "credential is invalid".
Definition oidcStateCookieName : string := "nexuspaas_oidc_state".

(** ** Helpers *)

Definition positiveQueryInt (r : identity_request) (key : string) (fallback : Z) : Z :=
  match sscanf_d (TrimSpace (default "" (rq_Query (sq_http (iq_service r)) !! key))) with
  | Some value => if value <=? 0 then fallback else value
  | None => fallback
  end.

(** [rows[start:end]] panics unless [0 <= start <= end <= len(rows)]. *)
Definition sub_slice {A} (rows : list A) (start stop : Z) : option (list A) :=
  if (0 <=? start) && (start <=? stop) && (stop <=? Z.of_nat (length rows))
  then Some (take (Z.to_nat (stop - start)) (drop (Z.to_nat start) rows)) else None.

Record batch_outcome := BatchOutcome { bo_succeeded : Z; bo_failed : Z; bo_items : list any; bo_errors : list any }.
Definition batchResult : batch_outcome := BatchOutcome 0 0 [] [].
Definition addBatchResult (result : batch_outcome) (ok : bool) (data : any) : batch_outcome :=
  if ok then BatchOutcome (bo_succeeded result + 1) (bo_failed result) (bo_items result ++ [data]) (bo_errors result)
  else BatchOutcome (bo_succeeded result) (bo_failed result + 1) (bo_items result) (bo_errors result ++ [data]).
Definition outcome_body (b : batch_outcome) : body :=
  BMap {[ "succeeded" := VInt (bo_succeeded b); "failed" := VInt (bo_failed b); "items" := VList (bo_items b); "errors" := VList (bo_errors b) ]}.
Definition body_value (b : body) : any :=
  match b with BNil => VNil | BMap m => VMap m | BMaps l => VMaps l | BValue v => v | _ => VNil end.

Definition mapSlice (v : any) : option (list object) :=
  match v with VMaps l => Some l | VList l => Some (omap as_map l) | _ => None end.
Fixpoint first_slice {A} (f : any -> option (list A)) (payload : object) (keys : list string) : list A :=
  match keys with
  | [] => []
  | key :: keys => match f (mget payload key) with Some values => values | None => first_slice f payload keys end
  end.

Definition with_payload (r : identity_request) (payload : object) : identity_request :=
  let q := iq_service r in
  IdentityRequest (ServiceRequest (sq_http q) (Ok payload) (sq_path q) (sq_now q) (sq_uuid q) (sq_newid q))
    (iq_form r) (iq_post r) (iq_fields r) (iq_TLS r) (iq_hex r) (iq_salt r) (iq_captcha r).
Definition with_path_id (r : identity_request) (id : string) : identity_request :=
  let q := iq_service r in
  IdentityRequest (ServiceRequest (sq_http q) (sq_body q) (<["id" := id]> (sq_path q)) (sq_now q) (sq_uuid q) (sq_newid q))
    (iq_form r) (iq_post r) (iq_fields r) (iq_TLS r) (iq_hex r) (iq_salt r) (iq_captcha r).

(** The provider's token endpoint, and a JSON decoder that keeps numbers as text. *)
Class OidcLib := { exchange_code : string -> option object; decode_numbers : string -> option object }.

Section Users.
Context `{GoLib} `{AuthLib} `{SecretLib} {ip : Type} `{NetLib ip} {D : Type} `{ldapDirectory D} (cfg : config ip).
Local Abbreviation idm := (IdentityRepository.idm (D := D)).

Definition firstStringSlice (payload : object) (keys : list string) : list string := first_slice StringSlice payload keys.
Definition firstMapSlice (payload : object) (keys : list string) : list object := first_slice mapSlice payload keys.

Fixpoint over {A} (step : nat -> A -> batch_outcome -> idm batch_outcome) (k : nat) (items : list A) (b : batch_outcome) : idm batch_outcome :=
  match items with
  | [] => stm_ret b
  | x :: items => b <-- step k x b ;; over step (S k) items b
  end.

(** ** The directory first *)

(** The upsert in the directory: nothing without one, [Err] when it fails. *)
Definition sync_user (user : object) (password : string) (keep : bool) : idm (result unit (option ldapUpsertResult)) :=
  if cf_LDAPEnabled cfg then
    result <-- on_dir (fun d => UpsertUser d user password keep) ;;
    stm_ret (match result with Some x => Ok (Some x) | None => Err tt end)
  else stm_ret (Ok None).
Definition compensateLDAPUpsert (done_ : option ldapUpsertResult) : idm unit :=
  match done_ with Some x => on_dir (fun d => (RestoreUpsert d x, tt)) | None => stm_ret tt end.

Definition mergedUserData (current update : object) : object := update ∪ current.

Definition updateUserLocal (id : string) (update : object) (now : Z) (build : option (record -> event)) : idm (option record) :=
  match build with
  | None => changes (fun s => UpdateUser s id update now)
  | Some build => on_app (fun a =>
      match WithTx (E := unit) a (
        updated <-- UpdateUserTx id update now ;;
        match updated with None => stm_ret None | Some rc => tx_Emit (build rc) ;;; stm_ret (Some rc) end) with
      | (a', Ok updated) => (a', updated)
      | (a', Err _) => (a', None)
      end)
  end.

Definition deleteUserLocal (id : string) (build : option event) : idm bool :=
  match build with
  | None => changes (fun s => DeleteUser s id)
  | Some e => on_app (fun a =>
      match WithTx (E := unit) a (deleted <-- DeleteUserTx id ;; if deleted : bool then tx_Emit e ;;; stm_ret true else stm_ret false) with
      | (a', Ok deleted) => (a', deleted)
      | (a', Err _) => (a', false)
      end)
  end.

Definition createUserWithLDAP (r : identity_request) (k : nat) (user : object) (password : string) (build : record -> event) : idm record :=
  synced <-- sync_user user password true ;;
  match synced with
  | Err _ => reject StatusServiceUnavailable msgLDAPSyncFailed
  | Ok synced =>
      created <-- on_app (fun a => CreateUserWithEvent a user build (sq_newid (iq_service r) k) (iq_now r)) ;;
      match created with
      | Ok rc => stm_ret rc
      | Err e =>
          compensateLDAPUpsert synced ;;;
          match e with
          | EConflict _ => reject StatusConflict "user already exists"
          | EPublish => reject StatusInternalServerError "user could not be created"
          end
      end
  end.

(** The user as it will be goes to the directory, then the update to the store. *)
Definition sync_then_update (current : record) (id : string) (update : object) (password : string) (now : Z) (build : option (record -> event))
    : idm (result unit (option record)) :=
  synced <-- sync_user (mergedUserData (rec_Data current) update) password false ;;
  match synced with
  | Err _ => stm_ret (Err tt)
  | Ok synced =>
      updated <-- updateUserLocal id update now build ;;
      match updated with
      | Some rc => stm_ret (Ok (Some rc))
      | None => compensateLDAPUpsert synced ;;; stm_ret (Ok None)
      end
  end.

Definition updateUserWithLDAP (r : identity_request) (id : string) (payload update : object) (build : option (record -> event)) : idm record :=
  current <-- asks (fun s => GetUser s id) ;;
  match current with
  | None => reject StatusNotFound msgUserNotFound
  | Some current =>
      outcome <-- sync_then_update current id update (textValue payload "password") (iq_now r) build ;;
      match outcome with
      | Err _ => reject StatusServiceUnavailable msgLDAPSyncFailed
      | Ok (Some rc) => stm_ret rc
      | Ok None => if cf_LDAPEnabled cfg then reject StatusServiceUnavailable "user could not be updated" else reject StatusNotFound msgUserNotFound
      end
  end.

Definition resetUserPasswordWithLDAP (r : identity_request) (k : nat) (id password : string) (build : option (record -> event)) : idm bool :=
  current <-- asks (fun s => GetUser s id) ;;
  match current with
  | None => stm_ret false
  | Some current =>
      let update := {[ "password_hash" := VString (HashSecret (iq_salt r k) password); "updated_at" := VString (format_rfc3339 (iq_now r)) ]} in
      outcome <-- sync_then_update current id update password (iq_now r) build ;;
      stm_ret (match outcome with Ok (Some _) => true | _ => false end)
  end.

Definition updateUserRoleWithLDAP (r : identity_request) (id : string) (update : object) (build : option (record -> event)) : idm (option object) :=
  current <-- asks (fun s => GetUser s id) ;;
  match current with
  | None => stm_ret None
  | Some current =>
      outcome <-- sync_then_update current id update "" (iq_now r) build ;;
      stm_ret (match outcome with Ok (Some rc) => Some (rec_Data rc) | _ => None end)
  end.

Definition deleteUserWithLDAP (id : string) (build : option event) : idm unit :=
  current <-- asks (fun s => GetUser s id) ;;
  match current with
  | None => reject StatusNotFound msgUserNotFound
  | Some current =>
      gone <-- (if cf_LDAPEnabled cfg then on_dir (fun d => Directory_DeleteUser d (rec_Data current)) else stm_ret true) ;;
      demand gone StatusServiceUnavailable msgLDAPSyncFailed ;;;
      deleted <-- deleteUserLocal id build ;;
      if deleted : bool then stm_ret tt
      else
        (if cf_LDAPEnabled cfg then on_dir (fun d => (RestoreDeletedUser d (rec_Data current), tt)) else stm_ret tt) ;;;
        reject StatusServiceUnavailable "user could not be deleted"
  end.

(** The mirror of the directory, a maintenance task: users it does not know are added. *)
Fixpoint mirror_users (known : gset string) (users : list record) : idm bool :=
  match users with
  | [] => stm_ret true
  | rc :: users =>
      let username := TrimSpace (textValue (rec_Data rc) "username") in
      if str_empty username || EqualFold (textValue (rec_Data rc) "status") "deleted" || bool_decide (ToLower username ∈ known) then mirror_users known users
      else
        result <-- on_dir (fun d => UpsertUser d (rec_Data rc) "" false) ;;
        match result with Some _ => mirror_users known users | None => stm_ret false end
  end.
Definition syncLDAPMirror : idm bool := fun st =>
  if negb (cf_LDAPEnabled cfg) then (st, Ok true)
  else match ListUsernames (is_dir st) with
       | None => (st, Ok false)
       | Some known => mirror_users known (ListUsers (is_store st)) st
       end.

(** ** Registration *)

Definition new_user (id username email fullName hash : string) : object :=
  list_to_map [("id", VString id); ("username", VString username); ("email", VString email); ("full_name", VString fullName);
    ("name", VString (FirstNonEmpty [fullName; username])); ("password_hash", VString hash); ("type", VString "origin"); ("status", VString "offline");
    ("role", VString (roleName 2)); ("role_id", VString defaultRoleID); ("system_role", VInt 2)].

(** The [k]th registration of a request. *)
Definition register (r : identity_request) (k : nat) : idm reply :=
  payload <-- decode r msgInvalidInputTitle ;;
  let username := TrimSpace (textValue payload "username") in
  let password := textValue payload "password" in
  let email := TrimSpace (textValue payload "email") in
  let fullName := TrimSpace (FirstNonEmpty [textValue payload "full_name"; textValue payload "name"]) in
  demand (negb ((String.length username <? 3)%nat || (50 <? String.length username)%nat)) StatusBadRequest "username must be between 3 and 50 characters" ;;;
  demand (negb (String.length password <? 6)%nat) StatusBadRequest "password must be at least 6 characters" ;;;
  demand (str_empty email || Contains email "@") StatusBadRequest "email must be valid" ;;;
  taken <-- asks (fun s => FindUserByUsername s username) ;;
  demand (negb (bool_decide (is_Some taken))) StatusConflict "username already exists" ;;;
  id <-- changes NextUserID ;;
  createUserWithLDAP r k (new_user id username email fullName (HashSecret (iq_salt r k) password)) password
    (fun rc => identityEvent r k "UserCreated" (publicUser (rec_Data rc))) ;;;
  say StatusOK BNil.

(** ** Who may do what *)

Definition requireAdmin (r : identity_request) : idm unit :=
  user <-- requireCurrent r ;; demand (isAdminUser (iu_Data user)) StatusForbidden msgAdminOnly.

Definition platformAuthenticated (r : identity_request) : bool :=
  cf_RequireAuth cfg && negb (str_empty (TrimSpace (iq_header r headerUserID))).

(** The data of the actor. *)
Definition actorSelfOrAdmin (r : identity_request) (targetID : string) : idm object :=
  user <-- currentUser r ;;
  match user with
  | None =>
      if platformAuthenticated r then stm_ret {[ "id" := VString (TrimSpace (iq_header r headerUserID)) ]}
      else reject StatusUnauthorized msgAuthenticationRequired
  | Some user =>
      demand (String.eqb (textValue (iu_Data user) "id") targetID || isAdminUser (iu_Data user)) StatusForbidden "user self or admin access required" ;;;
      stm_ret (iu_Data user)
  end.
Definition requireSelfOrAdmin (r : identity_request) (targetID : string) : idm unit := actorSelfOrAdmin r targetID ;;; stm_ret tt.

(** ** Reading users *)

Definition user_key (user : object) : string := FirstNonEmpty [textValue user "username"; textValue user "id"].
Definition publicUsers (records : list record) : list object :=
  SliceStable (fun x y => String.ltb (user_key x) (user_key y)) (map (fun rc => publicUser (rec_Data rc)) records).

Definition listUsers (r : identity_request) : idm reply :=
  requireAdmin r ;;; users <-- asks ListUsers ;; say StatusOK (BMaps (publicUsers users)).

Definition listUsersPaging (r : identity_request) : idm reply :=
  requireAdmin r ;;;
  records <-- asks ListUsers ;;
  let users := publicUsers records in
  let total := Z.of_nat (length users) in
  let page := positiveQueryInt r "page" 1 in
  let limit := positiveQueryInt r "limit" 20 in
  let start0 := i64 (i64 (page - 1) * limit) in
  let start := if total <? start0 then total else start0 in
  let stop0 := i64 (start + limit) in
  let stop := if total <? stop0 then total else stop0 in
  match sub_slice users start stop with
  | None => crash
  | Some rows => say StatusOK (BMap {[ "list" := VMaps rows; "total" := VInt total; "page" := VInt page; "limit" := VInt limit ]})
  end.

Definition findUserByIdentifier (s : store) (identifier0 : string) : option record :=
  let identifier := TrimSpace identifier0 in if str_empty identifier then None else FindUserByIdentifier s identifier.

Definition resolveUsers (r : identity_request) : idm reply :=
  requireAdmin r ;;;
  payload <-- decode r msgInvalidInput ;;
  let identifiers := firstStringSlice payload ["identifiers"; "ids"] in
  found <-- asks (fun s => map (fun i => (i, findUserByIdentifier s i)) identifiers) ;;
  say StatusOK (BMap {[ "resolved" := VMaps (omap (fun '(_, u) => (fun rc => publicUser (rec_Data rc)) <$> u) found);
                        "unresolved" := VStrings (omap (fun '(i, u) => match u with Some _ => None | None => Some i end) found) ]}).

Definition getUserByID (r : identity_request) : idm reply :=
  requireSelfOrAdmin r (pathValue r "id") ;;;
  found <-- asks (fun s => GetUser s (pathValue r "id")) ;;
  match found with Some rc => say StatusOK (BMap (publicUser (rec_Data rc))) | None => reject StatusNotFound msgUserNotFound end.

Definition getUserSettings (r : identity_request) : idm reply :=
  requireSelfOrAdmin r (pathValue r "id") ;;;
  found <-- asks (fun s => GetUserSettings s (pathValue r "id")) ;;
  match found with Some settings => say StatusOK (BMap settings) | None => reject StatusNotFound msgUserNotFound end.

(** ** Changing users *)

Definition copy_keys (keys : list string) (payload update : object) : object :=
  fold_left (fun out key => match payload !! key with Some value => <[key := value]> out | None => out end) keys update.

Definition applyAdminUserUpdate (update payload : object) : object :=
  let update := copy_keys ["status"; "role_id"; "capabilities"] payload update in
  let role := textValue payload "role" in
  let update := if str_empty role then update
                else <["system_role" := VInt (systemRoleFor role (intValue payload "system_role" 2))]> (<["role" := VString role]> update) in
  match payload !! "system_role" with
  | None => update
  | Some _ =>
      let systemRole := intValue payload "system_role" 2 in
      <["role" := VString (FirstNonEmpty [role; roleName systemRole])]> (<["system_role" := VInt systemRole]> update)
  end.

Definition userUpdate (r : identity_request) (payload : object) (admin : bool) : object :=
  let update := copy_keys ["username"; "email"; "name"; "full_name"] payload ∅ in
  let password := textValue payload "password" in
  let update := if str_empty password then update else <["password_hash" := VString (HashSecret (iq_salt r 0) password)]> update in
  let settings := MapValue payload ["settings"] in
  let update := if bool_decide (settings = ∅) then update else <["settings" := VMap settings]> update in
  let update := if admin then applyAdminUserUpdate update payload else update in
  if bool_decide (update = ∅) then update else <["updated_at" := VString (format_rfc3339 (iq_now r))]> update.

Definition user_updated (r : identity_request) (k : nat) (rc : record) : event := identityEvent r k "UserUpdated" (publicUser (rec_Data rc)).

Definition updateUser (r : identity_request) : idm reply :=
  let targetID := pathValue r "id" in
  actor <-- actorSelfOrAdmin r targetID ;;
  payload <-- decode r msgInvalidInput ;;
  let update := userUpdate r payload (isAdminUser actor) in
  demand (negb (bool_decide (update = ∅))) StatusBadRequest "no updatable fields" ;;;
  rc <-- updateUserWithLDAP r targetID payload update (Some (user_updated r 0)) ;;
  say StatusOK (BMap (publicUser (rec_Data rc))).

Definition updateUserSettings (r : identity_request) : idm reply :=
  requireSelfOrAdmin r (pathValue r "id") ;;;
  payload <-- decode r msgInvalidInput ;;
  let settings := MapValue payload ["settings"] in
  let settings := if bool_decide (settings = ∅) then payload else settings in
  updated <-- changes (fun s => UpdateUserSettings s (pathValue r "id") settings (iq_now r)) ;;
  match updated with Some settings => say StatusOK (BMap settings) | None => reject StatusNotFound msgUserNotFound end.

Fixpoint deny_tokens (r : identity_request) (tokens : list identityAPIToken) : idm unit :=
  match tokens with
  | [] => stm_ret tt
  | token :: tokens => revokeCredential r "api_token" (at_ID token) (at_ExpiresAt token) ;;; deny_tokens r tokens
  end.
Definition revokeUserCredentials (r : identity_request) (userID : string) : idm unit :=
  tokens <-- changes (fun s => RevokeAPITokensForUser s userID (iq_now r)) ;; deny_tokens r tokens.

(** The [k]th deletion of a request. *)
Definition deleteUser (r : identity_request) (k : nat) : idm reply :=
  requireAdmin r ;;;
  let id := pathValue r "id" in
  let data : object := {[ "id" := VString id; "deleted" := VBool true ]} in
  deleteUserWithLDAP id (Some (identityEvent r k "UserDisabled" data)) ;;;
  revokeUserCredentials r id ;;;
  say StatusOK (BMap data).

Definition firstUserIDs (payload : object) : list string :=
  match firstStringSlice payload ["ids"; "user_ids"; "userIds"] with
  | [] => let id := TextValue payload ["id"; "user_id"; "userId"] in if str_empty id then [] else [id]
  | ids => ids
  end.

Definition batchCreateUsers (r : identity_request) : idm reply :=
  requireAdmin r ;;;
  payload <-- decode r msgInvalidInput ;;
  result <-- over (fun k item b => rp <-- replying (register (with_payload r item) k) ;;
                                   stm_ret (addBatchResult b (rp_Status rp <? 400) (body_value (rp_Data rp))))
               0 (firstMapSlice payload ["users"; "items"]) batchResult ;;
  say StatusOK (outcome_body result).

Definition batchDeleteUsers (r : identity_request) : idm reply :=
  requireAdmin r ;;;
  payload <-- decode r msgInvalidInput ;;
  result <-- over (fun k id b => rp <-- replying (deleteUser (with_path_id r id) k) ;;
                                 stm_ret (addBatchResult b (rp_Status rp <? 400) (body_value (rp_Data rp))))
               0 (firstUserIDs payload) batchResult ;;
  say StatusOK (outcome_body result).

Definition batchResetPassword (r : identity_request) : idm reply :=
  requireAdmin r ;;;
  payload <-- decode r msgInvalidInput ;;
  let password := TextValue payload ["password"; "new_password"] in
  demand (negb (String.length password <? 6)%nat) StatusBadRequest "password must be at least 6 characters" ;;;
  result <-- over (fun k id b => ok <-- resetUserPasswordWithLDAP r k id password (Some (user_updated r k)) ;;
                                 stm_ret (addBatchResult b ok (VMap {[ "id" := VString id ]})))
               0 (firstUserIDs payload) batchResult ;;
  say StatusOK (outcome_body result).

Definition role_update (payload : object) : object :=
  let role := FirstNonEmpty [textValue payload "role"; roleName (intValue payload "system_role" 2)] in
  {[ "role" := VString role; "system_role" := VInt (systemRoleFor role (intValue payload "system_role" 2));
     "role_id" := VString (FirstNonEmpty [textValue payload "role_id"; defaultRoleID]) ]}.

Definition batchUpdateRole (r : identity_request) : idm reply :=
  requireAdmin r ;;;
  payload <-- decode r msgInvalidInput ;;
  result <-- over (fun k id b => updated <-- updateUserRoleWithLDAP r id (role_update payload) (Some (user_updated r k)) ;;
                                 stm_ret (match updated with
                                          | Some data => addBatchResult b true (VMap (publicUser data))
                                          | None => addBatchResult b false (VMap {[ "id" := VString id ]})
                                          end))
               0 (firstUserIDs payload) batchResult ;;
  say StatusOK (outcome_body result).

(** ** Contracts of other services *)

Definition internalAuthUser (user : object) : object :=
  copy_keys ["status"; "capabilities"; "admin_panel"; "adminPanel"; "AdminPanel"; "role_id"; "roleId"] user (publicUser user).

Definition sanitizeInternalReadRecord (rc : record) : record :=
  Record_ (rec_ID rc) (internalAuthUser (rec_Data rc)) (rec_Version rc) (rec_CreatedAt rc) (rec_UpdatedAt rc).

Definition authorize_service (r : identity_request) : idm unit :=
  if negb (acceptsServiceIdentity cfg) then stm_fail (Replies (Reply StatusNotFound BNil []))
  else demand (serviceRequestAuthorizedForAudience cfg (sq_http (iq_service r)) serviceName) StatusUnauthorized "service authentication is required".

Definition internalReadUsersList (r : identity_request) : idm reply :=
  authorize_service r ;;; users <-- asks ListUsers ;; say StatusOK (BRecords (map sanitizeInternalReadRecord users)).
Definition missing (resource id : string) : idm reply := say StatusNotFound (BMap {[ "resource" := VString resource; "id" := VString id ]}).
Definition internalReadUserGet (r : identity_request) : idm reply :=
  authorize_service r ;;;
  let id := PathValue (iq_service r) "id" in
  found <-- asks (fun s => GetUser s id) ;;
  match found with Some rc => say StatusOK (BRecord (sanitizeInternalReadRecord rc)) | None => missing usersResource id end.
Definition internalReadRolesList (r : identity_request) : idm reply :=
  authorize_service r ;;; roles <-- asks ListRoles ;; say StatusOK (BRecords roles).
Definition internalReadRoleGet (r : identity_request) : idm reply :=
  authorize_service r ;;;
  let id := PathValue (iq_service r) "id" in
  found <-- asks (fun s => GetRole s id) ;;
  match found with Some rc => say StatusOK (BRecord rc) | None => missing rolesResource id end.

Definition internalAuthToken (r : identity_request) : string :=
  match sq_body (iq_service r) with Ok payload => TrimSpace (textValue payload "token") | Err _ => "" end.

(** An error of the denylist counts as not revoked. *)
Definition internalCredentialRevoked (r : identity_request) (kind id : string) : idm bool :=
  if str_empty id then stm_ret false
  else on_revocations (fun rv => let '(rv', answer) := IsRevoked rv kind id (iq_now r) in (rv', default false answer)).

Definition internalAuthorizeSession (r : identity_request) : idm reply :=
  authorize_service r ;;;
  let token := internalAuthToken r in
  demand (negb (str_empty token)) StatusBadRequest "token is required" ;;;
  session <-- asks (fun s => FindValidSession s token (iq_now r)) ;;
  match session with
  | None => reject StatusUnauthorized msgCredentialInvalid
  | Some session =>
      revoked <-- internalCredentialRevoked r "session" token ;;
      demand (negb revoked) StatusUnauthorized msgCredentialInvalid ;;;
      user <-- asks (fun s => FindActiveUserByID s (se_UserID session)) ;;
      match user with
      | None => reject StatusUnauthorized msgCredentialInvalid
      | Some user => say StatusOK (BMap {[ "user" := VMap (internalAuthUser (iu_Data user)) ]})
      end
  end.

Definition verifyInternalAPIToken (r : identity_request) (token : string) : idm (option (object * string)) :=
  found <-- asks (fun s => FindActiveAPITokenByRaw s token (iq_now r)) ;;
  match found with
  | None => stm_ret None
  | Some (apiToken, user) =>
      revoked <-- internalCredentialRevoked r "api_token" (at_ID apiToken) ;;
      if revoked : bool then stm_ret None
      else
        changes (fun s => TouchAPITokenLastUsed s (at_ID apiToken) (iq_now r)) ;;;
        stm_ret (Some (iu_Data user, at_ID apiToken))
  end.

Definition internalAuthorizeAPIToken (r : identity_request) : idm reply :=
  authorize_service r ;;;
  let token := internalAuthToken r in
  demand (negb (str_empty token)) StatusBadRequest "token is required" ;;;
  verified <-- verifyInternalAPIToken r token ;;
  match verified with
  | Some (user, tokenID) => say StatusOK (BMap {[ "user" := VMap (internalAuthUser user); "api_token_id" := VString tokenID ]})
  | None => reject StatusUnauthorized msgCredentialInvalid
  end.

(** ** The endpoints of the OIDC provider *)

Definition field (r : identity_request) (name : string) : string := TrimSpace (default "" (iq_fields r !! name)).
Definition oidcProviderUnavailable : idm reply :=
  say StatusServiceUnavailable (BMap {[ "message" := VString "OIDC provider unavailable"; "reason" := VString "oidc_provider_not_configured" ]}).

(** Without a provider the endpoints check their parameters and refuse. *)
Definition oidcLoginForm (r : identity_request) : idm reply :=
  demand (negb (str_empty (TrimSpace (default "" (rq_Query (sq_http (iq_service r)) !! "auth_request_id"))))) StatusBadRequest "missing auth_request_id" ;;;
  oidcProviderUnavailable.
Definition oidcLogin (r : identity_request) : idm reply :=
  demand (negb (str_empty (field r "auth_request_id") || str_empty (field r "username") || str_empty (default "" (iq_fields r !! "password")))) StatusBadRequest msgInvalidInput ;;;
  oidcProviderUnavailable.
Definition oidcToken (r : identity_request) : idm reply :=
  let grantType := field r "grant_type" in
  demand (negb (str_empty grantType || str_empty (field r "client_id"))) StatusBadRequest "grant_type and client_id are required" ;;;
  if String.eqb grantType "authorization_code" then demand (negb (str_empty (field r "code"))) StatusBadRequest "code is required" ;;; oidcProviderUnavailable
  else if String.eqb grantType "refresh_token" then demand (negb (str_empty (field r "refresh_token"))) StatusBadRequest "refresh_token is required" ;;; oidcProviderUnavailable
  else if String.eqb grantType "client_credentials" || String.eqb grantType "urn:ietf:params:oauth:grant-type:device_code" then oidcProviderUnavailable
  else reject StatusBadRequest "unsupported grant_type".
Definition oidcRevoke (r : identity_request) : idm reply :=
  demand (negb (str_empty (field r "token"))) StatusBadRequest "token is required" ;;; oidcProviderUnavailable.
Definition oidcAuthorize (r : identity_request) : idm reply :=
  demand (negb (str_empty (field r "client_id") || str_empty (field r "response_type") || str_empty (field r "redirect_uri"))) StatusBadRequest
    "client_id, response_type, and redirect_uri are required" ;;;
  oidcProviderUnavailable.
Definition oidcUserInfo (r : identity_request) : idm reply :=
  let header := TrimSpace (iq_header r "Authorization") in
  demand (HasPrefix header "Bearer " && negb (str_empty (TrimSpace (TrimPrefix header "Bearer ")))) StatusUnauthorized "bearer token is required" ;;;
  oidcProviderUnavailable.

(** With a provider, a token is revoked through the denylist. *)
Definition revocationTokenParam (r : identity_request) : string :=
  let token := TrimSpace (iq_post r) in
  if negb (str_empty token) then token
  else
    let header := TrimSpace (iq_header r "Authorization") in
    if HasPrefix header "Bearer " then TrimSpace (TrimPrefix header "Bearer ") else "".
Definition oidcRevokeViaDenylist (r : identity_request) : idm reply :=
  let token := revocationTokenParam r in
  if str_empty token then say StatusBadRequest (BMap {[ "error" := VString "invalid_request"; "reason" := VString "token_required" ]})
  else
    on_revocations (fun rv => let '(rv', _) := RevokeBearer cfg (iq_now r) rv token in (rv', tt)) ;;;
    say StatusOK (BMap {[ "revoked" := VBool true ]}).

Definition downloadCLICACert : idm reply := say StatusOK (BValue (VString (cf_CLICACertPEM cfg))).

Definition oidcStateValid (r : identity_request) (state : string) : bool :=
  match rq_Cookie (sq_http (iq_service r)) !! oidcStateCookieName with
  | Some value => negb (str_empty value) && String.eqb value state
  | None => false
  end.

Context `{OidcLib}.

(** The claims of an identity token that came from the provider. *)
Definition oidcIDTokenClaims (idToken : string) : object :=
  match Split idToken "." with
  | _ :: body :: _ => default ∅ (raw ← base64_Decode body; decode_numbers raw)
  | _ => ∅
  end.

Fixpoint first_active (s : store) (identifiers : list string) : option identityUser :=
  match identifiers with
  | [] => None
  | i :: identifiers =>
      match (rc ← FindUserByIdentifier s i; userFromRecord rc) with
      | Some user => Some user
      | None => first_active s identifiers
      end
  end.
Definition oidcCallbackUser (s : store) (token : object) : option identityUser :=
  let claims := oidcIDTokenClaims (textValue token "id_token") in
  first_active s [textValue claims "preferred_username"; textValue claims "email"; textValue claims "sub"].

(** The answer redirects to the start page. *)
Definition oidcCallback (r : identity_request) : idm reply :=
  let code := field r "code" in
  let state := field r "state" in
  demand (negb (str_empty code || str_empty state)) StatusBadRequest "code and state are required" ;;;
  if blank (cf_DexURL cfg) then oidcProviderUnavailable
  else
    demand (oidcStateValid r state) StatusBadRequest "invalid OIDC state" ;;;
    match exchange_code code with
    | None => say StatusBadGateway (BMap {[ "message" := VString "OIDC token exchange failed"; "reason" := VString "oidc_provider_unreachable" ]})
    | Some token =>
        user <-- asks (fun s => oidcCallbackUser s token) ;;
        match user with
        | None => reject StatusUnauthorized "OIDC user is not registered"
        | Some user =>
            with_session r (iu_Data user) (fun tokens _ =>
              stm_ret (Reply StatusFound BNil (authCookies r (sp_AccessToken tokens) (sp_RefreshToken tokens) ++ [Cookie oidcStateCookieName "" (Some (iq_now r - time_Second)) (-1) (isSecure r)])))
        end
    end.

End Users.
