(* ===== verification/IdentityService.v ===== *)
(** * Identity service: routes and what each can change
    (internal/services/identity/handler.go, Register, and spec.go)

    The routes are those with a handler of the service and those of its table without one,
    which the generic record handler serves behind the administrator guard.
    [within P c] says that a computation reaches its store by writes in [P] alone.  Each
    route has a footprint, the writes it may make for a request, and the store after a
    request is reached by such writes alone; what the service guarantees over a history of
    requests rests on that ([dispatch_footprint]). *)

From stdpp Require Import base gmap strings list fin_maps relations.
From Stdlib Require Import ZArith Lia Ascii.
From S2P Require Import Prelude GoValue Store EventBus Crud Tx RateLimit InputLimits Config Auth Guards Routing SchedulerHttp ServiceHttp Tables IdentityRepository IdentityAuth IdentityUsers.
Local Open Scope Z_scope.
Local Open Scope go_scope.

(** The routes of the service's table that no handler is registered for. *)
Inductive generic_route := GCreateUser | GPatchUser | GPasswordReset | GPatchRoles | GPatchSettings.

Inductive identity_route :=
| ICaptcha | ILogin | ILogout | IRegister | IRefresh | ICLILogin
| IListTokens | ICreateToken | IRevokeToken | IRevokeCurrent
| IListUsers | IListPaging | IResolve | IBatchCreate | IBatchDelete | IBatchPassword | IBatchRole
| IGetUser | IUpdateUser | IDeleteUser | IGetSettings | IUpdateSettings | IOidcCallback
| IOidcLoginForm | IOidcLogin | IOidcToken | IOidcRevoke | IOidcAuthorize | IOidcUserInfo | IOidcUnavailable | IOidcDenylist | ICACert
| IReadUsers | IReadUser | IReadRoles | IReadRole | IAuthSession | IAuthToken
| IGeneric (g : generic_route)
| ICleanup | IMirror.

#[export] Instance generic_route_eq_dec : EqDecision generic_route.
Proof. solve_decision. Defined.
#[export] Instance identity_route_eq_dec : EqDecision identity_route.
Proof. solve_decision. Defined.

Definition pathUserID : string := "/api/v1/users/{id}".
Definition pathTokens : string := "/api/v1/me/api-tokens".

(** The redirect of /api/v1/oidc/start is not among them; with a provider the endpoints are
    proxies to it, but for the revocation, [IOidcDenylist]. *)
Definition Register : list (string * string * identity_route) :=
  [("GET", "/api/v1/captcha", ICaptcha); ("POST", pathLogin, ILogin); ("POST", "/api/v1/logout", ILogout); ("POST", "/api/v1/register", IRegister);
   ("POST", "/api/v1/refresh", IRefresh); ("POST", pathCLILogin, ICLILogin); ("GET", pathTokens, IListTokens); ("POST", pathTokens, ICreateToken);
   ("DELETE", pathTokens +:+ "/{id}", IRevokeToken); ("DELETE", pathTokens +:+ "/current", IRevokeCurrent);
   ("GET", "/api/v1/me/cli-ca", ICACert);
   ("GET", "/api/v1/users", IListUsers); ("GET", "/api/v1/users/paging", IListPaging); ("POST", "/api/v1/users/resolve", IResolve);
   ("POST", "/api/v1/users/batch", IBatchCreate); ("DELETE", "/api/v1/users/batch", IBatchDelete); ("PUT", "/api/v1/users/batch/password", IBatchPassword);
   ("PUT", "/api/v1/users/batch/role", IBatchRole); ("GET", pathUserID, IGetUser); ("PUT", pathUserID, IUpdateUser); ("DELETE", pathUserID, IDeleteUser);
   ("GET", pathUserID +:+ "/settings", IGetSettings); ("PUT", pathUserID +:+ "/settings", IUpdateSettings);
   ("GET", "/api/v1/oidc/login", IOidcLoginForm); ("POST", "/api/v1/oidc/login", IOidcLogin);
   ("GET", "/api/v1/oidc/.well-known/openid-configuration", IOidcUnavailable); ("GET", "/api/v1/oidc/jwks", IOidcUnavailable);
   ("GET", "/api/v1/oidc/authorize", IOidcAuthorize); ("POST", "/api/v1/oidc/token", IOidcToken); ("GET", "/api/v1/oidc/userinfo", IOidcUserInfo);
   ("POST", "/api/v1/oidc/revoke", IOidcRevoke);
   ("GET", "/api/v1/oidc/callback", IOidcCallback); ("POST", "/api/v1/oidc/callback", IOidcCallback)].
Definition registerInternalReadContracts : list (string * string * identity_route) :=
  [("GET", "/internal/identity/users", IReadUsers); ("GET", "/internal/identity/users/{id}", IReadUser); ("GET", "/internal/identity/roles", IReadRoles);
   ("GET", "/internal/identity/roles/{id}", IReadRole); ("POST", internalIdentitySessionAuth, IAuthSession); ("POST", internalIdentityAPITokenAuth, IAuthToken)].

(** The rows of the table for the routes without a handler. *)
Definition generic_spec (g : generic_route) : route := catalog_route "identity-service" (
  match g with
  | GCreateUser => Route "POST" "/api/v1/users" "users" "create" [Admin]
  | GPatchUser => Route "PATCH" pathUserID "users" "update" [ID "id"; Admin]
  | GPasswordReset => Route "POST" "/api/v1/users/batch/password-reset" "users" "batch_password_reset" [Admin]
  | GPatchRoles => Route "PATCH" "/api/v1/users/batch/roles" "users" "batch_role_update" [Admin]
  | GPatchSettings => Route "PATCH" (pathUserID +:+ "/settings") "user_settings" "update" [ID "id"]
  end).

Section Service.
Context `{GoLib} `{AuthLib} `{SecretLib} `{OidcLib} {ip : Type} `{NetLib ip} {D : Type} `{ldapDirectory D} (cfg : config ip).
Local Abbreviation idm := (IdentityRepository.idm (D := D)).

(** The handlers of the routes, and the two maintenance tasks as if they were requests. *)
Definition dispatch (rt : identity_route) (r : identity_request) : idm reply :=
  match rt with
  | ICaptcha => getCaptcha cfg r | ILogin => login cfg r | ILogout => logout r | IRegister => register cfg r 0 | IRefresh => refreshToken r
  | ICLILogin => cliLogin cfg r | IListTokens => listAPITokens r | ICreateToken => createAPIToken cfg r
  | IRevokeToken => revokeAPIToken cfg r | IRevokeCurrent => revokeCurrentAPIToken cfg r
  | IListUsers => listUsers r | IListPaging => listUsersPaging r | IResolve => resolveUsers r
  | IBatchCreate => batchCreateUsers cfg r | IBatchDelete => batchDeleteUsers cfg r | IBatchPassword => batchResetPassword cfg r
  | IBatchRole => batchUpdateRole cfg r | IGetUser => getUserByID cfg r | IUpdateUser => updateUser cfg r | IDeleteUser => deleteUser cfg r 0
  | IGetSettings => getUserSettings cfg r | IUpdateSettings => updateUserSettings cfg r | IOidcCallback => oidcCallback cfg r
  | IOidcLoginForm => oidcLoginForm r | IOidcLogin => oidcLogin r | IOidcToken => oidcToken r | IOidcRevoke => oidcRevoke r
  | IOidcAuthorize => oidcAuthorize r | IOidcUserInfo => oidcUserInfo r | IOidcUnavailable => oidcProviderUnavailable
  | IOidcDenylist => oidcRevokeViaDenylist cfg r | ICACert => downloadCLICACert cfg
  | IReadUsers => internalReadUsersList cfg r | IReadUser => internalReadUserGet cfg r
  | IReadRoles => internalReadRolesList cfg r | IReadRole => internalReadRoleGet cfg r
  | IAuthSession => internalAuthorizeSession cfg r | IAuthToken => internalAuthorizeAPIToken cfg r
  | IGeneric g => resp <-- on_app (fun a => serve_generic cfg a (iq_service r) (generic_spec g)) ;; say resp.1 resp.2
  | ICleanup => registerAuthCleanup (iq_now r) ;;; say StatusOK BNil
  | IMirror => syncLDAPMirror cfg ;;; say StatusOK BNil
  end.


End Service.

(** ** Reaching a store by writes of a kind *)

Definition reach (P : store_op -> Prop) (s s' : store) : Prop := exists ops, Forall P ops /\ s' = run_ops s ops.

#[export] Instance reach_preorder P : PreOrder (reach P).
Proof.
  split; [intros s; by exists []|]. intros s1 s2 s3 (o1 & F1 & ->) (o2 & F2 & ->). exists (o1 ++ o2).
  split; [by apply Forall_app|]. unfold run_ops. by rewrite fold_left_app.
Qed.

Section Reach.
Context {P : store_op -> Prop}.

Lemma reach_op s o : P o -> reach P s (run_op s o).
Proof. intros. by exists [o]; split; [constructor|]. Qed.
Lemma reach_then s s' o : reach P s s' -> P o -> reach P s (run_op s' o).
Proof. intros Hr Ho. etrans; [exact Hr|by apply reach_op]. Qed.
Lemma reach_mono (Q : store_op -> Prop) s s' : (forall o, P o -> Q o) -> reach P s s' -> reach Q s s'.
Proof. intros Hi (ops & F & ->). exists ops. split; [|done]. by eapply Forall_impl. Qed.

(** What every such write preserves, reaching preserves. *)
Lemma reach_preserves (I : store -> Prop) s s' : (forall s o, P o -> I s -> I (run_op s o)) -> reach P s s' -> I s -> I s'.
Proof. intros Hp (ops & F & ->). revert s. induction F as [|o ops Ho F IH]; intros s Hs; [done|]. apply IH. by apply Hp. Qed.

Lemma reach_Create s res d i t : P (OpCreate res d i t) -> reach P s (Create s res d i t).1.
Proof. apply (reach_op s (OpCreate res d i t)). Qed.
Lemma reach_Update s res id d t : P (OpUpdate res id d t) -> reach P s (Update s res id d t).1.
Proof. apply (reach_op s (OpUpdate res id d t)). Qed.
Lemma reach_Delete s res id : P (OpDelete res id) -> reach P s (Delete s res id).1.
Proof. apply (reach_op s (OpDelete res id)). Qed.
Lemma reach_next s res prefix : P (OpNextID res prefix 2600001 0) -> reach P s (next_id s res prefix).1.
Proof.
  intros Hp. apply (reach_op s) in Hp. cbn [run_op] in Hp. unfold next_id. by destruct (NextID _ _ _ _ _) as [[]|].
Qed.

End Reach.

(** The record of a write, whatever the write does to it. *)
Definition op_at (o : store_op) : string * option string :=
  match o with
  | OpCreate res d i _ => (res, Some (create_id d i))
  | OpUpdate res id _ _ | OpDelete res id => (res, Some id)
  | OpNextID res _ _ _ => (res, None)
  end.

Lemma run_op_elsewhere s o res id : op_at o ≠ (res, Some id) -> Get (run_op s o) res id = Get s res id.
Proof.
  intros Hne. destruct o as [r d i t|r i d t|r i|r p b w]; cbn [op_at run_op] in *.
  - destruct (Create s r d i t) as [s' [rc|e]] eqn:E.
    + apply Create_ok in E as (_ & _ & _ & _ & _ & _ & Hg). cbn [fst]. rewrite Hg. case_decide as Hd; [|done]. destruct Hd; congruence.
    + apply Create_err in E as (_ & _ & Hg). cbn [fst]. apply Hg.
  - pose proof (Update_cases s r i d t) as HU. destruct (Update s r i d t) as [s' [rc|]], (Get s r i); try done; cbn [fst] in *; [|by subst].
    destruct HU as (_ & _ & _ & _ & _ & Hg). rewrite Hg. case_decide as Hd; [|done]. destruct Hd; congruence.
  - rewrite Delete_Get. case_decide as Hd; [|done]. destruct Hd; congruence.
  - destruct (NextID s r p b w) as [[x s']|] eqn:E; [|done]. apply NextID_data in E. unfold Get, bucket. by rewrite E.
Qed.

Lemma reach_elsewhere P s s' res id : (forall o, P o -> op_at o ≠ (res, Some id)) -> reach P s s' -> Get s' res id = Get s res id.
Proof.
  intros Hp Hr. apply (reach_preserves (P := P) (fun s' => Get s' res id = Get s res id) s s'); [|exact Hr|done].
  intros s1 o Ho <-. by apply run_op_elsewhere, Hp.
Qed.

Lemma run_op_filed s o : filed s -> filed (run_op s o).
Proof.
  intros Hf. destruct o; cbn [run_op]; [by apply filed_Create|by apply filed_Update|by apply filed_Delete|].
  destruct (NextID _ _ _ _ _) as [[x s']|] eqn:E; [|done]. apply NextID_data in E. by eapply filed_data.
Qed.
Lemma reach_filed P s s' : reach P s s' -> filed s -> filed s'.
Proof. apply reach_preserves. intros. by apply run_op_filed. Qed.

(** ** Computations within a footprint *)

Section Within.
Context `{GoLib} `{AuthLib} `{SecretLib} {ip : Type} {D : Type} `{ldapDirectory D} (cfg : config ip) (P : store_op -> Prop).
Local Abbreviation idm := (IdentityRepository.idm (D := D)).

Definition within {A} (c : idm A) : Prop := forall st, filed (is_store st) -> reach P (is_store st) (is_store (c st).1).

Lemma within_ret {A} (x : A) : within (stm_ret x).
Proof. intros st _. reflexivity. Qed.
Lemma within_fail {A} e : within (stm_fail (A := A) e).
Proof. intros st _. reflexivity. Qed.
Lemma within_asks {A} (f : store -> A) : within (asks f).
Proof. intros st _. reflexivity. Qed.
Lemma within_bind {A B} (c : idm A) (k : A -> idm B) : within c -> (forall x, within (k x)) -> within (stm_bind c k).
Proof.
  intros Hc Hk st Hf. unfold stm_bind. specialize (Hc st Hf). destruct (c st) as [st1 [x|e]]; cbn [fst] in *; [|exact Hc].
  etrans; [exact Hc|]. apply Hk. by eapply reach_filed.
Qed.
Lemma within_changes {A} (f : store -> store * A) : (forall s, filed s -> reach P s (f s).1) -> within (changes f).
Proof. intros Hf st Hs. unfold changes. specialize (Hf (is_store st) Hs). by destruct (f (is_store st)). Qed.
Lemma within_on_app {A} (f : app -> app * A) : (forall a, reach P (app_Store a) (app_Store (f a).1)) -> within (on_app f).
Proof. intros Hf st _. unfold on_app. specialize (Hf (is_app st)). unfold is_store. by destruct (f (is_app st)). Qed.
Lemma within_on_dir {A} (f : D -> D * A) : within (on_dir f).
Proof. intros st _. unfold on_dir. destruct (f (is_dir st)). reflexivity. Qed.
Lemma within_on_revocations {A} (f : revocations -> revocations * A) : within (on_revocations f).
Proof. intros st _. unfold on_revocations. destruct (f (is_Revocations st)). reflexivity. Qed.
Lemma within_demand b status text : within (demand b status text).
Proof. destruct b; [apply within_ret|apply within_fail]. Qed.
Lemma within_decode r text : within (decode r text).
Proof. unfold decode. destruct (sq_body _); [apply within_ret|apply within_fail]. Qed.
(** The payload is known in what follows. *)
Lemma within_decode_bind {B} r text (k : object -> idm B) :
  (forall payload, sq_body (iq_service r) = Ok payload -> within (k payload)) -> within (stm_bind (decode r text) k).
Proof. intros Hk. unfold decode. destruct (sq_body _) as [payload|] eqn:E; [exact (Hk payload eq_refl)|apply within_fail]. Qed.
Lemma within_replying h : within h -> within (replying h).
Proof. intros Hh st Hf. unfold replying. specialize (Hh st Hf). by destruct (h st) as [st1 [x|[]]]. Qed.
Lemma within_run h : within h -> forall st, filed (is_store st) -> reach P (is_store st) (is_store (run h st).1).
Proof. intros Hh st Hf. unfold run. apply within_replying in Hh. specialize (Hh st Hf). by destruct (replying h st) as [st1 [x|e]]. Qed.
Lemma within_over {A} (step : nat -> A -> batch_outcome -> idm batch_outcome) items : (forall k x b, within (step k x b)) -> forall k b, within (over step k items b).
Proof. intros Hs. induction items as [|x items IH]; intros k b; cbn [over]; [apply within_ret|]. by apply within_bind. Qed.
Lemma within_publish r k name data : within (publish r k name data).
Proof.
  apply within_on_app. intros a. destruct (publish_event a (identityEvent r k name data)) as [a'|] eqn:E; cbn; [|reflexivity].
  by rewrite (publish_event_store _ _ _ E).
Qed.
Lemma within_authenticate username password : within (authenticateUser cfg username password).
Proof. intros st _. reflexivity. Qed.

End Within.

Arguments within {D} P {A}.

(** Runs through the structure of a computation; what writes to the store remains. *)
Ltac within_step :=
  match goal with
  | |- within _ (stm_bind _ _) => apply within_bind; [|intros ?]
  | |- within _ (stm_ret _) => apply within_ret
  | |- within _ (say _ _) => apply within_ret
  | |- within _ (stm_fail _) => apply within_fail
  | |- within _ (reject _ _) => apply within_fail
  | |- within _ crash => apply within_fail
  | |- within _ (demand _ _ _) => apply within_demand
  | |- within _ (decode _ _) => apply within_decode
  | |- within _ (asks _) => apply within_asks
  | |- within _ (currentUser _) => apply within_asks
  | |- within _ (on_dir _) => apply within_on_dir
  | |- within _ (on_revocations _) => apply within_on_revocations
  | |- within _ (publish _ _ _ _) => apply within_publish
  | |- within _ (authenticateUser _ _ _) => apply within_authenticate
  | |- within _ (replying _) => apply within_replying
  | |- within _ (over _ _ _ _) => apply within_over; intros ? ? ?
  | |- within _ (match ?x with _ => _ end) => destruct x
  end.

(** ** What a route may write *)

Section Footprint.
Context `{GoLib} `{AuthLib} `{SecretLib} `{OidcLib} {ip : Type} `{NetLib ip} {D : Type} `{ldapDirectory D} (cfg : config ip).
Local Abbreviation idm := (IdentityRepository.idm (D := D)).

(** The user name of a login request and its record of failures. *)
Definition login_name (r : identity_request) : string :=
  match sq_body (iq_service r) with Ok payload => TrimSpace (textValue payload "username") | Err _ => "" end.
Definition login_id (r : identity_request) : string := failure_id cfg r (login_name r).

(** An update of a user that leaves its standing alone. *)
Definition standing_keys : list string := ["system_role"; "role"; "capabilities"; "Capabilities"].
Definition gentle (d : object) : Prop := forall k, k ∈ standing_keys -> d !! k = None.

Definition access_token (r : identity_request) (uid : string) (i : nat) : string := "access." +:+ uid +:+ "." +:+ iq_hex r (2 * i).
Definition refresh_token (r : identity_request) (i : nat) : string := "refresh." +:+ iq_hex r (2 * i + 1).

Inductive failure_write (r : identity_request) : store_op -> Prop :=
| FailureWrite o : op_at o = (loginFailuresResource, Some (login_id r)) -> failure_write r o.
Inductive captcha_write : store_op -> Prop :=
| CaptchaWrite o id : op_at o = (captchasResource, Some id) -> captcha_write o.
Inductive session_write (r : identity_request) : store_op -> Prop :=
| SessionWrite o uid i : op_at o = (sessionsResource, Some (access_token r uid i)) -> session_write r o
| RefreshWrite o i : op_at o = (refreshTokensResource, Some (refresh_token r i)) -> session_write r o
| OnlineWrite uid t : session_write r (OpUpdate usersResource uid {[ "status" := VString "online" ]} t).
Inductive logout_write : store_op -> Prop :=
| LogoutSession t : logout_write (OpDelete sessionsResource t)
| LogoutRefresh t : logout_write (OpDelete refreshTokensResource t)
| OfflineWrite uid t : logout_write (OpUpdate usersResource uid {[ "status" := VString "offline" ]} t).
Inductive token_write : store_op -> Prop :=
| TokenWrite o : (op_at o).1 = apiTokensResource -> token_write o.
Inductive register_write : store_op -> Prop :=
| RegisterNext : register_write (OpNextID usersResource "US" 2600001 0)
| RegisterUser id username email fullName hash i t :
    register_write (OpCreate usersResource (new_user id username email fullName hash) i t).
Inductive gentle_write : store_op -> Prop :=
| GentleWrite uid d t : gentle d -> gentle_write (OpUpdate usersResource uid d t).
Inductive admin_write : store_op -> Prop :=
| AdminWrite o : (op_at o).1 = usersResource \/ (op_at o).1 = apiTokensResource -> admin_write o.

(** The records the generic route for settings writes; the handlers keep settings in the user. *)
Definition userSettingsResource : string := "identity-service:user_settings".
Inductive settings_write : store_op -> Prop :=
| SettingsWrite o : (op_at o).1 = userSettingsResource -> settings_write o.

(** [admin] tells whether the caller is an administrator, for the route. *)
Definition footprint (admin : bool) (rt : identity_route) (r : identity_request) (o : store_op) : Prop :=
  match rt with
  | ICaptcha => captcha_write o
  | ILogin => failure_write r o \/ captcha_write o \/ session_write r o
  | ICLILogin => failure_write r o \/ token_write o
  | ILogout => logout_write o
  | IRegister => register_write o
  | IRefresh => session_write r o \/ logout_write o
  | IOidcCallback => session_write r o
  | ICreateToken | IRevokeToken | IRevokeCurrent | IAuthToken => token_write o
  | IBatchCreate | IBatchDelete | IBatchPassword | IBatchRole | IDeleteUser => admin = true /\ admin_write o
  | IUpdateUser => gentle_write o \/ admin = true /\ admin_write o
  | IUpdateSettings => gentle_write o
  | ICleanup => logout_write o \/ token_write o
  | IGeneric GPatchSettings => settings_write o
  | IGeneric _ => admin = true /\ admin_write o
  | _ => False
  end.

(** Whether the caller of a request is an administrator. *)
Definition caller_admin (s : store) (r : identity_request) : bool :=
  match current_user s r with Some user => isAdminUser (iu_Data user) | None => false end.

(** Whether the caller passes for an administrator on the route: by its user record where the
    handler looks, by the guard in front of the generic handler. *)
Definition acts_admin (s : store) (rt : identity_route) (r : identity_request) : bool :=
  match rt with
  | IGeneric _ => negb (cf_RequireAuth cfg) || adminAllowed s (sq_http (iq_service r))
  | _ => caller_admin s r
  end.

End Footprint.

(** ** Every route keeps to its footprint *)

Create HintDb footprint.

(** ** The repositories *)

Section Repositories.
Context `{GoLib} `{AuthLib} `{SecretLib} {P : store_op -> Prop}.

Lemma SetUserStatus_reach s id status now : P (OpUpdate usersResource id {[ "status" := VString status ]} now) -> reach P s (SetUserStatus s id status now).1.
Proof.
  intros Hp. unfold SetUserStatus, UpdateUser. destruct (str_empty _); [reflexivity|].
  pose proof (reach_Update s _ _ _ _ Hp) as Hr. by destruct (Update _ _ _ _ _).
Qed.

Lemma UpdateUser_reach s id d now : P (OpUpdate usersResource id d now) -> reach P s (UpdateUser s id d now).1.
Proof.
  intros Hp. unfold UpdateUser. destruct (str_empty _); [reflexivity|].
  pose proof (reach_Update s _ _ _ _ Hp) as Hr. by destruct (Update _ _ _ _ _).
Qed.

Section Sessions.
Context (r : identity_request) (Hp : forall o, session_write r o -> P o).

Lemma createSession_reach s uid i newID ttl : reach P s (createSession s (access_token r uid i) uid newID (iq_now r) ttl).1.
Proof. apply reach_Create, Hp. by apply (SessionWrite r _ uid i). Qed.
Lemma createRefreshToken_reach s uid i newID ttl : reach P s (createRefreshToken s (refresh_token r i) uid newID (iq_now r) ttl).1.
Proof. apply reach_Create, Hp. by apply (RefreshWrite r _ i). Qed.

Lemma issue_attempts_reach uid a b atts s : reach P s (issue_attempts atts r uid a b s).1.
Proof.
  revert s. induction atts as [|i atts IH]; intros s; cbn [issue_attempts]; [reflexivity|].
  fold (access_token r uid i). fold (refresh_token r i).
  pose proof (createSession_reach s uid i (sq_newid (iq_service r) (2 * i)) a) as Hr1.
  destruct (createSession _ _ _ _ _ _) as [s1 [x|e]]; cbn [fst] in *; [|etrans; [exact Hr1|apply IH]].
  pose proof (createRefreshToken_reach s1 uid i (sq_newid (iq_service r) (2 * i + 1)) b) as Hr2.
  destruct (createRefreshToken _ _ _ _ _ _) as [s2 [y|e]]; cbn [fst] in *; [by etrans|].
  etrans; [exact Hr1|]. etrans; [exact Hr2|]. etrans; [|apply IH]. apply reach_Delete, Hp. by apply (SessionWrite r _ uid i).
Qed.

End Sessions.

Lemma ConsumeRefreshToken_reach s token now : P (OpDelete refreshTokensResource token) -> reach P s (ConsumeRefreshToken s token now).1.
Proof.
  intros Hp. unfold ConsumeRefreshToken. destruct (Get _ _ _); [|reflexivity]. destruct (expiredAt _ _); [reflexivity|].
  pose proof (reach_Delete s _ _ Hp) as Hr. by destruct (Delete _ _ _).
Qed.

Lemma RevokeSession_reach s token : P (OpDelete sessionsResource token) -> reach P s (RevokeSession s token).1.
Proof.
  intros Hp. unfold RevokeSession. destruct (Get _ _ _); [|reflexivity].
  pose proof (reach_Delete s _ _ Hp) as Hr. by destruct (Delete _ _ _).
Qed.

Lemma cleanup_reach res f (Hp : forall id, P (OpDelete res id)) l s n : reach P s (cleanup_records res l f s n).1.
Proof.
  revert s n. induction l as [|rc l IH]; intros s n; cbn [cleanup_records]; [reflexivity|]. destruct (f _); [|apply IH].
  pose proof (reach_Delete s _ _ (Hp (rec_ID rc))) as Hr. destruct (Delete _ _ _). etrans; [exact Hr|apply IH].
Qed.

Section Tokens.
Context (HT : forall o, token_write o -> P o).

Lemma token_next s : reach P s (next_id s apiTokensResource "AT").1.
Proof. apply reach_next, HT. by constructor. Qed.
Lemma token_create s d i t : reach P s (Create s apiTokensResource d i t).1.
Proof. apply reach_Create, HT. by constructor. Qed.
Lemma token_update s id d t : reach P s (Update s apiTokensResource id d t).1.
Proof. apply reach_Update, HT. by constructor. Qed.

Lemma RevokeAPIToken_reach s uid id now : reach P s (RevokeAPIToken s uid id now).1.
Proof.
  unfold RevokeAPIToken. destruct (str_empty _); [reflexivity|]. destruct (Get _ _ _); [|reflexivity]. cbn zeta. destruct (_ || _); [reflexivity|].
  pose proof (token_update s id {[ "revoked" := VBool true; "revoked_at" := VString (format_rfc3339 now) ]} now) as Hr. by destruct (Update _ _ _ _ _).
Qed.

Lemma revoke_all_reach l uid now s : reach P s (revoke_all l uid now s).1.
Proof.
  revert s. induction l as [|t l IH]; intros s; cbn [revoke_all]; [reflexivity|]. destruct (_ || _); [apply IH|].
  pose proof (RevokeAPIToken_reach s uid (at_ID t) now) as Hr. destruct (RevokeAPIToken _ _ _ _) as [s1 u]. specialize (IH s1).
  destruct (revoke_all _ _ _ s1) as [s2 l2]. by etrans.
Qed.

Lemma Touch_reach s id now : reach P s (TouchAPITokenLastUsed s id now).1.
Proof.
  unfold TouchAPITokenLastUsed.
  pose proof (token_update s id {[ "last_used_at" := VString (format_rfc3339 now) ]} now) as Hr. by destruct (Update _ _ _ _ _).
Qed.

Lemma token_attempts_reach r uid name ttl l s : reach P s (token_attempts l r uid name ttl s).1.
Proof.
  revert s. induction l as [|i l IH]; intros s; cbn [token_attempts]; [reflexivity|].
  pose proof (token_next s) as Hn. destruct (next_id _ _ _) as [s1 drawn].
  set (d := api_token_row _ _ _ _ _ _ _). pose proof (token_create s1 d (sq_newid (iq_service r) i) (iq_now r)) as Hc.
  destruct (Create s1 _ _ _ _) as [s2 [rc|e]]; cbn [fst] in *; [by etrans|]. etrans; [exact Hn|]. etrans; [exact Hc|apply IH].
Qed.

End Tokens.

Lemma Cleanup_reach s now : (forall o, logout_write o \/ token_write o -> P o) -> reach P s (CleanupExpiredAuthRecords s now).1.
Proof.
  intros Hp. unfold CleanupExpiredAuthRecords, cleanupResource.
  pose proof (cleanup_reach sessionsResource (fun data => expiredAt data now) (fun id => Hp _ (or_introl (LogoutSession id))) (List_ s sessionsResource) s 0) as Hr1.
  destruct (cleanup_records sessionsResource _ _ _ _) as [s1 n1].
  pose proof (cleanup_reach refreshTokensResource (fun data => expiredAt data now) (fun id => Hp _ (or_introl (LogoutRefresh id))) (List_ s1 refreshTokensResource) s1 0) as Hr2.
  destruct (cleanup_records refreshTokensResource _ _ _ _) as [s2 n2].
  pose proof (cleanup_reach apiTokensResource (stale_token now) (fun id => Hp _ (or_intror (TokenWrite (OpDelete _ id) eq_refl))) (List_ s2 apiTokensResource) s2 0) as Hr3.
  destruct (cleanup_records apiTokensResource _ _ _ _) as [s3 n3]. cbn [fst] in *. etrans; [exact Hr1|]. by etrans.
Qed.

Lemma WithTx_user_reach a id d now build : P (OpUpdate usersResource id d now) ->
  reach P (app_Store a) (app_Store (WithTx (E := unit) a (
        updated <-- UpdateUserTx id d now ;;
        match updated with None => stm_ret None | Some rc => tx_Emit (build rc) ;;; stm_ret (Some rc) end)).1).
Proof.
  intros Hp. rewrite WithTx_store. unfold UpdateUserTx. destruct (str_empty _); [reflexivity|].
  pose proof (reach_Update (app_Store a) usersResource id d now Hp) as Hr. unfold stm_bind, tx_Update. cbn [tx_store].
  by destruct (Update _ _ _ _ _) as [s' [rc|]].
Qed.

Lemma WithTx_delete_reach a id e : P (OpDelete usersResource id) ->
  reach P (app_Store a) (app_Store (WithTx (E := unit) a (deleted <-- DeleteUserTx id ;; if deleted : bool then tx_Emit e ;;; stm_ret true else stm_ret false)).1).
Proof.
  intros Hp. rewrite WithTx_store. unfold DeleteUserTx. destruct (str_empty _); [reflexivity|].
  pose proof (reach_Delete (app_Store a) usersResource id Hp) as Hr. unfold stm_bind, tx_Delete. cbn [tx_store].
  by destruct (Delete _ _ _) as [s' []].
Qed.

End Repositories.

(** ** The handlers *)

Section Handlers.
Context `{GoLib} `{AuthLib} `{SecretLib} `{OidcLib} {ip : Type} `{NetLib ip} {D : Type} `{ldapDirectory D} (cfg : config ip).
Local Abbreviation idm := (IdentityRepository.idm (D := D)).
Local Abbreviation within := (within (D := D)).
Context {P : store_op -> Prop} (r : identity_request).

Lemma within_requireCurrent : within P (requireCurrent r).
Proof. unfold requireCurrent. repeat within_step. Qed.
Lemma within_requireAdmin : within P (requireAdmin r).
Proof. unfold requireAdmin. repeat within_step. apply within_requireCurrent. Qed.
Lemma within_actorSelfOrAdmin id : within P (actorSelfOrAdmin cfg r id).
Proof. unfold actorSelfOrAdmin. repeat within_step. Qed.
Lemma within_requireSelfOrAdmin id : within P (requireSelfOrAdmin cfg r id).
Proof. unfold requireSelfOrAdmin. repeat within_step. apply within_actorSelfOrAdmin. Qed.
Lemma within_authorize_service : within P (authorize_service cfg r).
Proof. unfold authorize_service. repeat within_step. Qed.

Section Failures.
Context (HF : forall o, failure_write cfg r o -> P o).
Local Abbreviation name := (login_name r).

Lemma within_loginLocked : within P (loginLocked cfg r name).
Proof.
  apply within_changes. intros s Hf. unfold login_locked. destruct (Get s _ _) as [rc|] eqn:E; [|reflexivity]. cbn zeta.
  destruct (str_empty _); [reflexivity|]. destruct (parse_rfc3339 _); [|reflexivity]. destruct (_ <? _); [reflexivity|]. cbn [fst].
  apply reach_Delete, HF. constructor. cbn. by rewrite (Hf _ _ _ E).
Qed.

Lemma failure_row_id i n : create_id (failure_row cfg r name n) i = login_id cfg r.
Proof. unfold create_id, failure_row. cbn zeta. unfold mget. destruct (_ <? _); [rewrite lookup_insert_ne by done|]; reflexivity. Qed.

Lemma failure_update s d : reach P s (Update s loginFailuresResource (failure_id cfg r name) d (iq_now r)).1.
Proof. apply reach_Update, HF. by constructor. Qed.

Lemma within_recordLoginFailure : within P (recordLoginFailure cfg r name).
Proof.
  apply within_changes. intros s Hf. unfold record_failure. cbn [fst]. destruct (Get s _ _) as [rc|]; [apply failure_update|].
  assert (reach P s (Create s loginFailuresResource (failure_row cfg r name 1) (sq_newid (iq_service r) 0) (iq_now r)).1) as Hc.
  { apply reach_Create, HF. constructor. cbn [op_at]. by rewrite failure_row_id. }
  destruct (Create _ _ _ _ _) as [s' [rc|e]]; cbn [fst] in Hc; [exact Hc|]. etrans; [exact Hc|].
  unfold updateConflictingLoginFailure. destruct (Get s' _ _); [apply failure_update|reflexivity].
Qed.

Lemma within_rejected {A} path reason text : within P (rejected (A := A) cfg r name path reason text).
Proof. unfold rejected, publishLoginFailure. repeat within_step. apply within_recordLoginFailure. Qed.

Lemma within_clearLoginFailures : within P (clearLoginFailures cfg r name).
Proof. apply within_changes. intros ? _. apply reach_Delete, HF. by constructor. Qed.

Lemma within_validateLoginCaptcha payload : (forall o, captcha_write o -> P o) -> within P (validateLoginCaptcha cfg r name payload).
Proof.
  intros HC. assert (forall id answer, within P (verifyCaptcha (D := D) r id answer)) as Hv.
  { intros id answer. apply within_changes. intros ? _. unfold verify_captcha. destruct (Get s _ _); [|reflexivity]. apply reach_Delete, HC. by econstructor. }
  unfold validateLoginCaptcha, captchaRequired, rejectInvalidCaptcha. repeat within_step; first [apply Hv|apply within_rejected].
Qed.

End Failures.

Lemma within_with_session user k : (forall o, session_write r o -> P o) -> (forall tokens shown, within P (k tokens shown)) -> within P (with_session r user k).
Proof.
  intros HS Hk. unfold with_session, issueSession. cbn zeta. repeat within_step; try apply Hk; apply within_changes; intros ? _.
  - by apply issue_attempts_reach.
  - apply SetUserStatus_reach, HS. constructor.
Qed.

Lemma within_revokeCredential kind id e : within P (revokeCredential r kind id e).
Proof. unfold revokeCredential. cbn zeta. repeat within_step. Qed.

Section Tokens.
Context (HT : forall o, token_write o -> P o).

Lemma within_createAPITokenForUser uid name : within P (createAPITokenForUser cfg r uid name).
Proof.
  unfold createAPITokenForUser, publishAPITokenEvent. cbn zeta. repeat within_step. apply within_changes. intros ? _. by apply token_attempts_reach.
Qed.

Lemma within_revoke_own user id : within P (revoke_own cfg r user id).
Proof.
  unfold revoke_own, revokeTokenForUser, publishAPITokenEvent. cbn zeta. repeat within_step; [|apply within_revokeCredential].
  apply within_changes. intros ? _. by apply RevokeAPIToken_reach.
Qed.

Lemma within_revokeUserCredentials uid : within P (revokeUserCredentials r uid).
Proof.
  unfold revokeUserCredentials. within_step; [apply within_changes; intros ? _; by apply revoke_all_reach|].
  match goal with |- within _ (deny_tokens _ ?l) => induction l end; cbn [deny_tokens]; [apply within_ret|]. within_step; [apply within_revokeCredential|done].
Qed.

Lemma within_verifyInternalAPIToken token : within P (verifyInternalAPIToken r token).
Proof.
  unfold verifyInternalAPIToken, internalCredentialRevoked. repeat within_step. apply within_changes. intros ? _. by apply Touch_reach.
Qed.

End Tokens.

Lemma within_sync_user user password keep : within P (sync_user cfg user password keep).
Proof. unfold sync_user. repeat within_step. Qed.

Lemma within_sync_then_update current id update password now build : P (OpUpdate usersResource id update now) ->
  within P (sync_then_update cfg current id update password now build).
Proof.
  intros Hp. assert (within P (updateUserLocal (D := D) id update now build)) as Hu.
  { destruct build as [b|]; cbn [updateUserLocal].
    - apply within_on_app. intros a. pose proof (WithTx_user_reach a id update now b Hp) as Hr. by destruct (WithTx _ _) as [a' []].
    - apply within_changes. intros ? _. by apply UpdateUser_reach. }
  unfold sync_then_update, compensateLDAPUpsert. repeat first [exact Hu|apply within_sync_user|within_step].
Qed.

Lemma within_mirror known users : within P (mirror_users known users).
Proof. induction users as [|rc users IH]; cbn [mirror_users]; repeat first [exact IH|within_step]. Qed.

Lemma within_register k : (forall o, register_write o -> P o) -> within P (register cfg r k).
Proof.
  intros HR. unfold register, createUserWithLDAP, compensateLDAPUpsert. repeat within_step; [|apply within_sync_user|].
  - apply within_changes. intros ? _. apply reach_next, HR. constructor.
  - apply within_on_app. intros ap. unfold CreateUserWithEvent.
    set (u := new_user _ _ _ _ _). set (b := fun rc : record => _). set (i := sq_newid _ _).
    pose proof (CreateRecordWithEvent_store ap usersResource u (Some b) i (iq_now r)) as Hs.
    destruct (CreateRecordWithEvent _ _ _ _ _ _) as [a' res]. cbn [fst] in *. rewrite Hs. apply reach_Create, HR. constructor.
Qed.

Lemma within_deleteUser k : (forall o, admin_write o -> P o) -> within P (deleteUser cfg r k).
Proof.
  intros HA. unfold deleteUser, deleteUserWithLDAP, deleteUserLocal. repeat within_step; [apply within_requireAdmin| |].
  - apply within_on_app. intros ap. set (ev := identityEvent _ _ _ _).
    pose proof (WithTx_delete_reach ap (pathValue r "id") ev (HA _ (AdminWrite (OpDelete _ _) (or_introl eq_refl)))) as Hr. by destruct (WithTx _ _) as [a' []].
  - apply within_revokeUserCredentials. intros o [o' Ho]. apply HA. constructor. by right.
Qed.

End Handlers.

(** ** The routes *)

Section Routes.
Context `{GoLib} `{AuthLib} `{SecretLib} `{OidcLib} {ip : Type} `{NetLib ip} {D : Type} `{ldapDirectory D} (cfg : config ip).
Local Abbreviation within := (within (D := D)).

Lemma copy_keys_other keys payload update k : k ∉ keys -> copy_keys keys payload update !! k = update !! k.
Proof.
  unfold copy_keys. revert update. induction keys as [|key keys IH]; intros update Hk; [done|]. cbn [fold_left].
  rewrite IH by set_solver. destruct (payload !! key); [|done]. rewrite lookup_insert_ne; [done|set_solver].
Qed.

Lemma not_standing keys k : forallb (fun x => negb (bool_decide (x ∈ standing_keys))) keys = true -> k ∈ standing_keys -> k ∉ keys.
Proof.
  intros Hb Hk Hin. rewrite forallb_forall in Hb. apply list_elem_of_In in Hin. apply Hb in Hin. by rewrite bool_decide_true in Hin.
Qed.

Lemma userUpdate_gentle r payload : gentle (userUpdate r payload false).
Proof.
  intros k Hk. unfold userUpdate. cbn zeta.
  assert (forall k' v (m : object), k' ∉ standing_keys -> m !! k = None -> <[k' := v]> m !! k = None) as Hi.
  { intros k' v m Hn Hm. rewrite lookup_insert_ne; [done|]. by intros ->. }
  assert (copy_keys ["username"; "email"; "name"; "full_name"] payload ∅ !! k = None) as Hc.
  { rewrite copy_keys_other; [done|]. by apply not_standing. }
  destruct (str_empty _), (bool_decide (MapValue payload ["settings"] = ∅)), (bool_decide _); repeat (apply Hi; [by apply (bool_decide_unpack _)|]); exact Hc.
Qed.

Lemma settings_gentle settings now : gentle {[ "settings" := VMap settings; "updated_at" := VString (format_rfc3339 now) ]}.
Proof.
  intros k Hk. apply (not_standing ["settings"; "updated_at"]) in Hk; [|done]. rewrite !not_elem_of_cons in Hk. destruct Hk as (Hs & Hu & _).
  rewrite lookup_insert_ne by congruence. by rewrite lookup_singleton_ne by congruence.
Qed.

Lemma within_mono {A} (P Q : store_op -> Prop) (c : idm A) : (forall o, P o -> Q o) -> within P c -> within Q c.
Proof. intros Hi Hc st Hf. eapply reach_mono; [exact Hi|]. by apply Hc. Qed.

(** What only administrators are let through to. *)
Definition administrative (rt : identity_route) : bool :=
  match rt with IBatchCreate | IBatchDelete | IBatchPassword | IBatchRole | IDeleteUser | IUpdateUser | IGeneric _ => true | _ => false end.

Local Hint Resolve within_requireCurrent within_requireAdmin within_actorSelfOrAdmin within_requireSelfOrAdmin within_authorize_service within_revokeCredential : footprint.
Local Hint Constructors failure_write captcha_write session_write logout_write token_write register_write gentle_write admin_write : footprint.

Ltac walk := repeat first [within_step|solve [eauto with footprint]].

Lemma login_name_payload r payload : sq_body (iq_service r) = Ok payload -> TrimSpace (textValue payload "username") = login_name r.
Proof. intros E. unfold login_name. by rewrite E. Qed.

Lemma within_login admin r : within (footprint cfg admin ILogin r) (login cfg r).
Proof.
  apply within_decode_bind. intros payload Eb. cbn zeta. rewrite (login_name_payload r payload Eb). unfold publishLoginFailure. walk.
  - apply within_loginLocked. cbn. auto.
  - apply within_validateLoginCaptcha; cbn; auto.
  - apply within_clearLoginFailures. cbn. auto.
  - apply within_with_session; [cbn; auto|]. intros. walk.
  - apply within_rejected. cbn. auto.
Qed.

Lemma within_cliLogin admin r : within (footprint cfg admin ICLILogin r) (cliLogin cfg r).
Proof.
  apply within_decode_bind. intros payload Eb. cbn zeta. rewrite (login_name_payload r payload Eb). unfold publishLoginFailure. walk.
  - apply within_loginLocked. cbn. auto.
  - apply within_clearLoginFailures. cbn. auto.
  - apply within_createAPITokenForUser; cbn; auto.
  - apply within_rejected. cbn. auto.
Qed.

Lemma within_logout admin r : within (footprint cfg admin ILogout r) (logout (D := D) r).
Proof.
  unfold logout. cbn zeta. walk; apply within_changes; intros ? _.
  - apply RevokeSession_reach. constructor.
  - apply SetUserStatus_reach. constructor.
  - apply reach_Delete. constructor.
Qed.

Lemma within_refreshToken admin r : within (footprint cfg admin IRefresh r) (refreshToken (D := D) r).
Proof.
  unfold refreshToken. cbn zeta. walk.
  - apply within_changes. intros ? _. apply ConsumeRefreshToken_reach. right. constructor.
  - apply within_with_session; [cbn; auto|]. intros. walk.
Qed.

Lemma within_oidcCallback admin r : within (footprint cfg admin IOidcCallback r) (oidcCallback cfg r).
Proof. unfold oidcCallback, oidcProviderUnavailable. cbn zeta. walk. apply within_with_session; [cbn; auto|]. intros. walk. Qed.

Lemma within_updateUserSettings admin r : within (footprint cfg admin IUpdateSettings r) (updateUserSettings cfg r).
Proof.
  unfold updateUserSettings. cbn zeta. walk. apply within_changes. intros s _. unfold UpdateUserSettings.
  match goal with |- context [UpdateUser s ?id ?d ?t] => pose proof (UpdateUser_reach (P := footprint cfg admin IUpdateSettings r) s id d t) as Hr; destruct (UpdateUser s id d t) end.
  apply Hr. cbn. constructor. apply settings_gentle.
Qed.

(** The routes open to all, and the tasks. *)
Lemma within_common admin rt r : administrative rt = false -> within (footprint cfg admin rt r) (dispatch cfg rt r).
Proof.
  destruct rt; intros Ha; try done; cbn [dispatch];
    first [apply within_login|apply within_cliLogin|apply within_logout|apply within_refreshToken|apply within_oidcCallback
          |apply within_updateUserSettings|by apply within_register|idtac].
  - unfold getCaptcha. destruct (iq_captcha r). walk. apply within_changes. intros ? _. apply reach_Create. cbn. by econstructor.
  - unfold listAPITokens. walk.
  - unfold createAPIToken. cbn zeta. walk. apply within_createAPITokenForUser. cbn. auto.
  - unfold revokeAPIToken. walk. apply within_revoke_own. cbn. auto.
  - unfold revokeCurrentAPIToken. cbn zeta. walk. apply within_revoke_own. cbn. auto.
  - unfold listUsers. walk.
  - unfold listUsersPaging. cbn zeta. walk.
  - unfold resolveUsers. cbn zeta. walk.
  - unfold getUserByID. walk.
  - unfold getUserSettings. walk.
  - unfold oidcLoginForm, oidcProviderUnavailable. walk.
  - unfold oidcLogin, oidcProviderUnavailable. walk.
  - unfold oidcToken, oidcProviderUnavailable. cbn zeta. walk.
  - unfold oidcRevoke, oidcProviderUnavailable. walk.
  - unfold oidcAuthorize, oidcProviderUnavailable. walk.
  - unfold oidcUserInfo, oidcProviderUnavailable. cbn zeta. walk.
  - unfold oidcProviderUnavailable. walk.
  - unfold oidcRevokeViaDenylist. cbn zeta. walk.
  - unfold downloadCLICACert. walk.
  - unfold internalReadUsersList. walk.
  - unfold internalReadUserGet, missing. cbn zeta. walk.
  - unfold internalReadRolesList. walk.
  - unfold internalReadRoleGet, missing. cbn zeta. walk.
  - unfold internalAuthorizeSession, internalCredentialRevoked. cbn zeta. walk.
  - unfold internalAuthorizeAPIToken. cbn zeta. walk. apply within_verifyInternalAPIToken. cbn. auto.
  - walk. apply within_changes. intros s _. pose proof (Cleanup_reach (P := footprint cfg admin ICleanup r) s (iq_now r) (fun o Ho => Ho)) as Hr. by destruct (CleanupExpiredAuthRecords _ _).
  - walk. intros st Hf. unfold syncLDAPMirror. destruct (negb _); [reflexivity|]. destruct (ListUsernames _); [|reflexivity]. by apply within_mirror.
Qed.

(** An administrator's requests. *)
Lemma within_administrative rt r : administrative rt = true -> (forall g, rt ≠ IGeneric g) -> within (footprint cfg true rt r) (dispatch cfg rt r).
Proof.
  assert (forall o, admin_write o -> true = true /\ admin_write o) as HA by done.
  assert (forall id d t, admin_write (OpUpdate usersResource id d t)) as HU by (intros; constructor; by left).
  destruct rt as [| | | | | | | | | | | | | | | | | | | | | | | | | | | | | | | | | | | | | |g| |]; intros Ha Hg; try done; try (by destruct (Hg g)); cbn [dispatch].
  - unfold batchCreateUsers. walk. apply within_register. intros o Ho. split; [done|]. constructor. left. by destruct Ho.
  - unfold batchDeleteUsers. walk. by apply within_deleteUser.
  - unfold batchResetPassword, resetUserPasswordWithLDAP. cbn zeta. walk. apply within_sync_then_update. split; [done|apply HU].
  - unfold batchUpdateRole, updateUserRoleWithLDAP. walk. apply within_sync_then_update. split; [done|apply HU].
  - unfold updateUser, updateUserWithLDAP. cbn zeta. walk. apply within_sync_then_update. right. split; [done|apply HU].
  - by apply within_deleteUser.
Qed.

(** Anybody else is turned away, or changes a user that keeps its standing. *)
Lemma requireAdmin_refuses r (st : identity_state D) : caller_admin (is_store st) r = false -> exists e, requireAdmin r st = (st, Err e).
Proof.
  unfold caller_admin, requireAdmin, requireCurrent, currentUser, asks, stm_bind. destruct (current_user _ r) as [user|]; cbn; [|by eexists].
  intros ->. by eexists.
Qed.

Lemma actorSelfOrAdmin_gentle r id (st : identity_state D) : caller_admin (is_store st) r = false ->
  exists out, actorSelfOrAdmin cfg r id st = (st, out) /\ forall actor, out = Ok actor -> isAdminUser actor = false.
Proof.
  unfold caller_admin, actorSelfOrAdmin, currentUser, asks, stm_bind. destruct (current_user _ r) as [user|]; cbn.
  - intros Ha. rewrite Ha, orb_false_r. unfold demand. destruct (String.eqb _ _); cbn; eexists; (split; [reflexivity|]); [by intros actor [= <-]|done].
  - intros _. destruct (platformAuthenticated _ _); cbn; eexists; (split; [reflexivity|]); [by intros actor [= <-]|done].
Qed.

Lemma updateUser_gentle r (st : identity_state D) : filed (is_store st) -> caller_admin (is_store st) r = false ->
  reach (footprint cfg false IUpdateUser r) (is_store st) (is_store (updateUser cfg r st).1).
Proof.
  intros Hf Hc. unfold updateUser. cbn zeta. destruct (actorSelfOrAdmin_gentle r (pathValue r "id") st Hc) as (out & Eo & Ho).
  unfold stm_bind at 1. rewrite Eo. destruct out as [actor|]; [|reflexivity]. rewrite (Ho actor eq_refl). revert st Hf Hc Eo.
  enough (within (footprint cfg false IUpdateUser r) (
    payload <-- decode r msgInvalidInput;;
    demand (negb (bool_decide (userUpdate r payload false = ∅))) StatusBadRequest "no updatable fields";;;
    rc <-- updateUserWithLDAP cfg r (pathValue r "id") payload (userUpdate r payload false) (Some (user_updated r 0));;
    say StatusOK (BMap (publicUser (rec_Data rc))))) as Hw by (intros st Hf _ _; by apply Hw).
  unfold updateUserWithLDAP. walk. apply within_sync_then_update. left. constructor. apply userUpdate_gentle.
Qed.

Lemma admin_guard {A} r (k : idm A) (st : identity_state D) : caller_admin (is_store st) r = false -> is_store ((requireAdmin r ;;; k) st).1 = is_store st.
Proof. intros Hc. destruct (requireAdmin_refuses r st Hc) as [e He]. unfold stm_bind. by rewrite He. Qed.

Lemma op_at_resource o : (op_at o).1 = op_resource o.
Proof. by destruct o. Qed.

(** The generic routes write users for administrators, and settings. *)
Lemma generic_footprint g r (st : identity_state D) :
  reach (footprint cfg (acts_admin cfg (is_store st) (IGeneric g) r) (IGeneric g) r) (is_store st) (is_store (dispatch cfg (IGeneric g) r st).1).
Proof.
  destruct (serve_generic_ops cfg (is_app st) (iq_service r) (generic_spec g)) as (ops & Hops & Hs).
  cbn [dispatch]. unfold stm_bind, on_app. destruct (serve_generic _ _ _ _) as [a' resp]. cbn [fst snd] in *.
  exists ops. split; [|exact Hs]. eapply Forall_impl; [exact Hops|]. intros o [Ho Ha]. cbn beta in *. unfold acts_admin.
  assert (rt_Admin (generic_spec g) = true -> negb (cf_RequireAuth cfg) || adminAllowed (is_store st) (sq_http (iq_service r)) = true) as Hadm.
  { intros Had. destruct (cf_RequireAuth cfg); [cbn; apply Ha; [done|by destruct g|done]|done]. }
  destruct g; cbn [footprint]; first [split; [by apply Hadm|constructor; left; by rewrite op_at_resource, Ho]|constructor; by rewrite op_at_resource, Ho].
Qed.

(** Every route keeps to the footprint it has for its caller. *)
Lemma dispatch_footprint rt r (st : identity_state D) : filed (is_store st) ->
  reach (footprint cfg (acts_admin cfg (is_store st) rt r) rt r) (is_store st) (is_store (dispatch cfg rt r st).1).
Proof.
  intros Hf. destruct (administrative rt) eqn:Ea; [|by apply within_common].
  assert ((exists g, rt = IGeneric g) \/ (forall g, rt ≠ IGeneric g) /\ acts_admin cfg (is_store st) rt r = caller_admin (is_store st) r) as [[g ->]|[Hg ->]].
  { destruct rt; eauto. }
  { apply generic_footprint. }
  destruct (caller_admin (is_store st) r) eqn:Ec; [by apply within_administrative|].
  destruct rt as [| | | | | | | | | | | | | | | | | | | | | | | | | | | | | | | | | | | | | |g| |]; try done; try (by destruct (Hg g)); cbn [dispatch]; unfold batchCreateUsers, batchDeleteUsers, batchResetPassword, batchUpdateRole, deleteUser;
    try (rewrite admin_guard by exact Ec; reflexivity). by apply updateUser_gentle.
Qed.

End Routes.
