(* ===== verification/IdentitySecurity.v ===== *)
(** * Identity service: what holds over every history of requests

    Administrators are made by administrators only; a session is opened by a password, a
    refresh token or the identity provider, never otherwise; a locked account stays locked;
    a refresh token is good for one exchange and a session ends with its logout, whatever
    else is served in between. *)

From stdpp Require Import base gmap strings list fin_maps relations.
From Stdlib Require Import ZArith Lia Ascii.
From S2P Require Import Prelude GoValue Store EventBus Crud Tx RateLimit InputLimits Config Auth Guards SchedulerHttp ServiceHttp Tables IdentityRepository IdentityAuth IdentityUsers IdentityService.
Local Open Scope Z_scope.
Local Open Scope go_scope.

Section Histories.
Context `{GoLib} `{AuthLib} `{SecretLib} `{OidcLib} {ip : Type} `{NetLib ip} {D : Type} `{ldapDirectory D} (cfg : config ip).
Local Abbreviation idm := (IdentityRepository.idm (D := D)).

(** ** Histories *)

(** Requests, and runs of the maintenance tasks, served one after the other. *)
Definition serve_all (h : list (identity_route * identity_request)) (st : identity_state D) : identity_state D :=
  fold_left (fun st '(rt, r) => (run (dispatch cfg rt r) st).1) h st.

Lemma run_state (c : idm reply) st : (run c st).1 = (c st).1.
Proof. unfold run, replying. by destruct (c st) as [st' [x|[]]]. Qed.

Lemma run_footprint rt r st : filed (is_store st) ->
  reach (footprint cfg (acts_admin cfg (is_store st) rt r) rt r) (is_store st) (is_store (run (dispatch cfg rt r) st).1).
Proof. rewrite run_state. apply dispatch_footprint. Qed.

Lemma run_filed rt r st : filed (is_store st) -> filed (is_store (run (dispatch cfg rt r) st).1).
Proof. intros Hf. eapply reach_filed; [by apply run_footprint|done]. Qed.

(** An invariant of the store that every request of a history keeps. *)
Lemma serve_all_invariant (I : store -> Prop) (ok : identity_route -> identity_request -> Prop) :
  (forall rt r st, ok rt r -> filed (is_store st) -> I (is_store st) -> I (is_store (run (dispatch cfg rt r) st).1)) ->
  forall h st, Forall (fun x => ok x.1 x.2) h -> filed (is_store st) -> I (is_store st) -> filed (is_store (serve_all h st)) /\ I (is_store (serve_all h st)).
Proof.
  intros Hstep h. induction h as [|[rt r] h IH]; intros st Hok Hf Hi; [done|]. apply Forall_cons in Hok as [Ho Hok].
  apply IH; [done|by apply run_filed|by apply Hstep].
Qed.

(** ** Administrators *)

Definition administrator (s : store) (id : string) : Prop := exists rc, Get s usersResource id = Some rc /\ isAdminUser (rec_Data rc) = true.

Lemma isAdminUser_standing (d d' : object) : (forall k, k ∈ standing_keys -> d !! k = d' !! k) -> isAdminUser d = isAdminUser d'.
Proof.
  intros He. assert (forall k, k ∈ standing_keys -> mget d k = mget d' k) as Hm by (intros k Hk; unfold mget; by rewrite (He k Hk)).
  unfold isAdminUser, intValue, textValue, MapValue. cbn [first_key].
  rewrite !Hm by (by apply (bool_decide_unpack _)). reflexivity.
Qed.

Lemma standing_ne k x : bool_decide (x ∈ standing_keys) = false -> k ∈ standing_keys -> x ≠ k.
Proof. intros Hb Hk ->. by rewrite bool_decide_true in Hb. Qed.

(** Writes that appoint nobody, and leave the roles alone. *)
Inductive modest : store_op -> Prop :=
| ModestElsewhere o : (op_at o).1 ≠ usersResource -> (op_at o).1 ≠ rolesResource -> modest o
| ModestNext p b w : modest (OpNextID usersResource p b w)
| ModestCreate d i t : isAdminUser d = false -> d !! "id" ≠ None -> modest (OpCreate usersResource d i t)
| ModestUpdate id d t : gentle d -> modest (OpUpdate usersResource id d t)
| ModestDelete id : modest (OpDelete usersResource id).

Lemma footprint_modest rt r o : footprint cfg false rt r o -> modest o.
Proof.
  assert (forall o, session_write r o -> modest o) as HS.
  { intros o' [o1 uid i Ha|o1 i Ha|uid t]; [apply ModestElsewhere; by rewrite Ha..|]. apply ModestUpdate. intros k Hk. by rewrite lookup_singleton_ne by by apply standing_ne. }
  assert (forall o, logout_write o -> modest o) as HL.
  { intros o' [t|t|uid t]; [by apply ModestElsewhere..|]. apply ModestUpdate. intros k Hk. by rewrite lookup_singleton_ne by by apply standing_ne. }
  assert (forall o, token_write o -> modest o) as HT by (intros o' [o1 Ha]; apply ModestElsewhere; by rewrite Ha).
  assert (forall o, captcha_write o -> modest o) as HC by (intros o' [o1 id Ha]; apply ModestElsewhere; by rewrite Ha).
  assert (forall o, failure_write cfg r o -> modest o) as HF by (intros o' [o1 Ha]; apply ModestElsewhere; by rewrite Ha).
  assert (forall o, gentle_write o -> modest o) as HG by (intros o' [uid d t Hg]; by apply ModestUpdate).
  assert (forall o, settings_write o -> modest o) as HW by (intros o' [o1 Ha]; apply ModestElsewhere; by rewrite Ha).
  destruct rt as [| | | | | | | | | | | | | | | | | | | | | | | | | | | | | | | | | | | | | |[]| |]; cbn [footprint];
    try (by auto); try (by intros [? _]); try (intros [?|[? _]]; [auto|done]); try (intros [?|?]; auto; fail).
  - intros [?|[?|?]]; auto.
  - intros [|id username email fullName hash i t]; [apply ModestNext|by apply ModestCreate].
Qed.

Lemma modest_roles s o : modest o -> bucket (run_op s o) rolesResource = bucket s rolesResource.
Proof.
  intros Hm. apply map_eq. intros id. apply (run_op_elsewhere s o rolesResource id). intros He.
  destruct Hm as [o _ Hr| | | |]; cbn [op_at] in He; try discriminate He. by rewrite He in Hr.
Qed.

(** The guard of the administrator routes reads the verified user and the roles. *)
Lemma guard_roles s s' r : bucket s' rolesResource = bucket s rolesResource -> adminAllowed s' r = adminAllowed s r.
Proof.
  intros Hb. unfold adminAllowed. destruct (verifiedUser r); [|done]. destruct (_ || _); [done|]. cbn zeta.
  change (Guards.rolesResource) with rolesResource. unfold List_. by rewrite Hb.
Qed.

Lemma modest_administrator s o id : modest o -> administrator (run_op s o) id -> administrator s id.
Proof.
  intros Hm (rc & Hg & Ha). destruct (decide (op_at o = (usersResource, Some id))) as [He|Hne]; [|rewrite (run_op_elsewhere s o _ _ Hne) in Hg; by exists rc].
  destruct Hm as [o Hne _|p b w|d i t Hd Hid|id' d t Hd|id']; [by rewrite He in Hne|done| | |]; cbn [op_at] in He; injection He as He; cbn [run_op] in Hg.
  - destruct (Create s usersResource d i t) as [s' [rc'|e]] eqn:E; [|apply Create_err in E as (_ & _ & Hs); cbn [fst] in Hg; rewrite Hs in Hg; by exists rc].
    apply Create_ok in E as (_ & _ & _ & _ & _ & Hk & Hs). cbn [fst] in Hg. rewrite Hs, decide_True in Hg by done. injection Hg as <-.
    rewrite (isAdminUser_standing _ d) in Ha; [congruence|]. intros k Hin. apply Hk. by apply not_eq_sym, standing_ne.
  - pose proof (Update_cases s usersResource id' d t) as HU. destruct (Update s usersResource id' d t) as [s' [rc'|]], (Get s usersResource id') as [old|] eqn:Eo; try done; cbn [fst] in Hg; [|subst; by exists rc].
    destruct HU as (Hk & _ & _ & _ & _ & Hs). rewrite Hs, decide_True in Hg by done. injection Hg as <-. subst id'. exists old. split; [done|].
    rewrite <- Ha. apply isAdminUser_standing. intros k Hin. by rewrite Hk, (Hd k Hin).
  - subst id'. rewrite Delete_Get, decide_True in Hg by done. done.
Qed.

Lemma clone_lookup rc k : k ≠ "id" -> rec_Data (cloneIdentityRecord rc) !! k = rec_Data rc !! k.
Proof.
  intros Hk. unfold cloneIdentityRecord. cbn [rec_Data]. destruct (mget _ _); try done. destruct (str_empty _); [done|]. by rewrite lookup_insert_ne.
Qed.

Lemma caller_administrator s r : caller_admin s r = true -> administrator s (TrimSpace (iq_header r headerUserID)).
Proof.
  unfold caller_admin, current_user, FindActiveUserByID, GetUser. cbn zeta. destruct (str_empty _); [done|]. destruct (str_empty _); [done|].
  destruct (Get s usersResource _) as [rc|] eqn:Eg; [|done]. cbn. unfold userFromRecord. destruct (negb _); [done|]. cbn [iu_Data]. intros Ha. exists rc. split; [done|].
  rewrite <- Ha. apply isAdminUser_standing. intros k Hk. symmetry. by apply clone_lookup, not_eq_sym, standing_ne.
Qed.

(** Nobody acts as an administrator with the request: the record of its caller is not an
    administrator's, and the guard in front of the administrator routes does not let its
    verified user through. *)
Definition unprivileged (s : store) (r : identity_request) : Prop :=
  ~ administrator s (TrimSpace (iq_header r headerUserID)) /\ adminAllowed s (sq_http (iq_service r)) = false.

(** C14: with authentication required, whatever requests are served, in whatever order, as
    long as none of them comes from an administrator, nobody becomes an administrator: no
    route lets a user raise a standing, its own or another's.  The routes are all those of
    the service's table that write records: the ones with a handler, which looks at the
    record of the caller, and the ones the generic record handler serves, which the
    administrator guard protects by the verified user and the roles. *)
Theorem admins_appointed h (st : identity_state D) :
  cf_RequireAuth cfg = true -> filed (is_store st) -> Forall (fun x => unprivileged (is_store st) x.2) h ->
  forall id, administrator (is_store (serve_all h st)) id -> administrator (is_store st) id.
Proof.
  intros Hra Hf Hh.
  apply (serve_all_invariant (fun s => (forall id, administrator s id -> administrator (is_store st) id) /\ bucket s rolesResource = bucket (is_store st) rolesResource)
           (fun _ r => unprivileged (is_store st) r)); [|done..].
  intros rt r st1 [Hr Hg] Hf1 [Hi Hb]. pose proof (run_footprint rt r st1 Hf1) as Hw.
  assert (acts_admin cfg (is_store st1) rt r = false) as Ea.
  { assert (caller_admin (is_store st1) r = false) as Ec by (destruct (caller_admin (is_store st1) r) eqn:Ec; [apply caller_administrator, Hi in Ec; done|done]).
    unfold acts_admin. destruct rt; try exact Ec. by rewrite Hra, (guard_roles _ _ _ Hb), Hg. }
  rewrite Ea in Hw.
  refine (reach_preserves (fun s => (forall id, administrator s id -> administrator (is_store st) id) /\ bucket s rolesResource = bucket (is_store st) rolesResource) _ _ _ Hw (conj Hi Hb)).
  clear. intros s o Ho%footprint_modest [Hi Hb]. split; [intros id Ha; apply Hi; by eapply modest_administrator|by rewrite modest_roles].
Qed.

(** ** Credentials that are gone *)

(** The writes to one session, one refresh token and one record of failed logins. *)
Lemma footprint_kind admin rt r o : footprint cfg admin rt r o ->
  (failure_write cfg r o /\ (rt = ILogin \/ rt = ICLILogin)) \/ (captcha_write o \/ token_write o \/ register_write o \/ gentle_write o \/ admin_write o \/ settings_write o) \/
  (session_write r o /\ (rt = ILogin \/ rt = IRefresh \/ rt = IOidcCallback)) \/ logout_write o.
Proof. destruct rt as [| | | | | | | | | | | | | | | | | | | | | | | | | | | | | | | | | | | | | |[]| |]; cbn [footprint]; intros Hw; intuition. Qed.

Lemma harmless_at o res id : captcha_write o \/ token_write o \/ register_write o \/ gentle_write o \/ admin_write o \/ settings_write o ->
  op_at o = (res, Some id) -> res = captchasResource \/ res = apiTokensResource \/ res = usersResource \/ res = userSettingsResource.
Proof.
  intros [[o1 x Ha]|[[o1 Ha]|[[]|[[uid d t Hg]|[[o1 Ha]|[o1 Ha]]]]]] He; try rewrite He in Ha; cbn in *; naive_solver.
Qed.

Lemma footprint_session admin rt r o id : footprint cfg admin rt r o -> op_at o = (sessionsResource, Some id) ->
  o = OpDelete sessionsResource id \/ (exists uid i, id = access_token r uid i) /\ (rt = ILogin \/ rt = IRefresh \/ rt = IOidcCallback).
Proof.
  intros [[[o1 Ha] _]|[Hw|[[[o1 uid i Ha|o1 i Ha|uid t] Hrt]|[t|t|uid t]]]]%footprint_kind He; try (rewrite Ha in He); try discriminate He.
  - apply (harmless_at _ _ _ Hw) in He. by destruct He as [|[|[|]]].
  - injection He as <-. eauto.
  - injection He as <-. by left.
Qed.

Lemma footprint_refresh admin rt r o id : footprint cfg admin rt r o -> op_at o = (refreshTokensResource, Some id) ->
  o = OpDelete refreshTokensResource id \/ exists i, id = refresh_token r i.
Proof.
  intros [[[o1 Ha] _]|[Hw|[[[o1 uid i Ha|o1 i Ha|uid t] _]|[t|t|uid t]]]]%footprint_kind He; try (rewrite Ha in He); try discriminate He.
  - apply (harmless_at _ _ _ Hw) in He. by destruct He as [|[|[|]]].
  - injection He as <-. eauto.
  - injection He as <-. by left.
Qed.

Lemma footprint_failure admin rt r o id : footprint cfg admin rt r o -> op_at o = (loginFailuresResource, Some id) ->
  (rt = ILogin \/ rt = ICLILogin) /\ id = login_id cfg r.
Proof.
  intros [[[o1 Ha] Hl]|[Hw|[[[o1 uid i Ha|o1 i Ha|uid t] _]|[t|t|uid t]]]]%footprint_kind He; try (rewrite Ha in He); try discriminate He.
  - by injection He as <-.
  - apply (harmless_at _ _ _ Hw) in He. by destruct He as [|[|[|]]].
Qed.

(** A record that is not there stays away while nothing creates it. *)
Lemma run_op_absent s o res id : (op_at o = (res, Some id) -> o = OpDelete res id) -> Get s res id = None -> Get (run_op s o) res id = None.
Proof.
  intros Ho Hn. destruct (decide (op_at o = (res, Some id))) as [He|Hne]; [|by rewrite run_op_elsewhere].
  rewrite (Ho He). cbn [run_op]. rewrite Delete_Get. by case_decide.
Qed.

Lemma run_absent res id rt r st : filed (is_store st) ->
  (forall admin o, footprint cfg admin rt r o -> op_at o = (res, Some id) -> o = OpDelete res id) ->
  Get (is_store st) res id = None -> Get (is_store (run (dispatch cfg rt r) st).1) res id = None.
Proof.
  intros Hf Hp Hn. refine (reach_preserves (fun s => Get s res id = None) _ _ _ (run_footprint rt r st Hf) Hn).
  intros s o Ho. apply run_op_absent. by eapply Hp.
Qed.

Definition draws_session (r : identity_request) (token : string) : Prop := exists uid i, token = access_token r uid i.
Definition draws_refresh (r : identity_request) (token : string) : Prop := exists i, token = refresh_token r i.

Lemma session_gone token h st : filed (is_store st) -> Forall (fun x => ~ draws_session x.2 token) h ->
  Get (is_store st) sessionsResource token = None -> Get (is_store (serve_all h st)) sessionsResource token = None.
Proof.
  intros Hf Hh Hn. apply (serve_all_invariant (fun s => Get s sessionsResource token = None) (fun _ r => ~ draws_session r token)); [|done..].
  clear. intros rt r st Hd Hf. apply run_absent; [done|]. intros admin o Ho He. by destruct (footprint_session _ _ _ _ _ Ho He) as [|[? _]].
Qed.

Lemma refresh_gone token h st : filed (is_store st) -> Forall (fun x => ~ draws_refresh x.2 token) h ->
  Get (is_store st) refreshTokensResource token = None -> Get (is_store (serve_all h st)) refreshTokensResource token = None.
Proof.
  intros Hf Hh Hn. apply (serve_all_invariant (fun s => Get s refreshTokensResource token = None) (fun _ r => ~ draws_refresh r token)); [|done..].
  clear. intros rt r st Hd Hf. apply run_absent; [done|]. intros admin o Ho He. by destruct (footprint_refresh _ _ _ _ _ Ho He) as [|].
Qed.

(** Gone after a part of a computation, gone after the rest. *)
Lemma absent_bind {A B} (P : store_op -> Prop) res id (c : idm A) (k : A -> idm B) st :
  (forall o, P o -> op_at o = (res, Some id) -> o = OpDelete res id) -> filed (is_store (c st).1) -> (forall x, within P (k x)) ->
  Get (is_store (c st).1) res id = None -> Get (is_store (stm_bind c k st).1) res id = None.
Proof.
  intros Hp Hf Hk Hn. unfold stm_bind. destruct (c st) as [st1 [x|e]]; [|exact Hn].
  refine (reach_preserves (fun s => Get s res id = None) _ _ _ (Hk x st1 Hf) Hn). intros s o Ho. by apply run_op_absent, Hp.
Qed.

Lemma within_filed {A} P (c : idm A) st : within P c -> filed (is_store st) -> filed (is_store (c st).1).
Proof. intros Hc Hf. eapply reach_filed; [by apply Hc|done]. Qed.

Lemma logout_ends r (st : identity_state D) : filed (is_store st) -> str_empty (tokenFromCookie r "token") = false ->
  Get (is_store (logout r st).1) sessionsResource (tokenFromCookie r "token") = None.
Proof.
  intros Hf Ht. assert (forall o, logout_write o -> op_at o = (sessionsResource, Some (tokenFromCookie r "token")) -> o = OpDelete sessionsResource (tokenFromCookie r "token")) as Hp.
  { intros o [x|x|uid x] He; try discriminate He. by injection He as ->. }
  assert (forall token, within logout_write (changes (D := D) (fun s => RevokeSession s token))) as Hw.
  { intros token. apply within_changes. intros s _. apply RevokeSession_reach. constructor. }
  unfold logout. cbn zeta. rewrite Ht.
  assert (forall session, within logout_write (match session with
     | None => stm_ret tt
     | Some session =>
         (if str_empty (se_UserID session) then stm_ret tt
          else changes (D := D) (fun s => SetUserStatus s (se_UserID session) "offline" (iq_now r)) ;;; stm_ret tt) ;;;
         revokeCredential r "session" (tokenFromCookie r "token") (se_ExpiresAt session)
     end)) as Hk.
  { intros [session|]; repeat within_step; [|apply within_revokeCredential]. apply within_changes. intros s _. apply SetUserStatus_reach. constructor. }
  apply (absent_bind logout_write); [exact Hp| | |].
  - eapply within_filed; [|exact Hf]. apply within_bind; [apply Hw|exact Hk].
  - intros x. repeat within_step. apply within_changes. intros s _. apply reach_Delete. constructor.
  - apply (absent_bind logout_write); [exact Hp|eapply within_filed; [apply Hw|exact Hf]|exact Hk|].
    unfold changes, RevokeSession. destruct (Get (is_store st) sessionsResource _) as [rc|] eqn:E; [|cbn; exact E].
    pose proof (Delete_Get (is_store st) sessionsResource (tokenFromCookie r "token") sessionsResource (tokenFromCookie r "token")) as Hd.
    destruct (Delete _ _ _). cbn in *. by rewrite decide_True in Hd.
Qed.

(** C18: a session ends for good with its logout.  Whatever is served afterwards, as long as
    no request happens to draw the same token again, the platform does not authorise the
    session any more, and neither does the contract the other services ask. *)
Theorem logout_final r h (st : identity_state D) :
  let token := tokenFromCookie r "token" in
  filed (is_store st) -> str_empty token = false -> Forall (fun x => ~ draws_session x.2 token) h ->
  let st' := serve_all h (run (dispatch cfg ILogout r) st).1 in
  (forall q now rv, remoteIdentityAuthEnabled cfg = false -> (authorizeSessionToken cfg now q token (AuthState (is_store st') rv)).2 = None) /\
  (forall q, internalAuthToken q = token -> exists rp, run (dispatch cfg IAuthSession q) st' = (st', Some rp) /\ 400 <= rp_Status rp).
Proof.
  intros token Hf Ht Hh st'. assert (Get (is_store st') sessionsResource token = None) as Hn.
  { apply session_gone; [by apply run_filed|done|]. rewrite run_state. by apply logout_ends. }
  split.
  - intros q now rv Hr. unfold authorizeSessionToken. rewrite Hr. cbn [as_Store]. by rewrite Hn.
  - intros q Hq. cbn [dispatch]. unfold internalAuthorizeSession, authorize_service, run, replying. cbn zeta. rewrite Hq, Ht.
    destruct (negb (acceptsServiceIdentity cfg)); [by eexists|]. unfold stm_bind at 1, demand at 1.
    destruct (serviceRequestAuthorizedForAudience _ _ _); [|by eexists]. unfold stm_bind, demand, asks, FindValidSession. cbn. rewrite Hn. by eexists.
Qed.

(** ** Refresh tokens *)

Lemma bind_ok {A B} (c : idm A) (k : A -> idm B) st st1 x : c st = (st1, Ok x) -> stm_bind c k st = k x st1.
Proof. intros E. unfold stm_bind. by rewrite E. Qed.
Lemma bind_err {A B} (c : idm A) (k : A -> idm B) st st1 e : c st = (st1, Err e) -> stm_bind c k st = (st1, Err e).
Proof. intros E. unfold stm_bind. by rewrite E. Qed.
Lemma changes_eq {A} (f : store -> store * A) (st : identity_state D) s x : f (is_store st) = (s, x) -> changes f st = (with_store st s, Ok x).
Proof. intros E. unfold changes. by rewrite E. Qed.
Lemma with_store_same (st : identity_state D) : with_store st (is_store st) = st.
Proof. by destruct st as [[] ? ?]. Qed.
Lemma publish_run r k name data (st : identity_state D) : exists st', publish r k name data st = (st', Ok tt) /\ is_store st' = is_store st.
Proof.
  eexists. split; [reflexivity|]. unfold is_store. cbn. destruct (publish_event _ _) as [a'|] eqn:E; cbn; [|done]. by apply publish_event_store in E.
Qed.
Lemma run_replies (c : idm reply) st st' rp : c st = (st', Err (Replies rp)) -> run c st = (st', Some rp).
Proof. intros E. unfold run, replying. by rewrite E. Qed.

Lemma refresh_consumes r (st : identity_state D) rp : filed (is_store st) -> ~ draws_refresh r (presented r) ->
  (run (refreshToken r) st).2 = Some rp -> rp_Status rp = StatusOK ->
  str_empty (presented r) = false /\ Get (is_store (refreshToken r st).1) refreshTokensResource (presented r) = None.
Proof.
  intros Hf Hd Hr Hs.
  assert (forall st' rp', refreshToken r st = (st', Err (Replies rp')) -> rp_Status rp' ≠ StatusOK -> False) as Hno.
  { intros st' rp' E Hne. rewrite (run_replies _ _ _ _ E) in Hr. cbn in Hr. congruence. }
  unfold refreshToken in *. cbn zeta in *. destruct (str_empty (presented r)); [exfalso; by eapply Hno|]. split; [done|].
  cbn [negb demand] in *. rewrite (bind_ok (stm_ret tt) _ st st tt eq_refl) in *.
  pose proof (Delete_Get (is_store st) refreshTokensResource (presented r) refreshTokensResource (presented r)) as Hg. rewrite decide_True in Hg by done.
  pose proof (filed_Delete (is_store st) refreshTokensResource (presented r) Hf) as Hfd.
  destruct (ConsumeRefreshToken (is_store st) (presented r) (iq_now r)) as [s' [record|]] eqn:E; rewrite (bind_ok _ _ _ _ _ (changes_eq (fun s => ConsumeRefreshToken s (presented r) (iq_now r)) st _ _ E)) in *; [|exfalso; by eapply Hno].
  assert (s' = (Delete (is_store st) refreshTokensResource (presented r)).1) as ->.
  { unfold ConsumeRefreshToken in E. clear - E. destruct (Get _ _ _); [|done]. destruct (expiredAt _ _); [done|]. destruct (Delete _ _ _) as [s1 []]; by injection E. }
  clear Hr Hno E. match goal with |- Get (is_store (?c ?st1).1) _ _ = _ => assert (within (session_write r) c) as Hw; [|specialize (Hw st1 Hfd)] end.
  { repeat within_step. apply within_with_session; [done|]. intros. repeat within_step. }
  refine (reach_preserves (fun s => Get s refreshTokensResource (presented r) = None) _ _ _ Hw Hg).
  intros s o Ho. apply run_op_absent. intros He. exfalso. destruct Ho as [o1 uid i Ha|o1 i Ha|uid x]; try rewrite Ha in He; try discriminate He.
  injection He as He. apply Hd. by exists i.
Qed.

(** C17: a refresh token is good for one exchange.  Once it opened a session, presenting it
    again is refused and changes nothing, whatever was served in between, as long as no
    request happens to draw the same token again. *)
Theorem refresh_once r rp h r' (st : identity_state D) :
  filed (is_store st) -> (run (dispatch cfg IRefresh r) st).2 = Some rp -> rp_Status rp = StatusOK ->
  Forall (fun x => ~ draws_refresh x.2 (presented r)) ((IRefresh, r) :: h) -> presented r' = presented r ->
  let st' := serve_all h (run (dispatch cfg IRefresh r) st).1 in
  run (dispatch cfg IRefresh r') st' = (st', Some (Reply StatusUnauthorized (message "Invalid refresh token") [])).
Proof.
  intros Hf Hr Hs Hh Hp st'. apply Forall_cons in Hh as [Hd Hh]. destruct (refresh_consumes r st rp Hf Hd Hr Hs) as [He Hn].
  assert (Get (is_store st') refreshTokensResource (presented r) = None) as Hg.
  { apply refresh_gone; [by apply run_filed|done|]. by rewrite run_state. }
  apply run_replies. cbn [dispatch]. unfold refreshToken. cbn zeta. rewrite Hp, He. cbn [negb demand]. rewrite (bind_ok (stm_ret tt) _ st' st' tt eq_refl).
  rewrite (bind_ok _ _ st' (with_store st' (is_store st')) None); [by rewrite with_store_same|]. apply changes_eq. unfold ConsumeRefreshToken. by rewrite Hg.
Qed.

(** ** Locked accounts *)

Definition is_locked (s : store) (id : string) (until : Z) : Prop := exists rc,
  Get s loginFailuresResource id = Some rc /\ str_empty (textValue (rec_Data rc) "locked_until") = false /\
  parse_rfc3339 (textValue (rec_Data rc) "locked_until") = Some until.

(** While locked, a login does nothing: the password is not looked at. *)
Lemma locked_login rt r (st : identity_state D) until : rt = ILogin \/ rt = ICLILogin -> iq_now r < until -> is_locked (is_store st) (login_id cfg r) until ->
  exists st' rp, run (dispatch cfg rt r) st = (st', Some rp) /\ is_store st' = is_store st /\ (rp_Status rp = StatusBadRequest \/ rp_Status rp = StatusUnauthorized).
Proof.
  intros Hrt Hnow (rc & Hg & He & Hp).
  enough (exists st' rp, dispatch cfg rt r st = (st', Err (Replies rp)) /\ is_store st' = is_store st /\ (rp_Status rp = StatusBadRequest \/ rp_Status rp = StatusUnauthorized))
    as (st' & rp & E & Hs) by (exists st', rp; split; [by apply run_replies|done]).
  assert (login_locked cfg (is_store st) r (login_name r) = (is_store st, true)) as Hl.
  { unfold login_locked. fold (login_id cfg r). rewrite Hg. cbn zeta. rewrite He, Hp. by apply Z.ltb_lt in Hnow as ->. }
  apply (changes_eq (fun s => login_locked cfg s r (login_name r)) st) in Hl.
  assert (forall path, exists st', (publishLoginFailure cfg r (login_name r) path reasonLocked ;;; reject (A := unit) StatusUnauthorized msgInvalidCredentials) (with_store st (is_store st)) =
    (st', Err (Replies (Reply StatusUnauthorized (message msgInvalidCredentials) []))) /\ is_store st' = is_store st) as Hpub.
  { intros path. unfold publishLoginFailure. match goal with |- context [publish r ?k ?n ?d] => destruct (publish_run r k n d (with_store st (is_store st))) as (st' & E & Hs) end.
    exists st'. split; [by rewrite (bind_ok _ _ _ _ _ E)|done]. }
  destruct Hrt as [->| ->]; cbn [dispatch]; unfold login, cliLogin, decode;
    (destruct (sq_body (iq_service r)) as [payload|] eqn:Eb; [|by exists st; eexists; split; [reflexivity|split; [done|left]]]);
    rewrite (bind_ok (stm_ret payload) _ st st payload eq_refl); cbn zeta; rewrite (login_name_payload r payload Eb);
    (destruct (negb _); cbn [demand]; [|by exists st; eexists; split; [reflexivity|split; [done|left]]]);
    rewrite (bind_ok (stm_ret tt) _ st st tt eq_refl), (bind_ok _ _ _ _ _ Hl); cbn [dispatch].
  - destruct (Hpub pathLogin) as (st' & E & Hs). rewrite (bind_err _ _ _ _ _ E). exists st'; eexists; split; [reflexivity|split; [done|by right]].
  - destruct (Hpub pathCLILogin) as (st' & E & Hs). rewrite (bind_err _ _ _ _ _ E). exists st'; eexists; split; [reflexivity|split; [done|by right]].
Qed.

Lemma locked_stays id until h (st : identity_state D) : filed (is_store st) -> Forall (fun x => iq_now x.2 < until) h -> is_locked (is_store st) id until ->
  filed (is_store (serve_all h st)) /\ is_locked (is_store (serve_all h st)) id until.
Proof.
  intros Hf0 Hh Hl0. apply (serve_all_invariant (fun s => is_locked s id until) (fun _ r => iq_now r < until)); [|done..].
  clear. intros rt r st Hnow Hf Hl.
  destruct (decide ((rt = ILogin \/ rt = ICLILogin) /\ id = login_id cfg r)) as [[Hrt ->]|Hne].
  - destruct (locked_login rt r st until Hrt Hnow Hl) as (st' & rp & -> & Hs & _). cbn [fst]. by rewrite Hs.
  - destruct Hl as (rc & Hg & Hl). exists rc. split; [|done]. rewrite <- Hg. eapply reach_elsewhere; [|by apply run_footprint].
    intros o Ho He. apply Hne. by eapply footprint_failure.
Qed.

(** A failure after the fifth locks. *)
Lemma rejected_locks {A} r path reason text (st : identity_state D) rc until :
  Get (is_store st) loginFailuresResource (login_id cfg r) = Some rc -> defaultLoginMaxFailed <= intValue (rec_Data rc) "failures" 0 ->
  format_rfc3339 (iq_now r + defaultLoginLockout) ≠ EmptyString -> parse_rfc3339 (format_rfc3339 (iq_now r + defaultLoginLockout)) = Some until ->
  is_locked (is_store (rejected (A := A) cfg r (login_name r) path reason text st).1) (login_id cfg r) until.
Proof.
  intros Hg Hn Hne Hp. unfold rejected. rewrite (bind_ok (recordLoginFailure cfg r (login_name r)) _ st (with_store st (record_failure cfg (is_store st) r (login_name r))) tt eq_refl).
  unfold publishLoginFailure. match goal with |- context [publish r ?k ?n ?d] => destruct (publish_run r k n d (with_store st (record_failure cfg (is_store st) r (login_name r)))) as (st' & E & Hs) end.
  rewrite (bind_ok _ _ _ _ _ E). cbn [fst reject stm_fail]. rewrite Hs. change (is_store (with_store st ?s)) with s.
  unfold record_failure. fold (login_id cfg r). rewrite Hg. set (d := failure_row _ _ _ _).
  assert (d !! "locked_until" = Some (VString (format_rfc3339 (iq_now r + defaultLoginLockout)))) as Hd.
  { unfold d, failure_row. cbn zeta. destruct (Z.ltb_spec defaultLoginMaxFailed (intValue (rec_Data rc) "failures" 0 + 1)); [|lia]. apply lookup_insert_eq. }
  pose proof (Update_cases (is_store st) loginFailuresResource (login_id cfg r) d (iq_now r)) as HU. rewrite Hg in HU.
  destruct (Update _ _ _ _ _) as [s' [rc'|]]; [|done]. destruct HU as (Hk & _ & _ & _ & _ & Hg'). exists rc'. cbn [fst]. rewrite Hg', decide_True by done.
  split; [done|]. unfold textValue, mget. rewrite Hk, Hd. cbn. split; [|done]. by destruct (format_rfc3339 _).
Qed.

(** The captcha is settled, or counts as a failure; nothing but captchas is written before. *)
Lemma captcha_cases r payload (st : identity_state D) : exists s1, reach captcha_write (is_store st) s1 /\
  (validateLoginCaptcha cfg r (login_name r) payload st = (with_store st s1, Ok tt) \/
   exists reason text, validateLoginCaptcha cfg r (login_name r) payload st = rejected cfg r (login_name r) pathLogin reason text (with_store st s1)).
Proof.
  assert (forall id answer, exists s1, reach captcha_write (is_store st) s1 /\ exists ok, verifyCaptcha r id answer st = (with_store st s1, Ok ok)) as Hv.
  { intros id answer. unfold verifyCaptcha, changes, verify_captcha. destruct (Get _ _ _) as [rc|]; [|exists (is_store st); split; [reflexivity|eauto]].
    eexists. split; [|eauto]. apply reach_Delete. by econstructor. }
  assert (forall id answer, exists s1, reach captcha_write (is_store st) s1 /\
    ((ok <-- verifyCaptcha r id answer;; if ok : bool then stm_ret tt else rejectInvalidCaptcha cfg r (login_name r)) st = (with_store st s1, Ok tt) \/
     exists reason text, (ok <-- verifyCaptcha r id answer;; if ok : bool then stm_ret tt else rejectInvalidCaptcha cfg r (login_name r)) st = rejected cfg r (login_name r) pathLogin reason text (with_store st s1))) as Hk.
  { intros id answer. destruct (Hv id answer) as (s1 & Hr & ok & E). exists s1. split; [done|]. rewrite (bind_ok _ _ _ _ _ E).
    destruct ok; [by left|]. right. by exists reasonInvalidCaptcha, msgInvalidCaptcha. }
  unfold validateLoginCaptcha. cbn zeta. rewrite (bind_ok (captchaRequired cfg r (login_name r)) _ st st _ eq_refl).
  destruct (match Get (is_store st) loginFailuresResource (failure_id cfg r (login_name r)) with Some rc => _ | None => _ end).
  - destruct (_ || _); [|apply Hk]. exists (is_store st). split; [reflexivity|]. right. rewrite with_store_same. eauto.
  - destruct (str_empty _); [|apply Hk]. exists (is_store st). split; [reflexivity|]. left. by rewrite with_store_same.
Qed.

Lemma authenticate_users (st : identity_state D) s1 username password :
  (forall id, Get s1 usersResource id = Get (is_store st) usersResource id) -> authenticate cfg (with_store st s1) username password = authenticate cfg st username password.
Proof.
  intros He. unfold authenticate, directory_user, FindActiveUserByUsername, FindUserByUsername. cbn [is_dir with_store with_app]. change (is_store (with_store st s1)) with s1.
  assert (List_ s1 usersResource = List_ (is_store st) usersResource) as -> by (unfold List_; do 3 f_equal; apply map_eq; exact He). done.
Qed.

Lemma captchas_elsewhere s s1 res id : reach captcha_write s s1 -> res ≠ captchasResource -> Get s1 res id = Get s res id.
Proof. intros Hr Hne. eapply reach_elsewhere; [|exact Hr]. intros o [o1 x Ha] He. congruence. Qed.

(** The fields a password login asks for. *)
Definition complete (rt : identity_route) (payload : object) : bool :=
  let blank_ := str_empty (TrimSpace (textValue payload "username")) || str_empty (textValue payload "password") in
  negb (match rt with
        | ICLILogin => blank_ || (64 <? String.length (TrimSpace (FirstNonEmpty [textValue payload "name"; "nexuspaas-cli"%string])))%nat
        | _ => blank_
        end).

(** A login that is not locked ends in [rejected] when its password is wrong. *)
Lemma wrong_password rt r payload (st : identity_state D) s0 : rt = ILogin \/ rt = ICLILogin ->
  sq_body (iq_service r) = Ok payload -> complete rt payload = true -> login_locked cfg (is_store st) r (login_name r) = (s0, false) ->
  (forall id, Get s0 usersResource id = Get (is_store st) usersResource id) ->
  authenticate cfg st (login_name r) (textValue payload "password") = None ->
  exists s1 path reason text, reach captcha_write s0 s1 /\
    (dispatch cfg rt r st).1 = (rejected (A := reply) cfg r (login_name r) path reason text (with_store st s1)).1.
Proof.
  intros Hrt Eb Hc Hl Hu Ha. apply (changes_eq (fun s => login_locked cfg s r (login_name r)) st) in Hl.
  destruct Hrt as [->| ->]; cbn [dispatch]; unfold login, cliLogin, decode; rewrite Eb; rewrite (bind_ok (stm_ret payload) _ st st payload eq_refl); cbn zeta;
    unfold complete in Hc; cbn zeta in Hc; rewrite (login_name_payload r payload Eb) in *; rewrite Hc; cbn [demand];
    rewrite (bind_ok (stm_ret tt) _ st st tt eq_refl), (bind_ok _ _ _ _ _ Hl), (bind_ok (stm_ret tt) _ _ _ tt eq_refl).
  - destruct (captcha_cases r payload (with_store st s0)) as (s1 & Hr & Hv). change (is_store (with_store st s0)) with s0 in Hr.
    change (with_store (with_store st s0) s1) with (with_store st s1) in Hv. exists s1, pathLogin. destruct Hv as [E|(reason & text & E)].
    + exists reasonInvalidCredentials, msgInvalidCredentials. split; [done|]. rewrite (bind_ok _ _ _ _ _ E).
      rewrite (bind_ok (authenticateUser cfg _ _) _ _ (with_store st s1) None); [done|]. unfold authenticateUser.
      rewrite authenticate_users; [by rewrite Ha|]. intros id. rewrite <- Hu. by eapply captchas_elsewhere.
    + exists reason, text. split; [done|]. unfold stm_bind at 1. rewrite E. unfold rejected. unfold stm_bind. cbn.
      done.
  - exists s0, pathCLILogin, reasonInvalidCredentials, msgInvalidCredentials. split; [reflexivity|].
    rewrite (bind_ok (authenticateUser cfg _ _) _ _ (with_store st s0) None); [done|]. unfold authenticateUser. by rewrite authenticate_users, Ha.
Qed.

(** C16: an account locks and stays locked.  After the failure that follows five others for a
    user name and an address, no password is tried for them any more until the lock ends, a
    quarter of an hour later, whatever else is served: every login, by the page or by the
    command line, is refused and leaves the records as they are. *)
Theorem lockout rt r payload rc until h rt' r' (st : identity_state D) :
  (rt = ILogin \/ rt = ICLILogin) -> (rt' = ILogin \/ rt' = ICLILogin) -> filed (is_store st) ->
  sq_body (iq_service r) = Ok payload -> complete rt payload = true ->
  Get (is_store st) loginFailuresResource (login_id cfg r) = Some rc -> textValue (rec_Data rc) "locked_until" = EmptyString ->
  defaultLoginMaxFailed <= intValue (rec_Data rc) "failures" 0 -> authenticate cfg st (login_name r) (textValue payload "password") = None ->
  format_rfc3339 (iq_now r + defaultLoginLockout) ≠ EmptyString -> parse_rfc3339 (format_rfc3339 (iq_now r + defaultLoginLockout)) = Some until ->
  Forall (fun x => iq_now x.2 < until) (h ++ [(rt', r')]) -> login_id cfg r' = login_id cfg r ->
  let st' := serve_all h (run (dispatch cfg rt r) st).1 in
  exists st2 rp, run (dispatch cfg rt' r') st' = (st2, Some rp) /\ is_store st2 = is_store st' /\ (rp_Status rp = StatusBadRequest \/ rp_Status rp = StatusUnauthorized).
Proof.
  intros Hrt Hrt' Hf Eb Hc Hg He Hn Ha Hne Hp Hh Hid st'. apply Forall_app in Hh as [Hh Hnow]. apply Forall_cons in Hnow as [Hnow _]. cbn [snd] in Hnow.
  assert (login_locked cfg (is_store st) r (login_name r) = (is_store st, false)) as Hl.
  { unfold login_locked. fold (login_id cfg r). rewrite Hg. cbn zeta. by rewrite He. }
  destruct (wrong_password rt r payload st _ Hrt Eb Hc Hl (fun _ => eq_refl) Ha) as (s1 & path & reason & text & Hr & E).
  apply (locked_login rt' r' st' until); [done..|]. rewrite Hid. apply locked_stays; [by apply run_filed|done|]. rewrite run_state, E.
  eapply rejected_locks; try done. change (is_store (with_store st s1)) with s1. by rewrite (captchas_elsewhere _ _ _ _ Hr).
Qed.

(** ** New sessions *)

(** Why a request may open a session for a user. *)
Inductive earns (st : identity_state D) (r : identity_request) : identity_route -> string -> Prop :=
| EarnsPassword payload user :
    sq_body (iq_service r) = Ok payload -> (login_locked cfg (is_store st) r (login_name r)).2 = false ->
    authenticate cfg st (login_name r) (textValue payload "password") = Some user -> earns st r ILogin (textValue user "id")
| EarnsRefresh rc user :
    Get (is_store st) refreshTokensResource (presented r) = Some rc -> expiredAt (rec_Data rc) (iq_now r) = false ->
    FindActiveUserByID (is_store st) (textValue (rec_Data rc) "user_id") = Some user -> earns st r IRefresh (textValue (iu_Data user) "id")
| EarnsProvider token user :
    oidcStateValid r (field r "state") = true -> exchange_code (field r "code") = Some token ->
    oidcCallbackUser (is_store st) token = Some user -> earns st r IOidcCallback (textValue (iu_Data user) "id").

Definition opens (s s' : store) (uid : string) : Prop :=
  exists id rc, Get s sessionsResource id = None /\ Get s' sessionsResource id = Some rc /\ textValue (rec_Data rc) "user_id" = uid.

Definition quiet (o : store_op) : Prop := forall id, op_at o ≠ (sessionsResource, Some id).

Lemma quiet_opens s s' uid : reach quiet s s' -> ~ opens s s' uid.
Proof. intros Hr (id & rc & Hn & Hg & _). rewrite (reach_elsewhere quiet s s' _ id) in Hg; [congruence| |exact Hr]. intros o Ho. apply Ho. Qed.

Lemma quiet_opens_r s s1 s' uid : reach quiet s s1 -> opens s s' uid -> opens s1 s' uid.
Proof.
  intros Hr (id & rc & Hn & Hg & Hu). exists id, rc. split; [|done]. rewrite <- Hn. eapply reach_elsewhere; [|exact Hr]. intros o Ho. apply Ho.
Qed.
Lemma quiet_opens_l s s1 s' uid : reach quiet s1 s' -> opens s s' uid -> opens s s1 uid.
Proof.
  intros Hr (id & rc & Hn & Hg & Hu). exists id, rc. split; [done|]. split; [|done]. rewrite <- Hg. symmetry. eapply reach_elsewhere; [|exact Hr]. intros o Ho. apply Ho.
Qed.

Lemma Create_session_cases s token uid newID now ttl id :
  match Get (createSession s token uid newID now ttl).1 sessionsResource id with
  | Some rc => Get s sessionsResource id = Some rc \/ textValue (rec_Data rc) "user_id" = uid
  | None => True
  end.
Proof.
  unfold createSession. set (d := <["revoked" := _]> _). destruct (Create s sessionsResource d newID now) as [s' [rc|e]] eqn:E; cbn [fst].
  - apply Create_ok in E as (_ & _ & _ & _ & _ & Hk & Hg). rewrite Hg. case_decide as Hd; [|by destruct (Get _ _ _); [left|]]. right.
    unfold textValue, mget. rewrite (Hk "user_id") by done. reflexivity.
  - apply Create_err in E as (_ & _ & Hg). rewrite Hg. by destruct (Get _ _ _); [left|].
Qed.

(** A session pair is issued to its user. *)
Lemma issue_opens r uid a b atts s uid' : opens s (issue_attempts atts r uid a b s).1 uid' -> uid' = uid.
Proof.
  intros (id & rc & Hn & Hg & <-). enough (Get s sessionsResource id = Some rc \/ textValue (rec_Data rc) "user_id" = uid) as [?|?] by congruence. clear Hn. revert s Hg.
  induction atts as [|i atts IH]; intros s Hg; cbn [issue_attempts] in Hg; [by left|]. fold (access_token r uid i) in Hg. fold (refresh_token r i) in Hg.
  pose proof (Create_session_cases s (access_token r uid i) uid (sq_newid (iq_service r) (2 * i)) (iq_now r) a id) as Hc.
  destruct (createSession _ _ _ _ _ _) as [s1 [x|e]]; cbn [fst] in *.
  2: { apply IH in Hg as [Hg|]; [|by right]. by rewrite Hg in Hc. }
  assert (forall s2, s2 = (createRefreshToken s1 (refresh_token r i) uid (sq_newid (iq_service r) (2 * i + 1)) (iq_now r) b).1 -> Get s2 sessionsResource id = Get s1 sessionsResource id) as Hr.
  { intros s2 ->. apply (run_op_elsewhere s1 (OpCreate refreshTokensResource _ _ _)). done. }
  destruct (createRefreshToken _ _ _ _ _ _) as [s2 [y|e]]; cbn [fst] in *; [rewrite (Hr s2 eq_refl) in Hg; by rewrite Hg in Hc|].
  apply IH in Hg as [Hg|]; [|by right]. rewrite Delete_Get in Hg. case_decide; [done|]. rewrite (Hr s2 eq_refl) in Hg. by rewrite Hg in Hc.
Qed.

Lemma with_session_opens r user (k : identitySessionPair -> object -> idm reply) (st : identity_state D) uid :
  (forall tokens shown st, (k tokens shown st).1 = st) -> opens (is_store st) (is_store (with_session r user k st).1) uid -> uid = textValue user "id".
Proof.
  intros Hk. unfold with_session, issueSession. cbn zeta. unfold IssueSessionPair.
  pose proof (issue_opens r (textValue user "id") (24 * time_Hour) (7 * 24 * time_Hour) [0; 1; 2]%nat (is_store st) uid) as Ho.
  destruct (issue_attempts _ _ _ _ _ _) as [s1 issued] eqn:E. cbn [fst] in Ho. apply changes_eq in E. unfold stm_bind at 1. rewrite (bind_ok _ _ _ _ _ E).
  destruct issued as [tokens|]; [|exact Ho]. intros Hop. apply Ho. revert Hop. unfold stm_bind, changes. change (is_store (with_store st s1)) with s1.
  pose proof (SetUserStatus_reach (P := quiet) s1 (textValue user "id") "online" (iq_now r)) as Hq. destruct (SetUserStatus _ _ _ _) as [s2 ok]. cbn [fst stm_ret] in *. rewrite Hk.
  intros Hop. eapply quiet_opens_l; [|exact Hop]. apply Hq. by intros id.
Qed.

Lemma rejected_quiet {A} r path reason text (st : identity_state D) s : filed (is_store st) ->
  reach quiet s (is_store st) -> reach quiet s (is_store (rejected (A := A) cfg r (login_name r) path reason text st).1).
Proof.
  intros Hf Hr. etrans; [exact Hr|]. apply (within_rejected cfg r); [|exact Hf]. intros o [o1 Ha] id He. by rewrite Ha in He.
Qed.

Lemma login_locked_quiet r s : filed s -> reach quiet s (login_locked cfg s r (login_name r)).1 /\ reach (failure_write cfg r) s (login_locked cfg s r (login_name r)).1.
Proof.
  intros Hf. unfold login_locked. destruct (Get s _ _) as [rc|] eqn:E; [|split; reflexivity]. cbn zeta.
  destruct (str_empty _); [split; reflexivity|]. destruct (parse_rfc3339 _); [|split; reflexivity]. destruct (_ <? _); [split; reflexivity|]. cbn [fst].
  split; apply reach_Delete; [by intros id|]. constructor. cbn. by rewrite (Hf _ _ _ E).
Qed.

Lemma captchas_quiet s s' : reach captcha_write s s' -> reach quiet s s'.
Proof. apply reach_mono. intros o [o1 x Ha] id He. by rewrite Ha in He. Qed.

Lemma login_opens r (st : identity_state D) uid : filed (is_store st) -> opens (is_store st) (is_store (login cfg r st).1) uid -> earns st r ILogin uid.
Proof.
  intros Hf. unfold login, decode. destruct (sq_body (iq_service r)) as [payload|] eqn:Eb; [|intros Ho; by apply quiet_opens in Ho].
  rewrite (bind_ok (stm_ret payload) _ st st payload eq_refl). cbn zeta. rewrite (login_name_payload r payload Eb).
  destruct (negb _); cbn [demand]; [|intros Ho; by apply quiet_opens in Ho]. rewrite (bind_ok (stm_ret tt) _ st st tt eq_refl).
  destruct (login_locked_quiet r (is_store st) Hf) as [Hq0 Hf0]. pose proof (reach_filed _ _ _ Hf0 Hf) as Hfl. 
  destruct (login_locked cfg (is_store st) r (login_name r)) as [s0 locked] eqn:El. cbn [fst] in *.
  rewrite (bind_ok _ _ _ _ _ (changes_eq (fun s => login_locked cfg s r (login_name r)) st _ _ El)). destruct locked.
  { unfold publishLoginFailure. match goal with |- context [publish r ?k ?n ?d] => destruct (publish_run r k n d (with_store st s0)) as (st' & E & Hs) end.
    unfold stm_bind at 1. rewrite (bind_ok _ _ _ _ _ E). cbn [fst reject stm_fail]. rewrite Hs. intros Ho. by apply quiet_opens in Ho. }
  rewrite (bind_ok (stm_ret tt) _ _ _ tt eq_refl).
  destruct (captcha_cases r payload (with_store st s0)) as (s1 & Hr & Hv). change (is_store (with_store st s0)) with s0 in Hr.
  change (with_store (with_store st s0) s1) with (with_store st s1) in Hv. pose proof (captchas_quiet _ _ Hr) as Hq1. pose proof (reach_filed _ _ _ Hr Hfl) as Hf1.
  assert (reach quiet (is_store st) (is_store (with_store st s1))) as Hq by (by etrans).
  destruct Hv as [E|(reason & text & E)].
  2: { unfold stm_bind at 1. rewrite E. intros Ho. exfalso. revert Ho. apply quiet_opens. pose proof (rejected_quiet (A := unit) r pathLogin reason text (with_store st s1) _ Hf1 Hq) as Hx. destruct (rejected _ _ _ _ _ _ _) as [st2 [[]|]] eqn:Ex; [|exact Hx]. done. }
  rewrite (bind_ok _ _ _ _ _ E), (bind_ok (authenticateUser cfg _ _) _ _ (with_store st s1) _ eq_refl).
  rewrite authenticate_users; [|intros id; rewrite (captchas_elsewhere _ _ _ _ Hr) by done; eapply reach_elsewhere; [|exact Hf0]; intros o [o1 Ha] He; by rewrite Ha in He].
  destruct (authenticate cfg st _ _) as [user|] eqn:Ea; [|intros Ho; exfalso; revert Ho; by apply quiet_opens, rejected_quiet].
  rewrite (bind_ok (clearLoginFailures cfg r (login_name r)) _ (with_store st s1) (with_store st (Delete s1 loginFailuresResource (failure_id cfg r (login_name r))).1) tt eq_refl).
  intros Ho. eapply quiet_opens_r in Ho; [|etrans; [exact Hq|apply (reach_Delete s1 loginFailuresResource (failure_id cfg r (login_name r))); by intros id]].
  apply (with_session_opens r user _ (with_store st _)) in Ho; [|done]. subst uid. econstructor; [done|by rewrite El|done].
Qed.

Lemma refresh_opens r (st : identity_state D) uid : opens (is_store st) (is_store (refreshToken r st).1) uid -> earns st r IRefresh uid.
Proof.
  unfold refreshToken. cbn zeta. destruct (negb _); cbn [demand]; [|intros Ho; by apply quiet_opens in Ho]. rewrite (bind_ok (stm_ret tt) _ st st tt eq_refl).
  destruct (ConsumeRefreshToken (is_store st) (presented r) (iq_now r)) as [s1 record] eqn:E.
  rewrite (bind_ok _ _ _ _ _ (changes_eq (fun s => ConsumeRefreshToken s (presented r) (iq_now r)) st _ _ E)).
  pose proof (ConsumeRefreshToken_reach (P := fun o => o = OpDelete refreshTokensResource (presented r)) (is_store st) (presented r) (iq_now r) eq_refl) as Hr. rewrite E in Hr. cbn [fst] in Hr.
  assert (reach quiet (is_store st) s1) as Hq by (eapply reach_mono; [|exact Hr]; by intros o -> id).
  destruct record as [record|]; [|intros Ho; exfalso; revert Ho; by apply quiet_opens].
  rewrite (bind_ok (asks _) _ (with_store st s1) (with_store st s1) _ eq_refl). change (is_store (with_store st s1)) with s1.
  destruct (FindActiveUserByID s1 (se_UserID record)) as [user|] eqn:Eu; [|intros Ho; exfalso; revert Ho; by apply quiet_opens].
  intros Ho. eapply quiet_opens_r in Ho; [|exact Hq]. apply (with_session_opens r (iu_Data user) _ (with_store st s1)) in Ho; [|done]. subst uid.
  unfold ConsumeRefreshToken in E. destruct (Get (is_store st) refreshTokensResource (presented r)) as [rc|] eqn:Eg; [|done].
  destruct (expiredAt _ _) eqn:Ee; [done|]. destruct (Delete _ _ _) as [s2 []]; [|done]. injection E as <- <-.
  apply (EarnsRefresh st r rc user Eg Ee). rewrite <- Eu. unfold FindActiveUserByID, GetUser. cbn [se_UserID refreshTokenFromRecord sessionFromRecord].
  destruct (str_empty _); [done|]. 
  assert (Get s2 usersResource (textValue (rec_Data rc) "user_id") = Get (is_store st) usersResource (textValue (rec_Data rc) "user_id")) as Hu.
  { eapply reach_elsewhere; [|exact Hr]. by intros o ->. }
  by rewrite Hu.
Qed.

Lemma provider_opens r (st : identity_state D) uid : opens (is_store st) (is_store (oidcCallback cfg r st).1) uid -> earns st r IOidcCallback uid.
Proof.
  unfold oidcCallback. cbn zeta. destruct (negb _); cbn [demand]; [|intros Ho; by apply quiet_opens in Ho]. rewrite (bind_ok (stm_ret tt) _ st st tt eq_refl).
  destruct (blank _); [intros Ho; by apply quiet_opens in Ho|]. destruct (oidcStateValid _ _) eqn:Es; cbn [demand]; [|intros Ho; by apply quiet_opens in Ho].
  rewrite (bind_ok (stm_ret tt) _ st st tt eq_refl). destruct (exchange_code _) as [token|] eqn:Ex; [|intros Ho; by apply quiet_opens in Ho].
  rewrite (bind_ok (asks _) _ st st _ eq_refl). destruct (oidcCallbackUser _ _) as [user|] eqn:Eu; [|intros Ho; by apply quiet_opens in Ho].
  intros Ho. apply with_session_opens in Ho; [|done]. subst uid. by econstructor.
Qed.

(** C15: sessions are earned.  Whatever the route, a session that is new after a request
    belongs to a user whose password the request gave while the login was not locked, or
    whose unexpired refresh token it presented, or whom the identity provider named for a
    code that came back with the state of the browser. *)
Theorem sessions_earned rt r (st : identity_state D) uid : filed (is_store st) ->
  opens (is_store st) (is_store (run (dispatch cfg rt r) st).1) uid -> earns st r rt uid.
Proof.
  intros Hf Ho. assert (rt = ILogin \/ rt = IRefresh \/ rt = IOidcCallback) as Hrt.
  { destruct (decide (rt = ILogin \/ rt = IRefresh \/ rt = IOidcCallback)) as [|Hne]; [done|]. exfalso. destruct Ho as (id & rc & Hn & Hg & _).
    rewrite (run_absent sessionsResource id rt r st Hf) in Hg; [done| |done].
    intros admin o Hw He. by destruct (footprint_session _ _ _ _ _ Hw He) as [|[_ ?]]. }
  rewrite run_state in Ho. destruct Hrt as [->|[->| ->]]; [by apply login_opens|by apply refresh_opens|by apply provider_opens].
Qed.

End Histories.
