(* ===== verification/IdentityTokens.v ===== *)
(** * Identity service: credentials work, agree and are bounded

    A secret that was hashed verifies; who registered can log in; an API token that was
    made authorises its user at the platform until it expires; nobody has more than twenty;
    the platform's own check of a session and the contract of the identity service give
    the same verdict. *)

From stdpp Require Import base gmap strings list fin_maps relations.
From Stdlib Require Import ZArith Lia Ascii DecimalString DecimalNat DecimalN.
From S2P Require Import Prelude GoValue Store EventBus Crud Tx RateLimit InputLimits Config Auth Guards SchedulerHttp ServiceHttp Tables IdentityRepository IdentityAuth IdentityUsers IdentityService IdentitySecurity.
Local Open Scope Z_scope.
Local Open Scope go_scope.

(** ** Secrets *)

Lemma split_on_cut c w l : c ∉ w -> split_on c (w ++ c :: l) = w :: split_on c l.
Proof.
  intros Hw. induction w as [|d w IH]; cbn [Datatypes.app split_on]; [by rewrite Ascii.eqb_refl|].
  destruct (Ascii.eqb_spec c d) as [->|Hne]; [exfalso; apply Hw; left|]. rewrite IH; [done|]. intros ?. apply Hw. by right.
Qed.
Lemma split_on_last c w : c ∉ w -> split_on c w = [w].
Proof.
  intros Hw. induction w as [|d w IH]; cbn [split_on]; [done|].
  destruct (Ascii.eqb_spec c d) as [->|Hne]; [exfalso; apply Hw; left|]. rewrite IH; [done|]. intros ?. apply Hw. by right.
Qed.

(** What the service relies on of the encodings and of the key derivation. *)
Class SecretLaws `{GoLib} `{AuthLib} `{SecretLib} : Prop := {
  hex_round : forall x, hex_DecodeString (hex_EncodeToString x) = Some x;
  hex_no_colon : forall x, colon ∉ bytes_of (hex_EncodeToString x);
  pbkdf2_size : forall secret salt d, pbkdf2_key secret salt secretIterations 32 = Some d -> String.length d = 32%nat;
  atoi_iterations : secret_Atoi "210000" = Some 210000
}.

Section Secrets.
Context `{GoLib} `{AuthLib} `{SecretLib} `{!SecretLaws}.

(** A hashed secret verifies, whether the source of randomness worked or not. *)
Lemma VerifySecret_HashSecret salt secret : VerifySecret (HashSecret salt secret) secret = true.
Proof.
  unfold HashSecret. destruct (s ← salt; d ← pbkdf2_key secret s secretIterations 32; Some (s, d)) as [[s d]|] eqn:E.
  - destruct salt as [s0|]; [|done]. cbn in E. destruct (pbkdf2_key secret s0 secretIterations 32) as [d0|] eqn:Ed; [|done]. injection E as -> ->.
    unfold VerifySecret, Split. change (HasPrefix _ (secretHashPrefix +:+ ":")) with true. cbn iota. rewrite !bytes_of_app. change (bytes_of ":") with [colon]. change (bytes_of ":210000:") with (colon :: bytes_of "210000" ++ [colon]).
    cbn [Datatypes.app]. rewrite <- app_assoc. cbn [Datatypes.app]. change ":"%char with colon.
    rewrite !split_on_cut by first [apply hex_no_colon|by apply (bool_decide_unpack _)]. rewrite split_on_last by apply hex_no_colon.
    cbn [map]. rewrite !of_bytes_of, atoi_iterations, !hex_round. cbn [Z.leb]. rewrite (pbkdf2_size _ _ _ Ed). change (Z.of_nat 32) with 32.
    change 210000 with secretIterations. rewrite Ed. by rewrite String.eqb_refl.
  - unfold VerifySecret. change (HasPrefix (legacySHA256Prefix +:+ sha256_hex secret) (secretHashPrefix +:+ ":")) with false.
    rewrite HasPrefix_app. by rewrite String.eqb_refl.
Qed.

End Secrets.

(** ** API tokens *)

Section Tokens.
Context `{GoLib} `{AuthLib} `{SecretLib} `{!SecretLaws} {ip : Type} (cfg : config ip).

Lemma uint_no_underscore d : "_"%char ∉ bytes_of (NilEmpty.string_of_uint d).
Proof. unfold bytes_of. induction d; cbn; [by apply not_elem_of_nil|..]; apply not_elem_of_cons; split; done. Qed.

Lemma uint_text n : NilEmpty.string_of_uint (N.to_uint n) ≠ EmptyString.
Proof. destruct n as [|p]; [done|]. cbn [N.to_uint]. pose proof (DecimalPos.Unsigned.to_uint_nonnil p) as Hp. by destruct (Pos.to_uint p). Qed.

(** The first identifier drawn is a number after the prefix. *)
Lemma drawn_token_id s : alloc_ok s apiTokensResource "AT" 2600001 ->
  exists s' rest, next_id s apiTokensResource "AT" = (s', ("AT" +:+ rest)) /\ Get s apiTokensResource ("AT" +:+ rest) = None /\ st_data s' = st_data s /\
    rest ≠ EmptyString /\ ("_"%char ∉ bytes_of rest) /\ TrimSpace ("AT" +:+ rest) = ("AT" +:+ rest).
Proof.
  intros Ha. destruct (NextID_alloc s apiTokensResource "AT" 2600001 0 Ha) as (n & id & s' & E & -> & Hg & Hd & _ & _ & Hn & _).
  assert (TrimSpace (format_id "AT" 0 n) = format_id "AT" 0 n) as Ht by (apply TrimSpace_fix, Trimmed_graphic, format_id_graphic; by repeat constructor).
  change (format_id "AT" 0 n) with ("AT" +:+ fmt_int 0 n) in *. exists s', (fmt_int 0 n). unfold next_id. rewrite E. do 3 (split; [done|]).
  assert (fmt_int 0 n = NilEmpty.string_of_uint (N.to_uint (Z.to_N n))) as Ef by (unfold fmt_int; by rewrite (proj2 (Z.leb_le 0 n) Hn)).
  rewrite Ef in *. split; [apply uint_text|]. split; [apply uint_no_underscore|exact Ht].
Qed.

Lemma tokenExpired_until now data text until : data !! "expires_at" = Some (VString text) -> parse_rfc3339 text = Some until -> now <= until -> tokenExpired now data = false.
Proof. intros Hd Hp Hn. unfold tokenExpired, mget. rewrite Hd. change (asString (default VNil (Some (VString text)))) with text. cbn zeta. destruct (str_empty text); [done|]. rewrite Hp. by apply Z.ltb_ge. Qed.

(** C20: an API token works until it expires.  Creating one succeeds, and the text handed out
    authorises its user at the platform, under the identifier of the token, at any time up
    to the expiry, unless it was put on the denylist. *)
Theorem created_token_works r uid name ttl until s user :
  alloc_ok s apiTokensResource "AT" 2600001 -> TrimSpace (iq_hex r 1) ≠ EmptyString -> 0 < ttl ->
  parse_rfc3339 (format_rfc3339 (iq_now r + ttl)) = Some until ->
  Get s usersResource uid = Some user -> authActiveUser (rec_Data user) = true -> remoteIdentityAuthEnabled cfg = false ->
  exists s' token raw, CreateAPIToken r uid name ttl s = (s', Some (token, raw)) /\
    forall q now rv, now <= until -> (IsRevoked rv "api_token" (at_ID token) now).2 = Some false ->
    (authorizeAPIToken cfg now q raw (AuthState s' rv)).2 = Some (with_token_id (applyAuthHeaders q (rec_Data user)) (at_ID token)).
Proof.
  intros Ha Hx Ht Hp Hu Hact Hrem. destruct (drawn_token_id s Ha) as (s1 & rest & En & Hg & Hd & Hne & Hus & Htr).
  unfold CreateAPIToken. destruct (Z.leb_spec ttl 0) as [|_]; [lia|]. cbn [token_attempts]. rewrite En. cbn [Nat.ltb Nat.leb Nat.mul Nat.add].
  set (id := "AT" +:+ rest) in *. set (raw := FormatUserAPIToken id (iq_hex r 1)). set (d := api_token_row r 0 id uid name raw ttl).
  assert (create_id d (sq_newid (iq_service r) 0) = id) as Hid by reflexivity.
  destruct (Create s1 apiTokensResource d (sq_newid (iq_service r) 0) (iq_now r)) as [s2 [rc|e]] eqn:Ec.
  2: { apply Create_err in Ec as (_ & [x Hs] & _). rewrite Hid in Hs. unfold Get, bucket in *. rewrite Hd in Hs. congruence. }
  apply Create_ok in Ec as (_ & Hri & _ & _ & _ & Hk & Hgs). rewrite Hid in *. exists s2, (apiTokenFromRecord rc), raw. split; [done|].
  intros q now rv Hn Hrv. assert (at_ID (apiTokenFromRecord rc) = id) as Hat by (cbn; by rewrite Hri). rewrite Hat in *.
  unfold authorizeAPIToken. rewrite Hrem. unfold raw at 1, id at 1. rewrite api_token_roundtrip by done. cbn [as_Store]. rewrite Hgs, decide_True by done.
  assert (forall k, k ≠ "id" -> mget (rec_Data rc) k = mget d k) as Hm by (intros k Hk'; unfold mget; by rewrite (Hk k Hk')).
  rewrite (Hm "revoked"), (Hm "token_hash") by done. change (authBool (mget d "revoked")) with false.
  rewrite (tokenExpired_until now (rec_Data rc) (format_rfc3339 (iq_now r + ttl)) until) by (try done; rewrite (Hk "expires_at") by done; reflexivity). cbn [orb].
  change (asString (mget d "token_hash")) with (HashSecret (iq_salt r 0) raw). rewrite VerifySecret_HashSecret. cbn [negb].
  unfold tokenRevoked. rewrite Hri. cbn [as_Revocations]. destruct (IsRevoked rv "api_token" id now) as [rv' answer]. cbn [snd] in Hrv. subst answer.
  unfold active_user. rewrite (Hm "user_id") by done. change (asString (mget d "user_id")) with uid. cbn [as_Store]. rewrite Hgs, decide_False by (by intros [? _]).
  assert (Get s1 usersResource uid = Some user) as -> by (unfold Get, bucket in *; by rewrite Hd). by rewrite Hact.
Qed.

End Tokens.

(** ** Two checks of a session *)

Section Agreement.
Context `{GoLib} `{AuthLib} `{SecretLib} `{OidcLib} {ip : Type} `{NetLib ip} {D : Type} `{ldapDirectory D} (cfg : config ip).

(** Text, or nothing, as the service writes these fields. *)
Definition text_field (data : object) (key : string) : Prop := match mget data key with VString _ | VNil => True | _ => False end.

Lemma text_field_same data key : text_field data key -> textValue data key = asString (mget data key).
Proof. unfold text_field, textValue, asString. by destruct (mget data key). Qed.

Definition text_records (s : store) : Prop :=
  (forall id rc, Get s sessionsResource id = Some rc -> text_field (rec_Data rc) "user_id" /\ text_field (rec_Data rc) "expires_at") /\
  (forall id rc, Get s usersResource id = Some rc -> text_field (rec_Data rc) "status" /\ str_empty (TrimSpace id) = false).

Lemma expired_same data now : text_field data "expires_at" -> expiredAt data now = tokenExpired now data.
Proof. intros Ht. unfold expiredAt, tokenExpired. by rewrite (text_field_same _ _ Ht). Qed.

Lemma active_same data : text_field data "status" -> activeUser data = authActiveUser data.
Proof.
  intros Ht. unfold activeUser, authActiveUser. rewrite (text_field_same _ _ Ht). cbn zeta. set (t := ToLower _). unfold str_empty.
  destruct (String.eqb_spec t ""), (String.eqb_spec t "online"), (String.eqb_spec t "offline"); cbn [orb]; symmetry;
    first [apply bool_decide_eq_true|apply bool_decide_eq_false]; rewrite !elem_of_cons, elem_of_nil; intuition.
Qed.

Lemma clone_field rc key : key ≠ "id" -> mget (rec_Data (cloneIdentityRecord rc)) key = mget (rec_Data rc) key.
Proof. intros Hk. unfold mget. by rewrite clone_lookup. Qed.

(** C19: the platform's check of a session token against the shared store and the contract
    the identity service offers to the other services give the same verdict, for the same
    user, as long as the records hold text and the denylist answers. *)
Theorem session_checks_agree (cfg' : config ip) r q (st : identity_state D) :
  let token := internalAuthToken r in
  str_empty token = false -> acceptsServiceIdentity cfg = true -> serviceRequestAuthorizedForAudience cfg (sq_http (iq_service r)) serviceName = true ->
  remoteIdentityAuthEnabled cfg' = false -> text_records (is_store st) -> (IsRevoked (is_Revocations st) "session" token (iq_now r)).2 ≠ None ->
  match (authorizeSessionToken cfg' (iq_now r) q token (AuthState (is_store st) (is_Revocations st))).2, (run (dispatch cfg IAuthSession r) st).2 with
  | Some q', Some rp => exists id user, Get (is_store st) usersResource id = Some user /\ q' = applyAuthHeaders q (rec_Data user) /\
      rp = Reply StatusOK (BMap {[ "user" := VMap (internalAuthUser (rec_Data (cloneIdentityRecord user))) ]}) []
  | None, Some rp => rp_Status rp = StatusUnauthorized
  | _, None => False
  end.
Proof.
  intros token He Ha Hs Hr [Htk Htu] Hrv. cbn [dispatch]. unfold internalAuthorizeSession, authorize_service, authorizeSessionToken. cbn zeta. fold token.
  rewrite Ha, Hr, He. cbn [negb]. unfold run, replying, demand, stm_bind. rewrite Hs. cbn [stm_ret asks as_Store]. unfold FindValidSession.
  destruct (Get (is_store st) sessionsResource token) as [session|] eqn:Eg; [|reflexivity]. destruct (Htk _ _ Eg) as [Huid Hexp].
  rewrite (expired_same _ _ Hexp). change (boolValue (rec_Data session) "revoked") with (authBool (mget (rec_Data session) "revoked")).
  destruct (tokenExpired _ _ || authBool _); [reflexivity|]. unfold tokenRevoked, internalCredentialRevoked. rewrite He. unfold on_revocations. cbn beta iota. cbn [as_Revocations as_Store].
  destruct (IsRevoked (is_Revocations st) "session" token (iq_now r)) as [rv [revoked|]]; [|done]. unfold default. destruct revoked; [reflexivity|]. change (negb (id false)) with true. unfold stm_ret, asks. cbn beta iota. change (is_store (IdentityState (is_app st) rv (is_dir st))) with (is_store st).
  unfold active_user, FindActiveUserByID, GetUser. cbn [as_Store se_UserID sessionFromRecord]. rewrite (text_field_same _ _ Huid). set (uid := asString _).
  destruct (Get (is_store st) usersResource uid) as [user|] eqn:Eu; [|destruct (str_empty (TrimSpace uid)); reflexivity].
  destruct (Htu _ _ Eu) as [Hst Hne]. rewrite Hne. cbn [fmap option_fmap option_map mbind option_bind]. unfold userFromRecord.
  assert (activeUser (rec_Data (cloneIdentityRecord user)) = authActiveUser (rec_Data user)) as ->.
  { rewrite active_same; [|unfold text_field; by rewrite clone_field]. unfold authActiveUser. by rewrite clone_field. }
  destruct (authActiveUser _); [|reflexivity]. by exists uid, user.
Qed.

End Agreement.

(** ** Registration *)

Section Registration.
Context `{GoLib} `{AuthLib} `{SecretLib} `{!SecretLaws} `{OidcLib} {ip : Type} `{NetLib ip} {D : Type} `{ldapDirectory D} (cfg : config ip).

Lemma find_unique {A} (f : A -> bool) l x : x ∈ l -> f x = true -> (forall y, y ∈ l -> f y = true -> y = x) -> List.find f l = Some x.
Proof.
  intros Hx Hf Hu. induction l as [|y l IH]; [by apply not_elem_of_nil in Hx|]. cbn [List.find]. destruct (f y) eqn:Ey; [rewrite (Hu y); [done|left|done]|].
  apply elem_of_cons in Hx as [->|Hx]; [congruence|]. apply IH; [done|]. intros z Hz. apply Hu. by right.
Qed.

(** The one user of that name is the one found. *)
Lemma found_user s s' id rc username : str_empty username = false -> FindUserByUsername s username = None ->
  (forall id', Get s' usersResource id' = if decide (id = id') then Some rc else Get s usersResource id') ->
  EqualFold (textValue (rec_Data rc) "username") (TrimSpace username) = true -> str_empty (TrimSpace username) = false ->
  FindUserByUsername s' username = Some (cloneIdentityRecord rc).
Proof.
  intros _ Hn Hg Hf He. unfold FindUserByUsername in *. cbn zeta in *. rewrite He in *. set (f := fun rc : record => _) in *.
  assert (List.find f (List_ s usersResource) = None) as Hno by (by destruct (List.find f _)).
  rewrite (find_unique f _ rc); [done| |done|].
  - apply elem_of_List. exists id. by rewrite Hg, decide_True.
  - intros y [id' Hy]%elem_of_List Hfy. rewrite Hg in Hy. case_decide; [congruence|].
    assert (f y = false) by (eapply find_none; [exact Hno|]; apply list_elem_of_In, elem_of_List; eauto). congruence.
Qed.

Lemma bind_answer {A} (c : idm (D := D) A) (k : A -> idm reply) st rp : (run (stm_bind c k) st).2 = Some rp -> rp_Status rp = StatusOK ->
  (exists st1 x, c st = (st1, Ok x) /\ run (stm_bind c k) st = run (k x) st1) \/ (exists st1 e, c st = (st1, Err (Replies e)) /\ rp_Status e = StatusOK).
Proof.
  unfold run, replying, stm_bind. destruct (c st) as [st1 [x|[e|]]]; [by left; exists st1, x|cbn; intros [= <-] Hs; right; by exists st1, e|done].
Qed.

Lemma demand_answer b status text (k : unit -> idm (D := D) reply) st rp : status ≠ StatusOK ->
  (run (stm_bind (demand b status text) k) st).2 = Some rp -> rp_Status rp = StatusOK -> b = true /\ run (stm_bind (demand b status text) k) st = run (k tt) st.
Proof.
  intros Hne Hr Hs. destruct (bind_answer _ _ _ _ Hr Hs) as [(st1 & [] & E & Hx)|(st1 & e & E & Hx)]; destruct b; try discriminate E.
  - injection E as <-. split; [done|exact Hx].
  - injection E as <- <-. by cbn in Hx.
Qed.

Lemma run_bind_ok {A} (c : idm (D := D) A) (k : A -> idm reply) st st1 x : c st = (st1, Ok x) -> run (stm_bind c k) st = run (k x) st1.
Proof. intros E. unfold run, replying. by rewrite (bind_ok _ _ _ _ _ E). Qed.

Lemma next_id_keeps s res prefix : st_data (next_id s res prefix).1 = st_data s.
Proof. unfold next_id. destruct (NextID _ _ _ _ _) as [[x s']|] eqn:E; [|done]. by apply NextID_data in E. Qed.

(** A successful registration adds one record. *)
Lemma register_runs r payload rp (st : identity_state D) :
  cf_LDAPEnabled cfg = false -> sq_body (iq_service r) = Ok payload -> (run (register cfg r 0) st).2 = Some rp -> rp_Status rp = StatusOK ->
  str_empty (login_name r) = false /\ FindUserByUsername (is_store st) (login_name r) = None /\
  exists id rc email fullName drawn, (forall k, k ≠ "id" -> rec_Data rc !! k = new_user drawn (login_name r) email fullName (HashSecret (iq_salt r 0) (textValue payload "password")) !! k) /\
    forall id', Get (is_store (run (register cfg r 0) st).1) usersResource id' = if decide (id = id') then Some rc else Get (is_store st) usersResource id'.
Proof.
  intros Hl Eb. unfold register, decode. rewrite Eb. cbn zeta. rewrite (run_bind_ok (stm_ret payload) _ st st payload eq_refl). rewrite (login_name_payload r payload Eb).
  intros Hr Hs.
  destruct (demand_answer _ StatusBadRequest _ _ _ _ ltac:(done) Hr Hs) as [Hlen E]. rewrite E in *. clear E.
  destruct (demand_answer _ StatusBadRequest _ _ _ _ ltac:(done) Hr Hs) as [_ E]. rewrite E in *. clear E.
  destruct (demand_answer _ StatusBadRequest _ _ _ _ ltac:(done) Hr Hs) as [_ E]. rewrite E in *. clear E.
  rewrite (run_bind_ok (asks _) _ st st _ eq_refl) in *.
  destruct (demand_answer _ StatusConflict _ _ _ _ ltac:(done) Hr Hs) as [Hfree E]. rewrite E in *. clear E.
  assert (str_empty (login_name r) = false) as He by (by destruct (login_name r)).
  assert (FindUserByUsername (is_store st) (login_name r) = None) as Hn by (by destruct (FindUserByUsername _ _)). do 2 (split; [done|]).
  pose proof (next_id_keeps (is_store st) usersResource "US") as Hd. destruct (NextUserID (is_store st)) as [s1 id] eqn:En. unfold NextUserID in En. rewrite En in Hd. cbn [fst] in Hd.
  rewrite (run_bind_ok _ _ _ _ _ (changes_eq NextUserID st s1 id En)) in *. set (hash := HashSecret _ _) in *. set (email := TrimSpace _) in *. set (full := TrimSpace (FirstNonEmpty _)) in *.
  unfold createUserWithLDAP, sync_user in *. rewrite Hl in *.
  destruct (bind_answer _ _ _ _ Hr Hs) as [(st1 & rc & E & Hx)|(st1 & e & E & Hx)].
  2: { exfalso. rewrite (bind_ok (stm_ret (Ok None)) _ _ _ _ eq_refl) in E. unfold stm_bind, on_app in E. destruct (CreateUserWithEvent _ _ _ _ _) as [a' [rc|[]]]; cbn in E; try done; by injection E as <- <-. }
  rewrite Hx, run_state. rewrite (bind_ok (stm_ret (Ok None)) _ _ _ _ eq_refl) in E. cbn [say stm_ret fst].
  unfold stm_bind, on_app in E. destruct (CreateUserWithEvent _ _ _ _ _) as [a' [rc'|[]]] eqn:Ec; cbn in E; try discriminate E. injection E as <- _.
  change (is_store (with_app _ a')) with (app_Store a'). unfold CreateUserWithEvent in Ec.
  match type of Ec with context [CreateRecordWithEvent ?a ?res ?u ?b ?i ?n] => pose proof (CreateRecordWithEvent_store a res u b i n) as Hst; unfold CreateRecordWithEvent in Ec, Hst end.
  change (app_Store (is_app (with_store st s1))) with s1 in *. set (u := new_user _ _ _ _ _) in *.
  destruct (Create s1 usersResource u (sq_newid (iq_service r) 0) (iq_now r)) as [s2 [rc0|e0]] eqn:Ek; cbn [fst snd] in *; [|discriminate Ec].
  assert (app_Store a' = s2) as -> by (destruct (publish_event _ _); injection Ec as <- _; exact Hst).
  apply Create_ok in Ek as (_ & _ & _ & _ & _ & Hk & Hg). 
  set (cid := create_id u (sq_newid (iq_service r) 0)) in *. exists cid, rc0, email, full, id. split; [exact Hk|].
  intros id'. rewrite Hg. unfold Get, bucket. rewrite Hd. destruct (decide (cid = id')) as [->|Hne]; [by rewrite decide_True|]. by rewrite decide_False by (by intros [_ ?]).
Qed.

(** C21: who registered can log in.  After a registration that was answered with success, the
    user name and the password of the request authenticate a user of that name, and it is
    not an administrator (the directory is switched off). *)
Theorem registered_can_log_in r payload rp (st : identity_state D) :
  cf_LDAPEnabled cfg = false -> sq_body (iq_service r) = Ok payload ->
  (run (dispatch cfg IRegister r) st).2 = Some rp -> rp_Status rp = StatusOK ->
  exists user, authenticate cfg (run (dispatch cfg IRegister r) st).1 (login_name r) (textValue payload "password") = Some user /\
    textValue user "username" = login_name r /\ isAdminUser user = false.
Proof.
  intros Hl Eb. cbn [dispatch]. intros Hr Hs. destruct (register_runs r payload rp st Hl Eb Hr Hs) as (He & Hn & id & rc & email & full & drawn & Hk & Hg).
  set (st' := (run (register cfg r 0) st).1) in *. set (u := new_user _ _ _ _ _) in Hk.
  assert (forall k, k ≠ "id" -> mget (rec_Data (cloneIdentityRecord rc)) k = mget u k) as Hm by (intros k Hi; rewrite clone_field by done; unfold mget; by rewrite Hk).
  assert (TrimSpace (login_name r) = login_name r) as Ht by (rewrite <- (login_name_payload r payload Eb); apply TrimSpace_idem).
  exists (rec_Data (cloneIdentityRecord rc)). unfold authenticate, directory_user. rewrite Hl. unfold FindActiveUserByUsername.
  rewrite (found_user (is_store st) (is_store st') id rc (login_name r) He Hn Hg); [| |by rewrite Ht].
  2: { unfold textValue, mget. rewrite (Hk "username") by done. cbn. rewrite Ht. apply EqualFold_refl. }
  assert (forall k, k ≠ "id" -> textValue (rec_Data (cloneIdentityRecord rc)) k = textValue u k) as Hx by (intros k Hi; unfold textValue; by rewrite Hm).
  assert (activeUser (rec_Data (cloneIdentityRecord rc)) = true) as Hact by (unfold activeUser; rewrite Hx by done; reflexivity).
  unfold userFromRecord. cbn zeta. cbn [mbind option_bind]. rewrite Hact. cbn [negb mbind option_bind iu_Data]. unfold passwordMatches. rewrite (Hx "password_hash"), (Hx "username") by done.
  change (textValue u "password_hash") with (HashSecret (iq_salt r 0) (textValue payload "password")). rewrite VerifySecret_HashSecret. do 2 (split; [reflexivity|]).
  rewrite (isAdminUser_standing _ u); [done|]. intros k Hin. pose proof (standing_ne k "id" eq_refl Hin) as Hne. by rewrite clone_lookup, Hk.
Qed.

End Registration.
