(* ===== verification/IdentityExamples.v ===== *)
(** * Identity service: a small deployment

    Concrete encodings for which the laws of the secrets hold, an administrator and a
    user, and the requests the theorems about the service are applied to; then behaviours
    worth knowing of. *)

From stdpp Require Import base gmap strings list fin_maps.
From Stdlib Require Import ZArith Lia Ascii.
From S2P Require Import Prelude GoValue Store EventBus Crud Tx RateLimit InputLimits Config Auth Guards SchedulerHttp ServiceHttp Tables IdentityRepository IdentityAuth IdentityUsers IdentityService IdentitySecurity IdentityTokens.
Local Open Scope Z_scope.
Local Open Scope go_scope.

(** ** Encodings *)

Definition hex_digit (n : nat) : ascii := ascii_of_nat (if (n <? 10)%nat then 48 + n else 87 + n).
Definition hex_value (c : ascii) : option nat :=
  let n := nat_of_ascii c in
  if (48 <=? n)%nat && (n <=? 57)%nat then Some (n - 48)%nat else if (97 <=? n)%nat && (n <=? 102)%nat then Some (n - 87)%nat else None.
Definition hex_byte (c : ascii) : list ascii := let n := nat_of_ascii c in [hex_digit (n / 16); hex_digit (n mod 16)].
Definition hex_encode (s : string) : string := of_bytes (flat_map hex_byte (bytes_of s)).
Fixpoint unhex (l : list ascii) : option (list ascii) :=
  match l with
  | [] => Some []
  | a :: b :: l => x ← hex_value a; y ← hex_value b; rest ← unhex l; Some (ascii_of_nat (16 * x + y) :: rest)
  | _ => None
  end.
Definition hex_decode (s : string) : option string := of_bytes <$> unhex (bytes_of s).

Lemma unhex_byte c l : unhex (hex_byte c ++ l) = rest ← unhex l; Some (c :: rest).
Proof. destruct c as [[] [] [] [] [] [] [] []]; cbn; by destruct (unhex l). Qed.
Lemma unhex_bytes l : unhex (flat_map hex_byte l) = Some l.
Proof. induction l as [|c l IH]; [done|]. cbn [flat_map]. by rewrite unhex_byte, IH. Qed.
Lemma hex_byte_plain c : Forall (fun d => d ≠ colon) (hex_byte c).
Proof. destruct c as [[] [] [] [] [] [] [] []]; repeat constructor; discriminate. Qed.

(** Time as its number, and a derived key of the right size. *)
Definition id_lib : GoLib := {|
  parse_quantity _ := None; parse_float _ := None; parse_int64 _ := None; parse_rfc3339 := sscanf_d;
  format_rfc3339 := fmt_int 0; time_string _ := ""; unmarshal_object _ := None;
  unmarshal_objects _ := None; unmarshal_strings _ := None; marshal _ := None; sprint _ := "";
  sprintf f _ := f; sha256_hex s := s |}.
Definition derive (secret salt : string) : string := of_bytes (take 32 (bytes_of secret ++ bytes_of salt ++ replicate 32 "0"%char)).
Definition id_auth : AuthLib := {|
  pbkdf2_key secret salt iterations size := Some (derive secret salt);
  hex_DecodeString := hex_decode; secret_Atoi := sscanf_d; hmac_base64 _ _ := ""; base64_Encode x := x; base64_Decode x := Some x;
  marshal_claims _ := ""; unmarshal_claims _ := None; verify_id_token _ := None; remote_identity _ _ := None |}.
Definition id_secret : SecretLib := {| hex_EncodeToString := hex_encode |}.
Definition id_oidc : OidcLib := {| exchange_code _ := None; decode_numbers _ := None |}.
Definition id_net : NetLib nat := {| ParseIP _ := None; ip_String _ := ""; SplitHostPort _ := None; Atoi_ok _ := false |}.
Definition id_directory : ldapDirectory unit := {|
  Authenticate _ _ _ := None; UpsertUser d _ _ _ := (d, None); RestoreUpsert d _ := d; Directory_DeleteUser d _ := (d, false);
  RestoreDeletedUser d _ := d; ListUsernames _ := None |}.
#[local] Existing Instances id_lib id_auth id_secret id_oidc id_net id_directory.

#[local] Instance id_laws : SecretLaws.
Proof.
  split.
  - intros x. cbn. unfold hex_decode, hex_encode. rewrite bytes_of_of, unhex_bytes. cbn. by rewrite of_bytes_of.
  - intros x. cbn. unfold hex_encode. rewrite bytes_of_of. intros Hin. apply list_elem_of_In, in_flat_map in Hin as (c & _ & Hc).
    pose proof (hex_byte_plain c) as Hp. rewrite Forall_forall in Hp. by apply (Hp colon); [apply list_elem_of_In|].
  - intros secret salt d [= <-]. unfold derive. rewrite <- (of_bytes_of (of_bytes _)). 
    assert (forall l, String.length (of_bytes l) = length l) as Hlen by (intros l; unfold of_bytes; induction l; cbn; congruence).
    rewrite bytes_of_of, Hlen. rewrite length_take, !length_app, length_replicate. lia.
  - reflexivity.
Qed.

(** ** The deployment *)

Definition id_config : config nat := @ConfigFromEnv nat demo_env_lib {[ "SERVICE_NAME" := "identity-service"; envServiceAPIKey := "s3cret" ]}.
Definition id_user (id name password role : string) (level : Z) : object :=
  {[ "id" := VString id; "username" := VString name; "password_hash" := VString (HashSecret (Some "salt") password); "status" := VString "offline";
     "role" := VString role; "system_role" := VInt level ]}.
Definition id_row (s : store) (x : string * object) : store := (Create s x.1 x.2 "n" 1).1.
Definition id_rows : list (string * object) :=
  [ (usersResource, id_user "U1" "root" "toor" "admin" 0); (usersResource, id_user "U2" "alice" "wonder" "user" 2);
    (usersResource, <["status" := VString "disabled"]> (id_user "U3" "mallory" "malice" "user" 2));
    (sessionsResource, {[ "id" := VString "access.U3.m"; "user_id" := VString "U3"; "expires_at" := VString "9000000000000000" ]}) ].
Definition id_state : identity_state unit := IdentityState (App_ (foldl id_row NewStore id_rows) NewEventBus) NoRevocations tt.

(** A request with a caller, headers, cookies, path, body, the digits it draws and its clock. *)
Definition id_request (user : string) (headers cookies path query : gmap string string) (payload : object) (hex : string) (now : Z) : identity_request :=
  IdentityRequest (ServiceRequest (Request "POST" (<["X-User-ID" := user]> headers) cookies query "10.0.0.1" 0 None None None) (Ok payload) path now (fun _ => "e") (fun _ => "n"))
    "" "" ∅ true (fun _ => hex) (fun _ => Some "salt") ("7", "").
Definition by_user (user : string) (path : gmap string string) (payload : object) : identity_request := id_request user ∅ ∅ path ∅ payload "bb" 10.
Definition id_login (name password : string) (hex : string) (now : Z) : identity_request :=
  id_request "" ∅ ∅ ∅ ∅ {[ "username" := VString name; "password" := VString password ]} hex now.

Definition id_run (rt : identity_route) (r : identity_request) (st : identity_state unit) : identity_state unit * option reply := run (dispatch id_config rt r) st.
Definition id_after (rt : identity_route) (r : identity_request) (st : identity_state unit) : identity_state unit := (id_run rt r st).1.
Definition id_status (rt : identity_route) (r : identity_request) (st : identity_state unit) : Z := match (id_run rt r st).2 with Some rp => rp_Status rp | None => 0 end.

Lemma filed_id_state : filed (is_store id_state).
Proof. unfold id_state, id_rows. unfold is_store. cbn [is_app app_Store foldl]. unfold id_row. do 4 apply filed_Create. intros res id rc. discriminate. Qed.

(** ** The theorems at work *)

Lemma not_administrator s id : match Get s usersResource id with Some rc => isAdminUser (rec_Data rc) | None => false end = false -> ~ administrator s id.
Proof. intros Hb (rc & Hg & Ha). rewrite Hg in Hb. congruence. Qed.

(** Alice asks to be an administrator, in every way there is. *)
Definition climbing : list (identity_route * identity_request) :=
  [ (IUpdateUser, by_user "U2" {[ "id" := "U2" ]} {[ "role" := VString "admin"; "system_role" := VInt 0; "email" := VString "a@b" ]});
    (IBatchRole, by_user "U2" ∅ {[ "ids" := VStrings ["U2"]; "role" := VString "admin" ]});
    (IRegister, by_user "U2" ∅ {[ "username" := VString "eve"; "password" := VString "evelyn"; "role" := VString "admin" ]});
    (IGeneric GPatchUser, by_user "U2" {[ "id" := "U2" ]} {[ "system_role" := VInt 0 ]});
    (IGeneric GPatchSettings, by_user "U2" {[ "id" := "U2" ]} {[ "system_role" := VInt 0 ]}) ].

(** What is left are the administrators there were. *)
Definition id_guarded : config nat := @ConfigFromEnv nat demo_env_lib {[ "SERVICE_NAME" := "identity-service"; envServiceAPIKey := "s3cret"; envRequireAuth := "true" ]}.
Definition id_climbed : identity_state unit := serve_all id_guarded climbing id_state.
Definition id_root : record := default (Record_ "" ∅ 0 0 0) (Get (is_store id_climbed) usersResource "U1").
Lemma admins_appointed_witness : administrator (is_store id_climbed) "U1" /\ administrator (is_store id_state) "U1".
Proof.
  assert (administrator (is_store id_climbed) "U1") as Hr by (exists id_root; split; vm_compute; reflexivity). split; [exact Hr|].
  apply (admins_appointed id_guarded climbing id_state); [vm_compute; reflexivity|exact filed_id_state| |exact Hr].
  repeat apply Forall_cons_2; [..|constructor]; (split; [apply not_administrator; vm_compute; reflexivity|vm_compute; reflexivity]).
Defined.

Definition id_session : identity_state unit := id_after ILogin (id_login "alice" "wonder" "aa" 10) id_state.
Lemma filed_id_session : filed (is_store id_session).
Proof. apply run_filed, filed_id_state. Qed.

Definition id_leaving : identity_request := id_request "U2" ∅ {[ "token" := "access.U2.aa" ]} ∅ ∅ ∅ "cc" 20.
Definition id_asking (token : string) : identity_request := id_request "" {[ serviceKeyHeader := "s3cret" ]} ∅ ∅ ∅ {[ "token" := VString token ]} "cc" 30.

(** A token that ends in other digits is not drawn. *)
Lemma draws_no_session r x token : (forall i, iq_hex r i = x) -> strip_prefix (rev (bytes_of x)) (rev (bytes_of token)) = None -> ~ draws_session r token.
Proof.
  intros Hx Hs (uid & i & ->). unfold access_token in Hs. rewrite Hx in Hs. rewrite !bytes_of_app, !rev_app_distr, <- !app_assoc, strip_prefix_app in Hs. done.
Qed.
Lemma draws_no_refresh r x token : (forall i, iq_hex r i = x) -> strip_prefix (rev (bytes_of x)) (rev (bytes_of token)) = None -> ~ draws_refresh r token.
Proof.
  intros Hx Hs (i & ->). unfold refresh_token in Hs. rewrite Hx in Hs. rewrite !bytes_of_app, !rev_app_distr, strip_prefix_app in Hs. done.
Qed.

Lemma logout_final_witness :
  exists rp, id_run IAuthSession (id_asking "access.U2.aa") (serve_all id_config [(ILogin, id_login "alice" "wonder" "bb" 25)] (id_after ILogout id_leaving id_session)) =
    (serve_all id_config [(ILogin, id_login "alice" "wonder" "bb" 25)] (id_after ILogout id_leaving id_session), Some rp) /\ 400 <= rp_Status rp.
Proof.
  destruct (logout_final id_config id_leaving [(ILogin, id_login "alice" "wonder" "bb" 25)] id_session) as [_ Hc].
  - exact filed_id_session.
  - vm_compute. reflexivity.
  - repeat constructor. apply (draws_no_session _ "bb"); [reflexivity|vm_compute; reflexivity].
  - apply Hc. vm_compute. reflexivity.
Defined.

(** Alice exchanges her refresh token, logs in again and presents the old token once more. *)
Definition id_exchange (hex : string) (now : Z) : identity_request := id_request "" ∅ {[ "refresh_token" := "refresh.aa" ]} ∅ ∅ ∅ hex now.
Definition id_exchanged : reply := default (Reply 0 BNil []) (id_run IRefresh (id_exchange "bb" 20) id_session).2.

Definition id_again : identity_state unit := serve_all id_config [(ILogin, id_login "alice" "wonder" "cc" 25)] (run (dispatch id_config IRefresh (id_exchange "bb" 20)) id_session).1.
Lemma refresh_once_witness : id_run IRefresh (id_exchange "dd" 30) id_again = (id_again, Some (Reply StatusUnauthorized (message "Invalid refresh token") [])).
Proof.
  unfold id_run, id_again. apply (refresh_once id_config (id_exchange "bb" 20) id_exchanged [(ILogin, id_login "alice" "wonder" "cc" 25)] (id_exchange "dd" 30) id_session).
  - exact filed_id_session.
  - vm_compute. reflexivity.
  - vm_compute. reflexivity.
  - repeat constructor; [apply (draws_no_refresh _ "bb")|apply (draws_no_refresh _ "cc")]; try reflexivity; vm_compute; reflexivity.
  - vm_compute. reflexivity.
Defined.

(** Six wrong passwords. *)
Definition id_guess (now : Z) : identity_request := id_login "alice" "guess" "aa" now.
Definition id_five : list (identity_route * identity_request) := map (fun now => (ICLILogin, id_guess now)) [1; 2; 3; 4; 5].
Definition id_guessed : identity_state unit := serve_all id_config id_five id_state.
Definition id_failures : record := default (Record_ "" ∅ 0 0 0) (Get (is_store id_guessed) loginFailuresResource (login_id id_config (id_guess 6))).

Definition id_locked : identity_state unit := serve_all id_config [(ICaptcha, id_guess 7)] (run (dispatch id_config ICLILogin (id_guess 6)) id_guessed).1.
Lemma lockout_witness :
  exists st2 rp, id_run ILogin (id_login "alice" "wonder" "bb" 8) id_locked = (st2, Some rp) /\ is_store st2 = is_store id_locked /\
    (rp_Status rp = StatusBadRequest \/ rp_Status rp = StatusUnauthorized).
Proof.
  unfold id_run, id_locked. apply (lockout id_config ICLILogin (id_guess 6) {[ "username" := VString "alice"; "password" := VString "guess" ]} id_failures (6 + defaultLoginLockout)
           [(ICaptcha, id_guess 7)] ILogin (id_login "alice" "wonder" "bb" 8) id_guessed).
  - by right.
  - by left.
  - unfold id_guessed, id_five. cbn [map serve_all fold_left]. do 5 apply run_filed. exact filed_id_state.
  - reflexivity.
  - vm_compute. reflexivity.
  - vm_compute. reflexivity.
  - vm_compute. reflexivity.
  - vm_compute. discriminate.
  - vm_compute. reflexivity.
  - vm_compute. discriminate.
  - vm_compute. reflexivity.
  - repeat constructor; vm_compute; reflexivity.
  - vm_compute. reflexivity.
Defined.

Definition id_new_session : record := default (Record_ "" ∅ 0 0 0) (Get (is_store id_session) sessionsResource "access.U2.aa").
Lemma sessions_earned_witness : earns id_config id_state (id_login "alice" "wonder" "aa" 10) ILogin "U2".
Proof.
  apply (sessions_earned id_config ILogin (id_login "alice" "wonder" "aa" 10) id_state "U2" filed_id_state).
  exists "access.U2.aa", id_new_session. split; [vm_compute; reflexivity|]. split; vm_compute; reflexivity.
Defined.

Definition id_alice : record := default (Record_ "" ∅ 0 0 0) (Get (is_store id_state) usersResource "U2").
Definition id_ask : request := Request "GET" ∅ ∅ ∅ "10.0.0.1" 0 None None None.

Lemma created_token_works_witness : exists s' token raw, CreateAPIToken (id_guess 10) "U2" "laptop" defaultAPITokenTTL (is_store id_state) = (s', Some (token, raw)) /\
  (authorizeAPIToken id_config 20 id_ask raw (AuthState s' NoRevocations)).2 = Some (with_token_id (applyAuthHeaders id_ask (rec_Data id_alice)) (at_ID token)).
Proof.
  destruct (created_token_works id_config (id_guess 10) "U2" "laptop" defaultAPITokenTTL (10 + defaultAPITokenTTL) (is_store id_state) id_alice) as (s' & token & raw & E & Hw).
  - split; vm_compute; [discriminate|reflexivity].
  - vm_compute. discriminate.
  - reflexivity.
  - vm_compute. reflexivity.
  - vm_compute. reflexivity.
  - vm_compute. reflexivity.
  - vm_compute. reflexivity.
  - exists s', token, raw. split; [exact E|]. apply Hw; [vm_compute; discriminate|reflexivity].
Defined.

Lemma session_checks_agree_witness :
  match (authorizeSessionToken id_config 30 id_ask "access.U2.aa" (AuthState (is_store id_session) NoRevocations)).2, (id_run IAuthSession (id_asking "access.U2.aa") id_session).2 with
  | Some q', Some rp => exists id user, Get (is_store id_session) usersResource id = Some user /\ q' = applyAuthHeaders id_ask (rec_Data user) /\
      rp = Reply StatusOK (BMap {[ "user" := VMap (internalAuthUser (rec_Data (cloneIdentityRecord user))) ]}) []
  | None, Some rp => rp_Status rp = StatusUnauthorized
  | _, None => False
  end.
Proof.
  unfold id_after, id_run. apply (session_checks_agree id_config id_config (id_asking "access.U2.aa") id_ask id_session).
  - vm_compute. reflexivity.
  - vm_compute. reflexivity.
  - vm_compute. reflexivity.
  - vm_compute. reflexivity.
  - assert (map_Forall (fun _ rc => text_field (rec_Data rc) "user_id" /\ text_field (rec_Data rc) "expires_at") (bucket (is_store id_session) sessionsResource)) as Hs
      by (apply map_Forall_to_list; vm_compute; repeat constructor).
    assert (map_Forall (fun id rc => text_field (rec_Data rc) "status" /\ str_empty (TrimSpace id) = false) (bucket (is_store id_session) usersResource)) as Hu
      by (apply map_Forall_to_list; vm_compute; repeat constructor).
    split; intros id rc Hg; [exact (Hs id rc Hg)|exact (Hu id rc Hg)].
  - vm_compute. discriminate.
Defined.

Definition id_carol : object := {[ "username" := VString " carol "; "password" := VString "carol-1" ]}.
Definition id_register : identity_request := by_user "" ∅ id_carol.
Lemma registered_can_log_in_witness : exists user,
  authenticate id_config (id_after IRegister id_register id_state) (login_name id_register) (textValue id_carol "password") = Some user /\
  textValue user "username" = login_name id_register /\ isAdminUser user = false.
Proof.
  unfold id_after, id_run. apply (registered_can_log_in id_config id_register id_carol (Reply StatusOK BNil []) id_state).
  - vm_compute. reflexivity.
  - reflexivity.
  - vm_compute. reflexivity.
  - reflexivity.
Defined.

(** ** Behaviours worth knowing of *)

(** Logging out a session of a disabled user sets its status to offline, which counts as
    active: the account works again. *)
Example logout_enables_user :
  FindActiveUserByID (is_store id_state) "U3" = None /\
  is_Some (authenticate id_config (id_after ILogout (id_request "" ∅ {[ "token" := "access.U3.m" ]} ∅ ∅ ∅ "cc" 20) id_state) "mallory" "malice").
Proof. split; [vm_compute; reflexivity|]. apply (bool_decide_unpack _). vm_compute. exact I. Qed.

(** The handler lets a caller the platform authenticated, for whom the service has no account,
    change anybody's password; only the administrator guard in front of the route, where it is
    switched on, asks more. *)
Example stranger_changes_password :
  let stranger := by_user "nobody" {[ "id" := "U1" ]} {[ "password" := VString "taken" ]} in
  id_status IUpdateUser stranger id_state = StatusOK /\ is_Some (authenticate id_config (id_after IUpdateUser stranger id_state) "root" "taken").
Proof. split; [vm_compute; reflexivity|]. apply (bool_decide_unpack _). vm_compute. exact I. Qed.

(** Unlike a registration, an update does not look whether the user name is taken: once alice
    is called root, root with her password is she.  The handler lets a user rename himself; the
    administrator guard in front of the route, where it is switched on, leaves it to
    administrators. *)
Example renamed_to_root :
  let rename := by_user "U2" {[ "id" := "U2" ]} {[ "username" := VString "root" ]} in
  (fun user => textValue user "id") <$> authenticate id_config (id_after IUpdateUser rename id_state) "root" "wonder" = Some "U2".
Proof. vm_compute. reflexivity. Qed.

(** The start of a page far away overflows and the handler panics. *)
Example page_overflow :
  (id_run IListPaging (id_request "U1" ∅ ∅ ∅ {[ "page" := "4611686018427387905"; "limit" := "3" ]} ∅ "aa" 10) id_state).2 = None.
Proof. vm_compute. reflexivity. Qed.

(** An error of the denylist: the platform refuses in production, the contract accepts. *)
Example denylist_error_accepted :
  id_status IAuthSession (id_asking "access.U2.aa") (IdentityState (is_app id_session) (RedisRevocations (fun _ => None)) tt) = StatusOK.
Proof. vm_compute. reflexivity. Qed.

(** Two rows of the table have no handler, and the generic one does something else than the
    route says: the batch password reset creates a user record out of its body and leaves
    the passwords alone, and a PATCH of the settings writes a record that the routes for
    settings never read. *)
Definition id_admin_request (path : gmap string string) (payload : object) : identity_request :=
  IdentityRequest (ServiceRequest (Request "POST" {[ "X-User-ID" := "U1"; "X-Trace-ID" := "t" ]} ∅ ∅ "10.0.0.1" 0 None (Some (id_user "U1" "root" "toor" "admin" 0)) None)
    (Ok payload) path 10 (fun _ => "e") (fun _ => "n")) "" "" ∅ true (fun _ => "bb") (fun _ => Some "salt") ("7", "").
Example generic_password_reset_creates_user :
  let out := id_run (IGeneric GPasswordReset) (id_admin_request ∅ {[ "ids" := VStrings ["U2"]; "password" := VString "changed" ]}) id_state in
  (rp_Status <$> out.2) = Some 201 /\ is_Some (Get (is_store out.1) usersResource "n") /\
  Get (is_store out.1) usersResource "U2" = Get (is_store id_state) usersResource "U2".
Proof. vm_compute. split_and!; [reflexivity|eexists; reflexivity|reflexivity]. Qed.

Example generic_settings_unread :
  let out := id_run (IGeneric GPatchSettings) (id_admin_request {[ "id" := "U2" ]} {[ "theme" := VString "dark" ]}) id_state in
  (rp_Status <$> out.2) = Some 200 /\ is_Some (Get (is_store out.1) userSettingsResource "U2") /\
  Get (is_store out.1) usersResource "U2" = Get (is_store id_state) usersResource "U2".
Proof. vm_compute. split_and!; [reflexivity|eexists; reflexivity|reflexivity]. Qed.
